(* ===== verification/_CoqProject ===== *)
-Q . S2P
Prelude.v
Machine.v
Floats.v
External.v
Sorting.v
Demo.v
Commons.v
Rollover.v
Cfd.v
PayoutCurve.v
AppData.v
AppApply.v
SqlTypes.v
Schema.v
Db.v
OrdersDb.v
Signing.v
MatchesDb.v
Referrals.v
Trading.v
PositionsDb.v
FundingDb.v
Feed.v
Funding.v
CoordSettings.v
Messages.v
Wire.v
Sqlite.v
AppSql.v
AppDb.v
AppHandlers.v
AppFrames.v
AppHandled.v
Settlement.v
Resize.v
AppAgreement.v
ProtocolDb.v
ChannelsDb.v
StorageDb.v
Delivery.v
NodeStorage.v
DlcExecutor.v
Node.v
DemoDlc.v
DlcPeer.v
KvStore.v
DlcStore.v
DlcStoreSpec.v
CoordinatorNode.v
CoordinatorChannels.v
AppNode.v
Revert.v
AppBook.v
TradeExecutor.v
TradeInvoices.v
OrderEntry.v
AppFunding.v
Leaderboard.v
Backup.v
NodeRollover.v
Monitors.v
MaxQuantity.v
Wallet.v
PositionFeed.v
Admin.v
AppEmergency.v
