(* ===== verification/Prelude.v ===== *)
(** * 10101: a verification of the coordinator, the app and their trading library

    10101 lets traders hold leveraged bitcoin positions, inverse perpetuals settled
    in bitcoin, in DLC channels with a coordinator.  The coordinator
    ([src/coordinator]) keeps an order book, executes matched orders as changes of a
    channel, charges funding fees, rolls positions over every week, and keeps all of
    it in a Postgres database.  The app ([src/mobile/native]) submits orders, accepts
    what the coordinator proposes for its channel, and keeps its orders, position and
    trades in a SQLite database.  [src/crates/xxi-node] is the node library they
    share, [src/crates/payout_curve] computes what a contract pays.

    ** How the parts interact

    Orders come in signed over HTTP, or from makers over a websocket (Signing.v,
    OrderEntry.v).  A trader's market order is inserted, matched against the limit orders of the
    other side (Trading.v), and, when the trader is online, executed: from the
    trader's DLC channel and open position TradeExecutor.v decides whether to open a
    channel, open, close or resize a position.  It computes the margins and
    collaterals of the new contract (Cfd.v, Settlement.v, Resize.v) and its payout
    function (PayoutCurve.v), proposes the contract through the node library
    (Node.v), and records the DLC protocol it started (DlcExecutor.v).  The
    coordinator processes each answer of the trader's app once (CoordinatorNode.v);
    the one that ends the protocol closes, opens or resizes the row of the position
    and marks the funding fees it paid (DlcExecutor.v, PositionsDb.v, FundingDb.v), a
    rejection takes the position back.  It checks what the app offers for closing a
    channel, and follows the events of the channel with its own row of it
    (CoordinatorChannels.v, ChannelsDb.v).  A trade paid over Lightning settles or
    cancels its invoice (TradeInvoices.v).  Jobs generate the funding fees
    (Funding.v), roll positions over in the weekend (Rollover.v, NodeRollover.v) and close positions that expired or
    ran out of margin (Monitors.v).  What it charges, how long its windows are and
    whom it serves are settings an operator changes while it runs (CoordSettings.v);
    an operator also asks it for the traders who traded most (Leaderboard.v), watches
    its position over a websocket (PositionFeed.v), and repairs channels through
    routes that act on them directly (Admin.v).

    The app submits an order when its channel allows it (AppNode.v), and hears of the
    rest through messages (Messages.v), which cross the network whole or in segments
    (Wire.v).  It processes each message once, accepts or rejects the offer it
    carries, remembers its last answer for the case of a reconnect (AppNode.v), and
    when a protocol is finished applies the filled order to its position
    (AppHandlers.v, AppApply.v).  AppAgreement.v shows that both sides then hold the
    same contracts.  A channel that went wrong is closed by a transaction the
    coordinator proposes, the app signs and the coordinator broadcasts (Revert.v).
    Whatever the coordinator has to tell a trader is sent over the websocket the trader
    registered last, or pushed as a notification (Feed.v, Delivery.v); the app keeps
    its own copy of the book from it, and of the best prices (AppBook.v).  A trader
    without funds orders first and pays then, on chain or over Lightning
    (AppFunding.v); how much may be ordered is worked out beforehand (MaxQuantity.v).
    Every write of the app's storage is also uploaded, encrypted and signed, to the
    coordinator, from which a new installation restores it (Backup.v).

    ** The files

    Foundations:
    - Prelude.v: results and state passing, relations on runs, shared tactics
    - Machine.v: [u64], [i64], [i32], [f32], [f64]; Floats.v: whole numbers as floats
    - External.v: the third-party crates as classes of operations and laws
    - Demo.v: an instance of each of them, for the witnesses
    - Sorting.v: [slice::sort_by] as a stable sort

    The trading library ([crates/xxi-node/src], [crates/payout_curve/src]):
    - Commons.v: orders, matches, trades, prices ([commons/*.rs])
    - Rollover.v: expiry and rollover window ([commons/rollover.rs], [commons/mod.rs])
    - Cfd.v: margins, liquidation prices, profit and loss ([cfd.rs])
    - PayoutCurve.v: payout functions ([payout_curve/src/lib.rs],
      [coordinator/src/payout_curve.rs])
    - Messages.v: the messages and their stored form ([message_handler.rs],
      [dlc_message.rs]); Wire.v: their bytes, segments and queues
      ([message_handler.rs])
    - Node.v: DLC channels ([node/dlc_channel.rs], [node/dlc_manager.rs],
      [node/mod.rs]); DemoDlc.v, an in-memory store to run it with; DlcPeer.v, what
      app and coordinator share when they process a message ([node/event.rs])
    - KvStore.v: the key-value stores ([storage/memory.rs], [storage/sled.rs]);
      DlcStore.v: how [rust-dlc] keeps contracts and channels in them and reports
      the changes ([storage/mod.rs]); DlcStoreSpec.v: that this refines maps by id
    - NodeStorage.v: the interface to the storage of outputs and transactions, its
      three implementations, the synchronisation of fees ([node/storage.rs],
      [shadow.rs], [coordinator/src/node/storage.rs], the app's [dlc/node.rs])
    - Wallet.v: fee rates, confirmations, payments, the outputs and keys of channels
      ([fee_rate_estimator.rs], [blockchain.rs], [on_chain_wallet.rs],
      [node/wallet.rs], [dlc_wallet.rs], [crates/mempool])

    The coordinator's storage ([coordinator/src/db], [orderbook/db], [funding_fee/db]):
    - SqlTypes.v: enums as Postgres types ([custom_types.rs])
    - Schema.v: tables and rows ([schema.rs], the models of the [db] modules)
    - Db.v: statements, constraints, transactions, what diesel does
    - OrdersDb.v, MatchesDb.v, PositionsDb.v, FundingDb.v, ProtocolDb.v,
      ChannelsDb.v, StorageDb.v: one function per query ([orders.rs]; [matches.rs], [channel_opening_params.rs];
      [positions.rs], [trades.rs]; [funding_fee/db/*.rs]; [dlc_protocols.rs],
      [trade_params.rs], [rollover_params.rs]; [dlc_channels.rs], [dlc_messages.rs],
      [last_outbound_dlc_message.rs]; [hodl_invoice.rs], [collaborative_reverts.rs],
      [spendable_outputs.rs], [transactions.rs], [polls.rs])

    The coordinator's logic:
    - Referrals.v: users, bonus tiers, versions ([db/user.rs], [referrals.rs],
      [check_version.rs])
    - Signing.v: what is signed and verified ([commons/order.rs],
      [commons/signature.rs])
    - OrderEntry.v: posting orders, invoices, the makers' websocket
      ([routes/orderbook.rs], [routes.rs], [orderbook/websocket.rs])
    - Feed.v: the websocket's messages ([commons/message.rs]); Delivery.v: messages
      and notifications ([message.rs], [notifications.rs],
      [orderbook/collaborative_revert.rs])
    - CoordSettings.v: the settings, their file, the route that changes them
      ([settings.rs], [routes/admin.rs]); Leaderboard.v ([leaderboard.rs])
    - Trading.v: matching ([orderbook/trading.rs], [orderbook/async_match.rs])
    - Funding.v: funding fees ([funding_fee.rs])
    - Settlement.v: settlement amounts ([position/models.rs], [node/channel.rs])
    - Resize.v, TradeExecutor.v: trades against a channel ([trade/mod.rs])
    - TradeInvoices.v: what surrounds a trade, invoices ([trade/mod.rs],
      [node/invoice.rs])
    - DlcExecutor.v: DLC protocols ([dlc_protocol.rs])
    - CoordinatorNode.v: messages of the app ([node.rs], [dlc_handler.rs])
    - CoordinatorChannels.v: events of channels ([node/channel.rs])
    - NodeRollover.v, Monitors.v: rollover, expiry, liquidation ([node/*.rs])
    - Admin.v: users, polls, operators' routes, jobs ([routes.rs], [routes/admin.rs],
      [scheduler.rs], [campaign.rs], [emergency_kit.rs]); PositionFeed.v
      ([trade/websocket.rs])
    - Revert.v: collaborative reverts, on both sides ([collaborative_revert.rs], the
      app's [dlc/mod.rs])

    The app ([mobile/native/src]):
    - AppData.v: orders, positions, trades ([trade/*/mod.rs], [calculations/mod.rs])
    - AppApply.v: an order applied to a position ([trade/position/mod.rs])
    - Sqlite.v, AppSql.v, AppDb.v: statements, enums, rows and queries ([db/*.rs])
    - AppHandlers.v: handlers of orders, positions, fees ([trade/*/handler.rs],
      [event/mod.rs]); AppFrames.v and AppHandled.v, what they keep and do
    - AppNode.v: messages, offers, reconnects, submitting orders ([dlc/node.rs],
      [dlc/dlc_handler.rs], [trade/order/handler.rs])
    - AppBook.v: the websocket client, its orders and prices ([orderbook.rs])
    - AppFunding.v: orders that wait for their funds ([unfunded_channel_opening_order.rs],
      [hodl_invoice.rs], [watcher.rs])
    - MaxQuantity.v: what a trader may order ([channel_trade_constraints.rs],
      [max_quantity.rs])
    - Backup.v: backups, on both sides ([backup.rs], [cipher.rs], [storage.rs], the
      coordinator's [backup.rs])
    - AppEmergency.v: repairs by the trader ([emergency_kit.rs])
    - AppAgreement.v: the app's position against the coordinator's

    Definitions have the names of the functions they translate.  Where two modules
    use a name, or a block of a function became a definition, its comment says so.

    ** How the code is modelled

    A function returns an [outcome]: [Ok], [Err], or [Panic] (a failed [expect], an
    overflow of an arithmetic operator, which the code is taken to check).  A handler
    is a function of its state ([M]): the database ([Sql], [M Db.t Anyhow], and
    [AppResult] in the app), the database and what was sent or published ([M World.t]
    in Trading.v, [NodeM] in Node.v, [CoordinatorM] in CoordinatorNode.v, [AppM] and [AppNodeM] in the app).  The state
    outlives an error, as statements that ran before are committed; only a diesel
    [transaction] restores the tables, not the sequences of their ids.

    Loops are folds over lists.  Only the recursion that applies an order to the
    app's position and the loop over the stored actions are not structural: the first
    has fuel 3, as an order first reduces the position to zero, then increases it,
    then is used up, and AppApply.v proves that more fuel changes nothing; the second
    has a step for every byte, and DlcStoreSpec.v proves that it reads all actions.  The events of the app's node are handled one after the
    other, in the order in which they were published.

    A row is a record with a field per column, a table a list of rows in the order
    of insertion, which is also the order in which unordered queries return them.
    Statements check the unique and foreign keys of the migrations.  Timestamps are
    nanoseconds and are not cut to the microseconds of Postgres; the app's columns
    hold seconds.  A call reads the clock once ([now]); fresh ids are functions of a
    counter.  Texts of errors are kept where they tell errors apart, without their
    formatted values.

    [rust_decimal], [bitcoin], [time], [semver], [secp256k1], [base64] and [uuid], the
    serialisers of [serde_json] and [rust-dlc], the segments of its messages, the
    trees of [sled], the reader and writer of [toml], the cipher of the backups, the
    order in which a [HashMap]
    is iterated, the block explorer, the on-chain wallet (in Wallet.v, that of [bdk] and its
    coin selection), the Lightning node, the chain, and the
    channel manager in Node.v, DlcPeer.v, CoordinatorNode.v, AppNode.v and Revert.v
    are interfaces.  The theorems use
    documented laws of them (integers up to 96 bits are exact, roundings are
    symmetric, amounts add up or overflow, what was written reads back, segments
    reassemble, trees are maps, a transaction spends nothing declared unspendable); of
    the channel manager two: it answers a rejection with nothing (TradeInvoices.v), and
    the payouts it answers are [u64]s (NodeRollover.v).  Where a theorem says what the
    channel manager is asked to do, it speaks of any channel manager, whose calls are
    recorded (NodeRollover.v).  Texts of [serde_json] in messages are read as what they
    read as; nothing says that this is what was written (Wire.v).

    ** What the theorems show

    - Two sides.  A trade changes the contracts of the app's and of the coordinator's
      position alike, and so do funding fees their collateral (AppAgreement.v).
    - Money.  The two sides' profits add up to zero and stay within the margins
      (Cfd.v); closing pays out both margins and nothing else (Settlement.v); a
      resize keeps the collateral of the channel, up to the fees and profit it moves
      (Resize.v); a payout function covers every price, is continuous, pays what the
      profit at that price is and never touches a party's reserve (PayoutCurve.v);
      every contract offered for a trade or a rollover distributes exactly the
      collateral put in (NodeRollover.v); funding fees are transfers, and generating
      them charges every position that is due and not charged yet, tells its trader,
      and does nothing when it is run again within the hour (Funding.v); the app takes
      them once (AppHandled.v).
    - Protocols.  Finishing a DLC protocol happens entirely or not at all, and
      starting one records what finishing it needs (DlcExecutor.v); a position's
      state moves along its life cycle under every operation (PositionsDb.v); the
      app and the coordinator process a message once, and on a reconnect the app sends
      its last answer again or rejects the offer it had not answered (AppNode.v,
      CoordinatorNode.v); the message that ends a
      protocol is processed only together with the protocol, a rejected offer is taken
      back, and a channel is not closed against what was settled (CoordinatorNode.v);
      the coordinator's row of a channel follows the channel (CoordinatorChannels.v);
      an order it submits is recorded as what became of it (AppNode.v,
      AppHandled.v).
      A trade is either offered to the trader or refused with a message, never both,
      nothing is offered before its invoice is settled, and an offer that cannot be
      paid is taken back (TradeInvoices.v); a revert divides the channel and closes
      exactly the position of its trader (Revert.v).
    - Storage.  The store of [rust-dlc] refines maps and reports changes when they are
      made (DlcStoreSpec.v); the wallet's fees reach every transaction, in whichever
      storage (NodeStorage.v).  An output is committed to one channel or payment at a time
      until the wallet is synchronised, and the keys of channels are found (Wallet.v).
      The backup follows the app's storage while its uploads
      arrive in order, and a full backup restores what was there (Backup.v).
    - Messages.  Every message is read by the reader of its kind as the parts it was
      written from (dates to the second, JSON as it reads), and a queue of messages
      arrives whole and in order, between those of other peers, until one of theirs
      stops the handling by a panic (Wire.v); a trader is
      told over the latest connection, or by a notification (Delivery.v).
    - Feeds.  The app's book is the map of the open orders it was told of, and its
      prices are published at every change (AppBook.v); the leader board is the top
      of the traders of its period (Leaderboard.v); the position an operator sees is
      the exact sum of the traders' positions in whole contracts (PositionFeed.v).
    - Funds.  An order without funds is submitted once they arrived, once, and with
      the pre-image only for the invoice (AppFunding.v); settings an operator changed are there after a restart, up to
      the whitelist (OrderEntry.v).  The largest order leaves room for its fee, or has
      no size at all (MaxQuantity.v).
    - Users.  Who registered is read back as registered, and every trader whose position
      expires before the next rollover is reminded while away (Admin.v).  A position
      that was lost is made anew from the last failed order only where there is none
      (AppEmergency.v).
    - Entry.  A signature binds the terms of an order (Signing.v), only checked orders
      are posted, and on a websocket makers trade for themselves only (OrderEntry.v).
    - Matching.  Price-time priority, the best orders are taken, and what is
      written and sent on success and on every error (Trading.v); trades that must
      not be executed change nothing (TradeExecutor.v).
    - Time.  Contracts expire on Sundays at 15:00 UTC, and rolling over in the
      window extends them by a week (Rollover.v).
    - Data.  Rows, enums and stored messages read back as written (PositionsDb.v,
      SqlTypes.v, AppSql.v, AppDb.v, Messages.v); the app's database stays readable
      under every handler (AppFrames.v).
    - Defects.  Theorems and definitions state behaviour the code does not mean to
      have: the terms of an order that are not signed (Signing.v), the invoices that
      fund an order in whichever state they are (OrderEntry.v), the whitelist lost
      when settings are written and the node's settings that stay as they were
      (CoordSettings.v), the cache of prices that is never filled (AppBook.v), the
      watch of an address or an invoice that failed and counts as a payment
      (AppFunding.v), the peer whose segmented message of an unknown kind stops the
      handling of all messages (Wire.v), the revert that is recorded but never proposed
      (Revert.v), the fee event whose trader is never told (Funding.v), the signatures of backups that are not bound to their entries
      and the uploads that overtake each other (Backup.v), the fee that exceeds the
      margin (MaxQuantity.v), the reserved outputs a synchronisation gives away (Wallet.v),
      the price averaged over both sides (PositionFeed.v), the link
      rows deleted in FundingDb.v, the profit dropped in PositionsDb.v, the
      overfilled maker and the order id of a pending match in Trading.v, the
      exchanged sides of a rolled-over contract in NodeRollover.v, the order that stays
      taken when its invoice is not settled in TradeInvoices.v, the outputs of one
      transaction in NodeStorage.v, the whitelist of any poll in StorageDb.v, the
      position left in resizing in CoordinatorNode.v, the margin booked as profit in
      CoordinatorChannels.v, and in the app the refused revert taken for a confirmed
      one (Revert.v), the newest order kept as the oldest and the creation time lost at every update
      (AppDb.v), so that the fees a rollover paid stay unpaid (AppNode.v).

    ** Not modelled

    In Trading.v the execution of a matched trade is an effect that is recorded; what
    it does is TradeInvoices.v and TradeExecutor.v.  Of the app, the bridge to its
    user interface, start-up and wallet are input and output around the above, as
    are the coordinator's routes that show its wallet, peers and error reports, its
    metrics, its TCP sockets and network clients, the web front end and the tasks
    that feed events to the handlers.  [user_referral_summary_view] is a table of
    Referrals.v, as its definition is in a migration. *)

From stdpp Require Import base list option sorting.
From Stdlib Require Import ZArith Lia Strings.String.

#[global] Set Default Proof Using "Type*".

(** Hint databases: [outcome] reduces runs of the monads, [db_enum] the
    conversions between the enums of the code and of the database, [sql] the
    reads and writes of tables. *)
Create HintDb outcome.
Create Rewrite HintDb db_enum.
Create HintDb sql.

(** ** Fallible and stateful computations *)

(** A Rust call returns [Ok], returns [Err], or unwinds with a panic (a failed
    [expect], an overflow of a checked operator, [unreachable!]). *)
Inductive outcome (E A : Type) : Type :=
  | Ok (a : A)
  | Err (e : E)
  | Panic.
Arguments Ok {E A} a.
Arguments Err {E A} e.
Arguments Panic {E A}.

#[export] Instance outcome_ret {E} : MRet (outcome E) := fun A a => Ok a.
#[export] Instance outcome_bind {E} : MBind (outcome E) := fun A B f m =>
  match m with Ok a => f a | Err e => Err e | Panic => Panic end.
#[export] Instance outcome_fmap {E} : FMap (outcome E) := fun A B f m =>
  match m with Ok a => Ok (f a) | Err e => Err e | Panic => Panic end.

(** [Option::expect]: a missing value panics. *)
Definition expect {E A} (o : option A) : outcome E A :=
  match o with Some a => Ok a | None => Panic end.

(** [Option::context] and [Option::ok_or]. *)
Definition ok_or {E A} (e : E) (o : option A) : outcome E A :=
  match o with Some a => Ok a | None => Err e end.

(** [Result::map_err], also the conversion [?] performs. *)
Definition map_err {E F A} (f : E -> F) (m : outcome E A) : outcome F A :=
  match m with Ok a => Ok a | Err e => Err (f e) | Panic => Panic end.

(** [anyhow::ensure!]. *)
Definition ensure {E} (b : bool) (e : E) : outcome E unit :=
  if b then Ok tt else Err e.

Definition is_ok {E A} (m : outcome E A) : bool :=
  match m with Ok _ => true | _ => false end.

(** State passing: the state survives an error, as the statements that ran
    before it are already committed. *)
Definition M (S E A : Type) : Type := S -> outcome E A * S.

#[export] Instance M_ret {S E} : MRet (M S E) := fun A a s => (Ok a, s).
#[export] Instance M_bind {S E} : MBind (M S E) := fun A B f m s =>
  match m s with
  | (Ok a, s') => f a s'
  | (Err e, s') => (Err e, s')
  | (Panic, s') => (Panic, s')
  end.
#[export] Instance M_fmap {S E} : FMap (M S E) := fun A B f m s =>
  match m s with
  | (Ok a, s') => (Ok (f a), s')
  | (Err e, s') => (Err e, s')
  | (Panic, s') => (Panic, s')
  end.

Definition lift {S E A} (m : outcome E A) : M S E A := fun s => (m, s).
Definition throw {S E A} (e : E) : M S E A := fun s => (Err e, s).
Definition gets {S E A} (f : S -> A) : M S E A := fun s => (Ok (f s), s).
Definition modify {S E} (f : S -> S) : M S E unit := fun s => (Ok tt, f s).
Definition with_err {S E F A} (f : E -> F) (m : M S E A) : M S F A := fun s =>
  let '(r, s') := m s in (map_err f r, s').

(** [for x in l { body }]. *)
Fixpoint for_each {S E A} (f : A -> M S E unit) (l : list A) : M S E unit :=
  match l with
  | [] => mret tt
  | x :: l => f x ≫= fun _ => for_each f l
  end.

(** [iter().map(f).collect::<Result<_>>()]. *)
Fixpoint traverse {E A B} (f : A -> outcome E B) (l : list A) : outcome E (list B) :=
  match l with
  | [] => Ok []
  | x :: l => y ← f x; ys ← traverse f l; Ok (y :: ys)
  end.

(** [m] run in [s] returns [a] and leaves [s']. *)
Definition returns {S E A} (m : M S E A) (s : S) (a : A) (s' : S) : Prop :=
  m s = (Ok a, s').

(** ** Lemmas on outcomes *)

Lemma outcome_bind_ok {E A B} (m : outcome E A) (f : A -> outcome E B) b :
  m ≫= f = Ok b <-> exists a, m = Ok a /\ f a = Ok b.
Proof. destruct m; cbn; naive_solver. Qed.

Lemma outcome_bind_err {E A B} (m : outcome E A) (f : A -> outcome E B) e :
  m ≫= f = Err e <-> m = Err e \/ exists a, m = Ok a /\ f a = Err e.
Proof. destruct m; cbn; naive_solver. Qed.

Lemma expect_ok {E A} (o : option A) a : @expect E A o = Ok a <-> o = Some a.
Proof. destruct o; cbn; naive_solver. Qed.

Lemma expect_no_err {E A} (o : option A) (e : E) : expect o <> Err e.
Proof. by destruct o. Qed.

Lemma ok_or_ok {E A} (e : E) (o : option A) a : ok_or e o = Ok a <-> o = Some a.
Proof. destruct o; cbn; naive_solver. Qed.

Lemma ensure_ok {E} b (e : E) u : ensure b e = Ok u <-> b = true.
Proof. destruct b, u; cbn; naive_solver. Qed.

Lemma map_err_ok {E F A} (f : E -> F) (m : outcome E A) a : map_err f m = Ok a <-> m = Ok a.
Proof. destruct m; cbn; naive_solver. Qed.

Lemma M_bind_ok {S E A B} (m : M S E A) (f : A -> M S E B) s b s' :
  (m ≫= f) s = (Ok b, s') <-> exists a s1, m s = (Ok a, s1) /\ f a s1 = (Ok b, s').
Proof. unfold mbind, M_bind. destruct (m s) as [[] ?]; naive_solver. Qed.

Lemma M_fmap_ok {S E A B} (f : A -> B) (m : M S E A) s b s' :
  (f <$> m) s = (Ok b, s') <-> exists a, m s = (Ok a, s') /\ b = f a.
Proof. unfold fmap, M_fmap. destruct (m s) as [[] ?]; naive_solver. Qed.

Lemma M_bind_err {S E A B} (m : M S E A) (f : A -> M S E B) s e s' :
  (m ≫= f) s = (Err e, s') <->
  m s = (Err e, s') \/ exists a s1, m s = (Ok a, s1) /\ f a s1 = (Err e, s').
Proof. unfold mbind, M_bind. destruct (m s) as [[] ?]; naive_solver. Qed.

Lemma lift_ok {S E A} (m : outcome E A) (s : S) a s' :
  lift m s = (Ok a, s') <-> m = Ok a /\ s' = s.
Proof. unfold lift. naive_solver. Qed.

Lemma with_err_ok {S E F A} (f : E -> F) (m : M S E A) s a s' :
  with_err f m s = (Ok a, s') <-> m s = (Ok a, s').
Proof. unfold with_err. destruct (m s) as [[] ?]; cbn; naive_solver. Qed.

(** The outcome of a run that succeeds, tested to do so. *)
Lemma succeeds {S E A} (m : M S E A) (s : S) : is_ok (m s).1 = true -> exists a s', m s = (Ok a, s').
Proof. destruct (m s) as [[a|e|] s']; [|done..]. by exists a, s'. Qed.

Lemma traverse_ok {E A B} (f : A -> outcome E B) l l' :
  traverse f l = Ok l' <-> Forall2 (fun x y => f x = Ok y) l l'.
Proof.
  revert l'; induction l as [|x l IH]; intros l'; cbn.
  - split; [intros [= <-]; constructor | by inversion 1].
  - rewrite outcome_bind_ok. setoid_rewrite outcome_bind_ok. setoid_rewrite IH. split.
    + intros (y & ? & ys & ? & [= <-]). by constructor.
    + inversion 1; subst. eauto 10.
Qed.

(** Splits a successful run into the runs of its steps. *)
Ltac inv_ok :=
  repeat match goal with
  | H : _ ≫= _ = Ok _ |- _ => apply outcome_bind_ok in H as (? & ? & H)
  | H : (_ ≫= _) _ = (Ok _, _) |- _ => apply M_bind_ok in H as (? & ? & ? & H)
  | H : expect _ = Ok _ |- _ => apply expect_ok in H
  | H : ok_or _ _ = Ok _ |- _ => apply ok_or_ok in H
  | H : ensure _ _ = Ok _ |- _ => apply ensure_ok in H
  | H : map_err _ _ = Ok _ |- _ => apply map_err_ok in H
  | H : lift _ _ = (Ok _, _) |- _ => apply lift_ok in H as [H ?]
  | H : with_err _ _ _ = (Ok _, _) |- _ => apply with_err_ok in H
  | H : Ok _ = Ok _ |- _ => injection H as H
  | H : (Ok _, _) = (Ok _, _) |- _ => injection H as H
  | H : mret _ = Ok _ |- _ => injection H as H
  | H : mret _ _ = (Ok _, _) |- _ => injection H as H
  | H : throw _ _ = (Ok _, _) |- _ => discriminate H
  | H : Err _ = Ok _ |- _ => discriminate H
  | H : Panic = Ok _ |- _ => discriminate H
  end.

(** Refutes an error of a computation that only panics. *)
Ltac no_err :=
  let H := fresh in intros H;
  repeat (apply outcome_bind_err in H as [H|(? & _ & H)]; [by apply expect_no_err in H|]); done.

(** Turns decided propositions into hypotheses. *)
Ltac simpl_decides :=
  repeat match goal with
  | H : bool_decide _ = true |- _ => apply bool_decide_eq_true in H
  | H : bool_decide _ = false |- _ => apply bool_decide_eq_false in H
  | H : (_ && _) = true |- _ => apply andb_true_iff in H as [? ?]
  | H : (_ || _) = false |- _ => apply orb_false_iff in H as [? ?]
  | H : (_ || _) = true |- _ => apply orb_true_iff in H as [H|H]
  | H : negb _ = true |- _ => apply negb_true_iff in H
  | H : negb _ = false |- _ => apply negb_false_iff in H
  end.

(** ** Relations every run of a computation respects

    [steps R m]: whatever [m] returns, its final state is [R]-related to the
    initial one.  With [R] a preorder the property composes; frame conditions
    ("this table is not written") are instances. *)
Definition steps {S E A} (R : S -> S -> Prop) (m : M S E A) : Prop :=
  forall s, R s (m s).2.

Section Steps.
Context {S E : Type} (R : S -> S -> Prop) `{!PreOrder R}.

Lemma steps_ret {A} (a : A) : steps (E := E) R (mret a).
Proof. intros s. cbn. reflexivity. Qed.

Lemma steps_lift {A} (m : outcome E A) : steps R (lift m).
Proof. intros s. cbn. reflexivity. Qed.

Lemma steps_throw {A} (e : E) : steps (A := A) R (throw e).
Proof. intros s. cbn. reflexivity. Qed.

Lemma steps_gets {A} (f : S -> A) : steps (E := E) R (gets f).
Proof. intros s. cbn. reflexivity. Qed.

Lemma steps_bind {A B} (m : M S E A) (f : A -> M S E B) :
  steps R m -> (forall a, steps R (f a)) -> steps R (m ≫= f).
Proof.
  intros Hm Hf s. unfold mbind, M_bind. specialize (Hm s).
  destruct (m s) as [[a|e|] s']; cbn in *; [|done|done].
  etrans; [done|]. apply Hf.
Qed.

Lemma steps_fmap {A B} (f : A -> B) (m : M S E A) : steps R m -> steps R (f <$> m).
Proof using Type. intros Hm s. specialize (Hm s). unfold fmap, M_fmap. by destruct (m s) as [[] ?]. Qed.

Lemma steps_for_each {A} (f : A -> M S E unit) l :
  (forall x, steps R (f x)) -> steps R (for_each f l).
Proof. intros Hf. induction l; cbn; [apply steps_ret|]. by apply steps_bind. Qed.

Lemma steps_with_err {F A} (g : E -> F) (m : M S E A) : steps R m -> steps R (with_err g m).
Proof using Type. intros Hm s. specialize (Hm s). unfold with_err. by destruct (m s) as [[] ?]. Qed.
End Steps.

(** A computation that never writes the state. *)
Definition read_only {S E A} (m : M S E A) : Prop := steps eq m.

Lemma read_only_run {S E A} (m : M S E A) s r s' : read_only m -> m s = (r, s') -> s' = s.
Proof. intros Hm Hr. specialize (Hm s). by rewrite Hr in Hm. Qed.

#[export] Hint Resolve steps_ret steps_lift steps_throw steps_gets steps_bind steps_fmap
  steps_for_each steps_with_err : sql.

(** [errs P m]: every error [m] returns satisfies [P]. *)
Definition errs {S E A} (P : E -> Prop) (m : M S E A) : Prop :=
  forall s e s', m s = (Err e, s') -> P e.

Section Errs.
Context {S E : Type} (P : E -> Prop).

Lemma errs_ret {A} (a : A) : errs (S := S) P (mret a).
Proof. by intros s e s' [=]. Qed.

Lemma errs_throw {A} (e : E) : P e -> errs (S := S) (A := A) P (throw e).
Proof. by intros ? s e' s' [= <-]. Qed.

Lemma errs_lift {A} (m : outcome E A) : (forall e, m = Err e -> P e) -> errs (S := S) P (lift m).
Proof. intros Hm s e s' [= He _]. by apply Hm. Qed.

Lemma errs_bind {A B} (m : M S E A) (f : A -> M S E B) :
  errs P m -> (forall a, errs P (f a)) -> errs P (m ≫= f).
Proof.
  intros Hm Hf s e s'. unfold mbind, M_bind. destruct (m s) as [[a|e'|] s1] eqn:H1; [|intros [= <- <-]|done].
  - by apply Hf.
  - by eapply Hm.
Qed.

Lemma errs_for_each {A} (f : A -> M S E unit) l : (forall x, errs P (f x)) -> errs P (for_each f l).
Proof. intros Hf. induction l; cbn; [apply errs_ret|]. by apply errs_bind. Qed.
End Errs.

(** ** Lists *)

Lemma filter_none {A} (p : A -> bool) l : (forall x, x ∈ l -> p x = false) -> List.filter p l = [].
Proof.
  induction l as [|x l IH]; cbn; [done|]. intros Hl. rewrite (Hl x) by constructor.
  apply IH. intros y Hy. apply Hl. by constructor.
Qed.

(** Steps through the combinators other files add. *)
Ltac steps_through := fail.

(** Decomposes a computation along its binds and case distinctions. *)
Ltac solve_steps :=
  repeat first
    [ progress intros
    | progress unfold read_only
    | case_match
    | apply steps_bind; [apply _| |intros]
    | apply steps_fmap
    | apply steps_with_err
    | steps_through
    | solve [eauto 4 with sql typeclass_instances] ].
