(* ===== verification/Machine.v ===== *)
(** * Machine-level data: integers of fixed width and IEEE-754 floats

    Rust's [u64], [i64] and [i32] are integers with their range; [as] casts
    between them wrap.  [f32] and [f64] are IEEE-754 binary32 and binary64,
    computed with the Standard Library's specification floats. *)

From stdpp Require Import base list option.
From Stdlib Require Import ZArith Lia Floats.SpecFloat.
From S2P Require Import Prelude.

#[local] Open Scope Z_scope.

(** ** Integers *)

Definition U64_MAX : Z := 2 ^ 64 - 1.
Definition I64_MAX : Z := 2 ^ 63 - 1.
Definition I64_MIN : Z := - 2 ^ 63.

Definition in_u64 (z : Z) : bool := (0 <=? z) && (z <=? U64_MAX).
Definition in_i64 (z : Z) : bool := (I64_MIN <=? z) && (z <=? I64_MAX).

(** [x as u64] and [x as i64]: reduction modulo [2^64]. *)
Definition as_u64 (z : Z) : Z := z mod 2 ^ 64.
Definition as_i64 (z : Z) : Z := (z + 2 ^ 63) mod 2 ^ 64 - 2 ^ 63.

Definition checked_u64 (z : Z) : option Z := if in_u64 z then Some z else None.
Definition checked_i64 (z : Z) : option Z := if in_i64 z then Some z else None.

Lemma in_u64_spec z : in_u64 z = true <-> 0 <= z < 2 ^ 64.
Proof. unfold in_u64, U64_MAX. lia. Qed.

Lemma in_i64_spec z : in_i64 z = true <-> - 2 ^ 63 <= z < 2 ^ 63.
Proof. unfold in_i64, I64_MIN, I64_MAX. lia. Qed.

(** A non-negative amount survives the round trip through a signed column. *)
Lemma as_u64_as_i64 z : 0 <= z < 2 ^ 64 -> as_u64 (as_i64 z) = z.
Proof.
  intros Hz. unfold as_u64, as_i64.
  destruct (decide (z < 2 ^ 63)) as [Hlt|Hge].
  - rewrite (Z.mod_small (z + 2 ^ 63)) by lia. rewrite Z.mod_small; lia.
  - replace (z + 2 ^ 63) with (z - 2 ^ 63 + 1 * 2 ^ 64) by lia.
    rewrite Z.mod_add by lia. rewrite (Z.mod_small (z - 2 ^ 63)) by lia.
    replace (z - 2 ^ 63 - 2 ^ 63) with (z + (-1) * 2 ^ 64) by lia.
    rewrite Z.mod_add by lia. apply Z.mod_small; lia.
Qed.

Lemma as_i64_small z : - 2 ^ 63 <= z < 2 ^ 63 -> as_i64 z = z.
Proof. intros Hz. unfold as_i64. rewrite Z.mod_small; lia. Qed.

(** [+] and [-] on [u64], and [+] on [i64], which panic on overflow. *)
Definition u64_add {E} (x y : Z) : outcome E Z := expect (checked_u64 (x + y)).
Definition u64_sub {E} (x y : Z) : outcome E Z := expect (checked_u64 (x - y)).
Definition i64_add {E} (x y : Z) : outcome E Z := expect (checked_i64 (x + y)).

(** [Iterator::sum] of [u64]s. *)
Fixpoint sum_u64 {E} (sum : Z) (l : list Z) : outcome E Z :=
  match l with
  | [] => Ok sum
  | x :: l => sum ← u64_add sum x; sum_u64 sum l
  end.

Lemma checked_u64_some x z : checked_u64 x = Some z <-> z = x /\ 0 <= x < 2 ^ 64.
Proof.
  unfold checked_u64. rewrite <-in_u64_spec. destruct (in_u64 x); naive_solver.
Qed.

Lemma u64_add_ok {E} x y z : u64_add (E := E) x y = Ok z <-> z = x + y /\ 0 <= x + y < 2 ^ 64.
Proof. unfold u64_add. by rewrite expect_ok, checked_u64_some. Qed.

Lemma u64_sub_ok {E} x y z : u64_sub (E := E) x y = Ok z <-> z = x - y /\ 0 <= x - y < 2 ^ 64.
Proof. unfold u64_sub. by rewrite expect_ok, checked_u64_some. Qed.

Lemma i64_add_ok {E} x y z : i64_add (E := E) x y = Ok z <-> z = x + y /\ - 2 ^ 63 <= x + y < 2 ^ 63.
Proof.
  unfold i64_add, checked_i64. rewrite expect_ok, <-in_i64_spec. destruct (in_i64 (x + y)); naive_solver.
Qed.

(** ** Floats *)

Definition f32 : Set := spec_float.
Definition f64 : Set := spec_float.

#[export] Instance spec_float_eq_dec : EqDecision spec_float.
Proof. solve_decision. Defined.

Definition f32_of_Z (z : Z) : f32 := binary_normalize 24 128 z 0 false.
Definition f64_of_Z (z : Z) : f64 := binary_normalize 53 1024 z 0 false.

Definition f32_zero : f32 := S754_zero false.
Definition f32_neg (x : f32) : f32 := SFopp x.
(** [-x] on [f64]. *)
Definition f64_neg (x : f64) : f64 := SFopp x.
Definition f32_mul (x y : f32) : f32 := SFmul 24 128 x y.
Definition f32_sub (x y : f32) : f32 := SFsub 24 128 x y.
Definition f32_abs (x : f32) : f32 := SFabs x.

(** [==] on floats: [0.0 == -0.0], and a NaN equals nothing. *)
Definition f32_eqb (x y : f32) : bool := SFeqb x y.

(** The order of the [real] column type: like [<], with NaN above every number
    and equal to itself. *)
Definition float4_ltb (x y : f32) : bool :=
  match x, y with
  | S754_nan, _ => false
  | _, S754_nan => true
  | _, _ => SFltb x y
  end.

Definition float4_max (x y : f32) : f32 := if float4_ltb x y then y else x.
Definition float4_min (x y : f32) : f32 := if float4_ltb y x then y else x.

Example f32_of_Z_2 : f32_of_Z 2 = S754_finite false 8388608 (-22).
Proof. reflexivity. Qed.

(** Multiplying by [-1.0] flips the sign of a whole number of contracts. *)
Example f32_mul_minus_one : f32_mul (f32_of_Z 100) (f32_of_Z (-1)) = f32_of_Z (-100).
Proof. reflexivity. Qed.

(** ** [i32] *)

(** [x as i32] for a [usize]. *)
Definition as_i32 (z : Z) : Z := (z + 2 ^ 31) mod 2 ^ 32 - 2 ^ 31.
(** [x as usize] for an [i32]. *)
Definition i32_as_usize (z : Z) : Z := z mod 2 ^ 64.

(** [partial_cmp] on floats: [None] when a NaN is compared. *)
Definition f32_partial_cmp (x y : f32) : option comparison := SFcompare x y.

(** [f32::is_sign_positive]: the sign bit is not set. *)
Definition f32_is_sign_positive (x : f32) : bool :=
  match x with
  | S754_zero s | S754_infinity s | S754_finite s _ _ => negb s
  | S754_nan => true
  end.

Definition f32_is_nan (x : f32) : bool := match x with S754_nan => true | _ => false end.

(** [f32::floor] on the sign of a number, all the code asks: [x.floor() > 0.0]
    holds of the numbers from one on. *)
Definition f32_floor_positive (x : f32) : bool := SFleb (f32_of_Z 1) x.

(** [f32::round]: to the nearest integer, half away from zero. *)
Definition f32_round (x : f32) : f32 :=
  match x with
  | S754_finite s m e =>
    if 0 <=? e then x
    else
      let n := (Zpos m + 2 ^ (- e - 1)) / 2 ^ (- e) in
      binary_normalize 24 128 (if s then - n else n) 0 s
  | _ => x
  end.

(** [x as f64] for an [f32]: exact. *)
Definition f32_as_f64 (x : f32) : f64 :=
  match x with
  | S754_finite s m e => binary_normalize 53 1024 (if s then Zneg m else Zpos m) e s
  | _ => x
  end.

Example f32_round_up : f32_round (SFdiv 24 128 (f32_of_Z 5) (f32_of_Z 2)) = f32_of_Z 3.
Proof. reflexivity. Qed.
