(* ===== verification/Floats.v ===== *)
(** * Exact arithmetic on small integers in [f32]

    Whole numbers below [2^24] are [f32]s, and subtracting, negating and comparing
    them is exact.  Quantities of contracts are such numbers. *)

From stdpp Require Import base list option.
From Stdlib Require Import ZArith Lia Floats.SpecFloat.
From S2P Require Import Prelude Machine.

#[local] Open Scope Z_scope.

(** ** Normal forms *)

(** The significand of a positive integer below [2^24]: 24 bits. *)
Definition significand (n : positive) : positive :=
  Z.to_pos (Z.pos n * 2 ^ (24 - Z.pos (digits2_pos n))).

Lemma digits_bounds n : 2 ^ (Z.pos (digits2_pos n) - 1) <= Z.pos n < 2 ^ Z.pos (digits2_pos n).
Proof.
  induction n as [n IH|n IH|]; cbn [digits2_pos]; [..|by cbn].
  all: rewrite Pos2Z.inj_succ; replace (Z.succ (Z.pos (digits2_pos n)) - 1)
    with (Z.succ (Z.pos (digits2_pos n) - 1)) by lia; rewrite !Z.pow_succ_r by lia; lia.
Qed.

Lemma digits_unique n k : 0 < k -> 2 ^ (k - 1) <= Z.pos n < 2 ^ k -> Z.pos (digits2_pos n) = k.
Proof.
  intros Hk [Hlo Hhi]. pose proof (digits_bounds n) as [Hlo' Hhi'].
  apply Z.le_antisymm; apply Z.lt_pred_le, (Z.pow_lt_mono_r_iff 2); lia.
Qed.

Lemma digits_small n : Z.pos n < 2 ^ 24 -> Z.pos (digits2_pos n) <= 24.
Proof.
  intros Hn. pose proof (digits_bounds n) as [Hlo _].
  apply Z.lt_pred_le, (Z.pow_lt_mono_r_iff 2); lia.
Qed.

Lemma digits_shift m n k : 0 <= k -> Z.pos m = Z.pos n * 2 ^ k ->
  Z.pos (digits2_pos m) = Z.pos (digits2_pos n) + k.
Proof.
  intros Hk Hm. pose proof (digits_bounds n) as [Hlo Hhi].
  pose proof (Z.pow_pos_nonneg 2 k ltac:(lia) Hk). apply digits_unique; [lia|].
  rewrite Hm. replace (Z.pos (digits2_pos n) + k - 1) with (Z.pos (digits2_pos n) - 1 + k) by lia.
  rewrite !Z.pow_add_r by lia. nia.
Qed.

Lemma significand_spec n : Z.pos n < 2 ^ 24 ->
  Z.pos (significand n) = Z.pos n * 2 ^ (24 - Z.pos (digits2_pos n)).
Proof.
  intros Hn. apply digits_small in Hn. unfold significand. apply Z2Pos.id.
  pose proof (Z.pow_pos_nonneg 2 (24 - Z.pos (digits2_pos n))). lia.
Qed.

(** ** Rounding an exact number changes nothing *)

Lemma shl_align_spec m e e' : e' <= e ->
  exists m', shl_align m e e' = (m', e') /\ Z.pos m' = Z.pos m * 2 ^ (e - e').
Proof.
  intros He. unfold shl_align. destruct (e' - e) as [|d|d] eqn:Hd; [|lia|].
  - exists m. replace (e - e') with 0 by lia. rewrite Z.mul_1_r. split; [f_equal; lia|done].
  - exists (shift_pos d m). split; [done|]. rewrite shift_pos_correct.
    replace (e - e') with (Z.pos d) by lia. cbn [Z.pow]. lia.
Qed.

Lemma iter_shr_exact p m :
  iter_pos shr_1 p (Build_shr_record (Z.pos m * 2 ^ Z.pos p) false false) = Build_shr_record (Z.pos m) false false.
Proof.
  revert m. induction p as [p IH|p IH|]; intros m; cbn [iter_pos].
  - replace (Z.pos m * 2 ^ Z.pos p~1) with (Z.pos (m * 2 ^ p * 2 ^ p)~0).
    + cbn [shr_1 orb]. rewrite !Pos2Z.inj_mul, Pos2Z.inj_pow.
      specialize (IH (m * 2 ^ p)%positive) as IH1. rewrite Pos2Z.inj_mul, Pos2Z.inj_pow in IH1.
      rewrite IH1. apply IH.
    + replace (Z.pos p~1) with (Z.succ (Z.pos p + Z.pos p)) by lia.
      rewrite Z.pow_succ_r, Z.pow_add_r, <-!Pos2Z.inj_pow by lia. nia.
  - replace (Z.pos m * 2 ^ Z.pos p~0) with (Z.pos (m * 2 ^ p) * 2 ^ Z.pos p).
    + rewrite IH, Pos2Z.inj_mul, Pos2Z.inj_pow. apply IH.
    + replace (Z.pos p~0) with (Z.pos p + Z.pos p) by lia.
      rewrite Z.pow_add_r, Pos2Z.inj_mul, Pos2Z.inj_pow by lia. nia.
  - replace (Z.pos m * 2 ^ 1) with (Z.pos m~0) by lia. done.
Qed.

Lemma shr_exact m e n k : 0 <= k -> Z.pos m = Z.pos n * 2 ^ k ->
  shr (Build_shr_record (Z.pos m) false false) e k = (Build_shr_record (Z.pos n) false false, e + k).
Proof.
  intros Hk Hm. unfold shr. destruct k as [|k|k]; [|by rewrite Hm, iter_shr_exact|lia].
  rewrite Z.mul_1_r in Hm. by rewrite Hm, Z.add_0_r.
Qed.

(** [m * 2^e] is the number [n]; its rounding has [n]'s significand. *)
Lemma binary_round_exact s m e n : Z.pos n < 2 ^ 24 -> e <= 0 -> Z.pos m = Z.pos n * 2 ^ (- e) -> -100 < e ->
  binary_round 24 128 s m e = S754_finite s (significand n) (Z.pos (digits2_pos n) - 24).
Proof.
  intros Hn He Hm Hsmall. pose proof (digits_shift m n (- e) ltac:(lia) Hm) as Hd.
  pose proof (digits_small n Hn) as Hdn. pose proof (significand_spec n Hn) as Hsig.
  set (d := Z.pos (digits2_pos n)) in *.
  assert (Hdsig : Z.pos (digits2_pos (significand n)) = 24)
    by (pose proof (digits_shift (significand n) n (24 - d) ltac:(lia) Hsig); lia).
  assert (Hfexp : forall x, 0 <= x <= 24 -> fexp 24 128 x = x - 24) by (intros x Hx; unfold fexp, emin; lia).
  assert (0 < d) by (unfold d; lia).
  assert (exists m' e', shl_align m e (d - 24) = (m', e') /\ e' <= d - 24 /\ e' <= 0 /\ -100 < e' /\
    Z.pos m' = Z.pos n * 2 ^ (- e')) as (m' & e' & Hshl & He' & He0 & Hsm & Hm').
  { destruct (decide (d - 24 <= e)) as [Hle|Hgt].
    - destruct (shl_align_spec m e (d - 24) Hle) as (m' & Hshl & Hm'). exists m', (d - 24).
      split_and!; [done|lia..|]. rewrite Hm', Hm, <-Z.mul_assoc, <-Z.pow_add_r by lia.
      do 2 f_equal. lia.
    - exists m, e. split_and!; [|lia..|done]. unfold shl_align.
      destruct (d - 24 - e) eqn:Hx; [done|done|lia]. }
  unfold binary_round. rewrite Hd, Hfexp by lia. replace (d + - e + e - 24) with (d - 24) by lia.
  rewrite Hshl. unfold binary_round_aux, shr_fexp. cbn [shr_record_of_loc Zdigits2].
  rewrite (digits_shift m' n (- e')) by (done || lia). fold d. rewrite Hfexp by lia.
  rewrite (shr_exact m' e' (significand n)) by
    (lia || (rewrite Hsig, Hm', <-Z.mul_assoc, <-Z.pow_add_r by lia; do 2 f_equal; lia)).
  cbn [shr_m loc_of_shr_record round_nearest_even Zdigits2]. rewrite Hdsig.
  replace (e' + (d + - e' + e' - 24 - e')) with (d - 24) by lia.
  rewrite Hfexp by lia. replace (24 + (d - 24) - 24 - (d - 24)) with 0 by lia.
  cbn [shr shr_m]. by replace (d - 24 <=? 128 - 24) with true by lia.
Qed.

(** ** Whole numbers as [f32] *)

(** Whole numbers of contracts an [f32] holds exactly. *)
Definition f32_whole (z : Z) : Prop := Z.abs z < 2 ^ 24.

Lemma f32_of_Z_pos n : f32_whole (Z.pos n) ->
  f32_of_Z (Z.pos n) = S754_finite false (significand n) (Z.pos (digits2_pos n) - 24).
Proof. unfold f32_whole. intros Hn. apply binary_round_exact; lia. Qed.

Lemma f32_of_Z_neg n : f32_whole (Z.neg n) ->
  f32_of_Z (Z.neg n) = S754_finite true (significand n) (Z.pos (digits2_pos n) - 24).
Proof. unfold f32_whole. intros Hn. apply binary_round_exact; lia. Qed.

Lemma binary_normalize_exact x e z : f32_whole z -> -100 < e <= 0 -> x = z * 2 ^ (- e) ->
  binary_normalize 24 128 x e false = f32_of_Z z.
Proof.
  unfold f32_whole. intros Hz He ->. pose proof (Z.pow_pos_nonneg 2 (- e) ltac:(lia) ltac:(lia)) as Hp.
  destruct z as [|n|n]; [done|..]; cbn [binary_normalize].
  - destruct (Z.pos n * 2 ^ (- e)) as [|m|m] eqn:Hm; [lia| |lia].
    rewrite f32_of_Z_pos by done. by apply binary_round_exact; lia.
  - destruct (Z.neg n * 2 ^ (- e)) as [|m|m] eqn:Hm; [lia|lia|].
    rewrite f32_of_Z_neg by done. apply binary_round_exact; lia.
Qed.

Lemma align_whole n e : Z.pos n < 2 ^ 24 -> e <= Z.pos (digits2_pos n) - 24 ->
  Z.pos (shl_align (significand n) (Z.pos (digits2_pos n) - 24) e).1 = Z.pos n * 2 ^ (- e).
Proof.
  intros Hn He. destruct (shl_align_spec (significand n) (Z.pos (digits2_pos n) - 24) e He) as (m' & -> & Hm').
  pose proof (digits_small n Hn).
  cbn [fst]. rewrite Hm', significand_spec, <-Z.mul_assoc, <-Z.pow_add_r by lia. do 2 f_equal. lia.
Qed.

(** The sign and magnitude of a nonzero whole number. *)
Lemma f32_of_Z_cases z : f32_whole z -> z <> 0 ->
  exists s n, z = cond_Zopp s (Z.pos n) /\ Z.pos n < 2 ^ 24 /\ f32_of_Z z = S754_finite s (significand n) (Z.pos (digits2_pos n) - 24).
Proof.
  intros Hz Hz0. destruct z as [|n|n]; [done|exists false, n|exists true, n];
    rewrite ?f32_of_Z_pos, ?f32_of_Z_neg by done; unfold f32_whole in Hz; cbn; split_and!; (done || lia).
Qed.

Lemma f32_neg_whole z : f32_whole z -> z <> 0 -> f32_neg (f32_of_Z z) = f32_of_Z (- z).
Proof.
  intros Hz Hz0. destruct z as [|n|n]; [done|..]; unfold f32_neg.
  - change (- Z.pos n) with (Z.neg n). by rewrite f32_of_Z_pos, f32_of_Z_neg.
  - change (- Z.neg n) with (Z.pos n). by rewrite f32_of_Z_neg, f32_of_Z_pos.
Qed.

Lemma f32_abs_whole z : f32_whole z -> f32_abs (f32_of_Z z) = f32_of_Z (Z.abs z).
Proof.
  intros Hz. destruct z as [|n|n]; [done|..]; unfold f32_abs.
  - change (Z.abs (Z.pos n)) with (Z.pos n). by rewrite f32_of_Z_pos.
  - change (Z.abs (Z.neg n)) with (Z.pos n). by rewrite f32_of_Z_neg, f32_of_Z_pos.
Qed.

Lemma f32_sub_whole a b : f32_whole a -> f32_whole b -> f32_whole (a - b) ->
  f32_sub (f32_of_Z a) (f32_of_Z b) = f32_of_Z (a - b).
Proof.
  intros Ha Hb Hab. unfold f32_sub.
  destruct (decide (a = 0)) as [->|Ha0]; [destruct (decide (b = 0)) as [->|Hb0]; [done|]|].
  - rewrite Z.sub_0_l, <-f32_neg_whole by done. destruct (f32_of_Z_cases b Hb Hb0) as (s & n & _ & _ & ->). done.
  - destruct (f32_of_Z_cases a Ha Ha0) as (s & n & Hn & Hnb & Han). rewrite Han.
    destruct (decide (b = 0)) as [->|Hb0]; [rewrite Z.sub_0_r, Han; by destruct s|].
    destruct (f32_of_Z_cases b Hb Hb0) as (s' & n' & Hn' & Hnb' & ->). cbn [SFsub].
    pose proof (digits_small n Hnb). pose proof (digits_small n' Hnb').
    apply binary_normalize_exact; [done|lia|]. rewrite !align_whole by lia.
    rewrite Hn, Hn'. destruct s, s'; cbn; ring.
Qed.

(** Whole numbers compare as they are. *)
Lemma f32_eqb_whole a b : f32_whole a -> f32_whole b -> f32_eqb (f32_of_Z a) (f32_of_Z b) = (a =? b).
Proof.
  intros Ha Hb. unfold f32_eqb, SFeqb.
  destruct (decide (a = 0)) as [->|Ha0]; [destruct (decide (b = 0)) as [->|Hb0]; [done|]|].
  - destruct (f32_of_Z_cases b Hb Hb0) as (s & n & -> & _ & ->). by destruct s.
  - destruct (f32_of_Z_cases a Ha Ha0) as (s & n & -> & Hnb & ->).
    destruct (decide (b = 0)) as [->|Hb0]; [by destruct s|].
    destruct (f32_of_Z_cases b Hb Hb0) as (s' & n' & -> & Hnb' & ->). cbn [SFcompare].
    assert (Hcmp : n = n' \/ n <> n' /\ ((Z.pos (digits2_pos n) - 24 ?= Z.pos (digits2_pos n') - 24) <> Eq \/
      (significand n ?= significand n')%positive <> Eq)).
    { destruct (decide (n = n')) as [|Hne]; [by left|right; split; [done|]].
      destruct (_ ?= _) eqn:Hc; [right|by left|by left]. intros Hm. apply Hne.
      apply Z.compare_eq in Hc. apply Pos.compare_eq, (f_equal Z.pos) in Hm.
      rewrite !significand_spec in Hm by done.
      assert (Hd : Z.pos (digits2_pos n) = Z.pos (digits2_pos n')) by lia.
      rewrite Hd in Hm. pose proof (digits_small n' Hnb').
      apply Z.mul_reg_r in Hm; [by injection Hm|]. apply Z.pow_nonzero; lia. }
    change (Pos.compare_cont Eq) with Pos.compare.
    destruct Hcmp as [<-|[Hne Hcmp]].
    + rewrite Z.compare_refl, Pos.compare_refl. destruct s, s'; cbn [cond_Zopp CompOpp]; lia.
    + destruct s, s'; cbn [cond_Zopp CompOpp].
      all: destruct (_ ?= _), (significand n ?= significand n')%positive; cbn [CompOpp];
        destruct Hcmp; (lia || done).
Qed.

Lemma f32_sign_whole z : f32_whole z -> f32_is_sign_positive (f32_of_Z z) = (0 <=? z).
Proof. intros Hz. destruct z; [done|by rewrite f32_of_Z_pos|by rewrite f32_of_Z_neg]. Qed.
