(* ===== verification/External.v ===== *)
(** * Interfaces of the third-party crates

    [rust_decimal], [bitcoin], [secp256k1], [hex], [uuid] and [time] are not part
    of this repository.  The development is parametric in them: one class of
    operations per crate, and one class of laws stating the documented behaviour
    the theorems rely on.  [None] in an operation that Rust gives a plain result
    type stands for its documented panic (overflow, division by zero).

    [Demo.v] instantiates every class, so every law is satisfiable. *)

From stdpp Require Import base list option strings pretty.
From Stdlib Require Import ZArith QArith Qabs Qminmax Lia Floats.SpecFloat.
From S2P Require Import Prelude Machine.

#[local] Open Scope Z_scope.

(** ** [rust_decimal] *)

Inductive RoundingStrategy := MidpointAwayFromZero | MidpointTowardZero | MidpointNearestEven.

Class DecimalLib := {
  Decimal : Type;
  d_zero : Decimal;
  d_one : Decimal;
  d_lit : Q -> Decimal;                            (* the [dec!] macro *)
  d_from_u64 : Z -> Decimal;                       (* [Decimal::from] *)
  d_from_i64 : Z -> Decimal;
  d_try_from_u64 : Z -> option Decimal;            (* [FromPrimitive::from_u64] *)
  d_from_f32 : f32 -> option Decimal;
  d_try_from_f32 : f32 -> option Decimal;
  d_try_from_f64 : f64 -> option Decimal;
  d_to_f32 : Decimal -> option f32;
  d_to_f64 : Decimal -> option f64;
  d_to_i64 : Decimal -> option Z;
  d_to_u64 : Decimal -> option Z;
  d_eqb : Decimal -> Decimal -> bool;
  d_ltb : Decimal -> Decimal -> bool;
  d_neg : Decimal -> Decimal;
  d_abs : Decimal -> Decimal;
  d_signum : Decimal -> Decimal;
  d_min : Decimal -> Decimal -> Decimal;
  d_max : Decimal -> Decimal -> Decimal;
  d_is_sign_negative : Decimal -> bool;
  d_add : Decimal -> Decimal -> option Decimal;
  d_sub : Decimal -> Decimal -> option Decimal;
  d_mul : Decimal -> Decimal -> option Decimal;
  d_div : Decimal -> Decimal -> option Decimal;
  d_checked_div : Decimal -> Decimal -> option Decimal;
  d_round_dp : nat -> RoundingStrategy -> Decimal -> Decimal;
  (** The number a decimal denotes; not an operation of the crate, it is what
      its documentation means by the value of a decimal. *)
  dval : Decimal -> Q;
}.

(** [a.cmp(&b)]. *)
Definition d_cmp `{DecimalLib} (a b : Decimal) : comparison :=
  if d_ltb a b then Lt else if d_ltb b a then Gt else Eq.
Definition d_leb `{DecimalLib} (a b : Decimal) : bool := negb (d_ltb b a).
Definition d_is_zero `{DecimalLib} (a : Decimal) : bool := d_eqb a d_zero.

(** [a] denotes the integer [z]. *)
Definition d_int `{DecimalLib} (a : Decimal) (z : Z) : Prop := (dval a == inject_Z z)%Q.

Class DecimalLaws (DL : DecimalLib) : Prop := {
  dval_zero : (dval d_zero == 0)%Q;
  dval_one : (dval d_one == 1)%Q;
  dval_lit q : (dval (d_lit q) == q)%Q;
  dval_from_u64 z : 0 <= z < 2 ^ 64 -> d_int (d_from_u64 z) z;
  d_try_from_u64_spec z : 0 <= z < 2 ^ 64 -> d_try_from_u64 z = Some (d_from_u64 z);
  dval_from_i64 z : - 2 ^ 63 <= z < 2 ^ 63 -> d_int (d_from_i64 z) z;
  d_eqb_spec a b : d_eqb a b = true <-> (dval a == dval b)%Q;
  d_ltb_spec a b : d_ltb a b = true <-> (dval a < dval b)%Q;
  dval_neg a : (dval (d_neg a) == - dval a)%Q;
  dval_abs a : (dval (d_abs a) == Qabs (dval a))%Q;
  dval_min a b : (dval (d_min a b) == Qmin (dval a) (dval b))%Q;
  dval_max a b : (dval (d_max a b) == Qmax (dval a) (dval b))%Q;
  (** The sign bit of a zero may be set, so only these implications hold. *)
  d_sign_neg a : d_is_sign_negative a = true -> (dval a <= 0)%Q;
  d_sign_pos a : d_is_sign_negative a = false -> (0 <= dval a)%Q;
  d_to_i64_int a z : d_int a z -> d_to_i64 a = checked_i64 z;
  (** Adding integers that fit the 96-bit mantissa is exact. *)
  d_add_int a b x y : d_int a x -> d_int b y -> Z.abs (x + y) < 2 ^ 96 ->
    exists c, d_add a b = Some c /\ d_int c (x + y);
  d_sub_int a b x y : d_int a x -> d_int b y -> Z.abs (x - y) < 2 ^ 96 ->
    exists c, d_sub a b = Some c /\ d_int c (x - y);
  d_mul_int a b x y : d_int a x -> d_int b y -> Z.abs (x * y) < 2 ^ 96 ->
    exists c, d_mul a b = Some c /\ d_int c (x * y);
  d_signum_int a z : d_int a z -> d_int (d_signum a) (Z.sgn z);
  d_to_u64_int a z : d_int a z -> d_to_u64 a = checked_u64 z;
  (** The conversion truncates. *)
  d_to_u64_trunc a z : d_to_u64 a = Some z -> 0 <= z < 2 ^ 64 /\ (inject_Z z <= Qmax 0 (dval a))%Q;
  (** Rounding to 28 digits keeps the sign of a difference. *)
  d_sub_sign a b c : d_sub a b = Some c -> (dval c <= 0 <-> dval a <= dval b)%Q;
  d_mul_zero a b : (dval a == 0)%Q -> exists c, d_mul a b = Some c /\ (dval c == 0)%Q;
  (** Arithmetic is sign-magnitude: negating a factor negates the product. *)
  d_mul_neg_r a b : match d_mul a b with
    | Some c => exists c', d_mul a (d_neg b) = Some c' /\ (dval c' == - dval c)%Q
    | None => d_mul a (d_neg b) = None end;
  (** Rounding to [n] places yields a multiple of [10^-n], is symmetric around
      zero and depends on the number only. *)
  d_round_dp_grid n s a : exists z, (dval (d_round_dp n s a) == inject_Z z / inject_Z (10 ^ Z.of_nat n))%Q;
  d_round_dp_neg n s a b : (dval a == - dval b)%Q ->
    (dval (d_round_dp n s a) == - dval (d_round_dp n s b))%Q;
  (** A whole number has no fractional digits to round. *)
  d_round_dp_int n s a z : d_int a z -> d_int (d_round_dp n s a) z;
}.

(** [f32] has seven significant decimal digits: whole numbers that fit them pass
    between [f32] and decimals unchanged. *)
Class DecimalF32Laws (DL : DecimalLib) : Prop := {
  (** [from_f32] and [try_from] are the same conversion. *)
  d_try_from_f32_eq f : d_try_from_f32 f = d_from_f32 f;
  d_from_f32_whole z : Z.abs z < 10 ^ 7 ->
    exists d, d_from_f32 (f32_of_Z z) = Some d /\ d_int d z;
  d_to_f32_whole d z : d_int d z -> 0 < Z.abs z < 10 ^ 7 -> d_to_f32 d = Some (f32_of_Z z);
}.

(** ** [bitcoin::Amount] and [bitcoin::SignedAmount]

    An amount is its number of satoshis, a [u64] for [Amount] and an [i64] for
    [SignedAmount]. *)

Definition Amount : Set := Z.
Definition SignedAmount : Set := Z.

Class BitcoinLib := {
  amount_add : Amount -> Amount -> option Amount;
  amount_checked_sub : Amount -> Amount -> option Amount;
  signed_add : SignedAmount -> SignedAmount -> option SignedAmount;
  signed_sub : SignedAmount -> SignedAmount -> option SignedAmount;
  amount_to_signed : Amount -> option SignedAmount;
  signed_to_unsigned : SignedAmount -> option Amount;
  amount_from_btc : f64 -> option Amount;
  signed_from_btc : f64 -> option SignedAmount;
  amount_to_btc : Amount -> f64;
}.

Class BitcoinLaws (BL : BitcoinLib) : Prop := {
  amount_add_spec x y : 0 <= x < 2 ^ 64 -> 0 <= y < 2 ^ 64 -> amount_add x y = checked_u64 (x + y);
  amount_checked_sub_spec x y : 0 <= x < 2 ^ 64 -> 0 <= y < 2 ^ 64 ->
    amount_checked_sub x y = if y <=? x then Some (x - y) else None;
  signed_add_spec x y : in_i64 x = true -> in_i64 y = true -> signed_add x y = checked_i64 (x + y);
  signed_sub_spec x y : in_i64 x = true -> in_i64 y = true -> signed_sub x y = checked_i64 (x - y);
  amount_to_signed_spec x : 0 <= x < 2 ^ 64 -> amount_to_signed x = checked_i64 x;
  signed_to_unsigned_spec x : in_i64 x = true ->
    signed_to_unsigned x = if 0 <=? x then Some x else None;
  amount_from_btc_range f x : amount_from_btc f = Some x -> 0 <= x < 2 ^ 64;
}.

(** All the bitcoin there will ever be, in satoshis. *)
Definition MAX_MONEY : Z := 21 * 10 ^ 14.

(** A decimal number of bitcoin on the satoshi grid, passed through [f64] to
    [from_btc], arrives as that number of satoshis. *)
Class BtcDecimalLaws (DL : DecimalLib) (BL : BitcoinLib) : Prop := {
  signed_from_btc_grid a z : (dval a == inject_Z z / inject_Z (10 ^ 8))%Q -> Z.abs z <= MAX_MONEY ->
    exists f, d_to_f64 a = Some f /\ signed_from_btc f = Some z;
  amount_from_btc_grid a z : (dval a == inject_Z z / inject_Z (10 ^ 8))%Q -> 0 <= z <= MAX_MONEY ->
    exists f, d_to_f64 a = Some f /\ amount_from_btc f = Some z;
}.

(** [bitcoin::Network]. *)
Inductive Network := Bitcoin | Testnet | Signet | Regtest.

#[export] Instance Network_eq_dec : EqDecision Network.
Proof. solve_decision. Defined.

(** ** Identifiers: [secp256k1], [hex], [uuid] *)

(** A UUID is a 128-bit number; contract ids and DLC channel ids are [[u8; 32]]. *)
Definition Uuid : Set := Z.
Definition Id32 : Set := list Byte.byte.
Definition ContractId : Set := Id32.
Definition DlcChannelId : Set := Id32.

(** [dlc_manager::ReferenceId], [[u8; 32]]. *)
Definition ReferenceId : Set := list Byte.byte.

#[export] Instance byte_eq_dec : EqDecision Byte.byte := Byte.byte_eq_dec.

Class IdLib := {
  PublicKey : Type;
  PublicKey_eq_dec :: EqDecision PublicKey;
  XOnlyPublicKey : Type;
  XOnlyPublicKey_eq_dec :: EqDecision XOnlyPublicKey;
  pk_to_string : PublicKey -> string;
  pk_from_str : string -> option PublicKey;
  hex_encode : Id32 -> string;
  hex_decode : string -> option Id32;            (* [<[u8; 32]>::from_hex] *)
  uuid_to_string : Uuid -> string;
  uuid_parse_str : string -> option Uuid;
  uuid_as_bytes : Uuid -> list Byte.byte;
  uuid_from_slice : list Byte.byte -> option Uuid;
  hex_encode_bytes : list Byte.byte -> list Byte.byte;   (* [hex::encode(..).as_bytes()] *)
  hex_decode_bytes : list Byte.byte -> option (list Byte.byte);
  from_utf8 : list Byte.byte -> option (list Byte.byte); (* validates, keeps the bytes *)
}.

Class IdLaws (IL : IdLib) : Prop := {
  pk_roundtrip pk : pk_from_str (pk_to_string pk) = Some pk;
  hex_roundtrip id : length id = 32%nat -> hex_decode (hex_encode id) = Some id;
  uuid_parse_roundtrip u : uuid_parse_str (uuid_to_string u) = Some u;
  uuid_bytes_length u : length (uuid_as_bytes u) = 16%nat;
  uuid_bytes_roundtrip u : 0 <= u < 2 ^ 128 -> uuid_from_slice (uuid_as_bytes u) = Some u;
  hex_bytes_length l : length (hex_encode_bytes l) = (2 * length l)%nat;
  hex_bytes_roundtrip l : hex_decode_bytes (hex_encode_bytes l) = Some l;
  hex_is_utf8 l : from_utf8 (hex_encode_bytes l) = Some (hex_encode_bytes l);
}.

Lemma pk_to_string_inj `{IdLaws} (p q : PublicKey) : pk_to_string p = pk_to_string q -> p = q.
Proof. intros Heq. apply (inj Some). by rewrite <-!pk_roundtrip, Heq. Qed.

Lemma uuid_to_string_inj `{IdLaws} (u v : Uuid) : uuid_to_string u = uuid_to_string v -> u = v.
Proof. intros Heq. apply (inj Some). by rewrite <-!uuid_parse_roundtrip, Heq. Qed.

(** ** [time]

    A UTC [OffsetDateTime] is its number of nanoseconds since the Unix epoch. *)

Definition OffsetDateTime : Set := Z.
Definition NANOS_PER_SEC : Z := 10 ^ 9.
Definition NANOS_PER_HOUR : Z := 3600 * NANOS_PER_SEC.
Definition NANOS_PER_DAY : Z := 24 * NANOS_PER_HOUR.

(** [OffsetDateTime::unix_timestamp], and [OffsetDateTime::from_unix_timestamp], whose
    range is the years -9999 to 9999. *)
Definition unix_timestamp (t : OffsetDateTime) : Z := t / NANOS_PER_SEC.
Definition from_unix_timestamp (secs : Z) : option OffsetDateTime :=
  if (-377705116800 <=? secs) && (secs <=? 253402300799) then Some (secs * NANOS_PER_SEC) else None.

(** A time that can be written as a Unix timestamp, and what is read back. *)
Definition is_datetime (t : OffsetDateTime) : Prop := -377705116800 <= unix_timestamp t <= 253402300799.
Definition whole_seconds (t : OffsetDateTime) : OffsetDateTime := unix_timestamp t * NANOS_PER_SEC.

Lemma from_unix_timestamp_roundtrip t : is_datetime t ->
  from_unix_timestamp (unix_timestamp t) = Some (whole_seconds t).
Proof. unfold is_datetime, from_unix_timestamp. intros Ht. by case_match; [|lia]. Qed.

Inductive Weekday := Monday | Tuesday | Wednesday | Thursday | Friday | Saturday | Sunday.

#[export] Instance Weekday_eq_dec : EqDecision Weekday.
Proof. solve_decision. Defined.

Class TimeLib := {
  Date : Type;
  odt_date : OffsetDateTime -> Date;
  odt_weekday : OffsetDateTime -> Weekday;
  odt_time : OffsetDateTime -> Z;                       (* nanoseconds into the day *)
  number_from_monday : Weekday -> Z;
  date_add_days : Date -> Z -> Date;
  date_with_hms : Date -> Z -> Z -> Z -> option OffsetDateTime;
  date_midnight : Date -> OffsetDateTime;
  (** The day a date denotes, counted from the Unix epoch (not an operation). *)
  date_day : Date -> Z;
}.

(** The weekday of a day counted from the epoch: 1970-01-01 was a Thursday. *)
Definition day_of_week (day : Z) : Weekday :=
  match (day + 3) mod 7 with
  | 0 => Monday | 1 => Tuesday | 2 => Wednesday | 3 => Thursday
  | 4 => Friday | 5 => Saturday | _ => Sunday
  end.

Class TimeLaws (TL : TimeLib) : Prop := {
  odt_date_spec t : date_day (odt_date t) = t / NANOS_PER_DAY;
  odt_weekday_spec t : odt_weekday t = day_of_week (t / NANOS_PER_DAY);
  odt_time_spec t : odt_time t = t mod NANOS_PER_DAY;
  number_from_monday_spec d : number_from_monday (day_of_week d) = (d + 3) mod 7 + 1;
  date_add_days_spec d n : date_day (date_add_days d n) = date_day d + n;
  date_with_hms_spec d h m s : 0 <= h < 24 -> 0 <= m < 60 -> 0 <= s < 60 ->
    date_with_hms d h m s =
      Some (date_day d * NANOS_PER_DAY + (h * 3600 + m * 60 + s) * NANOS_PER_SEC);
  date_midnight_spec d : date_midnight d = date_day d * NANOS_PER_DAY;
}.

(** ** [serde_json] and [sha2] *)

(** [serde_json::to_string] and [serde_json::from_str] at one type. *)
Class JsonLib (T : Type) := {
  json_to_string : T -> option string;
  json_from_str : string -> option T;
}.

(** The text a value is written as reads back as that value.  Some values have no
    such text: JSON has no NaN, for example. *)
Definition json_roundtrips `{JsonLib T} (v : T) : Prop :=
  forall s, json_to_string v = Some s -> json_from_str s = Some v.

(** The digest [Sha256] of a text, in bytes. *)
Class HashLib := { sha256 : string -> list Byte.byte }.

(** [bitcoin::Address]: displayed, parsed, and checked to be of the node's network;
    without that check ([Address::new]); [Amount::from_str_in(.., Satoshi)]. *)
Class AddressLib := {
  Address : Type;
  address_to_string : Address -> string;
  UncheckedAddress : Type;
  as_unchecked : Address -> UncheckedAddress;
  address_from_str : string -> option UncheckedAddress;
  require_network : UncheckedAddress -> option Address;
  amount_from_sat_str : string -> option Amount;
}.
Class AddressLaws (AL : AddressLib) : Prop := {
  require_network_unchecked a : require_network (as_unchecked a) = Some a;
  address_roundtrip a : address_from_str (address_to_string a) ≫= require_network = Some a;
  amount_from_sat_str_ok z : 0 <= z < 2 ^ 63 -> amount_from_sat_str (pretty z) = Some z;
}.

(** ** [semver] *)

Module Version.
Record t := mk { major : Z; minor : Z; patch : Z; pre : string; build : string }.
End Version.

Inductive Op := Exact | GreaterEq.

Module Comparator.
Record t := mk { op : Op; major : Z; minor : option Z; patch : option Z }.
End Comparator.

Class SemverLib := {
  version_parse : string -> option Version.t;                     (* [Version::parse] *)
  req_matches : list Comparator.t -> Version.t -> bool;           (* [VersionReq::matches] *)
}.

(** How the crate documents a comparator on a release (no pre-release tag): an
    omitted part of [=] matches anything; [>=] compares with omitted parts zero. *)
Definition comparator_matches (v : Version.t) (c : Comparator.t) : bool :=
  match Comparator.op c with
  | Exact =>
    (Version.major v =? Comparator.major c)
    && match Comparator.minor c with Some n => Version.minor v =? n | None => true end
    && match Comparator.patch c with Some n => Version.patch v =? n | None => true end
  | GreaterEq =>
    let minor := default 0 (Comparator.minor c) in
    let patch := default 0 (Comparator.patch c) in
    (Comparator.major c <? Version.major v)
    || (Version.major v =? Comparator.major c)
       && ((minor <? Version.minor v) || (Version.minor v =? minor) && (patch <=? Version.patch v))
  end.

Class SemverLaws (SL : SemverLib) : Prop := {
  req_matches_release cs v : Version.pre v = EmptyString ->
    req_matches cs v = forallb (comparator_matches v) cs;
}.

(** ** Derived facts about decimals *)

Section Decimals.
Context `{DLaws : DecimalLaws}.

Lemma d_ltb_nspec a b : d_ltb a b = false <-> (dval b <= dval a)%Q.
Proof.
  rewrite <-not_true_iff_false, d_ltb_spec. split; [apply Qnot_lt_le|].
  intros Hle Hlt. by apply (Qle_not_lt _ _ Hle).
Qed.

Lemma d_leb_spec a b : d_leb a b = true <-> (dval a <= dval b)%Q.
Proof. unfold d_leb. by rewrite negb_true_iff, d_ltb_nspec. Qed.

Lemma d_cmp_lt a b : d_cmp a b = Lt <-> (dval a < dval b)%Q.
Proof.
  unfold d_cmp. destruct (d_ltb a b) eqn:Hab; [by rewrite <-d_ltb_spec|].
  destruct (d_ltb b a) eqn:Hba; split; try done; rewrite <-d_ltb_spec; congruence.
Qed.

Lemma d_cmp_gt a b : d_cmp a b = Gt <-> (dval b < dval a)%Q.
Proof.
  unfold d_cmp. destruct (d_ltb a b) eqn:Hab.
  - split; [done|]. apply d_ltb_spec in Hab. intros Hba. by destruct (Qlt_not_le _ _ Hab (Qlt_le_weak _ _ Hba)).
  - rewrite <-d_ltb_spec. by destruct (d_ltb b a).
Qed.

Lemma d_cmp_eq a b : d_cmp a b = Eq <-> (dval a == dval b)%Q.
Proof.
  split.
  - unfold d_cmp. destruct (d_ltb a b) eqn:Hab; [done|]. destruct (d_ltb b a) eqn:Hba; [done|].
    intros _. apply Qle_antisym; by apply d_ltb_nspec.
  - intros Heq. destruct (d_cmp a b) eqn:Hc; [done| |].
    + apply d_cmp_lt in Hc. rewrite Heq in Hc. by apply Qlt_irrefl in Hc.
    + apply d_cmp_gt in Hc. rewrite Heq in Hc. by apply Qlt_irrefl in Hc.
Qed.

Lemma d_int_inj a x y : d_int a x -> d_int a y -> x = y.
Proof. unfold d_int. intros Hx Hy. apply inject_Z_injective. by rewrite <-Hx, <-Hy. Qed.

Lemma d_int_neg a z : d_int a z -> d_int (d_neg a) (- z).
Proof. unfold d_int. intros Hz. rewrite dval_neg, Hz. by rewrite inject_Z_opp. Qed.

Lemma d_int_abs a z : d_int a z -> d_int (d_abs a) (Z.abs z).
Proof.
  unfold d_int. intros Hz. rewrite dval_abs, Hz. reflexivity.
Qed.

Lemma d_int_ltb a b x y : d_int a x -> d_int b y -> d_ltb a b = (x <? y).
Proof.
  unfold d_int. intros Hx Hy. apply eq_true_iff_eq. by rewrite d_ltb_spec, Z.ltb_lt, Zlt_Qlt, Hx, Hy.
Qed.

Lemma d_int_eqb a b x y : d_int a x -> d_int b y -> d_eqb a b = (x =? y).
Proof.
  unfold d_int. intros Hx Hy. apply eq_true_iff_eq.
  by rewrite d_eqb_spec, Z.eqb_eq, <-inject_Z_injective, Hx, Hy.
Qed.

Lemma d_int_zero : d_int d_zero 0.
Proof. apply dval_zero. Qed.

Lemma d_int_is_zero a z : d_int a z -> d_is_zero a = (z =? 0).
Proof. intros Ha. apply d_int_eqb; [done|apply d_int_zero]. Qed.

Lemma d_int_min a b x y : d_int a x -> d_int b y -> d_int (d_min a b) (Z.min x y).
Proof.
  unfold d_int. intros Hx Hy. rewrite dval_min, Hx, Hy.
  destruct (Z.min_spec x y) as [[? ->]|[? ->]].
  - apply Q.min_l. rewrite <-Zle_Qle. lia.
  - apply Q.min_r. by rewrite <-Zle_Qle.
Qed.

Lemma d_int_max a b x y : d_int a x -> d_int b y -> d_int (d_max a b) (Z.max x y).
Proof.
  unfold d_int. intros Hx Hy. rewrite dval_max, Hx, Hy.
  destruct (Z.max_spec x y) as [[? ->]|[? ->]].
  - apply Q.max_r. rewrite <-Zle_Qle. lia.
  - apply Q.max_l. by rewrite <-Zle_Qle.
Qed.

Lemma d_int_sign_neg a z : d_int a z -> d_is_sign_negative a = true -> z <= 0.
Proof. unfold d_int. intros Hz Hs. apply d_sign_neg in Hs. rewrite Hz in Hs. by rewrite Zle_Qle. Qed.

Lemma d_int_sign_pos a z : d_int a z -> d_is_sign_negative a = false -> 0 <= z.
Proof. unfold d_int. intros Hz Hs. apply d_sign_pos in Hs. rewrite Hz in Hs. by rewrite Zle_Qle. Qed.

Lemma d_round_int s a : exists z, d_int (d_round_dp 0 s a) z.
Proof.
  destruct (d_round_dp_grid 0 s a) as [z Hz]. exists z. unfold d_int. rewrite Hz.
  change (inject_Z z / 1 == inject_Z z)%Q. field.
Qed.
End Decimals.

(** ** Inversions of the operations on amounts *)

Section Amounts.
Context `{BLaws : BitcoinLaws}.

Lemma amount_add_inv x y z : 0 <= x < 2 ^ 64 -> 0 <= y < 2 ^ 64 -> amount_add x y = Some z ->
  z = x + y /\ 0 <= z < 2 ^ 64.
Proof.
  intros Hx Hy. rewrite amount_add_spec by done. unfold checked_u64. case_match; [|done].
  intros [= <-]. split; [done|by apply in_u64_spec].
Qed.

Lemma amount_checked_sub_inv x y z : 0 <= x < 2 ^ 64 -> 0 <= y < 2 ^ 64 ->
  amount_checked_sub x y = Some z -> z = x - y /\ 0 <= z < 2 ^ 64.
Proof.
  intros Hx Hy. rewrite amount_checked_sub_spec by done. destruct (y <=? x) eqn:Hle; [|done].
  intros [= <-]. lia.
Qed.

Lemma amount_to_signed_inv x z : 0 <= x < 2 ^ 64 -> amount_to_signed x = Some z ->
  z = x /\ 0 <= z < 2 ^ 63.
Proof.
  intros Hx. rewrite amount_to_signed_spec by done. unfold checked_i64.
  destruct (in_i64 x) eqn:Hin; [|done]. intros [= <-]. apply in_i64_spec in Hin. lia.
Qed.

Lemma signed_to_unsigned_inv x z : - 2 ^ 63 <= x < 2 ^ 63 -> signed_to_unsigned x = Some z ->
  z = x /\ 0 <= z < 2 ^ 63.
Proof.
  intros Hx%in_i64_spec. rewrite signed_to_unsigned_spec by done.
  destruct (0 <=? x) eqn:Hle; [|done]. intros [= <-]. apply in_i64_spec in Hx. lia.
Qed.

Lemma signed_add_inv x y z : - 2 ^ 63 <= x < 2 ^ 63 -> - 2 ^ 63 <= y < 2 ^ 63 ->
  signed_add x y = Some z -> z = x + y /\ - 2 ^ 63 <= z < 2 ^ 63.
Proof.
  intros Hx%in_i64_spec Hy%in_i64_spec. rewrite signed_add_spec by done. unfold checked_i64.
  case_match; [|done]. intros [= <-]. split; [done|by apply in_i64_spec].
Qed.

Lemma signed_sub_inv x y z : - 2 ^ 63 <= x < 2 ^ 63 -> - 2 ^ 63 <= y < 2 ^ 63 ->
  signed_sub x y = Some z -> z = x - y /\ - 2 ^ 63 <= z < 2 ^ 63.
Proof.
  intros Hx%in_i64_spec Hy%in_i64_spec. rewrite signed_sub_spec by done. unfold checked_i64.
  case_match; [|done]. intros [= <-]. split; [done|by apply in_i64_spec].
Qed.
End Amounts.

(** Replaces the operations on amounts in the hypotheses by the sums they compute,
    in the order in which their operands become known. *)
Ltac amounts :=
  repeat match goal with
  | H : amount_add _ _ = Some _ |- _ => apply amount_add_inv in H as [? ?]; [|lia..]
  | H : amount_checked_sub _ _ = Some _ |- _ => apply amount_checked_sub_inv in H as [? ?]; [|lia..]
  | H : amount_to_signed _ = Some _ |- _ => apply amount_to_signed_inv in H as [? ?]; [|lia..]
  | H : signed_to_unsigned _ = Some _ |- _ => apply signed_to_unsigned_inv in H as [? ?]; [|lia..]
  | H : signed_add _ _ = Some _ |- _ => apply signed_add_inv in H as [? ?]; [|lia..]
  | H : signed_sub _ _ = Some _ |- _ => apply signed_sub_inv in H as [? ?]; [|lia..]
  end.

(** ** Decimal arithmetic in the outcome monad: the panicking operators *)

Declare Scope decimal_scope.
Delimit Scope decimal_scope with D.
Notation "a +! b" := (expect (d_add a b)) (at level 50, left associativity) : decimal_scope.
Notation "a -! b" := (expect (d_sub a b)) (at level 50, left associativity) : decimal_scope.
Notation "a *! b" := (expect (d_mul a b)) (at level 40, left associativity) : decimal_scope.
Notation "a /! b" := (expect (d_div a b)) (at level 40, left associativity) : decimal_scope.
