(* ===== verification/Sorting.v ===== *)
(** * [slice::sort_by]

    The standard library's stable sort by a comparison function, as insertion
    sort, with its contract: the result is sorted, a permutation of the input,
    and equal elements keep their order. *)

From stdpp Require Import base list option sorting.
From Stdlib Require Import Sorting.Sorted.
From S2P Require Import Prelude.

Section SortBy.
Context {A : Type} (cmp : A -> A -> comparison).

Fixpoint insert_by (x : A) (l : list A) : list A :=
  match l with
  | [] => [x]
  | y :: l => match cmp x y with Gt => y :: insert_by x l | _ => x :: y :: l end
  end.

Fixpoint sort_by (l : list A) : list A :=
  match l with [] => [] | x :: l => insert_by x (sort_by l) end.

(** [x] may stand before [y]. *)
Definition not_after (x y : A) : Prop := cmp x y <> Gt.

(** What [sort_by] asks of the comparison: a total preorder. *)
Class CmpOrder : Prop := {
  cmp_antisym x y : cmp y x = CompOpp (cmp x y);
  cmp_trans x y z : not_after x y -> not_after y z -> not_after x z;
}.

Lemma insert_by_permutation x l : insert_by x l ≡ₚ x :: l.
Proof.
  induction l as [|y l IH]; cbn; [done|]. destruct (cmp x y); try done.
  rewrite IH. apply Permutation_swap.
Qed.

Lemma sort_by_permutation l : sort_by l ≡ₚ l.
Proof. induction l as [|x l IH]; cbn; [done|]. by rewrite insert_by_permutation, IH. Qed.

Context `{!CmpOrder}.

Lemma cmp_gt_flip x y : cmp x y = Gt -> not_after y x.
Proof. intros Hgt. unfold not_after. by rewrite cmp_antisym, Hgt. Qed.

Lemma insert_by_sorted x l : StronglySorted not_after l -> StronglySorted not_after (insert_by x l).
Proof.
  induction 1 as [|y l Hl IH Hall]; cbn; [by repeat constructor|].
  destruct (cmp x y) eqn:Hxy; [| |].
  1, 2: assert (not_after x y) by (unfold not_after; congruence);
    repeat constructor; try done; eapply Forall_impl; [done|]; cbn; eauto using cmp_trans.
  constructor; [done|]. rewrite insert_by_permutation. constructor; [by apply cmp_gt_flip|done].
Qed.

Lemma sort_by_sorted l : StronglySorted not_after (sort_by l).
Proof. induction l; cbn; [constructor|]. by apply insert_by_sorted. Qed.

(** The first element of the sorted list comes after no other. *)
Lemma sort_by_head l x rest : sort_by l = x :: rest -> Forall (not_after x) rest.
Proof. intros Hs. pose proof (sort_by_sorted l) as Hl. rewrite Hs in Hl. by inversion Hl. Qed.

(** Stability: among the elements that compare equal to [k], the order is kept. *)
Definition same_rank (k x : A) : bool := match cmp k x with Eq => true | _ => false end.

Lemma same_rank_gt k x y : same_rank k x = true -> cmp x y = Gt -> same_rank k y = false.
Proof.
  unfold same_rank. intros Hx Hxy. destruct (cmp k x) eqn:Hkx; try done.
  destruct (cmp k y) eqn:Hky; try done.
  assert (not_after x y) as []; [|done]. apply (cmp_trans x k y).
  - unfold not_after. by rewrite cmp_antisym, Hkx.
  - unfold not_after. congruence.
Qed.

Lemma insert_by_stable k x l :
  List.filter (same_rank k) (insert_by x l) = List.filter (same_rank k) (x :: l).
Proof.
  induction l as [|y l IH]; [done|]. cbn [insert_by]. destruct (cmp x y) eqn:Hxy; try done.
  cbn [List.filter] in *. rewrite IH. destruct (same_rank k x) eqn:Hx; [|done].
  by rewrite (same_rank_gt k x y Hx Hxy).
Qed.

Lemma sort_by_stable k l : List.filter (same_rank k) (sort_by l) = List.filter (same_rank k) l.
Proof.
  induction l as [|x l IH]; [done|]. cbn [sort_by]. rewrite insert_by_stable. cbn.
  by rewrite IH.
Qed.

(** The first element of a sorted list that passes a test comes after no other
    one that does. *)
Lemma sorted_find p l x : StronglySorted not_after l -> List.find p l = Some x ->
  x ∈ l /\ p x = true /\ forall y, y ∈ l -> p y = true -> y = x \/ not_after x y.
Proof.
  induction 1 as [|z l Hl IH Hall]; cbn; [done|]. destruct (p z) eqn:Hz.
  - intros [= <-]. split_and!; [constructor|done|].
    intros y [->|Hy]%elem_of_cons _; [by left|]. right. by eapply Forall_forall in Hall.
  - intros (Hx & Hp & Hmin)%IH. split_and!; [by constructor|done|].
    intros y [->|Hy]%elem_of_cons Hpy; [congruence|by apply Hmin].
Qed.

Lemma sort_by_find p l x : List.find p (sort_by l) = Some x ->
  x ∈ l /\ p x = true /\ forall y, y ∈ l -> p y = true -> y = x \/ not_after x y.
Proof.
  intros (Hx & Hp & Hmin)%(sorted_find p _ _ (sort_by_sorted l)).
  rewrite sort_by_permutation in Hx. split_and!; [done..|].
  intros y Hy. apply Hmin. by rewrite sort_by_permutation.
Qed.

Lemma sort_by_find_none p l : List.find p (sort_by l) = None -> forall y, y ∈ l -> p y = false.
Proof.
  intros Hnone y Hy. eapply find_none; [done|]. apply list_elem_of_In.
  by rewrite sort_by_permutation.
Qed.
End SortBy.
