(* ===== verification/Demo.v ===== *)
(** * A concrete instance of every interface

    Decimals are rationals with the documented overflow and division-by-zero
    panics, public keys are strings, dates are day counts.  The instance shows
    that the laws of [External.v] can hold together, and the witnesses evaluate
    the model with it. *)

From stdpp Require Import base list option strings.
From Stdlib Require Import ZArith QArith Qabs Qminmax Qround Lia Lqa Floats.SpecFloat Ascii.
From S2P Require Import Prelude Machine Floats External.

#[local] Open Scope Z_scope.

(** ** Rounding rationals *)

(** Nearest integer, halves away from zero. *)
Definition qround (q : Q) : Z :=
  if Qlt_le_dec q 0 then - Qfloor (- q + (1 # 2))%Q else Qfloor (q + (1 # 2))%Q.

Lemma Qfloor_unique q z : (inject_Z z <= q)%Q -> (q < inject_Z (z + 1))%Q -> Qfloor q = z.
Proof.
  intros Hle Hlt. pose proof (Qfloor_le q) as H1. pose proof (Qlt_floor q) as H2.
  assert (inject_Z z < inject_Z (Qfloor q + 1))%Q as Ha by lra.
  assert (inject_Z (Qfloor q) < inject_Z (z + 1))%Q as Hb by lra.
  rewrite <-Zlt_Qlt in Ha, Hb. lia.
Qed.

Lemma qround_unique q z : (Qabs (q - inject_Z z) < 1 # 2)%Q -> qround q = z.
Proof.
  intros H. apply Qabs_Qlt_condition in H as [H1 H2]. unfold qround.
  destruct (Qlt_le_dec q 0) as [Hq|Hq].
  - rewrite (Qfloor_unique _ (- z)); [lia| |]; rewrite ?inject_Z_plus, inject_Z_opp; change (inject_Z 1) with 1%Q; lra.
  - apply Qfloor_unique; rewrite ?inject_Z_plus; change (inject_Z 1) with 1%Q; lra.
Qed.

Lemma qround_near q : (Qabs (q - inject_Z (qround q)) <= 1 # 2)%Q.
Proof.
  unfold qround. apply Qabs_Qle_condition. destruct (Qlt_le_dec q 0) as [Hq|Hq].
  - pose proof (Qfloor_le (- q + (1 # 2))). pose proof (Qlt_floor (- q + (1 # 2))) as H2.
    rewrite inject_Z_plus in H2. change (inject_Z 1) with 1%Q in H2. rewrite inject_Z_opp. split; lra.
  - pose proof (Qfloor_le (q + (1 # 2))). pose proof (Qlt_floor (q + (1 # 2))) as H2.
    rewrite inject_Z_plus in H2. change (inject_Z 1) with 1%Q in H2. split; lra.
Qed.

(** ** Decimals as rationals *)

Definition round_abs (s : RoundingStrategy) (x : Q) : Z :=
  let fl := Qfloor x in
  match ((x - inject_Z fl) ?= (1 # 2))%Q with
  | Lt => fl
  | Gt => fl + 1
  | Eq => match s with
          | MidpointAwayFromZero => fl + 1
          | MidpointTowardZero => fl
          | MidpointNearestEven => if Z.even fl then fl else fl + 1
          end
  end.

Definition q_round_dp (n : nat) (s : RoundingStrategy) (q : Q) : Q :=
  let p := inject_Z (10 ^ Z.of_nat n) in
  let r := inject_Z (round_abs s (Qabs q * p)) in
  Qred (if Qlt_le_dec q 0 then - r / p else r / p).

Definition qtrunc (q : Q) : Z := Z.quot (Qnum q) (Zpos (Qden q)).

(** The 96-bit mantissa bounds the magnitude. *)
Definition q_fit (q : Q) : option Q :=
  if Qle_bool (Qabs q) (inject_Z (2 ^ 96 - 1)) then Some (Qred q) else None.

Definition sf_to_Q (x : spec_float) : option Q :=
  match x with
  | S754_zero _ => Some 0%Q
  | S754_finite s m e => Some (Qred (inject_Z (if s then Zneg m else Zpos m) *
      (if 0 <=? e then inject_Z (2 ^ e) else / inject_Z (2 ^ (- e))))%Q)
  | _ => None
  end.

(** Binary places kept when a decimal becomes an [f64]. *)
Definition q_to_f64 (q : Q) : f64 :=
  match qround (q * inject_Z (2 ^ 27)) with
  | Z0 => S754_zero false
  | Zpos p => S754_finite false p (-27)
  | Zneg p => S754_finite true p (-27)
  end.

Definition q_to_f32 (q : Q) : f32 :=
  let q := Qred q in
  if Pos.eqb (Qden q) 1 then f32_of_Z (Qnum q)
  else SFdiv 24 128 (f32_of_Z (Qnum q)) (f32_of_Z (Zpos (Qden q))).

#[export] Instance demo_decimal : DecimalLib := {|
  Decimal := Q;
  d_zero := 0%Q;
  d_one := 1%Q;
  d_lit q := q;
  d_from_u64 z := inject_Z z;
  d_from_i64 z := inject_Z z;
  d_try_from_u64 z := Some (inject_Z z);
  d_from_f32 := sf_to_Q;
  d_try_from_f32 := sf_to_Q;
  d_try_from_f64 := sf_to_Q;
  d_to_f32 q := Some (q_to_f32 q);
  d_to_f64 q := Some (q_to_f64 q);
  d_to_i64 q := checked_i64 (qtrunc q);
  d_to_u64 q := checked_u64 (qtrunc q);
  d_eqb a b := Qeq_bool a b;
  d_ltb a b := negb (Qle_bool b a);
  d_neg a := Qopp a;
  d_abs a := Qabs a;
  d_signum a := inject_Z (Z.sgn (Qnum a));
  d_min a b := if Qle_bool a b then a else b;
  d_max a b := if Qle_bool a b then b else a;
  d_is_sign_negative a := negb (Qle_bool 0 a);
  d_add a b := q_fit (a + b);
  d_sub a b := q_fit (a - b);
  d_mul a b := q_fit (a * b);
  d_div a b := if Qeq_bool b 0 then None else q_fit (a / b);
  d_checked_div a b := if Qeq_bool b 0 then None else q_fit (a / b);
  d_round_dp := q_round_dp;
  dval a := a;
|}.

#[export] Instance round_abs_proper s : Proper (Qeq ==> eq) (round_abs s).
Proof.
  intros x y Hxy. unfold round_abs. rewrite (Qfloor_comp _ _ Hxy).
  assert ((x - inject_Z (Qfloor y) ?= 1 # 2) = (y - inject_Z (Qfloor y) ?= 1 # 2))%Q as ->; [|done].
  apply Qcompare_comp; [by rewrite Hxy|reflexivity].
Qed.

Lemma pow10_nonzero n : ~ (inject_Z (10 ^ Z.of_nat n) == 0)%Q.
Proof.
  intros H. apply (proj1 (inject_Z_injective _ 0)) in H.
  pose proof (Z.pow_pos_nonneg 10 (Z.of_nat n) ltac:(lia) ltac:(lia)) as Hp.
  rewrite H in Hp. discriminate Hp.
Qed.

Lemma q_round_dp_neg n s a b : (a == - b)%Q -> (q_round_dp n s a == - q_round_dp n s b)%Q.
Proof.
  intros Hab. unfold q_round_dp. rewrite !Qred_correct. pose proof (pow10_nonzero n) as Hp.
  assert (round_abs s (Qabs a * inject_Z (10 ^ Z.of_nat n)) = round_abs s (Qabs b * inject_Z (10 ^ Z.of_nat n))) as ->.
  { apply round_abs_proper. rewrite Hab, Qabs_opp. reflexivity. }
  destruct (Qlt_le_dec a 0), (Qlt_le_dec b 0); [lra|field; done|field; done|].
  assert (b == 0)%Q as Hb by lra.
  assert (round_abs s (Qabs b * inject_Z (10 ^ Z.of_nat n)) = 0) as ->; [|field; done].
  rewrite (round_abs_proper s _ 0%Q); [by destruct s|]. rewrite Hb. apply Qmult_0_l.
Qed.

Lemma q_round_dp_int n s a z : (a == inject_Z z)%Q -> (q_round_dp n s a == inject_Z z)%Q.
Proof.
  intros Ha. unfold q_round_dp. rewrite Qred_correct. pose proof (pow10_nonzero n) as Hp.
  assert (Hr : round_abs s (Qabs a * inject_Z (10 ^ Z.of_nat n)) = Z.abs z * 10 ^ Z.of_nat n).
  { rewrite (round_abs_proper s _ (inject_Z (Z.abs z * 10 ^ Z.of_nat n)));
      [|rewrite Ha, inject_Z_mult; reflexivity].
    unfold round_abs. rewrite Qfloor_Z. replace (_ ?= 1 # 2)%Q with Lt; [done|].
    symmetry. apply Qlt_alt. set (x := inject_Z _). assert (x - x == 0)%Q as -> by ring. reflexivity. }
  rewrite Hr, inject_Z_mult. destruct (Qlt_le_dec a 0) as [Hlt|Hle].
  - assert (z < 0) by (rewrite Zlt_Qlt; by setoid_rewrite <-Ha). rewrite Z.abs_neq, inject_Z_opp by lia. by field.
  - assert (0 <= z) by (rewrite Zle_Qle; by setoid_rewrite <-Ha). rewrite Z.abs_eq by lia. by field.
Qed.

Lemma qtrunc_int q z : (q == inject_Z z)%Q -> qtrunc q = z.
Proof.
  unfold qtrunc, Qeq, inject_Z. cbn. rewrite Z.mul_1_r. intros ->.
  rewrite Z.quot_mul; [done|lia].
Qed.

Lemma q_fit_some q c : q_fit q = Some c -> (c == q)%Q.
Proof. unfold q_fit. destruct (Qle_bool _ _); [|done]. intros [= <-]. apply Qred_correct. Qed.

Lemma q_fit_opp a b : (a == - b)%Q -> match q_fit b with
  | Some c => exists c', q_fit a = Some c' /\ (c' == - c)%Q | None => q_fit a = None end.
Proof.
  intros Hab. unfold q_fit.
  assert (Qabs a == Qabs b)%Q as Habs by (rewrite Hab; apply Qabs_opp). rewrite (Qleb_comp _ _ Habs _ _ (Qeq_refl _)).
  destruct (Qle_bool _ _); [|done]. eexists. split; [done|]. by rewrite !Qred_correct.
Qed.

Lemma inject_Z_minus x y : (inject_Z (x - y) == inject_Z x - inject_Z y)%Q.
Proof. unfold Z.sub. rewrite inject_Z_plus, inject_Z_opp. reflexivity. Qed.

(** Whole numbers of at most 96 bits are exact. *)
Lemma q_fit_int q z : (q == inject_Z z)%Q -> Z.abs z < 2 ^ 96 ->
  exists c, q_fit q = Some c /\ d_int (H := demo_decimal) c z.
Proof.
  intros Hq Hz. eexists. split.
  - unfold q_fit. replace (Qle_bool _ _) with true; [done|]. symmetry. apply Qle_bool_iff.
    rewrite Hq. apply Qabs_Qle_condition. rewrite <-inject_Z_opp, <-!Zle_Qle. lia.
  - unfold d_int. cbn. by rewrite Qred_correct.
Qed.

Lemma qtrunc_le q z : checked_u64 (qtrunc q) = Some z -> 0 <= z < 2 ^ 64 /\ (inject_Z z <= Qmax 0 q)%Q.
Proof.
  rewrite checked_u64_some. intros [-> Hz]. split; [done|]. unfold qtrunc in *.
  destruct q as [n d]. cbn in *. destruct (Z_le_gt_dec 0 n) as [Hn|Hn].
  - eapply Qle_trans; [|apply Q.le_max_r]. unfold Qle. cbn. rewrite Z.quot_div_nonneg by lia.
    rewrite Z.mul_comm, Z.mul_1_r. apply Z.mul_div_le. lia.
  - eapply Qle_trans; [|apply Q.le_max_l]. unfold Qle. cbn.
    pose proof (Z.quot_le_mono n 0 (Zpos d) ltac:(lia) ltac:(lia)) as Hq. rewrite Z.quot_0_l in Hq by lia. lia.
Qed.

#[export] Instance demo_decimal_laws : DecimalLaws demo_decimal.
Proof.
  split; try (intros; cbn; reflexivity).
  - intros a b. apply Qeq_bool_iff.
  - intros a b. cbn. rewrite negb_true_iff, <-not_true_iff_false, Qle_bool_iff.
    split; [apply Qnot_le_lt|apply Qlt_not_le].
  - intros a b. cbn. destruct (Qle_bool a b) eqn:H.
    + apply Qle_bool_iff in H. by rewrite Q.min_l.
    + rewrite Q.min_r; [done|]. apply not_true_iff_false in H. rewrite Qle_bool_iff in H. lra.
  - intros a b. cbn. destruct (Qle_bool a b) eqn:H.
    + apply Qle_bool_iff in H. by rewrite Q.max_r.
    + rewrite Q.max_l; [done|]. apply not_true_iff_false in H. rewrite Qle_bool_iff in H. lra.
  - intros a. cbn. rewrite negb_true_iff, <-not_true_iff_false, Qle_bool_iff. lra.
  - intros a. cbn. rewrite negb_false_iff, Qle_bool_iff. done.
  - intros a z Ha. cbn. unfold d_int in Ha. by rewrite (qtrunc_int _ z).
  - intros a b x y Hx Hy. apply q_fit_int. unfold d_int in Hx, Hy. cbn in Hx, Hy. by rewrite Hx, Hy, inject_Z_plus.
  - intros a b x y Hx Hy. apply q_fit_int. unfold d_int in Hx, Hy. cbn in Hx, Hy. by rewrite Hx, Hy, inject_Z_minus.
  - intros a b x y Hx Hy. apply q_fit_int. unfold d_int in Hx, Hy. cbn in Hx, Hy. by rewrite Hx, Hy, inject_Z_mult.
  - intros a z Ha. unfold d_int in *. cbn in *. apply inject_Z_injective. unfold Qeq in Ha. cbn in Ha.
    rewrite Z.mul_1_r in Ha. rewrite Ha, Z.sgn_mul. cbn. lia.
  - intros a z Ha. cbn. unfold d_int in Ha. by rewrite (qtrunc_int _ z).
  - intros a z. apply qtrunc_le.
  - intros a b c Hc. apply q_fit_some in Hc. cbn. rewrite Hc. split; lra.
  - intros a b Ha. cbn in *. eexists. split.
    + unfold q_fit. replace (Qle_bool _ _) with true; [done|]. symmetry. apply Qle_bool_iff.
      rewrite Ha, Qmult_0_l. done.
    + by rewrite Qred_correct, Ha, Qmult_0_l.
  - intros a b. cbn. apply (q_fit_opp (a * - b)). ring.
  - intros n s a. cbn. unfold q_round_dp. pose proof (pow10_nonzero n).
    destruct (Qlt_le_dec a 0); eexists; rewrite Qred_correct; [rewrite <-inject_Z_opp|]; reflexivity.
  - intros n s a b. apply q_round_dp_neg.
  - intros n s a z. apply q_round_dp_int.
Qed.

Lemma sf_to_Q_whole z : f32_whole z -> exists q, sf_to_Q (f32_of_Z z) = Some q /\ (q == inject_Z z)%Q.
Proof.
  intros Hz. destruct (decide (z = 0)) as [->|Hz0]; [by exists 0%Q|].
  destruct (f32_of_Z_cases z Hz Hz0) as (s & n & -> & Hn & ->).
  cbn [sf_to_Q]. eexists. split; [done|]. rewrite Qred_correct.
  pose proof (digits_small n Hn). pose proof (significand_spec n Hn) as Hsig.
  set (d := Z.pos (digits2_pos n)) in *. set (p := 2 ^ (24 - d)) in *.
  assert (0 < p) as Hp by (apply Z.pow_pos_nonneg; lia).
  assert (~ (inject_Z p == 0))%Q as Hpq by (intros H0; apply (proj1 (inject_Z_injective _ 0)) in H0; lia).
  assert ((if 0 <=? d - 24 then inject_Z (2 ^ (d - 24)) else (/ inject_Z (2 ^ (- (d - 24))))) == / inject_Z p)%Q as ->.
  { destruct (0 <=? d - 24) eqn:Hd.
    - unfold p. replace (24 - d) with 0 by lia. replace (d - 24) with 0 by lia. reflexivity.
    - unfold p. by replace (- (d - 24)) with (24 - d) by lia. }
  assert (inject_Z (if s then Z.neg (significand n) else Z.pos (significand n))
    == inject_Z (cond_Zopp s (Z.pos n)) * inject_Z p)%Q as ->.
  { rewrite <-inject_Z_mult. apply inject_Z_injective. destruct s; cbn [cond_Zopp]; lia. }
  by field.
Qed.

#[export] Instance demo_decimal_f32_laws : DecimalF32Laws demo_decimal.
Proof.
  split.
  - done.
  - intros z Hz. apply sf_to_Q_whole. unfold f32_whole. lia.
  - intros d z Hd Hz. cbn. f_equal. unfold q_to_f32, d_int in *. cbn in Hd.
    apply Qred_complete in Hd. rewrite Hd. change (inject_Z z) with (z # 1)%Q.
    assert (Qred (z # 1) = z # 1)%Q as ->; [|done].
    unfold Qred. pose proof (Z.ggcd_gcd z 1) as Hg. pose proof (Z.ggcd_correct_divisors z 1) as Hc.
    destruct (Z.ggcd z 1) as [g [x y]]. cbn in *. rewrite Z.gcd_1_r in Hg. subst g.
    destruct Hc as [-> Hy]. replace y with 1 by lia. f_equal. lia.
Qed.

(** ** Amounts *)

Definition btc_to_sat (x : f64) : option Z :=
  q ← sf_to_Q x;
  let z := qround (q * inject_Z (10 ^ 8))%Q in
  if Z.abs z <=? MAX_MONEY then Some z else None.

#[export] Instance demo_bitcoin : BitcoinLib := {|
  amount_add x y := checked_u64 (x + y);
  amount_checked_sub x y := if y <=? x then Some (x - y) else None;
  signed_add x y := checked_i64 (x + y);
  signed_sub x y := checked_i64 (x - y);
  amount_to_signed x := checked_i64 x;
  signed_to_unsigned x := if 0 <=? x then Some x else None;
  amount_from_btc x := z ← btc_to_sat x; if 0 <=? z then Some z else None;
  signed_from_btc x := btc_to_sat x;
  amount_to_btc z := q_to_f64 (inject_Z z / inject_Z (10 ^ 8));
|}.

#[export] Instance demo_bitcoin_laws : BitcoinLaws demo_bitcoin.
Proof.
  split; try (intros; reflexivity). intros f x. cbn. unfold btc_to_sat.
  destruct (sf_to_Q f) as [q|]; [|done]. cbn. destruct (Z.abs _ <=? MAX_MONEY) eqn:Hmax; [|done].
  cbn. destruct (0 <=? _) eqn:Hpos; [|done]. intros [= <-]. unfold MAX_MONEY in Hmax. lia.
Qed.

Lemma sf_to_Q_q_to_f64 q :
  exists v, sf_to_Q (q_to_f64 q) = Some v /\
    (v == inject_Z (qround (q * inject_Z (2 ^ 27))) * (1 # 134217728))%Q.
Proof.
  unfold q_to_f64. destruct (qround _); cbn; eexists; (split; [done|]); rewrite ?Qred_correct; reflexivity.
Qed.

Lemma btc_to_sat_grid a z : (a == inject_Z z / inject_Z (10 ^ 8))%Q -> Z.abs z <= MAX_MONEY ->
  btc_to_sat (q_to_f64 a) = Some z.
Proof.
  intros Ha Hz. unfold btc_to_sat. destruct (sf_to_Q_q_to_f64 a) as (v & -> & Hv). cbn.
  rewrite (qround_unique _ z); [by apply Z.leb_le in Hz; rewrite Hz|].
  pose proof (qround_near (a * inject_Z (2 ^ 27))) as Hn.
  set (m := qround _) in *. apply Qabs_Qle_condition in Hn as [H1 H2].
  change (inject_Z (2 ^ 27)) with 134217728%Q in H1, H2.
  change (inject_Z (10 ^ 8)) with 100000000%Q in *.
  change (inject_Z 100000000) with 100000000%Q.
  assert (a * 100000000 == inject_Z z)%Q as Hz' by (rewrite Ha; field).
  apply Qabs_Qlt_condition. rewrite Hv. split; lra.
Qed.

#[export] Instance demo_btc_decimal_laws : BtcDecimalLaws demo_decimal demo_bitcoin.
Proof.
  split; intros a z Ha Hz; cbn [d_to_f64 demo_decimal]; eexists; (split; [done|]).
  - by apply btc_to_sat_grid.
  - cbn. rewrite (btc_to_sat_grid a z) by (done || lia). cbn. by replace (0 <=? z) with true by lia.
Qed.

(** ** Identifiers and time *)

Definition byte_of_Z (z : Z) : Byte.byte := default Init.Byte.x00 (Byte.of_N (Z.to_N z)).
Definition Z_of_byte (b : Byte.byte) : Z := Z.of_N (Byte.to_N b).

Lemma Z_of_byte_of_Z z : 0 <= z < 256 -> Z_of_byte (byte_of_Z z) = z.
Proof.
  intros Hz. unfold Z_of_byte, byte_of_Z. destruct (Byte.of_N (Z.to_N z)) as [b|] eqn:Hb; cbn.
  - apply Byte.to_of_N in Hb. lia.
  - apply Byte.of_N_None_iff in Hb. lia.
Qed.

Lemma byte_of_Z_of_byte b : byte_of_Z (Z_of_byte b) = b.
Proof. unfold Z_of_byte, byte_of_Z. by rewrite N2Z.id, Byte.of_to_N. Qed.

(** Little-endian digits to the base 256. *)
Fixpoint bytes_of (n : nat) (z : Z) : list Byte.byte :=
  match n with
  | O => []
  | S n => byte_of_Z (z mod 256) :: bytes_of n (z / 256)
  end.
Fixpoint of_bytes (l : list Byte.byte) : Z :=
  match l with [] => 0 | b :: l => Z_of_byte b + 256 * of_bytes l end.

Lemma bytes_of_length n z : length (bytes_of n z) = n.
Proof. revert z. induction n as [|n IH]; intros z; cbn; [done|]. by rewrite IH. Qed.

Lemma of_bytes_of n z : 0 <= z < 256 ^ Z.of_nat n -> of_bytes (bytes_of n z) = z.
Proof.
  revert z. induction n as [|n IH]; intros z Hz; cbn [bytes_of of_bytes].
  - rewrite Z.pow_0_r in Hz. lia.
  - rewrite Nat2Z.inj_succ, Z.pow_succ_r in Hz by lia.
    rewrite Z_of_byte_of_Z by (apply Z.mod_pos_bound; lia).
    rewrite IH; [pose proof (Z.div_mod z 256); lia|].
    split; [apply Z.div_pos; lia|apply Z.div_lt_upper_bound; lia].
Qed.

(** A digit per nibble; any such digits will do here. *)
Definition hex_digits (b : Byte.byte) : list Byte.byte :=
  [byte_of_Z (48 + Z_of_byte b / 16); byte_of_Z (48 + Z_of_byte b mod 16)].
Fixpoint hex_read (l : list Byte.byte) : list Byte.byte :=
  match l with
  | a :: b :: l => byte_of_Z ((Z_of_byte a - 48) * 16 + (Z_of_byte b - 48)) :: hex_read l
  | _ => []
  end.

Lemma hex_read_digits l : hex_read (l ≫= hex_digits) = l.
Proof.
  induction l as [|b l IH]; [done|]. cbn -[Z.div Z.modulo byte_of_Z Z_of_byte].
  assert (Hb : 0 <= Z_of_byte b < 256) by (unfold Z_of_byte; pose proof (Byte.to_N_bounded b); lia).
  pose proof (Z.div_mod (Z_of_byte b) 16 ltac:(lia)) as Hdm.
  pose proof (Z.mod_pos_bound (Z_of_byte b) 16 ltac:(lia)) as Hm.
  assert (0 <= Z_of_byte b / 16 < 16) as Hd
    by (split; [apply Z.div_pos; lia|apply Z.div_lt_upper_bound; lia]).
  rewrite !Z_of_byte_of_Z by lia. f_equal; [|done].
  etrans; [|apply byte_of_Z_of_byte]. f_equal. lia.
Qed.

Lemma hex_digits_length l : length (l ≫= hex_digits) = (2 * length l)%nat.
Proof. induction l as [|b l IH]; [done|]. cbn [mbind list_bind app length hex_digits]. cbn in *. lia. Qed.

(** Numbers as text: a sign and the bits, the lowest first. *)
Fixpoint pos_to_string (p : positive) : string :=
  match p with
  | xH => "."%string
  | xO p => String "0"%char (pos_to_string p)
  | xI p => String "1"%char (pos_to_string p)
  end.
Fixpoint pos_of_string (s : string) : option positive :=
  match s with
  | EmptyString => None
  | String c s =>
    if Ascii.eqb c "0"%char then xO <$> pos_of_string s
    else if Ascii.eqb c "1"%char then xI <$> pos_of_string s else Some xH
  end.
Definition z_to_string (z : Z) : string :=
  match z with
  | Z0 => EmptyString
  | Zpos p => String "+"%char (pos_to_string p)
  | Zneg p => String "-"%char (pos_to_string p)
  end.
Definition z_of_string (s : string) : option Z :=
  match s with
  | EmptyString => Some 0
  | String c s => if Ascii.eqb c "+"%char then Zpos <$> pos_of_string s else Zneg <$> pos_of_string s
  end.

Lemma pos_of_to_string p : pos_of_string (pos_to_string p) = Some p.
Proof. induction p as [p IH|p IH|]; cbn; by rewrite ?IH. Qed.

Lemma z_of_to_string z : z_of_string (z_to_string z) = Some z.
Proof.
  assert (forall p, pos_of_string (pos_to_string p) = Some p) as Hp
    by (intros p; induction p as [p IH|p IH|]; cbn; by rewrite ?IH).
  by destruct z; cbn; rewrite ?Hp.
Qed.

#[export] Instance demo_id : IdLib := {|
  PublicKey := string;
  XOnlyPublicKey := string;
  pk_to_string p := p;
  pk_from_str s := Some s;
  hex_encode := String.string_of_list_byte;
  hex_decode s := Some (String.list_byte_of_string s);
  uuid_to_string := z_to_string;
  uuid_parse_str := z_of_string;
  uuid_as_bytes u := bytes_of 16 u;
  uuid_from_slice l := if Nat.eqb (length l) 16 then Some (of_bytes l) else None;
  hex_encode_bytes l := l ≫= hex_digits;
  hex_decode_bytes l := Some (hex_read l);
  from_utf8 l := Some l;
|}.

#[export] Instance demo_id_laws : IdLaws demo_id.
Proof.
  split; try done.
  - intros id _. cbn [hex_encode hex_decode demo_id].
    by rewrite String.list_byte_of_string_of_list_byte.
  - apply z_of_to_string.
  - intros u Hu. cbn -[bytes_of]. f_equal. by apply of_bytes_of.
  - intros l. apply hex_digits_length.
  - intros l. cbn. by rewrite hex_read_digits.
Qed.

#[export] Instance demo_time : TimeLib := {|
  Date := Z;
  odt_date t := t / NANOS_PER_DAY;
  odt_weekday t := day_of_week (t / NANOS_PER_DAY);
  odt_time t := t mod NANOS_PER_DAY;
  number_from_monday d := match d with
    | Monday => 1 | Tuesday => 2 | Wednesday => 3 | Thursday => 4
    | Friday => 5 | Saturday => 6 | Sunday => 7 end;
  date_add_days d n := d + n;
  date_with_hms d h m s :=
    if (0 <=? h) && (h <? 24) && (0 <=? m) && (m <? 60) && (0 <=? s) && (s <? 60)
    then Some (d * NANOS_PER_DAY + (h * 3600 + m * 60 + s) * NANOS_PER_SEC) else None;
  date_midnight d := d * NANOS_PER_DAY;
  date_day d := d;
|}.

#[export] Instance demo_time_laws : TimeLaws demo_time.
Proof.
  split; try (intros; reflexivity).
  - intros d. unfold day_of_week. cbn.
    pose proof (Z.mod_pos_bound (d + 3) 7 ltac:(lia)) as Hb.
    assert (exists r, (d + 3) mod 7 = r) as [r Hr] by eauto. rewrite Hr in *.
    assert (r = 0 \/ r = 1 \/ r = 2 \/ r = 3 \/ r = 4 \/ r = 5 \/ r = 6) as Hc by lia.
    destruct Hc as [->|[->|[->|[->|[->|[->| ->]]]]]]; reflexivity.
  - intros d h m s Hh Hm Hs. cbn.
    replace (_ && _) with true; [done|]. symmetry. rewrite !andb_true_iff. lia.
Qed.

(** Versions written [major.minor.patch] with one digit each. *)
#[export] Instance demo_semver : SemverLib := {|
  version_parse s :=
    let digit c := Z.of_nat (Ascii.nat_of_ascii c) - 48 in
    match String.list_ascii_of_string s with
    | [a; _; b; _; c] => Some (Version.mk (digit a) (digit b) (digit c) EmptyString EmptyString)
    | _ => None
    end;
  req_matches cs v := forallb (comparator_matches v) cs;
|}.

#[export] Instance demo_semver_laws : SemverLaws demo_semver.
Proof. by split. Qed.

(** The text itself as its hash. *)
#[export] Instance demo_hash : HashLib := {| sha256 := String.list_byte_of_string |}.
