(* ===== verification/Commons.v ===== *)
(** * [crates/xxi-node/src/commons]: orders, trades, prices

    The data types shared by the app and the coordinator, with their small
    functions: directions, the average execution price, the best prices of an
    order book and the order-matching fee. *)

From stdpp Require Import base list option strings.
From Stdlib Require Import ZArith QArith Lia.
From S2P Require Import Prelude Machine External.

#[local] Open Scope Z_scope.
#[local] Open Scope decimal_scope.

(** ** Enumerations *)

Inductive Direction := Long | Short.
Inductive ContractSymbol := BtcUsd.
Inductive OrderType := Market | Limit.

Module OrderState.
Inductive t := Open | Matched | Taken | Failed | Expired | Deleted.
#[global] Instance eq_dec : EqDecision t.
Proof. solve_decision. Defined.
End OrderState.

Module OrderReason.
Inductive t := Manual | Expired | CoordinatorLiquidated | TraderLiquidated.
#[global] Instance eq_dec : EqDecision t.
Proof. solve_decision. Defined.
End OrderReason.

Module MatchState.
Inductive t := Pending | Filled | Failed.
#[global] Instance eq_dec : EqDecision t.
Proof. solve_decision. Defined.
End MatchState.

#[export] Instance Direction_eq_dec : EqDecision Direction.
Proof. solve_decision. Defined.
#[export] Instance ContractSymbol_eq_dec : EqDecision ContractSymbol.
Proof. solve_decision. Defined.
#[export] Instance OrderType_eq_dec : EqDecision OrderType.
Proof. solve_decision. Defined.

(** [Direction::opposite]. *)
Definition opposite (d : Direction) : Direction :=
  match d with Long => Short | Short => Long end.

(** [ContractSymbol::label]. *)
Definition label (c : ContractSymbol) : string :=
  match c with BtcUsd => "btcusd" end.

(** [<ContractSymbol as FromStr>::from_str], on the lower-cased text. *)
Definition contract_symbol_from_str (to_lowercase : string -> string) (value : string)
    : outcome string ContractSymbol :=
  let s := to_lowercase value in
  if bool_decide (s = "btcusd") then Ok BtcUsd
  else if bool_decide (s = "xbtusd") then Ok BtcUsd
  else Err "Unknown contract symbol"%string.

Lemma opposite_involutive d : opposite (opposite d) = d.
Proof. by destruct d. Qed.

Lemma opposite_neq d d' : d <> d' <-> d' = opposite d.
Proof. destruct d, d'; cbn; naive_solver. Qed.

(** Contracts with the sign of their direction. *)
Definition signed (z : Z) (direction : Direction) : Z :=
  match direction with Long => z | Short => - z end.

Lemma signed_abs z direction : Z.abs (signed z direction) = Z.abs z.
Proof. destruct direction; cbn; lia. Qed.

(** ** Orders *)

Module Order.
Record t `{DecimalLib} `{IdLib} := mk {
  id : Uuid;
  price : Decimal;
  leverage : f32;
  contract_symbol : ContractSymbol;
  trader_id : PublicKey;
  direction : Direction;
  quantity : Decimal;
  order_type : OrderType;
  timestamp : OffsetDateTime;
  expiry : OffsetDateTime;
  order_state : OrderState.t;
  order_reason : OrderReason.t;
  stable : bool;
}.
#[global] Arguments mk {_ _}.
End Order.

Module NewLimitOrder.
Record t `{DecimalLib} `{IdLib} := mk {
  id : Uuid;
  contract_symbol : ContractSymbol;
  price : Decimal;
  quantity : Decimal;
  trader_id : PublicKey;
  direction : Direction;
  leverage : Decimal;
  expiry : OffsetDateTime;
  stable : bool;
}.
#[global] Arguments mk {_ _}.
End NewLimitOrder.

Module NewMarketOrder.
Record t `{DecimalLib} `{IdLib} := mk {
  id : Uuid;
  contract_symbol : ContractSymbol;
  quantity : Decimal;
  trader_id : PublicKey;
  direction : Direction;
  leverage : Decimal;
  expiry : OffsetDateTime;
  stable : bool;
}.
#[global] Arguments mk {_ _}.
End NewMarketOrder.

(** ** Matches and trades *)

Module Match.
Record t `{DecimalLib} `{IdLib} := mk {
  id : Uuid;
  order_id : Uuid;
  quantity : Decimal;
  pubkey : PublicKey;
  execution_price : Decimal;
  matching_fee : Amount;
}.
#[global] Arguments mk {_ _}.
End Match.

Module Matches.
Record t `{DecimalLib} `{IdLib} := mk {
  id : Uuid;
  match_state : MatchState.t;
  order_id : Uuid;
  trader_id : PublicKey;
  match_order_id : Uuid;
  match_trader_id : PublicKey;
  execution_price : Decimal;
  quantity : Decimal;
  created_at : OffsetDateTime;
  updated_at : OffsetDateTime;
  matching_fee : Amount;
}.
#[global] Arguments mk {_ _}.
End Matches.

Module FilledWith.
Record t `{DecimalLib} `{IdLib} := mk {
  order_id : Uuid;
  expiry_timestamp : OffsetDateTime;
  oracle_pk : XOnlyPublicKey;
  matches : list Match.t;
}.
#[global] Arguments mk {_ _}.
End FilledWith.

Module TradeParams.
Record t `{DecimalLib} `{IdLib} := mk {
  pubkey : PublicKey;
  contract_symbol : ContractSymbol;
  leverage : f32;
  quantity : f32;
  direction : Direction;
  filled_with : FilledWith.t;
}.
#[global] Arguments mk {_ _}.
End TradeParams.

Module TradeAndChannelParams.
Record t `{DecimalLib} `{IdLib} := mk {
  trade_params : TradeParams.t;
  trader_reserve : option Amount;
  coordinator_reserve : option Amount;
  external_funding : option Amount;
}.
#[global] Arguments mk {_ _}.
End TradeAndChannelParams.

Section Trades.
Context `{DecimalLib} `{BitcoinLib} `{IdLib}.

(** [impl From<Matches> for Match]. *)
Definition match_from_matches (value : Matches.t) : Match.t :=
  Match.mk (Matches.id value) (Matches.order_id value) (Matches.quantity value)
    (Matches.trader_id value) (Matches.execution_price value) (Matches.matching_fee value).

(** [matches.iter().fold(Decimal::ZERO, |acc, m| acc + f(m))]. *)
Fixpoint sum_decimals {E} (f : Match.t -> outcome E Decimal) (acc : Decimal) (l : list Match.t)
    : outcome E Decimal :=
  match l with
  | [] => Ok acc
  | m :: l => x ← f m; acc' ← acc +! x; sum_decimals f acc' l
  end.

(** The free function [average_execution_price]. *)
Definition average_execution_price {E} (matches : list Match.t) : outcome E Decimal :=
  match matches with
  | [m] => Ok (Match.execution_price m)
  | _ =>
    sum_quantity ← sum_decimals (fun m => Ok (Match.quantity m)) d_zero matches;
    nominal_prices ←
      sum_decimals (fun m => Match.quantity m /! Match.execution_price m) d_zero matches;
    sum_quantity /! nominal_prices
  end.

(** [iter().sum::<Amount>()]: folds [+] from zero. *)
Fixpoint sum_amounts {E} (acc : Amount) (l : list Amount) : outcome E Amount :=
  match l with
  | [] => Ok acc
  | a :: l => acc' ← expect (amount_add acc a); sum_amounts acc' l
  end.

(** [FilledWith::average_execution_price], [FilledWith::order_matching_fee]. *)
Definition filled_with_average_execution_price {E} (f : FilledWith.t) : outcome E Decimal :=
  average_execution_price (FilledWith.matches f).
Definition filled_with_order_matching_fee {E} (f : FilledWith.t) : outcome E Amount :=
  sum_amounts 0 (map Match.matching_fee (FilledWith.matches f)).

(** [TradeParams::average_execution_price], [TradeParams::order_matching_fee]. *)
Definition trade_average_execution_price {E} (t : TradeParams.t) : outcome E Decimal :=
  filled_with_average_execution_price (TradeParams.filled_with t).
Definition trade_order_matching_fee {E} (t : TradeParams.t) : outcome E Amount :=
  filled_with_order_matching_fee (TradeParams.filled_with t).

(** [order_matching_fee]: the fee of a trade, from its size and price. *)
Definition order_matching_fee {E} (quantity : f32) (price fee_per_cent : Decimal)
    : outcome E Amount :=
  quantity ← expect (d_from_f32 quantity);
  fee ← (if negb (d_eqb price d_zero) then
           inverse ← d_one /! price;
           x ← quantity *! inverse;
           fee ← x *! fee_per_cent;
           expect (d_to_f64 (d_round_dp 8 MidpointAwayFromZero fee))
         else Ok (f64_of_Z 0));
  expect (amount_from_btc fee).
End Trades.

(** ** Best prices *)

Module Price.
Record t `{DecimalLib} := mk { bid : Decimal; ask : Decimal }.
#[global] Arguments mk {_}.
End Price.

Module BestPrice.
Record t `{DecimalLib} := mk { bid : option Decimal; ask : option Decimal }.
#[global] Arguments mk {_}.
End BestPrice.

Section Prices.
Context `{DecimalLib} `{IdLib}.

(** [Price::get_price_for_direction]. *)
Definition get_price_for_direction (p : Price.t) (d : Direction) : Decimal :=
  match d with Long => Price.ask p | Short => Price.bid p end.

(** [Iterator::max] keeps the last of several maximal elements, and
    [Iterator::min] the first of several minimal ones. *)
Fixpoint iter_max_from (acc : Decimal) (l : list Decimal) : Decimal :=
  match l with [] => acc | x :: l => iter_max_from (if d_ltb x acc then acc else x) l end.
Definition iter_max (l : list Decimal) : option Decimal :=
  match l with [] => None | x :: l => Some (iter_max_from x l) end.
Fixpoint iter_min_from (acc : Decimal) (l : list Decimal) : Decimal :=
  match l with [] => acc | x :: l => iter_min_from (if d_ltb x acc then x else acc) l end.
Definition iter_min (l : list Decimal) : option Decimal :=
  match l with [] => None | x :: l => Some (iter_min_from x l) end.

(** The orders of one side that can still be matched at [now]. *)
Definition is_bookable (now : OffsetDateTime) (side : Direction) (symbol : ContractSymbol)
    (o : Order.t) : bool :=
  bool_decide (Order.order_state o = OrderState.Open)
  && bool_decide (Order.direction o = side)
  && bool_decide (Order.contract_symbol o = symbol)
  && (now <? Order.expiry o).

(** [best_bid_price] and [best_ask_price]. *)
Definition best_bid_price (now : OffsetDateTime) (orders : list Order.t) (symbol : ContractSymbol)
    : option Decimal :=
  iter_max (map Order.price (List.filter (is_bookable now Long symbol) orders)).
Definition best_ask_price (now : OffsetDateTime) (orders : list Order.t) (symbol : ContractSymbol)
    : option Decimal :=
  iter_min (map Order.price (List.filter (is_bookable now Short symbol) orders)).

(** [best_current_price]: a map with the one symbol there is. *)
Definition best_current_price (now : OffsetDateTime) (current_orders : list Order.t)
    : list (ContractSymbol * BestPrice.t) :=
  [(BtcUsd, BestPrice.mk (best_bid_price now current_orders BtcUsd)
                         (best_ask_price now current_orders BtcUsd))].
End Prices.

(** ** Lemmas *)

Section PriceLemmas.
Context `{DLaws : DecimalLaws}.

Lemma iter_max_from_spec l acc :
  let m := iter_max_from acc l in
  (m = acc \/ m ∈ l) /\ Forall (fun x => (dval x <= dval m)%Q) (acc :: l).
Proof.
  revert acc; induction l as [|x l IH]; intros acc; cbn.
  { split; [by left|]. repeat constructor. apply Qle_refl. }
  destruct (d_ltb x acc) eqn:Hlt.
  - destruct (IH acc) as [Hin Hall]. apply Forall_cons in Hall as [Hacc Hall]. split.
    + destruct Hin; [by left|]. right. by constructor.
    + repeat constructor; [done| |done]. apply d_ltb_spec in Hlt.
      eapply Qle_trans; [apply Qlt_le_weak, Hlt|done].
  - destruct (IH x) as [Hin Hall]. apply Forall_cons in Hall as [Hx Hall]. split.
    + right. destruct Hin as [->|?]; by constructor.
    + repeat constructor; [|done|done]. apply d_ltb_nspec in Hlt. by eapply Qle_trans.
Qed.

Lemma iter_min_from_spec l acc :
  let m := iter_min_from acc l in
  (m = acc \/ m ∈ l) /\ Forall (fun x => (dval m <= dval x)%Q) (acc :: l).
Proof.
  revert acc; induction l as [|x l IH]; intros acc; cbn.
  { split; [by left|]. repeat constructor. apply Qle_refl. }
  destruct (d_ltb x acc) eqn:Hlt.
  - destruct (IH x) as [Hin Hall]. apply Forall_cons in Hall as [Hx Hall]. split.
    + right. destruct Hin as [->|?]; by constructor.
    + repeat constructor; [|done|done]. apply d_ltb_spec in Hlt.
      eapply Qle_trans; [done|apply Qlt_le_weak, Hlt].
  - destruct (IH acc) as [Hin Hall]. apply Forall_cons in Hall as [Hacc Hall]. split.
    + destruct Hin; [by left|]. right. by constructor.
    + repeat constructor; [done| |done]. apply d_ltb_nspec in Hlt. by eapply Qle_trans.
Qed.

Lemma iter_max_spec l m : iter_max l = Some m ->
  m ∈ l /\ Forall (fun x => (dval x <= dval m)%Q) l.
Proof.
  destruct l as [|x l]; [done|]. intros [= <-].
  destruct (iter_max_from_spec l x) as [[->|Hin] Hall]; split; try done; by constructor.
Qed.

Lemma iter_min_spec l m : iter_min l = Some m ->
  m ∈ l /\ Forall (fun x => (dval m <= dval x)%Q) l.
Proof.
  destruct l as [|x l]; [done|]. intros [= <-].
  destruct (iter_min_from_spec l x) as [[->|Hin] Hall]; split; try done; by constructor.
Qed.
End PriceLemmas.
