(* ===== verification/Rollover.v ===== *)
(** * [crates/xxi-node/src/commons/rollover.rs]: contract expiries

    When a contract expires and when it may be rolled over.  On mainnet the
    expiry is 15:00 UTC on a Sunday; the theorems give it in closed form and
    bound its distance from the time of the trade. *)

From stdpp Require Import base list option.
From Stdlib Require Import ZArith Lia.
From S2P Require Import Prelude Machine External Demo.

#[local] Open Scope Z_scope.

(** [time!(15:00)], as nanoseconds into the day. *)
Definition THREE_PM : Z := 15 * NANOS_PER_HOUR.
Definition NANOS_PER_WEEK : Z := 7 * NANOS_PER_DAY.

Section Rollover.
Context `{TimeLib}.

(** [is_eligible_for_rollover]; [now] is what [OffsetDateTime::now_utc] reads. *)
Definition is_eligible_for_rollover (now timestamp : OffsetDateTime) (network : Network) : bool :=
  match network with
  | Bitcoin =>
    match odt_weekday timestamp with
    | Friday => THREE_PM <=? odt_time timestamp
    | Saturday => true
    | Sunday => odt_time timestamp <? THREE_PM
    | _ => false
    end
  | _ =>
    let midnight := date_midnight (date_add_days (odt_date now) 1) in
    (midnight - timestamp) <? 8 * NANOS_PER_HOUR
  end.

(** [calculate_next_expiry]. *)
Definition calculate_next_expiry {E} (now timestamp : OffsetDateTime) (network : Network)
    : outcome E OffsetDateTime :=
  match network with
  | Bitcoin =>
    let days :=
      if is_eligible_for_rollover now timestamp network
         || bool_decide (odt_weekday timestamp = Sunday)
      then 7 - number_from_monday (odt_weekday timestamp) + 7
      else 7 - number_from_monday (odt_weekday timestamp) in
    time ← expect (date_with_hms (odt_date timestamp) 15 0 0);
    Ok (time + days * NANOS_PER_DAY)
  | _ =>
    if is_eligible_for_rollover now timestamp network then
      let after_tomorrow := date_add_days (odt_date timestamp) 2 in
      Ok (date_midnight after_tomorrow)
    else
      let tomorrow := date_add_days (odt_date timestamp) 1 in
      Ok (date_midnight tomorrow)
  end.
End Rollover.

(** [to_nearest_hour_in_the_past] of [commons/mod.rs]. *)
Definition to_nearest_hour_in_the_past `{TimeLib} {E} (start_date : OffsetDateTime)
    : outcome E OffsetDateTime :=
  expect (date_with_hms (odt_date start_date) (odt_time start_date / NANOS_PER_HOUR) 0 0).

(** ** The weekly rhythm

    The specification: the last Friday 15:00 UTC at or before [t].  The epoch
    day 1, 1970-01-02, was a Friday. *)

Definition FIRST_FRIDAY_3PM : Z := NANOS_PER_DAY + THREE_PM.
Definition last_friday_3pm (t : OffsetDateTime) : OffsetDateTime :=
  (t - FIRST_FRIDAY_3PM) / NANOS_PER_WEEK * NANOS_PER_WEEK + FIRST_FRIDAY_3PM.

Ltac unfold_nanos :=
  unfold last_friday_3pm, FIRST_FRIDAY_3PM, NANOS_PER_WEEK, THREE_PM,
    NANOS_PER_DAY, NANOS_PER_HOUR, NANOS_PER_SEC in *.

Lemma last_friday_3pm_bounds t : last_friday_3pm t <= t < last_friday_3pm t + NANOS_PER_WEEK.
Proof.
  unfold last_friday_3pm. set (x := t - FIRST_FRIDAY_3PM).
  pose proof (Z.div_mod x NANOS_PER_WEEK ltac:(unfold_nanos; lia)).
  pose proof (Z.mod_pos_bound x NANOS_PER_WEEK ltac:(unfold_nanos; lia)). lia.
Qed.

Lemma last_friday_3pm_mono t t' : t <= t' -> last_friday_3pm t <= last_friday_3pm t'.
Proof.
  intros Hle. unfold last_friday_3pm.
  pose proof (Z.div_le_mono (t - FIRST_FRIDAY_3PM) (t' - FIRST_FRIDAY_3PM) NANOS_PER_WEEK).
  unfold_nanos; lia.
Qed.

(** A day of the week and a time of day determine the last Friday 15:00. *)
Lemma last_friday_3pm_day w wd tod :
  0 <= wd < 7 -> 0 <= tod < NANOS_PER_DAY ->
  last_friday_3pm ((7 * w + wd - 3) * NANOS_PER_DAY + tod) =
    (if (wd - 4) * NANOS_PER_DAY + tod <? THREE_PM then w - 1 else w) * NANOS_PER_WEEK
    + FIRST_FRIDAY_3PM.
Proof.
  intros Hwd Htod. unfold last_friday_3pm. f_equal. f_equal. symmetry.
  set (r := (wd - 4) * NANOS_PER_DAY + tod - THREE_PM).
  destruct (Z.ltb_spec ((wd - 4) * NANOS_PER_DAY + tod) THREE_PM) as [Hlt|Hge].
  - apply (Z.div_unique _ _ _ (r + NANOS_PER_WEEK)); unfold r in *; unfold_nanos; lia.
  - apply (Z.div_unique _ _ _ r); unfold r in *; unfold_nanos; lia.
Qed.

(** Splits a timestamp into week, day of the week and time of day. *)
Lemma timestamp_split t : exists w wd tod,
  t = (7 * w + wd - 3) * NANOS_PER_DAY + tod /\ 0 <= wd < 7 /\ 0 <= tod < NANOS_PER_DAY /\
  t / NANOS_PER_DAY = 7 * w + wd - 3 /\ t mod NANOS_PER_DAY = tod.
Proof.
  set (d := t / NANOS_PER_DAY). exists ((d + 3) / 7), ((d + 3) mod 7), (t mod NANOS_PER_DAY).
  pose proof (Z.div_mod t NANOS_PER_DAY ltac:(unfold_nanos; lia)).
  pose proof (Z.mod_pos_bound t NANOS_PER_DAY ltac:(unfold_nanos; lia)).
  pose proof (Z.div_mod (d + 3) 7 ltac:(lia)). pose proof (Z.mod_pos_bound (d + 3) 7 ltac:(lia)).
  unfold d in *. lia.
Qed.

Lemma day_of_week_split w wd : 0 <= wd < 7 ->
  day_of_week (7 * w + wd - 3) = match wd with
    | 0 => Monday | 1 => Tuesday | 2 => Wednesday | 3 => Thursday
    | 4 => Friday | 5 => Saturday | _ => Sunday end.
Proof.
  intros Hwd. unfold day_of_week. replace (7 * w + wd - 3 + 3) with (wd + w * 7) by lia.
  by rewrite Z.mod_add, Z.mod_small by lia.
Qed.

Lemma seven_cases wd : 0 <= wd < 7 ->
  wd = 0 \/ wd = 1 \/ wd = 2 \/ wd = 3 \/ wd = 4 \/ wd = 5 \/ wd = 6.
Proof. lia. Qed.

Ltac weekday_cases H :=
  destruct (seven_cases _ H) as [->|[->|[->|[->|[->|[->| ->]]]]]]; clear H.

Section Theorems.
Context `{TLaws : TimeLaws}.

(** The expiry computed by the case analysis of the code, per weekday. *)
Lemma next_expiry_by_weekday {E} now w wd tod : 0 <= wd < 7 -> 0 <= tod < NANOS_PER_DAY ->
  calculate_next_expiry (E := E) now ((7 * w + wd - 3) * NANOS_PER_DAY + tod) Bitcoin =
    Ok ((7 * (if (wd - 4) * NANOS_PER_DAY + tod <? THREE_PM then w else w + 1) + 3)
        * NANOS_PER_DAY + THREE_PM).
Proof.
  intros Hwd Htod. set (t := _ + tod).
  assert (t / NANOS_PER_DAY = 7 * w + wd - 3) as Hd.
  { symmetry. apply (Z.div_unique _ _ _ tod); unfold t; unfold_nanos; lia. }
  assert (t mod NANOS_PER_DAY = tod) as Ht.
  { symmetry. apply (Z.mod_unique _ _ (7 * w + wd - 3)); unfold t; unfold_nanos; lia. }
  unfold calculate_next_expiry, is_eligible_for_rollover.
  rewrite odt_weekday_spec, odt_time_spec, date_with_hms_spec, odt_date_spec by lia.
  rewrite number_from_monday_spec, Hd, Ht, (day_of_week_split w wd Hwd). cbn.
  replace (7 * w + wd - 3 + 3) with (wd + w * 7) by lia.
  rewrite Z.mod_add, Z.mod_small by lia. clear t Hd Ht. f_equal.
  weekday_cases Hwd; cbn; unfold_nanos; repeat (case_match; cbn);
    simpl_decides; first [done|lia].
Qed.

(** On mainnet a contract expires nine days after the last Friday 15:00
    UTC at or before the trade: [calculate_next_expiry] never fails and its
    weekday case analysis is that closed form. *)
Theorem next_expiry_closed_form (now t : OffsetDateTime) :
  calculate_next_expiry (E := unit) now t Bitcoin = Ok (last_friday_3pm t + 9 * NANOS_PER_DAY).
Proof.
  destruct (timestamp_split t) as (w & wd & tod & -> & Hwd & Htod & _).
  rewrite next_expiry_by_weekday, last_friday_3pm_day by done.
  f_equal. unfold_nanos. case_match; lia.
Qed.

(** Eligible times are the first two days after a Friday 15:00. *)
Lemma eligible_weekend now t :
  is_eligible_for_rollover now t Bitcoin = true <-> t < last_friday_3pm t + 2 * NANOS_PER_DAY.
Proof.
  destruct (timestamp_split t) as (w & wd & tod & Heq & Hwd & Htod & Hd & Ht).
  unfold is_eligible_for_rollover. rewrite odt_weekday_spec, odt_time_spec, Hd, Ht.
  rewrite (day_of_week_split w wd Hwd), Heq, last_friday_3pm_day by done. clear Heq Hd Ht.
  weekday_cases Hwd; cbn; unfold_nanos; case_match;
    rewrite ?Z.leb_le, ?Z.ltb_lt; split; intros; try done; lia.
Qed.

(** Every mainnet contract expires on a Sunday at 15:00 UTC, more than two
    and at most nine days after the time of the trade. *)
Theorem next_expiry_is_sunday_3pm (now t e : OffsetDateTime) :
  calculate_next_expiry (E := unit) now t Bitcoin = Ok e ->
  odt_weekday e = Sunday /\ odt_time e = THREE_PM /\
  t + 2 * NANOS_PER_DAY < e <= t + 9 * NANOS_PER_DAY.
Proof.
  rewrite next_expiry_closed_form. intros [= <-].
  pose proof (last_friday_3pm_bounds t) as Hb.
  set (k := (t - FIRST_FRIDAY_3PM) / NANOS_PER_WEEK).
  assert (last_friday_3pm t + 9 * NANOS_PER_DAY = (7 * k + 10) * NANOS_PER_DAY + THREE_PM) as He.
  { unfold last_friday_3pm. fold k. unfold_nanos. lia. }
  rewrite odt_weekday_spec, odt_time_spec, He.
  replace (((7 * k + 10) * NANOS_PER_DAY + THREE_PM) / NANOS_PER_DAY) with (7 * (k + 1) + 6 - 3)
    by (apply (Z.div_unique _ _ _ THREE_PM); unfold_nanos; lia).
  replace (((7 * k + 10) * NANOS_PER_DAY + THREE_PM) mod NANOS_PER_DAY) with THREE_PM
    by (apply (Z.mod_unique _ _ (7 * k + 10)); unfold_nanos; lia).
  rewrite day_of_week_split by lia. split; [done|split; [done|]].
  rewrite <-He. unfold_nanos. lia.
Qed.

(** Rolling over extends a contract by exactly one week, once per weekend:
    at an eligible time before the expiry, the next expiry is the current one
    if the contract was made or rolled over since Friday 15:00, and one week
    later otherwise. *)
Theorem rollover_extends_one_week (now0 t0 e0 now t e : OffsetDateTime) :
  calculate_next_expiry (E := unit) now0 t0 Bitcoin = Ok e0 ->
  calculate_next_expiry (E := unit) now t Bitcoin = Ok e ->
  t0 <= t -> t < e0 -> is_eligible_for_rollover now t Bitcoin = true ->
  e = if last_friday_3pm t <=? t0 then e0 else e0 + NANOS_PER_WEEK.
Proof.
  rewrite !next_expiry_closed_form, eligible_weekend. intros [= <-] [= <-] Hle Hlt Hel.
  pose proof (last_friday_3pm_bounds t0). pose proof (last_friday_3pm_bounds t).
  unfold last_friday_3pm in *. set (k0 := (t0 - _) / _) in *. set (k := (t - _) / _) in *.
  destruct (Z.leb_spec (k * NANOS_PER_WEEK + FIRST_FRIDAY_3PM) t0); unfold_nanos; nia.
Qed.

(** On the other networks contracts expire at a midnight UTC, at most two
    days ahead; within the last eight hours of the day it is the midnight
    after the next one, so that a rollover changes the expiry. *)
Theorem next_expiry_test_networks (now t e : OffsetDateTime) (network : Network) :
  network <> Bitcoin -> t / NANOS_PER_DAY = now / NANOS_PER_DAY ->
  calculate_next_expiry (E := unit) now t network = Ok e ->
  e mod NANOS_PER_DAY = 0 /\ t < e <= t + 2 * NANOS_PER_DAY /\
  (is_eligible_for_rollover now t network = true <-> t + NANOS_PER_DAY < e) /\
  8 * NANOS_PER_HOUR <= e - t.
Proof.
  intros Hnet Hday. unfold calculate_next_expiry.
  assert (is_eligible_for_rollover now t network =
    ((t / NANOS_PER_DAY + 1) * NANOS_PER_DAY - t <? 8 * NANOS_PER_HOUR)) as Hel.
  { destruct network; [done|..]; cbn;
      by rewrite date_midnight_spec, date_add_days_spec, odt_date_spec, <-Hday. }
  pose proof (Z.div_mod t NANOS_PER_DAY ltac:(unfold_nanos; lia)) as Ht.
  pose proof (Z.mod_pos_bound t NANOS_PER_DAY ltac:(unfold_nanos; lia)) as Hm.
  assert (forall n, date_midnight (date_add_days (odt_date t) n) = (t / NANOS_PER_DAY + n) * NANOS_PER_DAY) as Hmid.
  { intros n. by rewrite date_midnight_spec, date_add_days_spec, odt_date_spec. }
  rewrite Hel, !Hmid. intros He.
  assert (e = (t / NANOS_PER_DAY + (if (t / NANOS_PER_DAY + 1) * NANOS_PER_DAY - t <? 8 * NANOS_PER_HOUR
    then 2 else 1)) * NANOS_PER_DAY) as ->.
  { destruct network; [done|..]; by destruct (_ <? _); injection He as <-. }
  rewrite Z.mod_mul by (unfold_nanos; lia). split; [done|].
  destruct (Z.ltb_spec ((t / NANOS_PER_DAY + 1) * NANOS_PER_DAY - t) (8 * NANOS_PER_HOUR));
    unfold_nanos; (split; [lia|split; [split; intros; (done || lia)|lia]]).
Qed.
End Theorems.

(** ** Witnesses: a Wednesday, a Friday evening and a test network *)

(** 2023-08-09 09:30:23 UTC and 2023-08-11 16:00:00 UTC. *)
Definition a_wednesday : OffsetDateTime := 1691573423 * NANOS_PER_SEC.
Definition a_friday : OffsetDateTime := 1691769600 * NANOS_PER_SEC.

Lemma next_expiry_closed_form_witness :
  calculate_next_expiry (E := unit) 0 a_wednesday Bitcoin = Ok (last_friday_3pm a_wednesday + 9 * NANOS_PER_DAY).
Proof. apply (next_expiry_closed_form 0 a_wednesday). Defined.

Lemma next_expiry_is_sunday_3pm_witness :
  odt_weekday (1691938800 * NANOS_PER_SEC) = Sunday /\
  odt_time (1691938800 * NANOS_PER_SEC) = THREE_PM /\
  a_wednesday + 2 * NANOS_PER_DAY < 1691938800 * NANOS_PER_SEC <= a_wednesday + 9 * NANOS_PER_DAY.
Proof. apply (next_expiry_is_sunday_3pm 0 a_wednesday). reflexivity. Defined.

Lemma rollover_extends_one_week_witness :
  1692543600 * NANOS_PER_SEC =
  if last_friday_3pm a_friday <=? a_wednesday then 1691938800 * NANOS_PER_SEC
  else 1691938800 * NANOS_PER_SEC + NANOS_PER_WEEK.
Proof.
  apply (rollover_extends_one_week 0 a_wednesday _ 0 a_friday); reflexivity || (vm_compute; congruence).
Defined.

Lemma next_expiry_test_networks_witness :
  (1691625600 * NANOS_PER_SEC) mod NANOS_PER_DAY = 0 /\
  a_wednesday < 1691625600 * NANOS_PER_SEC <= a_wednesday + 2 * NANOS_PER_DAY /\
  (is_eligible_for_rollover a_wednesday a_wednesday Regtest = true <->
    a_wednesday + NANOS_PER_DAY < 1691625600 * NANOS_PER_SEC) /\
  8 * NANOS_PER_HOUR <= 1691625600 * NANOS_PER_SEC - a_wednesday.
Proof.
  apply (next_expiry_test_networks a_wednesday a_wednesday _ Regtest); reflexivity || discriminate.
Defined.
