(* ===== verification/Cfd.v ===== *)
(** * [crates/xxi-node/src/cfd.rs]: contract-for-difference arithmetic

    Margins, leverage, liquidation prices and the profit and loss of a position
    in an inverse perpetual.  The theorems state that the PNL is a transfer
    between the two sides, bounded by the margin of the side that loses. *)

From stdpp Require Import base list option strings.
From Stdlib Require Import ZArith QArith Qminmax Lqa Lia Floats.SpecFloat.
From S2P Require Import Prelude Machine External Demo Commons.

#[local] Open Scope Z_scope.
#[local] Open Scope decimal_scope.

Definition BTCUSD_MAX_PRICE : Z := 1048575.

Section Cfd.
Context `{DecimalLib} `{BitcoinLib}.
Context {E : Type}.

(** [calculate_margin]. *)
Definition calculate_margin (open_price : Decimal) (quantity leverage : f32) : outcome E Amount :=
  quantity ← expect (d_try_from_f32 quantity);
  leverage ← expect (d_try_from_f32 leverage);
  if d_eqb open_price d_zero || d_eqb leverage d_zero then Ok 0
  else
    notional ← open_price *! leverage;
    margin ← quantity /! notional;
    let margin := d_round_dp 8 MidpointAwayFromZero margin in
    margin ← expect (d_to_f64 margin);
    expect (amount_from_btc margin).

(** [calculate_leverage]. *)
Definition calculate_leverage (quantity : Decimal) (margin : Amount) (open_price : Decimal)
    : outcome E Decimal :=
  margin_btc ← expect (d_try_from_f64 (amount_to_btc margin));
  value ← margin_btc *! open_price;
  match d_checked_div quantity value with
  | Some leverage => Ok leverage
  | None => d_lit 10 *! d_lit 1000
  end.

(** [calculate_quantity]; [margin_to_float] is
    [Amount::to_float_in(Denomination::Bitcoin)]. *)
Definition calculate_quantity (opening_price : f32) (margin : Amount) (leverage : f32)
    : outcome E f32 :=
  margin ← expect (d_try_from_f64 (amount_to_btc margin));
  open_price ← expect (d_try_from_f32 opening_price);
  leverage ← expect (d_try_from_f32 leverage);
  value ← margin *! open_price;
  quantity ← value *! leverage;
  expect (d_to_f32 quantity).

(** [calculate_long_liquidation_price]. *)
Definition calculate_long_liquidation_price (leverage price maintenance_margin_rate : Decimal)
    : outcome E Decimal :=
  numerator ← price *! leverage;
  l1 ← leverage +! d_one;
  maintenance ← maintenance_margin_rate *! leverage;
  denominator ← l1 -! maintenance;
  numerator /! denominator.

(** [calculate_long_bankruptcy_price]. *)
Definition calculate_long_bankruptcy_price (leverage price : Decimal) : outcome E Decimal :=
  calculate_long_liquidation_price leverage price d_zero.

(** [calculate_short_liquidation_price]. *)
Definition calculate_short_liquidation_price (leverage price maintenance_margin_rate : Decimal)
    : outcome E Decimal :=
  if d_eqb leverage d_one then Ok (d_from_u64 BTCUSD_MAX_PRICE)
  else
    numerator ← price *! leverage;
    l1 ← leverage -! d_one;
    maintenance ← maintenance_margin_rate *! leverage;
    denominator ← l1 +! maintenance;
    numerator /! denominator.

(** [calculate_short_bankruptcy_price]. *)
Definition calculate_short_bankruptcy_price (leverage price : Decimal) : outcome E Decimal :=
  calculate_short_liquidation_price leverage price d_zero.

(** The long side's PNL in satoshis before it is capped: the block
    [uncapped_pnl_long] of [calculate_pnl]. *)
Definition uncapped_pnl_long (opening_price closing_price : Decimal) (quantity : f32)
    : outcome E Decimal :=
  quantity ← expect (d_try_from_f32 quantity);
  uncapped_pnl ←
    (if negb (d_eqb opening_price d_zero) && negb (d_eqb closing_price d_zero) then
       opened ← quantity /! opening_price;
       closed ← quantity /! closing_price;
       opened -! closed
     else Ok (d_lit 0));
  uncapped_pnl ← uncapped_pnl *! d_lit 100000000;
  Ok (d_round_dp 0 MidpointTowardZero uncapped_pnl).

(** Caps a PNL by what the counterparty put in, and a loss by [own] margin:
    the two arms of [match direction] in [calculate_pnl]. *)
Definition cap_pnl (pnl own counter : Decimal) : Decimal :=
  let max_win := d_min pnl counter in
  if d_is_sign_negative max_win then d_max max_win (d_neg own) else max_win.
End Cfd.

(** [calculate_pnl]. *)
Definition calculate_pnl `{DecimalLib} (opening_price closing_price : Decimal) (quantity : f32)
    (direction : Direction) (initial_margin_long initial_margin_short : Z) : outcome string Z :=
  uncapped_pnl_long ← uncapped_pnl_long opening_price closing_price quantity;
  short_margin ← ok_or "be able to parse u64"%string (d_try_from_u64 initial_margin_short);
  long_margin ← ok_or "to be abble to parse u64"%string (d_try_from_u64 initial_margin_long);
  let pnl :=
    match direction with
    | Long => cap_pnl uncapped_pnl_long long_margin short_margin
    | Short => cap_pnl (d_neg uncapped_pnl_long) short_margin long_margin
    end in
  ok_or "to be able to convert into i64"%string (d_to_i64 pnl).

(** ** What the PNL is *)

(** [own] margin bounds the loss, [counter] the win. *)
Definition clamp_pnl (pnl own counter : Z) : Z := Z.max (- own) (Z.min pnl counter).

Section PnlTheorems.
Context `{DLaws : DecimalLaws}.

Lemma cap_pnl_int p o c x own counter :
  d_int p x -> d_int o own -> d_int c counter -> 0 <= own -> 0 <= counter ->
  d_int (cap_pnl p o c) (clamp_pnl x own counter).
Proof.
  intros Hp Ho Hc Hown Hcounter. unfold cap_pnl, clamp_pnl.
  pose proof (d_int_min _ _ _ _ Hp Hc) as Hmin.
  destruct (d_is_sign_negative _) eqn:Hs.
  - rewrite Z.max_comm. apply d_int_max; [done|by apply d_int_neg].
  - pose proof (d_int_sign_pos _ _ Hmin Hs). replace (Z.max _ _) with (Z.min x counter) by lia. done.
Qed.

Lemma uncapped_pnl_long_int {E} o c q p :
  uncapped_pnl_long (E := E) o c q = Ok p -> exists x, d_int p x.
Proof. unfold uncapped_pnl_long. intros Hp. inv_ok. subst. apply d_round_int. Qed.

Section Margins.
Variables (opening_price closing_price : Decimal) (quantity : f32).
Variables (margin_long margin_short : Z).
Hypothesis Hlong : 0 <= margin_long < 2 ^ 63.
Hypothesis Hshort : 0 <= margin_short < 2 ^ 63.

Lemma calculate_pnl_value p x :
  uncapped_pnl_long (E := string) opening_price closing_price quantity = Ok p -> d_int p x ->
  forall direction,
  calculate_pnl opening_price closing_price quantity direction margin_long margin_short =
  Ok match direction with
     | Long => clamp_pnl x margin_long margin_short
     | Short => clamp_pnl (- x) margin_short margin_long
     end.
Proof.
  intros Hp Hx direction. unfold calculate_pnl. rewrite Hp. cbn.
  rewrite !d_try_from_u64_spec by lia. cbn.
  assert (d_int (d_from_u64 margin_long) margin_long) as Hl by (apply dval_from_u64; lia).
  assert (d_int (d_from_u64 margin_short) margin_short) as Hs by (apply dval_from_u64; lia).
  set (v := match direction with Long => clamp_pnl x _ _ | Short => _ end).
  assert (in_i64 v = true) as Hv.
  { apply in_i64_spec. unfold v, clamp_pnl. destruct direction; lia. }
  rewrite (d_to_i64_int _ v); [unfold checked_i64; by rewrite Hv|].
  unfold v. destruct direction; apply cap_pnl_int; try done; try lia. by apply d_int_neg.
Qed.

(** Closing a position moves money from one side to the other: at every
    price the PNL of the short side is the negated PNL of the long side, and
    one is computed exactly when the other is. *)
Theorem calculate_pnl_zero_sum :
  calculate_pnl opening_price closing_price quantity Short margin_long margin_short =
  Z.opp <$> calculate_pnl opening_price closing_price quantity Long margin_long margin_short.
Proof.
  destruct (uncapped_pnl_long (E := string) opening_price closing_price quantity) as [p|e|] eqn:Hp.
  - destruct (uncapped_pnl_long_int _ _ _ _ Hp) as [x Hx].
    rewrite !(calculate_pnl_value p x) by done. cbn. f_equal. unfold clamp_pnl. lia.
  - unfold calculate_pnl. by rewrite Hp.
  - unfold calculate_pnl. by rewrite Hp.
Qed.

Lemma calculate_pnl_within (direction : Direction) (pnl : Z) :
  calculate_pnl opening_price closing_price quantity direction margin_long margin_short = Ok pnl ->
  match direction with
  | Long => - margin_long <= pnl <= margin_short
  | Short => - margin_short <= pnl <= margin_long
  end.
Proof.
  intros Hpnl.
  destruct (uncapped_pnl_long (E := string) opening_price closing_price quantity) as [p|e|] eqn:Hp;
    [|unfold calculate_pnl in Hpnl; by rewrite Hp in Hpnl..].
  destruct (uncapped_pnl_long_int _ _ _ _ Hp) as [x Hx].
  rewrite (calculate_pnl_value p x) in Hpnl by done. injection Hpnl as <-.
  unfold clamp_pnl. destruct direction; lia.
Qed.

(** A PNL never exceeds the counterparty's margin, and a loss never
    exceeds the loser's own margin: both margins together cover every
    payout. *)
Theorem calculate_pnl_bounds (direction : Direction) (pnl : Z) :
  calculate_pnl opening_price closing_price quantity direction margin_long margin_short = Ok pnl ->
  match direction with
  | Long => - margin_long <= pnl <= margin_short
  | Short => - margin_short <= pnl <= margin_long
  end.
Proof. apply calculate_pnl_within. Qed.
End Margins.

(** A position opened or closed at price zero has no PNL: the guard
    against a division by zero, whatever the margins. *)
Theorem calculate_pnl_zero_price (o c : Decimal) (quantity : f32) (direction : Direction)
    (margin_long margin_short pnl : Z) :
  0 <= margin_long < 2 ^ 63 -> 0 <= margin_short < 2 ^ 63 ->
  (dval o == 0)%Q \/ (dval c == 0)%Q ->
  calculate_pnl o c quantity direction margin_long margin_short = Ok pnl -> pnl = 0.
Proof.
  intros Hl Hs Hzero Hpnl.
  destruct (uncapped_pnl_long (E := string) o c quantity) as [p|e|] eqn:Hp;
    [|unfold calculate_pnl in Hpnl; by rewrite Hp in Hpnl..].
  assert (d_int p 0) as Hp0.
  { unfold uncapped_pnl_long in Hp.
    replace (negb (d_eqb o d_zero) && negb (d_eqb c d_zero)) with false in Hp.
    - inv_ok. subst. rename select (d_mul _ _ = _) into Hm.
      destruct (d_mul_zero (d_lit 0) (d_lit 100000000)) as (z & Hz & Hz0); [apply dval_lit|].
      rewrite Hz in Hm. injection Hm as <-.
      assert (dval z == - dval z)%Q as Hneg by (rewrite Hz0; ring).
      pose proof (d_round_dp_neg 0 MidpointTowardZero z z Hneg) as Hr.
      unfold d_int. change (inject_Z 0) with 0%Q. lra.
    - symmetry. apply andb_false_iff. rewrite !negb_false_iff, !d_eqb_spec, dval_zero. done. }
  rewrite (calculate_pnl_value _ _ _ _ _ Hl Hs p 0 Hp Hp0) in Hpnl. injection Hpnl as <-.
  unfold clamp_pnl. destruct direction; lia.
Qed.
End PnlTheorems.

(** ** Evaluated on the positions of the unit tests of [cfd.rs] *)

(** 20000 contracts opened at 20000 with leverage 2 (long) and 1 (short). *)
Definition test_pnl (closing_price : Z) (direction : Direction) : outcome string Z :=
  margin_long ← calculate_margin (d_from_u64 20000) (f32_of_Z 20000) (f32_of_Z 2);
  margin_short ← calculate_margin (d_from_u64 20000) (f32_of_Z 20000) (f32_of_Z 1);
  calculate_pnl (d_from_u64 20000) (d_from_u64 closing_price) (f32_of_Z 20000) direction
    margin_long margin_short.

Example test_margin : calculate_margin (E := string) (d_from_u64 20000) (f32_of_Z 20000) (f32_of_Z 2) = Ok 50000000.
Proof. vm_compute. reflexivity. Qed.
Example test_pnl_long_up : test_pnl 22000 Long = Ok 9090909.
Proof. vm_compute. reflexivity. Qed.
Example test_pnl_short_up : test_pnl 22000 Short = Ok (-9090909).
Proof. vm_compute. reflexivity. Qed.
Example test_pnl_long_down : test_pnl 18000 Long = Ok (-11111111).
Proof. vm_compute. reflexivity. Qed.
Example test_pnl_long_ruin : test_pnl 5000 Long = Ok (-50000000).
Proof. vm_compute. reflexivity. Qed.

Lemma calculate_pnl_zero_sum_witness :
  calculate_pnl (d_from_u64 20000) (d_from_u64 22000) (f32_of_Z 20000) Short 50000000 100000000 =
  Z.opp <$> calculate_pnl (d_from_u64 20000) (d_from_u64 22000) (f32_of_Z 20000) Long 50000000 100000000.
Proof. apply calculate_pnl_zero_sum; lia. Defined.

Lemma calculate_pnl_bounds_witness : - 50000000 <= - 50000000 <= 100000000.
Proof.
  apply (calculate_pnl_bounds (d_from_u64 20000) (d_from_u64 5000) (f32_of_Z 20000)
           50000000 100000000 ltac:(lia) ltac:(lia) Long).
  vm_compute. reflexivity.
Defined.

Lemma calculate_pnl_zero_price_witness : 0 = 0.
Proof.
  apply (calculate_pnl_zero_price (d_from_u64 20000) d_zero (f32_of_Z 20000) Short 50000000 100000000 0);
    [lia|lia|by right|vm_compute; reflexivity].
Defined.
