(* ===== verification/PayoutCurve.v ===== *)
(** * [crates/payout_curve/src/lib.rs], [coordinator/src/payout_curve.rs]

    What a contract pays at every price.  A payout function is a list of intervals
    between two points; the theorems say that the intervals lead from price zero
    to the largest price without gap or jump, and that no interval pays a party
    less than its collateral reserve. *)

From stdpp Require Import base list option strings.
From Stdlib Require Import ZArith QArith Qminmax Lia.
From S2P Require Import Prelude Machine External Demo Commons Cfd.

#[local] Open Scope Z_scope.

(** [PAYOUT_CURVE_DISCRETIZATION_INTERVALS]. *)
Definition PAYOUT_CURVE_DISCRETIZATION_INTERVALS : Z := 200.

Module PayoutPoint.
Record t := mk { event_outcome : Z; outcome_payout : Z; extra_precision : Z }.
End PayoutPoint.

Module PartyParams.
Record t := mk { margin : Z; collateral_reserve : Z }.
End PartyParams.

Module PriceParams.
Record t `{DecimalLib} := mk {
  initial_price : Decimal;
  long_liquidation_price : Decimal;
  short_liquidation_price : Decimal;
}.
#[global] Arguments mk {_}.
End PriceParams.

Definition Interval : Set := PayoutPoint.t * PayoutPoint.t.

(** The interval that pays [payout] between two prices. *)
Definition constant_interval (lower upper payout : Z) : Interval :=
  (PayoutPoint.mk lower payout 0, PayoutPoint.mk upper payout 0).

(** [PartyParams::total_collateral]. *)
Definition total_collateral {E} (p : PartyParams.t) : outcome E Z :=
  u64_add (PartyParams.margin p) (PartyParams.collateral_reserve p).

(** [(start..stop).step_by(step)], which panics when [step] is zero. *)
Definition step_by {E} (start stop step : Z) : outcome E (list Z) :=
  if step =? 0 then Panic
  else Ok (map (fun i => start + Z.of_nat i * step)
             (seq 0 (Z.to_nat ((stop - start + step - 1) / step)))).

Section PayoutCurve.
Context `{DL : DecimalLib}.

(** [PriceParams::new] and [PriceParams::new_btc_usd]. *)
Definition price_params_new (initial short_liquidation long_liquidation : Decimal)
    : outcome string PriceParams.t :=
  _ ← ensure (d_leb long_liquidation initial)
    "Long liquidation price should not be greater than the initial price"%string;
  _ ← ensure (d_leb initial short_liquidation)
    "Short liquidation price should not be smaller than the initial price"%string;
  Ok (PriceParams.mk initial long_liquidation short_liquidation).
Definition new_btc_usd (initial long_liquidation short_liquidation : Decimal)
    : outcome string PriceParams.t :=
  let short_liquidation := d_min short_liquidation (d_from_u64 BTCUSD_MAX_PRICE) in
  price_params_new initial short_liquidation long_liquidation.

(** [calculate_long_liquidation_interval_payouts]. *)
Definition calculate_long_liquidation_interval_payouts (offer_direction : Direction)
    (total_collateral : Z) (liquidation_price_long : Decimal) (collateral_reserve_long : Z)
    : outcome string Interval :=
  liquidation_price_long ← expect (d_to_u64 liquidation_price_long);
  match offer_direction with
  | Short =>
    outcome_payout ← u64_sub total_collateral collateral_reserve_long;
    Ok (constant_interval 0 liquidation_price_long outcome_payout)
  | Long => Ok (constant_interval 0 liquidation_price_long collateral_reserve_long)
  end.

(** [calculate_short_liquidation_interval_payouts]. *)
Definition calculate_short_liquidation_interval_payouts (offer_direction : Direction)
    (total_collateral : Z) (liquidation_price_short : Decimal) (collateral_reserve_short : Z)
    : outcome string Interval :=
  price ← expect (d_to_u64 liquidation_price_short);
  let liquidation_price_short := if price =? BTCUSD_MAX_PRICE then price - 1 else price in
  match offer_direction with
  | Long =>
    outcome_payout ← u64_sub total_collateral collateral_reserve_short;
    Ok (constant_interval liquidation_price_short BTCUSD_MAX_PRICE outcome_payout)
  | Short =>
    Ok (constant_interval liquidation_price_short BTCUSD_MAX_PRICE collateral_reserve_short)
  end.

(** One interval of the middle: the closure of [calculate_mid_range_payouts]. *)
Definition mid_range_interval (offer_party : PartyParams.t)
    (min_payout_offer_party max_payout_offer_party long_margin short_margin step : Z)
    (initial_price : Decimal) (short_liquidation_price : Z) (offer_direction : Direction)
    (quantity : f32) (interval_start_price : Z) : outcome string Interval :=
  interval_mid_price ← u64_add interval_start_price (step / 2);
  pnl ← calculate_pnl initial_price (d_from_u64 interval_mid_price) quantity offer_direction
          long_margin short_margin;
  total ← total_collateral offer_party;
  interval_payout ← i64_add (as_i64 total) pnl;
  let interval_payout := Z.max interval_payout (as_i64 min_payout_offer_party) in
  let interval_payout := Z.min interval_payout (as_i64 max_payout_offer_party) in
  interval_end_price ← u64_add interval_start_price step;
  Ok (constant_interval interval_start_price (Z.min interval_end_price short_liquidation_price)
        (as_u64 interval_payout)).

(** [calculate_mid_range_payouts]. *)
Definition calculate_mid_range_payouts (offer_party accept_party : PartyParams.t)
    (initial_price : Decimal) (long_liquidation_interval_end_payout : PayoutPoint.t)
    (short_liquidation_interval_start_payout : PayoutPoint.t) (offer_direction : Direction)
    (quantity : f32) : outcome string (list Interval) :=
  let long_liquidation_price := PayoutPoint.event_outcome long_liquidation_interval_end_payout in
  let short_liquidation_price := PayoutPoint.event_outcome short_liquidation_interval_start_payout in
  let min_payout_offer_party := PartyParams.collateral_reserve offer_party in
  total ← total_collateral offer_party;
  max_payout_offer_party ← u64_add total (PartyParams.margin accept_party);
  let '(long_margin, short_margin) :=
    match offer_direction with
    | Long => (PartyParams.margin offer_party, PartyParams.margin accept_party)
    | Short => (PartyParams.margin accept_party, PartyParams.margin offer_party)
    end in
  diff ← ok_or "Long liquidation price smaller than short liquidation price"%string
    (checked_u64 (short_liquidation_price - long_liquidation_price));
  let step := diff / PAYOUT_CURVE_DISCRETIZATION_INTERVALS in
  starts ← step_by long_liquidation_price short_liquidation_price step;
  traverse (mid_range_interval offer_party min_payout_offer_party max_payout_offer_party
              long_margin short_margin step initial_price short_liquidation_price offer_direction
              quantity) starts.

(** The steps between the intervals: [zip] with the intervals but the first,
    [flat_map], and the last interval put back. *)
Fixpoint connect {E} (pieces : list Interval) : outcome E (list Interval) :=
  match pieces with
  | (a, b) :: ((c, _) :: _) as rest =>
    event_outcome ← u64_sub (PayoutPoint.event_outcome b) 1;
    let shared_point :=
      PayoutPoint.mk event_outcome (PayoutPoint.outcome_payout b) (PayoutPoint.extra_precision b) in
    rest ← connect rest;
    Ok ((a, shared_point) :: (shared_point, c) :: rest)
  | _ => Ok []
  end.

(** Not a single price. *)
Definition is_interval (i : Interval) : bool :=
  negb (PayoutPoint.event_outcome i.1 =? PayoutPoint.event_outcome i.2).

(** [build_inverse_payout_function]. *)
Definition build_inverse_payout_function (quantity : f32) (offer_party accept_party : PartyParams.t)
    (price_params : PriceParams.t) (offer_party_direction : Direction)
    : outcome string (list Interval) :=
  offer_collateral ← total_collateral offer_party;
  accept_collateral ← total_collateral accept_party;
  total_collateral ← u64_add offer_collateral accept_collateral;
  let '(collateral_reserve_long, collateral_reserve_short) :=
    match offer_party_direction with
    | Long => (PartyParams.collateral_reserve offer_party, PartyParams.collateral_reserve accept_party)
    | Short => (PartyParams.collateral_reserve accept_party, PartyParams.collateral_reserve offer_party)
    end in
  long_liquidation_interval ← calculate_long_liquidation_interval_payouts offer_party_direction
    total_collateral (PriceParams.long_liquidation_price price_params) collateral_reserve_long;
  short_liquidation_interval ← calculate_short_liquidation_interval_payouts offer_party_direction
    total_collateral (PriceParams.short_liquidation_price price_params) collateral_reserve_short;
  mid_range ← calculate_mid_range_payouts offer_party accept_party
    (PriceParams.initial_price price_params) long_liquidation_interval.2
    short_liquidation_interval.1 offer_party_direction quantity;
  pieces ← connect (long_liquidation_interval :: mid_range ++ [short_liquidation_interval]);
  Ok (List.filter is_interval (pieces ++ [short_liquidation_interval])).

(** ** [coordinator/src/payout_curve.rs] *)

(** [get_liquidation_prices]: of the coordinator and of the trader. *)
Definition get_liquidation_prices {E} (initial_price : Decimal) (coordinator_direction : Direction)
    (leverage_coordinator leverage_trader : Decimal) : outcome E (Decimal * Decimal) :=
  match coordinator_direction with
  | Long =>
    coordinator ← calculate_long_bankruptcy_price leverage_coordinator initial_price;
    trader ← calculate_short_bankruptcy_price leverage_trader initial_price;
    Ok (coordinator, trader)
  | Short =>
    coordinator ← calculate_short_bankruptcy_price leverage_coordinator initial_price;
    trader ← calculate_long_bankruptcy_price leverage_trader initial_price;
    Ok (coordinator, trader)
  end.

(** The payout points of the coordinator's [build_inverse_payout_function], from
    which it makes the payout function of [rust-dlc]. *)
Definition coordinator_payout_points (coordinator_margin trader_margin : Amount)
    (initial_price : Decimal) (leverage_trader leverage_coordinator : f32)
    (coordinator_collateral_reserve trader_collateral_reserve : Amount)
    (coordinator_direction : Direction) (quantity : f32) : outcome string (list Interval) :=
  leverage_coordinator ← expect (d_from_f32 leverage_coordinator);
  leverage_trader ← expect (d_from_f32 leverage_trader);
  '(coordinator_liquidation_price, trader_liquidation_price) ←
    get_liquidation_prices initial_price coordinator_direction leverage_coordinator leverage_trader;
  let '(long_liquidation_price, short_liquidation_price) :=
    match coordinator_direction with
    | Long => (coordinator_liquidation_price, trader_liquidation_price)
    | Short => (trader_liquidation_price, coordinator_liquidation_price)
    end in
  price_params ← new_btc_usd initial_price long_liquidation_price short_liquidation_price;
  build_inverse_payout_function quantity
    (PartyParams.mk coordinator_margin coordinator_collateral_reserve)
    (PartyParams.mk trader_margin trader_collateral_reserve) price_params coordinator_direction.
End PayoutCurve.

(** ** The shape of a payout function *)

(** The intervals lead from one point to another, upwards in price, each starting
    where the one before ends. *)
Fixpoint leads (from : PayoutPoint.t) (pieces : list Interval) (to : PayoutPoint.t) : Prop :=
  match pieces with
  | [] => from = to
  | (a, b) :: rest =>
    a = from /\ PayoutPoint.event_outcome a < PayoutPoint.event_outcome b /\ leads b rest to
  end.

(** The same of the prices only: the payouts may jump. *)
Fixpoint adjacent (from : Z) (pieces : list Interval) (to : Z) : Prop :=
  match pieces with
  | [] => from = to
  | (a, b) :: rest =>
    PayoutPoint.event_outcome a = from /\ from < PayoutPoint.event_outcome b
    /\ adjacent (PayoutPoint.event_outcome b) rest to
  end.

(** Both ends of an interval satisfy [P], and an interval with one payout. *)
Definition pays (P : Z -> Prop) (i : Interval) : Prop :=
  P (PayoutPoint.outcome_payout i.1) /\ P (PayoutPoint.outcome_payout i.2).
Definition constant (i : Interval) : Prop := exists lower upper payout,
  i = constant_interval lower upper payout.

Lemma adjacent_app p l q l' r : adjacent p l q -> adjacent q l' r -> adjacent p (l ++ l') r.
Proof.
  revert p. induction l as [|[a b] l IH]; intros p; cbn; [by intros ->|].
  intros (Ha & Hlt & Hl) Hl'. eauto.
Qed.

Lemma is_interval_mk p x e q y f :
  is_interval (PayoutPoint.mk p x e, PayoutPoint.mk q y f) = negb (p =? q).
Proof. done. Qed.

Lemma connect_cons {E} a b c d pieces : connect (E := E) ((a, b) :: (c, d) :: pieces) =
  (event_outcome ← u64_sub (PayoutPoint.event_outcome b) 1;
   let shared_point :=
     PayoutPoint.mk event_outcome (PayoutPoint.outcome_payout b) (PayoutPoint.extra_precision b) in
   rest ← connect ((c, d) :: pieces);
   Ok ((a, shared_point) :: (shared_point, c) :: rest)).
Proof. done. Qed.

(** [connect] turns adjacent constant intervals into a continuous function. *)
Lemma connect_leads {E} pieces i z p q out : adjacent p (i :: pieces) q ->
  Forall constant (i :: pieces) -> list.last (i :: pieces) = Some z ->
  connect (E := E) (i :: pieces) = Ok out ->
  leads i.1 (List.filter is_interval (out ++ [z])) z.2.
Proof.
  revert i p out. induction pieces as [|[c d] pieces IH]; intros [a b] p out Had Hconst Hlast Hout.
  - injection Hout as <-. injection Hlast as <-. destruct Had as (Ha & Hlt & _).
    cbn. unfold is_interval. cbn. replace (_ =? _) with false by lia. cbn. split; [done|]. split; [lia|done].
  - rewrite connect_cons in Hout.
    inv_ok. cbv zeta in Hout. inv_ok. subst out. match goal with H : u64_sub _ _ = _ |- _ => apply u64_sub_ok in H as [-> Hrange] end.
    destruct Had as (Ha & Hlt & Had). inversion_clear Hconst as [|? ? (lo & up & pay & Hk) Hconst'].
    unfold constant_interval in Hk. injection Hk as -> ->.
    cbn [PayoutPoint.event_outcome PayoutPoint.outcome_payout PayoutPoint.extra_precision] in *. subst lo.
    pose proof (IH (c, d) up _ Had Hconst' Hlast ltac:(eassumption)) as Hl.
    destruct Had as (Hc & Hcd & _). cbn [app List.filter is_interval fst snd PayoutPoint.event_outcome].
    destruct c as [c cpay cprec]. cbn in Hc. subst c. rewrite !is_interval_mk.
    replace (up - 1 =? up) with false by lia. destruct (p =? up - 1) eqn:Hp; cbn in *.
    + apply Z.eqb_eq in Hp. subst p. repeat split; (done || lia).
    + repeat split; (done || lia).
Qed.

(** It pays nothing that its arguments do not pay. *)
Lemma connect_pays {E} (P : Z -> Prop) pieces out :
  Forall (pays P) pieces -> connect (E := E) pieces = Ok out -> Forall (pays P) out.
Proof.
  revert out. induction pieces as [|[a b] pieces IH]; intros out HP Hout; [by injection Hout as <-|].
  destruct pieces as [|[c d] pieces]; [by injection Hout as <-|].
  rewrite connect_cons in Hout. inv_ok. cbv zeta in Hout. inv_ok. subst out.
  inversion_clear HP as [|? ? [Ha Hb] HP']. pose proof (Forall_inv HP') as [Hc Hd].
  repeat constructor; try done. by apply IH.
Qed.

(** [step_by] covers the range: the last element is less than a step away. *)
Lemma step_by_ok {E} start stop step l : start < stop -> 0 < step ->
  step_by (E := E) start stop step = Ok l -> exists n, (1 <= n)%nat /\
    l = map (fun i => start + Z.of_nat i * step) (seq 0 n) /\
    (Z.of_nat n - 1) * step < stop - start <= Z.of_nat n * step.
Proof.
  intros Hlt Hstep. unfold step_by. replace (step =? 0) with false by lia. intros [= <-].
  set (k := (stop - start + step - 1) / step).
  pose proof (Z.div_mod (stop - start + step - 1) step ltac:(lia)) as Hdm. fold k in Hdm.
  pose proof (Z.mod_pos_bound (stop - start + step - 1) step Hstep).
  assert (1 <= k) by (apply Z.div_le_lower_bound; lia).
  exists (Z.to_nat k). rewrite Z2Nat.id by lia. split; [lia|]. split; [done|]. lia.
Qed.

(** Intervals that start a step apart and end at the next start or at [stop]. *)
Lemma stepped_adjacent start stop step n : forall k l, (1 <= n)%nat ->
  (Z.of_nat (k + n) - 1) * step < stop - start <= Z.of_nat (k + n) * step -> 0 < step ->
  Forall2 (fun x i => exists payout, i = constant_interval x (Z.min (x + step) stop) payout)
    (map (fun i => start + Z.of_nat i * step) (seq k n)) l ->
  adjacent (start + Z.of_nat k * step) l stop.
Proof.
  induction n as [|n IH]; intros k l Hn Hr Hstep HF; [lia|].
  inversion HF as [|? ? ? l' [payout ->] HF']; subst. cbn [adjacent constant_interval].
  cbn [PayoutPoint.event_outcome]. split; [done|].
  assert (Z.of_nat k * step <= (Z.of_nat (k + S n) - 1) * step) by (apply Z.mul_le_mono_nonneg_r; lia).
  split; [lia|]. destruct n as [|n].
  - inversion HF'; subst. cbn. lia.
  - replace (Z.min _ _) with (start + Z.of_nat (S k) * step).
    + apply (IH (S k)); [lia| |done|done]. by replace (S k + S n)%nat with (k + S (S n))%nat by lia.
    + assert (Z.of_nat (S k) * step <= (Z.of_nat (k + S (S n)) - 1) * step)
        by (apply Z.mul_le_mono_nonneg_r; lia). lia.
Qed.

Section Payouts.
Context `{DLaws : DecimalLaws}.
Variables (quantity : f32) (offer accept : PartyParams.t).
Hypothesis offer_margin : 0 <= PartyParams.margin offer.
Hypothesis offer_reserve : 0 <= PartyParams.collateral_reserve offer.
Hypothesis accept_margin : 0 <= PartyParams.margin accept.
Hypothesis accept_reserve : 0 <= PartyParams.collateral_reserve accept.

(** All that is in the channel, and the most the offer party can get of it. *)
Definition channel_collateral : Z :=
  PartyParams.margin offer + PartyParams.collateral_reserve offer
  + (PartyParams.margin accept + PartyParams.collateral_reserve accept).
Definition max_payout : Z := channel_collateral - PartyParams.collateral_reserve accept.
Hypothesis fits_i64 : channel_collateral < 2 ^ 63.

(** Between the reserve of the offer party and what leaves the accept party its own. *)
Definition respects_reserves (payout : Z) : Prop :=
  PartyParams.collateral_reserve offer <= payout <= max_payout.

Lemma pays_constant P lower upper payout : P payout -> pays P (constant_interval lower upper payout).
Proof using Type. by split. Qed.

Lemma mid_range_interval_ok long_margin short_margin step price stop direction x i :
  mid_range_interval offer (PartyParams.collateral_reserve offer) max_payout long_margin short_margin
    step price stop direction quantity x = Ok i ->
  exists payout, i = constant_interval x (Z.min (x + step) stop) payout /\ respects_reserves payout.
Proof.
  unfold mid_range_interval. intros Hi. inv_ok. cbv zeta in Hi. inv_ok. subst i.
  repeat match goal with
  | H : u64_add _ _ = Ok _ |- _ => apply u64_add_ok in H as [-> ?]
  | H : i64_add _ _ = Ok _ |- _ => apply i64_add_ok in H as [-> ?]
  end.
  eexists. split; [done|]. unfold respects_reserves.
  unfold max_payout, channel_collateral in *. rewrite !(as_i64_small (_ - _)) by lia.
  rewrite (as_i64_small (PartyParams.collateral_reserve offer)) by lia.
  unfold as_u64. rewrite Z.mod_small by lia. lia.
Qed.

Lemma mid_range_ok price long_end short_start direction l :
  calculate_mid_range_payouts offer accept price long_end short_start direction quantity = Ok l ->
  adjacent (PayoutPoint.event_outcome long_end) l (PayoutPoint.event_outcome short_start)
  /\ Forall constant l /\ Forall (pays respects_reserves) l.
Proof.
  unfold calculate_mid_range_payouts, total_collateral. intros Hl. inv_ok.
  destruct (match direction with Long => _ | Short => _ end) as [long_margin short_margin]. inv_ok.
  repeat match goal with
  | H : u64_add _ _ = Ok _ |- _ => apply u64_add_ok in H as [-> ?]
  | H : checked_u64 _ = Some _ |- _ => apply checked_u64_some in H as [-> ?]
  end.
  set (start := PayoutPoint.event_outcome long_end) in *.
  set (stop := PayoutPoint.event_outcome short_start) in *.
  set (step := (stop - start) / PAYOUT_CURVE_DISCRETIZATION_INTERVALS) in *.
  assert (0 <= step) by (apply Z.div_pos; [lia|done]).
  assert (step <> 0) by (intros Hz; match goal with H : step_by _ _ _ = _ |- _ =>
    unfold step_by in H; by rewrite Hz in H end).
  assert (start < stop) by (destruct (decide (stop - start = 0)) as [Hz|]; [|lia];
    exfalso; unfold step in *; by rewrite Hz in *).
  match goal with H : step_by _ _ _ = _ |- _ => apply step_by_ok in H as (n & Hn & -> & Hr); [|lia..] end.
  apply traverse_ok in Hl.
  assert (HF : Forall2 (fun x i => exists payout,
    i = constant_interval x (Z.min (x + step) stop) payout /\ respects_reserves payout)
    (map (fun i => start + Z.of_nat i * step) (seq 0 n)) l).
  { eapply Forall2_impl; [exact Hl|]. intros x i Hi. eapply mid_range_interval_ok.
    unfold max_payout, channel_collateral. rewrite <-Hi. f_equal. lia. }
  split; [|split].
  - replace start with (start + Z.of_nat 0 * step) at 1 by lia.
    apply (stepped_adjacent start stop step n 0%nat); [done|done|lia|].
    eapply Forall2_impl; [exact HF|]. intros x i (payout & -> & _). eauto.
  - eapply Forall2_Forall_r; [exact HF|]. apply Forall_true. intros x i (payout & -> & _).
    do 3 eexists. reflexivity.
  - eapply Forall2_Forall_r; [exact HF|]. apply Forall_true. intros x i (payout & -> & Hp).
    by apply pays_constant.
Qed.

(** What the offer party is paid when the party that is [loser] is liquidated. *)
Definition liquidation_payout (direction loser : Direction) : Z :=
  if bool_decide (direction = loser) then PartyParams.collateral_reserve offer else max_payout.

Lemma liquidation_payout_respects direction loser :
  respects_reserves (liquidation_payout direction loser).
Proof using offer_margin offer_reserve accept_margin accept_reserve.
  unfold liquidation_payout, respects_reserves, max_payout, channel_collateral. case_bool_decide; lia.
Qed.

Lemma long_interval_ok direction price i :
  calculate_long_liquidation_interval_payouts direction channel_collateral price
    (match direction with
     | Long => (PartyParams.collateral_reserve offer, PartyParams.collateral_reserve accept)
     | Short => (PartyParams.collateral_reserve accept, PartyParams.collateral_reserve offer)
     end).1 = Ok i ->
  exists z, d_to_u64 price = Some z /\ i = constant_interval 0 z (liquidation_payout direction Long).
Proof using Type.
  unfold calculate_long_liquidation_interval_payouts, liquidation_payout. intros Hi. inv_ok.
  destruct direction; inv_ok; subst; eauto.
  match goal with H : u64_sub _ _ = _ |- _ => apply u64_sub_ok in H as [-> _] end. eauto.
Qed.

Lemma short_interval_ok direction price i :
  calculate_short_liquidation_interval_payouts direction channel_collateral price
    (match direction with
     | Long => (PartyParams.collateral_reserve offer, PartyParams.collateral_reserve accept)
     | Short => (PartyParams.collateral_reserve accept, PartyParams.collateral_reserve offer)
     end).2 = Ok i ->
  exists z, d_to_u64 price = Some z /\
    i = constant_interval (if z =? BTCUSD_MAX_PRICE then z - 1 else z) BTCUSD_MAX_PRICE
          (liquidation_payout direction Short).
Proof using Type.
  unfold calculate_short_liquidation_interval_payouts, liquidation_payout. intros Hi. inv_ok.
  destruct direction; inv_ok; subst; eauto.
  match goal with H : u64_sub _ _ = _ |- _ => apply u64_sub_ok in H as [-> _] end. eauto.
Qed.

(** [new_btc_usd] keeps the short side's liquidation price below the maximum. *)
Lemma short_price_capped initial long short params z : new_btc_usd initial long short = Ok params ->
  d_to_u64 (PriceParams.short_liquidation_price params) = Some z -> 0 <= z <= BTCUSD_MAX_PRICE.
Proof using DLaws.
  unfold new_btc_usd, price_params_new. intros Hp Hz. inv_ok. subst params. cbn in Hz.
  apply d_to_u64_trunc in Hz as [Hr Hz]. split; [lia|]. rewrite Zle_Qle. eapply Qle_trans; [exact Hz|].
  apply Q.max_lub; [done|].
  pose proof (dval_from_u64 BTCUSD_MAX_PRICE ltac:(by split)) as Hmax. unfold d_int in Hmax.
  rewrite dval_min, Hmax. apply Q.le_min_r.
Qed.

Lemma payout_function_covers direction initial long short params pieces :
  new_btc_usd initial long short = Ok params ->
  build_inverse_payout_function quantity offer accept params direction = Ok pieces ->
  leads (PayoutPoint.mk 0 (liquidation_payout direction Long) 0) pieces
    (PayoutPoint.mk BTCUSD_MAX_PRICE (liquidation_payout direction Short) 0)
  /\ Forall (pays respects_reserves) pieces.
Proof.
  intros Hparams. unfold build_inverse_payout_function, total_collateral. intros Hb. inv_ok.
  repeat match goal with H : u64_add _ _ = Ok _ |- _ => apply u64_add_ok in H as [-> ?] end.
  fold channel_collateral in Hb.
  rewrite (surjective_pairing (match direction with Long => (_, _) | Short => _ end)) in Hb.
  inv_ok. subst pieces.
  match goal with H : calculate_long_liquidation_interval_payouts _ _ _ _ = _ |- _ =>
    apply long_interval_ok in H as (low & Hlow & ->) end.
  match goal with H : calculate_short_liquidation_interval_payouts _ _ _ _ = _ |- _ =>
    apply short_interval_ok in H as (price & Hprice & ->) end.
  apply (short_price_capped _ _ _ _ _ Hparams) in Hprice.
  match goal with H : calculate_mid_range_payouts _ _ _ _ _ _ _ = Ok ?l |- _ =>
    rename l into mid; apply mid_range_ok in H as (Hmid & Hconst & Hpays) end.
  set (high := if price =? _ then _ else _) in *.
  assert (high < BTCUSD_MAX_PRICE) by (unfold high; destruct (price =? _) eqn:?; lia).
  match goal with H : connect _ = Ok _ |- _ => rename H into Hconnect end.
  set (first := constant_interval 0 low _) in *. set (final := constant_interval high _ _) in *.
  assert (Forall (pays respects_reserves) (first :: mid ++ [final])) as Hall.
  { constructor; [|apply Forall_app_2; [done|apply Forall_singleton]];
      apply pays_constant, liquidation_payout_respects. }
  split.
  - assert (0 < low).
    { unfold first, final, constant_interval in Hconnect.
      destruct mid as [|[c d] mid]; cbn [app] in Hconnect; rewrite connect_cons in Hconnect; inv_ok;
        match goal with H : u64_sub _ _ = _ |- _ => apply u64_sub_ok in H as [_ H]; cbn in H end; lia. }
    apply (connect_leads (E := string) (mid ++ [final]) first final 0 BTCUSD_MAX_PRICE _); [|..|done].
    + cbn. split; [done|]. split; [done|]. eapply adjacent_app; [exact Hmid|]. cbn. eauto.
    + constructor; [do 3 eexists; reflexivity|]. apply Forall_app_2; [done|].
      apply Forall_singleton. do 3 eexists. reflexivity.
    + by rewrite app_comm_cons, last_snoc.
  - apply List.Forall_forall. intros i Hi%filter_In. apply proj1, in_app_iff in Hi.
    pose proof (connect_pays _ _ _ Hall Hconnect) as Hout. rewrite List.Forall_forall in Hout, Hall.
    destruct Hi as [Hi|Hi]; [by apply Hout|]. apply Hall. right. apply in_app_iff. by right.
Qed.

(** C21: A payout function covers every price from zero to the largest: its
    intervals are not empty and each starts at the very point where the one before
    ends, the first pays what is due when the long side is liquidated and the last
    what is due when the short side is.  At no price does the offering party get
    less than its collateral reserve, nor so much that the accepting party does not
    keep its own. *)
Theorem payout_function_covers_prices direction initial long short params pieces :
  new_btc_usd initial long short = Ok params ->
  build_inverse_payout_function quantity offer accept params direction = Ok pieces ->
  leads (PayoutPoint.mk 0 (liquidation_payout direction Long) 0) pieces
    (PayoutPoint.mk BTCUSD_MAX_PRICE (liquidation_payout direction Short) 0)
  /\ Forall (pays respects_reserves) pieces.
Proof. apply payout_function_covers. Qed.

(** Between the liquidation prices a contract pays what trading is worth: every
    interval there pays the offering party its collateral with the profit or loss of
    the position at the price half a step into the interval, unchanged by the
    bounds that are put on it. *)
Theorem mid_range_pays_pnl price long_end short_start direction l :
  calculate_mid_range_payouts offer accept price long_end short_start direction quantity = Ok l ->
  let step := (PayoutPoint.event_outcome short_start - PayoutPoint.event_outcome long_end)
              / PAYOUT_CURVE_DISCRETIZATION_INTERVALS in
  let margins := match direction with
                 | Long => (PartyParams.margin offer, PartyParams.margin accept)
                 | Short => (PartyParams.margin accept, PartyParams.margin offer)
                 end in
  Forall (fun i => exists pnl,
    calculate_pnl price (d_from_u64 (PayoutPoint.event_outcome i.1 + step / 2)) quantity direction
      margins.1 margins.2 = Ok pnl /\
    PayoutPoint.outcome_payout i.1
      = PartyParams.margin offer + PartyParams.collateral_reserve offer + pnl /\
    PayoutPoint.outcome_payout i.2 = PayoutPoint.outcome_payout i.1) l.
Proof.
  intros Hl step margins. unfold calculate_mid_range_payouts, total_collateral in Hl. inv_ok.
  change (match direction with Long => (_, _) | Short => _ end) with margins in Hl.
  destruct margins as [long_margin short_margin] eqn:Hmargins. unfold margins in Hmargins.
  inv_ok. cbn [fst snd].
  repeat match goal with
  | H : u64_add _ _ = Ok _ |- _ => apply u64_add_ok in H as [-> ?]
  | H : checked_u64 _ = Some _ |- _ => apply checked_u64_some in H as [-> ?]
  end.
  fold step in Hl. apply traverse_ok in Hl. eapply Forall2_Forall_r; [exact Hl|]. apply Forall_true.
  intros x i Hi. unfold mid_range_interval, total_collateral in Hi. inv_ok. cbv zeta in Hi. inv_ok. subst i.
  match goal with H : calculate_pnl _ _ _ _ _ _ = Ok ?p |- _ =>
    rename H into Hpnl, p into pnl; pose proof Hpnl as Hwithin end.
  apply calculate_pnl_within in Hwithin; [|unfold channel_collateral in *; destruct direction;
    injection Hmargins as <- <-; lia..].
  repeat match goal with
  | H : u64_add _ _ = Ok _ |- _ => apply u64_add_ok in H as [-> ?]
  | H : i64_add _ _ = Ok _ |- _ => apply i64_add_ok in H as [-> ?]
  end.
  exists pnl. split; [done|]. cbn. split; [|done].
  unfold channel_collateral in *. rewrite !as_i64_small by lia. unfold as_u64.
  rewrite Z.mod_small; destruct direction; injection Hmargins as <- <-; lia.
Qed.
End Payouts.

(** ** The contract of the snapshot test of [lib.rs]

    60000 contracts at 30000 with leverage 2 on both sides; the offering party is
    short and keeps 300000 sats out of the bet. *)

Definition demo_offer : PartyParams.t := PartyParams.mk 100000000 300000.
Definition demo_accept : PartyParams.t := PartyParams.mk 100000000 0.
Definition demo_price_params : outcome string PriceParams.t :=
  new_btc_usd (d_from_u64 30000) (d_from_u64 20000) (d_from_u64 60000).
Definition demo_params : PriceParams.t :=
  match demo_price_params with Ok p => p | _ => PriceParams.mk d_zero d_zero d_zero end.
Definition demo_payout_function (direction : Direction) : list Interval :=
  match build_inverse_payout_function (f32_of_Z 60000) demo_offer demo_accept demo_params direction with
  | Ok l => l
  | _ => []
  end.


(** At 30100 the short party has lost 664451 sats of its margin. *)

(** As in [payout_curve__tests__payout_function_snapshot.snap]. *)
Example demo_intervals : length (demo_payout_function Short) = 403%nat.
Proof. vm_compute. reflexivity. Qed.
Example demo_second : demo_payout_function Short !! 1%nat =
  Some (PayoutPoint.mk 19999 200300000 0, PayoutPoint.mk 20000 198807463 0).
Proof. vm_compute. reflexivity. Qed.
Example demo_middle : demo_payout_function Short !! 102%nat =
  Some (PayoutPoint.mk 30000 99635548 0, PayoutPoint.mk 30199 99635548 0).
Proof. vm_compute. reflexivity. Qed.

Lemma payout_function_covers_prices_witness :
  leads (PayoutPoint.mk 0 200300000 0) (demo_payout_function Short) (PayoutPoint.mk 1048575 300000 0)
  /\ Forall (pays (respects_reserves demo_offer demo_accept)) (demo_payout_function Short).
Proof.
  apply (payout_function_covers_prices (f32_of_Z 60000) demo_offer demo_accept ltac:(by vm_compute) ltac:(by vm_compute)
           ltac:(by vm_compute) ltac:(by vm_compute) ltac:(by vm_compute) Short (d_from_u64 30000) (d_from_u64 20000)
           (d_from_u64 60000) demo_params); [reflexivity|].
  vm_compute. reflexivity.
Defined.

Definition demo_mid_range : list Interval :=
  match calculate_mid_range_payouts demo_offer demo_accept (d_from_u64 30000)
          (PayoutPoint.mk 20000 200300000 0) (PayoutPoint.mk 60000 300000 0) Short (f32_of_Z 60000) with
  | Ok l => l
  | _ => []
  end.

Lemma mid_range_pays_pnl_witness :
  length demo_mid_range = 200%nat /\
  Forall (fun i => exists pnl,
    calculate_pnl (d_from_u64 30000) (d_from_u64 (PayoutPoint.event_outcome i.1 + 100))
      (f32_of_Z 60000) Short 100000000 100000000 = Ok pnl /\
    PayoutPoint.outcome_payout i.1 = 100300000 + pnl /\
    PayoutPoint.outcome_payout i.2 = PayoutPoint.outcome_payout i.1) demo_mid_range.
Proof.
  split; [vm_compute; reflexivity|].
  apply (mid_range_pays_pnl (f32_of_Z 60000) demo_offer demo_accept ltac:(by vm_compute) ltac:(by vm_compute)
           ltac:(by vm_compute) ltac:(by vm_compute) ltac:(by vm_compute) (d_from_u64 30000) (PayoutPoint.mk 20000 200300000 0)
           (PayoutPoint.mk 60000 300000 0) Short demo_mid_range); vm_compute; reflexivity.
Defined.
