(* ===== verification/AppData.v ===== *)
(** * [mobile/native/src/trade]: the app's orders, positions and trades

    The data the app keeps of its trader: [order/mod.rs], [position/mod.rs],
    [trades/mod.rs], [funding_fee_event/mod.rs], with the small functions of
    [calculations/mod.rs]. *)

From stdpp Require Import base list option strings.
From Stdlib Require Import ZArith QArith Lia.
From S2P Require Import Prelude Machine External Commons Cfd.

#[local] Open Scope Z_scope.
#[local] Open Scope decimal_scope.

(** ** Orders *)

Module AppOrderType.
Inductive t := Market | Limit (price : f32).
End AppOrderType.

Inductive InvalidSubchannelOffer := Outdated | UndeterminedMaturityDate | Unacceptable.

Inductive FailureReason :=
  | FailedToSetToFilling
  | TradeRequest
  | TradeResponse (response : string)
  | CollabRevert
  | OrderNotAcceptable
  | TimedOut
  | InvalidDlcOffer (offer : InvalidSubchannelOffer)
  | OrderRejected (response : string)
  | Unknown.

Module AppOrderState.
Inductive t :=
  | Initial
  | Rejected
  | Open
  | Filling (execution_price : f32) (matching_fee : Amount)
  | Failed (execution_price : option f32) (matching_fee : option Amount) (reason : FailureReason)
  | Filled (execution_price : f32) (matching_fee : Amount).
End AppOrderState.

#[export] Instance AppOrderType_eq_dec : EqDecision AppOrderType.t.
Proof. solve_decision. Defined.
#[export] Instance InvalidSubchannelOffer_eq_dec : EqDecision InvalidSubchannelOffer.
Proof. solve_decision. Defined.
#[export] Instance FailureReason_eq_dec : EqDecision FailureReason.
Proof. solve_decision. Defined.
#[export] Instance AppOrderState_eq_dec : EqDecision AppOrderState.t.
Proof. solve_decision. Defined.

(** [OrderState::matching_fee], [OrderState::execution_price] and
    [OrderState::failure_reason]. *)
Definition state_matching_fee (s : AppOrderState.t) : option Amount :=
  match s with
  | AppOrderState.Initial | AppOrderState.Rejected | AppOrderState.Failed _ _ _
  | AppOrderState.Open => None
  | AppOrderState.Filling _ matching_fee | AppOrderState.Filled _ matching_fee => Some matching_fee
  end.
Definition state_execution_price (s : AppOrderState.t) : option f32 :=
  match s with
  | AppOrderState.Initial | AppOrderState.Rejected | AppOrderState.Failed _ _ _
  | AppOrderState.Open => None
  | AppOrderState.Filling execution_price _ | AppOrderState.Filled execution_price _ =>
    Some execution_price
  end.
Definition state_failure_reason (s : AppOrderState.t) : option FailureReason :=
  match s with
  | AppOrderState.Initial | AppOrderState.Rejected | AppOrderState.Open => None
  | AppOrderState.Filling _ _ | AppOrderState.Filled _ _ => None
  | AppOrderState.Failed _ _ reason => Some reason
  end.

(** [OrderReason] of the app, with its conversions from and to [commons]. *)
Module AppOrderReason.
Inductive t := Manual | Expired | CoordinatorLiquidated | TraderLiquidated.
Definition into_commons (value : t) : OrderReason.t :=
  match value with
  | Manual => OrderReason.Manual
  | Expired => OrderReason.Expired
  | CoordinatorLiquidated => OrderReason.CoordinatorLiquidated
  | TraderLiquidated => OrderReason.TraderLiquidated
  end.
Definition from_commons (value : OrderReason.t) : t :=
  match value with
  | OrderReason.Manual => Manual
  | OrderReason.Expired => Expired
  | OrderReason.CoordinatorLiquidated => CoordinatorLiquidated
  | OrderReason.TraderLiquidated => TraderLiquidated
  end.
#[global] Instance eq_dec : EqDecision t.
Proof. solve_decision. Defined.
End AppOrderReason.

Module AppOrder.
Record t := mk {
  id : Uuid;
  leverage : f32;
  quantity : f32;
  contract_symbol : ContractSymbol;
  direction : Direction;
  order_type : AppOrderType.t;
  state : AppOrderState.t;
  creation_timestamp : OffsetDateTime;
  order_expiry_timestamp : OffsetDateTime;
  reason : AppOrderReason.t;
  stable : bool;
  failure_reason : option FailureReason;
}.

(** [Order { quantity: .., ..order }] and [order.state = ..]. *)
Definition with_quantity (quantity : f32) (o : t) : t :=
  mk (id o) (leverage o) quantity (contract_symbol o) (direction o) (order_type o) (state o)
    (creation_timestamp o) (order_expiry_timestamp o) (reason o) (stable o) (failure_reason o).
Definition with_state (state : AppOrderState.t) (o : t) : t :=
  mk (id o) (leverage o) (quantity o) (contract_symbol o) (direction o) (order_type o) state
    (creation_timestamp o) (order_expiry_timestamp o) (reason o) (stable o) (failure_reason o).
Definition with_failure_reason (failure_reason : option FailureReason) (o : t) : t :=
  mk (id o) (leverage o) (quantity o) (contract_symbol o) (direction o) (order_type o) (state o)
    (creation_timestamp o) (order_expiry_timestamp o) (reason o) (stable o) failure_reason.
End AppOrder.

(** [Order::execution_price] and [Order::matching_fee]: a failed order has them
    too, once they were known. *)
Definition order_execution_price (o : AppOrder.t) : option f32 :=
  match AppOrder.state o with
  | AppOrderState.Filling execution_price _ | AppOrderState.Filled execution_price _
  | AppOrderState.Failed (Some execution_price) _ _ => Some execution_price
  | _ => None
  end.
Definition order_known_matching_fee (o : AppOrder.t) : option Amount :=
  match AppOrder.state o with
  | AppOrderState.Filling _ matching_fee | AppOrderState.Filled _ matching_fee
  | AppOrderState.Failed _ (Some matching_fee) _ => Some matching_fee
  | _ => None
  end.

(** ** Positions *)

Module AppPositionState.
Inductive t := Open | Closing | Rollover | Resizing.
#[global] Instance eq_dec : EqDecision t.
Proof. solve_decision. Defined.
End AppPositionState.

Module AppPosition.
Record t := mk {
  leverage : f32;
  quantity : f32;
  contract_symbol : ContractSymbol;
  direction : Direction;
  average_entry_price : f32;
  liquidation_price : f32;
  position_state : AppPositionState.t;
  collateral : Z;
  expiry : OffsetDateTime;
  updated : OffsetDateTime;
  created : OffsetDateTime;
  stable : bool;
  order_matching_fees : Amount;
}.
#[global] Instance eq_dec : EqDecision t.
Proof. solve_decision. Defined.

(** [Position { quantity: .., order_matching_fees: .., ..self }]. *)
Definition with_quantity_and_fees (quantity : f32) (order_matching_fees : Amount) (p : t) : t :=
  mk (leverage p) quantity (contract_symbol p) (direction p) (average_entry_price p)
    (liquidation_price p) (position_state p) (collateral p) (expiry p) (updated p) (created p)
    (stable p) order_matching_fees.
End AppPosition.

(** ** Trades and funding fee events *)

Module AppTrade.
Record t `{DecimalLib} := mk {
  order_id : Uuid;
  contract_symbol : ContractSymbol;
  contracts : Decimal;
  direction : Direction;
  trade_cost : SignedAmount;
  fee : Amount;
  pnl : option SignedAmount;
  price : Decimal;
  timestamp : OffsetDateTime;
}.
#[global] Arguments mk {_}.
End AppTrade.

Module AppFundingFeeEvent.
Record t `{DecimalLib} := mk {
  contract_symbol : ContractSymbol;
  contracts : Decimal;
  direction : Direction;
  price : Decimal;
  fee : SignedAmount;
  due_date : OffsetDateTime;
  paid_date : option OffsetDateTime;
}.
#[global] Arguments mk {_}.

(** [FundingFeeEvent::unpaid]. *)
Definition unpaid `{DecimalLib} (contract_symbol : ContractSymbol) (contracts : Decimal)
    (direction : Direction) (price : Decimal) (fee : SignedAmount) (due_date : OffsetDateTime) : t :=
  mk contract_symbol contracts direction price fee due_date None.
End AppFundingFeeEvent.

(** ** [calculations/mod.rs] *)

Section Calculations.
Context `{DecimalLib} `{BitcoinLib}.
Context {E : Type}.

(** [calculate_margin]. *)
Definition app_calculate_margin (opening_price quantity leverage : f32) : outcome E Z :=
  opening_price ← expect (d_try_from_f32 opening_price);
  calculate_margin opening_price quantity leverage.

(** [Order::trader_margin]. *)
Definition trader_margin (o : AppOrder.t) : outcome E (option Z) :=
  match order_execution_price o with
  | None => Ok None
  | Some opening_price =>
    margin ← app_calculate_margin opening_price (AppOrder.quantity o) (AppOrder.leverage o);
    Ok (Some margin)
  end.

(** [calculate_liquidation_price]. *)
Definition app_calculate_liquidation_price (price leverage : f32) (direction : Direction)
    (maintenance_margin_rate : Decimal) : outcome E f32 :=
  initial_price ← expect (d_try_from_f32 price);
  leverage ← expect (d_try_from_f32 leverage);
  liquidation_price ←
    match direction with
    | Long => calculate_long_liquidation_price leverage initial_price maintenance_margin_rate
    | Short => calculate_short_liquidation_price leverage initial_price maintenance_margin_rate
    end;
  expect (d_to_f32 liquidation_price).

(** [get_maintenance_margin_rate] ([dlc/mod.rs]); [config] is the rate the
    coordinator sent, once the app has received it. *)
Definition get_maintenance_margin_rate (config : option f32) : outcome E Decimal :=
  match config with
  | Some maintenance_margin_rate => expect (d_try_from_f32 maintenance_margin_rate)
  | None => Ok (d_lit (1 # 10))
  end.
End Calculations.

(** [calculate_pnl]. *)
Definition app_calculate_pnl `{DecimalLib} `{BitcoinLib} (opening_price : f32) (closing_price : Price.t)
    (quantity leverage : f32) (direction : Direction) : outcome string Z :=
  let '(long_leverage, short_leverage) :=
    match direction with
    | Long => (leverage, f32_of_Z 2)
    | Short => (f32_of_Z 2, leverage)
    end in
  long_margin ← app_calculate_margin opening_price quantity long_leverage;
  short_margin ← app_calculate_margin opening_price quantity short_leverage;
  opening_price ← expect (d_try_from_f32 opening_price);
  let closing_price := get_price_for_direction closing_price (opposite direction) in
  calculate_pnl opening_price closing_price quantity direction long_margin short_margin.
