(* ===== verification/AppApply.v ===== *)
(** * [mobile/native/src/trade/position/mod.rs]: orders applied to the app's position

    The app keeps its own account of the position the coordinator keeps: a filled
    order opens a position ([new_open]) or changes it ([apply_order]), funding fees
    change its collateral.  An order is applied in steps, each of which reduces the
    position, closes it or increases it. *)

From stdpp Require Import base list option strings.
From Stdlib Require Import ZArith QArith Lia.
From S2P Require Import Prelude Machine Floats External Demo Commons Cfd AppData.

#[local] Open Scope Z_scope.
#[local] Open Scope decimal_scope.

Section Apply.
Context `{DecimalLib} `{BitcoinLib}.

(** The functions [decimal_from_f32], [app_f32_from_decimal] of the module. *)
Definition app_decimal_from_f32 {E} (float : f32) : outcome E Decimal := expect (d_from_f32 float).
Definition app_f32_from_decimal {E} (decimal : Decimal) : outcome E f32 := expect (d_to_f32 decimal).

(** [trade_cost]. *)
Definition trade_cost {E} (margin_diff pnl : SignedAmount) (fee : Amount) : outcome E SignedAmount :=
  fee ← expect (amount_to_signed fee);
  x ← expect (signed_sub margin_diff pnl);
  expect (signed_add x fee).

(** [compute_relative_contracts]. *)
Definition app_relative_contracts {E} (contracts : f32) (direction : Direction) : outcome E Decimal :=
  contracts ← app_decimal_from_f32 contracts;
  let contracts := d_round_dp 2 MidpointAwayFromZero contracts in
  Ok (match direction with Long => contracts | Short => d_neg contracts end).

(** [-] on [Decimal] to [to_f64] and [from_btc]: how margins become amounts. *)
Definition amount_of_btc {E} (btc : Decimal) : outcome E Amount :=
  btc ← expect (d_to_f64 (d_round_dp 8 MidpointAwayFromZero btc));
  expect (amount_from_btc btc).

(** The collateral of [contracts] at a leverage and price. *)
Definition collateral_btc {E} (contracts leverage price : Decimal) : outcome E Decimal :=
  value ← leverage *! price;
  contracts /! value.

(** [Position::new_open]. *)
Definition new_open (maintenance_margin_rate : Decimal) (now : OffsetDateTime) (order : AppOrder.t)
    (expiry : OffsetDateTime) : outcome string (AppPosition.t * AppTrade.t) :=
  average_entry_price ← expect (order_execution_price order);
  matching_fee ← expect (order_known_matching_fee order);
  liquidation_price ← app_calculate_liquidation_price average_entry_price (AppOrder.leverage order)
    (AppOrder.direction order) maintenance_margin_rate;
  contracts ← app_decimal_from_f32 (AppOrder.quantity order);
  leverage ← app_decimal_from_f32 (AppOrder.leverage order);
  entry_price ← app_decimal_from_f32 average_entry_price;
  btc ← collateral_btc contracts leverage entry_price;
  collateral ← amount_of_btc btc;
  let position := AppPosition.mk (AppOrder.leverage order) (AppOrder.quantity order)
    (AppOrder.contract_symbol order) (AppOrder.direction order) average_entry_price liquidation_price
    AppPositionState.Open collateral expiry now now (AppOrder.stable order) matching_fee in
  margin_diff ← expect (amount_to_signed collateral);
  cost ← trade_cost margin_diff 0 matching_fee;
  Ok (position, AppTrade.mk (AppOrder.id order) (AppOrder.contract_symbol order) contracts
        (AppOrder.direction order) cost matching_fee None entry_price now).

(** ** One step of [apply_order_recursive]

    The arms of its case distinction: the position, the order and the matching fee
    that are left, and the trade. *)
Definition StepResult : Type := AppPosition.t * AppOrder.t * AppTrade.t * Amount.

(** The block [pnl] the three reducing arms share. *)
Definition closed_pnl (position : AppPosition.t) (execution_price : Decimal) (quantity : f32)
    : outcome string SignedAmount :=
  app_calculate_pnl (AppPosition.average_entry_price position)
    (Price.mk execution_price execution_price) quantity (AppPosition.leverage position)
    (AppPosition.direction position).

(** "Reduce position and order to 0". *)
Definition step_close (now : OffsetDateTime) (position : AppPosition.t) (order : AppOrder.t)
    (matching_fee : Amount)
    (starting_contracts starting_leverage starting_price order_contracts execution_price : Decimal)
    : outcome string StepResult :=
  margin_before ← collateral_btc starting_contracts starting_leverage starting_price;
  margin_before ← expect (d_to_f64 (d_round_dp 8 MidpointAwayFromZero margin_before));
  margin_diff ← expect (signed_from_btc (f64_neg margin_before));
  pnl ← closed_pnl position execution_price (AppOrder.quantity order);
  cost ← trade_cost margin_diff pnl matching_fee;
  let trade := AppTrade.mk (AppOrder.id order) (AppOrder.contract_symbol order) order_contracts
    (AppOrder.direction order) cost matching_fee (Some pnl) execution_price now in
  fees ← expect (amount_add (AppPosition.order_matching_fees position) matching_fee);
  Ok (AppPosition.with_quantity_and_fees f32_zero fees position,
      AppOrder.with_quantity f32_zero order, trade, 0).

(** "Reduce position and consume entire order". *)
Definition step_reduce (now expiry : OffsetDateTime) (position : AppPosition.t)
    (order : AppOrder.t) (matching_fee : Amount) (contract_diff : f32)
    (starting_contracts starting_leverage starting_price order_contracts execution_price : Decimal)
    : outcome string StepResult :=
  order_contracts_relative ← app_relative_contracts (AppOrder.quantity order) (AppOrder.direction order);
  diff ← expect (d_try_from_f32 contract_diff);
  new_btc ← collateral_btc diff starting_leverage starting_price;
  new_collateral ← amount_of_btc new_btc;
  closed_btc ← collateral_btc order_contracts starting_leverage starting_price;
  closed_collateral ← amount_of_btc (d_abs closed_btc);
  leverage ← app_f32_from_decimal starting_leverage;
  fees ← expect (amount_add (AppPosition.order_matching_fees position) matching_fee);
  let position' := AppPosition.mk leverage contract_diff (AppPosition.contract_symbol position)
    (AppPosition.direction position) (AppPosition.average_entry_price position)
    (AppPosition.liquidation_price position) AppPositionState.Open new_collateral expiry now
    (AppPosition.created position) (AppPosition.stable position) fees in
  pnl ← closed_pnl position execution_price (AppOrder.quantity order);
  closed ← expect (amount_to_signed closed_collateral);
  closed ← expect (checked_i64 (closed * -1));
  cost ← trade_cost closed pnl matching_fee;
  let trade := AppTrade.mk (AppOrder.id order) (AppPosition.contract_symbol position)
    (d_abs order_contracts_relative) (AppOrder.direction order) cost matching_fee (Some pnl)
    execution_price now in
  Ok (position', AppOrder.with_quantity f32_zero order, trade, 0).

(** The split of the matching fee between the trade that closes the position and
    the one that opens it in the other direction: [(this, next)]. *)
Definition split_matching_fee {E} (matching_fee : Amount) (leftover_order_contracts : f32)
    (order_contracts : Decimal) : outcome E (Amount * Amount) :=
  leftover_order_contracts ← app_decimal_from_f32 leftover_order_contracts;
  let full_matching_fee := d_from_u64 matching_fee in
  share ← leftover_order_contracts /! order_contracts;
  next ← share *! full_matching_fee;
  matching_fee_next_trade ← expect (d_to_u64 next);
  matching_fee_this_trade ← expect (amount_checked_sub matching_fee matching_fee_next_trade);
  Ok (matching_fee_this_trade, matching_fee_next_trade).

(** "Reduce position to 0, with leftover order". *)
Definition step_close_with_leftover (now : OffsetDateTime) (position : AppPosition.t) (order : AppOrder.t)
    (matching_fee : Amount) (contract_diff : f32)
    (starting_contracts starting_leverage starting_price order_contracts execution_price : Decimal)
    : outcome string StepResult :=
  let leftover_order_contracts := f32_abs contract_diff in
  fees ← split_matching_fee matching_fee leftover_order_contracts order_contracts;
  let '(matching_fee_this_trade, matching_fee_next_trade) := fees in
  closed_btc ← collateral_btc starting_contracts starting_leverage starting_price;
  closed_collateral ← amount_of_btc (d_abs closed_btc);
  pnl ← closed_pnl position execution_price (AppPosition.quantity position);
  closed ← expect (amount_to_signed closed_collateral);
  closed ← expect (checked_i64 (closed * -1));
  cost ← trade_cost closed pnl matching_fee_this_trade;
  let trade := AppTrade.mk (AppOrder.id order) (AppOrder.contract_symbol order) starting_contracts
    (AppOrder.direction order) cost matching_fee_this_trade (Some pnl) execution_price now in
  fees ← expect (amount_add (AppPosition.order_matching_fees position) matching_fee_this_trade);
  Ok (AppPosition.with_quantity_and_fees f32_zero fees position,
      AppOrder.with_quantity leftover_order_contracts order, trade, matching_fee_next_trade).

(** "If the directions agree or the position has no contracts we must increase the
    position". *)
Definition step_increase (maintenance_margin_rate : Decimal) (now expiry : OffsetDateTime)
    (position : AppPosition.t) (order : AppOrder.t) (matching_fee : Amount)
    (starting_leverage starting_price order_contracts execution_price : Decimal)
    : outcome string StepResult :=
  starting_relative ←
    app_relative_contracts (AppPosition.quantity position) (AppPosition.direction position);
  order_relative ← app_relative_contracts (AppOrder.quantity order) (AppOrder.direction order);
  total_relative ← starting_relative +! order_relative;
  starting_value ← starting_relative /! starting_price;
  order_value ← order_relative /! execution_price;
  value ← starting_value +! order_value;
  updated_price ← total_relative /! value;
  price ← app_f32_from_decimal updated_price;
  leverage ← app_f32_from_decimal starting_leverage;
  updated_liquidation_price ←
    app_calculate_liquidation_price price leverage (AppOrder.direction order) maintenance_margin_rate;
  updated_btc ← collateral_btc total_relative starting_leverage updated_price;
  updated_collateral ← amount_of_btc (d_abs updated_btc);
  let stable := AppPosition.stable position && AppOrder.stable order
    && bool_decide (AppPosition.direction position = Short) in
  quantity ← app_f32_from_decimal (d_abs total_relative);
  fees ← expect (amount_add (AppPosition.order_matching_fees position) matching_fee);
  let position' := AppPosition.mk leverage quantity (AppPosition.contract_symbol position)
    (AppOrder.direction order) price updated_liquidation_price AppPositionState.Open
    updated_collateral expiry now (AppPosition.created position) stable fees in
  margin_before ← collateral_btc (d_abs starting_relative) starting_leverage starting_price;
  margin_after ← collateral_btc (d_abs total_relative) starting_leverage updated_price;
  margin_diff ← margin_after -! margin_before;
  margin_diff ← expect (d_to_f64 (d_round_dp 8 MidpointAwayFromZero margin_diff));
  margin_diff ← expect (signed_from_btc margin_diff);
  cost ← trade_cost margin_diff 0 matching_fee;
  let trade := AppTrade.mk (AppOrder.id order) (AppOrder.contract_symbol order) order_contracts
    (AppOrder.direction order) cost matching_fee None execution_price now in
  Ok (position', AppOrder.with_quantity f32_zero order, trade, 0).

(** The body of [apply_order_recursive] between its first test and its last line. *)
Definition apply_step (maintenance_margin_rate : Decimal) (now expiry : OffsetDateTime)
    (position : AppPosition.t) (order : AppOrder.t) (matching_fee : Amount)
    : outcome string StepResult :=
  starting_contracts ← app_decimal_from_f32 (AppPosition.quantity position);
  starting_leverage ← app_decimal_from_f32 (AppPosition.leverage position);
  starting_price ← app_decimal_from_f32 (AppPosition.average_entry_price position);
  order_contracts ← app_decimal_from_f32 (AppOrder.quantity order);
  execution_price ← expect (order_execution_price order);
  execution_price ← app_decimal_from_f32 execution_price;
  if negb (f32_eqb (AppPosition.quantity position) f32_zero)
     && bool_decide (AppOrder.direction order <> AppPosition.direction position) then
    let contract_diff := f32_sub (AppPosition.quantity position) (AppOrder.quantity order) in
    if f32_eqb contract_diff f32_zero then
      step_close now position order matching_fee starting_contracts starting_leverage
        starting_price order_contracts execution_price
    else if f32_is_sign_positive contract_diff then
      step_reduce now expiry position order matching_fee contract_diff starting_contracts
        starting_leverage starting_price order_contracts execution_price
    else
      step_close_with_leftover now position order matching_fee contract_diff starting_contracts
        starting_leverage starting_price order_contracts execution_price
  else
    step_increase maintenance_margin_rate now expiry position order matching_fee
      starting_leverage starting_price order_contracts execution_price.

(** [apply_order_recursive]; [None] when [fuel] calls were not enough. *)
Fixpoint apply_order_recursive (fuel : nat) (maintenance_margin_rate : Decimal)
    (now expiry : OffsetDateTime) (position : AppPosition.t) (order : AppOrder.t)
    (matching_fee : Amount) (trades : list AppTrade.t)
    : option (outcome string (option AppPosition.t * list AppTrade.t)) :=
  match fuel with
  | O => None
  | S fuel =>
    if f32_eqb (AppOrder.quantity order) f32_zero then
      if f32_eqb (AppPosition.quantity position) f32_zero then Some (Ok (None, trades))
      else Some (Ok (Some position, trades))
    else
      match apply_step maintenance_margin_rate now expiry position order matching_fee with
      | Ok (position, order, trade, leftover_matching_fee) =>
        apply_order_recursive fuel maintenance_margin_rate now expiry position order
          leftover_matching_fee (trades ++ [trade])
      | Err e => Some (Err e)
      | Panic => Some Panic
      end
  end.

(** The calls [apply_order_recursive] makes at most. *)
Definition APPLY_ORDER_FUEL : nat := 3.

(** [Position::apply_order]. *)
Definition apply_order (maintenance_margin_rate : Decimal) (now : OffsetDateTime)
    (position : AppPosition.t) (order : AppOrder.t) (expiry : OffsetDateTime)
    : outcome string (option AppPosition.t * list AppTrade.t) :=
  _ ← match AppOrder.state order with
      | AppOrderState.Filled _ _ | AppOrderState.Filling _ _ => Ok tt
      | _ => Err "Cannot apply order that is not filling or filled"%string
      end;
  _ ← ensure (bool_decide (AppPosition.contract_symbol position = AppOrder.contract_symbol order))
        "Cannot apply order to position if contract symbol does not match"%string;
  _ ← ensure (bool_decide (AppOrder.order_type order = AppOrderType.Market))
        "Cannot apply limit order to position"%string;
  let matching_fee := default 0 (order_known_matching_fee order) in
  default Panic (apply_order_recursive APPLY_ORDER_FUEL maintenance_margin_rate now expiry position
    order matching_fee []).

(** ** Funding fees and rollover *)

(** [iter().map(|event| event.fee).sum()]. *)
Fixpoint sum_signed {E} (acc : SignedAmount) (l : list SignedAmount) : outcome E SignedAmount :=
  match l with
  | [] => Ok acc
  | a :: l => acc' ← expect (signed_add acc a); sum_signed acc' l
  end.

(** [Position::apply_funding_fee_events]. *)
Definition apply_funding_fee_events (maintenance_margin_rate : Decimal) (now : OffsetDateTime)
    (position : AppPosition.t) (funding_fee_events : list AppFundingFeeEvent.t)
    : outcome string AppPosition.t :=
  funding_fee ← sum_signed 0 (map AppFundingFeeEvent.fee funding_fee_events);
  updated ←
    (if 0 <? funding_fee then
       let collateral := default 0 (checked_u64 (AppPosition.collateral position - as_u64 funding_fee)) in
       quantity ← expect (d_try_from_f32 (AppPosition.quantity position));
       average_entry_price ← expect (d_try_from_f32 (AppPosition.average_entry_price position));
       leverage ← calculate_leverage quantity collateral average_entry_price;
       leverage ← expect (d_to_f32 leverage);
       liquidation_price ← app_calculate_liquidation_price (AppPosition.average_entry_price position)
         leverage (AppPosition.direction position) maintenance_margin_rate;
       Ok (collateral, leverage, liquidation_price)
     else
       Ok (AppPosition.collateral position, AppPosition.leverage position,
           AppPosition.liquidation_price position));
  let '(collateral, leverage, liquidation_price) := updated in
  Ok (AppPosition.mk leverage (AppPosition.quantity position) (AppPosition.contract_symbol position)
        (AppPosition.direction position) (AppPosition.average_entry_price position) liquidation_price
        (AppPosition.position_state position) collateral (AppPosition.expiry position) now
        (AppPosition.created position) (AppPosition.stable position)
        (AppPosition.order_matching_fees position)).

(** [Position::start_rollover] and [Position::finish_rollover]. *)
Definition start_rollover (now : OffsetDateTime) (position : AppPosition.t) (expiry : OffsetDateTime)
    : AppPosition.t :=
  AppPosition.mk (AppPosition.leverage position) (AppPosition.quantity position)
    (AppPosition.contract_symbol position) (AppPosition.direction position)
    (AppPosition.average_entry_price position) (AppPosition.liquidation_price position)
    AppPositionState.Rollover (AppPosition.collateral position) expiry now
    (AppPosition.created position) (AppPosition.stable position)
    (AppPosition.order_matching_fees position).
Definition finish_rollover (now : OffsetDateTime) (position : AppPosition.t) : AppPosition.t :=
  AppPosition.mk (AppPosition.leverage position) (AppPosition.quantity position)
    (AppPosition.contract_symbol position) (AppPosition.direction position)
    (AppPosition.average_entry_price position) (AppPosition.liquidation_price position)
    AppPositionState.Open (AppPosition.collateral position) (AppPosition.expiry position) now
    (AppPosition.created position) (AppPosition.stable position)
    (AppPosition.order_matching_fees position).
End Apply.

(** ** Termination *)

Section Termination.
Context `{DecimalLib} `{BitcoinLib}.

(** The calls still to come: an order that is used up needs none, one that
    reduces the position may need two, others one. *)
Definition calls_left (position : AppPosition.t) (order : AppOrder.t) : nat :=
  if f32_eqb (AppOrder.quantity order) f32_zero then 0
  else if negb (f32_eqb (AppPosition.quantity position) f32_zero)
          && bool_decide (AppOrder.direction order <> AppPosition.direction position) then 2 else 1.

Lemma calls_left_used_up position order : AppOrder.quantity order = f32_zero -> calls_left position order = 0%nat.
Proof using Type. unfold calls_left. by intros ->. Qed.

Lemma calls_left_empty position order : AppPosition.quantity position = f32_zero ->
  (calls_left position order <= 1)%nat.
Proof using Type. unfold calls_left. intros ->. cbn. destruct (f32_eqb _ _); lia. Qed.

Lemma apply_step_decreases rate now expiry position order fee position' order' trade fee' :
  apply_step rate now expiry position order fee = Ok (position', order', trade, fee') ->
  f32_eqb (AppOrder.quantity order) f32_zero = false ->
  (calls_left position' order' < calls_left position order)%nat.
Proof using Type.
  unfold apply_step. intros Hs Hq. inv_ok. unfold calls_left at 2. rewrite Hq.
  destruct (negb _ && _) eqn:Hdir.
  - destruct (f32_eqb (f32_sub _ _) _); [|destruct (f32_is_sign_positive _)].
    + unfold step_close in Hs. inv_ok. subst. rewrite calls_left_used_up by done. lia.
    + unfold step_reduce in Hs. inv_ok. subst. rewrite calls_left_used_up by done. lia.
    + unfold step_close_with_leftover in Hs. apply outcome_bind_ok in Hs as ([this next] & _ & Hs).
      inv_ok. subst. apply Nat.lt_succ_r. by apply calls_left_empty.
  - unfold step_increase in Hs. inv_ok. subst. rewrite calls_left_used_up by done. lia.
Qed.

Lemma calls_left_bound position order : (calls_left position order <= 2)%nat.
Proof using Type. unfold calls_left. destruct (f32_eqb _ _); [lia|]. destruct (_ && _); lia. Qed.

Lemma apply_order_recursive_calls fuel : forall rate now expiry position order fee trades,
  (calls_left position order < fuel)%nat ->
  exists r, (forall fuel', (calls_left position order < fuel')%nat ->
      apply_order_recursive fuel' rate now expiry position order fee trades = Some r) /\
    (forall position' trades', r = Ok (position', trades') ->
      (length trades' <= length trades + calls_left position order)%nat).
Proof using Type.
  induction fuel as [|fuel IH]; intros rate now expiry position order fee trades Hfuel; [lia|].
  destruct (f32_eqb (AppOrder.quantity order) f32_zero) eqn:Hq.
  { exists (Ok (if f32_eqb (AppPosition.quantity position) f32_zero then None else Some position, trades)).
    split; [|intros p' t' [= <- <-]; lia].
    intros [|fuel'] Hf; [lia|]. cbn [apply_order_recursive]. rewrite Hq. by destruct (f32_eqb (AppPosition.quantity _) _). }
  destruct (apply_step rate now expiry position order fee) as [[[[p' o'] t] f']|e|] eqn:Hs.
  - apply apply_step_decreases in Hs as Hdec; [|done].
    destruct (IH rate now expiry p' o' f' (trades ++ [t]) ltac:(lia)) as (r & Hr & Hlen).
    exists r. split.
    + intros [|fuel'] Hf; [lia|]. cbn [apply_order_recursive]. rewrite Hq, Hs. apply Hr. lia.
    + intros p'' t'' Hok. specialize (Hlen p'' t'' Hok). rewrite length_app in Hlen. cbn in Hlen. lia.
  - exists (Err e). split; [|done]. intros [|fuel'] Hf; [lia|]. cbn [apply_order_recursive]. by rewrite Hq, Hs.
  - exists Panic. split; [|done]. intros [|fuel'] Hf; [lia|]. cbn [apply_order_recursive]. by rewrite Hq, Hs.
Qed.

(** C38: the recursion of [apply_order] ends: whatever the position, the order and
    their floating-point quantities, three calls are enough, more fuel gives the
    same result, and an order results in at most two trades. *)
Theorem apply_order_terminates (rate : Decimal) (now expiry : OffsetDateTime)
    (position : AppPosition.t) (order : AppOrder.t) (matching_fee : Amount) (trades : list AppTrade.t) :
  exists r, (forall fuel, (APPLY_ORDER_FUEL <= fuel)%nat ->
      apply_order_recursive fuel rate now expiry position order matching_fee trades = Some r) /\
    (forall position' trades', r = Ok (position', trades') ->
      (length trades' <= length trades + 2)%nat).
Proof using Type.
  pose proof (calls_left_bound position order) as Hb.
  destruct (apply_order_recursive_calls 3 rate now expiry position order matching_fee trades ltac:(lia))
    as (r & Hr & Hlen). exists r. split.
  - intros fuel Hfuel. unfold APPLY_ORDER_FUEL in Hfuel. apply Hr. lia.
  - intros p' t' Hok. specialize (Hlen p' t' Hok). lia.
Qed.
End Termination.

(** ** What an order does to the contracts and fees of a position *)

(** The contracts of a position: whole, positive, signed by their direction; no
    position is none. *)
Definition net_contracts (position : option AppPosition.t) (z : Z) : Prop :=
  match position with
  | None => z = 0
  | Some p => exists n, 0 < n /\ AppPosition.quantity p = f32_of_Z n /\
      z = signed n (AppPosition.direction p)
  end.

Definition sum_Z (l : list Z) : Z := foldr Z.add 0 l.

Lemma sum_Z_app l l' : sum_Z (l ++ l') = sum_Z l + sum_Z l'.
Proof. induction l as [|x l IH]; cbn; [done|]. unfold sum_Z in *. lia. Qed.

Section ContractsAndFees.
Context `{DLaws : DecimalLaws} `{BLaws : BitcoinLaws} `{FLaws : !DecimalF32Laws DL}.

Lemma app_relative_contracts_int {E} n direction r : Z.abs n < 10 ^ 7 ->
  app_relative_contracts (E := E) (f32_of_Z n) direction = Ok r -> d_int r (signed n direction).
Proof.
  intros Hn Hr. unfold app_relative_contracts, app_decimal_from_f32 in Hr. inv_ok.
  destruct (d_from_f32_whole n Hn) as (d & Hd & Hint). simplify_eq.
  pose proof (d_round_dp_int 2 MidpointAwayFromZero _ n Hint) as Hround.
  destruct direction; cbn; [done|by apply d_int_neg].
Qed.

Lemma split_matching_fee_sum {E} fee leftover contracts this next : 0 <= fee < 2 ^ 64 ->
  split_matching_fee (E := E) fee leftover contracts = Ok (this, next) ->
  0 <= this /\ 0 <= next /\ this + next = fee.
Proof.
  intros Hfee Hs. unfold split_matching_fee in Hs. inv_ok.
  match goal with H : d_to_u64 _ = Some _ |- _ => apply d_to_u64_trunc in H as [Hrange _] end.
  rename select (amount_checked_sub _ _ = Some _) into Hsub.
  rewrite amount_checked_sub_spec in Hsub by lia. case_match; simplify_eq. lia.
Qed.

(** What one step leaves: the contracts still to apply and those of the position
    add up as before, and so do the contracts and fees of the trade and the rest. *)
Definition step_spec (q t : Z) (position : AppPosition.t) (order : AppOrder.t) (fee : Amount)
    (position' : AppPosition.t) (order' : AppOrder.t) (trade : AppTrade.t) (fee' : Amount) : Prop :=
  exists q' t' z, 0 <= q' < 10 ^ 7 /\ 0 <= t' < 10 ^ 6 /\ 0 < z /\ (q' = 0 \/ t' = 0) /\
    (0 < t' -> q' = 0) /\
    AppPosition.quantity position' = f32_of_Z q' /\ AppOrder.quantity order' = f32_of_Z t' /\
    AppOrder.direction order' = AppOrder.direction order /\
    signed q' (AppPosition.direction position') + signed t' (AppOrder.direction order)
      = signed q (AppPosition.direction position) + signed t (AppOrder.direction order) /\
    d_int (AppTrade.contracts trade) z /\ z + t' = t /\
    AppTrade.direction trade = AppOrder.direction order /\
    0 <= fee' <= fee /\ AppTrade.fee trade + fee' = fee /\ (t' = 0 -> fee' = 0) /\
    AppPosition.order_matching_fees position'
      = AppPosition.order_matching_fees position + AppTrade.fee trade /\
    0 <= AppPosition.order_matching_fees position' < 2 ^ 64.

Section Step.
Variables (q t : Z) (position : AppPosition.t) (order : AppOrder.t) (fee : Amount).
Hypothesis Hqr : 0 <= q < 10 ^ 6.
Hypothesis Htr : 0 < t < 10 ^ 6.
Hypothesis Hq : AppPosition.quantity position = f32_of_Z q.
Hypothesis Ht : AppOrder.quantity order = f32_of_Z t.
Hypothesis Hfee : 0 <= fee < 2 ^ 64.
Hypothesis Hfees : 0 <= AppPosition.order_matching_fees position < 2 ^ 64.

Lemma step_close_spec now sc sl sp oc ep position' order' trade fee' : d_int oc t -> q = t ->
  AppPosition.direction position <> AppOrder.direction order ->
  step_close now position order fee sc sl sp oc ep = Ok (position', order', trade, fee') ->
  step_spec q t position order fee position' order' trade fee'.
Proof.
  intros Hoc Hqt Hdir Hs. unfold step_close in Hs. apply opposite_neq in Hdir. inv_ok. subst.
  rename select (amount_add _ _ = Some _) into Hadd.
  apply amount_add_inv in Hadd as [-> ?]; [|done..].
  exists 0, 0, t. cbn. split_and!; try (done || lia). rewrite Hdir.
  destruct (AppPosition.direction position); cbn; lia.
Qed.

Lemma step_reduce_spec now expiry sc sl sp oc ep position' order' trade fee' : t < q ->
  AppPosition.direction position <> AppOrder.direction order ->
  step_reduce now expiry position order fee (f32_of_Z (q - t)) sc sl sp oc ep
    = Ok (position', order', trade, fee') ->
  step_spec q t position order fee position' order' trade fee'.
Proof.
  intros Hqt Hdir Hs. unfold step_reduce in Hs. apply opposite_neq in Hdir. rewrite Ht in Hs. inv_ok. subst.
  rename select (amount_add _ _ = Some _) into Hadd.
  apply amount_add_inv in Hadd as [-> ?]; [|done..].
  rename select (app_relative_contracts _ _ = Ok _) into Hrel.
  apply app_relative_contracts_int in Hrel; [|lia]. apply d_int_abs in Hrel. rewrite signed_abs in Hrel.
  exists (q - t), 0, (Z.abs t). cbn. split_and!; try (done || lia). rewrite Hdir.
  destruct (AppPosition.direction position); cbn; lia.
Qed.

Lemma step_close_with_leftover_spec now sc sl sp oc ep position' order' trade fee' : d_int sc q ->
  0 < q < t -> AppPosition.direction position <> AppOrder.direction order ->
  step_close_with_leftover now position order fee (f32_of_Z (q - t)) sc sl sp oc ep
    = Ok (position', order', trade, fee') ->
  step_spec q t position order fee position' order' trade fee'.
Proof.
  intros Hsc Hqt Hdir Hs. unfold step_close_with_leftover in Hs. apply opposite_neq in Hdir.
  apply outcome_bind_ok in Hs as ([this next] & Hsplit & Hs). inv_ok. subst.
  apply split_matching_fee_sum in Hsplit as (? & ? & ?); [|done].
  rename select (amount_add _ _ = Some _) into Hadd.
  apply amount_add_inv in Hadd as [-> ?]; [|lia..].
  exists 0, (t - q), q. cbn. split_and!; try (done || lia).
  - rewrite f32_abs_whole by (unfold f32_whole; lia). f_equal. lia.
  - rewrite Hdir. destruct (AppPosition.direction position); cbn; lia.
Qed.

Lemma step_increase_spec rate now expiry sl sp oc ep position' order' trade fee' : d_int oc t ->
  q = 0 \/ AppPosition.direction position = AppOrder.direction order ->
  step_increase rate now expiry position order fee sl sp oc ep = Ok (position', order', trade, fee') ->
  step_spec q t position order fee position' order' trade fee'.
Proof.
  intros Hoc Hdir Hs. unfold step_increase in Hs. rewrite Hq, Ht in Hs.
  apply outcome_bind_ok in Hs as (sr & Hsr & Hs). apply outcome_bind_ok in Hs as (or & Hor & Hs).
  apply app_relative_contracts_int in Hsr; [|lia]. apply app_relative_contracts_int in Hor; [|lia].
  set (total := signed q (AppPosition.direction position) + signed t (AppOrder.direction order)).
  assert (Htotal : Z.abs total = q + t)
    by (unfold total; destruct Hdir as [->| ->], (AppOrder.direction order), (AppPosition.direction position); cbn; lia).
  destruct (d_add_int sr or _ _ Hsr Hor ltac:(fold total; lia)) as (tot & Hadd & Htot). rewrite Hadd in Hs.
  fold total in Htot. apply d_int_abs in Htot. rewrite Htotal in Htot. inv_ok. simplify_eq.
  rename select (amount_add _ _ = Some _) into Hadd'.
  apply amount_add_inv in Hadd' as [-> ?]; [|done..].
  rename select (app_f32_from_decimal (d_abs _) = Ok _) into Hquantity.
  unfold app_f32_from_decimal in Hquantity. apply expect_ok in Hquantity.
  rewrite (d_to_f32_whole _ _ Htot) in Hquantity by lia. simplify_eq.
  exists (q + t), 0, t. cbn. split_and!; try (done || lia).
  unfold total in *. destruct Hdir as [->| ->], (AppOrder.direction order), (AppPosition.direction position); cbn in *; lia.
Qed.

Lemma apply_step_spec rate now expiry position' order' trade fee' :
  apply_step rate now expiry position order fee = Ok (position', order', trade, fee') ->
  step_spec q t position order fee position' order' trade fee'.
Proof.
  intros Hs. unfold apply_step, app_decimal_from_f32 in Hs. rewrite Hq, Ht in Hs. inv_ok.
  destruct (d_from_f32_whole q ltac:(lia)) as (dq & Hdq & Hq'). destruct (d_from_f32_whole t ltac:(lia)) as (dt & Hdt & Ht').
  simplify_eq. rewrite f32_sub_whole in Hs by (unfold f32_whole; lia).
  change f32_zero with (f32_of_Z 0) in Hs. rewrite !f32_eqb_whole, f32_sign_whole in Hs by (unfold f32_whole; lia).
  destruct (negb (q =? 0) && _) eqn:Hdir; simpl_decides.
  - destruct (q - t =? 0) eqn:Hz; [eapply step_close_spec; try done; lia|].
    destruct (0 <=? q - t) eqn:Hsgn; [eapply step_reduce_spec; try done; lia|].
    eapply step_close_with_leftover_spec; try done; lia.
  - eapply step_increase_spec; try done. apply andb_false_iff in Hdir as [Hdir|Hdir]; simpl_decides; [left; lia|right].
    destruct (decide (AppOrder.direction order = AppPosition.direction position)); naive_solver.
Qed.
End Step.

(** The trades of an order: their contracts and fees add up to its own. *)
Definition trades_of_order (direction : Direction) (contracts : Z) (fee : Amount)
    (trades : list AppTrade.t) : Prop :=
  exists zs, Forall2 (fun trade z => d_int (AppTrade.contracts trade) z /\ 0 < z /\
      AppTrade.direction trade = direction) trades zs /\
    sum_Z zs = contracts /\ sum_Z (map AppTrade.fee trades) = fee.

Lemma net_contracts_result position q result : 0 <= q < 10 ^ 7 -> AppPosition.quantity position = f32_of_Z q ->
  result = (if f32_eqb (AppPosition.quantity position) f32_zero then None else Some position) ->
  net_contracts result (signed q (AppPosition.direction position)).
Proof.
  intros Hq Heq ->. rewrite Heq. change f32_zero with (f32_of_Z 0).
  rewrite f32_eqb_whole by (unfold f32_whole; lia). destruct (q =? 0) eqn:Hz; cbn.
  - replace q with 0 by lia. by destruct (AppPosition.direction position).
  - exists q. split_and!; (done || lia).
Qed.

Lemma apply_order_recursive_spec fuel : forall rate now expiry position order fee trades result trades' q t,
  apply_order_recursive fuel rate now expiry position order fee trades = Some (Ok (result, trades')) ->
  0 <= q < 10 ^ 7 -> 0 <= t < 10 ^ 6 -> (0 < t -> q < 10 ^ 6) -> (t = 0 -> fee = 0) ->
  AppPosition.quantity position = f32_of_Z q -> AppOrder.quantity order = f32_of_Z t ->
  0 <= fee < 2 ^ 64 -> 0 <= AppPosition.order_matching_fees position < 2 ^ 64 ->
  net_contracts result (signed q (AppPosition.direction position) + signed t (AppOrder.direction order)) /\
  (exists new, trades' = trades ++ new /\ trades_of_order (AppOrder.direction order) t fee new) /\
  (forall p, result = Some p -> AppPosition.order_matching_fees p
    = AppPosition.order_matching_fees position + fee).
Proof.
  induction fuel as [|fuel IH]; intros rate now expiry position order fee trades result trades' q t; [done|].
  intros Hr Hq Ht Hsmall Hzero Hposition Horder Hfee Hfees. cbn [apply_order_recursive] in Hr.
  rewrite Horder in Hr. change (f32_eqb (f32_of_Z t) f32_zero) with (f32_eqb (f32_of_Z t) (f32_of_Z 0)) in Hr.
  rewrite f32_eqb_whole in Hr by (unfold f32_whole; lia). destruct (t =? 0) eqn:Ht0.
  - assert (t = 0) as -> by lia. rewrite Hzero by done.
    assert (signed 0 (AppOrder.direction order) = 0) as -> by (by destruct (AppOrder.direction order)).
    rewrite Z.add_0_r. split_and!.
    + apply net_contracts_result; [done|done|]. by destruct (f32_eqb (AppPosition.quantity position) f32_zero); simplify_eq.
    + exists []. rewrite app_nil_r. split; [by destruct (f32_eqb (AppPosition.quantity position) f32_zero); simplify_eq|].
      by exists [].
    + intros p ->. destruct (f32_eqb (AppPosition.quantity position) f32_zero); simplify_eq. lia.
  - destruct (apply_step rate now expiry position order fee) as [[[[p' o'] tr] f']| |] eqn:Hs; [|done..].
    apply (apply_step_spec q t) in Hs; [|lia|lia|done..].
    destruct Hs as (q' & t' & z & Hq' & Ht' & Hz & Hor & Hq0 & Hp' & Ho' & Hdir & Hsum & Hc & Htt & Htd & Hf' & Hff & Hf0 & Hpf & Hpr).
    destruct (IH rate now expiry p' o' f' (trades ++ [tr]) result trades' q' t') as (Hnet & (new & -> & Hnew) & Hfinal);
      [done|lia|lia|lia|lia|done|done|lia|lia|].
    rewrite Hdir, Hsum in Hnet. split_and!; [done| |].
    + exists (tr :: new). split; [by rewrite <-app_assoc|]. rewrite Hdir in Hnew.
      destruct Hnew as (zs & Hzs & Hcs & Hfs). exists (z :: zs). cbn. unfold sum_Z in *.
      split_and!; [by constructor|lia|lia].
    + intros p Hp. rewrite (Hfinal p Hp). lia.
Qed.

Lemma apply_order_contracts (rate : Decimal) (now expiry : OffsetDateTime)
    (position : AppPosition.t) (order : AppOrder.t) (result : option AppPosition.t)
    (trades : list AppTrade.t) (q t : Z)
    (Hok : apply_order rate now position order expiry = Ok (result, trades))
    (Hq : AppPosition.quantity position = f32_of_Z q) (Hqr : 0 < q < 10 ^ 6)
    (Ht : AppOrder.quantity order = f32_of_Z t) (Htr : 0 < t < 10 ^ 6)
    (Hfee : 0 <= default 0 (order_known_matching_fee order) < 2 ^ 64)
    (Hfees : 0 <= AppPosition.order_matching_fees position < 2 ^ 64) :
  let fee := default 0 (order_known_matching_fee order) in
  net_contracts result
    (signed q (AppPosition.direction position) + signed t (AppOrder.direction order)) /\
  trades_of_order (AppOrder.direction order) t fee trades /\
  (length trades <= 2)%nat /\
  (forall p, result = Some p -> AppPosition.order_matching_fees p
    = AppPosition.order_matching_fees position + fee).
Proof.
  cbn zeta. unfold apply_order in Hok. inv_ok.
  destruct (apply_order_recursive_calls 3 rate now expiry position order
    (default 0 (order_known_matching_fee order)) []) as (r & Hr & Hlen).
  { pose proof (calls_left_bound position order). lia. }
  pose proof (calls_left_bound position order) as Hb.
  unfold APPLY_ORDER_FUEL in Hok. rewrite Hr in Hok by lia. cbn in Hok. subst r.
  specialize (Hlen _ _ eq_refl). cbn in Hlen.
  destruct (apply_order_recursive_spec 3 rate now expiry position order _ [] result trades q t (Hr 3%nat ltac:(lia)))
    as (Hnet & (new & Hnew & Htrades) & Hfinal); try (done || lia).
  cbn in Hnew. subst new. split_and!; [done|done|lia|done].
Qed.

(** Applying a filled order to the app's position adds the order's contracts,
    with their sign, to those of the position, and the position vanishes exactly
    when they cancel out.  The trades that result have the order's direction, their
    contracts add up to the order's and their fees to its matching fee, also when
    the order is split to turn the position around; and the position's accumulated
    fees grow by that fee. *)
Theorem apply_order_adds_contracts (rate : Decimal) (now expiry : OffsetDateTime)
    (position : AppPosition.t) (order : AppOrder.t) (result : option AppPosition.t)
    (trades : list AppTrade.t) (q t : Z)
    (Hok : apply_order rate now position order expiry = Ok (result, trades))
    (Hq : AppPosition.quantity position = f32_of_Z q) (Hqr : 0 < q < 10 ^ 6)
    (Ht : AppOrder.quantity order = f32_of_Z t) (Htr : 0 < t < 10 ^ 6)
    (Hfee : 0 <= default 0 (order_known_matching_fee order) < 2 ^ 64)
    (Hfees : 0 <= AppPosition.order_matching_fees position < 2 ^ 64) :
  let fee := default 0 (order_known_matching_fee order) in
  net_contracts result
    (signed q (AppPosition.direction position) + signed t (AppOrder.direction order)) /\
  trades_of_order (AppOrder.direction order) t fee trades /\
  (length trades <= 2)%nat /\
  (forall p, result = Some p -> AppPosition.order_matching_fees p
    = AppPosition.order_matching_fees position + fee).
Proof. by apply (apply_order_contracts rate now expiry position order result trades q t). Qed.
End ContractsAndFees.

(** ** Evaluated *)

(** A hundred dollars, long at 20,000 with leverage two. *)
Definition demo_app_position : AppPosition.t :=
  AppPosition.mk (f32_of_Z 2) (f32_of_Z 100) BtcUsd Long (f32_of_Z 20000) (f32_of_Z 14000)
    AppPositionState.Resizing 250000 7 0 0 false 750.

(** A market order filled at 21,000. *)
Definition demo_app_order (quantity : Z) (direction : Direction) : AppOrder.t :=
  AppOrder.mk 70 (f32_of_Z 2) (f32_of_Z quantity) BtcUsd direction AppOrderType.Market
    (AppOrderState.Filled (f32_of_Z 21000) 3000) 0 5 AppOrderReason.Manual false None.

(** Selling a hundred and forty of a hundred turns the position around, in two
    trades that share the fee of 3,000. *)
Example apply_order_adds_contracts_witness :
  exists p trades, apply_order (d_lit (1 # 10)) 9 demo_app_position (demo_app_order 140 Short) 8
      = Ok (Some p, trades) /\
    net_contracts (Some p) (-40) /\ length trades = 2%nat /\
    AppPosition.order_matching_fees p = 3750.
Proof.
  assert (Hok : match apply_order (d_lit (1 # 10)) 9 demo_app_position (demo_app_order 140 Short) 8 with
    | Ok (Some _, trades) => bool_decide (length trades = 2%nat) | _ => false end = true) by by vm_compute.
  destruct (apply_order (d_lit (1 # 10)) 9 demo_app_position (demo_app_order 140 Short) 8)
    as [[[p|] trades]| |] eqn:Hr; try discriminate Hok.
  destruct (apply_order_adds_contracts (d_lit (1 # 10)) 9 8 demo_app_position (demo_app_order 140 Short)
    (Some p) trades 100 140 Hr) as (Hnet & _ & _ & Hfees); try (reflexivity || (cbn; lia)).
  exists p, trades. split_and!; [reflexivity|exact Hnet|by apply bool_decide_eq_true in Hok|].
  by rewrite (Hfees p).
Defined.
