(* ===== verification/SqlTypes.v ===== *)
(** * [coordinator/src/{db,orderbook/db}/custom_types.rs]: enums as Postgres labels

    Each enum column has a Rust type with [ToSql] (the label it writes) and
    [FromSql] (the label it reads); most have [From] conversions from and to the
    type the rest of the code uses.  One module per enum; the text is a string,
    an unknown label is the error of [FromSql]. *)

From stdpp Require Import base list option strings.
From S2P Require Import Prelude Machine External Commons.

#[local] Open Scope string_scope.

(** Diesel's [ToSql] and [FromSql] for one enum. *)
Class SqlEnum (T : Type) := {
  to_sql : T -> string;
  from_sql : string -> outcome string T;
}.

(** [FromSql] reads exactly what [ToSql] writes. *)
Definition sql_enum_iso (T : Type) `{SqlEnum T} : Prop :=
  forall (s : string) (v : T), from_sql s = Ok v <-> s = to_sql v.

(** [orderbook/db/custom_types.rs: Direction]. *)
Module DbDirection.
Inductive t := Long | Short.
#[global] Instance eq_dec : EqDecision t.
Proof. solve_decision. Defined.

Definition write (v : t) : string :=
  match v with
  | Long => "long"
  | Short => "short"
  end.

Definition read (s : string) : outcome string t :=
  if bool_decide (s = "long") then Ok Long
  else if bool_decide (s = "short") then Ok Short
  else Err "Unrecognized enum variant".

#[global] Instance sql : SqlEnum t := {| to_sql := write; from_sql := read |}.
End DbDirection.

(** [orderbook/db/custom_types.rs: OrderType]. *)
Module DbOrderType.
Inductive t := Market | Limit.
#[global] Instance eq_dec : EqDecision t.
Proof. solve_decision. Defined.

Definition write (v : t) : string :=
  match v with
  | Market => "market"
  | Limit => "limit"
  end.

Definition read (s : string) : outcome string t :=
  if bool_decide (s = "market") then Ok Market
  else if bool_decide (s = "limit") then Ok Limit
  else Err "Unrecognized enum variant".

#[global] Instance sql : SqlEnum t := {| to_sql := write; from_sql := read |}.
End DbOrderType.

(** [orderbook/db/custom_types.rs: OrderState]. *)
Module DbOrderState.
Inductive t := Open | Matched | Taken | Failed | Expired | Deleted.
#[global] Instance eq_dec : EqDecision t.
Proof. solve_decision. Defined.

Definition write (v : t) : string :=
  match v with
  | Open => "Open"
  | Matched => "Matched"
  | Taken => "Taken"
  | Failed => "Failed"
  | Expired => "Expired"
  | Deleted => "Deleted"
  end.

Definition read (s : string) : outcome string t :=
  if bool_decide (s = "Open") then Ok Open
  else if bool_decide (s = "Matched") then Ok Matched
  else if bool_decide (s = "Taken") then Ok Taken
  else if bool_decide (s = "Failed") then Ok Failed
  else if bool_decide (s = "Expired") then Ok Expired
  else if bool_decide (s = "Deleted") then Ok Deleted
  else Err "Unrecognized enum variant".

#[global] Instance sql : SqlEnum t := {| to_sql := write; from_sql := read |}.
End DbOrderState.

(** [orderbook/db/custom_types.rs: OrderReason]. *)
Module DbOrderReason.
Inductive t := Manual | Expired | TraderLiquidated | CoordinatorLiquidated.
#[global] Instance eq_dec : EqDecision t.
Proof. solve_decision. Defined.

Definition write (v : t) : string :=
  match v with
  | Manual => "Manual"
  | Expired => "Expired"
  | TraderLiquidated => "TraderLiquidated"
  | CoordinatorLiquidated => "CoordinatorLiquidated"
  end.

Definition read (s : string) : outcome string t :=
  if bool_decide (s = "Manual") then Ok Manual
  else if bool_decide (s = "Expired") then Ok Expired
  else if bool_decide (s = "TraderLiquidated") then Ok TraderLiquidated
  else if bool_decide (s = "CoordinatorLiquidated") then Ok CoordinatorLiquidated
  else Err "Unrecognized enum variant".

#[global] Instance sql : SqlEnum t := {| to_sql := write; from_sql := read |}.
End DbOrderReason.

(** [orderbook/db/custom_types.rs: MatchState]. *)
Module DbMatchState.
Inductive t := Pending | Filled | Failed.
#[global] Instance eq_dec : EqDecision t.
Proof. solve_decision. Defined.

Definition write (v : t) : string :=
  match v with
  | Pending => "Pending"
  | Filled => "Filled"
  | Failed => "Failed"
  end.

Definition read (s : string) : outcome string t :=
  if bool_decide (s = "Pending") then Ok Pending
  else if bool_decide (s = "Filled") then Ok Filled
  else if bool_decide (s = "Failed") then Ok Failed
  else Err "Unrecognized enum variant".

#[global] Instance sql : SqlEnum t := {| to_sql := write; from_sql := read |}.
End DbMatchState.

(** [db/positions.rs: ContractSymbol]. *)
Module DbContractSymbol.
Inductive t := BtcUsd.
#[global] Instance eq_dec : EqDecision t.
Proof. solve_decision. Defined.

Definition write (v : t) : string :=
  match v with
  | BtcUsd => "BtcUsd"
  end.

Definition read (s : string) : outcome string t :=
  if bool_decide (s = "BtcUsd") then Ok BtcUsd
  else Err "Unrecognized enum variant".

#[global] Instance sql : SqlEnum t := {| to_sql := write; from_sql := read |}.
End DbContractSymbol.

(** [db/positions.rs: PositionState]. *)
Module DbPositionState.
Inductive t := Proposed | Open | Closing | Rollover | Closed | Failed | Resizing.
#[global] Instance eq_dec : EqDecision t.
Proof. solve_decision. Defined.

Definition write (v : t) : string :=
  match v with
  | Proposed => "Proposed"
  | Open => "Open"
  | Closing => "Closing"
  | Rollover => "Rollover"
  | Closed => "Closed"
  | Failed => "Failed"
  | Resizing => "Resizing"
  end.

Definition read (s : string) : outcome string t :=
  if bool_decide (s = "Proposed") then Ok Proposed
  else if bool_decide (s = "Open") then Ok Open
  else if bool_decide (s = "Closing") then Ok Closing
  else if bool_decide (s = "Rollover") then Ok Rollover
  else if bool_decide (s = "Closed") then Ok Closed
  else if bool_decide (s = "Failed") then Ok Failed
  else if bool_decide (s = "Resizing") then Ok Resizing
  else Err "Unrecognized enum variant".

#[global] Instance sql : SqlEnum t := {| to_sql := write; from_sql := read |}.
End DbPositionState.

(** [db/dlc_protocols.rs: DlcProtocolState]. *)
Module DbProtocolState.
Inductive t := Pending | Success | Failed.
#[global] Instance eq_dec : EqDecision t.
Proof. solve_decision. Defined.

Definition write (v : t) : string :=
  match v with
  | Pending => "Pending"
  | Success => "Success"
  | Failed => "Failed"
  end.

Definition read (s : string) : outcome string t :=
  if bool_decide (s = "Pending") then Ok Pending
  else if bool_decide (s = "Success") then Ok Success
  else if bool_decide (s = "Failed") then Ok Failed
  else Err "Unrecognized enum variant".

#[global] Instance sql : SqlEnum t := {| to_sql := write; from_sql := read |}.
End DbProtocolState.

(** [db/dlc_protocols.rs: DlcProtocolType]. *)
Module DbProtocolType.
Inductive t := OpenChannel | OpenPosition | Settle | Close | ForceClose | Rollover | ResizePosition.
#[global] Instance eq_dec : EqDecision t.
Proof. solve_decision. Defined.

Definition write (v : t) : string :=
  match v with
  | OpenChannel => "open-channel"
  | OpenPosition => "open-position"
  | Settle => "settle"
  | Close => "close"
  | ForceClose => "force-close"
  | Rollover => "rollover"
  | ResizePosition => "resize-position"
  end.

Definition read (s : string) : outcome string t :=
  if bool_decide (s = "open-channel") then Ok OpenChannel
  else if bool_decide (s = "open-position") then Ok OpenPosition
  else if bool_decide (s = "settle") then Ok Settle
  else if bool_decide (s = "close") then Ok Close
  else if bool_decide (s = "force-close") then Ok ForceClose
  else if bool_decide (s = "rollover") then Ok Rollover
  else if bool_decide (s = "resize-position") then Ok ResizePosition
  else Err "Unrecognized enum variant".

#[global] Instance sql : SqlEnum t := {| to_sql := write; from_sql := read |}.
End DbProtocolType.

(** [db/dlc_messages.rs: MessageType]. *)
Module DbMessageType.
Inductive t :=
  | Offer | Accept | Sign | SettleOffer
  | SettleAccept | SettleConfirm | SettleFinalize | RenewOffer
  | RenewAccept | RenewConfirm | RenewFinalize | RenewRevoke
  | RolloverOffer | RolloverAccept | RolloverConfirm | RolloverFinalize
  | RolloverRevoke | CollaborativeCloseOffer | Reject.
#[global] Instance eq_dec : EqDecision t.
Proof. solve_decision. Defined.

Definition write (v : t) : string :=
  match v with
  | Offer => "Offer"
  | Accept => "Accept"
  | Sign => "Sign"
  | SettleOffer => "SettleOffer"
  | SettleAccept => "SettleAccept"
  | SettleConfirm => "SettleConfirm"
  | SettleFinalize => "SettleFinalize"
  | RenewOffer => "RenewOffer"
  | RenewAccept => "RenewAccept"
  | RenewConfirm => "RenewConfirm"
  | RenewFinalize => "RenewFinalize"
  | RenewRevoke => "RenewRevoke"
  | RolloverOffer => "RolloverOffer"
  | RolloverAccept => "RolloverAccept"
  | RolloverConfirm => "RolloverConfirm"
  | RolloverFinalize => "RolloverFinalize"
  | RolloverRevoke => "RolloverRevoke"
  | CollaborativeCloseOffer => "CollaborativeCloseOffer"
  | Reject => "Reject"
  end.

Definition read (s : string) : outcome string t :=
  if bool_decide (s = "Offer") then Ok Offer
  else if bool_decide (s = "Accept") then Ok Accept
  else if bool_decide (s = "Sign") then Ok Sign
  else if bool_decide (s = "SettleOffer") then Ok SettleOffer
  else if bool_decide (s = "SettleAccept") then Ok SettleAccept
  else if bool_decide (s = "SettleConfirm") then Ok SettleConfirm
  else if bool_decide (s = "SettleFinalize") then Ok SettleFinalize
  else if bool_decide (s = "RenewOffer") then Ok RenewOffer
  else if bool_decide (s = "RenewAccept") then Ok RenewAccept
  else if bool_decide (s = "RenewConfirm") then Ok RenewConfirm
  else if bool_decide (s = "RenewFinalize") then Ok RenewFinalize
  else if bool_decide (s = "RenewRevoke") then Ok RenewRevoke
  else if bool_decide (s = "RolloverOffer") then Ok RolloverOffer
  else if bool_decide (s = "RolloverAccept") then Ok RolloverAccept
  else if bool_decide (s = "RolloverConfirm") then Ok RolloverConfirm
  else if bool_decide (s = "RolloverFinalize") then Ok RolloverFinalize
  else if bool_decide (s = "RolloverRevoke") then Ok RolloverRevoke
  else if bool_decide (s = "CollaborativeCloseOffer") then Ok CollaborativeCloseOffer
  else if bool_decide (s = "Reject") then Ok Reject
  else Err "Unrecognized enum variant".

#[global] Instance sql : SqlEnum t := {| to_sql := write; from_sql := read |}.
End DbMessageType.

(** [db/polls.rs: PollType]. *)
Module DbPollType.
Inductive t := SingleChoice.
#[global] Instance eq_dec : EqDecision t.
Proof. solve_decision. Defined.

Definition write (v : t) : string :=
  match v with
  | SingleChoice => "SingleChoice"
  end.

Definition read (s : string) : outcome string t :=
  if bool_decide (s = "SingleChoice") then Ok SingleChoice
  else Err "Unrecognized enum variant".

#[global] Instance sql : SqlEnum t := {| to_sql := write; from_sql := read |}.
End DbPollType.

(** [db/dlc_channels.rs: DlcChannelState]. *)
Module DbDlcChannelState.
Inductive t := Pending | Open | Closing | Closed | Failed | Cancelled.
#[global] Instance eq_dec : EqDecision t.
Proof. solve_decision. Defined.

Definition write (v : t) : string :=
  match v with
  | Pending => "Pending"
  | Open => "Open"
  | Closing => "Closing"
  | Closed => "Closed"
  | Failed => "Failed"
  | Cancelled => "Cancelled"
  end.

Definition read (s : string) : outcome string t :=
  if bool_decide (s = "Pending") then Ok Pending
  else if bool_decide (s = "Open") then Ok Open
  else if bool_decide (s = "Closing") then Ok Closing
  else if bool_decide (s = "Closed") then Ok Closed
  else if bool_decide (s = "Failed") then Ok Failed
  else if bool_decide (s = "Cancelled") then Ok Cancelled
  else Err "Unrecognized enum variant".

#[global] Instance sql : SqlEnum t := {| to_sql := write; from_sql := read |}.
End DbDlcChannelState.

(** [db/bonus_status.rs: BonusType]. *)
Module DbBonusType.
Inductive t := Referral | Referent.
#[global] Instance eq_dec : EqDecision t.
Proof. solve_decision. Defined.

Definition write (v : t) : string :=
  match v with
  | Referral => "Referral"
  | Referent => "Referent"
  end.

Definition read (s : string) : outcome string t :=
  if bool_decide (s = "Referral") then Ok Referral
  else if bool_decide (s = "Referent") then Ok Referent
  else Err "Unrecognized enum variant".

#[global] Instance sql : SqlEnum t := {| to_sql := write; from_sql := read |}.
End DbBonusType.

(** [db/hodl_invoice.rs: InvoiceState]. *)
Module DbInvoiceState.
Inductive t := Open | Accepted | Settled | Failed | Canceled.
#[global] Instance eq_dec : EqDecision t.
Proof. solve_decision. Defined.

Definition write (v : t) : string :=
  match v with
  | Open => "Open"
  | Accepted => "Accepted"
  | Settled => "Settled"
  | Failed => "Failed"
  | Canceled => "Canceled"
  end.

Definition read (s : string) : outcome string t :=
  if bool_decide (s = "Open") then Ok Open
  else if bool_decide (s = "Accepted") then Ok Accepted
  else if bool_decide (s = "Settled") then Ok Settled
  else if bool_decide (s = "Failed") then Ok Failed
  else if bool_decide (s = "Canceled") then Ok Canceled
  else Err "Unrecognized enum variant".

#[global] Instance sql : SqlEnum t := {| to_sql := write; from_sql := read |}.
End DbInvoiceState.

(** [db/custom_types.rs] also implements [ToSql] and [FromSql] for the
    [Direction] of [xxi_node::commons]. *)
Definition commons_direction_to_sql (d : Direction) : string :=
  match d with Long => "Long" | Short => "Short" end.

Definition commons_direction_from_sql (s : string) : outcome string Direction :=
  if bool_decide (s = "Long") then Ok Long
  else if bool_decide (s = "Short") then Ok Short
  else Err "Unrecognized enum variant".

(** ** [From] conversions *)

Definition db_direction_from (d : Direction) : DbDirection.t :=
  match d with Long => DbDirection.Long | Short => DbDirection.Short end.
Definition direction_from_db (d : DbDirection.t) : Direction :=
  match d with DbDirection.Long => Long | DbDirection.Short => Short end.

Definition order_type_from_db (t : DbOrderType.t) : OrderType :=
  match t with DbOrderType.Market => Market | DbOrderType.Limit => Limit end.
Definition db_order_type_from (t : OrderType) : DbOrderType.t :=
  match t with Market => DbOrderType.Market | Limit => DbOrderType.Limit end.

Definition order_state_from_db (s : DbOrderState.t) : OrderState.t :=
  match s with
  | DbOrderState.Open => OrderState.Open
  | DbOrderState.Matched => OrderState.Matched
  | DbOrderState.Taken => OrderState.Taken
  | DbOrderState.Failed => OrderState.Failed
  | DbOrderState.Expired => OrderState.Expired
  | DbOrderState.Deleted => OrderState.Deleted
  end.
Definition db_order_state_from (s : OrderState.t) : DbOrderState.t :=
  match s with
  | OrderState.Open => DbOrderState.Open
  | OrderState.Matched => DbOrderState.Matched
  | OrderState.Taken => DbOrderState.Taken
  | OrderState.Failed => DbOrderState.Failed
  | OrderState.Expired => DbOrderState.Expired
  | OrderState.Deleted => DbOrderState.Deleted
  end.

Definition order_reason_from_db (r : DbOrderReason.t) : OrderReason.t :=
  match r with
  | DbOrderReason.Manual => OrderReason.Manual
  | DbOrderReason.Expired => OrderReason.Expired
  | DbOrderReason.TraderLiquidated => OrderReason.TraderLiquidated
  | DbOrderReason.CoordinatorLiquidated => OrderReason.CoordinatorLiquidated
  end.
Definition db_order_reason_from (r : OrderReason.t) : DbOrderReason.t :=
  match r with
  | OrderReason.Manual => DbOrderReason.Manual
  | OrderReason.Expired => DbOrderReason.Expired
  | OrderReason.TraderLiquidated => DbOrderReason.TraderLiquidated
  | OrderReason.CoordinatorLiquidated => DbOrderReason.CoordinatorLiquidated
  end.

Definition db_match_state_from (s : MatchState.t) : DbMatchState.t :=
  match s with
  | MatchState.Pending => DbMatchState.Pending
  | MatchState.Filled => DbMatchState.Filled
  | MatchState.Failed => DbMatchState.Failed
  end.
Definition match_state_from_db (s : DbMatchState.t) : MatchState.t :=
  match s with
  | DbMatchState.Pending => MatchState.Pending
  | DbMatchState.Filled => MatchState.Filled
  | DbMatchState.Failed => MatchState.Failed
  end.

Definition contract_symbol_from_db (c : DbContractSymbol.t) : ContractSymbol :=
  match c with DbContractSymbol.BtcUsd => BtcUsd end.
Definition db_contract_symbol_from (c : ContractSymbol) : DbContractSymbol.t :=
  match c with BtcUsd => DbContractSymbol.BtcUsd end.

Lemma db_direction_roundtrip d : direction_from_db (db_direction_from d) = d.
Proof. by destruct d. Qed.
Lemma db_order_type_roundtrip d : order_type_from_db (db_order_type_from d) = d.
Proof. by destruct d. Qed.
Lemma db_order_state_roundtrip d : order_state_from_db (db_order_state_from d) = d.
Proof. by destruct d. Qed.
Lemma db_order_reason_roundtrip d : order_reason_from_db (db_order_reason_from d) = d.
Proof. by destruct d. Qed.
Lemma db_match_state_roundtrip d : match_state_from_db (db_match_state_from d) = d.
Proof. by destruct d. Qed.
Lemma db_contract_symbol_roundtrip d : contract_symbol_from_db (db_contract_symbol_from d) = d.
Proof. by destruct d. Qed.
#[export] Hint Rewrite db_direction_roundtrip db_order_type_roundtrip db_order_state_roundtrip
  db_order_reason_roundtrip db_match_state_roundtrip db_contract_symbol_roundtrip : db_enum.

#[export] Instance db_order_state_from_inj : Inj (=) (=) db_order_state_from.
Proof. by intros [] []. Qed.
#[export] Instance db_direction_from_inj : Inj (=) (=) db_direction_from.
Proof. by intros [] []. Qed.
#[export] Instance db_order_type_from_inj : Inj (=) (=) db_order_type_from.
Proof. by intros [] []. Qed.

(** ** Reading inverts writing *)

Ltac solve_sql_iso :=
  intros s v; cbn;
  match goal with |- ?rd s = _ <-> _ = ?wr v => unfold rd, wr end; split;
  [ repeat case_bool_decide; intros [=]; subst; (reflexivity || by destruct v)
  | intros ->; destruct v; vm_compute; reflexivity ].

(** For each of the fourteen enum types of the schema, [FromSql] accepts
    exactly the labels [ToSql] writes, and gives back the variant written. *)
Theorem sql_enums_roundtrip :
  sql_enum_iso DbDirection.t /\ sql_enum_iso DbOrderType.t /\ sql_enum_iso DbOrderState.t /\
  sql_enum_iso DbOrderReason.t /\ sql_enum_iso DbMatchState.t /\ sql_enum_iso DbContractSymbol.t /\
  sql_enum_iso DbPositionState.t /\ sql_enum_iso DbProtocolState.t /\ sql_enum_iso DbProtocolType.t /\
  sql_enum_iso DbMessageType.t /\ sql_enum_iso DbPollType.t /\ sql_enum_iso DbDlcChannelState.t /\
  sql_enum_iso DbBonusType.t /\ sql_enum_iso DbInvoiceState.t.
Proof. split_and!; solve_sql_iso. Qed.

(** The label the [ToSql] of [xxi_node::commons::Direction] writes into a
    column of type [Direction_Type] is never one that the [FromSql] of the
    order book's [Direction] reads from such a column. *)
Theorem commons_direction_label_unreadable (d : Direction) :
  from_sql (T := DbDirection.t) (commons_direction_to_sql d) = Err "Unrecognized enum variant" /\
  commons_direction_from_sql (to_sql (db_direction_from d)) = Err "Unrecognized enum variant".
Proof. by destruct d. Qed.
