(* ===== verification/Schema.v ===== *)
(** * [coordinator/src/schema.rs]: the tables of the coordinator's database

    One record per row type ([Queryable] structs of the [db] modules, in the
    column order of [schema.rs]); integers of type [i64] and [i32] are [Z],
    [real] columns are [f32], text is [string].  [Db] holds the tables. *)

From stdpp Require Import base list option strings.
From Stdlib Require Import ZArith Lia.
From S2P Require Import Prelude Machine External SqlTypes.

#[local] Open Scope Z_scope.

(** ** Rows *)

(** [orderbook/db/orders.rs: Order]. *)
Module OrderRow.
Record t := mk {
  id : Z;
  trader_order_id : Uuid;
  price : f32;
  trader_id : string;
  direction : DbDirection.t;
  quantity : f32;
  timestamp : OffsetDateTime;
  order_type : DbOrderType.t;
  expiry : OffsetDateTime;
  order_state : DbOrderState.t;
  contract_symbol : DbContractSymbol.t;
  leverage : f32;
  order_reason : DbOrderReason.t;
  stable : bool;
}.
End OrderRow.

(** [orderbook/db/matches.rs: Matches]. *)
Module MatchesRow.
Record t := mk {
  id : Uuid;
  match_state : DbMatchState.t;
  order_id : Uuid;
  trader_id : string;
  match_order_id : Uuid;
  match_trader_id : string;
  execution_price : f32;
  quantity : f32;
  created_at : OffsetDateTime;
  updated_at : OffsetDateTime;
  matching_fee_sats : Z;
}.
End MatchesRow.

(** [db/dlc_protocols.rs: DlcProtocol]. *)
Module DlcProtocolRow.
Record t := mk {
  id : Z;
  protocol_id : Uuid;
  previous_protocol_id : option Uuid;
  channel_id : string;
  contract_id : option string;
  protocol_state : DbProtocolState.t;
  trader_pubkey : string;
  timestamp : OffsetDateTime;
  protocol_type : DbProtocolType.t;
}.

Definition with_protocol_state (v : DbProtocolState.t) (r : t) : t :=
  mk (id r) (protocol_id r) (previous_protocol_id r) (channel_id r) (contract_id r) v
     (trader_pubkey r) (timestamp r) (protocol_type r).
Definition with_contract_id (v : option string) (r : t) : t :=
  mk (id r) (protocol_id r) (previous_protocol_id r) (channel_id r) v (protocol_state r)
     (trader_pubkey r) (timestamp r) (protocol_type r).
Definition with_channel_id (v : string) (r : t) : t :=
  mk (id r) (protocol_id r) (previous_protocol_id r) v (contract_id r) (protocol_state r)
     (trader_pubkey r) (timestamp r) (protocol_type r).
End DlcProtocolRow.

(** [db/trade_params.rs: TradeParams]. *)
Module TradeParamsRow.
Record t := mk {
  id : Z;
  protocol_id : Uuid;
  trader_pubkey : string;
  quantity : f32;
  leverage : f32;
  average_price : f32;
  direction : DbDirection.t;
  matching_fee : Z;
  trader_pnl : option Z;
}.
End TradeParamsRow.

(** [db/rollover_params.rs: RolloverParams]. *)
Module RolloverParamsRow.
Record t := mk {
  id : Z;
  protocol_id : Uuid;
  trader_pubkey : string;
  margin_coordinator_sat : Z;
  margin_trader_sat : Z;
  leverage_coordinator : f32;
  leverage_trader : f32;
  liquidation_price_coordinator : f32;
  liquidation_price_trader : f32;
  expiry_timestamp : OffsetDateTime;
}.
End RolloverParamsRow.

(** [db/positions.rs: Position]. *)
Module PositionRow.
Record t := mk {
  id : Z;
  contract_symbol : DbContractSymbol.t;
  trader_leverage : f32;
  quantity : f32;
  trader_direction : DbDirection.t;
  average_entry_price : f32;
  trader_liquidation_price : f32;
  position_state : DbPositionState.t;
  coordinator_margin : Z;
  creation_timestamp : OffsetDateTime;
  expiry_timestamp : OffsetDateTime;
  update_timestamp : OffsetDateTime;
  trader_pubkey : string;
  temporary_contract_id : option string;
  trader_realized_pnl_sat : option Z;
  trader_unrealized_pnl_sat : option Z;
  closing_price : option f32;
  coordinator_leverage : f32;
  trader_margin : Z;
  stable : bool;
  coordinator_liquidation_price : f32;
  order_matching_fees : Z;
}.

Definition with_position_state (v : DbPositionState.t) (r : t) : t :=
  mk (id r) (contract_symbol r) (trader_leverage r) (quantity r) (trader_direction r)
     (average_entry_price r) (trader_liquidation_price r) v (coordinator_margin r)
     (creation_timestamp r) (expiry_timestamp r) (update_timestamp r) (trader_pubkey r)
     (temporary_contract_id r) (trader_realized_pnl_sat r) (trader_unrealized_pnl_sat r)
     (closing_price r) (coordinator_leverage r) (trader_margin r) (stable r)
     (coordinator_liquidation_price r) (order_matching_fees r).
Definition with_closing_price (v : option f32) (r : t) : t :=
  mk (id r) (contract_symbol r) (trader_leverage r) (quantity r) (trader_direction r)
     (average_entry_price r) (trader_liquidation_price r) (position_state r)
     (coordinator_margin r) (creation_timestamp r) (expiry_timestamp r) (update_timestamp r)
     (trader_pubkey r) (temporary_contract_id r) (trader_realized_pnl_sat r)
     (trader_unrealized_pnl_sat r) v (coordinator_leverage r) (trader_margin r) (stable r)
     (coordinator_liquidation_price r) (order_matching_fees r).
Definition with_update_timestamp (v : OffsetDateTime) (r : t) : t :=
  mk (id r) (contract_symbol r) (trader_leverage r) (quantity r) (trader_direction r)
     (average_entry_price r) (trader_liquidation_price r) (position_state r)
     (coordinator_margin r) (creation_timestamp r) (expiry_timestamp r) v (trader_pubkey r)
     (temporary_contract_id r) (trader_realized_pnl_sat r) (trader_unrealized_pnl_sat r)
     (closing_price r) (coordinator_leverage r) (trader_margin r) (stable r)
     (coordinator_liquidation_price r) (order_matching_fees r).
Definition with_trader_realized_pnl_sat (v : option Z) (r : t) : t :=
  mk (id r) (contract_symbol r) (trader_leverage r) (quantity r) (trader_direction r)
     (average_entry_price r) (trader_liquidation_price r) (position_state r)
     (coordinator_margin r) (creation_timestamp r) (expiry_timestamp r) (update_timestamp r)
     (trader_pubkey r) (temporary_contract_id r) v (trader_unrealized_pnl_sat r)
     (closing_price r) (coordinator_leverage r) (trader_margin r) (stable r)
     (coordinator_liquidation_price r) (order_matching_fees r).
Definition with_trader_unrealized_pnl_sat (v : option Z) (r : t) : t :=
  mk (id r) (contract_symbol r) (trader_leverage r) (quantity r) (trader_direction r)
     (average_entry_price r) (trader_liquidation_price r) (position_state r)
     (coordinator_margin r) (creation_timestamp r) (expiry_timestamp r) (update_timestamp r)
     (trader_pubkey r) (temporary_contract_id r) (trader_realized_pnl_sat r) v
     (closing_price r) (coordinator_leverage r) (trader_margin r) (stable r)
     (coordinator_liquidation_price r) (order_matching_fees r).
Definition with_temporary_contract_id (v : option string) (r : t) : t :=
  mk (id r) (contract_symbol r) (trader_leverage r) (quantity r) (trader_direction r)
     (average_entry_price r) (trader_liquidation_price r) (position_state r)
     (coordinator_margin r) (creation_timestamp r) (expiry_timestamp r) (update_timestamp r)
     (trader_pubkey r) v (trader_realized_pnl_sat r) (trader_unrealized_pnl_sat r)
     (closing_price r) (coordinator_leverage r) (trader_margin r) (stable r)
     (coordinator_liquidation_price r) (order_matching_fees r).
Definition with_quantity (v : f32) (r : t) : t :=
  mk (id r) (contract_symbol r) (trader_leverage r) v (trader_direction r)
     (average_entry_price r) (trader_liquidation_price r) (position_state r)
     (coordinator_margin r) (creation_timestamp r) (expiry_timestamp r) (update_timestamp r)
     (trader_pubkey r) (temporary_contract_id r) (trader_realized_pnl_sat r)
     (trader_unrealized_pnl_sat r) (closing_price r) (coordinator_leverage r)
     (trader_margin r) (stable r) (coordinator_liquidation_price r) (order_matching_fees r).
Definition with_trader_direction (v : DbDirection.t) (r : t) : t :=
  mk (id r) (contract_symbol r) (trader_leverage r) (quantity r) v (average_entry_price r)
     (trader_liquidation_price r) (position_state r) (coordinator_margin r)
     (creation_timestamp r) (expiry_timestamp r) (update_timestamp r) (trader_pubkey r)
     (temporary_contract_id r) (trader_realized_pnl_sat r) (trader_unrealized_pnl_sat r)
     (closing_price r) (coordinator_leverage r) (trader_margin r) (stable r)
     (coordinator_liquidation_price r) (order_matching_fees r).
Definition with_average_entry_price (v : f32) (r : t) : t :=
  mk (id r) (contract_symbol r) (trader_leverage r) (quantity r) (trader_direction r) v
     (trader_liquidation_price r) (position_state r) (coordinator_margin r)
     (creation_timestamp r) (expiry_timestamp r) (update_timestamp r) (trader_pubkey r)
     (temporary_contract_id r) (trader_realized_pnl_sat r) (trader_unrealized_pnl_sat r)
     (closing_price r) (coordinator_leverage r) (trader_margin r) (stable r)
     (coordinator_liquidation_price r) (order_matching_fees r).
Definition with_trader_liquidation_price (v : f32) (r : t) : t :=
  mk (id r) (contract_symbol r) (trader_leverage r) (quantity r) (trader_direction r)
     (average_entry_price r) v (position_state r) (coordinator_margin r)
     (creation_timestamp r) (expiry_timestamp r) (update_timestamp r) (trader_pubkey r)
     (temporary_contract_id r) (trader_realized_pnl_sat r) (trader_unrealized_pnl_sat r)
     (closing_price r) (coordinator_leverage r) (trader_margin r) (stable r)
     (coordinator_liquidation_price r) (order_matching_fees r).
Definition with_coordinator_liquidation_price (v : f32) (r : t) : t :=
  mk (id r) (contract_symbol r) (trader_leverage r) (quantity r) (trader_direction r)
     (average_entry_price r) (trader_liquidation_price r) (position_state r)
     (coordinator_margin r) (creation_timestamp r) (expiry_timestamp r) (update_timestamp r)
     (trader_pubkey r) (temporary_contract_id r) (trader_realized_pnl_sat r)
     (trader_unrealized_pnl_sat r) (closing_price r) (coordinator_leverage r)
     (trader_margin r) (stable r) v (order_matching_fees r).
Definition with_coordinator_margin (v : Z) (r : t) : t :=
  mk (id r) (contract_symbol r) (trader_leverage r) (quantity r) (trader_direction r)
     (average_entry_price r) (trader_liquidation_price r) (position_state r) v
     (creation_timestamp r) (expiry_timestamp r) (update_timestamp r) (trader_pubkey r)
     (temporary_contract_id r) (trader_realized_pnl_sat r) (trader_unrealized_pnl_sat r)
     (closing_price r) (coordinator_leverage r) (trader_margin r) (stable r)
     (coordinator_liquidation_price r) (order_matching_fees r).
Definition with_trader_margin (v : Z) (r : t) : t :=
  mk (id r) (contract_symbol r) (trader_leverage r) (quantity r) (trader_direction r)
     (average_entry_price r) (trader_liquidation_price r) (position_state r)
     (coordinator_margin r) (creation_timestamp r) (expiry_timestamp r) (update_timestamp r)
     (trader_pubkey r) (temporary_contract_id r) (trader_realized_pnl_sat r)
     (trader_unrealized_pnl_sat r) (closing_price r) (coordinator_leverage r) v (stable r)
     (coordinator_liquidation_price r) (order_matching_fees r).
Definition with_expiry_timestamp (v : OffsetDateTime) (r : t) : t :=
  mk (id r) (contract_symbol r) (trader_leverage r) (quantity r) (trader_direction r)
     (average_entry_price r) (trader_liquidation_price r) (position_state r)
     (coordinator_margin r) (creation_timestamp r) v (update_timestamp r) (trader_pubkey r)
     (temporary_contract_id r) (trader_realized_pnl_sat r) (trader_unrealized_pnl_sat r)
     (closing_price r) (coordinator_leverage r) (trader_margin r) (stable r)
     (coordinator_liquidation_price r) (order_matching_fees r).
Definition with_order_matching_fees (v : Z) (r : t) : t :=
  mk (id r) (contract_symbol r) (trader_leverage r) (quantity r) (trader_direction r)
     (average_entry_price r) (trader_liquidation_price r) (position_state r)
     (coordinator_margin r) (creation_timestamp r) (expiry_timestamp r) (update_timestamp r)
     (trader_pubkey r) (temporary_contract_id r) (trader_realized_pnl_sat r)
     (trader_unrealized_pnl_sat r) (closing_price r) (coordinator_leverage r)
     (trader_margin r) (stable r) (coordinator_liquidation_price r) v.
Definition with_coordinator_leverage (v : f32) (r : t) : t :=
  mk (id r) (contract_symbol r) (trader_leverage r) (quantity r) (trader_direction r)
     (average_entry_price r) (trader_liquidation_price r) (position_state r)
     (coordinator_margin r) (creation_timestamp r) (expiry_timestamp r) (update_timestamp r)
     (trader_pubkey r) (temporary_contract_id r) (trader_realized_pnl_sat r)
     (trader_unrealized_pnl_sat r) (closing_price r) v (trader_margin r) (stable r)
     (coordinator_liquidation_price r) (order_matching_fees r).
Definition with_trader_leverage (v : f32) (r : t) : t :=
  mk (id r) (contract_symbol r) v (quantity r) (trader_direction r) (average_entry_price r)
     (trader_liquidation_price r) (position_state r) (coordinator_margin r)
     (creation_timestamp r) (expiry_timestamp r) (update_timestamp r) (trader_pubkey r)
     (temporary_contract_id r) (trader_realized_pnl_sat r) (trader_unrealized_pnl_sat r)
     (closing_price r) (coordinator_leverage r) (trader_margin r) (stable r)
     (coordinator_liquidation_price r) (order_matching_fees r).
End PositionRow.

(** [db/trades.rs: Trade]. *)
Module TradeRow.
Record t := mk {
  id : Z;
  position_id : Z;
  contract_symbol : DbContractSymbol.t;
  trader_pubkey : string;
  quantity : f32;
  trader_leverage : f32;
  direction : DbDirection.t;
  average_price : f32;
  timestamp : OffsetDateTime;
  order_matching_fee_sat : Z;
  trader_realized_pnl_sat : option Z;
}.
End TradeRow.

(** [funding_fee/db/funding_fee_events.rs: FundingFeeEvent]. *)
Module FundingFeeEventRow.
Record t := mk {
  id : Z;
  amount_sats : Z;
  trader_pubkey : string;
  position_id : Z;
  due_date : OffsetDateTime;
  price : f32;
  funding_rate : f32;
  paid_date : option OffsetDateTime;
  timestamp : OffsetDateTime;
}.

Definition with_paid_date (v : option OffsetDateTime) (r : t) : t :=
  mk (id r) (amount_sats r) (trader_pubkey r) (position_id r) (due_date r) (price r)
     (funding_rate r) v (timestamp r).
End FundingFeeEventRow.

(** [funding_fee/db/funding_rates.rs: FundingRate]. *)
Module FundingRateRow.
Record t := mk {
  id : Z;
  start_date : OffsetDateTime;
  end_date : OffsetDateTime;
  rate : f32;
  timestamp : OffsetDateTime;
}.
End FundingRateRow.

(** [schema.rs: protocol_funding_fee_events]. *)
Module ProtocolFundingFeeEventRow.
Record t := mk {
  id : Z;
  protocol_id : Uuid;
  funding_fee_event_id : Z;
  timestamp : OffsetDateTime;
}.
End ProtocolFundingFeeEventRow.

(** [db/channel_opening_params.rs: ChannelOpeningParams]. *)
Module ChannelOpeningParamsRow.
Record t := mk {
  order_id : string;
  coordinator_reserve : Z;
  trader_reserve : Z;
  created_at : Z;
  external_funding : option Z;
}.
End ChannelOpeningParamsRow.

(** [db/user.rs: User]. *)
Module UserRow.
Record t := mk {
  id : Z;
  pubkey : string;
  contact : string;
  timestamp : OffsetDateTime;
  fcm_token : string;
  last_login : OffsetDateTime;
  nickname : option string;
  version : option string;
  referral_code : string;
  used_referral_code : option string;
  os : option string;
}.
End UserRow.

(** [db/bonus_status.rs: BonusStatus]. *)
Module BonusStatusRow.
Record t := mk {
  id : Z;
  trader_pubkey : string;
  tier_level : Z;
  fee_rebate : f32;
  bonus_type : DbBonusType.t;
  activation_timestamp : OffsetDateTime;
  deactivation_timestamp : OffsetDateTime;
}.
End BonusStatusRow.

(** [db/bonus_tiers.rs: BonusTier]. *)
Module BonusTierRow.
Record t := mk {
  id : Z;
  tier_level : Z;
  min_users_to_refer : Z;
  fee_rebate : f32;
  bonus_tier_type : DbBonusType.t;
  active : bool;
}.
End BonusTierRow.

(** [db/bonus_tiers.rs: UserReferralSummaryView]. *)
Module ReferralSummaryRow.
Record t := mk {
  referring_user : string;
  referring_user_referral_code : string;
  referred_user : string;
  referred_user_referral_code : string;
  timestamp : OffsetDateTime;
  referred_user_total_quantity : f32;
}.
End ReferralSummaryRow.

(** [db/dlc_channels.rs: DlcChannel]. *)
Module DlcChannelRow.
Record t := mk {
  id : Z;
  open_protocol_id : Uuid;
  channel_id : string;
  trader_pubkey : string;
  channel_state : DbDlcChannelState.t;
  trader_reserve_sats : Z;
  coordinator_reserve_sats : Z;
  funding_txid : option string;
  close_txid : option string;
  settle_txid : option string;
  buffer_txid : option string;
  claim_txid : option string;
  punish_txid : option string;
  created_at : OffsetDateTime;
  updated_at : OffsetDateTime;
  coordinator_funding_sats : Z;
  trader_funding_sats : Z;
}.

Definition with_channel_id (v : string) (r : t) : t :=
  mk (id r) (open_protocol_id r) v (trader_pubkey r) (channel_state r) (trader_reserve_sats r)
     (coordinator_reserve_sats r) (funding_txid r) (close_txid r) (settle_txid r) (buffer_txid r)
     (claim_txid r) (punish_txid r) (created_at r) (updated_at r) (coordinator_funding_sats r)
     (trader_funding_sats r).
Definition with_channel_state (v : DbDlcChannelState.t) (r : t) : t :=
  mk (id r) (open_protocol_id r) (channel_id r) (trader_pubkey r) v (trader_reserve_sats r)
     (coordinator_reserve_sats r) (funding_txid r) (close_txid r) (settle_txid r) (buffer_txid r)
     (claim_txid r) (punish_txid r) (created_at r) (updated_at r) (coordinator_funding_sats r)
     (trader_funding_sats r).
Definition with_trader_reserve_sats (v : Z) (r : t) : t :=
  mk (id r) (open_protocol_id r) (channel_id r) (trader_pubkey r) (channel_state r) v
     (coordinator_reserve_sats r) (funding_txid r) (close_txid r) (settle_txid r) (buffer_txid r)
     (claim_txid r) (punish_txid r) (created_at r) (updated_at r) (coordinator_funding_sats r)
     (trader_funding_sats r).
Definition with_coordinator_reserve_sats (v : Z) (r : t) : t :=
  mk (id r) (open_protocol_id r) (channel_id r) (trader_pubkey r) (channel_state r)
     (trader_reserve_sats r) v (funding_txid r) (close_txid r) (settle_txid r) (buffer_txid r)
     (claim_txid r) (punish_txid r) (created_at r) (updated_at r) (coordinator_funding_sats r)
     (trader_funding_sats r).
Definition with_funding_txid (v : option string) (r : t) : t :=
  mk (id r) (open_protocol_id r) (channel_id r) (trader_pubkey r) (channel_state r)
     (trader_reserve_sats r) (coordinator_reserve_sats r) v (close_txid r) (settle_txid r)
     (buffer_txid r) (claim_txid r) (punish_txid r) (created_at r) (updated_at r)
     (coordinator_funding_sats r) (trader_funding_sats r).
Definition with_close_txid (v : option string) (r : t) : t :=
  mk (id r) (open_protocol_id r) (channel_id r) (trader_pubkey r) (channel_state r)
     (trader_reserve_sats r) (coordinator_reserve_sats r) (funding_txid r) v (settle_txid r)
     (buffer_txid r) (claim_txid r) (punish_txid r) (created_at r) (updated_at r)
     (coordinator_funding_sats r) (trader_funding_sats r).
Definition with_settle_txid (v : option string) (r : t) : t :=
  mk (id r) (open_protocol_id r) (channel_id r) (trader_pubkey r) (channel_state r)
     (trader_reserve_sats r) (coordinator_reserve_sats r) (funding_txid r) (close_txid r) v
     (buffer_txid r) (claim_txid r) (punish_txid r) (created_at r) (updated_at r)
     (coordinator_funding_sats r) (trader_funding_sats r).
Definition with_buffer_txid (v : option string) (r : t) : t :=
  mk (id r) (open_protocol_id r) (channel_id r) (trader_pubkey r) (channel_state r)
     (trader_reserve_sats r) (coordinator_reserve_sats r) (funding_txid r) (close_txid r)
     (settle_txid r) v (claim_txid r) (punish_txid r) (created_at r) (updated_at r)
     (coordinator_funding_sats r) (trader_funding_sats r).
Definition with_claim_txid (v : option string) (r : t) : t :=
  mk (id r) (open_protocol_id r) (channel_id r) (trader_pubkey r) (channel_state r)
     (trader_reserve_sats r) (coordinator_reserve_sats r) (funding_txid r) (close_txid r)
     (settle_txid r) (buffer_txid r) v (punish_txid r) (created_at r) (updated_at r)
     (coordinator_funding_sats r) (trader_funding_sats r).
Definition with_punish_txid (v : option string) (r : t) : t :=
  mk (id r) (open_protocol_id r) (channel_id r) (trader_pubkey r) (channel_state r)
     (trader_reserve_sats r) (coordinator_reserve_sats r) (funding_txid r) (close_txid r)
     (settle_txid r) (buffer_txid r) (claim_txid r) v (created_at r) (updated_at r)
     (coordinator_funding_sats r) (trader_funding_sats r).
Definition with_updated_at (v : OffsetDateTime) (r : t) : t :=
  mk (id r) (open_protocol_id r) (channel_id r) (trader_pubkey r) (channel_state r)
     (trader_reserve_sats r) (coordinator_reserve_sats r) (funding_txid r) (close_txid r)
     (settle_txid r) (buffer_txid r) (claim_txid r) (punish_txid r) (created_at r) v
     (coordinator_funding_sats r) (trader_funding_sats r).
Definition with_coordinator_funding_sats (v : Z) (r : t) : t :=
  mk (id r) (open_protocol_id r) (channel_id r) (trader_pubkey r) (channel_state r)
     (trader_reserve_sats r) (coordinator_reserve_sats r) (funding_txid r) (close_txid r)
     (settle_txid r) (buffer_txid r) (claim_txid r) (punish_txid r) (created_at r) (updated_at r)
     v (trader_funding_sats r).
Definition with_trader_funding_sats (v : Z) (r : t) : t :=
  mk (id r) (open_protocol_id r) (channel_id r) (trader_pubkey r) (channel_state r)
     (trader_reserve_sats r) (coordinator_reserve_sats r) (funding_txid r) (close_txid r)
     (settle_txid r) (buffer_txid r) (claim_txid r) (punish_txid r) (created_at r) (updated_at r)
     (coordinator_funding_sats r) v.
End DlcChannelRow.

(** [db/dlc_messages.rs: DlcMessage]. *)
Module DlcMessageRow.
Record t := mk {
  message_hash : string;
  inbound : bool;
  peer_id : string;
  message_type : DbMessageType.t;
  timestamp : OffsetDateTime;
}.
End DlcMessageRow.

(** [db/last_outbound_dlc_message.rs: LastOutboundDlcMessage]. *)
Module LastOutboundRow.
Record t := mk {
  peer_id : string;
  message_hash : string;
  message : string;
  timestamp : OffsetDateTime;
}.
End LastOutboundRow.

(** The table hodl_invoices. *)
Module HodlInvoiceRow.
Record t := mk {
  id : Z;
  trader_pubkey : string;
  r_hash : string;
  amount_sats : Z;
  pre_image : option string;
  created_at : OffsetDateTime;
  updated_at : option OffsetDateTime;
  invoice_state : DbInvoiceState.t;
  order_id : option Uuid;
}.

Definition with_pre_image (v : option string) (r : t) : t :=
  mk (id r) (trader_pubkey r) (r_hash r) (amount_sats r) v (created_at r) (updated_at r)
     (invoice_state r) (order_id r).
Definition with_updated_at (v : option OffsetDateTime) (r : t) : t :=
  mk (id r) (trader_pubkey r) (r_hash r) (amount_sats r) (pre_image r) (created_at r) v
     (invoice_state r) (order_id r).
Definition with_invoice_state (v : DbInvoiceState.t) (r : t) : t :=
  mk (id r) (trader_pubkey r) (r_hash r) (amount_sats r) (pre_image r) (created_at r)
     (updated_at r) v (order_id r).
Definition with_order_id (v : option Uuid) (r : t) : t :=
  mk (id r) (trader_pubkey r) (r_hash r) (amount_sats r) (pre_image r) (created_at r)
     (updated_at r) (invoice_state r) v.
End HodlInvoiceRow.

(** [db/polls.rs: Poll]. *)
Module PollRow.
Record t := mk {
  id : Z;
  poll_type : DbPollType.t;
  question : string;
  active : bool;
  creation_timestamp : OffsetDateTime;
  whitelisted : bool;
}.
End PollRow.

(** [db/polls.rs: Choice]. *)
Module ChoiceRow.
Record t := mk {
  id : Z;
  poll_id : Z;
  value : string;
  editable : bool;
}.
End ChoiceRow.

(** [db/polls.rs: Answer]. *)
Module AnswerRow.
Record t := mk {
  id : Z;
  choice_id : Z;
  trader_pubkey : string;
  value : string;
  creation_timestamp : OffsetDateTime;
}.
End AnswerRow.

(** The table polls_whitelist. *)
Module PollsWhitelistRow.
Record t := mk {
  id : Z;
  poll_id : Z;
  trader_pubkey : string;
}.
End PollsWhitelistRow.

(** [db/collaborative_reverts.rs: CollaborativeRevert]. *)
Module CollaborativeRevertRow.
Record t := mk {
  id : Z;
  channel_id : string;
  trader_pubkey : string;
  price : f32;
  coordinator_address : string;
  coordinator_amount_sats : Z;
  trader_amount_sats : Z;
  timestamp : OffsetDateTime;
}.
End CollaborativeRevertRow.

(** [db/spendable_outputs.rs: SpendableOutput]. *)
Module OutputRow.
Record t := mk {
  id : Z;
  txid : string;
  vout : Z;
  descriptor : string;
}.
End OutputRow.

(** [db/transactions.rs: Transaction]. *)
Module TransactionRow.
Record t := mk {
  txid : string;
  fee : Z;
  created_at : OffsetDateTime;
  updated_at : OffsetDateTime;
  raw : string;
}.
End TransactionRow.

(** [db/liquidity_options.rs: LiquidityOption]. *)
Module LiquidityOptionRow.
Record t := mk {
  id : Z;
  rank : Z;
  title : string;
  trade_up_to_sats : Z;
  min_deposit_sats : Z;
  max_deposit_sats : Z;
  min_fee_sats : option Z;
  fee_percentage : f64;
  coordinator_leverage : f32;
  active : bool;
  created_at : OffsetDateTime;
  updated_at : OffsetDateTime;
}.
End LiquidityOptionRow.

(** ** Tables

    A table is its rows and the next value of the sequence of its [id] column. *)
Module Table.
Record t (R : Type) := mk { rows : list R; next_id : Z }.
#[global] Arguments mk {R}.
#[global] Arguments rows {R}.
#[global] Arguments next_id {R}.
End Table.

Module Db.
Record t := mk {
  orders : Table.t OrderRow.t;
  matches : Table.t MatchesRow.t;
  dlc_protocols : Table.t DlcProtocolRow.t;
  trade_params : Table.t TradeParamsRow.t;
  rollover_params : Table.t RolloverParamsRow.t;
  positions : Table.t PositionRow.t;
  trades : Table.t TradeRow.t;
  funding_fee_events : Table.t FundingFeeEventRow.t;
  funding_rates : Table.t FundingRateRow.t;
  protocol_funding_fee_events : Table.t ProtocolFundingFeeEventRow.t;
  channel_opening_params : Table.t ChannelOpeningParamsRow.t;
  users : Table.t UserRow.t;
  bonus_status : Table.t BonusStatusRow.t;
  bonus_tiers : Table.t BonusTierRow.t;
  user_referral_summary_view : Table.t ReferralSummaryRow.t;
  dlc_channels : Table.t DlcChannelRow.t;
  dlc_messages : Table.t DlcMessageRow.t;
  last_outbound_dlc_messages : Table.t LastOutboundRow.t;
  hodl_invoices : Table.t HodlInvoiceRow.t;
  polls : Table.t PollRow.t;
  choices : Table.t ChoiceRow.t;
  answers : Table.t AnswerRow.t;
  polls_whitelist : Table.t PollsWhitelistRow.t;
  collaborative_reverts : Table.t CollaborativeRevertRow.t;
  spendable_outputs : Table.t OutputRow.t;
  transactions : Table.t TransactionRow.t;
  liquidity_options : Table.t LiquidityOptionRow.t;
}.
End Db.

(** A row type and the table it lives in. *)
Class Stored (R : Type) := {
  tbl : Db.t -> Table.t R;
  set_tbl : Table.t R -> Db.t -> Db.t;
}.

#[export] Instance orders_stored : Stored OrderRow.t := {|
  tbl := Db.orders;
  set_tbl t d := Db.mk t (Db.matches d) (Db.dlc_protocols d) (Db.trade_params d)
    (Db.rollover_params d) (Db.positions d) (Db.trades d) (Db.funding_fee_events d)
    (Db.funding_rates d) (Db.protocol_funding_fee_events d) (Db.channel_opening_params d)
    (Db.users d) (Db.bonus_status d) (Db.bonus_tiers d) (Db.user_referral_summary_view d)
    (Db.dlc_channels d) (Db.dlc_messages d) (Db.last_outbound_dlc_messages d) (Db.hodl_invoices d)
    (Db.polls d) (Db.choices d) (Db.answers d) (Db.polls_whitelist d) (Db.collaborative_reverts d)
    (Db.spendable_outputs d) (Db.transactions d)
    (Db.liquidity_options d) |}.
#[export] Instance matches_stored : Stored MatchesRow.t := {|
  tbl := Db.matches;
  set_tbl t d := Db.mk (Db.orders d) t (Db.dlc_protocols d) (Db.trade_params d)
    (Db.rollover_params d) (Db.positions d) (Db.trades d) (Db.funding_fee_events d)
    (Db.funding_rates d) (Db.protocol_funding_fee_events d) (Db.channel_opening_params d)
    (Db.users d) (Db.bonus_status d) (Db.bonus_tiers d) (Db.user_referral_summary_view d)
    (Db.dlc_channels d) (Db.dlc_messages d) (Db.last_outbound_dlc_messages d) (Db.hodl_invoices d)
    (Db.polls d) (Db.choices d) (Db.answers d) (Db.polls_whitelist d) (Db.collaborative_reverts d)
    (Db.spendable_outputs d) (Db.transactions d)
    (Db.liquidity_options d) |}.
#[export] Instance dlc_protocols_stored : Stored DlcProtocolRow.t := {|
  tbl := Db.dlc_protocols;
  set_tbl t d := Db.mk (Db.orders d) (Db.matches d) t (Db.trade_params d) (Db.rollover_params d)
    (Db.positions d) (Db.trades d) (Db.funding_fee_events d) (Db.funding_rates d)
    (Db.protocol_funding_fee_events d) (Db.channel_opening_params d) (Db.users d)
    (Db.bonus_status d) (Db.bonus_tiers d) (Db.user_referral_summary_view d) (Db.dlc_channels d)
    (Db.dlc_messages d) (Db.last_outbound_dlc_messages d) (Db.hodl_invoices d) (Db.polls d)
    (Db.choices d) (Db.answers d) (Db.polls_whitelist d) (Db.collaborative_reverts d)
    (Db.spendable_outputs d) (Db.transactions d)
    (Db.liquidity_options d) |}.
#[export] Instance trade_params_stored : Stored TradeParamsRow.t := {|
  tbl := Db.trade_params;
  set_tbl t d := Db.mk (Db.orders d) (Db.matches d) (Db.dlc_protocols d) t
    (Db.rollover_params d) (Db.positions d) (Db.trades d) (Db.funding_fee_events d)
    (Db.funding_rates d) (Db.protocol_funding_fee_events d) (Db.channel_opening_params d)
    (Db.users d) (Db.bonus_status d) (Db.bonus_tiers d) (Db.user_referral_summary_view d)
    (Db.dlc_channels d) (Db.dlc_messages d) (Db.last_outbound_dlc_messages d) (Db.hodl_invoices d)
    (Db.polls d) (Db.choices d) (Db.answers d) (Db.polls_whitelist d) (Db.collaborative_reverts d)
    (Db.spendable_outputs d) (Db.transactions d)
    (Db.liquidity_options d) |}.
#[export] Instance rollover_params_stored : Stored RolloverParamsRow.t := {|
  tbl := Db.rollover_params;
  set_tbl t d := Db.mk (Db.orders d) (Db.matches d) (Db.dlc_protocols d) (Db.trade_params d) t
    (Db.positions d) (Db.trades d) (Db.funding_fee_events d) (Db.funding_rates d)
    (Db.protocol_funding_fee_events d) (Db.channel_opening_params d) (Db.users d)
    (Db.bonus_status d) (Db.bonus_tiers d) (Db.user_referral_summary_view d) (Db.dlc_channels d)
    (Db.dlc_messages d) (Db.last_outbound_dlc_messages d) (Db.hodl_invoices d) (Db.polls d)
    (Db.choices d) (Db.answers d) (Db.polls_whitelist d) (Db.collaborative_reverts d)
    (Db.spendable_outputs d) (Db.transactions d)
    (Db.liquidity_options d) |}.
#[export] Instance positions_stored : Stored PositionRow.t := {|
  tbl := Db.positions;
  set_tbl t d := Db.mk (Db.orders d) (Db.matches d) (Db.dlc_protocols d) (Db.trade_params d)
    (Db.rollover_params d) t (Db.trades d) (Db.funding_fee_events d) (Db.funding_rates d)
    (Db.protocol_funding_fee_events d) (Db.channel_opening_params d) (Db.users d)
    (Db.bonus_status d) (Db.bonus_tiers d) (Db.user_referral_summary_view d) (Db.dlc_channels d)
    (Db.dlc_messages d) (Db.last_outbound_dlc_messages d) (Db.hodl_invoices d) (Db.polls d)
    (Db.choices d) (Db.answers d) (Db.polls_whitelist d) (Db.collaborative_reverts d)
    (Db.spendable_outputs d) (Db.transactions d)
    (Db.liquidity_options d) |}.
#[export] Instance trades_stored : Stored TradeRow.t := {|
  tbl := Db.trades;
  set_tbl t d := Db.mk (Db.orders d) (Db.matches d) (Db.dlc_protocols d) (Db.trade_params d)
    (Db.rollover_params d) (Db.positions d) t (Db.funding_fee_events d) (Db.funding_rates d)
    (Db.protocol_funding_fee_events d) (Db.channel_opening_params d) (Db.users d)
    (Db.bonus_status d) (Db.bonus_tiers d) (Db.user_referral_summary_view d) (Db.dlc_channels d)
    (Db.dlc_messages d) (Db.last_outbound_dlc_messages d) (Db.hodl_invoices d) (Db.polls d)
    (Db.choices d) (Db.answers d) (Db.polls_whitelist d) (Db.collaborative_reverts d)
    (Db.spendable_outputs d) (Db.transactions d)
    (Db.liquidity_options d) |}.
#[export] Instance funding_fee_events_stored : Stored FundingFeeEventRow.t := {|
  tbl := Db.funding_fee_events;
  set_tbl t d := Db.mk (Db.orders d) (Db.matches d) (Db.dlc_protocols d) (Db.trade_params d)
    (Db.rollover_params d) (Db.positions d) (Db.trades d) t (Db.funding_rates d)
    (Db.protocol_funding_fee_events d) (Db.channel_opening_params d) (Db.users d)
    (Db.bonus_status d) (Db.bonus_tiers d) (Db.user_referral_summary_view d) (Db.dlc_channels d)
    (Db.dlc_messages d) (Db.last_outbound_dlc_messages d) (Db.hodl_invoices d) (Db.polls d)
    (Db.choices d) (Db.answers d) (Db.polls_whitelist d) (Db.collaborative_reverts d)
    (Db.spendable_outputs d) (Db.transactions d)
    (Db.liquidity_options d) |}.
#[export] Instance funding_rates_stored : Stored FundingRateRow.t := {|
  tbl := Db.funding_rates;
  set_tbl t d := Db.mk (Db.orders d) (Db.matches d) (Db.dlc_protocols d) (Db.trade_params d)
    (Db.rollover_params d) (Db.positions d) (Db.trades d) (Db.funding_fee_events d) t
    (Db.protocol_funding_fee_events d) (Db.channel_opening_params d) (Db.users d)
    (Db.bonus_status d) (Db.bonus_tiers d) (Db.user_referral_summary_view d) (Db.dlc_channels d)
    (Db.dlc_messages d) (Db.last_outbound_dlc_messages d) (Db.hodl_invoices d) (Db.polls d)
    (Db.choices d) (Db.answers d) (Db.polls_whitelist d) (Db.collaborative_reverts d)
    (Db.spendable_outputs d) (Db.transactions d)
    (Db.liquidity_options d) |}.
#[export] Instance protocol_funding_fee_events_stored : Stored ProtocolFundingFeeEventRow.t := {|
  tbl := Db.protocol_funding_fee_events;
  set_tbl t d := Db.mk (Db.orders d) (Db.matches d) (Db.dlc_protocols d) (Db.trade_params d)
    (Db.rollover_params d) (Db.positions d) (Db.trades d) (Db.funding_fee_events d)
    (Db.funding_rates d) t (Db.channel_opening_params d) (Db.users d) (Db.bonus_status d)
    (Db.bonus_tiers d) (Db.user_referral_summary_view d) (Db.dlc_channels d) (Db.dlc_messages d)
    (Db.last_outbound_dlc_messages d) (Db.hodl_invoices d) (Db.polls d) (Db.choices d)
    (Db.answers d) (Db.polls_whitelist d) (Db.collaborative_reverts d) (Db.spendable_outputs d)
    (Db.transactions d)
    (Db.liquidity_options d) |}.
#[export] Instance channel_opening_params_stored : Stored ChannelOpeningParamsRow.t := {|
  tbl := Db.channel_opening_params;
  set_tbl t d := Db.mk (Db.orders d) (Db.matches d) (Db.dlc_protocols d) (Db.trade_params d)
    (Db.rollover_params d) (Db.positions d) (Db.trades d) (Db.funding_fee_events d)
    (Db.funding_rates d) (Db.protocol_funding_fee_events d) t (Db.users d) (Db.bonus_status d)
    (Db.bonus_tiers d) (Db.user_referral_summary_view d) (Db.dlc_channels d) (Db.dlc_messages d)
    (Db.last_outbound_dlc_messages d) (Db.hodl_invoices d) (Db.polls d) (Db.choices d)
    (Db.answers d) (Db.polls_whitelist d) (Db.collaborative_reverts d) (Db.spendable_outputs d)
    (Db.transactions d)
    (Db.liquidity_options d) |}.
#[export] Instance users_stored : Stored UserRow.t := {|
  tbl := Db.users;
  set_tbl t d := Db.mk (Db.orders d) (Db.matches d) (Db.dlc_protocols d) (Db.trade_params d)
    (Db.rollover_params d) (Db.positions d) (Db.trades d) (Db.funding_fee_events d)
    (Db.funding_rates d) (Db.protocol_funding_fee_events d) (Db.channel_opening_params d) t
    (Db.bonus_status d) (Db.bonus_tiers d) (Db.user_referral_summary_view d) (Db.dlc_channels d)
    (Db.dlc_messages d) (Db.last_outbound_dlc_messages d) (Db.hodl_invoices d) (Db.polls d)
    (Db.choices d) (Db.answers d) (Db.polls_whitelist d) (Db.collaborative_reverts d)
    (Db.spendable_outputs d) (Db.transactions d)
    (Db.liquidity_options d) |}.
#[export] Instance bonus_status_stored : Stored BonusStatusRow.t := {|
  tbl := Db.bonus_status;
  set_tbl t d := Db.mk (Db.orders d) (Db.matches d) (Db.dlc_protocols d) (Db.trade_params d)
    (Db.rollover_params d) (Db.positions d) (Db.trades d) (Db.funding_fee_events d)
    (Db.funding_rates d) (Db.protocol_funding_fee_events d) (Db.channel_opening_params d)
    (Db.users d) t (Db.bonus_tiers d) (Db.user_referral_summary_view d) (Db.dlc_channels d)
    (Db.dlc_messages d) (Db.last_outbound_dlc_messages d) (Db.hodl_invoices d) (Db.polls d)
    (Db.choices d) (Db.answers d) (Db.polls_whitelist d) (Db.collaborative_reverts d)
    (Db.spendable_outputs d) (Db.transactions d)
    (Db.liquidity_options d) |}.
#[export] Instance bonus_tiers_stored : Stored BonusTierRow.t := {|
  tbl := Db.bonus_tiers;
  set_tbl t d := Db.mk (Db.orders d) (Db.matches d) (Db.dlc_protocols d) (Db.trade_params d)
    (Db.rollover_params d) (Db.positions d) (Db.trades d) (Db.funding_fee_events d)
    (Db.funding_rates d) (Db.protocol_funding_fee_events d) (Db.channel_opening_params d)
    (Db.users d) (Db.bonus_status d) t (Db.user_referral_summary_view d) (Db.dlc_channels d)
    (Db.dlc_messages d) (Db.last_outbound_dlc_messages d) (Db.hodl_invoices d) (Db.polls d)
    (Db.choices d) (Db.answers d) (Db.polls_whitelist d) (Db.collaborative_reverts d)
    (Db.spendable_outputs d) (Db.transactions d)
    (Db.liquidity_options d) |}.
#[export] Instance user_referral_summary_view_stored : Stored ReferralSummaryRow.t := {|
  tbl := Db.user_referral_summary_view;
  set_tbl t d := Db.mk (Db.orders d) (Db.matches d) (Db.dlc_protocols d) (Db.trade_params d)
    (Db.rollover_params d) (Db.positions d) (Db.trades d) (Db.funding_fee_events d)
    (Db.funding_rates d) (Db.protocol_funding_fee_events d) (Db.channel_opening_params d)
    (Db.users d) (Db.bonus_status d) (Db.bonus_tiers d) t (Db.dlc_channels d) (Db.dlc_messages d)
    (Db.last_outbound_dlc_messages d) (Db.hodl_invoices d) (Db.polls d) (Db.choices d)
    (Db.answers d) (Db.polls_whitelist d) (Db.collaborative_reverts d) (Db.spendable_outputs d)
    (Db.transactions d)
    (Db.liquidity_options d) |}.
#[export] Instance dlc_channels_stored : Stored DlcChannelRow.t := {|
  tbl := Db.dlc_channels;
  set_tbl t d := Db.mk (Db.orders d) (Db.matches d) (Db.dlc_protocols d) (Db.trade_params d)
    (Db.rollover_params d) (Db.positions d) (Db.trades d) (Db.funding_fee_events d)
    (Db.funding_rates d) (Db.protocol_funding_fee_events d) (Db.channel_opening_params d)
    (Db.users d) (Db.bonus_status d) (Db.bonus_tiers d) (Db.user_referral_summary_view d) t
    (Db.dlc_messages d) (Db.last_outbound_dlc_messages d) (Db.hodl_invoices d) (Db.polls d)
    (Db.choices d) (Db.answers d) (Db.polls_whitelist d) (Db.collaborative_reverts d)
    (Db.spendable_outputs d) (Db.transactions d)
    (Db.liquidity_options d) |}.
#[export] Instance dlc_messages_stored : Stored DlcMessageRow.t := {|
  tbl := Db.dlc_messages;
  set_tbl t d := Db.mk (Db.orders d) (Db.matches d) (Db.dlc_protocols d) (Db.trade_params d)
    (Db.rollover_params d) (Db.positions d) (Db.trades d) (Db.funding_fee_events d)
    (Db.funding_rates d) (Db.protocol_funding_fee_events d) (Db.channel_opening_params d)
    (Db.users d) (Db.bonus_status d) (Db.bonus_tiers d) (Db.user_referral_summary_view d)
    (Db.dlc_channels d) t (Db.last_outbound_dlc_messages d) (Db.hodl_invoices d) (Db.polls d)
    (Db.choices d) (Db.answers d) (Db.polls_whitelist d) (Db.collaborative_reverts d)
    (Db.spendable_outputs d) (Db.transactions d)
    (Db.liquidity_options d) |}.
#[export] Instance last_outbound_dlc_messages_stored : Stored LastOutboundRow.t := {|
  tbl := Db.last_outbound_dlc_messages;
  set_tbl t d := Db.mk (Db.orders d) (Db.matches d) (Db.dlc_protocols d) (Db.trade_params d)
    (Db.rollover_params d) (Db.positions d) (Db.trades d) (Db.funding_fee_events d)
    (Db.funding_rates d) (Db.protocol_funding_fee_events d) (Db.channel_opening_params d)
    (Db.users d) (Db.bonus_status d) (Db.bonus_tiers d) (Db.user_referral_summary_view d)
    (Db.dlc_channels d) (Db.dlc_messages d) t (Db.hodl_invoices d) (Db.polls d) (Db.choices d)
    (Db.answers d) (Db.polls_whitelist d) (Db.collaborative_reverts d) (Db.spendable_outputs d)
    (Db.transactions d)
    (Db.liquidity_options d) |}.
#[export] Instance hodl_invoices_stored : Stored HodlInvoiceRow.t := {|
  tbl := Db.hodl_invoices;
  set_tbl t d := Db.mk (Db.orders d) (Db.matches d) (Db.dlc_protocols d) (Db.trade_params d)
    (Db.rollover_params d) (Db.positions d) (Db.trades d) (Db.funding_fee_events d)
    (Db.funding_rates d) (Db.protocol_funding_fee_events d) (Db.channel_opening_params d)
    (Db.users d) (Db.bonus_status d) (Db.bonus_tiers d) (Db.user_referral_summary_view d)
    (Db.dlc_channels d) (Db.dlc_messages d) (Db.last_outbound_dlc_messages d) t (Db.polls d)
    (Db.choices d) (Db.answers d) (Db.polls_whitelist d) (Db.collaborative_reverts d)
    (Db.spendable_outputs d) (Db.transactions d)
    (Db.liquidity_options d) |}.
#[export] Instance polls_stored : Stored PollRow.t := {|
  tbl := Db.polls;
  set_tbl t d := Db.mk (Db.orders d) (Db.matches d) (Db.dlc_protocols d) (Db.trade_params d)
    (Db.rollover_params d) (Db.positions d) (Db.trades d) (Db.funding_fee_events d)
    (Db.funding_rates d) (Db.protocol_funding_fee_events d) (Db.channel_opening_params d)
    (Db.users d) (Db.bonus_status d) (Db.bonus_tiers d) (Db.user_referral_summary_view d)
    (Db.dlc_channels d) (Db.dlc_messages d) (Db.last_outbound_dlc_messages d) (Db.hodl_invoices d)
    t (Db.choices d) (Db.answers d) (Db.polls_whitelist d) (Db.collaborative_reverts d)
    (Db.spendable_outputs d) (Db.transactions d)
    (Db.liquidity_options d) |}.
#[export] Instance choices_stored : Stored ChoiceRow.t := {|
  tbl := Db.choices;
  set_tbl t d := Db.mk (Db.orders d) (Db.matches d) (Db.dlc_protocols d) (Db.trade_params d)
    (Db.rollover_params d) (Db.positions d) (Db.trades d) (Db.funding_fee_events d)
    (Db.funding_rates d) (Db.protocol_funding_fee_events d) (Db.channel_opening_params d)
    (Db.users d) (Db.bonus_status d) (Db.bonus_tiers d) (Db.user_referral_summary_view d)
    (Db.dlc_channels d) (Db.dlc_messages d) (Db.last_outbound_dlc_messages d) (Db.hodl_invoices d)
    (Db.polls d) t (Db.answers d) (Db.polls_whitelist d) (Db.collaborative_reverts d)
    (Db.spendable_outputs d) (Db.transactions d)
    (Db.liquidity_options d) |}.
#[export] Instance answers_stored : Stored AnswerRow.t := {|
  tbl := Db.answers;
  set_tbl t d := Db.mk (Db.orders d) (Db.matches d) (Db.dlc_protocols d) (Db.trade_params d)
    (Db.rollover_params d) (Db.positions d) (Db.trades d) (Db.funding_fee_events d)
    (Db.funding_rates d) (Db.protocol_funding_fee_events d) (Db.channel_opening_params d)
    (Db.users d) (Db.bonus_status d) (Db.bonus_tiers d) (Db.user_referral_summary_view d)
    (Db.dlc_channels d) (Db.dlc_messages d) (Db.last_outbound_dlc_messages d) (Db.hodl_invoices d)
    (Db.polls d) (Db.choices d) t (Db.polls_whitelist d) (Db.collaborative_reverts d)
    (Db.spendable_outputs d) (Db.transactions d)
    (Db.liquidity_options d) |}.
#[export] Instance polls_whitelist_stored : Stored PollsWhitelistRow.t := {|
  tbl := Db.polls_whitelist;
  set_tbl t d := Db.mk (Db.orders d) (Db.matches d) (Db.dlc_protocols d) (Db.trade_params d)
    (Db.rollover_params d) (Db.positions d) (Db.trades d) (Db.funding_fee_events d)
    (Db.funding_rates d) (Db.protocol_funding_fee_events d) (Db.channel_opening_params d)
    (Db.users d) (Db.bonus_status d) (Db.bonus_tiers d) (Db.user_referral_summary_view d)
    (Db.dlc_channels d) (Db.dlc_messages d) (Db.last_outbound_dlc_messages d) (Db.hodl_invoices d)
    (Db.polls d) (Db.choices d) (Db.answers d) t (Db.collaborative_reverts d)
    (Db.spendable_outputs d) (Db.transactions d)
    (Db.liquidity_options d) |}.
#[export] Instance collaborative_reverts_stored : Stored CollaborativeRevertRow.t := {|
  tbl := Db.collaborative_reverts;
  set_tbl t d := Db.mk (Db.orders d) (Db.matches d) (Db.dlc_protocols d) (Db.trade_params d)
    (Db.rollover_params d) (Db.positions d) (Db.trades d) (Db.funding_fee_events d)
    (Db.funding_rates d) (Db.protocol_funding_fee_events d) (Db.channel_opening_params d)
    (Db.users d) (Db.bonus_status d) (Db.bonus_tiers d) (Db.user_referral_summary_view d)
    (Db.dlc_channels d) (Db.dlc_messages d) (Db.last_outbound_dlc_messages d) (Db.hodl_invoices d)
    (Db.polls d) (Db.choices d) (Db.answers d) (Db.polls_whitelist d) t (Db.spendable_outputs d)
    (Db.transactions d)
    (Db.liquidity_options d) |}.
#[export] Instance spendable_outputs_stored : Stored OutputRow.t := {|
  tbl := Db.spendable_outputs;
  set_tbl t d := Db.mk (Db.orders d) (Db.matches d) (Db.dlc_protocols d) (Db.trade_params d)
    (Db.rollover_params d) (Db.positions d) (Db.trades d) (Db.funding_fee_events d)
    (Db.funding_rates d) (Db.protocol_funding_fee_events d) (Db.channel_opening_params d)
    (Db.users d) (Db.bonus_status d) (Db.bonus_tiers d) (Db.user_referral_summary_view d)
    (Db.dlc_channels d) (Db.dlc_messages d) (Db.last_outbound_dlc_messages d) (Db.hodl_invoices d)
    (Db.polls d) (Db.choices d) (Db.answers d) (Db.polls_whitelist d) (Db.collaborative_reverts d)
    t (Db.transactions d)
    (Db.liquidity_options d) |}.
#[export] Instance transactions_stored : Stored TransactionRow.t := {|
  tbl := Db.transactions;
  set_tbl t d := Db.mk (Db.orders d) (Db.matches d) (Db.dlc_protocols d) (Db.trade_params d)
    (Db.rollover_params d) (Db.positions d) (Db.trades d) (Db.funding_fee_events d)
    (Db.funding_rates d) (Db.protocol_funding_fee_events d) (Db.channel_opening_params d)
    (Db.users d) (Db.bonus_status d) (Db.bonus_tiers d) (Db.user_referral_summary_view d)
    (Db.dlc_channels d) (Db.dlc_messages d) (Db.last_outbound_dlc_messages d) (Db.hodl_invoices d)
    (Db.polls d) (Db.choices d) (Db.answers d) (Db.polls_whitelist d) (Db.collaborative_reverts d)
    (Db.spendable_outputs d) t
    (Db.liquidity_options d) |}.
#[export] Instance liquidity_options_stored : Stored LiquidityOptionRow.t := {|
  tbl := Db.liquidity_options;
  set_tbl t d := Db.mk (Db.orders d) (Db.matches d) (Db.dlc_protocols d) (Db.trade_params d)
    (Db.rollover_params d) (Db.positions d) (Db.trades d) (Db.funding_fee_events d)
    (Db.funding_rates d) (Db.protocol_funding_fee_events d) (Db.channel_opening_params d)
    (Db.users d) (Db.bonus_status d) (Db.bonus_tiers d) (Db.user_referral_summary_view d)
    (Db.dlc_channels d) (Db.dlc_messages d) (Db.last_outbound_dlc_messages d) (Db.hodl_invoices d)
    (Db.polls d) (Db.choices d) (Db.answers d) (Db.polls_whitelist d) (Db.collaborative_reverts d)
    (Db.spendable_outputs d) (Db.transactions d)
    t |}.

(** Replacing a table: the laws of the accessors. *)
Class StoredLaws (R : Type) `{Stored R} : Prop := {
  tbl_set t d : tbl (set_tbl t d) = t;
  set_set t t' d : set_tbl t (set_tbl t' d) = set_tbl t d;
  set_same d : set_tbl (tbl d) d = d;
}.

#[export] Instance orders_laws : StoredLaws OrderRow.t.
Proof. split; [done|done|by intros []]. Qed.
#[export] Instance matches_laws : StoredLaws MatchesRow.t.
Proof. split; [done|done|by intros []]. Qed.
#[export] Instance dlc_protocols_laws : StoredLaws DlcProtocolRow.t.
Proof. split; [done|done|by intros []]. Qed.
#[export] Instance trade_params_laws : StoredLaws TradeParamsRow.t.
Proof. split; [done|done|by intros []]. Qed.
#[export] Instance rollover_params_laws : StoredLaws RolloverParamsRow.t.
Proof. split; [done|done|by intros []]. Qed.
#[export] Instance positions_laws : StoredLaws PositionRow.t.
Proof. split; [done|done|by intros []]. Qed.
#[export] Instance trades_laws : StoredLaws TradeRow.t.
Proof. split; [done|done|by intros []]. Qed.
#[export] Instance funding_fee_events_laws : StoredLaws FundingFeeEventRow.t.
Proof. split; [done|done|by intros []]. Qed.
#[export] Instance funding_rates_laws : StoredLaws FundingRateRow.t.
Proof. split; [done|done|by intros []]. Qed.
#[export] Instance protocol_funding_fee_events_laws : StoredLaws ProtocolFundingFeeEventRow.t.
Proof. split; [done|done|by intros []]. Qed.
#[export] Instance channel_opening_params_laws : StoredLaws ChannelOpeningParamsRow.t.
Proof. split; [done|done|by intros []]. Qed.
#[export] Instance users_laws : StoredLaws UserRow.t.
Proof. split; [done|done|by intros []]. Qed.
#[export] Instance bonus_status_laws : StoredLaws BonusStatusRow.t.
Proof. split; [done|done|by intros []]. Qed.
#[export] Instance bonus_tiers_laws : StoredLaws BonusTierRow.t.
Proof. split; [done|done|by intros []]. Qed.
#[export] Instance user_referral_summary_view_laws : StoredLaws ReferralSummaryRow.t.
Proof. split; [done|done|by intros []]. Qed.
#[export] Instance dlc_channels_laws : StoredLaws DlcChannelRow.t.
Proof. split; [done|done|by intros []]. Qed.
#[export] Instance dlc_messages_laws : StoredLaws DlcMessageRow.t.
Proof. split; [done|done|by intros []]. Qed.
#[export] Instance last_outbound_dlc_messages_laws : StoredLaws LastOutboundRow.t.
Proof. split; [done|done|by intros []]. Qed.
#[export] Instance hodl_invoices_laws : StoredLaws HodlInvoiceRow.t.
Proof. split; [done|done|by intros []]. Qed.
#[export] Instance polls_laws : StoredLaws PollRow.t.
Proof. split; [done|done|by intros []]. Qed.
#[export] Instance choices_laws : StoredLaws ChoiceRow.t.
Proof. split; [done|done|by intros []]. Qed.
#[export] Instance answers_laws : StoredLaws AnswerRow.t.
Proof. split; [done|done|by intros []]. Qed.
#[export] Instance polls_whitelist_laws : StoredLaws PollsWhitelistRow.t.
Proof. split; [done|done|by intros []]. Qed.
#[export] Instance collaborative_reverts_laws : StoredLaws CollaborativeRevertRow.t.
Proof. split; [done|done|by intros []]. Qed.
#[export] Instance spendable_outputs_laws : StoredLaws OutputRow.t.
Proof. split; [done|done|by intros []]. Qed.
#[export] Instance transactions_laws : StoredLaws TransactionRow.t.
Proof. split; [done|done|by intros []]. Qed.
#[export] Instance liquidity_options_laws : StoredLaws LiquidityOptionRow.t.
Proof. split; [done|done|by intros []]. Qed.

Definition rows {R} `{Stored R} (d : Db.t) : list R := Table.rows (tbl d).
Definition set_rows {R} `{Stored R} (l : list R) (d : Db.t) : Db.t :=
  set_tbl (Table.mk l (Table.next_id (tbl d))) d.

(** ** Databases with the same rows

    A rolled-back transaction restores the rows but not the sequences, so states
    are compared up to the sequences. *)
Definition restore_table {R} `{Stored R} (d d' : Db.t) : Table.t R :=
  Table.mk (Table.rows (tbl d)) (Table.next_id (tbl d')).

Definition rollback_to (d d' : Db.t) : Db.t :=
  Db.mk (restore_table d d') (restore_table d d') (restore_table d d') (restore_table d d') (restore_table d d')
    (restore_table d d') (restore_table d d') (restore_table d d') (restore_table d d') (restore_table d d')
    (restore_table d d') (restore_table d d') (restore_table d d') (restore_table d d') (restore_table d d')
    (restore_table d d') (restore_table d d') (restore_table d d') (restore_table d d') (restore_table d d')
    (restore_table d d') (restore_table d d') (restore_table d d') (restore_table d d') (restore_table d d')
    (restore_table d d') (restore_table d d').

#[export] Instance db_equiv : Equiv Db.t := fun d d' =>
  rollback_to d d' = d'.

Lemma db_equiv_spec (d d' : Db.t) : d ≡ d' <->
  rows (R := OrderRow.t) d = rows d' /\
  rows (R := MatchesRow.t) d = rows d' /\
  rows (R := DlcProtocolRow.t) d = rows d' /\
  rows (R := TradeParamsRow.t) d = rows d' /\
  rows (R := RolloverParamsRow.t) d = rows d' /\
  rows (R := PositionRow.t) d = rows d' /\
  rows (R := TradeRow.t) d = rows d' /\
  rows (R := FundingFeeEventRow.t) d = rows d' /\
  rows (R := FundingRateRow.t) d = rows d' /\
  rows (R := ProtocolFundingFeeEventRow.t) d = rows d' /\
  rows (R := ChannelOpeningParamsRow.t) d = rows d' /\
  rows (R := UserRow.t) d = rows d' /\
  rows (R := BonusStatusRow.t) d = rows d' /\
  rows (R := BonusTierRow.t) d = rows d' /\
  rows (R := ReferralSummaryRow.t) d = rows d' /\
  rows (R := DlcChannelRow.t) d = rows d' /\
  rows (R := DlcMessageRow.t) d = rows d' /\
  rows (R := LastOutboundRow.t) d = rows d' /\
  rows (R := HodlInvoiceRow.t) d = rows d' /\
  rows (R := PollRow.t) d = rows d' /\
  rows (R := ChoiceRow.t) d = rows d' /\
  rows (R := AnswerRow.t) d = rows d' /\
  rows (R := PollsWhitelistRow.t) d = rows d' /\
  rows (R := CollaborativeRevertRow.t) d = rows d' /\
  rows (R := OutputRow.t) d = rows d' /\
  rows (R := TransactionRow.t) d = rows d' /\
  rows (R := LiquidityOptionRow.t) d = rows d'.
Proof.
  unfold equiv, db_equiv, rollback_to, restore_table, rows; destruct d, d'; cbn.
  repeat match goal with t : Table.t _ |- _ => destruct t end; cbn.
  split; [by intros [=]; subst; split_and!|intros; destruct_and?; by subst].
Qed.

#[export] Instance db_equivalence : Equivalence (≡@{Db.t}).
Proof. split; repeat intro; rewrite !db_equiv_spec in *; intuition congruence. Qed.

Lemma rollback_to_equiv d d' : rollback_to d d' ≡ d.
Proof. by apply db_equiv_spec. Qed.

(** A database without rows, its sequences at 1. *)
Definition empty_table {R} : Table.t R := Table.mk [] 1.
Definition empty_db : Db.t :=
  Db.mk empty_table empty_table empty_table empty_table empty_table empty_table empty_table
    empty_table empty_table empty_table empty_table empty_table empty_table empty_table
    empty_table empty_table empty_table empty_table empty_table empty_table empty_table
    empty_table empty_table empty_table empty_table empty_table empty_table.
