(* ===== verification/Db.v ===== *)
(** * SQL statements over the tables

    The statements the [db] modules build with Diesel: filtered reads,
    [first]/[optional], updates, inserts with the constraints of the migrations,
    and transactions.  A statement is a computation over [Db.t].

    Rows come back in table order, except after [order_by]; among several rows
    with the same [order_by] key the first in table order is taken (Postgres
    leaves both open).  A failing statement keeps the sequence values it drew. *)

From stdpp Require Import base list option strings.
From Stdlib Require Import ZArith Lia.
From S2P Require Import Prelude Machine External SqlTypes Schema.

#[local] Open Scope Z_scope.

(** [diesel::result::Error], the variants the code produces or inspects. *)
Inductive SqlError :=
  | NotFound | UniqueViolation | ForeignKeyViolation | NumericOutOfRange | RollbackTransaction.

Definition Sql (A : Type) : Type := M Db.t SqlError A.

(** ** Constraints of the migrations *)

Definition has {R} `{Stored R} (d : Db.t) (p : R -> bool) : bool := existsb p (rows d).

Definition unique (ok : bool) : option SqlError := if ok then None else Some UniqueViolation.
Definition references (ok : bool) : option SqlError :=
  if ok then None else Some ForeignKeyViolation.

(** The first violated one of two constraints. *)
Definition and_then (a b : option SqlError) : option SqlError :=
  match a with Some e => Some e | None => b end.

Definition has_order (d : Db.t) (u : Uuid) : bool := has d (fun o => OrderRow.trader_order_id o =? u).
Definition has_protocol (d : Db.t) (u : Uuid) : bool :=
  has d (fun p => DlcProtocolRow.protocol_id p =? u).
Definition has_position (d : Db.t) (id : Z) : bool := has d (fun p => PositionRow.id p =? id).
Definition has_user (d : Db.t) (pk : string) : bool :=
  has d (fun u => bool_decide (UserRow.pubkey u = pk)).

(** What inserting the row would violate. *)
Class Constrained (R : Type) := violation : Db.t -> R -> option SqlError.

#[export] Instance orders_constraint : Constrained OrderRow.t := fun d r =>
  unique (negb (has_order d (OrderRow.trader_order_id r))).
#[export] Instance matches_constraint : Constrained MatchesRow.t := fun d r =>
  and_then (unique (negb (has d (fun m => MatchesRow.id m =? MatchesRow.id r))))
    (references (has_order d (MatchesRow.order_id r) && has_order d (MatchesRow.match_order_id r))).
#[export] Instance dlc_protocols_constraint : Constrained DlcProtocolRow.t := fun d r =>
  and_then (unique (negb (has_protocol d (DlcProtocolRow.protocol_id r))))
    (references
       (match DlcProtocolRow.previous_protocol_id r with
        | Some u => has_protocol d u
        | None => true
        end && has_user d (DlcProtocolRow.trader_pubkey r))).
#[export] Instance trade_params_constraint : Constrained TradeParamsRow.t := fun d r =>
  references (has_protocol d (TradeParamsRow.protocol_id r)).
#[export] Instance rollover_params_constraint : Constrained RolloverParamsRow.t := fun d r =>
  references (has_protocol d (RolloverParamsRow.protocol_id r)).
#[export] Instance positions_constraint : Constrained PositionRow.t := fun _ _ => None.
#[export] Instance trades_constraint : Constrained TradeRow.t := fun d r =>
  references (has_position d (TradeRow.position_id r)).
#[export] Instance funding_fee_events_constraint : Constrained FundingFeeEventRow.t := fun d r =>
  and_then
    (unique (negb (has d (fun e =>
       (FundingFeeEventRow.position_id e =? FundingFeeEventRow.position_id r)
       && (FundingFeeEventRow.due_date e =? FundingFeeEventRow.due_date r)))))
    (references (has_position d (FundingFeeEventRow.position_id r))).
#[export] Instance funding_rates_constraint : Constrained FundingRateRow.t := fun d r =>
  unique (negb (has d (fun f => FundingRateRow.end_date f =? FundingRateRow.end_date r))).
#[export] Instance protocol_funding_fee_events_constraint :
    Constrained ProtocolFundingFeeEventRow.t := fun d r =>
  references (has_protocol d (ProtocolFundingFeeEventRow.protocol_id r)
    && has d (fun e => FundingFeeEventRow.id e =? ProtocolFundingFeeEventRow.funding_fee_event_id r)).
#[export] Instance channel_opening_params_constraint : Constrained ChannelOpeningParamsRow.t :=
  fun d r => unique (negb (has d (fun c =>
    bool_decide (ChannelOpeningParamsRow.order_id c = ChannelOpeningParamsRow.order_id r)))).
#[export] Instance users_constraint : Constrained UserRow.t := fun d r =>
  unique (negb (has_user d (UserRow.pubkey r)) &&
    negb (has d (fun u => bool_decide (UserRow.referral_code u = UserRow.referral_code r)))).
#[export] Instance dlc_channels_constraint : Constrained DlcChannelRow.t := fun d r =>
  references (has_user d (DlcChannelRow.trader_pubkey r)).
Definition has_dlc_message (d : Db.t) (message_hash : string) : bool :=
  has d (fun m => bool_decide (DlcMessageRow.message_hash m = message_hash)).
#[export] Instance dlc_messages_constraint : Constrained DlcMessageRow.t := fun d r =>
  unique (negb (has_dlc_message d (DlcMessageRow.message_hash r))).
#[export] Instance last_outbound_dlc_messages_constraint : Constrained LastOutboundRow.t := fun d r =>
  and_then (unique (negb (has d (fun l =>
      bool_decide (LastOutboundRow.peer_id l = LastOutboundRow.peer_id r)))))
    (references (has_dlc_message d (LastOutboundRow.message_hash r))).
#[export] Instance hodl_invoices_constraint : Constrained HodlInvoiceRow.t := fun d r =>
  references (has_user d (HodlInvoiceRow.trader_pubkey r)).
#[export] Instance answers_constraint : Constrained AnswerRow.t := fun d r =>
  references (has d (fun c => ChoiceRow.id c =? AnswerRow.choice_id r)
    && has_user d (AnswerRow.trader_pubkey r)).
#[export] Instance collaborative_reverts_constraint : Constrained CollaborativeRevertRow.t := fun d r =>
  references (has_user d (CollaborativeRevertRow.trader_pubkey r)).
#[export] Instance spendable_outputs_constraint : Constrained OutputRow.t := fun _ _ => None.
#[export] Instance transactions_constraint : Constrained TransactionRow.t := fun d r =>
  unique (negb (has d (fun t => bool_decide (TransactionRow.txid t = TransactionRow.txid r)))).

(** ** Statements *)

Section Statements.
Context {R : Type} `{Stored R}.

(** [table.filter(p).load(conn)]. *)
Definition load (p : R -> bool) : Sql (list R) := gets (fun d => List.filter p (rows d)).

(** [order_by(key.desc()).first()] on loaded rows. *)
Fixpoint latest_from (key : R -> Z) (acc : R) (l : list R) : R :=
  match l with
  | [] => acc
  | r :: l => latest_from key (if key acc <? key r then r else acc) l
  end.
Definition latest (key : R -> Z) (l : list R) : option R :=
  match l with [] => None | r :: l => Some (latest_from key r l) end.

(** [table.filter(p).first(conn)], and with [order_by(key.desc())]. *)
Definition first (p : R -> bool) : Sql R :=
  l ← load p; lift (ok_or NotFound (head l)).
Definition first_desc (key : R -> Z) (p : R -> bool) : Sql R :=
  l ← load p; lift (ok_or NotFound (latest key l)).

Definition update_rows (p : R -> bool) (f : R -> R) (l : list R) : list R :=
  map (fun r => if p r then f r else r) l.

(** [diesel::update(table.filter(p)).set(f)], with the updated rows. *)
Definition update (p : R -> bool) (f : R -> R) : Sql (list R) := fun d =>
  (Ok (map f (List.filter p (rows d))), set_rows (update_rows p f (rows d)) d).

(** [.execute(conn)] and [.get_result(conn)] on an update. *)
Definition execute (u : Sql (list R)) : Sql nat := length <$> u.
Definition get_result (u : Sql (list R)) : Sql R :=
  l ← u; lift (ok_or NotFound (head l)).

(** An update whose new values may be out of the range of their column; the
    statement then has no effect. *)
Definition try_update (p : R -> bool) (f : R -> outcome SqlError R) : Sql (list R) := fun d =>
  match traverse f (List.filter p (rows d)) with
  | Ok l => (Ok l, set_rows (map (fun r => if p r then match f r with Ok r' => r' | _ => r end
                                           else r) (rows d)) d)
  | Err e => (Err e, d)
  | Panic => (Panic, d)
  end.

(** [diesel::delete(table.filter(p)).execute(conn)]. *)
Definition delete (p : R -> bool) : Sql nat := fun d =>
  (Ok (length (List.filter p (rows d))), set_rows (List.filter (fun r => negb (p r)) (rows d)) d).

(** [insert_into(table).values(..).get_result(conn)]; the row is built from the
    value drawn from the sequence. *)
Definition insert `{Constrained R} (mk : Z -> R) : Sql R := fun d =>
  let t := tbl d in
  let r := mk (Table.next_id t) in
  match violation d r with
  | Some e => (Err e, set_tbl (Table.mk (Table.rows t) (Table.next_id t + 1)) d)
  | None => (Ok r, set_tbl (Table.mk (Table.rows t ++ [r]) (Table.next_id t + 1)) d)
  end.
End Statements.

(** [.optional()]. *)
Definition optional {A} (m : Sql A) : Sql (option A) := fun d =>
  match m d with
  | (Ok a, d') => (Ok (Some a), d')
  | (Err NotFound, d') => (Ok None, d')
  | (Err e, d') => (Err e, d')
  | (Panic, d') => (Panic, d')
  end.

(** [conn.transaction(|conn| m)], also a savepoint inside a transaction and a
    single statement writing several rows. *)
Definition transaction {S E A} (rollback : S -> S -> S) (m : M S E A) : M S E A := fun s =>
  match m s with
  | (Ok a, s') => (Ok a, s')
  | (r, s') => (r, rollback s s')
  end.

Definition sql_transaction {E A} (m : M Db.t E A) : M Db.t E A := transaction rollback_to m.

(** [insert_into(table).values(vec![..]).execute(conn)]. *)
Definition insert_all {R} `{Stored R} `{Constrained R} (mks : list (Z -> R)) : Sql nat :=
  sql_transaction (for_each (fun mk => _ ← insert mk; mret tt) mks ≫= fun _ => mret (length mks)).

(** [..on_conflict(..).do_nothing()] for one row. *)
Definition insert_or_ignore {R} `{Stored R} `{Constrained R} (mk : Z -> R) : Sql unit := fun d =>
  match insert mk d with
  | (Ok _, d') => (Ok tt, d')
  | (Err UniqueViolation, d') => (Ok tt, d')
  | (Err e, d') => (Err e, d')
  | (Panic, d') => (Panic, d')
  end.

(** [insert_into(table).values(..).on_conflict(key).do_update().set(..)]: the row with
    the key is updated if there is one, else one is inserted; [checked] is what the
    updated row would violate. *)
Definition upsert {R} `{Stored R} `{Constrained R} (key : R -> bool) (mk : Z -> R) (f : R -> R)
    (checked : Db.t -> R -> option SqlError) : Sql R := fun d =>
  match head (List.filter key (rows d)) with
  | None => insert mk d
  | Some r =>
    let t := Table.mk (rows d) (Table.next_id (tbl d) + 1) in
    match checked d (f r) with
    | Some e => (Err e, set_tbl t d)
    | None => (Ok (f r), set_tbl (Table.mk (update_rows key f (rows d)) (Table.next_id t)) d)
    end
  end.

(** [if affected_rows == 0 { return Err(NotFound) }]. *)
Definition nonzero_rows (n : nat) : outcome SqlError unit :=
  ensure (negb (Nat.eqb n 0)) NotFound.

(** ** Laws of statements *)

(** The table of [R1] is not the table of [R2]. *)
Class Independent (R1 R2 : Type) `{Stored R1} `{Stored R2} : Prop :=
  tbl_set_other (t : Table.t R2) (d : Db.t) : tbl (R := R1) (set_tbl t d) = tbl d.
#[export] Hint Extern 0 (Independent _ _) => (intros ? ?; reflexivity) : typeclass_instances.

(** A rollback restores the rows of the table of [R]. *)
Class Restored (R : Type) `{Stored R} : Prop :=
  tbl_rollback (d d' : Db.t) : tbl (R := R) (rollback_to d d') = restore_table d d'.
#[export] Hint Extern 0 (Restored _) => (intros ? ?; reflexivity) : typeclass_instances.

(** The rows of one table are as before. *)
Definition keeps (R : Type) `{Stored R} (d d' : Db.t) : Prop := rows (R := R) d' = rows d.

#[export] Instance keeps_preorder {R} `{Stored R} : PreOrder (keeps R).
Proof. unfold keeps. split; [by intros ?|intros ???; congruence]. Qed.

Section StatementLemmas.
Context {R : Type} `{HSL : StoredLaws R}.

Lemma rows_set_tbl t d : rows (R := R) (set_tbl t d) = Table.rows t.
Proof. unfold rows. by rewrite tbl_set. Qed.

Lemma rows_set_rows l d : rows (R := R) (set_rows l d) = l.
Proof. apply rows_set_tbl. Qed.

Lemma load_run (p : R -> bool) d : load p d = (Ok (List.filter p (rows d)), d).
Proof. done. Qed.

Lemma first_run (p : R -> bool) d : first p d = (ok_or NotFound (head (List.filter p (rows d))), d).
Proof. done. Qed.

Lemma first_desc_run key (p : R -> bool) d :
  first_desc key p d = (ok_or NotFound (latest key (List.filter p (rows d))), d).
Proof. done. Qed.

Lemma first_ok (p : R -> bool) d r d' :
  first p d = (Ok r, d') <-> head (List.filter p (rows d)) = Some r /\ d' = d.
Proof. rewrite first_run. destruct (head _); cbn; naive_solver. Qed.

Lemma first_desc_ok key (p : R -> bool) d r d' :
  first_desc key p d = (Ok r, d') <-> latest key (List.filter p (rows d)) = Some r /\ d' = d.
Proof. rewrite first_desc_run. destruct (latest _ _); cbn; naive_solver. Qed.

Lemma optional_first_desc_run key (p : R -> bool) d :
  optional (first_desc key p) d = (Ok (latest key (List.filter p (rows d))), d).
Proof. unfold optional. rewrite first_desc_run. by destruct (latest _ _). Qed.

Lemma optional_first_run (p : R -> bool) d :
  optional (first p) d = (Ok (head (List.filter p (rows d))), d).
Proof. unfold optional. rewrite first_run. by destruct (head _). Qed.

Lemma execute_ok p (f : R -> R) d n d' : execute (update p f) d = (Ok n, d') <->
  n = length (List.filter p (rows d)) /\ d' = set_rows (update_rows p f (rows d)) d.
Proof. unfold execute, fmap, M_fmap, update. rewrite length_map. naive_solver. Qed.

Lemma try_update_ok p (f : R -> outcome SqlError R) d l d' : try_update p f d = (Ok l, d') <->
  traverse f (List.filter p (rows d)) = Ok l /\
  d' = set_rows (map (fun r => if p r then match f r with Ok r' => r' | _ => r end else r) (rows d)) d.
Proof. unfold try_update. destruct (traverse _ _); naive_solver. Qed.

Lemma get_result_ok p (f : R -> R) d r d' : get_result (update p f) d = (Ok r, d') <->
  (exists r0, head (List.filter p (rows d)) = Some r0 /\ r = f r0) /\
  d' = set_rows (update_rows p f (rows d)) d.
Proof.
  unfold get_result, mbind, M_bind, update, lift. destruct (List.filter p (rows d)); cbn; naive_solver.
Qed.

Lemma get_result_run p (f : R -> R) d : get_result (update p f) d =
  (ok_or NotFound (f <$> head (List.filter p (rows d))), set_rows (update_rows p f (rows d)) d).
Proof. unfold get_result, mbind, M_bind, update, lift. by destruct (List.filter p (rows d)). Qed.

Lemma update_rows_none p (f : R -> R) l : List.filter p l = [] -> update_rows p f l = l.
Proof.
  unfold update_rows. induction l as [|r l IH]; cbn; [done|].
  destruct (p r); [done|]. intros Hl. by rewrite IH.
Qed.

Lemma filter_head_some (p : R -> bool) l r :
  head (List.filter p l) = Some r -> r ∈ l /\ p r = true.
Proof.
  induction l as [|r0 l IH]; cbn; [done|]. destruct (p r0) eqn:Hp; cbn.
  - intros [= <-]. split; [constructor|done].
  - intros [??]%IH. split; [by constructor|done].
Qed.

Lemma latest_from_spec key acc (l : list R) :
  let m := latest_from key acc l in
  (m = acc \/ m ∈ l) /\ Forall (fun r => key r <= key m) (acc :: l).
Proof.
  revert acc; induction l as [|r l IH]; intros acc; cbn.
  { split; [by left|]. by repeat constructor. }
  destruct (key acc <? key r) eqn:Hlt.
  - destruct (IH r) as [Hin [Hr Hall]%Forall_cons]. apply Z.ltb_lt in Hlt. split.
    + right. destruct Hin as [->|?]; by constructor.
    + repeat constructor; [lia|done|done].
  - destruct (IH acc) as [Hin [Ha Hall]%Forall_cons]. apply Z.ltb_ge in Hlt. split.
    + destruct Hin; [by left|]. right; by constructor.
    + repeat constructor; [done|lia|done].
Qed.

(** [latest] picks a row with the greatest key, if there is any row. *)
Lemma latest_spec key (l : list R) r : latest key l = Some r ->
  r ∈ l /\ Forall (fun r' => key r' <= key r) l.
Proof.
  destruct l as [|r0 l]; [done|]. cbn. intros [= <-].
  destruct (latest_from_spec key r0 l) as [[->|Hin] Hall]; split; try done; by constructor.
Qed.

Lemma latest_none key (l : list R) : latest key l = None <-> l = [].
Proof. destruct l; naive_solver. Qed.

Lemma insert_ok `{!Constrained R} mk d r d' : insert mk d = (Ok r, d') <->
  r = mk (Table.next_id (tbl d)) /\ violation d r = None /\
  d' = set_tbl (Table.mk (rows d ++ [r]) (Table.next_id (tbl d) + 1)) d.
Proof. unfold insert. destruct (violation _ _) eqn:Hv; naive_solver congruence. Qed.

(** Frames of the statements. *)
Section Frames.
Context {R2 : Type} `{Stored R2} `{!Independent R2 R}.

Lemma keeps_set_tbl t d : keeps R2 d (set_tbl (R := R) t d).
Proof. unfold keeps, rows. by rewrite tbl_set_other. Qed.

Lemma update_frame p (f : R -> R) : steps (keeps R2) (update p f).
Proof. intros d. apply keeps_set_tbl. Qed.

Lemma try_update_frame p (f : R -> outcome SqlError R) : steps (keeps R2) (try_update p f).
Proof. intros d. unfold try_update. case_match; cbn; [apply keeps_set_tbl|done..]. Qed.

Lemma delete_frame (p : R -> bool) : steps (keeps R2) (delete p).
Proof. intros d. apply keeps_set_tbl. Qed.

Lemma insert_frame `{!Constrained R} mk : steps (keeps R2) (insert (R := R) mk).
Proof. intros d. unfold insert. case_match; apply keeps_set_tbl. Qed.

Lemma upsert_frame `{!Constrained R} key mk (f : R -> R) checked : steps (keeps R2) (upsert key mk f checked).
Proof.
  intros d. unfold upsert. case_match; [|apply insert_frame]. case_match; apply keeps_set_tbl.
Qed.
End Frames.
End StatementLemmas.

Section Transactions.
Context {E : Type}.

Lemma sql_transaction_ok {A} (m : M Db.t E A) d a d' :
  sql_transaction m d = (Ok a, d') <-> m d = (Ok a, d').
Proof. unfold sql_transaction, transaction. destruct (m d) as [[] ?]; naive_solver. Qed.

(** A transaction that does not return leaves every row as it was. *)
Lemma sql_transaction_atomic {A} (m : M Db.t E A) d r d' :
  sql_transaction m d = (r, d') -> is_ok r = false -> d' ≡ d.
Proof.
  unfold sql_transaction, transaction. destruct (m d) as [[] ?];
    intros [= <- <-]; [done|intros _; apply rollback_to_equiv..].
Qed.

Lemma sql_transaction_frame {A} (m : M Db.t E A) {R} `{Stored R} `{!Restored R} :
  steps (keeps R) m -> steps (keeps R) (sql_transaction m).
Proof.
  intros Hm d. specialize (Hm d). unfold sql_transaction, transaction.
  destruct (m d) as [[] ?]; cbn in *; [done|..]; unfold keeps, rows; by rewrite tbl_rollback.
Qed.
End Transactions.

Lemma optional_frame {A} (m : Sql A) (Rel : Db.t -> Db.t -> Prop) :
  steps Rel m -> steps Rel (optional m).
Proof. intros Hm d. specialize (Hm d). unfold optional. destruct (m d) as [[|[]|] ?]; done. Qed.

#[export] Hint Resolve update_frame try_update_frame delete_frame insert_frame upsert_frame
  sql_transaction_frame optional_frame : sql.

Lemma load_frame {R} `{Stored R} (p : R -> bool) Rel `{!PreOrder Rel} : steps Rel (load p).
Proof. intros d. cbn. reflexivity. Qed.

Lemma first_frame {R} `{Stored R} (p : R -> bool) Rel `{!PreOrder Rel} : steps Rel (first p).
Proof. intros d. cbn. reflexivity. Qed.

Lemma first_desc_frame {R} `{Stored R} key (p : R -> bool) Rel `{!PreOrder Rel} :
  steps Rel (first_desc key p).
Proof. intros d. cbn. reflexivity. Qed.

Section UpdateFrames.
Context {R R2 : Type} `{HSL : StoredLaws R} `{Stored R2} `{!Independent R2 R}.

Lemma execute_frame p (f : R -> R) : steps (keeps R2) (execute (update p f)).
Proof. by apply steps_fmap, update_frame. Qed.

Lemma get_result_frame p (f : R -> R) : steps (keeps R2) (get_result (update p f)).
Proof. apply steps_bind; [apply _|by apply update_frame|intros; apply steps_lift, _]. Qed.
End UpdateFrames.

#[export] Hint Resolve load_frame first_frame first_desc_frame execute_frame get_result_frame : sql.

Ltac steps_through ::=
  first [apply optional_frame | apply sql_transaction_frame; [apply _|]].

(** ** [anyhow::Error]: a database error or a message. *)
Inductive Anyhow := FromSql (e : SqlError) | Msg (text : string).
