(* ===== verification/OrdersDb.v ===== *)
(** * [coordinator/src/orderbook/db]: the stored order book

    [orders.rs] and [matches.rs]: conversions between rows and the order book's
    types, and the queries.  [now] is [OffsetDateTime::now_utc()]. *)

From stdpp Require Import base list option strings.
From Stdlib Require Import ZArith Lia.
From S2P Require Import Prelude Machine External Commons SqlTypes Schema Db.

#[local] Open Scope Z_scope.

(** ** Rows and orders *)

(** The [Insertable] struct [NewOrder]. *)
Module NewOrder.
Record t := mk {
  trader_order_id : Uuid;
  price : f32;
  trader_id : string;
  direction : DbDirection.t;
  quantity : f32;
  order_type : DbOrderType.t;
  expiry : OffsetDateTime;
  order_reason : DbOrderReason.t;
  contract_symbol : DbContractSymbol.t;
  leverage : f32;
  stable : bool;
}.

(** [NewOrder { order_reason, ..new_order }]. *)
Definition with_order_reason (r : DbOrderReason.t) (o : t) : t :=
  mk (trader_order_id o) (price o) (trader_id o) (direction o) (quantity o) (order_type o)
     (expiry o) r (contract_symbol o) (leverage o) (stable o).
End NewOrder.

Section Conversions.
Context `{DL : DecimalLib} `{IL : IdLib}.

(** [impl From<Order> for OrderbookOrder]. *)
Definition order_from_row {E} (value : OrderRow.t) : outcome E Order.t :=
  price ← expect (d_from_f32 (OrderRow.price value));
  trader_id ← expect (pk_from_str (OrderRow.trader_id value));
  quantity ← expect (d_from_f32 (OrderRow.quantity value));
  Ok (Order.mk (OrderRow.trader_order_id value) price (OrderRow.leverage value)
        (contract_symbol_from_db (OrderRow.contract_symbol value)) trader_id
        (direction_from_db (OrderRow.direction value)) quantity
        (order_type_from_db (OrderRow.order_type value)) (OrderRow.timestamp value)
        (OrderRow.expiry value) (order_state_from_db (OrderRow.order_state value))
        (order_reason_from_db (OrderRow.order_reason value)) (OrderRow.stable value)).

Lemma order_from_row_no_err {E} value (e : E) : order_from_row value <> Err e.
Proof. unfold order_from_row. no_err. Qed.

(** [impl From<NewLimitOrder> for NewOrder]. *)
Definition new_order_from_limit {E} (value : NewLimitOrder.t) : outcome E NewOrder.t :=
  price ← expect (d_to_f32 (d_round_dp 2 MidpointNearestEven (NewLimitOrder.price value)));
  quantity ← expect (d_to_f32 (d_round_dp 2 MidpointNearestEven (NewLimitOrder.quantity value)));
  leverage ← expect (d_to_f32 (NewLimitOrder.leverage value));
  Ok (NewOrder.mk (NewLimitOrder.id value) price (pk_to_string (NewLimitOrder.trader_id value))
        (db_direction_from (NewLimitOrder.direction value)) quantity DbOrderType.Limit
        (NewLimitOrder.expiry value) DbOrderReason.Manual
        (db_contract_symbol_from (NewLimitOrder.contract_symbol value)) leverage
        (NewLimitOrder.stable value)).

(** [impl From<NewMarketOrder> for NewOrder]. *)
Definition new_order_from_market {E} (value : NewMarketOrder.t) : outcome E NewOrder.t :=
  quantity ← expect (d_to_f32 (d_round_dp 2 MidpointNearestEven (NewMarketOrder.quantity value)));
  leverage ← expect (d_to_f32 (NewMarketOrder.leverage value));
  Ok (NewOrder.mk (NewMarketOrder.id value) f32_zero
        (pk_to_string (NewMarketOrder.trader_id value))
        (db_direction_from (NewMarketOrder.direction value)) quantity DbOrderType.Market
        (NewMarketOrder.expiry value) DbOrderReason.Manual
        (db_contract_symbol_from (NewMarketOrder.contract_symbol value)) leverage
        (NewMarketOrder.stable value)).

(** The row an insert makes: [timestamp] and [order_state] take their column
    defaults, [CURRENT_TIMESTAMP] and ['Open']. *)
Definition order_row (now : OffsetDateTime) (o : NewOrder.t) (id : Z) : OrderRow.t :=
  OrderRow.mk id (NewOrder.trader_order_id o) (NewOrder.price o) (NewOrder.trader_id o)
    (NewOrder.direction o) (NewOrder.quantity o) now (NewOrder.order_type o) (NewOrder.expiry o)
    DbOrderState.Open (NewOrder.contract_symbol o) (NewOrder.leverage o)
    (NewOrder.order_reason o) (NewOrder.stable o).
End Conversions.

Definition with_order_state (s : DbOrderState.t) (o : OrderRow.t) : OrderRow.t :=
  OrderRow.mk (OrderRow.id o) (OrderRow.trader_order_id o) (OrderRow.price o)
    (OrderRow.trader_id o) (OrderRow.direction o) (OrderRow.quantity o) (OrderRow.timestamp o)
    (OrderRow.order_type o) (OrderRow.expiry o) s (OrderRow.contract_symbol o)
    (OrderRow.leverage o) (OrderRow.order_reason o) (OrderRow.stable o).

(** ** Queries on [orders] *)

Section Orders.
Context `{DL : DecimalLib} `{IL : IdLib}.

Definition state_is (s : DbOrderState.t) (o : OrderRow.t) : bool :=
  bool_decide (OrderRow.order_state o = s).
Definition type_is (t : DbOrderType.t) (o : OrderRow.t) : bool :=
  bool_decide (OrderRow.order_type o = t).
Definition direction_is (d : DbDirection.t) (o : OrderRow.t) : bool :=
  bool_decide (OrderRow.direction o = d).
Definition has_order_id (id : Uuid) (o : OrderRow.t) : bool := OrderRow.trader_order_id o =? id.

(** [rows.into_iter().map(OrderbookOrder::from).collect()]. *)
Definition orders_from_rows (l : list OrderRow.t) : Sql (list Order.t) :=
  lift (traverse order_from_row l).

Definition all_limit_orders (now : OffsetDateTime) : Sql (list Order.t) :=
  orders ← load (fun o => type_is DbOrderType.Limit o && (now <? OrderRow.expiry o)
                          && state_is DbOrderState.Open o);
  orders_from_rows orders.

Definition all_by_direction_and_type (now : OffsetDateTime) (direction : Direction)
    (order_type : OrderType) (filter_expired : bool) : Sql (list Order.t) :=
  let filters o := direction_is (db_direction_from direction) o
                   && type_is (db_order_type_from order_type) o
                   && state_is DbOrderState.Open o in
  orders ← (if filter_expired then load (fun o => filters o && (now <? OrderRow.expiry o))
            else load filters);
  orders_from_rows orders.

(** The rows [get_best_bid_price] and [get_best_ask_price] aggregate over. *)
Definition price_filter (now : OffsetDateTime) (d : DbDirection.t) (symbol : ContractSymbol)
    (o : OrderRow.t) : bool :=
  state_is DbOrderState.Open o && type_is DbOrderType.Limit o && direction_is d o
  && bool_decide (OrderRow.contract_symbol o = db_contract_symbol_from symbol)
  && (now <? OrderRow.expiry o).

(** SQL's [max] and [min]: [NULL] on no rows. *)
Definition sql_aggregate (f : f32 -> f32 -> f32) (l : list f32) : option f32 :=
  match l with [] => None | x :: l => Some (fold_left f l x) end.

Definition get_best_bid_price (now : OffsetDateTime) (symbol : ContractSymbol)
    : Sql (option Decimal) :=
  orders ← load (price_filter now DbDirection.Long symbol);
  match sql_aggregate float4_max (map OrderRow.price orders) with
  | Some bid => bid ← lift (expect (d_try_from_f32 bid)); mret (Some bid)
  | None => mret None
  end.

Definition get_best_ask_price (now : OffsetDateTime) (symbol : ContractSymbol)
    : Sql (option Decimal) :=
  orders ← load (price_filter now DbDirection.Short symbol);
  match sql_aggregate float4_min (map OrderRow.price orders) with
  | Some ask => ask ← lift (expect (d_try_from_f32 ask)); mret (Some ask)
  | None => mret None
  end.

Definition get_best_price (now : OffsetDateTime) (symbol : ContractSymbol) : Sql BestPrice.t :=
  bid ← get_best_bid_price now symbol;
  ask ← get_best_ask_price now symbol;
  mret (BestPrice.mk bid ask).

Definition get_all_orders (now : OffsetDateTime) (order_type : OrderType)
    (order_state : OrderState.t) (filter_expired : bool) : Sql (list Order.t) :=
  let filters o := state_is (db_order_state_from order_state) o
                   && type_is (db_order_type_from order_type) o in
  orders ← (if filter_expired then load (fun o => filters o && (now <? OrderRow.expiry o))
            else load filters);
  orders_from_rows orders.

Definition get_all_matched_market_orders_by_order_reason (order_reasons : list OrderReason.t)
    : Sql (list Order.t) :=
  orders ← load (fun o => state_is DbOrderState.Matched o
               && bool_decide (OrderRow.order_reason o ∈ map db_order_reason_from order_reasons)
               && type_is DbOrderType.Market o);
  orders_from_rows orders.

Definition insert_limit_order (now : OffsetDateTime) (order : NewLimitOrder.t)
    (order_reason : OrderReason.t) : Sql Order.t :=
  new_order ← lift (new_order_from_limit order);
  let new_order := NewOrder.with_order_reason (db_order_reason_from order_reason) new_order in
  order ← insert (order_row now new_order);
  lift (order_from_row order).

Definition insert_market_order (now : OffsetDateTime) (order : NewMarketOrder.t)
    (order_reason : OrderReason.t) : Sql Order.t :=
  new_order ← lift (new_order_from_market order);
  let new_order := NewOrder.with_order_reason (db_order_reason_from order_reason) new_order in
  order ← insert (order_row now new_order);
  lift (order_from_row order).

Definition set_order_state (id : Uuid) (order_state : OrderState.t) : Sql Order.t :=
  order ← get_result (update (has_order_id id)
                        (with_order_state (db_order_state_from order_state)));
  lift (order_from_row order).

Definition set_is_taken (id : Uuid) (is_taken : bool) : Sql Order.t :=
  if is_taken then set_order_state id OrderState.Taken else set_order_state id OrderState.Open.

Definition delete_trader_order (id : Uuid) (trader_id : PublicKey) : Sql Order.t :=
  order ← get_result (update
    (fun o => has_order_id id o && bool_decide (OrderRow.trader_id o = pk_to_string trader_id))
    (with_order_state DbOrderState.Deleted));
  lift (order_from_row order).

Definition delete_order (id : Uuid) : Sql Order.t := set_order_state id OrderState.Deleted.

Definition set_expired_limit_orders_to_expired (now : OffsetDateTime) : Sql (list Order.t) :=
  expired_limit_orders ← update
    (fun o => state_is DbOrderState.Open o && type_is DbOrderType.Limit o
              && (OrderRow.expiry o <? now))
    (with_order_state DbOrderState.Expired);
  orders_from_rows expired_limit_orders.

(** [x.first().map(|order| OrderbookOrder::from(order.clone()))]. *)
Definition get_with_id (uid : Uuid) : Sql (option Order.t) :=
  x ← load (has_order_id uid);
  match head x with
  | Some order => order ← lift (order_from_row order); mret (Some order)
  | None => mret None
  end.

Definition get_by_trader_id_and_state (trader_id : PublicKey) (order_state : OrderState.t)
    : Sql (option Order.t) :=
  optional (
    order ← first_desc OrderRow.timestamp
      (fun o => bool_decide (OrderRow.trader_id o = pk_to_string trader_id)
                && state_is (db_order_state_from order_state) o);
    lift (order_from_row order)).

(** The inner join of [orders] with [matches] on [match_order_id]. *)
Definition get_all_limit_order_filled_matches (trader_id : PublicKey)
    : Sql (list (Uuid * Decimal)) :=
  orders ← load (fun _ : OrderRow.t => true);
  matches ← load (fun _ : MatchesRow.t => true);
  let joined := flat_map (fun o => flat_map (fun m =>
    if (MatchesRow.match_order_id m =? OrderRow.trader_order_id o)
       && bool_decide (OrderRow.trader_id o = pk_to_string trader_id)
       && type_is DbOrderType.Limit o && state_is DbOrderState.Matched o
       && bool_decide (MatchesRow.match_state m = DbMatchState.Filled)
    then [(MatchesRow.order_id m, MatchesRow.quantity m, OrderRow.direction o)]
    else []) matches) orders in
  lift (traverse (fun '(order_id, quantity, direction_maker) =>
    quantity ← expect (d_from_f32 quantity);
    Ok (order_id, match direction_maker with
                  | DbDirection.Long => quantity
                  | DbDirection.Short => d_neg quantity
                  end)) joined).
End Orders.
