(* ===== verification/Signing.v ===== *)
(** * Signed orders: [commons/order.rs], [commons/signature.rs]

    The bytes of an order that its trader signs, the check of the signature, and what
    the signature covers. *)

From stdpp Require Import base list option strings.
From Stdlib Require Import ZArith Lia.
From S2P Require Import Prelude Machine External Demo Commons.

#[local] Open Scope Z_scope.

(** [format!("{:.2}", decimal)], [Message::from_hashed_data::<sha256::Hash>] and the
    verification of a signature. *)
Class SigningLib `{DL : DecimalLib} `{IL : IdLib} := {
  d_fixed2 : Decimal -> string;
  SecpMessage : Type;
  SecpSignature : Type;
  message_from_hashed_data : list Byte.byte -> SecpMessage;
  verify_ecdsa : SecpMessage -> SecpSignature -> PublicKey -> bool;
}.

Definition dot : Byte.byte := Byte.x2e.

(** A number written with two decimals: digits, a dot, two more digits. *)
Definition fixed2 (s : list Byte.byte) : Prop :=
  exists whole a b, s = whole ++ [dot; a; b] /\ (dot ∉ whole) /\ a <> dot /\ b <> dot.

Class SigningLaws `(SL : SigningLib) : Prop := {
  d_fixed2_shape d : fixed2 (String.list_byte_of_string (d_fixed2 d));
}.

(** [commons::NewOrder]. *)
Module NewOrder.
Inductive t `{DecimalLib} `{IdLib} :=
  | Market (o : NewMarketOrder.t)
  | Limit (o : NewLimitOrder.t).
End NewOrder.

(** [commons::ChannelOpeningParams], as the app sends them. *)
Module RequestedParams.
Record t := mk { trader_reserve : Amount; coordinator_reserve : Amount; pre_image : option string }.
End RequestedParams.

Section Orders.
Context `{SL : SigningLib}.

(** [Direction::to_string] and [i64::to_le_bytes]. *)
Definition direction_to_string (d : Direction) : string := match d with Long => "Long" | Short => "Short" end.
Definition i64_to_le_bytes (z : Z) : list Byte.byte := bytes_of 8 (as_u64 z).
Definition as_bytes (s : string) : list Byte.byte := String.list_byte_of_string s.

(** [NewLimitOrder::message] and [NewMarketOrder::message], before they are hashed. *)
Definition limit_order_bytes (o : NewLimitOrder.t) : list Byte.byte :=
  uuid_as_bytes (NewLimitOrder.id o) ++ i64_to_le_bytes (unix_timestamp (NewLimitOrder.expiry o)) ++
  as_bytes (label (NewLimitOrder.contract_symbol o)) ++
  as_bytes (direction_to_string (NewLimitOrder.direction o)) ++
  as_bytes (d_fixed2 (NewLimitOrder.quantity o)) ++ as_bytes (d_fixed2 (NewLimitOrder.price o)) ++
  as_bytes (d_fixed2 (NewLimitOrder.leverage o)).
Definition market_order_bytes (o : NewMarketOrder.t) : list Byte.byte :=
  uuid_as_bytes (NewMarketOrder.id o) ++ i64_to_le_bytes (unix_timestamp (NewMarketOrder.expiry o)) ++
  as_bytes (label (NewMarketOrder.contract_symbol o)) ++
  as_bytes (direction_to_string (NewMarketOrder.direction o)) ++
  as_bytes (d_fixed2 (NewMarketOrder.quantity o)) ++ as_bytes (d_fixed2 (NewMarketOrder.leverage o)).

(** [impl NewOrder]. *)
Definition order_bytes (order : NewOrder.t) : list Byte.byte :=
  match order with NewOrder.Market o => market_order_bytes o | NewOrder.Limit o => limit_order_bytes o end.
Definition order_message (order : NewOrder.t) : SecpMessage := message_from_hashed_data (order_bytes order).
Definition order_trader_id (order : NewOrder.t) : PublicKey :=
  match order with NewOrder.Market o => NewMarketOrder.trader_id o | NewOrder.Limit o => NewLimitOrder.trader_id o end.
Definition new_order_id (order : NewOrder.t) : Uuid :=
  match order with NewOrder.Market o => NewMarketOrder.id o | NewOrder.Limit o => NewLimitOrder.id o end.

(** [create_sign_message] hashes what it is given. *)
Definition create_sign_message (message : list Byte.byte) : SecpMessage := message_from_hashed_data message.
Definition AUTH_SIGN_MESSAGE : list Byte.byte := as_bytes "Hello it's me Mario".
End Orders.

(** [commons::Signature]. *)
Module Signature.
Record t `{SigningLib} := mk { pubkey : PublicKey; signature : SecpSignature }.
#[global] Arguments mk {_ _ _}.
End Signature.

Module NewOrderRequest.
Record t `{SigningLib} := mk {
  value : NewOrder.t;
  signature : SecpSignature;
  channel_opening_params : option RequestedParams.t;
}.
#[global] Arguments mk {_ _ _}.
End NewOrderRequest.

(** [NewOrderRequest::verify]. *)
Definition verify_request `{SigningLib} (request : NewOrderRequest.t) : bool :=
  let order := NewOrderRequest.value request in
  verify_ecdsa (order_message order) (NewOrderRequest.signature request) (order_trader_id order).

(** ** What a signature covers *)

Lemma split_at_first_dot w w' x x' : dot ∉ w -> dot ∉ w' -> w ++ dot :: x = w' ++ dot :: x' -> w = w' /\ x = x'.
Proof.
  revert w'. induction w as [|b w IH]; intros [|b' w'] Hw Hw'; cbn; rewrite ?not_elem_of_cons in *.
  - by intros [= ->].
  - intros [= <- _]. by destruct Hw' as [[] _].
  - intros [= -> _]. by destruct Hw as [[] _].
  - intros [= <- Heq]. destruct Hw as [_ Hw], Hw' as [_ Hw']. by destruct (IH w' Hw Hw' Heq) as [-> ->].
Qed.

(** Numbers with two decimals can be told apart where they end. *)
Lemma fixed2_app s s' r r' : fixed2 s -> fixed2 s' -> s ++ r = s' ++ r' -> s = s' /\ r = r'.
Proof.
  intros (w & a & b & -> & Hw & _) (w' & a' & b' & -> & Hw' & _). rewrite <-!app_assoc. cbn.
  intros Heq. apply split_at_first_dot in Heq as [<- [= <- <- <-]]; done.
Qed.
Lemma fixed2_not_nil s r : fixed2 s -> [] = s ++ r -> False.
Proof. intros (w & a & b & -> & _) Heq. by destruct w. Qed.

(** What the trader signs. *)
Module SignedTerms.
Record t := mk {
  id : Uuid;
  expiry : Z;
  contract_symbol : ContractSymbol;
  direction : Direction;
  quantity : list Byte.byte;
  price : option (list Byte.byte);
  leverage : list Byte.byte;
}.
End SignedTerms.

Section Covers.
Context `{SLaws : SigningLaws} `{ILaws : !IdLaws IL}.

Definition signed_terms (order : NewOrder.t) : SignedTerms.t :=
  match order with
  | NewOrder.Market o => SignedTerms.mk (NewMarketOrder.id o) (unix_timestamp (NewMarketOrder.expiry o))
      (NewMarketOrder.contract_symbol o) (NewMarketOrder.direction o) (as_bytes (d_fixed2 (NewMarketOrder.quantity o)))
      None (as_bytes (d_fixed2 (NewMarketOrder.leverage o)))
  | NewOrder.Limit o => SignedTerms.mk (NewLimitOrder.id o) (unix_timestamp (NewLimitOrder.expiry o))
      (NewLimitOrder.contract_symbol o) (NewLimitOrder.direction o) (as_bytes (d_fixed2 (NewLimitOrder.quantity o)))
      (Some (as_bytes (d_fixed2 (NewLimitOrder.price o)))) (as_bytes (d_fixed2 (NewLimitOrder.leverage o)))
  end.
(** The bytes of the terms. *)
Definition terms_bytes (t : SignedTerms.t) : list Byte.byte :=
  uuid_as_bytes (SignedTerms.id t) ++ i64_to_le_bytes (SignedTerms.expiry t) ++
  as_bytes (label (SignedTerms.contract_symbol t)) ++ as_bytes (direction_to_string (SignedTerms.direction t)) ++
  SignedTerms.quantity t ++ default [] (SignedTerms.price t) ++ SignedTerms.leverage t.
(** An id of 128 bits and a time of 64. *)
Definition terms_ok (t : SignedTerms.t) : Prop :=
  0 <= SignedTerms.id t < 2 ^ 128 /\ -2 ^ 63 <= SignedTerms.expiry t < 2 ^ 63 /\
  fixed2 (SignedTerms.quantity t) /\ fixed2 (SignedTerms.leverage t) /\
  match SignedTerms.price t with Some price => fixed2 price | None => True end.

Lemma order_bytes_terms order : order_bytes order = terms_bytes (signed_terms order).
Proof using Type. by destruct order. Qed.

Lemma uuid_as_bytes_inj u v : 0 <= u < 2 ^ 128 -> 0 <= v < 2 ^ 128 -> uuid_as_bytes u = uuid_as_bytes v -> u = v.
Proof using ILaws. intros Hu Hv Heq. apply (inj Some). by rewrite <-(uuid_bytes_roundtrip u), <-(uuid_bytes_roundtrip v), Heq. Qed.
Lemma i64_bytes_inj a b : -2 ^ 63 <= a < 2 ^ 63 -> -2 ^ 63 <= b < 2 ^ 63 -> i64_to_le_bytes a = i64_to_le_bytes b -> a = b.
Proof using Type.
  unfold i64_to_le_bytes, as_u64. intros Ha Hb Heq%(f_equal of_bytes).
  rewrite !of_bytes_of in Heq by (apply Z.mod_pos_bound; lia).
  pose proof (Z.div_mod a (2 ^ 64)). pose proof (Z.div_mod b (2 ^ 64)).
  assert (a / 2 ^ 64 = -1 \/ a / 2 ^ 64 = 0) by (pose proof (Z.mod_pos_bound a (2 ^ 64)); lia).
  assert (b / 2 ^ 64 = -1 \/ b / 2 ^ 64 = 0) by (pose proof (Z.mod_pos_bound b (2 ^ 64)); lia). lia.
Qed.

Lemma terms_bytes_inj t u : terms_ok t -> terms_ok u -> terms_bytes t = terms_bytes u -> t = u.
Proof using ILaws.
  destruct t as [id e s d q p l], u as [id' e' s' d' q' p' l']. unfold terms_ok, terms_bytes. cbn [SignedTerms.id
    SignedTerms.expiry SignedTerms.contract_symbol SignedTerms.direction SignedTerms.quantity SignedTerms.price
    SignedTerms.leverage].
  intros (Hid & He & Hq & Hl & Hp) (Hid' & He' & Hq' & Hl' & Hp') Heq.
  apply app_inj_1 in Heq as [Heq1 Heq]; [|by rewrite !uuid_bytes_length].
  apply app_inj_1 in Heq as [Heq2 Heq]; [|by unfold i64_to_le_bytes; rewrite !bytes_of_length].
  apply uuid_as_bytes_inj in Heq1 as <-; [|done..]. apply i64_bytes_inj in Heq2 as <-; [|done..].
  destruct s, s'. apply app_inv_head in Heq.
  assert (d = d' /\ q ++ default [] p ++ l = q' ++ default [] p' ++ l') as [<- Hrest].
  { destruct d, d'; [|discriminate Heq|discriminate Heq|]; by apply app_inv_head in Heq. }
  apply fixed2_app in Hrest as [<- Hrest]; [|done..].
  destruct p as [p|], p' as [p'|]; unfold default in Hrest; cbn in Hrest.
  - apply fixed2_app in Hrest as [<- <-]; done.
  - rewrite <-(app_nil_r l') in Hrest. destruct (fixed2_app p l' l []) as [_ ->]; [done..|].
    by destruct (fixed2_not_nil [] [] Hl).
  - rewrite <-(app_nil_r l) in Hrest. destruct (fixed2_app l p' [] l') as [_ <-]; [done..|].
    by destruct (fixed2_not_nil [] [] Hl').
  - by subst.
Qed.

Definition order_ok (order : NewOrder.t) : Prop :=
  0 <= new_order_id order < 2 ^ 128 /\ -2 ^ 63 <= SignedTerms.expiry (signed_terms order) < 2 ^ 63.
Lemma order_terms_ok order : order_ok order -> terms_ok (signed_terms order).
Proof using SLaws. 
  intros [Hid He]. unfold terms_ok. destruct order; (split; [exact Hid|]; split; [exact He|]);
    (split; [apply d_fixed2_shape|]; split; [apply d_fixed2_shape|]; first [exact I|apply d_fixed2_shape]).
Qed.

(** C31: a signature binds an order's id, expiry in seconds, symbol and direction, and
    its quantity, price and leverage to two decimals, and tells market orders from
    limit orders: orders whose signed bytes are the same have all of these in common.
    It covers nothing else: a request with these terms changed in nothing is accepted
    with any channel opening parameters. *)
Theorem order_signature_binds_terms (order order' : NewOrder.t) :
  order_ok order -> order_ok order' ->
  (order_bytes order = order_bytes order' <-> signed_terms order = signed_terms order') /\
  (signed_terms order = signed_terms order' -> order_trader_id order = order_trader_id order' ->
   forall signature params params',
     verify_request (NewOrderRequest.mk order signature params) =
     verify_request (NewOrderRequest.mk order' signature params')).
Proof.
  intros Ho Ho'. split.
  - rewrite !order_bytes_terms. split; [|by intros ->].
    apply terms_bytes_inj; by apply order_terms_ok.
  - intros Ht Hp signature params params'. unfold verify_request, order_message.
    cbn. by rewrite !order_bytes_terms, Ht, Hp.
Qed.
End Covers.

(** ** Signatures to check *)

(** Whole numbers, and signatures that name who signed what. *)
#[export] Instance demo_signing : SigningLib (DL := demo_decimal) (IL := demo_id) := {|
  d_fixed2 d := "100.00"%string;
  SecpMessage := list Byte.byte;
  SecpSignature := list Byte.byte * string;
  message_from_hashed_data l := l;
  verify_ecdsa message signature pk := bool_decide (signature = (message, pk));
|}.
#[export] Instance demo_signing_laws : SigningLaws demo_signing.
Proof.
  split. intros d. exists [Byte.x31; Byte.x30; Byte.x30], Byte.x30, Byte.x30.
  split; [reflexivity|]. split; [|done]. rewrite !not_elem_of_cons. split_and!; [done..|apply not_elem_of_nil].
Qed.

Definition demo_signed_order (stable : bool) : NewOrder.t :=
  NewOrder.Market (NewMarketOrder.mk 40 BtcUsd (d_from_u64 100) "alice"%string Long (d_from_u64 100) 900 stable).

Example order_signature_binds_terms_witness :
  order_bytes (demo_signed_order true) = order_bytes (demo_signed_order false) /\
  verify_request (NewOrderRequest.mk (demo_signed_order true)
    (order_bytes (demo_signed_order false), "alice"%string) None) = true.
Proof.
  destruct (order_signature_binds_terms (demo_signed_order true) (demo_signed_order false)) as [H1 H2].
  { split; vm_compute; by split. }
  { split; vm_compute; by split. }
  split; [by apply H1|].
  rewrite (H2 eq_refl eq_refl (order_bytes (demo_signed_order false), "alice"%string) None None). by vm_compute.
Defined.
