(* ===== verification/MatchesDb.v ===== *)
(** * [coordinator/src/orderbook/db/matches.rs], [db/channel_opening_params.rs]

    The matches of an order as stored, and the parameters a trader chose for
    opening a channel with that order. *)

From stdpp Require Import base list option strings.
From Stdlib Require Import ZArith Lia.
From S2P Require Import Prelude Machine External Commons SqlTypes Schema Db.

#[local] Open Scope Z_scope.

(** [trading.rs]: the matches one trader is told about. *)
Module TraderMatchParams.
Record t `{DecimalLib} `{IdLib} := mk {
  trader_id : PublicKey;
  filled_with : FilledWith.t;
}.
#[global] Arguments mk {_ _}.
End TraderMatchParams.

Module MatchParams.
Record t `{DecimalLib} `{IdLib} := mk {
  taker_match : TraderMatchParams.t;
  makers_matches : list TraderMatchParams.t;
}.
#[global] Arguments mk {_ _}.
End MatchParams.

(** [coordinator::ChannelOpeningParams]. *)
Module ChannelOpeningParams.
Record t := mk {
  trader_reserve : Amount;
  coordinator_reserve : Amount;
  external_funding : option Amount;
}.
End ChannelOpeningParams.

Section Matches.
Context `{DL : DecimalLib} `{IL : IdLib}.

(** [Matches::new]. *)
Definition matches_new {E} (now : OffsetDateTime) (match_params : TraderMatchParams.t)
    (match_state : DbMatchState.t) : outcome E (list MatchesRow.t) :=
  let filled_with := TraderMatchParams.filled_with match_params in
  let order_id := FilledWith.order_id filled_with in
  let trader_id := TraderMatchParams.trader_id match_params in
  traverse (fun m =>
    execution_price ← expect (d_to_f32 (Match.execution_price m));
    quantity ← expect (d_to_f32 (Match.quantity m));
    Ok (MatchesRow.mk (Match.id m) match_state order_id (pk_to_string trader_id)
          (Match.order_id m) (pk_to_string (Match.pubkey m)) execution_price quantity now now
          (as_i64 (Match.matching_fee m))))
    (FilledWith.matches filled_with).

(** [insert]: one statement per record. *)
Definition matches_insert (now : OffsetDateTime) (match_params : TraderMatchParams.t)
    : M Db.t Anyhow unit :=
  records ← lift (matches_new now match_params DbMatchState.Pending);
  for_each (fun record => with_err FromSql (_ ← insert (fun _ => record); mret tt)) records.

Definition with_match_state (s : DbMatchState.t) (m : MatchesRow.t) : MatchesRow.t :=
  MatchesRow.mk (MatchesRow.id m) s (MatchesRow.order_id m) (MatchesRow.trader_id m)
    (MatchesRow.match_order_id m) (MatchesRow.match_trader_id m) (MatchesRow.execution_price m)
    (MatchesRow.quantity m) (MatchesRow.created_at m) (MatchesRow.updated_at m)
    (MatchesRow.matching_fee_sats m).

Definition set_match_state (order_id : Uuid) (match_state : MatchState.t) : Sql unit :=
  _ ← execute (update (fun m => MatchesRow.order_id m =? order_id)
                 (with_match_state (db_match_state_from match_state)));
  mret tt.

Definition set_match_state_by_order_id (order_id : Uuid) (match_state : MatchState.t)
    : M Db.t Anyhow unit :=
  affected_rows ← with_err FromSql
    (execute (update (fun m => MatchesRow.order_id m =? order_id)
                (with_match_state (db_match_state_from match_state))));
  lift (ensure (negb (Nat.eqb affected_rows 0)) (Msg "Could not update matches")).

(** [impl From<Matches> for commons::Matches]: the timestamps are the current time. *)
Definition matches_from_row {E} (now : OffsetDateTime) (value : MatchesRow.t)
    : outcome E Matches.t :=
  trader_id ← expect (pk_from_str (MatchesRow.trader_id value));
  match_trader_id ← expect (pk_from_str (MatchesRow.match_trader_id value));
  execution_price ← expect (d_from_f32 (MatchesRow.execution_price value));
  quantity ← expect (d_from_f32 (MatchesRow.quantity value));
  Ok (Matches.mk (MatchesRow.id value) (match_state_from_db (MatchesRow.match_state value))
        (MatchesRow.order_id value) trader_id (MatchesRow.match_order_id value) match_trader_id
        execution_price quantity now now (as_u64 (MatchesRow.matching_fee_sats value))).

(** [impl From<commons::Matches> for Matches]. *)
Definition matches_to_row {E} (now : OffsetDateTime) (value : Matches.t)
    : outcome E MatchesRow.t :=
  execution_price ← expect (d_to_f32 (Matches.execution_price value));
  quantity ← expect (d_to_f32 (Matches.quantity value));
  Ok (MatchesRow.mk (Matches.id value) (db_match_state_from (Matches.match_state value))
        (Matches.order_id value) (pk_to_string (Matches.trader_id value))
        (Matches.match_order_id value) (pk_to_string (Matches.match_trader_id value))
        execution_price quantity now now (as_i64 (Matches.matching_fee value))).

Definition get_matches_by_order_id (now : OffsetDateTime) (order_id : Uuid)
    : Sql (list Matches.t) :=
  matches ← load (fun m => MatchesRow.order_id m =? order_id);
  lift (traverse (matches_from_row now) matches).

(** ** Channel opening parameters *)


Definition channel_opening_params_row (now : OffsetDateTime) (order_id : Uuid)
    (p : ChannelOpeningParams.t) : ChannelOpeningParamsRow.t :=
  ChannelOpeningParamsRow.mk (uuid_to_string order_id)
    (as_i64 (ChannelOpeningParams.coordinator_reserve p))
    (as_i64 (ChannelOpeningParams.trader_reserve p)) (unix_timestamp now)
    (as_i64 <$> ChannelOpeningParams.external_funding p).

Definition channel_opening_params_from_row (value : ChannelOpeningParamsRow.t)
    : ChannelOpeningParams.t :=
  ChannelOpeningParams.mk (as_u64 (ChannelOpeningParamsRow.trader_reserve value))
    (as_u64 (ChannelOpeningParamsRow.coordinator_reserve value))
    (as_u64 <$> ChannelOpeningParamsRow.external_funding value).

Definition channel_opening_params_insert (now : OffsetDateTime) (order_id : Uuid)
    (channel_opening_params : ChannelOpeningParams.t) : Sql unit :=
  _ ← insert (fun _ => channel_opening_params_row now order_id channel_opening_params);
  mret tt.

Definition channel_opening_params_get_by_order_id (order_id : Uuid)
    : Sql (option ChannelOpeningParams.t) :=
  channel_opening_params ← optional (first (fun c =>
    bool_decide (ChannelOpeningParamsRow.order_id c = uuid_to_string order_id)));
  mret (channel_opening_params_from_row <$> channel_opening_params).
End Matches.
