(* ===== verification/Referrals.v ===== *)
(** * [coordinator/src/referrals.rs], [db/bonus_status.rs], [db/bonus_tiers.rs], [db/user.rs]

    Registered users and the fee rebate their referrals earn them. *)

From stdpp Require Import base list option strings.
From Stdlib Require Import ZArith Lia Strings.Ascii Sorting.Sorted.
From S2P Require Import Prelude Machine External Sorting Demo Commons SqlTypes Schema Db.

#[local] Open Scope Z_scope.

(** [commons::BonusStatusType] and [commons::ReferralStatus]. *)
Inductive BonusStatusType := Referral | Referent.

Module ReferralStatus.
Record t `{DecimalLib} := mk {
  referral_code : string;
  number_of_activated_referrals : Z;
  number_of_total_referrals : Z;
  referral_tier : Z;
  referral_fee_bonus : Decimal;
  bonus_status_type : option BonusStatusType;
}.
#[global] Arguments mk {_}.
End ReferralStatus.

Definition bonus_status_type_from_db (b : DbBonusType.t) : BonusStatusType :=
  match b with DbBonusType.Referral => Referral | DbBonusType.Referent => Referent end.

(** [to_uppercase] on ASCII text. *)
Definition ascii_upper (c : ascii) : ascii :=
  let n := nat_of_ascii c in
  if (Nat.leb 97 n && Nat.leb n 122)%bool then ascii_of_nat (n - 32) else c.
Fixpoint to_uppercase (s : string) : string :=
  match s with EmptyString => EmptyString | String c s => String (ascii_upper c) (to_uppercase s) end.

Section Referrals.
Context `{DL : DecimalLib} `{IL : IdLib}.

(** [referral_from_pubkey]: the last six characters, in upper case. *)
Definition referral_from_pubkey (public_key : PublicKey) : string :=
  to_uppercase (String.string_of_list_ascii
    (rev (take 6 (rev (String.list_ascii_of_string (pk_to_string public_key)))))).

(** [ReferralStatus::new]. *)
Definition referral_status_new (trader_id : PublicKey) : ReferralStatus.t :=
  ReferralStatus.mk (referral_from_pubkey trader_id) 0 0 0 d_zero None.

(** ** [db/bonus_status.rs], [db/bonus_tiers.rs] *)

Definition MAX_DAYS_FOR_ACTIVE_REFERRAL_STATUS : Z := 30.

Definition active_status_for_user (now : OffsetDateTime) (trader_pubkey : PublicKey)
    : Sql (list BonusStatusRow.t) :=
  load (fun b => bool_decide (BonusStatusRow.trader_pubkey b = pk_to_string trader_pubkey)
                 && (now <? BonusStatusRow.deactivation_timestamp b)).

Definition all_active_by_type (types : list DbBonusType.t) : Sql (list BonusTierRow.t) :=
  load (fun b => BonusTierRow.active b && bool_decide (BonusTierRow.bonus_tier_type b ∈ types)).

Definition tier_by_tier_level (tier_level : Z) : Sql BonusTierRow.t :=
  first (fun b => BonusTierRow.tier_level b =? tier_level).

Definition all_referrals_by_referring_user (trader_pubkey : PublicKey)
    : Sql (list ReferralSummaryRow.t) :=
  load (fun r => bool_decide (ReferralSummaryRow.referring_user r = pk_to_string trader_pubkey)).

#[export] Instance bonus_status_constraint : Constrained BonusStatusRow.t := fun _ _ => None.

Definition bonus_status_insert (now : OffsetDateTime) (trader_pk : PublicKey) (tier_level : Z)
    (bonus_type : DbBonusType.t) : Sql BonusStatusRow.t :=
  existing_status_for_user ← active_status_for_user now trader_pk;
  bonus_tier ← tier_by_tier_level tier_level;
  match List.find (fun status => BonusStatusRow.tier_level status =? tier_level)
          existing_status_for_user with
  | Some status => mret status
  | None =>
    insert (fun id => BonusStatusRow.mk id (pk_to_string trader_pk) tier_level
      (BonusTierRow.fee_rebate bonus_tier) bonus_type now
      (now + MAX_DAYS_FOR_ACTIVE_REFERRAL_STATUS * NANOS_PER_DAY))
  end.

(** ** [db/user.rs] *)

Definition get_user (trader_id : PublicKey) : Sql (option UserRow.t) :=
  optional (first (fun u => bool_decide (UserRow.pubkey u = pk_to_string trader_id))).

Definition all_with_login_date (cut_off : OffsetDateTime) : Sql (list UserRow.t) :=
  load (fun u => cut_off <=? UserRow.last_login u).

Definition get_referred_users (referral_code : string) : Sql (list UserRow.t) :=
  load (fun u => bool_decide (UserRow.used_referral_code u = Some referral_code)).

Definition get_user_for_referral (referral_code : string) : Sql (option UserRow.t) :=
  optional (first (fun u => bool_decide (UserRow.referral_code u = referral_code))).

Definition update_nickname (trader_id : PublicKey) (nickname : option string) : Sql unit :=
  let nickname := default EmptyString nickname in
  _ ← execute (update (fun u => bool_decide (UserRow.pubkey u = pk_to_string trader_id))
    (fun u => UserRow.mk (UserRow.id u) (UserRow.pubkey u) (UserRow.contact u)
       (UserRow.timestamp u) (UserRow.fcm_token u) (UserRow.last_login u) (Some nickname)
       (UserRow.version u) (UserRow.referral_code u) (UserRow.used_referral_code u)
       (UserRow.os u)));
  mret tt.

Definition by_id (id : string) : Sql (option UserRow.t) :=
  optional (first (fun u => bool_decide (UserRow.pubkey u = id))).
Definition all_users : Sql (list UserRow.t) := load (fun _ => true).
Definition get_users (trader_ids : list PublicKey) : Sql (list UserRow.t) :=
  load (fun u => bool_decide (UserRow.pubkey u ∈ map pk_to_string trader_ids)).

(** The column [referral_code] is generated from [pubkey]. *)
Definition generated_referral_code (pubkey : string) : string :=
  to_uppercase (String.string_of_list_ascii (rev (take 6 (rev (String.list_ascii_of_string pubkey))))).
Definition new_user (trader_id : PublicKey) (contact : string) (timestamp : OffsetDateTime) (fcm_token : string)
    (nickname version used_referral_code os : option string) (id : Z) : UserRow.t :=
  UserRow.mk id (pk_to_string trader_id) contact timestamp fcm_token timestamp nickname version
    (generated_referral_code (pk_to_string trader_id)) used_referral_code os.

(** A code that is not a user's is logged. *)
Definition reward_referral (now : OffsetDateTime) (trader_id : PublicKey) (referral_code : string) : Sql unit := fun d =>
  match get_user_for_referral referral_code d with
  | (Ok (Some _), d) =>
    (bonus_tiers ← all_active_by_type [DbBonusType.Referent];
     bonus_tier ← lift (expect (head bonus_tiers));
     _ ← bonus_status_insert now trader_id (BonusTierRow.tier_level bonus_tier) DbBonusType.Referent;
     mret tt) d
  | (Panic, d) => (Panic, d)
  | (_, d) => (Ok tt, d)
  end.

Definition upsert_user (now : OffsetDateTime) (trader_id : PublicKey)
    (contact nickname version os used_referral_code : option string) : Sql UserRow.t :=
  let contact := default EmptyString contact in
  user ← upsert (fun u => bool_decide (UserRow.pubkey u = pk_to_string trader_id))
    (new_user trader_id contact now EmptyString nickname version used_referral_code os)
    (fun u => UserRow.mk (UserRow.id u) (UserRow.pubkey u) contact (UserRow.timestamp u) (UserRow.fcm_token u) now
       nickname version (UserRow.referral_code u) (UserRow.used_referral_code u) (UserRow.os u))
    (fun _ _ => None);
  match used_referral_code with
  | Some referral_code => reward_referral now trader_id referral_code
  | None => mret tt
  end;;
  mret user.

(** An upsert always affects a row. *)
Definition login_user (now : OffsetDateTime) (trader_id : PublicKey) (token : string) (version os : option string)
    : Sql unit :=
  _ ← upsert (fun u => bool_decide (UserRow.pubkey u = pk_to_string trader_id))
    (new_user trader_id EmptyString now token None version None os)
    (fun u => UserRow.mk (UserRow.id u) (UserRow.pubkey u) (UserRow.contact u) (UserRow.timestamp u) token now
       (UserRow.nickname u) version (UserRow.referral_code u) (UserRow.used_referral_code u) os)
    (fun _ _ => None);
  mret tt.

(** ** [check_version.rs] *)

(** The [VersionReq] of [check_compatibility]. *)
Definition version_req (coordinator_version : Version.t) : list Comparator.t :=
  [ Comparator.mk Exact (Version.major coordinator_version)
      (Some (Version.minor coordinator_version)) None;
    Comparator.mk GreaterEq 2 (Some 0) (Some 6) ].

Definition check_compatibility `{SemverLib} (app_version coordinator_version : Version.t)
    : outcome Anyhow unit :=
  ensure (req_matches (version_req coordinator_version) app_version)
    (Msg "Please upgrade to the latest version").

(** [check_version]; [pkg_version] is [CARGO_PKG_VERSION]. *)
Definition check_version `{SemverLib} (pkg_version : string) (trader_id : PublicKey)
    : M Db.t Anyhow unit :=
  user ← with_err FromSql (get_user trader_id);
  user ← lift (ok_or (Msg "Couldn't find user") user);
  app_version ← lift (ok_or (Msg "No version found") (UserRow.version user));
  app_version ← lift (ok_or (Msg "invalid version") (version_parse app_version));
  coordinator_version ← lift (ok_or (Msg "invalid version") (version_parse pkg_version));
  lift (check_compatibility app_version coordinator_version).

(** ** [referrals.rs] *)

(** [b.fee_rebate.partial_cmp(&a.fee_rebate).expect(..)]: descending. *)
Definition rebate_desc (a b : BonusStatusRow.t) : comparison :=
  default Eq (f32_partial_cmp (BonusStatusRow.fee_rebate b) (BonusStatusRow.fee_rebate a)).

(** The comparison panics on a NaN, and a sort of two elements or more compares
    every one of them. *)
Definition sort_by_rebate {E} (l : list BonusStatusRow.t) : outcome E (list BonusStatusRow.t) :=
  if Nat.leb 2 (length l) && existsb (fun b => f32_is_nan (BonusStatusRow.fee_rebate b)) l
  then Panic else Ok (sort_by rebate_desc l).

Definition get_referral_status (now : OffsetDateTime) (trader_pubkey : PublicKey)
    : M Db.t Anyhow ReferralStatus.t :=
  bonus_status ← with_err FromSql (active_status_for_user now trader_pubkey);
  user ← with_err FromSql (get_user trader_pubkey);
  user ← lift (ok_or (Msg "User not found") user);
  bonus_status ← lift (sort_by_rebate bonus_status);
  match head bonus_status with
  | Some bonus =>
    referrals ← with_err FromSql (all_referrals_by_referring_user trader_pubkey);
    referral_fee_bonus ← lift (expect (d_from_f32 (BonusStatusRow.fee_rebate bonus)));
    mret (ReferralStatus.mk (UserRow.referral_code user)
      (Z.of_nat (length (List.filter (fun referral =>
         f32_floor_positive (ReferralSummaryRow.referred_user_total_quantity referral)) referrals)))
      (Z.of_nat (length referrals))
      (i32_as_usize (BonusStatusRow.tier_level bonus)) referral_fee_bonus
      (Some (bonus_status_type_from_db (BonusStatusRow.bonus_type bonus))))
  | None => mret (referral_status_new trader_pubkey)
  end.

(** [b.min_users_to_refer.cmp(&a.min_users_to_refer)]: descending. *)
Definition min_users_desc (a b : BonusTierRow.t) : comparison :=
  Z.compare (BonusTierRow.min_users_to_refer b) (BonusTierRow.min_users_to_refer a).

Definition calculate_bonus_status_inner (bonus_tiers : list BonusTierRow.t)
    (referred_users : Z) : Z :=
  let bonus_tiers := sort_by min_users_desc bonus_tiers in
  match List.find (fun tier => BonusTierRow.min_users_to_refer tier <=? as_i32 referred_users)
          bonus_tiers with
  | Some tier => BonusTierRow.tier_level tier
  | None => 0
  end.

Definition update_referral_status_for_user (now : OffsetDateTime) (trader_pubkey_str : string)
    : M Db.t Anyhow ReferralStatus.t :=
  trader_pubkey ← lift (expect (pk_from_str trader_pubkey_str));
  existing_status ← get_referral_status now trader_pubkey;
  user ← with_err FromSql (get_user trader_pubkey);
  user ← lift (ok_or (Msg "User not found") user);
  referrals ← with_err FromSql (all_referrals_by_referring_user trader_pubkey);
  bonus_tiers ← with_err FromSql (all_active_by_type [DbBonusType.Referral]);
  let total_referrals := Z.of_nat (length referrals) in
  let active_referrals := Z.of_nat (length (List.filter (fun referral =>
    SpecFloat.SFltb f32_zero (ReferralSummaryRow.referred_user_total_quantity referral))
    referrals)) in
  if 0 <? active_referrals then
    let referral_tier := calculate_bonus_status_inner bonus_tiers active_referrals in
    _ ← with_err FromSql (bonus_status_insert now trader_pubkey referral_tier DbBonusType.Referral);
    maybe_bonus_tier ← lift (ok_or (Msg "Calculated bonus tier does not exist")
      (List.find (fun tier => BonusTierRow.tier_level tier =? referral_tier) bonus_tiers));
    referral_fee_bonus ← lift (expect (d_from_f32 (BonusTierRow.fee_rebate maybe_bonus_tier)));
    if d_ltb referral_fee_bonus (ReferralStatus.referral_fee_bonus existing_status)
    then mret existing_status
    else mret (ReferralStatus.mk (UserRow.referral_code user) active_referrals total_referrals
           (i32_as_usize (BonusTierRow.tier_level maybe_bonus_tier)) referral_fee_bonus
           (Some (bonus_status_type_from_db (BonusTierRow.bonus_tier_type maybe_bonus_tier))))
  else mret existing_status.

Definition DAYS_SINCE_LAST_LOGIN : Z := 2.

(** An error of one user is logged, and the next user processed. *)
Definition update_referral_status (now : OffsetDateTime) : M Db.t Anyhow Z :=
  users ← with_err FromSql (all_with_login_date (now - DAYS_SINCE_LAST_LOGIN * NANOS_PER_DAY));
  for_each (fun user d =>
    match update_referral_status_for_user now (UserRow.pubkey user) d with
    | (Err _, d') => (Ok tt, d')
    | (Ok _, d') => (Ok tt, d')
    | (Panic, d') => (Panic, d')
    end) users;;
  mret (Z.of_nat (length users)).
End Referrals.

(** ** Properties *)

#[export] Instance min_users_desc_order : CmpOrder min_users_desc.
Proof.
  split; intros *.
  - apply Z.compare_antisym.
  - unfold not_after, min_users_desc. rewrite !Z.compare_gt_iff. lia.
Qed.

(** The tier of a user with [n] active referrals is one the user qualifies
    for that asks for as many referrals as any other such tier; without such a
    tier it is tier 0. *)
Theorem bonus_tier_is_best_reached (tiers : list BonusTierRow.t) (n : Z) (Hn : 0 <= n < 2 ^ 31) :
  let reached t := BonusTierRow.min_users_to_refer t <= n in
  (exists t, t ∈ tiers /\ reached t /\ calculate_bonus_status_inner tiers n = BonusTierRow.tier_level t /\
     Forall (fun t' => reached t' ->
       BonusTierRow.min_users_to_refer t' <= BonusTierRow.min_users_to_refer t) tiers)
  \/ (Forall (fun t => ~ reached t) tiers /\ calculate_bonus_status_inner tiers n = 0).
Proof.
  cbn. unfold calculate_bonus_status_inner.
  assert (as_i32 n = n) as -> by (unfold as_i32; rewrite Z.mod_small; lia).
  destruct (List.find _ _) as [t|] eqn:Hfind; [left|right].
  - apply sort_by_find in Hfind as (Ht & Hp%Z.leb_le & Hbest); [|apply _].
    exists t. split_and!; try done. apply Forall_forall. intros t' Ht' Hr.
    destruct (Hbest t' Ht') as [->|Hle]; [by apply Z.leb_le|lia|].
    unfold not_after, min_users_desc in Hle. rewrite Z.compare_gt_iff in Hle. lia.
  - split; [|done]. apply Forall_forall. intros t Ht Hr.
    pose proof (sort_by_find_none _ _ _ Hfind t Ht) as Hf. apply Z.leb_gt in Hf. lia.
Qed.

Example bonus_tier_is_best_reached_witness :
  let tier l m := BonusTierRow.mk l l m f32_zero DbBonusType.Referral true in
  let tiers := [tier 0 0; tier 1 10; tier 2 20; tier 3 30] in
  calculate_bonus_status_inner tiers 15 = 1 /\
  ((exists t, t ∈ tiers /\ BonusTierRow.min_users_to_refer t <= 15 /\
     calculate_bonus_status_inner tiers 15 = BonusTierRow.tier_level t /\
     Forall (fun t' => BonusTierRow.min_users_to_refer t' <= 15 ->
       BonusTierRow.min_users_to_refer t' <= BonusTierRow.min_users_to_refer t) tiers)
   \/ (Forall (fun t => ~ BonusTierRow.min_users_to_refer t <= 15) tiers /\
       calculate_bonus_status_inner tiers 15 = 0)).
Proof. split; [reflexivity|]. apply (bonus_tier_is_best_reached _ 15). lia. Defined.

(** A released app is compatible exactly when its major and minor version
    are the coordinator's and it is not older than 2.0.6. *)
Theorem check_compatibility_spec `{SemverLaws} (app coordinator : Version.t)
    (Hrelease : Version.pre app = EmptyString) :
  check_compatibility app coordinator = Ok tt <->
  Version.major app = Version.major coordinator /\ Version.minor app = Version.minor coordinator /\
  (2 < Version.major app \/ Version.major app = 2 /\
     (0 < Version.minor app \/ Version.minor app = 0 /\ 6 <= Version.patch app)).
Proof.
  unfold check_compatibility. rewrite ensure_ok, req_matches_release by done.
  destruct app as [M m p pre build], coordinator as [M' m' p' pre' build']. cbn.
  rewrite !andb_true_r, !andb_true_iff, !orb_true_iff, !andb_true_iff, orb_true_iff, andb_true_iff.
  rewrite !Z.eqb_eq, !Z.ltb_lt, Z.leb_le. lia.
Qed.

Example check_compatibility_spec_witness :
  check_compatibility (Version.mk 2 1 1 EmptyString EmptyString) (Version.mk 2 1 3 EmptyString EmptyString) = Ok tt.
Proof.
  apply (check_compatibility_spec (Version.mk 2 1 1 EmptyString EmptyString) (Version.mk 2 1 3 EmptyString EmptyString)); [reflexivity|].
  cbn. lia.
Defined.

Section BonusStatus.
Context `{DL : DecimalLib} `{IL : IdLib}.

(** The tiers of a user's active bonus statuses. *)
Definition active_tiers (now : OffsetDateTime) (trader : PublicKey) (d : Db.t) : list Z :=
  map BonusStatusRow.tier_level (List.filter
    (fun b => bool_decide (BonusStatusRow.trader_pubkey b = pk_to_string trader)
              && (now <? BonusStatusRow.deactivation_timestamp b)) (rows d)).

(** Earning a bonus never gives a user a second active status for a tier
    the user already has, whatever the outcome of the call. *)
Theorem bonus_status_insert_no_duplicates (now : OffsetDateTime) (trader : PublicKey)
    (level : Z) (kind : DbBonusType.t) (d : Db.t) (Hd : NoDup (active_tiers now trader d)) :
  NoDup (active_tiers now trader (bonus_status_insert now trader level kind d).2).
Proof.
  unfold bonus_status_insert, active_status_for_user, tier_by_tier_level.
  unfold mbind, M_bind at 1. rewrite load_run. cbn beta iota.
  unfold M_bind. rewrite first_run. destruct (head _) as [tier|]; cbn [ok_or]; [|done].
  destruct (List.find _ _) as [status|] eqn:Hfind; [done|].
  unfold insert. cbn [violation bonus_status_constraint snd]. unfold active_tiers.
  rewrite rows_set_tbl. cbn [Table.rows]. rewrite List.filter_app, map_app.
  apply NoDup_app. split_and!; [done| |].
  - intros l Hl. cbn. case_match; cbn; [|intros Hin; by inversion Hin].
    rewrite list_elem_of_singleton. intros ->. apply list_elem_of_fmap in Hl as (b & Heq & Hb).
    pose proof (find_none _ _ Hfind b) as Hf. cbn in Hf.
    rewrite Z.eqb_neq in Hf. apply Hf; [by apply list_elem_of_In|done].
  - cbn. case_match; cbn; [apply NoDup_singleton|constructor].
Qed.
End BonusStatus.

Definition demo_tiers_db : Db.t :=
  set_rows [BonusTierRow.mk 1 1 10 f32_zero DbBonusType.Referral true] empty_db.

Example bonus_status_insert_no_duplicates_witness :
  let d1 := (bonus_status_insert (IL := demo_id) 0 "alice"%string 1 DbBonusType.Referral demo_tiers_db).2 in
  active_tiers (IL := demo_id) 5 "alice"%string d1 = [1] /\
  NoDup (active_tiers (IL := demo_id) 5 "alice"%string
    (bonus_status_insert (IL := demo_id) 5 "alice"%string 1 DbBonusType.Referral d1).2).
Proof.
  cbn zeta. split; [by vm_compute|].
  apply (bonus_status_insert_no_duplicates (IL := demo_id)).
  change (NoDup [1]). apply NoDup_singleton.
Defined.
