(* ===== verification/Trading.v ===== *)
(** * [coordinator/src/orderbook/trading.rs], [async_match.rs]

    Matching a market order with the limit orders of the other side, and the
    processing of new orders.

    The database is threaded through; what a handler sends (feed and push
    messages, the trade it hands to the executor) is a log of effects.  [now] is
    the current time and [new_v4 n] the [n]-th fresh UUID of the call. *)

From stdpp Require Import base list option strings.
From Stdlib Require Import ZArith QArith Lia Sorting.Sorted.
From S2P Require Import Prelude Machine External Sorting Demo Commons Rollover SqlTypes Schema Db.
From S2P Require Import OrdersDb MatchesDb Referrals.

#[local] Open Scope Z_scope.
#[local] Open Scope decimal_scope.

(** [commons::TradingError]; the payload is what the text reports. *)
Inductive TradingError `{IdLib} :=
  | InvalidOrder (trader_id : PublicKey) (order_id : Uuid)
  | NoMatchFound (order_id : Uuid)
  | Other (e : Anyhow).

(** [notifications::NotificationKind]. *)
Inductive NotificationKind :=
  | RolloverWindowOpen | PositionSoonToExpire | PositionExpired | CollaborativeRevert
  | Custom (title message : string).

Module Effect.
Inductive t `{DecimalLib} `{IdLib} :=
  | DeleteOrder (id : Uuid)                                (* on the order book feed *)
  | NewOrder (order : Order.t)
  | PushNotification (trader_id : PublicKey) (kind : NotificationKind)
  | ExecuteTrade (params : TradeAndChannelParams.t)        (* [TradeExecutor::execute] *)
  | TradeErrorMessage (trader_id : PublicKey) (order_id : Uuid) (error : TradingError).
End Effect.

Module World.
Record t `{DecimalLib} `{IdLib} := mk { db : Db.t; log : list Effect.t }.
#[global] Arguments mk {_ _}.
End World.

Module NewOrderMessage.
Record t `{DecimalLib} `{IdLib} := mk {
  order : Order.t;
  order_reason : OrderReason.t;
  channel_opening_params : option ChannelOpeningParams.t;
}.
#[global] Arguments mk {_ _}.
End NewOrderMessage.

(** What the handlers find outside the database. *)
Module Env.
Record t `{IdLib} := mk {
  now : OffsetDateTime;
  new_v4 : nat -> Uuid;
  network : Network;
  oracle_pk : XOnlyPublicKey;
  order_matching_fee_rate : f32;          (* [settings] *)
  feed_open : bool;                       (* the feed has a receiver *)
  notifier_open : bool;
  is_connected : PublicKey -> bool;
}.
#[global] Arguments mk {_}.
End Env.

Section Trading.
Context `{DL : DecimalLib} `{BL : BitcoinLib} `{IL : IdLib} `{TL : TimeLib}.

(** ** Sorting and matching *)

(** The comparison of [sort_orders]. *)
Definition order_cmp (market_order_direction : Direction) (a b : Order.t) : comparison :=
  match d_cmp (Order.price a) (Order.price b) with
  | Eq => Z.compare (Order.timestamp a) (Order.timestamp b)
  | _ => match market_order_direction with
         | Long => d_cmp (Order.price a) (Order.price b)
         | Short => d_cmp (Order.price b) (Order.price a)
         end
  end.

Definition sort_orders (limit_orders : list Order.t) (market_order_direction : Direction)
    : list Order.t :=
  sort_by (order_cmp market_order_direction) limit_orders.

(** The [while] loop of [match_order]: the orders it takes. *)
Fixpoint take_orders {E} (orders : list Order.t) (remaining_quantity : Decimal)
    : outcome E (list Order.t) :=
  match orders with
  | [] => Ok []
  | matched_order :: orders =>
    remaining_quantity ← remaining_quantity -! Order.quantity matched_order;
    if d_leb remaining_quantity d_zero then Ok [matched_order]
    else rest ← take_orders orders remaining_quantity; Ok (matched_order :: rest)
  end.

(** The fee of matching [market_order] at the maker's price; an amount
    [from_btc] rejects falls back to zero. *)
Definition match_fee {E} (market_order maker_order : Order.t) (fee_percent : Decimal)
    : outcome E Amount :=
  q ← Order.quantity market_order /! Order.price maker_order;
  matching_fee ← q *! fee_percent;
  let matching_fee := d_round_dp 8 MidpointAwayFromZero matching_fee in
  matching_fee ← expect (d_to_f64 matching_fee);
  Ok (match amount_from_btc matching_fee with Some fee => fee | None => 0 end).

(** The closure mapped over the matched orders; the [i]-th call draws two UUIDs. *)
Definition match_with_maker {E} (env : Env.t) (market_order : Order.t)
    (expiry_timestamp : OffsetDateTime) (fee_percent : Decimal) (i : nat) (maker_order : Order.t)
    : outcome E (TraderMatchParams.t * Match.t) :=
  matching_fee ← match_fee market_order maker_order fee_percent;
  Ok (TraderMatchParams.mk (Order.trader_id maker_order)
        (FilledWith.mk (Order.id maker_order) expiry_timestamp (Env.oracle_pk env)
           [Match.mk (Env.new_v4 env (2 * i)) (Order.id market_order)
              (Order.quantity market_order) (Order.trader_id market_order)
              (Order.price maker_order) matching_fee]),
      Match.mk (Env.new_v4 env (2 * i + 1)) (Order.id maker_order)
        (Order.quantity market_order) (Order.trader_id maker_order)
        (Order.price maker_order) matching_fee).

(** [.iter().map(f).collect()], with the position of the element. *)
Fixpoint traverse_i {E A B} (f : nat -> A -> outcome E B) (i : nat) (l : list A)
    : outcome E (list B) :=
  match l with
  | [] => Ok []
  | x :: l => y ← f i x; ys ← traverse_i f (S i) l; Ok (y :: ys)
  end.

Definition match_order (env : Env.t) (market_order : Order.t)
    (opposite_direction_orders : list Order.t) (fee_percent : Decimal)
    : outcome Anyhow (option MatchParams.t) :=
  if bool_decide (Order.order_type market_order = Limit) then Ok None else
  let opposite_direction_orders := List.filter
    (fun o => negb (bool_decide (Order.direction o = Order.direction market_order)))
    opposite_direction_orders in
  let orders := sort_orders opposite_direction_orders (Order.direction market_order) in
  matched_orders ← take_orders orders (Order.quantity market_order);
  if Nat.ltb 1 (length matched_orders)
  then Err (Msg "More than one matched order, please reduce order quantity") else
  match matched_orders with
  | [] => Ok None
  | _ =>
    expiry_timestamp ← calculate_next_expiry (Env.now env) (Env.now env) (Env.network env);
    matches ← traverse_i (match_with_maker env market_order expiry_timestamp fee_percent) 0
                matched_orders;
    Ok (Some (MatchParams.mk
      (TraderMatchParams.mk (Order.trader_id market_order)
         (FilledWith.mk (Order.id market_order) expiry_timestamp (Env.oracle_pk env)
            (map snd matches)))
      (map fst matches)))
  end.

(** [MatchParams::matches]. *)
Definition match_params_matches (m : MatchParams.t) : list TraderMatchParams.t :=
  MatchParams.taker_match m :: MatchParams.makers_matches m.

(** [impl From<&TradeParams> for TraderMatchParams]. *)
Definition trader_match_params_from (value : TradeParams.t) : TraderMatchParams.t :=
  TraderMatchParams.mk (TradeParams.pubkey value) (TradeParams.filled_with value).

(** ** Handlers *)

Definition on_db {E A} (m : M Db.t E A) : M World.t E A := fun w =>
  let '(r, d) := m (World.db w) in (r, World.mk d (World.log w)).

Definition emit {E} (e : Effect.t) : M World.t E unit := fun w =>
  (Ok tt, World.mk (World.db w) (World.log w ++ [e])).

(** Sending on a channel fails when the other end is gone. *)
Definition send {E} (open : bool) (e : Effect.t) (err : E) : M World.t E unit :=
  if open then emit e else throw err.

(** [.map_err(|e| anyhow!(..))?] on a query, and [?] on an [anyhow] result. *)
Definition query {A} (m : Sql A) : M World.t TradingError A :=
  on_db (with_err (fun e => Other (FromSql e)) m).
Definition call {A} (m : M Db.t Anyhow A) : M World.t TradingError A := on_db (with_err Other m).

Definition process_new_limit_order (env : Env.t) (order : Order.t)
    : M World.t TradingError unit :=
  let err := Other (Msg "Could not update price feed") in
  expired_limit_orders ← query (set_expired_limit_orders_to_expired (Env.now env));
  for_each (fun expired_limit_order =>
    send (Env.feed_open env) (Effect.DeleteOrder (Order.id expired_limit_order)) err)
    expired_limit_orders;;
  send (Env.feed_open env) (Effect.NewOrder order) err.

(** The push notification an order's reason calls for. *)
Definition notification_for (r : OrderReason.t) : option NotificationKind :=
  match r with
  | OrderReason.Expired => Some PositionExpired
  | OrderReason.TraderLiquidated =>
    Some (Custom "Woops, you got liquidated 💸" "Open your app to execute the liquidation")
  | OrderReason.CoordinatorLiquidated =>
    Some (Custom "Your counterparty got liquidated 💸" "Open your app to execute the liquidation")
  | OrderReason.Manual => None
  end.

(** The body of the loop over the matches of [process_new_market_order]. *)
Definition process_match (env : Env.t) (order : Order.t) (match_param : TraderMatchParams.t)
    : M World.t TradingError unit :=
  call (matches_insert (Env.now env) match_param);;
  match notification_for (Order.order_reason order) with
  | Some notification =>
    send (Env.notifier_open env) (Effect.PushNotification (Order.trader_id order) notification)
      (Other (Msg "Failed to send push notification"))
  | None => mret tt
  end;;
  let order_state := if bool_decide (Order.order_type order = Limit)
                     then OrderState.Taken else OrderState.Matched in
  _ ← query (set_order_state (FilledWith.order_id (TraderMatchParams.filled_with match_param))
               order_state);
  mret tt.

(** The fee rate after the trader's discount. *)
Definition discounted_fee_percent (env : Env.t) (trader_id : PublicKey)
    : M World.t TradingError Decimal :=
  fee_percent ← lift (expect (d_try_from_f32 (Env.order_matching_fee_rate env)));
  status ← call (get_referral_status (Env.now env) trader_id);
  let fee_discount := ReferralStatus.referral_fee_bonus status in
  lift (discount ← fee_percent *! fee_discount; fee_percent -! discount).

Definition process_new_market_order (env : Env.t) (order : Order.t)
    (channel_opening_params : option ChannelOpeningParams.t) : M World.t TradingError unit :=
  matched ← query (get_by_trader_id_and_state (Order.trader_id order) OrderState.Matched);
  match matched with
  | Some order => throw (InvalidOrder (Order.trader_id order) (Order.id order))
  | None =>
    opposite_direction_limit_orders ←
      query (all_by_direction_and_type (Env.now env) (opposite (Order.direction order)) Limit true);
    fee_percent ← discounted_fee_percent env (Order.trader_id order);
    match match_order env order opposite_direction_limit_orders fee_percent with
    | Panic => lift Panic
    | Err e =>
      _ ← query (set_order_state (Order.id order) OrderState.Failed);
      throw (Other e)
    | Ok None =>
      _ ← query (set_order_state (Order.id order) OrderState.Failed);
      throw (NoMatchFound (Order.id order))
    | Ok (Some matched_orders) =>
      for_each (process_match env order) (match_params_matches matched_orders);;
      match channel_opening_params with
      | Some p => query (channel_opening_params_insert (Env.now env) (Order.id order) p)
      | None => mret tt
      end;;
      if Env.is_connected env (Order.trader_id order) then
        quantity ← lift (expect (d_to_f32 (Order.quantity order)));
        emit (Effect.ExecuteTrade (TradeAndChannelParams.mk
          (TradeParams.mk (Order.trader_id order) BtcUsd (Order.leverage order) quantity
             (Order.direction order)
             (TraderMatchParams.filled_with (MatchParams.taker_match matched_orders)))
          (ChannelOpeningParams.trader_reserve <$> channel_opening_params)
          (ChannelOpeningParams.coordinator_reserve <$> channel_opening_params)
          (channel_opening_params ≫= ChannelOpeningParams.external_funding)))
      else mret tt
    end
  end.

(** The task [start] spawns for one message: an error is reported to the trader
    of a manual order (a closed channel is only logged). *)
Definition process_new_order (env : Env.t) (new_order_msg : NewOrderMessage.t)
    : M World.t TradingError unit := fun w =>
  let new_order := NewOrderMessage.order new_order_msg in
  let run := match Order.order_type new_order with
             | Market => process_new_market_order env new_order
                           (NewOrderMessage.channel_opening_params new_order_msg)
             | Limit => process_new_limit_order env new_order
             end in
  match run w with
  | (Err error, w') =>
    if bool_decide (Order.order_reason new_order = OrderReason.Manual)
    then emit (Effect.TradeErrorMessage (Order.trader_id new_order) (Order.id new_order) error) w'
    else (Ok tt, w')
  | (r, w') => (r, w')
  end.

(** ** [async_match.rs] *)

Definition get_filled_with_from_matches (env : Env.t) (matches : list Matches.t)
    : outcome Anyhow FilledWith.t :=
  match matches with
  | [] => Err (Msg "Need at least one matches record to construct a FilledWith")
  | m :: _ =>
    expiry_timestamp ← calculate_next_expiry (Env.now env) (Env.now env) (Env.network env);
    Ok (FilledWith.mk (Matches.order_id m) expiry_timestamp (Env.oracle_pk env)
          (map (fun m => Match.mk (Matches.id m) (Matches.order_id m) (Matches.quantity m)
                           (Matches.match_trader_id m) (Matches.execution_price m)
                           (Matches.matching_fee m)) matches))
  end.

(** The rest of [process_pending_match], once the version is accepted. *)
Definition execute_pending_match (env : Env.t) (trader_id : PublicKey)
    : M World.t Anyhow unit :=
  order ← on_db (with_err FromSql (get_by_trader_id_and_state trader_id OrderState.Matched));
  match order with
  | None => mret tt
  | Some order =>
    matches ← on_db (with_err FromSql (get_matches_by_order_id (Env.now env) (Order.id order)));
    filled_with ← lift (get_filled_with_from_matches env matches);
    channel_opening_params ←
      on_db (with_err FromSql (channel_opening_params_get_by_order_id (Order.id order)));
    quantity ← lift (expect (d_to_f32 (Order.quantity order)));
    emit (Effect.ExecuteTrade (TradeAndChannelParams.mk
      (TradeParams.mk trader_id BtcUsd (Order.leverage order) quantity
         (Order.direction order) filled_with)
      (ChannelOpeningParams.trader_reserve <$> channel_opening_params)
      (ChannelOpeningParams.coordinator_reserve <$> channel_opening_params)
      (channel_opening_params ≫= ChannelOpeningParams.external_funding)))
  end.

(** [process_pending_match]; [version] is the coordinator's own version. *)
Definition process_pending_match `{SemverLib} (env : Env.t) (version : string)
    (trader_id : PublicKey) : M World.t Anyhow unit := fun w =>
  match check_version version trader_id (World.db w) with
  | (Panic, d) => (Panic, World.mk d (World.log w))
  | (Err _, d) => (Ok tt, World.mk d (World.log w))
  | (Ok _, d) => execute_pending_match env trader_id (World.mk d (World.log w))
  end.
End Trading.

(** ** Price-time priority *)

Section Priority.
Context `{DLaws : DecimalLaws} `{IL : IdLib}.

(** For a market order in direction [d], limit order [a] goes before [b]: it has
    the better price, or the same price and is not younger. *)
Definition takes_precedence (d : Direction) (a b : Order.t) : Prop :=
  let pa := dval (Order.price a) in
  let pb := dval (Order.price b) in
  match d with Long => (pa < pb)%Q | Short => (pb < pa)%Q end
  \/ (pa == pb)%Q /\ Order.timestamp a <= Order.timestamp b.

Lemma order_cmp_precedence d a b : not_after (order_cmp d) a b <-> takes_precedence d a b.
Proof.
  unfold not_after, order_cmp, takes_precedence. cbn zeta.
  destruct (d_cmp (Order.price a) (Order.price b)) eqn:Hc.
  - apply d_cmp_eq in Hc. rewrite Z.compare_gt_iff, Z.nlt_ge. split; [by right|].
    intros [Hlt|[_ ?]]; [|done]. destruct d; rewrite Hc in Hlt; by apply Qlt_irrefl in Hlt.
  - apply d_cmp_lt in Hc as Hlt. destruct d.
    + split; [by left|done].
    + pose proof (proj2 (d_cmp_gt (Order.price b) (Order.price a)) Hlt) as ->. split; [done|].
      intros [?|[Heq _]]; [|rewrite Heq in Hlt; by apply Qlt_irrefl in Hlt].
      by destruct (Qlt_not_le _ _ Hlt (Qlt_le_weak _ _ H)).
  - apply d_cmp_gt in Hc as Hlt. destruct d.
    + split; [done|].
      intros [?|[Heq _]]; [|rewrite Heq in Hlt; by apply Qlt_irrefl in Hlt].
      by destruct (Qlt_not_le _ _ Hlt (Qlt_le_weak _ _ H)).
    + pose proof (proj2 (d_cmp_lt (Order.price b) (Order.price a)) Hlt) as ->.
      split; [by left|done].
Qed.

Lemma takes_precedence_trans d a b c :
  takes_precedence d a b -> takes_precedence d b c -> takes_precedence d a c.
Proof.
  unfold takes_precedence. cbn zeta.
  destruct d; intros [Hab|[Hab ?]] [Hbc|[Hbc ?]]; [left|left|left|right|left|left|left|right].
  - by eapply Qlt_trans.
  - by rewrite <-Hbc.
  - by rewrite Hab.
  - split; [by rewrite Hab|lia].
  - by eapply Qlt_trans.
  - by rewrite <-Hbc.
  - by rewrite Hab.
  - split; [by rewrite Hab|lia].
Qed.

Lemma d_cmp_antisym a b : d_cmp b a = CompOpp (d_cmp a b).
Proof.
  destruct (d_cmp a b) eqn:Hc; cbn.
  - apply d_cmp_eq. symmetry. by apply d_cmp_eq.
  - apply d_cmp_gt. by apply d_cmp_lt.
  - apply d_cmp_lt. by apply d_cmp_gt.
Qed.

#[export] Instance order_cmp_order d : CmpOrder (order_cmp d).
Proof.
  split.
  - intros a b. unfold order_cmp. rewrite (d_cmp_antisym (Order.price a) (Order.price b)).
    rewrite (Z.compare_antisym (Order.timestamp a)).
    destruct (d_cmp (Order.price a) (Order.price b)), d; done.
  - intros a b c. rewrite !order_cmp_precedence. apply takes_precedence_trans.
Qed.

(** C33: sorting the limit orders for a market order is price-time priority: the
    result has the same orders, each before the ones it takes precedence over,
    and orders of equal price and age stay in the order they came in. *)
Theorem sort_orders_price_time (l : list Order.t) (d : Direction) :
  sort_orders l d ≡ₚ l /\
  StronglySorted (takes_precedence d) (sort_orders l d) /\
  forall k, List.filter (same_rank (order_cmp d) k) (sort_orders l d)
            = List.filter (same_rank (order_cmp d) k) l.
Proof.
  unfold sort_orders. split_and!.
  - apply sort_by_permutation.
  - pose proof (sort_by_sorted (order_cmp d) l) as Hs. induction Hs as [|x xs ? IH Hall];
      [constructor|].
    constructor; [done|]. eapply Forall_impl; [done|]. cbn. intros y. apply order_cmp_precedence.
  - intros k. apply sort_by_stable, _.
Qed.
End Priority.

(** ** Matching *)

Section Matching.
Context `{DLaws : DecimalLaws} `{BL : BitcoinLib} `{IL : IdLib} `{TL : TimeLib}.

(** The limit orders a market order may be matched with. *)
Definition is_candidate (market_order o : Order.t) : bool :=
  negb (bool_decide (Order.direction o = Order.direction market_order)).

Lemma take_orders_cons {E} m l q taken : take_orders (E := E) (m :: l) q = Ok taken ->
  exists rest, taken = m :: rest /\
    (rest = [] -> (dval q <= dval (Order.quantity m))%Q \/ l = []).
Proof.
  cbn. rewrite outcome_bind_ok. intros (r & Hr%expect_ok & H).
  destruct (d_leb r d_zero) eqn:Hle.
  - injection H as <-. exists []. split; [done|]. intros _. left. apply (d_sub_sign _ _ _ Hr).
    apply d_leb_spec in Hle. by rewrite dval_zero in Hle.
  - apply outcome_bind_ok in H as (rest & Hrest & [= <-]). exists rest. split; [done|].
    intros ->. right. destruct l as [|m' l]; [done|].
    cbn in Hrest. apply outcome_bind_ok in Hrest as (r' & _ & Hrest).
    destruct (d_leb r' d_zero); [done|]. by apply outcome_bind_ok in Hrest as (? & _ & ?).
Qed.

Lemma take_orders_no_err {E} l q e : take_orders (E := E) l q <> Err e.
Proof.
  revert q; induction l as [|m l IH]; intros q; cbn; [done|].
  destruct (d_sub _ _) as [r|]; cbn; [|done]. destruct (d_leb r d_zero); [done|].
  specialize (IH r). destruct (take_orders l r); cbn; naive_solver.
Qed.

Lemma take_orders_two {E} m l q r rest : take_orders (E := E) (m :: l) q = Ok (m :: r :: rest) ->
  l <> [] /\ (dval (Order.quantity m) < dval q)%Q.
Proof.
  cbn. rewrite outcome_bind_ok. intros (x & Hx%expect_ok & H).
  destruct (d_leb x d_zero) eqn:Hle; [done|]. split; [by destruct l|].
  apply Qnot_le_lt. intros Hcover. apply (d_sub_sign _ _ _ Hx) in Hcover.
  apply not_true_iff_false in Hle. apply Hle, d_leb_spec. by rewrite dval_zero.
Qed.

Lemma next_expiry_no_err {E} now t network (e : E) : calculate_next_expiry now t network <> Err e.
Proof.
  unfold calculate_next_expiry.
  destruct network; cbn; [by destruct (date_with_hms _ _ _ _)|by case_match..].
Qed.

Lemma match_fee_no_err {E} market maker fee_percent (e : E) :
  match_fee market maker fee_percent <> Err e.
Proof.
  unfold match_fee. destruct (d_div _ _); cbn; [|done]. destruct (d_mul _ _); cbn; [|done].
  by destruct (d_to_f64 _).
Qed.

(** The parts of a match with one maker. *)
Definition match_of (env : Env.t) (market_order maker : Order.t) (expiry : OffsetDateTime)
    (fee : Amount) : MatchParams.t :=
  MatchParams.mk
    (TraderMatchParams.mk (Order.trader_id market_order)
       (FilledWith.mk (Order.id market_order) expiry (Env.oracle_pk env)
          [Match.mk (Env.new_v4 env 1) (Order.id maker) (Order.quantity market_order)
             (Order.trader_id maker) (Order.price maker) fee]))
    [TraderMatchParams.mk (Order.trader_id maker)
       (FilledWith.mk (Order.id maker) expiry (Env.oracle_pk env)
          [Match.mk (Env.new_v4 env 0) (Order.id market_order) (Order.quantity market_order)
             (Order.trader_id market_order) (Order.price maker) fee])].

(** C34: a market order is only ever matched with one of the orders it is given (the
    limit orders the order book lists), of the other direction, that no other such order
    of them takes precedence over; taker and maker
    get mirrored matches for the whole market order at the maker's price; and
    the maker's order covers the market order unless it is the only candidate. *)
Theorem match_order_picks_best (env : Env.t) (market_order : Order.t) (orders : list Order.t)
    (fee_percent : Decimal) (mp : MatchParams.t)
    (Hmatch : match_order env market_order orders fee_percent = Ok (Some mp)) :
  Order.order_type market_order = Market /\
  exists maker expiry fee,
    maker ∈ orders /\ Order.direction maker = opposite (Order.direction market_order) /\
    (forall o, o ∈ orders -> is_candidate market_order o = true -> o = maker \/
       takes_precedence (Order.direction market_order) maker o) /\
    ((dval (Order.quantity market_order) <= dval (Order.quantity maker))%Q \/
     List.filter (is_candidate market_order) orders = [maker]) /\
    mp = match_of env market_order maker expiry fee.
Proof.
  unfold match_order in Hmatch. case_bool_decide as Htype; [done|].
  split; [by destruct (Order.order_type market_order)|].
  fold (is_candidate market_order) in Hmatch.
  change (fun o => negb (bool_decide (Order.direction o = Order.direction market_order)))
    with (is_candidate market_order) in Hmatch.
  set (cands := List.filter (is_candidate market_order) orders) in *.
  pose proof (sort_by_permutation (order_cmp (Order.direction market_order)) cands) as Hperm.
  pose proof (sort_by_head (order_cmp (Order.direction market_order)) cands) as Hhead.
  unfold sort_orders in Hmatch.
  apply outcome_bind_ok in Hmatch as (taken & Htake & Hmatch).
  destruct (sort_by _ cands) as [|maker l] eqn:Hsort; cbn in Htake.
  { by injection Htake as <-. }
  apply (take_orders_cons maker l) in Htake as (rest & -> & Hcover).
  destruct rest as [|]; [|done]. specialize (Hcover eq_refl). cbn in Hmatch.
  apply outcome_bind_ok in Hmatch as (expiry & _ & Hmatch).
  apply outcome_bind_ok in Hmatch as (ms & Hms & [= <-]).
  apply outcome_bind_ok in Hms as (p & Hp & [= <-]).
  apply outcome_bind_ok in Hp as (fee & _ & [= <-]). cbn.
  assert (Hin : maker ∈ cands) by (rewrite <-Hperm; constructor).
  apply list_elem_of_In, filter_In in Hin as [Hin Hdir].
  exists maker, expiry, fee. split_and!; [by apply list_elem_of_In| | | |done].
  - apply negb_true_iff, bool_decide_eq_false in Hdir. apply opposite_neq. congruence.
  - intros o Ho Hc. assert (Ho' : o ∈ maker :: l).
    { rewrite Hperm. apply list_elem_of_In, filter_In. split; [by apply list_elem_of_In|done]. }
    apply elem_of_cons in Ho' as [->|Ho']; [by left|right].
    apply order_cmp_precedence. specialize (Hhead _ _ eq_refl).
    rewrite Forall_forall in Hhead. by apply Hhead.
  - destruct Hcover as [?| ->]; [by left|right].
    by apply Permutation_length_1_inv in Hperm.
Qed.

(** There is no match exactly for a limit order or without a candidate; and
    [match_order] only fails when the best candidate is smaller than the market
    order and is not the only candidate. *)
Theorem match_order_rejections (env : Env.t) (market_order : Order.t) (orders : list Order.t)
    (fee_percent : Decimal) :
  let cands := List.filter (is_candidate market_order) orders in
  (match_order env market_order orders fee_percent = Ok None <->
   Order.order_type market_order = Limit \/ cands = []) /\
  (forall e, match_order env market_order orders fee_percent = Err e ->
   exists best others, sort_orders cands (Order.direction market_order) = best :: others /\
     others <> [] /\ (dval (Order.quantity best) < dval (Order.quantity market_order))%Q).
Proof.
  cbn zeta. unfold match_order. case_bool_decide as Htype; [naive_solver|].
  change (fun o => negb (bool_decide (Order.direction o = Order.direction market_order)))
    with (is_candidate market_order).
  set (cands := List.filter (is_candidate market_order) orders) in *.
  destruct (sort_orders cands (Order.direction market_order)) as [|maker l] eqn:Hsort.
  { pose proof (sort_by_permutation (order_cmp (Order.direction market_order)) cands) as Hperm.
    unfold sort_orders in Hsort. rewrite Hsort in Hperm.
    apply Permutation_nil_l in Hperm. cbn. naive_solver. }
  assert (Hne : cands <> []) by (intros Hnil; by rewrite Hnil in Hsort).
  destruct (take_orders (E := Anyhow) (maker :: l) _) as [taken|e|] eqn:Htake; cbn -[take_orders].
  - apply take_orders_cons in Htake as Htaken. destruct Htaken as (rest & -> & _).
    destruct rest as [|r rest]; cbn -[take_orders].
    + split.
      * split; [|naive_solver]. intros H. exfalso.
        apply outcome_bind_ok in H as (? & _ & H). by apply outcome_bind_ok in H as (? & _ & H).
      * intros e H. exfalso. apply outcome_bind_err in H as [H|(t & _ & H)].
        { by apply next_expiry_no_err in H. }
        apply outcome_bind_err in H as [H|(? & _ & H)]; [|done].
        apply outcome_bind_err in H as [H|(? & _ & H)]; [|done].
        apply outcome_bind_err in H as [H|(? & _ & H)]; [|done]. by apply match_fee_no_err in H.
    + apply take_orders_two in Htake as [Hl Hlt].
      split; [naive_solver|]. intros e _. by exists maker, l.
  - by apply take_orders_no_err in Htake.
  - split; [naive_solver|done].
Qed.
End Matching.

(** Concrete orders. *)
Definition demo_order (id price quantity timestamp : Z) (d : Direction) (t : OrderType) : Order.t :=
  Order.mk (H0 := demo_id) id (d_from_u64 price) (f32_of_Z 1) BtcUsd ("trader"%string) d
    (d_from_u64 quantity) t timestamp 1000 OrderState.Open OrderReason.Manual false.

Definition demo_env : Env.t :=
  Env.mk (H := demo_id) 0 (fun n => 100 + Z.of_nat n) Bitcoin "oracle"%string f32_zero true true
    (fun _ => true).

Definition is_match {E} `{DecimalLib} `{IdLib} (r : outcome E (option MatchParams.t)) : bool :=
  match r with Ok (Some _) => true | _ => false end.

Definition demo_book : list Order.t :=
  [demo_order 1 21000 500 0 Short Limit; demo_order 2 20000 200 7 Short Limit;
   demo_order 3 20000 300 5 Short Limit; demo_order 4 19000 300 5 Long Limit].

Example sort_orders_price_time_witness :
  map Order.id (sort_orders demo_book Long) = [4; 3; 2; 1] /\
  sort_orders demo_book Long ≡ₚ demo_book.
Proof. split; [by vm_compute|]. apply (sort_orders_price_time demo_book Long). Defined.

Example match_order_picks_best_witness :
  let taker := demo_order 9 0 100 20 Long Market in
  exists mp, match_order demo_env taker demo_book d_zero = Ok (Some mp) /\
    (exists maker expiry fee, maker ∈ demo_book /\ mp = match_of demo_env taker maker expiry fee).
Proof.
  cbn zeta. set (taker := demo_order 9 0 100 20 Long Market).
  assert (Hsome : is_match (match_order demo_env taker demo_book d_zero) = true) by by vm_compute.
  destruct (match_order demo_env taker demo_book d_zero) as [[mp|]| |] eqn:Hm; try discriminate Hsome.
  exists mp. split; [reflexivity|].
  destruct (match_order_picks_best demo_env taker demo_book d_zero mp Hm)
    as (_ & maker & expiry & fee & Hin & _ & _ & _ & Heq).
  exists maker, expiry, fee. split; [exact Hin|exact Heq].
Defined.

Example match_order_rejections_witness :
  match_order demo_env (demo_order 9 0 100 20 Long Limit) demo_book d_zero = Ok None.
Proof. apply (match_order_rejections demo_env). left. reflexivity. Defined.
Section Handlers.
Context `{DL : DecimalLib} `{BL : BitcoinLib} `{IL : IdLib} `{TL : TimeLib}.

Lemma get_referral_status_reads now pk : read_only (get_referral_status now pk).
Proof. unfold get_referral_status, active_status_for_user, get_user, all_referrals_by_referring_user. solve_steps. Qed.

Lemma get_by_trader_reads pk s : read_only (get_by_trader_id_and_state pk s).
Proof. unfold get_by_trader_id_and_state. solve_steps. Qed.

Lemma all_by_direction_reads now dir t b : read_only (all_by_direction_and_type now dir t b).
Proof. unfold all_by_direction_and_type, orders_from_rows. solve_steps. Qed.

Lemma matches_insert_frame {R2} `{Stored R2} `{!Independent R2 MatchesRow.t} now tp :
  steps (keeps R2) (matches_insert now tp).
Proof.
  unfold matches_insert. solve_steps. apply steps_for_each; [apply _|]. solve_steps.
Qed.

Lemma insert_records_ok (l : list MatchesRow.t) d d' :
  for_each (fun record => with_err FromSql (_ ← insert (fun _ => record); mret tt)) l d
    = (Ok tt, d') -> rows d' = rows d ++ l.
Proof.
  revert d; induction l as [|r l IH]; intros d; cbn.
  { intros [= <-]. by rewrite app_nil_r. }
  intros (u & d1 & Hr & Hl)%M_bind_ok. apply IH in Hl.
  apply with_err_ok, M_bind_ok in Hr as (r' & d2 & (-> & _ & ->)%insert_ok & [= _ <-]).
  rewrite Hl. cbn. by rewrite <-app_assoc.
Qed.

Lemma matches_insert_ok now tp d d' : matches_insert now tp d = (Ok tt, d') ->
  exists l, matches_new (E := Anyhow) now tp DbMatchState.Pending = Ok l /\ rows d' = rows d ++ l.
Proof.
  unfold matches_insert. intros (l & d1 & [Hl ->]%lift_ok & H)%M_bind_ok.
  exists l. split; [done|]. by apply insert_records_ok.
Qed.

Lemma set_order_state_ok id s d o d' : set_order_state id s d = (Ok o, d') ->
  d' = set_rows (update_rows (has_order_id id) (with_order_state (db_order_state_from s)) (rows d)) d
  /\ has_order d id = true.
Proof.
  unfold set_order_state. intros (r & d1 & [(r0 & Hr0 & ->) ->]%get_result_ok & [_ ->]%lift_ok)%M_bind_ok.
  split; [done|]. apply filter_head_some in Hr0 as [Hin Hid]. unfold has_order, has.
  apply existsb_exists. exists r0. split; [by apply list_elem_of_In|done].
Qed.

(** The order with id [id] in state [s], the others as they are. *)
Definition put_state (id : Uuid) (s : DbOrderState.t) (l : list OrderRow.t) : list OrderRow.t :=
  update_rows (has_order_id id) (with_order_state s) l.

Definition filled_order_id (tp : TraderMatchParams.t) : Uuid :=
  FilledWith.order_id (TraderMatchParams.filled_with tp).

(** What processing one trader's matches does when it succeeds. *)
Lemma process_match_ok env order tp w w' : process_match env order tp w = (Ok tt, w') ->
  let s := if bool_decide (Order.order_type order = Limit)
           then DbOrderState.Taken else DbOrderState.Matched in
  (exists l, matches_new (E := Anyhow) (Env.now env) tp DbMatchState.Pending = Ok l /\
     rows (World.db w') = rows (World.db w) ++ l) /\
  rows (World.db w') = put_state (filled_order_id tp) s (rows (World.db w)) /\
  World.log w' = World.log w ++ match notification_for (Order.order_reason order) with
    | Some n => [Effect.PushNotification (Order.trader_id order) n]
    | None => [] end.
Proof.
  unfold process_match. cbn zeta.
  intros ([] & w1 & Hins & (u & w2 & Hpush & (o & w3 & Hset & [= <-])%M_bind_ok)%M_bind_ok)%M_bind_ok.
  unfold call, on_db in Hins. destruct (with_err _ _ _) as [r d1] eqn:Hd1 in Hins.
  injection Hins as -> <-. apply with_err_ok in Hd1.
  pose proof (matches_insert_ok _ _ _ _ Hd1) as (l & Hl & Hrows).
  pose proof (matches_insert_frame (R2 := OrderRow.t) (Env.now env) tp (World.db w)) as Hkeep.
  rewrite Hd1 in Hkeep. cbn in Hkeep. unfold keeps in Hkeep.
  assert (World.db w2 = d1 /\ World.log w2 = World.log w ++
    match notification_for (Order.order_reason order) with
    | Some n => [Effect.PushNotification (Order.trader_id order) n] | None => [] end) as [Hdb Hlog].
  { destruct (notification_for _) as [n|].
    - unfold send, emit in Hpush. destruct (Env.notifier_open env); [|done].
      by injection Hpush as _ <-.
    - injection Hpush as _ <-. cbn. by rewrite app_nil_r. }
  unfold query, on_db in Hset. destruct (with_err _ _ _) as [r d2] eqn:Hd2 in Hset.
  injection Hset as -> <-. apply with_err_ok, set_order_state_ok in Hd2 as [-> _].
  cbn [World.db World.log]. rewrite Hdb. split_and!.
  - exists l. split; [done|]. by rewrite <-Hrows.
  - rewrite rows_set_rows, Hkeep. unfold put_state, filled_order_id. by case_bool_decide.
  - done.
Qed.

Lemma query_run {A} (m : Sql A) w r w' : query m w = (r, w') ->
  exists r0 d, m (World.db w) = (r0, d) /\ r = map_err (fun e => Other (FromSql e)) r0 /\
    w' = World.mk d (World.log w).
Proof.
  unfold query, on_db, with_err. destruct (m (World.db w)) as [r0 d] eqn:Hm. cbn.
  intros [= <- <-]. eauto.
Qed.

Lemma query_ok {A} (m : Sql A) w a w' : query m w = (Ok a, w') ->
  m (World.db w) = (Ok a, World.db w') /\ World.log w' = World.log w.
Proof. intros (r0 & d & Hm & Ha & ->)%query_run. destruct r0; try done. cbn in Ha. by simplify_eq. Qed.

Lemma query_reads {A} (m : Sql A) w r w' : read_only m -> query m w = (r, w') -> w' = w.
Proof.
  intros Hm (r0 & d & Hd & _ & ->)%query_run. apply read_only_run in Hd as ->; [|done].
  by destruct w.
Qed.

Lemma discounted_fee_reads env pk w r w' : discounted_fee_percent env pk w = (r, w') -> w' = w.
Proof.
  intros Hr. assert (read_only (discounted_fee_percent env pk)) as Hro.
  { unfold discounted_fee_percent, call. solve_steps. intros w0. unfold on_db.
    pose proof (get_referral_status_reads (Env.now env) pk (World.db w0)) as Hd.
    unfold with_err. destruct (get_referral_status _ _ _) as [? ?]. cbn in *. subst. by destruct w0. }
  by apply read_only_run in Hr.
Qed.

(** The orders after all of [tps] were processed. *)
Definition put_states (s : DbOrderState.t) (tps : list TraderMatchParams.t)
    (l : list OrderRow.t) : list OrderRow.t :=
  fold_left (fun l tp => put_state (filled_order_id tp) s l) tps l.

Lemma process_matches_ok env order tps w w' : Order.order_type order = Market ->
  for_each (process_match env order) tps w = (Ok tt, w') ->
  (exists new, traverse (E := Anyhow) (fun tp => matches_new (Env.now env) tp DbMatchState.Pending) tps
     = Ok new /\ rows (World.db w') = rows (World.db w) ++ concat new) /\
  rows (World.db w') = put_states DbOrderState.Matched tps (rows (World.db w)) /\
  exists pushed, World.log w' = World.log w ++ pushed /\
    Forall (fun e => exists n, e = Effect.PushNotification (Order.trader_id order) n) pushed.
Proof.
  intros Htype. revert w; induction tps as [|tp tps IH]; intros w; cbn.
  { intros [= <-]. split_and!; [|done|exists []; by rewrite app_nil_r].
    exists []. cbn. by rewrite app_nil_r. }
  intros ([] & w1 & Hp & Hrest)%M_bind_ok.
  apply process_match_ok in Hp as ((l & Hl & Hm1) & Ho1 & Hlog1).
  apply IH in Hrest as ((new & Hnew & Hm) & Ho & (pushed & Hlog & Hpush)).
  rewrite Hm, Ho, Hlog, Hm1, Ho1, Hlog1. split_and!.
  - exists (l :: new). rewrite Hl. cbn. rewrite Hnew. cbn. by rewrite app_assoc.
  - rewrite bool_decide_eq_false_2 by congruence. done.
  - eexists. rewrite <-app_assoc. split; [done|]. apply Forall_app. split; [|done].
    destruct (notification_for _); [|done]. repeat constructor. by eexists.
Qed.

Lemma params_insert_frame {R2} `{Stored R2} `{!Independent R2 ChannelOpeningParamsRow.t} now id p :
  steps (keeps R2) (channel_opening_params_insert now id p).
Proof. unfold channel_opening_params_insert. solve_steps. Qed.

Lemma match_order_some_market env order book fee mp :
  match_order env order book fee = Ok (Some mp) -> Order.order_type order = Market.
Proof.
  unfold match_order. case_bool_decide as Ht; [done|]. by destruct (Order.order_type order).
Qed.

(** A trader with an order waiting for execution. *)
Definition waiting (trader : PublicKey) (o : OrderRow.t) : bool :=
  bool_decide (OrderRow.trader_id o = pk_to_string trader) && state_is DbOrderState.Matched o.

Lemma none_waiting trader d :
  get_by_trader_id_and_state trader OrderState.Matched d = (Ok None, d) ->
  List.filter (waiting trader) (rows d) = [].
Proof.
  unfold get_by_trader_id_and_state, optional, mbind, M_bind. rewrite first_desc_run.
  change (fun o => bool_decide (OrderRow.trader_id o = pk_to_string trader) &&
    state_is (db_order_state_from OrderState.Matched) o) with (waiting trader).
  destruct (latest _ _) eqn:Hl; [|intros _; by apply latest_none in Hl].
  cbn. destruct (order_from_row _) as [|[]|] eqn:Ho; try done.
  by apply order_from_row_no_err in Ho.
Qed.

(** The trade handed to the executor. *)
Definition trade_for (order : Order.t) (quantity : f32) (mp : MatchParams.t)
    (p : option ChannelOpeningParams.t) : TradeAndChannelParams.t :=
  TradeAndChannelParams.mk
    (TradeParams.mk (Order.trader_id order) BtcUsd (Order.leverage order) quantity
       (Order.direction order) (TraderMatchParams.filled_with (MatchParams.taker_match mp)))
    (ChannelOpeningParams.trader_reserve <$> p) (ChannelOpeningParams.coordinator_reserve <$> p)
    (p ≫= ChannelOpeningParams.external_funding).

(** C35: a market order is processed successfully only if its trader had no
    order waiting for execution and [match_order] matched it with the open limit
    orders; then the matches of taker and maker are stored as pending, both
    orders are in state [Matched], and the trade is handed to the executor
    exactly when the trader is connected. *)
Theorem process_new_market_order_success (env : Env.t) (order : Order.t)
    (params : option ChannelOpeningParams.t) (w w' : World.t)
    (Hrun : process_new_market_order env order params w = (Ok tt, w')) :
  List.filter (waiting (Order.trader_id order)) (rows (World.db w)) = [] /\
  exists book fee mp,
    all_by_direction_and_type (Env.now env) (opposite (Order.direction order)) Limit true
      (World.db w) = (Ok book, World.db w) /\
    match_order env order book fee = Ok (Some mp) /\
    (exists new, traverse (E := Anyhow)
         (fun tp => matches_new (Env.now env) tp DbMatchState.Pending) (match_params_matches mp)
       = Ok new /\ rows (World.db w') = rows (World.db w) ++ concat new) /\
    rows (World.db w') =
      put_states DbOrderState.Matched (match_params_matches mp) (rows (World.db w)) /\
    exists pushed, Forall (fun e => exists n, e = Effect.PushNotification (Order.trader_id order) n) pushed /\
      if Env.is_connected env (Order.trader_id order)
      then exists quantity, d_to_f32 (Order.quantity order) = Some quantity /\
        World.log w' = World.log w ++ pushed ++ [Effect.ExecuteTrade (trade_for order quantity mp params)]
      else World.log w' = World.log w ++ pushed.
Proof.
  unfold process_new_market_order in Hrun.
  apply M_bind_ok in Hrun as (waiting_order & w1 & Hwait & Hrun).
  pose proof (query_reads _ _ _ _ (get_by_trader_reads _ _) Hwait) as ->.
  apply query_ok in Hwait as [Hwait _]. destruct waiting_order; [done|].
  split; [by apply none_waiting|].
  apply M_bind_ok in Hrun as (book & w1 & Hbook & Hrun).
  pose proof (query_reads _ _ _ _ (all_by_direction_reads _ _ _ _) Hbook) as ->.
  apply query_ok in Hbook as [Hbook _].
  apply M_bind_ok in Hrun as (fee & w1 & Hfee & Hrun).
  apply discounted_fee_reads in Hfee as ->.
  exists book, fee. destruct (match_order env order book fee) as [[mp|]|e|] eqn:Hm;
    [|by apply M_bind_ok in Hrun as (? & ? & _ & ?)..|done].
  exists mp. split; [done|]. split; [done|].
  apply M_bind_ok in Hrun as ([] & w1 & Hms & Hrun).
  apply process_matches_ok in Hms as (Hnew & Hord & (pushed & Hlog & Hpush));
    [|by eapply match_order_some_market].
  apply M_bind_ok in Hrun as ([] & w2 & Hparams & Hrun).
  assert (rows (R := MatchesRow.t) (World.db w2) = rows (World.db w1) /\
    rows (R := OrderRow.t) (World.db w2) = rows (World.db w1) /\
    World.log w2 = World.log w1) as (Hk1 & Hk2 & Hk3).
  { destruct params as [p|]; [|by injection Hparams as <-].
    apply query_run in Hparams as (r0 & d & Hd & _ & ->).
    pose proof (params_insert_frame (R2 := MatchesRow.t) (Env.now env) (Order.id order) p
      (World.db w1)) as H1.
    pose proof (params_insert_frame (R2 := OrderRow.t) (Env.now env) (Order.id order) p
      (World.db w1)) as H2. rewrite Hd in H1, H2. done. }
  assert (World.db w' = World.db w2) as Hdb.
  { destruct (Env.is_connected env _); [|by injection Hrun as <-].
    apply M_bind_ok in Hrun as (q & w3 & [_ ->]%lift_ok & [= <-]). done. }
  rewrite Hdb, Hk1, Hk2. split_and!; [done|done|]. exists pushed. split; [done|].
  destruct (Env.is_connected env _).
  - apply M_bind_ok in Hrun as (q & w3 & [Hq%expect_ok ->]%lift_ok & [= <-]).
    exists q. split; [done|]. cbn. by rewrite Hk3, Hlog, <-app_assoc.
  - injection Hrun as <-. by rewrite Hk3.
Qed.

(** Errors that are neither a rejection of the order nor a missing match. *)
Definition internal (e : TradingError) : Prop :=
  match e with Other _ => True | _ => False end.

Lemma query_errs {A} (m : Sql A) : errs internal (query m).
Proof. intros w e w' (r0 & d & _ & He & _)%query_run. destruct r0; naive_solver. Qed.

Lemma call_errs {A} (m : M Db.t Anyhow A) : errs internal (call m).
Proof.
  intros w e w'. unfold call, on_db, with_err. destruct (m _) as [[] ?]; by intros [= <- _].
Qed.

Lemma process_match_errs env order tp : errs internal (process_match env order tp).
Proof.
  unfold process_match. apply errs_bind; [apply call_errs|intros _].
  apply errs_bind; [|intros _; apply errs_bind; [apply query_errs|intros _; apply errs_ret]].
  destruct (notification_for _); [|apply errs_ret]. unfold send, emit.
  destruct (Env.notifier_open env); [by intros ? ? ? [=]|by apply errs_throw].
Qed.

Lemma discounted_fee_errs env pk : errs internal (discounted_fee_percent env pk).
Proof.
  unfold discounted_fee_percent. apply errs_bind; [|intros fee; apply errs_bind; [apply call_errs|intros s]].
  - apply errs_lift. by intros e ?%expect_no_err.
  - apply errs_lift. intros e H. exfalso. revert H. unfold not.
    intros [H|(? & _ & H)]%outcome_bind_err; by apply expect_no_err in H.
Qed.

(** When an order is rejected because another one of its trader waits for
    execution, nothing has changed and nothing was sent; when no match is found,
    the only change is that the order is [Failed]. *)
Theorem process_new_market_order_rejected (env : Env.t) (order : Order.t)
    (params : option ChannelOpeningParams.t) (w w' : World.t) (e : TradingError)
    (Hrun : process_new_market_order env order params w = (Err e, w')) :
  match e with
  | InvalidOrder _ _ => w' = w
  | NoMatchFound id => id = Order.id order /\
      World.db w' = set_rows (put_state id DbOrderState.Failed (rows (World.db w))) (World.db w) /\
      World.log w' = World.log w
  | Other _ => True
  end.
Proof.
  assert (Hcase : internal e \/ ~ internal e) by (destruct e; naive_solver).
  destruct Hcase as [|He]; [by destruct e|].
  unfold process_new_market_order in Hrun.
  apply M_bind_err in Hrun as [Hrun%query_errs|(waiting_order & w1 & Hwait & Hrun)]; [done|].
  apply query_reads in Hwait as ->; [|apply get_by_trader_reads].
  destruct waiting_order; [by injection Hrun as <- <-|].
  apply M_bind_err in Hrun as [Hrun%query_errs|(book & w1 & Hbook & Hrun)]; [done|].
  apply query_reads in Hbook as ->; [|apply all_by_direction_reads].
  apply M_bind_err in Hrun as [Hrun%discounted_fee_errs|(fee & w1 & Hfee & Hrun)]; [done|].
  apply discounted_fee_reads in Hfee as ->.
  destruct (match_order _ _ _ _) as [[mp|]|a|].
  - exfalso. apply M_bind_err in Hrun as [Hrun%(errs_for_each internal)|(? & w1 & _ & Hrun)];
      [done|intros ?; apply process_match_errs|].
    apply M_bind_err in Hrun as [Hrun|(? & w2 & _ & Hrun)].
    { destruct params; [by apply query_errs in Hrun|done]. }
    destruct (Env.is_connected _ _); [|done].
    apply M_bind_err in Hrun as [Hrun|(? & ? & _ & Hrun)]; [|done].
    injection Hrun as Hrun _. by apply expect_no_err in Hrun.
  - apply M_bind_err in Hrun as [Hrun%query_errs|(o & w1 & Hset & Hrun)]; [done|].
    injection Hrun as <- <-. apply query_run in Hset as (r0 & d & Hset & Ho & ->).
    destruct r0; try done. by apply set_order_state_ok in Hset as [-> _].
  - apply M_bind_err in Hrun as [Hrun%query_errs|(o & w1 & _ & Hrun)]; [done|].
    by injection Hrun as <- <-.
  - done.
Qed.

(** Executing a pending match rebuilds the trader's [FilledWith] from the
    stored matches, but each rebuilt match names the trader's own order where the
    one [match_order] made names the maker's. *)
Theorem pending_match_names_own_order (env : Env.t) (id : Uuid) (d d' : Db.t)
    (ms : list Matches.t) (f : FilledWith.t)
    (Hload : get_matches_by_order_id (Env.now env) id d = (Ok ms, d'))
    (Hf : get_filled_with_from_matches env ms = Ok f) :
  FilledWith.order_id f = id /\ FilledWith.matches f <> [] /\
  Forall (fun m => Match.order_id m = id) (FilledWith.matches f).
Proof.
  unfold get_matches_by_order_id in Hload.
  apply M_bind_ok in Hload as (l & d1 & Hl & [Hms%traverse_ok ->]%lift_ok).
  rewrite load_run in Hl. injection Hl as <- _.
  assert (Hid : Forall (fun m => Matches.order_id m = id) ms).
  { apply Forall_forall. intros m Hm. apply list_elem_of_lookup in Hm as [i Hi].
    destruct (Forall2_lookup_r _ _ _ _ _ Hms Hi) as (r & Hr & Hconv).
    apply list_elem_of_lookup_2, list_elem_of_In, filter_In in Hr as [_ Hr%Z.eqb_eq].
    unfold matches_from_row in Hconv. inv_ok. by subst. }
  unfold get_filled_with_from_matches in Hf. destruct ms as [|m ms]; [done|].
  apply outcome_bind_ok in Hf as (expiry & _ & [= <-]). cbn.
  apply Forall_cons in Hid as [Hm Hid]. split_and!; [done|done|].
  constructor; [done|]. by apply Forall_map.
Qed.
End Handlers.

(** A book with one short limit order, and a trader's long market order, stored;
    the trader is a registered user. *)
Definition demo_order_row (id price quantity : Z) (d : DbDirection.t) (t : DbOrderType.t) : OrderRow.t :=
  OrderRow.mk id id (f32_of_Z price) "trader" d (f32_of_Z quantity) 0 t 1000 DbOrderState.Open
    DbContractSymbol.BtcUsd (f32_of_Z 1) DbOrderReason.Manual false.

Definition demo_world : World.t :=
  World.mk (H0 := demo_id)
    (set_rows [UserRow.mk 1 "trader" EmptyString 0 EmptyString 0 None None EmptyString None None]
      (set_rows [demo_order_row 1 20000 200 DbDirection.Short DbOrderType.Limit;
                 demo_order_row 9 0 100 DbDirection.Long DbOrderType.Market] empty_db)) [].

Example process_new_market_order_success_witness :
  exists w', process_new_market_order demo_env (demo_order 9 0 100 0 Long Market) None demo_world
               = (Ok tt, w') /\
    map OrderRow.order_state (rows (World.db w')) = [DbOrderState.Matched; DbOrderState.Matched] /\
    List.filter (waiting (IL := demo_id) "trader") (rows (World.db demo_world)) = [].
Proof.
  set (order := demo_order 9 0 100 0 Long Market).
  assert (Hok : is_ok (process_new_market_order demo_env order None demo_world).1 = true)
    by by vm_compute.
  assert (Hst : map OrderRow.order_state
      (rows (World.db (process_new_market_order demo_env order None demo_world).2))
    = [DbOrderState.Matched; DbOrderState.Matched]) by by vm_compute.
  destruct (process_new_market_order demo_env order None demo_world) as [[[]| |] w'] eqn:Hrun;
    try discriminate Hok.
  exists w'. split; [reflexivity|]. split; [exact Hst|].
  apply (process_new_market_order_success demo_env order None demo_world w' Hrun).
Defined.

(** The same order for a trader whose previous order is still [Matched]. *)
Definition demo_world_waiting : World.t :=
  World.mk (H0 := demo_id)
    (set_rows [with_order_state DbOrderState.Matched
                 (demo_order_row 8 0 100 DbDirection.Long DbOrderType.Market)] empty_db) [].

Example process_new_market_order_rejected_witness :
  exists e, process_new_market_order demo_env (demo_order 9 0 100 0 Long Market) None demo_world_waiting
    = (Err e, demo_world_waiting).
Proof.
  set (order := demo_order 9 0 100 0 Long Market).
  destruct (process_new_market_order demo_env order None demo_world_waiting) as [r w'] eqn:Hrun.
  assert (Hr : match (process_new_market_order demo_env order None demo_world_waiting).1 with
               | Err (InvalidOrder _ _) => true | _ => false end = true) by (vm_compute; reflexivity).
  rewrite Hrun in Hr. destruct r as [|[pk id| |]|]; try discriminate Hr. exists (InvalidOrder pk id).
  rewrite (process_new_market_order_rejected demo_env order None demo_world_waiting w' _ Hrun).
  reflexivity.
Defined.

Definition demo_match_db : Db.t :=
  set_rows [MatchesRow.mk 50 DbMatchState.Pending 9 "trader" 1 "maker" (f32_of_Z 20000) (f32_of_Z 100)
              0 0 0] empty_db.

Example pending_match_names_own_order_witness :
  exists ms d' f, get_matches_by_order_id (IL := demo_id) (Env.now demo_env) 9 demo_match_db = (Ok ms, d') /\
    get_filled_with_from_matches demo_env ms = Ok f /\
    map Matches.match_order_id ms = [1] /\
    FilledWith.order_id f = 9 /\ FilledWith.matches f <> [] /\
    Forall (fun m => Match.order_id m = 9) (FilledWith.matches f).
Proof.
  assert (Hok : match (get_matches_by_order_id (IL := demo_id) (Env.now demo_env) 9 demo_match_db).1 with
    | Ok ms => is_ok (get_filled_with_from_matches demo_env ms) &&
               bool_decide (map Matches.match_order_id ms = [1])
    | _ => false end = true) by by vm_compute.
  destruct (get_matches_by_order_id (IL := demo_id) (Env.now demo_env) 9 demo_match_db)
    as [[ms| |] d'] eqn:Hms; try discriminate Hok. cbn [fst] in Hok.
  destruct (get_filled_with_from_matches demo_env ms) as [f| |] eqn:Hf; try discriminate Hok.
  exists ms, d', f. split; [reflexivity|]. split; [exact Hf|].
  split; [by apply bool_decide_eq_true in Hok|].
  apply (pending_match_names_own_order demo_env 9 demo_match_db d' ms f Hms Hf).
Defined.

(** With a single limit order on the other side, a market order for more
    contracts than that order has is matched all the same, for all its contracts. *)
Theorem match_order_overfills_single_maker :
  let maker := demo_order 1 20000 10 0 Short Limit in
  let taker := demo_order 9 0 100 20 Long Market in
  exists mp, match_order demo_env taker [maker] d_zero = Ok (Some mp) /\
    FilledWith.matches (TraderMatchParams.filled_with (MatchParams.taker_match mp)) <> [] /\
    Forall (fun m => Match.order_id m = Order.id maker /\
                     (dval (Order.quantity maker) < dval (Match.quantity m))%Q)
      (FilledWith.matches (TraderMatchParams.filled_with (MatchParams.taker_match mp))).
Proof.
  cbn zeta. set (maker := demo_order 1 20000 10 0 Short Limit).
  set (taker := demo_order 9 0 100 20 Long Market).
  assert (Hok : match match_order demo_env taker [maker] d_zero with
    | Ok (Some mp) => match FilledWith.matches (TraderMatchParams.filled_with (MatchParams.taker_match mp)) with
      | [m] => (Match.order_id m =? Order.id maker) && d_ltb (Order.quantity maker) (Match.quantity m)
      | _ => false end
    | _ => false end = true) by by vm_compute.
  destruct (match_order demo_env taker [maker] d_zero) as [[mp|]| |]; try discriminate Hok.
  exists mp. split; [done|].
  destruct (FilledWith.matches _) as [|m [|]]; try discriminate Hok.
  apply andb_true_iff in Hok as [Hid%Z.eqb_eq Hlt%d_ltb_spec]. split; [done|]. by repeat constructor.
Qed.
