(* ===== verification/PositionsDb.v ===== *)
(** * [coordinator/src/db/positions.rs], [db/trades.rs]

    Positions and trades as stored: the queries that move a position through its
    states, and the conversions to [position/models.rs] and [trade/models.rs]. *)

From stdpp Require Import base list option strings relations.
From Stdlib Require Import ZArith Lia.
From S2P Require Import Prelude Machine External Demo Commons SqlTypes Schema Db.

#[local] Open Scope Z_scope.

(** ** [position/models.rs], [trade/models.rs] *)

Module PositionState.
Inductive t :=
  | Proposed | Open
  | Closing (closing_price : f32)
  | Closed (pnl : Z)
  | Failed | Rollover | Resizing.
End PositionState.

Module NewPosition.
Record t `{DecimalLib} `{IdLib} := mk {
  contract_symbol : ContractSymbol;
  trader_leverage : f32;
  quantity : f32;
  trader_direction : Direction;
  trader : PublicKey;
  average_entry_price : f32;
  trader_liquidation_price : Decimal;
  coordinator_liquidation_price : Decimal;
  coordinator_margin : Amount;
  expiry_timestamp : OffsetDateTime;
  temporary_contract_id : ContractId;
  coordinator_leverage : f32;
  trader_margin : Amount;
  stable : bool;
  order_matching_fees : Amount;
}.
#[global] Arguments mk {_ _}.
End NewPosition.

Module Position.
Record t `{IdLib} := mk {
  id : Z;
  trader : PublicKey;
  contract_symbol : ContractSymbol;
  quantity : f32;
  trader_direction : Direction;
  average_entry_price : f32;
  closing_price : option f32;
  trader_realized_pnl_sat : option Z;
  trader_liquidation_price : f32;
  coordinator_liquidation_price : f32;
  trader_margin : Amount;
  coordinator_margin : Amount;
  trader_leverage : f32;
  coordinator_leverage : f32;
  position_state : PositionState.t;
  order_matching_fees : Amount;
  creation_timestamp : OffsetDateTime;
  expiry_timestamp : OffsetDateTime;
  update_timestamp : OffsetDateTime;
  temporary_contract_id : option ContractId;
  stable : bool;
}.
#[global] Arguments mk {_}.
End Position.

Module NewTrade.
Record t `{IdLib} := mk {
  position_id : Z;
  contract_symbol : ContractSymbol;
  trader_pubkey : PublicKey;
  quantity : f32;
  trader_leverage : f32;
  trader_direction : Direction;
  average_price : f32;
  order_matching_fee : Amount;
  trader_realized_pnl_sat : option Z;
}.
#[global] Arguments mk {_}.
End NewTrade.

Module Trade.
Record t `{IdLib} := mk {
  id : Z;
  position_id : Z;
  contract_symbol : ContractSymbol;
  trader_pubkey : PublicKey;
  quantity : f32;
  trader_leverage : f32;
  direction : Direction;
  average_price : f32;
  timestamp : OffsetDateTime;
  order_matching_fee : Amount;
  trader_realized_pnl_sat : option Z;
}.
#[global] Arguments mk {_}.
End Trade.

(** ** Conversions *)

(** [impl From<models::PositionState> for PositionState]. *)
Definition db_position_state_from (value : PositionState.t) : DbPositionState.t :=
  match value with
  | PositionState.Open => DbPositionState.Open
  | PositionState.Closing _ => DbPositionState.Closing
  | PositionState.Closed _ => DbPositionState.Closed
  | PositionState.Rollover => DbPositionState.Rollover
  | PositionState.Resizing => DbPositionState.Resizing
  | PositionState.Proposed => DbPositionState.Proposed
  | PositionState.Failed => DbPositionState.Failed
  end.

(** [impl From<(PositionState, Option<i64>, Option<f32>)> for models::PositionState]. *)
Definition position_state_from_db (position_state : DbPositionState.t) (realized_pnl : option Z)
    (closing_price : option f32) : PositionState.t :=
  match position_state with
  | DbPositionState.Open => PositionState.Open
  | DbPositionState.Closing => PositionState.Closing (default f32_zero closing_price)
  | DbPositionState.Closed => PositionState.Closed (default 0 realized_pnl)
  | DbPositionState.Rollover => PositionState.Rollover
  | DbPositionState.Resizing => PositionState.Resizing
  | DbPositionState.Proposed => PositionState.Proposed
  | DbPositionState.Failed => PositionState.Failed
  end.

Section Conversions.
Context `{DL : DecimalLib} `{IL : IdLib}.

(** [impl From<Position> for models::Position]. *)
Definition position_from_row {E} (value : PositionRow.t) : outcome E Position.t :=
  trader ← expect (pk_from_str (PositionRow.trader_pubkey value));
  temporary_contract_id ← match PositionRow.temporary_contract_id value with
                          | Some contract_id => Some <$> expect (hex_decode contract_id)
                          | None => Ok None
                          end;
  Ok (Position.mk (PositionRow.id value) trader
        (contract_symbol_from_db (PositionRow.contract_symbol value))
        (PositionRow.quantity value) (direction_from_db (PositionRow.trader_direction value))
        (PositionRow.average_entry_price value) (PositionRow.closing_price value)
        (PositionRow.trader_realized_pnl_sat value) (PositionRow.trader_liquidation_price value)
        (PositionRow.coordinator_liquidation_price value)
        (as_u64 (PositionRow.trader_margin value)) (as_u64 (PositionRow.coordinator_margin value))
        (PositionRow.trader_leverage value) (PositionRow.coordinator_leverage value)
        (position_state_from_db (PositionRow.position_state value)
           (PositionRow.trader_realized_pnl_sat value) (PositionRow.closing_price value))
        (as_u64 (PositionRow.order_matching_fees value)) (PositionRow.creation_timestamp value)
        (PositionRow.expiry_timestamp value) (PositionRow.update_timestamp value)
        temporary_contract_id (PositionRow.stable value)).

(** [impl From<models::NewPosition> for NewPosition], with the defaults of the
    columns it leaves out: both timestamps now, the nullable columns [NULL]. *)
Definition position_row {E} (now : OffsetDateTime) (value : NewPosition.t)
    : outcome E (Z -> PositionRow.t) :=
  trader_liquidation_price ← expect (d_to_f32 (NewPosition.trader_liquidation_price value));
  coordinator_liquidation_price ←
    expect (d_to_f32 (NewPosition.coordinator_liquidation_price value));
  Ok (fun id => PositionRow.mk id (db_contract_symbol_from (NewPosition.contract_symbol value))
        (NewPosition.trader_leverage value) (NewPosition.quantity value)
        (db_direction_from (NewPosition.trader_direction value))
        (NewPosition.average_entry_price value) trader_liquidation_price
        DbPositionState.Proposed (as_i64 (NewPosition.coordinator_margin value)) now
        (NewPosition.expiry_timestamp value) now (pk_to_string (NewPosition.trader value))
        (Some (hex_encode (NewPosition.temporary_contract_id value))) None None None
        (NewPosition.coordinator_leverage value) (as_i64 (NewPosition.trader_margin value))
        (NewPosition.stable value) coordinator_liquidation_price
        (as_i64 (NewPosition.order_matching_fees value))).

(** [impl From<models::NewTrade> for NewTrade]; [timestamp] defaults to now. *)
Definition trade_row (now : OffsetDateTime) (value : NewTrade.t) (id : Z) : TradeRow.t :=
  TradeRow.mk id (NewTrade.position_id value)
    (db_contract_symbol_from (NewTrade.contract_symbol value))
    (pk_to_string (NewTrade.trader_pubkey value)) (NewTrade.quantity value)
    (NewTrade.trader_leverage value) (db_direction_from (NewTrade.trader_direction value))
    (NewTrade.average_price value) now (as_i64 (NewTrade.order_matching_fee value))
    (NewTrade.trader_realized_pnl_sat value).

(** [impl From<Trade> for models::Trade]. *)
Definition trade_from_row {E} (value : TradeRow.t) : outcome E Trade.t :=
  trader_pubkey ← expect (pk_from_str (TradeRow.trader_pubkey value));
  Ok (Trade.mk (TradeRow.id value) (TradeRow.position_id value)
        (contract_symbol_from_db (TradeRow.contract_symbol value)) trader_pubkey
        (TradeRow.quantity value) (TradeRow.trader_leverage value)
        (direction_from_db (TradeRow.direction value)) (TradeRow.average_price value)
        (TradeRow.timestamp value) (as_u64 (TradeRow.order_matching_fee_sat value))
        (TradeRow.trader_realized_pnl_sat value)).
End Conversions.

(** ** Queries on [positions] *)

Import PositionRow.

Section Positions.
Context `{DL : DecimalLib} `{IL : IdLib}.

Definition is_trader (pk : string) (p : PositionRow.t) : bool := bool_decide (trader_pubkey p = pk).
Definition in_state (s : DbPositionState.t) (p : PositionRow.t) : bool :=
  bool_decide (position_state p = s).
(** [position_state.eq_any(states)]. *)
Definition in_states (l : list PositionState.t) (p : PositionRow.t) : bool :=
  existsb (fun s => in_state (db_position_state_from s) p) l.
Definition has_id (i : Z) (p : PositionRow.t) : bool := PositionRow.id p =? i.

Definition positions_from_rows (l : list PositionRow.t) : Sql (list Position.t) :=
  lift (traverse position_from_row l).

Definition get_position_by_trader (trader_pubkey : PublicKey) (states : list PositionState.t)
    : Sql (option Position.t) :=
  let query p := is_trader (pk_to_string trader_pubkey) p
                 && match states with [] => true | _ => in_states states p end in
  x ← optional (first_desc creation_timestamp query);
  match x with
  | Some x => position ← lift (position_from_row x); mret (Some position)
  | None => mret None
  end.

Definition get_all_open_positions_with_expiry_before (expiry : OffsetDateTime)
    : Sql (list Position.t) :=
  positions ← load (fun p => in_state DbPositionState.Open p && (expiry_timestamp p <? expiry));
  positions_from_rows positions.

(** The states a position is charged funding fees in. *)
Definition is_active (p : PositionRow.t) : bool :=
  in_state DbPositionState.Open p || in_state DbPositionState.Rollover p
  || in_state DbPositionState.Resizing p.

Definition get_all_active_positions_open_before (open_before_timestamp : OffsetDateTime)
    : Sql (list Position.t) :=
  positions ← load (fun p => is_active p && (creation_timestamp p <? open_before_timestamp));
  positions_from_rows positions.

Definition get_all_open_positions : Sql (list Position.t) :=
  positions ← load (in_state DbPositionState.Open);
  positions_from_rows positions.

Definition get_all_closed_positions : Sql (list Position.t) :=
  positions ← load (in_state DbPositionState.Closed);
  positions_from_rows positions.

Definition get_all_open_or_closing_positions : Sql (list Position.t) :=
  positions ← load (fun p => in_state DbPositionState.Open p || in_state DbPositionState.Closing p);
  positions_from_rows positions.

Definition update_position_state (now : OffsetDateTime) (trader_pubkey : string)
    (original : list PositionState.t) (updated : PositionState.t) : Sql Position.t :=
  match original with
  | [] => throw NotFound
  | _ =>
    position ← get_result (update
      (fun p => is_trader trader_pubkey p && in_states original p)
      (fun p => with_update_timestamp now
                  (with_position_state (db_position_state_from updated) p)));
    lift (position_from_row position)
  end.

(** [closing_price.map(|price| price.to_f32().expect(..))]. *)
Definition opt_to_f32 {E} (d : option Decimal) : outcome E (option f32) :=
  match d with Some d => Some <$> expect (d_to_f32 d) | None => Ok None end.

Definition set_open_position_to_closing (now : OffsetDateTime) (trader : PublicKey)
    (closing_price : option Decimal) : Sql nat :=
  closing_price ← lift (opt_to_f32 closing_price);
  execute (update
    (fun p => is_trader (pk_to_string trader) p && in_state DbPositionState.Open p)
    (fun p => with_update_timestamp now (with_closing_price closing_price
                (with_position_state DbPositionState.Closing p)))).

Definition set_position_to_closed_with_pnl (now : OffsetDateTime) (id : Z)
    (trader_realized_pnl_sat : Z) (closing_price : Decimal) : Sql nat :=
  closing_price ← lift (expect (d_to_f32 closing_price));
  execute (update (has_id id)
    (fun p => with_closing_price (Some closing_price) (with_update_timestamp now
                (with_trader_realized_pnl_sat (Some trader_realized_pnl_sat)
                   (with_position_state DbPositionState.Closed p))))).

Definition set_position_to_closed (now : OffsetDateTime) (id : Z) : M Db.t Anyhow unit :=
  affected_rows ← with_err FromSql (execute (update (has_id id)
    (fun p => with_update_timestamp now (with_position_state DbPositionState.Closed p))));
  lift (ensure (negb (Nat.eqb affected_rows 0)) (Msg "Could not update position to Closed")).

(** SQL's [+] on [bigint]: [NULL] if the column is, an error beyond 64 bits. *)
Definition sql_add (column x : Z) : outcome SqlError Z :=
  ok_or NumericOutOfRange (checked_i64 (column + x)).
Definition sql_add_nullable (column : option Z) (x : Z) : outcome SqlError (option Z) :=
  match column with Some c => Some <$> sql_add c x | None => Ok None end.

Definition set_position_to_resizing (now : OffsetDateTime) (trader_pubkey : PublicKey)
    (temporary_contract_id : ContractId) (quantity : Decimal) (trader_direction : Direction)
    (trader_margin coordinator_margin : Amount) (average_entry_price : Decimal)
    (expiry : OffsetDateTime) (coordinator_liquidation_price trader_liquidation_price : Decimal)
    (realized_pnl : option SignedAmount) (order_matching_fee : Amount) : Sql nat :=
  let resize_trader_realized_pnl_sat := default 0 realized_pnl in
  quantity ← lift (expect (d_to_f32 quantity));
  average_entry_price ← lift (expect (d_to_f32 average_entry_price));
  trader_liquidation_price ← lift (expect (d_to_f32 trader_liquidation_price));
  coordinator_liquidation_price ← lift (expect (d_to_f32 coordinator_liquidation_price));
  length <$> try_update
    (fun p => is_trader (pk_to_string trader_pubkey) p && in_state DbPositionState.Open p)
    (fun p =>
       realized ← sql_add_nullable (trader_realized_pnl_sat p) resize_trader_realized_pnl_sat;
       fees ← sql_add (order_matching_fees p) (as_i64 order_matching_fee);
       Ok (with_order_matching_fees fees (with_update_timestamp now
          (with_trader_margin (as_i64 trader_margin) (with_trader_unrealized_pnl_sat (Some 0)
          (with_trader_realized_pnl_sat realized (with_expiry_timestamp expiry
          (with_coordinator_margin (as_i64 coordinator_margin)
          (with_coordinator_liquidation_price coordinator_liquidation_price
          (with_trader_liquidation_price trader_liquidation_price
          (with_average_entry_price average_entry_price
          (with_trader_direction (db_direction_from trader_direction)
          (with_quantity quantity
          (with_temporary_contract_id (Some (hex_encode temporary_contract_id))
          (with_position_state DbPositionState.Resizing p))))))))))))))).

Definition finish_rollover_protocol (now : OffsetDateTime) (trader_pubkey : string)
    (temporary_contract_id : ContractId) (leverage_coordinator : Decimal)
    (margin_coordinator : Amount) (liquidation_price_coordinator leverage_trader : Decimal)
    (margin_trader : Amount) (liquidation_price_trader : Decimal) : Sql nat :=
  leverage_coordinator ← lift (expect (d_to_f32 leverage_coordinator));
  liquidation_price_coordinator ← lift (expect (d_to_f32 liquidation_price_coordinator));
  leverage_trader ← lift (expect (d_to_f32 leverage_trader));
  liquidation_price_trader ← lift (expect (d_to_f32 liquidation_price_trader));
  execute (update
    (fun p => is_trader trader_pubkey p && in_state DbPositionState.Rollover p)
    (fun p => with_trader_liquidation_price liquidation_price_trader
       (with_trader_margin (as_i64 margin_trader) (with_trader_leverage leverage_trader
       (with_coordinator_liquidation_price liquidation_price_coordinator
       (with_coordinator_margin (as_i64 margin_coordinator)
       (with_coordinator_leverage leverage_coordinator (with_update_timestamp now
       (with_temporary_contract_id (Some (hex_encode temporary_contract_id))
       (with_position_state DbPositionState.Open p)))))))))).

Definition set_position_to_open (now : OffsetDateTime) (trader_pubkey : string)
    (temporary_contract_id : ContractId) : Sql nat :=
  execute (update
    (fun p => is_trader trader_pubkey p
       && (in_state DbPositionState.Rollover p || in_state DbPositionState.Resizing p))
    (fun p => with_update_timestamp now
       (with_temporary_contract_id (Some (hex_encode temporary_contract_id))
          (with_position_state DbPositionState.Open p)))).

Definition update_unrealized_pnl (now : OffsetDateTime) (id pnl : Z) : M Db.t Anyhow unit :=
  affected_rows ← with_err FromSql (execute (update (has_id id)
    (fun p => with_update_timestamp now (with_trader_unrealized_pnl_sat (Some pnl) p))));
  lift (ensure (negb (Nat.eqb affected_rows 0)) (Msg "Could not update unrealized pnl")).

Definition rollover_position (now : OffsetDateTime) (trader_pubkey : PublicKey)
    (expiry_timestamp : OffsetDateTime) : M Db.t Anyhow unit :=
  affected_rows ← with_err FromSql (execute (update
    (fun p => is_trader (pk_to_string trader_pubkey) p && in_state DbPositionState.Open p)
    (fun p => with_update_timestamp now (with_position_state DbPositionState.Rollover
                (with_expiry_timestamp expiry_timestamp p)))));
  lift (ensure (Nat.ltb 0 affected_rows) (Msg "Could not set position to rollover")).

Definition position_insert (now : OffsetDateTime) (new_position : NewPosition.t)
    : M Db.t Anyhow Position.t :=
  row ← lift (position_row now new_position);
  position ← with_err FromSql (insert row);
  lift (position_from_row position).
End Positions.

(** ** Queries on [trades] *)

Section Trades.
Context `{IL : IdLib}.

Definition trade_insert (now : OffsetDateTime) (trade : NewTrade.t) : Sql Trade.t :=
  trade ← insert (trade_row now trade);
  lift (trade_from_row trade).

Definition get_latest_for_position (position_id : Z) : Sql (option Trade.t) :=
  trade ← optional (first_desc TradeRow.id (fun t => TradeRow.position_id t =? position_id));
  match trade with
  | Some trade => trade ← lift (trade_from_row trade); mret (Some trade)
  | None => mret None
  end.

Definition get_trades (trader_pubkey : PublicKey) : Sql (list Trade.t) :=
  trades ← load (fun t => bool_decide (TradeRow.trader_pubkey t = pk_to_string trader_pubkey));
  lift (traverse trade_from_row trades).
End Trades.

(** ** The life of a position *)

(** The moves between position states the coordinator makes. *)
Inductive lifecycle : DbPositionState.t -> DbPositionState.t -> Prop :=
  | opened : lifecycle DbPositionState.Proposed DbPositionState.Open
  | open_failed : lifecycle DbPositionState.Proposed DbPositionState.Failed
  | closing : lifecycle DbPositionState.Open DbPositionState.Closing
  | resizing : lifecycle DbPositionState.Open DbPositionState.Resizing
  | rolling_over : lifecycle DbPositionState.Open DbPositionState.Rollover
  | close_rejected : lifecycle DbPositionState.Closing DbPositionState.Open
  | resized : lifecycle DbPositionState.Resizing DbPositionState.Open
  | rolled_over : lifecycle DbPositionState.Rollover DbPositionState.Open
  | closed s : lifecycle s DbPositionState.Closed.

(** A row keeps its identity and only makes such moves. *)
Definition moved (p p' : PositionRow.t) : Prop :=
  id p' = id p /\ trader_pubkey p' = trader_pubkey p /\
  creation_timestamp p' = creation_timestamp p /\
  rtc lifecycle (position_state p) (position_state p').

#[export] Instance moved_preorder : PreOrder moved.
Proof.
  unfold moved. split; [intros p; split_and!; done|].
  intros p q r (?&?&?&?) (?&?&?&?). split_and!; try congruence. by etrans.
Qed.

Section Lifecycle.
Context `{DL : DecimalLib} `{IL : IdLib}.

(** The writes to [positions] of the coordinator: the statements above with the
    states its callers pass ([dlc_protocol.rs], [node.rs], [trade/mod.rs],
    [node/*.rs], [collaborative_revert.rs]). *)
Inductive PositionOp :=
  | Insert (now : OffsetDateTime) (new_position : NewPosition.t)
  | FinishOpen (now : OffsetDateTime) (trader : string)
  | FinishResize (now : OffsetDateTime) (trader : string)
  | RejectOpen (now : OffsetDateTime) (trader : string)
  | RejectUpdate (now : OffsetDateTime) (trader : string)
  | SetClosing (now : OffsetDateTime) (trader : PublicKey) (closing_price : option Decimal)
  | CloseWithPnl (now : OffsetDateTime) (id pnl : Z) (closing_price : Decimal)
  | Close (now : OffsetDateTime) (id : Z)
  | Resize (now : OffsetDateTime) (trader : PublicKey) (contract : ContractId) (quantity : Decimal)
      (direction : Direction) (trader_margin coordinator_margin : Amount) (entry_price : Decimal)
      (expiry : OffsetDateTime) (coordinator_liquidation trader_liquidation : Decimal)
      (realized_pnl : option SignedAmount) (order_matching_fee : Amount)
  | Rollover (now : OffsetDateTime) (trader : PublicKey) (expiry : OffsetDateTime)
  | FinishRollover (now : OffsetDateTime) (trader : string) (contract : ContractId)
      (leverage_coordinator : Decimal) (margin_coordinator : Amount)
      (liquidation_coordinator leverage_trader : Decimal) (margin_trader : Amount)
      (liquidation_trader : Decimal)
  | SetOpen (now : OffsetDateTime) (trader : string) (contract : ContractId)
  | UpdateUnrealizedPnl (now : OffsetDateTime) (id pnl : Z).

(** The database after an operation, whatever it returned. *)
Definition run_op (op : PositionOp) (d : Db.t) : Db.t :=
  match op with
  | Insert now p => (position_insert now p d).2
  | FinishOpen now pk =>
    (update_position_state now pk [PositionState.Proposed] PositionState.Open d).2
  | FinishResize now pk =>
    (update_position_state now pk [PositionState.Resizing] PositionState.Open d).2
  | RejectOpen now pk =>
    (update_position_state now pk [PositionState.Proposed] PositionState.Failed d).2
  | RejectUpdate now pk =>
    (update_position_state now pk [PositionState.Closing f32_zero; PositionState.Rollover]
       PositionState.Open d).2
  | SetClosing now pk price => (set_open_position_to_closing now pk price d).2
  | CloseWithPnl now id pnl price => (set_position_to_closed_with_pnl now id pnl price d).2
  | Close now id => (set_position_to_closed now id d).2
  | Resize now pk c q dir tm cm ep ex cl tl pnl fee =>
    (set_position_to_resizing now pk c q dir tm cm ep ex cl tl pnl fee d).2
  | Rollover now pk expiry => (rollover_position now pk expiry d).2
  | FinishRollover now pk c lc mc pc lt mt pt =>
    (finish_rollover_protocol now pk c lc mc pc lt mt pt d).2
  | SetOpen now pk c => (set_position_to_open now pk c d).2
  | UpdateUnrealizedPnl now id pnl => (update_unrealized_pnl now id pnl d).2
  end.

(** The rows of [d'] are those of [d], moved on, followed by new positions that
    started as proposed ones. *)
Definition evolved (d d' : Db.t) : Prop :=
  exists l new, rows d' = l ++ new /\ Forall2 moved (rows d) l /\
    Forall (fun p => rtc lifecycle DbPositionState.Proposed (position_state p)) new.

#[export] Instance evolved_preorder : PreOrder evolved.
Proof.
  split.
  - intros d. exists (rows d), []. rewrite app_nil_r. split_and!; done.
  - intros d1 d2 d3 (l1 & n1 & H1 & Hm1 & Hn1) (l2 & n2 & H2 & Hm2 & Hn2).
    rewrite H1 in Hm2. apply Forall2_app_inv_l in Hm2 as (l & n & Hl & Hn & ->).
    exists l, (n ++ n2). split_and!; [by rewrite H2, <-app_assoc|by etrans|].
    apply Forall_app. split; [|done]. clear -Hn1 Hn.
    induction Hn as [|p q ps qs (_&_&_&?)]; [constructor|]. inversion Hn1; subst.
    constructor; [by etrans|by apply IHHn].
Qed.

Lemma evolved_rows d d' : Forall2 moved (rows d) (rows d') -> evolved d d'.
Proof. intros H. exists (rows d'), []. by rewrite app_nil_r. Qed.

Lemma update_evolves p f : (forall r, p r = true -> moved r (f r)) -> steps evolved (update p f).
Proof.
  intros Hf d. apply evolved_rows. cbn [update snd]. rewrite rows_set_rows. unfold update_rows.
  apply Forall2_fmap_r, Forall_Forall2_diag, Forall_true. intros r. cbn.
  destruct (p r) eqn:Hp; [by apply Hf|done].
Qed.

Lemma try_update_evolves p f : (forall r r', p r = true -> f r = Ok r' -> moved r r') ->
  steps evolved (try_update p f).
Proof.
  intros Hf d. unfold try_update. destruct (traverse _ _); [|done..].
  apply evolved_rows. cbn [snd]. rewrite rows_set_rows.
  apply Forall2_fmap_r, Forall_Forall2_diag, Forall_true. intros r. cbn.
  destruct (p r) eqn:Hp; [|done]. destruct (f r) eqn:Hr; [by apply Hf|done..].
Qed.

Lemma insert_evolves mk : (forall i, position_state (mk i) = DbPositionState.Proposed) ->
  steps evolved (insert (R := PositionRow.t) mk).
Proof.
  intros Hmk d. exists (rows d), [mk (Table.next_id (tbl (R := PositionRow.t) d))].
  split_and!; [reflexivity|reflexivity|].
  repeat constructor. by rewrite Hmk.
Qed.

(** A move of one row that keeps its identity. *)
Lemma moved_once p p' : id p' = id p -> trader_pubkey p' = trader_pubkey p ->
  creation_timestamp p' = creation_timestamp p ->
  lifecycle (position_state p) (position_state p') -> moved p p'.
Proof. intros. split_and!; try done. by apply rtc_once. Qed.

Lemma in_state_true s p : in_state s p = true <-> position_state p = s.
Proof. unfold in_state. apply bool_decide_eq_true. Qed.

Ltac one_move :=
  intros; simpl_decides; rewrite ?in_state_true in *;
  apply moved_once; try done; cbn;
  repeat match goal with H : position_state _ = _ |- _ => rewrite H end; constructor.

Lemma update_position_state_evolves now pk original updated :
  (forall s, s ∈ original -> lifecycle (db_position_state_from s) (db_position_state_from updated)) ->
  steps evolved (update_position_state now pk original updated).
Proof.
  intros Hmove. unfold update_position_state, get_result. destruct original as [|o os]; [solve_steps|].
  apply steps_bind; [apply _| |intros; solve_steps].
  apply steps_bind; [apply _| |intros; solve_steps].
  apply update_evolves. intros p [_ Hin]%andb_true_iff. apply moved_once; try done. cbn.
  apply existsb_exists in Hin as (s & Hs & Hp%in_state_true). rewrite Hp.
  by apply Hmove, list_elem_of_In.
Qed.

#[local] Hint Extern 1 (steps evolved (update _ _)) => (apply update_evolves; one_move) : sql.

Lemma set_position_to_resizing_evolves now pk c q dir tm cm ep ex cl tl pnl fee :
  steps evolved (set_position_to_resizing now pk c q dir tm cm ep ex cl tl pnl fee).
Proof.
  unfold set_position_to_resizing. solve_steps. apply try_update_evolves.
  intros p p' [_ Hp%in_state_true]%andb_true_iff (r & _ & (f & _ & [= <-])%outcome_bind_ok)%outcome_bind_ok.
  apply moved_once; try done. cbn. rewrite Hp. constructor.
Qed.

Lemma moved_in_place p p' : id p' = id p -> trader_pubkey p' = trader_pubkey p ->
  creation_timestamp p' = creation_timestamp p -> position_state p' = position_state p -> moved p p'.
Proof. intros. split_and!; try done. by rewrite H2. Qed.

Lemma position_row_proposed {E} now np row i : position_row (E := E) now np = Ok row ->
  position_state (row i) = DbPositionState.Proposed.
Proof.
  unfold position_row.
  intros (t & _ & (c & _ & [= <-])%outcome_bind_ok)%outcome_bind_ok. done.
Qed.

Lemma position_insert_evolves now np : steps evolved (position_insert now np).
Proof.
  intros d. unfold position_insert.
  destruct (position_row (E := Anyhow) now np) as [row| |] eqn:Hrow; [|reflexivity..].
  enough (steps evolved (position ← with_err FromSql (insert row);
                         lift (position_from_row (E := Anyhow) position))) as Hrest by apply Hrest.
  solve_steps. apply insert_evolves. intros i. by eapply position_row_proposed.
Qed.

Lemma execute_evolves (u : Sql (list PositionRow.t)) : steps evolved u -> steps evolved (execute u).
Proof. apply steps_fmap. Qed.

#[local] Hint Resolve execute_evolves set_position_to_resizing_evolves position_insert_evolves : sql.

Lemma run_op_evolves op d : evolved d (run_op op d).
Proof.
  destruct op; cbn [run_op];
    match goal with |- evolved d (?m d).2 => enough (steps evolved m) as Hm by apply Hm end.
  9: apply set_position_to_resizing_evolves.
  1: apply position_insert_evolves.
  1-4: apply update_position_state_evolves; intros s Hs;
    repeat (apply elem_of_cons in Hs as [Hs|Hs]; [subst; constructor|]); by apply elem_of_nil in Hs.
  all: unfold set_open_position_to_closing, set_position_to_closed_with_pnl, set_position_to_closed,
    rollover_position, finish_rollover_protocol, set_position_to_open, update_unrealized_pnl.
  all: solve_steps.
  apply update_evolves. intros. by apply moved_in_place.
Qed.

(** Any sequence of operations, each with any outcome. *)
Definition history : Db.t -> Db.t -> Prop := rtc (fun d d' => exists op, d' = run_op op d).

(** C10: whatever the coordinator does to its positions, each one keeps its row,
    its trader and its creation time and only moves along the life cycle; in
    particular a closed position stays closed, and one that failed to open is
    never anything but failed or closed. *)
Theorem position_lifecycle (d d' : Db.t) (Hhist : history d d') (i : nat) (p : PositionRow.t)
    (Hp : rows d !! i = Some p) :
  exists p', rows d' !! i = Some p' /\ id p' = id p /\ trader_pubkey p' = trader_pubkey p /\
    creation_timestamp p' = creation_timestamp p /\
    rtc lifecycle (position_state p) (position_state p') /\
    (position_state p = DbPositionState.Closed -> position_state p' = DbPositionState.Closed) /\
    (position_state p = DbPositionState.Failed ->
     position_state p' = DbPositionState.Failed \/ position_state p' = DbPositionState.Closed).
Proof.
  assert (evolved d d') as (l & new & Hrows & Hmoved & _).
  { clear Hp. induction Hhist as [d|d d1 d2 [op ->] _ IH]; [reflexivity|]. etrans; [apply run_op_evolves|done]. }
  destruct (Forall2_lookup_l _ _ _ _ _ Hmoved Hp) as (p' & Hp' & Hid & Hpk & Hts & Hlife).
  exists p'. split_and!; try done.
  - rewrite Hrows. by apply lookup_app_l_Some.
  - clear -Hlife. intros Hc. revert Hc. induction Hlife as [|s1 s2 s3 Hs _ IH]; [done|].
    intros ->. apply IH. by inversion Hs.
  - clear -Hlife. intros Hc. assert (Hs : position_state p = DbPositionState.Failed \/
      position_state p = DbPositionState.Closed) by auto. clear Hc. revert Hs.
    induction Hlife as [|s1 s2 s3 Hs _ IH]; [done|].
    intros [->| ->]; apply IH; inversion Hs; subst; auto.
Qed.

(** [set_position_to_resizing] is meant to add the realised profit to the
    column, but the column is [NULL] from the insert on, and [NULL] plus a profit
    is [NULL]: the profit of the resize is lost. *)
Theorem resize_drops_realized_pnl now trader contract quantity direction trader_margin
    coordinator_margin entry_price expiry coordinator_liquidation trader_liquidation
    (pnl : SignedAmount) fee (d d' : Db.t) (n : nat)
    (Hrun : set_position_to_resizing now trader contract quantity direction trader_margin
       coordinator_margin entry_price expiry coordinator_liquidation trader_liquidation
       (Some pnl) fee d = (Ok n, d'))
    (i : nat) (p p' : PositionRow.t)
    (Hp : rows d !! i = Some p) (Hp' : rows d' !! i = Some p')
    (Hnull : trader_realized_pnl_sat p = None) :
  trader_realized_pnl_sat p' = None.
Proof.
  unfold set_position_to_resizing in Hrun.
  do 4 (apply M_bind_ok in Hrun as (? & ? & [_ ->]%lift_ok & Hrun)).
  apply M_fmap_ok in Hrun as (l & (_ & ->)%try_update_ok & _). rewrite rows_set_rows in Hp'.
  apply list_lookup_fmap_Some in Hp' as (p0 & -> & Hp0). rewrite Hp in Hp0. injection Hp0 as <-.
  case_match; [|done]. rewrite Hnull. cbn. destruct (sql_add _ _); done.
Qed.

(** A stored position reads back as it was given: proposed, of its trader,
    with its contract, margins, fees and direction, and no profit yet. *)
Theorem position_insert_roundtrip `{!IdLaws IL} now (np : NewPosition.t) (d d' : Db.t)
    (p : Position.t) (Hrun : position_insert now np d = (Ok p, d'))
    (Hcontract : length (NewPosition.temporary_contract_id np) = 32%nat)
    (Htm : 0 <= NewPosition.trader_margin np < 2 ^ 64)
    (Hcm : 0 <= NewPosition.coordinator_margin np < 2 ^ 64)
    (Hfee : 0 <= NewPosition.order_matching_fees np < 2 ^ 64) :
  Position.trader p = NewPosition.trader np /\
  Position.temporary_contract_id p = Some (NewPosition.temporary_contract_id np) /\
  Position.trader_margin p = NewPosition.trader_margin np /\
  Position.coordinator_margin p = NewPosition.coordinator_margin np /\
  Position.order_matching_fees p = NewPosition.order_matching_fees np /\
  Position.trader_direction p = NewPosition.trader_direction np /\
  Position.contract_symbol p = NewPosition.contract_symbol np /\
  Position.expiry_timestamp p = NewPosition.expiry_timestamp np /\
  Position.position_state p = PositionState.Proposed /\
  Position.trader_realized_pnl_sat p = None /\
  length (rows (R := PositionRow.t) d') = S (length (rows (R := PositionRow.t) d)).
Proof.
  unfold position_insert, position_row in Hrun.
  apply M_bind_ok in Hrun as (row & ? & [Hrow ->]%lift_ok & Hrun).
  apply outcome_bind_ok in Hrow as (tl & _ & (cl & _ & [= <-])%outcome_bind_ok).
  apply M_bind_ok in Hrun as (r & d1 & (Hr & _ & Hd1)%with_err_ok%insert_ok & [Hp Hd]%lift_ok).
  assert (Hlen : length (rows (R := PositionRow.t) d') = S (length (rows (R := PositionRow.t) d))).
  { rewrite Hd, Hd1, rows_set_tbl. cbn. rewrite length_app. cbn. lia. }
  rewrite Hr in Hp. clear Hr Hd Hd1.
  unfold position_from_row in Hp. cbn in Hp. rewrite pk_roundtrip, hex_roundtrip in Hp by done.
  cbn in Hp. injection Hp as <-. cbn.
  rewrite !as_u64_as_i64 by done. autorewrite with db_enum.
  by split_and!.
Qed.
End Lifecycle.

(** ** Concrete positions *)

Definition demo_new_position : NewPosition.t :=
  NewPosition.mk (H0 := demo_id) BtcUsd (f32_of_Z 2) (f32_of_Z 100) Long "alice"%string
    (f32_of_Z 20000) (d_from_u64 10000) (d_from_u64 30000) 250000 5 (repeat Init.Byte.x01 32)
    (f32_of_Z 2) 250000 false 1500.

Example position_insert_roundtrip_witness :
  exists p d', position_insert 7 demo_new_position empty_db = (Ok p, d') /\
    Position.trader_margin p = 250000 /\ Position.position_state p = PositionState.Proposed.
Proof.
  assert (Hok : is_ok (position_insert 7 demo_new_position empty_db).1 = true) by by vm_compute.
  destruct (position_insert 7 demo_new_position empty_db) as [[p| |] d'] eqn:Hrun;
    try discriminate Hok.
  exists p, d'. split; [reflexivity|].
  destruct (position_insert_roundtrip 7 demo_new_position empty_db d' p Hrun)
    as (_ & _ & Htm & _ & _ & _ & _ & _ & Hst & _); [reflexivity|cbn; lia..|].
  split; [exact Htm|exact Hst].
Defined.

Definition demo_position (s : DbPositionState.t) : PositionRow.t :=
  PositionRow.mk 1 DbContractSymbol.BtcUsd (f32_of_Z 2) (f32_of_Z 100) DbDirection.Long
    (f32_of_Z 20000) (f32_of_Z 10000) s 250000 0 5 0 "alice" None None None None (f32_of_Z 2)
    250000 false (f32_of_Z 30000) 1500.

Definition demo_positions (s : DbPositionState.t) : Db.t := set_rows [demo_position s] empty_db.

Example position_lifecycle_witness :
  let close := SetClosing (IL := demo_id) 1 "alice"%string None in
  let settle := CloseWithPnl (IL := demo_id) 2 1 500 (d_from_u64 21000) in
  let d' := run_op settle (run_op close (demo_positions DbPositionState.Open)) in
  map position_state (rows d') = [DbPositionState.Closed] /\
  exists p', rows d' !! 0%nat = Some p' /\
    rtc lifecycle DbPositionState.Open (position_state p').
Proof.
  cbn zeta. split; [by vm_compute|].
  destruct (position_lifecycle (demo_positions DbPositionState.Open)
    (run_op (CloseWithPnl (IL := demo_id) 2 1 500 (d_from_u64 21000))
       (run_op (SetClosing (IL := demo_id) 1 "alice"%string None) (demo_positions DbPositionState.Open))))
    with (i := 0%nat) (p := demo_position DbPositionState.Open)
    as (p' & Hp' & _ & _ & _ & Hlife & _).
  - eapply rtc_l; [eexists; reflexivity|]. eapply rtc_l; [eexists; reflexivity|]. apply rtc_refl.
  - reflexivity.
  - exists p'. split; [exact Hp'|exact Hlife].
Defined.

Example resize_drops_realized_pnl_witness :
  exists d' p', set_position_to_resizing (IL := demo_id) 1 "alice"%string [] (d_from_u64 50) Long
      100000 100000 (d_from_u64 20000) 9 (d_from_u64 30000) (d_from_u64 10000) (Some 12345) 10
      (demo_positions DbPositionState.Open) = (Ok 1%nat, d') /\
    rows d' = [p'] /\ position_state p' = DbPositionState.Resizing /\
    trader_realized_pnl_sat p' = None.
Proof.
  assert (Hrun : (set_position_to_resizing (IL := demo_id) 1 "alice"%string [] (d_from_u64 50) Long
      100000 100000 (d_from_u64 20000) 9 (d_from_u64 30000) (d_from_u64 10000) (Some 12345) 10
      (demo_positions DbPositionState.Open)).1 = Ok 1%nat) by by vm_compute.
  assert (Hst : map position_state (rows (set_position_to_resizing (IL := demo_id) 1 "alice"%string []
      (d_from_u64 50) Long 100000 100000 (d_from_u64 20000) 9 (d_from_u64 30000) (d_from_u64 10000)
      (Some 12345) 10 (demo_positions DbPositionState.Open)).2) = [DbPositionState.Resizing])
    by by vm_compute.
  destruct (set_position_to_resizing _ _ _ _ _ _ _ _ _ _ _ _ _ _) as [r d'] eqn:Heq.
  cbn in Hrun, Hst. subst r. destruct (rows d') as [|p' [|]] eqn:Hrows; try discriminate Hst.
  exists d', p'. injection Hst as Hst. split_and!; try done.
  apply (resize_drops_realized_pnl _ _ _ _ _ _ _ _ _ _ _ _ _ _ _ _ Heq 0
    (demo_position DbPositionState.Open) p'); [reflexivity|by rewrite Hrows|reflexivity].
Defined.
