(* ===== verification/FundingDb.v ===== *)
(** * [coordinator/src/funding_fee/db]: funding rates and funding fee events as stored

    [funding_rates.rs], [funding_fee_events.rs] and [protocol_funding_fee_events.rs],
    with the types of [funding_fee.rs] and [commons/funding_fee_event.rs]. *)

From stdpp Require Import base list option strings.
From Stdlib Require Import ZArith Lia.
From S2P Require Import Prelude Machine External Demo Commons Rollover SqlTypes Schema Db.
From S2P Require Import PositionsDb.

#[local] Open Scope Z_scope.

(** ** Types *)

(** [funding_fee::FundingFeeEvent]: a positive amount is paid by the trader. *)
Module FundingFeeEvent.
Record t `{DecimalLib} `{IdLib} := mk {
  id : Z;
  amount : SignedAmount;
  trader_pubkey : PublicKey;
  position_id : Z;
  due_date : OffsetDateTime;
  price : Decimal;
  funding_rate : Decimal;
  paid_date : option OffsetDateTime;
}.
#[global] Arguments mk {_ _}.
End FundingFeeEvent.

(** [commons::FundingRate]. *)
Module FundingRate.
Record t `{DecimalLib} := mk {
  rate : Decimal;
  start_date : OffsetDateTime;
  end_date : OffsetDateTime;
}.
#[global] Arguments mk {_}.
End FundingRate.

(** [xxi_node::FundingFeeEvent], what the trader is sent. *)
Module XxiFundingFeeEvent.
Record t `{DecimalLib} := mk {
  contract_symbol : ContractSymbol;
  contracts : Decimal;
  direction : Direction;
  price : Decimal;
  fee : SignedAmount;
  due_date : OffsetDateTime;
}.
#[global] Arguments mk {_}.
End XxiFundingFeeEvent.

Section Conversions.
Context `{DL : DecimalLib} `{IL : IdLib} `{TL : TimeLib}.

(** [FundingRate::new]. *)
Definition funding_rate_new {E} (rate : Decimal) (start_date end_date : OffsetDateTime)
    : outcome E FundingRate.t :=
  start_date ← to_nearest_hour_in_the_past start_date;
  end_date ← to_nearest_hour_in_the_past end_date;
  Ok (FundingRate.mk rate start_date end_date).

(** [decimal_from_f32] and [f32_from_decimal] of [lib.rs]. *)
Definition decimal_from_f32 {E} (x : f32) : outcome E Decimal := expect (d_from_f32 x).
Definition f32_from_decimal {E} (x : Decimal) : outcome E f32 := expect (d_to_f32 x).

(** [impl From<FundingFeeEvent> for funding_fee::FundingFeeEvent]. *)
Definition funding_fee_event_from_row {E} (value : FundingFeeEventRow.t)
    : outcome E FundingFeeEvent.t :=
  trader_pubkey ← expect (pk_from_str (FundingFeeEventRow.trader_pubkey value));
  price ← decimal_from_f32 (FundingFeeEventRow.price value);
  funding_rate ← decimal_from_f32 (FundingFeeEventRow.funding_rate value);
  Ok (FundingFeeEvent.mk (FundingFeeEventRow.id value) (FundingFeeEventRow.amount_sats value)
        trader_pubkey (FundingFeeEventRow.position_id value) (FundingFeeEventRow.due_date value)
        price funding_rate (FundingFeeEventRow.paid_date value)).

(** [impl From<FundingRate> for commons::FundingRate]. *)
Definition funding_rate_from_row {E} (value : FundingRateRow.t) : outcome E FundingRate.t :=
  rate ← expect (d_from_f32 (FundingRateRow.rate value));
  funding_rate_new rate (FundingRateRow.start_date value) (FundingRateRow.end_date value).

(** [impl From<commons::FundingRate> for NewFundingRate], as a row. *)
Definition funding_rate_row {E} (now : OffsetDateTime) (value : FundingRate.t)
    : outcome E (Z -> FundingRateRow.t) :=
  rate ← expect (d_to_f32 (FundingRate.rate value));
  Ok (fun id => FundingRateRow.mk id (FundingRate.start_date value) (FundingRate.end_date value)
                  rate now).
End Conversions.

(** ** [funding_rates.rs] *)

Section FundingRates.
Context `{DL : DecimalLib} `{TL : TimeLib}.

(** One [INSERT .. ON CONFLICT (end_date) DO NOTHING] of all rates. *)
Definition insert_funding_rates (now : OffsetDateTime) (funding_rates : list FundingRate.t)
    : M Db.t Anyhow unit :=
  funding_rates ← lift (traverse (funding_rate_row now) funding_rates);
  with_err FromSql (sql_transaction (for_each insert_or_ignore funding_rates)).

Definition get_next_funding_rate : Sql (option FundingRate.t) :=
  funding_rate ← optional (first_desc FundingRateRow.end_date (fun _ => true));
  match funding_rate with
  | Some funding_rate => r ← lift (funding_rate_from_row funding_rate); mret (Some r)
  | None => mret None
  end.

Definition get_funding_rate_charged_in_the_last_hour (now : OffsetDateTime)
    : Sql (option FundingRate.t) :=
  now ← lift (to_nearest_hour_in_the_past now);
  funding_rate ← optional (first (fun f => FundingRateRow.end_date f =? now));
  match funding_rate with
  | Some funding_rate => r ← lift (funding_rate_from_row funding_rate); mret (Some r)
  | None => mret None
  end.
End FundingRates.

(** ** [funding_fee_events.rs], [protocol_funding_fee_events.rs] *)

Section FundingFeeEvents.
Context `{DL : DecimalLib} `{IL : IdLib}.

(** [insert]: an event that exists already is not an error. *)
Definition funding_fee_event_insert (now : OffsetDateTime) (amount : SignedAmount)
    (trader_pubkey : PublicKey) (position_id : Z) (due_date : OffsetDateTime)
    (price funding_rate : Decimal) : Sql (option FundingFeeEvent.t) := fun d =>
  match (price ← f32_from_decimal price; rate ← f32_from_decimal funding_rate;
         Ok (price, rate)) with
  | Err e => (Err e, d)
  | Panic => (Panic, d)
  | Ok (price, rate) =>
    match insert (fun id => FundingFeeEventRow.mk id amount (pk_to_string trader_pubkey)
                              position_id due_date price rate None now) d with
    | (Ok funding_fee_event, d) => (Some <$> funding_fee_event_from_row funding_fee_event, d)
    | (Err UniqueViolation, d) => (Ok None, d)
    | (Err e, d) => (Err e, d)
    | (Panic, d) => (Panic, d)
    end
  end.

Definition get_funding_fee_events_for_active_trader_positions (trader_pubkey : PublicKey)
    : Sql (list XxiFundingFeeEvent.t) :=
  events ← load (fun e => bool_decide (FundingFeeEventRow.trader_pubkey e = pk_to_string trader_pubkey));
  positions ← load (fun _ : PositionRow.t => true);
  let joined := flat_map (fun e => flat_map (fun p =>
    if (PositionRow.id p =? FundingFeeEventRow.position_id e)
       && (in_state DbPositionState.Open p || in_state DbPositionState.Resizing p
           || in_state DbPositionState.Rollover p)
    then [(e, p)] else []) positions) events in
  lift (traverse (fun '(e, p) =>
    contracts ← decimal_from_f32 (PositionRow.quantity p);
    price ← decimal_from_f32 (FundingFeeEventRow.price e);
    Ok (XxiFundingFeeEvent.mk (contract_symbol_from_db (PositionRow.contract_symbol p)) contracts
          (direction_from_db (PositionRow.trader_direction p)) price
          (FundingFeeEventRow.amount_sats e) (FundingFeeEventRow.due_date e))) joined).

Definition is_unpaid (e : FundingFeeEventRow.t) : bool :=
  match FundingFeeEventRow.paid_date e with None => true | Some _ => false end.

Definition get_outstanding_funding_fee_events (trader_pubkey : PublicKey) (position_id : Z)
    : Sql (list FundingFeeEvent.t) :=
  funding_events ← load (fun e =>
    bool_decide (FundingFeeEventRow.trader_pubkey e = pk_to_string trader_pubkey)
    && (FundingFeeEventRow.position_id e =? position_id) && is_unpaid e);
  lift (traverse funding_fee_event_from_row funding_events).

(** [ids.contains(&x)]. *)
Definition among (ids : list Z) (x : Z) : bool := existsb (Z.eqb x) ids.

Definition links_of (protocol_id : Uuid) (l : ProtocolFundingFeeEventRow.t) : bool :=
  ProtocolFundingFeeEventRow.protocol_id l =? protocol_id.

(** [eq_any] with the ids of the funding fee events, on the [id] of a link. *)
Definition mark_funding_fee_event_as_paid (now : OffsetDateTime) (protocol_id : Uuid) : Sql unit :=
  sql_transaction (
    links ← load (links_of protocol_id);
    match map ProtocolFundingFeeEventRow.funding_fee_event_id links with
    | [] => mret tt
    | funding_fee_event_ids =>
      _ ← execute (update (fun e => among funding_fee_event_ids (FundingFeeEventRow.id e))
                     (FundingFeeEventRow.with_paid_date (Some now)));
      _ ← delete (fun l => among funding_fee_event_ids (ProtocolFundingFeeEventRow.id l));
      mret tt
    end).

Definition insert_protocol_funding_fee_event (now : OffsetDateTime) (protocol_id : Uuid)
    (funding_fee_event_ids : list Z) : Sql unit :=
  match funding_fee_event_ids with
  | [] => mret tt
  | _ =>
    affected_rows ← insert_all (map (fun funding_fee_event_id id =>
      ProtocolFundingFeeEventRow.mk id protocol_id funding_fee_event_id now)
      funding_fee_event_ids);
    lift (nonzero_rows affected_rows)
  end.
End FundingFeeEvents.

(** ** Paying funding fees *)

Lemma delete_run {R} `{Stored R} (p : R -> bool) d : delete p d =
  (Ok (length (List.filter p (rows d))), set_rows (List.filter (fun r => negb (p r)) (rows d)) d).
Proof. done. Qed.

Section Paying.
(** The events a protocol pays. *)
Definition paid_by (protocol_id : Uuid) (d : Db.t) : list Z :=
  map ProtocolFundingFeeEventRow.funding_fee_event_id (List.filter (links_of protocol_id) (rows d)).

(** The events after those with an id in [ids] were paid at [now]. *)
Definition pay (now : OffsetDateTime) (ids : list Z) (l : list FundingFeeEventRow.t)
    : list FundingFeeEventRow.t :=
  map (fun e => if among ids (FundingFeeEventRow.id e)
                then FundingFeeEventRow.with_paid_date (Some now) e else e) l.

Lemma mark_paid_run now pid d :
  let ids := paid_by pid d in
  exists d', mark_funding_fee_event_as_paid now pid d = (Ok tt, d') /\
    rows d' = pay now ids (rows d) /\
    rows d' = List.filter (fun l => negb (among ids (ProtocolFundingFeeEventRow.id l))) (rows d) /\
    keeps DlcProtocolRow.t d d' /\ keeps PositionRow.t d d' /\ keeps TradeRow.t d d'.
Proof.
  cbn zeta. unfold mark_funding_fee_event_as_paid, paid_by.
  destruct (map _ (List.filter (links_of pid) (rows d))) as [|i ids] eqn:Hids.
  - exists d. split.
    { unfold sql_transaction, transaction, mbind, M_bind. rewrite load_run, Hids. done. }
    split_and!; try done.
    + unfold pay. symmetry. apply list_fmap_id.
    + clear. induction (rows d) as [|l ls IH]; cbn; [done|]. by f_equal.
  - eexists. split.
    { unfold sql_transaction, transaction, mbind, M_bind. rewrite load_run, Hids. reflexivity. }
    split_and!; done.
Qed.

(** Finishing a protocol marks exactly the funding fee events linked to it
    as paid; every other event keeps its paid date, and no event changes
    otherwise. *)
Theorem mark_paid_exactly_linked (now : OffsetDateTime) (pid : Uuid) (d d' : Db.t)
    (r : outcome SqlError unit) (Hrun : mark_funding_fee_event_as_paid now pid d = (r, d')) :
  r = Ok tt /\
  Forall2 (fun e e' =>
    FundingFeeEventRow.id e' = FundingFeeEventRow.id e /\
    FundingFeeEventRow.amount_sats e' = FundingFeeEventRow.amount_sats e /\
    FundingFeeEventRow.position_id e' = FundingFeeEventRow.position_id e /\
    FundingFeeEventRow.paid_date e' =
      if decide (FundingFeeEventRow.id e ∈ paid_by pid d) then Some now
      else FundingFeeEventRow.paid_date e) (rows d) (rows d').
Proof.
  destruct (mark_paid_run now pid d) as (d1 & Hd1 & Hev & _). rewrite Hrun in Hd1.
  injection Hd1 as -> ->. split; [done|]. rewrite Hev. unfold pay.
  apply Forall2_fmap_r, Forall_Forall2_diag, Forall_true. intros e.
  assert (Ha : among (paid_by pid d) (FundingFeeEventRow.id e) = true
               <-> FundingFeeEventRow.id e ∈ paid_by pid d).
  { unfold among. rewrite existsb_exists. split.
    - intros (x & Hx & ->%Z.eqb_eq). by apply list_elem_of_In.
    - intros Hx%list_elem_of_In. eexists. split; [done|apply Z.eqb_refl]. }
  cbn. destruct (among (paid_by pid d) (FundingFeeEventRow.id e)); destruct (decide _) as [Hdec|Hdec];
    cbn; [by split_and!|by destruct Hdec; apply Ha|by apply Ha in Hdec|by split_and!].
Qed.

(** The links of a paid protocol are not deleted by the protocol they belong
    to: a link stays exactly if its own id is not among the ids of the paid
    events.  So links of the protocol may stay, and links of others may go. *)
Theorem mark_paid_link_cleanup (now : OffsetDateTime) (pid : Uuid) (d d' : Db.t)
    (r : outcome SqlError unit) (Hrun : mark_funding_fee_event_as_paid now pid d = (r, d'))
    (l : ProtocolFundingFeeEventRow.t) :
  l ∈ rows d' <-> l ∈ rows d /\ ProtocolFundingFeeEventRow.id l ∉ paid_by pid d.
Proof.
  destruct (mark_paid_run now pid d) as (d1 & Hd1 & _ & Hl & _). rewrite Hrun in Hd1.
  injection Hd1 as _ ->. rewrite Hl, !list_elem_of_In, filter_In, negb_true_iff.
  rewrite <-not_true_iff_false. unfold among. rewrite existsb_exists.
  split; intros [Hin Hnot]; (split; [done|]); intros Hx; apply Hnot.
  - eexists. split; [done|apply Z.eqb_refl].
  - by destruct Hx as (x & Hx & ->%Z.eqb_eq).
Qed.
End Paying.

(** Link 7 is of protocol 40 and event 1; link 1 is of protocol 41 and event 2. *)
Definition demo_links_db : Db.t :=
  set_rows [ProtocolFundingFeeEventRow.mk 7 40 1 0; ProtocolFundingFeeEventRow.mk 1 41 2 0]
    (set_rows [FundingFeeEventRow.mk 1 500 "alice" 1 0 f32_zero f32_zero None 0;
               FundingFeeEventRow.mk 2 600 "bob" 2 0 f32_zero f32_zero None 0] empty_db).

Example mark_paid_exactly_linked_witness :
  let '(r, d') := mark_funding_fee_event_as_paid 9 40 demo_links_db in
  map FundingFeeEventRow.paid_date (rows d') = [Some 9; None] /\ r = Ok tt.
Proof.
  destruct (mark_funding_fee_event_as_paid 9 40 demo_links_db) as [r d'] eqn:Hrun. split.
  - change d' with (r, d').2. rewrite <-Hrun. by vm_compute.
  - apply (mark_paid_exactly_linked 9 40 demo_links_db d' r Hrun).
Defined.

(** After protocol 40 is paid, its own link is still there and that of protocol 41
    is gone. *)
Example mark_paid_link_cleanup_witness :
  let '(r, d') := mark_funding_fee_event_as_paid 9 40 demo_links_db in
  ProtocolFundingFeeEventRow.mk 7 40 1 0 ∈ rows d' /\
  ProtocolFundingFeeEventRow.mk 1 41 2 0 ∉ rows d'.
Proof.
  destruct (mark_funding_fee_event_as_paid 9 40 demo_links_db) as [r d'] eqn:Hrun. split.
  - apply (mark_paid_link_cleanup 9 40 demo_links_db d' r Hrun). split; [constructor|].
    change (7 ∉ [1]). intros Hin. apply list_elem_of_singleton in Hin. discriminate Hin.
  - intros Hin. apply (mark_paid_link_cleanup 9 40 demo_links_db d' r Hrun) in Hin as [_ Hin].
    apply Hin. change (1 ∈ [1]). constructor.
Defined.
