(* ===== verification/Feed.v ===== *)
(** * The messages of the websocket: [commons/message.rs], [commons/liquidity_option.rs]

    What the coordinator sends to makers and apps over the websocket, as data. *)

From stdpp Require Import base list option strings.
From Stdlib Require Import ZArith Lia.
From S2P Require Import Prelude Machine External Commons Referrals FundingDb.

#[local] Open Scope Z_scope.

Module LiquidityOption.
Record t := mk {
  id : Z;
  rank : Z;
  title : string;
  trade_up_to_sats : Z;
  min_deposit_sats : Z;
  max_deposit_sats : Z;
  min_fee_sats : Z;
  fee_percentage : f64;
  coordinator_leverage : f32;
  created_at : OffsetDateTime;
  updated_at : OffsetDateTime;
  active : bool;
}.
End LiquidityOption.

Module TenTenOneConfig.
Record t `{DecimalLib} := mk {
  liquidity_options : list LiquidityOption.t;
  min_quantity : Z;
  maintenance_margin_rate : f32;
  order_matching_fee_rate : f32;
  referral_status : ReferralStatus.t;
  max_leverage : Z;
}.
#[global] Arguments mk {_}.
End TenTenOneConfig.

(** [commons::TradingError]. *)
Module MessageError.
Inductive t := InvalidOrder (text : string) | NoMatchFound (text : string) | Other (text : string).
End MessageError.

(** [commons::Message]; the address of a revert is not checked against the network. *)
Module Message.
Inductive t `{DecimalLib} `{IdLib} `{AddressLib} :=
  | AllOrders (orders : list Order.t)
  | NewOrder (order : Order.t)
  | DeleteOrder (order_id : Uuid)
  | Update (order : Order.t)
  | InvalidAuthentication (text : string)
  | Authenticated (config : TenTenOneConfig.t)
  | DlcChannelCollaborativeRevert (channel_id : DlcChannelId) (coordinator_address : UncheckedAddress)
      (coordinator_amount trader_amount : Amount) (execution_price : Decimal)
  | TradeError (order_id : Uuid) (error : MessageError.t)
  | LnPaymentReceived (r_hash : string) (amount : Amount)
  | RolloverError (error : MessageError.t)
  | FundingFeeEvent (event : XxiFundingFeeEvent.t)
  | AllFundingFeeEvents (events : list XxiFundingFeeEvent.t)
  | NextFundingRate (rate : FundingRate.t).
End Message.
