(* ===== verification/Funding.v ===== *)
(** * [coordinator/src/funding_fee.rs]: charging funding fees

    Every hour with a funding rate, each active position owes a fee to, or is owed
    one by, the coordinator.  The index price comes from an HTTP call and is an
    argument; the messages to the traders are a log. *)

From stdpp Require Import base list option strings.
From Stdlib Require Import ZArith QArith Qabs Lia.
From S2P Require Import Prelude Machine External Demo Commons Rollover SqlTypes Schema Db.
From S2P Require Import PositionsDb FundingDb.

#[local] Open Scope Z_scope.
#[local] Open Scope decimal_scope.

(** [coordinator::FundingFee]. *)
Module FundingFee.
Inductive t := Zero | CoordinatorPays (amount : Amount) | TraderPays (amount : Amount).
End FundingFee.

(** [message_handler::FundingFeeEvent]. *)
Module MessageFundingFeeEvent.
Record t `{DecimalLib} := mk {
  due_date : OffsetDateTime;
  funding_rate : Decimal;
  price : Decimal;
  funding_fee : SignedAmount;
}.
#[global] Arguments mk {_}.
End MessageFundingFeeEvent.

Inductive IndexPriceSource := Bitmex | Test.

Section Funding.
Context `{DL : DecimalLib} `{BL : BitcoinLib} `{IL : IdLib} `{TL : TimeLib}.

(** [impl From<FundingFeeEvent> for message_handler::FundingFeeEvent]. *)
Definition message_funding_fee_event_from (value : FundingFeeEvent.t) : MessageFundingFeeEvent.t :=
  MessageFundingFeeEvent.mk (FundingFeeEvent.due_date value) (FundingFeeEvent.funding_rate value)
    (FundingFeeEvent.price value) (FundingFeeEvent.amount value).

(** ** The amount *)

(** [calculate_funding_fee] up to the rounded decimal. *)
Definition funding_fee_btc {E} (quantity : f32) (funding_rate index_price : Decimal)
    (trader_direction : Direction) : outcome E Decimal :=
  let funding_rate := match trader_direction with
                      | Long => funding_rate
                      | Short => d_neg funding_rate
                      end in
  quantity ← expect (d_try_from_f32 quantity);
  mark_value ← quantity /! index_price;
  funding_fee_btc ← mark_value *! funding_rate;
  Ok (d_round_dp 8 MidpointAwayFromZero funding_fee_btc).

Definition calculate_funding_fee {E} (quantity : f32) (funding_rate index_price : Decimal)
    (trader_direction : Direction) : outcome E SignedAmount :=
  fee ← funding_fee_btc quantity funding_rate index_price trader_direction;
  fee ← expect (d_to_f64 fee);
  expect (signed_from_btc fee).

Fixpoint sum_events {E} (acc : SignedAmount) (events : list FundingFeeEvent.t)
    : outcome E SignedAmount :=
  match events with
  | [] => Ok acc
  | e :: events => acc ← expect (signed_add acc (FundingFeeEvent.amount e)); sum_events acc events
  end.

Definition funding_fee_from_funding_fee_events {E} (events : list FundingFeeEvent.t)
    : outcome E FundingFee.t :=
  n ← sum_events 0 events;
  Ok (if n =? 0 then FundingFee.Zero
      else if 0 <? n then FundingFee.TraderPays (Z.abs n)
      else FundingFee.CoordinatorPays (Z.abs n)).

(** ** Generating the events *)

(** The database and the messages sent so far. *)
Definition FundingM (A : Type) : Type :=
  M (Db.t * list (PublicKey * XxiFundingFeeEvent.t)) Anyhow A.

Definition db_call {A} (m : M Db.t Anyhow A) : FundingM A := fun '(d, log) =>
  let '(r, d) := m d in (r, (d, log)).

(** [auth_users_notifier.blocking_send]; fails when nobody receives. *)
Definition notify (open : bool) (trader : PublicKey) (e : XxiFundingFeeEvent.t) : FundingM unit :=
  fun '(d, log) =>
    if open then (Ok tt, (d, log ++ [(trader, e)]))
    else (Err (Msg "Could not send pending funding fee event to trader"), (d, log)).

(** The body of the loop over the positions. *)
Definition charge_position (now : OffsetDateTime) (notifier_open : bool)
    (funding_rate : FundingRate.t) (index_price : Decimal) (position : Position.t)
    : FundingM unit :=
  amount ← lift (calculate_funding_fee (Position.quantity position) (FundingRate.rate funding_rate)
                   index_price (Position.trader_direction position));
  event ← db_call (with_err FromSql
    (funding_fee_event_insert now amount (Position.trader position) (Position.id position)
       (FundingRate.end_date funding_rate) index_price (FundingRate.rate funding_rate)));
  match event with
  | None => mret tt
  | Some funding_fee_event =>
    contracts ← lift (decimal_from_f32 (Position.quantity position));
    notify notifier_open (Position.trader position)
      (XxiFundingFeeEvent.mk BtcUsd contracts (Position.trader_direction position)
         (FundingFeeEvent.price funding_fee_event) (FundingFeeEvent.amount funding_fee_event)
         (FundingFeeEvent.due_date funding_fee_event))
  end.

(** The index price: of BitMEX, or a constant that only debug builds have. *)
Definition get_index_price (debug_assertions : bool) (source : IndexPriceSource)
    (bitmex_index_price : OffsetDateTime -> outcome Anyhow Decimal) (t : OffsetDateTime)
    : outcome Anyhow Decimal :=
  match source with
  | Bitmex => bitmex_index_price t
  | Test => if debug_assertions then Ok (d_lit 50000) else Panic
  end.

Definition generate_funding_fee_events (now : OffsetDateTime) (debug_assertions notifier_open : bool)
    (index_price_source : IndexPriceSource)
    (bitmex_index_price : OffsetDateTime -> outcome Anyhow Decimal) : FundingM unit :=
  funding_rate ← db_call (with_err FromSql (get_funding_rate_charged_in_the_last_hour now));
  match funding_rate with
  | None => mret tt
  | Some funding_rate =>
    index_price ← lift (get_index_price debug_assertions index_price_source bitmex_index_price
                          (FundingRate.end_date funding_rate));
    if d_is_zero index_price
    then throw (Msg "Cannot generate funding fee events with zero index price")
    else
      positions ← db_call (with_err FromSql
        (get_all_active_positions_open_before (FundingRate.end_date funding_rate)));
      for_each (charge_position now notifier_open funding_rate index_price) positions
  end.

(** The rates are stored before the latest one is put on the feed; a feed nobody
    listens to is only logged. *)
Definition insert_funding_rates_and_notify (now : OffsetDateTime) (funding_rates : list FundingRate.t)
    : M Db.t Anyhow (option FundingRate.t) :=
  insert_funding_rates now funding_rates;;
  with_err FromSql get_next_funding_rate.
End Funding.

(** ** Amounts *)

Section Amounts.
Context `{DLaws : DecimalLaws} `{BLaws : !BitcoinLaws BL} `{BDLaws : !BtcDecimalLaws DL BL}.
Context `{IL : IdLib}.

(** A funding fee is a transfer: what a long pays at a rate is what a short
    with the same position receives, to the satoshi, for every fee up to all the
    bitcoin there is. *)
Theorem funding_fee_zero_sum {E} (quantity : f32) (rate price fee : Decimal)
    (Hfee : funding_fee_btc (E := E) quantity rate price Long = Ok fee)
    (Hmax : (Qabs (dval fee) <= inject_Z 21000000)%Q) :
  exists a, calculate_funding_fee (E := E) quantity rate price Long = Ok a /\
    calculate_funding_fee (E := E) quantity rate price Short = Ok (- a).
Proof.
  unfold calculate_funding_fee. rewrite Hfee. cbn [mbind outcome_bind].
  unfold funding_fee_btc in *.
  apply outcome_bind_ok in Hfee as (q & Hq%expect_ok & (m & Hm%expect_ok & (f & Hf%expect_ok & [= <-])%outcome_bind_ok)%outcome_bind_ok).
  rewrite Hq. cbn [expect mbind outcome_bind]. rewrite Hm. cbn [expect mbind outcome_bind].
  pose proof (d_mul_neg_r m rate) as Hneg. rewrite Hf in Hneg. destruct Hneg as (f' & -> & Hf').
  cbn [expect mbind outcome_bind].
  destruct (d_round_dp_grid 8 MidpointAwayFromZero f) as [z Hz].
  assert (Hz' : (dval (d_round_dp 8 MidpointAwayFromZero f') == inject_Z (- z) / inject_Z (10 ^ Z.of_nat 8))%Q).
  { rewrite (d_round_dp_neg 8 MidpointAwayFromZero f' f Hf'), Hz, inject_Z_opp.
    generalize (inject_Z (10 ^ Z.of_nat 8)) (inject_Z z). intros c x. unfold Qdiv. ring. }
  assert (Hbound : Z.abs z <= MAX_MONEY).
  { rewrite Hz, Qabs_Qle_condition in Hmax. change (10 ^ Z.of_nat 8) with 100000000 in Hmax.
    destruct Hmax as [H1 H2]. unfold Qle, Qdiv, Qmult, Qinv, inject_Z, Qopp in H1, H2.
    cbn [Qnum Qden] in H1, H2. change MAX_MONEY with 2100000000000000. lia. }
  destruct (signed_from_btc_grid _ _ Hz Hbound) as (x & -> & Hx).
  destruct (signed_from_btc_grid _ _ Hz') as (y & -> & Hy); [lia|].
  exists z. cbn. by rewrite Hx, Hy.
Qed.

Fixpoint total (events : list FundingFeeEvent.t) : Z :=
  match events with [] => 0 | e :: events => FundingFeeEvent.amount e + total events end.

Lemma sum_events_total {E} events acc n : in_i64 acc = true ->
  Forall (fun e => in_i64 (FundingFeeEvent.amount e) = true) events ->
  sum_events (E := E) acc events = Ok n -> n = acc + total events.
Proof using BLaws.
  intros Hacc Hall. revert acc Hacc. induction Hall as [|e events He _ IH]; intros acc Hacc; cbn.
  { intros [= ->]. lia. }
  rewrite outcome_bind_ok. intros (acc' & Hadd%expect_ok & Hsum).
  rewrite signed_add_spec in Hadd by done. unfold checked_i64 in Hadd.
  destruct (in_i64 (acc + FundingFeeEvent.amount e)) eqn:Hin; [|done].
  injection Hadd as <-. apply IH in Hsum; [lia|done].
Qed.

(** What a fee is worth to the coordinator, in satoshis. *)
Definition coordinator_gain (f : FundingFee.t) : Z :=
  match f with
  | FundingFee.Zero => 0
  | FundingFee.TraderPays a => a
  | FundingFee.CoordinatorPays a => - a
  end.

(** The fee of a list of events is their exact sum, paid by the side that
    owes it, and an amount that is paid is positive. *)
Theorem funding_fee_is_total {E} (events : list FundingFeeEvent.t) (f : FundingFee.t)
    (Hall : Forall (fun e => in_i64 (FundingFeeEvent.amount e) = true) events)
    (Hf : funding_fee_from_funding_fee_events (E := E) events = Ok f) :
  coordinator_gain f = total events /\
  match f with
  | FundingFee.Zero => True
  | FundingFee.TraderPays a | FundingFee.CoordinatorPays a => 0 < a <= 2 ^ 63
  end.
Proof using BLaws.
  unfold funding_fee_from_funding_fee_events in Hf.
  apply outcome_bind_ok in Hf as (n & Hsum & [= <-]).
  assert (Hin : in_i64 n = true).
  { revert Hsum. generalize (eq_refl : in_i64 0 = true). generalize 0 as acc. clear -Hall BLaws.
    induction Hall as [|e events He Hall IH]; intros acc Hacc; cbn; [by intros [= ->]|].
    rewrite outcome_bind_ok. intros (acc' & Hadd%expect_ok & Hsum).
    rewrite signed_add_spec in Hadd by done. unfold checked_i64 in Hadd.
    destruct (in_i64 _) eqn:Hin in Hadd; [|done]. injection Hadd as <-. by apply (IH _ Hin). }
  apply sum_events_total in Hsum; [|done..]. apply in_i64_spec in Hin.
  destruct (n =? 0) eqn:Hz; [apply Z.eqb_eq in Hz; cbn; lia|].
  destruct (0 <? n) eqn:Hp; [apply Z.ltb_lt in Hp|apply Z.ltb_ge in Hp]; cbn; lia.
Qed.
End Amounts.

(** The snapshots of the unit test [calculate_funding_fee_test]. *)
Example calculate_funding_fee_test :
  let fee := calculate_funding_fee (E := string) in
  let q := f32_of_Z 500 in
  [ fee q (d_lit 0.003) (d_lit 20000) Long; fee q (d_lit 0.003) (d_lit 20000) Short;
    fee q (d_lit (-0.003)) (d_lit 20000) Long; fee q (d_lit (-0.003)) (d_lit 20000) Short;
    fee q (d_lit 0.003) (d_lit 40000) Long; fee q (d_lit 0.003) (d_lit 40000) Short;
    fee (f32_of_Z 100) (d_lit 0.003) (d_lit 20000) Long;
    fee (f32_of_Z 100) (d_lit 0.003) (d_lit 20000) Short ]
  = map Ok [7500; -7500; -7500; 7500; 3750; -3750; 1500; -1500].
Proof. by vm_compute. Qed.

Example funding_fee_zero_sum_witness :
  exists a, calculate_funding_fee (E := string) (f32_of_Z 500) (d_lit 0.003) (d_lit 20000) Long = Ok a /\
    calculate_funding_fee (E := string) (f32_of_Z 500) (d_lit 0.003) (d_lit 20000) Short = Ok (- a).
Proof.
  eapply (funding_fee_zero_sum (f32_of_Z 500) (d_lit 0.003) (d_lit 20000)).
  - vm_compute. reflexivity.
  - vm_compute. discriminate.
Defined.

Example funding_fee_is_total_witness :
  let event a := FundingFeeEvent.mk (H0 := demo_id) 1 a "alice"%string 1 0 (d_lit 20000) (d_lit 0.003) None in
  let events := [event 7500; event (-10000)] in
  funding_fee_from_funding_fee_events (E := string) events = Ok (FundingFee.CoordinatorPays 2500) /\
  coordinator_gain (FundingFee.CoordinatorPays 2500) = total events.
Proof.
  cbn zeta. split; [by vm_compute|].
  refine (proj1 (funding_fee_is_total (E := string)
    [FundingFeeEvent.mk (H0 := demo_id) 1 7500 "alice"%string 1 0 (d_lit 20000) (d_lit 0.003) None;
     FundingFeeEvent.mk (H0 := demo_id) 1 (-10000) "alice"%string 1 0 (d_lit 20000) (d_lit 0.003) None]
    (FundingFee.CoordinatorPays 2500) _ _)).
  - repeat constructor.
  - by vm_compute.
Defined.

(** ** Generating events *)

Section Generate.
Context `{DL : DecimalLib} `{BL : BitcoinLib} `{IL : IdLib} `{TL : TimeLib}.

(** The position and due date of every event. *)
Definition charges (d : Db.t) : list (Z * OffsetDateTime) :=
  map (fun e => (FundingFeeEventRow.position_id e, FundingFeeEventRow.due_date e)) (rows d).

(** Events are only added, and no position is charged twice for a date. *)
Definition charges_once (d d' : Db.t) : Prop :=
  (exists new, rows (R := FundingFeeEventRow.t) d' = rows d ++ new) /\
  (NoDup (charges d) -> NoDup (charges d')).

#[export] Instance charges_once_preorder : PreOrder charges_once.
Proof.
  split.
  - intros d. split; [|done]. exists []. by rewrite app_nil_r.
  - intros d1 d2 d3 [[n1 H1] Hd1] [[n2 H2] Hd2]. split; [|by auto].
    exists (n1 ++ n2). by rewrite H2, H1, <-app_assoc.
Qed.

Lemma has_charge d p t :
  has d (fun e => (FundingFeeEventRow.position_id e =? p) && (FundingFeeEventRow.due_date e =? t)) = true
  <-> (p, t) ∈ charges d.
Proof.
  unfold has, charges. rewrite existsb_exists, list_elem_of_fmap. split.
  - intros (e & He & [<-%Z.eqb_eq <-%Z.eqb_eq]%andb_true_iff). exists e.
    split; [done|]. by apply list_elem_of_In.
  - intros (e & [= -> ->] & He%list_elem_of_In). exists e. by rewrite !Z.eqb_refl.
Qed.

(** The database refuses to charge a position twice for a date. *)
Lemma violation_charged d i a pk p t pr r paid ts : (p, t) ∈ charges d ->
  violation d (FundingFeeEventRow.mk i a pk p t pr r paid ts) = Some UniqueViolation.
Proof.
  intros Hk%has_charge. unfold violation, funding_fee_events_constraint.
  cbn [FundingFeeEventRow.position_id FundingFeeEventRow.due_date]. by rewrite Hk.
Qed.

Lemma event_insert_charges_once now amount pk p t price rate :
  steps charges_once (funding_fee_event_insert now amount pk p t price rate).
Proof.
  intros d. unfold funding_fee_event_insert.
  destruct (f32_from_decimal price ≫= _) as [[pr r]| |]; [|done..].
  unfold insert. set (row := FundingFeeEventRow.mk _ _ _ _ _ _ _ _ _).
  destruct (violation d row) as [err|] eqn:Hv.
  - destruct err; cbn [snd]; (split; [exists []; by rewrite app_nil_r|done]).
  - cbn [snd]. split; [by exists [row]|]. unfold charges. cbn. rewrite map_app. intros Hd.
    apply NoDup_app. split_and!; [done| |apply NoDup_singleton].
    intros k Hk ->%list_elem_of_singleton. cbn in Hk. unfold row in Hv.
    by rewrite violation_charged in Hv.
Qed.

(** The same for the database part of the state of [FundingM]. *)
Definition on_fst (R : Db.t -> Db.t -> Prop)
    (s s' : Db.t * list (PublicKey * XxiFundingFeeEvent.t)) : Prop := R s.1 s'.1.

#[export] Instance on_fst_preorder R `{!PreOrder R} : PreOrder (on_fst R).
Proof. unfold on_fst. split; [by intros ?|intros ???; apply transitivity]. Qed.

Lemma db_call_steps {A} R (m : M Db.t Anyhow A) : steps R m -> steps (on_fst R) (db_call m).
Proof. intros Hm [d log]. specialize (Hm d). unfold on_fst, db_call. by destruct (m d). Qed.

Lemma notify_steps R `{!PreOrder R} b pk e : steps (on_fst R) (notify b pk e).
Proof. intros [d log]. unfold on_fst, notify. by destruct b. Qed.

#[local] Hint Resolve db_call_steps notify_steps event_insert_charges_once : sql.

Lemma charge_position_steps now b rate price p :
  steps (on_fst charges_once) (charge_position now b rate price p).
Proof. unfold charge_position. solve_steps; apply db_call_steps; solve_steps. Qed.

(** ** Retrying *)

Lemma generate_keeps {R2} `{Stored R2} `{!Independent R2 FundingFeeEventRow.t}
    now b rate price positions :
  steps (on_fst (keeps R2)) (for_each (charge_position now b rate price) positions).
Proof.
  apply steps_for_each; [apply _|intros p]. unfold charge_position.
  solve_steps; apply db_call_steps; solve_steps. intros d. unfold funding_fee_event_insert.
  destruct (f32_from_decimal price ≫= _) as [[pr r]| |]; [|done..].
  pose proof (insert_frame (R := FundingFeeEventRow.t) (R2 := R2)
    (fun id => FundingFeeEventRow.mk id a (pk_to_string (Position.trader p)) (Position.id p)
       (FundingRate.end_date rate) pr r None now) d) as Hk.
  destruct (insert _ d) as [[e|[]|] d']; exact Hk.
Qed.

Lemma funding_rate_depends now d d' : keeps FundingRateRow.t d d' ->
  get_funding_rate_charged_in_the_last_hour now d' =
    ((get_funding_rate_charged_in_the_last_hour now d).1, d').
Proof.
  unfold keeps, get_funding_rate_charged_in_the_last_hour. intros Hk.
  unfold mbind, M_bind, lift. destruct (to_nearest_hour_in_the_past now) as [t| |]; [|done..].
  rewrite !optional_first_run, Hk. destruct (head _); [|done].
  by destruct (funding_rate_from_row _).
Qed.

Lemma funding_rate_hour now now' d :
  to_nearest_hour_in_the_past (E := SqlError) now' = to_nearest_hour_in_the_past now ->
  get_funding_rate_charged_in_the_last_hour now' d = get_funding_rate_charged_in_the_last_hour now d.
Proof. unfold get_funding_rate_charged_in_the_last_hour, mbind, M_bind, lift. by intros ->. Qed.

Lemma positions_depend t d d' : keeps PositionRow.t d d' ->
  get_all_active_positions_open_before t d' =
    ((get_all_active_positions_open_before t d).1, d').
Proof.
  unfold keeps, get_all_active_positions_open_before, positions_from_rows. intros Hk.
  unfold mbind, M_bind, lift. by rewrite !load_run, Hk.
Qed.

(** What charging a position needs, and what it leaves behind. *)
Definition chargeable (rate : FundingRate.t) (price : Decimal) (p : Position.t) : Prop :=
  is_ok (E := Anyhow) (calculate_funding_fee (Position.quantity p) (FundingRate.rate rate) price
           (Position.trader_direction p)) = true /\
  is_ok (E := SqlError) (f32_from_decimal price) = true /\
  is_ok (E := SqlError) (f32_from_decimal (FundingRate.rate rate)) = true.

Definition charged (rate : FundingRate.t) (d : Db.t) (p : Position.t) : Prop :=
  (Position.id p, FundingRate.end_date rate) ∈ charges d.

Lemma charge_position_ok now b rate price p d log d' log' :
  charge_position now b rate price p (d, log) = (Ok tt, (d', log')) ->
  chargeable rate price p /\ charged rate d' p.
Proof.
  unfold charge_position, chargeable, charged.
  intros (amount & s1 & [-> ->]%lift_ok & (event & [d1 log1] & Hins & Hrest)%M_bind_ok)%M_bind_ok.
  assert (d' = d1) as ->.
  { destruct event; [|by injection Hrest]. apply M_bind_ok in Hrest as (c & s2 & [_ ->]%lift_ok & Hn).
    unfold notify in Hn. destruct b; by injection Hn. }
  unfold db_call in Hins. destruct (with_err _ _ d) as [r d2] eqn:Hd2.
  injection Hins as -> -> _. apply with_err_ok in Hd2. unfold funding_fee_event_insert in Hd2.
  destruct (f32_from_decimal price) as [pr| |]; try done.
  destruct (f32_from_decimal (FundingRate.rate rate)) as [r| |]; try done. cbn in Hd2.
  split; [done|]. unfold insert in Hd2. destruct (violation d _) as [[]|] eqn:Hv; try done.
  - injection Hd2 as _ <-. cbn. apply has_charge. unfold violation, funding_fee_events_constraint in Hv.
    cbn in Hv. unfold charges.
    destruct (has d _) eqn:Hh in Hv; [exact Hh|]. by destruct (has_position d (Position.id p)).
  - destruct (funding_fee_event_from_row _) as [e| |]; try done. injection Hd2 as _ <-.
    unfold charges. cbn. rewrite map_app. apply elem_of_app. right. by apply list_elem_of_singleton.
Qed.

Lemma charge_position_again now b rate price p d log :
  chargeable rate price p -> charged rate d p ->
  exists d', charge_position now b rate price p (d, log) = (Ok tt, (d', log)) /\ d' ≡ d.
Proof.
  intros (Hfee & Hprice & Hrate) Hch. unfold charge_position.
  destruct (calculate_funding_fee _ _ _ _) as [amount| |]; try done.
  destruct (f32_from_decimal price) as [pr| |] eqn:Hp; try done.
  destruct (f32_from_decimal (FundingRate.rate rate)) as [r| |] eqn:Hr; try done.
  set (t := tbl (R := FundingFeeEventRow.t) d).
  exists (set_tbl (Table.mk (Table.rows t) (Table.next_id t + 1)) d). split; [|by apply db_equiv_spec].
  unfold mbind, M_bind, lift, db_call, with_err, funding_fee_event_insert.
  rewrite Hp, Hr. cbn [mbind outcome_bind]. unfold insert. by rewrite violation_charged.
Qed.

#[export] Instance charges_proper : Proper ((≡) ==> (=)) charges.
Proof. intros d d' Hd. unfold charges. apply db_equiv_spec in Hd as (_&_&_&_&_&_&_&H'&_). by rewrite H'. Qed.

Lemma charge_all_ok now b rate price ps d log s' :
  for_each (charge_position now b rate price) ps (d, log) = (Ok tt, s') ->
  Forall (fun p => chargeable rate price p /\ charged rate s'.1 p) ps.
Proof.
  revert d log. induction ps as [|p ps IH]; intros d log; [constructor|]. cbn.
  intros ([] & [d1 log1] & Hp & Hps)%M_bind_ok. constructor; [|by eapply IH].
  apply charge_position_ok in Hp as [Hable Hdone]. split; [done|].
  pose proof (steps_for_each (on_fst charges_once) _ ps
    (charge_position_steps now b rate price) (d1, log1)) as [[new Hnew] _].
  rewrite Hps in Hnew. cbn in Hnew. unfold charged, charges in *.
  rewrite Hnew, map_app. apply elem_of_app. by left.
Qed.

Lemma charge_all_again now b rate price ps d log :
  Forall (fun p => chargeable rate price p /\ charged rate d p) ps ->
  exists d', for_each (charge_position now b rate price) ps (d, log) = (Ok tt, (d', log)) /\ d' ≡ d.
Proof.
  revert d. induction ps as [|p ps IH]; intros d; cbn; [by exists d|].
  intros [[Hable Hdone] Hps]%Forall_cons.
  destruct (charge_position_again now b rate price p d log Hable Hdone) as (d1 & Hp & Hd1).
  destruct (IH d1) as (d2 & Hrest & Hd2).
  { eapply Forall_impl; [done|]. unfold charged. cbn. intros q. by rewrite Hd1. }
  exists d2. split; [|by etrans]. unfold mbind, M_bind. by rewrite Hp.
Qed.

Lemma db_call_ok {A} (m : Sql A) d log a s : db_call (with_err FromSql m) (d, log) = (Ok a, s) ->
  m d = (Ok a, s.1) /\ s.2 = log.
Proof.
  unfold db_call. destruct (with_err _ _ _) as [r d1] eqn:Hm. intros [= -> <-].
  by apply with_err_ok in Hm.
Qed.

Lemma db_call_bind {A B} (m : Sql A) (f : A -> M (Db.t * list (PublicKey * XxiFundingFeeEvent.t)) Anyhow B)
    d log a : m d = (Ok a, d) ->
  ((db_call (with_err FromSql m) : M _ Anyhow A) ≫= f) (d, log) = f a (d, log).
Proof. intros Hm. unfold mbind, M_bind, db_call, with_err. by rewrite Hm. Qed.

(** Generating the events is safe to retry: after a success, running it again within
    the hour succeeds, leaves every row as it is and sends nothing. *)
Lemma generate_again now now' debug b source bitmex
    (s s' : Db.t * list (PublicKey * XxiFundingFeeEvent.t)) :
  to_nearest_hour_in_the_past (E := SqlError) now' = to_nearest_hour_in_the_past now ->
  generate_funding_fee_events now debug b source bitmex s = (Ok tt, s') ->
  exists d, generate_funding_fee_events now' debug b source bitmex s' = (Ok tt, (d, s'.2)) /\ d ≡ s'.1.
Proof.
  intros Hhour Hrun. destruct s as [d log], s' as [d' log']. cbn [fst snd].
  unfold generate_funding_fee_events in *.
  apply M_bind_ok in Hrun as (rate & [d1 log1] & [Hrate Hlog]%db_call_ok & Hrun).
  cbn in Hrate, Hlog. subst log1.
  pose proof (funding_rate_depends now d d eq_refl) as Hsame. rewrite Hrate in Hsame.
  injection Hsame as ->. destruct rate as [rate|]; cycle 1.
  { injection Hrun as <- <-. exists d. split; [|done].
    etrans; [eapply (db_call_bind _ _ _ _ None)|done]. by rewrite (funding_rate_hour now now'). }
  apply M_bind_ok in Hrun as (price & s1 & [Hprice ->]%lift_ok & Hrun).
  destruct (d_is_zero price) eqn:Hzero; [done|].
  apply M_bind_ok in Hrun as (ps & [d2 log2] & [Hps Hlog]%db_call_ok & Hrun).
  cbn in Hps, Hlog. subst log2.
  pose proof (positions_depend (FundingRate.end_date rate) d d eq_refl) as Hsame.
  rewrite Hps in Hsame. injection Hsame as ->.
  pose proof (generate_keeps (R2 := FundingRateRow.t) now b rate price ps (d, log)) as Hk1.
  pose proof (generate_keeps (R2 := PositionRow.t) now b rate price ps (d, log)) as Hk2.
  rewrite Hrun in Hk1, Hk2. apply charge_all_ok in Hrun.
  destruct (charge_all_again now' b rate price ps d' log' Hrun) as (d'' & Hagain & Heq).
  exists d''. split; [|done].
  etrans; [eapply (db_call_bind _ _ _ _ (Some rate));
           by rewrite (funding_rate_hour now now' d'), (funding_rate_depends now d d' Hk1), Hrate by done|].
  unfold lift at 1. unfold mbind, M_bind at 1. rewrite Hprice, Hzero.
  etrans; [eapply (db_call_bind _ _ _ _ ps)|done].
  by rewrite (positions_depend _ d d' Hk2), Hps.
Qed.

Lemma filter_sublist {A} (f : A -> bool) l : sublist (List.filter f l) l.
Proof. induction l as [|x l IH]; [constructor|]. cbn. destruct (f x); by constructor. Qed.

(** The positions read from rows with distinct ids have distinct ids. *)
Lemma positions_ids {E} (f : PositionRow.t -> bool) l ps : NoDup (map PositionRow.id l) ->
  traverse (E := E) position_from_row (List.filter f l) = Ok ps -> NoDup (map Position.id ps).
Proof.
  intros Hdup Hps%traverse_ok. cut (map Position.id ps = map PositionRow.id (List.filter f l)).
  { intros ->. eapply sublist_NoDup; [exact Hdup|]. apply fmap_sublist, filter_sublist. }
  clear Hdup. induction Hps as [|row p rows ps Hp _ IH]; [done|]. cbn. f_equal; [|exact IH].
  unfold position_from_row in Hp. inv_ok. by subst.
Qed.

(** ** What is charged *)

(** The position is charged for the date of the rate. *)
Definition is_charged (rate : FundingRate.t) (d : Db.t) (p : Position.t) : bool :=
  has d (fun e => (FundingFeeEventRow.position_id e =? Position.id p)
                  && (FundingFeeEventRow.due_date e =? FundingRate.end_date rate)).

(** A position that is charged, the event that is stored, and what its trader is sent. *)
Record charge := Charge {
  charge_of : Position.t;
  charge_row : FundingFeeEventRow.t;
  charge_message : option (PublicKey * XxiFundingFeeEvent.t);
}.

Definition charge_ok (rate : FundingRate.t) (price : Decimal) (c : charge) : Prop :=
  let p := charge_of c in
  let row := charge_row c in
  calculate_funding_fee (E := Anyhow) (Position.quantity p) (FundingRate.rate rate) price (Position.trader_direction p)
    = Ok (FundingFeeEventRow.amount_sats row) /\
  f32_from_decimal (E := SqlError) price = Ok (FundingFeeEventRow.price row) /\
  f32_from_decimal (E := SqlError) (FundingRate.rate rate) = Ok (FundingFeeEventRow.funding_rate row) /\
  FundingFeeEventRow.trader_pubkey row = pk_to_string (Position.trader p) /\
  FundingFeeEventRow.position_id row = Position.id p /\
  FundingFeeEventRow.due_date row = FundingRate.end_date rate /\
  FundingFeeEventRow.paid_date row = None /\
  forall trader e, charge_message c = Some (trader, e) ->
    trader = Position.trader p /\
    exists contracts told_price, decimal_from_f32 (E := Anyhow) (Position.quantity p) = Ok contracts /\
      decimal_from_f32 (E := SqlError) (FundingFeeEventRow.price row) = Ok told_price /\
      e = XxiFundingFeeEvent.mk BtcUsd contracts (Position.trader_direction p) told_price
            (FundingFeeEventRow.amount_sats row) (FundingRate.end_date rate).

(** The positions [ps] are charged, in their order, those that were charged already
    left out: all of them if the run returns, the first ones if not.  Every trader is
    told, but for the one at whose event a run that does not return ends. *)
Definition charges_due (rate : FundingRate.t) (price : Decimal) (ps : list Position.t) (r : outcome Anyhow unit)
    (s s' : Db.t * list (PublicKey * XxiFundingFeeEvent.t)) : Prop :=
  exists told untold left_out,
    let charged := told ++ untold in
    List.filter (fun p => negb (is_charged rate s.1 p)) ps = map charge_of charged ++ left_out /\
    rows s'.1 = rows s.1 ++ map charge_row charged /\
    s'.2 = s.2 ++ omap charge_message told /\
    Forall (charge_ok rate price) charged /\
    Forall (fun c => is_Some (charge_message c)) told /\ (length untold <= 1)%nat /\
    (r = Ok tt -> untold = [] /\ left_out = []).

Lemma is_charged_rows rate d d' p : rows (R := FundingFeeEventRow.t) d' = rows d ->
  is_charged rate d' p = is_charged rate d p.
Proof. unfold is_charged, has. by intros ->. Qed.

(** One position: it was charged already, or it is charged and its trader told, or the
    run ends here, with or without the event. *)
Lemma charge_position_run now b rate price p d log r s' :
  charge_position now b rate price p (d, log) = (r, s') ->
  (r = Ok tt /\ is_charged rate d p = true /\ rows (R := FundingFeeEventRow.t) s'.1 = rows d /\ s'.2 = log) \/
  (r = Ok tt /\ is_charged rate d p = false /\ exists row m, rows s'.1 = rows d ++ [row] /\ s'.2 = log ++ [m] /\
     charge_ok rate price (Charge p row (Some m))) \/
  (r <> Ok tt /\ s'.2 = log /\ rows (R := FundingFeeEventRow.t) s'.1 = rows d) \/
  (r <> Ok tt /\ s'.2 = log /\ is_charged rate d p = false /\ exists row, rows s'.1 = rows d ++ [row] /\
     charge_ok rate price (Charge p row None)).
Proof.
  unfold charge_position, mbind, M_bind, lift.
  destruct (calculate_funding_fee _ _ _ _) as [amount|e|] eqn:Hfee;
    [|intros [= <- <-]; right; right; left; by split_and!..].
  unfold db_call, with_err, funding_fee_event_insert.
  destruct (f32_from_decimal price) as [pr|e|] eqn:Hp; cbn;
    [|intros [= <- <-]; right; right; left; by split_and!..].
  destruct (f32_from_decimal (FundingRate.rate rate)) as [rt|e|] eqn:Hr; cbn;
    [|intros [= <- <-]; right; right; left; by split_and!..].
  unfold insert. set (row := FundingFeeEventRow.mk _ _ _ _ _ _ _ _ _).
  assert (Hv : violation d row = if is_charged rate d p then Some UniqueViolation
    else references (has_position d (Position.id p))).
  { unfold violation, funding_fee_events_constraint, and_then, unique, is_charged. cbn. by destruct (has d _). }
  rewrite Hv. destruct (is_charged rate d p) eqn:Hch.
  { intros [= <- <-]. left. by split_and!. }
  destruct (references _) as [err|] eqn:Href.
  { assert (err = ForeignKeyViolation) as -> by (unfold references in Href; destruct (has_position _ _); by simplify_eq).
    intros [= <- <-]. right; right; left. by split_and!. }
  assert (Hrow : forall m, (forall trader e, m = Some (trader, e) -> trader = Position.trader p /\
    exists contracts told_price, decimal_from_f32 (E := Anyhow) (Position.quantity p) = Ok contracts /\
      decimal_from_f32 (E := SqlError) (FundingFeeEventRow.price row) = Ok told_price /\
      e = XxiFundingFeeEvent.mk BtcUsd contracts (Position.trader_direction p) told_price
            (FundingFeeEventRow.amount_sats row) (FundingRate.end_date rate)) ->
    charge_ok rate price (Charge p row m)) by (intros m Hm; by split_and!).
  assert (Hstop : forall r0 s0, r0 <> Ok tt -> s0.2 = log -> rows s0.1 = rows d ++ [row] ->
    (r0, s0) = (r, s') -> (r <> Ok tt /\ s'.2 = log /\ false = false /\ exists row, rows s'.1 = rows d ++ [row] /\
     charge_ok rate price (Charge p row None))).
  { intros r0 s0 H1 H2 H3 [= <- <-]. split_and!; [done..|]. exists row. split; [done|]. by apply Hrow. }
  destruct (funding_fee_event_from_row row) as [event|e|] eqn:Hevent; cbn;
    [|intros H; do 3 right; (eapply Hstop; [| | |exact H]); done..].
  destruct (decimal_from_f32 (Position.quantity p)) as [contracts|e|] eqn:Hq; cbn;
    [|intros H; do 3 right; (eapply Hstop; [| | |exact H]); done..].
  unfold notify. destruct b; [|intros H; do 3 right; (eapply Hstop; [| | |exact H]); done].
  intros [= <- <-]. right. left. split_and!; [done..|]. eexists _, _. split; [reflexivity|]. split; [reflexivity|].
  apply Hrow. intros trader e [= <- <-]. split; [done|].
  unfold funding_fee_event_from_row in Hevent. inv_ok. subst event. cbn in *. by eexists _, _.
Qed.

Lemma charge_all_due now b rate price ps : forall s r s', NoDup (map Position.id ps) ->
  for_each (charge_position now b rate price) ps s = (r, s') -> charges_due rate price ps r s s'.
Proof.
  induction ps as [|p ps IH]; intros [d log] r s' Hdup Hrun; cbn in Hrun.
  { injection Hrun as <- <-. exists [], [], []. cbn. split_and!; rewrite ?app_nil_r; try done; try constructor; lia. }
  cbn in Hdup. apply NoDup_cons in Hdup as [Hp Hdup].
  unfold mbind, M_bind in Hrun. destruct (charge_position _ _ _ _ p (d, log)) as [r1 [d1 log1]] eqn:H1.
  assert (Hend : forall untold, r1 <> Ok tt -> log1 = log -> rows d1 = rows d ++ map charge_row untold ->
    Forall (charge_ok rate price) untold -> (length untold <= 1)%nat ->
    (exists left_out, List.filter (fun p => negb (is_charged rate d p)) (p :: ps) = map charge_of untold ++ left_out) ->
    charges_due rate price (p :: ps) r (d, log) s').
  { intros untold Hr -> Hrows Hok Hlen [left_out Hl].
    assert (r = r1 /\ s' = (d1, log)) as [-> ->] by (destruct r1 as [[]| |]; by simplify_eq).
    exists [], untold, left_out. cbn. rewrite app_nil_r. by split_and!. }
  apply charge_position_run in H1 as [(-> & Hch & Hrows & Hlog)|[(-> & Hch & row & m & Hrows & Hlog & Hok)
    |[(Hr & Hlog & Hrows)|(Hr & Hlog & Hch & row & Hrows & Hok)]]]; cbn in Hrows, Hlog.
  - subst log1. destruct (IH _ _ _ Hdup Hrun) as (told & untold & left_out & Hl & Hrows' & Hlog' & Hrest).
    exists told, untold, left_out. cbn [fst snd] in *. cbn [List.filter]. rewrite Hch. cbn [negb].
    rewrite <-Hrows. split_and!; [|done|done|apply Hrest..]. rewrite <-Hl. apply List.filter_ext. intros q.
    by rewrite (is_charged_rows rate d d1).
  - subst log1. destruct (IH _ _ _ Hdup Hrun) as (told & untold & left_out & Hl & Hrows' & Hlog' & Hall & Htold & Hlen & Hdone).
    exists (Charge p row (Some m) :: told), untold, left_out. cbn [fst snd] in *. cbn [List.filter]. rewrite Hch.
    cbn [negb app map charge_of charge_row]. split_and!; [| | | | |done|done].
    + f_equal. rewrite <-Hl. apply List.filter_ext_in. intros q Hq. unfold is_charged, has. rewrite Hrows, existsb_app. cbn.
      destruct Hok as (_ & _ & _ & _ & Hid & _). cbn in Hid. rewrite Hid.
      replace (Position.id p =? Position.id q) with false; [by rewrite orb_false_r|].
      symmetry. apply Z.eqb_neq. intros Heq. apply Hp. rewrite Heq. apply list_elem_of_In. by apply in_map.
    + by rewrite Hrows', Hrows, <-app_assoc.
    + by rewrite Hlog', <-app_assoc.
    + by constructor.
    + by constructor.
  - apply (Hend []); [done|done|by rewrite app_nil_r|constructor|cbn; lia|by eexists].
  - apply (Hend [Charge p row None]); [done..|by constructor|cbn; lia|]. cbn [List.filter]. rewrite Hch. by eexists.
Qed.

(** C40: generating funding fee events charges exactly what is due.  Without a rate that
    ended at the last full hour nothing happens, and an index price of zero is an
    error.  Otherwise every active position that was opened before the rate ended and
    is not charged for that date yet gets one event, due at that date, unpaid, with the
    fee of the position at that price and rate, and its trader is told of it
    ([charges_due]); no other event is added and none is changed, even if the run fails
    half way.  (The ids of the positions are distinct.)  After a run that returns, another run within the hour changes nothing
    and tells nobody. *)
Theorem generate_charges_once now debug b source bitmex
    (s s' : Db.t * list (PublicKey * XxiFundingFeeEvent.t)) (r : outcome Anyhow unit)
    (Hids : NoDup (map PositionRow.id (rows s.1)))
    (Hrun : generate_funding_fee_events now debug b source bitmex s = (r, s')) :
  match (get_funding_rate_charged_in_the_last_hour now s.1).1 with
  | Ok None => r = Ok tt /\ s' = s
  | Ok (Some rate) =>
    match get_index_price debug source bitmex (FundingRate.end_date rate) with
    | Ok price =>
      if d_is_zero price then s' = s /\ r = Err (Msg "Cannot generate funding fee events with zero index price")
      else match traverse (E := SqlError) position_from_row (List.filter (fun p => is_active p
          && (PositionRow.creation_timestamp p <? FundingRate.end_date rate)) (rows s.1)) with
        | Ok ps => charges_due rate price ps r s s'
        | _ => s' = s /\ r <> Ok tt
        end
    | _ => s' = s /\ r <> Ok tt
    end
  | _ => s' = s /\ r <> Ok tt
  end /\
  (r = Ok tt -> forall now', to_nearest_hour_in_the_past (E := SqlError) now' = to_nearest_hour_in_the_past now ->
     exists d, generate_funding_fee_events now' debug b source bitmex s' = (Ok tt, (d, s'.2)) /\ d ≡ s'.1).
Proof.
  split; [|intros -> now' Hhour; by eapply generate_again].
  destruct s as [d log]. cbn [fst] in *. unfold generate_funding_fee_events, mbind at 1, M_bind at 1 in Hrun.
  unfold db_call at 1, with_err in Hrun. rewrite (funding_rate_depends now d d eq_refl) in Hrun.
  destruct (get_funding_rate_charged_in_the_last_hour now d) as [[[rate|]|e|] d0]; cbn [fst snd map_err] in *;
    [|by injection Hrun as <- <-..].
  unfold mbind at 1, M_bind at 1, lift in Hrun.
  destruct (get_index_price _ _ _ _) as [price|e|]; cbn in Hrun; [|by injection Hrun as <- <-..].
  destruct (d_is_zero price); [by injection Hrun as <- <-|].
  unfold mbind at 1, M_bind at 1, db_call, with_err, get_all_active_positions_open_before, positions_from_rows in Hrun.
  unfold mbind, M_bind, lift in Hrun. rewrite load_run in Hrun.
  destruct (traverse _ _) as [ps|e|] eqn:Hps; cbn [map_err] in Hrun; [|by injection Hrun as <- <-..].
  eapply charge_all_due; [|exact Hrun]. eapply positions_ids; [exact Hids|exact Hps].
Qed.
End Generate.

(** One open position, and a funding rate that ended at 01:00. *)
Definition demo_funding_db : Db.t :=
  set_rows [FundingRateRow.mk 1 0 NANOS_PER_HOUR (f32_of_Z 1) 0]
    (set_rows [demo_position DbPositionState.Open] empty_db).

Definition demo_generate (s : Db.t * list (PublicKey (IdLib := demo_id) * XxiFundingFeeEvent.t)) :=
  generate_funding_fee_events (NANOS_PER_HOUR + 7) true true Bitmex (fun _ => Ok (d_lit 20000)) s.

Definition demo_charges : list (Z * OffsetDateTime) := [(1, NANOS_PER_HOUR)].

(** Run at the full hour and again seven nanoseconds later. *)
Example generate_charges_once_witness :
  let s' := (demo_generate (demo_funding_db, [])).2 in
  charges s'.1 = demo_charges /\ length s'.2 = 1%nat /\
  exists d, generate_funding_fee_events (NANOS_PER_HOUR + 14) true true Bitmex (fun _ => Ok (d_lit 20000)) s'
    = (Ok tt, (d, s'.2)) /\ d ≡ s'.1.
Proof.
  cbn zeta. split; [by vm_compute|]. split; [by vm_compute|].
  refine (proj2 (generate_charges_once (NANOS_PER_HOUR + 7) true true Bitmex (fun _ => Ok (d_lit 20000))
    (demo_funding_db, []) _ _ _ (surjective_pairing _)) _ (NANOS_PER_HOUR + 14) _).
  - repeat constructor. cbn. by intros ?%elem_of_nil.
  - by vm_compute.
  - by vm_compute.
Defined.
