(* ===== verification/CoordSettings.v ===== *)
(** * [coordinator/src/settings.rs]: the coordinator's settings and their file

    Read from a TOML file at the start, replaced and written back by the route
    [/api/admin/settings] ([routes/admin.rs]), and copied to the node of the
    coordinator ([node.rs]). *)

From stdpp Require Import base list option strings.
From Stdlib Require Import ZArith Lia.
From S2P Require Import Prelude Machine External Demo Commons SqlTypes Schema Db Funding.

#[local] Open Scope Z_scope.

(** Intervals in nanoseconds. *)
Module XXINodeSettings.
Record t := mk {
  off_chain_sync_interval : Z;
  on_chain_sync_interval : Z;
  fee_rate_sync_interval : Z;
  sub_channel_manager_periodic_check_interval : Z;
  shadow_sync_interval : Z;
}.
End XXINodeSettings.

Module SettingsFile.
Record t `{IdLib} := mk {
  new_positions_enabled : bool;
  xxi : XXINodeSettings.t;
  rollover_window_open_scheduler : string;
  rollover_window_close_scheduler : string;
  close_expired_position_scheduler : string;
  close_liquidated_position_scheduler : string;
  update_user_bonus_status_scheduler : string;
  collect_metrics_scheduler : string;
  generate_funding_fee_events_scheduler : string;
  whitelist_enabled : bool;
  whitelisted_makers : list PublicKey;
  min_quantity : Z;
  maintenance_margin_rate : f32;
  order_matching_fee_rate : f32;
  index_price_source : IndexPriceSource;
  max_leverage : Z;
}.
#[global] Arguments mk {_}.
End SettingsFile.

(** The settings in memory also know where their file is. *)
Module Settings.
Record t `{IdLib} := mk {
  new_positions_enabled : bool;
  xxi : XXINodeSettings.t;
  rollover_window_open_scheduler : string;
  rollover_window_close_scheduler : string;
  close_expired_position_scheduler : string;
  close_liquidated_position_scheduler : string;
  update_user_bonus_status_scheduler : string;
  collect_metrics_scheduler : string;
  generate_funding_fee_events_scheduler : string;
  path : string;
  whitelist_enabled : bool;
  whitelisted_makers : list PublicKey;
  min_quantity : Z;
  maintenance_margin_rate : f32;
  order_matching_fee_rate : f32;
  index_price_source : IndexPriceSource;
  max_leverage : Z;
}.
#[global] Arguments mk {_}.
End Settings.

(** [node.rs: NodeSettings]. *)
Module NodeSettings.
Record t := mk { allow_opening_positions : bool; maintenance_margin_rate : f32; order_matching_fee_rate : f32 }.
End NodeSettings.

Section Settings.
Context `{IL : IdLib}.

Definition settings_from_file (file : SettingsFile.t) (path : string) : Settings.t :=
  Settings.mk (SettingsFile.new_positions_enabled file) (SettingsFile.xxi file)
    (SettingsFile.rollover_window_open_scheduler file) (SettingsFile.rollover_window_close_scheduler file)
    (SettingsFile.close_expired_position_scheduler file) (SettingsFile.close_liquidated_position_scheduler file)
    (SettingsFile.update_user_bonus_status_scheduler file) (SettingsFile.collect_metrics_scheduler file)
    (SettingsFile.generate_funding_fee_events_scheduler file) path (SettingsFile.whitelist_enabled file)
    (SettingsFile.whitelisted_makers file) (SettingsFile.min_quantity file) (SettingsFile.maintenance_margin_rate file)
    (SettingsFile.order_matching_fee_rate file) (SettingsFile.index_price_source file) (SettingsFile.max_leverage file).
(** [impl From<Settings> for SettingsFile]. *)
Definition settings_file_from (value : Settings.t) : SettingsFile.t :=
  SettingsFile.mk (Settings.new_positions_enabled value) (Settings.xxi value)
    (Settings.rollover_window_open_scheduler value) (Settings.rollover_window_close_scheduler value)
    (Settings.close_expired_position_scheduler value) (Settings.close_liquidated_position_scheduler value)
    (Settings.update_user_bonus_status_scheduler value) (Settings.collect_metrics_scheduler value)
    (Settings.generate_funding_fee_events_scheduler value) false
    (Settings.whitelisted_makers value) (Settings.min_quantity value) (Settings.maintenance_margin_rate value)
    (Settings.order_matching_fee_rate value) (Settings.index_price_source value) (Settings.max_leverage value).
Definition to_node_settings (s : Settings.t) : NodeSettings.t :=
  NodeSettings.mk (Settings.new_positions_enabled s) (Settings.maintenance_margin_rate s) (Settings.order_matching_fee_rate s).
Definition settings_update (s : Settings.t) (file : SettingsFile.t) : Settings.t := settings_from_file file (Settings.path s).
End Settings.

(** [toml], which writes intervals as whole seconds. *)
Class TomlLib `{IL : IdLib} := {
  toml_to_string_pretty : SettingsFile.t -> option string;
  toml_from_str : string -> option SettingsFile.t;
}.
Definition whole_seconds (s : XXINodeSettings.t) : Prop :=
  Forall (fun interval => interval mod NANOS_PER_SEC = 0)
    [XXINodeSettings.off_chain_sync_interval s; XXINodeSettings.on_chain_sync_interval s;
     XXINodeSettings.fee_rate_sync_interval s; XXINodeSettings.sub_channel_manager_periodic_check_interval s;
     XXINodeSettings.shadow_sync_interval s].
Class TomlLaws `(TL : TomlLib) : Prop := {
  toml_roundtrip f text : whole_seconds (SettingsFile.xxi f) -> toml_to_string_pretty f = Some text ->
    toml_from_str text = Some f;
}.

(** The coordinator's settings, those of its node and of the node library, and the
    text of the file. *)
Module SettingsState.
Record t `{IdLib} := mk {
  settings : Settings.t;
  node_settings : NodeSettings.t;
  xxi_settings : XXINodeSettings.t;
  file : string;
}.
#[global] Arguments mk {_}.
End SettingsState.

Section Server.
Context `{TL : TomlLib}.
(** Creating and writing the file: the result, and what the file then holds. *)
Context (write_all : string -> string -> outcome string unit * string).

Definition SettingsM (A : Type) : Type := M SettingsState.t Anyhow A.

(** [Settings::new] of a file's text, and what [bin/coordinator.rs] makes of it. *)
Definition settings_new (data path : string) : outcome Anyhow Settings.t :=
  settings ← ok_or (Msg "Unable to parse settings file") (toml_from_str data);
  Ok (settings_from_file settings path).
Definition start_coordinator (data path : string) : outcome Anyhow SettingsState.t :=
  settings ← settings_new data path;
  Ok (SettingsState.mk settings (to_node_settings settings) (Settings.xxi settings) data).

Definition write_to_file : SettingsM unit := fun s =>
  match toml_to_string_pretty (settings_file_from (SettingsState.settings s)) with
  | None => (Err (Msg "Unable to serialize settings to TOML format"), s)
  | Some data =>
    let '(r, file) := write_all data (SettingsState.file s) in
    (map_err Msg r, SettingsState.mk (SettingsState.settings s) (SettingsState.node_settings s) (SettingsState.xxi_settings s) file)
  end.
(** [routes::admin::update_settings]. *)
Definition update_settings (updated_settings : SettingsFile.t) : SettingsM unit :=
  modify (fun s => SettingsState.mk (settings_update (SettingsState.settings s) updated_settings)
    (SettingsState.node_settings s) (SettingsState.xxi_settings s) (SettingsState.file s));;
  write_to_file;;
  modify (fun s => SettingsState.mk (SettingsState.settings s) (SettingsState.node_settings s)
    (Settings.xxi (SettingsState.settings s)) (SettingsState.file s)).
End Server.

(** ** What a restart forgets *)

Definition with_whitelist_enabled `{IdLib} (v : bool) (f : SettingsFile.t) : SettingsFile.t :=
  SettingsFile.mk (SettingsFile.new_positions_enabled f) (SettingsFile.xxi f) (SettingsFile.rollover_window_open_scheduler f)
    (SettingsFile.rollover_window_close_scheduler f) (SettingsFile.close_expired_position_scheduler f)
    (SettingsFile.close_liquidated_position_scheduler f) (SettingsFile.update_user_bonus_status_scheduler f)
    (SettingsFile.collect_metrics_scheduler f) (SettingsFile.generate_funding_fee_events_scheduler f) v
    (SettingsFile.whitelisted_makers f) (SettingsFile.min_quantity f) (SettingsFile.maintenance_margin_rate f)
    (SettingsFile.order_matching_fee_rate f) (SettingsFile.index_price_source f) (SettingsFile.max_leverage f).

Section Spec.
Context `{TLaws : TomlLaws}.
Context (write_all : string -> string -> outcome string unit * string).

Lemma settings_file_of_file f path : settings_file_from (settings_from_file f path) = with_whitelist_enabled false f.
Proof using Type. reflexivity. Qed.

Lemma update_settings_run f (s s' : SettingsState.t) u : (forall data old, (write_all data old).1 = Ok tt -> (write_all data old).2 = data) ->
  whole_seconds (SettingsFile.xxi f) -> update_settings write_all f s = (Ok u, s') ->
  let path := Settings.path (SettingsState.settings s) in
  s' = SettingsState.mk (settings_from_file f path) (SettingsState.node_settings s) (SettingsFile.xxi f) (SettingsState.file s') /\
  toml_from_str (SettingsState.file s') = Some (with_whitelist_enabled false f).
Proof using TLaws.
  intros Hwrite Hxxi ([] & s1 & [= <-] & ([] & s2 & Hw & [= _ <-])%M_bind_ok)%M_bind_ok. cbn zeta.
  unfold write_to_file in Hw. cbn [SettingsState.settings SettingsState.file] in Hw. unfold settings_update in Hw. rewrite settings_file_of_file in Hw.
  destruct (toml_to_string_pretty _) as [data|] eqn:Ht; [|discriminate Hw].
  destruct (write_all data _) as [r file] eqn:Hf. cbn in Hw. injection Hw as Hr <-. destruct r as [[]|e|]; try discriminate Hr.
  cbn. split; [reflexivity|]. apply toml_roundtrip in Ht; [|done].
  specialize (Hwrite data (SettingsState.file s)). rewrite Hf in Hwrite. cbn in Hwrite. by rewrite Hwrite.
Qed.
End Spec.

(** ** A coordinator with one maker on its whitelist *)

Definition demo_settings_file : SettingsFile.t (H := demo_id) :=
  SettingsFile.mk true (XXINodeSettings.mk NANOS_PER_SEC NANOS_PER_SEC NANOS_PER_SEC NANOS_PER_SEC NANOS_PER_SEC)
    "0 0 15 * * 5" "0 0 15 * * 6" "0 0 1 * * *" "0 0 1 * * *" "0 0 0 * * *" "0 * * * * *" "0 0 * * * *" true ["maker"%string]
    1 (f32_of_Z 0) (f32_of_Z 0) Bitmex 5.

#[export] Instance index_price_source_eq_dec : EqDecision IndexPriceSource.
Proof. solve_decision. Defined.
#[export] Instance xxi_node_settings_eq_dec : EqDecision XXINodeSettings.t.
Proof. solve_decision. Defined.
#[export] Instance settings_file_eq_dec `{IdLib} : EqDecision SettingsFile.t.
Proof. solve_decision. Defined.
(** It reads and writes this one file, with and without the whitelist. *)
#[export] Instance demo_toml : TomlLib := {|
  toml_to_string_pretty f :=
    if decide (f = demo_settings_file) then Some "on"%string
    else if decide (f = with_whitelist_enabled false demo_settings_file) then Some "off"%string else None;
  toml_from_str s :=
    if decide (s = "on"%string) then Some demo_settings_file
    else if decide (s = "off"%string) then Some (with_whitelist_enabled false demo_settings_file) else None;
|}.
#[export] Instance demo_toml_laws : TomlLaws demo_toml.
Proof. split. intros f text _. cbn [toml_to_string_pretty toml_from_str demo_toml]. repeat case_decide; naive_solver. Qed.
