(* ===== verification/Messages.v ===== *)
(** * [crates/xxi-node/src/dlc_message.rs], [message_handler.rs]: the messages

    The nineteen messages of the 10101 protocol, each a message of [rust-dlc] with
    what the app and the coordinator need to know about it; what can be read off a
    message; and the text a message is stored as. *)

From stdpp Require Import base list option strings.
From Stdlib Require Import ZArith Lia.
From S2P Require Import Prelude Machine External Demo Commons Funding.

#[local] Open Scope Z_scope.

(** ** [dlc_messages] *)

(** The channel messages of [rust-dlc], and their payloads, of which the code only
    reads the reference id. *)
Inductive PayloadKind :=
  | POffer | PAccept | PSign | PSettleOffer | PSettleAccept | PSettleConfirm | PSettleFinalize
  | PRenewOffer | PRenewAccept | PRenewConfirm | PRenewFinalize | PRenewRevoke
  | PCollaborativeCloseOffer | PReject.

Class DlcMessagesLib := {
  payload : PayloadKind -> Type;
  reference_id : forall k, payload k -> option ReferenceId;
}.

Module ChannelMessage.
Inductive t `{DlcMessagesLib} :=
  | Offer (m : payload POffer)
  | Accept (m : payload PAccept)
  | Sign (m : payload PSign)
  | SettleOffer (m : payload PSettleOffer)
  | SettleAccept (m : payload PSettleAccept)
  | SettleConfirm (m : payload PSettleConfirm)
  | SettleFinalize (m : payload PSettleFinalize)
  | RenewOffer (m : payload PRenewOffer)
  | RenewAccept (m : payload PRenewAccept)
  | RenewConfirm (m : payload PRenewConfirm)
  | RenewFinalize (m : payload PRenewFinalize)
  | RenewRevoke (m : payload PRenewRevoke)
  | CollaborativeCloseOffer (m : payload PCollaborativeCloseOffer)
  | Reject (m : payload PReject).
End ChannelMessage.

(** [dlc_messages::Message]; the code uses the channel messages only. *)
Inductive DlcWireMessage `{DlcMessagesLib} := ChannelMsg (m : ChannelMessage.t) | OtherMsg.

(** ** The messages *)

Module TenTenOneReject.
Record t `{DlcMessagesLib} := mk { reject : payload PReject }.
#[global] Arguments mk {_}.
End TenTenOneReject.

Module TenTenOneOfferChannel.
Record t `{DecimalLib} `{IdLib} `{DlcMessagesLib} := mk {
  filled_with : FilledWith.t;
  offer_channel : payload POffer;
}.
#[global] Arguments mk {_ _ _}.
End TenTenOneOfferChannel.

Module TenTenOneAcceptChannel.
Record t `{DlcMessagesLib} := mk { order_id : Uuid; accept_channel : payload PAccept }.
#[global] Arguments mk {_}.
End TenTenOneAcceptChannel.

Module TenTenOneSignChannel.
Record t `{DlcMessagesLib} := mk { order_id : Uuid; sign_channel : payload PSign }.
#[global] Arguments mk {_}.
End TenTenOneSignChannel.

Module TenTenOneSettleOffer.
Record t `{DecimalLib} `{IdLib} `{DlcMessagesLib} := mk {
  order : Order.t;
  filled_with : FilledWith.t;
  settle_offer : payload PSettleOffer;
}.
#[global] Arguments mk {_ _ _}.
End TenTenOneSettleOffer.

Module TenTenOneSettleAccept.
Record t `{DlcMessagesLib} := mk {
  order_reason : OrderReason.t;
  order_id : Uuid;
  settle_accept : payload PSettleAccept;
}.
#[global] Arguments mk {_}.
End TenTenOneSettleAccept.

Module TenTenOneSettleConfirm.
Record t `{DlcMessagesLib} := mk {
  order_reason : OrderReason.t;
  order_id : Uuid;
  settle_confirm : payload PSettleConfirm;
}.
#[global] Arguments mk {_}.
End TenTenOneSettleConfirm.

Module TenTenOneSettleFinalize.
Record t `{DlcMessagesLib} := mk {
  order_reason : OrderReason.t;
  order_id : Uuid;
  settle_finalize : payload PSettleFinalize;
}.
#[global] Arguments mk {_}.
End TenTenOneSettleFinalize.

Module TenTenOneRenewOffer.
Record t `{DecimalLib} `{IdLib} `{DlcMessagesLib} := mk {
  filled_with : FilledWith.t;
  renew_offer : payload PRenewOffer;
}.
#[global] Arguments mk {_ _ _}.
End TenTenOneRenewOffer.

Module TenTenOneRenewAccept.
Record t `{DlcMessagesLib} := mk { order_id : Uuid; renew_accept : payload PRenewAccept }.
#[global] Arguments mk {_}.
End TenTenOneRenewAccept.

Module TenTenOneRenewConfirm.
Record t `{DlcMessagesLib} := mk { order_id : Uuid; renew_confirm : payload PRenewConfirm }.
#[global] Arguments mk {_}.
End TenTenOneRenewConfirm.

Module TenTenOneRenewFinalize.
Record t `{DlcMessagesLib} := mk { order_id : Uuid; renew_finalize : payload PRenewFinalize }.
#[global] Arguments mk {_}.
End TenTenOneRenewFinalize.

Module TenTenOneRenewRevoke.
Record t `{DlcMessagesLib} := mk { order_id : Uuid; renew_revoke : payload PRenewRevoke }.
#[global] Arguments mk {_}.
End TenTenOneRenewRevoke.

Module TenTenOneRolloverOffer.
Record t `{DecimalLib} `{DlcMessagesLib} := mk {
  renew_offer : payload PRenewOffer;
  funding_fee_events : list MessageFundingFeeEvent.t;
}.
#[global] Arguments mk {_ _}.
End TenTenOneRolloverOffer.

Module TenTenOneRolloverAccept.
Record t `{DlcMessagesLib} := mk { renew_accept : payload PRenewAccept }.
#[global] Arguments mk {_}.
End TenTenOneRolloverAccept.

Module TenTenOneRolloverConfirm.
Record t `{DlcMessagesLib} := mk { renew_confirm : payload PRenewConfirm }.
#[global] Arguments mk {_}.
End TenTenOneRolloverConfirm.

Module TenTenOneRolloverFinalize.
Record t `{DlcMessagesLib} := mk { renew_finalize : payload PRenewFinalize }.
#[global] Arguments mk {_}.
End TenTenOneRolloverFinalize.

Module TenTenOneRolloverRevoke.
Record t `{DlcMessagesLib} := mk { renew_revoke : payload PRenewRevoke }.
#[global] Arguments mk {_}.
End TenTenOneRolloverRevoke.

Module TenTenOneCollaborativeCloseOffer.
Record t `{DlcMessagesLib} := mk { collaborative_close_offer : payload PCollaborativeCloseOffer }.
#[global] Arguments mk {_}.
End TenTenOneCollaborativeCloseOffer.

Module TenTenOneMessage.
Inductive t `{DecimalLib} `{IdLib} `{DlcMessagesLib} :=
  | Reject (m : TenTenOneReject.t)
  | Offer (m : TenTenOneOfferChannel.t)
  | Accept (m : TenTenOneAcceptChannel.t)
  | Sign (m : TenTenOneSignChannel.t)
  | SettleOffer (m : TenTenOneSettleOffer.t)
  | SettleAccept (m : TenTenOneSettleAccept.t)
  | SettleConfirm (m : TenTenOneSettleConfirm.t)
  | SettleFinalize (m : TenTenOneSettleFinalize.t)
  | RenewOffer (m : TenTenOneRenewOffer.t)
  | RenewAccept (m : TenTenOneRenewAccept.t)
  | RenewConfirm (m : TenTenOneRenewConfirm.t)
  | RenewFinalize (m : TenTenOneRenewFinalize.t)
  | RenewRevoke (m : TenTenOneRenewRevoke.t)
  | RolloverOffer (m : TenTenOneRolloverOffer.t)
  | RolloverAccept (m : TenTenOneRolloverAccept.t)
  | RolloverConfirm (m : TenTenOneRolloverConfirm.t)
  | RolloverFinalize (m : TenTenOneRolloverFinalize.t)
  | RolloverRevoke (m : TenTenOneRolloverRevoke.t)
  | CollaborativeCloseOffer (m : TenTenOneCollaborativeCloseOffer.t).
End TenTenOneMessage.

Module TenTenOneMessageType.
Inductive t := Trade | Expire | Liquidate | Rollover | Other.
End TenTenOneMessageType.

Module DlcMessageType.
Inductive t :=
  | Offer | Accept | Sign | SettleOffer | SettleAccept | SettleConfirm | SettleFinalize
  | RenewOffer | RenewAccept | RenewConfirm | RenewFinalize | RenewRevoke
  | RolloverOffer | RolloverAccept | RolloverConfirm | RolloverFinalize | RolloverRevoke
  | CollaborativeCloseOffer | Reject.
#[global] Instance eq_dec : EqDecision t.
Proof. solve_decision. Defined.
End DlcMessageType.

(** ** Reading a message *)

Section Messages.
Context `{DL : DecimalLib} `{BL : BitcoinLib} `{IL : IdLib} `{ML : DlcMessagesLib}.

(** [get_tentenone_message_type]. *)
Definition settle_message_type (order_reason : OrderReason.t) : TenTenOneMessageType.t :=
  match order_reason with
  | OrderReason.Manual => TenTenOneMessageType.Trade
  | OrderReason.Expired => TenTenOneMessageType.Expire
  | OrderReason.CoordinatorLiquidated | OrderReason.TraderLiquidated =>
    TenTenOneMessageType.Liquidate
  end.
Definition get_tentenone_message_type (msg : TenTenOneMessage.t) : TenTenOneMessageType.t :=
  match msg with
  | TenTenOneMessage.Offer _ | TenTenOneMessage.Accept _ | TenTenOneMessage.Sign _
  | TenTenOneMessage.RenewOffer _ | TenTenOneMessage.RenewAccept _ | TenTenOneMessage.RenewConfirm _
  | TenTenOneMessage.RenewFinalize _ | TenTenOneMessage.RenewRevoke _ => TenTenOneMessageType.Trade
  | TenTenOneMessage.SettleOffer m =>
    settle_message_type (Order.order_reason (TenTenOneSettleOffer.order m))
  | TenTenOneMessage.SettleAccept m => settle_message_type (TenTenOneSettleAccept.order_reason m)
  | TenTenOneMessage.SettleConfirm m => settle_message_type (TenTenOneSettleConfirm.order_reason m)
  | TenTenOneMessage.SettleFinalize m => settle_message_type (TenTenOneSettleFinalize.order_reason m)
  | TenTenOneMessage.RolloverOffer _ | TenTenOneMessage.RolloverAccept _
  | TenTenOneMessage.RolloverConfirm _ | TenTenOneMessage.RolloverFinalize _
  | TenTenOneMessage.RolloverRevoke _ => TenTenOneMessageType.Rollover
  | _ => TenTenOneMessageType.Other
  end.

(** [tentenone_message_name]. *)
Definition tentenone_message_name (msg : TenTenOneMessage.t) : string :=
  match msg with
  | TenTenOneMessage.Reject _ => "Reject"
  | TenTenOneMessage.Offer _ => "Offer"
  | TenTenOneMessage.Accept _ => "Accept"
  | TenTenOneMessage.Sign _ => "Sign"
  | TenTenOneMessage.SettleOffer _ => "SettleOffer"
  | TenTenOneMessage.SettleAccept _ => "SettleAccept"
  | TenTenOneMessage.SettleConfirm _ => "SettleConfirm"
  | TenTenOneMessage.SettleFinalize _ => "SettleFinalize"
  | TenTenOneMessage.RenewOffer _ => "RenewOffer"
  | TenTenOneMessage.RenewAccept _ => "RenewAccept"
  | TenTenOneMessage.RenewConfirm _ => "RenewConfirm"
  | TenTenOneMessage.RenewFinalize _ => "RenewFinalize"
  | TenTenOneMessage.RenewRevoke _ => "RenewRevoke"
  | TenTenOneMessage.RolloverOffer _ => "RolloverOffer"
  | TenTenOneMessage.RolloverAccept _ => "RolloverAccept"
  | TenTenOneMessage.RolloverConfirm _ => "RolloverConfirm"
  | TenTenOneMessage.RolloverFinalize _ => "RolloverFinalize"
  | TenTenOneMessage.RolloverRevoke _ => "RolloverRevoke"
  | TenTenOneMessage.CollaborativeCloseOffer _ => "CollaborativeCloseOffer"
  end.

(** [get_order_id]. *)
Definition get_order_id (msg : TenTenOneMessage.t) : option Uuid :=
  match msg with
  | TenTenOneMessage.Reject _ => None
  | TenTenOneMessage.Offer m => Some (FilledWith.order_id (TenTenOneOfferChannel.filled_with m))
  | TenTenOneMessage.Accept m => Some (TenTenOneAcceptChannel.order_id m)
  | TenTenOneMessage.Sign m => Some (TenTenOneSignChannel.order_id m)
  | TenTenOneMessage.SettleOffer m => Some (Order.id (TenTenOneSettleOffer.order m))
  | TenTenOneMessage.SettleAccept m => Some (TenTenOneSettleAccept.order_id m)
  | TenTenOneMessage.SettleConfirm m => Some (TenTenOneSettleConfirm.order_id m)
  | TenTenOneMessage.SettleFinalize m => Some (TenTenOneSettleFinalize.order_id m)
  | TenTenOneMessage.RenewOffer m => Some (FilledWith.order_id (TenTenOneRenewOffer.filled_with m))
  | TenTenOneMessage.RenewAccept m => Some (TenTenOneRenewAccept.order_id m)
  | TenTenOneMessage.RenewConfirm m => Some (TenTenOneRenewConfirm.order_id m)
  | TenTenOneMessage.RenewFinalize m => Some (TenTenOneRenewFinalize.order_id m)
  | TenTenOneMessage.RenewRevoke m => Some (TenTenOneRenewRevoke.order_id m)
  | TenTenOneMessage.RolloverOffer _ => None
  | TenTenOneMessage.RolloverAccept _ => None
  | TenTenOneMessage.RolloverConfirm _ => None
  | TenTenOneMessage.RolloverFinalize _ => None
  | TenTenOneMessage.RolloverRevoke _ => None
  | TenTenOneMessage.CollaborativeCloseOffer _ => None
  end.

(** [get_order_reason]. *)
Definition get_order_reason (msg : TenTenOneMessage.t) : option OrderReason.t :=
  match msg with
  | TenTenOneMessage.SettleOffer m => Some (Order.order_reason (TenTenOneSettleOffer.order m))
  | TenTenOneMessage.SettleAccept m => Some (TenTenOneSettleAccept.order_reason m)
  | TenTenOneMessage.SettleConfirm m => Some (TenTenOneSettleConfirm.order_reason m)
  | TenTenOneMessage.SettleFinalize m => Some (TenTenOneSettleFinalize.order_reason m)
  | _ => None
  end.

(** [impl From<TenTenOneMessage> for ChannelMessage] and for [Message]. *)
Definition channel_message_from (value : TenTenOneMessage.t) : ChannelMessage.t :=
  match value with
  | TenTenOneMessage.Reject m => ChannelMessage.Reject (TenTenOneReject.reject m)
  | TenTenOneMessage.Offer m => ChannelMessage.Offer (TenTenOneOfferChannel.offer_channel m)
  | TenTenOneMessage.Accept m => ChannelMessage.Accept (TenTenOneAcceptChannel.accept_channel m)
  | TenTenOneMessage.Sign m => ChannelMessage.Sign (TenTenOneSignChannel.sign_channel m)
  | TenTenOneMessage.SettleOffer m => ChannelMessage.SettleOffer (TenTenOneSettleOffer.settle_offer m)
  | TenTenOneMessage.SettleAccept m => ChannelMessage.SettleAccept (TenTenOneSettleAccept.settle_accept m)
  | TenTenOneMessage.SettleConfirm m => ChannelMessage.SettleConfirm (TenTenOneSettleConfirm.settle_confirm m)
  | TenTenOneMessage.SettleFinalize m => ChannelMessage.SettleFinalize (TenTenOneSettleFinalize.settle_finalize m)
  | TenTenOneMessage.RenewOffer m => ChannelMessage.RenewOffer (TenTenOneRenewOffer.renew_offer m)
  | TenTenOneMessage.RenewAccept m => ChannelMessage.RenewAccept (TenTenOneRenewAccept.renew_accept m)
  | TenTenOneMessage.RenewConfirm m => ChannelMessage.RenewConfirm (TenTenOneRenewConfirm.renew_confirm m)
  | TenTenOneMessage.RenewFinalize m => ChannelMessage.RenewFinalize (TenTenOneRenewFinalize.renew_finalize m)
  | TenTenOneMessage.RenewRevoke m => ChannelMessage.RenewRevoke (TenTenOneRenewRevoke.renew_revoke m)
  | TenTenOneMessage.RolloverOffer m => ChannelMessage.RenewOffer (TenTenOneRolloverOffer.renew_offer m)
  | TenTenOneMessage.RolloverAccept m => ChannelMessage.RenewAccept (TenTenOneRolloverAccept.renew_accept m)
  | TenTenOneMessage.RolloverConfirm m => ChannelMessage.RenewConfirm (TenTenOneRolloverConfirm.renew_confirm m)
  | TenTenOneMessage.RolloverFinalize m => ChannelMessage.RenewFinalize (TenTenOneRolloverFinalize.renew_finalize m)
  | TenTenOneMessage.RolloverRevoke m => ChannelMessage.RenewRevoke (TenTenOneRolloverRevoke.renew_revoke m)
  | TenTenOneMessage.CollaborativeCloseOffer m => ChannelMessage.CollaborativeCloseOffer (TenTenOneCollaborativeCloseOffer.collaborative_close_offer m)
  end.
Definition message_from (value : TenTenOneMessage.t) : DlcWireMessage :=
  ChannelMsg (channel_message_from value).

(** [get_reference_id]. *)
Definition get_reference_id (msg : TenTenOneMessage.t) : option ReferenceId :=
  match msg with
  | TenTenOneMessage.Reject m => reference_id PReject (TenTenOneReject.reject m)
  | TenTenOneMessage.Offer m => reference_id POffer (TenTenOneOfferChannel.offer_channel m)
  | TenTenOneMessage.Accept m => reference_id PAccept (TenTenOneAcceptChannel.accept_channel m)
  | TenTenOneMessage.Sign m => reference_id PSign (TenTenOneSignChannel.sign_channel m)
  | TenTenOneMessage.SettleOffer m => reference_id PSettleOffer (TenTenOneSettleOffer.settle_offer m)
  | TenTenOneMessage.SettleAccept m => reference_id PSettleAccept (TenTenOneSettleAccept.settle_accept m)
  | TenTenOneMessage.SettleConfirm m => reference_id PSettleConfirm (TenTenOneSettleConfirm.settle_confirm m)
  | TenTenOneMessage.SettleFinalize m => reference_id PSettleFinalize (TenTenOneSettleFinalize.settle_finalize m)
  | TenTenOneMessage.RenewOffer m => reference_id PRenewOffer (TenTenOneRenewOffer.renew_offer m)
  | TenTenOneMessage.RenewAccept m => reference_id PRenewAccept (TenTenOneRenewAccept.renew_accept m)
  | TenTenOneMessage.RenewConfirm m => reference_id PRenewConfirm (TenTenOneRenewConfirm.renew_confirm m)
  | TenTenOneMessage.RenewFinalize m => reference_id PRenewFinalize (TenTenOneRenewFinalize.renew_finalize m)
  | TenTenOneMessage.RenewRevoke m => reference_id PRenewRevoke (TenTenOneRenewRevoke.renew_revoke m)
  | TenTenOneMessage.RolloverOffer m => reference_id PRenewOffer (TenTenOneRolloverOffer.renew_offer m)
  | TenTenOneMessage.RolloverAccept m => reference_id PRenewAccept (TenTenOneRolloverAccept.renew_accept m)
  | TenTenOneMessage.RolloverConfirm m => reference_id PRenewConfirm (TenTenOneRolloverConfirm.renew_confirm m)
  | TenTenOneMessage.RolloverFinalize m => reference_id PRenewFinalize (TenTenOneRolloverFinalize.renew_finalize m)
  | TenTenOneMessage.RolloverRevoke m => reference_id PRenewRevoke (TenTenOneRolloverRevoke.renew_revoke m)
  | TenTenOneMessage.CollaborativeCloseOffer m => reference_id PCollaborativeCloseOffer (TenTenOneCollaborativeCloseOffer.collaborative_close_offer m)
  end.

(** [build_from_response]; the last arm is [unreachable!]. *)
Definition build_from_response {E} (message : DlcWireMessage) (order_id : option Uuid)
    (order_reason : option OrderReason.t) : outcome E TenTenOneMessage.t :=
  match message, order_id with
  | ChannelMsg (ChannelMessage.Accept m), Some order_id =>
    Ok (TenTenOneMessage.Accept (TenTenOneAcceptChannel.mk order_id m))
  | ChannelMsg (ChannelMessage.Sign m), Some order_id =>
    Ok (TenTenOneMessage.Sign (TenTenOneSignChannel.mk order_id m))
  | ChannelMsg (ChannelMessage.SettleAccept m), Some order_id =>
    order_reason ← expect order_reason;
    Ok (TenTenOneMessage.SettleAccept (TenTenOneSettleAccept.mk order_reason order_id m))
  | ChannelMsg (ChannelMessage.SettleConfirm m), Some order_id =>
    order_reason ← expect order_reason;
    Ok (TenTenOneMessage.SettleConfirm (TenTenOneSettleConfirm.mk order_reason order_id m))
  | ChannelMsg (ChannelMessage.SettleFinalize m), Some order_id =>
    order_reason ← expect order_reason;
    Ok (TenTenOneMessage.SettleFinalize (TenTenOneSettleFinalize.mk order_reason order_id m))
  | ChannelMsg (ChannelMessage.RenewAccept m), None =>
    Ok (TenTenOneMessage.RolloverAccept (TenTenOneRolloverAccept.mk m))
  | ChannelMsg (ChannelMessage.RenewConfirm m), None =>
    Ok (TenTenOneMessage.RolloverConfirm (TenTenOneRolloverConfirm.mk m))
  | ChannelMsg (ChannelMessage.RenewFinalize m), None =>
    Ok (TenTenOneMessage.RolloverFinalize (TenTenOneRolloverFinalize.mk m))
  | ChannelMsg (ChannelMessage.RenewRevoke m), None =>
    Ok (TenTenOneMessage.RolloverRevoke (TenTenOneRolloverRevoke.mk m))
  | ChannelMsg (ChannelMessage.RenewAccept m), Some order_id =>
    Ok (TenTenOneMessage.RenewAccept (TenTenOneRenewAccept.mk order_id m))
  | ChannelMsg (ChannelMessage.RenewConfirm m), Some order_id =>
    Ok (TenTenOneMessage.RenewConfirm (TenTenOneRenewConfirm.mk order_id m))
  | ChannelMsg (ChannelMessage.RenewFinalize m), Some order_id =>
    Ok (TenTenOneMessage.RenewFinalize (TenTenOneRenewFinalize.mk order_id m))
  | ChannelMsg (ChannelMessage.RenewRevoke m), Some order_id =>
    Ok (TenTenOneMessage.RenewRevoke (TenTenOneRenewRevoke.mk order_id m))
  | ChannelMsg (ChannelMessage.CollaborativeCloseOffer m), None =>
    Ok (TenTenOneMessage.CollaborativeCloseOffer (TenTenOneCollaborativeCloseOffer.mk m))
  | ChannelMsg (ChannelMessage.Reject m), None =>
    Ok (TenTenOneMessage.Reject (TenTenOneReject.mk m))
  | _, _ => Panic
  end.

(** The message type of [TryFrom<&TenTenOneMessage> for SerializedDlcMessage]. *)
Definition dlc_message_type (msg : TenTenOneMessage.t) : DlcMessageType.t :=
  match msg with
  | TenTenOneMessage.Reject _ => DlcMessageType.Reject
  | TenTenOneMessage.Offer _ => DlcMessageType.Offer
  | TenTenOneMessage.Accept _ => DlcMessageType.Accept
  | TenTenOneMessage.Sign _ => DlcMessageType.Sign
  | TenTenOneMessage.SettleOffer _ => DlcMessageType.SettleOffer
  | TenTenOneMessage.SettleAccept _ => DlcMessageType.SettleAccept
  | TenTenOneMessage.SettleConfirm _ => DlcMessageType.SettleConfirm
  | TenTenOneMessage.SettleFinalize _ => DlcMessageType.SettleFinalize
  | TenTenOneMessage.RenewOffer _ => DlcMessageType.RenewOffer
  | TenTenOneMessage.RenewAccept _ => DlcMessageType.RenewAccept
  | TenTenOneMessage.RenewConfirm _ => DlcMessageType.RenewConfirm
  | TenTenOneMessage.RenewFinalize _ => DlcMessageType.RenewFinalize
  | TenTenOneMessage.RenewRevoke _ => DlcMessageType.RenewRevoke
  | TenTenOneMessage.RolloverOffer _ => DlcMessageType.RolloverOffer
  | TenTenOneMessage.RolloverAccept _ => DlcMessageType.RolloverAccept
  | TenTenOneMessage.RolloverConfirm _ => DlcMessageType.RolloverConfirm
  | TenTenOneMessage.RolloverFinalize _ => DlcMessageType.RolloverFinalize
  | TenTenOneMessage.RolloverRevoke _ => DlcMessageType.RolloverRevoke
  | TenTenOneMessage.CollaborativeCloseOffer _ => DlcMessageType.CollaborativeCloseOffer
  end.
End Messages.

(** ** Messages as stored *)

(** [serde_json] at the nineteen messages. *)
Class MessagesJson `{DecimalLib} `{IdLib} `{DlcMessagesLib} := {
  json_reject :: JsonLib TenTenOneReject.t;
  json_offer :: JsonLib TenTenOneOfferChannel.t;
  json_accept :: JsonLib TenTenOneAcceptChannel.t;
  json_sign :: JsonLib TenTenOneSignChannel.t;
  json_settle_offer :: JsonLib TenTenOneSettleOffer.t;
  json_settle_accept :: JsonLib TenTenOneSettleAccept.t;
  json_settle_confirm :: JsonLib TenTenOneSettleConfirm.t;
  json_settle_finalize :: JsonLib TenTenOneSettleFinalize.t;
  json_renew_offer :: JsonLib TenTenOneRenewOffer.t;
  json_renew_accept :: JsonLib TenTenOneRenewAccept.t;
  json_renew_confirm :: JsonLib TenTenOneRenewConfirm.t;
  json_renew_finalize :: JsonLib TenTenOneRenewFinalize.t;
  json_renew_revoke :: JsonLib TenTenOneRenewRevoke.t;
  json_rollover_offer :: JsonLib TenTenOneRolloverOffer.t;
  json_rollover_accept :: JsonLib TenTenOneRolloverAccept.t;
  json_rollover_confirm :: JsonLib TenTenOneRolloverConfirm.t;
  json_rollover_finalize :: JsonLib TenTenOneRolloverFinalize.t;
  json_rollover_revoke :: JsonLib TenTenOneRolloverRevoke.t;
  json_collaborative_close_offer :: JsonLib TenTenOneCollaborativeCloseOffer.t;
}.

Module SerializedDlcMessage.
Record t := mk { message : string; message_type : DlcMessageType.t }.
End SerializedDlcMessage.

Section Serialized.
Context `{DL : DecimalLib} `{IL : IdLib} `{ML : !DlcMessagesLib} `{JL : !MessagesJson} `{HL : HashLib}.

(** [SerializedDlcMessage::generate_hash]. *)
Definition generate_hash (s : SerializedDlcMessage.t) : string :=
  hex_encode (sha256 (SerializedDlcMessage.message s)).

(** [TryFrom<&TenTenOneMessage> for SerializedDlcMessage]. *)
Definition serialize_message (msg : TenTenOneMessage.t) : outcome string SerializedDlcMessage.t :=
  message ← ok_or "serde_json"%string
    (match msg with
     | TenTenOneMessage.Reject m => json_to_string m
     | TenTenOneMessage.Offer m => json_to_string m
     | TenTenOneMessage.Accept m => json_to_string m
     | TenTenOneMessage.Sign m => json_to_string m
     | TenTenOneMessage.SettleOffer m => json_to_string m
     | TenTenOneMessage.SettleAccept m => json_to_string m
     | TenTenOneMessage.SettleConfirm m => json_to_string m
     | TenTenOneMessage.SettleFinalize m => json_to_string m
     | TenTenOneMessage.RenewOffer m => json_to_string m
     | TenTenOneMessage.RenewAccept m => json_to_string m
     | TenTenOneMessage.RenewConfirm m => json_to_string m
     | TenTenOneMessage.RenewFinalize m => json_to_string m
     | TenTenOneMessage.RenewRevoke m => json_to_string m
     | TenTenOneMessage.RolloverOffer m => json_to_string m
     | TenTenOneMessage.RolloverAccept m => json_to_string m
     | TenTenOneMessage.RolloverConfirm m => json_to_string m
     | TenTenOneMessage.RolloverFinalize m => json_to_string m
     | TenTenOneMessage.RolloverRevoke m => json_to_string m
     | TenTenOneMessage.CollaborativeCloseOffer m => json_to_string m
     end);
  Ok (SerializedDlcMessage.mk message (dlc_message_type msg)).

(** [TryFrom<&SerializedDlcMessage> for TenTenOneMessage]. *)
Definition deserialize_message (serialized_msg : SerializedDlcMessage.t)
    : outcome string TenTenOneMessage.t :=
  let message := SerializedDlcMessage.message serialized_msg in
  ok_or "serde_json"%string
    (match SerializedDlcMessage.message_type serialized_msg with
     | DlcMessageType.Reject => TenTenOneMessage.Reject <$> json_from_str message
     | DlcMessageType.Offer => TenTenOneMessage.Offer <$> json_from_str message
     | DlcMessageType.Accept => TenTenOneMessage.Accept <$> json_from_str message
     | DlcMessageType.Sign => TenTenOneMessage.Sign <$> json_from_str message
     | DlcMessageType.SettleOffer => TenTenOneMessage.SettleOffer <$> json_from_str message
     | DlcMessageType.SettleAccept => TenTenOneMessage.SettleAccept <$> json_from_str message
     | DlcMessageType.SettleConfirm => TenTenOneMessage.SettleConfirm <$> json_from_str message
     | DlcMessageType.SettleFinalize => TenTenOneMessage.SettleFinalize <$> json_from_str message
     | DlcMessageType.RenewOffer => TenTenOneMessage.RenewOffer <$> json_from_str message
     | DlcMessageType.RenewAccept => TenTenOneMessage.RenewAccept <$> json_from_str message
     | DlcMessageType.RenewConfirm => TenTenOneMessage.RenewConfirm <$> json_from_str message
     | DlcMessageType.RenewFinalize => TenTenOneMessage.RenewFinalize <$> json_from_str message
     | DlcMessageType.RenewRevoke => TenTenOneMessage.RenewRevoke <$> json_from_str message
     | DlcMessageType.RolloverOffer => TenTenOneMessage.RolloverOffer <$> json_from_str message
     | DlcMessageType.RolloverAccept => TenTenOneMessage.RolloverAccept <$> json_from_str message
     | DlcMessageType.RolloverConfirm => TenTenOneMessage.RolloverConfirm <$> json_from_str message
     | DlcMessageType.RolloverFinalize => TenTenOneMessage.RolloverFinalize <$> json_from_str message
     | DlcMessageType.RolloverRevoke => TenTenOneMessage.RolloverRevoke <$> json_from_str message
     | DlcMessageType.CollaborativeCloseOffer => TenTenOneMessage.CollaborativeCloseOffer <$> json_from_str message
     end).

(** The payload of the message survives its JSON text. *)
Definition message_json_roundtrips (msg : TenTenOneMessage.t) : Prop :=
  match msg with
  | TenTenOneMessage.Reject m => json_roundtrips m
  | TenTenOneMessage.Offer m => json_roundtrips m
  | TenTenOneMessage.Accept m => json_roundtrips m
  | TenTenOneMessage.Sign m => json_roundtrips m
  | TenTenOneMessage.SettleOffer m => json_roundtrips m
  | TenTenOneMessage.SettleAccept m => json_roundtrips m
  | TenTenOneMessage.SettleConfirm m => json_roundtrips m
  | TenTenOneMessage.SettleFinalize m => json_roundtrips m
  | TenTenOneMessage.RenewOffer m => json_roundtrips m
  | TenTenOneMessage.RenewAccept m => json_roundtrips m
  | TenTenOneMessage.RenewConfirm m => json_roundtrips m
  | TenTenOneMessage.RenewFinalize m => json_roundtrips m
  | TenTenOneMessage.RenewRevoke m => json_roundtrips m
  | TenTenOneMessage.RolloverOffer m => json_roundtrips m
  | TenTenOneMessage.RolloverAccept m => json_roundtrips m
  | TenTenOneMessage.RolloverConfirm m => json_roundtrips m
  | TenTenOneMessage.RolloverFinalize m => json_roundtrips m
  | TenTenOneMessage.RolloverRevoke m => json_roundtrips m
  | TenTenOneMessage.CollaborativeCloseOffer m => json_roundtrips m
  end.
End Serialized.

Module DlcMessage.
Record t `{IdLib} := mk {
  message_hash : string;
  inbound : bool;
  peer_id : PublicKey;
  message_type : DlcMessageType.t;
  timestamp : OffsetDateTime;
}.
#[global] Arguments mk {_}.

(** [DlcMessage::new]. *)
Definition new `{IdLib} `{HashLib} (now : OffsetDateTime) (peer_id : PublicKey)
    (serialized_message : SerializedDlcMessage.t) (inbound : bool) : outcome string t :=
  Ok (mk (generate_hash serialized_message) inbound peer_id
        (SerializedDlcMessage.message_type serialized_message) now).
End DlcMessage.

(** ** What holds of messages *)

Section MessageTheorems.
Context `{DL : DecimalLib} `{IL : IdLib} `{ML : !DlcMessagesLib}.

Lemma deserialize_serialized `{JL : !MessagesJson} (msg : TenTenOneMessage.t)
    (serialized : SerializedDlcMessage.t) :
  message_json_roundtrips msg -> serialize_message msg = Ok serialized ->
  deserialize_message serialized = Ok msg.
Proof.
  intros Hjson Hs. unfold serialize_message in Hs. inv_ok. subst. unfold deserialize_message.
  destruct msg; cbn in *; rename select (json_to_string _ = Some _) into Htext;
    by rewrite (Hjson _ Htext).
Qed.

(** What a message is stored as reads back as the message: its type selects
    the parser of the text it was written as.  So a message resent from the
    database is the one that was sent. *)
Theorem serialized_message_roundtrip `{JL : !MessagesJson} (msg : TenTenOneMessage.t)
    (serialized : SerializedDlcMessage.t)
    (Hjson : message_json_roundtrips msg) (Hs : serialize_message msg = Ok serialized) :
  deserialize_message serialized = Ok msg.
Proof. by apply deserialize_serialized. Qed.

(** What the code tells about a message by its order. *)
Definition is_rollover (msg : TenTenOneMessage.t) : bool :=
  match get_tentenone_message_type msg with TenTenOneMessageType.Rollover => true | _ => false end.

(** The offers; no response is one. *)
Definition is_offer (msg : TenTenOneMessage.t) : bool :=
  match msg with
  | TenTenOneMessage.Offer _ | TenTenOneMessage.SettleOffer _ | TenTenOneMessage.RenewOffer _
  | TenTenOneMessage.RolloverOffer _ => true
  | _ => false
  end.

(** The answer the node library computes is wrapped into the protocol of the
    message it answers.  With an order it becomes a message of that order (and of
    its reason, where the message carries one), without one a message of a
    rollover, a collaborative close or a rejection; unwrapping it for [rust-dlc]
    gives the answer back, with the reference id unchanged; and an offer is never
    built. *)
Theorem build_from_response_spec {E} (message : DlcWireMessage) (order_id : option Uuid)
    (order_reason : option OrderReason.t) (msg : TenTenOneMessage.t)
    (Hb : build_from_response (E := E) message order_id order_reason = Ok msg) :
  message_from msg = message /\ get_order_id msg = order_id /\
  (get_order_reason msg = None \/ get_order_reason msg = order_reason) /\
  is_offer msg = false /\
  (is_rollover msg = true -> order_id = None).
Proof.
  unfold build_from_response in Hb.
  destruct message as [m|]; [|by destruct order_id].
  destruct m, order_id; inv_ok; subst; try discriminate; cbn; split_and!; try done;
    (by left) || (by right) || (match goal with r : OrderReason.t |- _ => by destruct r end).
Qed.

(** Every message but the four offers is the answer of its channel message. *)
Theorem build_from_response_complete {E} (msg : TenTenOneMessage.t) (Hoffer : is_offer msg = false) :
  build_from_response (E := E) (message_from msg) (get_order_id msg) (get_order_reason msg) = Ok msg.
Proof. destruct msg as [m|m|m|m|m|m|m|m|m|m|m|m|m|m|m|m|m|m|m]; try discriminate; by destruct m. Qed.
End MessageTheorems.

(** ** Evaluated *)

(** Payloads of one byte; that of protocol 40 has its reference id. *)
#[export] Instance demo_messages : DlcMessagesLib := {|
  payload := fun _ => Byte.byte;
  reference_id := fun _ b =>
    if Byte.eqb b Byte.x28 then Some (hex_encode_bytes (uuid_as_bytes (IdLib := demo_id) 40)) else None
|}.

Definition no_json {T} : JsonLib T := {| json_to_string _ := None; json_from_str _ := None |}.

(** Written and not read back. *)
Definition write_only {T} (byte : T -> Byte.byte) : JsonLib T :=
  {| json_to_string m := Some (String.string_of_list_byte [byte m]); json_from_str _ := None |}.

(** Rejections have a text, final settlements and offers to close are written only. *)
#[export] Instance demo_json : MessagesJson (H := demo_decimal) (H0 := demo_id) (H1 := demo_messages) := {|
  json_reject := {|
    json_to_string m := Some (String.string_of_list_byte [TenTenOneReject.reject m : Byte.byte]);
    json_from_str s := match String.list_byte_of_string s with
      | [b] => Some (TenTenOneReject.mk (H := demo_messages) b) | _ => None end;
  |};
  json_offer := no_json;
  json_accept := no_json;
  json_sign := no_json;
  json_settle_offer := no_json;
  json_settle_accept := no_json;
  json_settle_confirm := no_json;
  json_settle_finalize := write_only TenTenOneSettleFinalize.settle_finalize;
  json_renew_offer := no_json;
  json_renew_accept := no_json;
  json_renew_confirm := no_json;
  json_renew_finalize := no_json;
  json_renew_revoke := no_json;
  json_rollover_offer := no_json;
  json_rollover_accept := no_json;
  json_rollover_confirm := no_json;
  json_rollover_finalize := no_json;
  json_rollover_revoke := no_json;
  json_collaborative_close_offer := write_only TenTenOneCollaborativeCloseOffer.collaborative_close_offer;
|}.

Definition demo_reject : TenTenOneMessage.t (H := demo_decimal) (H0 := demo_id) :=
  TenTenOneMessage.Reject (TenTenOneReject.mk (H := demo_messages) Byte.x07).

Example serialized_message_roundtrip_witness :
  exists serialized, serialize_message demo_reject = Ok serialized /\
    deserialize_message serialized = Ok demo_reject.
Proof.
  destruct (serialize_message demo_reject) as [serialized|e|] eqn:Hs; [|discriminate Hs..].
  exists serialized. split; [reflexivity|].
  apply serialized_message_roundtrip; [|exact Hs]. intros s Htext. by injection Htext as <-.
Defined.

(** The confirmation of a renewal without an order belongs to a rollover. *)
Example build_from_response_spec_witness :
  exists msg : TenTenOneMessage.t (H := demo_decimal) (H0 := demo_id),
    build_from_response (E := string) (ChannelMsg (ChannelMessage.RenewConfirm (H := demo_messages) Byte.x01)) None None = Ok msg /\
    get_order_id msg = None /\ is_rollover msg = true.
Proof.
  eexists. split; [reflexivity|]. split; [|reflexivity].
  by eapply (build_from_response_spec (E := string) (ChannelMsg (ChannelMessage.RenewConfirm (H := demo_messages) Byte.x01)) None None).
Defined.
