(* ===== verification/Wire.v ===== *)
(** * [crates/xxi-node/src/message_handler.rs]: messages on the wire

    The binary form of the messages (the [impl_dlc_writeable!], [impl_type!] and
    [impl_serde_writeable!] macros) and the message handler, which cuts a large
    message into segments and puts the segments of each peer together again.  The
    encoding of [rust-dlc]'s own messages and of segments, and the encodings of
    integers and strings, are an interface. *)

From stdpp Require countable.
From stdpp Require Import base list option strings.
From Stdlib Require Import ZArith QArith Lia.
From S2P Require Import Prelude Machine External Demo Commons Funding Messages.

#[local] Open Scope Z_scope.

(** ** Encodings *)

Definition bytes : Set := list Byte.byte.

(** [lightning::ln::msgs::DecodeError], as far as the code makes one. *)
Inductive DecodeError := InvalidValue | OtherDecodeError.

(** [Writeable], whose [write] may fail, and [Readable], which leaves what follows. *)
Class Codec (A : Type) := {
  encode : A -> option bytes;
  decode : bytes -> outcome DecodeError (A * bytes);
}.

(** What was written is read back, whatever follows it. *)
Definition codec_ok `{Codec A} (a : A) : Prop :=
  forall b rest, encode a = Some b -> decode (b ++ rest) = Ok (a, rest).

(** The encodings and the segmentation of [rust-dlc] and [lightning]. *)
Class WireLib `{DlcMessagesLib} := {
  payload_codec :: forall k, Codec (payload k);
  write_string : string -> bytes;
  read_string : bytes -> outcome DecodeError (string * bytes);
  write_i64 : Z -> bytes;
  read_i64 : bytes -> outcome DecodeError (Z * bytes);
  write_u16 : Z -> bytes;
  read_u16 : bytes -> outcome DecodeError (Z * bytes);
  write_len : nat -> bytes;                          (* the length before a vector *)
  read_len : bytes -> outcome DecodeError (nat * bytes);
  MAX_BUF_SIZE : nat;
  StartSegment : Type;
  ChunkSegment : Type;
  segment_start_codec :: Codec StartSegment;
  segment_chunk_codec :: Codec ChunkSegment;
  SEGMENT_START_TYPE : Z;
  SEGMENT_CHUNK_TYPE : Z;
  get_segments : bytes -> Z -> StartSegment * list ChunkSegment;
  SegmentReader : Type;
  segment_reader_default : SegmentReader;
  expecting_chunk : SegmentReader -> bool;
  process_segment_start : StartSegment -> M SegmentReader string unit;
  process_segment_chunk : ChunkSegment -> M SegmentReader string (option bytes);
  segment_reader_reset : SegmentReader -> SegmentReader;
}.

(** [Decimal::to_string] and [parse]. *)
Class DecimalText `{DecimalLib} := {
  d_to_string : Decimal -> string;
  d_parse : string -> option Decimal;
}.

(** Orders, matches and reasons are written as JSON. *)
Class WireJson `{DecimalLib} `{IdLib} := {
  json_order :: JsonLib Order.t;
  json_filled_with :: JsonLib FilledWith.t;
  json_order_reason :: JsonLib OrderReason.t;
}.

Module WireMessage.
Inductive t `{DecimalLib} `{IdLib} `{WL : WireLib} :=
  | Message (m : TenTenOneMessage.t)
  | SegmentStart (s : StartSegment)
  | SegmentChunk (c : ChunkSegment).
End WireMessage.

(** ** [Writeable] and [Readable] for the messages *)

Section Wire.
Context `{DL : DecimalLib} `{IL : IdLib} `{ML : !DlcMessagesLib} `{WL : !WireLib}.
Context `{DT : !DecimalText} `{WJ : !WireJson}.

(** [write_uuid], [read_uuid]. *)
#[export] Instance codec_uuid : Codec Uuid := {|
  encode v := Some (write_string (uuid_to_string v));
  decode r :=
    '(uuid, r) ← read_string r;
    uuid ← ok_or InvalidValue (uuid_parse_str uuid);
    Ok (uuid, r);
|}.

(** [impl_serde_writeable!]. *)
Definition codec_serde {A} `{JsonLib A} : Codec A := {|
  encode v := serialized ← json_to_string v; Some (write_string serialized);
  decode r :=
    '(serialized, r) ← read_string r;
    v ← ok_or InvalidValue (json_from_str serialized);
    Ok (v, r);
|}.
#[export] Instance codec_order : Codec Order.t := codec_serde.
#[export] Instance codec_filled_with : Codec FilledWith.t := codec_serde.
#[export] Instance codec_order_reason : Codec OrderReason.t := codec_serde.

(** [write_funding_fee_event], [read_funding_fee_event]. *)
#[export] Instance codec_funding_fee_event : Codec MessageFundingFeeEvent.t := {|
  encode input :=
    Some (write_i64 (unix_timestamp (MessageFundingFeeEvent.due_date input))
      ++ write_string (d_to_string (MessageFundingFeeEvent.funding_rate input))
      ++ write_string (d_to_string (MessageFundingFeeEvent.price input))
      ++ write_i64 (MessageFundingFeeEvent.funding_fee input));
  decode r :=
    '(due_date, r) ← read_i64 r;
    due_date ← ok_or InvalidValue (from_unix_timestamp due_date);
    '(funding_rate, r) ← read_string r;
    funding_rate ← ok_or InvalidValue (d_parse funding_rate);
    '(price, r) ← read_string r;
    price ← ok_or InvalidValue (d_parse price);
    '(funding_fee, r) ← read_i64 r;
    Ok (MessageFundingFeeEvent.mk due_date funding_rate price funding_fee, r);
|}.

(** A vector is its length and its elements. *)
Fixpoint encode_all {A} `{Codec A} (l : list A) : option bytes :=
  match l with
  | [] => Some []
  | a :: l => b ← encode a; bs ← encode_all l; Some (b ++ bs)
  end.
Fixpoint decode_all {A} `{Codec A} (n : nat) (r : bytes) : outcome DecodeError (list A * bytes) :=
  match n with
  | O => Ok ([], r)
  | S n => '(a, r) ← decode r; '(l, r) ← decode_all n r; Ok (a :: l, r)
  end.
#[export] Instance codec_vec {A} `{Codec A} : Codec (list A) := {|
  encode l := bs ← encode_all l; Some (write_len (length l) ++ bs);
  decode r := '(n, r) ← read_len r; decode_all n r;
|}.

#[export] Instance codec_reject : Codec TenTenOneReject.t := {|
  encode v := encode (TenTenOneReject.reject v);
  decode r :=
    '(reject, r) ← decode r;
    Ok (TenTenOneReject.mk reject, r);
|}.
#[export] Instance codec_offer : Codec TenTenOneOfferChannel.t := {|
  encode v :=
    b0 ← encode (TenTenOneOfferChannel.filled_with v);
    b1 ← encode (TenTenOneOfferChannel.offer_channel v);
    Some (b0 ++ b1);
  decode r :=
    '(filled_with, r) ← decode r;
    '(offer_channel, r) ← decode r;
    Ok (TenTenOneOfferChannel.mk filled_with offer_channel, r);
|}.
#[export] Instance codec_accept : Codec TenTenOneAcceptChannel.t := {|
  encode v :=
    b0 ← encode (TenTenOneAcceptChannel.order_id v);
    b1 ← encode (TenTenOneAcceptChannel.accept_channel v);
    Some (b0 ++ b1);
  decode r :=
    '(order_id, r) ← decode r;
    '(accept_channel, r) ← decode r;
    Ok (TenTenOneAcceptChannel.mk order_id accept_channel, r);
|}.
#[export] Instance codec_sign : Codec TenTenOneSignChannel.t := {|
  encode v :=
    b0 ← encode (TenTenOneSignChannel.order_id v);
    b1 ← encode (TenTenOneSignChannel.sign_channel v);
    Some (b0 ++ b1);
  decode r :=
    '(order_id, r) ← decode r;
    '(sign_channel, r) ← decode r;
    Ok (TenTenOneSignChannel.mk order_id sign_channel, r);
|}.
#[export] Instance codec_settle_offer : Codec TenTenOneSettleOffer.t := {|
  encode v :=
    b0 ← encode (TenTenOneSettleOffer.order v);
    b1 ← encode (TenTenOneSettleOffer.filled_with v);
    b2 ← encode (TenTenOneSettleOffer.settle_offer v);
    Some (b0 ++ b1 ++ b2);
  decode r :=
    '(order, r) ← decode r;
    '(filled_with, r) ← decode r;
    '(settle_offer, r) ← decode r;
    Ok (TenTenOneSettleOffer.mk order filled_with settle_offer, r);
|}.
#[export] Instance codec_settle_accept : Codec TenTenOneSettleAccept.t := {|
  encode v :=
    b0 ← encode (TenTenOneSettleAccept.order_id v);
    b1 ← encode (TenTenOneSettleAccept.order_reason v);
    b2 ← encode (TenTenOneSettleAccept.settle_accept v);
    Some (b0 ++ b1 ++ b2);
  decode r :=
    '(order_id, r) ← decode r;
    '(order_reason, r) ← decode r;
    '(settle_accept, r) ← decode r;
    Ok (TenTenOneSettleAccept.mk order_reason order_id settle_accept, r);
|}.
#[export] Instance codec_settle_confirm : Codec TenTenOneSettleConfirm.t := {|
  encode v :=
    b0 ← encode (TenTenOneSettleConfirm.order_id v);
    b1 ← encode (TenTenOneSettleConfirm.order_reason v);
    b2 ← encode (TenTenOneSettleConfirm.settle_confirm v);
    Some (b0 ++ b1 ++ b2);
  decode r :=
    '(order_id, r) ← decode r;
    '(order_reason, r) ← decode r;
    '(settle_confirm, r) ← decode r;
    Ok (TenTenOneSettleConfirm.mk order_reason order_id settle_confirm, r);
|}.
#[export] Instance codec_settle_finalize : Codec TenTenOneSettleFinalize.t := {|
  encode v :=
    b0 ← encode (TenTenOneSettleFinalize.order_id v);
    b1 ← encode (TenTenOneSettleFinalize.order_reason v);
    b2 ← encode (TenTenOneSettleFinalize.settle_finalize v);
    Some (b0 ++ b1 ++ b2);
  decode r :=
    '(order_id, r) ← decode r;
    '(order_reason, r) ← decode r;
    '(settle_finalize, r) ← decode r;
    Ok (TenTenOneSettleFinalize.mk order_reason order_id settle_finalize, r);
|}.
#[export] Instance codec_renew_offer : Codec TenTenOneRenewOffer.t := {|
  encode v :=
    b0 ← encode (TenTenOneRenewOffer.filled_with v);
    b1 ← encode (TenTenOneRenewOffer.renew_offer v);
    Some (b0 ++ b1);
  decode r :=
    '(filled_with, r) ← decode r;
    '(renew_offer, r) ← decode r;
    Ok (TenTenOneRenewOffer.mk filled_with renew_offer, r);
|}.
#[export] Instance codec_renew_accept : Codec TenTenOneRenewAccept.t := {|
  encode v :=
    b0 ← encode (TenTenOneRenewAccept.order_id v);
    b1 ← encode (TenTenOneRenewAccept.renew_accept v);
    Some (b0 ++ b1);
  decode r :=
    '(order_id, r) ← decode r;
    '(renew_accept, r) ← decode r;
    Ok (TenTenOneRenewAccept.mk order_id renew_accept, r);
|}.
#[export] Instance codec_renew_confirm : Codec TenTenOneRenewConfirm.t := {|
  encode v :=
    b0 ← encode (TenTenOneRenewConfirm.order_id v);
    b1 ← encode (TenTenOneRenewConfirm.renew_confirm v);
    Some (b0 ++ b1);
  decode r :=
    '(order_id, r) ← decode r;
    '(renew_confirm, r) ← decode r;
    Ok (TenTenOneRenewConfirm.mk order_id renew_confirm, r);
|}.
#[export] Instance codec_renew_finalize : Codec TenTenOneRenewFinalize.t := {|
  encode v :=
    b0 ← encode (TenTenOneRenewFinalize.order_id v);
    b1 ← encode (TenTenOneRenewFinalize.renew_finalize v);
    Some (b0 ++ b1);
  decode r :=
    '(order_id, r) ← decode r;
    '(renew_finalize, r) ← decode r;
    Ok (TenTenOneRenewFinalize.mk order_id renew_finalize, r);
|}.
#[export] Instance codec_renew_revoke : Codec TenTenOneRenewRevoke.t := {|
  encode v :=
    b0 ← encode (TenTenOneRenewRevoke.order_id v);
    b1 ← encode (TenTenOneRenewRevoke.renew_revoke v);
    Some (b0 ++ b1);
  decode r :=
    '(order_id, r) ← decode r;
    '(renew_revoke, r) ← decode r;
    Ok (TenTenOneRenewRevoke.mk order_id renew_revoke, r);
|}.
#[export] Instance codec_rollover_offer : Codec TenTenOneRolloverOffer.t := {|
  encode v :=
    b0 ← encode (TenTenOneRolloverOffer.renew_offer v);
    b1 ← encode (TenTenOneRolloverOffer.funding_fee_events v);
    Some (b0 ++ b1);
  decode r :=
    '(renew_offer, r) ← decode r;
    '(funding_fee_events, r) ← decode r;
    Ok (TenTenOneRolloverOffer.mk renew_offer funding_fee_events, r);
|}.
#[export] Instance codec_rollover_accept : Codec TenTenOneRolloverAccept.t := {|
  encode v := encode (TenTenOneRolloverAccept.renew_accept v);
  decode r :=
    '(renew_accept, r) ← decode r;
    Ok (TenTenOneRolloverAccept.mk renew_accept, r);
|}.
#[export] Instance codec_rollover_confirm : Codec TenTenOneRolloverConfirm.t := {|
  encode v := encode (TenTenOneRolloverConfirm.renew_confirm v);
  decode r :=
    '(renew_confirm, r) ← decode r;
    Ok (TenTenOneRolloverConfirm.mk renew_confirm, r);
|}.
#[export] Instance codec_rollover_finalize : Codec TenTenOneRolloverFinalize.t := {|
  encode v := encode (TenTenOneRolloverFinalize.renew_finalize v);
  decode r :=
    '(renew_finalize, r) ← decode r;
    Ok (TenTenOneRolloverFinalize.mk renew_finalize, r);
|}.
#[export] Instance codec_rollover_revoke : Codec TenTenOneRolloverRevoke.t := {|
  encode v := encode (TenTenOneRolloverRevoke.renew_revoke v);
  decode r :=
    '(renew_revoke, r) ← decode r;
    Ok (TenTenOneRolloverRevoke.mk renew_revoke, r);
|}.
#[export] Instance codec_collaborative_close_offer : Codec TenTenOneCollaborativeCloseOffer.t := {|
  encode v := encode (TenTenOneCollaborativeCloseOffer.collaborative_close_offer v);
  decode r :=
    '(collaborative_close_offer, r) ← decode r;
    Ok (TenTenOneCollaborativeCloseOffer.mk collaborative_close_offer, r);
|}.

(** [impl_type!]: the numbers the messages are announced with. *)
Definition REJECT : Z := 43024.
Definition OFFER_CHANNEL_TYPE : Z := 43000.
Definition ACCEPT_CHANNEL_TYPE : Z := 43002.
Definition SIGN_CHANNEL_TYPE : Z := 43004.
Definition SETTLE_CHANNEL_OFFER_TYPE : Z := 43006.
Definition SETTLE_CHANNEL_ACCEPT_TYPE : Z := 43008.
Definition SETTLE_CHANNEL_CONFIRM_TYPE : Z := 43010.
Definition SETTLE_CHANNEL_FINALIZE_TYPE : Z := 43012.
Definition RENEW_CHANNEL_OFFER_TYPE : Z := 43014.
Definition RENEW_CHANNEL_ACCEPT_TYPE : Z := 43016.
Definition RENEW_CHANNEL_CONFIRM_TYPE : Z := 43018.
Definition RENEW_CHANNEL_FINALIZE_TYPE : Z := 43020.
Definition RENEW_CHANNEL_REVOKE_TYPE : Z := 43026.
Definition ROLLOVER_CHANNEL_OFFER_TYPE : Z := 43028.
Definition ROLLOVER_CHANNEL_ACCEPT_TYPE : Z := 43030.
Definition ROLLOVER_CHANNEL_CONFIRM_TYPE : Z := 43032.
Definition ROLLOVER_CHANNEL_FINALIZE_TYPE : Z := 43034.
Definition ROLLOVER_CHANNEL_REVOKE_TYPE : Z := 43036.
Definition COLLABORATIVE_CLOSE_OFFER_TYPE : Z := 43022.

(** [type_id] and [write] of [TenTenOneMessage] ([impl_type_writeable_for_enum!]). *)
Definition type_id (msg : TenTenOneMessage.t) : Z :=
  match msg with
  | TenTenOneMessage.Reject _ => REJECT
  | TenTenOneMessage.Offer _ => OFFER_CHANNEL_TYPE
  | TenTenOneMessage.Accept _ => ACCEPT_CHANNEL_TYPE
  | TenTenOneMessage.Sign _ => SIGN_CHANNEL_TYPE
  | TenTenOneMessage.SettleOffer _ => SETTLE_CHANNEL_OFFER_TYPE
  | TenTenOneMessage.SettleAccept _ => SETTLE_CHANNEL_ACCEPT_TYPE
  | TenTenOneMessage.SettleConfirm _ => SETTLE_CHANNEL_CONFIRM_TYPE
  | TenTenOneMessage.SettleFinalize _ => SETTLE_CHANNEL_FINALIZE_TYPE
  | TenTenOneMessage.RenewOffer _ => RENEW_CHANNEL_OFFER_TYPE
  | TenTenOneMessage.RenewAccept _ => RENEW_CHANNEL_ACCEPT_TYPE
  | TenTenOneMessage.RenewConfirm _ => RENEW_CHANNEL_CONFIRM_TYPE
  | TenTenOneMessage.RenewFinalize _ => RENEW_CHANNEL_FINALIZE_TYPE
  | TenTenOneMessage.RenewRevoke _ => RENEW_CHANNEL_REVOKE_TYPE
  | TenTenOneMessage.RolloverOffer _ => ROLLOVER_CHANNEL_OFFER_TYPE
  | TenTenOneMessage.RolloverAccept _ => ROLLOVER_CHANNEL_ACCEPT_TYPE
  | TenTenOneMessage.RolloverConfirm _ => ROLLOVER_CHANNEL_CONFIRM_TYPE
  | TenTenOneMessage.RolloverFinalize _ => ROLLOVER_CHANNEL_FINALIZE_TYPE
  | TenTenOneMessage.RolloverRevoke _ => ROLLOVER_CHANNEL_REVOKE_TYPE
  | TenTenOneMessage.CollaborativeCloseOffer _ => COLLABORATIVE_CLOSE_OFFER_TYPE
  end.
Definition encode_message (msg : TenTenOneMessage.t) : option bytes :=
  match msg with
  | TenTenOneMessage.Reject v => encode v
  | TenTenOneMessage.Offer v => encode v
  | TenTenOneMessage.Accept v => encode v
  | TenTenOneMessage.Sign v => encode v
  | TenTenOneMessage.SettleOffer v => encode v
  | TenTenOneMessage.SettleAccept v => encode v
  | TenTenOneMessage.SettleConfirm v => encode v
  | TenTenOneMessage.SettleFinalize v => encode v
  | TenTenOneMessage.RenewOffer v => encode v
  | TenTenOneMessage.RenewAccept v => encode v
  | TenTenOneMessage.RenewConfirm v => encode v
  | TenTenOneMessage.RenewFinalize v => encode v
  | TenTenOneMessage.RenewRevoke v => encode v
  | TenTenOneMessage.RolloverOffer v => encode v
  | TenTenOneMessage.RolloverAccept v => encode v
  | TenTenOneMessage.RolloverConfirm v => encode v
  | TenTenOneMessage.RolloverFinalize v => encode v
  | TenTenOneMessage.RolloverRevoke v => encode v
  | TenTenOneMessage.CollaborativeCloseOffer v => encode v
  end.


(** [read_tentenone_message]. *)
Definition read_as {A} `{Codec A} (variant : A -> TenTenOneMessage.t) (buffer : bytes)
    : outcome DecodeError (option WireMessage.t) :=
  '(v, _) ← decode buffer; Ok (Some (WireMessage.Message (variant v))).
Definition read_tentenone_message (msg_type : Z) (buffer : bytes)
    : outcome DecodeError (option WireMessage.t) :=
  if msg_type =? REJECT then read_as TenTenOneMessage.Reject buffer
  else if msg_type =? OFFER_CHANNEL_TYPE then read_as TenTenOneMessage.Offer buffer
  else if msg_type =? ACCEPT_CHANNEL_TYPE then read_as TenTenOneMessage.Accept buffer
  else if msg_type =? SIGN_CHANNEL_TYPE then read_as TenTenOneMessage.Sign buffer
  else if msg_type =? SETTLE_CHANNEL_OFFER_TYPE then read_as TenTenOneMessage.SettleOffer buffer
  else if msg_type =? SETTLE_CHANNEL_ACCEPT_TYPE then read_as TenTenOneMessage.SettleAccept buffer
  else if msg_type =? SETTLE_CHANNEL_CONFIRM_TYPE then read_as TenTenOneMessage.SettleConfirm buffer
  else if msg_type =? SETTLE_CHANNEL_FINALIZE_TYPE then read_as TenTenOneMessage.SettleFinalize buffer
  else if msg_type =? RENEW_CHANNEL_OFFER_TYPE then read_as TenTenOneMessage.RenewOffer buffer
  else if msg_type =? RENEW_CHANNEL_ACCEPT_TYPE then read_as TenTenOneMessage.RenewAccept buffer
  else if msg_type =? RENEW_CHANNEL_CONFIRM_TYPE then read_as TenTenOneMessage.RenewConfirm buffer
  else if msg_type =? RENEW_CHANNEL_FINALIZE_TYPE then read_as TenTenOneMessage.RenewFinalize buffer
  else if msg_type =? RENEW_CHANNEL_REVOKE_TYPE then read_as TenTenOneMessage.RenewRevoke buffer
  else if msg_type =? ROLLOVER_CHANNEL_OFFER_TYPE then read_as TenTenOneMessage.RolloverOffer buffer
  else if msg_type =? ROLLOVER_CHANNEL_ACCEPT_TYPE then read_as TenTenOneMessage.RolloverAccept buffer
  else if msg_type =? ROLLOVER_CHANNEL_CONFIRM_TYPE then read_as TenTenOneMessage.RolloverConfirm buffer
  else if msg_type =? ROLLOVER_CHANNEL_FINALIZE_TYPE then read_as TenTenOneMessage.RolloverFinalize buffer
  else if msg_type =? ROLLOVER_CHANNEL_REVOKE_TYPE then read_as TenTenOneMessage.RolloverRevoke buffer
  else if msg_type =? COLLABORATIVE_CLOSE_OFFER_TYPE then read_as TenTenOneMessage.CollaborativeCloseOffer buffer
  else Ok None.

(** [type_id] and [write] of [WireMessage]. *)
Definition wire_type_id (msg : WireMessage.t) : Z :=
  match msg with
  | WireMessage.Message m => type_id m
  | WireMessage.SegmentStart _ => SEGMENT_START_TYPE
  | WireMessage.SegmentChunk _ => SEGMENT_CHUNK_TYPE
  end.
Definition encode_wire_message (msg : WireMessage.t) : option bytes :=
  match msg with
  | WireMessage.Message m => encode_message m
  | WireMessage.SegmentStart s => encode s
  | WireMessage.SegmentChunk c => encode c
  end.

(** [CustomMessageReader::read]. *)
Definition read_wire_message (msg_type : Z) (buffer : bytes)
    : outcome DecodeError (option WireMessage.t) :=
  if msg_type =? SEGMENT_START_TYPE then
    '(s, _) ← decode buffer; Ok (Some (WireMessage.SegmentStart s))
  else if msg_type =? SEGMENT_CHUNK_TYPE then
    '(c, _) ← decode buffer; Ok (Some (WireMessage.SegmentChunk c))
  else read_tentenone_message msg_type buffer.
End Wire.

(** ** [TenTenOneMessageHandler] *)

(** The queues of the handler, a segment reader per peer (all of them [default]
    until used), and the peers whose connection was published. *)
Module MessageHandler.
Record t `{DecimalLib} `{IdLib} `{WL : WireLib} := mk {
  msg_events : list (PublicKey * WireMessage.t);
  msg_received : list (PublicKey * TenTenOneMessage.t);
  segment_readers : PublicKey -> SegmentReader;
  connected : list PublicKey;
}.
#[global] Arguments mk {_ _ _ _}.
End MessageHandler.

Section Handler.
Context `{DL : DecimalLib} `{IL : IdLib} `{ML : !DlcMessagesLib} `{WL : !WireLib}.
Context `{DT : !DecimalText} `{WJ : !WireJson}.

(** A [LightningError] disconnects the peer; the text says why. *)
Definition HandlerM (A : Type) : Type := M MessageHandler.t string A.

(** [TenTenOneMessageHandler::new]. *)
Definition handler_new : MessageHandler.t := MessageHandler.mk [] [] (fun _ => segment_reader_default) [].

Definition push_event (peer : PublicKey) (msg : WireMessage.t) : HandlerM unit := modify (fun s =>
  MessageHandler.mk (MessageHandler.msg_events s ++ [(peer, msg)]) (MessageHandler.msg_received s)
    (MessageHandler.segment_readers s) (MessageHandler.connected s)).
Definition push_received (peer : PublicKey) (msg : TenTenOneMessage.t) : HandlerM unit := modify (fun s =>
  MessageHandler.mk (MessageHandler.msg_events s) (MessageHandler.msg_received s ++ [(peer, msg)])
    (MessageHandler.segment_readers s) (MessageHandler.connected s)).

Definition set_reader (peer : PublicKey) (r : SegmentReader) (s : MessageHandler.t) : MessageHandler.t :=
  MessageHandler.mk (MessageHandler.msg_events s) (MessageHandler.msg_received s)
    (fun p => if decide (p = peer) then r else MessageHandler.segment_readers s p)
    (MessageHandler.connected s).

(** Runs an operation of a peer's segment reader. *)
Definition on_reader {A} (peer : PublicKey) (m : M SegmentReader string A) : HandlerM A := fun s =>
  let '(a, r) := m (MessageHandler.segment_readers s peer) in (a, set_reader peer r s).

(** [peer_connected]. *)
Definition peer_connected (their_node_id : PublicKey) : HandlerM unit := modify (fun s =>
  MessageHandler.mk (MessageHandler.msg_events s) (MessageHandler.msg_received s)
    (MessageHandler.segment_readers s) (MessageHandler.connected s ++ [their_node_id])).

(** [has_pending_messages_to_process], [get_and_clear_received_messages],
    [has_pending_messages], [get_and_clear_pending_msg]. *)
Definition has_pending_messages_to_process (s : MessageHandler.t) : bool :=
  match MessageHandler.msg_received s with [] => false | _ => true end.
Definition get_and_clear_received_messages : HandlerM (list (PublicKey * TenTenOneMessage.t)) := fun s =>
  (Ok (MessageHandler.msg_received s),
   MessageHandler.mk (MessageHandler.msg_events s) [] (MessageHandler.segment_readers s)
     (MessageHandler.connected s)).
Definition has_pending_messages (s : MessageHandler.t) : bool :=
  match MessageHandler.msg_events s with [] => false | _ => true end.
Definition get_and_clear_pending_msg : HandlerM (list (PublicKey * WireMessage.t)) := fun s =>
  (Ok (MessageHandler.msg_events s),
   MessageHandler.mk [] (MessageHandler.msg_received s) (MessageHandler.segment_readers s)
     (MessageHandler.connected s)).

(** [send_message]; [encode] of a message that cannot be written panics. *)
Definition send_message (node_id : PublicKey) (msg : TenTenOneMessage.t) : HandlerM unit :=
  encoded ← lift (expect (encode_message msg));
  if Nat.ltb MAX_BUF_SIZE (length encoded) then
    let '(seg_start, seg_chunks) := get_segments encoded (type_id msg) in
    _ ← push_event node_id (WireMessage.SegmentStart seg_start);
    for_each (fun chunk => push_event node_id (WireMessage.SegmentChunk chunk)) seg_chunks
  else push_event node_id (WireMessage.Message msg).

(** The arm of [handle_custom_message] for a chunk that was expected. *)
Definition handle_segment_chunk (org : PublicKey) (s : ChunkSegment) : HandlerM unit :=
  msg ← with_err (fun _ => "Error processing segment chunk"%string)
          (on_reader org (process_segment_chunk s));
  match msg with
  | None => mret tt
  | Some msg =>
    '(message_type, buf) ← lift (map_err (fun _ => "Could not reconstruct message from segments"%string)
                              (read_u16 msg));
    wire ← lift (map_err (fun _ => "Could not reconstruct message from segments"%string)
             (read_wire_message message_type buf));
    wire ← lift (expect wire);
    match wire with
    | WireMessage.Message m => push_received org m
    | _ => throw "Unexpected message type"%string
    end
  end.

(** The last [match] of [handle_custom_message]. *)
Definition handle_unexpecting (org : PublicKey) (msg : WireMessage.t) : HandlerM unit :=
  match msg with
  | WireMessage.Message m => push_received org m
  | WireMessage.SegmentStart s =>
    with_err (fun _ => "Error processing segment start"%string)
      (on_reader org (process_segment_start s))
  | WireMessage.SegmentChunk _ => throw "Received a SegmentChunk while not expecting one."%string
  end.

(** [handle_custom_message]. *)
Definition handle_custom_message (msg : WireMessage.t) (org : PublicKey) : HandlerM unit :=
  expecting ← gets (fun s => expecting_chunk (MessageHandler.segment_readers s org));
  if expecting : bool then
    match msg with
    | WireMessage.SegmentChunk s => handle_segment_chunk org s
    | _ =>
      _ ← on_reader org (fun r => (Ok tt, segment_reader_reset r));
      handle_unexpecting org msg
    end
  else handle_unexpecting org msg.
End Handler.

(** ** What is assumed of the encodings *)

(** [r] puts the chunks together to [out]. *)
Fixpoint reassembles `{WL : WireLib} (r : SegmentReader) (chunks : list ChunkSegment) (out : bytes) : Prop :=
  match chunks with
  | [] => False
  | [c] => exists r', process_segment_chunk c r = (Ok (Some out), r') /\ expecting_chunk r' = false
  | c :: chunks => exists r', process_segment_chunk c r = (Ok None, r') /\ expecting_chunk r' = true /\
      reassembles r' chunks out
  end.

Class WireLaws `{DL : DecimalLib} `{IL : IdLib} `(WL : WireLib) `{DT : !DecimalText} : Prop := {
  payload_codec_ok k (p : payload k) : codec_ok p;
  string_roundtrip s rest : read_string (write_string s ++ rest) = Ok (s, rest);
  i64_roundtrip z rest : in_i64 z = true -> read_i64 (write_i64 z ++ rest) = Ok (z, rest);
  u16_roundtrip z rest : 0 <= z < 2 ^ 16 -> read_u16 (write_u16 z ++ rest) = Ok (z, rest);
  len_roundtrip n rest : read_len (write_len n ++ rest) = Ok (n, rest);
  decimal_text_roundtrip d : d_parse (d_to_string d) = Some d;
  segment_start_ok (s : StartSegment) : codec_ok s;
  segment_chunk_ok (c : ChunkSegment) : codec_ok c;
  (** The numbers of [rust-dlc]'s segments are not among those of the messages. *)
  segment_types : SEGMENT_START_TYPE <> SEGMENT_CHUNK_TYPE /\
    forall z, 43000 <= z <= 43036 -> z <> SEGMENT_START_TYPE /\ z <> SEGMENT_CHUNK_TYPE;
  reset_expects_nothing r : expecting_chunk (segment_reader_reset r) = false;
  (** The segments of a message give its number and its bytes. *)
  segments_reassemble r b z start chunks : expecting_chunk r = false -> get_segments b z = (start, chunks) ->
    exists r', process_segment_start start r = (Ok tt, r') /\ expecting_chunk r' = true /\
      reassembles r' chunks (write_u16 z ++ b);
}.

Section WireTheorems.
Context `{DL : DecimalLib} `{IL : IdLib} `{ML : !DlcMessagesLib} `{WL : !WireLib}.
Context `{DT : !DecimalText} `{WJ : !WireJson} `{!IdLaws IL} `{!WireLaws WL}.

(** A value written as JSON is what its own text reads as, when that text reads. *)
Definition reread {A} `{JsonLib A} (v : A) : outcome DecodeError A :=
  ok_or InvalidValue (json_to_string v ≫= json_from_str).

(** A funding fee is sent with its due date in whole seconds. *)
Definition reread_event (e : MessageFundingFeeEvent.t) : MessageFundingFeeEvent.t :=
  MessageFundingFeeEvent.mk (whole_seconds (MessageFundingFeeEvent.due_date e))
    (MessageFundingFeeEvent.funding_rate e) (MessageFundingFeeEvent.price e)
    (MessageFundingFeeEvent.funding_fee e).

(** What the other side reads of a message. *)
Definition reread_message (msg : TenTenOneMessage.t) : outcome DecodeError TenTenOneMessage.t :=
  match msg with
  | TenTenOneMessage.Offer m =>
    f ← reread (TenTenOneOfferChannel.filled_with m);
    Ok (TenTenOneMessage.Offer (TenTenOneOfferChannel.mk f (TenTenOneOfferChannel.offer_channel m)))
  | TenTenOneMessage.SettleOffer m =>
    o ← reread (TenTenOneSettleOffer.order m);
    f ← reread (TenTenOneSettleOffer.filled_with m);
    Ok (TenTenOneMessage.SettleOffer (TenTenOneSettleOffer.mk o f (TenTenOneSettleOffer.settle_offer m)))
  | TenTenOneMessage.SettleAccept m =>
    r ← reread (TenTenOneSettleAccept.order_reason m);
    Ok (TenTenOneMessage.SettleAccept (TenTenOneSettleAccept.mk r (TenTenOneSettleAccept.order_id m)
          (TenTenOneSettleAccept.settle_accept m)))
  | TenTenOneMessage.SettleConfirm m =>
    r ← reread (TenTenOneSettleConfirm.order_reason m);
    Ok (TenTenOneMessage.SettleConfirm (TenTenOneSettleConfirm.mk r (TenTenOneSettleConfirm.order_id m)
          (TenTenOneSettleConfirm.settle_confirm m)))
  | TenTenOneMessage.SettleFinalize m =>
    r ← reread (TenTenOneSettleFinalize.order_reason m);
    Ok (TenTenOneMessage.SettleFinalize (TenTenOneSettleFinalize.mk r (TenTenOneSettleFinalize.order_id m)
          (TenTenOneSettleFinalize.settle_finalize m)))
  | TenTenOneMessage.RenewOffer m =>
    f ← reread (TenTenOneRenewOffer.filled_with m);
    Ok (TenTenOneMessage.RenewOffer (TenTenOneRenewOffer.mk f (TenTenOneRenewOffer.renew_offer m)))
  | TenTenOneMessage.RolloverOffer m =>
    Ok (TenTenOneMessage.RolloverOffer (TenTenOneRolloverOffer.mk (TenTenOneRolloverOffer.renew_offer m)
          (map reread_event (TenTenOneRolloverOffer.funding_fee_events m))))
  | _ => Ok msg
  end.

(** The numbers of a funding fee are in the range of their types. *)
Definition event_in_range (e : MessageFundingFeeEvent.t) : Prop :=
  is_datetime (MessageFundingFeeEvent.due_date e) /\ in_i64 (MessageFundingFeeEvent.funding_fee e) = true.
Definition message_in_range (msg : TenTenOneMessage.t) : Prop :=
  match msg with
  | TenTenOneMessage.RolloverOffer m => Forall event_in_range (TenTenOneRolloverOffer.funding_fee_events m)
  | _ => True
  end.

(** What was written of [a] is read as [ra], whatever follows it. *)
Definition decodes_as `{Codec A} (a : A) (ra : outcome DecodeError A) : Prop :=
  forall b rest, encode a = Some b -> decode (b ++ rest) = (a' ← ra; Ok (a', rest)).

Lemma codec_uuid_ok (u : Uuid) : codec_ok (H := codec_uuid) u.
Proof. intros b rest [= <-]. cbn. rewrite string_roundtrip. cbn. by rewrite uuid_parse_roundtrip. Qed.

Lemma codec_serde_reads {A} `{JsonLib A} (a : A) : decodes_as (H := codec_serde) a (reread a).
Proof.
  intros b rest Hb. unfold reread. cbn in *. destruct (json_to_string a) as [s|] eqn:Hs; [|done]. injection Hb as <-.
  rewrite string_roundtrip. cbn. by destruct (json_from_str s).
Qed.

Lemma codec_event_reads e : event_in_range e -> decodes_as (H := codec_funding_fee_event) e (Ok (reread_event e)).
Proof.
  intros (Hdate & Hfee) b rest Hb. destruct e as [date rate price fee]. cbn in *. injection Hb as <-.
  rewrite <-!app_assoc, i64_roundtrip by (apply in_i64_spec; unfold is_datetime in Hdate; lia). cbn.
  rewrite from_unix_timestamp_roundtrip by done. cbn. rewrite string_roundtrip. cbn.
  rewrite decimal_text_roundtrip. cbn. rewrite string_roundtrip. cbn. rewrite decimal_text_roundtrip. cbn.
  by rewrite i64_roundtrip.
Qed.

Lemma codec_vec_reads {A} `{Codec A} (f : A -> A) (l : list A) : Forall (fun a => decodes_as a (Ok (f a))) l ->
  decodes_as (H := codec_vec) l (Ok (map f l)).
Proof.
  intros Hl b rest Hb. cbn in *.
  destruct (encode_all l) as [bs|] eqn:Hbs; [|done]. injection Hb as <-. rewrite <-app_assoc, len_roundtrip. cbn.
  revert bs Hbs rest. induction Hl as [|a l Ha Hl IH]; intros bs Hbs rest; cbn in *; [by injection Hbs as <-|].
  destruct (encode a) as [b|] eqn:Hb; [|done]. cbn in Hbs.
  destruct (encode_all l) as [bs'|]; [|done]. injection Hbs as <-.
  rewrite <-app_assoc, (Ha b) by done. cbn. by rewrite (IH bs').
Qed.

Lemma codec_payload_reads k (p : payload k) : decodes_as p (Ok p).
Proof. intros b rest. apply payload_codec_ok. Qed.

Lemma codec_uuid_reads (u : Uuid) : decodes_as (H := codec_uuid) u (Ok u).
Proof. intros b rest. apply codec_uuid_ok. Qed.

Lemma codec_order_reads (o : Order.t) : decodes_as (H := codec_order) o (reread o).
Proof. apply codec_serde_reads. Qed.

Lemma codec_filled_with_reads (f : FilledWith.t) : decodes_as (H := codec_filled_with) f (reread f).
Proof. apply codec_serde_reads. Qed.

Lemma codec_order_reason_reads (r : OrderReason.t) : decodes_as (H := codec_order_reason) r (reread r).
Proof. apply codec_serde_reads. Qed.

Lemma codec_events_reads (l : list MessageFundingFeeEvent.t) : Forall event_in_range l ->
  decodes_as l (Ok (map reread_event l)).
Proof. intros Hl. apply codec_vec_reads. induction Hl; constructor; [by apply codec_event_reads|done]. Qed.

#[local] Opaque codec_uuid codec_order codec_filled_with codec_order_reason codec_vec.

(** Reads a sequence of fields back. *)
Ltac read_field :=
  match goal with
  | Hb : encode ?x = Some ?b |- context [decode (?b ++ ?rest)] =>
    (first [ rewrite (codec_payload_reads _ x b rest Hb) | rewrite (codec_uuid_reads x b rest Hb)
           | rewrite (codec_order_reads x b rest Hb); destruct (reread x) as [?|?|]
           | rewrite (codec_filled_with_reads x b rest Hb); destruct (reread x) as [?|?|]
           | rewrite (codec_order_reason_reads x b rest Hb); destruct (reread x) as [?|?|]
           | rewrite (codec_events_reads x) by done ]); cbn
  end.
Ltac read_fields :=
  repeat match goal with
  | H : (encode ?x ≫= _) = Some _ |- _ =>
    let b := fresh "b" in let Hb := fresh "Hb" in destruct (encode x) as [b|] eqn:Hb; [cbn in H|done]
  end;
  simplify_eq; rewrite <-?app_assoc; repeat read_field.

Lemma message_codec_reads msg b rest : message_in_range msg -> encode_message msg = Some b ->
  read_tentenone_message (type_id msg) (b ++ rest)
    = (m ← reread_message msg; Ok (Some (WireMessage.Message m))).
Proof.
  intros Hw Hb. destruct msg as [m|m|m|m|m|m|m|m|m|m|m|m|m|m|m|m|m|m|m]; destruct m;
    cbn in Hw, Hb; unfold type_id, read_tentenone_message; cbn -[encode decode Z.eqb reread];
    unfold read_as; cbn -[reread]; by read_fields.
Qed.
End WireTheorems.

(** ** The handler, one peer at a time *)

Section PeerViews.
Context `{DL : DecimalLib} `{IL : IdLib} `{ML : !DlcMessagesLib} `{WL : !WireLib}.
Context `{DT : !DecimalText} `{WJ : !WireJson}.

(** What a peer's bytes say, once they are complete. *)
Definition reassembled (b : bytes) : list TenTenOneMessage.t :=
  match read_u16 b with
  | Ok (message_type, buf) =>
    match read_wire_message message_type buf with
    | Ok (Some (WireMessage.Message m)) => [m]
    | _ => []
    end
  | _ => []
  end.

(** The specification of the handler: a mailbox per peer, which a wire message of
    that peer advances. *)
Definition mailbox_unexpecting (r : SegmentReader) (w : WireMessage.t)
    : SegmentReader * list TenTenOneMessage.t :=
  match w with
  | WireMessage.Message m => (r, [m])
  | WireMessage.SegmentStart s => ((process_segment_start s r).2, [])
  | WireMessage.SegmentChunk _ => (r, [])
  end.
Definition mailbox_step (r : SegmentReader) (w : WireMessage.t)
    : SegmentReader * list TenTenOneMessage.t :=
  if expecting_chunk r then
    match w with
    | WireMessage.SegmentChunk c =>
      let '(out, r') := process_segment_chunk c r in
      (r', match out with Ok (Some b) => reassembled b | _ => [] end)
    | _ => mailbox_unexpecting (segment_reader_reset r) w
    end
  else mailbox_unexpecting r w.
Fixpoint mailbox_run (r : SegmentReader) (ws : list WireMessage.t)
    : SegmentReader * list TenTenOneMessage.t :=
  match ws with
  | [] => (r, [])
  | w :: ws =>
    let '(r, new) := mailbox_step r w in
    let '(r, rest) := mailbox_run r ws in (r, new ++ rest)
  end.

(** Whether handling the message panics: [expect] meets bytes of no known kind of
    message, or a called operation panics. *)
Definition is_panic {E A} (m : outcome E A) : bool := match m with Panic => true | _ => false end.
Definition reassembly_panics (b : bytes) : bool :=
  match read_u16 b with
  | Ok (message_type, buf) =>
    match read_wire_message message_type buf with Panic | Ok None => true | _ => false end
  | Err _ => false
  | Panic => true
  end.
Definition mailbox_panics (r : SegmentReader) (w : WireMessage.t) : bool :=
  match w with
  | WireMessage.Message _ => false
  | WireMessage.SegmentStart s =>
    is_panic (process_segment_start s (if expecting_chunk r then segment_reader_reset r else r)).1
  | WireMessage.SegmentChunk c =>
    expecting_chunk r &&
      match (process_segment_chunk c r).1 with
      | Ok (Some b) => reassembly_panics b
      | Panic => true
      | _ => false
      end
  end.
Fixpoint mailbox_ever_panics (r : SegmentReader) (ws : list WireMessage.t) : bool :=
  match ws with
  | [] => false
  | w :: ws => mailbox_panics r w || mailbox_ever_panics (mailbox_step r w).1 ws
  end.

Definition from_peer {A} (peer : PublicKey) (l : list (PublicKey * A)) : list A :=
  map snd (List.filter (fun e => bool_decide (e.1 = peer)) l).

Lemma from_peer_app {A} peer (l l' : list (PublicKey * A)) :
  from_peer peer (l ++ l') = from_peer peer l ++ from_peer peer l'.
Proof using Type. unfold from_peer. by rewrite List.filter_app, map_app. Qed.

Definition mailbox (peer : PublicKey) (s : MessageHandler.t) : SegmentReader * list TenTenOneMessage.t :=
  (MessageHandler.segment_readers s peer, from_peer peer (MessageHandler.msg_received s)).

(** The mailbox of [peer] after a wire message of [org]. *)
Definition advanced (peer org : PublicKey) (w : WireMessage.t)
    (m : SegmentReader * list TenTenOneMessage.t) : SegmentReader * list TenTenOneMessage.t :=
  if decide (peer = org) then let '(r, new) := mailbox_step m.1 w in (r, m.2 ++ new) else m.

Lemma mailbox_push peer org m s :
  mailbox peer (push_received org m s).2
    = ((mailbox peer s).1, (mailbox peer s).2 ++ if decide (peer = org) then [m] else []).
Proof using Type.
  unfold mailbox, push_received, modify. cbn [fst snd MessageHandler.segment_readers MessageHandler.msg_received].
  rewrite from_peer_app. do 2 f_equal. unfold from_peer. cbn [List.filter fst].
  case_bool_decide; case_decide; (done || congruence).
Qed.

Lemma mailbox_set_reader peer org r s : mailbox peer (set_reader org r s)
  = (if decide (peer = org) then r else (mailbox peer s).1, (mailbox peer s).2).
Proof using Type. done. Qed.

Lemma mailbox_reader peer s : (mailbox peer s).1 = MessageHandler.segment_readers s peer.
Proof using Type. done. Qed.

#[local] Arguments mailbox : simpl never.
#[local] Arguments set_reader : simpl never.
#[local] Arguments push_received : simpl never.

(** Runs each side of a step of the handler. *)
Ltac mailbox_steps :=
  unfold mbind, M_bind, with_err, lift, throw, on_reader; cbn;
  rewrite ?mailbox_set_reader, ?mailbox_push, ?mailbox_set_reader; cbn; rewrite ?app_nil_r.

Lemma unexpecting_mailbox peer org w s :
  mailbox peer (handle_unexpecting org w s).2 =
    if decide (peer = org) then
      let '(r, new) := mailbox_unexpecting (mailbox peer s).1 w in (r, (mailbox peer s).2 ++ new)
    else mailbox peer s.
Proof using Type.
  unfold handle_unexpecting, mailbox_unexpecting. destruct w as [m|st|c].
  - rewrite mailbox_push. case_decide; [done|]. by rewrite app_nil_r.
  - mailbox_steps. case_decide as Hp; [subst|]; destruct (process_segment_start st _) eqn:Hs; cbn;
      rewrite mailbox_set_reader; case_decide; try done; cbn; rewrite ?app_nil_r, ?Hs; done.
  - cbn. case_decide; [by rewrite app_nil_r|done].
Qed.

Lemma chunk_mailbox peer org c s : expecting_chunk (MessageHandler.segment_readers s org) = true ->
  mailbox peer (handle_segment_chunk org c s).2
    = advanced peer org (WireMessage.SegmentChunk c) (mailbox peer s).
Proof using Type.
  intros He. unfold handle_segment_chunk, advanced, mailbox_step. mailbox_steps.
  case_decide as Hp.
  - subst org. rewrite mailbox_reader, He.
    destruct (process_segment_chunk c _) as [[[b|]|e|] r'] eqn:Hc; cbn;
      [|by rewrite mailbox_set_reader, decide_True, app_nil_r..].
    unfold reassembled. destruct (read_u16 b) as [[z buf]|e|]; cbn; [|by rewrite mailbox_set_reader, decide_True, app_nil_r..].
    destruct (read_wire_message z buf) as [[[m|st|c']|]|e|]; cbn;
      rewrite ?mailbox_push, mailbox_set_reader, ?decide_True, ?app_nil_r by done; cbn; done.
  - destruct (process_segment_chunk c _) as [[[b|]|e|] r'] eqn:Hc; cbn;
      [|by rewrite mailbox_set_reader, decide_False..].
    destruct (read_u16 b) as [[z buf]|e'|]; cbn; [|by rewrite mailbox_set_reader, decide_False..].
    destruct (read_wire_message z buf) as [[[m|st|c']|]|e'|]; cbn;
      rewrite ?mailbox_push, mailbox_set_reader, ?decide_False, ?app_nil_r by done; cbn; done.
Qed.

(** A step of the handler is a step of the mailbox of the peer it is for. *)
Lemma handle_mailbox peer org w s :
  mailbox peer (handle_custom_message w org s).2 = advanced peer org w (mailbox peer s).
Proof using Type.
  unfold handle_custom_message, mbind at 1, M_bind at 1, gets.
  destruct (expecting_chunk (MessageHandler.segment_readers s org)) eqn:He.
  - destruct w as [m|st|c]; [..|by apply chunk_mailbox].
    all: unfold mbind, M_bind, on_reader; rewrite unexpecting_mailbox, mailbox_set_reader.
    all: unfold advanced, mailbox_step; case_decide as Hp; [subst org; cbn; rewrite mailbox_reader, He; done|done].
  - rewrite unexpecting_mailbox. unfold advanced, mailbox_step.
    case_decide as Hp; [|done]. subst org. by rewrite mailbox_reader, He.
Qed.

(** Whether the handler panics is known from the reader of the sender. *)
Lemma handle_panics org w s : is_panic (handle_custom_message w org s).1
  = mailbox_panics (MessageHandler.segment_readers s org) w.
Proof using Type.
  unfold handle_custom_message, mbind at 1, M_bind at 1, gets, mailbox_panics.
  destruct (expecting_chunk (MessageHandler.segment_readers s org)) eqn:He.
  - destruct w as [m|st|c]; cbn; [done|..].
    + mailbox_steps. unfold set_reader at 1. cbn. rewrite decide_True by done. by destruct (process_segment_start st _) as [[]].
    + unfold handle_segment_chunk. mailbox_steps. unfold reassembly_panics.
      destruct (process_segment_chunk c _) as [[[b|]|e|] r']; [|done..]. cbn.
      destruct (read_u16 b) as [[z buf]|e|]; [|done..]. cbn.
      by destruct (read_wire_message z buf) as [[[]|]|e|].
  - destruct w as [m|st|c]; cbn; [done| |done]. mailbox_steps. by destruct (process_segment_start st _) as [[]].
Qed.

(** Handles wire messages of any peers in the order they arrive.  An error is for
    the peer that sent the message, which is disconnected.  A panic leaves the lock
    of the segment readers poisoned: no later message of any peer is handled. *)
Fixpoint handle_all (events : list (PublicKey * WireMessage.t)) : HandlerM unit := fun s =>
  match events with
  | [] => (Ok tt, s)
  | (org, w) :: events =>
    let '(r, s) := handle_custom_message w org s in
    match r with Panic => (Panic, s) | _ => handle_all events s end
  end.

(** Messages that are handled move each peer's mailbox on. *)
Lemma handle_all_mailbox peer events : forall s s', handle_all events s = (Ok tt, s') ->
  mailbox peer s' =
    let '(r, new) := mailbox_run (mailbox peer s).1 (from_peer peer events) in
    (r, (mailbox peer s).2 ++ new).
Proof using Type.
  induction events as [|[org w] events IH]; intros s s' Hs; [injection Hs as <-; by cbn; rewrite app_nil_r|].
  cbn [handle_all] in Hs. destruct (handle_custom_message w org s) as [r s1] eqn:Hw.
  assert (Hall : handle_all events s1 = (Ok tt, s')) by (by destruct r).
  rewrite (IH s1 s' Hall). replace s1 with (handle_custom_message w org s).2 by (by rewrite Hw).
  rewrite handle_mailbox. unfold from_peer, advanced. cbn.
  case_decide as Hp; case_bool_decide as Hp'; try done; try congruence.
  cbn. destruct (mailbox_step _ w) as [r1 new]. cbn.
  destruct (mailbox_run r1 _) as [r' rest]. by rewrite app_assoc.
Qed.

(** Handling ends early at the first message that panics. *)
Lemma handle_all_cut events : forall s, (exists s', handle_all events s = (Ok tt, s')) \/
  exists pre org w post s1 s', events = pre ++ (org, w) :: post /\ handle_all pre s = (Ok tt, s1) /\
    handle_custom_message w org s1 = (Panic, s') /\ handle_all events s = (Panic, s').
Proof using Type.
  induction events as [|[org w] events IH]; intros s; [left; by exists s|].
  cbn [handle_all]. destruct (handle_custom_message w org s) as [r s1] eqn:Hw.
  assert (r = Panic \/ r <> Panic) as [->|Hr] by (destruct r; first [by left|by right]).
  { right. by exists [], org, w, events, s, s1. }
  replace (match r with Panic => (Panic, s1) | _ => handle_all events s1 end) with (handle_all events s1)
    by (by destruct r).
  destruct (IH s1) as [[s' Hs]|(pre & org' & w' & post & s2 & s' & -> & Hpre & Hpanic & Hall)]; [left; by exists s'|].
  right. exists ((org, w) :: pre), org', w', post, s2, s'. split_and!; [done| |done|done].
  cbn [handle_all]. rewrite Hw. by destruct r.
Qed.
End PeerViews.

(** ** Delivery *)

Section Delivery.
Context `{DL : DecimalLib} `{IL : IdLib} `{ML : !DlcMessagesLib} `{WL : !WireLib}.
Context `{DT : !DecimalText} `{WJ : !WireJson} `{!IdLaws IL} `{!WireLaws WL}.

Lemma type_id_range msg : 43000 <= type_id msg <= 43036.
Proof using Type. by destruct msg. Qed.

Lemma read_wire_type msg b : read_wire_message (type_id msg) b = read_tentenone_message (type_id msg) b.
Proof.
  unfold read_wire_message. destruct segment_types as [_ Htypes].
  destruct (Htypes _ (type_id_range msg)) as [Hs Hc].
  apply Z.eqb_neq in Hs, Hc. by rewrite Hs, Hc.
Qed.

(** What a wire message is when it arrives. *)
Definition carried (w w' : WireMessage.t) : Prop :=
  exists b, encode_wire_message w = Some b /\ read_wire_message (wire_type_id w) b = Ok (Some w').

(** C19: a message that is written is read back part by part: the number it is
    announced with selects its reader, and whatever follows on the wire, every
    identifier and every part of [rust-dlc] is read as it was written, the due dates
    of funding fees are cut to whole seconds, and an order, a match or a reason,
    written as JSON, is what its own text reads as; the message is refused exactly
    when one of these texts does not read.  The fees and dates are in the range of
    their types. *)
Theorem wire_message_roundtrip (msg : TenTenOneMessage.t) (b rest : bytes)
    (Hrange : message_in_range msg) (Hb : encode_message msg = Some b) :
  read_wire_message (type_id msg) (b ++ rest)
    = (m ← reread_message msg; Ok (Some (WireMessage.Message m))).
Proof. rewrite read_wire_type. by apply message_codec_reads. Qed.

(** What arrives of a wire message. *)
Definition reread_wire (w : WireMessage.t) : outcome DecodeError WireMessage.t :=
  match w with
  | WireMessage.Message m => m ← reread_message m; Ok (WireMessage.Message m)
  | _ => Ok w
  end.
Definition wire_in_range (w : WireMessage.t) : Prop :=
  match w with WireMessage.Message m => message_in_range m | _ => True end.

Lemma carried_reads w w' : wire_in_range w -> carried w w' -> reread_wire w = Ok w'.
Proof.
  intros Hw (b & Hb & Hr). rewrite <-(app_nil_r b) in Hr. destruct w as [m|st|c]; cbn -[reread_message] in *.
  - rewrite read_wire_type, message_codec_reads in Hr by done. destruct (reread_message m); by simplify_eq/=.
  - unfold read_wire_message in Hr. rewrite Z.eqb_refl, (segment_start_ok st b []) in Hr by done. cbn in Hr. by simplify_eq.
  - unfold read_wire_message in Hr. destruct segment_types as [Hne _].
    replace (SEGMENT_CHUNK_TYPE =? SEGMENT_START_TYPE) with false in Hr by (symmetry; apply Z.eqb_neq; congruence).
    rewrite Z.eqb_refl, (segment_chunk_ok c b []) in Hr by done. cbn in Hr. by simplify_eq.
Qed.

Lemma carried_segments ws : forall ws', Forall (fun w => reread_wire w = Ok w) ws -> Forall wire_in_range ws ->
  Forall2 carried ws ws' -> ws' = ws.
Proof.
  induction ws as [|w ws IH]; intros ws' Hs Hr Hc; inversion Hc; subst; [done|].
  apply Forall_cons in Hs as [Hw Hs]. apply Forall_cons in Hr as [Hrw Hr]. f_equal; [|by apply IH].
  assert (Ok (E := DecodeError) w = Ok y) by (rewrite <-Hw; by apply carried_reads). by simplify_eq.
Qed.

(** The wire messages [send_message] queues. *)
Definition wires (msg : TenTenOneMessage.t) (b : bytes) : list WireMessage.t :=
  if Nat.ltb MAX_BUF_SIZE (length b) then
    let '(seg_start, seg_chunks) := get_segments b (type_id msg) in
    WireMessage.SegmentStart seg_start :: map WireMessage.SegmentChunk seg_chunks
  else [WireMessage.Message msg].

Lemma push_chunks_events peer chunks : forall s s1,
  for_each (fun chunk => push_event peer (WireMessage.SegmentChunk chunk)) chunks s = (Ok tt, s1) ->
  MessageHandler.msg_events s1 = MessageHandler.msg_events s
    ++ map (pair peer) (map WireMessage.SegmentChunk chunks).
Proof using Type.
  induction chunks as [|c chunks IH]; intros s s1 Hs; cbn in Hs.
  - injection Hs as <-. by rewrite app_nil_r.
  - inv_ok. apply IH in Hs. rewrite Hs. unfold push_event, modify in *. simplify_eq. cbn. by rewrite <-app_assoc.
Qed.

Lemma send_message_events peer msg s s1 : send_message peer msg s = (Ok tt, s1) ->
  exists b, encode_message msg = Some b /\
    MessageHandler.msg_events s1 = MessageHandler.msg_events s ++ map (pair peer) (wires msg b).
Proof using Type.
  intros Hs. unfold send_message in Hs. inv_ok. subst. rename x into b.
  exists b. split; [done|]. unfold wires. destruct (Nat.ltb MAX_BUF_SIZE (length b)).
  - destruct (get_segments b (type_id msg)) as [st chunks]. inv_ok. apply push_chunks_events in Hs. rewrite Hs.
    unfold push_event, modify in *. simplify_eq. cbn. by rewrite <-app_assoc.
  - unfold push_event, modify in Hs. by simplify_eq.
Qed.

Lemma mailbox_run_app r ws ws' : mailbox_run r (ws ++ ws') =
  let '(r1, l) := mailbox_run r ws in let '(r2, l') := mailbox_run r1 ws' in (r2, l ++ l').
Proof using Type.
  revert r. induction ws as [|w ws IH]; intros r; cbn; [by destruct (mailbox_run r ws')|].
  destruct (mailbox_step r w) as [r1 new]. rewrite IH.
  destruct (mailbox_run r1 ws) as [r2 l]. destruct (mailbox_run r2 ws') as [r3 l']. by rewrite app_assoc.
Qed.

Lemma mailbox_ever_panics_app r ws ws' : mailbox_ever_panics r (ws ++ ws')
  = mailbox_ever_panics r ws || mailbox_ever_panics (mailbox_run r ws).1 ws'.
Proof using Type.
  revert r. induction ws as [|w ws IH]; intros r; cbn; [done|]. rewrite IH.
  destruct (mailbox_step r w) as [r1 new]. cbn. destruct (mailbox_run r1 ws). cbn. by rewrite orb_assoc.
Qed.

(** A mailbox run that never panics and delivers [ms]. *)
Definition delivers (r : SegmentReader) (ws : list WireMessage.t) (ms : list TenTenOneMessage.t) : Prop :=
  (mailbox_run r ws).2 = ms /\ mailbox_ever_panics r ws = false.

Lemma mailbox_chunks out ms : reassembled out = ms -> reassembly_panics out = false ->
  forall chunks r, expecting_chunk r = true -> reassembles r chunks out ->
  delivers r (map WireMessage.SegmentChunk chunks) ms.
Proof using Type.
  intros Hout Hpanic chunks. unfold delivers. induction chunks as [|c chunks IH]; intros r He Hr; [done|].
  cbn [map mailbox_run mailbox_ever_panics]. unfold mailbox_step. cbn. rewrite He. destruct chunks as [|c' chunks].
  - destruct Hr as (r' & -> & _). cbn. by rewrite app_nil_r, Hpanic.
  - destruct Hr as (r' & -> & He' & Hr). destruct (IH r' He' Hr) as [Hrun Hnp].
    cbn [map fst snd andb orb] in *. split; [by destruct (mailbox_run r' _)|done].
Qed.

(** Whatever a mailbox was doing, it delivers the next message that is sent. *)
Lemma mailbox_delivers r msg msg' b ws : message_in_range msg -> encode_message msg = Some b ->
  reread_message msg = Ok msg' -> Forall2 carried (wires msg b) ws -> delivers r ws [msg'].
Proof.
  intros Hw Hb Hread. unfold wires. destruct (Nat.ltb MAX_BUF_SIZE (length b)).
  - destruct (get_segments b (type_id msg)) as [st chunks] eqn:Hseg. intros Hc.
    apply carried_segments in Hc; [subst ws|constructor; [done|apply Forall_map, Forall_forall; done]..].
    set (r0 := if expecting_chunk r then segment_reader_reset r else r).
    assert (He0 : expecting_chunk r0 = false).
    { unfold r0. destruct (expecting_chunk r) eqn:He; [apply reset_expects_nothing|done]. }
    assert (Hstep : mailbox_step r (WireMessage.SegmentStart st) = ((process_segment_start st r0).2, [])).
    { unfold mailbox_step, r0. by destruct (expecting_chunk r). }
    destruct (segments_reassemble r0 b (type_id msg) st chunks He0 Hseg) as (r1 & Hs1 & He1 & Hre).
    assert (Hres : read_wire_message (type_id msg) b = Ok (Some (WireMessage.Message msg'))).
    { rewrite <-(app_nil_r b), read_wire_type, message_codec_reads by done. by rewrite Hread. }
    destruct (mailbox_chunks (write_u16 (type_id msg) ++ b) [msg']) with (chunks := chunks) (r := r1) as [Hrun Hnp];
      [..|done|done|].
    1,2: unfold reassembled, reassembly_panics; rewrite u16_roundtrip by (pose proof (type_id_range msg); lia);
      by rewrite Hres.
    unfold delivers. cbn [mailbox_run mailbox_ever_panics]. rewrite Hstep, Hs1. cbn [fst snd].
    split; [by destruct (mailbox_run r1 _)|]. unfold mailbox_panics at 1. fold r0. by rewrite Hs1, Hnp.
  - intros Hc. inversion Hc as [|? w' ? ? Hcar Hnil]; subst. inversion Hnil; subst. apply carried_reads in Hcar; [|done].
    cbn [reread_wire] in Hcar. rewrite Hread in Hcar. cbn in Hcar. simplify_eq.
    unfold delivers. cbn. unfold mailbox_step. by destruct (expecting_chunk r).
Qed.

Lemma sent_delivered peer msgs : forall s s1, Forall message_in_range msgs ->
  for_each (send_message peer) msgs s = (Ok tt, s1) ->
  exists ws, MessageHandler.msg_events s1 = MessageHandler.msg_events s ++ map (pair peer) ws /\
    forall received r ws', Forall2 (fun m m' => reread_message m = Ok m') msgs received ->
      Forall2 carried ws ws' -> delivers r ws' received.
Proof.
  induction msgs as [|msg msgs IH]; intros s s1 Hsafe Hs; cbn in Hs.
  - injection Hs as <-. exists []. rewrite app_nil_r. split; [done|]. intros received r ws' Hr Hc.
    by inversion Hr; inversion Hc.
  - apply Forall_cons in Hsafe as [Hm Hsafe]. apply M_bind_ok in Hs as ([] & s' & Hsend & Hs).
    apply send_message_events in Hsend as (b & Hb & Hev).
    destruct (IH s' s1 Hsafe Hs) as (ws & Hws & Hdel).
    exists (wires msg b ++ ws). split; [by rewrite Hws, Hev, map_app, app_assoc|].
    intros received r ws' Hr Hc. inversion Hr as [|? msg' ? received' Hr1 Hr2]; subst.
    apply Forall2_app_inv_l in Hc as (w1 & w2 & Hc1 & Hc2 & ->).
    destruct (mailbox_delivers r msg msg' b w1 Hm Hb Hr1 Hc1) as [Hrun Hnp].
    destruct (Hdel received' (mailbox_run r w1).1 w2 Hr2 Hc2) as [Hrun' Hnp'].
    split; [|by rewrite mailbox_ever_panics_app, Hnp]. rewrite mailbox_run_app.
    destruct (mailbox_run r w1) as [r1 l]. cbn in *. subst l.
    destruct (mailbox_run r1 w2) as [r2 l']. cbn in *. by subst l'.
Qed.

(** What of a run that ended is a run of the mailbox that delivers a part. *)
Lemma delivers_part me pre post r received : delivers r (from_peer me (pre ++ post)) received ->
  (mailbox_run r (from_peer me pre)).2 `prefix_of` received.
Proof using Type.
  intros [Hrun _]. rewrite from_peer_app, mailbox_run_app in Hrun.
  destruct (mailbox_run r (from_peer me pre)) as [r1 l]. destruct (mailbox_run r1 _) as [r2 l'].
  cbn in *. by exists l'.
Qed.

Lemma received_all me events s s' received : handle_all events s = (Ok tt, s') ->
  (mailbox_run (MessageHandler.segment_readers s me) (from_peer me events)).2 = received ->
  from_peer me (MessageHandler.msg_received s') = from_peer me (MessageHandler.msg_received s) ++ received.
Proof using Type.
  intros Hs Hrun. apply (handle_all_mailbox me), (f_equal snd) in Hs. cbn in Hs. rewrite Hs.
  cbn [mailbox fst]. by destruct (mailbox_run _ _) as [r' new]; cbn in *; subst new.
Qed.

Lemma panics_not_received me pre org w post s s1 s' received :
  delivers (MessageHandler.segment_readers s me) (from_peer me (pre ++ (org, w) :: post)) received ->
  handle_all pre s = (Ok tt, s1) -> handle_custom_message w org s1 = (Panic, s') ->
  org <> me /\ exists new, new `prefix_of` received /\
    from_peer me (MessageHandler.msg_received s') = from_peer me (MessageHandler.msg_received s) ++ new.
Proof using Type.
  intros Hdel Hpre Hpanic. assert (Horg : org <> me).
  { intros ->. destruct Hdel as [_ Hnp]. rewrite from_peer_app, mailbox_ever_panics_app in Hnp.
    apply orb_false_iff in Hnp as [_ Hnp].
    apply (handle_all_mailbox me), (f_equal fst) in Hpre.
    pose proof (handle_panics me w s1) as Hw. rewrite Hpanic in Hw.
    change (MessageHandler.segment_readers s1 me) with (mailbox me s1).1 in Hw. rewrite Hpre in Hw.
    change (MessageHandler.segment_readers s me) with (mailbox me s).1 in Hnp.
    destruct (mailbox_run _ (from_peer me pre)) as [r1 l]. cbn in Hnp, Hw.
    unfold from_peer in Hnp. cbn in Hnp. rewrite bool_decide_true in Hnp by done. cbn in Hnp.
    by rewrite <-Hw in Hnp. }
  split; [done|]. eexists. split; [by apply delivers_part in Hdel|].
  erewrite <-received_all by done.
  replace s' with (handle_custom_message w org s1).2 by (by rewrite Hpanic).
  pose proof (handle_mailbox me org w s1) as Hm. unfold advanced in Hm. rewrite decide_False in Hm by done.
  by apply (f_equal snd) in Hm.
Qed.

(** C2: messages arrive whole and in order.  A node with an empty queue queues
    messages for a peer, the large ones in segments; what arrives at the peer is,
    byte for byte, what was written, between any messages of any other nodes, at a
    peer in any state, even in the middle of a message that was never finished.
    When all of it is handled, the peer has received of the node what it had before
    and those messages, in the order in which they were sent, each as its own text
    reads ([reread_message]).  Errors do not change this.  Only a panic does, which
    stops the handling for good, and it is always a message of another node that
    panics; up to there the messages were received in order. *)
Theorem messages_arrive_in_order (peer me : PublicKey) (msgs received : list TenTenOneMessage.t)
    (sender sender' receiver : MessageHandler.t) (arriving : list (PublicKey * WireMessage.t))
    (Hrange : Forall message_in_range msgs)
    (Hread : Forall2 (fun m m' => reread_message m = Ok m') msgs received)
    (Hempty : MessageHandler.msg_events sender = [])
    (Hsend : for_each (send_message peer) msgs sender = (Ok tt, sender'))
    (Hcarried : Forall2 carried (map snd (MessageHandler.msg_events sender')) (from_peer me arriving)) :
  let had := from_peer me (MessageHandler.msg_received receiver) in
  (exists receiver', handle_all arriving receiver = (Ok tt, receiver') /\
    from_peer me (MessageHandler.msg_received receiver') = had ++ received) \/
  (exists before org w after middle receiver' new,
    handle_all arriving receiver = (Panic, receiver') /\
    arriving = before ++ (org, w) :: after /\ org <> me /\
    handle_all before receiver = (Ok tt, middle) /\
    handle_custom_message w org middle = (Panic, receiver') /\
    from_peer me (MessageHandler.msg_received receiver') = had ++ new /\ new `prefix_of` received).
Proof.
  destruct (sent_delivered peer msgs sender sender' Hrange Hsend) as (ws & Hev & Hdel).
  rewrite Hempty in Hev. cbn in Hev. rewrite Hev, map_map, map_id in Hcarried.
  specialize (Hdel received (MessageHandler.segment_readers receiver me) _ Hread Hcarried).
  destruct (handle_all_cut arriving receiver) as [[s' Hs]|(pre & org & w & post & s1 & s' & -> & Hpre & Hpanic & Hall)].
  - left. exists s'. split; [done|]. apply (received_all _ arriving); [done|]. by destruct Hdel.
  - right. destruct (panics_not_received _ _ _ _ _ _ _ _ _ Hdel Hpre Hpanic) as (Horg & new & Hnew & Hrec).
    by exists pre, org, w, post, s1, s', new.
Qed.

(** A peer that sends the segments of a message of an unknown kind stops the handler. *)
Lemma unknown_kind_panics org c s out r z buf : expecting_chunk (MessageHandler.segment_readers s org) = true ->
  process_segment_chunk c (MessageHandler.segment_readers s org) = (Ok (Some out), r) ->
  read_u16 out = Ok (z, buf) -> z <> SEGMENT_START_TYPE -> z <> SEGMENT_CHUNK_TYPE -> ~ 43000 <= z <= 43036 ->
  forall events, (handle_all ((org, WireMessage.SegmentChunk c) :: events) s).1 = Panic.
Proof using Type.
  intros He Hc Hz Hs1 Hs2 Hz' events. cbn [handle_all].
  pose proof (handle_panics org (WireMessage.SegmentChunk c) s) as Hp.
  cbn [mailbox_panics] in Hp. rewrite He, Hc in Hp. cbn in Hp. unfold reassembly_panics in Hp. rewrite Hz in Hp.
  unfold read_wire_message in Hp. apply Z.eqb_neq in Hs1, Hs2. rewrite Hs1, Hs2 in Hp.
  assert (Hnone : read_tentenone_message z buf = Ok None).
  { unfold read_tentenone_message. repeat match goal with
    | |- context [if z =? ?k then _ else _] => replace (z =? k) with false by (symmetry; apply Z.eqb_neq; unfold k; lia)
    end. done. }
  rewrite Hnone in Hp. by destruct (handle_custom_message _ org s) as [[| |] s'].
Qed.
End Delivery.

(** ** Evaluated *)

(** Strings and lengths have a mark before every part and at the end; segments are
    of one byte. *)
Fixpoint demo_write_string (s : string) : bytes :=
  match s with
  | EmptyString => [Byte.x00]
  | String c s => Byte.x01 :: Ascii.byte_of_ascii c :: demo_write_string s
  end.
Fixpoint demo_read_string (r : bytes) : outcome DecodeError (string * bytes) :=
  match r with
  | Byte.x01 :: b :: r =>
    '(s, r) ← demo_read_string r; Ok (String (Ascii.ascii_of_byte b) s, r)
  | Byte.x00 :: r => Ok (EmptyString, r)
  | _ => Err OtherDecodeError
  end.
Fixpoint demo_write_len (n : nat) : bytes :=
  match n with O => [Byte.x00] | S n => Byte.x01 :: demo_write_len n end.
Fixpoint demo_read_len (r : bytes) : outcome DecodeError (nat * bytes) :=
  match r with
  | Byte.x01 :: r => '(n, r) ← demo_read_len r; Ok (S n, r)
  | Byte.x00 :: r => Ok (O, r)
  | _ => Err OtherDecodeError
  end.

(** [k] bytes, read as a number. *)
Definition demo_read_num (k : nat) (r : bytes) : outcome DecodeError (Z * bytes) :=
  if Nat.leb k (length r) then Ok (of_bytes (take k r), drop k r) else Err OtherDecodeError.

Definition demo_byte_codec : Codec Byte.byte := {|
  encode b := Some [b];
  decode r := match r with b :: r => Ok (b, r) | [] => Err OtherDecodeError end;
|}.
Definition demo_nat_codec : Codec nat :=
  {| encode n := Some (demo_write_len n); decode := demo_read_len |}.

#[export] Instance demo_wire : WireLib := {|
  payload_codec _ := demo_byte_codec;
  write_string := demo_write_string;
  read_string := demo_read_string;
  write_i64 z := bytes_of 8 (z mod 2 ^ 64);
  read_i64 r := '(z, r) ← demo_read_num 8 r; Ok (as_i64 z, r);
  write_u16 z := bytes_of 2 z;
  read_u16 := demo_read_num 2;
  write_len := demo_write_len;
  read_len := demo_read_len;
  MAX_BUF_SIZE := 20;
  StartSegment := nat;
  ChunkSegment := Byte.byte;
  segment_start_codec := demo_nat_codec;
  segment_chunk_codec := demo_byte_codec;
  SEGMENT_START_TYPE := 42900;
  SEGMENT_CHUNK_TYPE := 42902;
  get_segments b z := (length (bytes_of 2 z ++ b), bytes_of 2 z ++ b);
  SegmentReader := option (nat * bytes);
  segment_reader_default := None;
  expecting_chunk r := match r with Some _ => true | None => false end;
  process_segment_start n _ := (Ok tt, Some (n, []));
  process_segment_chunk c r :=
    match r with
    | Some (S O, b) => (Ok (Some (b ++ [c])), None)
    | Some (S n, b) => (Ok None, Some (n, b ++ [c]))
    | _ => (Err "unexpected"%string, r)
    end;
  segment_reader_reset _ := None;
|}.

(** A decimal as the text of the number that encodes its fraction. *)
#[export] Instance demo_decimal_text : DecimalText (H := demo_decimal) := {|
  d_to_string d := pos_to_string (countable.encode (Qnum d, Qden d));
  d_parse s := p ← pos_of_string s; '(n, d) ← countable.decode p; Some (Qmake n d);
|}.

#[export] Instance demo_wire_json : WireJson (H := demo_decimal) (H0 := demo_id) := {|
  json_order := {| json_to_string _ := None; json_from_str _ := None |};
  json_filled_with := {| json_to_string _ := None; json_from_str _ := None |};
  json_order_reason := {|
    json_to_string r := Some (match r with
      | OrderReason.Manual => "Manual" | OrderReason.Expired => "Expired"
      | OrderReason.CoordinatorLiquidated => "CoordinatorLiquidated"
      | OrderReason.TraderLiquidated => "TraderLiquidated" end)%string;
    json_from_str s :=
      if String.eqb s "Manual" then Some OrderReason.Manual
      else if String.eqb s "Expired" then Some OrderReason.Expired
      else if String.eqb s "CoordinatorLiquidated" then Some OrderReason.CoordinatorLiquidated
      else if String.eqb s "TraderLiquidated" then Some OrderReason.TraderLiquidated else None;
  |};
|}.

Lemma demo_string_roundtrip s rest : demo_read_string (demo_write_string s ++ rest) = Ok (s, rest).
Proof.
  induction s as [|c s IH]; cbn; [done|]. rewrite IH. cbn. by rewrite Ascii.ascii_of_byte_of_ascii.
Qed.

Lemma demo_len_roundtrip n rest : demo_read_len (demo_write_len n ++ rest) = Ok (n, rest).
Proof. induction n as [|n IH]; cbn; [done|]. by rewrite IH. Qed.

Lemma demo_num_roundtrip k z rest : 0 <= z < 256 ^ Z.of_nat k ->
  demo_read_num k (bytes_of k z ++ rest) = Ok (z, rest).
Proof.
  intros Hz. unfold demo_read_num. pose proof (bytes_of_length k z) as Hl.
  replace (Nat.leb k _) with true by (symmetry; apply Nat.leb_le; rewrite length_app; lia).
  rewrite take_app_length' by done. rewrite drop_app_length' by done. by rewrite of_bytes_of.
Qed.

Lemma demo_reassembles chunks : forall acc n, n = length chunks -> (0 < n)%nat ->
  reassembles (WL := demo_wire) (Some (n, acc)) chunks (acc ++ chunks).
Proof.
  induction chunks as [|c chunks IH]; intros acc n Hn Hpos; [cbn in Hn; lia|].
  destruct chunks as [|c' chunks].
  - cbn in Hn. subst n. by exists None.
  - cbn in Hn. subst n. eexists. split; [done|]. split; [done|].
    replace (acc ++ c :: c' :: chunks) with ((acc ++ [c]) ++ c' :: chunks) by (by rewrite <-app_assoc).
    apply IH; [done|lia].
Qed.

#[export] Instance demo_wire_laws : WireLaws (DL := demo_decimal) (IL := demo_id) demo_wire (DT := demo_decimal_text).
Proof.
  split.
  - intros k p b rest Hb. cbn in *. by simplify_eq.
  - apply demo_string_roundtrip.
  - intros z rest Hz%in_i64_spec. cbn -[bytes_of Z.pow demo_read_num].
    rewrite demo_num_roundtrip by (apply Z.mod_pos_bound; lia). cbn -[Z.pow]. f_equal. f_equal.
    unfold as_i64. rewrite Zplus_mod_idemp_l, Z.mod_small; lia.
  - intros z rest Hz. apply demo_num_roundtrip. lia.
  - apply demo_len_roundtrip.
  - intros d. cbn -[countable.encode countable.decode]. rewrite pos_of_to_string. cbn -[countable.encode countable.decode]. rewrite countable.decode_encode. by destruct d.
  - intros n b rest Hb. cbn in *. simplify_eq. apply demo_len_roundtrip.
  - intros c b rest Hb. cbn in *. by simplify_eq.
  - split; [done|]. intros z Hz. cbn. lia.
  - done.
  - intros r b z start chunks _ [= <- <-]. eexists. split; [done|]. split; [done|].
    apply (demo_reassembles _ []); [done|]. cbn. lia.
Qed.

(** A large and a small message. *)
Definition demo_large : TenTenOneMessage.t (H := demo_decimal) (H0 := demo_id) :=
  TenTenOneMessage.Accept (TenTenOneAcceptChannel.mk (H := demo_messages) (2 ^ 20) Byte.x2a).
Definition demo_small : TenTenOneMessage.t (H := demo_decimal) (H0 := demo_id) :=
  TenTenOneMessage.Reject (TenTenOneReject.mk (H := demo_messages) Byte.x07).


(** A reason as JSON, and a fee due a second and a half after the epoch. *)
Definition demo_confirm : TenTenOneMessage.t (H := demo_decimal) (H0 := demo_id) :=
  TenTenOneMessage.SettleConfirm
    (TenTenOneSettleConfirm.mk (H := demo_messages) OrderReason.Expired (2 ^ 20) Byte.x2b).
Definition demo_rollover_due (due_date : Z) : TenTenOneMessage.t (H := demo_decimal) (H0 := demo_id) :=
  TenTenOneMessage.RolloverOffer (TenTenOneRolloverOffer.mk (H := demo_decimal) (H0 := demo_messages) Byte.x2c
    [MessageFundingFeeEvent.mk (H := demo_decimal) due_date (1 # 2)%Q 50000%Q (-40)]).

Example wire_message_roundtrip_witness :
  (exists b, encode_message demo_confirm = Some b /\
    read_wire_message (type_id demo_confirm) (b ++ [Byte.x00]) = Ok (Some (WireMessage.Message demo_confirm))) /\
  (exists b, encode_message (demo_rollover_due 1500000000) = Some b /\
    read_wire_message (type_id (demo_rollover_due 1500000000)) (b ++ [Byte.x00])
      = Ok (Some (WireMessage.Message (demo_rollover_due 1000000000)))).
Proof.
  split.
  - destruct (encode_message demo_confirm) as [b|] eqn:Hb; [|discriminate Hb].
    exists b. split; [reflexivity|]. by rewrite wire_message_roundtrip.
  - destruct (encode_message (demo_rollover_due 1500000000)) as [b|] eqn:Hb; [|discriminate Hb].
    exists b. split; [reflexivity|]. rewrite wire_message_roundtrip; [reflexivity| |done].
    constructor; [|constructor]. split; [|reflexivity]. cbv [is_datetime]. vm_compute. by split.
Defined.

Definition wire_alice : PublicKey (IdLib := demo_id) := "alice"%string.
Definition wire_bob : PublicKey (IdLib := demo_id) := "bob"%string.
Definition wire_carol : PublicKey (IdLib := demo_id) := "carol"%string.

(** Alice queues both messages for Bob, the first one in segments.  They arrive
    with a message of Carol after the first segments, at a node that was waiting
    for the end of an older message of Alice. *)
Definition demo_sent : MessageHandler.t :=
  (for_each (send_message wire_bob) [demo_large; demo_small] handler_new).2.
Definition demo_wires : list WireMessage.t := map snd (MessageHandler.msg_events demo_sent).
Definition demo_arriving : list (PublicKey * WireMessage.t) :=
  map (pair wire_alice) (take 3 demo_wires) ++ [(wire_carol, WireMessage.Message demo_small)]
    ++ map (pair wire_alice) (drop 3 demo_wires).
Definition demo_waiting : MessageHandler.t :=
  set_reader wire_alice (Some (7%nat, [])) handler_new.

Lemma ok_run {S E} (x : outcome E unit * S) : is_ok x.1 = true -> x = (Ok tt, x.2).
Proof. destruct x as [[[]|e|] s]; try discriminate. done. Qed.

Lemma from_peer_pairs (p : PublicKey) {A} (l : list A) : from_peer p (map (pair p) l) = l.
Proof.
  induction l as [|a l IH]; [done|]. unfold from_peer in *. cbn [map List.filter fst].
  case_bool_decide; [|done]. cbn [map snd]. by rewrite IH.
Qed.

Lemma carried_refl (w : WireMessage.t (H := demo_decimal) (H0 := demo_id)) :
  wire_in_range w -> reread_wire w = Ok w ->
  match encode_wire_message w with Some _ => true | None => false end = true -> carried w w.
Proof.
  intros Hw Hr Hb. destruct (encode_wire_message w) as [b|] eqn:He; [|discriminate Hb].
  exists b. split; [done|]. rewrite <-(app_nil_r b). destruct w as [m|st|c]; cbn [wire_type_id].
  - rewrite read_wire_type, message_codec_reads by done. cbn in Hr. by destruct (reread_message m); simplify_eq/=.
  - unfold read_wire_message. rewrite Z.eqb_refl, (segment_start_ok st b []) by done. done.
  - unfold read_wire_message. change (SEGMENT_CHUNK_TYPE =? SEGMENT_START_TYPE) with false.
    by rewrite Z.eqb_refl, (segment_chunk_ok c b []).
Qed.

Lemma demo_carried : Forall2 carried demo_wires (from_peer wire_alice demo_arriving).
Proof.
  unfold demo_arriving. rewrite !from_peer_app, !from_peer_pairs. change (from_peer _ [_]) with (@nil (WireMessage.t)).
  cbn [app]. rewrite take_drop. apply Forall_Forall2_diag, Forall_forall. intros w Hw.
  assert (Hall : forallb (fun w => match w with WireMessage.Message (TenTenOneMessage.Reject _) => true
    | WireMessage.Message _ => false | _ => true end
    && match encode_wire_message w with Some _ => true | None => false end) demo_wires = true) by reflexivity.
  rewrite forallb_forall in Hall. apply list_elem_of_In in Hw. apply Hall, andb_true_iff in Hw as [Hsafe Hb].
  apply carried_refl; [by destruct w as [[]| |]..|done].
Qed.

Example messages_arrive_in_order_witness :
  length (MessageHandler.msg_events demo_sent) = 50%nat /\
  exists receiver', handle_all demo_arriving demo_waiting = (Ok tt, receiver') /\
    from_peer wire_alice (MessageHandler.msg_received receiver') = [demo_large; demo_small].
Proof.
  split; [reflexivity|].
  destruct (messages_arrive_in_order wire_bob wire_alice [demo_large; demo_small] [demo_large; demo_small]
    handler_new demo_sent demo_waiting demo_arriving) as [Hall|(pre & org & w & post & s1 & s' & new & Hp & _)].
  - by repeat constructor.
  - by repeat constructor.
  - reflexivity.
  - unfold demo_sent. apply ok_run. reflexivity.
  - apply demo_carried.
  - exact Hall.
  - assert (Hok : is_ok (handle_all demo_arriving demo_waiting).1 = true) by reflexivity.
    rewrite Hp in Hok. discriminate Hok.
Defined.
