(* ===== verification/Sqlite.v ===== *)
(** * Statements of the app's SQLite database

    The statements [mobile/native/src/db] builds with Diesel: like those of Db.v,
    over any record of tables.  A table is the list of its rows in the order of
    insertion. *)

From stdpp Require Import base list option strings.
From Stdlib Require Import ZArith Lia.
From S2P Require Import Prelude External SqlTypes Schema Db.

#[local] Open Scope Z_scope.

(** Where the rows of type [R] are in a database [D]. *)
Class InDb (D R : Type) := {
  table : D -> list R;
  set_table : list R -> D -> D;
}.

Class InDbLaws (D R : Type) `{InDb D R} : Prop :=
  table_set l d : table (set_table (R := R) l d) = l.

(** What makes two rows conflict: the primary key, or another unique index. *)
Class Conflicts (R : Type) := conflicts : R -> R -> bool.

Section Statements.
Context {D R : Type} `{InDb D R}.

(** [table.filter(p).load(conn)], [.first(conn)]. *)
Definition s_load (p : R -> bool) : M D SqlError (list R) := gets (fun d => List.filter p (table d)).
Definition s_first (p : R -> bool) : M D SqlError R :=
  l ← s_load p; lift (ok_or NotFound (head l)).

(** [.optional()]. *)
Definition s_optional {A} (m : M D SqlError A) : M D SqlError (option A) := fun d =>
  match m d with
  | (Ok a, d') => (Ok (Some a), d')
  | (Err NotFound, d') => (Ok None, d')
  | (Err e, d') => (Err e, d')
  | (Panic, d') => (Panic, d')
  end.

(** [diesel::update(table.filter(p)).set(f).execute(conn)] and
    [diesel::delete(table.filter(p)).execute(conn)]: the number of rows. *)
Definition s_update (p : R -> bool) (f : R -> R) : M D SqlError nat := fun d =>
  (Ok (length (List.filter p (table d))), set_table (update_rows p f (table d)) d).
Definition s_delete (p : R -> bool) : M D SqlError nat := fun d =>
  (Ok (length (List.filter p (table d))), set_table (List.filter (fun r => negb (p r)) (table d)) d).

(** [insert_into(table).values(r).execute(conn)], plain, with
    [on_conflict(..).do_nothing()], and with [on_conflict(..).do_update().set(..)]
    where [upd] is applied to the row in the way. *)
Definition s_insert `{!Conflicts R} (r : R) : M D SqlError nat := fun d =>
  if existsb (conflicts r) (table d) then (Err UniqueViolation, d)
  else (Ok 1%nat, set_table (table d ++ [r]) d).
Definition s_insert_or_ignore `{!Conflicts R} (r : R) : M D SqlError nat := fun d =>
  if existsb (conflicts r) (table d) then (Ok 0%nat, d)
  else (Ok 1%nat, set_table (table d ++ [r]) d).
Definition s_upsert `{!Conflicts R} (r : R) (upd : R -> R) : M D SqlError nat := fun d =>
  if existsb (conflicts r) (table d) then
    (Ok 1%nat, set_table (update_rows (conflicts r) upd (table d)) d)
  else (Ok 1%nat, set_table (table d ++ [r]) d).

(** [insert_into(table).values(rows).execute(conn)]: one statement for all rows. *)
Fixpoint insertable `{!Conflicts R} (rows l : list R) : bool :=
  match rows with
  | [] => true
  | r :: rows => negb (existsb (conflicts r) l) && insertable rows (l ++ [r])
  end.
Definition s_insert_all `{!Conflicts R} (rows : list R) : M D SqlError nat := fun d =>
  if insertable rows (table d) then (Ok (length rows), set_table (table d ++ rows) d)
  else (Err UniqueViolation, d).
End Statements.

(** [conn.exclusive_transaction(|conn| m)]. *)
Definition exclusive_transaction {D E A} (m : M D E A) : M D E A := transaction (fun d _ => d) m.

(** [if affected_rows == 0 { bail!(..) }]. *)
Definition some_rows (text : string) (n : nat) : outcome Anyhow unit :=
  ensure (negb (Nat.eqb n 0)) (Msg text).

Section Lemmas.
Context {D R : Type} `{HL : InDbLaws D R}.

Lemma s_first_run (p : R -> bool) d :
  s_first p d = (ok_or NotFound (head (List.filter p (table d))), d).
Proof. done. Qed.

Lemma s_optional_first_run (p : R -> bool) d :
  s_optional (s_first p) d = (Ok (head (List.filter p (table d))), d).
Proof. unfold s_optional. rewrite s_first_run. by destruct (head _). Qed.

Lemma some_rows_ok {S} text n (d : S) u d' :
  lift (E := Anyhow) (some_rows text n) d = (Ok u, d') <-> (0 < n)%nat /\ d' = d.
Proof.
  rewrite lift_ok. unfold some_rows. rewrite ensure_ok, negb_true_iff, Nat.eqb_neq.
  split; intros [? ?]; (split; [lia|done]).
Qed.

(** An update of the rows of one key, of which there is one. *)
Lemma update_rows_unique (p : R -> bool) f l r : List.filter p l = [r] ->
  (forall x, p x = true -> p (f x) = true) -> List.filter p (update_rows p f l) = [f r].
Proof.
  intros Hl Hf. revert Hl. induction l as [|x l IH]; cbn; [done|]. destruct (p x) eqn:Hx.
  - intros [= <- Hl]. rewrite (Hf x Hx). f_equal.
    rewrite <-Hl. unfold update_rows. clear IH. revert Hl. induction l as [|y l IHl]; cbn; [done|].
    destruct (p y) eqn:Hy; [done|]. rewrite Hy. done.
  - rewrite Hx. apply IH.
Qed.
End Lemmas.

Lemma exclusive_transaction_ok {D E A} (m : M D E A) d a d' :
  exclusive_transaction m d = (Ok a, d') <-> m d = (Ok a, d').
Proof. unfold exclusive_transaction, transaction. destruct (m d) as [[] ?]; naive_solver. Qed.

(** A transaction that fails changes nothing. *)
Lemma exclusive_transaction_atomic {D E A} (m : M D E A) d r d' :
  exclusive_transaction m d = (r, d') -> is_ok r = false -> d' = d.
Proof. unfold exclusive_transaction, transaction. destruct (m d) as [[] ?]; naive_solver. Qed.
