(* ===== verification/AppSql.v ===== *)
(** * [mobile/native/src/db/custom_types.rs]: the app's enums as SQLite text

    The enums of [db/models.rs] and [db/dlc_messages.rs] with the text they are
    stored as, and their conversions from and to the types of [trade].  A reason
    of failure is stored as JSON. *)

From stdpp Require Import base list option strings.
From S2P Require Import Prelude Machine External Commons AppData SqlTypes Messages.

#[local] Open Scope string_scope.

(** [ContractSymbol]. *)
Module AppDbContractSymbol.
Inductive t := BtcUsd.
#[global] Instance eq_dec : EqDecision t.
Proof. solve_decision. Defined.

Definition write (v : t) : string :=
  match v with
  | BtcUsd => "BtcUsd"
  end.

Definition read (s : string) : outcome string t :=
  if bool_decide (s = "BtcUsd") then Ok BtcUsd
  else Err "Unrecognized enum variant".

#[global] Instance sql : SqlEnum t := {| to_sql := write; from_sql := read |}.
End AppDbContractSymbol.

(** [Direction]. *)
Module AppDbDirection.
Inductive t := Long | Short.
#[global] Instance eq_dec : EqDecision t.
Proof. solve_decision. Defined.

Definition write (v : t) : string :=
  match v with
  | Long => "Long"
  | Short => "Short"
  end.

Definition read (s : string) : outcome string t :=
  if bool_decide (s = "Long") then Ok Long
  else if bool_decide (s = "Short") then Ok Short
  else Err "Unrecognized enum variant".

#[global] Instance sql : SqlEnum t := {| to_sql := write; from_sql := read |}.
End AppDbDirection.

(** [OrderType]. *)
Module AppDbOrderType.
Inductive t := Market | Limit.
#[global] Instance eq_dec : EqDecision t.
Proof. solve_decision. Defined.

Definition write (v : t) : string :=
  match v with
  | Market => "market"
  | Limit => "limit"
  end.

Definition read (s : string) : outcome string t :=
  if bool_decide (s = "market") then Ok Market
  else if bool_decide (s = "limit") then Ok Limit
  else Err "Unrecognized enum variant".

#[global] Instance sql : SqlEnum t := {| to_sql := write; from_sql := read |}.
End AppDbOrderType.

(** [OrderReason]. *)
Module AppDbOrderReason.
Inductive t := Manual | Expired | CoordinatorLiquidated | TraderLiquidated.
#[global] Instance eq_dec : EqDecision t.
Proof. solve_decision. Defined.

Definition write (v : t) : string :=
  match v with
  | Manual => "Manual"
  | Expired => "Expired"
  | CoordinatorLiquidated => "CoordinatorLiquidated"
  | TraderLiquidated => "TraderLiquidated"
  end.

Definition read (s : string) : outcome string t :=
  if bool_decide (s = "Manual") then Ok Manual
  else if bool_decide (s = "Expired") then Ok Expired
  else if bool_decide (s = "CoordinatorLiquidated") then Ok CoordinatorLiquidated
  else if bool_decide (s = "TraderLiquidated") then Ok TraderLiquidated
  else Err "Unrecognized enum variant".

#[global] Instance sql : SqlEnum t := {| to_sql := write; from_sql := read |}.
End AppDbOrderReason.

(** [OrderState]. *)
Module AppDbOrderState.
Inductive t := Initial | Rejected | Open | Failed | Filled | Filling.
#[global] Instance eq_dec : EqDecision t.
Proof. solve_decision. Defined.

Definition write (v : t) : string :=
  match v with
  | Initial => "initial"
  | Rejected => "rejected"
  | Open => "open"
  | Failed => "failed"
  | Filled => "filled"
  | Filling => "filling"
  end.

Definition read (s : string) : outcome string t :=
  if bool_decide (s = "initial") then Ok Initial
  else if bool_decide (s = "rejected") then Ok Rejected
  else if bool_decide (s = "open") then Ok Open
  else if bool_decide (s = "failed") then Ok Failed
  else if bool_decide (s = "filled") then Ok Filled
  else if bool_decide (s = "filling") then Ok Filling
  else Err "Unrecognized enum variant".

#[global] Instance sql : SqlEnum t := {| to_sql := write; from_sql := read |}.
End AppDbOrderState.

(** [PositionState]. *)
Module AppDbPositionState.
Inductive t := Open | Closing | Rollover | Resizing.
#[global] Instance eq_dec : EqDecision t.
Proof. solve_decision. Defined.

Definition write (v : t) : string :=
  match v with
  | Open => "Open"
  | Closing => "Closing"
  | Rollover => "Rollover"
  | Resizing => "Resizing"
  end.

Definition read (s : string) : outcome string t :=
  if bool_decide (s = "Open") then Ok Open
  else if bool_decide (s = "Closing") then Ok Closing
  else if bool_decide (s = "Rollover") then Ok Rollover
  else if bool_decide (s = "Resizing") then Ok Resizing
  else Err "Unrecognized enum variant".

#[global] Instance sql : SqlEnum t := {| to_sql := write; from_sql := read |}.
End AppDbPositionState.

(** [Flow]. *)
Module AppDbFlow.
Inductive t := Inbound | Outbound.
#[global] Instance eq_dec : EqDecision t.
Proof. solve_decision. Defined.

Definition write (v : t) : string :=
  match v with
  | Inbound => "Inbound"
  | Outbound => "Outbound"
  end.

Definition read (s : string) : outcome string t :=
  if bool_decide (s = "Inbound") then Ok Inbound
  else if bool_decide (s = "Outbound") then Ok Outbound
  else Err "Unrecognized enum variant".

#[global] Instance sql : SqlEnum t := {| to_sql := write; from_sql := read |}.
End AppDbFlow.

(** [ChannelState]. *)
Module AppDbChannelState.
Inductive t := Announced | Pending | OpenUnpaid | Open | Closed | ForceClosedRemote | ForceClosedLocal.
#[global] Instance eq_dec : EqDecision t.
Proof. solve_decision. Defined.

Definition write (v : t) : string :=
  match v with
  | Announced => "Announced"
  | Pending => "Pending"
  | OpenUnpaid => "OpenUnpaid"
  | Open => "Open"
  | Closed => "Closed"
  | ForceClosedRemote => "ForceClosedRemote"
  | ForceClosedLocal => "ForceClosedLocal"
  end.

Definition read (s : string) : outcome string t :=
  if bool_decide (s = "Announced") then Ok Announced
  else if bool_decide (s = "Pending") then Ok Pending
  else if bool_decide (s = "OpenUnpaid") then Ok OpenUnpaid
  else if bool_decide (s = "Open") then Ok Open
  else if bool_decide (s = "Closed") then Ok Closed
  else if bool_decide (s = "ForceClosedRemote") then Ok ForceClosedRemote
  else if bool_decide (s = "ForceClosedLocal") then Ok ForceClosedLocal
  else Err "Unrecognized enum variant".

#[global] Instance sql : SqlEnum t := {| to_sql := write; from_sql := read |}.
End AppDbChannelState.

(** [MessageType]. *)
Module AppDbMessageType.
Inductive t := Offer | Accept | Sign | SettleOffer | SettleAccept | SettleConfirm | SettleFinalize | RenewOffer | RenewAccept | RenewConfirm | RenewFinalize | RenewRevoke | RolloverOffer | RolloverAccept | RolloverConfirm | RolloverFinalize | RolloverRevoke | CollaborativeCloseOffer | Reject.
#[global] Instance eq_dec : EqDecision t.
Proof. solve_decision. Defined.

Definition write (v : t) : string :=
  match v with
  | Offer => "Offer"
  | Accept => "Accept"
  | Sign => "Sign"
  | SettleOffer => "SettleOffer"
  | SettleAccept => "SettleAccept"
  | SettleConfirm => "SettleConfirm"
  | SettleFinalize => "SettleFinalize"
  | RenewOffer => "RenewOffer"
  | RenewAccept => "RenewAccept"
  | RenewConfirm => "RenewConfirm"
  | RenewFinalize => "RenewFinalize"
  | RenewRevoke => "RenewRevoke"
  | RolloverOffer => "RolloverOffer"
  | RolloverAccept => "RolloverAccept"
  | RolloverConfirm => "RolloverConfirm"
  | RolloverFinalize => "RolloverFinalize"
  | RolloverRevoke => "RolloverRevoke"
  | CollaborativeCloseOffer => "CollaborativeCloseOffer"
  | Reject => "Reject"
  end.

Definition read (s : string) : outcome string t :=
  if bool_decide (s = "Offer") then Ok Offer
  else if bool_decide (s = "Accept") then Ok Accept
  else if bool_decide (s = "Sign") then Ok Sign
  else if bool_decide (s = "SettleOffer") then Ok SettleOffer
  else if bool_decide (s = "SettleAccept") then Ok SettleAccept
  else if bool_decide (s = "SettleConfirm") then Ok SettleConfirm
  else if bool_decide (s = "SettleFinalize") then Ok SettleFinalize
  else if bool_decide (s = "RenewOffer") then Ok RenewOffer
  else if bool_decide (s = "RenewAccept") then Ok RenewAccept
  else if bool_decide (s = "RenewConfirm") then Ok RenewConfirm
  else if bool_decide (s = "RenewFinalize") then Ok RenewFinalize
  else if bool_decide (s = "RenewRevoke") then Ok RenewRevoke
  else if bool_decide (s = "RolloverOffer") then Ok RolloverOffer
  else if bool_decide (s = "RolloverAccept") then Ok RolloverAccept
  else if bool_decide (s = "RolloverConfirm") then Ok RolloverConfirm
  else if bool_decide (s = "RolloverFinalize") then Ok RolloverFinalize
  else if bool_decide (s = "RolloverRevoke") then Ok RolloverRevoke
  else if bool_decide (s = "CollaborativeCloseOffer") then Ok CollaborativeCloseOffer
  else if bool_decide (s = "Reject") then Ok Reject
  else Err "Unrecognized enum variant".

#[global] Instance sql : SqlEnum t := {| to_sql := write; from_sql := read |}.
End AppDbMessageType.

(** ** Conversions: the [From] impls of [db/models.rs] and [db/dlc_messages.rs] *)

Definition app_db_contract_symbol_from (value : ContractSymbol) : AppDbContractSymbol.t :=
  match value with
  | BtcUsd => AppDbContractSymbol.BtcUsd
  end.
Definition app_contract_symbol_from (value : AppDbContractSymbol.t) : ContractSymbol :=
  match value with
  | AppDbContractSymbol.BtcUsd => BtcUsd
  end.
Definition app_db_direction_from (value : Direction) : AppDbDirection.t :=
  match value with
  | Long => AppDbDirection.Long
  | Short => AppDbDirection.Short
  end.
Definition app_direction_from (value : AppDbDirection.t) : Direction :=
  match value with
  | AppDbDirection.Long => Long
  | AppDbDirection.Short => Short
  end.
Definition app_db_order_reason_from (value : AppOrderReason.t) : AppDbOrderReason.t :=
  match value with
  | AppOrderReason.Manual => AppDbOrderReason.Manual
  | AppOrderReason.Expired => AppDbOrderReason.Expired
  | AppOrderReason.CoordinatorLiquidated => AppDbOrderReason.CoordinatorLiquidated
  | AppOrderReason.TraderLiquidated => AppDbOrderReason.TraderLiquidated
  end.
Definition app_order_reason_from (value : AppDbOrderReason.t) : AppOrderReason.t :=
  match value with
  | AppDbOrderReason.Manual => AppOrderReason.Manual
  | AppDbOrderReason.Expired => AppOrderReason.Expired
  | AppDbOrderReason.CoordinatorLiquidated => AppOrderReason.CoordinatorLiquidated
  | AppDbOrderReason.TraderLiquidated => AppOrderReason.TraderLiquidated
  end.
Definition app_db_position_state_from (value : AppPositionState.t) : AppDbPositionState.t :=
  match value with
  | AppPositionState.Open => AppDbPositionState.Open
  | AppPositionState.Closing => AppDbPositionState.Closing
  | AppPositionState.Rollover => AppDbPositionState.Rollover
  | AppPositionState.Resizing => AppDbPositionState.Resizing
  end.
Definition app_position_state_from (value : AppDbPositionState.t) : AppPositionState.t :=
  match value with
  | AppDbPositionState.Open => AppPositionState.Open
  | AppDbPositionState.Closing => AppPositionState.Closing
  | AppDbPositionState.Rollover => AppPositionState.Rollover
  | AppDbPositionState.Resizing => AppPositionState.Resizing
  end.
Definition app_db_message_type_from (value : DlcMessageType.t) : AppDbMessageType.t :=
  match value with
  | DlcMessageType.Offer => AppDbMessageType.Offer
  | DlcMessageType.Accept => AppDbMessageType.Accept
  | DlcMessageType.Sign => AppDbMessageType.Sign
  | DlcMessageType.SettleOffer => AppDbMessageType.SettleOffer
  | DlcMessageType.SettleAccept => AppDbMessageType.SettleAccept
  | DlcMessageType.SettleConfirm => AppDbMessageType.SettleConfirm
  | DlcMessageType.SettleFinalize => AppDbMessageType.SettleFinalize
  | DlcMessageType.RenewOffer => AppDbMessageType.RenewOffer
  | DlcMessageType.RenewAccept => AppDbMessageType.RenewAccept
  | DlcMessageType.RenewConfirm => AppDbMessageType.RenewConfirm
  | DlcMessageType.RenewFinalize => AppDbMessageType.RenewFinalize
  | DlcMessageType.RenewRevoke => AppDbMessageType.RenewRevoke
  | DlcMessageType.RolloverOffer => AppDbMessageType.RolloverOffer
  | DlcMessageType.RolloverAccept => AppDbMessageType.RolloverAccept
  | DlcMessageType.RolloverConfirm => AppDbMessageType.RolloverConfirm
  | DlcMessageType.RolloverFinalize => AppDbMessageType.RolloverFinalize
  | DlcMessageType.RolloverRevoke => AppDbMessageType.RolloverRevoke
  | DlcMessageType.CollaborativeCloseOffer => AppDbMessageType.CollaborativeCloseOffer
  | DlcMessageType.Reject => AppDbMessageType.Reject
  end.
Definition app_message_type_from (value : AppDbMessageType.t) : DlcMessageType.t :=
  match value with
  | AppDbMessageType.Offer => DlcMessageType.Offer
  | AppDbMessageType.Accept => DlcMessageType.Accept
  | AppDbMessageType.Sign => DlcMessageType.Sign
  | AppDbMessageType.SettleOffer => DlcMessageType.SettleOffer
  | AppDbMessageType.SettleAccept => DlcMessageType.SettleAccept
  | AppDbMessageType.SettleConfirm => DlcMessageType.SettleConfirm
  | AppDbMessageType.SettleFinalize => DlcMessageType.SettleFinalize
  | AppDbMessageType.RenewOffer => DlcMessageType.RenewOffer
  | AppDbMessageType.RenewAccept => DlcMessageType.RenewAccept
  | AppDbMessageType.RenewConfirm => DlcMessageType.RenewConfirm
  | AppDbMessageType.RenewFinalize => DlcMessageType.RenewFinalize
  | AppDbMessageType.RenewRevoke => DlcMessageType.RenewRevoke
  | AppDbMessageType.RolloverOffer => DlcMessageType.RolloverOffer
  | AppDbMessageType.RolloverAccept => DlcMessageType.RolloverAccept
  | AppDbMessageType.RolloverConfirm => DlcMessageType.RolloverConfirm
  | AppDbMessageType.RolloverFinalize => DlcMessageType.RolloverFinalize
  | AppDbMessageType.RolloverRevoke => DlcMessageType.RolloverRevoke
  | AppDbMessageType.CollaborativeCloseOffer => DlcMessageType.CollaborativeCloseOffer
  | AppDbMessageType.Reject => DlcMessageType.Reject
  end.

(** [db/mod.rs: impl From<trade::order::OrderState> for OrderState]. *)
Definition app_db_order_state_from (value : AppOrderState.t) : AppDbOrderState.t :=
  match value with
  | AppOrderState.Initial => AppDbOrderState.Initial
  | AppOrderState.Rejected => AppDbOrderState.Rejected
  | AppOrderState.Open => AppDbOrderState.Open
  | AppOrderState.Filling _ _ => AppDbOrderState.Filling
  | AppOrderState.Failed _ _ _ => AppDbOrderState.Failed
  | AppOrderState.Filled _ _ => AppDbOrderState.Filled
  end.

(** [impl From<OrderType> for (OrderType, Option<f32>)] and back. *)
Definition app_db_order_type_from (value : AppOrderType.t) : AppDbOrderType.t * option f32 :=
  match value with
  | AppOrderType.Market => (AppDbOrderType.Market, None)
  | AppOrderType.Limit price => (AppDbOrderType.Limit, Some price)
  end.

(** [db::models::Error]. *)
Inductive AppModelError :=
  InvalidId | MissingPriceForLimitOrder | MissingExecutionPrice | MissingMatchingFee.

Definition app_order_type_try_from (value : AppDbOrderType.t * option f32)
    : outcome AppModelError AppOrderType.t :=
  match value.1 with
  | AppDbOrderType.Market => Ok AppOrderType.Market
  | AppDbOrderType.Limit =>
    match value.2 with
    | None => Err MissingPriceForLimitOrder
    | Some price => Ok (AppOrderType.Limit price)
    end
  end.

(** [db::models::FailureReason], flat where the app's has [InvalidDlcOffer]. *)
Module AppDbFailureReason.
Inductive t :=
  | FailedToSetToFilling
  | TradeRequest
  | TradeResponse (details : string)
  | CollabRevert
  | OrderNotAcceptable
  | TimedOut
  | SubchannelOfferOutdated
  | SubchannelOfferDateUndetermined
  | SubchannelOfferUnacceptable
  | OrderRejected (reason : string)
  | Unknown.
#[global] Instance eq_dec : EqDecision t.
Proof. solve_decision. Defined.

(** [#[default]]. *)
Definition default : t := Unknown.
End AppDbFailureReason.

Definition app_failure_reason_from (value : AppDbFailureReason.t) : FailureReason :=
  match value with
  | AppDbFailureReason.TradeRequest => TradeRequest
  | AppDbFailureReason.TradeResponse details => TradeResponse details
  | AppDbFailureReason.CollabRevert => CollabRevert
  | AppDbFailureReason.FailedToSetToFilling => FailedToSetToFilling
  | AppDbFailureReason.OrderNotAcceptable => OrderNotAcceptable
  | AppDbFailureReason.TimedOut => TimedOut
  | AppDbFailureReason.SubchannelOfferOutdated => InvalidDlcOffer Outdated
  | AppDbFailureReason.SubchannelOfferDateUndetermined => InvalidDlcOffer UndeterminedMaturityDate
  | AppDbFailureReason.SubchannelOfferUnacceptable => InvalidDlcOffer Unacceptable
  | AppDbFailureReason.OrderRejected reason => OrderRejected reason
  | AppDbFailureReason.Unknown => Unknown
  end.
Definition app_db_failure_reason_from (value : FailureReason) : AppDbFailureReason.t :=
  match value with
  | TradeRequest => AppDbFailureReason.TradeRequest
  | TradeResponse details => AppDbFailureReason.TradeResponse details
  | CollabRevert => AppDbFailureReason.CollabRevert
  | FailedToSetToFilling => AppDbFailureReason.FailedToSetToFilling
  | OrderNotAcceptable => AppDbFailureReason.OrderNotAcceptable
  | TimedOut => AppDbFailureReason.TimedOut
  | InvalidDlcOffer reason =>
    match reason with
    | Outdated => AppDbFailureReason.SubchannelOfferOutdated
    | UndeterminedMaturityDate => AppDbFailureReason.SubchannelOfferDateUndetermined
    | Unacceptable => AppDbFailureReason.SubchannelOfferUnacceptable
    end
  | OrderRejected reason => AppDbFailureReason.OrderRejected reason
  | Unknown => AppDbFailureReason.Unknown
  end.

(** A reason is a JSON text; a text that does not parse reads as [Unknown]. *)
Section FailureReasonText.
Context `{JL : JsonLib AppDbFailureReason.t}.

Definition failure_reason_to_sql (v : AppDbFailureReason.t) : outcome string string :=
  ok_or "serde_json" (json_to_string v).
Definition failure_reason_from_sql (s : string) : outcome string AppDbFailureReason.t :=
  match json_from_str s with
  | Some reason => Ok reason
  | None => Ok AppDbFailureReason.Unknown
  end.
End FailureReasonText.

(** [(OrderState, Option<f32>, Option<FailureReason>)] of an order's state. *)
Definition app_db_order_state_parts (value : AppOrderState.t)
    : AppDbOrderState.t * option f32 * option AppDbFailureReason.t :=
  match value with
  | AppOrderState.Initial => (AppDbOrderState.Initial, None, None)
  | AppOrderState.Rejected => (AppDbOrderState.Rejected, None, None)
  | AppOrderState.Open => (AppDbOrderState.Open, None, None)
  | AppOrderState.Failed execution_price _ reason =>
    (AppDbOrderState.Failed, execution_price, Some (app_db_failure_reason_from reason))
  | AppOrderState.Filled execution_price _ => (AppDbOrderState.Filled, Some execution_price, None)
  | AppOrderState.Filling execution_price _ => (AppDbOrderState.Filling, Some execution_price, None)
  end.

(** ** Reading inverts writing *)

(** For each of the nine enum types of the app's schema, [FromSql] accepts
    exactly the labels [ToSql] writes. *)
Lemma app_sql_enums_roundtrip :
  sql_enum_iso AppDbContractSymbol.t /\ sql_enum_iso AppDbDirection.t /\
  sql_enum_iso AppDbOrderType.t /\ sql_enum_iso AppDbOrderReason.t /\
  sql_enum_iso AppDbOrderState.t /\ sql_enum_iso AppDbPositionState.t /\
  sql_enum_iso AppDbFlow.t /\ sql_enum_iso AppDbChannelState.t /\ sql_enum_iso AppDbMessageType.t.
Proof. split_and!; solve_sql_iso. Qed.

(** The conversions between the app's types and those of the database. *)
Lemma app_contract_symbol_roundtrip v : app_contract_symbol_from (app_db_contract_symbol_from v) = v.
Proof. by destruct v. Qed.
Lemma app_direction_roundtrip v : app_direction_from (app_db_direction_from v) = v.
Proof. by destruct v. Qed.
Lemma app_order_reason_roundtrip v : app_order_reason_from (app_db_order_reason_from v) = v.
Proof. by destruct v. Qed.
Lemma app_position_state_roundtrip v : app_position_state_from (app_db_position_state_from v) = v.
Proof. by destruct v. Qed.
Lemma app_message_type_roundtrip v : app_message_type_from (app_db_message_type_from v) = v.
Proof. by destruct v. Qed.
Lemma app_failure_reason_roundtrip v : app_failure_reason_from (app_db_failure_reason_from v) = v.
Proof. by destruct v as [| | | | | |[]| |]. Qed.
Lemma app_order_type_roundtrip v : app_order_type_try_from (app_db_order_type_from v) = Ok v.
Proof. by destruct v. Qed.
Hint Rewrite app_contract_symbol_roundtrip app_direction_roundtrip app_order_reason_roundtrip
  app_position_state_roundtrip app_message_type_roundtrip app_failure_reason_roundtrip
  app_order_type_roundtrip : db_enum.
