(* ===== verification/AppDb.v ===== *)
(** * [mobile/native/src/db]: the app's database

    The rows of [db/models.rs] and of the modules beside it, their conversions from
    and to the types of [trade], and one function per query; then the functions of
    [db/mod.rs] the handlers call.  Opening, migrating and backing up the database
    file are left out. *)

From stdpp Require Import base list option strings.
From Stdlib Require Import ZArith QArith Lia.
From S2P Require Import Prelude Machine External Demo Commons Sorting AppData SqlTypes Schema Db.
From S2P Require Import AppApply Messages Sqlite AppSql.

#[local] Open Scope Z_scope.

(** ** Rows *)

Module AppOrderRow.
Record t := mk {
  id : string;
  leverage : f32;
  quantity : f32;
  contract_symbol : AppDbContractSymbol.t;
  direction : AppDbDirection.t;
  order_type : AppDbOrderType.t;
  state : AppDbOrderState.t;
  creation_timestamp : Z;
  limit_price : option f32;
  execution_price : option f32;
  failure_reason : option AppDbFailureReason.t;
  order_expiry_timestamp : Z;
  reason : AppDbOrderReason.t;
  stable : bool;
  matching_fee_sats : option Z;
}.
End AppOrderRow.

Module AppPositionRow.
Record t := mk {
  contract_symbol : AppDbContractSymbol.t;
  leverage : f32;
  quantity : f32;
  direction : AppDbDirection.t;
  average_entry_price : f32;
  liquidation_price : f32;
  state : AppDbPositionState.t;
  collateral : Z;
  creation_timestamp : Z;
  expiry_timestamp : Z;
  updated_timestamp : Z;
  stable : bool;
  order_matching_fees : Z;
}.
End AppPositionRow.

(** [NewTrade]; the id of the table is never read. *)
Module AppTradeRow.
Record t := mk {
  order_id : string;
  contract_symbol : AppDbContractSymbol.t;
  contracts : f32;
  direction : AppDbDirection.t;
  trade_cost_sat : Z;
  fee_sat : Z;
  pnl_sat : option Z;
  price : f32;
  timestamp : Z;
}.
End AppTradeRow.

(** [models/funding_fee_event.rs], without the id. *)
Module AppFundingFeeEventRow.
Record t := mk {
  contract_symbol : AppDbContractSymbol.t;
  contracts : f32;
  direction : AppDbDirection.t;
  price : f32;
  fee : Z;
  due_date : Z;
  paid_date : option Z;
}.
End AppFundingFeeEventRow.

Module AppTransactionRow.
Record t := mk { txid : string; fee : Z; created_at : Z; updated_at : Z; raw : string }.
End AppTransactionRow.

Module SpendableOutputRow.
Record t := mk { outpoint : string; descriptor : string }.
End SpendableOutputRow.

Module AppChannelRow.
Record t := mk {
  user_channel_id : string;
  channel_id : option string;
  inbound : Z;
  outbound : Z;
  funding_txid : option string;
  channel_state : AppDbChannelState.t;
  counterparty_pubkey : string;
  created_at : Z;
  updated_at : Z;
  liquidity_option_id : option Z;
  fee_sats : option Z;
  open_channel_payment_hash : option string;
}.
End AppChannelRow.

(** [polls.rs], without the id. *)
Module AnsweredPollRow.
Record t := mk { poll_id : Z; timestamp : Z }.
End AnsweredPollRow.

Module AppDlcMessageRow.
Record t := mk {
  message_hash : string;
  inbound : bool;
  peer_id : string;
  message_type : AppDbMessageType.t;
  timestamp : Z;
}.
End AppDlcMessageRow.

Module AppLastOutboundRow.
Record t := mk { peer_id : string; message_hash : string; message : string; timestamp : Z }.
End AppLastOutboundRow.

Module AppDb.
Record t := mk {
  orders : list AppOrderRow.t;
  positions : list AppPositionRow.t;
  trades : list AppTradeRow.t;
  funding_fee_events : list AppFundingFeeEventRow.t;
  transactions : list AppTransactionRow.t;
  spendable_outputs : list SpendableOutputRow.t;
  channels : list AppChannelRow.t;
  answered_polls : list AnsweredPollRow.t;
  dlc_messages : list AppDlcMessageRow.t;
  last_outbound_dlc_messages : list AppLastOutboundRow.t;
}.
Definition empty : t := mk [] [] [] [] [] [] [] [] [] [].
End AppDb.

#[export] Instance app_orders_in_db : InDb AppDb.t AppOrderRow.t := {|
  table := AppDb.orders;
  set_table l d := AppDb.mk l (AppDb.positions d) (AppDb.trades d) (AppDb.funding_fee_events d) (AppDb.transactions d) (AppDb.spendable_outputs d) (AppDb.channels d) (AppDb.answered_polls d) (AppDb.dlc_messages d) (AppDb.last_outbound_dlc_messages d) |}.
#[export] Instance app_orders_laws : InDbLaws AppDb.t AppOrderRow.t.
Proof. by intros l []. Qed.
#[export] Instance app_positions_in_db : InDb AppDb.t AppPositionRow.t := {|
  table := AppDb.positions;
  set_table l d := AppDb.mk (AppDb.orders d) l (AppDb.trades d) (AppDb.funding_fee_events d) (AppDb.transactions d) (AppDb.spendable_outputs d) (AppDb.channels d) (AppDb.answered_polls d) (AppDb.dlc_messages d) (AppDb.last_outbound_dlc_messages d) |}.
#[export] Instance app_positions_laws : InDbLaws AppDb.t AppPositionRow.t.
Proof. by intros l []. Qed.
#[export] Instance app_trades_in_db : InDb AppDb.t AppTradeRow.t := {|
  table := AppDb.trades;
  set_table l d := AppDb.mk (AppDb.orders d) (AppDb.positions d) l (AppDb.funding_fee_events d) (AppDb.transactions d) (AppDb.spendable_outputs d) (AppDb.channels d) (AppDb.answered_polls d) (AppDb.dlc_messages d) (AppDb.last_outbound_dlc_messages d) |}.
#[export] Instance app_trades_laws : InDbLaws AppDb.t AppTradeRow.t.
Proof. by intros l []. Qed.
#[export] Instance app_funding_fee_events_in_db : InDb AppDb.t AppFundingFeeEventRow.t := {|
  table := AppDb.funding_fee_events;
  set_table l d := AppDb.mk (AppDb.orders d) (AppDb.positions d) (AppDb.trades d) l (AppDb.transactions d) (AppDb.spendable_outputs d) (AppDb.channels d) (AppDb.answered_polls d) (AppDb.dlc_messages d) (AppDb.last_outbound_dlc_messages d) |}.
#[export] Instance app_funding_fee_events_laws : InDbLaws AppDb.t AppFundingFeeEventRow.t.
Proof. by intros l []. Qed.
#[export] Instance app_transactions_in_db : InDb AppDb.t AppTransactionRow.t := {|
  table := AppDb.transactions;
  set_table l d := AppDb.mk (AppDb.orders d) (AppDb.positions d) (AppDb.trades d) (AppDb.funding_fee_events d) l (AppDb.spendable_outputs d) (AppDb.channels d) (AppDb.answered_polls d) (AppDb.dlc_messages d) (AppDb.last_outbound_dlc_messages d) |}.
#[export] Instance app_transactions_laws : InDbLaws AppDb.t AppTransactionRow.t.
Proof. by intros l []. Qed.
#[export] Instance app_spendable_outputs_in_db : InDb AppDb.t SpendableOutputRow.t := {|
  table := AppDb.spendable_outputs;
  set_table l d := AppDb.mk (AppDb.orders d) (AppDb.positions d) (AppDb.trades d) (AppDb.funding_fee_events d) (AppDb.transactions d) l (AppDb.channels d) (AppDb.answered_polls d) (AppDb.dlc_messages d) (AppDb.last_outbound_dlc_messages d) |}.
#[export] Instance app_spendable_outputs_laws : InDbLaws AppDb.t SpendableOutputRow.t.
Proof. by intros l []. Qed.
#[export] Instance app_channels_in_db : InDb AppDb.t AppChannelRow.t := {|
  table := AppDb.channels;
  set_table l d := AppDb.mk (AppDb.orders d) (AppDb.positions d) (AppDb.trades d) (AppDb.funding_fee_events d) (AppDb.transactions d) (AppDb.spendable_outputs d) l (AppDb.answered_polls d) (AppDb.dlc_messages d) (AppDb.last_outbound_dlc_messages d) |}.
#[export] Instance app_channels_laws : InDbLaws AppDb.t AppChannelRow.t.
Proof. by intros l []. Qed.
#[export] Instance app_answered_polls_in_db : InDb AppDb.t AnsweredPollRow.t := {|
  table := AppDb.answered_polls;
  set_table l d := AppDb.mk (AppDb.orders d) (AppDb.positions d) (AppDb.trades d) (AppDb.funding_fee_events d) (AppDb.transactions d) (AppDb.spendable_outputs d) (AppDb.channels d) l (AppDb.dlc_messages d) (AppDb.last_outbound_dlc_messages d) |}.
#[export] Instance app_answered_polls_laws : InDbLaws AppDb.t AnsweredPollRow.t.
Proof. by intros l []. Qed.
#[export] Instance app_dlc_messages_in_db : InDb AppDb.t AppDlcMessageRow.t := {|
  table := AppDb.dlc_messages;
  set_table l d := AppDb.mk (AppDb.orders d) (AppDb.positions d) (AppDb.trades d) (AppDb.funding_fee_events d) (AppDb.transactions d) (AppDb.spendable_outputs d) (AppDb.channels d) (AppDb.answered_polls d) l (AppDb.last_outbound_dlc_messages d) |}.
#[export] Instance app_dlc_messages_laws : InDbLaws AppDb.t AppDlcMessageRow.t.
Proof. by intros l []. Qed.
#[export] Instance app_last_outbound_dlc_messages_in_db : InDb AppDb.t AppLastOutboundRow.t := {|
  table := AppDb.last_outbound_dlc_messages;
  set_table l d := AppDb.mk (AppDb.orders d) (AppDb.positions d) (AppDb.trades d) (AppDb.funding_fee_events d) (AppDb.transactions d) (AppDb.spendable_outputs d) (AppDb.channels d) (AppDb.answered_polls d) (AppDb.dlc_messages d) l |}.
#[export] Instance app_last_outbound_dlc_messages_laws : InDbLaws AppDb.t AppLastOutboundRow.t.
Proof. by intros l []. Qed.

(** The primary keys and unique indices. *)
#[export] Instance app_orders_key : Conflicts AppOrderRow.t := fun r r' =>
  bool_decide (AppOrderRow.id r = AppOrderRow.id r').
#[export] Instance app_positions_key : Conflicts AppPositionRow.t := fun r r' =>
  bool_decide (AppPositionRow.contract_symbol r = AppPositionRow.contract_symbol r').
#[export] Instance app_trades_key : Conflicts AppTradeRow.t := fun _ _ => false.
#[export] Instance app_funding_fee_events_key : Conflicts AppFundingFeeEventRow.t := fun r r' =>
  bool_decide (AppFundingFeeEventRow.contract_symbol r = AppFundingFeeEventRow.contract_symbol r')
  && (AppFundingFeeEventRow.due_date r =? AppFundingFeeEventRow.due_date r').
#[export] Instance app_transactions_key : Conflicts AppTransactionRow.t := fun r r' =>
  bool_decide (AppTransactionRow.txid r = AppTransactionRow.txid r').
#[export] Instance spendable_outputs_key : Conflicts SpendableOutputRow.t := fun r r' =>
  bool_decide (SpendableOutputRow.outpoint r = SpendableOutputRow.outpoint r').
#[export] Instance app_channels_key : Conflicts AppChannelRow.t := fun r r' =>
  bool_decide (AppChannelRow.user_channel_id r = AppChannelRow.user_channel_id r').
#[export] Instance answered_polls_key : Conflicts AnsweredPollRow.t := fun _ _ => false.
#[export] Instance app_dlc_messages_key : Conflicts AppDlcMessageRow.t := fun r r' =>
  bool_decide (AppDlcMessageRow.message_hash r = AppDlcMessageRow.message_hash r').
#[export] Instance app_last_outbound_key : Conflicts AppLastOutboundRow.t := fun r r' =>
  bool_decide (AppLastOutboundRow.peer_id r = AppLastOutboundRow.peer_id r').

(** ** Conversions *)

Section Conversions.
Context `{DL : DecimalLib} `{IL : IdLib}.

(** [impl From<trade::order::Order> for Order]. *)
Definition app_order_row (value : AppOrder.t) : AppOrderRow.t :=
  let '(order_type, limit_price) := app_db_order_type_from (AppOrder.order_type value) in
  let execution_price := order_execution_price value in
  let matching_fee := order_known_matching_fee value in
  let '(status, _, failure_reason) := app_db_order_state_parts (AppOrder.state value) in
  AppOrderRow.mk (uuid_to_string (AppOrder.id value)) (AppOrder.leverage value)
    (AppOrder.quantity value) (app_db_contract_symbol_from (AppOrder.contract_symbol value))
    (app_db_direction_from (AppOrder.direction value)) order_type status
    (unix_timestamp (AppOrder.creation_timestamp value)) limit_price execution_price failure_reason
    (unix_timestamp (AppOrder.order_expiry_timestamp value))
    (app_db_order_reason_from (AppOrder.reason value)) (AppOrder.stable value)
    (as_i64 <$> matching_fee).

(** [derive_order_state]. *)
Definition derive_order_state (order_state : AppDbOrderState.t) (execution_price : option f32)
    (matching_fee : option Z) (failure_reason : option AppDbFailureReason.t)
    : outcome AppModelError AppOrderState.t :=
  match order_state with
  | AppDbOrderState.Initial => Ok AppOrderState.Initial
  | AppDbOrderState.Rejected => Ok AppOrderState.Rejected
  | AppDbOrderState.Open => Ok AppOrderState.Open
  | AppDbOrderState.Filling =>
    match execution_price with
    | None => Err MissingExecutionPrice
    | Some execution_price =>
      Ok (AppOrderState.Filling execution_price (as_u64 (default 0 matching_fee)))
    end
  | AppDbOrderState.Failed =>
    Ok (AppOrderState.Failed execution_price (as_u64 <$> matching_fee)
          (app_failure_reason_from (default AppDbFailureReason.default failure_reason)))
  | AppDbOrderState.Filled =>
    match execution_price with
    | None => Err MissingExecutionPrice
    | Some execution_price =>
      match matching_fee with
      | None => Err MissingMatchingFee
      | Some matching_fee => Ok (AppOrderState.Filled execution_price (as_u64 matching_fee))
      end
    end
  end.

(** [impl TryFrom<Order> for trade::order::Order]. *)
Definition app_order_try_from (value : AppOrderRow.t) : outcome AppModelError AppOrder.t :=
  id ← ok_or InvalidId (uuid_parse_str (AppOrderRow.id value));
  order_type ← app_order_type_try_from (AppOrderRow.order_type value, AppOrderRow.limit_price value);
  state ← derive_order_state (AppOrderRow.state value) (AppOrderRow.execution_price value)
    (AppOrderRow.matching_fee_sats value) (AppOrderRow.failure_reason value);
  creation_timestamp ← expect (from_unix_timestamp (AppOrderRow.creation_timestamp value));
  order_expiry_timestamp ← expect (from_unix_timestamp (AppOrderRow.order_expiry_timestamp value));
  Ok (AppOrder.mk id (AppOrderRow.leverage value) (AppOrderRow.quantity value)
        (app_contract_symbol_from (AppOrderRow.contract_symbol value))
        (app_direction_from (AppOrderRow.direction value)) order_type state creation_timestamp
        order_expiry_timestamp (app_order_reason_from (AppOrderRow.reason value))
        (AppOrderRow.stable value) (app_failure_reason_from <$> AppOrderRow.failure_reason value)).

(** [impl From<trade::position::Position> for Position]: the creation time is the
    time of the conversion. *)
Definition app_position_row (now : OffsetDateTime) (value : AppPosition.t) : AppPositionRow.t :=
  AppPositionRow.mk (app_db_contract_symbol_from (AppPosition.contract_symbol value))
    (AppPosition.leverage value) (AppPosition.quantity value)
    (app_db_direction_from (AppPosition.direction value)) (AppPosition.average_entry_price value)
    (AppPosition.liquidation_price value)
    (app_db_position_state_from (AppPosition.position_state value))
    (as_i64 (AppPosition.collateral value)) (unix_timestamp now)
    (unix_timestamp (AppPosition.expiry value)) (unix_timestamp now) (AppPosition.stable value)
    (as_i64 (AppPosition.order_matching_fees value)).

(** [impl From<Position> for trade::position::Position]. *)
Definition app_position_from {E} (value : AppPositionRow.t) : outcome E AppPosition.t :=
  expiry ← expect (from_unix_timestamp (AppPositionRow.expiry_timestamp value));
  updated ← expect (from_unix_timestamp (AppPositionRow.updated_timestamp value));
  created ← expect (from_unix_timestamp (AppPositionRow.creation_timestamp value));
  Ok (AppPosition.mk (AppPositionRow.leverage value) (AppPositionRow.quantity value)
        (app_contract_symbol_from (AppPositionRow.contract_symbol value))
        (app_direction_from (AppPositionRow.direction value))
        (AppPositionRow.average_entry_price value) (AppPositionRow.liquidation_price value)
        (app_position_state_from (AppPositionRow.state value))
        (as_u64 (AppPositionRow.collateral value)) expiry updated created
        (AppPositionRow.stable value) (as_u64 (AppPositionRow.order_matching_fees value))).

(** [impl From<trade::Trade> for NewTrade] and [From<Trade> for trade::Trade]. *)
Definition app_trade_row {E} (value : AppTrade.t) : outcome E AppTradeRow.t :=
  contracts ← expect (d_to_f32 (AppTrade.contracts value));
  price ← expect (d_to_f32 (AppTrade.price value));
  Ok (AppTradeRow.mk (uuid_to_string (AppTrade.order_id value))
        (app_db_contract_symbol_from (AppTrade.contract_symbol value)) contracts
        (app_db_direction_from (AppTrade.direction value)) (AppTrade.trade_cost value)
        (as_i64 (AppTrade.fee value)) (AppTrade.pnl value) price
        (unix_timestamp (AppTrade.timestamp value))).
Definition app_trade_from {E} (value : AppTradeRow.t) : outcome E AppTrade.t :=
  order_id ← expect (uuid_parse_str (AppTradeRow.order_id value));
  contracts ← expect (d_from_f32 (AppTradeRow.contracts value));
  price ← expect (d_from_f32 (AppTradeRow.price value));
  timestamp ← expect (from_unix_timestamp (AppTradeRow.timestamp value));
  Ok (AppTrade.mk order_id (app_contract_symbol_from (AppTradeRow.contract_symbol value)) contracts
        (app_direction_from (AppTradeRow.direction value)) (AppTradeRow.trade_cost_sat value)
        (as_u64 (AppTradeRow.fee_sat value)) (AppTradeRow.pnl_sat value) price timestamp).

(** [From<trade::FundingFeeEvent> for UnpaidFundingFeeEvent] and
    [From<FundingFeeEvent> for trade::FundingFeeEvent]. *)
Definition unpaid_funding_fee_event_row {E} (value : AppFundingFeeEvent.t)
    : outcome E AppFundingFeeEventRow.t :=
  contracts ← expect (d_to_f32 (AppFundingFeeEvent.contracts value));
  price ← expect (d_to_f32 (AppFundingFeeEvent.price value));
  Ok (AppFundingFeeEventRow.mk
        (app_db_contract_symbol_from (AppFundingFeeEvent.contract_symbol value)) contracts
        (app_db_direction_from (AppFundingFeeEvent.direction value)) price
        (AppFundingFeeEvent.fee value) (unix_timestamp (AppFundingFeeEvent.due_date value)) None).
Definition app_funding_fee_event_from {E} (value : AppFundingFeeEventRow.t)
    : outcome E AppFundingFeeEvent.t :=
  contracts ← expect (d_try_from_f32 (AppFundingFeeEventRow.contracts value));
  price ← expect (d_try_from_f32 (AppFundingFeeEventRow.price value));
  due_date ← expect (from_unix_timestamp (AppFundingFeeEventRow.due_date value));
  paid_date ←
    match AppFundingFeeEventRow.paid_date value with
    | None => Ok None
    | Some paid_date => Some <$> expect (from_unix_timestamp paid_date)
    end;
  Ok (AppFundingFeeEvent.mk
        (app_contract_symbol_from (AppFundingFeeEventRow.contract_symbol value)) contracts
        (app_direction_from (AppFundingFeeEventRow.direction value)) price
        (AppFundingFeeEventRow.fee value) due_date paid_date).
End Conversions.

(** ** Queries *)

(** [QueryResult], [anyhow::Result] over the database, and [?] between them. *)
Definition AppQuery (A : Type) : Type := M AppDb.t SqlError A.
Definition AppResult (A : Type) : Type := M AppDb.t Anyhow A.
Definition query {A} (m : AppQuery A) : AppResult A := with_err FromSql m.

(** The checks of the affected rows after a statement. *)
Definition checked (text : string) (m : AppQuery nat) : AppResult unit :=
  affected_rows ← query m; lift (some_rows text affected_rows).

(** [map(|row| row.into()).collect()], where [into] may panic but not fail. *)
Definition rows_into {R A} (into : R -> outcome Anyhow A) (m : AppQuery (list R)) : AppResult (list A) :=
  rows ← query m; lift (traverse into rows).

(** [impl Order]. *)
Module AppOrders.
Definition is_id (order_id : string) (r : AppOrderRow.t) : bool :=
  bool_decide (AppOrderRow.id r = order_id).
Definition is_state (order_state : AppDbOrderState.t) (r : AppOrderRow.t) : bool :=
  bool_decide (AppOrderRow.state r = order_state).

(** The columns the statements set. *)
Definition set_state (state : AppDbOrderState.t) (r : AppOrderRow.t) : AppOrderRow.t :=
  AppOrderRow.mk (AppOrderRow.id r) (AppOrderRow.leverage r) (AppOrderRow.quantity r)
    (AppOrderRow.contract_symbol r) (AppOrderRow.direction r) (AppOrderRow.order_type r) state
    (AppOrderRow.creation_timestamp r) (AppOrderRow.limit_price r) (AppOrderRow.execution_price r)
    (AppOrderRow.failure_reason r) (AppOrderRow.order_expiry_timestamp r) (AppOrderRow.reason r)
    (AppOrderRow.stable r) (AppOrderRow.matching_fee_sats r).
Definition set_execution_price (execution_price : f32) (r : AppOrderRow.t) : AppOrderRow.t :=
  AppOrderRow.mk (AppOrderRow.id r) (AppOrderRow.leverage r) (AppOrderRow.quantity r)
    (AppOrderRow.contract_symbol r) (AppOrderRow.direction r) (AppOrderRow.order_type r)
    (AppOrderRow.state r) (AppOrderRow.creation_timestamp r) (AppOrderRow.limit_price r)
    (Some execution_price) (AppOrderRow.failure_reason r) (AppOrderRow.order_expiry_timestamp r)
    (AppOrderRow.reason r) (AppOrderRow.stable r) (AppOrderRow.matching_fee_sats r).
Definition set_matching_fee (matching_fee : Amount) (r : AppOrderRow.t) : AppOrderRow.t :=
  AppOrderRow.mk (AppOrderRow.id r) (AppOrderRow.leverage r) (AppOrderRow.quantity r)
    (AppOrderRow.contract_symbol r) (AppOrderRow.direction r) (AppOrderRow.order_type r)
    (AppOrderRow.state r) (AppOrderRow.creation_timestamp r) (AppOrderRow.limit_price r)
    (AppOrderRow.execution_price r) (AppOrderRow.failure_reason r)
    (AppOrderRow.order_expiry_timestamp r) (AppOrderRow.reason r) (AppOrderRow.stable r)
    (Some (as_i64 matching_fee)).
Definition set_failure_reason (failure_reason : AppDbFailureReason.t) (r : AppOrderRow.t) : AppOrderRow.t :=
  AppOrderRow.mk (AppOrderRow.id r) (AppOrderRow.leverage r) (AppOrderRow.quantity r)
    (AppOrderRow.contract_symbol r) (AppOrderRow.direction r) (AppOrderRow.order_type r)
    (AppOrderRow.state r) (AppOrderRow.creation_timestamp r) (AppOrderRow.limit_price r)
    (AppOrderRow.execution_price r) (Some failure_reason) (AppOrderRow.order_expiry_timestamp r)
    (AppOrderRow.reason r) (AppOrderRow.stable r) (AppOrderRow.matching_fee_sats r).

Definition insert (order : AppOrderRow.t) : AppResult AppOrderRow.t :=
  checked "Could not insert order" (s_insert order);;
  mret order.

Definition set_all_filling_orders_to_failed : AppResult unit :=
  query (s_update (is_state AppDbOrderState.Filling) (fun r =>
    set_failure_reason AppDbFailureReason.Unknown (set_state AppDbOrderState.Failed r)));;
  mret tt.

(** [if let Some(value) = value { update; bail if no row }]. *)
Definition update_if {A} (order_id : string) (text : string) (set : A -> AppOrderRow.t -> AppOrderRow.t)
    (value : option A) : AppResult unit :=
  match value with
  | Some value => checked text (s_update (is_id order_id) (set value))
  | None => mret tt
  end.

Definition update_state (order_id : string) (order_state : AppDbOrderState.t)
    (execution_price : option f32) (matching_fee : option Amount)
    (failure_reason : option AppDbFailureReason.t) : AppResult AppOrderRow.t :=
  exclusive_transaction
    (checked "Could not update order state" (s_update (is_id order_id) (set_state order_state));;
     update_if order_id "Could not update order execution price" set_execution_price execution_price;;
     update_if order_id "Could not update order matching fee" set_matching_fee matching_fee;;
     update_if order_id "Could not update order failure reason" set_failure_reason failure_reason;;
     query (s_first (is_id order_id))).

Definition set_order_state_to_failed (order_id : string) (execution_price : option f32)
    (matching_fee : option Amount) (failure_reason : AppDbFailureReason.t) : AppResult AppOrderRow.t :=
  update_state order_id AppDbOrderState.Failed execution_price matching_fee (Some failure_reason).
Definition set_order_state_to_open (order_id : string) : AppResult AppOrderRow.t :=
  update_state order_id AppDbOrderState.Open None None None.
Definition set_order_state_to_filling `{IdLib} (order_id : Uuid) (execution_price : f32)
    (matching_fee : Amount) : AppResult AppOrderRow.t :=
  update_state (uuid_to_string order_id) AppDbOrderState.Filling (Some execution_price)
    (Some matching_fee) None.
Definition set_order_state_to_filled `{IdLib} (order_id : Uuid) (execution_price : f32)
    (matching_fee : Amount) : AppResult AppOrderRow.t :=
  update_state (uuid_to_string order_id) AppDbOrderState.Filled (Some execution_price)
    (Some matching_fee) None.

Definition get (order_id : string) : AppQuery (option AppOrderRow.t) :=
  s_optional (s_first (is_id order_id)).
Definition get_without_rejected_and_initial : AppQuery (list AppOrderRow.t) :=
  s_load (fun r => negb (is_state AppDbOrderState.Initial r) && negb (is_state AppDbOrderState.Rejected r)).
Definition get_by_state (order_state : AppDbOrderState.t) : AppQuery (list AppOrderRow.t) :=
  s_load (is_state order_state).
Definition delete (order_id : string) : AppQuery nat := s_delete (is_id order_id).
End AppOrders.

(** [impl Position]. *)
Module AppPositions.
Definition is_symbol (contract_symbol : AppDbContractSymbol.t) (r : AppPositionRow.t) : bool :=
  bool_decide (AppPositionRow.contract_symbol r = contract_symbol).
Definition set_state (state : AppDbPositionState.t) (r : AppPositionRow.t) : AppPositionRow.t :=
  AppPositionRow.mk (AppPositionRow.contract_symbol r) (AppPositionRow.leverage r)
    (AppPositionRow.quantity r) (AppPositionRow.direction r) (AppPositionRow.average_entry_price r)
    (AppPositionRow.liquidation_price r) state (AppPositionRow.collateral r)
    (AppPositionRow.creation_timestamp r) (AppPositionRow.expiry_timestamp r)
    (AppPositionRow.updated_timestamp r) (AppPositionRow.stable r)
    (AppPositionRow.order_matching_fees r).

Definition insert (position : AppPositionRow.t) : AppResult AppPositionRow.t :=
  checked "Could not insert position" (s_insert position);;
  mret position.
Definition get_all : AppQuery (list AppPositionRow.t) := s_load (fun _ => true).
Definition get_position (contract_symbol : AppDbContractSymbol.t) : AppQuery AppPositionRow.t :=
  s_first (is_symbol contract_symbol).
Definition update_state (contract_symbol : AppDbContractSymbol.t) (state : AppDbPositionState.t)
    : AppResult AppPositionRow.t :=
  checked "Could not update position" (s_update (is_symbol contract_symbol) (set_state state));;
  query (s_first (is_symbol contract_symbol)).
Definition start_rollover (updated_position : AppPositionRow.t) : AppResult unit :=
  checked "Could not start rollover in DB"
    (s_update (is_symbol (AppPositionRow.contract_symbol updated_position)) (fun _ => updated_position)).
Definition finish_rollover (updated_position : AppPositionRow.t) : AppResult unit :=
  checked "Could not finish rollover in DB"
    (s_update (fun r => bool_decide (AppPositionRow.state r = AppDbPositionState.Rollover))
       (fun _ => updated_position)).
Definition update_position (updated_position : AppPositionRow.t) : AppResult unit :=
  checked "Could not update position" (s_update (fun _ => true) (fun _ => updated_position)).
Definition delete_all : AppQuery nat := s_delete (R := AppPositionRow.t) (fun _ => true).
End AppPositions.

(** [impl SpendableOutputInsertable] and [impl SpendableOutputQueryable]. *)
Module SpendableOutputs.
Definition is_outpoint (outpoint : string) (r : SpendableOutputRow.t) : bool :=
  bool_decide (SpendableOutputRow.outpoint r = outpoint).
Definition insert (output : SpendableOutputRow.t) : AppResult unit :=
  checked "Could not insert spendable" (s_insert output).
Definition get (outpoint : string) : AppQuery SpendableOutputRow.t := s_first (is_outpoint outpoint).
Definition delete (outpoint : string) : AppResult unit :=
  checked "Could not delete spendable output" (s_delete (is_outpoint outpoint)).
Definition get_all : AppQuery (list SpendableOutputRow.t) := s_load (fun _ => true).
End SpendableOutputs.

(** [impl Channel].  The changeset of the upsert leaves out the columns that are
    [None]; the channel id is a unique index. *)
Module AppChannels.
Definition get (user_channel_id : string) : AppQuery (option AppChannelRow.t) :=
  s_optional (s_first (fun r => bool_decide (AppChannelRow.user_channel_id r = user_channel_id))).
Definition get_announced_channel (counterparty_pubkey : string) : AppQuery (option AppChannelRow.t) :=
  s_optional (s_first (fun r =>
    bool_decide (AppChannelRow.counterparty_pubkey r = counterparty_pubkey)
    && bool_decide (AppChannelRow.channel_state r = AppDbChannelState.Announced))).
Definition get_by_channel_id (channel_id : string) : AppQuery (option AppChannelRow.t) :=
  s_optional (s_first (fun r => bool_decide (AppChannelRow.channel_id r = Some channel_id))).
Definition get_channel_by_payment_hash (payment_hash : string) : AppQuery (option AppChannelRow.t) :=
  s_optional (s_first (fun r =>
    bool_decide (AppChannelRow.open_channel_payment_hash r = Some payment_hash))).
Definition get_all : AppQuery (list AppChannelRow.t) := s_load (fun _ => true).
Definition get_all_non_pending_channels : AppQuery (list AppChannelRow.t) :=
  s_load (fun r => negb (bool_decide (AppChannelRow.channel_state r = AppDbChannelState.Pending))
    && bool_decide (is_Some (AppChannelRow.funding_txid r))).

(** The row after [set(&channel)]. *)
Definition changeset (channel r : AppChannelRow.t) : AppChannelRow.t :=
  AppChannelRow.mk (AppChannelRow.user_channel_id channel)
    (option_union_with (fun x _ => Some x) (AppChannelRow.channel_id channel) (AppChannelRow.channel_id r))
    (AppChannelRow.inbound channel) (AppChannelRow.outbound channel)
    (option_union_with (fun x _ => Some x) (AppChannelRow.funding_txid channel) (AppChannelRow.funding_txid r))
    (AppChannelRow.channel_state channel) (AppChannelRow.counterparty_pubkey channel)
    (AppChannelRow.created_at channel) (AppChannelRow.updated_at channel)
    (option_union_with (fun x _ => Some x) (AppChannelRow.liquidity_option_id channel)
       (AppChannelRow.liquidity_option_id r))
    (option_union_with (fun x _ => Some x) (AppChannelRow.fee_sats channel) (AppChannelRow.fee_sats r))
    (option_union_with (fun x _ => Some x) (AppChannelRow.open_channel_payment_hash channel)
       (AppChannelRow.open_channel_payment_hash r)).
Definition takes_channel_id (channel r : AppChannelRow.t) : bool :=
  bool_decide (is_Some (AppChannelRow.channel_id channel))
  && bool_decide (AppChannelRow.channel_id channel = AppChannelRow.channel_id r)
  && negb (conflicts channel r).
Definition upsert (channel : AppChannelRow.t) : AppResult unit :=
  checked "Could not upsert channel" (fun d =>
    if existsb (takes_channel_id channel) (table d) then (Err UniqueViolation, d)
    else s_upsert channel (changeset channel) d).
End AppChannels.

(** [impl Transaction]. *)
Module AppTransactions.
Definition get (txid : string) : AppQuery (option AppTransactionRow.t) :=
  s_optional (s_first (fun r => bool_decide (AppTransactionRow.txid r = txid))).
Definition get_all_without_fees : AppQuery (list AppTransactionRow.t) :=
  s_load (fun r => AppTransactionRow.fee r =? 0).
Definition upsert (tx : AppTransactionRow.t) : AppResult unit :=
  checked "Could not upsert transaction" (s_upsert tx (fun _ => tx)).
End AppTransactions.

(** [Trade::get_all] and [NewTrade::insert]. *)
Module AppTrades.
Definition get_all : AppQuery (list AppTradeRow.t) := s_load (fun _ => true).
Definition insert (trades : list AppTradeRow.t) : AppResult unit :=
  let len := length trades in
  affected_rows ← query (s_insert_all trades);
  lift (ensure (len <=? affected_rows)%nat (Msg "Could not insert trade(s)")).
End AppTrades.

(** [models/funding_fee_event.rs]. *)
Module AppFundingFeeEvents.
Section Ops.
Context `{DecimalLib}.
Definition insert (funding_fee_event : AppFundingFeeEvent.t) : AppQuery (option AppFundingFeeEvent.t) :=
  row ← lift (unpaid_funding_fee_event_row funding_fee_event);
  affected_rows ← s_insert_or_ignore row;
  if (1 <=? affected_rows)%nat then mret (Some funding_fee_event) else mret None.

Definition is_unpaid_since (contract_symbol : ContractSymbol) (since : OffsetDateTime)
    (r : AppFundingFeeEventRow.t) : bool :=
  bool_decide (AppFundingFeeEventRow.contract_symbol r = app_db_contract_symbol_from contract_symbol)
  && (unix_timestamp since <=? AppFundingFeeEventRow.due_date r)
  && negb (bool_decide (is_Some (AppFundingFeeEventRow.paid_date r))).
Definition set_paid_date (paid_date : Z) (r : AppFundingFeeEventRow.t) : AppFundingFeeEventRow.t :=
  AppFundingFeeEventRow.mk (AppFundingFeeEventRow.contract_symbol r)
    (AppFundingFeeEventRow.contracts r) (AppFundingFeeEventRow.direction r)
    (AppFundingFeeEventRow.price r) (AppFundingFeeEventRow.fee r) (AppFundingFeeEventRow.due_date r)
    (Some paid_date).
Definition mark_as_paid (now : OffsetDateTime) (contract_symbol : ContractSymbol)
    (since : OffsetDateTime) : AppQuery unit :=
  s_update (is_unpaid_since contract_symbol since) (set_paid_date (unix_timestamp now));;
  mret tt.

Definition get_all : AppQuery (list AppFundingFeeEvent.t) :=
  funding_fee_events ← s_load (fun _ => true);
  lift (traverse app_funding_fee_event_from funding_fee_events).
End Ops.
End AppFundingFeeEvents.

(** [polls.rs]. *)
Module AppPolls.
Definition get : AppQuery (list AnsweredPollRow.t) := s_load (fun _ => true).
Definition insert (now : OffsetDateTime) (poll_id : Z) : AppResult unit :=
  checked "Could not insert answered poll"
    (s_insert (AnsweredPollRow.mk poll_id (unix_timestamp now))).
Definition delete_all : AppResult unit :=
  query (s_delete (R := AnsweredPollRow.t) (fun _ => true));; mret tt.
End AppPolls.

(** [dlc_messages.rs]. *)
Module AppDlcMessages.
Section Ops.
Context `{IdLib}.
Definition row_from (value : DlcMessage.t) : AppDlcMessageRow.t :=
  AppDlcMessageRow.mk (DlcMessage.message_hash value) (DlcMessage.inbound value)
    (pk_to_string (DlcMessage.peer_id value))
    (app_db_message_type_from (DlcMessage.message_type value))
    (unix_timestamp (DlcMessage.timestamp value)).
Definition message_from_row {E} (value : AppDlcMessageRow.t) : outcome E DlcMessage.t :=
  peer_id ← expect (pk_from_str (AppDlcMessageRow.peer_id value));
  timestamp ← expect (from_unix_timestamp (AppDlcMessageRow.timestamp value));
  Ok (DlcMessage.mk (AppDlcMessageRow.message_hash value) (AppDlcMessageRow.inbound value) peer_id
        (app_message_type_from (AppDlcMessageRow.message_type value)) timestamp).

Definition is_hash (message_hash : string) (r : AppDlcMessageRow.t) : bool :=
  bool_decide (AppDlcMessageRow.message_hash r = message_hash).
Definition get (message_hash : string) : AppQuery (option DlcMessage.t) :=
  result ← s_optional (s_first (is_hash message_hash));
  match result with
  | Some q => Some <$> lift (message_from_row q)
  | None => mret None
  end.
Definition insert (dlc_message : DlcMessage.t) : AppResult unit :=
  checked "Could not insert dlc message" (s_insert (row_from dlc_message)).
End Ops.
End AppDlcMessages.

(** [last_outbound_dlc_messages.rs]; the hash references [dlc_messages]. *)
Module LastOutboundDlcMessages.
Section Ops.
Context `{IdLib} `{HashLib}.
Definition joined (d : AppDb.t) : list (AppLastOutboundRow.t * AppDlcMessageRow.t) :=
  flat_map (fun l => map (pair l) (List.filter (AppDlcMessages.is_hash (AppLastOutboundRow.message_hash l))
    (AppDb.dlc_messages d))) (AppDb.last_outbound_dlc_messages d).
Definition get (peer_id : PublicKey) : AppQuery (option SerializedDlcMessage.t) :=
  last_outbound_dlc_message ← gets (fun d => List.find (fun x =>
    bool_decide (AppLastOutboundRow.peer_id x.1 = pk_to_string peer_id)) (joined d));
  mret ((fun x => SerializedDlcMessage.mk (AppLastOutboundRow.message x.1)
           (app_message_type_from (AppDlcMessageRow.message_type x.2))) <$> last_outbound_dlc_message).
Definition upsert (now : OffsetDateTime) (peer_id : PublicKey) (sdm : SerializedDlcMessage.t)
    : AppResult unit :=
  let values := AppLastOutboundRow.mk (pk_to_string peer_id) (generate_hash sdm)
    (SerializedDlcMessage.message sdm) (unix_timestamp now) in
  checked "Could not upsert last outbound dlc messages" (fun d =>
    if existsb (AppDlcMessages.is_hash (AppLastOutboundRow.message_hash values)) (AppDb.dlc_messages d)
    then s_upsert values (fun _ => values) d
    else (Err ForeignKeyViolation, d)).
End Ops.
End LastOutboundDlcMessages.

(** ** [db/mod.rs]

    What the rest of the app calls; a connection is always there. *)

(** A value of [lightning], for the outputs that can be spent. *)
Class OutputsLib := {
  SpendableOutputDescriptor : Type;
  encode_descriptor : SpendableOutputDescriptor -> list Byte.byte;
  read_descriptor : list Byte.byte -> option SpendableOutputDescriptor;
  hex_text : list Byte.byte -> string;            (* [hex::encode] *)
  hex_bytes : string -> option (list Byte.byte);  (* [hex::decode] *)
  nat_to_string : nat -> string;                  (* an index, displayed *)
}.

Module OutPoint.
Record t := mk { txid : string; index : nat }.
End OutPoint.

(** [xxi_node::transaction::Transaction]. *)
Module ChainTransaction.
Record t := mk {
  txid : string; fee : Z; created_at : OffsetDateTime; updated_at : OffsetDateTime; raw : string }.
End ChainTransaction.

Module db.
Section Db.
Context `{DL : DecimalLib} `{IL : IdLib}.

(** [order.try_into()?]; the error is an [Anyhow]. *)
Definition model_error (e : AppModelError) : Anyhow :=
  Msg match e with
  | InvalidId => "Invalid id when converting string to uuid"
  | MissingPriceForLimitOrder => "Limit order has to have a price"
  | MissingExecutionPrice => "A filling or filled order has to have an execution price"
  | MissingMatchingFee => "A filled order has to have a matching fee"
  end.
Definition try_into_order (row : AppOrderRow.t) : outcome Anyhow AppOrder.t :=
  map_err model_error (app_order_try_from row).

Definition insert_order (order : AppOrder.t) : AppResult AppOrder.t :=
  order ← AppOrders.insert (app_order_row order);
  lift (try_into_order order).

Definition set_order_state_to_failed (order_id : Uuid) (failure_reason : AppDbFailureReason.t)
    (execution_price : option f32) : AppResult AppOrder.t :=
  order ← AppOrders.set_order_state_to_failed (uuid_to_string order_id) execution_price None
    failure_reason;
  lift (try_into_order order).
Definition set_order_state_to_open (order_id : Uuid) : AppResult AppOrder.t :=
  order ← AppOrders.set_order_state_to_open (uuid_to_string order_id);
  lift (try_into_order order).

Definition get_order (order_id : Uuid) : AppResult (option AppOrder.t) :=
  order ← query (AppOrders.get (uuid_to_string order_id));
  match order with
  | Some order => Some <$> lift (try_into_order order)
  | None => mret None
  end.

Definition get_orders_for_ui : AppResult (list AppOrder.t) :=
  rows_into try_into_order AppOrders.get_without_rejected_and_initial.
Definition get_filled_orders : AppResult (list AppOrder.t) :=
  rows_into try_into_order (AppOrders.get_by_state AppDbOrderState.Filled).
Definition maybe_get_open_orders : AppResult (list AppOrder.t) :=
  rows_into try_into_order (AppOrders.get_by_state AppDbOrderState.Open).

(** [sort_by(|a, b| b.creation_timestamp.cmp(&a.creation_timestamp))]. *)
Definition by_creation_desc (a b : AppOrderRow.t) : comparison :=
  AppOrderRow.creation_timestamp b ?= AppOrderRow.creation_timestamp a.

Definition get_last_failed_order : AppResult (option AppOrder.t) :=
  orders ← query (AppOrders.get_by_state AppDbOrderState.Failed);
  match head (sort_by by_creation_desc orders) with
  | Some order => Some <$> lift (try_into_order order)
  | None => mret None
  end.

Definition set_order_state_to_filled (order_id : Uuid) (execution_price : f32) (matching_fee : Amount)
    : AppResult AppOrder.t :=
  order ← AppOrders.set_order_state_to_filled order_id execution_price matching_fee;
  lift (try_into_order order).
Definition set_order_state_to_filling (order_id : Uuid) (execution_price : f32) (matching_fee : Amount)
    : AppResult AppOrder.t :=
  order ← AppOrders.set_order_state_to_filling order_id execution_price matching_fee;
  lift (try_into_order order).

(** [if let Err(e) = m { tracing::error!(..) }]. *)
Definition or_log {S E A} (m : M S E A) : M S E unit := fun s =>
  match m s with
  | (Ok _, s') | (Err _, s') => (Ok tt, s')
  | (Panic, s') => (Panic, s')
  end.

(** The other orders in [Filling] that are cleaned up. *)
Definition fail_filling_order (order : AppOrderRow.t) : AppResult unit :=
  or_log (AppOrders.set_order_state_to_failed (AppOrderRow.id order)
    (AppOrderRow.execution_price order) None AppDbFailureReason.TimedOut).

Definition get_order_in_filling : AppResult (option AppOrder.t) :=
  orders ← query (AppOrders.get_by_state AppDbOrderState.Filling);
  match sort_by by_creation_desc orders with
  | [] => mret None
  | oldest_order :: rest =>
    for_each fail_filling_order rest;;
    Some <$> lift (try_into_order oldest_order)
  end.

Definition delete_order (order_id : Uuid) : AppResult unit :=
  query (AppOrders.delete (uuid_to_string order_id));; mret tt.

Definition insert_position (now : OffsetDateTime) (position : AppPosition.t) : AppResult AppPosition.t :=
  position ← AppPositions.insert (app_position_row now position);
  lift (app_position_from position).
Definition get_position (contract_symbol : ContractSymbol) : AppResult AppPosition.t :=
  position ← query (AppPositions.get_position (app_db_contract_symbol_from contract_symbol));
  lift (app_position_from position).
Definition get_positions : AppResult (list AppPosition.t) :=
  rows_into app_position_from AppPositions.get_all.
Definition delete_positions : AppResult unit := query AppPositions.delete_all;; mret tt.
Definition update_position_state (contract_symbol : ContractSymbol) (position_state : AppPositionState.t)
    : AppResult AppPosition.t :=
  position ← AppPositions.update_state (app_db_contract_symbol_from contract_symbol)
    (app_db_position_state_from position_state);
  lift (app_position_from position).
Definition update_position (now : OffsetDateTime) (updated_position : AppPosition.t) : AppResult unit :=
  AppPositions.update_position (app_position_row now updated_position).
Definition start_position_rollover (now : OffsetDateTime) (updated_position : AppPosition.t)
    : AppResult unit :=
  AppPositions.start_rollover (app_position_row now updated_position).
Definition finish_position_rollover (now : OffsetDateTime) (updated_position : AppPosition.t)
    : AppResult unit :=
  AppPositions.finish_rollover (app_position_row now updated_position).

Definition get_all_trades : AppResult (list AppTrade.t) := rows_into app_trade_from AppTrades.get_all.
Definition insert_trades (trades : list AppTrade.t) : AppResult unit :=
  trades ← lift (traverse app_trade_row trades);
  AppTrades.insert trades.

Definition load_ignored_or_answered_polls : AppResult (list AnsweredPollRow.t) := query AppPolls.get.
Definition set_poll_to_ignored_or_answered (now : OffsetDateTime) (poll_id : Z) : AppResult unit :=
  AppPolls.insert now poll_id.
Definition delete_answered_poll_cache : AppResult unit := AppPolls.delete_all.

Definition get_all_funding_fee_events : AppResult (list AppFundingFeeEvent.t) :=
  query AppFundingFeeEvents.get_all.

(** [filter_map(|e| match insert(e) { .. })]: an insertion that fails is logged. *)
Fixpoint insert_unpaid_funding_fee_events (funding_fee_events : list AppFundingFeeEvent.t)
    : AppResult (list AppFundingFeeEvent.t) :=
  match funding_fee_events with
  | [] => mret []
  | e :: funding_fee_events => fun d =>
    match AppFundingFeeEvents.insert e d with
    | (Ok event, d') =>
      ((option_list event ++.) <$> insert_unpaid_funding_fee_events funding_fee_events) d'
    | (Err _, d') => insert_unpaid_funding_fee_events funding_fee_events d'
    | (Panic, d') => (Panic, d')
    end
  end.
Definition mark_funding_fee_events_as_paid (now : OffsetDateTime) (contract_symbol : ContractSymbol)
    (since : OffsetDateTime) : AppResult unit :=
  query (AppFundingFeeEvents.mark_as_paid now contract_symbol since).
End Db.

Section Outputs.
Context `{OL : OutputsLib}.

(** [outpoint_to_string], and the conversions of an output's row. *)
Definition outpoint_to_string (outpoint : OutPoint.t) : string :=
  OutPoint.txid outpoint +:+ ":" +:+ nat_to_string (OutPoint.index outpoint).
Definition spendable_output_row (outpoint : OutPoint.t) (descriptor : SpendableOutputDescriptor)
    : SpendableOutputRow.t :=
  SpendableOutputRow.mk (outpoint_to_string outpoint) (hex_text (encode_descriptor descriptor)).
Definition descriptor_try_from (value : SpendableOutputRow.t) : outcome Anyhow SpendableOutputDescriptor :=
  bytes ← ok_or (Msg "hex::decode") (hex_bytes (SpendableOutputRow.descriptor value));
  ok_or (Msg "Failed to decode spendable output descriptor") (read_descriptor bytes).

Definition insert_spendable_output (outpoint : OutPoint.t) (descriptor : SpendableOutputDescriptor)
    : AppResult unit := SpendableOutputs.insert (spendable_output_row outpoint descriptor).
Definition get_spendable_output (outpoint : OutPoint.t) : AppResult (option SpendableOutputDescriptor) :=
  output ← query (s_optional (SpendableOutputs.get (outpoint_to_string outpoint)));
  match output with
  | Some output => Some <$> lift (descriptor_try_from output)
  | None => mret None
  end.
Definition delete_spendable_output (outpoint : OutPoint.t) : AppResult unit :=
  SpendableOutputs.delete (outpoint_to_string outpoint).
Definition get_spendable_outputs : AppResult (list SpendableOutputDescriptor) :=
  rows_into descriptor_try_from SpendableOutputs.get_all.
End Outputs.

(** The conversions of a transaction; [is_txid] is [Txid::from_str] succeeding. *)
Section Transactions.
Context (is_txid : string -> bool).

Definition transaction_row (value : ChainTransaction.t) : AppTransactionRow.t :=
  AppTransactionRow.mk (ChainTransaction.txid value) (as_i64 (ChainTransaction.fee value))
    (unix_timestamp (ChainTransaction.created_at value))
    (unix_timestamp (ChainTransaction.updated_at value)) (ChainTransaction.raw value).
Definition transaction_from (value : AppTransactionRow.t) : outcome Anyhow ChainTransaction.t :=
  txid ← expect (if is_txid (AppTransactionRow.txid value) then Some (AppTransactionRow.txid value)
                 else None);
  created_at ← expect (from_unix_timestamp (AppTransactionRow.created_at value));
  updated_at ← expect (from_unix_timestamp (AppTransactionRow.updated_at value));
  Ok (ChainTransaction.mk txid (as_u64 (AppTransactionRow.fee value)) created_at updated_at
        (AppTransactionRow.raw value)).

Definition upsert_transaction (transaction : ChainTransaction.t) : AppResult unit :=
  AppTransactions.upsert (transaction_row transaction).
Definition get_transaction (txid : string) : AppResult (option ChainTransaction.t) :=
  transaction ← query (AppTransactions.get txid);
  match transaction with
  | Some transaction => Some <$> lift (transaction_from transaction)
  | None => mret None
  end.
Definition get_all_transactions_without_fees : AppResult (list ChainTransaction.t) :=
  rows_into transaction_from AppTransactions.get_all_without_fees.
End Transactions.
End db.

(** ** Rows read back *)

Section RoundTrips.
Context `{DL : DecimalLib} `{ILaws : IdLaws}.

(** The amounts of an order are of type [u64]. *)
Definition order_in_range (o : AppOrder.t) : Prop :=
  is_datetime (AppOrder.creation_timestamp o) /\ is_datetime (AppOrder.order_expiry_timestamp o) /\
  forall fee, order_known_matching_fee o = Some fee -> 0 <= fee < 2 ^ 64.

(** What is kept of an order: times in seconds, and the reason of failure the state has. *)
Definition stored_order (o : AppOrder.t) : AppOrder.t :=
  AppOrder.mk (AppOrder.id o) (AppOrder.leverage o) (AppOrder.quantity o)
    (AppOrder.contract_symbol o) (AppOrder.direction o) (AppOrder.order_type o) (AppOrder.state o)
    (whole_seconds (AppOrder.creation_timestamp o)) (whole_seconds (AppOrder.order_expiry_timestamp o))
    (AppOrder.reason o) (AppOrder.stable o) (state_failure_reason (AppOrder.state o)).

(** The state is derived from the columns it was split into. *)
Lemma derive_order_state_roundtrip (o : AppOrder.t) :
  (forall fee, order_known_matching_fee o = Some fee -> 0 <= fee < 2 ^ 64) ->
  let '(status, _, failure_reason) := app_db_order_state_parts (AppOrder.state o) in
  derive_order_state status (order_execution_price o) (as_i64 <$> order_known_matching_fee o)
    failure_reason = Ok (AppOrder.state o).
Proof using Type.
  unfold order_execution_price, order_known_matching_fee. intros Hfee.
  destruct (AppOrder.state o) as [| | |p fee|[p|] [fee|] r|p fee]; cbn in *;
    rewrite ?app_failure_reason_roundtrip; try rewrite as_u64_as_i64; auto.
Qed.

Lemma app_order_row_roundtrip (o : AppOrder.t) : order_in_range o ->
  app_order_try_from (app_order_row o) = Ok (stored_order o).
Proof.
  intros (Hc & He & Hfee). apply derive_order_state_roundtrip in Hfee as Hst.
  unfold app_order_try_from, app_order_row.
  pose proof (app_order_type_roundtrip (AppOrder.order_type o)) as Htype.
  destruct (app_db_order_type_from _) as [ty limit]. 
  assert (Hreason : app_failure_reason_from <$> (app_db_order_state_parts (AppOrder.state o)).2
    = state_failure_reason (AppOrder.state o)).
  { destruct (AppOrder.state o); cbn; by rewrite ?app_failure_reason_roundtrip. }
  destruct (app_db_order_state_parts _) as [[status price] reason]. cbn in *.
  rewrite uuid_parse_roundtrip. cbn. rewrite Htype. cbn. rewrite Hst. cbn.
  rewrite !from_unix_timestamp_roundtrip by done. cbn. rewrite Hreason.
  autorewrite with db_enum. done.
Qed.

(** A position reads back with both its times set to the time it was written. *)
Definition position_in_range (p : AppPosition.t) : Prop :=
  is_datetime (AppPosition.expiry p) /\ 0 <= AppPosition.collateral p < 2 ^ 64 /\
  0 <= AppPosition.order_matching_fees p < 2 ^ 64.
Definition stored_position (now : OffsetDateTime) (p : AppPosition.t) : AppPosition.t :=
  AppPosition.mk (AppPosition.leverage p) (AppPosition.quantity p) (AppPosition.contract_symbol p)
    (AppPosition.direction p) (AppPosition.average_entry_price p) (AppPosition.liquidation_price p)
    (AppPosition.position_state p) (AppPosition.collateral p) (whole_seconds (AppPosition.expiry p))
    (whole_seconds now) (whole_seconds now) (AppPosition.stable p) (AppPosition.order_matching_fees p).

Lemma app_position_row_roundtrip {E} (now : OffsetDateTime) (p : AppPosition.t) :
  is_datetime now -> position_in_range p ->
  app_position_from (E := E) (app_position_row now p) = Ok (stored_position now p).
Proof using Type.
  intros Hnow (He & Hc & Hf). unfold app_position_from, app_position_row. cbn.
  rewrite !from_unix_timestamp_roundtrip by done. cbn.
  rewrite !as_u64_as_i64 by done. autorewrite with db_enum. done.
Qed.

Lemma dlc_message_row_roundtrip {E} (m : DlcMessage.t) : is_datetime (DlcMessage.timestamp m) ->
  AppDlcMessages.message_from_row (E := E) (AppDlcMessages.row_from m) =
  Ok (DlcMessage.mk (DlcMessage.message_hash m) (DlcMessage.inbound m) (DlcMessage.peer_id m)
        (DlcMessage.message_type m) (whole_seconds (DlcMessage.timestamp m))).
Proof.
  intros Ht. unfold AppDlcMessages.message_from_row, AppDlcMessages.row_from. cbn.
  rewrite pk_roundtrip. cbn. rewrite from_unix_timestamp_roundtrip by done. cbn.
  autorewrite with db_enum. done.
Qed.
End RoundTrips.

(** ** The state of an order *)

Lemma update_rows_compose {R} (p : R -> bool) (f g : R -> R) l : (forall x, p (f x) = p x) ->
  update_rows p g (update_rows p f l) = update_rows p (fun x => g (f x)) l.
Proof.
  intros Hf. unfold update_rows. rewrite map_map. apply map_ext. intros x.
  destruct (p x) eqn:Hx; [by rewrite Hf, Hx|by rewrite Hx].
Qed.

Lemma filter_update_rows {R} (p : R -> bool) (f : R -> R) l : (forall x, p (f x) = p x) ->
  List.filter p (update_rows p f l) = map f (List.filter p l).
Proof.
  intros Hf. unfold update_rows. induction l as [|x l IH]; cbn; [done|].
  destruct (p x) eqn:Hx; cbn; [rewrite Hf, Hx; cbn; by f_equal|by rewrite Hx].
Qed.

Section OrderState.

(** The rows of one order, and an update of them. *)
Definition order_rows (order_id : string) (d : AppDb.t) : list AppOrderRow.t :=
  List.filter (AppOrders.is_id order_id) (AppDb.orders d).
Definition update_order (order_id : string) (f : AppOrderRow.t -> AppOrderRow.t) (d : AppDb.t) : AppDb.t :=
  set_table (update_rows (AppOrders.is_id order_id) f (table d)) d.

(** What [update_state] does to the row. *)
Definition set_if {A} (set : A -> AppOrderRow.t -> AppOrderRow.t) (value : option A)
    (r : AppOrderRow.t) : AppOrderRow.t :=
  match value with Some value => set value r | None => r end.
Definition updated_row (order_state : AppDbOrderState.t) (execution_price : option f32)
    (matching_fee : option Amount) (failure_reason : option AppDbFailureReason.t)
    (r : AppOrderRow.t) : AppOrderRow.t :=
  set_if AppOrders.set_failure_reason failure_reason
    (set_if AppOrders.set_matching_fee matching_fee
       (set_if AppOrders.set_execution_price execution_price (AppOrders.set_state order_state r))).

Definition keeps_id (f : AppOrderRow.t -> AppOrderRow.t) : Prop :=
  forall r, AppOrderRow.id (f r) = AppOrderRow.id r.

Lemma keeps_is_id order_id f : keeps_id f ->
  forall r, AppOrders.is_id order_id (f r) = AppOrders.is_id order_id r.
Proof. intros Hf r. unfold AppOrders.is_id. by rewrite Hf. Qed.

Lemma set_if_keeps_id {A} (set : A -> AppOrderRow.t -> AppOrderRow.t) value :
  (forall a, keeps_id (set a)) -> keeps_id (set_if set value).
Proof. intros Hs r. destruct value; [apply Hs|done]. Qed.

Lemma updated_row_keeps_id st price fee reason : keeps_id (updated_row st price fee reason).
Proof. intros r. unfold updated_row. by rewrite !set_if_keeps_id. Qed.

Lemma update_order_rows order_id f d : keeps_id f ->
  order_rows order_id (update_order order_id f d) = map f (order_rows order_id d).
Proof. intros Hf. unfold order_rows. cbn. by apply filter_update_rows, keeps_is_id. Qed.

Lemma update_order_compose order_id f g d : keeps_id f ->
  update_order order_id g (update_order order_id f d) = update_order order_id (fun r => g (f r)) d.
Proof.
  intros Hf. unfold update_order. cbn -[update_rows].
  by rewrite update_rows_compose by (by apply keeps_is_id).
Qed.

Lemma checked_update_run order_id f text d : order_rows order_id d <> [] ->
  checked text (s_update (AppOrders.is_id order_id) f) d = (Ok tt, update_order order_id f d).
Proof.
  unfold order_rows. intros Hne. unfold checked, query, s_update, mbind, M_bind, with_err, lift. cbn -[update_rows].
  unfold some_rows. destruct (List.filter _ (AppDb.orders d)); [done|]. reflexivity.
Qed.

Lemma update_if_run {A} order_id text (set : A -> AppOrderRow.t -> AppOrderRow.t) value d :
  order_rows order_id d <> [] ->
  AppOrders.update_if order_id text set value d = (Ok tt, update_order order_id (set_if set value) d).
Proof.
  intros Hne. destruct value as [a|]; cbn; [by apply checked_update_run|].
  unfold mret, M_ret, update_order, update_rows. f_equal. rewrite (map_ext _ id), map_id.
  - by destruct d.
  - intros x. by destruct (AppOrders.is_id _ x).
Qed.

(** An order that is stored is updated, and its row returned; one that is not
    changes nothing. *)
Lemma update_state_run order_id st price fee reason d r rest : order_rows order_id d = r :: rest ->
  AppOrders.update_state order_id st price fee reason d =
  (Ok (updated_row st price fee reason r), update_order order_id (updated_row st price fee reason) d).
Proof.
  intros Hr. unfold AppOrders.update_state, exclusive_transaction, transaction, mbind, M_bind.
  rewrite checked_update_run by (by rewrite Hr).
  assert (Hst : keeps_id (AppOrders.set_state st)) by done.
  rewrite update_if_run by (by rewrite update_order_rows, Hr).
  rewrite update_order_compose by done.
  rewrite update_if_run by (rewrite update_order_rows, Hr; [done|]; intros x; by rewrite set_if_keeps_id).
  rewrite update_order_compose by (intros x; by rewrite set_if_keeps_id).
  rewrite update_if_run by (rewrite update_order_rows, Hr; [done|]; intros x; by rewrite !set_if_keeps_id).
  rewrite update_order_compose by (intros x; by rewrite !set_if_keeps_id).
  fold (updated_row st price fee reason). unfold query, with_err. rewrite s_first_run.
  pose proof (update_order_rows order_id (updated_row st price fee reason) d
    (updated_row_keeps_id _ _ _ _)) as Hrows.
  unfold order_rows in Hrows at 1. change AppDb.orders with (table (D := AppDb.t) (R := AppOrderRow.t)) in Hrows.
  by rewrite Hrows, Hr.
Qed.

Lemma update_state_missing order_id st price fee reason d : order_rows order_id d = [] ->
  AppOrders.update_state order_id st price fee reason d = (Err (Msg "Could not update order state"), d).
Proof.
  intros Hr. unfold AppOrders.update_state, exclusive_transaction, transaction, mbind, M_bind, checked, query.
  unfold s_update, mbind, M_bind, with_err. cbn -[update_rows]. unfold order_rows in Hr. rewrite Hr. reflexivity.
Qed.
End OrderState.

Section Orders.
Context `{DL : DecimalLib} `{ILaws : IdLaws}.

Lemma order_rows_head order_id d r rest : order_rows order_id d = r :: rest ->
  head (List.filter (AppOrders.is_id order_id) (AppDb.orders d)) = Some r.
Proof using Type. unfold order_rows. by intros ->. Qed.

Lemma get_order_run id d r rest : order_rows (uuid_to_string id) d = r :: rest ->
  db.get_order id d = (map_err db.model_error (Some <$> app_order_try_from r), d).
Proof using Type.
  intros Hr. unfold db.get_order, AppOrders.get, query, mbind, M_bind, with_err.
  rewrite s_optional_first_run. cbn. rewrite (order_rows_head _ _ _ _ Hr). cbn.
  unfold fmap, M_fmap, lift, db.try_into_order. by destruct (app_order_try_from r).
Qed.

Lemma get_order_missing id d : order_rows (uuid_to_string id) d = [] ->
  db.get_order id d = (Ok None, d).
Proof using Type.
  intros Hr. unfold db.get_order, AppOrders.get, query, mbind, M_bind, with_err.
  rewrite s_optional_first_run. cbn. unfold order_rows in Hr. by rewrite Hr.
Qed.

(** [m] leaves the order [id] as [o'], returns it, and touches nothing else. *)
Definition sets_order (id : Uuid) (o' : AppOrder.t) (m : AppResult AppOrder.t) (d : AppDb.t) : Prop :=
  exists d', m d = (Ok o', d') /\ db.get_order id d' = (Ok (Some o'), d') /\
    (forall id', id' <> id -> db.get_order id' d' = (fst (db.get_order id' d), d')) /\
    set_table (R := AppOrderRow.t) [] d' = set_table (R := AppOrderRow.t) [] d.

Lemma update_order_other order_id order_id' f d : keeps_id f -> order_id' <> order_id ->
  order_rows order_id' (update_order order_id f d) = order_rows order_id' d.
Proof using Type.
  intros Hf Hne. unfold order_rows. cbn. unfold update_rows.
  induction (AppDb.orders d) as [|r l IH]; cbn; [done|].
  destruct (AppOrders.is_id order_id r) eqn:Hr.
  - rewrite (keeps_is_id _ _ Hf). unfold AppOrders.is_id in *. simpl_decides. subst.
    by rewrite bool_decide_eq_false_2 by done.
  - by destruct (AppOrders.is_id order_id' r); [f_equal|].
Qed.

Lemma sets_order_update id o' st price fee reason d r rest (m : AppResult AppOrder.t) :
  order_rows (uuid_to_string id) d = r :: rest ->
  m = (order ← AppOrders.update_state (uuid_to_string id) st price fee reason;
       lift (db.try_into_order order)) ->
  app_order_try_from (updated_row st price fee reason r) = Ok o' ->
  sets_order id o' m d.
Proof.
  intros Hr -> Ho. pose proof (updated_row_keeps_id st price fee reason) as Hkeeps.
  exists (update_order (uuid_to_string id) (updated_row st price fee reason) d). split_and!.
  - unfold mbind, M_bind. erewrite update_state_run by done. unfold lift, db.try_into_order. by rewrite Ho.
  - erewrite get_order_run by (rewrite update_order_rows, Hr by done; done). by rewrite Ho.
  - intros id' Hne. assert (Hne' : uuid_to_string id' <> uuid_to_string id) by (by intros ?%uuid_to_string_inj).
    pose proof (update_order_other _ _ _ d Hkeeps Hne') as Hrows.
    destruct (order_rows (uuid_to_string id') d) as [|r' rest'] eqn:Hr'.
    + by rewrite !get_order_missing.
    + by erewrite !get_order_run.
  - done.
Qed.

(** An order of the app with its row. *)
Definition stored_as (id : Uuid) (d : AppDb.t) (r : AppOrderRow.t) (o : AppOrder.t) : Prop :=
  order_rows (uuid_to_string id) d = [r] /\ app_order_try_from r = Ok o.

(** A row reads as before after an update, but for its state. *)
Lemma updated_row_reads r o st price fee reason state' :
  app_order_try_from r = Ok o ->
  derive_order_state st (AppOrderRow.execution_price (updated_row st price fee reason r))
    (AppOrderRow.matching_fee_sats (updated_row st price fee reason r))
    (AppOrderRow.failure_reason (updated_row st price fee reason r)) = Ok state' ->
  app_order_try_from (updated_row st price fee reason r) =
  Ok (AppOrder.mk (AppOrder.id o) (AppOrder.leverage o) (AppOrder.quantity o)
        (AppOrder.contract_symbol o) (AppOrder.direction o) (AppOrder.order_type o) state'
        (AppOrder.creation_timestamp o) (AppOrder.order_expiry_timestamp o) (AppOrder.reason o)
        (AppOrder.stable o)
        (app_failure_reason_from <$> AppOrderRow.failure_reason (updated_row st price fee reason r))).
Proof using Type.
  intros Ho Hst. unfold app_order_try_from in Ho. inv_ok. subst o. cbn.
  unfold app_order_try_from.
  destruct price, fee, reason; cbn in *; repeat match goal with
    | H : uuid_parse_str _ = _ |- _ => rewrite H; clear H; cbn
    | H : app_order_type_try_from _ = _ |- _ => rewrite H; clear H; cbn
    | H : from_unix_timestamp _ = _ |- _ => rewrite H; clear H; cbn
    | H : derive_order_state _ _ _ _ = Ok state' |- _ => rewrite H; clear H; cbn end; done.
Qed.

(** Each of the functions that set the state of an order changes that order
    only, to the state asked for, and returns what a later [get_order] reads.  An
    order that fails keeps the price and fee it was matched at. *)
Theorem order_state_updates (id : Uuid) (d : AppDb.t) (r : AppOrderRow.t) (o : AppOrder.t)
    (price : f32) (fee : Amount) (reason : FailureReason)
    (Hstored : stored_as id d r o) (Hfee : 0 <= fee < 2 ^ 64) :
  let known := app_failure_reason_from <$> AppOrderRow.failure_reason r in
  sets_order id (AppOrder.with_failure_reason known (AppOrder.with_state AppOrderState.Open o))
    (db.set_order_state_to_open id) d /\
  sets_order id (AppOrder.with_failure_reason known
      (AppOrder.with_state (AppOrderState.Filling price fee) o))
    (db.set_order_state_to_filling id price fee) d /\
  sets_order id (AppOrder.with_failure_reason known
      (AppOrder.with_state (AppOrderState.Filled price fee) o))
    (db.set_order_state_to_filled id price fee) d /\
  sets_order id (AppOrder.with_failure_reason (Some reason)
      (AppOrder.with_state (AppOrderState.Failed (AppOrderRow.execution_price r)
         (as_u64 <$> AppOrderRow.matching_fee_sats r) reason) o))
    (db.set_order_state_to_failed id (app_db_failure_reason_from reason) None) d.
Proof.
  destruct Hstored as [Hr Ho]. split_and!.
  - eapply sets_order_update; [done|reflexivity|].
    by erewrite (updated_row_reads r o) by (done || reflexivity).
  - eapply sets_order_update; [done|reflexivity|].
    erewrite (updated_row_reads r o); [done|done|]. cbn. by rewrite as_u64_as_i64.
  - eapply sets_order_update; [done|reflexivity|].
    erewrite (updated_row_reads r o); [done|done|]. cbn. by rewrite as_u64_as_i64.
  - eapply sets_order_update; [done|reflexivity|].
    erewrite (updated_row_reads r o); [|done|reflexivity]. cbn. by rewrite app_failure_reason_roundtrip.
Qed.
End Orders.

(** ** The order in filling *)

Section Filling.
Context `{DL : DecimalLib} `{IL : IdLib}.

#[local] Instance by_creation_desc_order : CmpOrder db.by_creation_desc.
Proof using Type.
  split; unfold not_after, db.by_creation_desc.
  - intros x y. apply Z.compare_antisym.
  - intros x y z. rewrite !Z.compare_gt_iff. lia.
Qed.

(** What cleaning an order up makes of its row. *)
Definition timed_out (r : AppOrderRow.t) : AppOrderRow.t :=
  updated_row AppDbOrderState.Failed (AppOrderRow.execution_price r) None
    (Some AppDbFailureReason.TimedOut) r.

Definition timed_out_if (p : AppOrderRow.t -> bool) (l : list AppOrderRow.t) : list AppOrderRow.t :=
  map (fun r => if p r then timed_out r else r) l.

Definition unique_orders (d : AppDb.t) : Prop := NoDup (map AppOrderRow.id (AppDb.orders d)).
Definition has_id_in (l : list AppOrderRow.t) (r : AppOrderRow.t) : bool :=
  bool_decide (AppOrderRow.id r ∈ map AppOrderRow.id l).

Lemma unique_id (l : list AppOrderRow.t) r r' : NoDup (map AppOrderRow.id l) -> r ∈ l -> r' ∈ l ->
  AppOrderRow.id r = AppOrderRow.id r' -> r = r'.
Proof using Type.
  induction l as [|x l IH]; [by intros _ ?%elem_of_nil|]. cbn. intros [Hx Hl]%NoDup_cons.
  intros [->|Hr]%elem_of_cons [->|Hr']%elem_of_cons Heq; auto.
  - destruct Hx. rewrite Heq. by apply list_elem_of_fmap_2.
  - destruct Hx. rewrite <-Heq. by apply list_elem_of_fmap_2.
Qed.

Lemma fail_filling_order_run (r : AppOrderRow.t) (d : AppDb.t) : unique_orders d -> r ∈ AppDb.orders d ->
  db.fail_filling_order r d =
  (Ok tt, set_table (timed_out_if (has_id_in [r]) (AppDb.orders d)) d).
Proof using Type.
  intros Hd Hr. unfold db.fail_filling_order, db.or_log, AppOrders.set_order_state_to_failed.
  destruct (order_rows (AppOrderRow.id r) d) as [|r' rest] eqn:Hrows.
  { exfalso. apply list_elem_of_In in Hr. assert (Hin : In r (order_rows (AppOrderRow.id r) d)).
    { apply filter_In. split; [done|]. by apply bool_decide_eq_true. }
    by rewrite Hrows in Hin. }
  erewrite update_state_run by done. f_equal. unfold update_order. f_equal.
  unfold update_rows, timed_out_if. apply map_ext_in. intros x Hx%list_elem_of_In.
  unfold AppOrders.is_id, has_id_in. cbn. rewrite (bool_decide_ext _ (AppOrderRow.id x ∈ [AppOrderRow.id r])).
  2: { by rewrite list_elem_of_singleton. }
  case_bool_decide as Hid; [|done]. apply list_elem_of_singleton in Hid.
  by rewrite (unique_id _ _ _ Hd Hx Hr Hid).
Qed.

Lemma timed_out_ids p l : map AppOrderRow.id (timed_out_if p l) = map AppOrderRow.id l.
Proof using Type.
  unfold timed_out_if. rewrite map_map. apply map_ext. intros r. destruct (p r); [|done].
  apply updated_row_keeps_id.
Qed.

Lemma timed_out_id r : AppOrderRow.id (timed_out r) = AppOrderRow.id r.
Proof using Type. apply updated_row_keeps_id. Qed.

Lemma timed_out_not_filling r : AppOrders.is_state AppDbOrderState.Filling (timed_out r) = false.
Proof using Type. unfold timed_out, updated_row. by destruct (AppOrderRow.execution_price r). Qed.

Lemma timed_out_cons r rest l : AppOrderRow.id r ∉ map AppOrderRow.id rest ->
  timed_out_if (has_id_in rest) (timed_out_if (has_id_in [r]) l) = timed_out_if (has_id_in (r :: rest)) l.
Proof using Type.
  intros Hr. unfold timed_out_if. rewrite map_map. apply map_ext. intros x.
  assert (Hcons : has_id_in (r :: rest) x = has_id_in [r] x || has_id_in rest x).
  { unfold has_id_in. rewrite <-bool_decide_or. apply bool_decide_ext. cbn [map].
    by rewrite list_elem_of_singleton, elem_of_cons. }
  rewrite Hcons. destruct (has_id_in [r] x) eqn:Hx; [|done].
  unfold has_id_in in *. rewrite timed_out_id. simpl_decides. apply list_elem_of_singleton in Hx.
  rewrite Hx. by rewrite bool_decide_eq_false_2.
Qed.

Lemma clean_up_run (rest : list AppOrderRow.t) : forall d, unique_orders d ->
  NoDup (map AppOrderRow.id rest) -> rest ⊆ AppDb.orders d ->
  for_each db.fail_filling_order rest d =
  (Ok tt, set_table (timed_out_if (has_id_in rest) (AppDb.orders d)) d).
Proof using Type.
  induction rest as [|r rest IH]; intros d Hd Hnd Hsub; cbn [for_each].
  { unfold mret, M_ret, timed_out_if, has_id_in. cbn. rewrite map_id. by destruct d. }
  apply NoDup_cons in Hnd as [Hr Hnd]. unfold mbind, M_bind.
  rewrite fail_filling_order_run; [|done|apply Hsub; left]. rewrite IH; [|..|done|].
  - cbn -[timed_out_if]. by rewrite timed_out_cons.
  - unfold unique_orders. cbn. by rewrite timed_out_ids.
  - intros x Hx. cbn -[timed_out_if]. apply list_elem_of_fmap. exists x.
    unfold has_id_in. rewrite bool_decide_eq_false_2.
    + split; [done|]. by apply Hsub; right.
    + cbn [map]. rewrite list_elem_of_singleton. intros Heq. apply Hr. rewrite <-Heq. by apply list_elem_of_fmap_2.
Qed.

Lemma filter_ids (p : AppOrderRow.t -> bool) l :
  NoDup (map AppOrderRow.id l) -> NoDup (map AppOrderRow.id (List.filter p l)).
Proof using Type.
  intros Hl. eapply sublist_NoDup; [exact Hl|]. apply fmap_sublist.
  clear Hl. induction l as [|x l IH]; cbn; [done|]. destruct (p x); by constructor.
Qed.

Lemma filter_timed_out (q : AppOrderRow.t -> bool) l :
  let filling := AppOrders.is_state AppDbOrderState.Filling in
  List.filter filling (timed_out_if (fun r => filling r && negb (q r)) l) =
  List.filter (fun r => filling r && q r) l.
Proof using Type.
  intros filling. induction l as [|x l IH]; [done|]. unfold timed_out_if. cbn [map List.filter].
  destruct (filling x) eqn:Hx; cbn [andb]; cbv match; [|rewrite ?Hx; exact IH].
  cbn [andb]. destruct (q x); cbn [negb]; cbv match; [rewrite ?Hx; f_equal; exact IH|].
  rewrite timed_out_not_filling. exact IH.
Qed.

Lemma filter_unique (p : AppOrderRow.t -> bool) l order : NoDup (map AppOrderRow.id l) -> In order l ->
  p order = true ->
  List.filter (fun r => p r && bool_decide (AppOrderRow.id r = AppOrderRow.id order)) l = [order].
Proof using Type.
  intros Hl Hin Hp. induction l as [|x l IH]; [done|]. cbn in *. apply NoDup_cons in Hl as [Hx Hl].
  destruct Hin as [->|Hin].
  - rewrite Hp, bool_decide_eq_true_2 by done. cbn. f_equal. clear IH Hl.
    induction l as [|y l IH]; cbn in *; [done|].
    rewrite bool_decide_eq_false_2 by (intros Heq; apply Hx; rewrite Heq; left). rewrite andb_false_r.
    apply IH. intros H. apply Hx. by right.
  - rewrite bool_decide_eq_false_2, andb_false_r; [by apply IH|].
    intros Heq. apply Hx. rewrite Heq. by apply list_elem_of_fmap_2, list_elem_of_In.
Qed.

(** Of several orders in [Filling] the app goes on with the one created last.
    All others become [Failed] and time out, and nothing else changes, so one order
    is left in [Filling]. *)
Theorem get_order_in_filling_spec (d d' : AppDb.t) (r : outcome Anyhow (option AppOrder.t))
    (Hd : unique_orders d) (Hrun : db.get_order_in_filling d = (r, d')) :
  let filling := List.filter (AppOrders.is_state AppDbOrderState.Filling) (AppDb.orders d) in
  (filling = [] /\ r = Ok None /\ d' = d) \/
  exists order, In order filling /\
    (forall other, In other filling ->
       AppOrderRow.creation_timestamp other <= AppOrderRow.creation_timestamp order) /\
    r = (Some <$> db.try_into_order order) /\
    d' = set_table (timed_out_if (fun o => AppOrders.is_state AppDbOrderState.Filling o
           && negb (bool_decide (AppOrderRow.id o = AppOrderRow.id order))) (AppDb.orders d)) d /\
    List.filter (AppOrders.is_state AppDbOrderState.Filling) (AppDb.orders d') = [order].
Proof using Type.
  cbn. set (filling := List.filter _ _). unfold db.get_order_in_filling, query, AppOrders.get_by_state, mbind,
    M_bind, with_err, s_load, gets in Hrun. cbn in Hrun. fold filling in Hrun.
  pose proof (sort_by_permutation db.by_creation_desc filling) as Hperm.
  destruct (sort_by db.by_creation_desc filling) as [|order rest] eqn:Hsort.
  { left. symmetry in Hperm. apply Permutation_nil_r in Hperm. injection Hrun as <- <-. done. }
  right. exists order. pose proof (sort_by_head _ _ _ _ Hsort) as Hhead.
  assert (Hin : forall o, In o filling <-> o = order \/ o ∈ rest).
  { intros o. by rewrite <-list_elem_of_In, <-Hperm, elem_of_cons. }
  assert (Hfilling : forall o, In o filling <-> In o (AppDb.orders d) /\ AppOrders.is_state AppDbOrderState.Filling o = true)
    by (intros o; apply filter_In).
  assert (Hids : NoDup (map AppOrderRow.id (order :: rest))).
  { rewrite Hperm. by apply filter_ids. }
  cbn in Hids. apply NoDup_cons in Hids as [Horder Hrest].
  rewrite clean_up_run in Hrun; [|done..|].
  2: { intros o Ho. apply list_elem_of_In, Hfilling, Hin. by right. }
  assert (Hcleaned : timed_out_if (has_id_in rest) (AppDb.orders d) =
    timed_out_if (fun o => AppOrders.is_state AppDbOrderState.Filling o
      && negb (bool_decide (AppOrderRow.id o = AppOrderRow.id order))) (AppDb.orders d)).
  { apply map_ext_in. intros o Ho. enough (Hb : has_id_in rest o = AppOrders.is_state AppDbOrderState.Filling o
      && negb (bool_decide (AppOrderRow.id o = AppOrderRow.id order))) by by rewrite Hb.
    apply eq_true_iff_eq. unfold has_id_in.
    rewrite andb_true_iff, negb_true_iff, bool_decide_eq_true, bool_decide_eq_false. split.
    - intros (y & Hid & Hy)%list_elem_of_fmap. assert (Hy' : In y filling) by (apply Hin; by right).
      apply Hfilling in Hy' as [Hy' Hstate].
      rewrite (unique_id (AppDb.orders d) o y) by (done || by apply list_elem_of_In).
      split; [done|]. intros Heq. apply Horder. rewrite <-Heq. by apply list_elem_of_fmap_2.
    - intros [Hstate Hne]. assert (Ho' : In o filling) by by apply Hfilling.
      apply Hin in Ho' as [->|Ho']; [done|]. by apply list_elem_of_fmap_2. }
  rewrite Hcleaned in Hrun. unfold fmap, M_fmap, lift in Hrun.
  split_and!.
  - apply Hin. by left.
  - intros o [->|Ho]%Hin; [done|]. rewrite Forall_forall in Hhead. apply Hhead in Ho.
    unfold not_after, db.by_creation_desc in Ho. rewrite Z.compare_gt_iff in Ho. lia.
  - by destruct (db.try_into_order order); injection Hrun as <- _.
  - by destruct (db.try_into_order order); injection Hrun as _ <-.
  - assert (Hd' : AppDb.orders d' = timed_out_if (fun o => AppOrders.is_state AppDbOrderState.Filling o
      && negb (bool_decide (AppOrderRow.id o = AppOrderRow.id order))) (AppDb.orders d))
      by (destruct (db.try_into_order order); by injection Hrun as _ <-).
    rewrite Hd', filter_timed_out. apply filter_unique; [done|apply Hfilling, Hin; by left..].
Qed.
End Filling.

(** ** Positions *)

Lemma filter_all {R} (l : list R) : List.filter (fun _ => true) l = l.
Proof. induction l; cbn; congruence. Qed.

Section Positions.
Context `{DL : DecimalLib} `{IL : IdLib}.

Lemma get_positions_run d rows positions : AppDb.positions d = rows ->
  Forall2 (fun row p => app_position_from (E := Anyhow) row = Ok p) rows positions ->
  db.get_positions d = (Ok positions, d).
Proof using Type.
  intros Hrows Hp. unfold db.get_positions, rows_into, query, AppPositions.get_all, s_load, mbind, M_bind,
    with_err, gets, lift. cbn. rewrite Hrows.
  rewrite filter_all.
  apply traverse_ok in Hp. by rewrite Hp.
Qed.

(** A position is stored as it is, up to the fractions of its times, except
    that the time of its creation is lost: storing an update of a position writes
    the time of the update as the time the position was created. *)
Theorem update_position_resets_creation (now : OffsetDateTime) (p old : AppPosition.t) (d : AppDb.t)
    (Hold : db.get_positions d = (Ok [old], d)) (Hnow : is_datetime now) (Hp : position_in_range p) :
  exists d' p', db.update_position now p d = (Ok tt, d') /\ db.get_positions d' = (Ok [p'], d') /\
    p' = stored_position now p /\ AppPosition.created p' = AppPosition.updated p' /\
    AppPosition.created p' = whole_seconds now.
Proof using Type.
  assert (exists row, AppDb.positions d = [row]) as [row Hrow].
  { unfold db.get_positions, rows_into, query, mbind, M_bind, with_err, lift in Hold. cbn in Hold.
    rewrite filter_all in Hold. injection Hold as Hold%traverse_ok%Forall2_length.
    destruct (AppDb.positions d) as [|row [|]]; [done| |done]. by exists row. }
  exists (set_table [app_position_row now p] d), (stored_position now p). split_and!; [| |done|done|done].
  - unfold db.update_position, AppPositions.update_position, checked, query, s_update, mbind, M_bind.
    cbn -[app_position_row]. by rewrite Hrow.
  - eapply get_positions_run; [done|]. constructor; [|done]. by apply app_position_row_roundtrip.
Qed.
End Positions.

(** ** Evaluated *)

(** An order that was matched at 21,000 for a fee of 3,000, in a database with
    another, older order being filled. *)
Definition demo_stored_order : AppOrder.t := demo_app_order 100 Short.
Definition demo_filling_order (id creation_timestamp : Z) : AppOrderRow.t :=
  AppOrderRow.mk (uuid_to_string (IdLib := demo_id) id) (f32_of_Z 2) (f32_of_Z 100)
    AppDbContractSymbol.BtcUsd AppDbDirection.Long AppDbOrderType.Market AppDbOrderState.Filling
    creation_timestamp None (Some (f32_of_Z 20000)) None 90 AppDbOrderReason.Manual false (Some 2500).
Definition demo_app_db : AppDb.t :=
  AppDb.mk [app_order_row (IL := demo_id) demo_stored_order; demo_filling_order 71 40; demo_filling_order 72 60]
    [app_position_row 0 demo_app_position] [] [] [] [] [] [] [] [].

Example order_state_updates_witness :
  sets_order (IL := demo_id) 70
    (AppOrder.with_failure_reason (Some TimedOut)
      (AppOrder.with_state (AppOrderState.Failed (Some (f32_of_Z 21000)) (Some 3000) TimedOut)
        (stored_order demo_stored_order)))
    (db.set_order_state_to_failed (IL := demo_id) 70 AppDbFailureReason.TimedOut None) demo_app_db.
Proof.
  refine (proj2 (proj2 (proj2 (order_state_updates (ILaws := demo_id_laws) 70 demo_app_db
    (app_order_row (IL := demo_id) demo_stored_order) (stored_order demo_stored_order)
    (f32_of_Z 21000) 3000 TimedOut _ _)))).
  - split; [reflexivity|]. apply app_order_row_roundtrip.
    split_and!; [done|done|]. intros fee [= <-]. lia.
  - lia.
Defined.

Example get_order_in_filling_spec_witness :
  exists r d', db.get_order_in_filling (IL := demo_id) demo_app_db = (r, d') /\
    List.filter (AppOrders.is_state AppDbOrderState.Filling) (AppDb.orders d') = [demo_filling_order 72 60].
Proof.
  destruct (db.get_order_in_filling (IL := demo_id) demo_app_db) as [r d'] eqn:Hrun.
  exists r, d'. split; [done|].
  destruct (get_order_in_filling_spec (IL := demo_id) demo_app_db d' r) as [(Hnil & _)|(o & Ho & Hmax & _ & _ & Hd')].
  - vm_compute. repeat constructor; rewrite ?elem_of_cons, ?elem_of_nil; intros Hin;
      repeat destruct Hin as [Hin|Hin]; done.
  - exact Hrun.
  - discriminate Hnil.
  - rewrite Hd'. f_equal.
    assert (Hf : List.filter (AppOrders.is_state AppDbOrderState.Filling) (AppDb.orders demo_app_db)
      = [demo_filling_order 71 40; demo_filling_order 72 60]) by reflexivity.
    rewrite Hf in Ho, Hmax. destruct Ho as [<-|[<-|[]]]; [|done].
    specialize (Hmax (demo_filling_order 72 60) (or_intror (or_introl eq_refl))). cbn in Hmax. lia.
Defined.

Example update_position_resets_creation_witness :
  exists d' p', db.update_position (10 * NANOS_PER_SEC) demo_app_position demo_app_db = (Ok tt, d') /\
    db.get_positions d' = (Ok [p'], d') /\ AppPosition.created p' = 10 * NANOS_PER_SEC.
Proof.
  destruct (update_position_resets_creation (10 * NANOS_PER_SEC) demo_app_position
    (stored_position 0 demo_app_position) demo_app_db) as (d' & p' & ? & ? & _ & _ & Hc); [reflexivity|done|done|].
  exists d', p'. split_and!; [done|done|]. by rewrite Hc.
Defined.
