(* ===== verification/AppHandlers.v ===== *)
(** * [mobile/native/src/trade/*/handler.rs]: what the app does with orders, positions and fees

    Handlers over the app's database that publish what they change to the user
    interface.  Those that also look at the DLC channel are in AppNode.v. *)

From stdpp Require Import base list option strings.
From Stdlib Require Import ZArith QArith Lia.
From S2P Require Import Prelude Machine External Demo Commons Sorting AppData AppApply SqlTypes Schema Db.
From S2P Require Import FundingDb Funding Feed Messages Sqlite AppSql AppDb.

#[local] Open Scope Z_scope.

(** ** [event/mod.rs] *)

(** A failed task carries its error instead of the text of it. *)
Module TaskStatus.
Inductive t := Pending | Failed (e : Anyhow) | Success.
End TaskStatus.

Module BackgroundTask.
Inductive t :=
  | Liquidate (status : TaskStatus.t)
  | Expire (status : TaskStatus.t)
  | AsyncTrade (status : TaskStatus.t)
  | Rollover (status : TaskStatus.t)
  | CollabRevert (status : TaskStatus.t)
  | RecoverDlc (status : TaskStatus.t)
  | FullSync (status : TaskStatus.t)
  | CloseChannel (status : TaskStatus.t).
End BackgroundTask.

Module FundingChannelTask.
Inductive t := Pending | Funded | Failed (text : string) | OrderCreated (order_id : string).
End FundingChannelTask.

(** [EventInternal], the events the handlers publish. *)
Module EventInternal.
Inductive t `{DecimalLib} :=
  | OrderUpdateNotification (order : AppOrder.t)
  | PositionUpdateNotification (position : AppPosition.t)
  | PositionCloseNotification (contract_symbol : ContractSymbol)
  | AskPriceUpdateNotification (price : Decimal)
  | BidPriceUpdateNotification (price : Decimal)
  | Authenticated (config : TenTenOneConfig.t)
  | BackgroundNotification (task : BackgroundTask.t)
  | FundingChannelNotification (task : FundingChannelTask.t)
  | LnPaymentReceived (r_hash : string)
  | NewTrade (trade : AppTrade.t)
  | FundingFeeEvent (event : AppFundingFeeEvent.t)
  | NextFundingRate (rate : FundingRate.t).
End EventInternal.

(** The database and what was published. *)
Module AppState.
Record t `{DecimalLib} := mk { db : AppDb.t; published : list EventInternal.t }.
#[global] Arguments mk {_}.
End AppState.

Section Handlers.
Context `{DL : DecimalLib} `{BL : BitcoinLib} `{IL : IdLib}.

Definition AppM (A : Type) : Type := M AppState.t Anyhow A.
Definition stored {A} (m : AppResult A) : AppM A := fun s =>
  let '(r, d) := m (AppState.db s) in (r, AppState.mk d (AppState.published s)).
Definition publish (event : EventInternal.t) : AppM unit := fun s =>
  (Ok tt, AppState.mk (AppState.db s) (AppState.published s ++ [event])).
(** [?] on a result that is not from the database, and [.context(text)?]. *)
Definition attempt {A} (m : outcome string A) : AppM A := lift (map_err Msg m).
Definition context {A} (text : string) (o : option A) : AppM A := lift (ok_or (Msg text) o).

(** ** [trades/handler.rs] and [funding_fee_event/handler.rs] *)

Definition new_trades (trades : list AppTrade.t) : AppM unit :=
  stored (db.insert_trades trades);;
  for_each (fun trade => publish (EventInternal.NewTrade trade)) trades.
Definition get_trades : AppM (list AppTrade.t) := stored db.get_all_trades.

Definition get_funding_fee_events : AppM (list AppFundingFeeEvent.t) :=
  stored db.get_all_funding_fee_events.
Definition handle_unpaid_funding_fee_events (funding_fee_events : list AppFundingFeeEvent.t)
    : AppM (list AppFundingFeeEvent.t) :=
  new_events ← stored (db.insert_unpaid_funding_fee_events funding_fee_events);
  for_each (fun event => publish (EventInternal.FundingFeeEvent event)) new_events;;
  mret new_events.
Definition mark_funding_fee_events_as_paid (now : OffsetDateTime) (contract_symbol : ContractSymbol)
    (since : OffsetDateTime) : AppM unit :=
  stored (db.mark_funding_fee_events_as_paid now contract_symbol since).

(** ** [position/handler.rs]

    [config] is the maintenance margin rate the coordinator sent, if it has; [now]
    the clock. *)

Definition get_positions : AppM (list AppPosition.t) := stored db.get_positions.

Definition publish_position (position : AppPosition.t) : AppM unit :=
  publish (EventInternal.PositionUpdateNotification position).

Definition get_position_matching_order (order : AppOrder.t) : AppM (option AppPosition.t) :=
  positions ← get_positions;
  mret match head positions with
    | Some position =>
      if bool_decide (AppPosition.direction position <> AppOrder.direction order)
         && f32_eqb (AppPosition.quantity position) (AppOrder.quantity order)
      then Some position else None
    | None => None
    end.

Definition update_position_after_order_submitted (submitted_order : AppOrder.t) : AppM unit :=
  position ← get_position_matching_order submitted_order;
  match position with
  | Some position =>
    position ← stored (db.update_position_state (AppPosition.contract_symbol position)
      AppPositionState.Closing);
    publish_position position
  | None => mret tt
  end.

Definition set_position_state (state : AppPositionState.t) : AppM unit :=
  positions ← get_positions;
  match head positions with
  | Some position =>
    position ← stored (db.update_position_state (AppPosition.contract_symbol position) state);
    publish_position position
  | None => mret tt
  end.

Definition handle_renew_offer : AppM unit :=
  positions ← get_positions;
  match head positions with
  | Some position =>
    position ← stored (db.update_position_state (AppPosition.contract_symbol position)
      AppPositionState.Resizing);
    publish_position position
  | None => mret tt
  end.

Section Clock.
Context (config : option f32) (now : OffsetDateTime).

Definition handle_rollover_offer (expiry_timestamp : OffsetDateTime)
    (funding_fee_events : list AppFundingFeeEvent.t) : AppM unit :=
  positions ← get_positions;
  position ← context "No position to roll over" (head positions);
  rate ← attempt (get_maintenance_margin_rate config);
  position ← attempt (apply_funding_fee_events rate now (start_rollover now position expiry_timestamp)
    funding_fee_events);
  stored (db.start_position_rollover now position);;
  publish_position position.

Definition update_position_after_rollover : AppM AppPosition.t :=
  positions ← get_positions;
  position ← context "No position to finish rollover" (head positions);
  let position := finish_rollover now position in
  stored (db.finish_position_rollover now position);;
  publish_position position;;
  mret position.

Definition handle_funding_fee_events (funding_fee_events : list AppFundingFeeEvent.t) : AppM unit :=
  if bool_decide (funding_fee_events = []) then mret tt
  else
    positions ← get_positions;
    position ← context "No position to apply funding fee events" (head positions);
    rate ← attempt (get_maintenance_margin_rate config);
    position ← attempt (apply_funding_fee_events rate now position funding_fee_events);
    stored (db.update_position now position);;
    publish_position position.

Definition update_position_after_dlc_channel_creation_or_update (filled_order : AppOrder.t)
    (expiry : OffsetDateTime) : AppM unit :=
  positions ← get_positions;
  result ←
    match head positions with
    | None =>
      rate ← attempt (get_maintenance_margin_rate config);
      opened ← attempt (new_open rate now filled_order expiry);
      let '(position, trade) := (opened : AppPosition.t * AppTrade.t) in
      stored (db.insert_position now position);;
      mret (position, [trade])
    | Some position =>
      match AppPosition.position_state position with
      | AppPositionState.Resizing =>
        rate ← attempt (get_maintenance_margin_rate config);
        applied ← attempt (apply_order rate now position filled_order expiry);
        let '(position, trades) := (applied : option AppPosition.t * list AppTrade.t) in
        position ← context "Resized position has vanished" position;
        stored (db.update_position now position);;
        mret (position, trades)
      | _ => throw (Msg "Cannot resize position in state")
      end
    end;
  let '(position, trades) := (result : AppPosition.t * list AppTrade.t) in
  new_trades trades;;
  publish_position position.

Definition update_position_after_dlc_closure (filled_order : AppOrder.t) : AppM unit :=
  positions ← get_positions;
  match positions with
  | [] => mret tt
  | position :: _ =>
    rate ← attempt (get_maintenance_margin_rate config);
    applied ← attempt (apply_order rate now position filled_order (AppPosition.expiry position));
    let '(new_position, trades) := (applied : option AppPosition.t * list AppTrade.t) in
    new_trades trades;;
    stored db.delete_positions;;
    publish (EventInternal.PositionCloseNotification BtcUsd)
  end.

Definition price_update (price : Decimal) (direction : Direction) : AppM unit :=
  match direction with
  | Long => mret tt
  | Short => publish (EventInternal.AskPriceUpdateNotification price)
  end.
End Clock.

(** ** [order/handler.rs] *)

Definition ORDER_OUTDATED_AFTER : Z := 5 * 60 * NANOS_PER_SEC.

Definition ui_update (order : AppOrder.t) : AppM unit :=
  publish (EventInternal.OrderUpdateNotification order).

Definition set_order_to_failed_and_update_ui (order_id : Uuid) (failure_reason : FailureReason)
    (execution_price : option f32) : AppM AppOrder.t :=
  order ← stored (db.set_order_state_to_failed order_id (app_db_failure_reason_from failure_reason)
    execution_price);
  ui_update order;;
  mret order.
Definition set_order_to_open_and_update_ui (order_id : Uuid) : AppM AppOrder.t :=
  order ← stored (db.set_order_state_to_open order_id);
  ui_update order;;
  mret order.
Definition set_order_to_filled_and_update_ui (order_id : Uuid) (execution_price : f32)
    (matching_fee : Amount) : AppM AppOrder.t :=
  order ← stored (db.set_order_state_to_filled order_id execution_price matching_fee);
  ui_update order;;
  mret order.
Definition set_order_to_filling_and_update_ui (order_id : Uuid) (execution_price : f32)
    (matching_fee : Amount) : AppM AppOrder.t :=
  order ← stored (db.set_order_state_to_filling order_id execution_price matching_fee);
  ui_update order;;
  mret order.

(** [match order_id { None => get_order_in_filling(), Some(id) => db::get_order(id) }]. *)
Definition find_order (order_id : option Uuid) : AppResult (option AppOrder.t) :=
  match order_id with
  | None => db.get_order_in_filling
  | Some order_id => db.get_order order_id
  end.

(** [.inspect_err(f)]. *)
Definition inspect_err {A} (f : Anyhow -> AppM unit) (m : AppM A) : AppM A := fun s =>
  match m s with
  | (Err e, s') => (Err e, (f e s').2)
  | (r, s') => (r, s')
  end.

Definition order_failed (order_id : option Uuid) (reason : FailureReason) (error : Anyhow) : AppM unit :=
  order ← inspect_err (fun e =>
      publish (EventInternal.BackgroundNotification (BackgroundTask.AsyncTrade (TaskStatus.Failed e))))
    (stored (find_order order_id));
  let task_status := TaskStatus.Failed error in
  let task :=
    match order with
    | Some order =>
      match AppOrder.reason order with
      | AppOrderReason.Manual => BackgroundTask.AsyncTrade task_status
      | AppOrderReason.Expired => BackgroundTask.Expire task_status
      | AppOrderReason.CoordinatorLiquidated | AppOrderReason.TraderLiquidated =>
        BackgroundTask.Expire task_status
      end
    | None => BackgroundTask.Rollover task_status
    end in
  publish (EventInternal.BackgroundNotification task);;
  (match order_id with
   | Some order_id => set_order_to_failed_and_update_ui order_id reason None;; mret tt
   | None => mret tt
   end);;
  with_err (fun _ => Msg "Could not reset position to open") (set_position_state AppPositionState.Open).

Definition order_filling (order_id : Uuid) (execution_price : f32) (matching_fee : Amount)
    : AppM unit := fun s =>
  match set_order_to_filling_and_update_ui order_id execution_price matching_fee s with
  | (Ok _, s') => (Ok tt, s')
  | (Panic, s') => (Panic, s')
  | (Err e, s') =>
    (db.or_log (order_failed (Some order_id) FailedToSetToFilling e);;
     throw (Msg "Failed to set order to filling")) s'
  end.

Definition order_filled (order_id : option Uuid) : AppM AppOrder.t :=
  order ← stored (find_order order_id);
  order ← context "Could not find order" order;
  match order_execution_price order, order_known_matching_fee order with
  | Some execution_price, Some matching_fee =>
    set_order_to_filled_and_update_ui (AppOrder.id order) execution_price matching_fee
  | _, _ => mret order
  end.

(** The conversion of the type of an order of [commons]. *)
Definition app_order_type_of {E} (order : Order.t) : outcome E AppOrderType.t :=
  match Order.order_type order with
  | Market => Ok AppOrderType.Market
  | Limit => price ← expect (d_to_f32 (Order.price order)); Ok (AppOrderType.Limit price)
  end.

Definition async_order_filling (order : Order.t) (filled_with : FilledWith.t) : AppM unit :=
  order_type ← lift (app_order_type_of order);
  average ← lift (filled_with_average_execution_price filled_with);
  execution_price ← lift (expect (d_to_f32 average));
  matching_fee ← lift (filled_with_order_matching_fee filled_with);
  found ← stored (db.get_order (Order.id order));
  order ←
    match found with
    | None =>
      quantity ← lift (expect (d_to_f32 (Order.quantity order)));
      stored (db.insert_order (AppOrder.mk (Order.id order) (Order.leverage order) quantity
        (Order.contract_symbol order) (Order.direction order) order_type
        (AppOrderState.Filling execution_price matching_fee) (Order.timestamp order)
        (Order.expiry order) (AppOrderReason.from_commons (Order.order_reason order))
        (Order.stable order) None))
    | Some order =>
      stored (db.set_order_state_to_filling (AppOrder.id order) execution_price matching_fee);;
      mret (AppOrder.with_state (AppOrderState.Filling execution_price matching_fee) order)
    end;
  publish (EventInternal.OrderUpdateNotification order).

Definition get_orders_for_ui : AppM (list AppOrder.t) := stored db.get_orders_for_ui.

Definition check_open_orders (now : OffsetDateTime) : AppM unit :=
  open_orders ← with_err (fun _ => Msg "Error when loading open orders from database")
    (stored db.maybe_get_open_orders);
  for_each (fun open_order =>
    if AppOrder.creation_timestamp open_order + ORDER_OUTDATED_AFTER <? now then
      order_failed (Some (AppOrder.id open_order)) TimedOut (Msg "Order was not matched within")
    else mret tt) open_orders.
End Handlers.
