(* ===== verification/AppFrames.v ===== *)
(** * What the app's handlers keep

    A relation on the app's database that every statement on orders, positions,
    trades and funding fees respects as the handlers use it ([TradeFrame]) is respected by every handler
    ([handlers_frame]).  Its instances are the invariant that the database is
    well-formed, and that the stored messages are left alone. *)

From stdpp Require Import base list option strings.
From Stdlib Require Import ZArith QArith Lia.
From S2P Require Import Prelude Machine External Demo Commons Sorting AppData AppApply SqlTypes Schema Db.
From S2P Require Import Funding Messages Sqlite AppSql AppDb AppHandlers.

#[local] Open Scope Z_scope.

(** ** The interface *)

(** The columns an order in a state is read back from ([derive_order_state]). *)
Definition has_columns (state : AppDbOrderState.t) (execution_price matching_fee : bool) : bool :=
  match state with
  | AppDbOrderState.Filling => execution_price
  | AppDbOrderState.Filled => execution_price && matching_fee
  | _ => true
  end.
Definition is_some {A} (o : option A) : bool := match o with Some _ => true | None => false end.

(** The row of an order has a value in every column that is read back. *)
Definition row_complete (r : AppOrderRow.t) : bool :=
  has_columns (AppOrderRow.state r) (is_some (AppOrderRow.execution_price r))
    (is_some (AppOrderRow.matching_fee_sats r)) &&
  match AppOrderRow.order_type r with
  | AppDbOrderType.Market => true
  | AppDbOrderType.Limit => is_some (AppOrderRow.limit_price r)
  end.

Class TradeFrame (F : AppDb.t -> AppDb.t -> Prop) : Prop := {
  frame_preorder :: PreOrder F;
  update_order_frame order_id state price fee reason :
    has_columns state (is_some price) (is_some fee) = true ->
    steps F (AppOrders.update_state order_id state price fee reason);
  insert_order_frame (r : AppOrderRow.t) : row_complete r = true -> steps F (s_insert r);
  update_position_frame (p : AppPositionRow.t -> bool) f : steps F (s_update p f);
  insert_position_frame (r : AppPositionRow.t) : steps F (s_insert r);
  delete_position_frame (p : AppPositionRow.t -> bool) : steps F (s_delete p);
  insert_trades_frame (l : list AppTradeRow.t) : steps F (s_insert_all l);
  insert_fee_frame (r : AppFundingFeeEventRow.t) : steps F (s_insert_or_ignore r);
  update_fee_frame (p : AppFundingFeeEventRow.t -> bool) f : steps F (s_update p f);
}.

Lemma or_log_frame {S E A} (F : S -> S -> Prop) (m : M S E A) : steps F m -> steps F (db.or_log m).
Proof. intros Hm d. specialize (Hm d). unfold db.or_log. by destruct (m d) as [[] ?]. Qed.

(** A row is complete exactly when its state and its type are read back. *)
Lemma row_complete_reads (r : AppOrderRow.t) :
  row_complete r =
  is_ok (derive_order_state (AppOrderRow.state r) (AppOrderRow.execution_price r)
           (AppOrderRow.matching_fee_sats r) (AppOrderRow.failure_reason r)) &&
  is_ok (app_order_type_try_from (AppOrderRow.order_type r, AppOrderRow.limit_price r)).
Proof.
  unfold row_complete. f_equal.
  - destruct (AppOrderRow.state r), (AppOrderRow.execution_price r); try done;
      by destruct (AppOrderRow.matching_fee_sats r).
  - by destruct (AppOrderRow.order_type r), (AppOrderRow.limit_price r).
Qed.

Lemma app_order_row_complete `{IdLib} (o : AppOrder.t) : row_complete (app_order_row o) = true.
Proof.
  unfold app_order_row, row_complete, order_execution_price, order_known_matching_fee.
  by destruct (AppOrder.order_type o), (AppOrder.state o).
Qed.

Lemma updated_row_complete state price fee reason r :
  has_columns state (is_some price) (is_some fee) = true -> row_complete r = true ->
  row_complete (updated_row state price fee reason r) = true.
Proof.
  unfold row_complete. intros Hc [_ Ht]%andb_prop. apply andb_true_intro. split.
  - by destruct state, price, fee, reason.
  - by destruct price, fee, reason.
Qed.

(** [update_state] updates the rows of the order as one statement does, or nothing. *)
Lemma update_state_steps (F : AppDb.t -> AppDb.t -> Prop) `{!PreOrder F} order_id state price fee reason :
  (forall d, F d (update_order order_id (updated_row state price fee reason) d)) ->
  steps F (AppOrders.update_state order_id state price fee reason).
Proof.
  intros HF d. destruct (order_rows order_id d) as [|r rest] eqn:Hr.
  - rewrite update_state_missing by done. reflexivity.
  - erewrite update_state_run by done. apply HF.
Qed.

Section Statements.
Context (F : AppDb.t -> AppDb.t -> Prop) `{!PreOrder F} {R : Type} `{!InDb AppDb.t R}.

Lemma s_load_frame (p : R -> bool) : steps F (s_load p).
Proof. apply steps_gets, _. Qed.
Lemma s_first_frame (p : R -> bool) : steps F (s_first p).
Proof. apply steps_bind; [apply _|apply s_load_frame|]. intros l. apply steps_lift, _. Qed.
Lemma s_optional_frame {A} (m : AppQuery A) : steps F m -> steps F (s_optional m).
Proof using Type. intros Hm d. specialize (Hm d). unfold s_optional. by destruct (m d) as [[|[]|] ?]. Qed.
Lemma exclusive_transaction_frame {E A} (m : M AppDb.t E A) : steps F m -> steps F (exclusive_transaction m).
Proof.
  intros Hm d. specialize (Hm d). unfold exclusive_transaction, transaction.
  by destruct (m d) as [[] ?].
Qed.
End Statements.

#[export] Hint Extern 1 (has_columns _ _ _ = true) => reflexivity : sql.
#[export] Hint Resolve app_order_row_complete : sql.
#[export] Hint Resolve s_load_frame s_first_frame s_optional_frame exclusive_transaction_frame
  or_log_frame update_order_frame insert_order_frame update_position_frame insert_position_frame
  delete_position_frame insert_trades_frame insert_fee_frame update_fee_frame : sql.

Ltac unfold_queries :=
  unfold db.insert_order, db.set_order_state_to_failed, db.set_order_state_to_open, db.get_order,
    db.get_orders_for_ui, db.get_filled_orders, db.maybe_get_open_orders, db.get_last_failed_order,
    db.set_order_state_to_filled, db.set_order_state_to_filling, db.get_order_in_filling,
    db.delete_order, db.insert_position, db.get_position, db.get_positions,
    db.delete_positions, db.update_position_state, db.update_position, db.start_position_rollover,
    db.finish_position_rollover, db.get_all_trades, db.insert_trades, db.get_all_funding_fee_events,
    db.mark_funding_fee_events_as_paid, rows_into, checked, query, AppOrders.insert,
    AppOrders.set_order_state_to_failed, AppOrders.set_order_state_to_open,
    AppOrders.set_order_state_to_filling, AppOrders.set_order_state_to_filled,
    AppOrders.get, AppOrders.get_without_rejected_and_initial, AppOrders.get_by_state,
    AppOrders.delete, AppPositions.insert, AppPositions.get_all, AppPositions.get_position,
    AppPositions.update_state, AppPositions.start_rollover, AppPositions.finish_rollover,
    AppPositions.update_position, AppPositions.delete_all, AppTrades.get_all, AppTrades.insert,
    AppFundingFeeEvents.insert, AppFundingFeeEvents.mark_as_paid, AppFundingFeeEvents.get_all.

Ltac frame_queries := unfold_queries; solve_steps.

(** ** The queries *)

Section Queries.
Context `{DL : DecimalLib} `{BL : BitcoinLib} `{IL : IdLib}.
Context (F : AppDb.t -> AppDb.t -> Prop) `{!TradeFrame F}.

Lemma fail_filling_frame order : steps F (db.fail_filling_order order).
Proof using TradeFrame0. apply or_log_frame. by apply update_order_frame. Qed.
#[local] Hint Resolve fail_filling_frame : sql.

Lemma insert_unpaid_frame events : steps F (db.insert_unpaid_funding_fee_events events).
Proof using TradeFrame0.
  induction events as [|e events IH]; cbn [db.insert_unpaid_funding_fee_events]; [apply steps_ret, _|].
  assert (Hi : steps F (AppFundingFeeEvents.insert e)) by frame_queries.
  intros d. specialize (Hi d). destruct (AppFundingFeeEvents.insert e d) as [[event| |] d']; cbn in *; [| |done].
  - etrans; [exact Hi|]. exact (steps_fmap F _ _ IH d').
  - etrans; [exact Hi|]. exact (IH d').
Qed.

Lemma find_order_frame order_id : steps F (find_order order_id).
Proof using TradeFrame0. destruct order_id; cbn; frame_queries. Qed.

Lemma db_frame :
  (forall o, steps F (db.insert_order o)) /\
  (forall id reason price, steps F (db.set_order_state_to_failed id reason price)) /\
  (forall id, steps F (db.set_order_state_to_open id)) /\
  (forall id price fee, steps F (db.set_order_state_to_filled id price fee)) /\
  (forall id price fee, steps F (db.set_order_state_to_filling id price fee)) /\
  (forall id, steps F (db.get_order id)) /\ steps F db.get_order_in_filling /\
  steps F db.get_orders_for_ui /\ steps F db.maybe_get_open_orders /\
  (forall now p, steps F (db.insert_position now p)) /\ steps F db.get_positions /\
  steps F db.delete_positions /\
  (forall symbol st, steps F (db.update_position_state symbol st)) /\
  (forall now p, steps F (db.update_position now p)) /\
  (forall now p, steps F (db.start_position_rollover now p)) /\
  (forall now p, steps F (db.finish_position_rollover now p)) /\
  (forall trades, steps F (db.insert_trades trades)) /\
  (forall now symbol since, steps F (db.mark_funding_fee_events_as_paid now symbol since)).
Proof using TradeFrame0. split_and!; frame_queries. Qed.
End Queries.

(** ** The handlers *)

Section OnState.
Context `{DL : DecimalLib} (F : AppDb.t -> AppDb.t -> Prop) `{!PreOrder F}.

Definition on_state (s s' : AppState.t) : Prop := F (AppState.db s) (AppState.db s').
#[global] Instance on_state_preorder : PreOrder on_state.
Proof. split; unfold on_state; [intros s; reflexivity|intros s s' s''; apply transitivity]. Qed.

Lemma stored_frame {A} (m : AppResult A) : steps F m -> steps on_state (stored m).
Proof using Type. intros Hm s. specialize (Hm (AppState.db s)). unfold stored. by destruct (m _). Qed.

Lemma publish_frame e : steps on_state (publish e).
Proof. intros s. unfold on_state. cbn. reflexivity. Qed.

Lemma inspect_err_frame {A} f (m : AppM A) :
  (forall e, steps on_state (f e)) -> steps on_state m -> steps on_state (inspect_err f m).
Proof.
  intros Hf Hm s. specialize (Hm s). unfold inspect_err. destruct (m s) as [[a|e|] s']; cbn in *; [exact Hm| |exact Hm].
  etrans; [exact Hm|]. apply Hf.
Qed.
End OnState.

#[export] Hint Resolve stored_frame inspect_err_frame insert_unpaid_frame : sql.
#[export] Hint Extern 3 (steps (on_state _) _) => (apply publish_frame; apply _) : sql.

Ltac frame_handlers :=
  unfold set_order_to_failed_and_update_ui, set_order_to_open_and_update_ui,
    set_order_to_filled_and_update_ui, set_order_to_filling_and_update_ui, find_order, ui_update,
    publish_position, get_positions, context, attempt, new_trades, set_position_state,
    get_position_matching_order;
  solve_steps.

Section Handlers.
Context `{DL : DecimalLib} `{BL : BitcoinLib} `{IL : IdLib}.
Context (F : AppDb.t -> AppDb.t -> Prop) `{!TradeFrame F}.

Lemma order_failed_frame order_id reason error : steps (on_state F) (order_failed order_id reason error).
Proof using TradeFrame0.
  destruct (db_frame F) as (?&?&?&?&?&?&?&?&?&?&?&?&?&?&?&?&?&?).
  unfold order_failed, set_position_state. frame_handlers;
    (apply inspect_err_frame; [apply _|intros; apply publish_frame, _|auto using stored_frame]).
Qed.

Lemma handlers_frame (config : option f32) (now : OffsetDateTime) :
  (forall order_id reason error, steps (on_state F) (order_failed order_id reason error)) /\
  (forall order_id price fee, steps (on_state F) (order_filling order_id price fee)) /\
  (forall order_id, steps (on_state F) (order_filled order_id)) /\
  (forall order filled_with, steps (on_state F) (async_order_filling order filled_with)) /\
  steps (on_state F) (check_open_orders now) /\
  (forall state, steps (on_state F) (set_position_state state)) /\
  (forall order, steps (on_state F) (update_position_after_order_submitted order)) /\
  steps (on_state F) handle_renew_offer /\
  (forall expiry events, steps (on_state F) (handle_rollover_offer config now expiry events)) /\
  steps (on_state F) (update_position_after_rollover now) /\
  (forall events, steps (on_state F) (handle_funding_fee_events config now events)) /\
  (forall order expiry, steps (on_state F)
     (update_position_after_dlc_channel_creation_or_update config now order expiry)) /\
  (forall order, steps (on_state F) (update_position_after_dlc_closure config now order)) /\
  (forall trades, steps (on_state F) (new_trades trades)) /\
  (forall events, steps (on_state F) (handle_unpaid_funding_fee_events events)) /\
  (forall symbol since, steps (on_state F) (mark_funding_fee_events_as_paid now symbol since)).
Proof using TradeFrame0.
  destruct (db_frame F) as (?&?&?&?&?&?&?&?&?&?&?&?&?&?&?&?&?&?).
  pose proof order_failed_frame. pose proof (find_order_frame F). split_and!.
  - done.
  - intros order_id price fee s. unfold order_filling.
    assert (Hset : steps (on_state F) (set_order_to_filling_and_update_ui order_id price fee)) by frame_handlers.
    specialize (Hset s). destruct (set_order_to_filling_and_update_ui _ _ _ s) as [[a|e|] s']; cbn in *; [done| |done].
    etrans; [exact Hset|].
    assert (Hf : steps (on_state F) (db.or_log (order_failed (Some order_id) FailedToSetToFilling e);;
      throw (A := unit) (Msg "Failed to set order to filling"))) by solve_steps.
    exact (Hf s').
  - unfold order_filled. frame_handlers.
  - unfold async_order_filling. frame_handlers.
  - unfold check_open_orders. frame_handlers. apply steps_for_each; [apply _|].
    intros o. destruct (_ <? _); [auto|apply steps_ret, _].
  - frame_handlers.
  - unfold update_position_after_order_submitted. frame_handlers.
  - unfold handle_renew_offer. frame_handlers.
  - unfold handle_rollover_offer. frame_handlers.
  - unfold update_position_after_rollover. frame_handlers.
  - unfold handle_funding_fee_events. frame_handlers.
  - unfold update_position_after_dlc_channel_creation_or_update. frame_handlers.
  - unfold update_position_after_dlc_closure. frame_handlers.
  - frame_handlers.
  - unfold handle_unpaid_funding_fee_events. frame_handlers.
  - unfold mark_funding_fee_events_as_paid. frame_handlers.
Qed.
End Handlers.

(** ** The database stays well-formed *)

(** There is at most one position, an order has one row, and every order reads back. *)
Definition app_db_ok (d : AppDb.t) : Prop :=
  (length (AppDb.positions d) <= 1)%nat /\ unique_orders d /\
  Forall (fun r => row_complete r = true) (AppDb.orders d).
Definition keeps_ok (d d' : AppDb.t) : Prop := app_db_ok d -> app_db_ok d'.

Lemma insert_order_keeps r d : row_complete r = true -> keeps_ok d (s_insert (R := AppOrderRow.t) r d).2.
Proof.
  intros Hr (Hp & Ho & Hc). unfold s_insert. destruct (existsb _ _) eqn:He; [done|]. split_and!; [done| |].
  - unfold unique_orders. cbn. rewrite map_app. apply NoDup_app. split_and!; [done| |by apply NoDup_singleton].
    intros x Hx Heq%list_elem_of_singleton. subst x. apply list_elem_of_fmap in Hx as (r' & Hid & Hr').
    apply not_true_iff_false in He. apply He. apply existsb_exists. exists r'.
    split; [by apply list_elem_of_In|]. by apply bool_decide_eq_true.
  - cbn. apply Forall_app. auto.
Qed.

Lemma update_order_keeps order_id state price fee reason d :
  has_columns state (is_some price) (is_some fee) = true ->
  keeps_ok d (update_order order_id (updated_row state price fee reason) d).
Proof.
  intros Hs (Hp & Ho & Hc). split_and!; [done| |].
  - unfold unique_orders. cbn. unfold update_rows. rewrite map_map. erewrite map_ext; [exact Ho|].
    intros r. cbn. destruct (AppOrders.is_id order_id r); [apply updated_row_keeps_id|done].
  - cbn. unfold update_rows. apply Forall_map. eapply Forall_impl; [exact Hc|]. intros r Hr. cbn.
    destruct (AppOrders.is_id order_id r); [by apply updated_row_complete|done].
Qed.

Lemma insert_position_keeps r d : keeps_ok d (s_insert (R := AppPositionRow.t) r d).2.
Proof.
  intros [Hp Ho]. unfold s_insert. destruct (existsb _ _) eqn:He; [done|]. split; [|done]. cbn.
  rewrite length_app. destruct (AppDb.positions d) as [|r' l] eqn:Hl; [cbn; lia|]. exfalso.
  cbn in He. rewrite Hl in He. cbn in He. unfold conflicts, app_positions_key in He.
  by destruct (AppPositionRow.contract_symbol r), (AppPositionRow.contract_symbol r').
Qed.

#[export] Instance keeps_ok_frame : TradeFrame keeps_ok.
Proof.
  assert (Hpre : PreOrder keeps_ok) by (split; unfold keeps_ok; [intros d|intros d d' d'']; tauto).
  split; [exact Hpre|..].
  - intros id st price fee reason Hs. apply update_state_steps; [done|]. intros d. by apply update_order_keeps.
  - intros r Hr d. by apply insert_order_keeps.
  - intros p f d [Hp Ho]. split; [|done]. cbn. unfold update_rows. by rewrite length_map.
  - intros r d. apply insert_position_keeps.
  - intros p d [Hp Ho]. split; [|done]. cbn. rewrite <-Hp. clear.
    induction (AppDb.positions d); cbn; [done|]. destruct (negb _); cbn; lia.
  - intros l d H. unfold s_insert_all. case_match; exact H.
  - intros r d H. unfold s_insert_or_ignore. case_match; exact H.
  - intros p f d H. exact H.
Qed.

(** ** Stored messages are left alone *)

Definition same_messages (d d' : AppDb.t) : Prop :=
  AppDb.dlc_messages d' = AppDb.dlc_messages d /\
  AppDb.last_outbound_dlc_messages d' = AppDb.last_outbound_dlc_messages d.

#[export] Instance same_messages_frame : TradeFrame same_messages.
Proof.
  assert (Hpre : PreOrder same_messages)
    by (split; unfold same_messages; [done|]; intros d d' d'' [-> ->] [-> ->]; done).
  split; [exact Hpre|..].
  - intros id st price fee reason _. by apply update_state_steps.
  - intros r _ d. unfold s_insert. by case_match.
  - by intros p f d.
  - intros r d. unfold s_insert. by case_match.
  - by intros p d.
  - intros l d. unfold s_insert_all. by case_match.
  - intros r d. unfold s_insert_or_ignore. by case_match.
  - by intros p f d.
Qed.

Section AppDbOk.
Context `{DL : DecimalLib} `{BL : BitcoinLib} `{IL : IdLib}.

(** C11: the app's database stays well-formed under every handler, also when the
    handler fails or panics half-way: at most one position is stored (the one all
    handlers work on), every order has one row, and every order reads back, as the
    columns its state and type need are filled ([row_complete_reads]). *)
Theorem handlers_keep_app_db_ok (config : option f32) (now : OffsetDateTime) :
  (forall order_id reason error, steps (on_state keeps_ok) (order_failed order_id reason error)) /\
  (forall order_id price fee, steps (on_state keeps_ok) (order_filling order_id price fee)) /\
  (forall order_id, steps (on_state keeps_ok) (order_filled order_id)) /\
  (forall order filled_with, steps (on_state keeps_ok) (async_order_filling order filled_with)) /\
  steps (on_state keeps_ok) (check_open_orders now) /\
  (forall state, steps (on_state keeps_ok) (set_position_state state)) /\
  (forall order, steps (on_state keeps_ok) (update_position_after_order_submitted order)) /\
  steps (on_state keeps_ok) handle_renew_offer /\
  (forall expiry events, steps (on_state keeps_ok) (handle_rollover_offer config now expiry events)) /\
  steps (on_state keeps_ok) (update_position_after_rollover now) /\
  (forall events, steps (on_state keeps_ok) (handle_funding_fee_events config now events)) /\
  (forall order expiry, steps (on_state keeps_ok)
     (update_position_after_dlc_channel_creation_or_update config now order expiry)) /\
  (forall order, steps (on_state keeps_ok) (update_position_after_dlc_closure config now order)) /\
  (forall trades, steps (on_state keeps_ok) (new_trades trades)) /\
  (forall events, steps (on_state keeps_ok) (handle_unpaid_funding_fee_events events)) /\
  (forall symbol since, steps (on_state keeps_ok) (mark_funding_fee_events_as_paid now symbol since)).
Proof using Type. apply handlers_frame, _. Qed.
End AppDbOk.
