(* ===== verification/AppHandled.v ===== *)
(** * What the app's handlers achieve

    Funding fees are taken once; an order that was matched is filled at its match;
    a filled order is recorded as the position it leads to and the trades it made. *)

From stdpp Require Import base list option strings.
From Stdlib Require Import ZArith QArith Lia.
From S2P Require Import Prelude Machine External Demo Commons Sorting AppData AppApply SqlTypes Schema Db.
From S2P Require Import Funding Messages Sqlite AppSql AppDb AppHandlers AppFrames.

#[local] Open Scope Z_scope.

(** ** Funding fees are taken once *)

Section FeesOnce.
Context `{DL : DecimalLib} `{BL : BitcoinLib} `{IL : IdLib}.

(** The fee event, or one with its contract symbol and due date, is stored. *)
Definition fee_known (d : AppDb.t) (e : AppFundingFeeEvent.t) : Prop :=
  exists row, unpaid_funding_fee_event_row (E := SqlError) e = Ok row /\
    existsb (conflicts row) (AppDb.funding_fee_events d) = true.

Lemma insert_fee_known e d event d' : AppFundingFeeEvents.insert e d = (Ok event, d') ->
  fee_known d' e /\ (forall e', fee_known d e' -> fee_known d' e') /\
  (fee_known d e -> event = None /\ d' = d).
Proof using Type.
  unfold AppFundingFeeEvents.insert. intros Hi.
  apply M_bind_ok in Hi as (row & d1 & [Hrow ->]%lift_ok & Hi).
  apply M_bind_ok in Hi as (n & d1 & Hins & Hi). unfold s_insert_or_ignore in Hins. cbn in Hins.
  destruct (existsb (conflicts row) (AppDb.funding_fee_events d)) eqn:Hex; injection Hins as <- <-;
    cbn in Hi; injection Hi as <- <-.
  - split_and!; [by exists row|done|done].
  - split_and!.
    + exists row. split; [done|]. cbn. rewrite existsb_app. cbn. unfold conflicts, app_funding_fee_events_key.
      rewrite bool_decide_eq_true_2, Z.eqb_refl by done. by rewrite orb_true_r.
    + intros e' (row' & Hrow' & Hk). exists row'. split; [done|]. cbn. by rewrite existsb_app, Hk.
    + intros (row' & Hrow' & Hk). rewrite Hrow in Hrow'. injection Hrow' as <-. by rewrite Hex in Hk.
Qed.

Lemma insert_fee_no_err e d r d' : AppFundingFeeEvents.insert e d = (Err r, d') -> False.
Proof using Type.
  unfold AppFundingFeeEvents.insert. intros Hi.
  apply M_bind_err in Hi as [Hi|(row & d1 & _ & Hi)].
  - unfold lift in Hi. injection Hi as Hi _. revert Hi. unfold unpaid_funding_fee_event_row. no_err.
  - apply M_bind_err in Hi as [Hi|(n & d2 & _ & Hi)].
    + unfold s_insert_or_ignore in Hi. by destruct (existsb _ _).
    + by destruct (1 <=? n)%nat.
Qed.

Lemma insert_unpaid_known events : forall d new d',
  db.insert_unpaid_funding_fee_events events d = (Ok new, d') ->
  Forall (fee_known d') events /\ (forall e, fee_known d e -> fee_known d' e) /\
  (Forall (fee_known d) events -> new = [] /\ d' = d).
Proof using Type.
  induction events as [|e events IH]; intros d new d' Hrun; cbn [db.insert_unpaid_funding_fee_events] in Hrun.
  { injection Hrun as <- <-. split_and!; [constructor|done|done]. }
  destruct (AppFundingFeeEvents.insert e d) as [[event|err|] d1] eqn:Hi; [| |done].
  2: { by apply insert_fee_no_err in Hi. }
  apply insert_fee_known in Hi as (He & Hkeep & Hnone).
  apply M_fmap_ok in Hrun as (new' & Hrun & ->). apply IH in Hrun as (Hall & Hkeep' & Hnone').
  split_and!; [by constructor; auto|by auto|].
  intros [Hk Hks]%Forall_cons. destruct (Hnone Hk) as [-> ->]. by destruct (Hnone' Hks) as [-> ->].
Qed.

Lemma publish_all_fees (new : list AppFundingFeeEvent.t) : forall s,
  for_each (fun event => publish (EventInternal.FundingFeeEvent event)) new s =
  (Ok tt, AppState.mk (AppState.db s) (AppState.published s ++ map EventInternal.FundingFeeEvent new)).
Proof using Type.
  induction new as [|e new IH]; intros s; cbn [for_each map].
  - rewrite app_nil_r. by destruct s.
  - unfold mbind, M_bind. cbn. rewrite IH. cbn. by rewrite <-app_assoc.
Qed.

(** The coordinator may send the same funding fees again, with an offer that is
    repeated or together with newer ones.  Those the app knows already are not
    returned, so they are not taken from the position a second time; and the second
    message changes and publishes nothing. *)
Theorem unpaid_funding_fees_taken_once (events new : list AppFundingFeeEvent.t) (s s' : AppState.t)
    (Hrun : handle_unpaid_funding_fee_events events s = (Ok new, s')) :
  AppState.published s' = AppState.published s ++ map EventInternal.FundingFeeEvent new /\
  forall again, again ⊆ events -> forall r s'',
    handle_unpaid_funding_fee_events again s' = (Ok r, s'') -> r = [] /\ s'' = s'.
Proof using Type.
  unfold handle_unpaid_funding_fee_events in *.
  assert (Hsplit : forall evs s r s1,
    (new_events ← stored (db.insert_unpaid_funding_fee_events evs);
     for_each (fun event => publish (EventInternal.FundingFeeEvent event)) new_events;;
     mret new_events) s = (Ok r, s1) ->
    exists d, db.insert_unpaid_funding_fee_events evs (AppState.db s) = (Ok r, d) /\
      s1 = AppState.mk d (AppState.published s ++ map EventInternal.FundingFeeEvent r)).
  { intros evs s0 r s1 H. apply M_bind_ok in H as (r' & s2 & Hst & H). unfold stored in Hst.
    destruct (db.insert_unpaid_funding_fee_events evs (AppState.db s0)) as [r2 d] eqn:Hi.
    injection Hst as -> <-. unfold mbind, M_bind in H. rewrite publish_all_fees in H. injection H as <- <-.
    by exists d. }
  apply Hsplit in Hrun as (d & Hins & ->). apply insert_unpaid_known in Hins as (Hknown & _ & _).
  split; [done|]. intros again Hsub r s'' H. apply Hsplit in H as (d' & Hins & ->). cbn in *.
  apply insert_unpaid_known in Hins as (_ & _ & Hnone).
  destruct Hnone as [-> ->]. { apply Forall_forall. intros e He. rewrite Forall_forall in Hknown. auto. }
  split; [done|]. by rewrite app_nil_r.
Qed.
End FeesOnce.

(** ** A matched order is filled at its match *)

(** Computations that leave the orders alone. *)
Definition same_orders (d d' : AppDb.t) : Prop := AppDb.orders d' = AppDb.orders d.
#[export] Instance same_orders_preorder : PreOrder same_orders.
Proof. split; unfold same_orders; [done|]. intros d d' d'' -> ->. done. Qed.

Section Matched.
Context `{DL : DecimalLib} `{BL : BitcoinLib} `{ILaws : IdLaws}.

Lemma set_position_state_same_orders st : steps (on_state same_orders) (set_position_state st).
Proof using Type.
  assert (Hu : forall (p : AppPositionRow.t -> bool) f, steps same_orders (s_update p f)) by by intros p f d.
  frame_handlers; apply stored_frame; frame_queries.
Qed.

(** Setting the state of a stored order. *)
Lemma set_state_run id st price fee reason s r o o' (m : AppResult AppOrder.t) :
  stored_as id (AppState.db s) r o ->
  m = (order ← AppOrders.update_state (uuid_to_string id) st price fee reason;
       lift (db.try_into_order order)) ->
  app_order_try_from (updated_row st price fee reason r) = Ok o' ->
  exists s', (order ← stored m; ui_update order;; mret order) s = (Ok o', s') /\
    stored_as id (AppState.db s') (updated_row st price fee reason r) o' /\
    AppState.published s' = AppState.published s ++ [EventInternal.OrderUpdateNotification o'].
Proof using Type.
  intros [Hr Ho] -> Ho'. eexists. split_and!; cycle 1.
  - split; [|exact Ho'].
    instantiate (1 := AppState.mk (update_order (uuid_to_string id) (updated_row st price fee reason)
      (AppState.db s)) _). cbn [AppState.db].
    rewrite update_order_rows by apply updated_row_keeps_id. by rewrite Hr.
  - reflexivity.
  - unfold mbind, M_bind, stored. erewrite update_state_run by done. unfold lift, db.try_into_order.
    by rewrite Ho'.
Qed.

Lemma stored_as_same id d d' r o : same_orders d d' -> stored_as id d r o -> stored_as id d' r o.
Proof using Type. intros Hd [Hr Ho]. split; [|done]. unfold order_rows. by rewrite Hd. Qed.

Lemma order_filled_run id s r o price fee : stored_as id (AppState.db s) r o ->
  AppOrder.id o = id -> 0 <= fee < 2 ^ 64 ->
  order_execution_price o = Some price -> order_known_matching_fee o = Some fee ->
  exists s', order_filled (Some id) s =
    (Ok (AppOrder.with_failure_reason (app_failure_reason_from <$> AppOrderRow.failure_reason r)
       (AppOrder.with_state (AppOrderState.Filled price fee) o)), s').
Proof using Type.
  intros Hst Hid Hfee Hprice Hmfee. pose proof Hst as [Hr Ho].
  destruct (set_state_run id AppDbOrderState.Filled (Some price) (Some fee) None s r o
    (AppOrder.with_failure_reason (app_failure_reason_from <$> AppOrderRow.failure_reason r)
       (AppOrder.with_state (AppOrderState.Filled price fee) o))
    (db.set_order_state_to_filled id price fee) Hst eq_refl) as (s' & Hrun & _ & _).
  { erewrite (updated_row_reads r o); [reflexivity|done|]. cbn. by rewrite as_u64_as_i64. }
  exists s'. unfold order_filled, find_order, stored at 1, mbind at 1, M_bind at 1.
  erewrite get_order_run by done. rewrite Ho.
  change (map_err db.model_error (Some <$> Ok o)) with (Ok (E := Anyhow) (Some o)).
  cbv beta iota. unfold context, lift, mbind at 1, M_bind at 1. cbn [ok_or]. cbv beta iota.
  rewrite Hprice, Hmfee, Hid. unfold set_order_to_filled_and_update_ui.
  destruct s. exact Hrun.
Qed.

(** Once the app has recorded what an order was matched at, the order is filled
    at that price and fee; also if the order was set to failed in between, because
    the protocol was interrupted and is then completed after all. *)
Theorem matched_order_is_filled_at_match (id : Uuid) (s : AppState.t) (r : AppOrderRow.t)
    (o : AppOrder.t) (price : f32) (fee : Amount)
    (Hstored : stored_as id (AppState.db s) r o) (Hid : AppOrder.id o = id) (Hfee : 0 <= fee < 2 ^ 64) :
  exists s1, order_filling id price fee s = (Ok tt, s1) /\
    (exists filled s2, order_filled (Some id) s1 = (Ok filled, s2) /\
       AppOrder.state filled = AppOrderState.Filled price fee) /\
    (forall reason error s2, order_failed (Some id) reason error s1 = (Ok tt, s2) ->
       exists filled s3, order_filled (Some id) s2 = (Ok filled, s3) /\
         AppOrder.state filled = AppOrderState.Filled price fee).
Proof.
  destruct (set_state_run id AppDbOrderState.Filling (Some price) (Some fee) None s r o
    (AppOrder.with_failure_reason (app_failure_reason_from <$> AppOrderRow.failure_reason r)
       (AppOrder.with_state (AppOrderState.Filling price fee) o))
    (db.set_order_state_to_filling id price fee) Hstored eq_refl) as (s1 & Hrun & Hst1 & _).
  { destruct Hstored as [_ Ho]. erewrite (updated_row_reads r o); [reflexivity|done|]. cbn. by rewrite as_u64_as_i64. }
  exists s1. split_and!.
  - unfold order_filling, set_order_to_filling_and_update_ui. by rewrite Hrun.
  - destruct (order_filled_run id s1 _ _ price fee Hst1) as [s2 Hf]; [done..|]. by eexists _, s2.
  - intros reason error s2 Hfail. unfold order_failed in Hfail.
    apply M_bind_ok in Hfail as (found & s1' & Hfind & Hfail).
    assert (s1' = s1) as ->.
    { unfold inspect_err, stored, find_order in Hfind. destruct Hst1 as [Hr1 Ho1].
      erewrite get_order_run in Hfind by done. rewrite Ho1 in Hfind. cbn in Hfind.
      injection Hfind as _ <-. by destruct s1. }
    apply M_bind_ok in Hfail as ([] & s1' & Hpub & Hfail). cbn in Hpub. injection Hpub as <-.
    set (s1p := AppState.mk _ _) in Hfail.
    change (AppState.db s1) with (AppState.db s1p) in Hst1. pose proof Hst1 as [_ Ho1].
    apply M_bind_ok in Hfail as ([] & s1' & Hset & Hfail).
    apply M_bind_ok in Hset as (o2 & s2' & Hset & Hret). injection Hret as <-.
    destruct (set_state_run id AppDbOrderState.Failed None None (Some (app_db_failure_reason_from reason))
      s1p _ _ (AppOrder.with_failure_reason (Some reason)
       (AppOrder.with_state (AppOrderState.Failed (Some price) (Some fee) reason) o))
      (db.set_order_state_to_failed id (app_db_failure_reason_from reason) None) Hst1 eq_refl)
      as (s3 & Hrun3 & Hst3 & _).
    { erewrite updated_row_reads; [|exact Ho1|reflexivity].
      cbn. by rewrite app_failure_reason_roundtrip, as_u64_as_i64. }
    unfold set_order_to_failed_and_update_ui in Hset. rewrite Hrun3 in Hset. injection Hset as <- <-.
    assert (Hsame : on_state same_orders s3 s2).
    { unfold with_err in Hfail. pose proof (set_position_state_same_orders AppPositionState.Open s3) as Hs.
      destruct (set_position_state AppPositionState.Open s3) as [r3 s4]. cbn in *. by injection Hfail as _ <-. }
    apply (stored_as_same id _ (AppState.db s2)) in Hst3; [|exact Hsame].
    destruct (order_filled_run id s2 _ _ price fee Hst3) as [s5 Hf]; [done..|]. by eexists _, s5.
Qed.
End Matched.

(** ** A filled order is recorded *)

Section Recorded.
Context `{DL : DecimalLib} `{BL : BitcoinLib} `{IL : IdLib}.
Context (config : option f32) (now : OffsetDateTime).

Lemma stored_run {A} (m : AppResult A) s a s' : stored m s = (Ok a, s') <->
  m (AppState.db s) = (Ok a, AppState.db s') /\ AppState.published s' = AppState.published s.
Proof using Type.
  unfold stored. destruct (m (AppState.db s)) as [r d]. destruct s' as [d' p']. cbn. split.
  - by intros [= -> -> ->].
  - by intros [[= -> ->] ->].
Qed.

Lemma get_positions_ok s ps s' : get_positions s = (Ok ps, s') ->
  s' = s /\ Forall2 (fun row p => app_position_from (E := Anyhow) row = Ok p) (AppDb.positions (AppState.db s)) ps.
Proof using Type.
  unfold get_positions, db.get_positions, rows_into, query, AppPositions.get_all, s_load.
  intros [Hr Hp]%stored_run. inv_ok. unfold gets in *. inv_ok. subst. cbn in *.
  rewrite filter_all in *. apply traverse_ok in Hr. split; [|done].
  destruct s, s'; cbn in *. congruence.
Qed.

Lemma publish_all_trades (trades : list AppTrade.t) : forall s,
  for_each (fun trade => publish (EventInternal.NewTrade trade)) trades s =
  (Ok tt, AppState.mk (AppState.db s) (AppState.published s ++ map EventInternal.NewTrade trades)).
Proof using Type.
  induction trades as [|e trades IH]; intros s; cbn [for_each map].
  - rewrite app_nil_r. by destruct s.
  - unfold mbind, M_bind. cbn. rewrite IH. cbn. by rewrite <-app_assoc.
Qed.

Lemma insertable_trades (rows l : list AppTradeRow.t) : insertable rows l = true.
Proof using Type.
  revert l. induction rows as [|r rows IH]; intros l; cbn; [done|]. rewrite IH, andb_true_r.
  apply negb_true_iff. by induction l.
Qed.

(** The trades are appended and published. *)
Lemma new_trades_ok trades s u s' : new_trades trades s = (Ok u, s') ->
  exists rows, Forall2 (fun t row => app_trade_row (E := Anyhow) t = Ok row) trades rows /\
    AppState.db s' = set_table (AppDb.trades (AppState.db s) ++ rows) (AppState.db s) /\
    AppState.published s' = AppState.published s ++ map EventInternal.NewTrade trades.
Proof using Type.
  unfold new_trades. intros (? & s1 & Hst & Hp)%M_bind_ok. rewrite publish_all_trades in Hp.
  injection Hp as _ <-. apply stored_run in Hst as [Hst Hpub]. unfold db.insert_trades in Hst.
  apply M_bind_ok in Hst as (rows & d & [Hrows%traverse_ok ->]%lift_ok & Hst).
  exists rows. split; [done|]. cbn. rewrite Hpub. split; [|done].
  unfold AppTrades.insert, query, s_insert_all, mbind, M_bind, with_err in Hst.
  rewrite insertable_trades in Hst. cbn in Hst. rewrite Nat.leb_refl in Hst. cbn in Hst. by injection Hst as _ <-.
Qed.

(** The position an order leads to, and the trades. *)
Definition applied (s : AppState.t) (order : AppOrder.t) (expiry : OffsetDateTime)
    (position : AppPosition.t) (trades : list AppTrade.t) : Prop :=
  exists rate, get_maintenance_margin_rate (E := string) config = Ok rate /\
  ((AppDb.positions (AppState.db s) = [] /\
    exists trade, trades = [trade] /\ new_open rate now order expiry = Ok (position, trade)) \/
   exists row old, AppDb.positions (AppState.db s) = [row] /\ app_position_from (E := Anyhow) row = Ok old /\
     AppPosition.position_state old = AppPositionState.Resizing /\
     apply_order rate now old order expiry = Ok (Some position, trades)).

(** C7: when a channel was opened or updated, the position is what the filled order
    makes of the one stored before, which must have been about to be resized; the
    trades are added to those stored; and both are published. *)
Theorem filled_order_is_recorded (order : AppOrder.t) (expiry : OffsetDateTime) (s s' : AppState.t)
    (u : unit) (Hok : app_db_ok (AppState.db s))
    (Hrun : update_position_after_dlc_channel_creation_or_update config now order expiry s = (Ok u, s')) :
  exists position trades rows, applied s order expiry position trades /\
    AppDb.positions (AppState.db s') = [app_position_row now position] /\
    AppDb.trades (AppState.db s') = AppDb.trades (AppState.db s) ++ rows /\
    Forall2 (fun t row => app_trade_row (E := Anyhow) t = Ok row) trades rows /\
    AppDb.orders (AppState.db s') = AppDb.orders (AppState.db s) /\
    AppState.published s' = AppState.published s ++ map EventInternal.NewTrade trades
      ++ [EventInternal.PositionUpdateNotification position].
Proof using Type.
  unfold update_position_after_dlc_channel_creation_or_update in Hrun.
  apply M_bind_ok in Hrun as (positions & s1 & Hget & Hrun). apply get_positions_ok in Hget as [-> Hps].
  apply M_bind_ok in Hrun as ([position trades] & s1 & Hres & Hrun).
  apply M_bind_ok in Hrun as (? & s2 & Htrades & Hpub). apply new_trades_ok in Htrades as (rows & Hrows & Hdb & Hpub2).
  unfold publish_position, publish in Hpub. injection Hpub as _ <-.
  exists position, trades, rows.
  assert (Hgoal : applied s order expiry position trades /\
    AppDb.positions (AppState.db s1) = [app_position_row now position] /\
    AppDb.trades (AppState.db s1) = AppDb.trades (AppState.db s) /\
    AppDb.orders (AppState.db s1) = AppDb.orders (AppState.db s) /\
    AppState.published s1 = AppState.published s).
  { destruct Hok as [Hone _].
    destruct (AppDb.positions (AppState.db s)) as [|row [|]] eqn:Hp; [| |cbn in Hone; lia].
    - inversion Hps; subst. cbn in Hres. unfold attempt in Hres.
      apply M_bind_ok in Hres as (rate & ? & [Hrate%map_err_ok ->]%lift_ok & Hres).
      apply M_bind_ok in Hres as ([p t] & ? & [Hopen%map_err_ok ->]%lift_ok & Hres).
      apply M_bind_ok in Hres as (? & s2' & [Hins Hpub1]%stored_run & Hres). injection Hres as -> <- ->.
      unfold db.insert_position, AppPositions.insert, checked, query, s_insert, mbind, M_bind, with_err in Hins.
      cbn in Hins. rewrite Hp in Hins. cbn -[app_position_row] in Hins.
      unfold lift in Hins. injection Hins as _ Hd. rewrite <-Hd. cbn -[app_position_row]. rewrite ?Hp.
      split_and!; try done. exists rate. split; [done|]. left. split; [done|]. by exists t.
    - inversion Hps as [|? old ? ? Hold Hnil]; subst. inversion Hnil; subst. cbn in Hres.
      destruct (AppPosition.position_state old) eqn:Hstate; try discriminate Hres. unfold attempt in Hres.
      apply M_bind_ok in Hres as (rate & ? & [Hrate%map_err_ok ->]%lift_ok & Hres).
      apply M_bind_ok in Hres as ([op ts] & ? & [Happ%map_err_ok ->]%lift_ok & Hres).
      apply M_bind_ok in Hres as (p & ? & [->%ok_or_ok ->]%lift_ok & Hres).
      apply M_bind_ok in Hres as (? & s2' & [Hupd Hpub1]%stored_run & Hres). injection Hres as -> -> ->.
      unfold db.update_position, AppPositions.update_position, checked, query, s_update, mbind, M_bind,
        with_err in Hupd. cbn -[app_position_row] in Hupd. rewrite Hp in Hupd.
      cbn -[app_position_row] in Hupd. unfold lift in Hupd. injection Hupd as _ Hd. rewrite <-Hd. cbn -[app_position_row].
      split_and!; try done. exists rate. split; [done|]. right. by exists row, old. }
  destruct Hgoal as (Happ & Hpos & Htr & Hord & Hpub). split_and!; try done.
  - cbn [AppState.db]. by rewrite Hdb.
  - cbn [AppState.db]. rewrite Hdb. cbn. by rewrite Htr.
  - cbn [AppState.db]. by rewrite Hdb.
  - cbn [AppState.published]. by rewrite Hpub2, Hpub, <-app_assoc.
Qed.
End Recorded.

(** ** Evaluated *)

(** A position that is being resized and an order that is open. *)
Definition demo_open_order : AppOrder.t :=
  AppOrder.with_state AppOrderState.Open (demo_app_order 40 Short).
Definition demo_app_state : AppState.t :=
  AppState.mk (AppDb.mk [app_order_row demo_open_order] [app_position_row 0 demo_app_position]
    [] [] [] [] [] [] [] []) [].
Definition demo_fee_due (due_date : OffsetDateTime) : AppFundingFeeEvent.t :=
  AppFundingFeeEvent.unpaid BtcUsd (d_from_u64 100) Long (d_from_u64 20000) 500 due_date.

Example unpaid_funding_fees_taken_once_witness :
  let first := demo_fee_due (3600 * NANOS_PER_SEC) in
  let second := demo_fee_due (7200 * NANOS_PER_SEC) in
  exists new s', handle_unpaid_funding_fee_events [first; second] demo_app_state = (Ok new, s') /\
    forall r s'', handle_unpaid_funding_fee_events [second] s' = (Ok r, s'') -> r = [] /\ s'' = s'.
Proof.
  intros first second.
  destruct (succeeds (handle_unpaid_funding_fee_events [first; second]) demo_app_state) as (new & s' & Hrun).
  { by vm_compute. }
  exists new, s'. split; [exact Hrun|]. intros r s''.
  apply (proj2 (unpaid_funding_fees_taken_once _ _ _ _ Hrun)). intros x Hx.
  apply list_elem_of_singleton in Hx as ->. right. left.
Defined.

Example matched_order_is_filled_at_match_witness :
  exists s1 filled s2, order_filling 70 (f32_of_Z 21000) 3000 demo_app_state = (Ok tt, s1) /\
    order_filled (Some 70) s1 = (Ok filled, s2) /\
    AppOrder.state filled = AppOrderState.Filled (f32_of_Z 21000) 3000.
Proof.
  destruct (matched_order_is_filled_at_match (ILaws := demo_id_laws) 70 demo_app_state
    (app_order_row demo_open_order) (stored_order demo_open_order) (f32_of_Z 21000) 3000)
    as (s1 & Hrun & (filled & s2 & Hf & Hst) & _).
  - split; [reflexivity|]. apply app_order_row_roundtrip. split_and!; [done|done|]. by intros fee [=].
  - reflexivity.
  - lia.
  - by exists s1, filled, s2.
Defined.

Example filled_order_is_recorded_witness :
  exists position trades s', applied None 9 demo_app_state (demo_app_order 40 Short) 8 position trades /\
    update_position_after_dlc_channel_creation_or_update None 9 (demo_app_order 40 Short) 8 demo_app_state
      = (Ok tt, s') /\
    AppDb.positions (AppState.db s') = [app_position_row 9 position].
Proof.
  destruct (succeeds (update_position_after_dlc_channel_creation_or_update None 9 (demo_app_order 40 Short) 8)
    demo_app_state) as ([] & s' & Hrun). { by vm_compute. }
  destruct (filled_order_is_recorded None 9 (demo_app_order 40 Short) 8 demo_app_state s' tt)
    as (position & trades & rows & Happ & Hpos & _).
  - split_and!; [apply le_n|apply NoDup_singleton|by repeat constructor].
  - exact Hrun.
  - exists position, trades, s'. exact (conj Happ (conj Hrun Hpos)).
Defined.
