(* ===== verification/Settlement.v ===== *)
(** * [coordinator/src/position/models.rs]: what a position is worth

    The profit of a position, the amounts a channel is settled at when a position
    is closed or resized, and the effect of funding fees on its margins; with
    [node/channel.rs: apply_funding_fee_to_channel], which moves the same fees
    between the collateral reserves. *)

From stdpp Require Import base list option strings.
From Stdlib Require Import ZArith QArith Lia.
From S2P Require Import Prelude Machine External Demo Commons Cfd SqlTypes Schema Db PositionsDb.
From S2P Require Import FundingDb Funding.

#[local] Open Scope Z_scope.
#[local] Open Scope decimal_scope.

(** [xxi_node::bitmex_client::Quote], the fields that are read. *)
Module Quote.
Record t `{DecimalLib} := mk { bid_price : Decimal; ask_price : Decimal }.
#[global] Arguments mk {_}.
End Quote.

(** [leverage_long] and [leverage_short]: the leverage of the side that is long,
    or short, when the trader trades in [direction]. *)
Definition leverage_long (direction : Direction) (trader_leverage coordinator_leverage : f32) : f32 :=
  match direction with Long => trader_leverage | Short => coordinator_leverage end.
Definition leverage_short (direction : Direction) (trader_leverage coordinator_leverage : f32) : f32 :=
  match direction with Long => coordinator_leverage | Short => trader_leverage end.

Section Settlement.
Context `{DL : DecimalLib} `{BL : BitcoinLib} `{IL : IdLib}.

(** [lib.rs: compute_relative_contracts]. *)
Definition compute_relative_contracts (contracts : Decimal) (direction : Direction) : Decimal :=
  match direction with Long => contracts | Short => d_neg contracts end.

(** [impl From<Quote> for Price] and [Quote::get_price_for_direction]. *)
Definition price_from_quote (value : Quote.t) : Price.t :=
  Price.mk (Quote.bid_price value) (Quote.ask_price value).
Definition quote_price_for_direction (q : Quote.t) (direction : Direction) : Decimal :=
  get_price_for_direction (price_from_quote q) direction.

(** [Position::is_expired]. *)
Definition is_expired (now : OffsetDateTime) (p : Position.t) : bool :=
  Position.expiry_timestamp p <=? now.

(** [Position::calculate_coordinator_pnl]. *)
Definition calculate_coordinator_pnl (p : Position.t) (quote : Quote.t) : outcome string Z :=
  closing_price ←
    match Position.closing_price p with
    | None => Ok (quote_price_for_direction quote (opposite (Position.trader_direction p)))
    | Some closing_price => expect (d_try_from_f32 closing_price)
    end;
  average_entry_price ←
    ok_or "Failed to convert average entry price to Decimal"%string
      (d_try_from_f32 (Position.average_entry_price p));
  let '(long_leverage, short_leverage) :=
    match Position.trader_direction p with
    | Long => (Position.trader_leverage p, Position.coordinator_leverage p)
    | Short => (Position.coordinator_leverage p, Position.trader_leverage p)
    end in
  let direction := opposite (Position.trader_direction p) in
  long_margin ← calculate_margin average_entry_price (Position.quantity p) long_leverage;
  short_margin ← calculate_margin average_entry_price (Position.quantity p) short_leverage;
  calculate_pnl average_entry_price closing_price (Position.quantity p) direction long_margin
    short_margin.

(** The free function [calculate_coordinator_settlement_amount]. *)
Definition coordinator_settlement_amount (opening_price closing_price : Decimal) (quantity : f32)
    (long_leverage short_leverage : f32) (coordinator_direction : Direction) (matching_fee : Amount)
    : outcome string Z :=
  let close_position_fee := matching_fee in
  long_margin ← calculate_margin opening_price quantity long_leverage;
  short_margin ← calculate_margin opening_price quantity short_leverage;
  total_margin ← expect (amount_add long_margin short_margin);
  pnl ← calculate_pnl opening_price closing_price quantity coordinator_direction long_margin
          short_margin;
  let coordinator_margin :=
    match coordinator_direction with Long => long_margin | Short => short_margin end in
  amount ← d_from_u64 coordinator_margin +! d_from_i64 pnl;
  let amount := d_max amount d_zero in
  amount ← amount +! d_from_u64 close_position_fee;
  amount ← expect (d_to_u64 amount);
  Ok (Z.min amount total_margin).

(** [Position::calculate_coordinator_settlement_amount]. *)
Definition calculate_coordinator_settlement_amount (p : Position.t) (closing_price : Decimal)
    (matching_fee : Amount) : outcome string Z :=
  opening_price ← ok_or "try_from"%string (d_try_from_f32 (Position.average_entry_price p));
  let direction := Position.trader_direction p in
  coordinator_settlement_amount opening_price closing_price (Position.quantity p)
    (leverage_long direction (Position.trader_leverage p) (Position.coordinator_leverage p))
    (leverage_short direction (Position.trader_leverage p) (Position.coordinator_leverage p))
    (opposite direction) matching_fee.

(** The settled amount of a position that lost or won [settled_contracts]: the
    block the two closing cases of the function below share. *)
Definition settle_contracts (position_average_execution_price : f32)
    (trade_average_execution_price : Decimal) (settled_contracts leverage_long leverage_short : f32)
    (position_direction : Direction) (position_trader_margin : Amount) : outcome string Z :=
  opening_price ← decimal_from_f32 position_average_execution_price;
  long_margin ← calculate_margin opening_price settled_contracts leverage_long;
  short_margin ← calculate_margin opening_price settled_contracts leverage_short;
  pnl ← calculate_pnl opening_price trade_average_execution_price settled_contracts
          position_direction long_margin short_margin;
  amount ← i64_add (as_i64 position_trader_margin) pnl;
  Ok (as_u64 (Z.max amount 0)).

(** The free function [calculate_accept_settlement_amount_partial_close]. *)
Definition accept_settlement_amount_partial_close (debug_assertions : bool)
    (position_quantity : f32) (position_direction : Direction)
    (position_average_execution_price position_trader_leverage position_coordinator_leverage : f32)
    (trade_quantity : f32) (trade_direction : Direction) (trade_average_execution_price : Decimal)
    : outcome string Amount :=
  position_contracts ← decimal_from_f32 position_quantity;
  trade_contracts ← decimal_from_f32 trade_quantity;
  let before := compute_relative_contracts position_contracts position_direction in
  let trade := compute_relative_contracts trade_contracts trade_direction in
  after ← before +! trade;
  let leverage_long :=
    leverage_long position_direction position_trader_leverage position_coordinator_leverage in
  let leverage_short :=
    leverage_short position_direction position_trader_leverage position_coordinator_leverage in
  opening_price ← decimal_from_f32 position_average_execution_price;
  position_trader_margin ← calculate_margin opening_price position_quantity position_trader_leverage;
  (* Position reduced. *)
  if d_eqb (d_signum before) (d_signum after) && d_ltb (d_abs after) (d_abs before)
     && negb (d_is_zero after) then
    settle_contracts position_average_execution_price trade_average_execution_price trade_quantity
      leverage_long leverage_short position_direction position_trader_margin
  (* Position changed direction. *)
  else if negb (d_eqb (d_signum before) (d_signum after)) && negb (d_is_zero after) then
    settle_contracts position_average_execution_price trade_average_execution_price
      position_quantity leverage_long leverage_short position_direction position_trader_margin
  (* Position extended. *)
  else if d_eqb (d_signum before) (d_signum after) && d_ltb (d_abs before) (d_abs after) then
    Ok position_trader_margin
  (* Position either fully settled or unchanged. This is a bug. *)
  else if debug_assertions then Panic
  else Err "Invalid parameters for position resizing"%string.

(** [Position::calculate_accept_settlement_amount_partial_close]. *)
Definition calculate_accept_settlement_amount_partial_close (debug_assertions : bool)
    (p : Position.t) (trade_params : TradeParams.t) : outcome string Amount :=
  price ← trade_average_execution_price trade_params;
  accept_settlement_amount_partial_close debug_assertions (Position.quantity p)
    (Position.trader_direction p) (Position.average_entry_price p) (Position.trader_leverage p)
    (Position.coordinator_leverage p) (TradeParams.quantity trade_params)
    (TradeParams.direction trade_params) price.

(** [trade/mod.rs: liquidation_price]. *)
Definition liquidation_price {E} (price leverage : Decimal) (direction : Direction)
    (maintenance_margin : Decimal) : outcome E Decimal :=
  match direction with
  | Long => calculate_long_liquidation_price leverage price maintenance_margin
  | Short => calculate_short_liquidation_price leverage price maintenance_margin
  end.

(** The margin that is left of [margin] after paying [funding_fee]. *)
Definition pay_from_margin {E} (margin funding_fee : Amount) : outcome E Amount :=
  funding_fee ← expect (amount_to_signed funding_fee);
  margin ← expect (amount_to_signed margin);
  new_margin ← expect (signed_sub margin funding_fee);
  Ok (default 0 (signed_to_unsigned new_margin)).

Definition with_coordinator (p : Position.t) (margin : Amount) (leverage liquidation_price : f32)
    : Position.t :=
  Position.mk (Position.id p) (Position.trader p) (Position.contract_symbol p) (Position.quantity p)
    (Position.trader_direction p) (Position.average_entry_price p) (Position.closing_price p)
    (Position.trader_realized_pnl_sat p) (Position.trader_liquidation_price p) liquidation_price
    (Position.trader_margin p) margin (Position.trader_leverage p) leverage
    (Position.position_state p) (Position.order_matching_fees p) (Position.creation_timestamp p)
    (Position.expiry_timestamp p) (Position.update_timestamp p) (Position.temporary_contract_id p)
    (Position.stable p).
Definition with_trader (p : Position.t) (margin : Amount) (leverage liquidation_price : f32)
    : Position.t :=
  Position.mk (Position.id p) (Position.trader p) (Position.contract_symbol p) (Position.quantity p)
    (Position.trader_direction p) (Position.average_entry_price p) (Position.closing_price p)
    (Position.trader_realized_pnl_sat p) liquidation_price
    (Position.coordinator_liquidation_price p) margin (Position.coordinator_margin p) leverage
    (Position.coordinator_leverage p) (Position.position_state p) (Position.order_matching_fees p)
    (Position.creation_timestamp p) (Position.expiry_timestamp p) (Position.update_timestamp p)
    (Position.temporary_contract_id p) (Position.stable p).

(** [Position::apply_funding_fee]. *)
Definition apply_funding_fee {E} (p : Position.t) (funding_fee : FundingFee.t)
    (maintenance_margin_rate : Decimal) : outcome E Position.t :=
  quantity ← decimal_from_f32 (Position.quantity p);
  average_entry_price ← decimal_from_f32 (Position.average_entry_price p);
  match funding_fee with
  | FundingFee.Zero => Ok p
  | FundingFee.CoordinatorPays funding_fee =>
    margin ← pay_from_margin (Position.coordinator_margin p) funding_fee;
    leverage ← calculate_leverage quantity margin average_entry_price;
    price ← liquidation_price average_entry_price leverage
              (opposite (Position.trader_direction p)) maintenance_margin_rate;
    leverage ← f32_from_decimal leverage;
    price ← f32_from_decimal price;
    Ok (with_coordinator p margin leverage price)
  | FundingFee.TraderPays funding_fee =>
    margin ← pay_from_margin (Position.trader_margin p) funding_fee;
    leverage ← calculate_leverage quantity margin average_entry_price;
    price ← liquidation_price average_entry_price leverage (Position.trader_direction p)
              maintenance_margin_rate;
    leverage ← f32_from_decimal leverage;
    price ← f32_from_decimal price;
    Ok (with_trader p margin leverage price)
  end.

(** What the earning party's reserve is after receiving [funding_fee]. *)
Definition add_to_reserve {E} (reserve funding_fee : Amount) : outcome E Amount :=
  funding_fee ← expect (amount_to_signed funding_fee);
  reserve ← expect (amount_to_signed reserve);
  new_reserve ← expect (signed_add reserve funding_fee);
  expect (signed_to_unsigned new_reserve).

(** [Node::apply_funding_fee_to_channel], from the usable balances of the
    coordinator and the trader in the channel. *)
Definition apply_funding_fee_to_channel {E} (reserves : outcome E (Amount * Amount))
    (funding_fee : FundingFee.t) : outcome E (Amount * Amount) :=
  '(collateral_reserve_coordinator, collateral_reserve_trader) ← reserves;
  match funding_fee with
  | FundingFee.Zero => Ok (collateral_reserve_coordinator, collateral_reserve_trader)
  | FundingFee.CoordinatorPays funding_fee =>
    new ← add_to_reserve collateral_reserve_trader funding_fee;
    Ok (collateral_reserve_coordinator, new)
  | FundingFee.TraderPays funding_fee =>
    new ← add_to_reserve collateral_reserve_coordinator funding_fee;
    Ok (new, collateral_reserve_trader)
  end.
End Settlement.

(** ** What is settled *)

Section SettlementTheorems.
Context `{DL : DecimalLib} `{BL : BitcoinLib} `{IL : IdLib}.
Context `{!DecimalLaws DL} `{!BitcoinLaws BL}.

Lemma d_int_u64 z : 0 <= z < 2 ^ 64 -> d_int (d_from_u64 z) z.
Proof. apply dval_from_u64. Qed.

Lemma calculate_margin_range {E} price quantity leverage m :
  calculate_margin (E := E) price quantity leverage = Ok m -> 0 <= m < 2 ^ 64.
Proof.
  unfold calculate_margin. intros Hm. inv_ok. case_match.
  - injection Hm as <-. lia.
  - inv_ok. by eapply amount_from_btc_range.
Qed.

(** The sums of [coordinator_settlement_amount]. *)
Lemma settlement_sum {B} own pnl fee (k : Z -> outcome string B) : 0 <= own < 2 ^ 63 ->
  - own <= pnl -> own + pnl < 2 ^ 63 -> 0 <= fee < 2 ^ 63 ->
  (amount ← d_from_u64 own +! d_from_i64 pnl;
   let amount := d_max amount d_zero in
   amount ← amount +! d_from_u64 fee;
   amount ← expect (d_to_u64 amount);
   k amount) = k (own + pnl + fee).
Proof.
  intros Hown Hge Hlt Hfee.
  destruct (d_add_int (d_from_u64 own) (d_from_i64 pnl) own pnl) as (a & -> & Ha);
    [apply dval_from_u64; lia|apply dval_from_i64; lia|lia|]. cbn.
  pose proof (d_int_max _ _ _ _ Ha d_int_zero) as Hmax.
  rewrite Z.max_l in Hmax by lia.
  destruct (d_add_int (d_max a d_zero) (d_from_u64 fee) (own + pnl) fee) as (b & -> & Hb);
    [done|apply dval_from_u64; lia|lia|]. cbn.
  rewrite (d_to_u64_int _ _ Hb). unfold checked_u64.
  replace (in_u64 _) with true; [done|]. symmetry. apply in_u64_spec. lia.
Qed.

(** Closing a position, the coordinator gets its margin with its profit and the
    matching fee, at most both margins, and never less than the fee (or both
    margins, if they are less); the trader gets what is left of both margins, which
    is the trader's margin less the coordinator's profit and the fee, if that is
    positive. *)
Theorem coordinator_settlement_spec (opening_price closing_price : Decimal)
    (quantity long_leverage short_leverage : f32) (direction : Direction) (fee long short pnl : Z)
    (Hlong : calculate_margin (E := string) opening_price quantity long_leverage = Ok long)
    (Hshort : calculate_margin (E := string) opening_price quantity short_leverage = Ok short)
    (Htotal : long + short < 2 ^ 63) (Hfee : 0 <= fee < 2 ^ 63)
    (Hpnl : calculate_pnl opening_price closing_price quantity direction long short = Ok pnl) :
  let '(own, other) := match direction with Long => (long, short) | Short => (short, long) end in
  exists amount,
    coordinator_settlement_amount opening_price closing_price quantity long_leverage short_leverage
      direction fee = Ok amount /\
    amount = Z.min (own + pnl + fee) (long + short) /\
    Z.min fee (long + short) <= amount /\
    (long + short) - amount = Z.max 0 (other - pnl - fee).
Proof.
  pose proof (calculate_margin_range _ _ _ _ Hlong) as Hl.
  pose proof (calculate_margin_range _ _ _ _ Hshort) as Hs.
  assert (Hwithin := calculate_pnl_within opening_price closing_price quantity long short
    ltac:(lia) ltac:(lia) direction pnl Hpnl).
  unfold coordinator_settlement_amount. rewrite Hlong, Hshort. cbn.
  rewrite amount_add_spec by done. unfold checked_u64.
  replace (in_u64 (long + short)) with true by (symmetry; apply in_u64_spec; lia). cbn.
  rewrite Hpnl. cbn.
  destruct direction; (rewrite settlement_sum by lia); eexists; (split; [reflexivity|lia]).
Qed.

Lemma pay_from_margin_ok {E} margin fee m : 0 <= margin < 2 ^ 64 -> 0 <= fee < 2 ^ 64 ->
  pay_from_margin (E := E) margin fee = Ok m -> m = Z.max 0 (margin - fee).
Proof.
  intros Hm Hf. unfold pay_from_margin. rewrite !amount_to_signed_spec by done. unfold checked_i64.
  destruct (in_i64 fee) eqn:Hfee; [|done]. destruct (in_i64 margin) eqn:Hmargin; [|done]. cbn.
  rewrite signed_sub_spec by done. unfold checked_i64. destruct (in_i64 (margin - fee)) eqn:Hdiff; [|done]. cbn.
  rewrite signed_to_unsigned_spec by done. intros [= <-].
  destruct (0 <=? margin - fee) eqn:Hle; cbn; lia.
Qed.

Lemma add_to_reserve_ok {E} reserve fee r : 0 <= reserve < 2 ^ 64 -> 0 <= fee < 2 ^ 64 ->
  add_to_reserve (E := E) reserve fee = Ok r -> r = reserve + fee.
Proof.
  intros Hr Hf. unfold add_to_reserve. rewrite !amount_to_signed_spec by done. unfold checked_i64.
  destruct (in_i64 fee) eqn:Hfee; [|done]. destruct (in_i64 reserve) eqn:Hres; [|done]. cbn.
  rewrite signed_add_spec by done. unfold checked_i64. destruct (in_i64 (reserve + fee)) eqn:Hsum; [|done]. cbn.
  rewrite signed_to_unsigned_spec by done. case_match; [|done]. by intros [= <-].
Qed.

(** The amounts of the channel: both margins and both reserves. *)
Definition channel_total (p : Position.t) (reserves : Amount * Amount) : Z :=
  Position.coordinator_margin p + Position.trader_margin p + reserves.1 + reserves.2.

(** What a fee takes from the paying side beyond its margin. *)
Definition uncovered (p : Position.t) (fee : FundingFee.t) : Z :=
  match fee with
  | FundingFee.Zero => 0
  | FundingFee.CoordinatorPays f => Z.max 0 (f - Position.coordinator_margin p)
  | FundingFee.TraderPays f => Z.max 0 (f - Position.trader_margin p)
  end.

(** A funding fee leaves the paying side's margin, but not below zero, and
    arrives whole in the other side's reserve, nothing else moving; so the channel
    keeps its total exactly if the margin covers the fee, and otherwise is asked
    for the uncovered part on top of what it holds. *)
Theorem funding_fee_moves_margin_to_reserve (p p' : Position.t) (fee : FundingFee.t)
    (maintenance : Decimal) (rc rt : Amount) (r' : Amount * Amount)
    (Hp : apply_funding_fee (E := string) p fee maintenance = Ok p')
    (Hr : apply_funding_fee_to_channel (E := string) (Ok (rc, rt)) fee = Ok r')
    (Hcm : 0 <= Position.coordinator_margin p < 2 ^ 64)
    (Htm : 0 <= Position.trader_margin p < 2 ^ 64)
    (Hrc : 0 <= rc < 2 ^ 64) (Hrt : 0 <= rt < 2 ^ 64)
    (Hf : match fee with FundingFee.Zero => True
          | FundingFee.CoordinatorPays f | FundingFee.TraderPays f => 0 <= f < 2 ^ 64 end) :
  match fee with
  | FundingFee.Zero => p' = p /\ r' = (rc, rt)
  | FundingFee.CoordinatorPays f =>
    Position.coordinator_margin p' = Z.max 0 (Position.coordinator_margin p - f) /\
    Position.trader_margin p' = Position.trader_margin p /\ r' = (rc, rt + f)
  | FundingFee.TraderPays f =>
    Position.trader_margin p' = Z.max 0 (Position.trader_margin p - f) /\
    Position.coordinator_margin p' = Position.coordinator_margin p /\ r' = (rc + f, rt)
  end /\
  channel_total p' r' = channel_total p (rc, rt) + uncovered p fee.
Proof.
  unfold channel_total. unfold apply_funding_fee in Hp. destruct fee as [|f|f]; cbn in Hr.
  - inv_ok. subst. cbn. split_and!; [done|done|lia].
  - apply outcome_bind_ok in Hr as (new & Hnew%add_to_reserve_ok & [= <-]); [|done..].
    inv_ok. subst. rename select (pay_from_margin _ _ = _) into Hpay.
    apply pay_from_margin_ok in Hpay; [|done..]. cbn. subst. split_and!; [done..|lia].
  - apply outcome_bind_ok in Hr as (new & Hnew%add_to_reserve_ok & [= <-]); [|done..].
    inv_ok. subst. rename select (pay_from_margin _ _ = _) into Hpay.
    apply pay_from_margin_ok in Hpay; [|done..]. cbn. subst. split_and!; [done..|lia].
Qed.

(** ** Partial closes *)

Lemma relative_contracts_int a z direction : d_int a z ->
  d_int (compute_relative_contracts a direction)
    (match direction with Long => z | Short => - z end).
Proof. intros Ha. destruct direction; cbn; [done|by apply d_int_neg]. Qed.

Lemma settle_contracts_ok entry price settled long short direction margin opening ml ms pnl :
  decimal_from_f32 (E := string) entry = Ok opening ->
  calculate_margin (E := string) opening settled long = Ok ml ->
  calculate_margin (E := string) opening settled short = Ok ms ->
  calculate_pnl opening price settled direction ml ms = Ok pnl ->
  0 <= margin < 2 ^ 63 -> - 2 ^ 63 <= pnl -> margin + pnl < 2 ^ 63 ->
  settle_contracts entry price settled long short direction margin = Ok (Z.max 0 (margin + pnl)).
Proof.
  intros Ho Hml Hms Hpnl Hmargin Hge Hlt. unfold settle_contracts.
  rewrite Ho. cbn. rewrite Hml. cbn. rewrite Hms. cbn. rewrite Hpnl. cbn.
  rewrite as_i64_small by lia. unfold i64_add, checked_i64.
  replace (in_i64 _) with true by (symmetry; apply in_i64_spec; lia). cbn.
  unfold as_u64. rewrite Z.mod_small by lia. f_equal. lia.
Qed.

(** On whole numbers of contracts, a trade in the position's direction settles
    the trader's margin; one against it settles the margin with the profit of the
    contracts that go (those of the trade if the position is larger, else the whole
    position), or nothing if that is negative; and a trade that cancels the position
    out is refused. *)
Theorem partial_close_spec debug (pq : f32) pd entry tl cl (tq : f32) td price
    (dq dt : Decimal) (q t : Z) (margin : Amount) (opening : Decimal)
    (Hdq : d_from_f32 pq = Some dq) (Hq : d_int dq q) (Hqpos : 0 < q)
    (Hdt : d_from_f32 tq = Some dt) (Ht : d_int dt t) (Htpos : 0 < t) (Hsum : q + t < 2 ^ 96)
    (Hopening : d_from_f32 entry = Some opening)
    (Hmargin : calculate_margin (E := string) opening pq tl = Ok margin) (Hm63 : margin < 2 ^ 63) :
  let result := accept_settlement_amount_partial_close debug pq pd entry tl cl tq td price in
  let settled := if t <? q then tq else pq in
  if decide (td = pd) then result = Ok margin
  else if q =? t then result = if debug then Panic else Err "Invalid parameters for position resizing"%string
  else forall long short pnl,
    calculate_margin (E := string) opening settled (leverage_long pd tl cl) = Ok long ->
    calculate_margin (E := string) opening settled (leverage_short pd tl cl) = Ok short ->
    calculate_pnl opening price settled pd long short = Ok pnl ->
    - 2 ^ 63 <= pnl -> margin + pnl < 2 ^ 63 ->
    result = Ok (Z.max 0 (margin + pnl)).
Proof.
  intros result settled. subst result. unfold accept_settlement_amount_partial_close.
  pose proof (calculate_margin_range _ _ _ _ Hmargin) as Hrange.
  assert (Hpure : forall x d, d_from_f32 x = Some d -> decimal_from_f32 (E := string) x = Ok d)
    by (intros x d Hd; unfold decimal_from_f32; by rewrite Hd).
  rewrite (Hpure _ _ Hdq), (Hpure _ _ Hdt). cbn [mbind outcome_bind].
  pose proof (relative_contracts_int _ _ pd Hq) as Hb. pose proof (relative_contracts_int _ _ td Ht) as Htr.
  set (b := compute_relative_contracts dq pd) in *. set (tr := compute_relative_contracts dt td) in *.
  set (zb := match pd with Long => q | Short => - q end) in *.
  set (zt := match td with Long => t | Short => - t end) in *.
  assert (Habs : Z.abs (zb + zt) < 2 ^ 96) by (unfold zb, zt; destruct pd, td; lia).
  destruct (d_add_int b tr zb zt Hb Htr Habs) as (a & -> & Ha). cbn [expect mbind outcome_bind].
  rewrite (Hpure _ _ Hopening). cbn [mbind outcome_bind]. rewrite Hmargin. cbn [mbind outcome_bind].
  rewrite (d_int_eqb _ _ _ _ (d_signum_int _ _ Hb) (d_signum_int _ _ Ha)).
  rewrite (d_int_ltb _ _ _ _ (d_int_abs _ _ Ha) (d_int_abs _ _ Hb)).
  rewrite (d_int_ltb _ _ _ _ (d_int_abs _ _ Hb) (d_int_abs _ _ Ha)).
  rewrite (d_int_is_zero _ _ Ha).
  assert (Hopen := Hpure _ _ Hopening).
  destruct (decide (td = pd)) as [->|Hne].
  - assert (zb + zt <> 0 /\ Z.sgn zb = Z.sgn (zb + zt) /\ Z.abs zb < Z.abs (zb + zt)) as (H1 & H2 & H3)
      by (unfold zb, zt; destruct pd; lia).
    rewrite H2, Z.eqb_refl. replace (Z.abs (zb + zt) <? Z.abs zb) with false by lia.
    replace (Z.abs zb <? Z.abs (zb + zt)) with true by lia. done.
  - assert (zt = if decide (0 < zb) then - t else t) as Hzt
      by (unfold zb, zt; destruct pd, td; try done; case_decide; lia).
    assert (Z.abs zb = q) as Hzb by (unfold zb; destruct pd; lia).
    assert (zb <> 0) by lia. clearbody zb zt. clear Hne.
    destruct (q =? t) eqn:Hqt.
    + replace (zb + zt) with 0 by (rewrite Hzt; case_decide; lia). cbn.
      rewrite !andb_false_r. replace (Z.sgn zb =? 0) with false by lia. done.
    + intros long short pnl Hl Hs Hpnl Hge Hlt. replace (zb + zt =? 0) with false
        by (rewrite Hzt; case_decide; lia). cbn [negb]. rewrite !andb_true_r. subst settled.
      destruct (t <? q) eqn:Htq.
      * replace (Z.sgn zb =? Z.sgn (zb + zt)) with true by (rewrite Hzt; case_decide; lia).
        replace (Z.abs (zb + zt) <? Z.abs zb) with true by (rewrite Hzt; case_decide; lia).
        cbn [andb]. apply (settle_contracts_ok _ _ _ _ _ _ _ opening long short); (done || lia).
      * replace (Z.sgn zb =? Z.sgn (zb + zt)) with false by (rewrite Hzt; case_decide; lia).
        cbn [andb negb]. apply (settle_contracts_ok _ _ _ _ _ _ _ opening long short); (done || lia).
Qed.
End SettlementTheorems.

(** ** Evaluated *)

(** A hundred dollars from 20,000 to 21,000 at leverage two: the coordinator is
    short and loses; both margins are 250,000 satoshis. *)
Example coordinator_settlement_spec_witness :
  coordinator_settlement_amount (d_from_u64 20000) (d_from_u64 21000) (f32_of_Z 100) (f32_of_Z 2)
    (f32_of_Z 2) Short 750 = Ok 226940 /\
  (250000 + 250000) - 226940 = Z.max 0 (250000 - -23810 - 750).
Proof.
  assert (Hlong : calculate_margin (E := string) (d_from_u64 20000) (f32_of_Z 100) (f32_of_Z 2)
    = Ok 250000) by by vm_compute.
  assert (Hpnl : calculate_pnl (d_from_u64 20000) (d_from_u64 21000) (f32_of_Z 100) Short 250000 250000
    = Ok (-23810)) by by vm_compute.
  pose proof (coordinator_settlement_spec (DL := demo_decimal) (BL := demo_bitcoin) (d_from_u64 20000) (d_from_u64 21000) (f32_of_Z 100)
    (f32_of_Z 2) (f32_of_Z 2) Short 750 250000 250000 (-23810) Hlong Hlong ltac:(lia) ltac:(lia) Hpnl) as Hspec.
  cbv beta iota in Hspec. destruct Hspec as (amount & Hamount & Heq & _ & Hrest).
  rewrite Hamount. subst amount. split; [reflexivity|exact Hrest].
Defined.

Definition demo_open_position : Position.t :=
  Position.mk (H := demo_id) 1 "alice"%string BtcUsd (f32_of_Z 100) Long (f32_of_Z 20000) None None
    (f32_of_Z 10000) (f32_of_Z 30000) 250000 250000 (f32_of_Z 2) (f32_of_Z 2) PositionState.Open 750
    0 5 0 None false.

(** The fee of 300 is covered, one of 300,000 is not. *)
Example funding_fee_moves_margin_to_reserve_witness :
  exists p', apply_funding_fee (E := string) demo_open_position (FundingFee.TraderPays 300) d_zero = Ok p' /\
    Position.trader_margin p' = 249700 /\
    channel_total p' (1300, 2000) = channel_total demo_open_position (1000, 2000).
Proof.
  assert (Hok : is_ok (apply_funding_fee (E := string) demo_open_position (FundingFee.TraderPays 300)
    d_zero) = true) by by vm_compute.
  destruct (apply_funding_fee demo_open_position (FundingFee.TraderPays 300) d_zero) as [p'| |] eqn:Hp;
    try discriminate Hok.
  destruct (funding_fee_moves_margin_to_reserve demo_open_position p' (FundingFee.TraderPays 300) d_zero
    1000 2000 (1300, 2000) Hp) as [(Hm & _ & _) Htotal]; [by vm_compute|cbn; lia..|].
  exists p'. split_and!; [reflexivity|rewrite Hm; reflexivity|].
  rewrite Htotal. reflexivity.
Defined.

(** A position of a hundred dollars, long; a trade of forty against it. *)
Example partial_close_spec_witness :
  accept_settlement_amount_partial_close true (f32_of_Z 100) Long (f32_of_Z 20000) (f32_of_Z 2)
    (f32_of_Z 2) (f32_of_Z 40) Short (d_from_u64 21000) = Ok 259524.
Proof.
  assert (Hmargin : calculate_margin (E := string) (d_from_u64 20000) (f32_of_Z 100) (f32_of_Z 2)
    = Ok 250000) by by vm_compute.
  assert (Hopening : d_from_f32 (f32_of_Z 20000) = Some (d_from_u64 20000)) by by vm_compute.
  assert (Hdq : d_from_f32 (f32_of_Z 100) = Some (d_from_u64 100)) by by vm_compute.
  assert (Hdt : d_from_f32 (f32_of_Z 40) = Some (d_from_u64 40)) by by vm_compute.
  assert (Hpart : calculate_margin (E := string) (d_from_u64 20000) (f32_of_Z 40) (f32_of_Z 2)
    = Ok 100000) by by vm_compute.
  assert (Hpnl : calculate_pnl (d_from_u64 20000) (d_from_u64 21000) (f32_of_Z 40) Long 100000 100000
    = Ok 9524) by by vm_compute.
  exact (partial_close_spec true (f32_of_Z 100) Long (f32_of_Z 20000) (f32_of_Z 2) (f32_of_Z 2)
    (f32_of_Z 40) Short (d_from_u64 21000) (d_from_u64 100) (d_from_u64 40) 100 40 250000
    (d_from_u64 20000) Hdq ltac:(reflexivity) ltac:(lia) Hdt ltac:(reflexivity) ltac:(lia) ltac:(lia)
    Hopening Hmargin ltac:(lia) 100000 100000 9524 Hpart Hpart Hpnl ltac:(lia) ltac:(lia)).
Defined.
