(* ===== verification/Resize.v ===== *)
(** * [coordinator/src/trade/mod.rs]: how a trade changes a position

    The pure part of the trade executor: what a trade does to an open position
    (the choice of [determine_trade_action]) and the position that results
    ([apply_resize_to_position]). *)

From stdpp Require Import base list option strings.
From Stdlib Require Import ZArith QArith Lia.
From S2P Require Import Prelude Machine External Demo Commons Cfd SqlTypes Schema Db PositionsDb.
From S2P Require Import FundingDb Funding Settlement.

#[local] Open Scope Z_scope.
#[local] Open Scope decimal_scope.

(** [ResizeAction]. *)
Inductive ResizeAction `{DecimalLib} :=
  | Increase (contracts average_execution_price : Decimal)
  | Decrease (contracts average_execution_price : Decimal)
  | ChangeDirection (contracts_new_direction average_execution_price : Decimal).

(** [ResizedPosition]. *)
Module ResizedPosition.
Record t `{DecimalLib} := mk {
  contracts : Decimal;
  coordinator_direction : Direction;
  average_execution_price : Decimal;
  coordinator_liquidation_price : Decimal;
  trader_liquidation_price : Decimal;
  margin_coordinator : Amount;
  margin_trader : Amount;
  collateral_reserve_coordinator : Amount;
  collateral_reserve_trader : Amount;
  realized_pnl : option SignedAmount;
}.
#[global] Arguments mk {_}.
End ResizedPosition.

Section Resize.
Context `{DL : DecimalLib} `{BL : BitcoinLib} `{IL : IdLib}.

(** [margin_trader], [margin_coordinator], [coordinator_leverage_for_trade]. *)
Definition margin_trader {E} (trade_params : TradeParams.t) : outcome E Amount :=
  price ← trade_average_execution_price trade_params;
  calculate_margin price (TradeParams.quantity trade_params) (TradeParams.leverage trade_params).
Definition margin_coordinator {E} (trade_params : TradeParams.t) (coordinator_leverage : f32)
    : outcome E Amount :=
  price ← trade_average_execution_price trade_params;
  calculate_margin price (TradeParams.quantity trade_params) coordinator_leverage.
Definition coordinator_leverage_for_trade : f32 := f32_of_Z 2.

(** The case [ResizeAction::Increase] of [apply_resize_to_position]. *)
Definition apply_increase (order_contracts order_execution_price : Decimal) (position : Position.t)
    (original_coordinator_collateral_reserve original_trader_collateral_reserve
     order_matching_fee : Amount) (maintenance_margin_rate : Decimal)
    : outcome string ResizedPosition.t :=
  quantity ← expect (d_to_f32 order_contracts);
  extra_margin_coordinator ←
    calculate_margin order_execution_price quantity (Position.coordinator_leverage position);
  margin_coordinator ←
    expect (amount_add (Position.coordinator_margin position) extra_margin_coordinator);
  let original_accumulated_order_matching_fees := Position.order_matching_fees position in
  effective_coordinator_collateral_reserve ← ok_or "This should not happen, but alas"%string
    (amount_checked_sub original_coordinator_collateral_reserve
       original_accumulated_order_matching_fees);
  coordinator_collateral_reserve ←
    ok_or "Coordinator does not have enough funds to cover resize margin"%string
      (amount_checked_sub effective_coordinator_collateral_reserve extra_margin_coordinator);
  reserve ← expect (amount_add coordinator_collateral_reserve original_accumulated_order_matching_fees);
  collateral_reserve_coordinator ← expect (amount_add reserve order_matching_fee);
  quantity ← expect (d_to_f32 order_contracts);
  extra_margin_trader ←
    calculate_margin order_execution_price quantity (Position.trader_leverage position);
  margin_trader ← expect (amount_add (Position.trader_margin position) extra_margin_trader);
  collateral_reserve_trader ←
    ok_or "Coordinator does not have enough funds to cover resize margin"%string
      (collateral ← amount_checked_sub original_trader_collateral_reserve order_matching_fee;
       amount_checked_sub collateral extra_margin_trader);
  starting_contracts ← expect (d_from_f32 (Position.quantity position));
  total_contracts ← starting_contracts +! order_contracts;
  starting_average_execution_price ← expect (d_from_f32 (Position.average_entry_price position));
  starting_value ← starting_contracts /! starting_average_execution_price;
  order_value ← order_contracts /! order_execution_price;
  value ← starting_value +! order_value;
  average_execution_price ← total_contracts /! value;
  leverage_coordinator ← expect (d_try_from_f32 (Position.coordinator_leverage position));
  coordinator_liquidation_price ← liquidation_price average_execution_price leverage_coordinator
    (opposite (Position.trader_direction position)) maintenance_margin_rate;
  leverage_trader ← expect (d_try_from_f32 (Position.trader_leverage position));
  trader_liquidation_price ← liquidation_price average_execution_price leverage_trader
    (Position.trader_direction position) maintenance_margin_rate;
  Ok (ResizedPosition.mk total_contracts (opposite (Position.trader_direction position))
        average_execution_price coordinator_liquidation_price trader_liquidation_price
        margin_coordinator margin_trader collateral_reserve_coordinator collateral_reserve_trader
        None).

(** The margins of a position as [(long, short)]. *)
Definition margins_long_short (position : Position.t) : Amount * Amount :=
  match Position.trader_direction position with
  | Long => (Position.trader_margin position, Position.coordinator_margin position)
  | Short => (Position.coordinator_margin position, Position.trader_margin position)
  end.

(** The case [ResizeAction::Decrease]. *)
Definition apply_decrease (order_contracts order_average_execution_price : Decimal)
    (position : Position.t)
    (original_coordinator_collateral_reserve original_trader_collateral_reserve
     order_matching_fee : Amount) : outcome string ResizedPosition.t :=
  position_contracts ← expect (d_try_from_f32 (Position.quantity position));
  total_contracts ← position_contracts -! order_contracts;
  let coordinator_direction := opposite (Position.trader_direction position) in
  position_average_execution_price ← expect (d_try_from_f32 (Position.average_entry_price position));
  trader_liquidation_price ← expect (d_try_from_f32 (Position.trader_liquidation_price position));
  coordinator_liquidation_price ←
    expect (d_try_from_f32 (Position.coordinator_liquidation_price position));
  quantity ← expect (d_to_f32 total_contracts);
  margin_coordinator ← calculate_margin position_average_execution_price quantity
    (Position.coordinator_leverage position);
  margin_trader ← calculate_margin position_average_execution_price quantity
    (Position.trader_leverage position);
  let '(original_margin_long, original_margin_short) := margins_long_short position in
  order_quantity ← expect (d_to_f32 order_contracts);
  realized_pnl_trader ← calculate_pnl position_average_execution_price order_average_execution_price
    order_quantity (Position.trader_direction position) original_margin_long original_margin_short;
  collateral_reserve_coordinator ←
    (margin_decrease ← ok_or "Nonsense margin change for position decrease"%string
       (amount_checked_sub (Position.coordinator_margin position) margin_coordinator);
     reserve ← expect (amount_to_signed original_coordinator_collateral_reserve);
     margin_decrease ← expect (amount_to_signed margin_decrease);
     reserve ← expect (signed_add reserve margin_decrease);
     reserve ← expect (signed_sub reserve realized_pnl_trader);
     reserve ← ok_or "Position decrease leaves coordinator with negative reserve"%string
       (signed_to_unsigned reserve);
     expect (amount_add reserve order_matching_fee));
  collateral_reserve_trader ←
    (margin_decrease ← ok_or "Nonsense margin change for position decrease"%string
       (amount_checked_sub (Position.trader_margin position) margin_trader);
     reserve ← expect (amount_to_signed original_trader_collateral_reserve);
     margin_decrease ← expect (amount_to_signed margin_decrease);
     reserve ← expect (signed_add reserve margin_decrease);
     reserve ← expect (signed_add reserve realized_pnl_trader);
     order_matching_fee ← expect (amount_to_signed order_matching_fee);
     reserve ← expect (signed_sub reserve order_matching_fee);
     ok_or "Position decrease leaves trader with negative reserve"%string (signed_to_unsigned reserve));
  Ok (ResizedPosition.mk total_contracts coordinator_direction position_average_execution_price
        coordinator_liquidation_price trader_liquidation_price margin_coordinator margin_trader
        collateral_reserve_coordinator collateral_reserve_trader (Some realized_pnl_trader)).

(** The case [ResizeAction::ChangeDirection]. *)
Definition apply_change_direction (contracts_new_direction order_average_execution_price : Decimal)
    (position : Position.t)
    (original_coordinator_collateral_reserve original_trader_collateral_reserve
     order_matching_fee : Amount) (maintenance_margin_rate : Decimal)
    : outcome string ResizedPosition.t :=
  let trader_direction := opposite (Position.trader_direction position) in
  let coordinator_direction := opposite trader_direction in
  leverage_trader ← expect (d_try_from_f32 (Position.trader_leverage position));
  trader_liquidation_price ← liquidation_price order_average_execution_price leverage_trader
    trader_direction maintenance_margin_rate;
  leverage_coordinator ← expect (d_try_from_f32 (Position.coordinator_leverage position));
  coordinator_liquidation_price ← liquidation_price order_average_execution_price
    leverage_coordinator (opposite trader_direction) maintenance_margin_rate;
  quantity ← expect (d_to_f32 contracts_new_direction);
  new_margin_coordinator ← calculate_margin order_average_execution_price quantity
    (Position.coordinator_leverage position);
  new_margin_trader ← calculate_margin order_average_execution_price quantity
    (Position.trader_leverage position);
  position_average_execution_price ← expect (d_try_from_f32 (Position.average_entry_price position));
  let '(original_margin_long, original_margin_short) := margins_long_short position in
  realized_pnl_trader ← calculate_pnl position_average_execution_price order_average_execution_price
    (Position.quantity position) (Position.trader_direction position) original_margin_long
    original_margin_short;
  collateral_reserve_trader ←
    (original_reserve ← expect (amount_to_signed original_trader_collateral_reserve);
     closed_margin ← calculate_margin position_average_execution_price (Position.quantity position)
       (Position.trader_leverage position);
     closed_margin ← expect (amount_to_signed closed_margin);
     new_margin ← expect (amount_to_signed new_margin_trader);
     order_matching_fee ← expect (amount_to_signed order_matching_fee);
     reserve ← expect (signed_add original_reserve closed_margin);
     reserve ← expect (signed_sub reserve new_margin);
     reserve ← expect (signed_add reserve realized_pnl_trader);
     reserve ← expect (signed_sub reserve order_matching_fee);
     ok_or "Position direction change leaves trader with negative reserve"%string
       (signed_to_unsigned reserve));
  collateral_reserve_coordinator ←
    (margins ← expect (amount_add (Position.trader_margin position)
                         (Position.coordinator_margin position));
     collateral ← expect (amount_add margins original_coordinator_collateral_reserve);
     total_channel_collateral ← expect (amount_add collateral original_trader_collateral_reserve);
     used ← expect (amount_add collateral_reserve_trader new_margin_trader);
     used ← expect (amount_add used new_margin_coordinator);
     ok_or "Computed negative coordinator collateral reserve"%string
       (amount_checked_sub total_channel_collateral used));
  Ok (ResizedPosition.mk contracts_new_direction coordinator_direction order_average_execution_price
        coordinator_liquidation_price trader_liquidation_price new_margin_coordinator
        new_margin_trader collateral_reserve_coordinator collateral_reserve_trader
        (Some realized_pnl_trader)).

(** [apply_resize_to_position]. *)
Definition apply_resize_to_position (resize_action : ResizeAction) (position : Position.t)
    (original_coordinator_collateral_reserve original_trader_collateral_reserve
     order_matching_fee : Amount) (maintenance_margin_rate : Decimal)
    : outcome string ResizedPosition.t :=
  match resize_action with
  | Increase contracts price =>
    apply_increase contracts price position original_coordinator_collateral_reserve
      original_trader_collateral_reserve order_matching_fee maintenance_margin_rate
  | Decrease contracts price =>
    apply_decrease contracts price position original_coordinator_collateral_reserve
      original_trader_collateral_reserve order_matching_fee
  | ChangeDirection contracts price =>
    apply_change_direction contracts price position original_coordinator_collateral_reserve
      original_trader_collateral_reserve order_matching_fee maintenance_margin_rate
  end.

(** What a trade against an established channel does to the open position. *)
Inductive PositionAction :=
  | Close
  | Resize (resize_action : ResizeAction).

(** The [match (position_contracts, trade_contracts)] of
    [determine_trade_action]. *)
Definition position_action {E} (p t average_execution_price : Decimal) : outcome E PositionAction :=
  sum ← p +! t;
  if d_is_zero sum then Ok Close
  else
    product ← p *! t;
    if negb (d_is_sign_negative product) then Ok (Resize (Increase (d_abs t) average_execution_price))
    else if d_ltb (d_abs t) (d_abs p) then Ok (Resize (Decrease (d_abs t) average_execution_price))
    else
      contracts_new_direction ← d_abs t -! d_abs p;
      Ok (Resize (ChangeDirection (d_abs contracts_new_direction) average_execution_price)).

(** The established-channel case of [determine_trade_action] up to that match. *)
Definition action_on_position {E} (position : Position.t) (trade_params : TradeParams.t)
    : outcome E PositionAction :=
  contracts ← decimal_from_f32 (Position.quantity position);
  let position_contracts := compute_relative_contracts contracts (Position.trader_direction position) in
  contracts ← decimal_from_f32 (TradeParams.quantity trade_params);
  let trade_contracts := compute_relative_contracts contracts (TradeParams.direction trade_params) in
  average_execution_price ← trade_average_execution_price trade_params;
  position_action position_contracts trade_contracts average_execution_price.
End Resize.

(** ** Money is moved, not made *)

Section Conservation.
Context `{DL : DecimalLib} `{BL : BitcoinLib} `{IL : IdLib}.
Context `{!DecimalLaws DL} `{!BitcoinLaws BL}.

(** The amounts of a channel after a resize. *)
Definition resized_total (r : ResizedPosition.t) : Z :=
  ResizedPosition.margin_coordinator r + ResizedPosition.margin_trader r
  + ResizedPosition.collateral_reserve_coordinator r + ResizedPosition.collateral_reserve_trader r.

Definition stored_amount (z : Z) : Prop := 0 <= z < 2 ^ 63.

(** The amounts of a position as they come out of its columns. *)
Definition stored_position (p : Position.t) : Prop :=
  stored_amount (Position.coordinator_margin p) /\ stored_amount (Position.trader_margin p)
  /\ stored_amount (Position.order_matching_fees p).

Lemma pnl_range (position : Position.t) entry price quantity pnl : stored_position position ->
  calculate_pnl entry price quantity (Position.trader_direction position)
    (margins_long_short position).1 (margins_long_short position).2 = Ok pnl ->
  - Position.trader_margin position <= pnl <= Position.coordinator_margin position.
Proof.
  intros (Hc & Ht & _) Hpnl. unfold margins_long_short, stored_amount in *.
  destruct (Position.trader_direction position); apply calculate_pnl_within in Hpnl; cbn in *; lia.
Qed.

Ltac margins :=
  repeat match goal with
  | H : calculate_margin _ _ _ = Ok ?m |- _ =>
    lazymatch goal with
    | _ : 0 <= m < 2 ^ 64 |- _ => fail
    | _ => pose proof (calculate_margin_range _ _ _ _ H)
    end
  end.

Lemma apply_increase_total contracts price p rc rt fee mmr r : stored_position p ->
  stored_amount rc -> stored_amount rt -> stored_amount fee ->
  apply_increase contracts price p rc rt fee mmr = Ok r ->
  ResizedPosition.margin_trader r + ResizedPosition.collateral_reserve_trader r
    = Position.trader_margin p + rt - fee /\
  ResizedPosition.margin_coordinator r + ResizedPosition.collateral_reserve_coordinator r
    = Position.coordinator_margin p + rc + fee /\
  ResizedPosition.realized_pnl r = None.
Proof.
  unfold stored_position, stored_amount. intros (Hcm & Htm & Hacc) Hrc Hrt Hfee Hr.
  unfold apply_increase in Hr. inv_ok. margins.
  match goal with H : (_ ≫= _) = Some _ |- _ => apply bind_Some in H as (? & ? & ?) end.
  amounts. subst. cbn. split_and!; (done || lia).
Qed.

Lemma apply_decrease_total contracts price p rc rt fee r : stored_position p ->
  stored_amount rc -> stored_amount rt -> stored_amount fee ->
  apply_decrease contracts price p rc rt fee = Ok r ->
  exists pnl, - Position.trader_margin p <= pnl <= Position.coordinator_margin p /\
  ResizedPosition.margin_trader r + ResizedPosition.collateral_reserve_trader r
    = Position.trader_margin p + rt + pnl - fee /\
  ResizedPosition.margin_coordinator r + ResizedPosition.collateral_reserve_coordinator r
    = Position.coordinator_margin p + rc - pnl + fee /\
  ResizedPosition.realized_pnl r = Some pnl.
Proof.
  intros Hp Hrc Hrt Hfee Hr. unfold apply_decrease in Hr.
  rewrite (surjective_pairing (margins_long_short p)) in Hr. cbv beta iota in Hr. inv_ok.
  match goal with H : calculate_pnl _ _ _ _ _ _ = Ok _ |- _ => apply pnl_range in H as Hpnl; [|done] end.
  unfold stored_position, stored_amount in *. destruct Hp as (Hcm & Htm & _).
  inv_ok. margins. amounts. subst. eexists. split; [exact Hpnl|]. cbn. split_and!; (done || lia).
Qed.

Lemma apply_change_direction_total contracts price p rc rt fee mmr r : stored_position p ->
  stored_amount rc -> stored_amount rt -> stored_amount fee ->
  apply_change_direction contracts price p rc rt fee mmr = Ok r ->
  exists pnl entry closed, - Position.trader_margin p <= pnl <= Position.coordinator_margin p /\
  d_try_from_f32 (Position.average_entry_price p) = Some entry /\
  calculate_margin (E := string) entry (Position.quantity p) (Position.trader_leverage p) = Ok closed /\
  ResizedPosition.margin_trader r + ResizedPosition.collateral_reserve_trader r
    = closed + rt + pnl - fee /\
  resized_total r = channel_total p (rc, rt) /\
  ResizedPosition.realized_pnl r = Some pnl.
Proof.
  intros Hp Hrc Hrt Hfee Hr. unfold apply_change_direction in Hr.
  rewrite (surjective_pairing (margins_long_short p)) in Hr. cbv beta iota in Hr. inv_ok.
  match goal with H : calculate_pnl _ _ _ _ _ _ = Ok _ |- _ => apply pnl_range in H as Hpnl; [|done] end.
  unfold stored_position, stored_amount, resized_total, channel_total in *. destruct Hp as (Hcm & Htm & _).
  inv_ok. margins. amounts. subst. do 3 eexists. split; [exact Hpnl|]. split_and!; cbn; (eassumption || done || lia).
Qed.

(** C20: resizing a position moves money but makes none: the margins and reserves
    after it add up to those before, whatever the action.  The trader's side pays
    the matching fee to the coordinator's and gains what was realised of the
    position, which is never more than the margin of the losing side; an increase
    realises nothing. *)
Theorem resize_conserves_collateral (action : ResizeAction) (p : Position.t) (rc rt fee : Amount)
    (maintenance : Decimal) (r : ResizedPosition.t)
    (Hr : apply_resize_to_position action p rc rt fee maintenance = Ok r)
    (Hp : stored_position p) (Hrc : stored_amount rc) (Hrt : stored_amount rt)
    (Hfee : stored_amount fee) :
  let pnl := default 0 (ResizedPosition.realized_pnl r) in
  resized_total r = channel_total p (rc, rt) /\
  - Position.trader_margin p <= pnl <= Position.coordinator_margin p /\
  match action with
  | Increase _ _ | Decrease _ _ =>
    ResizedPosition.margin_trader r + ResizedPosition.collateral_reserve_trader r
      = Position.trader_margin p + rt + pnl - fee /\
    (ResizedPosition.realized_pnl r = None <-> exists c price, action = Increase c price)
  | ChangeDirection _ _ =>
    exists entry closed, d_try_from_f32 (Position.average_entry_price p) = Some entry /\
      calculate_margin (E := string) entry (Position.quantity p) (Position.trader_leverage p)
        = Ok closed /\
      ResizedPosition.margin_trader r + ResizedPosition.collateral_reserve_trader r
        = closed + rt + pnl - fee
  end.
Proof.
  cbn zeta. pose proof Hp as (Hcm & Htm & _). unfold resized_total, channel_total, stored_amount in *.
  destruct action as [c price|c price|c price]; cbn in Hr.
  - apply apply_increase_total in Hr as (Ht & Hc & ->); [|done..]. cbn.
    split_and!; [lia..|]. split; [by eauto|done].
  - apply apply_decrease_total in Hr as (pnl & Hpnl & Ht & Hc & ->); [|done..]. cbn.
    split_and!; [lia..|]. split; [done|by intros (? & ? & ?)].
  - apply apply_change_direction_total in Hr as (pnl & e & closed & Hpnl & He & Hclosed & Ht & Hsum & ->);
      [|done..]. split_and!; [done|cbn; lia..|]. by exists e, closed.
Qed.

(** ** The choice of the action *)

(** The contracts of the position an action leaves behind, counted positive when the
    trader is long; [p] is what the trader holds. *)
Definition contracts_after (p : Z) (a : PositionAction) (z : Z) : Prop :=
  match a with
  | Close => z = 0
  | Resize (Increase c _) => exists n, d_int c n /\ 0 < n /\ z = Z.sgn p * (Z.abs p + n)
  | Resize (Decrease c _) => exists n, d_int c n /\ 0 < n < Z.abs p /\ z = Z.sgn p * (Z.abs p - n)
  | Resize (ChangeDirection c _) => exists n, d_int c n /\ 0 < n /\ z = - Z.sgn p * n
  end.

Lemma product_sign p t a : d_int a (p * t) -> p <> 0 -> t <> 0 ->
  d_is_sign_negative a = (p * t <? 0).
Proof.
  intros Ha Hp Ht. destruct (d_is_sign_negative a) eqn:Hs.
  - apply (d_int_sign_neg _ _ Ha) in Hs. nia.
  - apply (d_int_sign_pos _ _ Ha) in Hs. nia.
Qed.

Lemma position_action_ok {E} (dp dt price : Decimal) p t : d_int dp p -> d_int dt t ->
  p <> 0 -> t <> 0 -> Z.abs p < 2 ^ 47 -> Z.abs t < 2 ^ 47 ->
  exists a, position_action (E := E) dp dt price = Ok a /\ contracts_after p a (p + t).
Proof.
  intros Hp Ht Hp0 Ht0 Hpb Htb. unfold position_action.
  destruct (d_add_int dp dt p t Hp Ht ltac:(lia)) as (sum & -> & Hsum). cbn.
  rewrite (d_int_is_zero _ _ Hsum). destruct (p + t =? 0) eqn:Hzero.
  { eexists. split; [done|]. cbn. lia. }
  destruct (d_mul_int dp dt p t Hp Ht ltac:(nia)) as (prod & -> & Hprod). cbn.
  rewrite (product_sign p t) by done.
  rewrite (d_int_ltb _ _ _ _ (d_int_abs _ _ Ht) (d_int_abs _ _ Hp)).
  destruct (p * t <? 0) eqn:Hneg; cbn.
  - destruct (Z.abs t <? Z.abs p) eqn:Hlt.
    + eexists. split; [done|]. exists (Z.abs t). split; [by apply d_int_abs|].
      assert ((0 < p /\ t < 0) \/ (p < 0 /\ 0 < t)) by nia. lia.
    + destruct (d_sub_int _ _ _ _ (d_int_abs _ _ Ht) (d_int_abs _ _ Hp) ltac:(lia)) as (n & -> & Hn).
      cbn. eexists. split; [done|]. eexists. split; [by apply d_int_abs|].
      assert ((0 < p /\ t < 0) \/ (p < 0 /\ 0 < t)) by nia. lia.
  - eexists. split; [done|]. exists (Z.abs t). split; [by apply d_int_abs|].
    assert ((0 < p /\ 0 < t) \/ (p < 0 /\ t < 0)) by nia. lia.
Qed.

Lemma resized_contracts action p rc rt fee mmr r dq q z :
  d_from_f32 (Position.quantity p) = Some dq -> d_try_from_f32 (Position.quantity p) = Some dq ->
  d_int dq q -> 0 < q -> q < 2 ^ 47 -> Z.abs z < 2 ^ 48 ->
  apply_resize_to_position action p rc rt fee mmr = Ok r ->
  contracts_after (signed q (Position.trader_direction p)) (Resize action) z ->
  exists n, d_int (ResizedPosition.contracts r) n /\ 0 < n /\
    z = signed n (opposite (ResizedPosition.coordinator_direction r)).
Proof.
  intros Hdq Hdq' Hq Hpos Hbound Hz Hr Hafter.
  assert (Z.abs (signed q (Position.trader_direction p)) = q) as Habs
    by (unfold signed; destruct (Position.trader_direction p); lia).
  destruct action as [c price|c price|c price]; cbn in Hr, Hafter; rewrite ?Habs in Hafter;
    destruct Hafter as (n & Hn & Hafter).
  - unfold apply_increase in Hr. inv_ok. subst. cbn. rename select (d_add _ c = Some _) into Hsum.
    match type of Hsum with d_add ?x _ = _ => assert (x = dq) as -> by congruence end.
    exists (q + n). split_and!; [|lia|].
    + destruct (d_add_int dq c q n Hq Hn ltac:(lia)) as (s & Hs & Hint). congruence.
    + unfold signed in *. destruct (Position.trader_direction p); cbn; lia.
  - unfold apply_decrease in Hr. rewrite (surjective_pairing (margins_long_short p)) in Hr.
    cbv beta iota in Hr. inv_ok. subst. cbn. rename select (d_sub _ c = Some _) into Hsub.
    match type of Hsub with d_sub ?x _ = _ => assert (x = dq) as -> by congruence end.
    exists (q - n). split_and!; [|lia|].
    + destruct (d_sub_int dq c q n Hq Hn ltac:(lia)) as (s & Hs & Hint). congruence.
    + unfold signed in *. destruct (Position.trader_direction p); cbn; lia.
  - unfold apply_change_direction in Hr. rewrite (surjective_pairing (margins_long_short p)) in Hr.
    cbv beta iota in Hr. inv_ok. subst. cbn. exists n. split_and!; [done|lia|].
    unfold signed in *. destruct (Position.trader_direction p); cbn; lia.
Qed.

Lemma trade_contracts (p : Position.t) (trade_params : TradeParams.t) (rc rt fee : Amount)
    (maintenance dq dt price : Decimal) (q t : Z)
    (Hdq : d_from_f32 (Position.quantity p) = Some dq)
    (Hdq' : d_try_from_f32 (Position.quantity p) = Some dq)
    (Hdt : d_from_f32 (TradeParams.quantity trade_params) = Some dt)
    (Hq : d_int dq q) (Ht : d_int dt t) (Hqb : 0 < q < 2 ^ 47) (Htb : 0 < t < 2 ^ 47)
    (Hprice : trade_average_execution_price (E := string) trade_params = Ok price) :
  let sum := signed q (Position.trader_direction p) + signed t (TradeParams.direction trade_params) in
  exists action, action_on_position (E := string) p trade_params = Ok action /\
    (action = Close <-> sum = 0) /\
    forall resize_action r, action = Resize resize_action ->
      apply_resize_to_position resize_action p rc rt fee maintenance = Ok r ->
      exists n, d_int (ResizedPosition.contracts r) n /\ 0 < n /\
        sum = signed n (opposite (ResizedPosition.coordinator_direction r)).
Proof.
  cbn zeta. unfold action_on_position, decimal_from_f32. rewrite Hdq, Hdt. cbn. rewrite Hprice. cbn.
  pose proof (relative_contracts_int _ _ (Position.trader_direction p) Hq) as Hp.
  pose proof (relative_contracts_int _ _ (TradeParams.direction trade_params) Ht) as Htr.
  destruct (position_action_ok (E := string) _ _ price (signed q (Position.trader_direction p))
    (signed t (TradeParams.direction trade_params)) Hp Htr) as (a & Ha & Hafter);
    try (rewrite signed_abs; lia).
  1-2: intros H0; apply (f_equal Z.abs) in H0; rewrite signed_abs in H0; lia.
  exists a. split; [exact Ha|].
  assert (Hbound : Z.abs (signed q (Position.trader_direction p)
    + signed t (TradeParams.direction trade_params)) < 2 ^ 48)
    by (pose proof (signed_abs q (Position.trader_direction p));
        pose proof (signed_abs t (TradeParams.direction trade_params)); lia).
  set (sum := signed q _ + signed t _) in *.
  assert (Hsgn : Z.abs (signed q (Position.trader_direction p)) = q)
    by (rewrite signed_abs; lia).
  assert (Hnonzero : forall action, a = Resize action -> sum <> 0).
  { intros action ->. destruct action; cbn in Hafter; destruct Hafter as (n & _ & Hafter); lia. }
  split.
  - split; [intros ->; exact Hafter|]. intros Hsum. destruct a as [|action]; [done|].
    by destruct (Hnonzero action).
  - intros action r -> Hr. destruct Hqb. by apply (resized_contracts action p rc rt fee maintenance r dq q sum).
Qed.

(** A trade adds its contracts, with their sign, to those of the open position.
    Whatever whole numbers they are, an action is chosen; the position is closed
    exactly if the contracts cancel out; and a position that is resized ends up with
    exactly the sum, its direction being the sum's sign. *)
Theorem trade_adds_contracts (p : Position.t) (trade_params : TradeParams.t) (rc rt fee : Amount)
    (maintenance dq dt price : Decimal) (q t : Z)
    (Hdq : d_from_f32 (Position.quantity p) = Some dq)
    (Hdq' : d_try_from_f32 (Position.quantity p) = Some dq)
    (Hdt : d_from_f32 (TradeParams.quantity trade_params) = Some dt)
    (Hq : d_int dq q) (Ht : d_int dt t) (Hqb : 0 < q < 2 ^ 47) (Htb : 0 < t < 2 ^ 47)
    (Hprice : trade_average_execution_price (E := string) trade_params = Ok price) :
  let sum := signed q (Position.trader_direction p) + signed t (TradeParams.direction trade_params) in
  exists action, action_on_position (E := string) p trade_params = Ok action /\
    (action = Close <-> sum = 0) /\
    forall resize_action r, action = Resize resize_action ->
      apply_resize_to_position resize_action p rc rt fee maintenance = Ok r ->
      exists n, d_int (ResizedPosition.contracts r) n /\ 0 < n /\
        sum = signed n (opposite (ResizedPosition.coordinator_direction r)).
Proof. by apply (trade_contracts p trade_params rc rt fee maintenance dq dt price q t). Qed.
End Conservation.

(** ** Evaluated *)

(** A trade of [n] dollars at 21,000, filled by one match. *)
Definition demo_trade (n : Z) (direction : Direction) : TradeParams.t :=
  TradeParams.mk (H0 := demo_id) "alice"%string BtcUsd (f32_of_Z 2) (f32_of_Z n) direction
    (FilledWith.mk 70 100 "oracle"%string
       [Match.mk 71 72 (d_from_u64 n) "coordinator"%string (d_from_u64 21000) 3000]).

(** Forty of alice's hundred dollars are sold. *)
Example resize_conserves_collateral_witness :
  exists r, apply_resize_to_position (Decrease (d_from_u64 40) (d_from_u64 21000)) demo_open_position
      50000 60000 2000 d_zero = Ok r /\
    ResizedPosition.realized_pnl r = Some 9524 /\
    resized_total r = channel_total demo_open_position (50000, 60000).
Proof.
  assert (Hok : is_ok (apply_resize_to_position (Decrease (d_from_u64 40) (d_from_u64 21000))
    demo_open_position 50000 60000 2000 d_zero) = true) by by vm_compute.
  assert (Hpnl : (ResizedPosition.realized_pnl <$> apply_resize_to_position (Decrease (d_from_u64 40)
    (d_from_u64 21000)) demo_open_position 50000 60000 2000 d_zero) = Ok (Some 9524)) by by vm_compute.
  destruct (apply_resize_to_position (Decrease (d_from_u64 40) (d_from_u64 21000)) demo_open_position
    50000 60000 2000 d_zero) as [r| |] eqn:Hr; try discriminate Hok.
  exists r. split; [reflexivity|]. split; [by injection Hpnl|].
  apply (resize_conserves_collateral (Decrease (d_from_u64 40) (d_from_u64 21000)) demo_open_position
    50000 60000 2000 d_zero r Hr); repeat split; cbn; lia.
Defined.

(** Selling a hundred and forty of a hundred leaves forty short. *)
Example trade_adds_contracts_witness :
  exists action, action_on_position (E := string) demo_open_position (demo_trade 140 Short) = Ok action /\
    forall resize_action r, action = Resize resize_action ->
      apply_resize_to_position resize_action demo_open_position 500000 600000 2000 d_zero = Ok r ->
      exists n, d_int (ResizedPosition.contracts r) n /\ 0 < n /\
        -40 = signed n (opposite (ResizedPosition.coordinator_direction r)).
Proof.
  assert (Hdq : d_from_f32 (f32_of_Z 100) = Some (d_from_u64 100)) by by vm_compute.
  assert (Hdt : d_from_f32 (f32_of_Z 140) = Some (d_from_u64 140)) by by vm_compute.
  destruct (trade_adds_contracts demo_open_position (demo_trade 140 Short) 500000 600000 2000 d_zero
    (d_from_u64 100) (d_from_u64 140) (d_from_u64 21000) 100 140 Hdq Hdq Hdt
    ltac:(reflexivity) ltac:(reflexivity) ltac:(lia) ltac:(lia) ltac:(reflexivity))
    as (action & Haction & _ & Hresize).
  exists action. split; [exact Haction|]. intros resize_action r Ha Hr.
  exact (Hresize resize_action r Ha Hr).
Defined.
