(* ===== verification/AppAgreement.v ===== *)
(** * App and coordinator: two accounts of one position

    The app ([mobile/native/src/trade/position/mod.rs]) and the coordinator
    ([coordinator/src/trade/mod.rs], [coordinator/src/position/models.rs]) each
    compute what a trade or a funding fee does to the position.  Neither sends the
    result to the other, so they have to agree. *)

From stdpp Require Import base list option strings.
From Stdlib Require Import ZArith QArith Lia.
From S2P Require Import Prelude Machine Floats External Demo Commons Cfd AppData AppApply SqlTypes.
From S2P Require Import Schema Db PositionsDb FundingDb Funding Settlement Resize.

#[local] Open Scope Z_scope.
#[local] Open Scope decimal_scope.

Section Agreement.
Context `{DL : DecimalLib} `{BL : BitcoinLib} `{IL : IdLib}.
Context `{!DecimalLaws DL} `{!BitcoinLaws BL} `{!DecimalF32Laws DL}.

(** The app's position is the trader's side of the coordinator's. *)
Definition same_position (app : AppPosition.t) (coordinator : Position.t) : Prop :=
  AppPosition.quantity app = Position.quantity coordinator /\
  AppPosition.direction app = Position.trader_direction coordinator /\
  AppPosition.average_entry_price app = Position.average_entry_price coordinator /\
  AppPosition.leverage app = Position.trader_leverage coordinator /\
  AppPosition.collateral app = Position.trader_margin coordinator.

(** The order of a trade as the app sees it. *)
Definition same_trade (order : AppOrder.t) (trade_params : TradeParams.t) : Prop :=
  AppOrder.quantity order = TradeParams.quantity trade_params /\
  AppOrder.direction order = TradeParams.direction trade_params.

(** C1: app and coordinator agree on the contracts of a position after a trade.  The
    app's position vanishes exactly if the coordinator decides to close its own; and
    if the coordinator resizes it, the app has the same number of contracts in the
    same direction. *)
Theorem app_and_coordinator_agree_on_contracts (rate : Decimal) (now expiry : OffsetDateTime)
    (app : AppPosition.t) (order : AppOrder.t) (result : option AppPosition.t)
    (trades : list AppTrade.t) (position : Position.t) (trade_params : TradeParams.t)
    (price : Decimal) (rc rt fee : Amount) (maintenance : Decimal) (q t : Z)
    (Hok : apply_order rate now app order expiry = Ok (result, trades))
    (Hposition : same_position app position) (Htrade : same_trade order trade_params)
    (Hq : AppPosition.quantity app = f32_of_Z q) (Hqr : 0 < q < 10 ^ 6)
    (Ht : AppOrder.quantity order = f32_of_Z t) (Htr : 0 < t < 10 ^ 6)
    (Hfee : 0 <= default 0 (order_known_matching_fee order) < 2 ^ 64)
    (Hfees : 0 <= AppPosition.order_matching_fees app < 2 ^ 64)
    (Hprice : trade_average_execution_price (E := string) trade_params = Ok price) :
  exists action, action_on_position (E := string) position trade_params = Ok action /\
    (result = None <-> action = Close) /\
    forall resize_action r, action = Resize resize_action ->
      apply_resize_to_position resize_action position rc rt fee maintenance = Ok r ->
      exists app' n, result = Some app' /\ AppPosition.quantity app' = f32_of_Z n /\
        d_int (ResizedPosition.contracts r) n /\
        AppPosition.direction app' = opposite (ResizedPosition.coordinator_direction r).
Proof.
  destruct Hposition as (Hpq & Hpd & _). destruct Htrade as (Htq & Htd).
  destruct (apply_order_contracts rate now expiry app order result trades q t Hok Hq Hqr Ht Htr Hfee Hfees)
    as (Hnet & _).
  destruct (d_from_f32_whole q ltac:(lia)) as (dq & Hdq & Hdqi).
  destruct (d_from_f32_whole t ltac:(lia)) as (dt & Hdt & Hdti).
  rewrite Hq in Hpq. rewrite Ht in Htq. rewrite Hpq in Hdq. rewrite Htq in Hdt.
  destruct (trade_contracts position trade_params rc rt fee maintenance dq dt price q t) as (action & Ha & Hclose & Hresize);
    try done; [by rewrite d_try_from_f32_eq|lia|lia|].
  rewrite Hpd, Htd in Hnet. set (sum := signed q _ + signed t _) in *.
  exists action. split; [done|]. split.
  - rewrite Hclose. destruct result as [p'|]; cbn in Hnet; [|naive_solver].
    destruct Hnet as (n & Hn & _ & Hsum). split; [done|]. intros H0. rewrite H0 in Hsum.
    destruct (AppPosition.direction p'); cbn in Hsum; lia.
  - intros resize_action r -> Hr. destruct (Hresize resize_action r eq_refl Hr) as (n & Hn & Hnpos & Hsum).
    destruct result as [p'|]; cbn in Hnet.
    + destruct Hnet as (m & Hm & Hmq & Hmsum). exists p', n.
      assert (m = n /\ AppPosition.direction p' = opposite (ResizedPosition.coordinator_direction r)) as [-> Hd];
        [|by split_and!].
      rewrite Hmsum in Hsum. destruct (AppPosition.direction p'), (opposite _); cbn in Hsum; (split; [lia|]); (done || lia).
    + assert (Resize resize_action = Close) by (apply Hclose; done). done.
Qed.

(** The app's saturating subtraction is the coordinator's. *)
Lemma saturating_fee margin fee : 0 <= margin < 2 ^ 63 -> 0 < fee < 2 ^ 63 ->
  default 0 (checked_u64 (margin - as_u64 fee)) = Z.max 0 (margin - fee).
Proof using Type.
  intros Hm Hf. unfold as_u64. rewrite Z.mod_small by lia. unfold checked_u64, in_u64, U64_MAX.
  destruct (0 <=? margin - fee) eqn:Hle; cbn; [|lia].
  replace (margin - fee <=? 2 ^ 64 - 1) with true by lia. cbn. lia.
Qed.

Lemma sum_events_signed {E} events acc :
  sum_events (E := E) acc events = sum_signed acc (map FundingFeeEvent.amount events).
Proof using Type. revert acc. induction events as [|e events IH]; intros acc; cbn; [done|]. by destruct (signed_add _ _); cbn. Qed.

(** C39: funding fees keep app and coordinator in agreement: when both hold the same
    position and apply the same fees, they hold the same position afterwards, with
    the same contracts, entry price, margin and leverage. *)
Theorem funding_fees_keep_agreement (rate maintenance : Decimal) (now : OffsetDateTime)
    (app app' : AppPosition.t) (position position' : Position.t)
    (app_events : list AppFundingFeeEvent.t) (events : list FundingFeeEvent.t)
    (fee : SignedAmount) (funding_fee : FundingFee.t)
    (Hevents : map AppFundingFeeEvent.fee app_events = map FundingFeeEvent.amount events)
    (Hsame : same_position app position)
    (Hmargin : 0 <= AppPosition.collateral app < 2 ^ 63)
    (Hsum : sum_signed (E := string) 0 (map AppFundingFeeEvent.fee app_events) = Ok fee)
    (Hfee : - 2 ^ 63 < fee < 2 ^ 63)
    (Happ : apply_funding_fee_events rate now app app_events = Ok app')
    (Hfunding : funding_fee_from_funding_fee_events (E := string) events = Ok funding_fee)
    (Hcoordinator : apply_funding_fee (E := string) position funding_fee maintenance = Ok position') :
  same_position app' position' /\
  AppPosition.collateral app' = Z.max 0 (AppPosition.collateral app - Z.max 0 fee).
Proof.
  destruct Hsame as (Hq & Hd & He & Hl & Hc).
  unfold funding_fee_from_funding_fee_events in Hfunding. rewrite sum_events_signed, <-Hevents, Hsum in Hfunding.
  unfold apply_funding_fee_events in Happ. rewrite Hsum in Happ. cbn in Happ, Hfunding. injection Hfunding as <-.
  unfold apply_funding_fee in Hcoordinator.
  destruct (0 <? fee) eqn:Hpos; [replace (fee =? 0) with false in Hcoordinator by lia|].
  - apply outcome_bind_ok in Happ as ([[collateral leverage] price] & Hu & Happ).
    rewrite saturating_fee in Hu by lia. rewrite (Z.abs_eq fee) in Hcoordinator by lia.
    unfold decimal_from_f32, f32_from_decimal in Hcoordinator. rewrite Hc in *.
    inv_ok. subst. rewrite d_try_from_f32_eq in *. simplify_eq. rewrite Hq, He in *.
    rename select (pay_from_margin _ _ = Ok _) into Hpay.
    apply pay_from_margin_ok in Hpay; [|lia..]. simplify_eq.
    split; [|cbn; lia]. unfold same_position. cbn. split_and!; (done || congruence).
  - assert (Hf : app' = AppPosition.mk (AppPosition.leverage app) (AppPosition.quantity app)
      (AppPosition.contract_symbol app) (AppPosition.direction app) (AppPosition.average_entry_price app)
      (AppPosition.liquidation_price app) (AppPosition.position_state app) (AppPosition.collateral app)
      (AppPosition.expiry app) now (AppPosition.created app) (AppPosition.stable app)
      (AppPosition.order_matching_fees app)) by (by injection Happ).
    subst app'. split; [|cbn; lia].
    destruct (fee =? 0); inv_ok; subst; by split_and!.
Qed.
End Agreement.

(** ** Evaluated *)

(** Alice's app and the coordinator, when she sells forty of her hundred dollars. *)
Example app_and_coordinator_agree_on_contracts_witness :
  exists p trades action,
    apply_order (d_lit (1 # 10)) 9 demo_app_position (demo_app_order 40 Short) 8 = Ok (Some p, trades) /\
    action_on_position (E := string) demo_open_position (demo_trade 40 Short) = Ok action /\
    action <> Close.
Proof.
  assert (Hok : match apply_order (d_lit (1 # 10)) 9 demo_app_position (demo_app_order 40 Short) 8 with
    | Ok (Some _, trades) => true | _ => false end = true) by by vm_compute.
  destruct (apply_order (d_lit (1 # 10)) 9 demo_app_position (demo_app_order 40 Short) 8)
    as [[[p|] trades]| |] eqn:Hr; try discriminate Hok.
  destruct (app_and_coordinator_agree_on_contracts (d_lit (1 # 10)) 9 8 demo_app_position
    (demo_app_order 40 Short) (Some p) trades demo_open_position (demo_trade 40 Short) (d_from_u64 21000)
    50000 60000 2000 d_zero 100 40 Hr) as (action & Ha & Hclose & _);
    try (reflexivity || (by split_and!) || (cbn; lia)).
  exists p, trades, action. split_and!; [reflexivity|exact Ha|].
  intros Hc. apply Hclose in Hc. discriminate Hc.
Defined.

Definition demo_app_event (fee : SignedAmount) : AppFundingFeeEvent.t :=
  AppFundingFeeEvent.unpaid BtcUsd (d_from_u64 100) Long (d_from_u64 20000) fee 3.
Definition demo_fee_event (fee : SignedAmount) : FundingFeeEvent.t :=
  FundingFeeEvent.mk (H0 := demo_id) 1 fee "alice"%string 1 3 (d_from_u64 20000) d_zero None.

(** Two fees, of 500 for alice to pay and 200 for her to receive. *)
Example funding_fees_keep_agreement_witness :
  exists app' position',
    apply_funding_fee_events (d_lit (1 # 10)) 9 demo_app_position [demo_app_event 500; demo_app_event (-200)]
      = Ok app' /\
    apply_funding_fee (E := string) demo_open_position (FundingFee.TraderPays 300) d_zero = Ok position' /\
    same_position app' position' /\ AppPosition.collateral app' = 249700.
Proof.
  assert (Hokp : is_ok (apply_funding_fee (E := string) demo_open_position (FundingFee.TraderPays 300) d_zero)
    = true) by by vm_compute.
  assert (Hoka : is_ok (apply_funding_fee_events (d_lit (1 # 10)) 9 demo_app_position
    [demo_app_event 500; demo_app_event (-200)]) = true) by by vm_compute.
  destruct (apply_funding_fee (E := string) demo_open_position (FundingFee.TraderPays 300) d_zero)
    as [position'| |] eqn:Hp; try discriminate Hokp.
  destruct (apply_funding_fee_events (d_lit (1 # 10)) 9 demo_app_position
    [demo_app_event 500; demo_app_event (-200)]) as [app'| |] eqn:Ha; try discriminate Hoka.
  destruct (funding_fees_keep_agreement (d_lit (1 # 10)) d_zero 9 demo_app_position app' demo_open_position
    position' [demo_app_event 500; demo_app_event (-200)] [demo_fee_event 500; demo_fee_event (-200)]
    300 (FundingFee.TraderPays 300) eq_refl ltac:(by split_and!) ltac:(cbn; lia) eq_refl ltac:(lia) Ha eq_refl Hp)
    as (Hsame & Hcol).
  exists app', position'. split_and!; [reflexivity|reflexivity|exact Hsame|exact Hcol].
Defined.
