(* ===== verification/ProtocolDb.v ===== *)
(** * [coordinator/src/db/{dlc_protocols,trade_params,rollover_params}.rs]

    DLC protocols as stored, each with the parameters of its kind, and the types
    of [dlc_protocol.rs]. *)

From stdpp Require Import base list option strings.
From Stdlib Require Import ZArith Lia.
From S2P Require Import Prelude Machine External Demo Commons SqlTypes Schema Db.

#[local] Open Scope Z_scope.

(** ** [dlc_protocol.rs]: types *)

(** [node::ProtocolId], a UUID. *)
Definition ProtocolId : Set := Uuid.

(** [dlc_protocol::TradeParams]. *)
Module ProtocolTradeParams.
Record t `{IdLib} := mk {
  protocol_id : ProtocolId;
  trader : PublicKey;
  quantity : f32;
  leverage : f32;
  average_price : f32;
  direction : Direction;
  matching_fee : Amount;
  trader_pnl : option SignedAmount;
}.
#[global] Arguments mk {_}.
End ProtocolTradeParams.

Module RolloverParams.
Record t `{DecimalLib} `{IdLib} := mk {
  protocol_id : ProtocolId;
  trader_pubkey : PublicKey;
  margin_coordinator : Amount;
  margin_trader : Amount;
  leverage_coordinator : Decimal;
  leverage_trader : Decimal;
  liquidation_price_coordinator : Decimal;
  liquidation_price_trader : Decimal;
  expiry_timestamp : OffsetDateTime;
}.
#[global] Arguments mk {_ _}.
End RolloverParams.

Module DlcProtocolState.
Inductive t := Pending | Success | Failed.
End DlcProtocolState.

Module DlcProtocolType.
Inductive t `{DecimalLib} `{IdLib} :=
  | OpenChannel (trade_params : ProtocolTradeParams.t)
  | OpenPosition (trade_params : ProtocolTradeParams.t)
  | ResizePosition (trade_params : ProtocolTradeParams.t)
  | Rollover (rollover_params : RolloverParams.t)
  | Settle (trade_params : ProtocolTradeParams.t)
  | Close (trader : PublicKey)
  | ForceClose (trader : PublicKey).
End DlcProtocolType.

Module DlcProtocol.
Record t `{DecimalLib} `{IdLib} := mk {
  id : ProtocolId;
  previous_id : option ProtocolId;
  timestamp : OffsetDateTime;
  channel_id : DlcChannelId;
  contract_id : option ContractId;
  trader : PublicKey;
  protocol_state : DlcProtocolState.t;
  protocol_type : DlcProtocolType.t;
}.
#[global] Arguments mk {_ _}.
End DlcProtocol.

(** ** Conversions *)

Definition db_protocol_state_from (value : DlcProtocolState.t) : DbProtocolState.t :=
  match value with
  | DlcProtocolState.Pending => DbProtocolState.Pending
  | DlcProtocolState.Success => DbProtocolState.Success
  | DlcProtocolState.Failed => DbProtocolState.Failed
  end.
Definition protocol_state_from_db (value : DbProtocolState.t) : DlcProtocolState.t :=
  match value with
  | DbProtocolState.Pending => DlcProtocolState.Pending
  | DbProtocolState.Success => DlcProtocolState.Success
  | DbProtocolState.Failed => DlcProtocolState.Failed
  end.

Section Protocols.
Context `{DL : DecimalLib} `{IL : IdLib}.

(** [impl From<&dlc_protocol::DlcProtocolType> for DlcProtocolType]. *)
Definition db_protocol_type_from (value : DlcProtocolType.t) : DbProtocolType.t :=
  match value with
  | DlcProtocolType.OpenChannel _ => DbProtocolType.OpenChannel
  | DlcProtocolType.OpenPosition _ => DbProtocolType.OpenPosition
  | DlcProtocolType.Settle _ => DbProtocolType.Settle
  | DlcProtocolType.Close _ => DbProtocolType.Close
  | DlcProtocolType.ForceClose _ => DbProtocolType.ForceClose
  | DlcProtocolType.Rollover _ => DbProtocolType.Rollover
  | DlcProtocolType.ResizePosition _ => DbProtocolType.ResizePosition
  end.

(** ** [trade_params.rs] *)

Definition trade_params_row (params : ProtocolTradeParams.t) (id : Z) : TradeParamsRow.t :=
  TradeParamsRow.mk id (ProtocolTradeParams.protocol_id params)
    (pk_to_string (ProtocolTradeParams.trader params)) (ProtocolTradeParams.quantity params)
    (ProtocolTradeParams.leverage params) (ProtocolTradeParams.average_price params)
    (db_direction_from (ProtocolTradeParams.direction params))
    (as_i64 (ProtocolTradeParams.matching_fee params)) (ProtocolTradeParams.trader_pnl params).

(** [impl From<TradeParams> for dlc_protocol::TradeParams]. *)
Definition trade_params_from_row {E} (value : TradeParamsRow.t) : outcome E ProtocolTradeParams.t :=
  trader ← expect (pk_from_str (TradeParamsRow.trader_pubkey value));
  Ok (ProtocolTradeParams.mk (TradeParamsRow.protocol_id value) trader
        (TradeParamsRow.quantity value) (TradeParamsRow.leverage value)
        (TradeParamsRow.average_price value) (direction_from_db (TradeParamsRow.direction value))
        (as_u64 (TradeParamsRow.matching_fee value)) (TradeParamsRow.trader_pnl value)).

Definition trade_params_insert (params : ProtocolTradeParams.t) : Sql unit :=
  _ ← insert (trade_params_row params);
  mret tt.

Definition trade_params_get (protocol_id : ProtocolId) : Sql ProtocolTradeParams.t :=
  trade_params ← first (fun p => TradeParamsRow.protocol_id p =? protocol_id);
  lift (trade_params_from_row trade_params).

(** ** [rollover_params.rs] *)

Definition rollover_params_row {E} (params : RolloverParams.t) : outcome E (Z -> RolloverParamsRow.t) :=
  leverage_coordinator ← expect (d_to_f32 (RolloverParams.leverage_coordinator params));
  leverage_trader ← expect (d_to_f32 (RolloverParams.leverage_trader params));
  liquidation_price_coordinator ←
    expect (d_to_f32 (RolloverParams.liquidation_price_coordinator params));
  liquidation_price_trader ← expect (d_to_f32 (RolloverParams.liquidation_price_trader params));
  Ok (fun id => RolloverParamsRow.mk id (RolloverParams.protocol_id params)
        (pk_to_string (RolloverParams.trader_pubkey params))
        (as_i64 (RolloverParams.margin_coordinator params))
        (as_i64 (RolloverParams.margin_trader params)) leverage_coordinator leverage_trader
        liquidation_price_coordinator liquidation_price_trader
        (RolloverParams.expiry_timestamp params)).

Definition rollover_params_from_row {E} (r : RolloverParamsRow.t) : outcome E RolloverParams.t :=
  trader_pubkey ← expect (pk_from_str (RolloverParamsRow.trader_pubkey r));
  leverage_coordinator ← expect (d_try_from_f32 (RolloverParamsRow.leverage_coordinator r));
  leverage_trader ← expect (d_try_from_f32 (RolloverParamsRow.leverage_trader r));
  liquidation_price_coordinator ←
    expect (d_try_from_f32 (RolloverParamsRow.liquidation_price_coordinator r));
  liquidation_price_trader ←
    expect (d_try_from_f32 (RolloverParamsRow.liquidation_price_trader r));
  Ok (RolloverParams.mk (RolloverParamsRow.protocol_id r) trader_pubkey
        (as_u64 (RolloverParamsRow.margin_coordinator_sat r))
        (as_u64 (RolloverParamsRow.margin_trader_sat r)) leverage_coordinator leverage_trader
        liquidation_price_coordinator liquidation_price_trader
        (RolloverParamsRow.expiry_timestamp r)).

Definition rollover_params_insert (params : RolloverParams.t) : Sql unit :=
  row ← lift (rollover_params_row params);
  _ ← insert row;
  mret tt.

Definition rollover_params_get (protocol_id : ProtocolId) : Sql RolloverParams.t :=
  row ← first (fun p => RolloverParamsRow.protocol_id p =? protocol_id);
  lift (rollover_params_from_row row).

(** ** [dlc_protocols.rs] *)

Definition has_protocol_id (protocol_id : ProtocolId) (p : DlcProtocolRow.t) : bool :=
  DlcProtocolRow.protocol_id p =? protocol_id.

(** The [match] of [get_dlc_protocol]: the parameters of the protocol's kind. *)
Definition get_protocol_type (protocol_id : ProtocolId) (p : DlcProtocolRow.t)
    : Sql DlcProtocolType.t :=
  match DlcProtocolRow.protocol_type p with
  | DbProtocolType.OpenChannel => DlcProtocolType.OpenChannel <$> trade_params_get protocol_id
  | DbProtocolType.OpenPosition => DlcProtocolType.OpenPosition <$> trade_params_get protocol_id
  | DbProtocolType.Settle => DlcProtocolType.Settle <$> trade_params_get protocol_id
  | DbProtocolType.Close =>
    lift (DlcProtocolType.Close <$> expect (pk_from_str (DlcProtocolRow.trader_pubkey p)))
  | DbProtocolType.ForceClose =>
    lift (DlcProtocolType.ForceClose <$> expect (pk_from_str (DlcProtocolRow.trader_pubkey p)))
  | DbProtocolType.Rollover => DlcProtocolType.Rollover <$> rollover_params_get protocol_id
  | DbProtocolType.ResizePosition => DlcProtocolType.ResizePosition <$> trade_params_get protocol_id
  end.

Definition get_dlc_protocol (protocol_id : ProtocolId) : Sql DlcProtocol.t :=
  dlc_protocol ← first (has_protocol_id protocol_id);
  protocol_type ← get_protocol_type protocol_id dlc_protocol;
  channel_id ← lift (expect (hex_decode (DlcProtocolRow.channel_id dlc_protocol)));
  contract_id ← lift (match DlcProtocolRow.contract_id dlc_protocol with
                      | Some cid => Some <$> expect (hex_decode cid)
                      | None => Ok None
                      end);
  trader ← lift (expect (pk_from_str (DlcProtocolRow.trader_pubkey dlc_protocol)));
  mret (DlcProtocol.mk (DlcProtocolRow.protocol_id dlc_protocol)
          (DlcProtocolRow.previous_protocol_id dlc_protocol) (DlcProtocolRow.timestamp dlc_protocol)
          channel_id contract_id trader
          (protocol_state_from_db (DlcProtocolRow.protocol_state dlc_protocol)) protocol_type).

Definition set_dlc_protocol_state_to_failed (protocol_id : ProtocolId) : Sql unit :=
  affected_rows ← execute (update (has_protocol_id protocol_id)
    (DlcProtocolRow.with_protocol_state DbProtocolState.Failed));
  lift (nonzero_rows affected_rows).

Definition set_dlc_protocol_state_to_success (protocol_id : ProtocolId)
    (contract_id : option ContractId) (channel_id : DlcChannelId) : Sql unit :=
  affected_rows ← execute (update (has_protocol_id protocol_id)
    (fun p => DlcProtocolRow.with_channel_id (hex_encode channel_id)
       (DlcProtocolRow.with_contract_id (hex_encode <$> contract_id)
          (DlcProtocolRow.with_protocol_state DbProtocolState.Success p))));
  lift (nonzero_rows affected_rows).

(** [create]. *)
Definition dlc_protocol_create (now : OffsetDateTime) (protocol_id : ProtocolId)
    (previous_protocol_id : option ProtocolId) (contract_id : option ContractId)
    (channel_id : DlcChannelId) (protocol_type : DbProtocolType.t) (trader : PublicKey) : Sql unit :=
  _ ← insert (fun id => DlcProtocolRow.mk id protocol_id previous_protocol_id
        (hex_encode channel_id) (hex_encode <$> contract_id) DbProtocolState.Pending
        (pk_to_string trader) now protocol_type);
  mret tt.
End Protocols.
