(* ===== verification/ChannelsDb.v ===== *)
(** * [coordinator/src/db]: channels and messages

    The queries of [dlc_channels.rs], [dlc_messages.rs] and
    [last_outbound_dlc_message.rs]: what the coordinator keeps of a trader's channel,
    which messages it has seen, and which message it sent last. *)

From stdpp Require Import base list option strings.
From Stdlib Require Import ZArith Lia.
From S2P Require Import Prelude Machine External Demo Commons SqlTypes Schema Db MatchesDb PositionsDb FundingDb Funding.
From S2P Require Import ProtocolDb Messages.

#[local] Open Scope Z_scope.

(** [bitcoin::Txid], displayed and parsed. *)
Class TxidLib := {
  Txid : Type;
  Txid_eq_dec :: EqDecision Txid;
  txid_to_string : Txid -> string;
  txid_from_str : string -> option Txid;
}.
Class TxidLaws (TX : TxidLib) : Prop := {
  txid_roundtrip t : txid_from_str (txid_to_string t) = Some t;
}.

(** [node/channel.rs]: the channel as the coordinator sees it. *)
Module DlcChannelState.
Inductive t := Pending | Open | Closing | Closed | Failed | Cancelled.
End DlcChannelState.

Module DlcChannel.
Record t `{IdLib} `{TxidLib} := mk {
  channel_id : DlcChannelId;
  trader : PublicKey;
  channel_state : DlcChannelState.t;
  trader_reserve_sats : Amount;
  coordinator_reserve_sats : Amount;
  coordinator_funding_sats : Amount;
  trader_funding_sats : Amount;
  funding_txid : option Txid;
  close_txid : option Txid;
  settle_txid : option Txid;
  buffer_txid : option Txid;
  claim_txid : option Txid;
  punish_txid : option Txid;
  created_at : OffsetDateTime;
  updated_at : OffsetDateTime;
}.
#[global] Arguments mk {_ _}.
End DlcChannel.

(** ** [dlc_channels.rs] *)

Definition channel_state_from_db (value : DbDlcChannelState.t) : DlcChannelState.t :=
  match value with
  | DbDlcChannelState.Pending => DlcChannelState.Pending
  | DbDlcChannelState.Open => DlcChannelState.Open
  | DbDlcChannelState.Closing => DlcChannelState.Closing
  | DbDlcChannelState.Closed => DlcChannelState.Closed
  | DbDlcChannelState.Failed => DlcChannelState.Failed
  | DbDlcChannelState.Cancelled => DlcChannelState.Cancelled
  end.

Section Channels.
Context `{IL : IdLib} `{TX : TxidLib}.
Context (now : OffsetDateTime).

(** [.map(|txid| Txid::from_str(&txid).expect("valid txid"))]. *)
Definition txid_column {E} (column : option string) : outcome E (option Txid) :=
  match column with
  | Some txid => Some <$> expect (txid_from_str txid)
  | None => Ok None
  end.

Definition dlc_channel_from {E} (value : DlcChannelRow.t) : outcome E DlcChannel.t :=
  channel_id ← expect (hex_decode (DlcChannelRow.channel_id value));
  trader ← expect (pk_from_str (DlcChannelRow.trader_pubkey value));
  funding_txid ← txid_column (DlcChannelRow.funding_txid value);
  close_txid ← txid_column (DlcChannelRow.close_txid value);
  settle_txid ← txid_column (DlcChannelRow.settle_txid value);
  buffer_txid ← txid_column (DlcChannelRow.buffer_txid value);
  claim_txid ← txid_column (DlcChannelRow.claim_txid value);
  punish_txid ← txid_column (DlcChannelRow.punish_txid value);
  Ok (DlcChannel.mk channel_id trader (channel_state_from_db (DlcChannelRow.channel_state value))
        (as_u64 (DlcChannelRow.trader_reserve_sats value))
        (as_u64 (DlcChannelRow.coordinator_reserve_sats value))
        (as_u64 (DlcChannelRow.coordinator_funding_sats value))
        (as_u64 (DlcChannelRow.trader_funding_sats value))
        funding_txid close_txid settle_txid buffer_txid claim_txid punish_txid
        (DlcChannelRow.created_at value) (DlcChannelRow.updated_at value)).

Definition has_channel_id (channel_id : DlcChannelId) (r : DlcChannelRow.t) : bool :=
  bool_decide (DlcChannelRow.channel_id r = hex_encode channel_id).
Definition opened_by (protocol_id : ProtocolId) (r : DlcChannelRow.t) : bool :=
  DlcChannelRow.open_protocol_id r =? protocol_id.

(** [set((.., channel_state.eq(state), updated_at.eq(now)))]. *)
Definition move_channel (state : DbDlcChannelState.t) (r : DlcChannelRow.t) : DlcChannelRow.t :=
  DlcChannelRow.with_updated_at now (DlcChannelRow.with_channel_state state r).
Definition set_reserves (coordinator_reserve trader_reserve : Amount) (r : DlcChannelRow.t)
    : DlcChannelRow.t :=
  DlcChannelRow.with_trader_reserve_sats (as_i64 trader_reserve)
    (DlcChannelRow.with_coordinator_reserve_sats (as_i64 coordinator_reserve) r).

Definition insert_pending_dlc_channel (open_protocol_id : ProtocolId) (channel_id : DlcChannelId)
    (trader : PublicKey) : Sql nat :=
  _ ← insert (fun id => DlcChannelRow.mk id open_protocol_id (hex_encode channel_id)
        (pk_to_string trader) DbDlcChannelState.Pending 0 0 None None None None None None now now 0 0);
  mret 1%nat.

Definition set_dlc_channel_open (open_protocol_id : ProtocolId) (channel_id : DlcChannelId)
    (funding_txid : Txid) (coordinator_reserve trader_reserve coordinator_funding trader_funding : Amount)
    : Sql nat :=
  execute (update (opened_by open_protocol_id) (fun r =>
    DlcChannelRow.with_funding_txid (Some (txid_to_string funding_txid))
      (DlcChannelRow.with_channel_id (hex_encode channel_id)
        (DlcChannelRow.with_coordinator_funding_sats (as_i64 coordinator_funding)
          (DlcChannelRow.with_trader_funding_sats (as_i64 trader_funding)
            (set_reserves coordinator_reserve trader_reserve
              (move_channel DbDlcChannelState.Open r))))))).

Definition update_channel (channel_id : DlcChannelId) (coordinator_reserve trader_reserve : Amount)
    : Sql nat :=
  execute (update (has_channel_id channel_id) (fun r =>
    DlcChannelRow.with_updated_at now (set_reserves coordinator_reserve trader_reserve r))).

Definition set_channel_force_closing_settled (channel_id : DlcChannelId) (settle_txid : Txid)
    (claim_txid : option Txid) : Sql nat :=
  execute (update (has_channel_id channel_id) (fun r =>
    DlcChannelRow.with_settle_txid (Some (txid_to_string settle_txid))
      (DlcChannelRow.with_claim_txid (txid_to_string <$> claim_txid)
        (move_channel DbDlcChannelState.Closing r)))).

Definition set_channel_force_closing (channel_id : DlcChannelId) (buffer_txid : Txid) : Sql nat :=
  execute (update (has_channel_id channel_id) (fun r =>
    DlcChannelRow.with_buffer_txid (Some (txid_to_string buffer_txid))
      (move_channel DbDlcChannelState.Closing r))).

Definition set_channel_punished (channel_id : DlcChannelId) (punish_txid : Txid) : Sql nat :=
  execute (update (has_channel_id channel_id) (fun r =>
    DlcChannelRow.with_punish_txid (Some (txid_to_string punish_txid))
      (move_channel DbDlcChannelState.Closing r))).

Definition set_channel_collab_closing (channel_id : DlcChannelId) (close_txid : Txid) : Sql nat :=
  execute (update (has_channel_id channel_id) (fun r =>
    DlcChannelRow.with_close_txid (Some (txid_to_string close_txid))
      (move_channel DbDlcChannelState.Closing r))).

Definition set_channel_closed (channel_id : DlcChannelId) (close_txid : Txid) : Sql nat :=
  execute (update (has_channel_id channel_id) (fun r =>
    DlcChannelRow.with_close_txid (Some (txid_to_string close_txid))
      (move_channel DbDlcChannelState.Closed r))).

Definition set_channel_failed (protocol_id : ProtocolId) : Sql nat :=
  execute (update (opened_by protocol_id) (move_channel DbDlcChannelState.Failed)).

Definition set_channel_cancelled (protocol_id : ProtocolId) : Sql nat :=
  execute (update (opened_by protocol_id) (move_channel DbDlcChannelState.Cancelled)).

(** [get_dlc_channel] of the database; the node library has one of its own. *)
Definition get_stored_channel (channel_id : DlcChannelId) : Sql (option DlcChannel.t) :=
  dlc_channel ← optional (first (has_channel_id channel_id));
  match dlc_channel with
  | Some dlc_channel => Some <$> lift (dlc_channel_from dlc_channel)
  | None => mret None
  end.
End Channels.

(** ** [dlc_messages.rs] *)

Definition db_message_type_from (value : DlcMessageType.t) : DbMessageType.t :=
  match value with
  | DlcMessageType.Offer => DbMessageType.Offer
  | DlcMessageType.Accept => DbMessageType.Accept
  | DlcMessageType.Sign => DbMessageType.Sign
  | DlcMessageType.SettleOffer => DbMessageType.SettleOffer
  | DlcMessageType.SettleAccept => DbMessageType.SettleAccept
  | DlcMessageType.SettleConfirm => DbMessageType.SettleConfirm
  | DlcMessageType.SettleFinalize => DbMessageType.SettleFinalize
  | DlcMessageType.RenewOffer => DbMessageType.RenewOffer
  | DlcMessageType.RenewAccept => DbMessageType.RenewAccept
  | DlcMessageType.RenewConfirm => DbMessageType.RenewConfirm
  | DlcMessageType.RenewFinalize => DbMessageType.RenewFinalize
  | DlcMessageType.RenewRevoke => DbMessageType.RenewRevoke
  | DlcMessageType.RolloverOffer => DbMessageType.RolloverOffer
  | DlcMessageType.RolloverAccept => DbMessageType.RolloverAccept
  | DlcMessageType.RolloverConfirm => DbMessageType.RolloverConfirm
  | DlcMessageType.RolloverFinalize => DbMessageType.RolloverFinalize
  | DlcMessageType.RolloverRevoke => DbMessageType.RolloverRevoke
  | DlcMessageType.CollaborativeCloseOffer => DbMessageType.CollaborativeCloseOffer
  | DlcMessageType.Reject => DbMessageType.Reject
  end.

Definition message_type_from_db (value : DbMessageType.t) : DlcMessageType.t :=
  match value with
  | DbMessageType.Offer => DlcMessageType.Offer
  | DbMessageType.Accept => DlcMessageType.Accept
  | DbMessageType.Sign => DlcMessageType.Sign
  | DbMessageType.SettleOffer => DlcMessageType.SettleOffer
  | DbMessageType.SettleAccept => DlcMessageType.SettleAccept
  | DbMessageType.SettleConfirm => DlcMessageType.SettleConfirm
  | DbMessageType.SettleFinalize => DlcMessageType.SettleFinalize
  | DbMessageType.RenewOffer => DlcMessageType.RenewOffer
  | DbMessageType.RenewAccept => DlcMessageType.RenewAccept
  | DbMessageType.RenewConfirm => DlcMessageType.RenewConfirm
  | DbMessageType.RenewFinalize => DlcMessageType.RenewFinalize
  | DbMessageType.RenewRevoke => DlcMessageType.RenewRevoke
  | DbMessageType.RolloverOffer => DlcMessageType.RolloverOffer
  | DbMessageType.RolloverAccept => DlcMessageType.RolloverAccept
  | DbMessageType.RolloverConfirm => DlcMessageType.RolloverConfirm
  | DbMessageType.RolloverFinalize => DlcMessageType.RolloverFinalize
  | DbMessageType.RolloverRevoke => DlcMessageType.RolloverRevoke
  | DbMessageType.CollaborativeCloseOffer => DlcMessageType.CollaborativeCloseOffer
  | DbMessageType.Reject => DlcMessageType.Reject
  end.

Section Messages.
Context `{IL : IdLib} `{HL : HashLib}.

Definition message_row (value : DlcMessage.t) : DlcMessageRow.t :=
  DlcMessageRow.mk (DlcMessage.message_hash value) (DlcMessage.inbound value)
    (pk_to_string (DlcMessage.peer_id value)) (db_message_type_from (DlcMessage.message_type value))
    (DlcMessage.timestamp value).
Definition message_from_row {E} (value : DlcMessageRow.t) : outcome E DlcMessage.t :=
  peer_id ← expect (pk_from_str (DlcMessageRow.peer_id value));
  Ok (DlcMessage.mk (DlcMessageRow.message_hash value) (DlcMessageRow.inbound value) peer_id
        (message_type_from_db (DlcMessageRow.message_type value)) (DlcMessageRow.timestamp value)).

Definition is_message (message_hash : string) (r : DlcMessageRow.t) : bool :=
  bool_decide (DlcMessageRow.message_hash r = message_hash).

(** [dlc_messages::get] and [insert]. *)
Definition get_message (message_hash : string) : Sql (option DlcMessageRow.t) :=
  optional (first (is_message message_hash)).
Definition insert_message (dlc_message : DlcMessage.t) : M Db.t Anyhow unit :=
  with_err FromSql (_ ← insert (fun _ => message_row dlc_message); mret tt).

(** ** [last_outbound_dlc_message.rs] *)

Definition is_last_for (peer_id : PublicKey) (r : LastOutboundRow.t) : bool :=
  bool_decide (LastOutboundRow.peer_id r = pk_to_string peer_id).

Definition delete_last_outbound (peer_id : PublicKey) : Sql nat := delete (is_last_for peer_id).

(** The [inner_join] with [dlc_messages] on the hash. *)
Definition joined_messages (d : Db.t) : list (LastOutboundRow.t * DlcMessageRow.t) :=
  flat_map (fun l => map (pair l) (List.filter (is_message (LastOutboundRow.message_hash l)) (rows d)))
    (rows d).

Definition get_last_outbound (peer_id : PublicKey) : Sql (option SerializedDlcMessage.t) :=
  last_outbound_dlc_message ← gets (fun d => List.find (fun x => is_last_for peer_id x.1) (joined_messages d));
  mret ((fun x => SerializedDlcMessage.mk (LastOutboundRow.message x.1)
           (message_type_from_db (DlcMessageRow.message_type x.2))) <$> last_outbound_dlc_message).

(** The timestamp is a default and is not updated. *)
Definition upsert_last_outbound (now : OffsetDateTime) (peer_id : PublicKey) (sdm : SerializedDlcMessage.t)
    : M Db.t Anyhow unit :=
  with_err FromSql (
    _ ← upsert (is_last_for peer_id)
          (fun _ => LastOutboundRow.mk (pk_to_string peer_id) (generate_hash sdm)
                      (SerializedDlcMessage.message sdm) now)
          (fun r => LastOutboundRow.mk (pk_to_string peer_id) (generate_hash sdm)
                      (SerializedDlcMessage.message sdm) (LastOutboundRow.timestamp r))
          (fun d r => references (has_dlc_message d (LastOutboundRow.message_hash r)));
    mret tt).
End Messages.
