(* ===== verification/StorageDb.v ===== *)
(** * [coordinator/src/db]: invoices, reverts, outputs, transactions, polls

    The queries of [hodl_invoice.rs], [collaborative_reverts.rs],
    [spendable_outputs.rs], [transactions.rs] and [polls.rs]. *)

From stdpp Require Import base list option strings pretty.
From Stdlib Require Import ZArith Lia.
From S2P Require Import Prelude Machine External Demo Commons SqlTypes Schema Db AppDb.

#[local] Open Scope Z_scope.

(** ** [hodl_invoice.rs] *)

Section Invoices.
Context `{IL : IdLib} (now : OffsetDateTime).

Definition is_pending_invoice (r : HodlInvoiceRow.t) : bool :=
  match HodlInvoiceRow.invoice_state r with
  | DbInvoiceState.Open | DbInvoiceState.Accepted => true
  | _ => false
  end.
Definition has_r_hash (r_hash : string) (r : HodlInvoiceRow.t) : bool :=
  bool_decide (HodlInvoiceRow.r_hash r = r_hash).
(** A comparison with a column that is null is not true. *)
Definition is_invoice_of (order_id : Uuid) (r : HodlInvoiceRow.t) : bool :=
  bool_decide (HodlInvoiceRow.order_id r = Some order_id).

Definition cancel_pending_hodl_invoices : Sql nat :=
  execute (update is_pending_invoice (HodlInvoiceRow.with_invoice_state DbInvoiceState.Canceled)).

Definition create_hodl_invoice (r_hash : string) (trader_pubkey : PublicKey) (amount_sats : Z)
    : M Db.t Anyhow unit :=
  with_err FromSql (_ ← insert (fun id => HodlInvoiceRow.mk id (pk_to_string trader_pubkey) r_hash
    (as_i64 amount_sats) None now None DbInvoiceState.Open None); mret tt).

Definition get_r_hash_by_order_id (order_id : Uuid) : Sql string :=
  HodlInvoiceRow.r_hash <$> first (is_invoice_of order_id).
Definition get_pre_image_by_order_id (order_id : Uuid) : Sql (option string) :=
  HodlInvoiceRow.pre_image <$> first (is_invoice_of order_id).

(** [set((updated_at.eq(now), invoice_state.eq(state)))]. *)
Definition move_invoice (state : DbInvoiceState.t) (r : HodlInvoiceRow.t) : HodlInvoiceRow.t :=
  HodlInvoiceRow.with_updated_at (Some now) (HodlInvoiceRow.with_invoice_state state r).

Definition update_hodl_invoice_to_accepted (hash pre_image : string) (order_id : Uuid)
    : M Db.t Anyhow Amount :=
  amount ← with_err FromSql (HodlInvoiceRow.amount_sats <$> get_result (update (has_r_hash hash) (fun r =>
    HodlInvoiceRow.with_pre_image (Some pre_image)
      (HodlInvoiceRow.with_order_id (Some order_id) (move_invoice DbInvoiceState.Accepted r)))));
  mret (as_u64 amount).
Definition update_hodl_invoice_to_settled (r_hash : string) : Sql (option string) :=
  HodlInvoiceRow.pre_image <$> get_result (update (has_r_hash r_hash) (move_invoice DbInvoiceState.Settled)).
Definition update_hodl_invoice_to_canceled (r_hash : string) : Sql nat :=
  execute (update (has_r_hash r_hash) (move_invoice DbInvoiceState.Canceled)).
End Invoices.

(** ** [collaborative_reverts.rs] *)

(** [position/models.rs: CollaborativeRevert]. *)
Module CollaborativeRevert.
Record t `{DecimalLib} `{IdLib} `{AddressLib} := mk {
  channel_id : DlcChannelId;
  trader_pubkey : PublicKey;
  price : Decimal;
  coordinator_address : Address;
  coordinator_amount_sats : Amount;
  trader_amount_sats : Amount;
  timestamp : OffsetDateTime;
}.
#[global] Arguments mk {_ _ _}.
End CollaborativeRevert.

Section Reverts.
Context `{DL : DecimalLib} `{IL : IdLib} `{AL : AddressLib}.

Definition new_revert_from {E} (value : CollaborativeRevert.t) : outcome E (Z -> CollaborativeRevertRow.t) :=
  price ← expect (d_to_f32 (CollaborativeRevert.price value));
  Ok (fun id => CollaborativeRevertRow.mk id (hex_encode (CollaborativeRevert.channel_id value))
        (pk_to_string (CollaborativeRevert.trader_pubkey value)) price
        (address_to_string (CollaborativeRevert.coordinator_address value))
        (as_i64 (CollaborativeRevert.coordinator_amount_sats value))
        (as_i64 (CollaborativeRevert.trader_amount_sats value)) (CollaborativeRevert.timestamp value)).

Definition amount_column (sats : Z) : outcome Anyhow Amount :=
  ok_or (Msg "Amount::from_str_in") (amount_from_sat_str (pretty sats)).
Definition revert_try_from (rev : CollaborativeRevertRow.t) : outcome Anyhow CollaborativeRevert.t :=
  channel_id ← ok_or (Msg "from_hex") (hex_decode (CollaborativeRevertRow.channel_id rev));
  trader_pubkey ← ok_or (Msg "PublicKey::from_str") (pk_from_str (CollaborativeRevertRow.trader_pubkey rev));
  price ← expect (d_from_f32 (CollaborativeRevertRow.price rev));
  address ← ok_or (Msg "Address::from_str") (address_from_str (CollaborativeRevertRow.coordinator_address rev));
  coordinator_address ← ok_or (Msg "require_network") (require_network address);
  coordinator_amount_sats ← amount_column (CollaborativeRevertRow.coordinator_amount_sats rev);
  trader_amount_sats ← amount_column (CollaborativeRevertRow.trader_amount_sats rev);
  Ok (CollaborativeRevert.mk channel_id trader_pubkey price coordinator_address coordinator_amount_sats
        trader_amount_sats (CollaborativeRevertRow.timestamp rev)).

Definition first_revert (p : CollaborativeRevertRow.t -> bool) : M Db.t Anyhow (option CollaborativeRevert.t) :=
  result ← with_err FromSql (optional (first p));
  match result with
  | Some rev => Some <$> lift (revert_try_from rev)
  | None => mret None
  end.
Definition is_revert_of (channel_id : DlcChannelId) (r : CollaborativeRevertRow.t) : bool :=
  bool_decide (CollaborativeRevertRow.channel_id r = hex_encode channel_id).

Definition by_trader_pubkey (trader_pubkey : string) : M Db.t Anyhow (option CollaborativeRevert.t) :=
  first_revert (fun r => bool_decide (CollaborativeRevertRow.trader_pubkey r = trader_pubkey)).
Definition get_by_channel_id (channel_id : DlcChannelId) : M Db.t Anyhow (option CollaborativeRevert.t) :=
  first_revert (is_revert_of channel_id).
Definition insert_revert (collaborative_revert : CollaborativeRevert.t) : M Db.t Anyhow unit :=
  revert ← lift (new_revert_from collaborative_revert);
  with_err FromSql (_ ← insert revert; mret tt).
Definition delete_revert (channel_id : DlcChannelId) : M Db.t Anyhow unit :=
  with_err FromSql (_ ← delete (is_revert_of channel_id); mret tt).
End Reverts.

(** ** [spendable_outputs.rs] *)

(** The variants of [SpendableOutputDescriptor] and the outpoint they all have. *)
Inductive OutputKind := StaticOutput | DelayedPaymentOutput | StaticPaymentOutput.
Class DescriptorLib `{OutputsLib} := {
  output_kind : SpendableOutputDescriptor -> OutputKind;
  output_outpoint : SpendableOutputDescriptor -> OutPoint.t;
}.

Section Outputs.
Context `{XL : DescriptorLib}.

Definition new_spendable_output (descriptor : SpendableOutputDescriptor) (id : Z) : OutputRow.t :=
  let outpoint := output_outpoint descriptor in
  OutputRow.mk id (OutPoint.txid outpoint) (Z.of_nat (OutPoint.index outpoint))
    (hex_text (encode_descriptor descriptor)).
Definition output_try_from (value : OutputRow.t) : outcome Anyhow SpendableOutputDescriptor :=
  bytes ← ok_or (Msg "hex::decode") (hex_bytes (OutputRow.descriptor value));
  ok_or (Msg "Failed to decode spendable output descriptor") (read_descriptor bytes).

(** Only the transaction of the outpoint is compared. *)
Definition is_output_of (outpoint : OutPoint.t) (r : OutputRow.t) : bool :=
  bool_decide (OutputRow.txid r = OutPoint.txid outpoint).

Definition insert_output (output : SpendableOutputDescriptor) : Sql unit :=
  _ ← insert (new_spendable_output output); mret tt.
Definition get_output (outpoint : OutPoint.t) : M Db.t Anyhow (option SpendableOutputDescriptor) :=
  output ← with_err FromSql (optional (first (is_output_of outpoint)));
  match output with
  | Some output => Some <$> lift (output_try_from output)
  | None => mret None
  end.
Definition delete_output (outpoint : OutPoint.t) : M Db.t Anyhow unit :=
  affected_rows ← with_err FromSql (delete (is_output_of outpoint));
  lift (ensure (negb (Nat.eqb affected_rows 0)) (Msg "Could not delete spendable output")).
Definition get_all_outputs : M Db.t Anyhow (list SpendableOutputDescriptor) :=
  outputs ← with_err FromSql (load (fun _ => true));
  lift (traverse output_try_from outputs).
End Outputs.

(** ** [transactions.rs] *)

Section Transactions.
Context (is_txid : string -> bool).

Definition transaction_row_from (value : ChainTransaction.t) : TransactionRow.t :=
  TransactionRow.mk (ChainTransaction.txid value) (as_i64 (ChainTransaction.fee value))
    (ChainTransaction.created_at value) (ChainTransaction.updated_at value) (ChainTransaction.raw value).
Definition chain_transaction_from {E} (value : TransactionRow.t) : outcome E ChainTransaction.t :=
  txid ← expect (if is_txid (TransactionRow.txid value) then Some (TransactionRow.txid value) else None);
  Ok (ChainTransaction.mk txid (as_u64 (TransactionRow.fee value)) (TransactionRow.created_at value)
        (TransactionRow.updated_at value) (TransactionRow.raw value)).

Definition has_txid (txid : string) (r : TransactionRow.t) : bool := bool_decide (TransactionRow.txid r = txid).
Definition get_transaction_row (txid : string) : Sql (option TransactionRow.t) := optional (first (has_txid txid)).
Definition get_all_without_fees : Sql (list TransactionRow.t) := load (fun r => TransactionRow.fee r =? 0).
Definition upsert_transaction_row (tx : TransactionRow.t) : M Db.t Anyhow unit :=
  with_err FromSql (_ ← upsert (has_txid (TransactionRow.txid tx)) (fun _ => tx) (fun _ => tx) (fun _ _ => None);
                    mret tt).
End Transactions.

(** ** [polls.rs] *)

(** [commons/polls.rs]. *)
Module PollType.
Inductive t := SingleChoice.
End PollType.
Module Choice.
Record t := mk { id : Z; value : string; editable : bool }.
End Choice.
Module Poll.
Record t := mk { id : Z; poll_type : PollType.t; question : string; choices : list Choice.t }.
End Poll.
Module Answer.
Record t := mk { choice_id : Z; value : string }.
End Answer.
Module PollAnswers.
Record t `{IdLib} := mk { poll_id : Z; trader_pk : PublicKey; answers : list Answer.t }.
#[global] Arguments mk {_}.
End PollAnswers.

Section Polls.
Context `{IL : IdLib}.

Definition poll_type_from (value : DbPollType.t) : PollType.t :=
  match value with DbPollType.SingleChoice => PollType.SingleChoice end.

(** [polls.filter(active).left_join(choices)]. *)
Definition joined_polls (d : Db.t) : list (PollRow.t * option ChoiceRow.t) :=
  flat_map (fun poll =>
    match List.filter (fun choice => ChoiceRow.poll_id choice =? PollRow.id poll) (rows d) with
    | [] => [(poll, None)]
    | choices => map (fun choice => (poll, Some choice)) choices
    end) (List.filter PollRow.active (rows d)).

#[local] Instance poll_row_eq_dec : EqDecision PollRow.t.
Proof. solve_decision. Defined.

(** [entry(poll).or_insert_with(Vec::new)] and the push; the polls are kept in the
    order in which they came, a [HashMap] has none. *)
Fixpoint push_choice (poll : PollRow.t) (choice : option ChoiceRow.t)
    (polls : list (PollRow.t * list ChoiceRow.t)) : list (PollRow.t * list ChoiceRow.t) :=
  match polls with
  | [] => [(poll, option_list choice)]
  | (p, cs) :: polls =>
    if decide (p = poll) then (p, cs ++ option_list choice) :: polls
    else (p, cs) :: push_choice poll choice polls
  end.

(** The poll is not looked at. *)
Definition is_whitelisted (trader_id : PublicKey) (d : Db.t) : bool :=
  has d (fun w => bool_decide (PollsWhitelistRow.trader_pubkey w = pk_to_string trader_id)).

Definition active_polls (trader_id : PublicKey) : Sql (list Poll.t) := gets (fun d =>
  let polls_with_choices := fold_left (fun polls '(poll, choice) =>
    if PollRow.whitelisted poll && negb (is_whitelisted trader_id d) then polls
    else push_choice poll choice polls) (joined_polls d) [] in
  map (fun '(poll, choice_vec) =>
    Poll.mk (PollRow.id poll) (poll_type_from (PollRow.poll_type poll)) (PollRow.question poll)
      (map (fun choice => Choice.mk (ChoiceRow.id choice) (ChoiceRow.value choice) (ChoiceRow.editable choice))
         choice_vec)) polls_with_choices).

(** The answers are inserted one by one, without a transaction. *)
Definition add_answer (now : OffsetDateTime) (answers : PollAnswers.t) : M Db.t Anyhow unit :=
  for_each (fun answer => with_err FromSql (
    _ ← insert (fun id => AnswerRow.mk id (Answer.choice_id answer)
          (pk_to_string (PollAnswers.trader_pk answers)) (Answer.value answer) now);
    mret tt)) (PollAnswers.answers answers);;
  lift (ensure (negb (Nat.eqb (length (PollAnswers.answers answers)) 0)) (Msg "Could not insert answers by user")).
End Polls.

(** ** Addresses to run the code with *)

#[export] Instance demo_address : AddressLib := {|
  Address := string;
  address_to_string a := a;
  UncheckedAddress := string;
  as_unchecked a := a;
  address_from_str := Some;
  require_network := Some;
  amount_from_sat_str s := List.find (fun amount => bool_decide (pretty amount = s)) [299160; 199160];
|}.
