(* ===== verification/Delivery.v ===== *)
(** * Messages to users: [coordinator/src/message.rs], [notifications.rs], [orderbook/collaborative_revert.rs]

    What the coordinator tells a trader goes over the trader's latest websocket
    connection, or, if there is none, out as a push notification. *)

From stdpp Require Import base list option strings.
From Stdlib Require Import ZArith Lia.
From S2P Require Import Prelude Machine External Demo Commons SqlTypes Schema Db MatchesDb Trading.
From S2P Require Import FundingDb Referrals Feed StorageDb.

#[local] Open Scope Z_scope.

(** ** [message.rs] *)

Module OrderbookMessage.
Record t `{DecimalLib} `{IdLib} `{AddressLib} := mk {
  trader_id : PublicKey;
  message : Message.t;
  notification : option NotificationKind;
}.
#[global] Arguments mk {_ _ _}.
End OrderbookMessage.

(** A connection is the sending half of a channel. *)
Definition Connection : Set := nat.
Module NewUserMessage.
Record t `{IdLib} := mk { new_user : PublicKey; sender : Connection }.
#[global] Arguments mk {_}.
End NewUserMessage.

Module Notification.
Record t `{IdLib} := mk { trader_ids : list PublicKey; notification_kind : NotificationKind }.
#[global] Arguments mk {_}.
End Notification.

(** The authenticated users, which connections still have a receiver, what was sent
    over them, and the notifications to push while their service runs. *)
Module Delivery.
Record t `{DecimalLib} `{IdLib} `{AddressLib} := mk {
  authenticated_users : list (PublicKey * Connection);
  open : Connection -> bool;
  delivered : list (Connection * Message.t);
  service_running : bool;
  notifications : list Notification.t;
}.
#[global] Arguments mk {_ _ _}.
End Delivery.

Section Delivery.
Context `{DL : DecimalLib} `{IL : IdLib} `{AL : AddressLib}.

Definition DeliveryM (A : Type) : Type := M Delivery.t Anyhow A.

(** [HashMap::insert] and [get]. *)
Definition insert_user (user : PublicKey) (sender : Connection) (users : list (PublicKey * Connection))
    : list (PublicKey * Connection) :=
  (user, sender) :: List.filter (fun u => negb (bool_decide (u.1 = user))) users.
Definition find_user (user : PublicKey) (users : list (PublicKey * Connection)) : option Connection :=
  snd <$> List.find (fun u => bool_decide (u.1 = user)) users.

(** The task that listens to the user feed. *)
Definition register_user (new_user_msg : NewUserMessage.t) : DeliveryM unit :=
  modify (fun s => Delivery.mk (insert_user (NewUserMessage.new_user new_user_msg) (NewUserMessage.sender new_user_msg)
    (Delivery.authenticated_users s)) (Delivery.open s) (Delivery.delivered s) (Delivery.service_running s)
    (Delivery.notifications s)).

(** [sender.send(message)] and [notification_sender.send(..)]: an error without a
    receiver. *)
Definition send_message (sender : Connection) (message : Message.t) : M Delivery.t string unit := fun s =>
  if Delivery.open s sender then
    (Ok tt, Delivery.mk (Delivery.authenticated_users s) (Delivery.open s) (Delivery.delivered s ++ [(sender, message)])
       (Delivery.service_running s) (Delivery.notifications s))
  else (Err "channel closed"%string, s).
Definition send_notification (notification : Notification.t) : DeliveryM unit := fun s =>
  if Delivery.service_running s then
    (Ok tt, Delivery.mk (Delivery.authenticated_users s) (Delivery.open s) (Delivery.delivered s)
       (Delivery.service_running s) (Delivery.notifications s ++ [notification]))
  else (Err (Msg "Failed to send push notification to trader"), s).

Definition push_optional (trader_id : PublicKey) (notification : option NotificationKind) : DeliveryM unit :=
  match notification with
  | Some notification_kind => send_notification (Notification.mk [trader_id] notification_kind)
  | None => mret tt
  end.
Definition process_orderbook_message (notification : OrderbookMessage.t) : DeliveryM unit := fun s =>
  let trader_id := OrderbookMessage.trader_id notification in
  match find_user trader_id (Delivery.authenticated_users s) with
  | Some sender =>
    match send_message sender (OrderbookMessage.message notification) s with
    | (Ok _, s) => (Ok tt, s)
    | (_, s) => push_optional trader_id (OrderbookMessage.notification notification) s
    end
  | None => push_optional trader_id (OrderbookMessage.notification notification) s
  end.

(** ** [orderbook/collaborative_revert.rs] *)

(** What is to be sent to a user that connects. *)
Definition pending_collaborative_revert (trader_id : PublicKey) : M Db.t Anyhow (option OrderbookMessage.t) :=
  revert ← by_trader_pubkey (pk_to_string trader_id);
  mret ((fun revert => OrderbookMessage.mk trader_id
    (Message.DlcChannelCollaborativeRevert (CollaborativeRevert.channel_id revert)
      (as_unchecked (CollaborativeRevert.coordinator_address revert)) (CollaborativeRevert.coordinator_amount_sats revert)
      (CollaborativeRevert.trader_amount_sats revert) (CollaborativeRevert.price revert)) None) <$> revert).
End Delivery.

(** ** [notifications.rs] *)

(** [build_notification]: title and body. *)
Definition build_notification (kind : NotificationKind) : string * string :=
  match kind with
  | PositionSoonToExpire =>
    ("Your position is about to expire ⏳"%string, "Open your app to roll over your position for the next cycle."%string)
  | PositionExpired => ("Your position has expired 🥴"%string, "Open your app to execute the expiration."%string)
  | RolloverWindowOpen =>
    ("Rollover window is open 🪟"%string, "Open your app to roll over your position for the next cycle."%string)
  | CollaborativeRevert => ("Error detected"%string, "Please open your app to recover your funds."%string)
  | Custom title message => (title, message)
  end.

(** [FcmToken::new]. *)
Definition fcm_token_new (token : string) : outcome Anyhow string :=
  ensure (negb (bool_decide (token = EmptyString))) (Msg "FCM token cannot be empty");; Ok token.

Section Notifications.
Context `{DL : DecimalLib} `{IL : IdLib} (fcm_api_key : string).

Definition fcm_tokens (users : list UserRow.t) : list string :=
  omap (fun token => match fcm_token_new token with Ok token => Some token | _ => None end)
    (List.filter (fun token => negb (bool_decide (token = EmptyString)) && negb (bool_decide (token = "unavailable"%string)))
      (map UserRow.fcm_token users)).

(** The service's task for one notification: what is handed to the FCM client, token,
    title and body; errors of the client are logged. *)
Definition handle_notification (notification : Notification.t) : Sql (list (string * (string * string))) := fun d =>
  match get_users (Notification.trader_ids notification) d with
  | (Ok users, d) =>
    (Ok (if bool_decide (fcm_api_key = EmptyString) then [] else
         map (fun token => (token, build_notification (Notification.notification_kind notification))) (fcm_tokens users)), d)
  | (Err _, d) => (Ok [], d)
  | (Panic, d) => (Panic, d)
  end.
End Notifications.

(** ** Who gets a message *)

Section DeliverySpec.
Context `{DL : DecimalLib} `{IL : IdLib} `{AL : AddressLib}.

Lemma find_insert_user user user' sender users :
  find_user user (insert_user user' sender users) = if bool_decide (user' = user) then Some sender else find_user user users.
Proof using Type.
  unfold find_user, insert_user. cbn. case_bool_decide as Hu; [done|]. f_equal.
  induction users as [|u users IH]; [done|]. cbn. repeat case_bool_decide; cbn; rewrite ?bool_decide_true,
    ?bool_decide_false by congruence; congruence.
Qed.

(** The connection a user registered last. *)
Definition latest_connection (user : PublicKey) (feed : list NewUserMessage.t) (before : option Connection)
    : option Connection :=
  fold_left (fun c m => if bool_decide (NewUserMessage.new_user m = user) then Some (NewUserMessage.sender m) else c)
    feed before.

Lemma register_all feed : forall (s : Delivery.t),
  exists users, for_each register_user feed s = (Ok tt, Delivery.mk users (Delivery.open s) (Delivery.delivered s)
    (Delivery.service_running s) (Delivery.notifications s)) /\
  forall user, find_user user users = latest_connection user feed (find_user user (Delivery.authenticated_users s)).
Proof using Type.
  induction feed as [|m feed IH]; intros s; cbn [for_each].
  - exists (Delivery.authenticated_users s). by destruct s.
  - unfold mbind, M_bind, register_user at 1, modify. destruct (IH (Delivery.mk
      (insert_user (NewUserMessage.new_user m) (NewUserMessage.sender m) (Delivery.authenticated_users s)) (Delivery.open s)
      (Delivery.delivered s) (Delivery.service_running s) (Delivery.notifications s))) as (users & Hrun & Hfind).
    exists users. split; [exact Hrun|]. intros user. rewrite Hfind.
    cbn [Delivery.authenticated_users]. by rewrite find_insert_user.
Qed.

(** A message reaches its trader over the connection they registered last, whatever
    others registered in between, and is then not pushed; if that connection is gone, or
    there never was one, exactly the optional notification is pushed to exactly this
    trader, and nothing is delivered to anybody. *)
Theorem message_reaches_latest_connection feed trader_id message notification (s s1 : Delivery.t) r s' u :
  for_each register_user feed s = (Ok u, s1) ->
  process_orderbook_message (OrderbookMessage.mk trader_id message notification) s1 = (r, s') ->
  Delivery.authenticated_users s' = Delivery.authenticated_users s1 /\
  match List.filter (Delivery.open s)
          (option_list (latest_connection trader_id feed (find_user trader_id (Delivery.authenticated_users s)))) with
  | c :: _ => r = Ok tt /\ Delivery.delivered s' = Delivery.delivered s ++ [(c, message)] /\
      Delivery.notifications s' = Delivery.notifications s
  | [] => Delivery.delivered s' = Delivery.delivered s /\
      match notification with
      | Some kind =>
        if Delivery.service_running s
        then r = Ok tt /\ Delivery.notifications s' = Delivery.notifications s ++ [Notification.mk [trader_id] kind]
        else is_ok r = false /\ Delivery.notifications s' = Delivery.notifications s
      | None => r = Ok tt /\ Delivery.notifications s' = Delivery.notifications s
      end
  end.
Proof.
  intros Hfeed Hrun. destruct (register_all feed s) as (users & Hreg & Hfind).
  rewrite Hreg in Hfeed. injection Hfeed as _ <-. rewrite <-Hfind.
  unfold process_orderbook_message in Hrun.
  cbn [OrderbookMessage.trader_id OrderbookMessage.message OrderbookMessage.notification Delivery.authenticated_users] in Hrun.
  assert (Hpush : forall s1 : Delivery.t, push_optional trader_id notification s1 = (r, s') ->
    Delivery.authenticated_users s' = Delivery.authenticated_users s1 /\
    Delivery.delivered s' = Delivery.delivered s1 /\
    match notification with
    | Some kind =>
      if Delivery.service_running s1
      then r = Ok tt /\ Delivery.notifications s' = Delivery.notifications s1 ++ [Notification.mk [trader_id] kind]
      else is_ok r = false /\ Delivery.notifications s' = Delivery.notifications s1
    | None => r = Ok tt /\ Delivery.notifications s' = Delivery.notifications s1
    end).
  { intros s1. unfold push_optional, send_notification. destruct notification as [kind|].
    - destruct (Delivery.service_running s1); by intros [= <- <-].
    - by intros [= <- <-]. }
  destruct (find_user trader_id users) as [c|]; cbn; [|by apply Hpush in Hrun].
  unfold send_message in Hrun. cbn [Delivery.open] in Hrun. destruct (Delivery.open s c); [|by apply Hpush in Hrun].
  by injection Hrun as <- <-.
Qed.
End DeliverySpec.

(** Alice connects twice; her second connection gets the message. *)
Definition demo_feed : list NewUserMessage.t :=
  [NewUserMessage.mk (H := demo_id) "alice"%string 1%nat; NewUserMessage.mk (H := demo_id) "bob"%string 2%nat;
   NewUserMessage.mk (H := demo_id) "alice"%string 3%nat].
Definition demo_delivery : Delivery.t (H := demo_decimal) (H1 := demo_address) :=
  Delivery.mk [] (fun c => Nat.eqb c 3) [] true [].
Definition demo_deletion : OrderbookMessage.t (H := demo_decimal) (H1 := demo_address) :=
  OrderbookMessage.mk (H0 := demo_id) "alice"%string (Message.DeleteOrder 40) None.

Example message_reaches_latest_connection_witness :
  exists s1 s', for_each register_user demo_feed demo_delivery = (Ok tt, s1) /\
    process_orderbook_message demo_deletion s1 = (Ok tt, s') /\
    Delivery.delivered s' = [(3%nat, Message.DeleteOrder 40)].
Proof.
  destruct (for_each register_user demo_feed demo_delivery) as [r1 s1] eqn:H1.
  assert (r1 = Ok tt) as -> by (injection H1 as <- _; reflexivity).
  destruct (process_orderbook_message demo_deletion s1) as [r2 s2] eqn:H2.
  destruct (message_reaches_latest_connection demo_feed (OrderbookMessage.trader_id demo_deletion)
    (Message.DeleteOrder 40) None demo_delivery s1 r2 s2 tt H1 H2) as (_ & -> & Hd & _).
  exists s1, s2. split; [reflexivity|]. split; [exact H2|exact Hd].
Defined.
