(* ===== verification/NodeStorage.v ===== *)
(** * [node::Storage]: transactions and outputs that can be spent

    The trait of [crates/xxi-node/src/node/storage.rs] as a class of operations,
    what its comments promise as laws, and its three implementations: in memory
    ([node/storage.rs]), in the coordinator's database ([coordinator/src/node/storage.rs])
    and in the app's ([mobile/native/src/dlc/node.rs]).  [shadow.rs], which completes
    the fees of the transactions, is proved against the laws. *)

From stdpp Require Import base list option strings gmap.
From Stdlib Require Import ZArith Lia.
From S2P Require Import Prelude Machine External Demo Commons SqlTypes Schema Db Sqlite AppDb StorageDb.

#[local] Open Scope Z_scope.

(** ** The trait *)

Class NodeStorage `{OutputsLib} (S : Type) := {
  insert_spendable_output : SpendableOutputDescriptor -> M S Anyhow unit;
  get_spendable_output : OutPoint.t -> M S Anyhow (option SpendableOutputDescriptor);
  delete_spendable_output : OutPoint.t -> M S Anyhow unit;
  all_spendable_outputs : M S Anyhow (list SpendableOutputDescriptor);
  upsert_transaction : ChainTransaction.t -> M S Anyhow unit;
  get_transaction : string -> M S Anyhow (option ChainTransaction.t);
  all_transactions_without_fees : M S Anyhow (list ChainTransaction.t);
}.

(** A transaction as the code builds it. *)
Definition valid_transaction (is_txid : string -> bool) (tx : ChainTransaction.t) : Prop :=
  is_txid (ChainTransaction.txid tx) = true /\ 0 <= ChainTransaction.fee tx < 2 ^ 64 /\
  is_datetime (ChainTransaction.created_at tx) /\ is_datetime (ChainTransaction.updated_at tx).

Definition without_fee (tx : ChainTransaction.t) : bool := ChainTransaction.fee tx =? 0.

(** What the trait says of transactions, of operations that return.  A store may
    keep times less precisely ([kept]). *)
Class TransactionStore (is_txid : string -> bool) (S : Type) `{NodeStorage S} := {
  transactions_wf : S -> Prop;
  transactions_of : S -> gmap string ChainTransaction.t;
  kept : ChainTransaction.t -> ChainTransaction.t;
  kept_fields tx : ChainTransaction.txid (kept tx) = ChainTransaction.txid tx /\
    ChainTransaction.fee (kept tx) = ChainTransaction.fee tx /\ ChainTransaction.raw (kept tx) = ChainTransaction.raw tx;
  kept_valid tx : valid_transaction is_txid tx -> valid_transaction is_txid (kept tx);
  kept_kept tx : valid_transaction is_txid tx -> kept (kept tx) = kept tx;
  stored_transaction s txid tx : transactions_wf s -> transactions_of s !! txid = Some tx ->
    ChainTransaction.txid tx = txid /\ valid_transaction is_txid tx /\ kept tx = tx;
  get_transaction_ok txid s r s' : transactions_wf s -> get_transaction txid s = (Ok r, s') ->
    s' = s /\ r = transactions_of s !! txid;
  upsert_transaction_ok tx s u s' : transactions_wf s -> valid_transaction is_txid tx ->
    upsert_transaction tx s = (Ok u, s') ->
    transactions_wf s' /\ transactions_of s' = <[ChainTransaction.txid tx := kept tx]> (transactions_of s);
  without_fees_ok s l s' : transactions_wf s -> all_transactions_without_fees s = (Ok l, s') ->
    s' = s /\ l ≡ₚ List.filter without_fee (map_to_list (transactions_of s)).*2;
}.

(** What the trait says of outputs; those that pay to the wallet need not be kept. *)
Class OutputStore (S : Type) `{NodeStorage S} `{!DescriptorLib} `{Countable OutPoint.t} := {
  outputs_wf : S -> Prop;
  outputs_of : S -> gmap OutPoint.t SpendableOutputDescriptor;
  get_output_ok o s r s' : outputs_wf s -> get_spendable_output o s = (Ok r, s') ->
    s' = s /\ r = outputs_of s !! o;
  insert_output_ok d s u s' : outputs_wf s -> output_kind d <> StaticOutput ->
    insert_spendable_output d s = (Ok u, s') ->
    outputs_wf s' /\ outputs_of s' = <[output_outpoint d := d]> (outputs_of s);
  delete_output_ok o s u s' : outputs_wf s -> delete_spendable_output o s = (Ok u, s') ->
    outputs_wf s' /\ outputs_of s' = base.delete o (outputs_of s);
  all_outputs_ok s l s' : outputs_wf s -> all_spendable_outputs s = (Ok l, s') ->
    s' = s /\ l ≡ₚ (map_to_list (outputs_of s)).*2;
}.

#[export] Instance outpoint_eq_dec : EqDecision OutPoint.t.
Proof. solve_decision. Defined.
#[export] Instance outpoint_countable : Countable OutPoint.t :=
  inj_countable' (fun o => (OutPoint.txid o, OutPoint.index o)) (fun p => OutPoint.mk p.1 p.2)
    (fun o => match o with OutPoint.mk _ _ => eq_refl end).

(** ** In memory *)

Module MemoryStore.
Record t `{OutputsLib} := mk {
  spendable_outputs : gmap OutPoint.t SpendableOutputDescriptor;
  transactions : gmap string ChainTransaction.t;
}.
#[global] Arguments mk {_}.
End MemoryStore.

Section Memory.
Context `{XL : DescriptorLib}.

Definition memory_insert_output (descriptor : SpendableOutputDescriptor) : M MemoryStore.t Anyhow unit :=
  match output_kind descriptor with
  | StaticOutput => mret tt
  | DelayedPaymentOutput | StaticPaymentOutput =>
    modify (fun s => MemoryStore.mk (<[output_outpoint descriptor := descriptor]> (MemoryStore.spendable_outputs s))
                       (MemoryStore.transactions s))
  end.
Definition memory_get_output (outpoint : OutPoint.t) : M MemoryStore.t Anyhow (option SpendableOutputDescriptor) :=
  gets (fun s => MemoryStore.spendable_outputs s !! outpoint).
Definition memory_delete_output (outpoint : OutPoint.t) : M MemoryStore.t Anyhow unit :=
  modify (fun s => MemoryStore.mk (base.delete outpoint (MemoryStore.spendable_outputs s)) (MemoryStore.transactions s)).
Definition memory_all_outputs : M MemoryStore.t Anyhow (list SpendableOutputDescriptor) :=
  gets (fun s => (map_to_list (MemoryStore.spendable_outputs s)).*2).
Definition memory_upsert_transaction (transaction : ChainTransaction.t) : M MemoryStore.t Anyhow unit :=
  modify (fun s => MemoryStore.mk (MemoryStore.spendable_outputs s)
                     (<[ChainTransaction.txid transaction := transaction]> (MemoryStore.transactions s))).
Definition memory_get_transaction (txid : string) : M MemoryStore.t Anyhow (option ChainTransaction.t) :=
  gets (fun s => MemoryStore.transactions s !! txid).
Definition memory_without_fees : M MemoryStore.t Anyhow (list ChainTransaction.t) :=
  gets (fun s => List.filter without_fee (map_to_list (MemoryStore.transactions s)).*2).

#[export] Instance memory_storage : NodeStorage MemoryStore.t := {|
  insert_spendable_output := memory_insert_output;
  get_spendable_output := memory_get_output;
  delete_spendable_output := memory_delete_output;
  all_spendable_outputs := memory_all_outputs;
  upsert_transaction := memory_upsert_transaction;
  get_transaction := memory_get_transaction;
  all_transactions_without_fees := memory_without_fees;
|}.

#[export, refine] Instance memory_transactions is_txid : TransactionStore is_txid MemoryStore.t := {|
  transactions_wf s := map_Forall (fun txid tx => ChainTransaction.txid tx = txid /\ valid_transaction is_txid tx)
    (MemoryStore.transactions s);
  transactions_of := MemoryStore.transactions;
  kept tx := tx;
|}.
Proof.
  - done.
  - done.
  - done.
  - intros s txid tx Hwf Htx. by destruct (Hwf _ _ Htx).
  - by intros txid s r s' _ [= <- <-].
  - intros tx s u s' Hwf Htx [= _ <-]. cbn. split; [|done]. by apply map_Forall_insert_2.
  - by intros s l s' _ [= <- <-].
Defined.

#[export, refine] Instance memory_outputs : OutputStore MemoryStore.t := {|
  outputs_wf s := True;
  outputs_of := MemoryStore.spendable_outputs;
|}.
Proof.
  - by intros o s r s' _ [= <- <-].
  - intros d s u s' _ Hd Hins. cbn in Hins. unfold memory_insert_output in Hins.
    by destruct (output_kind d); [|injection Hins as _ <-..].
  - by intros o s u s' _ [= _ <-].
  - by intros s l s' _ [= <- <-].
Defined.
End Memory.

(** ** Rows of a table with a key *)

Section Keyed.
Context {K R : Type} `{Countable K} (key : R -> K).

Definition keyed (l : list R) : gmap K R := list_to_map (map (fun r => (key r, r)) l).
Definition has_key (k : K) (r : R) : bool := bool_decide (key r = k).
Definition unique_keys (l : list R) : Prop := NoDup (map key l).

Lemma keyed_cons r l : keyed (r :: l) = <[key r := r]> (keyed l).
Proof using Type. done. Qed.

Lemma keyed_lookup l k : keyed l !! k = head (List.filter (has_key k) l).
Proof using Type.
  induction l as [|r l IH]; [done|]. rewrite keyed_cons, lookup_insert. cbn. unfold has_key at 1.
  destruct (decide (key r = k)) as [Hk|Hk].
  - by rewrite (bool_decide_eq_true_2 _ Hk).
  - by rewrite (bool_decide_eq_false_2 _ Hk).
Qed.

Lemma keyed_key l k r : keyed l !! k = Some r -> key r = k /\ r ∈ l.
Proof using Type.
  induction l as [|x l IH]; [by rewrite keyed_lookup|]. rewrite keyed_cons, lookup_insert.
  case_decide as Hk; [intros [= <-]; split; [done|by left]|]. intros [? ?]%IH. split; [done|by right].
Qed.

Lemma keyed_absent l k : keyed l !! k = None <-> k ∉ map key l.
Proof using Type.
  unfold keyed. rewrite <-not_elem_of_list_to_map, <-list_fmap_compose. done.
Qed.

Lemma keyed_replace l r : is_Some (keyed l !! key r) ->
  keyed (update_rows (has_key (key r)) (fun _ => r) l) = <[key r := r]> (keyed l).
Proof using Type.
  intros Hin. apply map_eq. intros k. rewrite lookup_insert. unfold update_rows, has_key. revert Hin.
  induction l as [|x l IH]; cbn [map]; [by intros [? ?]|]. rewrite !keyed_cons, !lookup_insert.
  destruct (decide (key x = key r)) as [Hx|Hx].
  - rewrite (bool_decide_eq_true_2 _ Hx). intros _. rewrite Hx. repeat case_decide; try done.
    destruct (decide (is_Some (keyed l !! key r))) as [Hl|Hl]; [rewrite (IH Hl); repeat case_decide; congruence|].
    f_equal. f_equal. rewrite <-(map_id l) at 2. apply map_ext_in. intros y Hy. case_bool_decide as Hyr; [|done].
    exfalso. apply Hl. rewrite <-Hyr. apply not_eq_None_Some. rewrite keyed_absent. intros Hn. apply Hn.
    apply list_elem_of_fmap. exists y. split; [done|]. by apply list_elem_of_In.
  - rewrite (bool_decide_eq_false_2 _ Hx). intros Hin. specialize (IH Hin). case_decide; case_decide; congruence.
Qed.

Lemma keyed_add l r : keyed l !! key r = None -> keyed (l ++ [r]) = <[key r := r]> (keyed l).
Proof using Type.
  intros Hr. unfold keyed. rewrite map_app, list_to_map_app. cbn. rewrite insert_empty.
  rewrite (insert_union_singleton_l _ (key r)). apply map_union_comm, map_disjoint_singleton_r. exact Hr.
Qed.

Lemma unique_keys_replace l r : unique_keys l -> unique_keys (update_rows (has_key (key r)) (fun _ => r) l).
Proof using Type.
  unfold unique_keys, update_rows. rewrite map_map. intros Hl. erewrite map_ext; [exact Hl|].
  intros x. unfold has_key. by case_bool_decide.
Qed.
Lemma unique_keys_add l r : unique_keys l -> keyed l !! key r = None -> unique_keys (l ++ [r]).
Proof using Type.
  unfold unique_keys. intros Hl Hr%keyed_absent. rewrite map_app. apply NoDup_app. cbn.
  split; [done|]. split; [|apply NoDup_singleton]. intros k Hk ->%list_elem_of_singleton. done.
Qed.

Lemma keyed_values l : unique_keys l -> (map_to_list (keyed l)).*2 ≡ₚ l.
Proof using Type.
  intros Hl. unfold keyed. rewrite map_to_list_to_map.
  - rewrite <-list_fmap_compose. by rewrite list_fmap_id.
  - by rewrite <-list_fmap_compose.
Qed.
End Keyed.

(** What a row with a key says of the values it stands for. *)
Section Values.
Context {R : Type} (key : R -> string) (val : R -> ChainTransaction.t).

Definition valued (l : list R) : gmap string ChainTransaction.t := val <$> keyed key l.

Lemma valued_lookup l k : valued l !! k = val <$> head (List.filter (has_key key k) l).
Proof using Type. unfold valued. by rewrite lookup_fmap, keyed_lookup. Qed.

Lemma valued_put l r : valued (match keyed key l !! key r with
                               | Some _ => update_rows (has_key key (key r)) (fun _ => r) l
                               | None => l ++ [r]
                               end) = <[key r := val r]> (valued l).
Proof using Type.
  unfold valued. rewrite <-fmap_insert. destruct (keyed key l !! key r) as [r0|] eqn:Hr.
  - by rewrite keyed_replace by (by rewrite Hr).
  - by rewrite keyed_add.
Qed.

Lemma unique_keys_put l r : unique_keys key l ->
  unique_keys key (match keyed key l !! key r with
                   | Some _ => update_rows (has_key key (key r)) (fun _ => r) l
                   | None => l ++ [r]
                   end).
Proof using Type.
  intros Hl. destruct (keyed key l !! key r) as [r0|] eqn:Hr;
    [by apply unique_keys_replace|by apply unique_keys_add].
Qed.

Lemma filter_permutation {A} (p : A -> bool) l l' : l ≡ₚ l' -> List.filter p l ≡ₚ List.filter p l'.
Proof using Type.
  induction 1 as [|x l l' _ IH|x y l|l1 l2 l3 _ IH1 _ IH2]; cbn; [done| | |by rewrite IH1].
  - destruct (p x); [by rewrite IH|done].
  - destruct (p x), (p y); try done. apply Permutation_swap.
Qed.

Lemma valued_filter l (p : R -> bool) : unique_keys key l -> Forall (fun r => p r = without_fee (val r)) l ->
  map val (List.filter p l) ≡ₚ List.filter without_fee (map_to_list (valued l)).*2.
Proof using Type.
  intros Hl Hp. unfold valued. rewrite map_to_list_fmap, <-list_fmap_compose.
  assert (Hv : (snd ∘ prod_map id val) <$> map_to_list (keyed key l) ≡ₚ map val l).
  { change (snd ∘ prod_map id val) with (val ∘ @snd string R). rewrite (list_fmap_compose snd val).
    apply (fmap_Permutation val). by apply keyed_values. }
  rewrite (filter_permutation _ _ _ Hv). clear Hv Hl.
  induction Hp as [|r l Hr _ IH]; cbn; [done|]. rewrite <-Hr. destruct (p r); cbn; by rewrite IH.
Qed.
End Values.

(** A [u64] in a column of [i64]s. *)
Lemma as_u64_is_zero z : - 2 ^ 63 <= z < 2 ^ 63 -> (as_u64 z =? 0) = (z =? 0).
Proof.
  intros Hz. unfold as_u64. destruct (Z.eqb_spec z 0) as [->|Hne]; [done|]. apply Z.eqb_neq. intros Hmod.
  apply Z.mod_divide in Hmod as [q Hq]; [|lia]. assert (q = 0) by lia. lia.
Qed.
Lemma as_i64_range z : - 2 ^ 63 <= as_i64 z < 2 ^ 63.
Proof. unfold as_i64. pose proof (Z.mod_pos_bound (z + 2 ^ 63) (2 ^ 64)). lia. Qed.

(** ** In the coordinator's database *)

Section Coordinator.
Context `{XL : DescriptorLib} (is_txid : string -> bool).

Definition coordinator_get_transaction (txid : string) : M Db.t Anyhow (option ChainTransaction.t) :=
  transaction ← with_err FromSql (get_transaction_row txid);
  match transaction with
  | Some t => Some <$> lift (chain_transaction_from is_txid t)
  | None => mret None
  end.
Definition coordinator_without_fees : M Db.t Anyhow (list ChainTransaction.t) :=
  transactions ← with_err FromSql get_all_without_fees;
  lift (traverse (chain_transaction_from is_txid) transactions).

#[export] Instance coordinator_storage : NodeStorage Db.t := {|
  insert_spendable_output output := with_err FromSql (insert_output output);
  get_spendable_output := get_output;
  delete_spendable_output := delete_output;
  all_spendable_outputs := get_all_outputs;
  upsert_transaction transaction := upsert_transaction_row (transaction_row_from transaction);
  get_transaction := coordinator_get_transaction;
  all_transactions_without_fees := coordinator_without_fees;
|}.

(** What a row stands for, and the rows the code writes. *)
Definition row_transaction (r : TransactionRow.t) : ChainTransaction.t :=
  ChainTransaction.mk (TransactionRow.txid r) (as_u64 (TransactionRow.fee r)) (TransactionRow.created_at r)
    (TransactionRow.updated_at r) (TransactionRow.raw r).
Definition transaction_row_ok (r : TransactionRow.t) : Prop :=
  valid_transaction is_txid (row_transaction r) /\ - 2 ^ 63 <= TransactionRow.fee r < 2 ^ 63.

Lemma row_transaction_from tx : valid_transaction is_txid tx -> row_transaction (transaction_row_from tx) = tx.
Proof.
  intros (_ & Hfee & _). destruct tx. unfold row_transaction. cbn in *. by rewrite as_u64_as_i64.
Qed.
Lemma transaction_row_from_ok tx : valid_transaction is_txid tx -> transaction_row_ok (transaction_row_from tx).
Proof.
  intros Htx. unfold transaction_row_ok. rewrite row_transaction_from by done. split; [done|apply as_i64_range].
Qed.
Lemma chain_transaction_of_row {E} r : transaction_row_ok r ->
  chain_transaction_from (E := E) is_txid r = Ok (row_transaction r).
Proof. intros [(Htx & _) _]. unfold chain_transaction_from. cbn in Htx. by rewrite Htx. Qed.
Lemma fee_is_zero r : transaction_row_ok r -> (TransactionRow.fee r =? 0) = without_fee (row_transaction r).
Proof. intros [_ Hfee]. symmetry. by apply as_u64_is_zero. Qed.

Lemma traverse_rows {R A E} (ok : R -> Prop) (f : R -> outcome E A) g l :
  (forall r, ok r -> f r = Ok (g r)) -> Forall ok l -> traverse f l = Ok (map g l).
Proof using Type. intros Hf Hl. induction Hl as [|r l Hr _ IH]; cbn; [done|]. by rewrite (Hf _ Hr), IH. Qed.

Lemma Forall_filter {R} (P : R -> Prop) p l : Forall P l -> Forall P (List.filter p l).
Proof using Type. intros Hl. induction Hl as [|r l Hr _ IH]; cbn; [done|]. case_match; [by constructor|done]. Qed.

Lemma Forall_put {R} (P : R -> Prop) (key : R -> string) l r : Forall P l -> P r ->
  Forall P (match keyed key l !! key r with
            | Some _ => update_rows (has_key key (key r)) (fun _ => r) l
            | None => l ++ [r]
            end).
Proof using Type.
  intros Hl Hr. destruct (keyed key l !! key r).
  - unfold update_rows. induction Hl as [|x l Hx _ IH]; cbn; [done|]. constructor; [by case_match|done].
  - apply Forall_app; by split; [|constructor].
Qed.

Lemma upsert_rows tx d r d' : upsert (has_txid (TransactionRow.txid tx)) (fun _ => tx) (fun _ => tx) (fun _ _ => None) d
    = (Ok r, d') ->
  rows d' = match keyed TransactionRow.txid (rows d) !! TransactionRow.txid tx with
            | Some _ => update_rows (has_key TransactionRow.txid (TransactionRow.txid tx)) (fun _ => tx) (rows d)
            | None => rows d ++ [tx]
            end.
Proof using Type.
  rewrite keyed_lookup. unfold upsert. change (has_txid (TransactionRow.txid tx)) with (has_key TransactionRow.txid (TransactionRow.txid tx)).
  destruct (head _); cbn.
  - by intros [= _ <-].
  - intros (-> & _ & ->)%insert_ok. apply rows_set_tbl.
Qed.

#[export, refine] Instance coordinator_transactions : TransactionStore is_txid Db.t := {|
  transactions_wf d := unique_keys TransactionRow.txid (rows d) /\ Forall transaction_row_ok (rows d);
  transactions_of d := valued TransactionRow.txid row_transaction (rows d);
  kept tx := tx;
|}.
Proof.
  - done.
  - done.
  - done.
  - intros d txid tx [_ Hok] Htx. unfold valued in Htx. apply lookup_fmap_Some in Htx as (r & <- & Hr).
    apply keyed_key in Hr as [Hk Hin]. pose proof (proj1 (Forall_forall _ _) Hok _ Hin) as [Hv _]. done.
  - intros txid d r d' [_ Hok] Hget. cbn in Hget. unfold coordinator_get_transaction in Hget.
    apply M_bind_ok in Hget as (o & d1 & Ho & Hget). apply with_err_ok in Ho. unfold get_transaction_row in Ho.
    rewrite optional_first_run in Ho. injection Ho as <- <-. rewrite valued_lookup.
    change (has_txid txid) with (has_key TransactionRow.txid txid) in Hget.
    rewrite <-keyed_lookup in Hget |- *. destruct (keyed _ _ !! txid) as [row|] eqn:Hrow; [|by injection Hget as <- <-].
    apply keyed_key in Hrow as [_ Hin]. unfold lift, fmap, M_fmap in Hget.
    rewrite (chain_transaction_of_row row) in Hget by (by eapply Forall_forall in Hin).
    by injection Hget as <- <-.
  - intros tx d u d' [Hu Hok] Htx Hup. cbn in Hup. unfold upsert_transaction_row in Hup.
    apply with_err_ok, M_bind_ok in Hup as (row & d1 & Hup & [= _ <-]). apply upsert_rows in Hup. rewrite Hup.
    split; [split; [by apply unique_keys_put|by apply Forall_put, transaction_row_from_ok]|].
    rewrite valued_put. by rewrite row_transaction_from.
  - intros d l d' [Hu Hok] Hl. cbn in Hl. unfold coordinator_without_fees in Hl.
    apply M_bind_ok in Hl as (rs & d1 & [= <- <-]%with_err_ok & Hl). apply lift_ok in Hl as [Hl ->].
    split; [done|]. rewrite (traverse_rows transaction_row_ok _ row_transaction) in Hl;
      [|intros r; apply chain_transaction_of_row|by apply Forall_filter].
    injection Hl as <-. apply valued_filter; [done|]. eapply Forall_impl; [exact Hok|]. apply fee_is_zero.
Defined.
End Coordinator.

(** ** In the app's database *)

Section App.
Context `{XL : DescriptorLib} (is_txid : string -> bool).

(** [NodeStorage::insert_spendable_output] of the app. *)
Definition app_insert_output (descriptor : SpendableOutputDescriptor) : AppResult unit :=
  match output_kind descriptor with
  | StaticOutput => mret tt
  | DelayedPaymentOutput | StaticPaymentOutput =>
    db.insert_spendable_output (output_outpoint descriptor) descriptor
  end.

#[export] Instance app_storage : NodeStorage AppDb.t := {|
  insert_spendable_output := app_insert_output;
  get_spendable_output := db.get_spendable_output;
  delete_spendable_output := db.delete_spendable_output;
  all_spendable_outputs := db.get_spendable_outputs;
  upsert_transaction := db.upsert_transaction;
  get_transaction := db.get_transaction is_txid;
  all_transactions_without_fees := db.get_all_transactions_without_fees is_txid;
|}.

(** The columns of times hold seconds. *)
Definition app_kept (tx : ChainTransaction.t) : ChainTransaction.t :=
  ChainTransaction.mk (ChainTransaction.txid tx) (ChainTransaction.fee tx)
    (whole_seconds (ChainTransaction.created_at tx)) (whole_seconds (ChainTransaction.updated_at tx))
    (ChainTransaction.raw tx).
Definition app_row_transaction (r : AppTransactionRow.t) : ChainTransaction.t :=
  ChainTransaction.mk (AppTransactionRow.txid r) (as_u64 (AppTransactionRow.fee r))
    (AppTransactionRow.created_at r * NANOS_PER_SEC) (AppTransactionRow.updated_at r * NANOS_PER_SEC)
    (AppTransactionRow.raw r).
Definition app_transaction_row_ok (r : AppTransactionRow.t) : Prop :=
  valid_transaction is_txid (app_row_transaction r) /\ - 2 ^ 63 <= AppTransactionRow.fee r < 2 ^ 63.

Lemma unix_timestamp_seconds z : unix_timestamp (z * NANOS_PER_SEC) = z.
Proof using Type. apply Z.div_mul. by vm_compute. Qed.
Lemma is_datetime_whole_seconds t : is_datetime t -> is_datetime (whole_seconds t).
Proof using Type. unfold is_datetime, whole_seconds. by rewrite unix_timestamp_seconds. Qed.
Lemma whole_seconds_idem t : whole_seconds (whole_seconds t) = whole_seconds t.
Proof using Type. unfold whole_seconds. by rewrite unix_timestamp_seconds. Qed.

Lemma app_kept_valid tx : valid_transaction is_txid tx -> valid_transaction is_txid (app_kept tx).
Proof using Type. intros (? & ? & ? & ?). do 2 (split; [done|]). by split; apply is_datetime_whole_seconds. Qed.
Lemma app_row_transaction_row tx : valid_transaction is_txid tx ->
  app_row_transaction (db.transaction_row tx) = app_kept tx.
Proof using Type.
  intros (_ & Hfee & _). unfold app_row_transaction, app_kept. cbn. by rewrite as_u64_as_i64.
Qed.
Lemma app_transaction_row_ok_row tx : valid_transaction is_txid tx -> app_transaction_row_ok (db.transaction_row tx).
Proof using Type.
  intros Htx. unfold app_transaction_row_ok. rewrite app_row_transaction_row by done.
  split; [by apply app_kept_valid|apply as_i64_range].
Qed.
Lemma app_transaction_of_row r : app_transaction_row_ok r ->
  db.transaction_from is_txid r = Ok (app_row_transaction r).
Proof using Type.
  intros [(Htx & _ & Hc & Hu) _]. unfold db.transaction_from. cbn in Htx. rewrite Htx. cbn in Hc, Hu |- *.
  apply from_unix_timestamp_roundtrip in Hc, Hu. unfold whole_seconds in Hc, Hu.
  rewrite !unix_timestamp_seconds in Hc, Hu. by rewrite Hc, Hu.
Qed.
Lemma app_fee_is_zero r : app_transaction_row_ok r ->
  (AppTransactionRow.fee r =? 0) = without_fee (app_row_transaction r).
Proof using Type. intros [_ Hfee]. symmetry. by apply as_u64_is_zero. Qed.

Lemma existsb_keyed {R} (key : R -> string) k l :
  existsb (has_key key k) l = bool_decide (is_Some (keyed key l !! k)).
Proof using Type.
  rewrite keyed_lookup. induction l as [|r l IH]; cbn; [done|]. by destruct (has_key key k r).
Qed.

Lemma app_upsert_rows tx d u d' : AppTransactions.upsert tx d = (Ok u, d') ->
  table d' = match keyed AppTransactionRow.txid (table d) !! AppTransactionRow.txid tx with
             | Some _ => update_rows (has_key AppTransactionRow.txid (AppTransactionRow.txid tx)) (fun _ => tx) (table d)
             | None => table d ++ [tx]
             end.
Proof using Type.
  unfold AppTransactions.upsert, checked, query, s_upsert. intros (n & d1 & Hup%with_err_ok & Hn)%M_bind_ok.
  apply some_rows_ok in Hn as [_ ->].
  assert (Hc : forall r, conflicts tx r = has_key AppTransactionRow.txid (AppTransactionRow.txid tx) r).
  { intros r. unfold conflicts, app_transactions_key, has_key. apply bool_decide_ext. split; congruence. }
  assert (He : existsb (conflicts tx) (table d) = bool_decide (is_Some (keyed AppTransactionRow.txid (table d) !! AppTransactionRow.txid tx))).
  { rewrite <-existsb_keyed. clear Hup. induction (table d) as [|r l IH]; cbn; [done|]. by rewrite Hc, IH. }
  rewrite He in Hup. destruct (keyed _ _ !! _).
  - rewrite bool_decide_eq_true_2 in Hup by done. injection Hup as _ <-. cbn. unfold update_rows. apply map_ext.
    intros r. by rewrite Hc.
  - rewrite bool_decide_eq_false_2 in Hup by (by intros [? ?]). by injection Hup as _ <-.
Qed.

#[export, refine] Instance app_transactions : TransactionStore is_txid AppDb.t := {|
  transactions_wf d := unique_keys AppTransactionRow.txid (table d) /\ Forall app_transaction_row_ok (table d);
  transactions_of d := valued AppTransactionRow.txid app_row_transaction (table d);
  kept := app_kept;
|}.
Proof.
  - done.
  - apply app_kept_valid.
  - intros tx _. unfold app_kept. cbn. by rewrite !whole_seconds_idem.
  - intros d txid tx [_ Hok] Htx. unfold valued in Htx. apply lookup_fmap_Some in Htx as (r & <- & Hr).
    apply keyed_key in Hr as [Hk Hin]. pose proof (proj1 (Forall_forall _ _) Hok _ Hin) as [Hv _].
    split_and!; try done. unfold app_kept, app_row_transaction, whole_seconds. cbn. by rewrite !unix_timestamp_seconds.
  - intros txid d r d' [_ Hok] Hget. cbn in Hget. unfold db.get_transaction in Hget.
    apply M_bind_ok in Hget as (o & d1 & Ho%with_err_ok & Hget). unfold AppTransactions.get in Ho.
    rewrite s_optional_first_run in Ho. injection Ho as <- <-. rewrite valued_lookup.
    change (fun r => bool_decide (AppTransactionRow.txid r = txid)) with (has_key AppTransactionRow.txid txid) in Hget.
    rewrite <-keyed_lookup in Hget |- *. destruct (keyed _ _ !! txid) as [row|] eqn:Hrow; [|by injection Hget as <- <-].
    apply keyed_key in Hrow as [_ Hin]. unfold lift, fmap, M_fmap in Hget.
    rewrite (app_transaction_of_row row) in Hget by (by eapply Forall_forall in Hin).
    by injection Hget as <- <-.
  - intros tx d u d' [Hu Hok] Htx Hup. cbn in Hup. unfold db.upsert_transaction in Hup.
    apply app_upsert_rows in Hup. rewrite Hup.
    split; [split; [by apply unique_keys_put|by apply Forall_put, app_transaction_row_ok_row]|].
    rewrite valued_put. by rewrite app_row_transaction_row.
  - intros d l d' [Hu Hok] Hl. cbn in Hl. unfold db.get_all_transactions_without_fees, rows_into in Hl.
    apply M_bind_ok in Hl as (rs & d1 & [= <- <-]%with_err_ok & Hl). apply lift_ok in Hl as [Hl ->].
    split; [done|]. rewrite (traverse_rows app_transaction_row_ok _ app_row_transaction) in Hl;
      [|intros r; apply app_transaction_of_row|by apply Forall_filter].
    injection Hl as <-. apply valued_filter; [done|]. eapply Forall_impl; [exact Hok|]. apply app_fee_is_zero.
Defined.
End App.

(** ** [shadow.rs] *)

(** What the on-chain wallet knows of a transaction: the transaction, and its fee or
    why there is none. *)
Inductive FeeError := NegativeFee | MissingTxOut.
Class WalletLib := {
  WalletTx : Type;
  wallet_get_transaction : string -> option WalletTx;
  calculate_fee : WalletTx -> outcome FeeError Z;
}.

Section Shadow.
Context `{WL : WalletLib} `{OL : OutputsLib} {S : Type} `{NS : !NodeStorage S} (now : OffsetDateTime).

(** [Transaction::with_fee]. *)
Definition with_fee (fee : Z) (tx : ChainTransaction.t) : ChainTransaction.t :=
  ChainTransaction.mk (ChainTransaction.txid tx) fee (ChainTransaction.created_at tx) now (ChainTransaction.raw tx).

Definition sync_transaction (transaction : ChainTransaction.t) : M S Anyhow unit :=
  match wallet_get_transaction (ChainTransaction.txid transaction) with
  | Some tx =>
    match calculate_fee tx with
    | Ok fee => upsert_transaction (with_fee fee transaction)
    | Err NegativeFee | Err MissingTxOut => mret tt
    | Panic => lift Panic
    end
  | None => mret tt
  end.
Definition sync_transactions : M S Anyhow unit :=
  transactions ← all_transactions_without_fees;
  for_each sync_transaction transactions.

(** The fee the wallet knows. *)
Definition known_fee (txid : string) : option Z :=
  tx ← wallet_get_transaction txid; match calculate_fee tx with Ok fee => Some fee | _ => None end.
(** A transaction as it is to be after a synchronisation. *)
Definition synced `{!TransactionStore is_txid S} (tx : ChainTransaction.t) : ChainTransaction.t :=
  match known_fee (ChainTransaction.txid tx) with
  | Some fee => if without_fee tx then kept (with_fee fee tx) else tx
  | None => tx
  end.
End Shadow.

Section ShadowLaws.
Context `{WL : WalletLib} `{OL : OutputsLib} {S : Type} `{NS : !NodeStorage S} (is_txid : string -> bool).
Context `{TS : !TransactionStore is_txid S} (now : OffsetDateTime).
Context (Hnow : is_datetime now) (Hfees : forall txid fee, known_fee txid = Some fee -> 0 <= fee < 2 ^ 64).

Lemma sync_transaction_step tx s s' : transactions_wf s -> without_fee tx = true ->
  transactions_of s !! ChainTransaction.txid tx = Some tx -> sync_transaction now tx s = (Ok tt, s') ->
  transactions_wf s' /\ transactions_of s' = <[ChainTransaction.txid tx := synced now tx]> (transactions_of s).
Proof.
  intros Hwf H0 Htx. unfold sync_transaction. pose proof (Hfees (ChainTransaction.txid tx)) as Hf.
  unfold synced, known_fee in *. rewrite H0.
  destruct (wallet_get_transaction _) as [wtx|]; cbn in *; [|intros [= <-]; by rewrite insert_id].
  destruct (calculate_fee wtx) as [fee|[]|]; cbn in *; [|intros [= <-]; by rewrite insert_id..|done].
  intros Hup. destruct (stored_transaction _ _ _ Hwf Htx) as (_ & (Hid & _ & Hc & _) & _).
  apply upsert_transaction_ok in Hup as [Hwf' Hm]; [by split|done|].
  split; [done|split; [by apply Hf|done]].
Qed.

Lemma sync_loop l s s' : NoDup (map ChainTransaction.txid l) -> transactions_wf s ->
  Forall (fun tx => without_fee tx = true /\ transactions_of s !! ChainTransaction.txid tx = Some tx) l ->
  for_each (sync_transaction now) l s = (Ok tt, s') ->
  transactions_wf s' /\ forall k, transactions_of s' !! k =
    (if decide (k ∈ map ChainTransaction.txid l) then synced now else fun tx => tx) <$> transactions_of s !! k.
Proof.
  revert s. induction l as [|tx l IH]; intros s Hnd Hwf Hl.
  { intros [= <-]. split; [done|]. intros k. rewrite decide_False by apply not_elem_of_nil. by destruct (_ !! k). }
  apply NoDup_cons in Hnd as [Hnin Hnd]. apply Forall_cons in Hl as [[H0 Htx] Hl].
  cbn [for_each]. intros ([] & s1 & H1 & H2)%M_bind_ok.
  apply sync_transaction_step in H1 as [Hwf1 Hm1]; [|done..].
  apply IH in H2 as [Hwf' Hm']; [|done|done|].
  - split; [done|]. intros k. rewrite Hm', Hm1, lookup_insert. cbn [map].
    destruct (decide (ChainTransaction.txid tx = k)) as [<-|Hk].
    + rewrite decide_False by done. rewrite decide_True by (by left). by rewrite Htx.
    + destruct (decide (k ∈ _)) as [Hin|Hin].
      * rewrite decide_True; [done|by right].
      * rewrite decide_False; [done|]. rewrite elem_of_cons. naive_solver.
  - apply Forall_forall. intros tx' Hin. destruct (proj1 (Forall_forall _ _) Hl _ Hin) as [H0' Htx'].
    split; [done|]. rewrite Hm1, lookup_insert_ne; [done|]. intros Heq. apply Hnin. rewrite Heq.
    by apply (list_elem_of_fmap_2 ChainTransaction.txid).
Qed.

Lemma NoDup_map_filter {A B} (f : A -> B) p l : NoDup (map f l) -> NoDup (map f (List.filter p l)).
Proof using Type.
  induction l as [|x l IH]; cbn; [done|]. intros [Hx Hl]%NoDup_cons. destruct (p x); [|by apply IH].
  cbn. apply NoDup_cons. split; [|by apply IH]. intros (y & Hf & Hy)%list_elem_of_fmap. apply Hx.
  rewrite list_elem_of_In, filter_In, <-list_elem_of_In in Hy. apply list_elem_of_fmap. exists y. tauto.
Qed.

Lemma stored_txids s : transactions_wf s -> NoDup (map ChainTransaction.txid (map_to_list (transactions_of s)).*2).
Proof using Type.
  intros Hwf. assert (Heq : map ChainTransaction.txid (map_to_list (transactions_of s)).*2 = (map_to_list (transactions_of s)).*1).
  { rewrite <-list_fmap_compose. apply map_ext_in. intros [k tx] Hin. apply list_elem_of_In, elem_of_map_to_list in Hin. cbn.
    by destruct (stored_transaction _ _ _ Hwf Hin) as [-> _]. }
  rewrite Heq. apply NoDup_fst_map_to_list.
Qed.

(** Completing the fees, over any store that keeps the laws of the trait: when it
    returns, every transaction without a fee whose fee the wallet knows has that fee
    and the time of the change, and every other transaction is as it was. *)
Theorem sync_sets_known_fees s s' :
  transactions_wf s -> sync_transactions now s = (Ok tt, s') ->
  transactions_wf s' /\ transactions_of s' = synced now <$> transactions_of s.
Proof.
  intros Hwf (l & s1 & [-> Hl]%without_fees_ok & Hloop)%M_bind_ok; [|done].
  assert (Hin : forall tx, tx ∈ l <-> without_fee tx = true /\ transactions_of s !! ChainTransaction.txid tx = Some tx).
  { intros tx. rewrite Hl, list_elem_of_In, filter_In, <-list_elem_of_In. rewrite list_elem_of_fmap. split.
    - intros [([k tx'] & -> & Hk%elem_of_map_to_list) H0]. split; [done|]. cbn.
      by destruct (stored_transaction _ _ _ Hwf Hk) as [-> _].
    - intros [H0 Htx]. split; [|done]. exists (ChainTransaction.txid tx, tx). split; [done|]. by apply elem_of_map_to_list. }
  apply sync_loop in Hloop as [Hwf' Hm]; [|by rewrite Hl; apply NoDup_map_filter, stored_txids|done|by apply Forall_forall; intros tx Htx; apply Hin].
  split; [done|]. apply map_eq. intros k. rewrite Hm, lookup_fmap. destruct (transactions_of s !! k) as [tx|] eqn:Hk; [|done].
  cbn. case_decide as Hkl; [done|]. f_equal. unfold synced. destruct (without_fee tx) eqn:H0; [|by case_match].
  exfalso. apply Hkl. destruct (stored_transaction _ _ _ Hwf Hk) as [<- _].
  apply (list_elem_of_fmap_2 ChainTransaction.txid). by apply Hin.
Qed.
End ShadowLaws.

(** ** Outputs of one transaction *)

Class DescriptorLaws `(XL : DescriptorLib) : Prop := {
  descriptor_roundtrip d : hex_bytes (hex_text (encode_descriptor d)) ≫= read_descriptor = Some d;
}.

Section OneTransaction.
Context `{XW : DescriptorLaws}.

Lemma output_try_from_new d id : output_try_from (new_spendable_output d id) = Ok d.
Proof using XW.
  unfold output_try_from. cbn. pose proof (descriptor_roundtrip d) as Hd.
  destruct (hex_bytes _) as [b|]; [|done]. cbn in *. by rewrite Hd.
Qed.

(** The coordinator looks outputs up by their transaction alone: of two outputs
    of one transaction that were stored, looking for the second finds the first, and
    deleting the first deletes the second with it. *)
Theorem outputs_of_one_transaction (a b : SpendableOutputDescriptor) (d d1 d2 : Db.t) :
  OutPoint.txid (output_outpoint a) = OutPoint.txid (output_outpoint b) ->
  Forall (fun r => OutputRow.txid r <> OutPoint.txid (output_outpoint a)) (rows d) ->
  insert_output a d = (Ok tt, d1) -> insert_output b d1 = (Ok tt, d2) ->
  get_output (output_outpoint b) d2 = (Ok (Some a), d2) /\
  exists d3, delete_output (output_outpoint a) d2 = (Ok tt, d3) /\ get_output (output_outpoint b) d3 = (Ok None, d3).
Proof.
  intros Htx Hd Ha Hb.
  apply M_bind_ok in Ha as (ra & d1' & (Hra & _ & ->)%insert_ok & [= <-]).
  apply M_bind_ok in Hb as (rb & d2' & (Hrb & _ & Hd2)%insert_ok & [= <-]).
  assert (Hrows : rows d2' = (rows d ++ [ra]) ++ [rb]) by by rewrite Hd2, rows_set_tbl.
  assert (Hno : List.filter (is_output_of (output_outpoint b)) (rows d) = []).
  { clear -Hd Htx. induction Hd as [|r l Hr _ IH]; cbn; [done|]. unfold is_output_of at 1.
    rewrite bool_decide_eq_false_2 by congruence. exact IH. }
  assert (Hsame : is_output_of (output_outpoint a) = is_output_of (output_outpoint b))
    by (unfold is_output_of; by rewrite Htx).
  assert (Hia : is_output_of (output_outpoint b) ra = true) by (subst ra; by apply bool_decide_eq_true_2).
  assert (Hib : is_output_of (output_outpoint b) rb = true) by (subst rb; by apply bool_decide_eq_true_2).
  assert (Hboth : List.filter (is_output_of (output_outpoint b)) (rows d2') = [ra; rb]).
  { rewrite Hrows, !List.filter_app, Hno. cbn. by rewrite Hia, Hib. }
  split.
  - unfold get_output, mbind, M_bind, with_err. rewrite optional_first_run, Hboth. cbn. rewrite Hra.
    unfold lift. by rewrite output_try_from_new.
  - exists (set_rows (List.filter (fun r => negb (is_output_of (output_outpoint b) r)) (rows d2')) d2'). split.
    { unfold delete_output, mbind, M_bind, with_err, StorageDb.delete_output, Db.delete. by rewrite Hsame, Hboth. }
    unfold get_output, mbind, M_bind, with_err. rewrite optional_first_run, rows_set_rows.
    replace (List.filter _ (List.filter _ _)) with (@nil OutputRow.t); [done|]. clear.
    induction (rows d2') as [|r l IH]; cbn; [done|]. destruct (is_output_of _ r) eqn:Hr; cbn; [done|]. by rewrite Hr.
Qed.
End OneTransaction.

(** ** Witnesses *)

#[local] Instance demo_outputs : OutputsLib := {|
  SpendableOutputDescriptor := list Byte.byte;
  encode_descriptor d := d;
  read_descriptor := Some;
  hex_text := String.string_of_list_byte;
  hex_bytes s := Some (String.list_byte_of_string s);
  nat_to_string _ := EmptyString;
|}.
#[local] Instance demo_descriptors : DescriptorLib := {|
  output_kind _ := StaticPaymentOutput;
  output_outpoint d := OutPoint.mk "tx" (length (d : list Byte.byte));
|}.
#[local] Instance demo_descriptors_laws : DescriptorLaws demo_descriptors.
Proof. split. exact (fun d => f_equal Some (String.list_byte_of_string_of_list_byte d)). Qed.

Lemma outputs_of_one_transaction_witness : exists d2,
  get_output (H := demo_outputs) (OutPoint.mk "tx" 2) d2 = (Ok (Some [Byte.x01]), d2).
Proof.
  destruct (succeeds (insert_output (H := demo_outputs) [Byte.x01]) empty_db) as ([] & d1 & H1); [by vm_compute|].
  destruct (succeeds (insert_output (H := demo_outputs) [Byte.x01; Byte.x02]) d1) as ([] & d2 & H2).
  { injection H1 as <-. by vm_compute. }
  exists d2.
  destruct (outputs_of_one_transaction (H := demo_outputs) [Byte.x01] [Byte.x01; Byte.x02] empty_db d1 d2)
    as [Hget _]; [done|by constructor|done|done|exact Hget].
Defined.

(** A wallet that knows the fee of one of two transactions. *)
#[local] Instance demo_wallet : WalletLib := {|
  WalletTx := string;
  wallet_get_transaction := Some;
  calculate_fee tx := if bool_decide (tx = "tx1"%string) then Ok 250 else Err MissingTxOut;
|}.
Definition demo_is_txid (_ : string) : bool := true.
Definition demo_transaction (txid : string) : ChainTransaction.t := ChainTransaction.mk txid 0 1 1 "raw".
#[local] Instance demo_storage : NodeStorage Db.t := coordinator_storage demo_is_txid.
#[local] Instance demo_transactions : TransactionStore demo_is_txid Db.t := coordinator_transactions demo_is_txid.

Lemma sync_sets_known_fees_witness : exists d s',
  transactions_of s' = synced 7 <$> transactions_of (d : Db.t) /\
  transactions_of d !! "tx1"%string = Some (demo_transaction "tx1").
Proof.
  destruct (succeeds (upsert_transaction (demo_transaction "tx1")) empty_db) as ([] & d & H1); [by vm_compute|].
  destruct (upsert_transaction_ok (demo_transaction "tx1") empty_db tt d) as [Hwf Hm]; [|by split_and!|exact H1|].
  { split; [apply NoDup_nil_2|constructor]. }
  destruct (succeeds (sync_transactions (NS := demo_storage) 7) d) as ([] & s' & Hs').
  { injection H1 as <-. by vm_compute. }
  exists d, s'. split; [|rewrite Hm; apply lookup_insert_eq].
  apply (sync_sets_known_fees demo_is_txid 7); [by split|..|exact Hwf|exact Hs'].
  intros txid fee. unfold known_fee. cbn. case_bool_decide; [intros [= <-]; lia|done].
Defined.
