(* ===== verification/DlcExecutor.v ===== *)
(** * [coordinator/src/dlc_protocol.rs]: starting and finishing DLC protocols

    Starting a protocol records it with its parameters and the funding fee events
    it will pay; finishing it moves the position, records the trade and marks the
    events as paid.  Every [start_*] and [finish_*] runs in one transaction. *)

From stdpp Require Import base list option strings.
From Stdlib Require Import ZArith QArith Lia.
From S2P Require Import Prelude Machine External Demo Commons Cfd SqlTypes Schema Db PositionsDb.
From S2P Require Import FundingDb ProtocolDb.

#[local] Open Scope Z_scope.

(** [InternalPositionUpdateMessage::NewTrade]. *)
Module PositionUpdate.
Record t := mk { quantity : f32; average_entry_price : f32 }.
End PositionUpdate.

Section Executor.
Context `{DL : DecimalLib} `{BL : BitcoinLib} `{IL : IdLib}.

(** [TradeParams::new]. *)
Definition trade_params_new {E} (trade_params : TradeParams.t) (protocol_id : ProtocolId)
    (trader_pnl : option SignedAmount) : outcome E ProtocolTradeParams.t :=
  average_price ← trade_average_execution_price trade_params;
  average_price ← expect (d_to_f32 average_price);
  matching_fee ← trade_order_matching_fee trade_params;
  Ok (ProtocolTradeParams.mk protocol_id (TradeParams.pubkey trade_params)
        (TradeParams.quantity trade_params) (TradeParams.leverage trade_params) average_price
        (TradeParams.direction trade_params) matching_fee trader_pnl).

(** [conn.transaction(..)?]. *)
Definition in_transaction {A} (m : Sql A) : M Db.t Anyhow A := with_err FromSql (sql_transaction m).

(** ** Starting *)

Definition start_open_channel_protocol (now : OffsetDateTime) (protocol_id : ProtocolId)
    (temporary_contract_id : ContractId) (temporary_channel_id : DlcChannelId)
    (trade_params : TradeParams.t) : M Db.t Anyhow unit :=
  in_transaction (
    dlc_protocol_create now protocol_id None (Some temporary_contract_id) temporary_channel_id
      DbProtocolType.OpenChannel (TradeParams.pubkey trade_params);;
    params ← lift (trade_params_new trade_params protocol_id None);
    trade_params_insert params).

Definition start_open_position_protocol (now : OffsetDateTime) (protocol_id : ProtocolId)
    (previous_protocol_id : option ProtocolId) (temporary_contract_id : ContractId)
    (channel_id : DlcChannelId) (trade_params : TradeParams.t) : M Db.t Anyhow unit :=
  in_transaction (
    dlc_protocol_create now protocol_id previous_protocol_id (Some temporary_contract_id)
      channel_id DbProtocolType.OpenPosition (TradeParams.pubkey trade_params);;
    params ← lift (trade_params_new trade_params protocol_id None);
    trade_params_insert params).

Definition start_resize_protocol (now : OffsetDateTime) (protocol_id : ProtocolId)
    (previous_protocol_id : option ProtocolId) (temporary_contract_id : option ContractId)
    (channel_id : DlcChannelId) (trade_params : TradeParams.t)
    (realized_pnl : option SignedAmount) (funding_fee_event_ids : list Z) : M Db.t Anyhow unit :=
  in_transaction (
    dlc_protocol_create now protocol_id previous_protocol_id temporary_contract_id channel_id
      DbProtocolType.ResizePosition (TradeParams.pubkey trade_params);;
    insert_protocol_funding_fee_event now protocol_id funding_fee_event_ids;;
    params ← lift (trade_params_new trade_params protocol_id realized_pnl);
    trade_params_insert params).

Definition start_settle_protocol (now : OffsetDateTime) (protocol_id : ProtocolId)
    (previous_protocol_id : option ProtocolId) (contract_id : ContractId)
    (channel_id : DlcChannelId) (trade_params : TradeParams.t) (funding_fee_event_ids : list Z)
    : M Db.t Anyhow unit :=
  in_transaction (
    dlc_protocol_create now protocol_id previous_protocol_id (Some contract_id) channel_id
      DbProtocolType.Settle (TradeParams.pubkey trade_params);;
    insert_protocol_funding_fee_event now protocol_id funding_fee_event_ids;;
    params ← lift (trade_params_new trade_params protocol_id None);
    trade_params_insert params).

Definition start_rollover (now : OffsetDateTime) (protocol_id : ProtocolId)
    (previous_protocol_id : option ProtocolId) (temporary_contract_id : ContractId)
    (channel_id : DlcChannelId) (rollover_params : RolloverParams.t)
    (funding_fee_event_ids : list Z) : M Db.t Anyhow unit :=
  in_transaction (
    dlc_protocol_create now protocol_id previous_protocol_id (Some temporary_contract_id)
      channel_id DbProtocolType.Rollover (RolloverParams.trader_pubkey rollover_params);;
    insert_protocol_funding_fee_event now protocol_id funding_fee_event_ids;;
    rollover_params_insert rollover_params).

Definition start_close_channel_protocol (now : OffsetDateTime) (protocol_id : ProtocolId)
    (previous_protocol_id : option ProtocolId) (channel_id : DlcChannelId) (trader_id : PublicKey)
    : M Db.t Anyhow unit :=
  with_err FromSql (dlc_protocol_create now protocol_id previous_protocol_id None channel_id
    DbProtocolType.Close trader_id).

Definition fail_dlc_protocol (protocol_id : ProtocolId) : M Db.t Anyhow unit :=
  with_err FromSql (set_dlc_protocol_state_to_failed protocol_id).

(** ** Finishing *)

(** The [NewTrade] of a finished protocol. *)
Definition new_trade (position : Position.t) (trade_params : ProtocolTradeParams.t)
    (trader_realized_pnl_sat : option Z) : NewTrade.t :=
  NewTrade.mk (Position.id position) (Position.contract_symbol position)
    (ProtocolTradeParams.trader trade_params) (ProtocolTradeParams.quantity trade_params)
    (ProtocolTradeParams.leverage trade_params) (ProtocolTradeParams.direction trade_params)
    (ProtocolTradeParams.average_price trade_params)
    (ProtocolTradeParams.matching_fee trade_params) trader_realized_pnl_sat.

(** The profit of the trader when [position] is settled at the trade's price; an
    error of [calculate_pnl] becomes a rollback. *)
Definition settle_pnl (position : Position.t) (trade_params : ProtocolTradeParams.t)
    : outcome SqlError Z :=
  let '(initial_margin_long, initial_margin_short) :=
    match Position.trader_direction position with
    | Long => (Position.trader_margin position, Position.coordinator_margin position)
    | Short => (Position.coordinator_margin position, Position.trader_margin position)
    end in
  entry_price ← expect (d_from_f32 (Position.average_entry_price position));
  price ← expect (d_from_f32 (ProtocolTradeParams.average_price trade_params));
  map_err (fun _ => RollbackTransaction)
    (calculate_pnl entry_price price (ProtocolTradeParams.quantity trade_params)
       (Position.trader_direction position) initial_margin_long initial_margin_short).

Definition finish_settle_dlc_protocol (now : OffsetDateTime)
    (trade_params : ProtocolTradeParams.t) (protocol_id : ProtocolId)
    (settled_contract : option ContractId) (channel_id : DlcChannelId) : Sql unit :=
  set_dlc_protocol_state_to_success protocol_id settled_contract channel_id;;
  position ← get_position_by_trader (ProtocolTradeParams.trader trade_params)
               [PositionState.Closing f32_zero];
  match position with
  | None => throw RollbackTransaction
  | Some position =>
    trader_realized_pnl_sat ← lift (settle_pnl position trade_params);
    closing_price ← lift (expect (d_try_from_f32 (ProtocolTradeParams.average_price trade_params)));
    _ ← set_position_to_closed_with_pnl now (Position.id position) trader_realized_pnl_sat
          closing_price;
    _ ← trade_insert now (new_trade position trade_params (Some trader_realized_pnl_sat));
    mark_funding_fee_event_as_paid now protocol_id
  end.

Definition finish_open_position_dlc_protocol (now : OffsetDateTime)
    (trade_params : ProtocolTradeParams.t) (protocol_id : ProtocolId) (contract_id : ContractId)
    (channel_id : DlcChannelId) : Sql unit :=
  set_dlc_protocol_state_to_success protocol_id (Some contract_id) channel_id;;
  position ← update_position_state now (pk_to_string (ProtocolTradeParams.trader trade_params))
               [PositionState.Proposed] PositionState.Open;
  _ ← trade_insert now (new_trade position trade_params None);
  mret tt.

Definition finish_resize_position_dlc_protocol (now : OffsetDateTime)
    (trade_params : ProtocolTradeParams.t) (protocol_id : ProtocolId) (contract_id : ContractId)
    (channel_id : DlcChannelId) : Sql unit :=
  set_dlc_protocol_state_to_success protocol_id (Some contract_id) channel_id;;
  position ← update_position_state now (pk_to_string (ProtocolTradeParams.trader trade_params))
               [PositionState.Resizing] PositionState.Open;
  _ ← trade_insert now (new_trade position trade_params (ProtocolTradeParams.trader_pnl trade_params));
  mark_funding_fee_event_as_paid now protocol_id.

Definition finish_rollover_dlc_protocol (now : OffsetDateTime) (trader : PublicKey)
    (protocol_id : ProtocolId) (contract_id : ContractId) (channel_id : DlcChannelId)
    (rollover_params : RolloverParams.t) : Sql unit :=
  set_dlc_protocol_state_to_success protocol_id (Some contract_id) channel_id;;
  _ ← finish_rollover_protocol now (pk_to_string trader) contract_id
        (RolloverParams.leverage_coordinator rollover_params)
        (RolloverParams.margin_coordinator rollover_params)
        (RolloverParams.liquidation_price_coordinator rollover_params)
        (RolloverParams.leverage_trader rollover_params)
        (RolloverParams.margin_trader rollover_params)
        (RolloverParams.liquidation_price_trader rollover_params);
  mark_funding_fee_event_as_paid now protocol_id.

Definition finish_close_channel_dlc_protocol (protocol_id : ProtocolId)
    (channel_id : DlcChannelId) : Sql unit :=
  set_dlc_protocol_state_to_success protocol_id None channel_id.

(** [contract_id.context("missing contract id").map_err(|_| RollbackTransaction)?]. *)
Definition need_contract_id (contract_id : option ContractId) : Sql ContractId :=
  lift (ok_or RollbackTransaction contract_id).

(** The transaction of [finish_dlc_protocol]. *)
Definition finish_by_type (debug_assertions : bool) (now : OffsetDateTime)
    (dlc_protocol : DlcProtocol.t) (protocol_id : ProtocolId) (trader_id : PublicKey)
    (contract_id : option ContractId) (channel_id : DlcChannelId) : Sql unit :=
  match DlcProtocol.protocol_type dlc_protocol with
  | DlcProtocolType.OpenChannel trade_params | DlcProtocolType.OpenPosition trade_params =>
    contract_id ← need_contract_id contract_id;
    finish_open_position_dlc_protocol now trade_params protocol_id contract_id channel_id
  | DlcProtocolType.ResizePosition trade_params =>
    contract_id ← need_contract_id contract_id;
    finish_resize_position_dlc_protocol now trade_params protocol_id contract_id channel_id
  | DlcProtocolType.Settle trade_params =>
    finish_settle_dlc_protocol now trade_params protocol_id (DlcProtocol.contract_id dlc_protocol)
      channel_id
  | DlcProtocolType.Rollover rollover_params =>
    contract_id ← need_contract_id contract_id;
    finish_rollover_dlc_protocol now trader_id protocol_id contract_id channel_id rollover_params
  | DlcProtocolType.Close _ => finish_close_channel_dlc_protocol protocol_id channel_id
  | DlcProtocolType.ForceClose _ => lift (if debug_assertions then Panic else Ok tt)
  end.

(** What the position feed is told: the quantity as the coordinator sees it. *)
Definition position_update (dlc_protocol : DlcProtocol.t) : option PositionUpdate.t :=
  match DlcProtocol.protocol_type dlc_protocol with
  | DlcProtocolType.OpenChannel trade_params | DlcProtocolType.OpenPosition trade_params
  | DlcProtocolType.ResizePosition trade_params | DlcProtocolType.Settle trade_params =>
    Some (PositionUpdate.mk
      (if bool_decide (ProtocolTradeParams.direction trade_params = Short)
       then ProtocolTradeParams.quantity trade_params
       else f32_mul (ProtocolTradeParams.quantity trade_params) (f32_of_Z (-1)))
      (ProtocolTradeParams.average_price trade_params))
  | _ => None
  end.

(** [finish_dlc_protocol]; the result is what was put on the position feed (a
    feed without receivers is only logged). *)
Definition finish_dlc_protocol (debug_assertions : bool) (now : OffsetDateTime)
    (protocol_id : ProtocolId) (trader_id : PublicKey) (contract_id : option ContractId)
    (channel_id : DlcChannelId) : M Db.t Anyhow (option PositionUpdate.t) :=
  dlc_protocol ← with_err FromSql (get_dlc_protocol protocol_id);
  in_transaction (finish_by_type debug_assertions now dlc_protocol protocol_id trader_id
                    contract_id channel_id);;
  mret (position_update dlc_protocol).
End Executor.

(** ** Atomicity *)

Lemma in_transaction_atomic {A} (m : Sql A) d r d' :
  in_transaction m d = (r, d') -> is_ok r = false -> d' ≡ d.
Proof.
  unfold in_transaction, with_err. destruct (sql_transaction m d) as [r0 d0] eqn:Hm.
  intros [= <- <-] Hr. eapply sql_transaction_atomic; [done|]. by destruct r0.
Qed.

Lemma in_transaction_ok {A} (m : Sql A) d a d' :
  in_transaction m d = (Ok a, d') <-> m d = (Ok a, d').
Proof. unfold in_transaction. by rewrite with_err_ok, sql_transaction_ok. Qed.

Section Finishing.
Context `{DL : DecimalLib} `{BL : BitcoinLib} `{IL : IdLib}.

Lemma get_dlc_protocol_reads pid : read_only (get_dlc_protocol pid).
Proof.
  unfold get_dlc_protocol, get_protocol_type, trade_params_get, rollover_params_get. solve_steps.
Qed.

(** C3: a protocol finishes completely or not at all: if finishing it fails or
    panics (no contract id, no position in the expected state, a profit that
    cannot be computed, a failing statement), every row of every table is as
    before. *)
Theorem finish_dlc_protocol_atomic debug now pid trader contract channel (d d' : Db.t)
    (r : outcome Anyhow (option PositionUpdate.t))
    (Hrun : finish_dlc_protocol debug now pid trader contract channel d = (r, d'))
    (Hr : is_ok r = false) : d' ≡ d.
Proof.
  unfold finish_dlc_protocol, mbind, M_bind in Hrun.
  pose proof (steps_with_err eq FromSql _ (get_dlc_protocol_reads pid) d) as Hread.
  destruct (with_err FromSql (get_dlc_protocol pid) d) as [[p|e|] d1]; cbn in Hread; subst d1;
    [|by injection Hrun as <- <-..].
  destruct (in_transaction _ d) as [[[]|e|] d1] eqn:Hin; injection Hrun as <- <-;
    [done|by eapply in_transaction_atomic..].
Qed.

Lemma nonzero_rows_ok n : nonzero_rows n = Ok tt <-> n <> 0%nat.
Proof. unfold nonzero_rows. rewrite ensure_ok. by destruct n. Qed.

(** The protocols after [pid] ended successfully with [contract] and [channel]. *)
Definition succeed (pid : ProtocolId) (contract : option ContractId) (channel : DlcChannelId)
    (l : list DlcProtocolRow.t) : list DlcProtocolRow.t :=
  update_rows (has_protocol_id pid)
    (fun p => DlcProtocolRow.with_channel_id (hex_encode channel)
       (DlcProtocolRow.with_contract_id (hex_encode <$> contract)
          (DlcProtocolRow.with_protocol_state DbProtocolState.Success p))) l.

Lemma set_success_ok pid contract channel d u d' :
  set_dlc_protocol_state_to_success pid contract channel d = (Ok u, d') ->
  d' = set_rows (succeed pid contract channel (rows d)) d.
Proof.
  unfold set_dlc_protocol_state_to_success.
  by intros (n & d1 & [_ ->]%execute_ok & [_ ->]%lift_ok)%M_bind_ok.
Qed.

Lemma update_position_state_ok now pk original updated d p d' :
  update_position_state now pk original updated d = (Ok p, d') ->
  exists row, head (List.filter (fun p => is_trader pk p && in_states original p) (rows d)) = Some row /\
    Position.id p = PositionRow.id row /\
    d' = set_rows (update_rows (fun p => is_trader pk p && in_states original p)
           (fun p => PositionRow.with_update_timestamp now
              (PositionRow.with_position_state (db_position_state_from updated) p)) (rows d)) d.
Proof.
  unfold update_position_state. destruct original as [|s l]; [done|].
  intros (r & d1 & [(r0 & Hr0 & ->) ->]%get_result_ok & [Hp ->]%lift_ok)%M_bind_ok.
  exists r0. split; [done|]. split; [|done]. unfold position_from_row in Hp.
  apply outcome_bind_ok in Hp as (t & _ & (c & _ & [= <-])%outcome_bind_ok). done.
Qed.

Lemma trade_insert_ok now t d r d' : trade_insert now t d = (Ok r, d') ->
  d' = set_tbl (Table.mk (rows d ++ [trade_row now t (Table.next_id (Db.trades d))])
                 (Table.next_id (Db.trades d) + 1)) d.
Proof.
  unfold trade_insert. by intros (row & d1 & (-> & _ & ->)%insert_ok & [_ ->]%lift_ok)%M_bind_ok.
Qed.

(** Opening a position turns the protocol into a success, moves the trader's
    proposed position to [Open], and records one trade, of that position, with
    what the protocol says was traded and no profit. *)
Theorem finish_open_position_effect now (tp : ProtocolTradeParams.t) pid contract channel
    (d d' : Db.t)
    (Hrun : finish_open_position_dlc_protocol now tp pid contract channel d = (Ok tt, d')) :
  let mine p := is_trader (pk_to_string (ProtocolTradeParams.trader tp)) p
                && in_states [PositionState.Proposed] p in
  exists row id,
    head (List.filter mine (rows d)) = Some row /\
    rows d' = succeed pid (Some contract) channel (rows d) /\
    rows d' = update_rows mine (fun p => PositionRow.with_update_timestamp now
                (PositionRow.with_position_state DbPositionState.Open p)) (rows d) /\
    rows d' = rows d ++ [TradeRow.mk id (PositionRow.id row)
      DbContractSymbol.BtcUsd (pk_to_string (ProtocolTradeParams.trader tp))
      (ProtocolTradeParams.quantity tp) (ProtocolTradeParams.leverage tp)
      (db_direction_from (ProtocolTradeParams.direction tp)) (ProtocolTradeParams.average_price tp)
      now (as_i64 (ProtocolTradeParams.matching_fee tp)) None] /\
    rows (R := FundingFeeEventRow.t) d' = rows d.
Proof.
  cbn zeta. unfold finish_open_position_dlc_protocol in Hrun.
  apply M_bind_ok in Hrun as ([] & d1 & ->%set_success_ok & Hrun).
  apply M_bind_ok in Hrun as (p & d2 & Hpos & Hrun).
  apply M_bind_ok in Hrun as (t & d3 & Hins%trade_insert_ok & [= <-]).
  apply update_position_state_ok in Hpos as (row & Hrow & Hid & ->).
  subst d3. exists row. eexists. split_and!; [exact Hrow|done|done| |done].
  rewrite rows_set_tbl. unfold new_trade, trade_row. cbn. rewrite Hid.
  by destruct (db_contract_symbol_from _).
Qed.

Lemma get_position_ok pk states d p d' : get_position_by_trader pk states d = (Ok (Some p), d') ->
  d' = d /\ exists row,
    latest PositionRow.creation_timestamp (List.filter (fun p => is_trader (pk_to_string pk) p
      && match states with [] => true | _ => in_states states p end) (rows d)) = Some row /\
    position_from_row (E := SqlError) row = Ok p.
Proof.
  unfold get_position_by_trader. intros (x & d1 & Hx & H)%M_bind_ok.
  rewrite optional_first_desc_run in Hx. injection Hx as <- <-.
  destruct (latest _ _) as [row|]; [|done].
  apply M_bind_ok in H as (p' & d1 & [Hp ->]%lift_ok & [= -> <-]). split; [done|]. by exists row.
Qed.

Lemma position_from_row_id {E} row p : position_from_row (E := E) row = Ok p ->
  Position.id p = PositionRow.id row.
Proof.
  unfold position_from_row.
  by intros (t & _ & (c & _ & [= <-])%outcome_bind_ok)%outcome_bind_ok.
Qed.

(** Settling turns the protocol into a success, closes the trader's latest
    closing position with the profit the settlement price gives, records a trade
    with that same profit, and pays the funding fee events of the protocol. *)
Theorem finish_settle_effect now (tp : ProtocolTradeParams.t) pid settled channel (d d' : Db.t)
    (Hrun : finish_settle_dlc_protocol now tp pid settled channel d = (Ok tt, d')) :
  exists row p pnl price id,
    latest PositionRow.creation_timestamp
      (List.filter (fun p => is_trader (pk_to_string (ProtocolTradeParams.trader tp)) p
         && in_states [PositionState.Closing f32_zero] p) (rows d)) = Some row /\
    position_from_row (E := SqlError) row = Ok p /\ settle_pnl p tp = Ok pnl /\
    rows d' = succeed pid settled channel (rows d) /\
    rows d' = update_rows (has_id (PositionRow.id row)) (fun p =>
      PositionRow.with_closing_price (Some price) (PositionRow.with_update_timestamp now
        (PositionRow.with_trader_realized_pnl_sat (Some pnl)
           (PositionRow.with_position_state DbPositionState.Closed p)))) (rows d) /\
    rows d' = rows d ++ [trade_row now (new_trade p tp (Some pnl)) id] /\
    rows d' = pay now (paid_by pid d) (rows d).
Proof.
  unfold finish_settle_dlc_protocol in Hrun.
  apply M_bind_ok in Hrun as ([] & d1 & ->%set_success_ok & Hrun).
  apply M_bind_ok in Hrun as ([p|] & d2 & Hpos & Hrun); [|done].
  apply get_position_ok in Hpos as (-> & row & Hrow & Hp).
  apply M_bind_ok in Hrun as (pnl & d3 & [Hpnl ->]%lift_ok & Hrun).
  apply M_bind_ok in Hrun as (price & d3 & [Hprice ->]%lift_ok & Hrun).
  apply M_bind_ok in Hrun as (n & d3 & Hclose & Hrun).
  apply M_bind_ok in Hrun as (t & d4 & Hins%trade_insert_ok & Hrun).
  unfold set_position_to_closed_with_pnl in Hclose.
  apply M_bind_ok in Hclose as (price32 & d5 & [_ ->]%lift_ok & [_ Hd3]%execute_ok).
  destruct (mark_paid_run now pid d4) as (d6 & Hd6 & Hpay & _ & Hk1 & Hk2 & Hk3).
  rewrite Hrun in Hd6. injection Hd6 as <-. unfold keeps in Hk1, Hk2, Hk3.
  exists row, p, pnl, price32. eexists.
  rewrite Hpay, Hk1, Hk2, Hk3, Hins, Hd3, (position_from_row_id _ _ Hp).
  split_and!; [exact Hrow|exact Hp|exact Hpnl|reflexivity..].
Qed.

(** A trader never loses more than the trader's margin when a position is
    settled, and never wins more than the coordinator's. *)
Theorem settle_pnl_within_margins `{!DecimalLaws DL} (p : Position.t)
    (tp : ProtocolTradeParams.t) (pnl : Z) (Htm : 0 <= Position.trader_margin p < 2 ^ 63)
    (Hcm : 0 <= Position.coordinator_margin p < 2 ^ 63) (Hpnl : settle_pnl p tp = Ok pnl) :
  - Position.trader_margin p <= pnl <= Position.coordinator_margin p.
Proof.
  unfold settle_pnl in Hpnl. destruct (Position.trader_direction p) eqn:Hdir.
  all: apply outcome_bind_ok in Hpnl as (e & _ & (c & _ & Hpnl%map_err_ok)%outcome_bind_ok).
  all: eapply calculate_pnl_within in Hpnl; [|done..]; done.
Qed.
End Finishing.

(** ** Starting a protocol and reading it back *)

Lemma head_filter_app_none {A} (p : A -> bool) l r :
  List.filter p l = [] -> p r = true -> head (List.filter p (l ++ [r])) = Some r.
Proof. intros Hl Hr. rewrite List.filter_app, Hl. cbn. by rewrite Hr. Qed.

Lemma insert_each_ok {A R} `{Stored R, !StoredLaws R, Constrained R} (f : A -> Z -> R) l d d' :
  for_each (fun mk => _ ← insert mk; mret tt) (map f l) d = (Ok tt, d') ->
  exists new, rows d' = rows d ++ new /\ Forall2 (fun a r => exists n, r = f a n) l new.
Proof.
  revert d; induction l as [|a l IH]; intros d; cbn.
  { intros [= <-]. exists []. by rewrite app_nil_r. }
  intros (u & d1 & (r & d2 & (Hr & _ & Hd2)%insert_ok & [= _ <-])%M_bind_ok & Hl)%M_bind_ok.
  apply IH in Hl as (new & Hrows & Hnew). exists (r :: new). split.
  - rewrite Hrows, Hd2, rows_set_tbl. cbn. by rewrite <-app_assoc.
  - constructor; [by eexists|done].
Qed.

Section Starting.
Context `{DL : DecimalLib} `{BL : BitcoinLib} `{IL : IdLib}.

(** [trade_params] and [rollover_params] rows are of existing protocols, as the
    foreign keys demand. *)
Definition params_linked (d : Db.t) : Prop :=
  Forall (fun p => has_protocol d (TradeParamsRow.protocol_id p) = true) (rows d) /\
  Forall (fun p => has_protocol d (RolloverParamsRow.protocol_id p) = true) (rows d).

Lemma has_protocol_false d pid : has_protocol d pid = false ->
  List.filter (has_protocol_id pid) (rows d) = [].
Proof.
  unfold has_protocol, has. intros Hnone. apply filter_none. intros p Hp.
  unfold has_protocol_id. apply not_true_iff_false. intros Hpid.
  apply not_true_iff_false in Hnone. apply Hnone, existsb_exists. exists p.
  split; [by apply list_elem_of_In|done].
Qed.

Lemma dlc_protocol_create_ok now pid prev contract channel kind trader d u d' :
  dlc_protocol_create now pid prev contract channel kind trader d = (Ok u, d') ->
  has_protocol d pid = false /\
  d' = set_tbl (Table.mk (rows d ++ [DlcProtocolRow.mk (Table.next_id (Db.dlc_protocols d)) pid prev
         (hex_encode channel) (hex_encode <$> contract) DbProtocolState.Pending
         (pk_to_string trader) now kind]) (Table.next_id (Db.dlc_protocols d) + 1)) d.
Proof.
  unfold dlc_protocol_create. intros (r & d1 & (-> & Hv & ->)%insert_ok & [= _ <-])%M_bind_ok.
  split; [|done]. unfold violation, dlc_protocols_constraint in Hv. cbn in Hv.
  by destruct (has_protocol d pid).
Qed.

Lemma links_insert_ok now pid ids d d' :
  insert_protocol_funding_fee_event now pid ids d = (Ok tt, d') ->
  paid_by pid d' = paid_by pid d ++ ids /\
  keeps DlcProtocolRow.t d d' /\ keeps TradeParamsRow.t d d' /\ keeps RolloverParamsRow.t d d'.
Proof.
  assert (Hk : forall R `{Stored R}, Independent R ProtocolFundingFeeEventRow.t -> Restored R ->
    steps (keeps R) (insert_protocol_funding_fee_event now pid ids)).
  { intros R ? ? ?. unfold insert_protocol_funding_fee_event, insert_all.
    destruct ids; solve_steps. apply steps_for_each; [apply _|]. intros mk. solve_steps. }
  intros Hrun.
  pose proof (Hk DlcProtocolRow.t _ _ _ d) as H1. pose proof (Hk TradeParamsRow.t _ _ _ d) as H2.
  pose proof (Hk RolloverParamsRow.t _ _ _ d) as H3. rewrite Hrun in H1, H2, H3.
  split_and!; [|exact H1|exact H2|exact H3]. clear Hk H1 H2 H3.
  unfold insert_protocol_funding_fee_event in Hrun. destruct ids as [|i ids].
  { injection Hrun as <-. by rewrite app_nil_r. }
  apply M_bind_ok in Hrun as (n & d1 & Hins & [_ ->]%lift_ok).
  apply sql_transaction_ok, M_bind_ok in Hins as ([] & d2 & Hins & [= _ <-]).
  apply insert_each_ok in Hins as (new & Hrows & Hnew). unfold paid_by.
  rewrite Hrows, List.filter_app, map_app. f_equal. clear Hrows.
  induction Hnew as [|j r js rs [n' ->] _ IH]; [done|]. cbn [List.filter].
  replace (links_of pid _) with true by (symmetry; apply Z.eqb_refl). cbn. by f_equal.
Qed.

Lemma trade_params_row_roundtrip `{!IdLaws IL} {E} params id :
  0 <= ProtocolTradeParams.matching_fee params < 2 ^ 64 ->
  trade_params_from_row (E := E) (trade_params_row params id) = Ok params.
Proof.
  intros Hfee. unfold trade_params_from_row, trade_params_row. cbn.
  rewrite pk_roundtrip. cbn. rewrite as_u64_as_i64, db_direction_roundtrip by done. by destruct params.
Qed.

Lemma trade_params_get_inserted `{!IdLaws IL} params id d d' :
  params_linked d -> has_protocol d (ProtocolTradeParams.protocol_id params) = false ->
  0 <= ProtocolTradeParams.matching_fee params < 2 ^ 64 ->
  rows d' = rows d ++ [trade_params_row params id] ->
  trade_params_get (ProtocolTradeParams.protocol_id params) d' = (Ok params, d').
Proof.
  intros [Hlinked _] Hnew Hfee Hrows. unfold trade_params_get, mbind, M_bind.
  rewrite first_run, Hrows, head_filter_app_none; cycle 1.
  - apply filter_none. intros p Hp. apply not_true_iff_false. intros Heq%Z.eqb_eq.
    rewrite Forall_forall in Hlinked. specialize (Hlinked p Hp). congruence.
  - apply Z.eqb_refl.
  - cbn. by rewrite trade_params_row_roundtrip.
Qed.

Lemma trade_params_new_fields {E} tp pid pnl params : trade_params_new (E := E) tp pid pnl = Ok params ->
  ProtocolTradeParams.protocol_id params = pid /\
  trade_order_matching_fee (E := E) tp = Ok (ProtocolTradeParams.matching_fee params).
Proof.
  unfold trade_params_new.
  by intros (a & _ & (b & _ & (fee & Hfee & [= <-])%outcome_bind_ok)%outcome_bind_ok)%outcome_bind_ok.
Qed.

Lemma get_dlc_protocol_inserted `{!IdLaws IL} now pid prev contract channel kind trader id d d' type :
  has_protocol d pid = false -> length channel = 32%nat ->
  from_option length 32%nat contract = 32%nat ->
  rows d' = rows d ++ [DlcProtocolRow.mk id pid prev (hex_encode channel) (hex_encode <$> contract)
    DbProtocolState.Pending (pk_to_string trader) now kind] ->
  (forall p, DlcProtocolRow.protocol_type p = kind -> DlcProtocolRow.trader_pubkey p = pk_to_string trader ->
     get_protocol_type pid p d' = (Ok type, d')) ->
  get_dlc_protocol pid d' = (Ok (DlcProtocol.mk pid prev now channel contract trader
    DlcProtocolState.Pending type), d').
Proof.
  intros Hnew Hchannel Hcontract Hrows Htype. unfold get_dlc_protocol, mbind, M_bind.
  rewrite first_run, Hrows, head_filter_app_none;
    [|by apply has_protocol_false|apply Z.eqb_refl].
  cbn [ok_or]. rewrite Htype by done. cbn. rewrite hex_roundtrip by done. cbn.
  rewrite pk_roundtrip. destruct contract as [c|]; cbn; [|done].
  by rewrite hex_roundtrip.
Qed.

(** C9: a resize protocol that was started reads back as it was started:
    pending, with its predecessor, channel and contract, and with the trade's
    parameters and profit; and it is linked to exactly the funding fee events it
    is to pay. *)
Theorem start_resize_roundtrip `{!IdLaws IL} now pid prev contract channel (tp : TradeParams.t)
    pnl ids (d d' : Db.t)
    (Hrun : start_resize_protocol now pid prev contract channel tp pnl ids d = (Ok tt, d'))
    (Hlinked : params_linked d) (Hunpaid : paid_by pid d = [])
    (Hchannel : length channel = 32%nat) (Hcontract : from_option length 32%nat contract = 32%nat)
    (Hfee : forall fee, trade_order_matching_fee (E := SqlError) tp = Ok fee -> 0 <= fee < 2 ^ 64) :
  exists params, trade_params_new (E := SqlError) tp pid pnl = Ok params /\
    get_dlc_protocol pid d' = (Ok (DlcProtocol.mk pid prev now channel contract
      (TradeParams.pubkey tp) DlcProtocolState.Pending (DlcProtocolType.ResizePosition params)), d') /\
    paid_by pid d' = ids.
Proof.
  unfold start_resize_protocol in Hrun. apply in_transaction_ok in Hrun.
  apply M_bind_ok in Hrun as ([] & d1 & (Hnew & Hd1)%dlc_protocol_create_ok & Hrun).
  apply M_bind_ok in Hrun as ([] & d2 & (Hpaid & Hk1 & Hk2 & _)%links_insert_ok & Hrun).
  apply M_bind_ok in Hrun as (params & d3 & [Hparams ->]%lift_ok & Hrun).
  unfold trade_params_insert in Hrun.
  apply M_bind_ok in Hrun as (r & d3 & (Hr & _ & Hd3)%insert_ok & [= <-]).
  exists params. split; [done|]. unfold keeps in *.
  assert (Hprotocols : rows (R := DlcProtocolRow.t) d3 = rows d1) by by rewrite Hd3.
  assert (Htp : rows d3 = rows d ++ [r]) by (rewrite Hd3, rows_set_tbl, Hk2, Hd1; done).
  split.
  - apply trade_params_new_fields in Hparams as [Hpid Hfees].
    eapply get_dlc_protocol_inserted; [done|done|done|by rewrite Hprotocols, Hd1, rows_set_tbl|].
    intros p Hkind _. unfold get_protocol_type. rewrite Hkind.
    unfold fmap, M_fmap. rewrite <-Hpid.
    rewrite (trade_params_get_inserted params (Table.next_id (Db.trade_params d2)) d); try done.
    + by rewrite Hpid.
    + by apply Hfee.
    + by rewrite Htp, Hr.
  - change (paid_by pid d3) with (paid_by pid d3). rewrite Hd3.
    change (paid_by pid d2 = ids). rewrite Hpaid, Hd1.
    change (paid_by pid d ++ ids = ids). by rewrite Hunpaid.
Qed.
End Starting.

(** ** Concrete protocols *)

Definition demo_channel : DlcChannelId := repeat Init.Byte.x02 32.
Definition demo_contract : ContractId := repeat Init.Byte.x03 32.

(** What protocol 40 of alice traded: a hundred dollars at [price]. *)
Definition demo_params (price : Z) : ProtocolTradeParams.t :=
  ProtocolTradeParams.mk (H := demo_id) 40 "alice"%string (f32_of_Z 100) (f32_of_Z 2)
    (f32_of_Z price) Short 750 None.

(** A pending protocol 40 of the kind, with its parameters, alice's position, and
    funding fee event 1 of that position, linked to the protocol. *)
Definition demo_protocol_db (kind : DbProtocolType.t) (s : DbPositionState.t) : Db.t :=
  set_rows [UserRow.mk 1 "alice" EmptyString 0 EmptyString 0 None None EmptyString None None]
  (set_rows [DlcProtocolRow.mk 1 40 None (hex_encode demo_channel) None DbProtocolState.Pending
               "alice" 0 kind]
  (set_rows [trade_params_row (demo_params 21000) 1]
  (set_rows [FundingFeeEventRow.mk 1 500 "alice" 1 0 f32_zero f32_zero None 0]
  (set_rows [ProtocolFundingFeeEventRow.mk 1 40 1 0] (demo_positions s))))).

(** Without a contract id, an open position cannot be finished. *)
Example finish_dlc_protocol_atomic_witness :
  let d := demo_protocol_db DbProtocolType.OpenPosition DbPositionState.Proposed in
  (finish_dlc_protocol (IL := demo_id) true 9 40 "alice"%string None demo_channel d).2 ≡ d.
Proof.
  cbn zeta.
  set (d := demo_protocol_db DbProtocolType.OpenPosition DbPositionState.Proposed).
  assert (Hr : is_ok (finish_dlc_protocol (IL := demo_id) true 9 40 "alice"%string None
    demo_channel d).1 = false) by by vm_compute.
  destruct (finish_dlc_protocol (IL := demo_id) true 9 40 "alice"%string None demo_channel d)
    as [r d'] eqn:Hrun.
  exact (finish_dlc_protocol_atomic true 9 40 "alice"%string None demo_channel d d' r Hrun Hr).
Defined.

Example finish_open_position_effect_witness :
  let d := demo_protocol_db DbProtocolType.OpenPosition DbPositionState.Proposed in
  exists d', finish_open_position_dlc_protocol 9 (demo_params 21000) 40 demo_contract demo_channel d
      = (Ok tt, d') /\
    map PositionRow.position_state (rows d') = [DbPositionState.Open] /\
    rows (R := FundingFeeEventRow.t) d' = rows d.
Proof.
  cbn zeta.
  set (d := demo_protocol_db DbProtocolType.OpenPosition DbPositionState.Proposed).
  assert (Hr : (finish_open_position_dlc_protocol 9 (demo_params 21000) 40 demo_contract
    demo_channel d).1 = Ok tt) by by vm_compute.
  assert (Hst : map PositionRow.position_state (rows (finish_open_position_dlc_protocol 9
    (demo_params 21000) 40 demo_contract demo_channel d).2) = [DbPositionState.Open]) by by vm_compute.
  destruct (finish_open_position_dlc_protocol 9 (demo_params 21000) 40 demo_contract demo_channel d)
    as [r d'] eqn:Hrun. cbn in Hr, Hst. subst r. exists d'. split; [reflexivity|].
  split; [exact Hst|].
  destruct (finish_open_position_effect 9 (demo_params 21000) 40 demo_contract demo_channel d d' Hrun)
    as (row & id & _ & _ & _ & _ & Hfees). exact Hfees.
Defined.

Example finish_settle_effect_witness :
  let d := demo_protocol_db DbProtocolType.Settle DbPositionState.Closing in
  exists d', finish_settle_dlc_protocol 9 (demo_params 21000) 40 None demo_channel d = (Ok tt, d') /\
    map FundingFeeEventRow.paid_date (rows d') = [Some 9] /\
    rows d' = pay 9 (paid_by 40 d) (rows d).
Proof.
  cbn zeta.
  set (d := demo_protocol_db DbProtocolType.Settle DbPositionState.Closing).
  assert (Hr : (finish_settle_dlc_protocol 9 (demo_params 21000) 40 None demo_channel d).1 = Ok tt)
    by by vm_compute.
  assert (Hst : map FundingFeeEventRow.paid_date (rows (finish_settle_dlc_protocol 9
    (demo_params 21000) 40 None demo_channel d).2) = [Some 9]) by by vm_compute.
  destruct (finish_settle_dlc_protocol 9 (demo_params 21000) 40 None demo_channel d)
    as [r d'] eqn:Hrun. cbn in Hr, Hst. subst r. exists d'. split; [reflexivity|].
  split; [exact Hst|].
  destruct (finish_settle_effect 9 (demo_params 21000) 40 None demo_channel d d' Hrun)
    as (row & p & pnl & price & id & _ & _ & _ & _ & _ & _ & Hpay). exact Hpay.
Defined.

(** The model of alice's closing position. *)
Definition demo_closing : Position.t :=
  match position_from_row (E := SqlError) (demo_position DbPositionState.Closing) with
  | Ok p => p
  | _ => Position.mk (H := demo_id) 0 EmptyString BtcUsd f32_zero Long f32_zero None None
           f32_zero f32_zero 0 0 f32_zero f32_zero PositionState.Open 0 0 0 0 None false
  end.

(** From 20,000 down to 1,000 the trader's margin is lost and no more. *)
Example settle_pnl_within_margins_witness :
  exists pnl, settle_pnl demo_closing (demo_params 1000) = Ok pnl /\ - 250000 <= pnl <= 250000.
Proof.
  assert (Hok : is_ok (settle_pnl demo_closing (demo_params 1000)) = true) by by vm_compute.
  destruct (settle_pnl demo_closing (demo_params 1000)) as [pnl| |] eqn:Hpnl; try discriminate Hok.
  exists pnl. split; [reflexivity|].
  assert (Htm : Position.trader_margin demo_closing = 250000) by by vm_compute.
  assert (Hcm : Position.coordinator_margin demo_closing = 250000) by by vm_compute.
  pose proof (settle_pnl_within_margins demo_closing (demo_params 1000) pnl) as Hwithin.
  rewrite Htm, Hcm in Hwithin. apply Hwithin; [lia|lia|exact Hpnl].
Defined.

(** A resize of two hundred dollars, filled by one match. *)
Definition demo_resize : TradeParams.t :=
  TradeParams.mk (H0 := demo_id) "alice"%string BtcUsd (f32_of_Z 2) (f32_of_Z 200) Long
    (FilledWith.mk 70 100 "oracle"%string
       [Match.mk 71 72 (d_from_u64 200) "coordinator"%string (d_from_u64 20000) 3000]).

Definition demo_start_db : Db.t :=
  set_rows [UserRow.mk 1 "alice" EmptyString 0 EmptyString 0 None None EmptyString None None]
  (set_rows [FundingFeeEventRow.mk 1 500 "alice" 1 0 f32_zero f32_zero None 0]
     (demo_positions DbPositionState.Open)).

Example start_resize_roundtrip_witness :
  exists d' params,
    start_resize_protocol 5 41 None (Some demo_contract) demo_channel demo_resize (Some 77) [1]
      demo_start_db = (Ok tt, d') /\
    get_dlc_protocol 41 d' = (Ok (DlcProtocol.mk 41 None 5 demo_channel (Some demo_contract)
      ("alice"%string : PublicKey) DlcProtocolState.Pending (DlcProtocolType.ResizePosition params)), d') /\
    paid_by 41 d' = [1].
Proof.
  assert (Hr : (start_resize_protocol 5 41 None (Some demo_contract) demo_channel demo_resize
    (Some 77) [1] demo_start_db).1 = Ok tt) by by vm_compute.
  destruct (start_resize_protocol 5 41 None (Some demo_contract) demo_channel demo_resize
    (Some 77) [1] demo_start_db) as [r d'] eqn:Hrun. cbn in Hr. subst r.
  destruct (start_resize_roundtrip 5 41 None (Some demo_contract) demo_channel demo_resize (Some 77)
    [1] demo_start_db d' Hrun) as (params & _ & Hget & Hpaid).
  - split; constructor.
  - by vm_compute.
  - reflexivity.
  - reflexivity.
  - intros fee Hfee. assert (Hf : trade_order_matching_fee (E := SqlError) demo_resize = Ok 3000)
      by by vm_compute.
    rewrite Hf in Hfee. injection Hfee as <-. lia.
  - exists d', params. split_and!; [reflexivity|exact Hget|exact Hpaid].
Defined.
