(* ===== verification/Node.v ===== *)
(** * [crates/xxi-node/src/node]: DLC channels

    The node library's functions on DLC channels: looking channels up, the balance
    that can be used in one, the proposals the coordinator makes, and the protocol
    ids that link a channel to the coordinator's records.  [rust-dlc] is an
    interface: its store is a state that its operations read and change. *)

From stdpp Require Import base list option strings.
From Stdlib Require Import ZArith Lia Floats.SpecFloat.
From S2P Require Import Prelude Machine External Demo Commons SqlTypes Schema Db PositionsDb.
From S2P Require Import MatchesDb Trading PayoutCurve FundingDb Funding ProtocolDb.

#[local] Open Scope Z_scope.

(** ** [rust-dlc]: the data the code reads *)

Inductive SignedChannelState :=
  | Established (signed_contract_id : ContractId)
  | SettledOffered (counter_payout : Z)
  | SettledReceived (counter_payout : Z)
  | SettledAccepted (counter_payout : Z)
  | SettledConfirmed (counter_payout : Z)
  | Settled (own_payout counter_payout : Z)
  | RenewOffered | RenewAccepted | RenewConfirmed | RenewFinalized
  | ClosingState
  | CollaborativeCloseOffered (counter_payout : Z)
  | SettledClosingState.

Module SignedChannel.
Record t `{IdLib} := mk {
  channel_id : DlcChannelId;
  counter_party : PublicKey;
  state : SignedChannelState;
  own_collateral : Z;                     (* [own_params.collateral] *)
  counter_collateral : Z;                 (* [counter_params.collateral] *)
}.
#[global] Arguments mk {_}.
End SignedChannel.

Inductive ChannelKind `{IdLib} :=
  | Offered | Accepted
  | Signed (signed_channel : SignedChannel.t)
  | FailedAccept | FailedSign | Cancelled
  | Closing | SettledClosing | Closed | CounterClosed | ClosedPunished | CollaborativelyClosed.

Module Channel.
Record t `{IdLib} := mk {
  kind : ChannelKind;
  get_id : DlcChannelId;
  get_counter_party_id : PublicKey;
  get_reference_id : option ReferenceId;
  get_contract_id : option ContractId;
}.
#[global] Arguments mk {_}.
End Channel.

Module OracleAnnouncement.
Record t `{IdLib} := mk { oracle_public_key : XOnlyPublicKey; event_maturity_epoch : Z }.
#[global] Arguments mk {_}.
End OracleAnnouncement.

Module Payout.
Record t := mk { offer : Z; accept : Z }.
End Payout.

Module ContractInfo.
Record t `{IdLib} (ContractDescriptor : Type) := mk {
  contract_descriptor : ContractDescriptor;
  oracle_announcements : list OracleAnnouncement.t;
}.
#[global] Arguments contract_descriptor {_ _}.
#[global] Arguments oracle_announcements {_ _}.
End ContractInfo.

(** The offered contract inside a contract. *)
Module OfferedContract.
Record t `{IdLib} (ContractDescriptor : Type) := mk {
  id : ContractId;
  counter_party : PublicKey;
  is_offer_party : bool;
  total_collateral : Z;
  fee_rate_per_vb : Z;
  contract_info : list (ContractInfo.t ContractDescriptor);
}.
#[global] Arguments id {_ _}.
#[global] Arguments counter_party {_ _}.
#[global] Arguments is_offer_party {_ _}.
#[global] Arguments total_collateral {_ _}.
#[global] Arguments fee_rate_per_vb {_ _}.
#[global] Arguments contract_info {_ _}.
End OfferedContract.

(** An output of a transaction, and the outcomes the oracle attested to. *)
Module TxOut.
Record t := mk { value : Z; script_pubkey : list Byte.byte }.
End TxOut.

Definition OracleAttestation : Set := list string.

(** A contract in one of the states the code looks into, or in another.  Of the
    signed CET the outputs are kept. *)
Inductive Contract `{IdLib} (ContractDescriptor : Type) :=
  | SignedContract (offered_contract : OfferedContract.t ContractDescriptor)
  | ConfirmedContract (offered_contract : OfferedContract.t ContractDescriptor)
  | PreClosedContract (attestations : option (list OracleAttestation)) (signed_cet : list TxOut.t)
  | ClosedContract (attestations : option (list OracleAttestation)) (signed_cet : option (list TxOut.t))
  | OtherContract.
Arguments SignedContract {_ _} offered_contract.
Arguments ConfirmedContract {_ _} offered_contract.
Arguments PreClosedContract {_ _} attestations signed_cet.
Arguments ClosedContract {_ _} attestations signed_cet.
Arguments OtherContract {_ _}.

Inductive FeeConfig := EvenSplit | AllOffer.

Module OracleInput.
Record t `{IdLib} := mk { public_keys : list XOnlyPublicKey; event_id : string; threshold : nat }.
#[global] Arguments mk {_}.
End OracleInput.

(** [ContractInput] with the one [ContractInputInfo] the code gives it. *)
Module ContractInput.
Record t `{IdLib} (ContractDescriptor : Type) := mk {
  offer_collateral : Z;
  accept_collateral : Z;
  fee_rate : Z;
  contract_descriptor : ContractDescriptor;
  oracles : OracleInput.t;
}.
#[global] Arguments mk {_ _}.
#[global] Arguments offer_collateral {_ _}.
#[global] Arguments accept_collateral {_ _}.
#[global] Arguments fee_rate {_ _}.
#[global] Arguments contract_descriptor {_ _}.
#[global] Arguments oracles {_ _}.
End ContractInput.

(** The operations of the DLC manager and its store, the weights of the [dlc]
    crate, and the oracles' announcements. *)
Class DlcLib `{IdLib} := {
  ContractDescriptor : Type;
  numerical_payouts : ContractDescriptor -> Z -> option (list Payout.t);
  (** [ContractDescriptor::Numerical] of the payout function with these pieces, a
      rounding to every satoshi, and twenty binary digits of outcome. *)
  numerical_descriptor : list (PayoutPoint.t * PayoutPoint.t) -> outcome string ContractDescriptor;
  DlcState : Type;
  store_channels : DlcState -> outcome string (list Channel.t);
  store_signed_channels : DlcState -> outcome string (list SignedChannel.t);
  store_channel : DlcChannelId -> DlcState -> outcome string (option Channel.t);
  store_contract : ContractId -> DlcState -> outcome string (option (Contract ContractDescriptor));
  store_contract_offers : DlcState -> outcome string (list (OfferedContract.t ContractDescriptor));
  offer_channel : ContractInput.t ContractDescriptor -> PublicKey -> FeeConfig -> option ReferenceId ->
    M DlcState string (ContractId * DlcChannelId);     (* the temporary ids of the offer *)
  settle_offer : DlcChannelId -> Z -> option ReferenceId -> M DlcState string PublicKey;
  renew_offer : DlcChannelId -> Z -> ContractInput.t ContractDescriptor -> option ReferenceId ->
    M DlcState string PublicKey;
  offer_collaborative_close : DlcChannelId -> Z -> option ReferenceId -> M DlcState string unit;
  force_close_channel : DlcChannelId -> option ReferenceId -> M DlcState string unit;
  periodic_check : M DlcState string unit;
  sync_on_chain_wallet : M DlcState string unit;
  has_announcement : XOnlyPublicKey -> string -> bool;
  BUFFER_TX_WEIGHT : Z;
  CET_BASE_WEIGHT : Z;
  CET_EXTRA_WEIGHT : Z;
  FUND_TX_BASE_WEIGHT : Z;
}.

(** ** Protocol ids *)

(** [impl From<ProtocolId> for ReferenceId] and [TryFrom<ReferenceId>]. *)
Definition reference_id_from `{IdLib} (value : ProtocolId) : ReferenceId :=
  hex_encode_bytes (uuid_as_bytes value).
Definition protocol_id_try_from `{IdLib} (value : ReferenceId) : outcome string ProtocolId :=
  hex ← ok_or "from_utf8"%string (from_utf8 value);
  uuid_bytes ← ok_or "hex::decode"%string (hex_decode_bytes hex);
  ok_or "Uuid::from_slice"%string (uuid_from_slice uuid_bytes).

(** What the coordinator does with the reference id of a channel. *)
Definition previous_protocol_id `{IdLib} (channel : Channel.t) : outcome string (option ProtocolId) :=
  match Channel.get_reference_id channel with
  | Some reference_id => Some <$> protocol_id_try_from reference_id
  | None => Ok None
  end.

(** ** Events *)

(** [message_handler::TenTenOneMessage], the messages the coordinator proposes
    with, without the payload of [rust-dlc]. *)
Module Message.
Inductive t `{DecimalLib} `{IdLib} :=
  | Offer (filled_with : FilledWith.t)
  | SettleOffer (order : Order.t) (filled_with : FilledWith.t)
  | RenewOffer (filled_with : FilledWith.t)
  | RolloverOffer (funding_fee_events : list MessageFundingFeeEvent.t)
  | CollaborativeCloseOffer.
End Message.

(** [NodeEvent], those published here. *)
Module NodeEvent.
Inductive t `{DecimalLib} `{IdLib} :=
  | SendDlcMessage (peer : PublicKey) (msg : Message.t)
  | StoreDlcMessage (peer : PublicKey) (msg : Message.t)
  | SendLastDlcMessage (peer : PublicKey).
End NodeEvent.

(** What handlers put on the channels to the notification service and to the order
    book. *)
Module Sent.
Inductive t `{DecimalLib} `{IdLib} :=
  | Notification (trader_id : PublicKey) (kind : NotificationKind)
  | NewOrder (msg : NewOrderMessage.t).
End Sent.

(** The database, the DLC store, and what was published and sent. *)
Module NodeState.
Record t `{DecimalLib} `{DlcLib} := mk {
  db : Db.t;
  dlc : DlcState;
  events : list NodeEvent.t;
  sent : list Sent.t;
}.
#[global] Arguments mk {_ _ _}.
End NodeState.

Section Node.
Context `{DL : DecimalLib} `{IL : IdLib} `{DLC : !DlcLib}.

Definition NodeM (A : Type) : Type := M NodeState.t Anyhow A.

Definition on_db {A} (m : M Db.t Anyhow A) : NodeM A := fun s =>
  let '(r, d) := m (NodeState.db s) in (r, NodeState.mk d (NodeState.dlc s) (NodeState.events s) (NodeState.sent s)).
Definition on_dlc {A} (m : M DlcState string A) : NodeM A := fun s =>
  let '(r, d) := m (NodeState.dlc s) in
  (map_err Msg r, NodeState.mk (NodeState.db s) d (NodeState.events s) (NodeState.sent s)).
Definition read_dlc {A} (f : DlcState -> outcome string A) : NodeM A := fun s =>
  (map_err Msg (f (NodeState.dlc s)), s).
Definition publish (e : NodeEvent.t) : NodeM unit := fun s =>
  (Ok tt, NodeState.mk (NodeState.db s) (NodeState.dlc s) (NodeState.events s ++ [e])
            (NodeState.sent s)).
Definition send (m : Sent.t) : NodeM unit := fun s =>
  (Ok tt, NodeState.mk (NodeState.db s) (NodeState.dlc s) (NodeState.events s)
            (NodeState.sent s ++ [m])).
(** [?] on a result that is not from the database. *)
Definition try {A} (m : outcome string A) : NodeM A := lift (map_err Msg m).

(** ** Looking channels up *)

Definition list_dlc_channels : NodeM (list Channel.t) := read_dlc store_channels.
Definition list_signed_dlc_channels : NodeM (list SignedChannel.t) := read_dlc store_signed_channels.

(** [get_signed_dlc_channel]: the first signed channel that matches. *)
Definition get_signed_dlc_channel (matcher : SignedChannel.t -> bool)
    : NodeM (option SignedChannel.t) :=
  dlc_channels ← list_signed_dlc_channels;
  mret (List.find matcher dlc_channels).

Definition is_counter_party (pubkey : PublicKey) (channel : SignedChannel.t) : bool :=
  bool_decide (SignedChannel.counter_party channel = pubkey).

Definition get_signed_dlc_channel_by_counterparty (counterparty_pk : PublicKey)
    : NodeM (option SignedChannel.t) :=
  get_signed_dlc_channel (is_counter_party counterparty_pk).

Definition get_established_dlc_channel (pubkey : PublicKey) : NodeM (option SignedChannel.t) :=
  get_signed_dlc_channel (fun channel =>
    is_counter_party pubkey channel
    && match SignedChannel.state channel with Established _ => true | _ => false end).

Definition get_signed_channel_by_trader_id (trader_id : PublicKey) : NodeM SignedChannel.t :=
  dlc_channels ← list_signed_dlc_channels;
  try (ok_or "Could not find a signed dlc channel for trader"%string
         (List.find (is_counter_party trader_id) dlc_channels)).

Definition get_dlc_channel (matcher : Channel.t -> bool) : NodeM (option Channel.t) :=
  dlc_channels ← list_dlc_channels;
  mret (List.find matcher dlc_channels).

Definition get_dlc_channel_by_id (dlc_channel_id : DlcChannelId) : NodeM Channel.t :=
  channel ← read_dlc (store_channel dlc_channel_id);
  try (ok_or "Couldn't find channel by id"%string channel).

Definition get_dlc_channel_by_reference_id (reference_id : ReferenceId) : NodeM Channel.t :=
  channels ← list_dlc_channels;
  try (ok_or "Couldn't find channel by reference id"%string
    (List.find (fun channel => bool_decide (Channel.get_reference_id channel = Some reference_id))
       channels)).

Definition get_contract_by_id (contract_id : ContractId)
    : NodeM (option (Contract ContractDescriptor)) := read_dlc (store_contract contract_id).

Definition get_contract_by_dlc_channel_id (dlc_channel_id : DlcChannelId)
    : NodeM (Contract ContractDescriptor) :=
  channel ← get_dlc_channel_by_id dlc_channel_id;
  contract_id ← try (ok_or "Could not find contract id"%string (Channel.get_contract_id channel));
  contract ← read_dlc (store_contract contract_id);
  try (ok_or "Couldn't find dlc channel with id"%string contract).

Definition get_expiry_for_confirmed_dlc_channel (dlc_channel_id : DlcChannelId)
    : NodeM OffsetDateTime :=
  contract ← get_contract_by_dlc_channel_id dlc_channel_id;
  match contract with
  | SignedContract offered_contract | ConfirmedContract offered_contract =>
    contract_info ← lift (expect (head (OfferedContract.contract_info offered_contract)));
    oracle_announcement ← lift (expect (head (ContractInfo.oracle_announcements contract_info)));
    try (ok_or "component range"%string
           (from_unix_timestamp (OracleAnnouncement.event_maturity_epoch oracle_announcement)))
  | _ => throw (Msg "Confirmed contract not found for channel ID")
  end.

(** ** Confirmation *)

Definition is_contract_confirmed (contract_id : ContractId) : NodeM bool :=
  contract ← get_contract_by_id contract_id;
  contract ← try (ok_or "Could not find contract for signed channel in state Established."%string
                    contract);
  mret (match contract with ConfirmedContract _ => true | _ => false end).

Definition is_dlc_channel_confirmed (dlc_channel_id : DlcChannelId) : NodeM bool :=
  channel ← get_dlc_channel_by_id dlc_channel_id;
  match Channel.kind channel with
  | Signed signed_channel =>
    match SignedChannel.state signed_channel with
    | Established signed_contract_id => is_contract_confirmed signed_contract_id
    | _ => mret true
    end
  | Offered | Accepted | FailedAccept | FailedSign | Cancelled => mret false
  | Closing | SettledClosing | Closed | CounterClosed | ClosedPunished | CollaborativelyClosed =>
    mret true
  end.

(** [check_if_signed_channel_is_confirmed]; the panic of [expect] is of a spawned
    task that does not complete, which does not happen here. *)
Definition check_if_signed_channel_is_confirmed (trader : PublicKey) : NodeM bool :=
  signed_channel ← get_signed_channel_by_trader_id trader;
  confirmed ← is_dlc_channel_confirmed (SignedChannel.channel_id signed_channel);
  if (confirmed : bool) then mret true
  else
    on_dlc sync_on_chain_wallet;;
    on_dlc periodic_check;;
    is_dlc_channel_confirmed (SignedChannel.channel_id signed_channel).

(** ** Balances *)

(** [signed_dlc_channel_total_collateral]. *)
Definition signed_dlc_channel_total_collateral (channel_id : DlcChannelId) : NodeM Amount :=
  channel ← get_dlc_channel_by_id channel_id;
  match Channel.kind channel with
  | Signed channel =>
    lift (u64_add (SignedChannel.own_collateral channel) (SignedChannel.counter_collateral channel))
  | _ => throw (Msg "DLC channel not signed")
  end.

(** [iter().min_by(..)]: the first of several minimal elements. *)
Fixpoint min_from (acc : Z) (l : list Z) : Z :=
  match l with [] => acc | x :: l => min_from (if x <? acc then x else acc) l end.
Definition minimum (l : list Z) : option Z :=
  match l with [] => None | x :: l => Some (min_from x l) end.

(** [get_contract_usable_balance]. *)
Definition get_contract_usable_balance (dlc_channel : Channel.t)
    (is_balance_being_calculated_for_self : bool) : NodeM Amount :=
  match Channel.get_contract_id dlc_channel with
  | None => mret 0
  | Some contract_id =>
    contract ← read_dlc (store_contract contract_id);
    contract ← try (ok_or
      "Could not find contract associated with channel to compute usable balance"%string contract);
    match contract with
    | SignedContract offered_contract | ConfirmedContract offered_contract =>
      let am_i_offer_party := OfferedContract.is_offer_party offered_contract in
      let is_balance_being_calculated_for_offer_party :=
        if is_balance_being_calculated_for_self then am_i_offer_party else negb am_i_offer_party in
      let total_collateral := OfferedContract.total_collateral offered_contract in
      contract_info ← lift (expect (head (OfferedContract.contract_info offered_contract)));
      payouts ← lift (expect
        (numerical_payouts (ContractInfo.contract_descriptor contract_info) total_collateral));
      lift (expect (minimum
        (if (is_balance_being_calculated_for_offer_party : bool) then map Payout.offer payouts
         else map Payout.accept payouts)))
    | _ => mret 0
    end
  end.

(** [get_dlc_channel_usable_balance]. *)
Definition get_dlc_channel_usable_balance (channel_id : DlcChannelId) : NodeM Amount :=
  dlc_channel ← get_dlc_channel_by_id channel_id;
  match Channel.kind dlc_channel with
  | Signed channel =>
    match SignedChannel.state channel with
    | Settled own_payout _ => mret own_payout
    | SettledOffered counter_payout | SettledReceived counter_payout
    | SettledAccepted counter_payout | SettledConfirmed counter_payout
    | CollaborativeCloseOffered counter_payout =>
      lift (total ← u64_add (SignedChannel.own_collateral channel)
                      (SignedChannel.counter_collateral channel);
            u64_sub total counter_payout)
    | _ => get_contract_usable_balance dlc_channel true
    end
  | _ => get_contract_usable_balance dlc_channel true
  end.

(** [get_dlc_channel_usable_balance_counterparty]. *)
Definition get_dlc_channel_usable_balance_counterparty (channel_id : DlcChannelId) : NodeM Amount :=
  dlc_channel ← get_dlc_channel_by_id channel_id;
  match Channel.kind dlc_channel with
  | Signed channel =>
    match SignedChannel.state channel with
    | Settled _ counter_payout => mret counter_payout
    | SettledOffered counter_payout | SettledReceived counter_payout
    | SettledAccepted counter_payout | SettledConfirmed counter_payout
    | CollaborativeCloseOffered counter_payout => mret counter_payout
    | _ => get_contract_usable_balance dlc_channel false
    end
  | _ => get_contract_usable_balance dlc_channel false
  end.

(** ** Proposals *)

(** [propose_dlc_channel]. *)
Definition propose_dlc_channel (oracle_pks : list XOnlyPublicKey) (filled_with : FilledWith.t)
    (contract_input : ContractInput.t ContractDescriptor) (counterparty : PublicKey)
    (protocol_id : ProtocolId) (fee_config : FeeConfig) : NodeM (ContractId * DlcChannelId) :=
  channels ← list_signed_dlc_channels;
  match List.find (is_counter_party counterparty) channels with
  | Some _ => throw (Msg "Cant have more than one dlc channel.")
  | None =>
    let oracles := ContractInput.oracles contract_input in
    let announcements :=
      List.filter (fun o => bool_decide (o ∈ OracleInput.public_keys oracles)
                            && has_announcement o (OracleInput.event_id oracles)) oracle_pks in
    try (ensure (negb (Nat.eqb (length announcements) 0)) "Can't propose dlc channel without oracles"%string);;
    ids ← on_dlc (offer_channel contract_input counterparty fee_config
                    (Some (reference_id_from protocol_id)));
    publish (NodeEvent.StoreDlcMessage counterparty (Message.Offer filled_with));;
    mret ids
  end.

(** [propose_dlc_channel_collaborative_settlement]. *)
Definition propose_dlc_channel_collaborative_settlement (order : Order.t)
    (filled_with : FilledWith.t) (channel_id : DlcChannelId) (accept_settlement_amount : Z)
    (protocol_id : ProtocolId) : NodeM unit :=
  counterparty ← on_dlc (settle_offer channel_id accept_settlement_amount
                           (Some (reference_id_from protocol_id)));
  publish (NodeEvent.StoreDlcMessage counterparty (Message.SettleOffer order filled_with)).

(** The common part of [propose_reopen_or_resize] and [propose_rollover]: the offer
    is renewed, the message stored, and the first contract offered to the
    counterparty taken for the new one. *)
Definition propose_renewal (dlc_channel_id : DlcChannelId)
    (contract_input : ContractInput.t ContractDescriptor) (protocol_id : ReferenceId)
    (msg : Message.t) : NodeM ContractId :=
  counterparty ← on_dlc (renew_offer dlc_channel_id 0 contract_input (Some protocol_id));
  publish (NodeEvent.StoreDlcMessage counterparty msg);;
  offered_contracts ← read_dlc store_contract_offers;
  offered_contract ← try (ok_or
    "Could not find offered contract after proposing DLC channel update"%string
    (List.find (fun contract => bool_decide (OfferedContract.counter_party contract = counterparty))
       offered_contracts));
  mret (OfferedContract.id offered_contract).

Definition propose_reopen_or_resize (filled_with : FilledWith.t) (dlc_channel_id : DlcChannelId)
    (contract_input : ContractInput.t ContractDescriptor) (protocol_id : ProtocolId)
    : NodeM ContractId :=
  propose_renewal dlc_channel_id contract_input (reference_id_from protocol_id)
    (Message.RenewOffer filled_with).

(** [propose_rollover] of the node library. *)
Definition node_propose_rollover (dlc_channel_id : DlcChannelId)
    (contract_input : ContractInput.t ContractDescriptor) (protocol_id : ReferenceId)
    (funding_fee_events : list MessageFundingFeeEvent.t) : NodeM ContractId :=
  propose_renewal dlc_channel_id contract_input protocol_id
    (Message.RolloverOffer funding_fee_events).

(** [propose_dlc_channel_collaborative_close], [force_close_dlc_channel] and
    [close_dlc_channel]; [protocol_id] is the new id the last one draws. *)
Definition propose_dlc_channel_collaborative_close (channel : SignedChannel.t)
    (protocol_id : ProtocolId) : NodeM unit :=
  match SignedChannel.state channel with
  | Settled _ counter_payout =>
    on_dlc (offer_collaborative_close (SignedChannel.channel_id channel) counter_payout
              (Some (reference_id_from protocol_id)));;
    publish (NodeEvent.SendDlcMessage (SignedChannel.counter_party channel)
               Message.CollaborativeCloseOffer)
  | _ => throw (Msg "Can't collaboratively close a channel which is not settled")
  end.
Definition force_close_dlc_channel (channel : SignedChannel.t) (protocol_id : ProtocolId)
    : NodeM unit :=
  on_dlc (force_close_channel (SignedChannel.channel_id channel) (Some (reference_id_from protocol_id))).
Definition close_dlc_channel (protocol_id : ProtocolId) (channel_id : DlcChannelId)
    (is_force_close : bool) : NodeM ProtocolId :=
  channel ← get_signed_dlc_channel (fun channel =>
    bool_decide (SignedChannel.channel_id channel = channel_id));
  channel ← try (ok_or "DLC channel to close not found"%string channel);
  (if is_force_close then force_close_dlc_channel channel protocol_id
   else propose_dlc_channel_collaborative_close channel protocol_id);;
  mret protocol_id.

(** ** Fee estimates *)

(** [z as f64], and [x.ceil() as u64], which saturates. *)
Definition f64_ceil_as_u64 (x : f64) : Z :=
  match x with
  | S754_finite false m e =>
    Z.min U64_MAX (if 0 <=? e then Zpos m * 2 ^ e else - ((- Zpos m) / 2 ^ (- e)))
  | S754_infinity false => U64_MAX
  | _ => 0
  end.

Definition fee_for_weight (weight_wu : Z) (fee_rate_sats_per_vb : f64) : Amount :=
  let total_weight_vb := SFdiv 53 1024 (f64_of_Z weight_wu) (f64_of_Z 4) in
  f64_ceil_as_u64 (SFmul 53 1024 total_weight_vb fee_rate_sats_per_vb).

(** [estimated_dlc_channel_fee_reserve]. *)
Definition estimated_dlc_channel_fee_reserve (fee_rate_sats_per_vb : f64) : Amount :=
  let cet_or_refund_output_spk_bytes := 22 in
  let cet_or_refund_output_weight_wu := (8 + 1 + cet_or_refund_output_spk_bytes) * 4 in
  let cet_or_refund_weight_wu :=
    CET_BASE_WEIGHT + CET_EXTRA_WEIGHT + 2 * cet_or_refund_output_weight_wu in
  fee_for_weight (BUFFER_TX_WEIGHT + cet_or_refund_weight_wu) fee_rate_sats_per_vb.

(** [estimated_funding_transaction_fee]. *)
Definition estimated_funding_transaction_fee (fee_rate_sats_per_vb : f64) : Amount :=
  let input_script_pubkey_length := 22 in
  let max_witness_length := 108 in
  let input_weight_wu := 164 + 4 * input_script_pubkey_length + max_witness_length in
  let output_script_pubkey_length := 22 in
  let output_weight_wu := 36 + 4 * output_script_pubkey_length in
  fee_for_weight (FUND_TX_BASE_WEIGHT + input_weight_wu * 2 + output_weight_wu * 2)
    fee_rate_sats_per_vb.

(** ** What only reads *)

Lemma read_dlc_reads {A} (f : DlcState -> outcome string A) : read_only (read_dlc f).
Proof. by intros s. Qed.
#[local] Hint Resolve read_dlc_reads : sql.

Lemma get_dlc_channel_by_id_reads id : read_only (get_dlc_channel_by_id id).
Proof. unfold get_dlc_channel_by_id, try. solve_steps. by apply read_dlc_reads. Qed.

Lemma get_dlc_channel_by_reference_id_reads id : read_only (get_dlc_channel_by_reference_id id).
Proof. unfold get_dlc_channel_by_reference_id, list_dlc_channels, try. solve_steps. by apply read_dlc_reads. Qed.

Lemma get_contract_usable_balance_reads channel own : read_only (get_contract_usable_balance channel own).
Proof. unfold get_contract_usable_balance, try. solve_steps; by apply read_dlc_reads. Qed.

Lemma usable_balance_reads id : read_only (get_dlc_channel_usable_balance id).
Proof.
  unfold get_dlc_channel_usable_balance. apply steps_bind; [apply _|apply get_dlc_channel_by_id_reads|].
  intros channel. solve_steps; by apply get_contract_usable_balance_reads.
Qed.

Lemma usable_balance_counterparty_reads id : read_only (get_dlc_channel_usable_balance_counterparty id).
Proof.
  unfold get_dlc_channel_usable_balance_counterparty. apply steps_bind; [apply _|apply get_dlc_channel_by_id_reads|].
  intros channel. solve_steps; by apply get_contract_usable_balance_reads.
Qed.
End Node.
