(* ===== verification/DemoDlc.v ===== *)
(** * A [rust-dlc] to run the code with

    A store of channels, contracts and offers that makes the channel moves the
    coordinator proposes; the counterparty never answers. *)

From stdpp Require Import base list option strings.
From Stdlib Require Import ZArith.
From S2P Require Import Prelude Machine External Demo Commons PayoutCurve Node.

#[local] Open Scope Z_scope.

Definition demo_id32 (b : Byte.byte) : Id32 := repeat b 32.

(** Payouts of both parties at both ends of every interval. *)
Definition demo_payouts (d : list Interval) (total : Z) : option (list Payout.t) :=
  Some (flat_map (fun i =>
    let pay p := Payout.mk (as_u64 (PayoutPoint.outcome_payout p)) (as_u64 (total - PayoutPoint.outcome_payout p)) in
    [pay i.1; pay i.2]) d).

Module DemoStore.
Record t := mk {
  channels : list (Channel.t (H := demo_id));
  contracts : list (ContractId * Contract (list Interval));
  offers : list (OfferedContract.t (list Interval));
}.
End DemoStore.

(** The store answers channels whose payouts are [u64]s. *)
Definition demo_fits (channel : Channel.t (H := demo_id)) : bool :=
  match Channel.kind channel with
  | Signed c =>
    match SignedChannel.state c with
    | Settled own_payout counter_payout => in_u64 own_payout && in_u64 counter_payout
    | SettledOffered p | SettledReceived p | SettledAccepted p | SettledConfirmed p
    | CollaborativeCloseOffered p => in_u64 p
    | _ => true
    end
  | _ => true
  end.
Definition demo_channels (s : DemoStore.t) : list Channel.t := List.filter demo_fits (DemoStore.channels s).

Definition demo_signed (s : DemoStore.t) : list SignedChannel.t :=
  flat_map (fun c => match Channel.kind c with Signed sc => [sc] | _ => [] end) (demo_channels s).

Definition demo_find (id : DlcChannelId) (s : DemoStore.t) : outcome string Channel.t :=
  ok_or "unknown channel"%string
    (List.find (fun c => bool_decide (Channel.get_id c = id)) (DemoStore.channels s)).

(** A new offer, with a contract id made from the number of offers. *)
Definition demo_offer_contract (input : ContractInput.t (list Interval)) (counter_party : PublicKey)
    (s : DemoStore.t) : ContractId * DemoStore.t :=
  let id := demo_id32 (byte_of_Z (100 + Z.of_nat (length (DemoStore.offers s)))) in
  let offer := OfferedContract.mk _ _ id counter_party true
    (ContractInput.offer_collateral input + ContractInput.accept_collateral input)
    (ContractInput.fee_rate input)
    [ContractInfo.mk _ _ (ContractInput.contract_descriptor input)
       (map (fun o => OracleAnnouncement.mk o 0) (OracleInput.public_keys (ContractInput.oracles input)))] in
  (id, DemoStore.mk (DemoStore.channels s) (DemoStore.contracts s) (offer :: DemoStore.offers s)).

#[export] Instance demo_dlc : DlcLib (H := demo_id) := {|
  ContractDescriptor := list Interval;
  numerical_payouts := demo_payouts;
  numerical_descriptor l := Ok l;
  DlcState := DemoStore.t;
  store_channels s := Ok (demo_channels s);
  store_signed_channels s := Ok (demo_signed s);
  store_channel id s :=
    Ok (List.find (fun c => bool_decide (Channel.get_id c = id)) (demo_channels s));
  store_contract id s :=
    Ok (snd <$> List.find (fun c => bool_decide (c.1 = id)) (DemoStore.contracts s));
  store_contract_offers s := Ok (DemoStore.offers s);
  offer_channel input counter_party _ reference_id := fun s =>
    let '(id, s) := demo_offer_contract input counter_party s in
    let channel := Channel.mk Offered id counter_party reference_id (Some id) in
    (Ok (id, id), DemoStore.mk (channel :: DemoStore.channels s) (DemoStore.contracts s) (DemoStore.offers s));
  settle_offer id _ _ := fun s => (Channel.get_counter_party_id <$> demo_find id s, s);
  renew_offer id _ input _ := fun s =>
    match demo_find id s with
    | Ok channel =>
      let counter_party := Channel.get_counter_party_id channel in
      (Ok counter_party, (demo_offer_contract input counter_party s).2)
    | Err e => (Err e, s)
    | Panic => (Panic, s)
    end;
  offer_collaborative_close id _ _ := fun s => ((fun _ => tt) <$> demo_find id s, s);
  force_close_channel id _ := fun s => ((fun _ => tt) <$> demo_find id s, s);
  periodic_check := mret tt;
  sync_on_chain_wallet := mret tt;
  has_announcement _ _ := true;
  BUFFER_TX_WEIGHT := 500;
  CET_BASE_WEIGHT := 500;
  CET_EXTRA_WEIGHT := 100;
  FUND_TX_BASE_WEIGHT := 200;
|}.
