(* ===== verification/DlcPeer.v ===== *)
(** * [crates/xxi-node/src/node]: messages of the other party

    What app and coordinator share when they process a message: the side of
    [rust-dlc] that answers messages, [process_tentenone_message]
    ([node/dlc_manager.rs]), the node's events ([node/event.rs]) with the messages of
    Messages.v, and the events of channels ([storage/mod.rs]). *)

From stdpp Require Import base list option strings.
From Stdlib Require Import ZArith.
From S2P Require Import Prelude Machine External Demo Commons SqlTypes Schema Db MatchesDb Trading PayoutCurve.
From S2P Require Import Funding Messages Node DemoDlc.

#[local] Open Scope Z_scope.

Class PeerDlcLib `{DLC : DlcLib} `{ML : DlcMessagesLib} := {
  on_dlc_message : DlcWireMessage -> PublicKey -> M DlcState string (option DlcWireMessage);
  accept_collaborative_close : DlcChannelId -> M DlcState string unit;
  is_close_offer : SignedChannel.t -> bool;      (* the [is_offer] of its state *)
  (** The fields of the payloads both parties read. *)
  sign_channel_id : payload PSign -> DlcChannelId;
  close_offer_channel_id : payload PCollaborativeCloseOffer -> DlcChannelId;
}.

(** [Manager::on_dlc_message] answers a rejection with nothing. *)
Class PeerDlcLaws `(PL : PeerDlcLib) : Prop := {
  reject_unanswered reject node_id s resp s' :
    on_dlc_message (ChannelMsg (ChannelMessage.Reject reject)) node_id s = (Ok resp, s') -> resp = None;
}.

(** [NodeEvent] with whole messages; the events of a queue. *)
Module PeerEvent.
Inductive t `{DecimalLib} `{IdLib} `{DlcMessagesLib} :=
  | Connected (peer : PublicKey)
  | SendDlcMessage (peer : PublicKey) (msg : TenTenOneMessage.t)
  | StoreDlcMessage (peer : PublicKey) (msg : TenTenOneMessage.t)
  | SendLastDlcMessage (peer : PublicKey).
End PeerEvent.

(** [storage::DlcChannelEvent], with the reference id of the channel. *)
Module DlcChannelEvent.
Inductive t :=
  | Offered (reference_id : option ReferenceId)
  | Accepted (reference_id : option ReferenceId)
  | Established (reference_id : option ReferenceId)
  | SettledOffered (reference_id : option ReferenceId)
  | SettledReceived (reference_id : option ReferenceId)
  | SettledAccepted (reference_id : option ReferenceId)
  | SettledConfirmed (reference_id : option ReferenceId)
  | Settled (reference_id : option ReferenceId)
  | SettledClosing (reference_id : option ReferenceId)
  | RenewOffered (reference_id : option ReferenceId)
  | RenewAccepted (reference_id : option ReferenceId)
  | RenewConfirmed (reference_id : option ReferenceId)
  | RenewFinalized (reference_id : option ReferenceId)
  | Closing (reference_id : option ReferenceId)
  | CollaborativeCloseOffered (reference_id : option ReferenceId)
  | Closed (reference_id : option ReferenceId)
  | CounterClosed (reference_id : option ReferenceId)
  | ClosedPunished (reference_id : option ReferenceId)
  | CollaborativelyClosed (reference_id : option ReferenceId)
  | FailedAccept (reference_id : option ReferenceId)
  | FailedSign (reference_id : option ReferenceId)
  | Cancelled (reference_id : option ReferenceId)
  | Deleted (reference_id : option ReferenceId).

Definition get_reference_id (event : t) : option ReferenceId :=
  match event with
  | Offered reference_id | Accepted reference_id | Established reference_id
  | SettledOffered reference_id | SettledReceived reference_id | SettledAccepted reference_id
  | SettledConfirmed reference_id | Settled reference_id | SettledClosing reference_id
  | RenewOffered reference_id | RenewAccepted reference_id | RenewConfirmed reference_id
  | RenewFinalized reference_id | Closing reference_id | CollaborativeCloseOffered reference_id
  | Closed reference_id | CounterClosed reference_id | ClosedPunished reference_id
  | CollaborativelyClosed reference_id | FailedAccept reference_id | FailedSign reference_id
  | Cancelled reference_id | Deleted reference_id => reference_id
  end.
End DlcChannelEvent.

Section Process.
Context `{DL : DecimalLib} `{IL : IdLib} `{DLC : !DlcLib} `{ML : !DlcMessagesLib} `{PL : !PeerDlcLib}.

Definition process_tentenone_message (message : TenTenOneMessage.t) (node_id : PublicKey)
    : M DlcState string (option TenTenOneMessage.t) :=
  response ← on_dlc_message (message_from message) node_id;
  match response with
  | Some resp =>
    Some <$> lift (build_from_response resp (get_order_id message) (get_order_reason message))
  | None => mret None
  end.
End Process.

(** ** Evaluated: a peer whose messages have no answer *)

Definition demo_peer : PublicKey (IdLib := demo_id) := "peer"%string.
Definition demo_channel_id : DlcChannelId := demo_id32 Byte.x01.
#[export] Instance demo_peer_dlc : PeerDlcLib (H := demo_id) (DLC := demo_dlc) (ML := demo_messages) := {|
  on_dlc_message _ _ := mret None;
  accept_collaborative_close _ := mret tt;
  is_close_offer _ := false;
  sign_channel_id _ := demo_channel_id;
  close_offer_channel_id _ := demo_channel_id;
|}.
