(* ===== verification/KvStore.v ===== *)
(** * [crates/xxi-node/src/storage]: key-value stores

    The trait [DlcStoreProvider] as a class of operations with laws, and its two
    implementations: the store in memory ([memory.rs]) and the one over [sled]
    ([sled.rs]), whose trees are an interface. *)

From stdpp Require Import base list option strings gmap.
From Stdlib Require Import ZArith Lia.
From S2P Require Import Prelude Machine External.

#[local] Open Scope Z_scope.

#[export] Instance byte_countable : Countable Byte.byte := inj_countable Byte.to_N Byte.of_N Byte.of_to_N.

Definition Bytes : Set := list Byte.byte.
#[export] Instance bytes_eq_dec : EqDecision Bytes := _.
#[export] Instance bytes_countable : Countable Bytes := _.

Module KeyValue.
Record t := mk { key : Bytes; value : Bytes }.
End KeyValue.

(** The trait [DlcStoreProvider]. *)
Class DlcStoreProvider (S : Type) := {
  store_read : Z -> option Bytes -> M S string (list KeyValue.t);
  store_write : Z -> Bytes -> Bytes -> M S string unit;
  store_delete : Z -> option Bytes -> M S string unit;
}.

(** What the entries of a kind are, and what the operations do to them when they
    return; an operation that fails is not constrained. *)
Definition entry (k v : Bytes) : KeyValue.t := KeyValue.mk k v.
Class StoreProviderLaws (S : Type) `{DlcStoreProvider S} := {
  view : S -> Z -> gmap Bytes Bytes;
  store_read_key kind k s l s' : store_read kind (Some k) s = (Ok l, s') ->
    s' = s /\ l = option_list (entry k <$> view s kind !! k);
  store_read_all kind s l s' : store_read kind None s = (Ok l, s') ->
    s' = s /\ l ≡ₚ map (fun e => entry e.1 e.2) (map_to_list (view s kind));
  store_write_ok kind k v s s' u : store_write kind k v s = (Ok u, s') ->
    forall kind', view s' kind' = if decide (kind' = kind) then <[k := v]> (view s kind) else view s kind';
  store_delete_key kind k s s' u : store_delete kind (Some k) s = (Ok u, s') ->
    forall kind', view s' kind' = if decide (kind' = kind) then delete k (view s kind) else view s kind';
  store_delete_all kind s s' u : store_delete kind None s = (Ok u, s') ->
    forall kind', view s' kind' = if decide (kind' = kind) then ∅ else view s kind';
}.

(** ** [memory.rs] *)

Abbreviation InMemoryStore := (gmap Z (gmap Bytes Bytes)).

(** [InMemoryDlcStoreProvider]. *)
Definition memory_read (kind : Z) (key : option Bytes) : M InMemoryStore string (list KeyValue.t) :=
  gets (fun memory =>
    match memory !! kind with
    | Some store =>
      match key with
      | Some key =>
        match store !! key with
        | Some value => [KeyValue.mk key value]
        | None => []
        end
      | None => map (fun e => KeyValue.mk e.1 e.2) (map_to_list store)
      end
    | None => []
    end).

Definition memory_write (kind : Z) (key value : Bytes) : M InMemoryStore string unit :=
  modify (fun memory =>
    match memory !! kind with
    | Some v => <[kind := <[key := value]> v]> memory
    | None => <[kind := {[key := value]}]> memory
    end).

Definition memory_delete (kind : Z) (key : option Bytes) : M InMemoryStore string unit := fun memory =>
  match key with
  | Some key =>
    match memory !! kind with
    | Some v => (Ok tt, <[kind := delete key v]> memory)
    | None => (Err "couldn't find map"%string, memory)
    end
  | None => (Ok tt, delete kind memory)
  end.

#[export] Instance memory_provider : DlcStoreProvider InMemoryStore := {|
  store_read := memory_read;
  store_write := memory_write;
  store_delete := memory_delete;
|}.

Definition memory_view (memory : InMemoryStore) (kind : Z) : gmap Bytes Bytes := default ∅ (memory !! kind).

Lemma memory_view_insert kind m (memory : InMemoryStore) kind' :
  memory_view (<[kind := m]> memory) kind' = if decide (kind' = kind) then m else memory_view memory kind'.
Proof.
  unfold memory_view. rewrite lookup_insert. destruct (decide (kind' = kind)) as [->|Hne].
  - by rewrite decide_True.
  - by rewrite decide_False by congruence.
Qed.

#[export, refine] Instance memory_laws : StoreProviderLaws InMemoryStore := {| view := memory_view |}.
Proof.
  - intros kind k s l s' [= <- <-]. split; [done|]. unfold memory_view.
    destruct (s !! kind) as [store|]; cbn; [|by rewrite lookup_empty]. by destruct (store !! k).
  - intros kind s l s' [= <- <-]. split; [done|]. unfold memory_view.
    destruct (s !! kind); cbn; [done|]. by rewrite map_to_list_empty.
  - intros kind k v s s' u [= _ <-] kind'. unfold memory_view at 2.
    destruct (s !! kind) as [store|]; rewrite memory_view_insert; by case_decide.
  - intros kind k s s' u Hrun kind'. cbn in Hrun. unfold memory_view at 2.
    destruct (s !! kind); [|done]. injection Hrun as _ <-. by rewrite memory_view_insert.
  - intros kind s s' u [= _ <-] kind'. unfold memory_view. rewrite lookup_delete.
    destruct (decide (kind' = kind)) as [->|Hne]; [by rewrite decide_True|by rewrite decide_False by congruence].
Defined.

(** ** [sled.rs] *)

(** A [sled] database: trees of ordered entries, named by what [Name] stands for. *)
Class SledLib (Name : Type) := {
  SledDb : Type;
  sled_open : string -> option SledDb;
  sled_get : Name -> Bytes -> SledDb -> outcome string (option Bytes);
  sled_iter : Name -> SledDb -> outcome string (list (option (Bytes * Bytes)));
  sled_insert : Name -> Bytes -> Bytes -> M SledDb string unit;
  sled_remove : Name -> Bytes -> M SledDb string unit;
  sled_clear : Name -> M SledDb string unit;
  sled_flush : M SledDb string unit;
  sled_export : SledDb -> list (string * Bytes * list (list Bytes));
}.
Class SledLaws `{EqDecision Name} (SL : SledLib Name) := {
  contents : SledDb -> Name -> gmap Bytes Bytes;
  sled_get_ok kind k s o : sled_get kind k s = Ok o -> o = contents s kind !! k;
  sled_iter_ok kind s l : sled_iter kind s = Ok l ->
    exists es, l = map Some es /\ es ≡ₚ map_to_list (contents s kind);
  sled_insert_ok kind k v s s' u : sled_insert kind k v s = (Ok u, s') ->
    forall kind', contents s' kind' = if decide (kind' = kind) then <[k := v]> (contents s kind) else contents s kind';
  sled_remove_ok kind k s s' u : sled_remove kind k s = (Ok u, s') ->
    forall kind', contents s' kind' = if decide (kind' = kind) then delete k (contents s kind) else contents s kind';
  sled_clear_ok kind s s' u : sled_clear kind s = (Ok u, s') ->
    forall kind', contents s' kind' = if decide (kind' = kind) then ∅ else contents s kind';
  sled_flush_ok s s' u : sled_flush s = (Ok u, s') -> forall kind, contents s' kind = contents s kind;
}.

Module SledStorageExport.
Record t := mk { kind : Byte.byte; key : Bytes; value : Bytes }.
End SledStorageExport.

Section Sled.
(** The trees of contracts, channels and so on are named by one byte. *)
Context `{SL : SledLib Z}.

(** [SledStorageProvider::new]. *)
Definition sled_new (path : string) : outcome string SledDb := expect (sled_open path).

(** [kv.pop()] takes the value, then the key, from the end. *)
Definition export_entry (collection_name : Bytes) (kv : list Bytes) : outcome string SledStorageExport.t :=
  match rev kv with
  | value :: key :: _ =>
    kind ← expect (head collection_name);
    Ok (SledStorageExport.mk kind key value)
  | _ => Panic
  end.
Definition sled_storage_export (db : SledDb) : outcome string (list SledStorageExport.t) :=
  exports ← traverse (fun '(collection_type, collection_name, collection_iter) =>
    if bool_decide (collection_type = "tree"%string)
    then traverse (export_entry collection_name) collection_iter else Ok []) (sled_export db);
  Ok (concat exports).

Definition sled_read (kind : Z) (key : option Bytes) : M SledDb string (list KeyValue.t) := fun db =>
  (match key with
   | Some key =>
     result ← sled_get kind key db;
     Ok (match result with Some value => [KeyValue.mk key value] | None => [] end)
   | None =>
     entries ← sled_iter kind db;
     traverse (fun e => '(k, v) ← expect e; Ok (KeyValue.mk k v)) entries
   end, db).
Definition sled_write (kind : Z) (key value : Bytes) : M SledDb string unit :=
  sled_insert kind key value;; sled_flush.
Definition sled_delete (kind : Z) (key : option Bytes) : M SledDb string unit :=
  (match key with
   | Some key => sled_remove kind key
   | None => sled_clear kind
   end);; sled_flush.

#[export] Instance sled_provider : DlcStoreProvider SledDb := {|
  store_read := sled_read;
  store_write := sled_write;
  store_delete := sled_delete;
|}.

Lemma traverse_some_entries (es : list (Bytes * Bytes)) :
  traverse (E := string) (fun e => '(k, v) ← expect e; Ok (KeyValue.mk k v)) (map Some es) =
  Ok (map (fun e => entry e.1 e.2) es).
Proof using Type. induction es as [|[k v] es IH]; cbn; [done|]. by rewrite IH. Qed.

#[export, refine] Instance sled_laws `{!SledLaws SL} : StoreProviderLaws SledDb := {| view := contents |}.
Proof.
  - intros kind k s l s' [= Hl <-]. split; [done|]. apply outcome_bind_ok in Hl as (o & ->%sled_get_ok & [= <-]).
    by destruct (contents s kind !! k).
  - intros kind s l s' [= Hl <-]. split; [done|]. apply outcome_bind_ok in Hl as (o & (es & -> & Hes)%sled_iter_ok & Hl).
    rewrite traverse_some_entries in Hl. injection Hl as <-. by rewrite Hes.
  - intros kind k v s s' u ([] & s1 & H1 & H2)%M_bind_ok kind'. cbn in *.
    by rewrite (sled_flush_ok _ _ _ H2), (sled_insert_ok _ _ _ _ _ _ H1).
  - intros kind k s s' u ([] & s1 & H1 & H2)%M_bind_ok kind'. cbn in *.
    by rewrite (sled_flush_ok _ _ _ H2), (sled_remove_ok _ _ _ _ _ H1).
  - intros kind s s' u ([] & s1 & H1 & H2)%M_bind_ok kind'. cbn in *.
    by rewrite (sled_flush_ok _ _ _ H2), (sled_clear_ok _ _ _ _ H1).
Defined.
End Sled.
