(* ===== verification/DlcStore.v ===== *)
(** * [crates/xxi-node/src/storage/mod.rs]: the storage of contracts and channels

    [rust-dlc] keeps its contracts and channels through [DlcStorageProvider], which
    writes them under their ids into a key-value store (KvStore.v), each with a
    prefix for the state it is in, so that those in a state can be found without
    reading the others.  What it writes of a channel it reports as an event.  The
    data of contracts and channels, their ids and serialisers are [rust-dlc]'s. *)

From stdpp Require Import base list option strings gmap.
From Stdlib Require Import ZArith Lia.
From S2P Require Import Prelude Machine External Demo Commons PayoutCurve Messages Node DlcPeer KvStore.

#[local] Open Scope Z_scope.

(** ** Data *)

(** The trait [Serializable]; [deserialize] may leave bytes unread. *)
Class Serializable (T : Type) := {
  serialize : T -> outcome string Bytes;
  deserialize : Bytes -> outcome string T;
}.
Class SerializableLaws (T : Type) `{Serializable T} : Prop := {
  deserialize_serialize x b : serialize x = Ok b -> deserialize b = Ok x;
  serialize_not_empty x : serialize x <> Ok [];
}.

(** The structs of [rust-dlc] the variants of [Contract] and [Channel] hold. *)
Inductive ContractData := COffered | CAccepted | CSigned | CPreClosed | CClosed | CFailedAccept | CFailedSign.
Inductive ChannelData :=
  | HOffered | HAccepted | HSigned | HClosing | HSettledClosing | HClosed | HClosedPunished | HFailedAccept
  | HFailedSign.

(** [SignedChannelStateType] and [SubChannelState] of [rust-dlc]. *)
Module SignedChannelStateType.
Inductive t :=
  | Established | SettledOffered | SettledReceived | SettledAccepted | SettledConfirmed
  | Settled | Closing | CollaborativeCloseOffered | RenewAccepted | RenewOffered
  | RenewConfirmed | RenewFinalized | SettledClosing.
End SignedChannelStateType.
Module SubChannelState.
Inductive t :=
  | Offered | Accepted | Confirmed | Finalized | Signed
  | Closing | OnChainClosed | CounterOnChainClosed | CloseOffered | CloseAccepted
  | CloseConfirmed | OffChainClosed | ClosedPunished | Rejected.
End SubChannelState.

Class StoreData := {
  contract_data : ContractData -> Type;
  channel_data : ChannelData -> Type;
  SubChannel : Type;
  ChainMonitor : Type;
  contract_data_serializable :: forall k, Serializable (contract_data k);
  channel_data_serializable :: forall k, Serializable (channel_data k);
  sub_channel_serializable :: Serializable SubChannel;
  chain_monitor_serializable :: Serializable ChainMonitor;
  data_reference_id : forall k, channel_data k -> option ReferenceId;
  get_type : channel_data HSigned -> SignedChannelStateType.t;
  sub_channel_state : SubChannel -> SubChannelState.t;
}.
Class StoreDataLaws `(StoreData) : Prop := {
  contract_data_laws :: forall k, SerializableLaws (contract_data k);
  channel_data_laws :: forall k, SerializableLaws (channel_data k);
  sub_channel_laws :: SerializableLaws SubChannel;
  chain_monitor_laws :: SerializableLaws ChainMonitor;
}.

(** [rust-dlc]'s [Contract] and [Channel], with all their variants. *)
Module StoredContract.
Inductive t `{StoreData} :=
  | Offered (c : contract_data COffered)
  | Accepted (c : contract_data CAccepted)
  | Signed (c : contract_data CSigned)
  | Confirmed (c : contract_data CSigned)
  | PreClosed (c : contract_data CPreClosed)
  | Closed (c : contract_data CClosed)
  | FailedAccept (c : contract_data CFailedAccept)
  | FailedSign (c : contract_data CFailedSign)
  | Refunded (c : contract_data CSigned)
  | Rejected (c : contract_data COffered).
End StoredContract.
Module StoredChannel.
Inductive t `{StoreData} :=
  | Offered (c : channel_data HOffered)
  | Accepted (c : channel_data HAccepted)
  | Signed (c : channel_data HSigned)
  | Closing (c : channel_data HClosing)
  | Closed (c : channel_data HClosed)
  | CounterClosed (c : channel_data HClosed)
  | ClosedPunished (c : channel_data HClosedPunished)
  | CollaborativelyClosed (c : channel_data HClosed)
  | FailedAccept (c : channel_data HFailedAccept)
  | FailedSign (c : channel_data HFailedSign)
  | Cancelled (c : channel_data HOffered)
  | SettledClosing (c : channel_data HSettledClosing).
End StoredChannel.

Class StoreIds `{StoreData} := {
  offered_contract_id : contract_data COffered -> Bytes;      (* the field [id] *)
  contract_id_of : StoredContract.t -> Bytes;
  contract_temporary_id : StoredContract.t -> Bytes;
  channel_id_of : StoredChannel.t -> Bytes;
  channel_temporary_id_of : StoredChannel.t -> Bytes;
  channel_reference_id : StoredChannel.t -> option ReferenceId;   (* [get_reference_id] *)
  sub_channel_id_of : SubChannel -> Bytes;
}.

(** ** Prefixes *)

Definition CONTRACT : Z := 1.
Definition CHANNEL : Z := 2.
Definition CHAIN_MONITOR : Z := 3.
Definition KEY_PAIR : Z := 6.
Definition SUB_CHANNEL : Z := 7.
Definition ACTION : Z := 9.
Definition CHAIN_MONITOR_KEY : Bytes := String.list_byte_of_string "chain_monitor".

(** What [convertible_enum!] generates. *)
Module ContractPrefix.
Inductive t :=
  | Offered | Accepted | Signed | Confirmed | PreClosed
  | Closed | FailedAccept | FailedSign | Refunded | Rejected.
Definition to_u8 (prefix : t) : Z :=
  match prefix with
  | Offered => 1 | Accepted => 2 | Signed => 3 | Confirmed => 4
  | PreClosed => 5 | Closed => 6 | FailedAccept => 7 | FailedSign => 8
  | Refunded => 9 | Rejected => 10
  end.
Definition try_from (v : Z) : outcome string t :=
  match v with
  | 1 => Ok Offered | 2 => Ok Accepted | 3 => Ok Signed | 4 => Ok Confirmed
  | 5 => Ok PreClosed | 6 => Ok Closed | 7 => Ok FailedAccept | 8 => Ok FailedSign
  | 9 => Ok Refunded | 10 => Ok Rejected
  | _ => Err "Unknown prefix"%string
  end.
Lemma contract_prefix_roundtrip prefix : try_from (to_u8 prefix) = Ok prefix.
Proof. by destruct prefix. Qed.
End ContractPrefix.

Module ChannelPrefix.
Inductive t :=
  | Offered | Accepted | Signed | Closing | Closed
  | CounterClosed | ClosedPunished | CollaborativelyClosed | FailedAccept | FailedSign
  | Cancelled | SettledClosing.
Definition to_u8 (prefix : t) : Z :=
  match prefix with
  | Offered => 1 | Accepted => 2 | Signed => 3 | Closing => 4
  | Closed => 5 | CounterClosed => 6 | ClosedPunished => 7 | CollaborativelyClosed => 8
  | FailedAccept => 9 | FailedSign => 10 | Cancelled => 11 | SettledClosing => 12
  end.
Definition try_from (v : Z) : outcome string t :=
  match v with
  | 1 => Ok Offered | 2 => Ok Accepted | 3 => Ok Signed | 4 => Ok Closing
  | 5 => Ok Closed | 6 => Ok CounterClosed | 7 => Ok ClosedPunished | 8 => Ok CollaborativelyClosed
  | 9 => Ok FailedAccept | 10 => Ok FailedSign | 11 => Ok Cancelled | 12 => Ok SettledClosing
  | _ => Err "Unknown prefix"%string
  end.
Lemma channel_prefix_roundtrip prefix : try_from (to_u8 prefix) = Ok prefix.
Proof. by destruct prefix. Qed.
End ChannelPrefix.

Module SignedChannelPrefix.
Inductive t :=
  | Established | SettledOffered | SettledReceived | SettledAccepted | SettledConfirmed
  | Settled | Closing | CollaborativeCloseOffered | RenewAccepted | RenewOffered
  | RenewConfirmed | RenewFinalized | SettledClosing.
Definition to_u8 (prefix : t) : Z :=
  match prefix with
  | Established => 1 | SettledOffered => 2 | SettledReceived => 3 | SettledAccepted => 4
  | SettledConfirmed => 5 | Settled => 6 | Closing => 7 | CollaborativeCloseOffered => 8
  | RenewAccepted => 9 | RenewOffered => 10 | RenewConfirmed => 11 | RenewFinalized => 12
  | SettledClosing => 13
  end.
Definition try_from (v : Z) : outcome string t :=
  match v with
  | 1 => Ok Established | 2 => Ok SettledOffered | 3 => Ok SettledReceived | 4 => Ok SettledAccepted
  | 5 => Ok SettledConfirmed | 6 => Ok Settled | 7 => Ok Closing | 8 => Ok CollaborativeCloseOffered
  | 9 => Ok RenewAccepted | 10 => Ok RenewOffered | 11 => Ok RenewConfirmed | 12 => Ok RenewFinalized
  | 13 => Ok SettledClosing
  | _ => Err "Unknown prefix"%string
  end.
Lemma signed_channel_prefix_roundtrip prefix : try_from (to_u8 prefix) = Ok prefix.
Proof. by destruct prefix. Qed.
End SignedChannelPrefix.

Module SubChannelPrefix.
Inductive t :=
  | Offered | Accepted | Confirmed | Finalized | Signed
  | Closing | OnChainClosed | CounterOnChainClosed | CloseOffered | CloseAccepted
  | CloseConfirmed | OffChainClosed | ClosedPunished | Rejected.
Definition to_u8 (prefix : t) : Z :=
  match prefix with
  | Offered => 1 | Accepted => 2 | Confirmed => 3 | Finalized => 4
  | Signed => 5 | Closing => 6 | OnChainClosed => 7 | CounterOnChainClosed => 8
  | CloseOffered => 9 | CloseAccepted => 10 | CloseConfirmed => 11 | OffChainClosed => 12
  | ClosedPunished => 13 | Rejected => 14
  end.
Definition try_from (v : Z) : outcome string t :=
  match v with
  | 1 => Ok Offered | 2 => Ok Accepted | 3 => Ok Confirmed | 4 => Ok Finalized
  | 5 => Ok Signed | 6 => Ok Closing | 7 => Ok OnChainClosed | 8 => Ok CounterOnChainClosed
  | 9 => Ok CloseOffered | 10 => Ok CloseAccepted | 11 => Ok CloseConfirmed | 12 => Ok OffChainClosed
  | 13 => Ok ClosedPunished | 14 => Ok Rejected
  | _ => Err "Unknown prefix"%string
  end.
Lemma sub_channel_prefix_roundtrip prefix : try_from (to_u8 prefix) = Ok prefix.
Proof. by destruct prefix. Qed.
End SubChannelPrefix.

Section Codec.
Context `{SD : StoreData}.

Definition contract_prefix (input : StoredContract.t) : ContractPrefix.t :=
  match input with
  | StoredContract.Offered _ => ContractPrefix.Offered
  | StoredContract.Accepted _ => ContractPrefix.Accepted
  | StoredContract.Signed _ => ContractPrefix.Signed
  | StoredContract.Confirmed _ => ContractPrefix.Confirmed
  | StoredContract.PreClosed _ => ContractPrefix.PreClosed
  | StoredContract.Closed _ => ContractPrefix.Closed
  | StoredContract.FailedAccept _ => ContractPrefix.FailedAccept
  | StoredContract.FailedSign _ => ContractPrefix.FailedSign
  | StoredContract.Refunded _ => ContractPrefix.Refunded
  | StoredContract.Rejected _ => ContractPrefix.Rejected
  end.
Definition channel_prefix (input : StoredChannel.t) : ChannelPrefix.t :=
  match input with
  | StoredChannel.Offered _ => ChannelPrefix.Offered
  | StoredChannel.Accepted _ => ChannelPrefix.Accepted
  | StoredChannel.Signed _ => ChannelPrefix.Signed
  | StoredChannel.Closing _ => ChannelPrefix.Closing
  | StoredChannel.Closed _ => ChannelPrefix.Closed
  | StoredChannel.CounterClosed _ => ChannelPrefix.CounterClosed
  | StoredChannel.ClosedPunished _ => ChannelPrefix.ClosedPunished
  | StoredChannel.CollaborativelyClosed _ => ChannelPrefix.CollaborativelyClosed
  | StoredChannel.FailedAccept _ => ChannelPrefix.FailedAccept
  | StoredChannel.FailedSign _ => ChannelPrefix.FailedSign
  | StoredChannel.Cancelled _ => ChannelPrefix.Cancelled
  | StoredChannel.SettledClosing _ => ChannelPrefix.SettledClosing
  end.
Definition signed_channel_prefix (input : SignedChannelStateType.t) : SignedChannelPrefix.t :=
  match input with
  | SignedChannelStateType.Established => SignedChannelPrefix.Established
  | SignedChannelStateType.SettledOffered => SignedChannelPrefix.SettledOffered
  | SignedChannelStateType.SettledReceived => SignedChannelPrefix.SettledReceived
  | SignedChannelStateType.SettledAccepted => SignedChannelPrefix.SettledAccepted
  | SignedChannelStateType.SettledConfirmed => SignedChannelPrefix.SettledConfirmed
  | SignedChannelStateType.Settled => SignedChannelPrefix.Settled
  | SignedChannelStateType.Closing => SignedChannelPrefix.Closing
  | SignedChannelStateType.CollaborativeCloseOffered => SignedChannelPrefix.CollaborativeCloseOffered
  | SignedChannelStateType.RenewAccepted => SignedChannelPrefix.RenewAccepted
  | SignedChannelStateType.RenewOffered => SignedChannelPrefix.RenewOffered
  | SignedChannelStateType.RenewConfirmed => SignedChannelPrefix.RenewConfirmed
  | SignedChannelStateType.RenewFinalized => SignedChannelPrefix.RenewFinalized
  | SignedChannelStateType.SettledClosing => SignedChannelPrefix.SettledClosing
  end.
Definition sub_channel_prefix (input : SubChannelState.t) : SubChannelPrefix.t :=
  match input with
  | SubChannelState.Offered => SubChannelPrefix.Offered
  | SubChannelState.Accepted => SubChannelPrefix.Accepted
  | SubChannelState.Confirmed => SubChannelPrefix.Confirmed
  | SubChannelState.Finalized => SubChannelPrefix.Finalized
  | SubChannelState.Signed => SubChannelPrefix.Signed
  | SubChannelState.Closing => SubChannelPrefix.Closing
  | SubChannelState.OnChainClosed => SubChannelPrefix.OnChainClosed
  | SubChannelState.CounterOnChainClosed => SubChannelPrefix.CounterOnChainClosed
  | SubChannelState.CloseOffered => SubChannelPrefix.CloseOffered
  | SubChannelState.CloseAccepted => SubChannelPrefix.CloseAccepted
  | SubChannelState.CloseConfirmed => SubChannelPrefix.CloseConfirmed
  | SubChannelState.OffChainClosed => SubChannelPrefix.OffChainClosed
  | SubChannelState.ClosedPunished => SubChannelPrefix.ClosedPunished
  | SubChannelState.Rejected => SubChannelPrefix.Rejected
  end.

Definition u8 (z : Z) : Byte.byte := byte_of_Z z.

(** ** The codec *)

Definition serialize_contract (contract : StoredContract.t) : outcome string Bytes :=
  serialized ← match contract with
    | StoredContract.Offered c => serialize c
    | StoredContract.Accepted c => serialize c
    | StoredContract.Signed c => serialize c
    | StoredContract.Confirmed c => serialize c
    | StoredContract.PreClosed c => serialize c
    | StoredContract.Closed c => serialize c
    | StoredContract.FailedAccept c => serialize c
    | StoredContract.FailedSign c => serialize c
    | StoredContract.Refunded c => serialize c
    | StoredContract.Rejected c => serialize c
    end;
  Ok (u8 (ContractPrefix.to_u8 (contract_prefix contract)) :: serialized).

Definition deserialize_contract (buff : Bytes) : outcome string StoredContract.t :=
  match buff with
  | [] => Err "failed to fill whole buffer"%string
  | prefix :: cursor =>
    contract_prefix ← ContractPrefix.try_from (Z_of_byte prefix);
    match contract_prefix with
    | ContractPrefix.Offered => StoredContract.Offered <$> deserialize cursor
    | ContractPrefix.Accepted => StoredContract.Accepted <$> deserialize cursor
    | ContractPrefix.Signed => StoredContract.Signed <$> deserialize cursor
    | ContractPrefix.Confirmed => StoredContract.Confirmed <$> deserialize cursor
    | ContractPrefix.PreClosed => StoredContract.PreClosed <$> deserialize cursor
    | ContractPrefix.Closed => StoredContract.Closed <$> deserialize cursor
    | ContractPrefix.FailedAccept => StoredContract.FailedAccept <$> deserialize cursor
    | ContractPrefix.FailedSign => StoredContract.FailedSign <$> deserialize cursor
    | ContractPrefix.Refunded => StoredContract.Refunded <$> deserialize cursor
    | ContractPrefix.Rejected => StoredContract.Rejected <$> deserialize cursor
    end
  end.

Definition serialize_channel (channel : StoredChannel.t) : outcome string Bytes :=
  serialized ← match channel with
    | StoredChannel.Offered c => serialize c
    | StoredChannel.Accepted c => serialize c
    | StoredChannel.Signed c => serialize c
    | StoredChannel.Closing c => serialize c
    | StoredChannel.Closed c => serialize c
    | StoredChannel.CounterClosed c => serialize c
    | StoredChannel.ClosedPunished c => serialize c
    | StoredChannel.CollaborativelyClosed c => serialize c
    | StoredChannel.FailedAccept c => serialize c
    | StoredChannel.FailedSign c => serialize c
    | StoredChannel.Cancelled c => serialize c
    | StoredChannel.SettledClosing c => serialize c
    end;
  Ok (u8 (ChannelPrefix.to_u8 (channel_prefix channel)) ::
      match channel with
      | StoredChannel.Signed s => [u8 (SignedChannelPrefix.to_u8 (signed_channel_prefix (get_type s)))]
      | _ => []
      end ++ serialized).

(** After the prefix of a signed channel comes that of its state, which is
    skipped. *)
Definition deserialize_channel (buff : Bytes) : outcome string StoredChannel.t :=
  match buff with
  | [] => Err "failed to fill whole buffer"%string
  | prefix :: cursor =>
    channel_prefix ← ChannelPrefix.try_from (Z_of_byte prefix);
    match channel_prefix with
    | ChannelPrefix.Offered => StoredChannel.Offered <$> deserialize cursor
    | ChannelPrefix.Accepted => StoredChannel.Accepted <$> deserialize cursor
    | ChannelPrefix.Signed => StoredChannel.Signed <$> deserialize (drop 1 cursor)
    | ChannelPrefix.Closing => StoredChannel.Closing <$> deserialize cursor
    | ChannelPrefix.Closed => StoredChannel.Closed <$> deserialize cursor
    | ChannelPrefix.CounterClosed => StoredChannel.CounterClosed <$> deserialize cursor
    | ChannelPrefix.ClosedPunished => StoredChannel.ClosedPunished <$> deserialize cursor
    | ChannelPrefix.CollaborativelyClosed => StoredChannel.CollaborativelyClosed <$> deserialize cursor
    | ChannelPrefix.FailedAccept => StoredChannel.FailedAccept <$> deserialize cursor
    | ChannelPrefix.FailedSign => StoredChannel.FailedSign <$> deserialize cursor
    | ChannelPrefix.Cancelled => StoredChannel.Cancelled <$> deserialize cursor
    | ChannelPrefix.SettledClosing => StoredChannel.SettledClosing <$> deserialize cursor
    end
  end.

Definition serialize_sub_channel (sub_channel : SubChannel) : outcome string Bytes :=
  serialized ← serialize sub_channel;
  Ok (u8 (SubChannelPrefix.to_u8 (sub_channel_prefix (sub_channel_state sub_channel))) :: serialized).
Definition deserialize_sub_channel (buff : Bytes) : outcome string SubChannel := deserialize (drop 1 buff).

(** [impl From<Channel> for DlcChannelEvent]. *)
Definition channel_event (value : StoredChannel.t) : DlcChannelEvent.t :=
  match value with
  | StoredChannel.Offered c => DlcChannelEvent.Offered (data_reference_id HOffered c)
  | StoredChannel.Accepted c => DlcChannelEvent.Accepted (data_reference_id HAccepted c)
  | StoredChannel.Signed c =>
    let reference_id := data_reference_id HSigned c in
    match get_type c with
    | SignedChannelStateType.Established => DlcChannelEvent.Established reference_id
    | SignedChannelStateType.SettledOffered => DlcChannelEvent.SettledOffered reference_id
    | SignedChannelStateType.SettledReceived => DlcChannelEvent.SettledReceived reference_id
    | SignedChannelStateType.SettledAccepted => DlcChannelEvent.SettledAccepted reference_id
    | SignedChannelStateType.SettledConfirmed => DlcChannelEvent.SettledConfirmed reference_id
    | SignedChannelStateType.Settled => DlcChannelEvent.Settled reference_id
    | SignedChannelStateType.Closing => DlcChannelEvent.Closing reference_id
    | SignedChannelStateType.CollaborativeCloseOffered => DlcChannelEvent.CollaborativeCloseOffered reference_id
    | SignedChannelStateType.RenewAccepted => DlcChannelEvent.RenewAccepted reference_id
    | SignedChannelStateType.RenewOffered => DlcChannelEvent.RenewOffered reference_id
    | SignedChannelStateType.RenewConfirmed => DlcChannelEvent.RenewConfirmed reference_id
    | SignedChannelStateType.RenewFinalized => DlcChannelEvent.RenewFinalized reference_id
    | SignedChannelStateType.SettledClosing => DlcChannelEvent.SettledClosing reference_id
    end
  | StoredChannel.Closing c => DlcChannelEvent.Closing (data_reference_id HClosing c)
  | StoredChannel.Closed c => DlcChannelEvent.Closed (data_reference_id HClosed c)
  | StoredChannel.CounterClosed c => DlcChannelEvent.CounterClosed (data_reference_id HClosed c)
  | StoredChannel.ClosedPunished c => DlcChannelEvent.ClosedPunished (data_reference_id HClosedPunished c)
  | StoredChannel.CollaborativelyClosed c => DlcChannelEvent.CollaborativelyClosed (data_reference_id HClosed c)
  | StoredChannel.FailedAccept c => DlcChannelEvent.FailedAccept (data_reference_id HFailedAccept c)
  | StoredChannel.FailedSign c => DlcChannelEvent.FailedSign (data_reference_id HFailedSign c)
  | StoredChannel.Cancelled c => DlcChannelEvent.Cancelled (data_reference_id HOffered c)
  | StoredChannel.SettledClosing c => DlcChannelEvent.SettledClosing (data_reference_id HSettledClosing c)
  end.
End Codec.

(** ** [DlcStorageProvider] *)

(** The store and the events sent. *)
Module DlcStorage.
Record t (S : Type) := mk { store : S; sent : list DlcChannelEvent.t }.
#[global] Arguments mk {_}.
#[global] Arguments store {_}.
#[global] Arguments sent {_}.
End DlcStorage.

(** The loop of [get_data_with_prefix]: [read_exact] panics on a value that is
    shorter than the prefix, what does not read back is logged. *)
Fixpoint get_data_with_prefix {T} `{Serializable T} (data : list Bytes) (prefix : Bytes)
    (consume : option nat) : outcome string (list T) :=
  match data with
  | [] => Ok []
  | value :: data =>
    if Nat.ltb (length value) (length prefix) then Panic
    else if bool_decide (take (length prefix) value = prefix) then
      match deserialize (drop (default 0%nat consume) (drop (length prefix) value)) with
      | Ok deserialized => (deserialized ::.) <$> get_data_with_prefix data prefix consume
      | Err _ => get_data_with_prefix data prefix consume
      | Panic => Panic
      end
    else get_data_with_prefix data prefix consume
  end.

(** [iter().filter_map(..)] over values of which some do not read back. *)
Fixpoint readable {T} (f : Bytes -> outcome string T) (l : list KeyValue.t) : outcome string (list T) :=
  match l with
  | [] => Ok []
  | x :: l =>
    match f (KeyValue.value x) with
    | Ok t => (t ::.) <$> readable f l
    | Err _ => readable f l
    | Panic => Panic
    end
  end.

Section Provider.
Context `{SI : StoreIds} {S : Type} `{KP : DlcStoreProvider S}.

Definition StorageM (A : Type) : Type := M (DlcStorage.t S) string A.

Definition on_store {A} (m : M S string A) : StorageM A := fun s =>
  let '(r, store) := m (DlcStorage.store s) in (r, DlcStorage.mk store (DlcStorage.sent s)).
Definition send_event (event : DlcChannelEvent.t) : StorageM unit :=
  modify (fun s => DlcStorage.mk (DlcStorage.store s) (DlcStorage.sent s ++ [event])).

(** What is known under its temporary id is forgotten there. *)
Definition forget_temporary_contract (contract : StoredContract.t) : StorageM unit :=
  match contract with
  | StoredContract.Accepted _ | StoredContract.Signed _ =>
    on_store (store_delete CONTRACT (Some (contract_temporary_id contract)))
  | _ => mret tt
  end.
Definition forget_temporary_channel (channel : StoredChannel.t) : StorageM unit :=
  match channel with
  | StoredChannel.Accepted _ | StoredChannel.Signed _ =>
    on_store (store_delete CHANNEL (Some (channel_temporary_id_of channel)))
  | _ => mret tt
  end.

Definition insert_contract (serialized : Bytes) (contract : StoredContract.t) : StorageM (option Bytes) :=
  forget_temporary_contract contract;;
  on_store (store_write CONTRACT (contract_id_of contract) serialized);;
  mret (Some serialized).

Definition get_raw (kind : Z) : StorageM (list Bytes) :=
  map KeyValue.value <$> on_store (store_read kind None).
Definition get_raw_contracts : StorageM (list Bytes) := get_raw CONTRACT.

(** *** Contracts *)

Definition get_contract (contract_id : Bytes) : StorageM (option StoredContract.t) :=
  l ← on_store (store_read CONTRACT (Some contract_id));
  match l with
  | res :: _ => Some <$> lift (deserialize_contract (KeyValue.value res))
  | [] => mret None
  end.
Definition get_contracts : StorageM (list StoredContract.t) :=
  contracts ← on_store (store_read CONTRACT None);
  lift (readable deserialize_contract contracts).
Definition create_contract (contract : contract_data COffered) : StorageM unit :=
  serialized ← lift (serialize_contract (StoredContract.Offered contract));
  on_store (store_write CONTRACT (offered_contract_id contract) serialized).
Definition delete_contract (contract_id : Bytes) : StorageM unit :=
  on_store (store_delete CONTRACT (Some contract_id)).
Definition update_contract (contract : StoredContract.t) : StorageM unit :=
  serialized ← lift (serialize_contract contract);
  forget_temporary_contract contract;;
  on_store (store_write CONTRACT (contract_id_of contract) serialized).

Definition contracts_in {T} `{Serializable T} (prefix : ContractPrefix.t) : StorageM (list T) :=
  contracts ← get_raw_contracts;
  lift (get_data_with_prefix contracts [u8 (ContractPrefix.to_u8 prefix)] None).
Definition get_contract_offers : StorageM (list (contract_data COffered)) := contracts_in ContractPrefix.Offered.
Definition get_signed_contracts : StorageM (list (contract_data CSigned)) := contracts_in ContractPrefix.Signed.
Definition get_confirmed_contracts : StorageM (list (contract_data CSigned)) :=
  contracts_in ContractPrefix.Confirmed.
Definition get_preclosed_contracts : StorageM (list (contract_data CPreClosed)) :=
  contracts_in ContractPrefix.PreClosed.

(** *** Channels *)

Definition upsert_channel (channel : StoredChannel.t) (contract : option StoredContract.t) : StorageM unit :=
  serialized ← lift (serialize_channel channel);
  serialized_contract ← lift (match contract with
                              | Some c => Some <$> serialize_contract c
                              | None => Ok None
                              end);
  forget_temporary_channel channel;;
  on_store (store_write CHANNEL (channel_id_of channel) serialized);;
  (match contract with
   | Some contract =>
     serialized_contract ← lift (expect serialized_contract);
     _ ← insert_contract serialized_contract contract; mret tt
   | None => mret tt
   end);;
  send_event (channel_event channel).

Definition get_stored_channel (channel_id : Bytes) : StorageM (option StoredChannel.t) :=
  l ← on_store (store_read CHANNEL (Some channel_id));
  match l with
  | res :: _ => Some <$> lift (deserialize_channel (KeyValue.value res))
  | [] => mret None
  end.

Definition delete_channel (channel_id : Bytes) : StorageM unit :=
  channel ← get_stored_channel channel_id;
  on_store (store_delete CHANNEL (Some channel_id));;
  send_event (DlcChannelEvent.Deleted (channel ≫= channel_reference_id)).

Definition get_signed_channels (channel_state : option SignedChannelStateType.t)
    : StorageM (list (channel_data HSigned)) :=
  let signed := u8 (ChannelPrefix.to_u8 ChannelPrefix.Signed) in
  let '(prefix, consume) :=
    match channel_state with
    | Some state => ([signed; u8 (SignedChannelPrefix.to_u8 (signed_channel_prefix state))], None)
    | None => ([signed], Some 1%nat)
    end in
  channels ← get_raw CHANNEL;
  lift (get_data_with_prefix channels prefix consume).
Definition get_offered_channels : StorageM (list (channel_data HOffered)) :=
  channels ← get_raw CHANNEL;
  lift (get_data_with_prefix channels [u8 (ChannelPrefix.to_u8 ChannelPrefix.Offered)] None).
Definition get_settled_closing_channels : StorageM (list (channel_data HSettledClosing)) :=
  channels ← get_raw CHANNEL;
  lift (get_data_with_prefix channels [u8 (ChannelPrefix.to_u8 ChannelPrefix.SettledClosing)] None).
Definition get_channels : StorageM (list StoredChannel.t) :=
  channels ← on_store (store_read CHANNEL None);
  lift (readable deserialize_channel channels).

(** *** The chain monitor and sub channels *)

Definition persist_chain_monitor (monitor : ChainMonitor) : StorageM unit :=
  serialized ← lift (serialize monitor);
  on_store (store_write CHAIN_MONITOR CHAIN_MONITOR_KEY serialized).
Definition get_chain_monitor : StorageM (option ChainMonitor) :=
  chain_monitors ← on_store (store_read CHAIN_MONITOR (Some CHAIN_MONITOR_KEY));
  match chain_monitors with
  | s :: _ => Some <$> lift (deserialize (KeyValue.value s))
  | [] => mret None
  end.

Definition upsert_sub_channel (subchannel : SubChannel) : StorageM unit :=
  serialized ← lift (serialize_sub_channel subchannel);
  on_store (store_write SUB_CHANNEL (sub_channel_id_of subchannel) serialized).
Definition get_sub_channel (channel_id : Bytes) : StorageM (option SubChannel) :=
  l ← on_store (store_read SUB_CHANNEL (Some channel_id));
  match l with
  | res :: _ => Some <$> lift (deserialize_sub_channel (KeyValue.value res))
  | [] => mret None
  end.
Definition get_sub_channels : StorageM (list SubChannel) :=
  sub_channels ← on_store (store_read SUB_CHANNEL None);
  lift (readable deserialize_sub_channel sub_channels).
Definition get_offered_sub_channels : StorageM (list SubChannel) :=
  sub_channels ← get_raw SUB_CHANNEL;
  lift (get_data_with_prefix sub_channels [u8 (SubChannelPrefix.to_u8 SubChannelPrefix.Offered)] None).
End Provider.

(** ** Actions of sub channels, and keys *)

Class ActionLib := {
  Action : Type;
  action_write : Action -> outcome string Bytes;
  action_read : Bytes -> outcome string (Action * Bytes);    (* with what is left to read *)
}.
Class ActionLaws `(ActionLib) : Prop := {
  action_roundtrip a b rest : action_write a = Ok b -> action_read (b ++ rest) = Ok (a, rest);
  action_size a b : action_write a = Ok b -> (2 <= length b)%nat;
}.
Class KeyPairLib `{IdLib} := {
  SecretKey : Type;
  public_key_serialize : PublicKey -> Bytes;
  secret_bytes : SecretKey -> Bytes;
  secret_key_from_slice : Bytes -> option SecretKey;
}.
Class KeyPairLaws `(KeyPairLib) : Prop := {
  public_key_serialize_inj p q : public_key_serialize p = public_key_serialize q -> p = q;
  secret_key_roundtrip k : secret_key_from_slice (secret_bytes k) = Some k;
}.

Section Actions.
Context `{AL : ActionLib} {S : Type} `{KP : DlcStoreProvider S}.

Definition save_sub_channel_actions (actions : list Action) : StorageM (S := S) unit :=
  buf ← lift (traverse action_write actions);
  on_store (store_write ACTION (String.list_byte_of_string "action") (concat buf)).

(** [while cursor.position() < len - 1]: more than one byte is left.  Every action
    takes a byte at least, so the number of bytes is fuel enough. *)
Fixpoint read_actions (fuel : nat) (cursor : Bytes) : outcome string (list Action) :=
  match fuel with
  | O => Ok []
  | Datatypes.S fuel =>
    if Nat.ltb 1 (length cursor) then
      '(action, cursor) ← action_read cursor;
      res ← read_actions fuel cursor;
      Ok (action :: res)
    else Ok []
  end.

Definition get_sub_channel_actions : StorageM (S := S) (list Action) :=
  actions ← on_store (store_read ACTION None);
  match actions with
  | buf :: _ =>
    match KeyValue.value buf with
    | [] => mret []
    | value => lift (read_actions (length value) value)
    end
  | [] => mret []
  end.

Context `{KL : KeyPairLib}.

Definition upsert_key_pair (public_key : PublicKey) (privkey : SecretKey) : StorageM (S := S) unit :=
  on_store (store_write KEY_PAIR (public_key_serialize public_key) (secret_bytes privkey)).
Definition get_priv_key_for_pubkey (public_key : PublicKey) : StorageM (S := S) (option SecretKey) :=
  pairs ← on_store (store_read KEY_PAIR None);
  keys ← lift (traverse (fun x => expect (secret_key_from_slice (KeyValue.value x)))
    (List.filter (fun x => bool_decide (KeyValue.key x = public_key_serialize public_key)) pairs));
  mret (head keys).
End Actions.
