(* ===== verification/DlcStoreSpec.v ===== *)
(** * The storage of [rust-dlc] against maps

    [DlcStorageProvider] (DlcStore.v) is, over any key-value store that keeps the
    laws of KvStore.v, a map of contracts and a map of channels by id, and reports
    every change of a channel: [storage_refines_maps] for what changes them,
    [queries_answer_from_maps] for what is read. *)

From stdpp Require Import base list option strings gmap.
From Stdlib Require Import ZArith Lia.
From S2P Require Import Prelude Machine External Demo Commons PayoutCurve Messages Node DlcPeer KvStore DlcStore.

#[local] Open Scope Z_scope.

(** ** The codec *)

Section CodecLaws.
Context `{SDL : StoreDataLaws}.

(** What is written of a contract and of a channel. *)
Lemma serialize_contract_ok c v : serialize_contract c = Ok v ->
  exists b, v = u8 (ContractPrefix.to_u8 (contract_prefix c)) :: b.
Proof using Type. unfold serialize_contract. intros (b & _ & [= <-])%outcome_bind_ok. by exists b. Qed.

Lemma serialize_channel_ok c v : serialize_channel c = Ok v ->
  exists a b, v = u8 (ChannelPrefix.to_u8 (channel_prefix c)) :: a :: b.
Proof.
  unfold serialize_channel. intros (b & Hb & [= <-])%outcome_bind_ok.
  assert (exists x l, b = x :: l) as (x & l & ->).
  { destruct b as [|x l]; [|by exists x, l]. exfalso. destruct c; exact (serialize_not_empty _ Hb). }
  destruct c; cbn; by eexists _, _.
Qed.

Theorem contract_roundtrip c v : serialize_contract c = Ok v -> deserialize_contract v = Ok c.
Proof.
  unfold serialize_contract. intros (b & Hb & [= <-])%outcome_bind_ok.
  unfold deserialize_contract. destruct c; cbn -[deserialize serialize] in *; by rewrite (deserialize_serialize _ _ Hb).
Qed.

Theorem channel_roundtrip c v : serialize_channel c = Ok v -> deserialize_channel v = Ok c.
Proof.
  unfold serialize_channel. intros (b & Hb & [= <-])%outcome_bind_ok.
  unfold deserialize_channel. destruct c; cbn -[deserialize serialize] in *;
    rewrite ?drop_0; by rewrite (deserialize_serialize _ _ Hb).
Qed.

Theorem sub_channel_roundtrip c v : serialize_sub_channel c = Ok v -> deserialize_sub_channel v = Ok c.
Proof.
  unfold serialize_sub_channel. intros (b & Hb & [= <-])%outcome_bind_ok.
  unfold deserialize_sub_channel. cbn. by apply deserialize_serialize.
Qed.
End CodecLaws.

(** ** What the bytes stand for *)

Section Stored.
Context {A : Type} (ser : A -> outcome string Bytes).

Definition bytes_of (x : A) : Bytes := match ser x with Ok b => b | _ => [] end.

(** The entries [m] are those of the map [a], written by [ser]. *)
Definition stored (m : gmap Bytes Bytes) (a : gmap Bytes A) : Prop :=
  m = bytes_of <$> a /\ forall k x, a !! k = Some x -> ser x = Ok (bytes_of x).

Lemma stored_empty : stored ∅ ∅.
Proof. split; [by rewrite fmap_empty|]. intros k x. by rewrite lookup_empty. Qed.

Lemma stored_insert m a k x b : stored m a -> ser x = Ok b -> stored (<[k := b]> m) (<[k := x]> a).
Proof.
  intros [-> Ha] Hx. assert (Hb : bytes_of x = b) by (unfold bytes_of; by rewrite Hx). split.
  - by rewrite fmap_insert, Hb.
  - intros k' x' Hk. rewrite lookup_insert in Hk. case_decide; [|by eapply Ha]. injection Hk as <-. by rewrite Hb.
Qed.

Lemma stored_delete m a k : stored m a -> stored (delete k m) (delete k a).
Proof.
  intros [-> Ha]. split; [by rewrite fmap_delete|].
  intros k' x' Hk. rewrite lookup_delete in Hk. case_decide; [done|]. by eapply Ha.
Qed.

Lemma stored_lookup m a k : stored m a -> m !! k = bytes_of <$> a !! k.
Proof. intros [-> _]. apply lookup_fmap. Qed.

(** Reading all entries gives what is written of the values, in some order. *)
Lemma stored_entries m a l : stored m a -> l ≡ₚ map (fun e => entry e.1 e.2) (map_to_list m) ->
  exists xs, xs ≡ₚ (map_to_list a).*2 /\
    Forall2 (fun x v => ser x = Ok (KeyValue.value v)) xs l.
Proof.
  intros [-> Ha] Hl. assert (Hl' : l ≡ₚ map (fun e => entry e.1 (bytes_of e.2)) (map_to_list a)).
  { rewrite Hl, map_to_list_fmap. rewrite map_map. done. }
  symmetry in Hl'. apply Permutation_sym, Permutation_map_inv in Hl' as (es & -> & Hes).
  exists (es.*2). split; [by rewrite Hes|].
  assert (Hall : Forall (fun e => ser e.2 = Ok (bytes_of e.2)) es).
  { rewrite <-Hes. apply Forall_forall. intros [k x] Hin. by eapply Ha, elem_of_map_to_list. }
  clear -Hall. induction Hall as [|e es He _ IH]; cbn; constructor; auto.
Qed.
End Stored.

(** ** The abstract state and the operations on it *)

Module StoreSpec.
Record t `{StoreData} := mk {
  contracts : gmap Bytes StoredContract.t;
  channels : gmap Bytes StoredChannel.t;
  sub_channels : gmap Bytes SubChannel;
  chain_monitor : option ChainMonitor;
  events : list DlcChannelEvent.t;
}.
#[global] Arguments mk {_}.
End StoreSpec.

(** What changes the storage. *)
Module StorageOp.
Inductive t `{StoreData} :=
  | CreateContract (contract : contract_data COffered)
  | UpdateContract (contract : StoredContract.t)
  | DeleteContract (id : Bytes)
  | UpsertChannel (channel : StoredChannel.t) (contract : option StoredContract.t)
  | DeleteChannel (id : Bytes)
  | PersistChainMonitor (monitor : ChainMonitor)
  | UpsertSubChannel (sub_channel : SubChannel).
End StorageOp.

Section Spec.
Context `{SI : StoreIds}.

(** A contract that was accepted or signed is no longer under its temporary id. *)
Definition put_contract (contract : StoredContract.t) (m : gmap Bytes StoredContract.t)
    : gmap Bytes StoredContract.t :=
  <[contract_id_of contract := contract]>
    match contract with
    | StoredContract.Accepted _ | StoredContract.Signed _ => delete (contract_temporary_id contract) m
    | _ => m
    end.
Definition put_channel (channel : StoredChannel.t) (m : gmap Bytes StoredChannel.t) : gmap Bytes StoredChannel.t :=
  <[channel_id_of channel := channel]>
    match channel with
    | StoredChannel.Accepted _ | StoredChannel.Signed _ => delete (channel_temporary_id_of channel) m
    | _ => m
    end.

Definition spec_op (a : StoreSpec.t) (o : StorageOp.t) : StoreSpec.t :=
  let '(StoreSpec.mk contracts channels sub_channels monitor events) := a in
  match o with
  | StorageOp.CreateContract c =>
    StoreSpec.mk (<[offered_contract_id c := StoredContract.Offered c]> contracts) channels sub_channels monitor events
  | StorageOp.UpdateContract c => StoreSpec.mk (put_contract c contracts) channels sub_channels monitor events
  | StorageOp.DeleteContract id => StoreSpec.mk (delete id contracts) channels sub_channels monitor events
  | StorageOp.UpsertChannel channel contract =>
    StoreSpec.mk (from_option put_contract id contract contracts) (put_channel channel channels) sub_channels monitor
      (events ++ [channel_event channel])
  | StorageOp.DeleteChannel id =>
    StoreSpec.mk contracts (delete id channels) sub_channels monitor
      (events ++ [DlcChannelEvent.Deleted (channels !! id ≫= channel_reference_id)])
  | StorageOp.PersistChainMonitor monitor => StoreSpec.mk contracts channels sub_channels (Some monitor) events
  | StorageOp.UpsertSubChannel c =>
    StoreSpec.mk contracts channels (<[sub_channel_id_of c := c]> sub_channels) monitor events
  end.

Context {S : Type} `{KP : DlcStoreProvider S}.

Definition run_op (o : StorageOp.t) : StorageM (S := S) unit :=
  match o with
  | StorageOp.CreateContract c => create_contract c
  | StorageOp.UpdateContract c => update_contract c
  | StorageOp.DeleteContract id => delete_contract id
  | StorageOp.UpsertChannel channel contract => upsert_channel channel contract
  | StorageOp.DeleteChannel id => delete_channel id
  | StorageOp.PersistChainMonitor monitor => persist_chain_monitor monitor
  | StorageOp.UpsertSubChannel c => upsert_sub_channel c
  end.

Context `{KL : !StoreProviderLaws S}.

Definition monitor_entries (monitor : option ChainMonitor) : gmap Bytes ChainMonitor :=
  match monitor with Some m => {[CHAIN_MONITOR_KEY := m]} | None => ∅ end.

(** The concrete state [s] stands for [a]. *)
Definition represents (s : DlcStorage.t S) (a : StoreSpec.t) : Prop :=
  stored serialize_contract (view (DlcStorage.store s) CONTRACT) (StoreSpec.contracts a) /\
  stored serialize_channel (view (DlcStorage.store s) CHANNEL) (StoreSpec.channels a) /\
  stored serialize_sub_channel (view (DlcStorage.store s) SUB_CHANNEL) (StoreSpec.sub_channels a) /\
  stored serialize (view (DlcStorage.store s) CHAIN_MONITOR) (monitor_entries (StoreSpec.chain_monitor a)) /\
  DlcStorage.sent s = StoreSpec.events a.


Lemma on_store_ok {A} (m : M S string A) s a s' : on_store m s = (Ok a, s') ->
  m (DlcStorage.store s) = (Ok a, DlcStorage.store s') /\ DlcStorage.sent s' = DlcStorage.sent s.
Proof using Type. unfold on_store. destruct (m _) as [r st]. by intros [= -> <-]. Qed.


Lemma monitor_entries_insert m c : <[CHAIN_MONITOR_KEY := c]> (monitor_entries m) = monitor_entries (Some c).
Proof using Type.
  destruct m; [|done]. unfold monitor_entries.
  apply insert_singleton_eq.
Qed.

(** One entry of one kind is written or removed. *)
Ltac touch law :=
  intros (Hc & Hh & Hs & Hm & He); intros;
  match goal with Hop : on_store _ _ = _ |- _ =>
    apply on_store_ok in Hop as [Hop ?Hsent];
    let Hv := fresh "Hv" in
    first [pose proof (law _ _ _ _ _ Hop) as Hv | pose proof (law _ _ _ _ _ _ Hop) as Hv];
    unfold represents; rewrite !Hv, Hsent
  end; split_and!; try done;
  first [by apply stored_delete | by apply stored_insert
        | cbn [StoreSpec.chain_monitor]; erewrite <-monitor_entries_insert; by apply stored_insert].

Section Entries.
Context (s s' : DlcStorage.t S) (u : unit) (k b : Bytes).
Context {cs : gmap Bytes StoredContract.t} {hs : gmap Bytes StoredChannel.t} {ss : gmap Bytes SubChannel}
  {m : option ChainMonitor} {ev : list DlcChannelEvent.t}.

Lemma delete_contract_entry : represents s (StoreSpec.mk cs hs ss m ev) ->
  on_store (store_delete CONTRACT (Some k)) s = (Ok u, s') -> represents s' (StoreSpec.mk (delete k cs) hs ss m ev).
Proof. touch store_delete_key. Qed.

Lemma delete_channel_entry : represents s (StoreSpec.mk cs hs ss m ev) ->
  on_store (store_delete CHANNEL (Some k)) s = (Ok u, s') -> represents s' (StoreSpec.mk cs (delete k hs) ss m ev).
Proof. touch store_delete_key. Qed.

Lemma write_contract_entry c : represents s (StoreSpec.mk cs hs ss m ev) -> serialize_contract c = Ok b ->
  on_store (store_write CONTRACT k b) s = (Ok u, s') -> represents s' (StoreSpec.mk (<[k := c]> cs) hs ss m ev).
Proof. touch store_write_ok. Qed.

Lemma write_channel_entry c : represents s (StoreSpec.mk cs hs ss m ev) -> serialize_channel c = Ok b ->
  on_store (store_write CHANNEL k b) s = (Ok u, s') -> represents s' (StoreSpec.mk cs (<[k := c]> hs) ss m ev).
Proof. touch store_write_ok. Qed.

Lemma write_sub_channel_entry c : represents s (StoreSpec.mk cs hs ss m ev) -> serialize_sub_channel c = Ok b ->
  on_store (store_write SUB_CHANNEL k b) s = (Ok u, s') -> represents s' (StoreSpec.mk cs hs (<[k := c]> ss) m ev).
Proof. touch store_write_ok. Qed.

Lemma write_monitor_entry c : represents s (StoreSpec.mk cs hs ss m ev) -> serialize c = Ok b ->
  on_store (store_write CHAIN_MONITOR CHAIN_MONITOR_KEY b) s = (Ok u, s') ->
  represents s' (StoreSpec.mk cs hs ss (Some c) ev).
Proof. touch store_write_ok. Qed.
End Entries.

(** What is accepted or signed is forgotten under its temporary id, then written. *)
Section Puts.
Context {cs : gmap Bytes StoredContract.t} {hs : gmap Bytes StoredChannel.t} {ss : gmap Bytes SubChannel}
  {m : option ChainMonitor} {ev : list DlcChannelEvent.t}.

Lemma put_contract_entry s s' c b u : represents s (StoreSpec.mk cs hs ss m ev) -> serialize_contract c = Ok b ->
  (forget_temporary_contract c;; on_store (store_write CONTRACT (contract_id_of c) b)) s = (Ok u, s') ->
  represents s' (StoreSpec.mk (put_contract c cs) hs ss m ev).
Proof.
  intros Hr Hb ([] & s1 & H1 & H2)%M_bind_ok. eapply write_contract_entry; [|exact Hb|exact H2].
  destruct c; cbn in H1; first [by injection H1 as <- | by eapply delete_contract_entry].
Qed.

Lemma put_channel_entry s s' c b u : represents s (StoreSpec.mk cs hs ss m ev) -> serialize_channel c = Ok b ->
  (forget_temporary_channel c;; on_store (store_write CHANNEL (channel_id_of c) b)) s = (Ok u, s') ->
  represents s' (StoreSpec.mk cs (put_channel c hs) ss m ev).
Proof.
  intros Hr Hb ([] & s1 & H1 & H2)%M_bind_ok. eapply write_channel_entry; [|exact Hb|exact H2].
  destruct c; cbn in H1; first [by injection H1 as <- | by eapply delete_channel_entry].
Qed.

Lemma event_sent s event s' u : represents s (StoreSpec.mk cs hs ss m ev) -> send_event event s = (Ok u, s') ->
  represents s' (StoreSpec.mk cs hs ss m (ev ++ [event])).
Proof. intros (Hc & Hh & Hs & Hm & He) [= _ <-]. unfold represents; cbn in *. by rewrite He. Qed.
End Puts.

(** ** What is read *)

Context {SDL : StoreDataLaws _}.

(** The store can be read. *)
Definition readable_at (s : DlcStorage.t S) (kind : Z) (key : option Bytes) : Prop :=
  exists l store, store_read kind key (DlcStorage.store s) = (Ok l, store).

Lemma on_store_read s kind key l st : store_read kind key (DlcStorage.store s) = (Ok l, st) ->
  on_store (store_read kind key) s = (Ok l, s).
Proof.
  intros Hl. unfold on_store. rewrite Hl. assert (st = DlcStorage.store s) as ->.
  { destruct key; [by apply store_read_key in Hl as [-> _]|by apply store_read_all in Hl as [-> _]]. }
  by destruct s.
Qed.

(** One value is looked up and read back. *)
Lemma find_stored {A} (ser : A -> outcome string Bytes) (de : Bytes -> outcome string A)
    (a : gmap Bytes A) kind k s :
  (forall x v, ser x = Ok v -> de v = Ok x) ->
  stored ser (view (DlcStorage.store s) kind) a -> readable_at s kind (Some k) ->
  (l ← on_store (store_read kind (Some k));
   match l with
   | res :: _ => Some <$> lift (de (KeyValue.value res))
   | [] => mret None
   end) s = (Ok (a !! k), s).
Proof.
  intros Hde Hst (l & st & Hl). pose proof Hl as Hl'. apply store_read_key in Hl' as [_ ->].
  unfold mbind at 1, M_bind at 1. rewrite (on_store_read _ _ _ _ _ Hl), (stored_lookup _ _ _ k Hst).
  destruct (a !! k) as [x|] eqn:Hx; [|done]. cbn. destruct Hst as [_ Hser].
  by rewrite (Hde _ _ (Hser _ _ Hx)).
Qed.

(** Reading all of a kind reads back every value. *)
Lemma read_stored {A} (ser : A -> outcome string Bytes) (a : gmap Bytes A) kind s :
  stored ser (view (DlcStorage.store s) kind) a -> readable_at s kind None ->
  exists l xs, on_store (store_read kind None) s = (Ok l, s) /\ xs ≡ₚ (map_to_list a).*2 /\
    Forall2 (fun x v => ser x = Ok (KeyValue.value v)) xs l.
Proof using Type*.
  intros Hst (l & st & Hl). pose proof Hl as Hl'. apply store_read_all in Hl' as [_ Hp].
  destruct (stored_entries _ _ _ _ Hst Hp) as (xs & Hxs & Hall).
  exists l, xs. split_and!; [by eapply on_store_read|done..].
Qed.

Lemma readable_all {A} (ser : A -> outcome string Bytes) de xs l :
  (forall x v, ser x = Ok v -> de v = Ok x) ->
  Forall2 (fun x v => ser x = Ok (KeyValue.value v)) xs l -> readable de l = Ok xs.
Proof using Type. intros Hde Hall. induction Hall as [|x v xs l Hx _ IH]; cbn; [done|]. by rewrite (Hde _ _ Hx), IH. Qed.

(** What [prefix] selects of the values. *)
Definition selects {A T} `{Serializable T} (ser : A -> outcome string Bytes) (sel : A -> option T)
    (prefix : Bytes) (consume : option nat) : Prop :=
  forall x v, ser x = Ok v -> (length prefix <= length v)%nat /\
    match sel x with
    | Some t => take (length prefix) v = prefix /\
      deserialize (drop (default 0%nat consume) (drop (length prefix) v)) = Ok t
    | None => take (length prefix) v <> prefix
    end.

Lemma data_with_prefix {A T} `{Serializable T} ser (sel : A -> option T) prefix consume xs l :
  selects ser sel prefix consume -> Forall2 (fun x v => ser x = Ok (KeyValue.value v)) xs l ->
  get_data_with_prefix (map KeyValue.value l) prefix consume = Ok (omap sel xs).
Proof using Type.
  intros Hsel Hall. induction Hall as [|x v xs l Hx _ IH]; cbn [get_data_with_prefix map]; [done|].
  destruct (Hsel _ _ Hx) as [Hlen Hx']. rewrite (proj2 (Nat.ltb_ge _ _) Hlen), IH. cbn [omap list_omap].
  destruct (sel x) as [t|].
  - destruct Hx' as [Heq Hd]. rewrite bool_decide_eq_true_2 by done. by rewrite Hd.
  - by rewrite bool_decide_eq_false_2 by done.
Qed.

Lemma find_readable {A} (ser : A -> outcome string Bytes) de (a : gmap Bytes A) kind s :
  (forall x v, ser x = Ok v -> de v = Ok x) ->
  stored ser (view (DlcStorage.store s) kind) a -> readable_at s kind None ->
  exists xs, (l ← on_store (store_read kind None); lift (readable de l)) s = (Ok xs, s) /\ xs ≡ₚ (map_to_list a).*2.
Proof using Type*.
  intros Hde Hst Hr. destruct (read_stored _ _ _ _ Hst Hr) as (l & xs & Hl & Hxs & Hall). exists xs.
  split; [|done]. unfold mbind, M_bind. rewrite Hl. unfold lift. by rewrite (readable_all _ _ _ _ Hde Hall).
Qed.

Lemma find_selected {A T} `{Serializable T} ser (sel : A -> option T) prefix consume (a : gmap Bytes A) kind s :
  selects ser sel prefix consume ->
  stored ser (view (DlcStorage.store s) kind) a -> readable_at s kind None ->
  exists xs, (l ← get_raw kind; lift (get_data_with_prefix l prefix consume)) s = (Ok xs, s) /\
    xs ≡ₚ omap sel (map_to_list a).*2.
Proof using Type*.
  intros Hsel Hst Hr. destruct (read_stored _ _ _ _ Hst Hr) as (l & xs & Hl & Hxs & Hall). exists (omap sel xs).
  split; [|by rewrite Hxs]. unfold get_raw, mbind, M_bind, fmap, M_fmap. rewrite Hl. cbn. unfold lift.
  by rewrite (data_with_prefix _ _ _ _ _ _ Hsel Hall).
Qed.

(** *** The values in a state *)

Definition offered_contract (c : StoredContract.t) : option (contract_data COffered) :=
  match c with StoredContract.Offered c => Some c | _ => None end.
Definition signed_contract (c : StoredContract.t) : option (contract_data CSigned) :=
  match c with StoredContract.Signed c => Some c | _ => None end.
Definition confirmed_contract (c : StoredContract.t) : option (contract_data CSigned) :=
  match c with StoredContract.Confirmed c => Some c | _ => None end.
Definition preclosed_contract (c : StoredContract.t) : option (contract_data CPreClosed) :=
  match c with StoredContract.PreClosed c => Some c | _ => None end.
Definition offered_channel (c : StoredChannel.t) : option (channel_data HOffered) :=
  match c with StoredChannel.Offered c => Some c | _ => None end.
Definition settled_closing_channel (c : StoredChannel.t) : option (channel_data HSettledClosing) :=
  match c with StoredChannel.SettledClosing c => Some c | _ => None end.

#[local] Instance signed_state_eq_dec : EqDecision SignedChannelStateType.t.
Proof. solve_decision. Defined.
#[local] Instance sub_state_eq_dec : EqDecision SubChannelState.t.
Proof. solve_decision. Defined.
Definition signed_channel (state : option SignedChannelStateType.t) (c : StoredChannel.t)
    : option (channel_data HSigned) :=
  match c with
  | StoredChannel.Signed c => if match state with Some state => bool_decide (get_type c = state) | None => true end then Some c else None
  | _ => None
  end.
Definition offered_sub_channel (c : SubChannel) : option SubChannel :=
  if bool_decide (sub_channel_state c = SubChannelState.Offered) then Some c else None.

Lemma u8_inj_state p q :
  u8 (SignedChannelPrefix.to_u8 (signed_channel_prefix p)) = u8 (SignedChannelPrefix.to_u8 (signed_channel_prefix q)) ->
  p = q.
Proof using Type. by destruct p, q. Qed.

(** The first byte of what is written tells the variants apart, and the rest is
    what the variant holds. *)
Ltac by_variant :=
  intros x v Hv; unfold serialize_contract, serialize_channel in Hv;
  apply outcome_bind_ok in Hv as (b & Hb & [= <-]); destruct x; cbn in Hb |- *;
  (split; [lia|]); rewrite ?take_0, ?drop_0;
  first [by rewrite (deserialize_serialize _ _ Hb) | intros [=]].

Lemma selects_contracts_offered : selects serialize_contract offered_contract [u8 1] None.
Proof using SDL. by_variant. Qed.
Lemma selects_contracts_signed : selects serialize_contract signed_contract [u8 3] None.
Proof using SDL. by_variant. Qed.
Lemma selects_contracts_confirmed : selects serialize_contract confirmed_contract [u8 4] None.
Proof using SDL. by_variant. Qed.
Lemma selects_contracts_preclosed : selects serialize_contract preclosed_contract [u8 5] None.
Proof using SDL. by_variant. Qed.
Lemma selects_channels_offered : selects serialize_channel offered_channel [u8 1] None.
Proof using SDL. by_variant. Qed.
Lemma selects_channels_settled_closing : selects serialize_channel settled_closing_channel [u8 12] None.
Proof using SDL. by_variant. Qed.
Lemma selects_channels_signed : selects serialize_channel (signed_channel None) [u8 3] (Some 1%nat).
Proof using SDL. by_variant. Qed.
Lemma selects_channels_signed_in state : selects serialize_channel (signed_channel (Some state))
  [u8 3; u8 (SignedChannelPrefix.to_u8 (signed_channel_prefix state))] None.
Proof.
  intros x v Hv. pose proof Hv as Hl. apply serialize_channel_ok in Hl as (a & l & ->).
  unfold serialize_channel in Hv. apply outcome_bind_ok in Hv as (b & Hb & [= Hal]). split; [cbn; lia|].
  destruct x; cbn in Hb, Hal |- *; try (by intros [=]). injection Hal as <- <-.
  rewrite take_0. case_bool_decide as Hst; [by rewrite Hst, !drop_0, (deserialize_serialize _ _ Hb)|].
  intros [= Hq]. by apply u8_inj_state in Hq.
Qed.
Lemma selects_sub_channels_offered : selects serialize_sub_channel offered_sub_channel [u8 1] None.
Proof using SDL.
  intros x v Hv. unfold serialize_sub_channel in Hv. apply outcome_bind_ok in Hv as (b & Hb & [= <-]).
  split; [cbn; lia|]. unfold offered_sub_channel. cbn. rewrite take_0, !drop_0.
  case_bool_decide as Hst; [by rewrite Hst, (deserialize_serialize _ _ Hb)|].
  intros [= Hq]. apply Hst. by destruct (sub_channel_state x).
Qed.

(** ** One operation *)

Lemma get_stored_channel_spec s a k : represents s a -> readable_at s CHANNEL (Some k) ->
  get_stored_channel k s = (Ok (StoreSpec.channels a !! k), s).
Proof.
  intros (_ & Hh & _) Hr. exact (find_stored _ _ _ _ k _ channel_roundtrip Hh Hr).
Qed.

Lemma read_of_get {B} s kind k (f : list KeyValue.t -> StorageM (S := S) B) b s' :
  (on_store (store_read kind k) ≫= f) s = (Ok b, s') -> readable_at s kind k.
Proof using Type.
  intros (l & s1 & [Hl _]%on_store_ok & _)%M_bind_ok. by exists l, (DlcStorage.store s1).
Qed.

Lemma upsert_channel_represents s a channel contract s' : represents s a ->
  upsert_channel channel contract s = (Ok tt, s') ->
  represents s' (spec_op a (StorageOp.UpsertChannel channel contract)).
Proof using Type*.
  intros Hr Hop. destruct a as [cs hs ss m ev]. unfold upsert_channel in Hop.
  apply M_bind_ok in Hop as (b & ? & [Hb ->]%lift_ok & Hop).
  apply M_bind_ok in Hop as (ob & ? & [Hob ->]%lift_ok & Hop).
  apply M_bind_ok in Hop as ([] & s1 & H1 & Hop).
  apply M_bind_ok in Hop as ([] & s2 & H2 & Hop).
  apply M_bind_ok in Hop as ([] & s3 & H3 & Hop).
  eapply event_sent; [|exact Hop].
  assert (Hch : represents s2 (StoreSpec.mk cs (put_channel channel hs) ss m ev)).
  { eapply put_channel_entry; [exact Hr|exact Hb|]. apply M_bind_ok. by exists tt, s1. }
  destruct contract as [c|]; [|by injection H3 as <-].
  apply outcome_bind_ok in Hob as (cb & Hcb & [= <-]).
  apply M_bind_ok in H3 as (? & ? & [[= ->] ->]%lift_ok & H3).
  apply M_bind_ok in H3 as (? & s3' & H3 & [= <-]).
  unfold insert_contract in H3. apply M_bind_ok in H3 as ([] & s4 & H4 & H3).
  apply M_bind_ok in H3 as ([] & s5 & H5 & [= _ <-]).
  eapply put_contract_entry; [exact Hch|exact Hcb|]. apply M_bind_ok. by exists tt, s4.
Qed.

Lemma run_op_represents s a o s' : represents s a -> run_op o s = (Ok tt, s') -> represents s' (spec_op a o).
Proof using Type*.
  intros Hr Hop. destruct o; unfold run_op in Hop.
  4: { by eapply upsert_channel_represents. }
  all: destruct a as [cs hs ss m ev].
  - unfold create_contract in Hop. apply M_bind_ok in Hop as (b & ? & [Hb ->]%lift_ok & Hop). by eapply write_contract_entry.
  - unfold update_contract in Hop. apply M_bind_ok in Hop as (b & ? & [Hb ->]%lift_ok & Hop). by eapply put_contract_entry.
  - by eapply delete_contract_entry.
  - unfold delete_channel in Hop. apply M_bind_ok in Hop as (ch & s1 & Hget & Hop).
    assert (Hrd : readable_at s CHANNEL (Some id)) by (by eapply read_of_get).
    rewrite (get_stored_channel_spec _ _ _ Hr Hrd) in Hget. injection Hget as <- <-.
    apply M_bind_ok in Hop as ([] & s2 & Hdel & Hop). eapply event_sent; [|exact Hop]. by eapply delete_channel_entry.
  - unfold persist_chain_monitor in Hop. apply M_bind_ok in Hop as (b & ? & [Hb ->]%lift_ok & Hop).
    by eapply write_monitor_entry.
  - unfold upsert_sub_channel in Hop. apply M_bind_ok in Hop as (b & ? & [Hb ->]%lift_ok & Hop).
    by eapply write_sub_channel_entry.
Qed.

(** The query answers with [l], in some order, and changes nothing. *)
Definition answers {A} (s : DlcStorage.t S) (q : StorageM (S := S) (list A)) (l : list A) : Prop :=
  exists xs, q s = (Ok xs, s) /\ xs ≡ₚ l.

(** ** The theorems *)

(** C17: whatever sequence of operations [rust-dlc] runs on its storage, once they
    return, the key-value store holds exactly the contracts, channels, sub channels
    and chain monitor of the abstract maps after the same operations (under the id
    each has, and no longer under the temporary id of what was accepted or signed),
    and the events sent are those of the channels written and deleted, in order. *)
Theorem storage_refines_maps ops s a s' :
  represents s a -> for_each run_op ops s = (Ok tt, s') -> represents s' (foldl spec_op a ops).
Proof.
  revert s a. induction ops as [|o ops IH]; intros s a Hr Hops; cbn in *; [by injection Hops as <-|].
  apply M_bind_ok in Hops as ([] & s1 & H1 & H2). eapply IH; [|exact H2]. by eapply run_op_represents.
Qed.

(** C18: where the store can be read, everything read of a storage that stands for
    the maps is what the maps hold: one contract, channel or sub channel by its id,
    the chain monitor, and, in some order, all contracts and channels and those in
    one state - also the signed channels in one state of theirs - and reading
    changes nothing. *)
Theorem queries_answer_from_maps s a :
  represents s a ->
  (forall kind key, In kind [CONTRACT; CHANNEL; SUB_CHANNEL; CHAIN_MONITOR] -> readable_at s kind key) ->
  (forall k, get_contract k s = (Ok (StoreSpec.contracts a !! k), s)) /\
  (forall k, get_stored_channel k s = (Ok (StoreSpec.channels a !! k), s)) /\
  (forall k, get_sub_channel k s = (Ok (StoreSpec.sub_channels a !! k), s)) /\
  get_chain_monitor s = (Ok (StoreSpec.chain_monitor a), s) /\
  let contracts := (map_to_list (StoreSpec.contracts a)).*2 in
  let channels := (map_to_list (StoreSpec.channels a)).*2 in
  let sub_channels := (map_to_list (StoreSpec.sub_channels a)).*2 in
  answers s get_contracts contracts /\ answers s get_channels channels /\ answers s get_sub_channels sub_channels /\
  answers s get_contract_offers (omap offered_contract contracts) /\
  answers s get_signed_contracts (omap signed_contract contracts) /\
  answers s get_confirmed_contracts (omap confirmed_contract contracts) /\
  answers s get_preclosed_contracts (omap preclosed_contract contracts) /\
  answers s get_offered_channels (omap offered_channel channels) /\
  answers s get_settled_closing_channels (omap settled_closing_channel channels) /\
  (forall state, answers s (get_signed_channels state) (omap (signed_channel state) channels)) /\
  answers s get_offered_sub_channels (omap offered_sub_channel sub_channels).
Proof.
  intros (Hc & Hh & Hs & Hm & He) Hr. cbv zeta.
  assert (HC : forall key, readable_at s CONTRACT key) by (intros; apply Hr; cbn; tauto).
  assert (HH : forall key, readable_at s CHANNEL key) by (intros; apply Hr; cbn; tauto).
  assert (HS : forall key, readable_at s SUB_CHANNEL key) by (intros; apply Hr; cbn; tauto).
  assert (HM : forall key, readable_at s CHAIN_MONITOR key) by (intros; apply Hr; cbn; tauto).
  split_and!.
  - intros k. exact (find_stored _ _ _ _ k _ contract_roundtrip Hc (HC _)).
  - intros k. exact (find_stored _ _ _ _ k _ channel_roundtrip Hh (HH _)).
  - intros k. exact (find_stored _ _ _ _ k _ sub_channel_roundtrip Hs (HS _)).
  - pose proof (find_stored _ _ _ _ CHAIN_MONITOR_KEY _ deserialize_serialize Hm (HM _)) as Hfind.
    unfold get_chain_monitor. rewrite Hfind. unfold monitor_entries.
    by destruct (StoreSpec.chain_monitor a); rewrite ?lookup_singleton_eq, ?lookup_empty.
  - exact (find_readable _ _ _ _ _ contract_roundtrip Hc (HC _)).
  - exact (find_readable _ _ _ _ _ channel_roundtrip Hh (HH _)).
  - exact (find_readable _ _ _ _ _ sub_channel_roundtrip Hs (HS _)).
  - exact (find_selected _ _ _ _ _ _ _ selects_contracts_offered Hc (HC _)).
  - exact (find_selected _ _ _ _ _ _ _ selects_contracts_signed Hc (HC _)).
  - exact (find_selected _ _ _ _ _ _ _ selects_contracts_confirmed Hc (HC _)).
  - exact (find_selected _ _ _ _ _ _ _ selects_contracts_preclosed Hc (HC _)).
  - exact (find_selected _ _ _ _ _ _ _ selects_channels_offered Hh (HH _)).
  - exact (find_selected _ _ _ _ _ _ _ selects_channels_settled_closing Hh (HH _)).
  - intros [state|].
    + exact (find_selected _ _ _ _ _ _ _ (selects_channels_signed_in state) Hh (HH _)).
    + exact (find_selected _ _ _ _ _ _ _ selects_channels_signed Hh (HH _)).
  - exact (find_selected _ _ _ _ _ _ _ selects_sub_channels_offered Hs (HS _)).
Qed.

(** *** What fails *)

Definition keeps_events (s s' : DlcStorage.t S) : Prop := DlcStorage.sent s' = DlcStorage.sent s.
#[local] Instance keeps_events_preorder : PreOrder keeps_events.
Proof using Type. split; [done|]. intros ? ? ? H1 H2. unfold keeps_events in *. by rewrite H2, H1. Qed.

(** Only a computation that returns sends an event. *)
Definition quiet {A} (m : StorageM (S := S) A) : Prop :=
  forall s, is_ok (m s).1 = false -> keeps_events s (m s).2.

Lemma on_store_keeps {A} (m : M S string A) : steps keeps_events (on_store m).
Proof using Type. intros s. unfold on_store. by destruct (m _) as [r st]. Qed.
#[local] Hint Resolve on_store_keeps : sql.

Lemma keeps_quiet {A} (m : StorageM (S := S) A) : steps keeps_events m -> quiet m.
Proof using Type. intros Hm s _. apply Hm. Qed.
Lemma quiet_bind {A B} (m : StorageM (S := S) A) (f : A -> StorageM (S := S) B) :
  steps keeps_events m -> (forall a, quiet (f a)) -> quiet (m ≫= f).
Proof using Type.
  intros Hm Hf s Hr. specialize (Hm s). unfold mbind, M_bind in *. destruct (m s) as [[a| |] s1]; [|done..].
  etrans; [exact Hm|]. by apply Hf.
Qed.
Lemma send_event_quiet event : quiet (send_event event).
Proof using Type. by intros s [=]. Qed.

Lemma get_stored_channel_keeps k : steps keeps_events (get_stored_channel k).
Proof using Type. unfold get_stored_channel. solve_steps. Qed.

Lemma run_op_quiet o : quiet (run_op o).
Proof using Type.
  destruct o; unfold run_op.
  4: { unfold upsert_channel. repeat (apply quiet_bind; [|intros ?]); [..|apply send_event_quiet];
       unfold forget_temporary_channel, insert_contract, forget_temporary_contract; solve_steps. }
  4: { unfold delete_channel. repeat (apply quiet_bind; [|intros ?]); [apply get_stored_channel_keeps| |apply send_event_quiet].
       apply on_store_keeps. }
  all: apply keeps_quiet; unfold create_contract, update_contract, delete_contract, forget_temporary_contract,
    persist_chain_monitor, upsert_sub_channel; solve_steps.
Qed.

(** A change of the storage that does not return - because a value cannot be
    serialised, or the store fails at any point - has reported no channel event;
    and a channel that cannot be serialised, or whose contract cannot, has changed
    nothing at all. *)
Theorem failed_change_is_not_reported o s :
  is_ok (run_op o s).1 = false ->
  DlcStorage.sent (run_op o s).2 = DlcStorage.sent s /\
  match o with
  | StorageOp.UpsertChannel channel contract =>
    is_ok (serialize_channel channel) = false \/ is_ok (from_option serialize_contract (Ok []) contract) = false ->
    (run_op o s).2 = s
  | _ => True
  end.
Proof.
  intros Hr. split; [by apply run_op_quiet|]. destruct o; try done. cbn [run_op]. unfold upsert_channel, mbind, M_bind, lift.
  destruct (serialize_channel channel) as [b| |]; cbn; [|done..]. intros [[=]|Hc].
  destruct contract as [c|]; [|done]. cbn in Hc |- *. by destruct (serialize_contract c) as [cb| |].
Qed.
End Spec.

(** ** Actions *)

Section ActionLaws.
Context `{AW : ActionLaws} {S : Type} `{KL : StoreProviderLaws S}.

Lemma read_written_actions actions : forall bs rest fuel, traverse action_write actions = Ok bs ->
  (length rest <= 1)%nat -> (length (concat bs ++ rest) <= fuel)%nat ->
  read_actions fuel (concat bs ++ rest) = Ok actions.
Proof using AW.
  induction actions as [|a actions IH]; intros bs rest fuel Hbs Hrest Hfuel.
  - injection Hbs as <-. cbn [concat app]. destruct fuel; [done|].
    cbn [read_actions]. by rewrite (proj2 (Nat.ltb_ge _ _) Hrest).
  - cbn in Hbs. apply outcome_bind_ok in Hbs as (b & Hb & (bs' & Hbs & [= <-])%outcome_bind_ok).
    pose proof (action_size _ _ Hb) as Hsize. cbn [concat] in *. rewrite <-(assoc_L (++)) in *.
    rewrite length_app in Hfuel. destruct fuel as [|fuel]; [lia|]. cbn [read_actions].
    rewrite (proj2 (Nat.ltb_lt _ _)) by (rewrite length_app; lia).
    rewrite (action_roundtrip _ _ _ Hb). cbn. rewrite (IH _ _ _ Hbs Hrest) by lia. done.
Qed.

(** The actions saved are the actions read back, whatever was saved before: the
    loop that reads them, as long as more than one byte is left, ends after the last
    one with all of them. *)
Theorem sub_channel_actions_roundtrip actions s s' :
  dom (view (DlcStorage.store s) ACTION) ⊆ {[ String.list_byte_of_string "action" ]} ->
  save_sub_channel_actions actions s = (Ok tt, s') -> readable_at s' ACTION None ->
  get_sub_channel_actions s' = (Ok actions, s').
Proof.
  intros Hdom (bs & ? & [Hbs ->]%lift_ok & [Hop _]%on_store_ok)%M_bind_ok (l & st & Hl).
  pose proof (store_write_ok _ _ _ _ _ _ Hop ACTION) as Hv. rewrite decide_True in Hv by done.
  pose proof Hl as Hl'. apply store_read_all in Hl' as [_ Hl'].
  assert (Hone : view (DlcStorage.store s') ACTION = {[ String.list_byte_of_string "action" := concat bs ]}).
  { rewrite Hv. apply map_eq. intros k. rewrite lookup_insert, lookup_singleton. case_decide as Hk; [done|].
    apply not_elem_of_dom. set_solver. }
  rewrite Hone, map_to_list_singleton in Hl'. cbn [map] in Hl'. apply Permutation_singleton_r in Hl' as ->.
  unfold get_sub_channel_actions, mbind, M_bind. rewrite (on_store_read _ _ _ _ _ Hl). cbn [KeyValue.value entry fst snd].
  pose proof (read_written_actions actions bs [] (length (concat bs)) Hbs) as Hread. rewrite app_nil_r in Hread.
  specialize (Hread ltac:(cbn; lia) ltac:(done)). destruct (concat bs) as [|b l] eqn:Hc; [|unfold lift; by rewrite Hread].
  by injection Hread as <-.
Qed.
End ActionLaws.

(** ** Witnesses *)

(** Data that are bytes: an id, a temporary id, and whether a signed channel is
    settled; what is written starts with a byte of its own. *)
#[local] Instance demo_bytes : Serializable Bytes := {|
  serialize x := Ok (Byte.x00 :: x);
  deserialize b := Ok (drop 1 b);
|}.
#[local] Instance demo_bytes_laws : SerializableLaws Bytes.
Proof. split; [by intros x b [= <-]|done]. Qed.
#[local] Instance demo_store_data : StoreData := {|
  contract_data _ := Bytes;
  channel_data _ := Bytes;
  SubChannel := Bytes;
  ChainMonitor := Bytes;
  contract_data_serializable _ := demo_bytes;
  channel_data_serializable _ := demo_bytes;
  sub_channel_serializable := demo_bytes;
  chain_monitor_serializable := demo_bytes;
  data_reference_id _ _ := None;
  get_type c := if bool_decide (c !! 2%nat = Some Byte.x01) then SignedChannelStateType.Settled
                else SignedChannelStateType.Established;
  sub_channel_state _ := SubChannelState.Offered;
|}.
#[local] Instance demo_store_laws : StoreDataLaws demo_store_data.
Proof. split; intros; exact demo_bytes_laws. Qed.

Definition demo_contract_bytes (c : StoredContract.t) : Bytes :=
  match c with
  | StoredContract.Offered c | StoredContract.Accepted c | StoredContract.Signed c | StoredContract.Confirmed c
  | StoredContract.PreClosed c | StoredContract.Closed c | StoredContract.FailedAccept c
  | StoredContract.FailedSign c | StoredContract.Refunded c | StoredContract.Rejected c => c
  end.
Definition demo_channel_bytes (c : StoredChannel.t) : Bytes :=
  match c with
  | StoredChannel.Offered c | StoredChannel.Accepted c | StoredChannel.Signed c | StoredChannel.Closing c
  | StoredChannel.Closed c | StoredChannel.CounterClosed c | StoredChannel.ClosedPunished c
  | StoredChannel.CollaborativelyClosed c | StoredChannel.FailedAccept c | StoredChannel.FailedSign c
  | StoredChannel.Cancelled c | StoredChannel.SettledClosing c => c
  end.
#[local] Instance demo_store_ids : StoreIds := {|
  offered_contract_id c := take 1 c;
  contract_id_of c := take 1 (demo_contract_bytes c);
  contract_temporary_id c := take 1 (drop 1 (demo_contract_bytes c));
  channel_id_of c := take 1 (demo_channel_bytes c);
  channel_temporary_id_of c := take 1 (drop 1 (demo_channel_bytes c));
  channel_reference_id _ := None;
  sub_channel_id_of c := take 1 c;
|}.

(** A channel offered under a temporary id, then signed with its accepted contract;
    another one signed and deleted. *)
Definition demo_ops : list StorageOp.t :=
  [StorageOp.CreateContract [Byte.x01; Byte.x01];
   StorageOp.UpsertChannel (StoredChannel.Offered [Byte.x11; Byte.x11]) None;
   StorageOp.UpsertChannel (StoredChannel.Signed [Byte.x12; Byte.x11; Byte.x01])
     (Some (StoredContract.Accepted [Byte.x02; Byte.x01]));
   StorageOp.UpsertChannel (StoredChannel.Signed [Byte.x13; Byte.x14]) None;
   StorageOp.DeleteChannel [Byte.x13];
   StorageOp.UpsertSubChannel [Byte.x21];
   StorageOp.PersistChainMonitor [Byte.x31]].
Definition demo_empty : DlcStorage.t InMemoryStore := DlcStorage.mk ∅ [].
Definition demo_stored : DlcStorage.t InMemoryStore := (for_each run_op demo_ops demo_empty).2.

Lemma demo_empty_represents : represents demo_empty (StoreSpec.mk ∅ ∅ ∅ None []).
Proof. split_and!; [apply stored_empty..|done]. Qed.
Lemma demo_readable s kind key : readable_at (S := InMemoryStore) s kind key.
Proof. eexists _, _. reflexivity. Qed.
Lemma demo_stored_represents : represents demo_stored (foldl spec_op (StoreSpec.mk ∅ ∅ ∅ None []) demo_ops).
Proof.
  assert (Hgen : forall ops s a, represents s a -> is_ok (for_each (run_op (S := InMemoryStore)) ops s).1 = true ->
    represents (for_each run_op ops s).2 (foldl spec_op a ops)); [|apply Hgen; [apply demo_empty_represents|by vm_compute]].
  induction ops as [|o ops IH]; intros s a Hr Hok; [done|]. cbn [for_each foldl] in *. unfold mbind, M_bind in *.
  destruct (run_op o s) as [[[]| |] s1] eqn:Ho; [|done..]. apply IH; [|done]. by eapply run_op_represents.
Qed.

Lemma storage_refines_maps_witness : exists s', represents (S := InMemoryStore) s'
  (foldl spec_op (StoreSpec.mk ∅ ∅ ∅ None []) demo_ops).
Proof.
  destruct (succeeds (for_each (run_op (S := InMemoryStore)) demo_ops) demo_empty) as ([] & s' & Hs');
    [by vm_compute|].
  exists s'. apply (storage_refines_maps demo_ops demo_empty); [apply demo_empty_represents|exact Hs'].
Defined.

Lemma queries_answer_from_maps_witness :
  get_stored_channel [Byte.x12] demo_stored =
    (Ok (Some (StoredChannel.Signed [Byte.x12; Byte.x11; Byte.x01])), demo_stored) /\
  answers demo_stored (get_signed_channels (Some SignedChannelStateType.Settled)) [[Byte.x12; Byte.x11; Byte.x01]].
Proof.
  destruct (queries_answer_from_maps _ _ demo_stored_represents (fun _ _ _ => demo_readable _ _ _))
    as (_ & Hone & _ & _ & _ & _ & _ & _ & _ & _ & _ & _ & _ & Hin & _).
  split; [exact (Hone _)|exact (Hin (Some SignedChannelStateType.Settled))].
Defined.

Lemma failed_change_is_not_reported_witness :
  DlcStorage.sent (run_op (StorageOp.UpsertChannel (StoredChannel.Accepted [Byte.x01; Byte.x02]) None) demo_empty).2 = [].
Proof. apply (failed_change_is_not_reported (S := InMemoryStore)). by vm_compute. Defined.

#[local] Instance demo_actions : ActionLib := {|
  Action := Byte.byte;
  action_write a := Ok [Byte.x00; a];
  action_read b := match b with _ :: a :: rest => Ok (a, rest) | _ => Err "short"%string end;
|}.
#[local] Instance demo_actions_laws : ActionLaws demo_actions.
Proof. by split; intros ? ? * [= <-]. Qed.
Lemma sub_channel_actions_roundtrip_witness :
  exists s', get_sub_channel_actions (AL := demo_actions) (S := InMemoryStore) s' = (Ok [Byte.x05; Byte.x06], s').
Proof.
  destruct (succeeds (save_sub_channel_actions (AL := demo_actions) [Byte.x05; Byte.x06]) demo_empty) as ([] & s' & Hs'); [by vm_compute|].
  exists s'. apply (sub_channel_actions_roundtrip (H := demo_actions) [Byte.x05; Byte.x06] demo_empty); [|exact Hs'|apply demo_readable].
  cbn. set_solver.
Defined.
