(* ===== verification/CoordinatorNode.v ===== *)
(** * [coordinator/src/node.rs], [dlc_handler.rs]: the coordinator's side of the protocols

    The coordinator processes the messages of the traders' apps: it hands them to
    [rust-dlc], finishes the DLC protocol that a message completes, takes back what a
    trader rejects, and checks what a trader offers for closing a channel.
    [DlcHandler] stores and sends the answers. *)

From stdpp Require Import base list option strings.
From Stdlib Require Import ZArith QArith Lia.
From S2P Require Import Prelude Machine External Demo Commons PayoutCurve SqlTypes Schema Db MatchesDb.
From S2P Require Import Trading PositionsDb FundingDb Funding Messages ProtocolDb ChannelsDb DlcExecutor.
From S2P Require Import Node DemoDlc DlcPeer.

#[local] Open Scope Z_scope.

(** The fields of the payloads the coordinator reads. *)
Class CoordinatorDlcLib `{ML : DlcMessagesLib} := {
  accept_temporary_channel_id : payload PAccept -> DlcChannelId;
  renew_finalize_channel_id : payload PRenewFinalize -> DlcChannelId;
  settle_finalize_channel_id : payload PSettleFinalize -> DlcChannelId;
  reject_channel_id : payload PReject -> DlcChannelId;
  close_offer_counter_payout : payload PCollaborativeCloseOffer -> Z;
}.

(** [commons::Message], what a trader is told when processing fails. *)
Module TraderError.
Inductive t :=
  | TradeError (order_id : Uuid) (error : Anyhow)
  | RolloverError (error : Anyhow).
End TraderError.

(** The node library's state with the database, the node events not handled yet, the
    messages given to the message handler, the position feed, and the errors sent. *)
Module Coordinator.
Record t `{DecimalLib} `{DLC : DlcLib} `{DlcMessagesLib} := mk {
  node : NodeState.t;
  events : list PeerEvent.t;
  outbox : list (PublicKey * TenTenOneMessage.t);
  position_feed : list PositionUpdate.t;
  trader_errors : list (PublicKey * TraderError.t);
}.
#[global] Arguments mk {_ _ _ _}.
End Coordinator.

Section State.
Context `{DL : DecimalLib} `{IL : IdLib} `{DLC : !DlcLib} `{ML : !DlcMessagesLib}.

Definition CoordinatorM (A : Type) : Type := M Coordinator.t Anyhow A.

Definition c_node {A} (m : NodeM A) : CoordinatorM A := fun s =>
  let '(r, n) := m (Coordinator.node s) in
  (r, Coordinator.mk n (Coordinator.events s) (Coordinator.outbox s) (Coordinator.position_feed s)
        (Coordinator.trader_errors s)).
Definition c_db {A} (m : M Db.t Anyhow A) : CoordinatorM A := c_node (on_db m).
Definition c_query {A} (m : Sql A) : CoordinatorM A := c_db (with_err FromSql m).
Definition c_dlc {A} (m : M DlcState string A) : CoordinatorM A := c_node (on_dlc m).
Definition c_try {A} (m : outcome string A) : CoordinatorM A := lift (map_err Msg m).
Definition c_publish (e : PeerEvent.t) : CoordinatorM unit := fun s =>
  (Ok tt, Coordinator.mk (Coordinator.node s) (Coordinator.events s ++ [e]) (Coordinator.outbox s)
            (Coordinator.position_feed s) (Coordinator.trader_errors s)).
(** [send_dlc_message] of the node library. *)
Definition c_enqueue (peer : PublicKey) (msg : TenTenOneMessage.t) : CoordinatorM unit := fun s =>
  (Ok tt, Coordinator.mk (Coordinator.node s) (Coordinator.events s) (Coordinator.outbox s ++ [(peer, msg)])
            (Coordinator.position_feed s) (Coordinator.trader_errors s)).
Definition c_feed (update : option PositionUpdate.t) : CoordinatorM unit := fun s =>
  (Ok tt, Coordinator.mk (Coordinator.node s) (Coordinator.events s) (Coordinator.outbox s)
            (Coordinator.position_feed s ++ option_list update) (Coordinator.trader_errors s)).
Definition c_tell (trader_id : PublicKey) (error : TraderError.t) : CoordinatorM unit := fun s =>
  (Ok tt, Coordinator.mk (Coordinator.node s) (Coordinator.events s) (Coordinator.outbox s)
            (Coordinator.position_feed s) (Coordinator.trader_errors s ++ [(trader_id, error)])).

Definition db_of (s : Coordinator.t) : Db.t := NodeState.db (Coordinator.node s).
End State.

(** ** [dlc_handler.rs] *)

Section Handler.
Context `{DL : DecimalLib} `{IL : IdLib} `{DLC : !DlcLib} `{ML : !DlcMessagesLib}.
Context `{JL : !MessagesJson} `{HL : HashLib} `{PL : !PeerDlcLib}.
Context (now : OffsetDateTime).

Definition c_store_dlc_message (peer : PublicKey) (msg : TenTenOneMessage.t) : CoordinatorM unit :=
  serialized_outbound_message ← c_try (serialize_message msg);
  outbound_msg ← c_try (DlcMessage.new now peer serialized_outbound_message false);
  c_db (insert_message outbound_msg);;
  c_db (upsert_last_outbound now peer serialized_outbound_message).

(** [DlcHandler::send_dlc_message]. *)
Definition c_send_dlc_message (peer : PublicKey) (msg : TenTenOneMessage.t) : CoordinatorM unit :=
  c_store_dlc_message peer msg;;
  c_enqueue peer msg.

Definition c_send_last_dlc_message (peer : PublicKey) : CoordinatorM unit :=
  last_serialized_message ← c_query (get_last_outbound peer);
  match last_serialized_message with
  | Some last_serialized_message =>
    message ← c_try (deserialize_message last_serialized_message);
    c_enqueue peer message
  | None => mret tt
  end.

Definition c_on_connect (peer : PublicKey) : CoordinatorM unit :=
  signed_dlc_channels ← c_node list_signed_dlc_channels;
  match List.find (is_counter_party peer) signed_dlc_channels with
  | Some channel =>
    match SignedChannel.state channel with
    | CollaborativeCloseOffered _ =>
      if negb (is_close_offer channel) then
        c_dlc (accept_collaborative_close (SignedChannel.channel_id channel))
      else c_send_last_dlc_message peer
    | _ => c_send_last_dlc_message peer
    end
  | None => c_send_last_dlc_message peer
  end.

(** One turn of [spawn_handling_outbound_dlc_messages]; errors are logged. *)
Definition c_handle_node_event (event : PeerEvent.t) : CoordinatorM unit :=
  match event with
  | PeerEvent.Connected peer => c_on_connect peer
  | PeerEvent.SendDlcMessage peer msg => c_send_dlc_message peer msg
  | PeerEvent.StoreDlcMessage peer msg => c_store_dlc_message peer msg
  | PeerEvent.SendLastDlcMessage peer => c_send_last_dlc_message peer
  end.
End Handler.

(** ** [node.rs] *)

Section Process.
Context `{DL : DecimalLib} `{BL : BitcoinLib} `{IL : IdLib} `{DLC : !DlcLib} `{ML : !DlcMessagesLib}.
Context `{JL : !MessagesJson} `{HL : HashLib} `{PL : !PeerDlcLib} `{CL : !CoordinatorDlcLib}.
Context (debug_assertions : bool) (now : OffsetDateTime).

(** [match reference_id { Some(id) => id, None => the channel's }] as a protocol id. *)
Definition protocol_of (reference_id : option ReferenceId) (channel_id : DlcChannelId)
    : CoordinatorM ProtocolId :=
  reference_id ←
    match reference_id with
    | Some reference_id => mret reference_id
    | None =>
      channel ← c_node (get_dlc_channel_by_id channel_id);
      c_try (ok_or "missing reference id"%string (Channel.get_reference_id channel))
    end;
  c_try (protocol_id_try_from reference_id).

(** [finish_dlc_protocol] with the feed it is given. *)
Definition finish_protocol (protocol_id : ProtocolId) (node_id : PublicKey)
    (contract_id : option ContractId) (channel_id : DlcChannelId) : CoordinatorM unit :=
  update ← c_db (finish_dlc_protocol debug_assertions now protocol_id node_id contract_id channel_id);
  c_feed update.

(** The arm of [RenewFinalize] and [RolloverFinalize]. *)
Definition process_renew_finalize (node_id : PublicKey) (renew_finalize : payload PRenewFinalize)
    : CoordinatorM unit :=
  let channel_id := renew_finalize_channel_id renew_finalize in
  protocol_id ← protocol_of (reference_id PRenewFinalize renew_finalize) channel_id;
  channel ← c_node (get_dlc_channel_by_id channel_id);
  finish_protocol protocol_id node_id (Channel.get_contract_id channel) channel_id.

(** The arm of [SettleFinalize]: "the settled signed channel does not have a
    contract". *)
Definition process_settle_finalize (node_id : PublicKey) (settle_finalize : payload PSettleFinalize)
    : CoordinatorM unit :=
  let channel_id := settle_finalize_channel_id settle_finalize in
  protocol_id ← protocol_of (reference_id PSettleFinalize settle_finalize) channel_id;
  finish_protocol protocol_id node_id None channel_id.

(** The arm of [Accept]; the channel has the id of the [Sign] message, if that is
    the answer. *)
Definition process_accept (node_id : PublicKey) (accept_channel : payload PAccept)
    (resp : option TenTenOneMessage.t) : CoordinatorM unit :=
  let channel_id := match resp with
    | Some (TenTenOneMessage.Sign m) => sign_channel_id (TenTenOneSignChannel.sign_channel m)
    | _ => accept_temporary_channel_id accept_channel
    end in
  protocol_id ← protocol_of (reference_id PAccept accept_channel) channel_id;
  channel ← c_node (get_dlc_channel_by_id channel_id);
  finish_protocol protocol_id node_id (Channel.get_contract_id channel) channel_id.

(** The arm of [Reject]. *)
Definition process_reject (node_id : PublicKey) (reject : payload PReject) : CoordinatorM unit :=
  let channel_id := reject_channel_id reject in
  protocol_id ← protocol_of (reference_id PReject reject) channel_id;
  c_db (fail_dlc_protocol protocol_id);;
  channel ← c_node (get_dlc_channel_by_id channel_id);
  let set original updated :=
    _ ← c_query (update_position_state now (pk_to_string node_id) original updated); mret tt in
  match Channel.kind channel with
  | Cancelled => set [PositionState.Proposed] PositionState.Failed
  | Signed signed_channel =>
    match SignedChannel.state signed_channel with
    | Established _ => set [PositionState.Closing f32_zero; PositionState.Rollover] PositionState.Open
    | Settled _ _ => set [PositionState.Proposed] PositionState.Failed
    | _ => mret tt
    end
  | _ => mret tt
  end.

(** The [match] on the message in [process_dlc_message]. *)
Definition c_process_by_kind (node_id : PublicKey) (msg : TenTenOneMessage.t)
    (resp : option TenTenOneMessage.t) : CoordinatorM unit :=
  match msg with
  | TenTenOneMessage.RenewFinalize m =>
    process_renew_finalize node_id (TenTenOneRenewFinalize.renew_finalize m)
  | TenTenOneMessage.RolloverFinalize m =>
    process_renew_finalize node_id (TenTenOneRolloverFinalize.renew_finalize m)
  | TenTenOneMessage.SettleFinalize m =>
    process_settle_finalize node_id (TenTenOneSettleFinalize.settle_finalize m)
  | TenTenOneMessage.CollaborativeCloseOffer m =>
    c_dlc (accept_collaborative_close
      (close_offer_channel_id (TenTenOneCollaborativeCloseOffer.collaborative_close_offer m)))
  | TenTenOneMessage.Accept m => process_accept node_id (TenTenOneAcceptChannel.accept_channel m) resp
  | TenTenOneMessage.Reject m => process_reject node_id (TenTenOneReject.reject m)
  | _ => mret tt
  end.

(** Whether the coordinator accepts what an offer to close a channel would pay it:
    not while a position is open, and not if it differs from what it settled for. *)
Definition close_offer_acceptable (channel : Channel.t) (offered_own_payout : Z) : bool :=
  match Channel.kind channel with
  | Signed signed_channel =>
    match SignedChannel.state signed_channel with
    | Established _ => false
    | Settled expected_own_payout _ => expected_own_payout =? offered_own_payout
    | _ => true
    end
  | _ => true
  end.

(** [verify_collab_close_offer]: what it rejects it reports as an error. *)
Definition verify_collab_close_offer (node_id : PublicKey) (msg : TenTenOneMessage.t)
    : CoordinatorM unit :=
  match msg with
  | TenTenOneMessage.CollaborativeCloseOffer m =>
    let close_offer := TenTenOneCollaborativeCloseOffer.collaborative_close_offer m in
    channel ← c_node (get_dlc_channel_by_id (close_offer_channel_id close_offer));
    c_try (ensure (close_offer_acceptable channel (close_offer_counter_payout close_offer))
      "Received an unacceptable DLC channel collaborative close offer"%string);;
    protocol_id ← c_try (ok_or "Missing reference id"%string
      (reference_id PCollaborativeCloseOffer close_offer));
    protocol_id ← c_try (protocol_id_try_from protocol_id);
    previous_id ← c_try (previous_protocol_id channel);
    c_db (start_close_channel_protocol now protocol_id previous_id (Channel.get_id channel) node_id)
  | _ => mret tt
  end.

Definition c_process_dlc_message (node_id : PublicKey) (msg : TenTenOneMessage.t) : CoordinatorM unit :=
  _ ← c_try (match get_reference_id msg with
             | Some reference_id => Some <$> protocol_id_try_from reference_id
             | None => Ok None
             end);
  serialized_inbound_message ← c_try (serialize_message msg);
  inbound_msg ← c_try (DlcMessage.new now node_id serialized_inbound_message true);
  processed ← c_query (get_message (DlcMessage.message_hash inbound_msg));
  match processed with
  | Some _ => mret tt
  | None =>
    verify_collab_close_offer node_id msg;;
    resp ← c_dlc (process_tentenone_message msg node_id);
    (match resp with
     | Some resp => c_publish (PeerEvent.StoreDlcMessage node_id resp)
     | None => mret tt
     end);;
    c_db (insert_message inbound_msg);;
    c_process_by_kind node_id msg resp;;
    match resp with
    | Some _ => c_publish (PeerEvent.SendLastDlcMessage node_id)
    | None => mret tt
    end
  end.

Definition set_dlc_protocol_to_failed (msg : TenTenOneMessage.t) : CoordinatorM unit :=
  match get_reference_id msg with
  | Some protocol_id =>
    protocol_id ← c_try (protocol_id_try_from protocol_id);
    c_db (fail_dlc_protocol protocol_id)
  | None => mret tt
  end.

(** What the trader is told when a message of theirs cannot be processed. *)
Definition error_for_trader (msg : TenTenOneMessage.t) (error : Anyhow) : option TraderError.t :=
  match get_tentenone_message_type msg with
  | TenTenOneMessageType.Trade | TenTenOneMessageType.Expire | TenTenOneMessageType.Liquidate =>
    (fun order_id => TraderError.TradeError order_id error) <$> get_order_id msg
  | TenTenOneMessageType.Rollover => Some (TraderError.RolloverError error)
  | TenTenOneMessageType.Other => None
  end.

(** The body of the loop of [process_incoming_dlc_messages]. *)
Definition process_incoming_message (node_id : PublicKey) (msg : TenTenOneMessage.t)
    : CoordinatorM unit := fun s =>
  match c_process_dlc_message node_id msg s with
  | (Err e, s) =>
    match set_dlc_protocol_to_failed msg s with
    | (Panic, s) => (Panic, s)
    | (_, s) =>
      match error_for_trader msg e with
      | Some error => c_tell node_id error s
      | None => (Ok tt, s)
      end
    end
  | r => r
  end.

Definition c_process_incoming_dlc_messages (messages : list (PublicKey * TenTenOneMessage.t))
    : CoordinatorM unit :=
  for_each (fun '(node_id, msg) => process_incoming_message node_id msg) messages.
End Process.

(** ** What processing keeps *)

Section Frames.
Context `{DL : DecimalLib} `{IL : IdLib} `{DLC : !DlcLib} `{ML : !DlcMessagesLib}.
Context (F : Db.t -> Db.t -> Prop) `{!PreOrder F}.

Definition on_coordinator_db (s s' : Coordinator.t) : Prop := F (db_of s) (db_of s').
#[global] Instance on_coordinator_db_preorder : PreOrder on_coordinator_db.
Proof using PreOrder0. split; unfold on_coordinator_db; [intros s; reflexivity|intros s s' s''; apply transitivity]. Qed.

Lemma c_db_frame {A} (m : M Db.t Anyhow A) : steps F m -> steps on_coordinator_db (c_db m).
Proof using Type.
  intros Hm s. specialize (Hm (db_of s)). unfold c_db, c_node, on_db, on_coordinator_db, db_of in *.
  by destruct (m _).
Qed.
Lemma c_query_frame {A} (m : Sql A) : steps F m -> steps on_coordinator_db (c_query m).
Proof using Type. intros Hm. apply c_db_frame. intros d. specialize (Hm d). unfold with_err. by destruct (m d). Qed.
(** A query that only reads keeps everything. *)
Lemma c_read_frame {A} (m : Sql A) : read_only m -> steps on_coordinator_db (c_query m).
Proof using PreOrder0. intros Hm. apply c_query_frame. intros d. rewrite <-(Hm d). reflexivity. Qed.
Lemma c_dlc_frame {A} (m : M DlcState string A) : steps on_coordinator_db (c_dlc m).
Proof using PreOrder0.
  intros s. unfold c_dlc, c_node, on_dlc, on_coordinator_db, db_of. destruct (m _). cbn. reflexivity.
Qed.
Lemma c_channel_frame id : steps on_coordinator_db (c_node (get_dlc_channel_by_id id)).
Proof using PreOrder0.
  intros s. unfold c_node, get_dlc_channel_by_id, read_dlc, try, lift, mbind, M_bind, on_coordinator_db, db_of.
  destruct (store_channel _ _) as [[c|]|e|]; cbn; reflexivity.
Qed.
Lemma c_publish_frame e : steps on_coordinator_db (c_publish e).
Proof using PreOrder0. intros s. unfold on_coordinator_db. cbn. reflexivity. Qed.
Lemma c_feed_frame u : steps on_coordinator_db (c_feed u).
Proof using PreOrder0. intros s. unfold on_coordinator_db. cbn. reflexivity. Qed.
End Frames.

#[export] Hint Resolve c_db_frame c_query_frame c_dlc_frame c_channel_frame c_publish_frame c_feed_frame : sql.

(** Only the tables of protocols, positions, trades and funding fees change when a
    protocol is finished. *)
Section Kept.
Context `{DL : DecimalLib} `{BL : BitcoinLib} `{IL : IdLib} `{DLC : !DlcLib} `{ML : !DlcMessagesLib}.
Context {R : Type} `{Stored R} `{!Restored R} `{!Independent R DlcProtocolRow.t}.
Context `{!Independent R PositionRow.t} `{!Independent R TradeRow.t} `{!Independent R FundingFeeEventRow.t}.
Context `{!Independent R ProtocolFundingFeeEventRow.t}.

Lemma finish_dlc_protocol_frame debug now pid trader contract channel :
  steps (keeps R) (finish_dlc_protocol debug now pid trader contract channel).
Proof using All.
  unfold finish_dlc_protocol, get_dlc_protocol, get_protocol_type, trade_params_get, rollover_params_get,
    in_transaction, finish_by_type, finish_open_position_dlc_protocol, finish_resize_position_dlc_protocol,
    finish_settle_dlc_protocol, finish_rollover_dlc_protocol, finish_close_channel_dlc_protocol,
    need_contract_id, set_dlc_protocol_state_to_success, update_position_state, trade_insert,
    mark_funding_fee_event_as_paid, finish_rollover_protocol.
  solve_steps.
Qed.
End Kept.

(** ** Messages are processed once *)

Section Once.
Context `{DL : DecimalLib} `{BL : BitcoinLib} `{IL : IdLib} `{DLC : !DlcLib} `{ML : !DlcMessagesLib}.
Context `{JL : !MessagesJson} `{HL : HashLib} `{PL : !PeerDlcLib} `{CL : !CoordinatorDlcLib}.

(** What completes a message leaves the stored messages alone. *)
Lemma c_process_by_kind_frame debug now node_id msg resp :
  steps (on_coordinator_db (keeps DlcMessageRow.t)) (c_process_by_kind debug now node_id msg resp).
Proof using All.
  assert (Hp : forall r c, steps (on_coordinator_db (keeps DlcMessageRow.t)) (protocol_of r c)).
  { intros. unfold protocol_of, c_try. solve_steps. }
  assert (Hf : forall p t c h, steps (on_coordinator_db (keeps DlcMessageRow.t)) (finish_protocol debug now p t c h)).
  { intros. unfold finish_protocol. apply steps_bind; [apply _| |intros; apply c_feed_frame, _].
    apply c_db_frame, finish_dlc_protocol_frame. }
  destruct msg; cbn [c_process_by_kind];
    match goal with |- steps _ (mret _) => (apply steps_ret; apply _) | _ => idtac end;
    unfold process_accept, process_settle_finalize, process_renew_finalize, process_reject;
    revert Hp Hf; generalize protocol_of, (finish_protocol debug now); intros; solve_steps.
  all: first [apply c_db_frame | apply c_query_frame];
    unfold fail_dlc_protocol, set_dlc_protocol_state_to_failed, update_position_state; solve_steps.
Qed.

Lemma verify_collab_close_offer_frame now node_id msg :
  steps (on_coordinator_db (keeps DlcMessageRow.t)) (verify_collab_close_offer now node_id msg).
Proof.
  unfold verify_collab_close_offer, c_try. solve_steps.
  apply c_db_frame. unfold start_close_channel_protocol, dlc_protocol_create. solve_steps.
Qed.

Lemma c_get_message_run hash (s : Coordinator.t) :
  c_query (get_message hash) s = (Ok (head (List.filter (is_message hash) (rows (db_of s)))), s).
Proof.
  unfold c_query, c_db, c_node, on_db, with_err, get_message, db_of.
  destruct s as [[d p] ? ? ? ?]. cbn [Coordinator.node NodeState.db].
  by rewrite optional_first_run.
Qed.

Lemma c_process_known_message debug now node_id msg reference sdm m s :
  match get_reference_id msg with
  | Some reference_id => Some <$> protocol_id_try_from reference_id
  | None => Ok None
  end = Ok reference ->
  serialize_message msg = Ok sdm ->
  head (List.filter (is_message (generate_hash sdm)) (rows (db_of s))) = Some m ->
  c_process_dlc_message debug now node_id msg s = (Ok tt, s).
Proof.
  intros Href Hser Hget. unfold c_process_dlc_message, c_try, lift, mbind, M_bind, DlcMessage.new.
  rewrite Href, Hser. cbn [map_err DlcMessage.message_hash]. by rewrite c_get_message_run, Hget.
Qed.

Lemma c_dlc_db {A} (m : M DlcState string A) s : db_of (c_dlc m s).2 = db_of s.
Proof. unfold c_dlc, c_node, on_dlc, db_of. by destruct (m _). Qed.

(** A trader's app may send a message again: a message the coordinator has
    processed is not processed a second time.  No position, protocol or channel
    changes, and nothing is published. *)
Theorem coordinator_message_is_processed_once (debug debug' : bool) (now later : OffsetDateTime)
    (node_id : PublicKey) (msg : TenTenOneMessage.t) (s s' : Coordinator.t) (u : unit)
    (Hrun : c_process_dlc_message debug now node_id msg s = (Ok u, s')) :
  c_process_dlc_message debug' later node_id msg s' = (Ok tt, s').
Proof using All.
  unfold c_process_dlc_message, DlcMessage.new in Hrun.
  apply M_bind_ok in Hrun as (reference & ? & [Href%map_err_ok ->]%lift_ok & Hrun).
  apply M_bind_ok in Hrun as (sdm & ? & [Hser%map_err_ok ->]%lift_ok & Hrun).
  apply M_bind_ok in Hrun as (m & ? & [Hm ->]%lift_ok & Hrun). injection Hm as <-.
  apply M_bind_ok in Hrun as (processed & s1 & Hget & Hrun). cbn [DlcMessage.message_hash] in Hget.
  rewrite c_get_message_run in Hget. injection Hget as Hget <-.
  destruct processed as [m|].
  { injection Hrun as _ <-. by eapply c_process_known_message. }
  apply M_bind_ok in Hrun as ([] & s1 & Hoffer & Hrun).
  apply M_bind_ok in Hrun as (resp & s2 & Hproc & Hrun).
  apply M_bind_ok in Hrun as ([] & s3 & Hstore & Hrun).
  apply M_bind_ok in Hrun as ([] & s4 & Hins & Hrun).
  apply M_bind_ok in Hrun as ([] & s5 & Hkind & Hlast).
  assert (H01 : keeps DlcMessageRow.t (db_of s) (db_of s1)).
  { pose proof (verify_collab_close_offer_frame now node_id msg s) as H. by rewrite Hoffer in H. }
  assert (H12 : db_of s2 = db_of s1).
  { pose proof (c_dlc_db (process_tentenone_message msg node_id) s1) as H. by rewrite Hproc in H. }
  assert (H23 : db_of s3 = db_of s2) by (destruct resp; by injection Hstore as <-).
  assert (H45 : keeps DlcMessageRow.t (db_of s4) (db_of s')).
  { pose proof (c_process_by_kind_frame debug now node_id msg resp s4) as H. rewrite Hkind in H.
    destruct resp; by injection Hlast as _ <-. }
  assert (H34 : exists r, is_message (generate_hash sdm) r = true /\
    rows (R := DlcMessageRow.t) (db_of s4) = rows (db_of s3) ++ [r]).
  { clear -Hins. unfold c_db, c_node, on_db, insert_message, db_of in *.
    destruct (with_err _ _ _) as [[[]|e|] d'] eqn:Hd; try discriminate Hins. injection Hins as <-.
    apply with_err_ok, M_bind_ok in Hd as (r & d1 & [-> [_ ->]]%insert_ok & [=]). subst d'.
    eexists. split; [|reflexivity]. unfold is_message. by apply bool_decide_eq_true. }
  destruct H34 as (r & Hr & H34). unfold keeps in *. eapply c_process_known_message; [done..|].
  rewrite H45, H34, H23, H12, H01, List.filter_app.
  destruct (List.filter _ _); [|done]. cbn. by rewrite Hr.
Qed.
End Once.

(** ** Rejected offers *)

Section Rejected.
Context `{DL : DecimalLib} `{BL : BitcoinLib} `{IL : IdLib} `{DLC : !DlcLib} `{ML : !DlcMessagesLib}.
Context `{CL : !CoordinatorDlcLib}.

Lemma c_channel_run id channel (s : Coordinator.t) :
  store_channel id (NodeState.dlc (Coordinator.node s)) = Ok (Some channel) ->
  c_node (get_dlc_channel_by_id id) s = (Ok channel, s).
Proof using Type.
  intros Hc. unfold c_node, get_dlc_channel_by_id, read_dlc, mbind, M_bind. rewrite Hc. by destruct s as [[] ? ? ? ?].
Qed.

(** The state with another database. *)
Definition with_db (d : Db.t) (s : Coordinator.t) : Coordinator.t :=
  let n := Coordinator.node s in
  Coordinator.mk (NodeState.mk d (NodeState.dlc n) (NodeState.events n) (NodeState.sent n))
    (Coordinator.events s) (Coordinator.outbox s) (Coordinator.position_feed s) (Coordinator.trader_errors s).

Lemma c_db_run {A} (m : M Db.t Anyhow A) s :
  c_db m s = ((m (db_of s)).1, with_db (m (db_of s)).2 s).
Proof using Type. unfold c_db, c_node, on_db, db_of, with_db. by destruct (m _). Qed.

Lemma update_position_state_run now pk original updated d :
  original <> [] ->
  exists r, update_position_state now pk original updated d =
    (r, set_rows (update_rows (fun p => is_trader pk p && in_states original p)
           (fun p => PositionRow.with_update_timestamp now
              (PositionRow.with_position_state (db_position_state_from updated) p)) (rows d)) d) /\
    (List.filter (fun p => is_trader pk p && in_states original p) (rows d) = [] -> r = Err NotFound).
Proof.
  intros Hne. unfold update_position_state. destruct original as [|o l] eqn:Ho; [done|]. rewrite <-Ho. clear Hne Ho o l.
  unfold mbind, M_bind. rewrite get_result_run.
  destruct (List.filter _ _) as [|p ?]; cbn; eexists; (split; [reflexivity|done]).
Qed.

Lemma fail_dlc_protocol_run pid d :
  has_protocol d pid = true ->
  fail_dlc_protocol pid d =
  (Ok tt, set_rows (update_rows (has_protocol_id pid) (DlcProtocolRow.with_protocol_state DbProtocolState.Failed) (rows d)) d).
Proof.
  intros Hp. unfold fail_dlc_protocol, set_dlc_protocol_state_to_failed, with_err, execute, fmap, M_fmap, update, mbind, M_bind.
  destruct (List.filter (has_protocol_id pid) (rows d)) eqn:Hl; [|done].
  exfalso. apply existsb_exists in Hp as (p & Hin & Hp).
  assert (Hf : In p (List.filter (has_protocol_id pid) (rows d))) by (by apply filter_In).
  by rewrite Hl in Hf.
Qed.

(** The positions of [pk] in one of the states move to another. *)
Definition moved (now : OffsetDateTime) (pk : PublicKey) (original : list DbPositionState.t)
    (updated : DbPositionState.t) : list PositionRow.t -> list PositionRow.t :=
  update_rows (fun p => is_trader (pk_to_string pk) p && bool_decide (PositionRow.position_state p ∈ original))
    (fun p => PositionRow.with_update_timestamp now (PositionRow.with_position_state updated p)).

Lemma in_states_elem l (p : PositionRow.t) :
  in_states l p = bool_decide (PositionRow.position_state p ∈ map db_position_state_from l).
Proof using Type.
  unfold in_states, in_state. induction l as [|x l IH]; cbn; [done|].
  rewrite IH. destruct (decide (PositionRow.position_state p = db_position_state_from x)) as [He|He].
  - rewrite bool_decide_eq_true_2 by done. symmetry. apply bool_decide_eq_true_2. rewrite He. constructor.
  - rewrite bool_decide_eq_false_2 by done. cbn. apply bool_decide_ext. rewrite elem_of_cons. naive_solver.
Qed.

Lemma update_rows_ext {R} (p q : R -> bool) f (l : list R) :
  (forall r, p r = q r) -> update_rows p f l = update_rows q f l.
Proof using Type. intros Hpq. apply map_ext. intros r. by rewrite Hpq. Qed.

(** What [process_reject] does once it knows the protocol and the channel. *)
Lemma process_reject_run now node_id reject (s s' : Coordinator.t) r pid channel :
  protocol_of (reference_id PReject reject) (reject_channel_id reject) s = (Ok pid, s) ->
  has_protocol (db_of s) pid = true ->
  store_channel (reject_channel_id reject) (NodeState.dlc (Coordinator.node s)) = Ok (Some channel) ->
  process_reject now node_id reject s = (r, s') ->
  rows (db_of s') = update_rows (has_protocol_id pid)
    (DlcProtocolRow.with_protocol_state DbProtocolState.Failed) (rows (db_of s)) /\
  forall original updated,
    match Channel.kind channel with
    | Cancelled => Some ([PositionState.Proposed], PositionState.Failed)
    | Signed sc => match SignedChannel.state sc with
      | Established _ => Some ([PositionState.Closing f32_zero; PositionState.Rollover], PositionState.Open)
      | Settled _ _ => Some ([PositionState.Proposed], PositionState.Failed)
      | _ => None end
    | _ => None
    end = Some (original, updated) ->
    rows (db_of s') = moved now node_id (map db_position_state_from original) (db_position_state_from updated) (rows (db_of s)) /\
    (List.filter (fun p => is_trader (pk_to_string node_id) p && in_states original p) (rows (db_of s)) = [] ->
     r = Err (FromSql NotFound)).
Proof.
  intros Hpid Hp Hc Hrun. unfold process_reject, mbind at 1, M_bind at 1 in Hrun. rewrite Hpid in Hrun.
  unfold mbind at 1, M_bind at 1 in Hrun. rewrite c_db_run, fail_dlc_protocol_run in Hrun by done. cbn [fst snd] in Hrun.
  unfold mbind at 1, M_bind at 1 in Hrun. erewrite c_channel_run in Hrun by exact Hc.
  assert (Hset : forall original updated, original <> [] ->
    (_ ← c_query (update_position_state now (pk_to_string node_id) original updated); mret tt)
      (with_db (set_rows (update_rows (has_protocol_id pid)
        (DlcProtocolRow.with_protocol_state DbProtocolState.Failed) (rows (db_of s))) (db_of s)) s) = (r, s') ->
    rows (db_of s') = update_rows (has_protocol_id pid)
      (DlcProtocolRow.with_protocol_state DbProtocolState.Failed) (rows (db_of s)) /\
    rows (db_of s') = moved now node_id (map db_position_state_from original) (db_position_state_from updated) (rows (db_of s)) /\
    (List.filter (fun p => is_trader (pk_to_string node_id) p && in_states original p) (rows (db_of s)) = [] ->
     r = Err (FromSql NotFound))).
  { intros original updated Hne H. unfold c_query, mbind, M_bind in H. rewrite c_db_run in H.
    edestruct (update_position_state_run now (pk_to_string node_id) original updated) as (x & Hx & Hnone); [exact Hne|].
    unfold with_err in H. rewrite Hx in H. destruct x as [x|x|]; cbn in H; injection H as <- <-.
    all: split; [reflexivity|]; split; [by apply update_rows_ext; intros q; rewrite in_states_elem|].
    all: intros Hl; specialize (Hnone Hl); congruence. }
  destruct (Channel.kind channel) as [| |sc| | | | | | | | |]; [| |destruct (SignedChannel.state sc)|..].
  all: try (injection Hrun as <- <-; split; [reflexivity|by intros ?? [=]]).
  all: eassert (H12 := Hset _ _ _ Hrun); destruct H12 as [H1 H2]; split; [exact H1|intros ?? [= <- <-]; exact H2].
  Unshelve. all: done.
Qed.

(** C37: a rejected offer is taken back.  The protocol it belongs to fails.  If the
    channel is established, the trader's closing or rolling over position is open
    again; if it was settled, or never opened, the proposed position fails.  A
    position the trader was to resize is not covered: it stays in [Resizing], and
    processing the rejection fails. *)
Theorem rejected_offer_is_taken_back (now : OffsetDateTime) (node_id : PublicKey)
    (reject : payload PReject) (s s' : Coordinator.t) (r : outcome Anyhow unit) (pid : ProtocolId)
    (channel : Channel.t)
    (Hpid : protocol_of (reference_id PReject reject) (reject_channel_id reject) s = (Ok pid, s))
    (Hp : has_protocol (db_of s) pid = true)
    (Hc : store_channel (reject_channel_id reject) (NodeState.dlc (Coordinator.node s)) = Ok (Some channel))
    (Hrun : process_reject now node_id reject s = (r, s')) :
  rows (db_of s') = update_rows (has_protocol_id pid)
    (DlcProtocolRow.with_protocol_state DbProtocolState.Failed) (rows (db_of s)) /\
  (forall sc contract, Channel.kind channel = Signed sc -> SignedChannel.state sc = Established contract ->
    rows (db_of s') = moved now node_id [DbPositionState.Closing; DbPositionState.Rollover] DbPositionState.Open
      (rows (db_of s)) /\
    (forall p, p ∈ rows (db_of s) -> is_trader (pk_to_string node_id) p = true ->
       PositionRow.position_state p = DbPositionState.Resizing ->
       p ∈ rows (db_of s') /\
       ((forall q, q ∈ rows (db_of s) -> is_trader (pk_to_string node_id) q = true ->
           PositionRow.position_state q ∈ [DbPositionState.Resizing; DbPositionState.Closed]) ->
        r = Err (FromSql NotFound)))) /\
  (Channel.kind channel = Cancelled \/ (exists sc own counter, Channel.kind channel = Signed sc /\
      SignedChannel.state sc = Settled own counter) ->
    rows (db_of s') = moved now node_id [DbPositionState.Proposed] DbPositionState.Failed (rows (db_of s))).
Proof.
  destruct (process_reject_run _ _ _ _ _ _ _ _ Hpid Hp Hc Hrun) as [Hprotocols Hpos].
  split; [exact Hprotocols|]. split.
  - intros sc contract Hk Hs. rewrite Hk, Hs in Hpos. destruct (Hpos _ _ eq_refl) as [Hrows Hnone].
    split; [exact Hrows|]. intros p Hin Hmine Hst. split.
    + rewrite Hrows. unfold moved, update_rows. apply list_elem_of_fmap. exists p. split; [|done].
      rewrite Hst, Hmine. by rewrite bool_decide_eq_false_2 by (cbn; rewrite !elem_of_cons, elem_of_nil; naive_solver).
    + intros Hall. apply Hnone. apply filter_none. intros q Hq. rewrite in_states_elem.
      destruct (is_trader _ q) eqn:Hq'; [|done]. specialize (Hall q Hq Hq').
      apply bool_decide_eq_false_2. cbn. rewrite !elem_of_cons, !elem_of_nil in Hall |- *. naive_solver congruence.
  - intros [Hk|(sc & own & counter & Hk & Hs)]; [rewrite Hk in Hpos|rewrite Hk, Hs in Hpos].
    all: by destruct (Hpos _ _ eq_refl).
Qed.
End Rejected.

(** ** Final messages *)

Section Final.
Context `{DL : DecimalLib} `{BL : BitcoinLib} `{IL : IdLib}.

Definition is_force_close (t : DbProtocolType.t) : bool :=
  match t with DbProtocolType.ForceClose => true | _ => false end.
(** The protocols that change what the trader holds. *)
Definition is_trade (t : DbProtocolType.t) : bool :=
  match t with
  | DbProtocolType.OpenChannel | DbProtocolType.OpenPosition | DbProtocolType.ResizePosition
  | DbProtocolType.Settle => true
  | _ => false
  end.

Lemma get_dlc_protocol_type pid d p d' : get_dlc_protocol pid d = (Ok p, d') ->
  exists row, head (List.filter (has_protocol_id pid) (rows d)) = Some row /\
    DlcProtocolRow.protocol_type row = db_protocol_type_from (DlcProtocol.protocol_type p).
Proof.
  unfold get_dlc_protocol.
  intros (row & d1 & [Hrow ->]%first_ok & (kind & d2 & Hkind & H)%M_bind_ok)%M_bind_ok.
  exists row. split; [exact Hrow|]. inv_ok. subst. cbn. unfold get_protocol_type in Hkind.
  destruct (DlcProtocolRow.protocol_type row).
  all: try (apply M_fmap_ok in Hkind as (? & _ & ->); reflexivity).
  all: apply lift_ok in Hkind as [Hkind _]; destruct (expect _); try discriminate Hkind; by injection Hkind as <-.
Qed.

(** Whatever finishing does besides, it makes the protocol a success. *)
Lemma finish_by_type_succeeds debug now p pid trader contract channel d d' u :
  finish_by_type debug now p pid trader contract channel d = (Ok u, d') ->
  is_force_close (db_protocol_type_from (DlcProtocol.protocol_type p)) = false ->
  exists c, rows d' = succeed pid c channel (rows d).
Proof.
  assert (Hrest : forall c {A} (m : Sql A) d d' a, steps (keeps DlcProtocolRow.t) m ->
    (set_dlc_protocol_state_to_success pid c channel;; m) d = (Ok a, d') ->
    exists c, rows d' = succeed pid c channel (rows d)).
  { intros c A m d0 d1 a Hm ([] & d2 & ->%set_success_ok & Hd)%M_bind_ok. exists c.
    specialize (Hm (set_rows (succeed pid c channel (rows d0)) d0)). rewrite Hd in Hm. exact Hm. }
  unfold finish_by_type. destruct (DlcProtocol.protocol_type p); intros Hrun Hkind; try discriminate Hkind.
  all: lazymatch type of Hrun with
  | finish_close_channel_dlc_protocol _ _ _ = _ => apply set_success_ok in Hrun as ->; by eexists
  | (need_contract_id _ ≫= _) _ = _ => apply M_bind_ok in Hrun as (c & d1 & [_ ->]%lift_ok & Hrun)
  | _ => idtac
  end.
  all: (eapply Hrest; [|exact Hrun]); unfold update_position_state, trade_insert,
    mark_funding_fee_event_as_paid, finish_rollover_protocol; solve_steps.
Qed.

Lemma finish_dlc_protocol_ok debug now pid trader contract channel d d' update row :
  finish_dlc_protocol debug now pid trader contract channel d = (Ok update, d') ->
  head (List.filter (has_protocol_id pid) (rows d)) = Some row ->
  is_force_close (DlcProtocolRow.protocol_type row) = false ->
  (exists c, rows d' = succeed pid c channel (rows d)) /\
  length (option_list update) = if is_trade (DlcProtocolRow.protocol_type row) then 1%nat else 0%nat.
Proof.
  unfold finish_dlc_protocol.
  intros (p & d1 & Hget%with_err_ok & (u & d2 & Hin%in_transaction_ok & [= <- <-])%M_bind_ok)%M_bind_ok Hrow Hkind.
  pose proof (get_dlc_protocol_reads pid d) as Hread. rewrite Hget in Hread. cbn in Hread. subst d1.
  destruct (get_dlc_protocol_type _ _ _ _ Hget) as (row' & Hrow' & Ht). rewrite Hrow in Hrow'. injection Hrow' as <-.
  rewrite Ht in *. split; [by eapply finish_by_type_succeeds|].
  unfold position_update. by destruct (DlcProtocol.protocol_type p).
Qed.
End Final.

Section FinalMessages.
Context `{DL : DecimalLib} `{BL : BitcoinLib} `{IL : IdLib} `{DLC : !DlcLib} `{ML : !DlcMessagesLib}.
Context `{JL : !MessagesJson} `{HL : HashLib} `{PL : !PeerDlcLib} `{CL : !CoordinatorDlcLib}.

(** The messages after which a protocol is over for the coordinator. *)
Definition is_final (msg : TenTenOneMessage.t) : bool :=
  match msg with
  | TenTenOneMessage.Accept _ | TenTenOneMessage.SettleFinalize _ | TenTenOneMessage.RenewFinalize _
  | TenTenOneMessage.RolloverFinalize _ => true
  | _ => false
  end.

(** The message was processed before. *)
Definition is_known (msg : TenTenOneMessage.t) (s : Coordinator.t) : bool :=
  match serialize_message msg with
  | Ok sdm => existsb (is_message (generate_hash sdm)) (rows (db_of s))
  | _ => false
  end.

Lemma c_db_ok {A} (m : M Db.t Anyhow A) s a s' : c_db m s = (Ok a, s') ->
  exists d', m (db_of s) = (Ok a, d') /\ s' = with_db d' s.
Proof. rewrite c_db_run. destruct (m (db_of s)) as [r d']. cbn. intros [= -> <-]. by exists d'. Qed.

Definition same_feed (s s' : Coordinator.t) : Prop := Coordinator.position_feed s' = Coordinator.position_feed s.
#[local] Instance same_feed_preorder : PreOrder same_feed.
Proof. unfold same_feed. split; [by intros ?|intros ???; congruence]. Qed.
Lemma c_node_feed {A} (m : NodeM A) : steps same_feed (c_node m).
Proof. intros s. unfold c_node, same_feed. by destruct (m _). Qed.
#[local] Hint Resolve c_node_feed : sql.

Lemma verify_collab_close_offer_feed now node_id msg : steps same_feed (verify_collab_close_offer now node_id msg).
Proof. unfold verify_collab_close_offer, c_try, c_db. solve_steps. Qed.

(** A run on a message that was not known, up to the handling of its kind. *)
Lemma c_process_new_message debug now node_id msg s s' u :
  c_process_dlc_message debug now node_id msg s = (Ok u, s') -> is_known msg s = false ->
  exists s1 resp s3 s4 s5,
    verify_collab_close_offer now node_id msg s = (Ok tt, s1) /\
    db_of s3 = db_of s1 /\ Coordinator.position_feed s3 = Coordinator.position_feed s /\
    (exists l, s4 = with_db (set_tbl l (db_of s3)) s3 /\
       match serialize_message msg with
       | Ok sdm => existsb (is_message (generate_hash sdm)) (Table.rows l)
       | _ => false
       end = true) /\
    c_process_by_kind debug now node_id msg resp s4 = (Ok tt, s5) /\
    db_of s' = db_of s5 /\ Coordinator.position_feed s' = Coordinator.position_feed s5.
Proof.
  intros Hrun Hknown. unfold c_process_dlc_message, DlcMessage.new in Hrun.
  apply M_bind_ok in Hrun as (reference & ? & [_ ->]%lift_ok & Hrun).
  apply M_bind_ok in Hrun as (sdm & ? & [Hser%map_err_ok ->]%lift_ok & Hrun).
  apply M_bind_ok in Hrun as (m & ? & [Hm ->]%lift_ok & Hrun). injection Hm as <-.
  apply M_bind_ok in Hrun as (processed & s0 & Hget & Hrun). cbn [DlcMessage.message_hash] in Hget.
  rewrite c_get_message_run in Hget. injection Hget as Hget <-.
  unfold is_known in Hknown. rewrite Hser in Hknown |- *.
  destruct processed as [m|].
  { exfalso. apply filter_head_some in Hget as [Hin Hm]. apply not_true_iff_false in Hknown. apply Hknown.
    apply existsb_exists. exists m. by rewrite <-list_elem_of_In. }
  apply M_bind_ok in Hrun as ([] & s1 & Hoffer & Hrun).
  apply M_bind_ok in Hrun as (resp & s2 & Hproc & Hrun).
  apply M_bind_ok in Hrun as ([] & s3 & Hstore & Hrun).
  apply M_bind_ok in Hrun as ([] & s4 & (d' & Hins & ->)%c_db_ok & Hrun).
  apply M_bind_ok in Hrun as ([] & s5 & Hkind & Hlast).
  assert (H12 : db_of s2 = db_of s1).
  { pose proof (c_dlc_db (process_tentenone_message msg node_id) s1) as H. by rewrite Hproc in H. }
  assert (Hf : Coordinator.position_feed s3 = Coordinator.position_feed s).
  { transitivity (Coordinator.position_feed s2); [destruct resp; by injection Hstore as <-|].
    transitivity (Coordinator.position_feed s1).
    - pose proof (c_node_feed (on_dlc (process_tentenone_message msg node_id)) s1 :
        same_feed s1 (c_dlc (process_tentenone_message msg node_id) s1).2) as H. by rewrite Hproc in H.
    - pose proof (verify_collab_close_offer_feed now node_id msg s) as H. by rewrite Hoffer in H. }
  assert (Hd : db_of s' = db_of s5 /\ Coordinator.position_feed s' = Coordinator.position_feed s5)
    by (destruct resp; by injection Hlast as _ <-).
  exists s1, resp, s3, (with_db d' s3), s5. split_and!; [exact Hoffer| |exact Hf| |exact Hkind|apply Hd..].
  - rewrite <-H12. destruct resp; by injection Hstore as <-.
  - apply with_err_ok, M_bind_ok in Hins as (r & d1 & [-> [_ ->]]%insert_ok & [=]). subst d'.
    eexists. split; [reflexivity|]. cbn [Table.rows]. rewrite existsb_app. apply orb_true_iff. right. cbn.
    rewrite orb_false_r. unfold is_message. by apply bool_decide_eq_true.
Qed.

Lemma same_table_rows {R} `{HSL : StoredLaws R} {R2} `{Stored R2} `{!Independent R2 R} (l : Table.t R) d :
  rows (R := R2) (set_tbl l d) = rows d.
Proof using Type. apply keeps_set_tbl. Qed.

Lemma finish_protocol_ok debug now pid node_id contract channel s s' u row :
  finish_protocol debug now pid node_id contract channel s = (Ok u, s') ->
  head (List.filter (has_protocol_id pid) (rows (db_of s))) = Some row ->
  is_force_close (DlcProtocolRow.protocol_type row) = false ->
  (exists c, rows (db_of s') = succeed pid c channel (rows (db_of s))) /\
  length (Coordinator.position_feed s') = (length (Coordinator.position_feed s) +
    if is_trade (DlcProtocolRow.protocol_type row) then 1 else 0)%nat.
Proof.
  intros (update & s1 & (d' & Hfin & ->)%c_db_ok & Hfeed)%M_bind_ok Hrow Hkind.
  injection Hfeed as _ <-. destruct (finish_dlc_protocol_ok _ _ _ _ _ _ _ _ _ _ Hfin Hrow Hkind) as [Hs Hl].
  split; [exact Hs|]. cbn. by rewrite length_app, Hl.
Qed.

Lemma protocol_of_given ref channel_id pid (s s' : Coordinator.t) p :
  protocol_id_try_from ref = Ok pid -> protocol_of (Some ref) channel_id s = (Ok p, s') -> p = pid /\ s' = s.
Proof.
  intros Hpid (r & s1 & [= <- <-] & [Hp%map_err_ok ->]%lift_ok)%M_bind_ok.
  split; [|done]. rewrite Hpid in Hp. by injection Hp.
Qed.

Lemma c_channel_same id (s s' : Coordinator.t) channel :
  c_node (get_dlc_channel_by_id id) s = (Ok channel, s') -> s' = s.
Proof.
  unfold c_node, get_dlc_channel_by_id, read_dlc, mbind, M_bind, try, lift.
  destruct (map_err _ _) as [c|e|]; cbn; [|done..]. destruct c; cbn; [|done]. intros [= _ <-]. by destruct s.
Qed.

Lemma final_by_kind debug now node_id msg resp ref pid s s' u row :
  is_final msg = true -> get_reference_id msg = Some ref -> protocol_id_try_from ref = Ok pid ->
  c_process_by_kind debug now node_id msg resp s = (Ok u, s') ->
  head (List.filter (has_protocol_id pid) (rows (db_of s))) = Some row ->
  is_force_close (DlcProtocolRow.protocol_type row) = false ->
  (exists c channel, rows (db_of s') = succeed pid c channel (rows (db_of s))) /\
  length (Coordinator.position_feed s') = (length (Coordinator.position_feed s) +
    if is_trade (DlcProtocolRow.protocol_type row) then 1 else 0)%nat.
Proof.
  intros Hfinal Href Hpid Hrun Hrow Hkind.
  assert (Hdone : forall contract channel, finish_protocol debug now pid node_id contract channel s = (Ok u, s') ->
    (exists c channel, rows (db_of s') = succeed pid c channel (rows (db_of s))) /\
    length (Coordinator.position_feed s') = (length (Coordinator.position_feed s) +
      if is_trade (DlcProtocolRow.protocol_type row) then 1 else 0)%nat).
  { intros contract channel H. destruct (finish_protocol_ok _ _ _ _ _ _ _ _ _ _ H Hrow Hkind) as [[c Hc] Hl].
    split; [by exists c, channel|done]. }
  destruct msg; try discriminate Hfinal; cbn [c_process_by_kind get_reference_id] in *;
    unfold process_accept, process_settle_finalize, process_renew_finalize in Hrun; rewrite Href in Hrun;
    apply M_bind_ok in Hrun as (p & s1 & [-> ->]%(protocol_of_given _ _ _ _ _ _ Hpid) & Hrun);
    try apply M_bind_ok in Hrun as (c & s1 & ->%c_channel_same & Hrun); by eapply Hdone.
Qed.

(** C4: a message that ends a protocol is only processed once the protocol is over:
    when the coordinator has processed an app's accept or finalize message, the
    protocol it refers to is a success, whichever kind of protocol it was, the
    position feed was told once if a position changed, and the message is
    remembered. *)
Theorem final_message_finishes_protocol (debug : bool) (now : OffsetDateTime) (node_id : PublicKey)
    (msg : TenTenOneMessage.t) (s s' : Coordinator.t) (u : unit) (ref : ReferenceId) (pid : ProtocolId)
    (row : DlcProtocolRow.t)
    (Hfinal : is_final msg = true) (Hnew : is_known msg s = false)
    (Href : get_reference_id msg = Some ref) (Hpid : protocol_id_try_from ref = Ok pid)
    (Hrow : head (List.filter (has_protocol_id pid) (rows (db_of s))) = Some row)
    (Hkind : is_force_close (DlcProtocolRow.protocol_type row) = false)
    (Hrun : c_process_dlc_message debug now node_id msg s = (Ok u, s')) :
  (exists contract channel, rows (db_of s') = succeed pid contract channel (rows (db_of s))) /\
  length (Coordinator.position_feed s') = (length (Coordinator.position_feed s) +
    if is_trade (DlcProtocolRow.protocol_type row) then 1 else 0)%nat /\
  is_known msg s' = true.
Proof using All.
  destruct (c_process_new_message _ _ _ _ _ _ _ Hrun Hnew)
    as (s1 & resp & s3 & s4 & s5 & Hoffer & H3 & Hf3 & (l & -> & Hl) & Hby & Hs' & Hf').
  assert (s1 = s) as -> by (destruct msg; try discriminate Hfinal; by injection Hoffer as <-).
  assert (Hrow4 : head (List.filter (has_protocol_id pid) (rows (db_of (with_db (set_tbl l (db_of s3)) s3)))) = Some row).
  { cbn [db_of with_db Coordinator.node NodeState.db]. rewrite same_table_rows, H3. exact Hrow. }
  destruct (final_by_kind _ _ _ _ _ _ _ _ _ _ _ Hfinal Href Hpid Hby Hrow4 Hkind) as [(c & channel & Hsucc) Hlen].
  split_and!.
  - exists c, channel. rewrite Hs', Hsucc. cbn [db_of with_db Coordinator.node NodeState.db]. by rewrite same_table_rows, H3.
  - rewrite Hf', Hlen. cbn. by rewrite Hf3.
  - pose proof (c_process_by_kind_frame debug now node_id msg resp (with_db (set_tbl l (db_of s3)) s3)) as Hk.
    rewrite Hby in Hk. unfold on_coordinator_db, keeps in Hk. cbn [snd] in Hk. unfold is_known. rewrite Hs', Hk.
    destruct (serialize_message msg); [|discriminate Hl..].
    cbn [db_of with_db Coordinator.node NodeState.db]. by rewrite rows_set_tbl.
Qed.
End FinalMessages.

(** ** Offers to close a channel *)

Section CloseOffers.
Context `{DL : DecimalLib} `{BL : BitcoinLib} `{IL : IdLib} `{DLC : !DlcLib} `{ML : !DlcMessagesLib}.
Context `{JL : !MessagesJson} `{HL : HashLib} `{PL : !PeerDlcLib} `{CL : !CoordinatorDlcLib}.

(** What makes an offer unacceptable: a position is open, or the coordinator would
    not get what it settled for. *)
Definition unacceptable (channel : Channel.t) (offered : Z) : Prop :=
  exists sc, Channel.kind channel = Signed sc /\
    ((exists contract, SignedChannel.state sc = Established contract) \/
     (exists own counter, SignedChannel.state sc = Settled own counter /\ own <> offered)).

Lemma close_offer_acceptable_spec channel offered :
  close_offer_acceptable channel offered = false <-> unacceptable channel offered.
Proof using Type.
  unfold close_offer_acceptable, unacceptable. split.
  - destruct (Channel.kind channel) as [| |sc| | | | | | | | |]; try done.
    intros H. exists sc. split; [done|]. destruct (SignedChannel.state sc) as [c| | | | |own counter| | | | | | |]; try done.
    + left. by exists c.
    + right. exists own, counter. split; [done|]. by apply Z.eqb_neq.
  - intros (sc & -> & [[c ->]|(own & counter & -> & H)]); [done|]. by apply Z.eqb_neq.
Qed.

Lemma verify_collab_close_offer_ok now node_id m (s s1 : Coordinator.t) channel :
  let offer := TenTenOneCollaborativeCloseOffer.collaborative_close_offer m in
  store_channel (close_offer_channel_id offer) (NodeState.dlc (Coordinator.node s)) = Ok (Some channel) ->
  verify_collab_close_offer now node_id (TenTenOneMessage.CollaborativeCloseOffer m) s = (Ok tt, s1) ->
  close_offer_acceptable channel (close_offer_counter_payout offer) = true /\
  exists ref pid prev id, reference_id PCollaborativeCloseOffer offer = Some ref /\
    protocol_id_try_from ref = Ok pid /\ has_protocol (db_of s) pid = false /\
    rows (db_of s1) = rows (db_of s) ++ [DlcProtocolRow.mk id pid prev (hex_encode (Channel.get_id channel)) None
      DbProtocolState.Pending (pk_to_string node_id) now DbProtocolType.Close].
Proof using All.
  intros offer Hc Hrun. unfold verify_collab_close_offer in Hrun. fold offer in Hrun.
  apply M_bind_ok in Hrun as (c & s2 & Hc' & Hrun).
  rewrite (c_channel_run _ _ _ Hc) in Hc'. injection Hc' as <- <-.
  apply M_bind_ok in Hrun as ([] & s2 & [Hok%map_err_ok%ensure_ok ->]%lift_ok & Hrun).
  apply M_bind_ok in Hrun as (ref & s2 & [Href%map_err_ok%ok_or_ok ->]%lift_ok & Hrun).
  apply M_bind_ok in Hrun as (pid & s2 & [Hpid%map_err_ok ->]%lift_ok & Hrun).
  apply M_bind_ok in Hrun as (prev & s2 & [_ ->]%lift_ok & Hrun).
  apply c_db_ok in Hrun as (d' & [Hnone ->]%with_err_ok%dlc_protocol_create_ok & ->).
  split; [exact Hok|]. exists ref, pid, prev, (Table.next_id (Db.dlc_protocols (db_of s))). by split_and!.
Qed.

(** C5: an app cannot take what is not its own by closing the channel: an offer made
    while a position is open, or that would not pay the coordinator what it settled
    for, is refused, without [rust-dlc] or the database seeing it.  An offer that is
    processed was acceptable, and its protocol is recorded. *)
Theorem close_offer_is_checked (debug : bool) (now : OffsetDateTime) (node_id : PublicKey)
    (m : TenTenOneCollaborativeCloseOffer.t) (s s' : Coordinator.t) (r : outcome Anyhow unit) (channel : Channel.t)
    (Hc : store_channel (close_offer_channel_id (TenTenOneCollaborativeCloseOffer.collaborative_close_offer m))
            (NodeState.dlc (Coordinator.node s)) = Ok (Some channel))
    (Hnew : is_known (TenTenOneMessage.CollaborativeCloseOffer m) s = false)
    (Hrun : c_process_dlc_message debug now node_id (TenTenOneMessage.CollaborativeCloseOffer m) s = (r, s')) :
  let offer := TenTenOneCollaborativeCloseOffer.collaborative_close_offer m in
  (unacceptable channel (close_offer_counter_payout offer) -> is_ok r = false /\ s' = s) /\
  (is_ok r = true ->
     ~ unacceptable channel (close_offer_counter_payout offer) /\
     exists ref pid prev id, reference_id PCollaborativeCloseOffer offer = Some ref /\
       protocol_id_try_from ref = Ok pid /\
       rows (db_of s') = rows (db_of s) ++ [DlcProtocolRow.mk id pid prev (hex_encode (Channel.get_id channel)) None
         DbProtocolState.Pending (pk_to_string node_id) now DbProtocolType.Close]).
Proof using All.
  cbn zeta. set (offer := TenTenOneCollaborativeCloseOffer.collaborative_close_offer m) in *.
  assert (Hyes : is_ok r = true ->
    close_offer_acceptable channel (close_offer_counter_payout offer) = true /\
    exists ref pid prev id, reference_id PCollaborativeCloseOffer offer = Some ref /\
       protocol_id_try_from ref = Ok pid /\
       rows (db_of s') = rows (db_of s) ++ [DlcProtocolRow.mk id pid prev (hex_encode (Channel.get_id channel)) None
         DbProtocolState.Pending (pk_to_string node_id) now DbProtocolType.Close]).
  { destruct r as [u| |]; try done. intros _.
    destruct (c_process_new_message _ _ _ _ _ _ _ Hrun Hnew)
      as (s1 & resp & s3 & s4 & s5 & Hoffer & H3 & _ & (l & -> & _) & Hby & Hs' & _).
    destruct (verify_collab_close_offer_ok _ _ _ _ _ _ Hc Hoffer) as (Hacc & ref & pid & prev & id & Href & Hpid & _ & Hrows).
    split; [exact Hacc|]. exists ref, pid, prev, id. split_and!; [done..|].
    cbn [c_process_by_kind] in Hby.
    pose proof (c_dlc_db (accept_collaborative_close (close_offer_channel_id
      (TenTenOneCollaborativeCloseOffer.collaborative_close_offer m))) (with_db (set_tbl l (db_of s3)) s3)) as H5.
    rewrite Hby in H5. cbn [snd] in H5. rewrite Hs', H5. cbn [db_of with_db Coordinator.node NodeState.db].
    by rewrite same_table_rows, H3. }
  split.
  - intros Hbad. apply close_offer_acceptable_spec in Hbad.
    split. { apply not_true_iff_false. intros H. destruct (Hyes H) as [Ht _]. congruence. }
    clear Hyes. unfold c_process_dlc_message, DlcMessage.new, c_try, lift in Hrun.
    unfold mbind at 1, M_bind at 1 in Hrun. destruct (map_err Msg _); [|by injection Hrun..].
    unfold mbind at 1, M_bind at 1 in Hrun. unfold is_known in Hnew.
    destruct (serialize_message _) as [sdm| |]; cbn [map_err] in Hrun; [|by injection Hrun..].
    unfold mbind at 1, M_bind at 1 in Hrun. cbn [map_err DlcMessage.message_hash] in Hrun.
    unfold mbind at 1, M_bind at 1 in Hrun. rewrite c_get_message_run in Hrun.
    destruct (head _) as [q|] eqn:Hq; [by injection Hrun|].
    unfold mbind at 1, M_bind at 1 in Hrun. cbn [verify_collab_close_offer] in Hrun. fold offer in Hrun.
    unfold mbind at 1, M_bind at 1 in Hrun. erewrite c_channel_run in Hrun by exact Hc.
    unfold mbind at 1, M_bind at 1, c_try, lift in Hrun. rewrite Hbad in Hrun. by injection Hrun.
  - intros H. destruct (Hyes H) as [Hacc Hrest]. split; [|exact Hrest].
    intros Hbad%close_offer_acceptable_spec. congruence.
Qed.
End CloseOffers.

(** ** Evaluated *)

#[export] Instance demo_coordinator_dlc : CoordinatorDlcLib (ML := demo_messages) := {|
  accept_temporary_channel_id _ := demo_channel_id;
  renew_finalize_channel_id _ := demo_channel_id;
  settle_finalize_channel_id _ := demo_channel_id;
  reject_channel_id _ := demo_channel_id;
  close_offer_counter_payout _ := 1000;
|}.

(** A trader's channel, of protocol 40, in a state. *)
Definition demo_trader : PublicKey (IdLib := demo_id) := "alice"%string.
Definition demo_signed_channel (state : SignedChannelState) : Channel.t (H := demo_id) :=
  Channel.mk (Signed (SignedChannel.mk demo_channel_id demo_trader state 250000 250000)) demo_channel_id
    demo_trader (Some (reference_id_from 40)) (Some (demo_id32 Byte.x03)).
Definition demo_coordinator (state : SignedChannelState) (d : Db.t)
    : Coordinator.t (DLC := demo_dlc) (H1 := demo_messages) :=
  Coordinator.mk (NodeState.mk d (DemoStore.mk [demo_signed_channel state] [] []) [] []) [] [] [] [].

Definition demo_settle_finalize : TenTenOneMessage.t (H := demo_decimal) (H0 := demo_id) :=
  TenTenOneMessage.SettleFinalize (TenTenOneSettleFinalize.mk (H := demo_messages) OrderReason.Manual 40 Byte.x28).
Definition demo_settling := demo_coordinator (Settled 250000 250000)
  (demo_protocol_db DbProtocolType.Settle DbPositionState.Closing).

Example coordinator_message_is_processed_once_witness :
  exists s', c_process_dlc_message true 5 demo_trader demo_settle_finalize demo_settling = (Ok tt, s') /\
    c_process_dlc_message true 9 demo_trader demo_settle_finalize s' = (Ok tt, s').
Proof.
  destruct (succeeds (c_process_dlc_message true 5 demo_trader demo_settle_finalize) demo_settling) as ([] & s' & Hs).
  { by vm_compute. }
  exists s'. split; [exact Hs|].
  exact (coordinator_message_is_processed_once true true 5 9 demo_trader demo_settle_finalize demo_settling s' tt Hs).
Defined.

Example final_message_finishes_protocol_witness :
  exists s', c_process_dlc_message true 5 demo_trader demo_settle_finalize demo_settling = (Ok tt, s') /\
    map DlcProtocolRow.protocol_state (rows (db_of s')) = [DbProtocolState.Success] /\
    length (Coordinator.position_feed s') = 1%nat.
Proof.
  destruct (succeeds (c_process_dlc_message true 5 demo_trader demo_settle_finalize) demo_settling) as ([] & s' & Hs).
  { by vm_compute. }
  exists s'. split; [exact Hs|].
  destruct (final_message_finishes_protocol true 5 demo_trader demo_settle_finalize demo_settling s' tt
    (reference_id_from (H := demo_id) 40) 40
    (DlcProtocolRow.mk 1 40 None (hex_encode demo_channel) None DbProtocolState.Pending "alice" 0 DbProtocolType.Settle))
    as ((c & ch & Hrows) & Hfeed & _); [reflexivity..|exact Hs|].
  split; [by rewrite Hrows|exact Hfeed].
Defined.

(** A position is being resized when the app rejects the offer. *)
Definition demo_resizing := demo_coordinator (Established (demo_id32 Byte.x03))
  (demo_protocol_db DbProtocolType.ResizePosition DbPositionState.Resizing).

Example rejected_offer_is_taken_back_witness :
  let '(r, s') := process_reject 5 demo_trader (Byte.x07 : payload (DlcMessagesLib := demo_messages) PReject) demo_resizing in
  r = Err (FromSql NotFound) /\
  map PositionRow.position_state (rows (db_of s')) = [DbPositionState.Resizing] /\
  map DlcProtocolRow.protocol_state (rows (db_of s')) = [DbProtocolState.Failed].
Proof.
  destruct (process_reject 5 demo_trader (Byte.x07 : payload (DlcMessagesLib := demo_messages) PReject) demo_resizing)
    as [r s'] eqn:Hrun.
  destruct (rejected_offer_is_taken_back (ML := demo_messages) 5 demo_trader Byte.x07 demo_resizing s' r 40
    (demo_signed_channel (Established (demo_id32 Byte.x03)))) as (Hprotocols & Hpos & _);
    [reflexivity..|exact Hrun|].
  destruct (Hpos _ _ eq_refl eq_refl) as [Hrows Hresizing].
  destruct (Hresizing (demo_position DbPositionState.Resizing)) as [_ Hr]; [constructor|reflexivity..|].
  split_and!; [|by rewrite Hrows|by rewrite Hprotocols].
  apply Hr. intros q Hq _. apply list_elem_of_singleton in Hq as ->. constructor.
Defined.

(** The coordinator settled for 250,000 and is offered 1,000. *)
Definition demo_close_offer : TenTenOneCollaborativeCloseOffer.t :=
  TenTenOneCollaborativeCloseOffer.mk (H := demo_messages) Byte.x28.
Example close_offer_is_checked_witness :
  let s := demo_coordinator (Settled 250000 250000) empty_db in
  let '(r, s') := c_process_dlc_message (DL := demo_decimal) true 5 demo_trader
    (TenTenOneMessage.CollaborativeCloseOffer demo_close_offer) s in
  is_ok r = false /\ s' = s.
Proof.
  cbn zeta. set (s := demo_coordinator (Settled 250000 250000) empty_db).
  destruct (c_process_dlc_message (DL := demo_decimal) true 5 demo_trader
    (TenTenOneMessage.CollaborativeCloseOffer demo_close_offer) s) as [r s'] eqn:Hrun.
  destruct (close_offer_is_checked (ML := demo_messages) true 5 demo_trader demo_close_offer s s' r
    (demo_signed_channel (Settled 250000 250000))) as [Hbad _]; [reflexivity..|exact Hrun|].
  apply Hbad. eexists. split; [reflexivity|]. right. exists 250000, 250000. by split.
Defined.
