(* ===== verification/CoordinatorChannels.v ===== *)
(** * [coordinator/src/node/channel.rs]: the channels as the coordinator keeps them

    The storage of [rust-dlc] reports what becomes of a channel; the coordinator
    follows these events with its own row of the channel, and closes the position
    of a channel that ended on chain. *)

From stdpp Require Import base list option strings.
From Stdlib Require Import ZArith QArith Lia.
From S2P Require Import Prelude Machine External Demo Commons PayoutCurve SqlTypes Schema Db MatchesDb.
From S2P Require Import Trading PositionsDb FundingDb Funding Messages ProtocolDb ChannelsDb DlcExecutor.
From S2P Require Import Node DemoDlc DlcPeer CoordinatorNode.

#[local] Open Scope Z_scope.

(** The ids of the transactions a channel carries in the state the code reads them
    in, which outputs belong to the coordinator's wallet, and numbers in a radix. *)
Class ChannelTxLib `{DL : DecimalLib} `{DLC : DlcLib} `{TX : TxidLib} := {
  fund_tx_txid : SignedChannel.t -> Txid;
  settle_transaction_txid : Channel.t -> Txid;    (* [SettledClosing], signed or not *)
  claim_transaction_txid : Channel.t -> Txid;     (* [Channel::SettledClosing] *)
  buffer_transaction_txid : Channel.t -> Txid;    (* [Closing], signed or not *)
  punish_txid_of : Channel.t -> Txid;             (* [Channel::ClosedPunished] *)
  close_tx_txid : Channel.t -> Txid;              (* [CollaborativeCloseOffered] *)
  closing_txid_of : Channel.t -> Txid;            (* [ClosedChannel] *)
  is_mine : list Byte.byte -> bool;
  d_from_str_radix : string -> Z -> option Decimal;
}.

Section Channels.
Context `{DL : DecimalLib} `{BL : BitcoinLib} `{IL : IdLib} `{DLC : !DlcLib} `{ML : !DlcMessagesLib}.
Context `{TX : TxidLib} `{TL : !ChannelTxLib}.
Context (debug_assertions : bool) (now : OffsetDateTime).

Definition c_execute (m : Sql nat) : CoordinatorM unit := _ ← c_query m; mret tt.
Definition unexpected_state {A} : CoordinatorM A := throw (Msg "DLC channel in unexpected state").

(** ** Closing a channel *)

(** [Node::force_close_dlc_channel] and [Node::close_dlc_channel] of the
    coordinator; [protocol_id] is the id the library draws. *)
Definition c_force_close_dlc_channel (protocol_id : ProtocolId) (channel_id : DlcChannelId)
    : CoordinatorM unit :=
  _ ← c_node (close_dlc_channel protocol_id channel_id true); mret tt.

Definition c_close_dlc_channel (protocol_id : ProtocolId) (channel_id : DlcChannelId)
    : CoordinatorM unit :=
  channel ← c_node (get_dlc_channel_by_id channel_id);
  previous_id ← c_try (previous_protocol_id channel);
  protocol_id ← c_node (close_dlc_channel protocol_id channel_id false);
  c_db (start_close_channel_protocol now protocol_id previous_id (Channel.get_id channel)
          (Channel.get_counter_party_id channel)).

(** ** Channel events *)

Definition handle_closing_event (channel : Channel.t) : CoordinatorM unit :=
  c_execute (set_open_position_to_closing now (Channel.get_counter_party_id channel) None);;
  buffer_txid ←
    match Channel.kind channel with
    | Signed signed_channel =>
      match SignedChannel.state signed_channel with
      | ClosingState => mret (buffer_transaction_txid channel)
      | _ => unexpected_state
      end
    | Closing => mret (buffer_transaction_txid channel)
    | _ => unexpected_state
    end;
  c_execute (set_channel_force_closing now (Channel.get_id channel) buffer_txid).

Definition trader_outputs (signed_cet : list TxOut.t) : list Z :=
  map TxOut.value (List.filter (fun output => negb (is_mine (TxOut.script_pubkey output))) signed_cet).

Definition calculate_trader_realized_pnl_from_cet (channel_id : DlcChannelId)
    (signed_cet : list TxOut.t) : CoordinatorM Z :=
  trader_payout ← lift (sum_u64 0 (trader_outputs signed_cet));
  dlc_channel ← c_query (get_stored_channel channel_id);
  dlc_channel ← c_try (ok_or "Couldn't find dlc channel by channel id"%string dlc_channel);
  lift (expect (checked_i64
    (as_i64 trader_payout - as_i64 (DlcChannel.trader_reserve_sats dlc_channel)))).

(** The price the oracle attested to: the binary digits of the outcome. *)
Definition attested_price (attestations : list OracleAttestation) : outcome string Decimal :=
  match attestations with
  | attestation :: _ =>
    ok_or "from_str_radix"%string (d_from_str_radix (String.concat EmptyString attestation) 2)
  | [] => Err "at least one attestation"%string
  end.

Definition handle_force_closed_event (channel : Channel.t) (reference_id : ReferenceId)
    : CoordinatorM unit :=
  protocol_id ← c_try (protocol_id_try_from reference_id);
  dlc_protocol ← c_query (get_dlc_protocol protocol_id);
  contract_id ← c_try (ok_or "Missing contract id"%string (DlcProtocol.contract_id dlc_protocol));
  contract ← c_node (get_contract_by_id contract_id);
  contract ← c_try (ok_or "Missing contract"%string contract);
  position ← c_query (get_position_by_trader (DlcProtocol.trader dlc_protocol)
                        [PositionState.Closing f32_zero]);
  position ← c_try (ok_or "Couldn't find closing position for trader."%string position);
  '(closing_price, trader_realized_pnl_sat) ←
    match contract with
    | PreClosedContract (Some attestations) signed_cet
    | ClosedContract (Some attestations) (Some signed_cet) =>
      trader_realized_pnl_sat ←
        calculate_trader_realized_pnl_from_cet (DlcProtocol.channel_id dlc_protocol) signed_cet;
      closing_price ← c_try (attested_price attestations);
      mret (closing_price, trader_realized_pnl_sat)
    | _ => throw (Msg "Contract in unexpected state.")
    end;
  c_execute (set_position_to_closed_with_pnl now (Position.id position) trader_realized_pnl_sat closing_price);;
  match Channel.kind channel with
  | Closed | CounterClosed =>
    c_execute (set_channel_closed now (Channel.get_id channel) (closing_txid_of channel))
  | _ => unexpected_state
  end.

Definition handle_collaboratively_closed_event (channel : Channel.t) (reference_id : ReferenceId)
    : CoordinatorM unit :=
  protocol_id ← c_try (protocol_id_try_from reference_id);
  finish_protocol debug_assertions now protocol_id (Channel.get_counter_party_id channel) None
    (Channel.get_id channel);;
  match Channel.kind channel with
  | CollaborativelyClosed =>
    c_execute (set_channel_closed now (Channel.get_id channel) (closing_txid_of channel))
  | _ => unexpected_state
  end.

(** The arm of [Established] and [Settled]. *)
Definition handle_updated_event (channel : Channel.t) (reference_id : ReferenceId) : CoordinatorM unit :=
  signed_channel ← match Channel.kind channel with
    | Signed signed_channel => mret signed_channel
    | _ => unexpected_state
    end;
  trader_reserve ← c_node (get_dlc_channel_usable_balance_counterparty (SignedChannel.channel_id signed_channel));
  coordinator_reserve ← c_node (get_dlc_channel_usable_balance (SignedChannel.channel_id signed_channel));
  protocol_id ← c_try (protocol_id_try_from reference_id);
  dlc_protocol ← c_query (get_dlc_protocol protocol_id);
  match DlcProtocol.protocol_type dlc_protocol with
  | DlcProtocolType.OpenChannel _ =>
    c_execute (set_dlc_channel_open now protocol_id (Channel.get_id channel) (fund_tx_txid signed_channel)
      coordinator_reserve trader_reserve (SignedChannel.own_collateral signed_channel)
      (SignedChannel.counter_collateral signed_channel))
  | DlcProtocolType.OpenPosition _ | DlcProtocolType.Settle _ | DlcProtocolType.Rollover _
  | DlcProtocolType.ResizePosition _ =>
    c_execute (update_channel now (Channel.get_id channel) coordinator_reserve trader_reserve)
  | DlcProtocolType.Close _ | DlcProtocolType.ForceClose _ => mret tt
  end.

(** The arm of [SettledClosing]. *)
Definition handle_settled_closing_event (channel : Channel.t) : CoordinatorM unit :=
  claim_txid ← match Channel.kind channel with
    | Signed signed_channel =>
      match SignedChannel.state signed_channel with
      | SettledClosingState => mret None
      | _ => unexpected_state
      end
    | SettledClosing => mret (Some (claim_transaction_txid channel))
    | _ => unexpected_state
    end;
  c_execute (set_channel_force_closing_settled now (Channel.get_id channel) (settle_transaction_txid channel)
    claim_txid).

Definition process_dlc_channel_event (dlc_channel_event : DlcChannelEvent.t) : CoordinatorM unit :=
  reference_id ← c_try (ok_or "Can't process dlc channel event without reference id."%string
    (DlcChannelEvent.get_reference_id dlc_channel_event));
  let failed := protocol_id ← c_try (protocol_id_try_from reference_id);
    c_execute (set_channel_failed now protocol_id) in
  match dlc_channel_event with
  | DlcChannelEvent.Deleted _ => failed
  | _ =>
    channel ← c_node (get_dlc_channel_by_reference_id reference_id);
    match dlc_channel_event with
    | DlcChannelEvent.Offered _ =>
      open_protocol_id ← c_try (protocol_id_try_from reference_id);
      c_execute (insert_pending_dlc_channel now open_protocol_id (Channel.get_id channel)
        (Channel.get_counter_party_id channel))
    | DlcChannelEvent.Established _ | DlcChannelEvent.Settled _ => handle_updated_event channel reference_id
    | DlcChannelEvent.SettledClosing _ => handle_settled_closing_event channel
    | DlcChannelEvent.Closing _ => handle_closing_event channel
    | DlcChannelEvent.ClosedPunished _ =>
      match Channel.kind channel with
      | ClosedPunished =>
        c_execute (set_channel_punished now (Channel.get_id channel) (punish_txid_of channel))
      | _ => unexpected_state
      end
    | DlcChannelEvent.CollaborativeCloseOffered _ =>
      match Channel.kind channel with
      | Signed signed_channel =>
        match SignedChannel.state signed_channel with
        | CollaborativeCloseOffered _ =>
          c_execute (set_channel_collab_closing now (Channel.get_id channel) (close_tx_txid channel))
        | _ => unexpected_state
        end
      | _ => unexpected_state
      end
    | DlcChannelEvent.Closed _ | DlcChannelEvent.CounterClosed _ =>
      handle_force_closed_event channel reference_id
    | DlcChannelEvent.CollaborativelyClosed _ => handle_collaboratively_closed_event channel reference_id
    | DlcChannelEvent.FailedAccept _ | DlcChannelEvent.FailedSign _ => failed
    | DlcChannelEvent.Cancelled _ =>
      protocol_id ← c_try (protocol_id_try_from reference_id);
      c_execute (set_channel_cancelled now protocol_id)
    | _ => mret tt
    end
  end.
End Channels.

(** ** What events do to the rows *)

Section Events.
Context `{DL : DecimalLib} `{BL : BitcoinLib} `{IL : IdLib} `{DLC : !DlcLib} `{ML : !DlcMessagesLib}.
Context `{TX : TxidLib} `{TL : !ChannelTxLib}.

(** The channel of the event, and what happens to its row: nothing for the
    intermediate states. *)
Definition event_row (e : DlcChannelEvent.t) (pid : ProtocolId) (channel_id : DlcChannelId)
    (r : DlcChannelRow.t) : bool :=
  match e with
  | DlcChannelEvent.FailedAccept _ | DlcChannelEvent.FailedSign _ | DlcChannelEvent.Cancelled _
  | DlcChannelEvent.Deleted _ => opened_by pid r
  | _ => has_channel_id channel_id r
  end.
Definition event_state (e : DlcChannelEvent.t) (state : DbDlcChannelState.t) : DbDlcChannelState.t :=
  match e with
  | DlcChannelEvent.SettledClosing _ | DlcChannelEvent.Closing _ | DlcChannelEvent.ClosedPunished _
  | DlcChannelEvent.CollaborativeCloseOffered _ => DbDlcChannelState.Closing
  | DlcChannelEvent.Closed _ | DlcChannelEvent.CounterClosed _ | DlcChannelEvent.CollaborativelyClosed _ =>
    DbDlcChannelState.Closed
  | DlcChannelEvent.FailedAccept _ | DlcChannelEvent.FailedSign _ | DlcChannelEvent.Deleted _ =>
    DbDlcChannelState.Failed
  | DlcChannelEvent.Cancelled _ => DbDlcChannelState.Cancelled
  | _ => state
  end.
(** The events that make, open or update a row. *)
Definition is_update_event (e : DlcChannelEvent.t) : bool :=
  match e with
  | DlcChannelEvent.Offered _ | DlcChannelEvent.Established _ | DlcChannelEvent.Settled _ => true
  | _ => false
  end.

(** Only the state, the reserves and the transactions of a row change. *)
Definition same_channel (r r' : DlcChannelRow.t) : Prop :=
  DlcChannelRow.open_protocol_id r' = DlcChannelRow.open_protocol_id r /\
  DlcChannelRow.trader_pubkey r' = DlcChannelRow.trader_pubkey r /\
  DlcChannelRow.channel_id r' = DlcChannelRow.channel_id r /\
  DlcChannelRow.trader_reserve_sats r' = DlcChannelRow.trader_reserve_sats r /\
  DlcChannelRow.coordinator_reserve_sats r' = DlcChannelRow.coordinator_reserve_sats r.

Definition row_moves (p : DlcChannelRow.t -> bool) (state : DbDlcChannelState.t -> DbDlcChannelState.t)
    (l l' : list DlcChannelRow.t) : Prop :=
  Forall2 (fun r r' => same_channel r r' /\
    DlcChannelRow.channel_state r' = if p r then state (DlcChannelRow.channel_state r) else DlcChannelRow.channel_state r) l l'.

Lemma row_moves_update p state f l :
  (forall r, same_channel r (f r) /\ DlcChannelRow.channel_state (f r) = state (DlcChannelRow.channel_state r)) ->
  row_moves p state l (update_rows p f l).
Proof using Type.
  intros Hf. unfold row_moves, update_rows. induction l as [|r l IH]; cbn; constructor; [|exact IH].
  destruct (p r); [apply Hf|]. by split_and!.
Qed.

Lemma row_moves_refl p (state : DbDlcChannelState.t -> DbDlcChannelState.t) l :
  (forall x, state x = x) -> row_moves p state l l.
Proof using Type.
  intros Hs. unfold row_moves. induction l as [|r l IH]; constructor; [|exact IH].
  split; [by split_and!|]. by destruct (p r).
Qed.

Lemma c_execute_update_ok p (f : DlcChannelRow.t -> DlcChannelRow.t) (s s' : Coordinator.t) u :
  c_execute (execute (update p f)) s = (Ok u, s') ->
  db_of s' = set_rows (update_rows p f (rows (db_of s))) (db_of s).
Proof using Type.
  unfold c_execute, c_query, c_db, c_node, on_db, with_err, mbind, M_bind, db_of. cbn.
  by intros [= <- <-].
Qed.

Lemma c_execute_moves (p : DlcChannelRow.t -> bool) state f (s s' s0 : Coordinator.t) u :
  (forall r, same_channel r (f r) /\ DlcChannelRow.channel_state (f r) = state (DlcChannelRow.channel_state r)) ->
  rows (R := DlcChannelRow.t) (db_of s) = rows (db_of s0) ->
  c_execute (execute (update p f)) s = (Ok u, s') ->
  row_moves p state (rows (db_of s0)) (rows (db_of s')).
Proof using Type. intros Hf Hs ->%c_execute_update_ok. rewrite rows_set_rows, Hs. by apply row_moves_update. Qed.

(** What handling does before it updates the row. *)
Lemma c_steps_rows {A} (m : CoordinatorM A) s a s' :
  steps (on_coordinator_db (keeps DlcChannelRow.t)) m -> m s = (Ok a, s') ->
  rows (R := DlcChannelRow.t) (db_of s') = rows (db_of s).
Proof using Type. intros Hm Hr. specialize (Hm s). by rewrite Hr in Hm. Qed.

Lemma throw_frame {A} (e : Anyhow) : steps (on_coordinator_db (keeps DlcChannelRow.t)) (throw e : CoordinatorM A).
Proof using Type. apply steps_throw, _. Qed.
Lemma unexpected_frame {A} : steps (on_coordinator_db (keeps DlcChannelRow.t)) (unexpected_state (A := A)).
Proof using Type. apply throw_frame. Qed.
#[local] Hint Resolve throw_frame unexpected_frame : sql.

Lemma handle_closing_moves now channel (s s' : Coordinator.t) u :
  handle_closing_event now channel s = (Ok u, s') ->
  row_moves (has_channel_id (Channel.get_id channel)) (fun _ => DbDlcChannelState.Closing)
    (rows (db_of s)) (rows (db_of s')).
Proof.
  intros (v & s1 & H1 & (t & s2 & H2 & H3)%M_bind_ok)%M_bind_ok.
  eapply c_execute_moves; [|..|exact H3]; [by intros r; split_and!|].
  transitivity (rows (R := DlcChannelRow.t) (db_of s1)).
  - eapply c_steps_rows; [|exact H2]. solve_steps.
  - eapply c_steps_rows; [|exact H1]. unfold c_execute. apply steps_bind; [apply _| |intros; apply steps_ret, _].
    apply c_query_frame. unfold set_open_position_to_closing. solve_steps.
Qed.

Lemma handle_settled_closing_moves now channel (s s' : Coordinator.t) u :
  handle_settled_closing_event now channel s = (Ok u, s') ->
  row_moves (has_channel_id (Channel.get_id channel)) (fun _ => DbDlcChannelState.Closing)
    (rows (db_of s)) (rows (db_of s')).
Proof.
  intros (v & s1 & H1 & H3)%M_bind_ok. eapply c_execute_moves; [|..|exact H3]; [by intros r; split_and!|].
  eapply c_steps_rows; [|exact H1]. solve_steps.
Qed.

Lemma get_stored_channel_frame channel_id : steps (keeps DlcChannelRow.t) (get_stored_channel channel_id).
Proof using Type. unfold get_stored_channel. solve_steps. Qed.
#[local] Hint Resolve get_stored_channel_frame : sql.

Lemma pnl_frame channel_id cet :
  steps (on_coordinator_db (keeps DlcChannelRow.t)) (calculate_trader_realized_pnl_from_cet channel_id cet).
Proof. unfold calculate_trader_realized_pnl_from_cet, c_try, get_stored_channel. solve_steps; apply c_query_frame; solve_steps. Qed.

#[local] Hint Resolve pnl_frame : sql.

Lemma get_contract_frame id : steps (on_coordinator_db (keeps DlcChannelRow.t)) (c_node (get_contract_by_id id)).
Proof.
  intros s. unfold c_node, get_contract_by_id, read_dlc, on_coordinator_db, db_of. cbn. reflexivity.
Qed.

Lemma handle_force_closed_moves now channel ref (s s' : Coordinator.t) u :
  handle_force_closed_event now channel ref s = (Ok u, s') ->
  row_moves (has_channel_id (Channel.get_id channel)) (fun _ => DbDlcChannelState.Closed)
    (rows (db_of s)) (rows (db_of s')).
Proof.
  intros Hrun. unfold handle_force_closed_event in Hrun.
  apply M_bind_ok in Hrun as (pid & s1 & [_ ->]%lift_ok & Hrun).
  apply M_bind_ok in Hrun as (p & s1 & H1 & Hrun).
  apply M_bind_ok in Hrun as (cid & s2 & [_ ->]%lift_ok & Hrun).
  apply M_bind_ok in Hrun as (contract & s2 & H2 & Hrun).
  apply M_bind_ok in Hrun as (contract' & s3 & [_ ->]%lift_ok & Hrun).
  apply M_bind_ok in Hrun as (position & s3 & H3 & Hrun).
  apply M_bind_ok in Hrun as (position' & s4 & [_ ->]%lift_ok & Hrun).
  apply M_bind_ok in Hrun as ([price pnl] & s4 & H4 & Hrun).
  apply M_bind_ok in Hrun as (v & s5 & H5 & Hrun).
  apply c_steps_rows in H1; [|apply c_read_frame; [apply _|apply get_dlc_protocol_reads]].
  apply c_steps_rows in H2; [|apply get_contract_frame].
  apply c_steps_rows in H3; [|apply c_read_frame; [apply _|unfold get_position_by_trader; solve_steps]].
  assert (H4' : rows (R := DlcChannelRow.t) (db_of s4) = rows (db_of s3)).
  { eapply c_steps_rows; [|exact H4]. unfold c_try. solve_steps. }
  clear H4.
  apply c_steps_rows in H5; [|unfold c_execute; apply steps_bind; [apply _| |intros; apply steps_ret, _]; apply c_query_frame; unfold set_position_to_closed_with_pnl; solve_steps].
  assert (Hs : rows (R := DlcChannelRow.t) (db_of s5) = rows (db_of s)) by congruence.
  destruct (Channel.kind channel); try discriminate Hrun.
  all: (eapply c_execute_moves; [|exact Hs|exact Hrun]); by intros r; split_and!.
Qed.

Lemma handle_collaboratively_closed_moves debug now channel ref (s s' : Coordinator.t) u :
  handle_collaboratively_closed_event debug now channel ref s = (Ok u, s') ->
  row_moves (has_channel_id (Channel.get_id channel)) (fun _ => DbDlcChannelState.Closed)
    (rows (db_of s)) (rows (db_of s')).
Proof using All.
  intros Hrun. unfold handle_collaboratively_closed_event in Hrun.
  apply M_bind_ok in Hrun as (pid & s1 & [_ ->]%lift_ok & Hrun).
  apply M_bind_ok in Hrun as (v & s1 & H1 & Hrun).
  apply c_steps_rows in H1; [|unfold finish_protocol; apply steps_bind; [apply _| |intros; apply c_feed_frame, _];
    apply c_db_frame, finish_dlc_protocol_frame].
  destruct (Channel.kind channel); try discriminate Hrun.
  all: (eapply c_execute_moves; [|exact H1|exact Hrun]); by intros r; split_and!.
Qed.

(** The coordinator's row of a channel follows what becomes of the channel: an
    event of the channel moves the row with the channel's id to the state of the
    event ([Closing] once a transaction that ends the channel is on its way,
    [Closed] once it is there), an event that ends the opening of a channel moves
    the row of the protocol that opened it; every other row, and whose the channel
    is and what both parties have reserved, are as before. *)
Theorem channel_event_moves_row (debug : bool) (now : OffsetDateTime) (e : DlcChannelEvent.t)
    (s s' : Coordinator.t) (u : unit) (ref : ReferenceId) (pid : ProtocolId) (channel : Channel.t)
    (Href : DlcChannelEvent.get_reference_id e = Some ref) (Hpid : protocol_id_try_from ref = Ok pid)
    (Hchannel : (forall r, e <> DlcChannelEvent.Deleted r) ->
       c_node (get_dlc_channel_by_reference_id ref) s = (Ok channel, s))
    (Hkind : is_update_event e = false)
    (Hrun : process_dlc_channel_event debug now e s = (Ok u, s')) :
  row_moves (event_row e pid (Channel.get_id channel)) (event_state e) (rows (db_of s)) (rows (db_of s')).
Proof using All.
  unfold process_dlc_channel_event in Hrun. rewrite Href in Hrun.
  apply M_bind_ok in Hrun as (x & s0 & [= <- <-] & Hrun).
  assert (Hfailed : forall p f, (forall r, same_channel r (f r) /\ DlcChannelRow.channel_state (f r) =
      event_state e (DlcChannelRow.channel_state r)) ->
    (protocol_id ← c_try (protocol_id_try_from ref); c_execute (execute (update (p protocol_id) f))) s = (Ok u, s') ->
    row_moves (p pid) (event_state e) (rows (db_of s)) (rows (db_of s'))).
  { intros p f Hf (x & s0 & [Hx%map_err_ok ->]%lift_ok & H)%M_bind_ok. rewrite Hpid in Hx. injection Hx as <-.
    by eapply c_execute_moves; [exact Hf| |exact H]. }
  assert (He : (exists r, e = DlcChannelEvent.Deleted r) \/ forall r, e <> DlcChannelEvent.Deleted r)
    by (destruct e; eauto).
  destruct He as [[r ->]|He].
  { apply (Hfailed opened_by _) in Hrun; [exact Hrun|by intros q; split_and!]. }
  specialize (Hchannel He).
  destruct e; try discriminate Hkind; try (exfalso; by eapply He).
  all: apply M_bind_ok in Hrun as (c & s0 & Hc & Hrun); rewrite Hchannel in Hc; injection Hc as <- <-.
  all: try (injection Hrun as _ <-; by apply row_moves_refl).
  all: first
    [ eapply handle_settled_closing_moves; exact Hrun
    | eapply handle_closing_moves; exact Hrun
    | eapply handle_force_closed_moves; exact Hrun
    | eapply handle_collaboratively_closed_moves; exact Hrun
    | apply (Hfailed opened_by) in Hrun; [exact Hrun|by intros q; split_and!]
    | idtac ].
  all: destruct (Channel.kind channel); try discriminate Hrun.
  1: destruct (SignedChannel.state signed_channel); try discriminate Hrun.
  all: (eapply c_execute_moves; [|reflexivity|exact Hrun]); by intros q; split_and!.
Qed.
End Events.

(** ** A position closed on chain *)

Section ForceClosed.
Context `{DL : DecimalLib} `{BL : BitcoinLib} `{IL : IdLib} `{DLC : !DlcLib} `{ML : !DlcMessagesLib}.
Context `{TX : TxidLib} `{TL : !ChannelTxLib}.

Definition total (l : list Z) : Z := foldr Z.add 0 l.

Lemma sum_u64_ok {E} l a x : sum_u64 (E := E) a l = Ok x -> x = a + total l.
Proof using Type.
  revert a; induction l as [|y l IH]; intros a; cbn; [intros [= ->]; lia|].
  intros (b & [-> _]%u64_add_ok & H%IH)%outcome_bind_ok. unfold total in H. lia.
Qed.

Lemma c_query_ok {A} (m : Sql A) (s s' : Coordinator.t) a : c_query m s = (Ok a, s') ->
  exists d', m (db_of s) = (Ok a, d') /\ s' = with_db d' s.
Proof using Type.
  unfold c_query. rewrite c_db_run. unfold with_err. destruct (m (db_of s)) as [[x|x|] d'] eqn:Hm; cbn; try done.
  intros [= -> <-]. by exists d'.
Qed.

Lemma with_db_same (s : Coordinator.t) : with_db (db_of s) s = s.
Proof using Type. by destruct s as [[] ? ? ? ?]. Qed.

Lemma c_query_reads {A} (m : Sql A) (s s' : Coordinator.t) a : read_only m -> c_query m s = (Ok a, s') ->
  m (db_of s) = (Ok a, db_of s) /\ s' = s.
Proof using Type.
  intros Hm (d' & Hd & ->)%c_query_ok. assert (d' = db_of s) as -> by (eapply read_only_run; [exact Hm|exact Hd]).
  split; [exact Hd|apply with_db_same].
Qed.

(** The payout of the trader less what the channel's row says they had reserved. *)
Lemma calculate_pnl_from_cet_ok channel_id cet (s s' : Coordinator.t) pnl :
  calculate_trader_realized_pnl_from_cet channel_id cet s = (Ok pnl, s') ->
  s' = s /\ exists row, head (List.filter (has_channel_id channel_id) (rows (db_of s))) = Some row /\
    (0 <= total (trader_outputs cet) < 2 ^ 63 -> 0 <= DlcChannelRow.trader_reserve_sats row < 2 ^ 63 ->
     pnl = total (trader_outputs cet) - DlcChannelRow.trader_reserve_sats row).
Proof using Type.
  unfold calculate_trader_realized_pnl_from_cet.
  intros (payout & s1 & [Hsum%sum_u64_ok ->]%lift_ok & H)%M_bind_ok.
  apply M_bind_ok in H as (c & s1 & [Hc ->]%c_query_reads & H); [|unfold get_stored_channel; solve_steps].
  apply M_bind_ok in H as (c' & s1 & [Hc'%map_err_ok%ok_or_ok ->]%lift_ok & [Hpnl ->]%lift_ok). subst c.
  split; [done|]. unfold get_stored_channel in Hc.
  apply M_bind_ok in Hc as (o & d1 & Ho & Hc). rewrite optional_first_run in Ho. injection Ho as <- <-.
  destruct (head _) as [row|] eqn:Hrow; [|discriminate Hc]. exists row. split; [done|].
  apply M_fmap_ok in Hc as (ch & [Hch _]%lift_ok & [= ->]).
  intros Hp Hr. apply expect_ok in Hpnl. unfold checked_i64 in Hpnl. destruct (in_i64 _); [|done]. injection Hpnl as <-.
  unfold dlc_channel_from in Hch. inv_ok. subst. cbn [DlcChannel.trader_reserve_sats].
  rewrite (as_i64_small (as_u64 _)) by (unfold as_u64; rewrite Z.mod_small; lia).
  rewrite as_i64_small by lia. unfold as_u64. rewrite Z.mod_small; lia.
Qed.

Lemma unexpected_not_ok {A} (s s' : Coordinator.t) (a : A) : unexpected_state s <> (Ok a, s').
Proof using Type. done. Qed.

Lemma set_closed_ok now id pnl price (s s' : Coordinator.t) u :
  c_execute (set_position_to_closed_with_pnl now id pnl price) s = (Ok u, s') ->
  exists p, db_of s' = set_rows (update_rows (PositionsDb.has_id id) (fun r =>
    PositionRow.with_closing_price (Some p) (PositionRow.with_update_timestamp now
      (PositionRow.with_trader_realized_pnl_sat (Some pnl)
        (PositionRow.with_position_state DbPositionState.Closed r)))) (rows (db_of s))) (db_of s).
Proof using Type.
  intros (n & s1 & (d' & (p & d1 & [_ ->]%lift_ok & [_ ->]%execute_ok)%M_bind_ok & ->)%c_query_ok & [= _ <-])%M_bind_ok.
  by exists p.
Qed.

(** When a channel ends on chain, the coordinator closes the position and its
    row of the channel.  The profit it books is what the contract paid the trader
    less what they had reserved in the channel; no trade is recorded, and the
    protocol is left as it was.  The contract pays back the margin as well, so the
    margin is part of the profit booked here, which it is not when a position is
    settled ([finish_settle_effect]). *)
Theorem force_closed_books_margin (now : OffsetDateTime) (channel : Channel.t) (ref : ReferenceId)
    (s s' : Coordinator.t) (u : unit) (pid : ProtocolId) (p : DlcProtocol.t) (cid : ContractId)
    (contract : Contract ContractDescriptor) (attestations : list OracleAttestation) (cet : list TxOut.t)
    (chan : DlcChannelRow.t) (margin profit : Z)
    (Hpid : protocol_id_try_from ref = Ok pid)
    (Hp : (get_dlc_protocol pid (db_of s)).1 = Ok p) (Hcid : DlcProtocol.contract_id p = Some cid)
    (Hcontract : store_contract cid (NodeState.dlc (Coordinator.node s)) = Ok (Some contract))
    (Hclosed : contract = PreClosedContract (Some attestations) cet \/
               contract = ClosedContract (Some attestations) (Some cet))
    (Hchan : head (List.filter (has_channel_id (DlcProtocol.channel_id p)) (rows (db_of s))) = Some chan)
    (Hreserve : 0 <= DlcChannelRow.trader_reserve_sats chan < 2 ^ 63)
    (Hpayout : total (trader_outputs cet) = DlcChannelRow.trader_reserve_sats chan + margin + profit)
    (Hbounds : 0 <= total (trader_outputs cet) < 2 ^ 63)
    (Hrun : handle_force_closed_event now channel ref s = (Ok u, s')) :
  exists row price,
    latest PositionRow.creation_timestamp
      (List.filter (fun q => is_trader (pk_to_string (DlcProtocol.trader p)) q
         && in_states [PositionState.Closing f32_zero] q) (rows (db_of s))) = Some row /\
    rows (db_of s') = update_rows (PositionsDb.has_id (PositionRow.id row)) (fun r =>
      PositionRow.with_closing_price (Some price) (PositionRow.with_update_timestamp now
        (PositionRow.with_trader_realized_pnl_sat (Some (margin + profit))
          (PositionRow.with_position_state DbPositionState.Closed r)))) (rows (db_of s)) /\
    rows (db_of s') = update_rows (has_channel_id (Channel.get_id channel)) (fun r =>
      DlcChannelRow.with_close_txid (Some (txid_to_string (closing_txid_of channel)))
        (move_channel now DbDlcChannelState.Closed r)) (rows (db_of s)) /\
    rows (R := TradeRow.t) (db_of s') = rows (db_of s) /\
    rows (R := DlcProtocolRow.t) (db_of s') = rows (db_of s).
Proof using Type.
  unfold handle_force_closed_event in Hrun.
  apply M_bind_ok in Hrun as (x & s0 & [Hx%map_err_ok ->]%lift_ok & Hrun). rewrite Hpid in Hx. injection Hx as <-.
  apply M_bind_ok in Hrun as (y & s0 & [Hy ->]%c_query_reads & Hrun); [|apply get_dlc_protocol_reads].
  rewrite Hy in Hp. injection Hp as ->.
  apply M_bind_ok in Hrun as (c & s0 & [Hc%map_err_ok%ok_or_ok ->]%lift_ok & Hrun). rewrite Hcid in Hc. injection Hc as <-.
  apply M_bind_ok in Hrun as (o & s0 & Ho & Hrun).
  unfold c_node, get_contract_by_id, read_dlc in Ho. rewrite Hcontract in Ho.
  assert (s0 = s) as -> by (injection Ho as _ <-; by destruct s as [[] ? ? ? ?]). injection Ho as <-.
  apply M_bind_ok in Hrun as (c & s0 & [Hc%map_err_ok%ok_or_ok ->]%lift_ok & Hrun). injection Hc as <-.
  apply M_bind_ok in Hrun as (q & s0 & [Hq ->]%c_query_reads & Hrun); [|unfold get_position_by_trader; solve_steps].
  apply M_bind_ok in Hrun as (position & s0 & [Hpos%map_err_ok%ok_or_ok ->]%lift_ok & Hrun). subst q.
  apply get_position_ok in Hq as (_ & row & Hrow & Hfrom). apply position_from_row_id in Hfrom.
  apply M_bind_ok in Hrun as ([price pnl] & s0 & Hpnl & Hrun).
  assert (pnl = margin + profit /\ s0 = s) as [-> ->].
  { assert (Hpnl' : (trader_realized_pnl_sat ←
        calculate_trader_realized_pnl_from_cet (DlcProtocol.channel_id p) cet;
      closing_price ← c_try (attested_price attestations);
      mret (closing_price, trader_realized_pnl_sat)) s = (Ok (price, pnl), s0)) by (by destruct Hclosed; subst contract).
    apply M_bind_ok in Hpnl' as (z & s1 & [-> (chan' & Hchan' & Hz)]%calculate_pnl_from_cet_ok & Hw).
    apply M_bind_ok in Hw as (w & s1 & [_ ->]%lift_ok & Hw). injection Hw as _ -> <-.
    rewrite Hchan in Hchan'. injection Hchan' as <-. split; [|done]. specialize (Hz Hbounds Hreserve). lia. }
  apply M_bind_ok in Hrun as (v & s1 & (price' & Hs1)%set_closed_ok & Hrun).
  assert (Hs' : db_of s' = set_rows (update_rows (has_channel_id (Channel.get_id channel)) (fun r =>
      DlcChannelRow.with_close_txid (Some (txid_to_string (closing_txid_of channel)))
        (move_channel now DbDlcChannelState.Closed r)) (rows (db_of s1))) (db_of s1)).
  { destruct (Channel.kind channel); try (by destruct (unexpected_not_ok _ _ _ Hrun)).
    all: exact (c_execute_update_ok _ _ _ _ _ Hrun). }
  exists row, price'. rewrite Hs', Hs1, Hfrom. split_and!; [exact Hrow|reflexivity..].
Qed.
End ForceClosed.

(** ** A channel that is opened *)

Section Opened.
Context `{DL : DecimalLib} `{BL : BitcoinLib} `{ILaws : IdLaws} `{DLC : !DlcLib} `{ML : !DlcMessagesLib}.
Context `{TXL : TxidLaws} `{TL : !ChannelTxLib}.

Lemma c_node_reads {A} (m : NodeM A) (s s' : Coordinator.t) a : read_only m -> c_node m s = (Ok a, s') ->
  m (Coordinator.node s) = (Ok a, Coordinator.node s) /\ s' = s.
Proof using Type.
  intros Hm Hrun. unfold c_node in Hrun. destruct (m (Coordinator.node s)) as [r n] eqn:Hn.
  assert (n = Coordinator.node s) as -> by (eapply read_only_run; [exact Hm|exact Hn]).
  injection Hrun as -> <-. split; [done|by destruct s].
Qed.

Lemma c_execute_ok (m : Sql nat) (s s' : Coordinator.t) u : c_execute m s = (Ok u, s') ->
  exists n d', m (db_of s) = (Ok n, d') /\ s' = with_db d' s.
Proof using Type.
  intros (n & s1 & (d' & Hm & ->)%c_query_ok & [= _ <-])%M_bind_ok. by exists n, d'.
Qed.

(** The event [Established] of a channel that was opened. *)
Lemma established_opens debug now ref pid channel sc tp (s s' : Coordinator.t) u :
  protocol_id_try_from ref = Ok pid ->
  c_node (get_dlc_channel_by_reference_id ref) s = (Ok channel, s) -> Channel.kind channel = Signed sc ->
  (exists p, (get_dlc_protocol pid (db_of s)).1 = Ok p /\ DlcProtocol.protocol_type p = DlcProtocolType.OpenChannel tp) ->
  process_dlc_channel_event debug now (DlcChannelEvent.Established (Some ref)) s = (Ok u, s') ->
  exists trader_reserve coordinator_reserve,
    (get_dlc_channel_usable_balance_counterparty (SignedChannel.channel_id sc) (Coordinator.node s)).1 = Ok trader_reserve /\
    (get_dlc_channel_usable_balance (SignedChannel.channel_id sc) (Coordinator.node s)).1 = Ok coordinator_reserve /\
    rows (db_of s') = update_rows (opened_by pid) (fun r =>
      DlcChannelRow.with_funding_txid (Some (txid_to_string (fund_tx_txid sc)))
        (DlcChannelRow.with_channel_id (hex_encode (Channel.get_id channel))
          (DlcChannelRow.with_coordinator_funding_sats (as_i64 (SignedChannel.own_collateral sc))
            (DlcChannelRow.with_trader_funding_sats (as_i64 (SignedChannel.counter_collateral sc))
              (set_reserves coordinator_reserve trader_reserve
                (move_channel now DbDlcChannelState.Open r)))))) (rows (db_of s)).
Proof using Type.
  intros Hpid Hc Hk (p & Hp & Ht) Hrun. unfold process_dlc_channel_event in Hrun. cbn [DlcChannelEvent.get_reference_id] in Hrun.
  apply M_bind_ok in Hrun as (x & s0 & [= <- <-] & Hrun).
  apply M_bind_ok in Hrun as (c & s0 & Hc' & Hrun). rewrite Hc in Hc'. injection Hc' as <- <-.
  unfold handle_updated_event in Hrun. rewrite Hk in Hrun.
  apply M_bind_ok in Hrun as (sc' & s0 & [= <- <-] & Hrun).
  apply M_bind_ok in Hrun as (tr & s0 & [Htr ->]%c_node_reads & Hrun); [|apply usable_balance_counterparty_reads].
  apply M_bind_ok in Hrun as (cr & s0 & [Hcr ->]%c_node_reads & Hrun); [|apply usable_balance_reads].
  apply M_bind_ok in Hrun as (x & s0 & [Hx%map_err_ok ->]%lift_ok & Hrun). rewrite Hpid in Hx. injection Hx as <-.
  apply M_bind_ok in Hrun as (p' & s0 & [Hp' ->]%c_query_reads & Hrun); [|apply get_dlc_protocol_reads].
  rewrite Hp' in Hp. injection Hp as ->. rewrite Ht in Hrun. apply c_execute_update_ok in Hrun.
  exists tr, cr. split_and!; [by rewrite Htr|by rewrite Hcr|]. rewrite Hrun. apply rows_set_rows.
Qed.

Lemma offered_inserts debug now ref pid channel (s s' : Coordinator.t) u :
  protocol_id_try_from ref = Ok pid -> c_node (get_dlc_channel_by_reference_id ref) s = (Ok channel, s) ->
  process_dlc_channel_event debug now (DlcChannelEvent.Offered (Some ref)) s = (Ok u, s') ->
  exists id, rows (db_of s') = rows (db_of s) ++ [DlcChannelRow.mk id pid (hex_encode (Channel.get_id channel))
    (pk_to_string (Channel.get_counter_party_id channel)) DbDlcChannelState.Pending 0 0 None None None None None None
    now now 0 0].
Proof using Type.
  intros Hpid Hc Hrun. unfold process_dlc_channel_event in Hrun. cbn [DlcChannelEvent.get_reference_id] in Hrun.
  apply M_bind_ok in Hrun as (x & s0 & [= <- <-] & Hrun).
  apply M_bind_ok in Hrun as (c & s0 & Hc' & Hrun). rewrite Hc in Hc'. injection Hc' as <- <-.
  apply M_bind_ok in Hrun as (x & s0 & [Hx%map_err_ok ->]%lift_ok & Hrun). rewrite Hpid in Hx. injection Hx as <-.
  apply c_execute_ok in Hrun as (n & d' & Hins & ->).
  apply M_bind_ok in Hins as (row & d1 & [-> [_ ->]]%insert_ok & [= _ <-]).
  eexists. reflexivity.
Qed.

Lemma update_rows_app {R} (p : R -> bool) f l l' : update_rows p f (l ++ l') = update_rows p f l ++ update_rows p f l'.
Proof using Type. apply map_app. Qed.

(** C6: the coordinator knows a channel as it was opened: after the events that a
    channel of a new protocol was offered and then established, whatever happened
    to other tables in between, the stored channel is open, is the trader's, and
    has the id of the established channel, the balances both parties can use, what
    both put in, and the transaction that funds it. *)
Theorem opened_channel_reads_back (debug debug' : bool) (now later : OffsetDateTime) (ref : ReferenceId)
    (pid : ProtocolId) (offered channel : Channel.t) (sc : SignedChannel.t) (tp : ProtocolTradeParams.t)
    (s1 s2 s3 s4 : Coordinator.t) (u v : unit) (trader_reserve coordinator_reserve : Amount)
    (Hpid : protocol_id_try_from ref = Ok pid)
    (Hoffered : c_node (get_dlc_channel_by_reference_id ref) s1 = (Ok offered, s1))
    (Hfirst : process_dlc_channel_event debug now (DlcChannelEvent.Offered (Some ref)) s1 = (Ok u, s2))
    (Hsame : rows (R := DlcChannelRow.t) (db_of s3) = rows (db_of s2))
    (Hchannel : c_node (get_dlc_channel_by_reference_id ref) s3 = (Ok channel, s3))
    (Hsigned : Channel.kind channel = Signed sc)
    (Hp : exists p, (get_dlc_protocol pid (db_of s3)).1 = Ok p /\
            DlcProtocol.protocol_type p = DlcProtocolType.OpenChannel tp)
    (Htrader : (get_dlc_channel_usable_balance_counterparty (SignedChannel.channel_id sc)
                  (Coordinator.node s3)).1 = Ok trader_reserve)
    (Hcoordinator : (get_dlc_channel_usable_balance (SignedChannel.channel_id sc)
                       (Coordinator.node s3)).1 = Ok coordinator_reserve)
    (Hfresh : Forall (fun r => opened_by pid r = false /\ has_channel_id (Channel.get_id channel) r = false)
                (rows (db_of s1)))
    (Hid : length (Channel.get_id channel) = 32%nat)
    (Hamounts : Forall (fun a => 0 <= a < 2 ^ 64) [trader_reserve; coordinator_reserve;
       SignedChannel.own_collateral sc; SignedChannel.counter_collateral sc])
    (Hsecond : process_dlc_channel_event debug' later (DlcChannelEvent.Established (Some ref)) s3 = (Ok v, s4)) :
  get_stored_channel (Channel.get_id channel) (db_of s4) = (Ok (Some (DlcChannel.mk (Channel.get_id channel)
    (Channel.get_counter_party_id offered) DlcChannelState.Open trader_reserve coordinator_reserve
    (SignedChannel.own_collateral sc) (SignedChannel.counter_collateral sc) (Some (fund_tx_txid sc))
    None None None None None now later)), db_of s4).
Proof using ILaws TXL.
  destruct (offered_inserts _ _ _ _ _ _ _ _ Hpid Hoffered Hfirst) as [i Hrows].
  destruct (established_opens _ _ _ _ _ _ _ _ _ _ Hpid Hchannel Hsigned Hp Hsecond) as (tr & cr & Htr & Hcr & Hrows4).
  rewrite Htrader in Htr. rewrite Hcoordinator in Hcr. injection Htr as <-. injection Hcr as <-.
  rewrite Hsame, Hrows, update_rows_app, (update_rows_none _ _ (rows (db_of s1))) in Hrows4
    by (apply filter_none; intros r Hr; rewrite Forall_forall in Hfresh; by apply Hfresh).
  cbn [update_rows map] in Hrows4. unfold opened_by in Hrows4 at 1. cbn [DlcChannelRow.open_protocol_id] in Hrows4.
  rewrite Z.eqb_refl in Hrows4.
  unfold get_stored_channel, mbind, M_bind. rewrite optional_first_run, Hrows4, head_filter_app_none; cycle 1.
  { apply filter_none. intros r Hr. rewrite Forall_forall in Hfresh. by apply Hfresh. }
  { unfold has_channel_id. by apply bool_decide_eq_true. }
  rewrite !Forall_cons in Hamounts. destruct Hamounts as (? & ? & ? & ? & _).
  unfold fmap, M_fmap, lift, dlc_channel_from. cbn -[as_u64 as_i64].
  rewrite hex_roundtrip, pk_roundtrip, txid_roundtrip by done. cbn -[as_u64 as_i64].
  by rewrite !as_u64_as_i64 by done.
Qed.
End Opened.

(** ** Evaluated *)

#[export] Instance demo_txid : TxidLib :=
  {| Txid := string; txid_to_string t := t; txid_from_str := Some |}.
#[export] Instance demo_txid_laws : TxidLaws demo_txid.
Proof. by constructor. Qed.

(** Every transaction has a name, and no output is the coordinator's; prices are
    as long as their digits. *)
#[export] Instance demo_channel_tx : ChannelTxLib (DLC := demo_dlc) (TX := demo_txid) := {|
  fund_tx_txid _ := "fund"%string : Txid (TxidLib := demo_txid);
  settle_transaction_txid _ := "settle"%string : Txid (TxidLib := demo_txid);
  claim_transaction_txid _ := "claim"%string : Txid (TxidLib := demo_txid);
  buffer_transaction_txid _ := "buffer"%string : Txid (TxidLib := demo_txid);
  punish_txid_of _ := "punish"%string : Txid (TxidLib := demo_txid);
  close_tx_txid _ := "close"%string : Txid (TxidLib := demo_txid);
  closing_txid_of _ := "closing"%string : Txid (TxidLib := demo_txid);
  is_mine _ := false;
  d_from_str_radix s _ := Some (d_from_u64 (Z.of_nat (String.length s)));
|}.

Definition demo_ref : ReferenceId := reference_id_from (H := demo_id) 40.
Definition demo_channel_of (kind : ChannelKind (H := demo_id)) : Channel.t :=
  Channel.mk kind demo_channel_id demo_trader (Some demo_ref) (Some (demo_id32 Byte.x03)).
Definition demo_channel_row (state : DbDlcChannelState.t) : DlcChannelRow.t :=
  DlcChannelRow.mk 1 40 (hex_encode demo_channel_id) "alice" state 1000 1000 None None None None None None 0 0 0 0.
Definition demo_with_channel (kind : ChannelKind (H := demo_id)) (contracts : list (ContractId * Contract (list Interval)))
    (d : Db.t) : Coordinator.t (DLC := demo_dlc) (H1 := demo_messages) :=
  Coordinator.mk (NodeState.mk d (DemoStore.mk [demo_channel_of kind] contracts []) [] []) [] [] [] [].

(** Alice's channel was force closed by its buffer transaction. *)
Example channel_event_moves_row_witness :
  let s := demo_with_channel Closing []
    (set_rows [demo_channel_row DbDlcChannelState.Open] (demo_positions DbPositionState.Open)) in
  exists s', process_dlc_channel_event true 5 (DlcChannelEvent.Closing (Some demo_ref)) s = (Ok tt, s') /\
    map DlcChannelRow.channel_state (rows (db_of s')) = [DbDlcChannelState.Closing].
Proof.
  cbn zeta. set (s := demo_with_channel _ _ _).
  destruct (succeeds (process_dlc_channel_event true 5 (DlcChannelEvent.Closing (Some demo_ref))) s) as ([] & s' & Hs).
  { by vm_compute. }
  exists s'. split; [exact Hs|].
  pose proof (channel_event_moves_row true 5 (DlcChannelEvent.Closing (Some demo_ref)) s s' tt demo_ref 40
    (demo_channel_of Closing) eq_refl eq_refl (fun _ => eq_refl) eq_refl Hs) as Hmoves.
  inversion Hmoves as [|? r ? l' [_ Hr] Hl]. inversion Hl. cbn. by rewrite Hr.
Defined.

(** Alice had 1,000 in reserve and 250,000 at stake, and gets 261,000. *)
Example force_closed_books_margin_witness :
  let cet := [TxOut.mk 261000 []] in
  let s := demo_with_channel Closed [(demo_contract, PreClosedContract (Some [["10"%string]]) cet)]
    (set_rows [demo_channel_row DbDlcChannelState.Closing]
      (set_rows [DlcProtocolRow.mk 1 40 None (hex_encode demo_channel_id) (Some (hex_encode demo_contract))
         DbProtocolState.Success "alice" 0 DbProtocolType.OpenPosition]
        (demo_protocol_db DbProtocolType.OpenPosition DbPositionState.Closing))) in
  exists s', handle_force_closed_event 5 (demo_channel_of Closed) demo_ref s = (Ok tt, s') /\
    map PositionRow.trader_realized_pnl_sat (rows (db_of s')) = [Some 260000].
Proof.
  cbn zeta. set (s := demo_with_channel _ _ _).
  destruct (succeeds (handle_force_closed_event 5 (demo_channel_of Closed) demo_ref) s) as ([] & s' & Hs).
  { by vm_compute. }
  exists s'. split; [exact Hs|].
  assert (Hok : is_ok (get_dlc_protocol (DL := demo_decimal) (IL := demo_id) 40 (db_of s)).1 = true) by by vm_compute.
  destruct (get_dlc_protocol 40 (db_of s)).1 as [p| |] eqn:Hp; [|discriminate Hok..].
  assert (Hcid : DlcProtocol.contract_id p = Some demo_contract /\ DlcProtocol.channel_id p = demo_channel_id /\
    DlcProtocol.trader p = demo_trader) by (by injection Hp as <-).
  destruct Hcid as (Hcid & Hch & Htr).
  destruct (force_closed_books_margin 5 (demo_channel_of Closed) demo_ref s s' tt 40 p demo_contract
    (PreClosedContract (Some [["10"%string]]) [TxOut.mk 261000 []]) [["10"%string]] [TxOut.mk 261000 []]
    (demo_channel_row DbDlcChannelState.Closing) 250000 10000) as (row & price & Hrow & Hrows & _).
  - reflexivity.
  - exact Hp.
  - exact Hcid.
  - reflexivity.
  - by left.
  - by rewrite Hch.
  - cbn. lia.
  - reflexivity.
  - cbn. lia.
  - exact Hs.
  - rewrite Htr in Hrow. injection Hrow as <-. by rewrite Hrows.
Defined.

(** A channel with half a million in it, of which alice can use 1,000. *)
Definition demo_opened : SignedChannel.t (H := demo_id) :=
  SignedChannel.mk demo_channel_id demo_trader (Settled 499000 1000) 250000 250000.
Definition demo_offering : Coordinator.t (DLC := demo_dlc) (H1 := demo_messages) :=
  demo_with_channel Offered [] (demo_protocol_db DbProtocolType.OpenChannel DbPositionState.Proposed).

Example opened_channel_reads_back_witness :
  exists s2 s4,
    process_dlc_channel_event true 5 (DlcChannelEvent.Offered (Some demo_ref)) demo_offering = (Ok tt, s2) /\
    process_dlc_channel_event true 9 (DlcChannelEvent.Established (Some demo_ref))
      (demo_with_channel (Signed demo_opened) [] (db_of s2)) = (Ok tt, s4) /\
    (get_stored_channel demo_channel_id (db_of s4)).1 = Ok (Some (DlcChannel.mk (H0 := demo_txid) demo_channel_id
      demo_trader DlcChannelState.Open 1000 499000 250000 250000 (Some ("fund"%string : Txid (TxidLib := demo_txid)))
      None None None None None 5 9)).
Proof.
  destruct (succeeds (process_dlc_channel_event true 5 (DlcChannelEvent.Offered (Some demo_ref))) demo_offering) as ([] & s2 & Hs2).
  { by vm_compute. }
  assert (Hok : is_ok (process_dlc_channel_event true 9 (DlcChannelEvent.Established (Some demo_ref))
    (demo_with_channel (Signed demo_opened) [] (db_of (process_dlc_channel_event true 5
       (DlcChannelEvent.Offered (Some demo_ref)) demo_offering).2))).1 = true) by by vm_compute.
  rewrite Hs2 in Hok. cbn [snd] in Hok.
  destruct (succeeds _ _ Hok) as ([] & s4 & Hs4).
  exists s2, s4. split; [exact Hs2|]. split; [exact Hs4|].
  set (s3 := demo_with_channel (Signed demo_opened) [] (db_of s2)) in *.
  assert (Hp : exists p, (get_dlc_protocol 40 (db_of s3)).1 = Ok p /\
    DlcProtocol.protocol_type p = DlcProtocolType.OpenChannel (demo_params 21000)).
  { unfold s3. cbn [db_of demo_with_channel Coordinator.node NodeState.db].
    assert (H2 : db_of s2 = db_of (process_dlc_channel_event true 5 (DlcChannelEvent.Offered (Some demo_ref)) demo_offering).2)
      by by rewrite Hs2.
    rewrite H2. eexists. split; [reflexivity|reflexivity]. }
  pose proof (opened_channel_reads_back (ILaws := demo_id_laws) true true 5 9 demo_ref 40 (demo_channel_of Offered)
    (demo_channel_of (Signed demo_opened)) demo_opened (demo_params 21000) demo_offering s2 s3 s4 tt tt 1000 499000) as H.
  apply (f_equal fst) in H; [exact H|..]; try reflexivity.
  - exact Hs2.
  - exact Hp.
  - constructor.
  - repeat constructor; cbn; lia.
  - exact Hs4.
Defined.
