(* ===== verification/AppNode.v ===== *)
(** * [mobile/native/src/dlc]: the app's side of the DLC protocols

    [dlc/node.rs] processes the messages the coordinator sends, [dlc/dlc_handler.rs]
    stores and sends the answers, [trade/order/handler.rs] submits orders.  What
    [rust-dlc] does with a message is an interface; the node library's functions that
    only look at its store are those of Node.v. *)

From stdpp Require Import base list option strings.
From Stdlib Require Import ZArith QArith Lia.
From S2P Require Import Prelude Machine External Demo Commons AppData AppApply SqlTypes Schema Db.
From S2P Require Import PayoutCurve Funding Messages Sqlite AppSql AppDb Node DemoDlc DlcPeer AppHandlers AppFrames AppHandled.

#[local] Open Scope Z_scope.

(** ** [rust-dlc], the side that accepts *)

Class AcceptingDlcLib `{DLC : DlcLib} `{ML : DlcMessagesLib} := {
  accept_channel : DlcChannelId -> FeeConfig -> M DlcState string (payload PAccept * PublicKey);
  reject_channel : DlcChannelId -> M DlcState string (payload PReject * PublicKey);
  accept_settle_offer : DlcChannelId -> M DlcState string (payload PSettleAccept * PublicKey);
  reject_settle_offer : DlcChannelId -> M DlcState string (payload PReject * PublicKey);
  accept_renew_offer : DlcChannelId -> M DlcState string (payload PRenewAccept * PublicKey);
  reject_renew_offer : DlcChannelId -> M DlcState string (payload PReject * PublicKey);
  close_collaboratively : SignedChannel.t -> M DlcState string unit;  (* [upsert_channel] *)
  channel_temporary_id : Channel.t -> DlcChannelId;
  (** The fields of the payloads the code reads, and the reject message it builds. *)
  offer_temporary_channel_id : payload POffer -> DlcChannelId;
  offer_fee_config : payload POffer -> option FeeConfig;
  settle_offer_channel_id : payload PSettleOffer -> DlcChannelId;
  renew_offer_channel_id : payload PRenewOffer -> DlcChannelId;
  closest_maturity_date : payload PRenewOffer -> Z;
  renew_revoke_channel_id : payload PRenewRevoke -> DlcChannelId;
  make_reject : DlcChannelId -> Z -> option ReferenceId -> payload PReject;
}.

(** The app's state, the DLC store, the node events not handled yet, and the
    messages given to the message handler ([Wire.send_message]). *)
Module AppNode.
Record t `{DecimalLib} `{DLC : DlcLib} `{DlcMessagesLib} := mk {
  app : AppState.t;
  dlc : DlcState;
  events : list PeerEvent.t;
  outbox : list (PublicKey * TenTenOneMessage.t);
}.
#[global] Arguments mk {_ _ _ _}.
End AppNode.

Section AppNode.
Context `{DL : DecimalLib} `{BL : BitcoinLib} `{IL : IdLib} `{DLC : !DlcLib} `{ML : !DlcMessagesLib}.
Context `{JL : !MessagesJson} `{HL : HashLib} `{PL : !PeerDlcLib} `{AL : !AcceptingDlcLib}.

Definition AppNodeM (A : Type) : Type := M AppNode.t Anyhow A.

Definition on_app {A} (m : AppM A) : AppNodeM A := fun s =>
  let '(r, app) := m (AppNode.app s) in
  (r, AppNode.mk app (AppNode.dlc s) (AppNode.events s) (AppNode.outbox s)).
Definition on_dlc_store {A} (m : M DlcState string A) : AppNodeM A := fun s =>
  let '(r, dlc) := m (AppNode.dlc s) in
  (map_err Msg r, AppNode.mk (AppNode.app s) dlc (AppNode.events s) (AppNode.outbox s)).
(** A function of the node library that uses nothing but the DLC store. *)
Definition on_node {A} (m : NodeM A) : AppNodeM A := fun s =>
  let '(r, n) := m (NodeState.mk empty_db (AppNode.dlc s) [] []) in
  (r, AppNode.mk (AppNode.app s) (NodeState.dlc n) (AppNode.events s) (AppNode.outbox s)).
Definition node_publish (e : PeerEvent.t) : AppNodeM unit := fun s =>
  (Ok tt, AppNode.mk (AppNode.app s) (AppNode.dlc s) (AppNode.events s ++ [e]) (AppNode.outbox s)).
(** [send_dlc_message] of the node library. *)
Definition enqueue_message (peer : PublicKey) (msg : TenTenOneMessage.t) : AppNodeM unit := fun s =>
  (Ok tt, AppNode.mk (AppNode.app s) (AppNode.dlc s) (AppNode.events s)
            (AppNode.outbox s ++ [(peer, msg)])).
Definition notify (task : BackgroundTask.t) : AppNodeM unit :=
  on_app (publish (EventInternal.BackgroundNotification task)).
Definition try_lib {A} (m : outcome string A) : AppNodeM A := lift (map_err Msg m).

(** ** [dlc/dlc_handler.rs] *)

Section Handler.
Context (now : OffsetDateTime).

(** [Node::send_dlc_message]. *)
Definition send_dlc_message (node_id : PublicKey) (msg : TenTenOneMessage.t) : AppNodeM unit :=
  node_publish (PeerEvent.SendDlcMessage node_id msg).

Definition store_dlc_message (peer : PublicKey) (msg : TenTenOneMessage.t) : AppNodeM unit :=
  serialized_outbound_message ← try_lib (serialize_message msg);
  outbound_msg ← try_lib (DlcMessage.new now peer serialized_outbound_message false);
  on_app (stored (AppDlcMessages.insert outbound_msg));;
  on_app (stored (LastOutboundDlcMessages.upsert now peer serialized_outbound_message)).

(** [DlcHandler::send_dlc_message]. *)
Definition store_and_send_dlc_message (peer : PublicKey) (msg : TenTenOneMessage.t) : AppNodeM unit :=
  store_dlc_message peer msg;;
  enqueue_message peer msg.

Definition send_last_dlc_message (peer : PublicKey) : AppNodeM unit :=
  last_serialized_message ← on_app (stored (query (LastOutboundDlcMessages.get peer)));
  match last_serialized_message with
  | Some last_serialized_message =>
    message ← try_lib (deserialize_message last_serialized_message);
    enqueue_message peer message
  | None => mret tt
  end.

(** ** [dlc/node.rs]: rejecting *)

Definition reject_reason : FailureReason := InvalidDlcOffer Unacceptable.

Definition force_reject_offer (counterparty : PublicKey) (channel_id : DlcChannelId)
    (reference_id : option ReferenceId) : AppNodeM unit :=
  let reject := make_reject channel_id (unix_timestamp now) reference_id in
  on_app (order_failed None reject_reason (Msg "Failed to accept offer"));;
  send_dlc_message counterparty (TenTenOneMessage.Reject (TenTenOneReject.mk reject)).

Definition reject_dlc_channel_offer (order_id : option Uuid) (channel_id : DlcChannelId) : AppNodeM unit :=
  rejected ← on_dlc_store (reject_channel channel_id);
  let '(reject, counterparty) := (rejected : payload PReject * PublicKey) in
  on_app (order_failed order_id reject_reason (Msg "Failed to accept dlc channel offer"));;
  send_dlc_message counterparty (TenTenOneMessage.Reject (TenTenOneReject.mk reject)).

(** [Node::reject_settle_offer] and [Node::reject_renew_offer]. *)
Definition node_reject_settle_offer (order_id : option Uuid) (channel_id : DlcChannelId) : AppNodeM unit :=
  rejected ← on_dlc_store (reject_settle_offer channel_id);
  let '(reject, counterparty) := (rejected : payload PReject * PublicKey) in
  on_app (order_failed order_id reject_reason (Msg "Failed to accept settle offer"));;
  send_dlc_message counterparty (TenTenOneMessage.Reject (TenTenOneReject.mk reject)).
Definition node_reject_renew_offer (order_id : option Uuid) (channel_id : DlcChannelId) : AppNodeM unit :=
  rejected ← on_dlc_store (reject_renew_offer channel_id);
  let '(reject, counterparty) := (rejected : payload PReject * PublicKey) in
  on_app (order_failed order_id reject_reason (Msg "Failed to accept renew offer"));;
  send_dlc_message counterparty (TenTenOneMessage.Reject (TenTenOneReject.mk reject)).
Definition reject_rollover_offer (channel_id : DlcChannelId) : AppNodeM unit :=
  rejected ← on_dlc_store (reject_renew_offer channel_id);
  let '(reject, counterparty) := (rejected : payload PReject * PublicKey) in
  send_dlc_message counterparty (TenTenOneMessage.Reject (TenTenOneReject.mk reject)).

(** ** Reconnecting *)

Definition reject_pending_dlc_channel_offers : AppNodeM unit :=
  dlc_channels ← on_node list_dlc_channels;
  let offered_channels := List.filter (fun c =>
    match Channel.kind c with Offered => true | _ => false end) dlc_channels in
  if bool_decide (length offered_channels = 0%nat) then mret tt
  else
    notify (BackgroundTask.RecoverDlc TaskStatus.Pending);;
    for_each (fun offered_channel =>
      reject_dlc_channel_offer None (channel_temporary_id offered_channel)) offered_channels;;
    notify (BackgroundTask.RecoverDlc TaskStatus.Success).

(** The signed channel states in which no protocol was interrupted. *)
Definition is_at_rest (state : SignedChannelState) : bool :=
  match state with
  | Established _ | Settled _ _ | SettledClosingState | ClosingState | CollaborativeCloseOffered _ => true
  | _ => false
  end.

Definition on_connect (peer : PublicKey) : AppNodeM unit :=
  reject_pending_dlc_channel_offers;;
  signed_channels ← on_node list_signed_dlc_channels;
  match head signed_channels with
  | None => send_last_dlc_message peer
  | Some signed_channel =>
    let channel_id := SignedChannel.channel_id signed_channel in
    match SignedChannel.state signed_channel with
    | SettledReceived _ =>
      notify (BackgroundTask.RecoverDlc TaskStatus.Pending);;
      node_reject_settle_offer None channel_id;;
      notify (BackgroundTask.RecoverDlc TaskStatus.Success)
    | RenewOffered =>
      notify (BackgroundTask.RecoverDlc TaskStatus.Pending);;
      node_reject_renew_offer None channel_id;;
      notify (BackgroundTask.RecoverDlc TaskStatus.Success)
    | state =>
      if (match state with CollaborativeCloseOffered _ => true | _ => false end)
         && negb (is_close_offer signed_channel) then
        on_dlc_store (accept_collaborative_close channel_id)
      else
        (if is_at_rest state then mret tt
         else notify (BackgroundTask.RecoverDlc TaskStatus.Pending));;
        send_last_dlc_message peer
    end
  end.

(** [handle_outbound_dlc_messages]: the events of the queue in order; an error is
    logged. *)
Definition handle_node_event (event : PeerEvent.t) : AppNodeM unit :=
  db.or_log match event with
    | PeerEvent.Connected peer => on_connect peer
    | PeerEvent.SendDlcMessage peer msg => store_and_send_dlc_message peer msg
    | PeerEvent.StoreDlcMessage peer msg => store_dlc_message peer msg
    | PeerEvent.SendLastDlcMessage peer => send_last_dlc_message peer
    end.
End Handler.
End AppNode.

(** ** [dlc/node.rs]: processing *)

Section Process.
Context `{DL : DecimalLib} `{BL : BitcoinLib} `{IL : IdLib} `{DLC : !DlcLib} `{ML : !DlcMessagesLib}.
Context `{JL : !MessagesJson} `{HL : HashLib} `{PL : !PeerDlcLib} `{AL : !AcceptingDlcLib}.
Context (config : option f32) (now : OffsetDateTime).

(** [Node::set_order_to_filling]. *)
Definition set_order_to_filling (filled_with : FilledWith.t) : AppNodeM unit :=
  average ← lift (filled_with_average_execution_price filled_with);
  execution_price ← lift (expect (d_to_f32 average));
  matching_fee ← lift (filled_with_order_matching_fee filled_with);
  on_app (order_filling (FilledWith.order_id filled_with) execution_price matching_fee).

(** [match m { Ok(a) => f(a), Err(e) => g(e) }]. *)
Definition on_result {A B} (m : AppNodeM A) (f : A -> AppNodeM B) (g : Anyhow -> AppNodeM B)
    : AppNodeM B := fun s =>
  match m s with
  | (Ok a, s') => f a s'
  | (Err e, s') => g e s'
  | (Panic, s') => (Panic, s')
  end.

Definition process_dlc_channel_offer (offer : TenTenOneOfferChannel.t) : AppNodeM unit :=
  let filled_with := TenTenOneOfferChannel.filled_with offer in
  set_order_to_filling filled_with;;
  let order_id := FilledWith.order_id filled_with in
  let channel_id := offer_temporary_channel_id (TenTenOneOfferChannel.offer_channel offer) in
  on_result (on_dlc_store (accept_channel channel_id
      (default EvenSplit (offer_fee_config (TenTenOneOfferChannel.offer_channel offer)))))
    (fun accepted =>
       let '(accept, node_id) := (accepted : payload PAccept * PublicKey) in
       send_dlc_message node_id
         (TenTenOneMessage.Accept (TenTenOneAcceptChannel.mk order_id accept)))
    (fun _ => reject_dlc_channel_offer (Some order_id) channel_id).

(** [accept_dlc_channel_collaborative_settlement] of the node library. *)
Definition accept_dlc_channel_collaborative_settlement (order_id : Uuid) (order_reason : OrderReason.t)
    (channel_id : DlcChannelId) : AppNodeM unit :=
  accepted ← on_dlc_store (accept_settle_offer channel_id);
  let '(settle_accept, counterparty_pk) := (accepted : payload PSettleAccept * PublicKey) in
  send_dlc_message counterparty_pk
    (TenTenOneMessage.SettleAccept (TenTenOneSettleAccept.mk order_reason order_id settle_accept)).

Definition process_settle_offer (offer : TenTenOneSettleOffer.t) : AppNodeM unit :=
  let order := TenTenOneSettleOffer.order offer in
  let filled_with := TenTenOneSettleOffer.filled_with offer in
  let order_reason := Order.order_reason order in
  (match order_reason with
   | OrderReason.Expired | OrderReason.CoordinatorLiquidated | OrderReason.TraderLiquidated =>
     notify (match order_reason with
             | OrderReason.Expired => BackgroundTask.Expire TaskStatus.Pending
             | _ => BackgroundTask.Liquidate TaskStatus.Pending
             end);;
     on_app (async_order_filling order filled_with)
   | OrderReason.Manual => set_order_to_filling filled_with
   end);;
  let order_id := Order.id order in
  let channel_id := settle_offer_channel_id (TenTenOneSettleOffer.settle_offer offer) in
  on_result (accept_dlc_channel_collaborative_settlement (FilledWith.order_id filled_with) order_reason
      channel_id)
    (fun _ => mret tt)
    (fun _ => node_reject_settle_offer (Some order_id) channel_id).

Definition process_renew_offer (offer : TenTenOneRenewOffer.t) : AppNodeM unit :=
  let filled_with := TenTenOneRenewOffer.filled_with offer in
  let order_id := FilledWith.order_id filled_with in
  let channel_id := renew_offer_channel_id (TenTenOneRenewOffer.renew_offer offer) in
  on_result (on_dlc_store (accept_renew_offer channel_id))
    (fun accepted =>
       let '(renew_accept, node_id) := (accepted : payload PRenewAccept * PublicKey) in
       set_order_to_filling filled_with;;
       on_app handle_renew_offer;;
       send_dlc_message node_id
         (TenTenOneMessage.RenewAccept (TenTenOneRenewAccept.mk order_id renew_accept)))
    (fun _ => node_reject_renew_offer (Some order_id) channel_id).

(** The unpaid funding fee events of a rollover offer, for the position. *)
Definition offered_fee_event (position : AppPosition.t) (e : MessageFundingFeeEvent.t)
    : outcome Anyhow AppFundingFeeEvent.t :=
  quantity ← expect (d_try_from_f32 (AppPosition.quantity position));
  Ok (AppFundingFeeEvent.unpaid (AppPosition.contract_symbol position) quantity
        (AppPosition.direction position) (MessageFundingFeeEvent.price e)
        (MessageFundingFeeEvent.funding_fee e) (MessageFundingFeeEvent.due_date e)).

Definition process_rollover_offer (offer : TenTenOneRolloverOffer.t) : AppNodeM unit :=
  notify (BackgroundTask.Rollover TaskStatus.Pending);;
  expiry_timestamp ← try_lib (ok_or "component range"%string
    (from_unix_timestamp (closest_maturity_date (TenTenOneRolloverOffer.renew_offer offer))));
  let channel_id := renew_offer_channel_id (TenTenOneRolloverOffer.renew_offer offer) in
  on_result (on_dlc_store (accept_renew_offer channel_id))
    (fun accepted =>
       let '(renew_accept, node_id) := (accepted : payload PRenewAccept * PublicKey) in
       positions ← on_app get_positions;
       position ← on_app (context "No position to roll over" (head positions));
       events ← lift (traverse (offered_fee_event position) (TenTenOneRolloverOffer.funding_fee_events offer));
       new_unpaid_funding_fee_events ← on_app (handle_unpaid_funding_fee_events events);
       on_app (handle_rollover_offer config now expiry_timestamp new_unpaid_funding_fee_events);;
       send_dlc_message node_id
         (TenTenOneMessage.RolloverAccept (TenTenOneRolloverAccept.mk renew_accept)))
    (fun e =>
       notify (BackgroundTask.Rollover (TaskStatus.Failed e));;
       reject_rollover_offer channel_id).

(** The arms of [process_dlc_message] that end a protocol: a channel was opened
    ([Sign]) or updated ([RenewRevoke]), rolled over, settled, or is to be closed. *)
Definition process_channel_updated (order_id : Uuid) (channel_id : DlcChannelId) : AppNodeM unit :=
  expiry_timestamp ← on_node (get_expiry_for_confirmed_dlc_channel channel_id);
  filled_order ← on_app (order_filled (Some order_id));
  on_app (update_position_after_dlc_channel_creation_or_update config now filled_order expiry_timestamp);;
  notify (BackgroundTask.AsyncTrade TaskStatus.Success).

Definition process_rollover_revoke : AppNodeM unit :=
  position ← on_app (update_position_after_rollover now);
  on_app (mark_funding_fee_events_as_paid now (AppPosition.contract_symbol position)
    (AppPosition.created position));;
  notify (BackgroundTask.Rollover TaskStatus.Success).

Definition process_settle_confirm (order_id : Uuid) : AppNodeM unit :=
  filled_order ← on_app (order_filled (Some order_id));
  on_app (update_position_after_dlc_closure config now filled_order);;
  notify match AppOrder.reason filled_order with
    | AppOrderReason.Manual => BackgroundTask.AsyncTrade TaskStatus.Success
    | AppOrderReason.Expired => BackgroundTask.Expire TaskStatus.Success
    | AppOrderReason.CoordinatorLiquidated | AppOrderReason.TraderLiquidated =>
      BackgroundTask.Liquidate TaskStatus.Success
    end.

Definition process_close_offer (channel_id : DlcChannelId) : AppNodeM unit :=
  notify (BackgroundTask.CloseChannel TaskStatus.Pending);;
  on_result (on_dlc_store (accept_collaborative_close channel_id)) (fun _ => mret tt)
    (fun e => notify (BackgroundTask.CloseChannel (TaskStatus.Failed e));; throw e);;
  notify (BackgroundTask.CloseChannel TaskStatus.Success).

Definition process_by_kind (msg : TenTenOneMessage.t) : AppNodeM unit :=
  match msg with
  | TenTenOneMessage.Offer offer => process_dlc_channel_offer offer
  | TenTenOneMessage.SettleOffer offer => process_settle_offer offer
  | TenTenOneMessage.RenewOffer offer => process_renew_offer offer
  | TenTenOneMessage.RolloverOffer offer => process_rollover_offer offer
  | TenTenOneMessage.RenewRevoke m =>
    process_channel_updated (TenTenOneRenewRevoke.order_id m)
      (renew_revoke_channel_id (TenTenOneRenewRevoke.renew_revoke m))
  | TenTenOneMessage.RolloverRevoke _ => process_rollover_revoke
  | TenTenOneMessage.Sign m =>
    process_channel_updated (TenTenOneSignChannel.order_id m)
      (sign_channel_id (TenTenOneSignChannel.sign_channel m))
  | TenTenOneMessage.SettleConfirm m => process_settle_confirm (TenTenOneSettleConfirm.order_id m)
  | TenTenOneMessage.CollaborativeCloseOffer m =>
    process_close_offer (close_offer_channel_id
      (TenTenOneCollaborativeCloseOffer.collaborative_close_offer m))
  | _ => mret tt
  end.

(** What is done for an offer that [rust-dlc] refuses. *)
Definition reject_refused_offer (node_id : PublicKey) (msg : TenTenOneMessage.t) : AppNodeM unit :=
  match msg with
  | TenTenOneMessage.Offer m =>
    let offer := TenTenOneOfferChannel.offer_channel m in
    db.or_log (force_reject_offer now node_id (offer_temporary_channel_id offer) (reference_id POffer offer))
  | TenTenOneMessage.SettleOffer m =>
    let offer := TenTenOneSettleOffer.settle_offer m in
    db.or_log (force_reject_offer now node_id (settle_offer_channel_id offer) (reference_id PSettleOffer offer))
  | TenTenOneMessage.RenewOffer m =>
    let offer := TenTenOneRenewOffer.renew_offer m in
    db.or_log (force_reject_offer now node_id (renew_offer_channel_id offer) (reference_id PRenewOffer offer))
  | TenTenOneMessage.RolloverOffer m =>
    let offer := TenTenOneRolloverOffer.renew_offer m in
    db.or_log (force_reject_offer now node_id (renew_offer_channel_id offer) (reference_id PRenewOffer offer))
  | _ => mret tt
  end.

Definition process_dlc_message (node_id : PublicKey) (msg : TenTenOneMessage.t) : AppNodeM unit :=
  serialized_inbound_message ← try_lib (serialize_message msg);
  inbound_msg ← try_lib (DlcMessage.new now node_id serialized_inbound_message true);
  processed ← on_app (stored (query (AppDlcMessages.get (DlcMessage.message_hash inbound_msg))));
  match processed with
  | Some _ => mret tt
  | None =>
    resp ← on_result (on_dlc_store (process_tentenone_message msg node_id)) mret
      (fun e => reject_refused_offer node_id msg;; throw e);
    (match resp with
     | Some resp => node_publish (PeerEvent.StoreDlcMessage node_id resp)
     | None => mret tt
     end);;
    on_app (stored (AppDlcMessages.insert inbound_msg));;
    process_by_kind msg;;
    match resp with
    | Some _ => node_publish (PeerEvent.SendLastDlcMessage node_id)
    | None => mret tt
    end
  end.

(** The task an error of a message fails; errors of other messages are ignored. *)
Definition failed_task (msg : TenTenOneMessage.t) (e : Anyhow) : option BackgroundTask.t :=
  match get_tentenone_message_type msg with
  | TenTenOneMessageType.Trade => Some (BackgroundTask.AsyncTrade (TaskStatus.Failed e))
  | TenTenOneMessageType.Expire => Some (BackgroundTask.Expire (TaskStatus.Failed e))
  | TenTenOneMessageType.Liquidate => Some (BackgroundTask.Liquidate (TaskStatus.Failed e))
  | TenTenOneMessageType.Rollover => Some (BackgroundTask.Rollover (TaskStatus.Failed e))
  | TenTenOneMessageType.Other => None
  end.

(** [process_incoming_dlc_messages], for the messages received. *)
Definition process_incoming_dlc_messages (messages : list (PublicKey * TenTenOneMessage.t))
    : AppNodeM unit :=
  for_each (fun m =>
    let '(node_id, msg) := (m : PublicKey * TenTenOneMessage.t) in
    on_result (process_dlc_message node_id msg) mret
      (fun e => match failed_task msg e with Some task => notify task | None => mret tt end)) messages.

(** ** [dlc/mod.rs] and [order/handler.rs] *)

(** [update_state_after_collab_revert]; [id] is the id of a new order. *)
Definition collab_revert_order (id : Uuid) (position : AppPosition.t) (execution_price : f32) : AppOrder.t :=
  AppOrder.mk id (AppPosition.leverage position) (AppPosition.quantity position)
    (AppPosition.contract_symbol position) (opposite (AppPosition.direction position))
    AppOrderType.Market (AppOrderState.Filled execution_price 0) now now AppOrderReason.Expired
    (AppPosition.stable position) None.
Definition update_state_after_collab_revert (id : Uuid) (signed_channel : SignedChannel.t)
    (execution_price : Decimal) : AppNodeM unit :=
  positions ← on_app get_positions;
  match head positions with
  | None =>
    order ← on_app (stored db.get_order_in_filling);
    match order with
    | Some order =>
      on_app (order_failed (Some (AppOrder.id order)) CollabRevert
        (Msg "Order failed due collab revert of the channel"))
    | None => mret tt
    end
  | Some position =>
    filled_order ← on_result (on_app (order_filled None)) mret (fun _ =>
      execution_price ← lift (expect (d_to_f32 execution_price));
      let order := collab_revert_order id position execution_price in
      on_app (stored (db.insert_order order));;
      on_app (publish (EventInternal.OrderUpdateNotification order));;
      mret order);
    on_app (update_position_after_dlc_closure config now filled_order);;
    on_dlc_store (close_collaboratively signed_channel)
  end.

Inductive SubmitOrderError :=
  | StorageError (e : Anyhow)
  | UnconfirmedChannel
  | InvalidChannelState (expected_channel_state : string) (actual_channel_state : SignedChannelState)
  | MissingChannel (text : string)
  | OtherOrderInFilling (contracts : f32) (direction : Direction) (leverage : f32)
  | OrderbookError (e : Anyhow).

Definition SubmitM (A : Type) : Type := M AppNode.t SubmitOrderError A.
(** [.map_err(SubmitOrderError::Storage)?]. *)
Definition storage {A} (m : AppNodeM A) : SubmitM A := with_err StorageError m.

(** [check_channel_state]; [coordinator] is the coordinator's key. *)
Definition check_channel_state (coordinator : PublicKey) : SubmitM unit :=
  signed_channels ← storage (on_node list_signed_dlc_channels);
  let channel := head signed_channels in
  positions ← storage (on_app get_positions);
  match head positions with
  | Some _ =>
    (match channel with
     | Some channel =>
       match SignedChannel.state channel with
       | Established _ => mret tt
       | state => throw (InvalidChannelState "Established" state)
       end
     | None => throw (MissingChannel "Expected established dlc channel.")
     end);;
    confirmed ← storage (on_node (check_if_signed_channel_is_confirmed coordinator));
    if (confirmed : bool) then mret tt else throw UnconfirmedChannel
  | None =>
    match channel with
    | None => mret tt
    | Some channel =>
      match SignedChannel.state channel with
      | Settled _ _ => mret tt
      | state => throw (InvalidChannelState "Settled" state)
      end
    end
  end.

(** [submit_order_internal]; [post] is the order book's answer to the order. *)
Definition submit_order_internal (coordinator : PublicKey) (post : AppOrder.t -> outcome string unit)
    (order : AppOrder.t) : SubmitM Uuid :=
  check_channel_state coordinator;;
  filling_order ← storage (on_app (stored db.get_order_in_filling));
  match filling_order with
  | Some filling_order =>
    throw (OtherOrderInFilling (AppOrder.quantity filling_order) (AppOrder.direction filling_order)
             (AppOrder.leverage filling_order))
  | None =>
    storage (on_app (stored (db.insert_order order)));;
    storage (on_app (set_order_to_open_and_update_ui (AppOrder.id order)));;
    match post order with
    | Ok _ =>
      storage (on_app (update_position_after_order_submitted order));;
      mret (AppOrder.id order)
    | Err err =>
      storage (on_app (set_order_to_failed_and_update_ui (AppOrder.id order)
        (OrderRejected err)
        (order_execution_price order)));;
      storage (on_app (set_position_state AppPositionState.Open));;
      throw (OrderbookError (Msg err))
    | Panic => lift Panic
    end
  end.

(** [submit_order]: an error also reaches the user interface.  The report to the
    coordinator is left out. *)
Definition notify_submit_error {A} (m : SubmitM A) : SubmitM A := fun s =>
  match m s with
  | (Err e, s') =>
    (Err e, (notify (BackgroundTask.AsyncTrade (TaskStatus.Failed (Msg "submit order"))) s').2)
  | r => r
  end.
Definition submit_order (coordinator : PublicKey) (post : AppOrder.t -> outcome string unit)
    (order : AppOrder.t) : SubmitM Uuid :=
  storage (notify (BackgroundTask.AsyncTrade TaskStatus.Pending));;
  notify_submit_error (submit_order_internal coordinator post order).
End Process.

(** ** What the app sends again *)

Section Resend.
Context `{DL : DecimalLib} `{BL : BitcoinLib} `{ILaws : IdLaws} `{DLC : !DlcLib} `{ML : !DlcMessagesLib}.
Context `{JL : !MessagesJson} `{HL : HashLib} `{PL : !PeerDlcLib} `{AL : !AcceptingDlcLib}.

Lemma on_app_run {A} (m : AppM A) (s s' : AppNode.t) a : on_app m s = (Ok a, s') <->
  exists app, m (AppNode.app s) = (Ok a, app) /\
    s' = AppNode.mk app (AppNode.dlc s) (AppNode.events s) (AppNode.outbox s).
Proof using Type.
  unfold on_app. destruct (m (AppNode.app s)) as [r app]. split.
  - intros [= -> <-]. by exists app.
  - by intros (? & [= -> ->] & ->).
Qed.

Lemma checked_ok text (m : AppQuery nat) d u d' : checked text m d = (Ok u, d') ->
  exists n, m d = (Ok n, d') /\ (0 < n)%nat.
Proof using Type.
  unfold checked, query. intros (n & d1 & Hm & Hn)%M_bind_ok. apply with_err_ok in Hm.
  apply some_rows_ok in Hn as [? ->]. by exists n.
Qed.

Lemma s_insert_ok {R} `{!InDb AppDb.t R} `{!Conflicts R} (r : R) d n d' : s_insert r d = (Ok n, d') ->
  existsb (conflicts r) (table d) = false /\ d' = set_table (table d ++ [r]) d.
Proof using Type. unfold s_insert. destruct (existsb _ _); intros [=]; subst; auto. Qed.

Lemma existsb_same {R} (p q : R -> bool) l : (forall r, p r = q r) -> existsb p l = existsb q l.
Proof using Type. intros Hpq. induction l; cbn; congruence. Qed.

Lemma find_upserted {R} (p q : R -> bool) (l : list R) v : (forall r, q r = p r) -> p v = true ->
  List.find p (if existsb q l then update_rows q (fun _ => v) l else l ++ [v]) = Some v.
Proof using Type.
  intros Hq Hv. destruct (existsb q l) eqn:Hex.
  - induction l as [|r l IH]; cbn in *; [done|]. destruct (q r) eqn:Hr; cbn; [by rewrite Hv|].
    rewrite Hq in Hr. rewrite Hr. by apply IH.
  - induction l as [|r l IH]; cbn in *; [by rewrite Hv|]. apply orb_false_iff in Hex as [Hr Hex].
    rewrite Hq in Hr. rewrite Hr. by apply IH.
Qed.

(** The stored messages after [store_dlc_message]. *)
Lemma store_dlc_message_ok now peer msg s u s' : store_dlc_message now peer msg s = (Ok u, s') ->
  exists sdm, serialize_message msg = Ok sdm /\
    AppNode.outbox s' = AppNode.outbox s /\ AppNode.dlc s' = AppNode.dlc s /\
    existsb (AppDlcMessages.is_hash (generate_hash sdm)) (AppDb.dlc_messages (AppState.db (AppNode.app s))) = false /\
    AppDb.dlc_messages (AppState.db (AppNode.app s')) = AppDb.dlc_messages (AppState.db (AppNode.app s)) ++
      [AppDlcMessages.row_from (DlcMessage.mk (generate_hash sdm) false peer
         (SerializedDlcMessage.message_type sdm) now)] /\
    List.find (fun r => bool_decide (AppLastOutboundRow.peer_id r = pk_to_string peer))
      (AppDb.last_outbound_dlc_messages (AppState.db (AppNode.app s'))) =
      Some (AppLastOutboundRow.mk (pk_to_string peer) (generate_hash sdm)
              (SerializedDlcMessage.message sdm) (unix_timestamp now)).
Proof using Type.
  unfold store_dlc_message, DlcMessage.new. intros Hrun.
  apply M_bind_ok in Hrun as (sdm & ? & [Hser%map_err_ok ->]%lift_ok & Hrun).
  apply M_bind_ok in Hrun as (m & ? & [Hm ->]%lift_ok & Hrun). injection Hm as <-.
  apply M_bind_ok in Hrun as ([] & s1 & (a1 & [Hins Hp1]%stored_run & ->)%on_app_run & Hrun).
  apply on_app_run in Hrun as (a2 & [Hups Hp2]%stored_run & ->). cbn [AppNode.app AppNode.outbox AppNode.dlc] in *.
  apply checked_ok in Hins as (n & [Hnew Hd1]%s_insert_ok & _).
  exists sdm. split_and!; try done; cbn [AppNode.app].
  - rewrite <-Hnew. cbn. apply existsb_same. intros r. unfold conflicts, app_dlc_messages_key, AppDlcMessages.is_hash.
    cbn. apply bool_decide_ext. done.
  - apply checked_ok in Hups as (n' & Hups & _). cbn -[s_upsert] in Hups.
    destruct (existsb (AppDlcMessages.is_hash _) _); [|done].
    unfold s_upsert in Hups. rewrite Hd1 in Hups.
    destruct (existsb (conflicts _) (table (set_table _ _))); injection Hups as _ <-; reflexivity.
  - apply checked_ok in Hups as (n' & Hups & _). cbn -[s_upsert] in Hups.
    destruct (existsb (AppDlcMessages.is_hash _) _); [|done].
    unfold s_upsert in Hups. set (values := AppLastOutboundRow.mk _ _ _ _) in *.
    change (table (AppState.db a1)) with (AppDb.last_outbound_dlc_messages (AppState.db a1)) in Hups.
    assert (Hl : AppDb.last_outbound_dlc_messages (AppState.db a2) =
      if existsb (conflicts values) (AppDb.last_outbound_dlc_messages (AppState.db a1))
      then update_rows (conflicts values) (fun _ => values) (AppDb.last_outbound_dlc_messages (AppState.db a1))
      else AppDb.last_outbound_dlc_messages (AppState.db a1) ++ [values]).
    { by destruct (existsb (conflicts values) _); injection Hups as _ <-. }
    rewrite Hl. apply find_upserted; [|by apply bool_decide_eq_true].
    intros r. by apply bool_decide_ext.
Qed.

Lemma joined_find (f : AppLastOutboundRow.t -> bool) d row m :
  List.find f (AppDb.last_outbound_dlc_messages d) = Some row ->
  head (List.filter (AppDlcMessages.is_hash (AppLastOutboundRow.message_hash row)) (AppDb.dlc_messages d)) = Some m ->
  List.find (fun x => f x.1) (LastOutboundDlcMessages.joined d) = Some (row, m).
Proof using Type.
  unfold LastOutboundDlcMessages.joined. intros Hrow Hm.
  induction (AppDb.last_outbound_dlc_messages d) as [|r l IH]; cbn in *; [done|].
  assert (Happ : forall (p : AppLastOutboundRow.t * AppDlcMessageRow.t -> bool) l1 l2, List.find p (l1 ++ l2) =
    match List.find p l1 with Some x => Some x | None => List.find p l2 end).
  { intros p l1 l2. induction l1 as [|x l1 IHl]; cbn; [done|]. by destruct (p x). }
  rewrite Happ. destruct (f r) eqn:Hr.
  - injection Hrow as <-. destruct (List.filter _ _) as [|m' ms]; [done|]. injection Hm as <-. cbn. by rewrite Hr.
  - replace (List.find _ (map (pair r) _)) with (@None (AppLastOutboundRow.t * AppDlcMessageRow.t)); [by apply IH|].
    symmetry. generalize (List.filter (AppDlcMessages.is_hash (AppLastOutboundRow.message_hash r)) (AppDb.dlc_messages d)).
    intros l'. induction l' as [|x l' IHl]; cbn; [done|]. by rewrite Hr.
Qed.

(** The outbound messages that are stored are the same. *)
Definition same_outbound (s s' : AppNode.t) : Prop :=
  AppDb.dlc_messages (AppState.db (AppNode.app s')) = AppDb.dlc_messages (AppState.db (AppNode.app s)) /\
  AppDb.last_outbound_dlc_messages (AppState.db (AppNode.app s'))
    = AppDb.last_outbound_dlc_messages (AppState.db (AppNode.app s)).

(** The state once [msg] is sent to [peer] and nothing else is changed. *)
Definition resent (peer : PublicKey) (msg : TenTenOneMessage.t) (s : AppNode.t) : AppNode.t :=
  AppNode.mk (AppNode.app s) (AppNode.dlc s) (AppNode.events s) (AppNode.outbox s ++ [(peer, msg)]).

Lemma send_last_run now peer msg s s' u s2 : message_json_roundtrips msg ->
  store_dlc_message now peer msg s = (Ok u, s') -> same_outbound s' s2 ->
  send_last_dlc_message peer s2 = (Ok tt, resent peer msg s2).
Proof using Type.
  intros Hjson Hrun (Hm & Hl). apply store_dlc_message_ok in Hrun as (sdm & Hser & _ & _ & Hnew & Hmessages & Hlast).
  rewrite <-Hm in Hmessages. rewrite <-Hl in Hlast.
  pose proof (deserialize_serialized msg sdm Hjson Hser) as Hback.
  assert (Hget : LastOutboundDlcMessages.get peer (AppState.db (AppNode.app s2)) =
    (Ok (Some sdm), AppState.db (AppNode.app s2))).
  { unfold LastOutboundDlcMessages.get, gets, mbind, M_bind. cbv beta.
    set (m := AppDlcMessages.row_from _) in Hmessages.
    assert (Hj := joined_find (fun r => bool_decide (AppLastOutboundRow.peer_id r = pk_to_string peer))
      _ _ m Hlast).
    match type of Hj with _ -> ?eq => assert (Hfound : eq) end.
    { apply Hj. cbn [AppLastOutboundRow.message_hash]. rewrite Hmessages, List.filter_app.
      assert (Hnone : List.filter (AppDlcMessages.is_hash (generate_hash sdm))
        (AppDb.dlc_messages (AppState.db (AppNode.app s))) = []).
      { revert Hnew. generalize (AppDb.dlc_messages (AppState.db (AppNode.app s))). intros l Hl'.
        induction l as [|r l IH]; cbn in *; [done|]. apply orb_false_iff in Hl' as [-> Hl']. by apply IH. }
      rewrite Hnone. cbn. unfold AppDlcMessages.is_hash. cbn. by rewrite bool_decide_eq_true_2. }
    unfold mret, M_ret. f_equal. f_equal. etransitivity; [exact (f_equal _ Hfound)|].
    cbn. rewrite app_message_type_roundtrip. by destruct sdm. }
  unfold send_last_dlc_message, mbind at 1, M_bind at 1, on_app, stored, query, with_err.
  rewrite Hget. cbn [map_err]. cbv beta iota. unfold mbind, M_bind, try_lib, lift. rewrite Hback. unfold resent. cbn.
  by destruct (AppNode.app s2).
Qed.

Lemma on_node_read {A} (f : DlcState -> outcome string A) (s : AppNode.t) :
  on_node (read_dlc f) s = (map_err Msg (f (AppNode.dlc s)), s).
Proof using Type. unfold on_node, read_dlc. by destruct s. Qed.

Lemma notify_run task (s : AppNode.t) : exists app, notify task s = (Ok tt, AppNode.mk app (AppNode.dlc s)
    (AppNode.events s) (AppNode.outbox s)) /\ AppState.db app = AppState.db (AppNode.app s).
Proof using Type. unfold notify, on_app, publish, modify. by eexists. Qed.

(** Nothing is enqueued, and the store is as [m] leaves it, when [m] is run on it and
    the rest has to do with orders and events. *)
Definition only_store (dlc : DlcState) (outbox : list (PublicKey * TenTenOneMessage.t)) (s : AppNode.t) : Prop :=
  AppNode.dlc s = dlc /\ AppNode.outbox s = outbox.
Definition same_store (s s' : AppNode.t) : Prop := only_store (AppNode.dlc s) (AppNode.outbox s) s'.
#[local] Instance same_store_preorder : PreOrder same_store.
Proof using Type. unfold same_store, only_store. split; [by intros ?|]. intros ? ? ? [-> ->] [-> ->]. done. Qed.

Lemma rejecting_steps {A} (m : M DlcState string A) (rest : A -> AppNodeM unit) s : (forall a, steps same_store (rest a)) ->
  only_store (m (AppNode.dlc s)).2 (AppNode.outbox s) ((on_dlc_store m ≫= rest) s).2.
Proof using Type.
  intros Hrest. unfold mbind, M_bind, on_dlc_store. destruct (m (AppNode.dlc s)) as [[a|e|] dlc]; cbn; [|done..].
  destruct (Hrest a (AppNode.mk (AppNode.app s) dlc (AppNode.events s) (AppNode.outbox s))) as [H1 H2]. by split.
Qed.

Lemma reject_rest {A} (m : AppM unit) (send : AppNodeM A) : steps same_store send -> steps same_store (on_app m;; send).
Proof using Type.
  intros Hs. apply steps_bind; [apply _| |intros; exact Hs]. intros s. unfold on_app. by destruct (m _).
Qed.

Lemma no_pending_offers (s : AppNode.t) channels : store_channels (AppNode.dlc s) = Ok channels ->
  Forall (fun c => Channel.kind c <> Offered) channels -> reject_pending_dlc_channel_offers s = (Ok tt, s).
Proof using Type.
  intros Hc Hnone. unfold reject_pending_dlc_channel_offers, mbind at 1, M_bind at 1, list_dlc_channels.
  rewrite on_node_read, Hc. cbn [map_err]. rewrite filter_none; [done|].
  intros c Hin. rewrite Forall_forall in Hnone. specialize (Hnone c Hin). by destruct (Channel.kind c).
Qed.

Lemma reject_offer_steps (m : AppM unit) peer reject : steps same_store
  (on_app m;; send_dlc_message peer (TenTenOneMessage.Reject (TenTenOneReject.mk reject))).
Proof using Type. apply reject_rest. by intros s. Qed.

(** An offer is rejected between two notifications. *)
Lemma rejecting_offer {A} (m : M DlcState string A) (rest : A -> AppNodeM unit) first second s :
  (forall a, steps same_store (rest a)) ->
  only_store (m (AppNode.dlc s)).2 (AppNode.outbox s)
    (db.or_log (notify first;; (on_dlc_store m ≫= rest);; notify second) s).2.
Proof using Type.
  intros Hrest. destruct (notify_run first s) as (app & Hn & _).
  unfold db.or_log. unfold mbind at 1, M_bind at 1. rewrite Hn. unfold mbind at 1, M_bind at 1.
  set (s1 := AppNode.mk app (AppNode.dlc s) (AppNode.events s) (AppNode.outbox s)).
  pose proof (rejecting_steps m rest s1 Hrest) as H1. change (AppNode.dlc s1) with (AppNode.dlc s) in H1.
  change (AppNode.outbox s1) with (AppNode.outbox s) in H1.
  destruct ((on_dlc_store m ≫= rest) s1) as [[[]|e|] s2]; [|done..].
  destruct (notify_run second s2) as (app2 & Hn2 & _). rewrite Hn2. exact H1.
Qed.

(** C16: the message stored last for a peer is the one that is sent again.  Once [msg]
    is stored for [peer], and as long as no other message is stored, a request to
    send the last message sends [msg], and does not change anything.  So does a
    reconnect (when no offer of a channel is pending): it sends [msg] if there is no
    signed channel, or the first one is at rest, and in the middle of a protocol it
    also says that the channel is being recovered; but a received offer to settle or
    to renew is rejected instead, an offer to close that is not the app's own is
    accepted, and nothing is sent again.  (The text [msg] is stored as reads back as
    [msg].) *)
Theorem last_stored_message_is_resent (now later : OffsetDateTime) (peer : PublicKey)
    (msg : TenTenOneMessage.t) (s s' s2 : AppNode.t) (u : unit)
    (Hjson : message_json_roundtrips msg) (Hrun : store_dlc_message now peer msg s = (Ok u, s'))
    (Hkept : same_outbound s' s2) :
  handle_node_event later (PeerEvent.SendLastDlcMessage peer) s2 = (Ok tt, resent peer msg s2) /\
  forall channels signed, store_channels (AppNode.dlc s2) = Ok channels ->
    Forall (fun c => Channel.kind c <> Offered) channels ->
    store_signed_channels (AppNode.dlc s2) = Ok signed ->
    let reconnected := handle_node_event later (PeerEvent.Connected peer) s2 in
    let nothing_sent dlc := only_store dlc (AppNode.outbox s2) reconnected.2 in
    match head signed with
    | None => reconnected = (Ok tt, resent peer msg s2)
    | Some c =>
      let id := SignedChannel.channel_id c in
      match SignedChannel.state c with
      | Established _ | Settled _ _ | SettledClosingState | ClosingState =>
        reconnected = (Ok tt, resent peer msg s2)
      | SettledReceived _ => nothing_sent (reject_settle_offer id (AppNode.dlc s2)).2
      | RenewOffered => nothing_sent (reject_renew_offer id (AppNode.dlc s2)).2
      | CollaborativeCloseOffered _ =>
        if is_close_offer c then reconnected = (Ok tt, resent peer msg s2)
        else nothing_sent (accept_collaborative_close id (AppNode.dlc s2)).2
      | _ => reconnected =
          (Ok tt, resent peer msg (notify (BackgroundTask.RecoverDlc TaskStatus.Pending) s2).2)
      end
    end.
Proof using Type.
  pose proof (send_last_run now peer msg s s' u s2 Hjson Hrun Hkept) as Hsend.
  split; [unfold handle_node_event, db.or_log; by rewrite Hsend|].
  intros channels signed Hc Hnone Hsigned. cbn zeta. unfold handle_node_event.
  assert (Hstart : forall rest : list SignedChannel.t -> AppNodeM unit, (reject_pending_dlc_channel_offers;; on_node list_signed_dlc_channels ≫= rest) s2
    = rest signed s2).
  { intros rest. unfold mbind at 1, M_bind at 1. rewrite (no_pending_offers s2 channels Hc Hnone).
    unfold mbind, M_bind, list_signed_dlc_channels. by rewrite on_node_read, Hsigned. }
  assert (Hrec : forall m : AppNodeM unit, on_connect peer s2 = m s2 ->
    db.or_log (on_connect peer) s2 = db.or_log m s2) by (intros m Hm; unfold db.or_log; by rewrite Hm).
  unfold on_connect in *. specialize (Hrec _ (Hstart _)). cbv beta in Hrec. rewrite Hrec. clear Hrec Hstart.
  destruct (head signed) as [c|]; [|unfold db.or_log; by rewrite Hsend]. cbn zeta.
  assert (Hnotified : db.or_log (notify (BackgroundTask.RecoverDlc TaskStatus.Pending);; send_last_dlc_message peer) s2 =
    (Ok tt, resent peer msg (notify (BackgroundTask.RecoverDlc TaskStatus.Pending) s2).2)).
  { destruct (notify_run (BackgroundTask.RecoverDlc TaskStatus.Pending) s2) as (app & Hn & Hdb).
    unfold db.or_log, mbind, M_bind. rewrite Hn. cbn [snd]. erewrite send_last_run; [reflexivity|exact Hjson|exact Hrun|].
    destruct Hkept. unfold same_outbound. cbn [AppNode.app]. by rewrite Hdb. }
  assert (Hrest : db.or_log (mret tt;; send_last_dlc_message peer) s2 = (Ok tt, resent peer msg s2))
    by (unfold db.or_log, mbind, M_bind; cbn; by rewrite Hsend).
  destruct (SignedChannel.state c) eqn:Hstate; cbn [negb andb is_at_rest]; try exact Hnotified; try exact Hrest.
  - apply rejecting_offer. intros [reject counterparty]. apply reject_offer_steps.
  - apply rejecting_offer. intros [reject counterparty]. apply reject_offer_steps.
  - destruct (is_close_offer c); cbn; [exact Hrest|]. unfold db.or_log, on_dlc_store.
    by destruct (accept_collaborative_close _ _) as [[] dlc].
Qed.
End Resend.

(** ** What processing a message keeps *)

Section NodeFrames.
Context `{DL : DecimalLib} `{BL : BitcoinLib} `{IL : IdLib} `{DLC : !DlcLib} `{ML : !DlcMessagesLib}.
Context `{JL : !MessagesJson} `{HL : HashLib} `{PL : !PeerDlcLib} `{AL : !AcceptingDlcLib}.
Context (F : AppDb.t -> AppDb.t -> Prop) `{!TradeFrame F}.

Definition on_node_app (s s' : AppNode.t) : Prop := on_state F (AppNode.app s) (AppNode.app s').
#[global] Instance on_node_app_preorder : PreOrder on_node_app.
Proof using TradeFrame0.
  split; unfold on_node_app; [intros s; reflexivity|intros s s' s''; apply transitivity].
Qed.

Lemma on_app_frame {A} (m : AppM A) : steps (on_state F) m -> steps on_node_app (on_app m).
Proof using Type. intros Hm s. specialize (Hm (AppNode.app s)). unfold on_app. by destruct (m _). Qed.
Lemma on_dlc_store_frame {A} (m : M DlcState string A) : steps on_node_app (on_dlc_store m).
Proof using TradeFrame0. intros s. unfold on_dlc_store. destruct (m _). unfold on_node_app. cbn. reflexivity. Qed.
Lemma on_node_frame {A} (m : NodeM A) : steps on_node_app (on_node m).
Proof using TradeFrame0. intros s. unfold on_node. destruct (m _). unfold on_node_app. cbn. reflexivity. Qed.
Lemma node_publish_frame e : steps on_node_app (node_publish e).
Proof using TradeFrame0. intros s. unfold on_node_app. cbn. reflexivity. Qed.
Lemma notify_frame task : steps on_node_app (notify task).
Proof using TradeFrame0. apply on_app_frame, publish_frame, _. Qed.
Lemma on_result_frame {A B} (m : AppNodeM A) (f : A -> AppNodeM B) g :
  steps on_node_app m -> (forall a, steps on_node_app (f a)) -> (forall e, steps on_node_app (g e)) ->
  steps on_node_app (on_result m f g).
Proof using TradeFrame0.
  intros Hm Hf Hg s. specialize (Hm s). unfold on_result. destruct (m s) as [[a|e|] s1]; cbn in *; [..|exact Hm].
  - etrans; [exact Hm|]. apply Hf.
  - etrans; [exact Hm|]. apply Hg.
Qed.

#[local] Hint Resolve on_app_frame on_dlc_store_frame on_node_frame node_publish_frame notify_frame
  on_result_frame : sql.

Ltac frame_node := solve_steps; repeat (apply on_result_frame; solve_steps).

Lemma process_by_kind_frame config now msg : steps on_node_app (process_by_kind config now msg).
Proof using TradeFrame0.
  destruct (handlers_frame F config now) as (?&?&?&?&?&?&?&?&?&?&?&?&?&?&?&?).
  assert (Hpos : steps (on_state F) get_positions) by (apply stored_frame; frame_queries).
  assert (Hfill : forall f, steps on_node_app (set_order_to_filling f)) by (unfold set_order_to_filling; frame_node).
  assert (Hsend : forall p m, steps on_node_app (send_dlc_message p m)) by (unfold send_dlc_message; frame_node).
  destruct msg; cbn [process_by_kind];
    match goal with |- steps _ (mret _) => (apply steps_ret; apply _) | _ => idtac end.
  - unfold process_dlc_channel_offer, reject_dlc_channel_offer. frame_node.
  - unfold process_channel_updated. frame_node.
  - unfold process_settle_offer, accept_dlc_channel_collaborative_settlement, node_reject_settle_offer. frame_node.
  - unfold process_settle_confirm. frame_node.
  - unfold process_renew_offer, node_reject_renew_offer. frame_node.
  - unfold process_channel_updated. frame_node.
  - unfold process_rollover_offer, reject_rollover_offer, try_lib, context. frame_node.
  - unfold process_rollover_revoke. frame_node.
  - unfold process_close_offer. frame_node.
Qed.
End NodeFrames.

(** ** Messages are processed once *)

Section Once.
Context `{DL : DecimalLib} `{BL : BitcoinLib} `{ILaws : IdLaws} `{DLC : !DlcLib} `{ML : !DlcMessagesLib}.
Context `{JL : !MessagesJson} `{HL : HashLib} `{PL : !PeerDlcLib} `{AL : !AcceptingDlcLib}.

Lemma get_message_run hash (d : AppDb.t) : AppDlcMessages.get hash d =
  (match head (List.filter (AppDlcMessages.is_hash hash) (AppDb.dlc_messages d)) with
   | Some q => Some <$> AppDlcMessages.message_from_row q
   | None => Ok None
   end, d).
Proof using Type.
  unfold AppDlcMessages.get, mbind, M_bind. rewrite s_optional_first_run. cbn.
  destruct (head _) as [q|]; [|done]. unfold fmap, M_fmap, lift, outcome_fmap.
  by destruct (AppDlcMessages.message_from_row q).
Qed.

(** Looking a message up, as the node does. *)
Lemma node_get_message_run hash (s : AppNode.t) :
  on_app (stored (query (AppDlcMessages.get hash))) s =
  (map_err FromSql (AppDlcMessages.get hash (AppState.db (AppNode.app s))).1, s).
Proof using Type.
  unfold on_app, stored, query, with_err. rewrite get_message_run. cbn. destruct s as [[d p] ? ? ?]. done.
Qed.

Lemma process_known_message config now node_id msg sdm m s :
  serialize_message msg = Ok sdm ->
  (AppDlcMessages.get (generate_hash sdm) (AppState.db (AppNode.app s))).1 = Ok (Some m) ->
  process_dlc_message config now node_id msg s = (Ok tt, s).
Proof using Type.
  intros Hser Hget. unfold process_dlc_message, try_lib, DlcMessage.new, lift, mbind, M_bind.
  rewrite Hser. cbn. rewrite node_get_message_run. by rewrite Hget.
Qed.

Lemma on_dlc_store_app {A} (m : M DlcState string A) s : AppNode.app (on_dlc_store m s).2 = AppNode.app s.
Proof using Type. unfold on_dlc_store. by destruct (m _). Qed.

(** C8: the coordinator may send a message again, after a reconnect: a message that
    the app has processed is not processed a second time.  No order, position, trade
    or channel changes, and nothing is published or sent. *)
Theorem message_is_processed_once (config config' : option f32) (now later : OffsetDateTime)
    (node_id : PublicKey) (msg : TenTenOneMessage.t) (s s' : AppNode.t) (u : unit)
    (Hnow : is_datetime now) (Hrun : process_dlc_message config now node_id msg s = (Ok u, s')) :
  process_dlc_message config' later node_id msg s' = (Ok tt, s').
Proof using ILaws.
  unfold process_dlc_message, DlcMessage.new in Hrun.
  apply M_bind_ok in Hrun as (sdm & ? & [Hser%map_err_ok ->]%lift_ok & Hrun).
  apply M_bind_ok in Hrun as (m & ? & [Hm ->]%lift_ok & Hrun). injection Hm as <-.
  apply M_bind_ok in Hrun as (processed & s1 & Hget & Hrun). cbn [DlcMessage.message_hash] in Hget.
  rewrite node_get_message_run in Hget. injection Hget as Hget <-. apply map_err_ok in Hget.
  destruct processed as [m|].
  { injection Hrun as _ <-. by eapply process_known_message. }
  apply M_bind_ok in Hrun as (resp & s1 & Hproc & Hrun).
  assert (Hs1 : AppNode.app s1 = AppNode.app s).
  { unfold on_result in Hproc. pose proof (on_dlc_store_app (process_tentenone_message msg node_id) s) as Happ.
    destruct (on_dlc_store (process_tentenone_message msg node_id) s) as [[a|e|] s2]; cbn in Happ; [|exfalso|done].
    - by injection Hproc as _ <-.
    - by apply M_bind_ok in Hproc as (? & ? & _ & [=]). }
  apply M_bind_ok in Hrun as ([] & s2 & Hstore & Hrun).
  assert (Hs2 : AppNode.app s2 = AppNode.app s).
  { rewrite <-Hs1. destruct resp; injection Hstore as <-; done. }
  apply M_bind_ok in Hrun as ([] & s3 & (a3 & [Hins _]%stored_run & ->)%on_app_run & Hrun).
  apply checked_ok in Hins as (n & [_ Hd3]%s_insert_ok & _). rewrite Hs2 in Hd3.
  apply M_bind_ok in Hrun as ([] & s4 & Hkind & Hlast).
  pose proof (process_by_kind_frame same_messages config now msg
    (AppNode.mk a3 (AppNode.dlc s2) (AppNode.events s2) (AppNode.outbox s2))) as [Hsame _].
  rewrite Hkind in Hsame. cbn in Hsame.
  assert (Hs4 : AppNode.app s' = AppNode.app s4) by (destruct resp; by injection Hlast as _ <-).
  eapply process_known_message; [exact Hser|]. rewrite get_message_run in Hget |- *. cbn [fst] in *.
  rewrite Hs4, Hsame, Hd3.
  match goal with |- context [AppDb.dlc_messages (set_table ?l ?d)] =>
    change (AppDb.dlc_messages (set_table l d)) with l end.
  rewrite List.filter_app.
  assert (Hnone : List.filter (AppDlcMessages.is_hash (generate_hash sdm))
    (table (AppState.db (AppNode.app s))) = []).
  { cbn. destruct (List.filter _ (AppDb.dlc_messages _)) as [|q ?]; [done|]. cbn in Hget.
    by destruct (AppDlcMessages.message_from_row q). }
  rewrite Hnone. cbn -[AppDlcMessages.row_from AppDlcMessages.message_from_row].
  unfold AppDlcMessages.is_hash. rewrite bool_decide_eq_true_2 by done.
  cbn -[AppDlcMessages.row_from AppDlcMessages.message_from_row].
  by rewrite dlc_message_row_roundtrip.
Qed.
End Once.

(** ** Funding fees and the rollover *)

Section RolloverFees.
Context `{DL : DecimalLib} `{BL : BitcoinLib} `{IL : IdLib} `{DLC : !DlcLib} `{ML : !DlcMessagesLib}.
Context `{JL : !MessagesJson} `{HL : HashLib} `{PL : !PeerDlcLib} `{AL : !AcceptingDlcLib}.

Lemma checked_update_ok {R} `{!InDb AppDb.t R} text (p : R -> bool) f d u d' :
  checked text (s_update p f) d = (Ok u, d') -> d' = set_table (update_rows p f (table d)) d.
Proof using Type.
  unfold checked, query, s_update. intros (n & d1 & Hm & Hn)%M_bind_ok.
  apply with_err_ok in Hm. injection Hm as _ <-. by apply some_rows_ok in Hn as [_ ->].
Qed.

Lemma unix_timestamp_whole t : unix_timestamp (whole_seconds t) = unix_timestamp t.
Proof using Type. unfold whole_seconds. apply Z.div_mul. done. Qed.

(** A rollover that starts writes its position, created now. *)
Lemma handle_rollover_offer_ok config now expiry events a u a' : app_db_ok (AppState.db a) ->
  handle_rollover_offer config now expiry events a = (Ok u, a') ->
  exists p, AppDb.positions (AppState.db a') = [app_position_row now p].
Proof using Type.
  intros [Hone _] Hrun. unfold handle_rollover_offer in Hrun.
  apply M_bind_ok in Hrun as (positions & ? & [-> Hps]%get_positions_ok & Hrun).
  apply M_bind_ok in Hrun as (position & ? & [Hhead%ok_or_ok ->]%lift_ok & Hrun).
  apply M_bind_ok in Hrun as (rate & ? & [_ ->]%lift_ok & Hrun).
  apply M_bind_ok in Hrun as (p & ? & [_ ->]%lift_ok & Hrun).
  apply M_bind_ok in Hrun as ([] & a1 & [Hst _]%stored_run & Hrun).
  injection Hrun as _ <-. cbn [AppState.db]. apply checked_update_ok in Hst. exists p. rewrite Hst.
  destruct (AppDb.positions (AppState.db a)) as [|row [|]] eqn:Hp; [|cbn|cbn in Hone; lia].
  - inversion Hps; subst. done.
  - rewrite Hp. cbn. unfold AppPositions.is_symbol.
    by destruct (AppPositionRow.contract_symbol row), (app_db_contract_symbol_from _).
Qed.

(** When a rollover completes, the app marks the funding fees it has paid since
    the position was created; but the start of the rollover has set the time the
    position was created to the current time.  So every fee that was due before the
    rollover started stays unpaid, although the rollover paid it. *)
Theorem rollover_leaves_earlier_fees_unpaid (config : option f32) (start finish expiry : OffsetDateTime)
    (events : list AppFundingFeeEvent.t) (a a' : AppState.t) (s s' : AppNode.t) (u u' : unit)
    (row : AppFundingFeeEventRow.t)
    (Hok : app_db_ok (AppState.db a)) (Hstart : is_datetime start)
    (Hoffer : handle_rollover_offer config start expiry events a = (Ok u, a'))
    (Hsame : AppState.db (AppNode.app s) = AppState.db a')
    (Hrevoke : process_rollover_revoke finish s = (Ok u', s'))
    (Hrow : In row (AppDb.funding_fee_events (AppState.db a')))
    (Hunpaid : AppFundingFeeEventRow.paid_date row = None)
    (Hdue : AppFundingFeeEventRow.due_date row < unix_timestamp start) :
  In row (AppDb.funding_fee_events (AppState.db (AppNode.app s'))).
Proof using Type.
  apply handle_rollover_offer_ok in Hoffer as [p Hp]; [|done].
  unfold process_rollover_revoke in Hrevoke.
  apply M_bind_ok in Hrevoke as (position & s1 & (a1 & Hupd & ->)%on_app_run & Hrevoke).
  apply M_bind_ok in Hrevoke as ([] & s2 & (a2 & Hmark & ->)%on_app_run & Hrevoke).
  injection Hrevoke as _ <-. cbn [AppNode.app AppState.db] in *.
  unfold update_position_after_rollover in Hupd.
  apply M_bind_ok in Hupd as (positions & ? & [-> Hps]%get_positions_ok & Hupd).
  rewrite Hsame, Hp in Hps. inversion Hps as [|? old ? ? Hold Hnil]; subst. inversion Hnil; subst.
  apply M_bind_ok in Hupd as (position' & ? & [Hhead%ok_or_ok ->]%lift_ok & Hupd). cbn in Hhead. injection Hhead as <-.
  apply M_bind_ok in Hupd as ([] & a3 & [Hst _]%stored_run & Hupd).
  apply M_bind_ok in Hupd as ([] & a4 & Hpub & Hupd). injection Hpub as <-. injection Hupd as <- <-.
  apply checked_update_ok in Hst.
  assert (Hcreated : AppPosition.created old = whole_seconds start).
  { unfold app_position_from in Hold. inv_ok. subst. cbn in *.
    rewrite from_unix_timestamp_roundtrip in * by done. by simplify_eq. }
  unfold mark_funding_fee_events_as_paid in Hmark. apply stored_run in Hmark as [Hmark _].
  unfold db.mark_funding_fee_events_as_paid, AppFundingFeeEvents.mark_as_paid, query in Hmark.
  apply with_err_ok, M_bind_ok in Hmark as (n & d & Hupd & Hret). injection Hret as <-.
  unfold s_update in Hupd. injection Hupd as _ <-. cbn. rewrite Hst. cbn.
  rewrite Hsame. apply in_map_iff. exists row. split; [|done].
  unfold AppFundingFeeEvents.is_unpaid_since, finish_rollover. cbn.
  rewrite Hcreated, unix_timestamp_whole. 
  destruct (Z.leb_spec (unix_timestamp start) (AppFundingFeeEventRow.due_date row)); [lia|].
  by rewrite andb_false_r.
Qed.
End RolloverFees.

(** ** Submitting an order *)

Section Submit.
Context `{DL : DecimalLib} `{BL : BitcoinLib} `{ILaws : IdLaws} `{DLC : !DlcLib} `{ML : !DlcMessagesLib}.
Context `{JL : !MessagesJson} `{HL : HashLib} `{PL : !PeerDlcLib} `{AL : !AcceptingDlcLib}.

(** The channel an order may be submitted with. *)
Definition channel_allows (has_position : bool) (channel : option SignedChannel.t) : Prop :=
  match channel with
  | None => has_position = false
  | Some channel =>
    match SignedChannel.state channel with
    | Established _ => has_position = true
    | Settled _ _ => has_position = false
    | _ => False
    end
  end.

Lemma storage_run {A} (m : AppNodeM A) s a s' : storage m s = (Ok a, s') <-> m s = (Ok a, s').
Proof using Type. apply with_err_ok. Qed.

Lemma insert_order_ok o d o' d' : db.insert_order o d = (Ok o', d') ->
  stored_as (AppOrder.id o) d' (app_order_row o) o'.
Proof using Type.
  unfold db.insert_order, AppOrders.insert. intros Hins.
  apply M_bind_ok in Hins as (row & d1 & Hins & [Ho ->]%lift_ok).
  apply M_bind_ok in Hins as ([] & d2 & Hins & Hret). injection Hret as <- <-.
  apply checked_ok in Hins as (n & [Hnew ->]%s_insert_ok & _). apply map_err_ok in Ho. split; [|exact Ho].
  assert (Hid : AppOrderRow.id (app_order_row o) = uuid_to_string (AppOrder.id o)).
  { unfold app_order_row. by destruct (app_db_order_type_from _), (app_db_order_state_parts _) as [[]]. }
  unfold order_rows. cbn -[app_order_row]. rewrite List.filter_app. cbn -[app_order_row].
  unfold AppOrders.is_id at 2. rewrite Hid, bool_decide_eq_true_2 by done.
  replace (List.filter _ (AppDb.orders d)) with (@nil AppOrderRow.t); [done|]. symmetry.
  cbn -[app_order_row] in Hnew. induction (AppDb.orders d) as [|x l IH]; cbn -[app_order_row] in *; [done|].
  apply orb_false_iff in Hnew as [Hx Hl]. unfold conflicts, app_orders_key in Hx. rewrite Hid in Hx.
  unfold AppOrders.is_id at 1. rewrite bool_decide_eq_false_2; [by apply IH|].
  apply bool_decide_eq_false in Hx. congruence.
Qed.

Lemma get_stored_order id d r o : stored_as id d r o -> db.get_order id d = (Ok (Some o), d).
Proof using Type. intros [Hr Ho]. erewrite get_order_run by done. by rewrite Ho. Qed.

Lemma check_channel_state_ok coordinator s u s' : check_channel_state coordinator s = (Ok u, s') ->
  exists channels positions, store_signed_channels (AppNode.dlc s) = Ok channels /\
    db.get_positions (AppState.db (AppNode.app s)) = (Ok positions, AppState.db (AppNode.app s)) /\
    channel_allows (bool_decide (is_Some (head positions))) (head channels) /\
    AppNode.app s' = AppNode.app s.
Proof using Type.
  unfold check_channel_state. intros Hrun.
  apply M_bind_ok in Hrun as (channels & s1 & Hch%storage_run & Hrun).
  assert (Hs1 : AppNode.app s1 = AppNode.app s /\ store_signed_channels (AppNode.dlc s) = Ok channels).
  { unfold on_node, list_signed_dlc_channels, read_dlc in Hch. cbn in Hch.
    injection Hch as Hch <-. by apply map_err_ok in Hch. }
  destruct Hs1 as [Hs1 Hchannels].
  apply M_bind_ok in Hrun as (positions & s2 & (a2 & Hpos & ->)%storage_run%on_app_run & Hrun).
  pose proof Hpos as [Hdb _]%stored_run. apply get_positions_ok in Hpos as [-> _].
  rewrite Hs1 in Hdb. exists channels, positions. split; [done|]. split; [done|].
  rewrite <-Hs1. clear Hs1 Hdb Hchannels Hch. unfold channel_allows.
  destruct (head positions) as [p|]; cbn in *.
  - apply M_bind_ok in Hrun as ([] & s3 & Hch & Hrun).
    destruct (head channels) as [channel|]; [|discriminate Hch].
    destruct (SignedChannel.state channel); try discriminate Hch. injection Hch as <-.
    apply M_bind_ok in Hrun as (confirmed & s4 & Hconf%storage_run & Hrun).
    split; [done|]. unfold on_node in Hconf. destruct (check_if_signed_channel_is_confirmed _ _) as [r n].
    injection Hconf as _ <-. destruct confirmed; [|discriminate Hrun]. by injection Hrun as _ <-.
  - destruct (head channels) as [channel|]; [|by injection Hrun as _ <-].
    destruct (SignedChannel.state channel); try discriminate Hrun. by injection Hrun as _ <-.
Qed.
End Submit.

Section SubmitOutcome.
Context `{DL : DecimalLib} `{BL : BitcoinLib} `{ILaws : IdLaws} `{DLC : !DlcLib} `{ML : !DlcMessagesLib}.
Context `{JL : !MessagesJson} `{HL : HashLib} `{PL : !PeerDlcLib} `{AL : !AcceptingDlcLib}.

(** The order is stored in this state. *)
Definition order_in_state (id : Uuid) (s : AppNode.t) (state : AppOrderState.t) : Prop :=
  exists o, db.get_order id (AppState.db (AppNode.app s)) = (Ok (Some o), AppState.db (AppNode.app s)) /\
    AppOrder.state o = state.

Lemma order_row_execution_price o : AppOrderRow.execution_price (app_order_row o) = order_execution_price o /\
  AppOrderRow.matching_fee_sats (app_order_row o) = as_i64 <$> order_known_matching_fee o.
Proof using Type.
  unfold app_order_row. by destruct (app_db_order_type_from _), (app_db_order_state_parts _) as [[]].
Qed.

(** The results that are about the order book. *)
Definition from_orderbook (r : outcome SubmitOrderError Uuid) : Prop :=
  match r with Ok _ | Err (OrderbookError _) => True | _ => False end.

Lemma storage_bind {A} (m : AppNodeM A) (f : A -> SubmitM Uuid) s r s' : from_orderbook r ->
  (storage m ≫= f) s = (r, s') -> exists a s1, m s = (Ok a, s1) /\ f a s1 = (r, s').
Proof using Type.
  intros Hr. unfold storage, mbind, M_bind, with_err. destruct (m s) as [[a|e|] s1]; cbn.
  - intros Hf. by exists a, s1.
  - by intros [= <- <-].
  - by intros [= <- <-].
Qed.

Lemma check_channel_state_bind coordinator (f : unit -> SubmitM Uuid) s r s' : from_orderbook r ->
  (check_channel_state coordinator ≫= f) s = (r, s') ->
  exists s1, check_channel_state coordinator s = (Ok tt, s1) /\ f tt s1 = (r, s').
Proof using Type.
  intros Hr Hrun.
  assert (Hstorage : forall A (m : AppNodeM A), errs (fun e => ~ from_orderbook (Err e)) (storage m)).
  { intros A m s0 e s1. unfold storage, with_err. destruct (m s0) as [[]]; cbn; intros [=]; subst; cbn; tauto. }
  assert (He : errs (fun e => ~ from_orderbook (Err e)) (check_channel_state coordinator)).
  { unfold check_channel_state. apply errs_bind; [apply Hstorage|]. intros channels.
    apply errs_bind; [apply Hstorage|]. intros positions. destruct (head positions).
    - apply errs_bind.
      + destruct (head channels) as [c|]; [destruct (SignedChannel.state c)|]; (apply errs_ret || (apply errs_throw; cbn; tauto)).
      + intros _. apply errs_bind; [apply Hstorage|]. intros []; [apply errs_ret|apply errs_throw; cbn; tauto].
    - destruct (head channels) as [c|]; [destruct (SignedChannel.state c)|]; (apply errs_ret || (apply errs_throw; cbn; tauto)). }
  unfold mbind, M_bind in Hrun. destruct (check_channel_state coordinator s) as [[[]|e|] s1] eqn:Hc.
  - by exists s1.
  - exfalso. injection Hrun as <- _. by apply (He _ _ _ Hc).
  - by injection Hrun as <- _.
Qed.

Lemma update_position_after_order_submitted_same_orders order :
  steps (on_state same_orders) (update_position_after_order_submitted order).
Proof using Type.
  assert (Hu : forall (p : AppPositionRow.t -> bool) f, steps same_orders (s_update p f)) by by intros p f d.
  unfold update_position_after_order_submitted. frame_handlers; apply stored_frame; frame_queries.
Qed.

Lemma stored_in_state id (s : AppNode.t) r o : stored_as id (AppState.db (AppNode.app s)) r o ->
  order_in_state id s (AppOrder.state o).
Proof using Type. intros Hst. exists o. split; [|done]. by eapply get_stored_order. Qed.

(** An order is only submitted if the channel fits: no channel or a settled one
    without a position, an established one with a position.  If the order book takes
    the order it is stored as [Open]; if the order book refuses, the order is stored
    as [Failed] for that reason, and the error is reported as the order book's. *)
Theorem submitted_order_is_recorded (coordinator : PublicKey) (post : AppOrder.t -> outcome string unit)
    (order : AppOrder.t) (s s' : AppNode.t) (r : outcome SubmitOrderError Uuid)
    (Hinitial : AppOrder.state order = AppOrderState.Initial)
    (Hrun : submit_order_internal coordinator post order s = (r, s')) :
  (forall id, r = Ok id -> id = AppOrder.id order /\ post order = Ok tt /\
     order_in_state id s' AppOrderState.Open) /\
  (forall e, r = Err (OrderbookError e) ->
     exists text, e = Msg text /\ post order = Err text /\
       order_in_state (AppOrder.id order) s' (AppOrderState.Failed None None (OrderRejected text))) /\
  ((exists id, r = Ok id) \/ (exists e, r = Err (OrderbookError e)) ->
     exists channels positions, store_signed_channels (AppNode.dlc s) = Ok channels /\
       db.get_positions (AppState.db (AppNode.app s)) = (Ok positions, AppState.db (AppNode.app s)) /\
       channel_allows (bool_decide (is_Some (head positions))) (head channels)).
Proof using ILaws.
  assert (Hgood : from_orderbook r -> exists channels positions,
    (store_signed_channels (AppNode.dlc s) = Ok channels /\
     db.get_positions (AppState.db (AppNode.app s)) = (Ok positions, AppState.db (AppNode.app s)) /\
     channel_allows (bool_decide (is_Some (head positions))) (head channels)) /\
    match post order with
    | Ok _ => r = Ok (AppOrder.id order) /\ order_in_state (AppOrder.id order) s' AppOrderState.Open
    | Err text => r = Err (OrderbookError (Msg text)) /\
        order_in_state (AppOrder.id order) s' (AppOrderState.Failed None None (OrderRejected text))
    | Panic => False
    end).
  { intros Hr. unfold submit_order_internal in Hrun.
    apply check_channel_state_bind in Hrun as (s1 & Hcheck & Hrun); [|done].
    apply check_channel_state_ok in Hcheck as (channels & positions & Hch & Hpos & Hallow & Happ).
    exists channels, positions. split; [done|]. clear Hch Hpos Hallow.
    apply storage_bind in Hrun as (filling & s2 & _ & Hrun); [|done].
    destruct filling as [filling|]; [by injection Hrun as <- _|].
    apply storage_bind in Hrun as (o3 & s3 & (a3 & [Hins _]%stored_run & ->)%on_app_run & Hrun); [|done].
    apply insert_order_ok in Hins. set (row := app_order_row order) in *.
    destruct (order_row_execution_price order) as [Hprice Hmfee]. fold row in Hprice, Hmfee.
    unfold order_execution_price, order_known_matching_fee in Hprice, Hmfee. rewrite Hinitial in Hprice, Hmfee.
    apply storage_bind in Hrun as (o4 & s4 & (a4 & Hopen & ->)%on_app_run & Hrun); [|done].
    destruct (set_state_run (AppOrder.id order) AppDbOrderState.Open None None None a3 row o3 _
      (db.set_order_state_to_open (AppOrder.id order)) Hins eq_refl
      (updated_row_reads row o3 AppDbOrderState.Open None None None AppOrderState.Open (proj2 Hins) eq_refl))
      as (a4' & Hopen' & Hst4 & _).
    cbn [AppNode.app] in Hopen. unfold set_order_to_open_and_update_ui in Hopen. rewrite Hopen' in Hopen.
    injection Hopen as _ <-. 
    destruct (post order) as [[]|text|] eqn:Hpost; [| |by injection Hrun as <- _].
    - apply storage_bind in Hrun as ([] & s5 & (a5 & Hupd & ->)%on_app_run & Hrun); [|done].
      injection Hrun as <- <-. split; [done|].
      pose proof (update_position_after_order_submitted_same_orders order a4') as Hsame.
      cbn [AppNode.app] in Hupd. rewrite Hupd in Hsame.
      apply (stored_as_same _ _ (AppState.db a5)) in Hst4; [|exact Hsame].
      exact (stored_in_state _ (AppNode.mk a5 _ _ _) _ _ Hst4).
    - unfold order_execution_price in Hrun. rewrite Hinitial in Hrun.
      apply storage_bind in Hrun as (o5 & s5 & (a5 & Hfail & ->)%on_app_run & Hrun); [|done].
      apply storage_bind in Hrun as ([] & s6 & (a6 & Hopen & ->)%on_app_run & Hrun); [|done].
      injection Hrun as <- <-. split; [done|].
      destruct (set_state_run (AppOrder.id order) AppDbOrderState.Failed None None
        (Some (app_db_failure_reason_from (OrderRejected text))) a4' _ _ _
        (db.set_order_state_to_failed (AppOrder.id order) (app_db_failure_reason_from (OrderRejected text)) None)
        Hst4 eq_refl
        (updated_row_reads _ _ AppDbOrderState.Failed None None _ _ (proj2 Hst4) eq_refl))
        as (a5' & Hfail' & Hst5 & _).
      cbn [AppNode.app] in Hfail, Hopen. unfold set_order_to_failed_and_update_ui in Hfail. rewrite Hfail' in Hfail.
      injection Hfail as _ <-.
      pose proof (set_position_state_same_orders AppPositionState.Open a5') as Hsame. rewrite Hopen in Hsame.
      apply (stored_as_same _ _ (AppState.db a6)) in Hst5; [|exact Hsame].
      pose proof (stored_in_state _ (AppNode.mk a6 (AppNode.dlc s2) (AppNode.events s2) (AppNode.outbox s2)) _ _ Hst5) as Hstate.
      cbn in Hstate. rewrite Hprice, Hmfee in Hstate. exact Hstate. }
  split_and!.
  - intros id ->. destruct (Hgood I) as (channels & positions & _ & Hp).
    destruct (post order) as [[]|text|]; [|by destruct Hp|done]. destruct Hp as [[= ->] Hp]. by split_and!.
  - intros e ->. destruct (Hgood I) as (channels & positions & _ & Hp).
    destruct (post order) as [[]|text|]; [by destruct Hp| |done]. destruct Hp as [[= ->] Hp]. by exists text.
  - intros H. destruct Hgood as (channels & positions & Hpre & _).
    { destruct H as [[id ->]|[e ->]]; exact I. }
    by exists channels, positions.
Qed.
End SubmitOutcome.

(** ** Evaluated *)

(** A [rust-dlc] that accepts and rejects every offer. *)
Definition demo_answer {A} (a : A) : M DemoStore.t string (A * PublicKey (IdLib := demo_id)) := mret (a, demo_peer).

#[export] Instance demo_accepting : AcceptingDlcLib (H := demo_id) (DLC := demo_dlc) (ML := demo_messages) := {|
  accept_channel _ _ := demo_answer (Byte.x01 : payload (DlcMessagesLib := demo_messages) PAccept);
  reject_channel _ := demo_answer (Byte.x02 : payload (DlcMessagesLib := demo_messages) PReject);
  accept_settle_offer _ := demo_answer (Byte.x03 : payload (DlcMessagesLib := demo_messages) PSettleAccept);
  reject_settle_offer _ := demo_answer (Byte.x04 : payload (DlcMessagesLib := demo_messages) PReject);
  accept_renew_offer _ := demo_answer (Byte.x05 : payload (DlcMessagesLib := demo_messages) PRenewAccept);
  reject_renew_offer _ := demo_answer (Byte.x06 : payload (DlcMessagesLib := demo_messages) PReject);
  close_collaboratively _ := mret tt;
  channel_temporary_id c := Channel.get_id c;
  offer_temporary_channel_id _ := demo_channel_id;
  offer_fee_config _ := None;
  settle_offer_channel_id _ := demo_channel_id;
  renew_offer_channel_id _ := demo_channel_id;
  closest_maturity_date _ := 1000;
  renew_revoke_channel_id _ := demo_channel_id;
  make_reject _ _ _ := Byte.x07;
|}.

(** The app of AppHandled.v without a position. *)
Definition demo_app_node (app : AppState.t) : AppNode.t (DLC := demo_dlc) (H1 := demo_messages) :=
  AppNode.mk app (DemoStore.mk [] [] []) [] [].
Definition demo_empty_node := demo_app_node (AppState.mk AppDb.empty []).

(** A message is stored; later the app reconnects, a first channel in the given state. *)
Definition demo_reconnecting (state : SignedChannelState) (s : AppNode.t (DLC := demo_dlc) (H1 := demo_messages)) :=
  AppNode.mk (AppNode.app s) (DemoStore.mk [Channel.mk (Signed (SignedChannel.mk demo_channel_id demo_peer state 0 0))
    demo_channel_id demo_peer None None] [] []) [] [].

Example last_stored_message_is_resent_witness :
  exists s', store_dlc_message 5 demo_peer demo_reject demo_empty_node = (Ok tt, s') /\
    AppNode.outbox (handle_node_event 9 (PeerEvent.SendLastDlcMessage demo_peer) s').2 = [(demo_peer, demo_reject)] /\
    (let s2 := demo_reconnecting (Settled 0 0) s' in
     AppNode.outbox (handle_node_event 9 (PeerEvent.Connected demo_peer) s2).2 = [(demo_peer, demo_reject)]) /\
    (let s2 := demo_reconnecting RenewOffered s' in
     AppNode.outbox (handle_node_event 9 (PeerEvent.Connected demo_peer) s2).2 = []).
Proof.
  destruct (store_dlc_message 5 demo_peer demo_reject demo_empty_node) as [[[]|e|] s'] eqn:Hrun;
    [|discriminate Hrun..].
  exists s'. split; [reflexivity|].
  assert (Hjson : message_json_roundtrips demo_reject) by (intros t Ht; by injection Ht as <-).
  assert (Hall : forall s2, same_outbound s' s2 -> _) by
    exact (fun s2 => last_stored_message_is_resent 5 9 demo_peer demo_reject demo_empty_node s' s2 tt Hjson Hrun).
  cbn zeta. split_and!.
  - destruct (Hall s') as [-> _]; [by split|]. injection Hrun as <-. reflexivity.
  - destruct (Hall (demo_reconnecting (Settled 0 0) s')) as [_ Hc]; [by split|].
    specialize (Hc _ _ eq_refl ltac:(by repeat constructor) eq_refl). cbn zeta in Hc. cbn [head demo_signed] in Hc. by rewrite Hc.
  - destruct (Hall (demo_reconnecting RenewOffered s')) as [_ Hc]; [by split|].
    specialize (Hc _ _ eq_refl ltac:(by repeat constructor) eq_refl). cbn zeta in Hc. by destruct Hc.
Defined.

Example message_is_processed_once_witness :
  exists s', process_dlc_message None 5 demo_peer demo_reject demo_empty_node = (Ok tt, s') /\
    process_dlc_message None 9 demo_peer demo_reject s' = (Ok tt, s').
Proof.
  destruct (process_dlc_message None 5 demo_peer demo_reject demo_empty_node) as [[[]|e|] s'] eqn:Hrun;
    [|discriminate Hrun..].
  exists s'. split; [reflexivity|].
  by apply (message_is_processed_once (ILaws := demo_id_laws) None None 5 9 demo_peer demo_reject demo_empty_node s' tt).
Defined.

(** The order book refuses an order of an app without a channel. *)
Definition demo_new_order : AppOrder.t := AppOrder.with_state AppOrderState.Initial (demo_app_order 40 Long).

Example submitted_order_is_recorded_witness :
  exists s', submit_order_internal demo_peer (fun _ => Err "No liquidity"%string) demo_new_order demo_empty_node
      = (Err (OrderbookError (Msg "No liquidity")), s') /\
    order_in_state 70 s' (AppOrderState.Failed None None (OrderRejected "No liquidity")).
Proof.
  destruct (submit_order_internal demo_peer (fun _ => Err "No liquidity"%string) demo_new_order demo_empty_node)
    as [r s'] eqn:Hrun.
  assert (Hr : r = Err (OrderbookError (Msg "No liquidity"))) by (injection Hrun as <- _; reflexivity).
  exists s'. split; [by rewrite Hr|].
  destruct (submitted_order_is_recorded (ILaws := demo_id_laws) demo_peer (fun _ => Err "No liquidity"%string)
    demo_new_order demo_empty_node s' r eq_refl Hrun) as (_ & Herr & _).
  destruct (Herr _ Hr) as (text & [= <-] & _ & Hstate). exact Hstate.
Defined.

(** A fee due at 100 is stored; the rollover starts at 200 and ends at 300. *)
Definition demo_due_fee : AppFundingFeeEventRow.t :=
  AppFundingFeeEventRow.mk AppDbContractSymbol.BtcUsd (f32_of_Z 100) AppDbDirection.Long (f32_of_Z 20000) 500 100 None.
Definition demo_fee_state : AppState.t :=
  AppState.mk (AppDb.mk [] [app_position_row 0 demo_app_position] [] [demo_due_fee] [] [] [] [] [] []) [].

Example rollover_leaves_earlier_fees_unpaid_witness :
  exists a' s', handle_rollover_offer None (200 * NANOS_PER_SEC) 900 [] demo_fee_state = (Ok tt, a') /\
    process_rollover_revoke (300 * NANOS_PER_SEC) (demo_app_node a') = (Ok tt, s') /\
    In demo_due_fee (AppDb.funding_fee_events (AppState.db (AppNode.app s'))).
Proof.
  destruct (succeeds (handle_rollover_offer None (200 * NANOS_PER_SEC) 900 []) demo_fee_state) as ([] & a' & Ha).
  { by vm_compute. }
  assert (Hok : is_ok (process_rollover_revoke (300 * NANOS_PER_SEC)
    (demo_app_node (handle_rollover_offer None (200 * NANOS_PER_SEC) 900 [] demo_fee_state).2)).1 = true) by by vm_compute.
  rewrite Ha in Hok. cbn [snd] in Hok.
  destruct (process_rollover_revoke (300 * NANOS_PER_SEC) (demo_app_node a')) as [[[]|e|] s'] eqn:Hs; [|discriminate Hok..].
  exists a', s'. split; [exact Ha|]. split; [exact Hs|].
  eapply (rollover_leaves_earlier_fees_unpaid None (200 * NANOS_PER_SEC) (300 * NANOS_PER_SEC) 900 []
    demo_fee_state a' (demo_app_node a') s' tt tt demo_due_fee); [..|reflexivity|reflexivity].
  - split_and!; [apply le_n|constructor|constructor].
  - done.
  - exact Ha.
  - reflexivity.
  - exact Hs.
  - assert (Hsame : AppDb.funding_fee_events (AppState.db
      (handle_rollover_offer None (200 * NANOS_PER_SEC) 900 [] demo_fee_state).2) = [demo_due_fee]) by reflexivity.
    rewrite Ha in Hsame. cbn [snd] in Hsame. rewrite Hsame. by left.
Defined.
