(* ===== verification/Revert.v ===== *)
(** * Collaborative reverts: [coordinator/src/collaborative_revert.rs], [dlc/mod.rs]

    A channel whose state went wrong can be closed by a transaction that spends its
    funding output directly.  The coordinator proposes what each side gets, the app
    signs the transaction and sends it back, and the coordinator adds its signature
    and broadcasts it. *)

From stdpp Require Import base list option strings pretty.
From Stdlib Require Import ZArith QArith Lia.
From S2P Require Import Prelude Machine External Demo Commons PayoutCurve SqlTypes Schema Db MatchesDb Trading.
From S2P Require Import PositionsDb FundingDb Funding Messages ProtocolDb ChannelsDb DlcExecutor AppData AppApply AppSql.
From S2P Require Import Sqlite AppDb StorageDb Node DemoDlc DlcPeer AppHandlers AppFrames AppHandled CoordinatorNode AppNode.

#[local] Open Scope Z_scope.

Definition COLLABORATIVE_REVERT_TX_WEIGHT : Z := 672.

(** Transactions and signatures, the wallet, what the library knows of a channel,
    and the chain. *)
Class RevertLib `{IL : IdLib} `{DLC : !DlcLib} `{AL : AddressLib} := {
  tx_weight_to_fee : Z -> Z -> option Z;
  fund_output_value : SignedChannel.t -> option Z;
  RevertTx : Type;
  revert_outputs : RevertTx -> list TxOut.t;
  revert_txid : RevertTx -> string;
  revert_raw : RevertTx -> string;                  (* [serialize_hex] *)
  RevertSignature : Type;
  FundKey : Type;
  new_address : outcome string Address;
  script_is_mine : list Byte.byte -> bool;
  own_fund_sk : SignedChannel.t -> outcome string FundKey;
  sign_multi_sig_input : RevertTx -> RevertSignature -> SignedChannel.t -> FundKey -> Z -> outcome string RevertTx;
  Chain : Type;
  esplora_broadcast : RevertTx -> M Chain string unit;
  (** [upsert_channel] of a [CollaborativelyClosed] channel. *)
  store_closed_channel : SignedChannel.t -> string -> M DlcState string unit;
  (** What the app uses. *)
  address_script_pubkey : Address -> list Byte.byte;
  create_collaborative_close_transaction : SignedChannel.t -> list Byte.byte -> Z -> Z -> RevertTx;
  raw_sig_for_input : RevertTx -> SignedChannel.t -> Z -> FundKey -> outcome string RevertSignature;
}.

(** [Message::DlcChannelCollaborativeRevert] to a trader. *)
Module RevertProposal.
Record t `{DecimalLib} `{IdLib} `{AddressLib} := mk {
  trader_id : PublicKey;
  channel_id : DlcChannelId;
  coordinator_address : Address;
  coordinator_amount : Amount;
  trader_amount : Amount;
  execution_price : Decimal;
}.
#[global] Arguments mk {_ _ _}.
End RevertProposal.

(** The coordinator, the proposals it sent, the chain, and whether the notifier still
    listens to what it is sent. *)
Module RevertState.
Record t `{DecimalLib} `{RevertLib} `{DlcMessagesLib} := mk {
  coordinator : Coordinator.t;
  proposals : list RevertProposal.t;
  chain : Chain;
  listening : bool;
}.
#[global] Arguments mk {_ _ _ _ _ _}.
End RevertState.

Section Revert.
Context `{DL : DecimalLib} `{IL : IdLib} `{DLC : !DlcLib} `{AL : AddressLib} `{VL : !RevertLib} `{ML : !DlcMessagesLib}.
Context (now : OffsetDateTime).

Definition RevertM (A : Type) : Type := M RevertState.t Anyhow A.
Definition r_coordinator {A} (m : CoordinatorM A) : RevertM A := fun s =>
  let '(r, c) := m (RevertState.coordinator s) in (r, RevertState.mk c (RevertState.proposals s) (RevertState.chain s) (RevertState.listening s)).
Definition r_node {A} (m : NodeM A) : RevertM A := r_coordinator (c_node m).
Definition r_db {A} (m : M Db.t Anyhow A) : RevertM A := r_coordinator (c_db m).
Definition r_try {A} (m : outcome string A) : RevertM A := lift (map_err Msg m).
(** [sender.send(..)], which fails once the notifier is gone. *)
Definition propose (proposal : RevertProposal.t) : RevertM unit :=
  fun s =>
    if RevertState.listening s then
      (Ok tt, RevertState.mk (RevertState.coordinator s) (RevertState.proposals s ++ [proposal]) (RevertState.chain s) true)
    else (Err (Msg "Failed to notify user"), s).

Definition find_signed_channel (channel_id : DlcChannelId) : NodeM SignedChannel.t :=
  dlc_channels ← list_signed_dlc_channels;
  try (ok_or "Could not find signed DLC channel"%string
    (List.find (fun c => bool_decide (SignedChannel.channel_id c = channel_id)) dlc_channels)).

(** What the two sides get: half of the fee each is taken off. *)
Definition revert_amounts (fund_value fee_rate_sats_vb trader_amount_sats : Z) : outcome string (Amount * Amount) :=
  coordinator_amount_sats ← ok_or "Could not substract trader amount from total value without overflow"%string
    (checked_u64 (fund_value - trader_amount_sats));
  fee ← ok_or "Could not calculate fee"%string (tx_weight_to_fee COLLABORATIVE_REVERT_TX_WEIGHT fee_rate_sats_vb);
  let fee_half := fee / 2 in
  coordinator_amount ← ok_or "Could not subtract fee from coordinator amount"%string
    (checked_u64 (coordinator_amount_sats - fee_half));
  trader_amount ← ok_or "Could not subtract fee from trader amount"%string (checked_u64 (trader_amount_sats - fee_half));
  Ok (coordinator_amount, trader_amount).

Definition propose_collaborative_revert (channel_id : DlcChannelId) (fee_rate_sats_vb trader_amount_sats : Z)
    (closing_price : Decimal) : RevertM unit :=
  channel ← r_node (find_signed_channel channel_id);
  let peer_id := SignedChannel.counter_party channel in
  fund_value ← lift (expect (fund_output_value channel));
  coordinator_address ← r_try new_address;
  '(coordinator_amount, trader_amount) ← r_try (revert_amounts fund_value fee_rate_sats_vb trader_amount_sats);
  r_db (insert_revert (CollaborativeRevert.mk channel_id peer_id closing_price coordinator_address coordinator_amount
    trader_amount now));;
  propose (RevertProposal.mk peer_id channel_id coordinator_address coordinator_amount trader_amount closing_price).

(** [Blockchain::broadcast_transaction_blocking]: the transaction is stored first, a
    failure to do so is logged. *)
Definition broadcast_transaction_blocking (tx : RevertTx) : RevertM unit := fun s =>
  let transaction := ChainTransaction.mk (revert_txid tx) 0 now now (revert_raw tx) in
  match r_db (upsert_transaction_row (transaction_row_from transaction)) s with
  | (Panic, s) => (Panic, s)
  | (_, s) =>
    let '(r, chain) := esplora_broadcast tx (RevertState.chain s) in
    (map_err Msg r, RevertState.mk (RevertState.coordinator s) (RevertState.proposals s) chain
      (RevertState.listening s))
  end.

Definition pays_coordinator (tx : RevertTx) : bool :=
  existsb (fun output => script_is_mine (TxOut.script_pubkey output)) (revert_outputs tx).

Definition confirm_collaborative_revert (channel_id : DlcChannelId) (revert_transaction : RevertTx)
    (counterparty_signature : RevertSignature) : RevertM RevertTx :=
  record ← r_db (get_by_channel_id channel_id);
  record ← r_try (ok_or "No matching record to confirm collaborative revert for channel"%string record);
  r_try (ensure (pays_coordinator revert_transaction)
    "Proposed collaborative revert transaction doesn't pay the coordinator"%string);;
  signed_channel ← r_node (find_signed_channel channel_id);
  fund_out_amount ← lift (expect (fund_output_value signed_channel));
  own_fund_sk ← r_try (own_fund_sk signed_channel);
  revert_transaction ← r_try (sign_multi_sig_input revert_transaction counterparty_signature signed_channel
    own_fund_sk fund_out_amount);
  broadcast_transaction_blocking revert_transaction;;
  position ← r_db (with_err FromSql (get_position_by_trader (CollaborativeRevert.trader_pubkey record) []));
  position ← r_try (ok_or "Could not load position for subchannel"%string position);
  r_db (set_position_to_closed now (Position.id position));;
  r_db (delete_revert channel_id);;
  r_coordinator (c_dlc (store_closed_channel signed_channel (revert_txid revert_transaction)));;
  mret revert_transaction.

(** [routes::collaborative_revert_confirm]: the status and the text of the response. *)
Definition collaborative_revert_confirm (channel_id : string) (transaction : RevertTx) (signature : RevertSignature)
    : M RevertState.t Anyhow (Z * string) := fun s =>
  match hex_decode channel_id with
  | None => (Ok (400, "Invalid channel id provided"%string), s)
  | Some channel_id =>
    match confirm_collaborative_revert channel_id transaction signature s with
    | (Ok raw_tx, s) => (Ok (200, revert_raw raw_tx), s)
    | (Err _, s) => (Ok (500, "Could not confirm collaborative revert"%string), s)
    | (Panic, s) => (Panic, s)
    end
  end.
End Revert.

(** ** The app *)

(** [CollaborativeRevertTraderResponse]. *)
Module TraderResponse.
Record t `{RevertLib} := mk { channel_id : string; transaction : RevertTx; signature : RevertSignature }.
#[global] Arguments mk {_ _ _ _}.
End TraderResponse.

Section App.
Context `{DL : DecimalLib} `{BL : BitcoinLib} `{IL : IdLib} `{DLC : !DlcLib} `{AL : AddressLib} `{VL : !RevertLib}.
Context `{ML : !DlcMessagesLib} `{GL : !AcceptingDlcLib}.

(** [collaborative_revert_channel] up to the request; a signed channel and the
    response to send. *)
Definition sign_collaborative_revert (channel_id : DlcChannelId) (coordinator_address : UncheckedAddress)
    (coordinator_amount trader_amount : Amount) : AppNodeM (SignedChannel.t * TraderResponse.t) :=
  coordinator_address ← try_lib (ok_or "require_network"%string (require_network coordinator_address));
  dlc_channels ← on_node list_signed_dlc_channels;
  signed_channel ← try_lib (ok_or "Could not find signed channel"%string
    (List.find (fun c => bool_decide (SignedChannel.channel_id c = channel_id)) dlc_channels));
  fund_output_value ← lift (expect (fund_output_value signed_channel));
  let close_tx := create_collaborative_close_transaction signed_channel (address_script_pubkey coordinator_address)
    coordinator_amount trader_amount in
  own_fund_sk ← try_lib (own_fund_sk signed_channel);
  close_signature ← try_lib (raw_sig_for_input close_tx signed_channel fund_output_value own_fund_sk);
  mret (signed_channel, TraderResponse.mk (hex_encode channel_id) close_tx close_signature).

(** The task that waits for the response: what it has of it is the status, which is
    not looked at, and the text, unless sending or decoding fails. *)
Definition after_revert_response (config : option f32) (now : OffsetDateTime) (id : Uuid)
    (signed_channel : SignedChannel.t) (execution_price : Decimal)
    (response : outcome string (Z * outcome string string)) : AppNodeM unit := fun s =>
  match response with
  | Ok (_, Ok _) =>
    match update_state_after_collab_revert config now id signed_channel execution_price s with
    | (Err _, s') => (Ok tt, s')
    | r => r
    end
  | _ => (Ok tt, s)
  end.
End App.

(** ** What the coordinator proposes and confirms *)

Section RevertSpec.
Context `{DL : DecimalLib} `{IL : IdLib} `{DLC : !DlcLib} `{AL : AddressLib} `{VL : !RevertLib} `{ML : !DlcMessagesLib}.
Context (now : OffsetDateTime).

Definition r_rows {R} `{Stored R} (s : RevertState.t) : list R := rows (db_of (RevertState.coordinator s)).
Definition r_dlc (s : RevertState.t) : DlcState := NodeState.dlc (Coordinator.node (RevertState.coordinator s)).

Lemma revert_amounts_ok v rate t ca ta : revert_amounts v rate t = Ok (ca, ta) ->
  exists fee, tx_weight_to_fee COLLABORATIVE_REVERT_TX_WEIGHT rate = Some fee /\
    ca + ta + 2 * (fee / 2) = v /\ ta = t - fee / 2 /\ 0 <= ca < 2 ^ 64 /\ 0 <= ta < 2 ^ 64.
Proof using Type.
  unfold revert_amounts. intros (c & [-> Hc]%ok_or_ok%checked_u64_some & H)%outcome_bind_ok.
  apply outcome_bind_ok in H as (fee & Hfee%ok_or_ok & H).
  apply outcome_bind_ok in H as (ca' & [-> Hca]%ok_or_ok%checked_u64_some & H).
  apply outcome_bind_ok in H as (ta' & [-> Hta]%ok_or_ok%checked_u64_some & [= <- <-]).
  exists fee. split; [done|]. lia.
Qed.

(** A signed channel of this id in the store. *)
Definition signed_channel_of (channel_id : DlcChannelId) (channel : SignedChannel.t) (d : DlcState) : Prop :=
  exists channels, store_signed_channels d = Ok channels /\ In channel channels /\
    SignedChannel.channel_id channel = channel_id.

(** A lookup leaves the state alone. *)
Lemma find_signed_channel_run channel_id (s : RevertState.t) :
  exists r, r_node (find_signed_channel channel_id) s = (r, s) /\
    forall channel, r = Ok channel -> signed_channel_of channel_id channel (r_dlc s).
Proof using Type.
  unfold r_node, r_coordinator, c_node, find_signed_channel, list_signed_dlc_channels, read_dlc, try, lift, mbind, M_bind.
  destruct s as [[[d p ev sn] ? ? ? ?] ? ?]. cbn.
  destruct (store_signed_channels p) as [l|e|] eqn:Hl; cbn; [|by eexists..].
  destruct (List.find _ l) as [c|] eqn:Hf; cbn; eexists; (split; [reflexivity|]); [|done].
  intros channel [= <-]. apply find_some in Hf as [Hin Hf]. exists l. split_and!; [done..|]. by apply bool_decide_eq_true in Hf.
Qed.

Definition revert_row (channel_id : DlcChannelId) (peer : PublicKey) (address : Address) (ca ta : Amount)
    (row : CollaborativeRevertRow.t) : Prop :=
  CollaborativeRevertRow.channel_id row = hex_encode channel_id /\
  CollaborativeRevertRow.trader_pubkey row = pk_to_string peer /\
  CollaborativeRevertRow.coordinator_address row = address_to_string address /\
  CollaborativeRevertRow.coordinator_amount_sats row = as_i64 ca /\
  CollaborativeRevertRow.trader_amount_sats row = as_i64 ta.

Lemma insert_revert_run revert s r s' : r_db (insert_revert revert) s = (r, s') ->
  RevertState.proposals s' = RevertState.proposals s /\ RevertState.listening s' = RevertState.listening s /\
  match r with
  | Ok _ => exists row, r_rows s' = r_rows s ++ [row] /\
      revert_row (CollaborativeRevert.channel_id revert) (CollaborativeRevert.trader_pubkey revert)
        (CollaborativeRevert.coordinator_address revert) (CollaborativeRevert.coordinator_amount_sats revert)
        (CollaborativeRevert.trader_amount_sats revert) row
  | _ => r_rows (R := CollaborativeRevertRow.t) s' = r_rows s
  end.
Proof using Type.
  unfold r_db, r_coordinator. rewrite c_db_run. intros [= <- <-]. do 2 (split; [done|]). unfold r_rows. cbn [RevertState.coordinator].
  set (d := db_of (RevertState.coordinator s)). unfold insert_revert, new_revert_from, mbind, M_bind, lift.
  destruct (d_to_f32 _) as [price|]; cbn; [|done]. unfold with_err, insert. cbn.
  destruct (violation d _) as [e|]; cbn; [done|]. eexists. split; [reflexivity|]. by split_and!.
Qed.

(** The channel is divided: what the coordinator and the trader are to get, and twice
    half of the fee, add up to the value of the funding output, neither is negative,
    and the trader gets what was asked for less half of the fee.  [row] records this
    for the trader of the channel and [proposal] tells them. *)
Definition divided (channel_id : DlcChannelId) (rate trader_amount_sats : Z) (price : Decimal) (s : RevertState.t)
    (row : CollaborativeRevertRow.t) (proposal : RevertProposal.t) : Prop :=
  exists channel value fee address ca ta,
    signed_channel_of channel_id channel (r_dlc s) /\ fund_output_value channel = Some value /\
    tx_weight_to_fee COLLABORATIVE_REVERT_TX_WEIGHT rate = Some fee /\
    ca + ta + 2 * (fee / 2) = value /\ ta = trader_amount_sats - fee / 2 /\ 0 <= ca /\ 0 <= ta /\
    revert_row channel_id (SignedChannel.counter_party channel) address ca ta row /\
    proposal = RevertProposal.mk (SignedChannel.counter_party channel) channel_id address ca ta price.

(** C15: a proposed revert divides the channel ([divided]), and exactly this division
    is recorded and proposed to the trader.  A proposal that fails has proposed
    nothing, and recorded nothing either - unless the notifier was gone: then the
    division is recorded although the trader never hears of it. *)
Theorem proposed_revert_divides_channel channel_id rate trader_amount_sats price s r s' :
  propose_collaborative_revert now channel_id rate trader_amount_sats price s = (r, s') ->
  match r with
  | Ok _ => RevertState.listening s = true /\ exists row proposal,
      divided channel_id rate trader_amount_sats price s row proposal /\
      r_rows s' = r_rows s ++ [row] /\ RevertState.proposals s' = RevertState.proposals s ++ [proposal]
  | Err e => RevertState.proposals s' = RevertState.proposals s /\
      (r_rows (R := CollaborativeRevertRow.t) s' = r_rows s \/
       RevertState.listening s = false /\ e = Msg "Failed to notify user" /\ exists row proposal,
         divided channel_id rate trader_amount_sats price s row proposal /\ r_rows s' = r_rows s ++ [row])
  | Panic => r_rows (R := CollaborativeRevertRow.t) s' = r_rows s /\ RevertState.proposals s' = RevertState.proposals s
  end.
Proof.
  unfold propose_collaborative_revert, mbind, M_bind.
  destruct (find_signed_channel_run channel_id s) as (rc & -> & Hc).
  destruct rc as [channel|e|]; [|intros [= <- <-]; by auto..].
  specialize (Hc _ eq_refl). unfold lift at 1. destruct (fund_output_value channel) as [value|] eqn:Hv; cbn; [|by intros [= <- <-]].
  unfold r_try, lift. destruct new_address as [address|e|]; cbn; [|intros [= <- <-]; by auto..].
  destruct (revert_amounts value rate trader_amount_sats) as [[ca ta]|e|] eqn:Ha; cbn; [|intros [= <- <-]; by auto..].
  apply revert_amounts_ok in Ha as (fee & Hfee & Hsum & Hta & Hca & Hta0).
  destruct (r_db _ s) as [ri s1] eqn:Hins. apply insert_revert_run in Hins as (Hp & Hlisten & Hrows).
  destruct ri as [[]|e|]; [|intros [= <- <-]; by auto..]. cbn in Hrows. destruct Hrows as (row & Hrows & Hrow).
  assert (Hdiv : divided channel_id rate trader_amount_sats price s row
    (RevertProposal.mk (SignedChannel.counter_party channel) channel_id address ca ta price)).
  { exists channel, value, fee, address, ca, ta. split_and!; try done; try lia; apply Hrow. }
  unfold propose. rewrite Hlisten. destruct (RevertState.listening s); intros [= <- <-].
  - split; [done|]. exists row. eexists. split; [exact Hdiv|]. cbn. by rewrite Hp.
  - split; [done|]. right. split_and!; [done..|]. by eexists _, _.
Qed.

(** *** Confirming *)

Definition with_rdb (d : Db.t) (s : RevertState.t) : RevertState.t :=
  RevertState.mk (with_db d (RevertState.coordinator s)) (RevertState.proposals s) (RevertState.chain s)
    (RevertState.listening s).
Definition r_database (s : RevertState.t) : Db.t := db_of (RevertState.coordinator s).

Lemma r_db_run {A} (m : M Db.t Anyhow A) s : r_db m s = ((m (r_database s)).1, with_rdb (m (r_database s)).2 s).
Proof using Type. unfold r_db, r_coordinator. by rewrite c_db_run. Qed.
Lemma r_db_ok {A} (m : M Db.t Anyhow A) s a s' : r_db m s = (Ok a, s') ->
  exists d', m (r_database s) = (Ok a, d') /\ s' = with_rdb d' s.
Proof using Type. rewrite r_db_run. destruct (m _) as [r d']. cbn. intros [= -> <-]. by exists d'. Qed.
Lemma with_rdb_same s : with_rdb (r_database s) s = s.
Proof using Type. by destruct s as [[[] ? ? ? ?] ? ?]. Qed.
(** A query that only reads keeps the state. *)
Lemma r_db_reads {A} (m : M Db.t Anyhow A) s r s' : read_only m -> r_db m s = (r, s') ->
  s' = s /\ m (r_database s) = (r, r_database s).
Proof using Type.
  intros Hm. rewrite r_db_run. intros [= <- <-]. specialize (Hm (r_database s)).
  rewrite <-Hm, with_rdb_same. split; [done|]. rewrite Hm at 3. by destruct (m _).
Qed.

Lemma get_by_channel_id_reads channel_id : read_only (get_by_channel_id channel_id).
Proof using Type. unfold get_by_channel_id, first_revert. solve_steps. Qed.

(** Broadcasting writes the table of transactions only. *)
Lemma broadcast_ok tx s u s' : broadcast_transaction_blocking now tx s = (Ok u, s') ->
  esplora_broadcast tx (RevertState.chain s) = (Ok u, RevertState.chain s') /\ r_dlc s' = r_dlc s /\
  RevertState.proposals s' = RevertState.proposals s /\
  r_rows (R := PositionRow.t) s' = r_rows s /\ r_rows (R := CollaborativeRevertRow.t) s' = r_rows s.
Proof using Type.
  unfold broadcast_transaction_blocking. rewrite r_db_run. set (m := upsert_transaction_row _).
  assert (Hp : steps (keeps PositionRow.t) m) by (subst m; unfold upsert_transaction_row; solve_steps).
  assert (Hr : steps (keeps CollaborativeRevertRow.t) m) by (subst m; unfold upsert_transaction_row; solve_steps).
  specialize (Hp (r_database s)). specialize (Hr (r_database s)). destruct (m (r_database s)) as [o d]. cbn [fst snd] in *.
  assert (Hgo : (let '(r, chain) := esplora_broadcast tx (RevertState.chain s) in
    (map_err Msg r, RevertState.mk (with_db d (RevertState.coordinator s)) (RevertState.proposals s) chain
      (RevertState.listening s))) = (Ok u, s') ->
    esplora_broadcast tx (RevertState.chain s) = (Ok u, RevertState.chain s') /\ r_dlc s' = r_dlc s /\
    RevertState.proposals s' = RevertState.proposals s /\
    r_rows (R := PositionRow.t) s' = r_rows s /\ r_rows (R := CollaborativeRevertRow.t) s' = r_rows s).
  { destruct (esplora_broadcast _ _) as [rb c]. intros [= Hrb%map_err_ok <-]. subst rb. cbn. by split_and!. }
  destruct o; [exact Hgo|exact Hgo|done].
Qed.

Lemma get_by_channel_id_none channel_id d :
  List.filter (is_revert_of channel_id) (rows d) = [] -> get_by_channel_id channel_id d = (Ok None, d).
Proof using Type.
  intros Hnone. unfold get_by_channel_id, first_revert, mbind, M_bind, with_err.
  by rewrite optional_first_run, Hnone.
Qed.

Lemma r_dlc_ok {A} (m : M DlcState string A) s a s' : r_coordinator (c_dlc m) s = (Ok a, s') ->
  m (r_dlc s) = (Ok a, r_dlc s') /\ RevertState.chain s' = RevertState.chain s /\ r_database s' = r_database s.
Proof using Type.
  unfold r_coordinator, c_dlc, c_node, on_dlc, r_dlc, r_database, db_of. destruct (m _) as [r p].
  cbn. by intros [= ->%map_err_ok <-].
Qed.

Lemma filter_negb {R} (p : R -> bool) l : List.filter p (List.filter (fun r => negb (p r)) l) = [].
Proof using Type. induction l as [|r l IH]; cbn; [done|]. destruct (p r) eqn:Hr; cbn; [done|]. by rewrite Hr. Qed.

(** What comes before anything is done: the record, the check of the outputs. *)
Lemma confirm_refuses channel_id tx signature s :
  pays_coordinator tx = false \/ List.filter (is_revert_of channel_id) (r_rows s) = [] ->
  exists r, confirm_collaborative_revert now channel_id tx signature s = (r, s) /\ is_ok r = false.
Proof using Type.
  intros Hcase. unfold confirm_collaborative_revert, mbind at 1, M_bind at 1.
  destruct (r_db (get_by_channel_id channel_id) s) as [r0 s0] eqn:Hrec.
  apply r_db_reads in Hrec as [-> Hrec]; [|apply get_by_channel_id_reads].
  destruct r0 as [record|e|]; [|by eexists..].
  unfold r_try at 1, lift, mbind at 1, M_bind at 1. destruct record as [record|]; cbn [ok_or map_err]; [|by eexists].
  unfold r_try at 1, lift, mbind at 1, M_bind at 1. destruct Hcase as [Hpay|Hnone].
  - rewrite Hpay. by eexists.
  - unfold r_rows in Hnone. fold (r_database s) in Hnone. rewrite (get_by_channel_id_none _ _ Hnone) in Hrec. discriminate Hrec.
Qed.

Definition close_row (p : PositionRow.t) : PositionRow.t :=
  PositionRow.with_update_timestamp now (PositionRow.with_position_state DbPositionState.Closed p).

(** C14: a revert is confirmed only if it was proposed and pays the coordinator; without
    a record of the channel, or an output of the coordinator's, nothing at all happens.
    When it returns, the transaction with the signatures of both sides for the whole
    funding output is broadcast, the trader's latest position
    - and no other - is closed, no record of the channel is left, and the channel is
    stored as closed by that transaction. *)
Theorem confirmed_revert_closes_position channel_id tx signature s r s' :
  confirm_collaborative_revert now channel_id tx signature s = (r, s') ->
  (pays_coordinator tx = false \/ List.filter (is_revert_of channel_id) (r_rows s) = [] ->
   is_ok r = false /\ s' = s) /\
  match r with
  | Ok signed => exists channel value sk record row,
      signed_channel_of channel_id channel (r_dlc s) /\
      fund_output_value channel = Some value /\ own_fund_sk channel = Ok sk /\
      sign_multi_sig_input tx signature channel sk value = Ok signed /\
      esplora_broadcast signed (RevertState.chain s) = (Ok tt, RevertState.chain s') /\
      store_closed_channel channel (revert_txid signed) (r_dlc s) = (Ok tt, r_dlc s') /\
      get_by_channel_id channel_id (r_database s) = (Ok (Some record), r_database s) /\
      latest PositionRow.creation_timestamp
        (List.filter (fun p => is_trader (pk_to_string (CollaborativeRevert.trader_pubkey record)) p && true) (r_rows s)) = Some row /\
      r_rows s' = update_rows (has_id (PositionRow.id row)) close_row (r_rows s) /\
      List.filter (is_revert_of channel_id) (r_rows s') = []
  | _ => True
  end.
Proof.
  intros Hrun. split.
  { intros Hcase. destruct (confirm_refuses channel_id tx signature s Hcase) as (r0 & Hr & Hbad).
    rewrite Hr in Hrun. by injection Hrun as <- <-. }
  destruct r as [signed| |]; [|done..]. unfold confirm_collaborative_revert in Hrun.
  apply M_bind_ok in Hrun as (o & s0 & Hrec & Hrun). apply r_db_reads in Hrec as [-> Hrec]; [|apply get_by_channel_id_reads].
  apply M_bind_ok in Hrun as (record & ? & [->%map_err_ok%ok_or_ok ->]%lift_ok & Hrun).
  apply M_bind_ok in Hrun as (? & ? & [_ ->]%lift_ok & Hrun).
  apply M_bind_ok in Hrun as (channel & s1 & Hch & Hrun).
  destruct (find_signed_channel_run channel_id s) as (rc & Hfind & Hid). rewrite Hfind in Hch. injection Hch as -> <-.
  apply M_bind_ok in Hrun as (value & ? & [Hv ->]%lift_ok & Hrun).
  apply M_bind_ok in Hrun as (sk & ? & [Hsk%map_err_ok ->]%lift_ok & Hrun).
  apply M_bind_ok in Hrun as (signed' & ? & [Hsign%map_err_ok ->]%lift_ok & Hrun).
  destruct (fund_output_value channel) as [v|] eqn:Hfund; [|discriminate Hv]. injection Hv as ->.
  apply M_bind_ok in Hrun as ([] & s2 & (Hb & Hdlc & _ & Hpos & Hrev)%broadcast_ok & Hrun).
  apply M_bind_ok in Hrun as (q & s3 & Hq & Hrun).
  apply r_db_reads in Hq as [-> Hq]; [|unfold get_position_by_trader; solve_steps].
  apply M_bind_ok in Hrun as (position & ? & [->%map_err_ok%ok_or_ok ->]%lift_ok & Hrun).
  apply with_err_ok, get_position_ok in Hq as (_ & row & Hrow & Hfrom). apply position_from_row_id in Hfrom.
  apply M_bind_ok in Hrun as (? & s4 & (d4 & Hclose & ->)%r_db_ok & Hrun).
  apply M_bind_ok in Hrun as (? & s5 & (d5 & Hdel & ->)%r_db_ok & Hrun).
  apply M_bind_ok in Hrun as ([] & s6 & Hstore & [= <- <-]).
  unfold set_position_to_closed in Hclose. apply M_bind_ok in Hclose as (n & d4' & [-> ->]%with_err_ok%execute_ok & [_ ->]%lift_ok).
  unfold delete_revert in Hdel. apply with_err_ok, M_bind_ok in Hdel as (n & d5' & Hd & Hd'). injection Hd as Hn Hd. injection Hd' as Hd'. subst d5' d5.
  apply r_dlc_ok in Hstore as (Hstore & Hchain & Hdb). exists channel, value, sk, record, row.
  assert (Hd2 : r_dlc s2 = r_dlc s) by exact Hdlc. clear Hdlc.
  assert (Hst : store_closed_channel channel (revert_txid signed') (r_dlc s) = (Ok tt, r_dlc s6))
    by (rewrite <-Hd2; exact Hstore).
  assert (Hc : RevertState.chain s6 = RevertState.chain s2) by exact Hchain.
  assert (Hrp : r_rows (R := PositionRow.t) s6 = update_rows (has_id (PositionRow.id row)) close_row (r_rows s)).
  { unfold r_rows at 1. fold (r_database s6). rewrite Hdb, <-Hpos, <-Hfrom. reflexivity. }
  change (rows (r_database s2)) with (r_rows (R := PositionRow.t) s2) in Hrow. rewrite Hpos in Hrow. split_and!; [by apply Hid|exact Hfund|exact Hsk|exact Hsign|by rewrite Hc|exact Hst|exact Hrec|exact Hrow|exact Hrp|].
  unfold r_rows. fold (r_database s6). rewrite Hdb. apply filter_negb.
Qed.
End RevertSpec.

(** ** The app's side *)

Section AppRevertSpec.
Context `{DL : DecimalLib} `{BL : BitcoinLib} `{ILaws : IdLaws} `{DLC : !DlcLib} `{AL : AddressLib} `{VL : !RevertLib}.
Context `{ML : !DlcMessagesLib} `{GL : !AcceptingDlcLib}.

Definition app_positions (s : AppNode.t) : list AppPositionRow.t := AppDb.positions (AppState.db (AppNode.app s)).

Lemma filter_nothing {R} (l : list R) : List.filter (fun r => negb true) l = [].
Proof using Type. by induction l. Qed.

Lemma dlc_closure_deletes_positions config now order (a a' : AppState.t) u :
  update_position_after_dlc_closure config now order a = (Ok u, a') -> AppDb.positions (AppState.db a') = [].
Proof using Type.
  unfold update_position_after_dlc_closure. intros (positions & a1 & Hp & Hrun)%M_bind_ok.
  destruct positions as [|position positions].
  - injection Hrun as _ <-. destruct (get_positions_ok _ _ _ Hp) as [-> Hr]. by inversion Hr.
  - apply M_bind_ok in Hrun as (rate & ? & [_ ->]%lift_ok & Hrun).
    apply M_bind_ok in Hrun as ([new trades] & ? & [_ ->]%lift_ok & Hrun).
    apply M_bind_ok in Hrun as (? & a2 & _ & Hrun). apply M_bind_ok in Hrun as (? & a3 & [Hdel _]%stored_run & Hrun).
    injection Hrun as _ <-. cbn. apply M_bind_ok in Hdel as (n & d & Hd & Hn). injection Hd as _ <-. injection Hn as _ Hn.
    rewrite <-Hn. cbn. apply filter_nothing.
Qed.

Lemma collab_revert_deletes_positions config now id channel price (s s' : AppNode.t) u positions :
  get_positions (AppNode.app s) = (Ok positions, AppNode.app s) -> positions <> [] ->
  update_state_after_collab_revert config now id channel price s = (Ok u, s') -> app_positions s' = [].
Proof using Type.
  intros Hp Hne. unfold update_state_after_collab_revert. intros (positions' & s1 & (a1 & Hp' & ->)%on_app_run & Hrun)%M_bind_ok.
  rewrite Hp in Hp'. injection Hp' as <- <-. destruct positions as [|position l]; [done|]. cbn [head] in Hrun.
  apply M_bind_ok in Hrun as (filled & s2 & _ & Hrun). apply M_bind_ok in Hrun as (? & s3 & (a3 & Hc & ->)%on_app_run & Hrun).
  apply dlc_closure_deletes_positions in Hc. unfold on_dlc_store in Hrun. destruct (close_collaboratively _ _).
  injection Hrun as _ <-. exact Hc.
Qed.

(** A revert the coordinator refuses still costs the app its position: for a
    channel without a proposal, or a transaction that does not pay the coordinator, the
    coordinator answers with status 500 and changes nothing; the app, which looks at
    the text of the answer alone, then does exactly what it does for status 200, and
    unless that fails is left without its position. *)
Theorem refused_revert_closes_app_position now config order_id channel_id id signature tx (s : RevertState.t) record
    channel price (a a' : AppNode.t) positions u :
  hex_decode channel_id = Some id ->
  get_by_channel_id id (r_database s) = (Ok record, r_database s) ->
  record = None \/ pays_coordinator tx = false ->
  get_positions (AppNode.app a) = (Ok positions, AppNode.app a) -> positions <> [] ->
  update_state_after_collab_revert config now order_id channel price a = (Ok u, a') ->
  exists text, collaborative_revert_confirm now channel_id tx signature s = (Ok (500, text), s) /\
    after_revert_response config now order_id channel price (Ok (500, Ok text)) a =
      after_revert_response config now order_id channel price (Ok (200, Ok text)) a /\
    after_revert_response config now order_id channel price (Ok (500, Ok text)) a = (Ok tt, a') /\
    app_positions a' = [].
Proof.
  intros Hid Hrec Hcase Hp Hne Hup. eexists. split_and!.
  - unfold collaborative_revert_confirm, confirm_collaborative_revert. rewrite Hid. unfold mbind at 1, M_bind at 1.
    rewrite r_db_run, Hrec. cbn [fst snd]. rewrite with_rdb_same. unfold r_try, lift, mbind, M_bind.
    destruct record as [record|]; cbn [ok_or map_err]; [|reflexivity].
    destruct Hcase as [Hnone| ->]; [done|reflexivity].
  - reflexivity.
  - unfold after_revert_response. rewrite Hup. by destruct u.
  - by eapply collab_revert_deletes_positions.
Qed.
End AppRevertSpec.

(** ** A channel of 500,000 to revert *)

Definition DemoTx : Type := list TxOut.t.
#[export] Instance demo_revert : RevertLib (IL := demo_id) (DLC := demo_dlc) := {|
  tx_weight_to_fee weight rate := Some (weight * rate / 4);
  fund_output_value _ := Some 500000;
  RevertTx := DemoTx;
  revert_outputs tx := tx;
  revert_txid _ := "revert"%string;
  revert_raw _ := "00"%string;
  RevertSignature := unit;
  FundKey := unit;
  new_address := Ok "coordinator"%string;
  script_is_mine script := bool_decide (script = [Byte.x01]);
  own_fund_sk _ := Ok tt;
  sign_multi_sig_input tx _ _ _ _ := Ok tx;
  Chain := list DemoTx;
  esplora_broadcast tx := modify (fun chain => chain ++ [tx]);
  store_closed_channel channel _ := modify (fun s => DemoStore.mk
    (List.filter (fun c => negb (bool_decide (Channel.get_id c = SignedChannel.channel_id channel))) (DemoStore.channels s))
    (DemoStore.contracts s) (DemoStore.offers s));
  address_script_pubkey _ := [Byte.x01];
  create_collaborative_close_transaction _ script coordinator trader := [TxOut.mk coordinator script; TxOut.mk trader []];
  raw_sig_for_input _ _ _ _ := Ok tt;
|}.

Definition demo_revert_db : Db.t :=
  set_rows [UserRow.mk 1 "alice" EmptyString 0 EmptyString 0 None None EmptyString None None]
    (demo_positions DbPositionState.Open).
Definition demo_reverting : RevertState.t (H := demo_decimal) (H0 := demo_revert) :=
  RevertState.mk (demo_coordinator (Settled 250000 250000) demo_revert_db) [] [] true.
Definition demo_proposed : outcome Anyhow unit * RevertState.t :=
  propose_collaborative_revert (DL := demo_decimal) (ML := demo_messages) 5 demo_channel_id 10 200000 (d_from_u64 21000) demo_reverting.

Example proposed_revert_divides_channel_witness :
  exists address row, r_rows demo_proposed.2 = [row] /\
    CollaborativeRevertRow.trader_pubkey row = "alice"%string /\ revert_row demo_channel_id demo_trader address 299160 199160 row.
Proof.
  destruct demo_proposed as [r s'] eqn:Hrun.
  pose proof (proposed_revert_divides_channel (ML := demo_messages) 5 demo_channel_id 10 200000 (d_from_u64 21000)
    demo_reverting r s' Hrun) as H.
  assert (Hok : is_ok demo_proposed.1 = true) by by vm_compute. rewrite Hrun in Hok.
  destruct r as [[]| |]; [|discriminate Hok..].
  destruct H as (_ & row & proposal & Hdiv & Hrows & _).
  destruct Hdiv as (channel & value & fee & address & ca & ta & Hid & Hv & Hfee & Hsum & Hta & _ & _ & Hrow & _).
  destruct Hid as (channels & [= <-] & [<-|[]] & _). injection Hv as <-. injection Hfee as <-.
  assert (Hfee : COLLABORATIVE_REVERT_TX_WEIGHT * 10 / 4 / 2 = 840) by reflexivity. rewrite Hfee in Hsum, Hta.
  assert (ta = 199160) as -> by lia. assert (ca = 299160) as -> by lia.
  exists address, row. split; [exact Hrows|]. split; [by destruct Hrow as (_ & -> & _)|exact Hrow].
Defined.

Definition demo_revert_tx : RevertTx := ([TxOut.mk 299160 [Byte.x01]; TxOut.mk 199160 []] : DemoTx).

Example confirmed_revert_closes_position_witness :
  let s := demo_proposed.2 in
  exists s', confirm_collaborative_revert 9 demo_channel_id demo_revert_tx tt s = (Ok demo_revert_tx, s') /\
    RevertState.chain s' = [demo_revert_tx] /\
    map PositionRow.position_state (r_rows s') = [DbPositionState.Closed].
Proof.
  cbn zeta. set (s := demo_proposed.2).
  destruct (confirm_collaborative_revert 9 demo_channel_id demo_revert_tx tt s) as [r s'] eqn:Hrun.
  pose proof (confirmed_revert_closes_position (ML := demo_messages) 9 demo_channel_id demo_revert_tx tt s r s' Hrun)
    as [_ H].
  assert (Hok : is_ok (confirm_collaborative_revert 9 demo_channel_id demo_revert_tx tt s).1 = true) by by vm_compute.
  rewrite Hrun in Hok. destruct r as [signed| |]; [|discriminate Hok..].
  destruct H as (channel & value & sk & record & row & _ & _ & _ & Hsign & Hb & _ & Hget & Hrow & Hrows & _).
  injection Hsign as <-. injection Hb as Hb. exists s'. split; [reflexivity|]. split; [by rewrite <-Hb|].
  assert (Htr : CollaborativeRevert.trader_pubkey record = demo_trader).
  { apply (f_equal (fun p => match p.1 with Ok (Some r) => CollaborativeRevert.trader_pubkey r | _ => "-"%string : PublicKey (IdLib := demo_id) end)) in Hget.
    symmetry. exact Hget. }
  assert (Hpos : r_rows s = [demo_position DbPositionState.Open]) by reflexivity.
  rewrite Htr, Hpos in Hrow. injection Hrow as <-. rewrite Hrows, Hpos. reflexivity.
Defined.

(** A channel without a proposal, and an app that is long and closes. *)
Definition demo_stranded : RevertState.t (H := demo_decimal) (H0 := demo_revert) :=
  RevertState.mk (demo_coordinator (Settled 250000 250000) demo_revert_db) [] [] true.
Definition demo_reverted_app : AppNode.t (DLC := demo_dlc) (H1 := demo_messages) :=
  demo_app_node (AppState.mk (AppDb.mk [] [app_position_row 0 demo_app_position] [] [] [] [] [] [] [] []) []).

Example refused_revert_closes_app_position_witness :
  let channel := SignedChannel.mk demo_channel_id demo_trader (Settled 250000 250000) 250000 250000 in
  exists a' text, update_state_after_collab_revert None 9 70 channel (d_from_u64 21000) demo_reverted_app = (Ok tt, a') /\
    collaborative_revert_confirm 9 (hex_encode demo_channel_id) demo_revert_tx tt demo_stranded = (Ok (500, text), demo_stranded) /\
    app_positions a' = [].
Proof.
  cbn zeta. set (channel := SignedChannel.mk _ _ _ _ _).
  destruct (succeeds (update_state_after_collab_revert None 9 70 channel (d_from_u64 21000)) demo_reverted_app) as ([] & a' & Ha).
  { by vm_compute. }
  destruct (succeeds get_positions (AppNode.app demo_reverted_app)) as (positions & app & Hp).
  { by vm_compute. }
  pose proof (get_positions_ok _ _ _ Hp) as [-> Hrows].
  destruct (refused_revert_closes_app_position (ILaws := demo_id_laws) (ML := demo_messages) 9 None 70
    (hex_encode demo_channel_id) demo_channel_id (tt : RevertSignature (RevertLib := demo_revert)) demo_revert_tx demo_stranded None channel (d_from_u64 21000)
    demo_reverted_app a' positions tt) as (text & Hconfirm & _ & _ & Happ).
  - reflexivity.
  - reflexivity.
  - by left.
  - exact Hp.
  - intros ->. apply Forall2_nil_inv_r in Hrows. discriminate Hrows.
  - exact Ha.
  - exists a', text. split; [exact Ha|]. split; [exact Hconfirm|exact Happ].
Defined.
