(* ===== verification/AppBook.v ===== *)
(** * The app's websocket client: [mobile/native/src/orderbook.rs]

    The app keeps the open limit orders the coordinator tells it about, publishes the
    best prices, and passes what else the coordinator sends to its handlers. *)

From stdpp Require Import base list option strings gmap.
From Stdlib Require Import ZArith QArith Lia.
From S2P Require Import Prelude Machine External Demo Commons PayoutCurve SqlTypes Schema Db FundingDb Feed Messages.
From S2P Require Import Trading AppData AppSql AppDb StorageDb Node DemoDlc DlcPeer AppHandlers AppFrames AppNode Revert.

#[local] Open Scope Z_scope.

#[export] Instance Direction_countable : Countable Direction.
Proof.
  refine (inj_countable' (fun d => match d with Long => true | Short => false end)
    (fun b => if b then Long else Short) _). by intros [].
Defined.

(** The node, the config of the coordinator, the orders, the best prices of this
    connection, and the signed reverts whose requests were spawned. *)
Module AppBook.
Record t `{DecimalLib} `{RevertLib} `{DlcMessagesLib} := mk {
  node : AppNode.t;
  config : option TenTenOneConfig.t;
  orders : list Order.t;
  cached_best_price : gmap Direction Decimal;
  reverts : list (SignedChannel.t * TraderResponse.t * Decimal);
}.
#[global] Arguments mk {_ _ _ _ _ _}.
End AppBook.

(** [impl From<xxi_node::FundingFeeEvent> for FundingFeeEvent]. *)
Definition funding_fee_event_from `{DecimalLib} (value : XxiFundingFeeEvent.t) : AppFundingFeeEvent.t :=
  AppFundingFeeEvent.mk (XxiFundingFeeEvent.contract_symbol value) (XxiFundingFeeEvent.contracts value)
    (XxiFundingFeeEvent.direction value) (XxiFundingFeeEvent.price value) (XxiFundingFeeEvent.fee value)
    (XxiFundingFeeEvent.due_date value) None.

(** [TradingError::to_string]. *)
Definition trading_error_to_string (error : MessageError.t) : string :=
  match error with
  | MessageError.InvalidOrder text => "Invalid order: " +:+ text
  | MessageError.NoMatchFound text => "No match found: " +:+ text
  | MessageError.Other text => text
  end.

Section Book.
Context `{DL : DecimalLib} `{BL : BitcoinLib} `{IL : IdLib} `{DLC : !DlcLib} `{AL : AddressLib} `{VL : !RevertLib}.
Context `{ML : !DlcMessagesLib} `{GL : !AcceptingDlcLib}.

Definition BookM (A : Type) : Type := M AppBook.t Anyhow A.
Definition b_node {A} (m : AppNodeM A) : BookM A := fun s =>
  let '(r, node) := m (AppBook.node s) in
  (r, AppBook.mk node (AppBook.config s) (AppBook.orders s) (AppBook.cached_best_price s) (AppBook.reverts s)).
Definition b_app {A} (m : AppM A) : BookM A := b_node (on_app m).
Definition b_publish (event : EventInternal.t) : BookM unit := b_app (publish event).
Definition set_config (config : TenTenOneConfig.t) : BookM unit := modify (fun s =>
  AppBook.mk (AppBook.node s) (Some config) (AppBook.orders s) (AppBook.cached_best_price s) (AppBook.reverts s)).
Definition change_orders (f : list Order.t -> list Order.t) : BookM unit := modify (fun s =>
  AppBook.mk (AppBook.node s) (AppBook.config s) (f (AppBook.orders s)) (AppBook.cached_best_price s) (AppBook.reverts s)).
Definition change_cache (f : gmap Direction Decimal -> gmap Direction Decimal) : BookM unit := modify (fun s =>
  AppBook.mk (AppBook.node s) (AppBook.config s) (AppBook.orders s) (f (AppBook.cached_best_price s)) (AppBook.reverts s)).
Definition spawn_revert (request : SignedChannel.t * TraderResponse.t * Decimal) : BookM unit := modify (fun s =>
  AppBook.mk (AppBook.node s) (AppBook.config s) (AppBook.orders s) (AppBook.cached_best_price s)
    (AppBook.reverts s ++ [request])).

(** [orders.retain(|order| order.id != order_id)]. *)
Definition without (order_id : Uuid) (orders : list Order.t) : list Order.t :=
  List.filter (fun order => negb (bool_decide (Order.id order = order_id))) orders.

Definition update_price (direction : Direction) (new_price : Decimal) : BookM unit :=
  match direction with
  | Long => b_publish (EventInternal.BidPriceUpdateNotification new_price)
  | Short => b_publish (EventInternal.AskPriceUpdateNotification new_price)
  end.
Definition update_price_if_needed (new_price : option Decimal) (direction : Direction) : BookM unit := fun s =>
  match new_price with
  | Some new_price =>
    match AppBook.cached_best_price s !! direction with
    | Some cached_price =>
      if negb (d_eqb cached_price new_price) then
        (update_price direction new_price;; change_cache (fun cache => <[direction := new_price]> cache)) s
      else (Ok tt, s)
    | None => update_price direction new_price s
    end
  | None => (Ok tt, s)
  end.

Section Clock.
Context (now : OffsetDateTime).

Definition update_bid_price_if_needed : BookM unit := fun s =>
  update_price_if_needed (best_bid_price now (AppBook.orders s) BtcUsd) Long s.
Definition update_ask_price_if_needed : BookM unit := fun s =>
  update_price_if_needed (best_ask_price now (AppBook.orders s) BtcUsd) Short s.
Definition update_both_prices_if_needed : BookM unit :=
  update_bid_price_if_needed;;
  update_ask_price_if_needed.

(** The margin rate the handlers read from the config. *)
Definition margin_rate (s : AppBook.t) : option f32 := TenTenOneConfig.maintenance_margin_rate <$> AppBook.config s.
Definition apply_new_funding_fees (funding_fee_events : list AppFundingFeeEvent.t) : BookM unit := fun s =>
  b_app (
    new_funding_fee_events ← handle_unpaid_funding_fee_events funding_fee_events;
    handle_funding_fee_events (margin_rate s) now new_funding_fee_events) s.

(** [collaborative_revert_channel]; the request is sent by a task of its own. *)
Definition collaborative_revert_channel (channel_id : DlcChannelId) (coordinator_address : UncheckedAddress)
    (coordinator_amount trader_amount : Amount) (execution_price : Decimal) : BookM unit :=
  signed ← b_node (sign_collaborative_revert channel_id coordinator_address coordinator_amount trader_amount);
  spawn_revert (signed, execution_price).
Definition revert_status (m : BookM unit) : BookM TaskStatus.t := fun s =>
  match m s with
  | (Ok _, s) => (Ok TaskStatus.Success, s)
  | (Err e, s) => (Ok (TaskStatus.Failed e), s)
  | (Panic, s) => (Panic, s)
  end.

Definition handle_message (msg : Feed.Message.t) : BookM unit :=
  match msg with
  | Feed.Message.Authenticated config =>
    set_config config;;
    b_publish (EventInternal.Authenticated config)
  | Feed.Message.AllOrders initial_orders =>
    change_orders (fun _ => initial_orders);;
    change_cache (fun _ => ∅);;
    update_both_prices_if_needed
  | Feed.Message.NewOrder order =>
    change_orders (fun orders => orders ++ [order]);;
    match Order.direction order with
    | Long => update_bid_price_if_needed
    | Short => update_ask_price_if_needed
    end
  | Feed.Message.DeleteOrder order_id =>
    change_orders (without order_id);;
    update_both_prices_if_needed
  | Feed.Message.Update updated_order =>
    change_orders (without (Order.id updated_order));;
    (if bool_decide (Order.order_state updated_order = OrderState.Open)
     then change_orders (fun orders => orders ++ [updated_order]) else mret tt);;
    update_both_prices_if_needed
  | Feed.Message.AllFundingFeeEvents funding_fee_events =>
    apply_new_funding_fees (map funding_fee_event_from funding_fee_events)
  | Feed.Message.NextFundingRate funding_rate => b_publish (EventInternal.NextFundingRate funding_rate)
  | Feed.Message.FundingFeeEvent funding_fee_event => apply_new_funding_fees [funding_fee_event_from funding_fee_event]
  | Feed.Message.DlcChannelCollaborativeRevert channel_id coordinator_address coordinator_amount trader_amount execution_price =>
    b_publish (EventInternal.BackgroundNotification (BackgroundTask.CollabRevert TaskStatus.Pending));;
    status ← revert_status (collaborative_revert_channel channel_id coordinator_address coordinator_amount trader_amount
      execution_price);
    b_publish (EventInternal.BackgroundNotification (BackgroundTask.CollabRevert status))
  | Feed.Message.InvalidAuthentication _ => mret tt
  | Feed.Message.TradeError order_id error =>
    with_err (fun _ => Msg "Could not set order to failed")
      (b_app (order_failed (Some order_id) (TradeResponse (trading_error_to_string error))
        (Msg (trading_error_to_string error))))
  | Feed.Message.RolloverError error =>
    b_publish (EventInternal.BackgroundNotification
      (BackgroundTask.Rollover (TaskStatus.Failed (Msg (trading_error_to_string error)))))
  | Feed.Message.LnPaymentReceived r_hash _ => b_publish (EventInternal.LnPaymentReceived r_hash)
  end.

(** A text that is no message is an error. *)
Definition handle_orderbook_message (msg : option Feed.Message.t) : BookM unit :=
  msg ← lift (ok_or (Msg "Could not deserialize orderbook message") msg);
  handle_message msg.
End Clock.

(** One connection: errors of the handler are logged. *)
Definition log_message (m : BookM unit) : BookM unit := fun s =>
  match m s with
  | (Err _, s) => (Ok tt, s)
  | r => r
  end.
Definition connection (messages : list (OffsetDateTime * option Feed.Message.t)) : BookM unit :=
  change_cache (fun _ => ∅);;
  for_each (fun '(now, msg) => log_message (handle_orderbook_message now msg)) messages.
(** The loop of [subscribe] over what each connection brought. *)
Definition subscribe (connections : list (list (OffsetDateTime * option Feed.Message.t))) : BookM unit :=
  for_each connection connections.
End Book.

(** ** The orders the app knows *)

Section BookSpec.
Context `{DL : DecimalLib} `{BL : BitcoinLib} `{IL : IdLib} `{DLC : !DlcLib} `{AL : AddressLib} `{VL : !RevertLib}.
Context `{ML : !DlcMessagesLib} `{GL : !AcceptingDlcLib}.

(** What a message does to a map of the open orders by id. *)
Definition map_message (m : gmap Uuid Order.t) (msg : Feed.Message.t) : gmap Uuid Order.t :=
  match msg with
  | Feed.Message.AllOrders orders => list_to_map (map (fun o => (Order.id o, o)) orders)
  | Feed.Message.NewOrder o => <[Order.id o := o]> m
  | Feed.Message.DeleteOrder id => base.delete id m
  | Feed.Message.Update o =>
    if bool_decide (Order.order_state o = OrderState.Open) then <[Order.id o := o]> m else base.delete (Order.id o) m
  | _ => m
  end.
Definition map_text (m : gmap Uuid Order.t) (text : OffsetDateTime * option Feed.Message.t) : gmap Uuid Order.t :=
  from_option (map_message m) m text.2.

(** A new order is new, or known as it is; all orders have different ids. *)
Definition announced (m : gmap Uuid Order.t) (msg : Feed.Message.t) : Prop :=
  match msg with
  | Feed.Message.AllOrders orders => NoDup (map Order.id orders)
  | Feed.Message.NewOrder o => m !! Order.id o = None \/ m !! Order.id o = Some o
  | _ => True
  end.
Fixpoint well_announced (m : gmap Uuid Order.t) (texts : list (OffsetDateTime * option Feed.Message.t)) : Prop :=
  match texts with
  | [] => True
  | text :: texts => from_option (announced m) True text.2 /\ well_announced (map_text m text) texts
  end.

(** The list holds the orders of the map. *)
Definition reads_as (orders : list Order.t) (m : gmap Uuid Order.t) : Prop :=
  forall id o, m !! id = Some o <-> In o orders /\ Order.id o = id.

Lemma reads_as_without orders m id : reads_as orders m -> reads_as (without id orders) (base.delete id m).
Proof using Type.
  intros Hm id' o. unfold without. rewrite lookup_delete_Some, (Hm id' o), filter_In, negb_true_iff, bool_decide_eq_false.
  naive_solver.
Qed.
Lemma reads_as_push orders m o : reads_as orders m -> m !! Order.id o = None \/ m !! Order.id o = Some o ->
  reads_as (orders ++ [o]) (<[Order.id o := o]> m).
Proof using Type.
  intros Hm Hnew id o'. rewrite lookup_insert_Some, in_app_iff. cbn. pose proof (Hm id o') as Hid.
  destruct (decide (Order.id o = id)) as [<-|Hne]; [|naive_solver].
  split; [naive_solver|]. intros [[Hin|[->|[]]] Heq]; [|by left].
  left. split; [done|]. assert (m !! Order.id o = Some o') by (apply Hid; done).
  destruct Hnew; congruence.
Qed.
Lemma reads_as_all orders : NoDup (map Order.id orders) ->
  reads_as orders (list_to_map (map (fun o => (Order.id o, o)) orders)).
Proof using Type.
  intros Hnd id o. rewrite <-elem_of_list_to_map.
  - rewrite list_elem_of_In, in_map_iff. split; [intros (o' & [= <- <-] & Hin); done|].
    intros [Hin <-]. by exists o.
  - by rewrite map_map.
Qed.

(** What a message does to the list, and what is published. *)
Definition list_message (orders : list Order.t) (msg : Feed.Message.t) : list Order.t :=
  match msg with
  | Feed.Message.AllOrders initial_orders => initial_orders
  | Feed.Message.NewOrder o => orders ++ [o]
  | Feed.Message.DeleteOrder id => without id orders
  | Feed.Message.Update o =>
    without (Order.id o) orders ++ (if bool_decide (Order.order_state o = OrderState.Open) then [o] else [])
  | _ => orders
  end.
Lemma list_message_reads_as orders m msg : reads_as orders m -> announced m msg ->
  reads_as (list_message orders msg) (map_message m msg).
Proof using Type.
  intros Hm Ha. destruct msg; cbn in *; try done.
  - by apply reads_as_all.
  - by apply reads_as_push.
  - by apply reads_as_without.
  - apply (reads_as_without _ _ (Order.id order)) in Hm. case_bool_decide; [|by rewrite app_nil_r].
    rewrite <-insert_delete_eq. apply reads_as_push; [done|]. left. apply lookup_delete_eq.
Qed.

Definition book_events (s : AppBook.t) : list EventInternal.t := AppState.published (AppNode.app (AppBook.node s)).
Definition side_event (now : OffsetDateTime) (orders : list Order.t) (side : Direction) : list EventInternal.t :=
  match side with
  | Long => EventInternal.BidPriceUpdateNotification <$> option_list (best_bid_price now orders BtcUsd)
  | Short => EventInternal.AskPriceUpdateNotification <$> option_list (best_ask_price now orders BtcUsd)
  end.
Definition price_events (now : OffsetDateTime) (orders : list Order.t) (msg : Feed.Message.t) : list EventInternal.t :=
  match msg with
  | Feed.Message.NewOrder o => side_event now orders (Order.direction o)
  | _ => side_event now orders Long ++ side_event now orders Short
  end.
Definition about_orders (msg : Feed.Message.t) : bool :=
  match msg with
  | Feed.Message.AllOrders _ | Feed.Message.NewOrder _ | Feed.Message.DeleteOrder _ | Feed.Message.Update _ => true
  | _ => false
  end.

(** Published, with nothing else changed but the orders and the cache. *)
Definition published (events : list EventInternal.t) (orders : list Order.t) (cache : gmap Direction Decimal)
    (s : AppBook.t) : AppBook.t :=
  let n := AppBook.node s in
  AppBook.mk (AppNode.mk (AppState.mk (AppState.db (AppNode.app n)) (book_events s ++ events)) (AppNode.dlc n)
    (AppNode.events n) (AppNode.outbox n)) (AppBook.config s) orders cache (AppBook.reverts s).

(** Without a cached price, the best price of a side is published and not cached. *)
Lemma update_side_run now side (s : AppBook.t) : AppBook.cached_best_price s !! side = None ->
  match side with Long => update_bid_price_if_needed now | Short => update_ask_price_if_needed now end s =
  (Ok tt, published (side_event now (AppBook.orders s) side) (AppBook.orders s) (AppBook.cached_best_price s) s).
Proof using Type.
  intros Hc. destruct s as [[[d p] dlc ev out] cf orders cache rv]. cbn in Hc.
  destruct side; unfold update_bid_price_if_needed, update_ask_price_if_needed, update_price_if_needed; cbn;
    [destruct (best_bid_price _ _ _)|destruct (best_ask_price _ _ _)]; cbn; rewrite ?Hc; unfold published, book_events; cbn;
    by rewrite ?app_nil_r.
Qed.
Lemma update_both_run now (s : AppBook.t) : AppBook.cached_best_price s = ∅ ->
  update_both_prices_if_needed now s =
  (Ok tt, published (side_event now (AppBook.orders s) Long ++ side_event now (AppBook.orders s) Short)
     (AppBook.orders s) ∅ s).
Proof using Type.
  intros Hc. unfold update_both_prices_if_needed, mbind, M_bind.
  rewrite (update_side_run now Long) by (rewrite Hc; apply lookup_empty).
  rewrite (update_side_run now Short) by (cbn; rewrite Hc; apply lookup_empty).
  unfold published, book_events; cbn. by rewrite app_assoc, Hc.
Qed.

Lemma book_message_run now msg (s : AppBook.t) : about_orders msg = true -> AppBook.cached_best_price s = ∅ ->
  let orders := list_message (AppBook.orders s) msg in
  handle_message now msg s = (Ok tt, published (price_events now orders msg) orders ∅ s).
Proof using Type.
  intros Hmsg Hc. cbn zeta. destruct msg; try discriminate Hmsg; cbn [handle_message list_message price_events];
    unfold change_orders, change_cache, modify, mbind, M_bind.
  - by rewrite update_both_run.
  - destruct (Order.direction order);
      [rewrite (update_side_run now Long)|rewrite (update_side_run now Short)]; cbn; rewrite Hc; done || apply lookup_empty.
  - by rewrite update_both_run.
  - case_bool_decide; cbn -[update_both_prices_if_needed]; rewrite update_both_run by done; cbn; by rewrite ?app_nil_r.
Qed.

(** Whatever else is handled leaves the orders and the cache alone. *)
Definition same_book (s s' : AppBook.t) : Prop :=
  AppBook.orders s' = AppBook.orders s /\ AppBook.cached_best_price s' = AppBook.cached_best_price s.
#[local] Instance same_book_preorder : PreOrder same_book.
Proof using Type. unfold same_book. split; [done|]. intros s1 s2 s3. intuition congruence. Qed.
Lemma b_node_same {A} (m : AppNodeM A) : steps same_book (b_node m).
Proof using Type. intros s. unfold b_node. by destruct (m _). Qed.
#[local] Hint Resolve b_node_same : sql.
Lemma other_message_same now msg : about_orders msg = false -> steps same_book (handle_message now msg).
Proof using GL.
  assert (Happ : forall A (m : AppM A), steps same_book (b_app m)) by (intros; apply b_node_same).
  assert (Hfees : forall events, steps same_book (apply_new_funding_fees now events)) by (intros events s; apply Happ).
  assert (Hrev : forall c a x y p, steps same_book (revert_status (collaborative_revert_channel c a x y p))).
  { intros c a x y p s. unfold revert_status. assert (Hc : steps same_book (collaborative_revert_channel c a x y p)).
    { unfold collaborative_revert_channel. apply steps_bind; [apply _|apply b_node_same|]. intros signed s'. by split. }
    specialize (Hc s). by destruct (collaborative_revert_channel _ _ _ _ _ s) as [[] ?]. }
  intros Hmsg. destruct msg; try discriminate Hmsg; cbn [handle_message]; unfold b_publish;
    repeat first [apply Happ | apply Hfees | apply Hrev | apply steps_with_err | apply steps_ret, _
                 | apply steps_bind; [apply _| |intros] | (intros ?; by split)].
Qed.

(** The cache stays empty, so a text's effect on the orders does not depend on it. *)
Lemma text_run now msg (s s' : AppBook.t) u : AppBook.cached_best_price s = ∅ ->
  log_message (handle_orderbook_message now msg) s = (Ok u, s') ->
  AppBook.cached_best_price s' = ∅ /\ AppBook.orders s' = from_option (list_message (AppBook.orders s)) (AppBook.orders s) msg.
Proof using GL.
  intros Hc. unfold log_message, handle_orderbook_message, mbind, M_bind, lift. destruct msg as [msg|]; cbn [ok_or].
  - destruct (about_orders msg) eqn:Hmsg.
    + rewrite book_message_run by done. by intros [= _ <-].
    + pose proof (other_message_same now msg Hmsg s) as [Ho Hc'].
      assert (list_message (AppBook.orders s) msg = AppBook.orders s) as Hl by (by destruct msg). cbn. rewrite Hl.
      destruct (handle_message now msg s) as [[[]|e|] s1]; cbn in *; intros [= <- <-]; by rewrite Hc', Ho.
  - by intros [= _ <-].
Qed.
Lemma connection_run texts : forall (s s' : AppBook.t) u rest m,
  for_each (fun '(now, msg) => log_message (handle_orderbook_message now msg)) texts s = (Ok u, s') ->
  AppBook.cached_best_price s = ∅ -> reads_as (AppBook.orders s) m -> well_announced m (texts ++ rest) ->
  AppBook.cached_best_price s' = ∅ /\ reads_as (AppBook.orders s') (fold_left map_text texts m) /\
  well_announced (fold_left map_text texts m) rest.
Proof using GL.
  induction texts as [|[now msg] texts IH]; intros s s' u rest m; cbn [for_each app fold_left well_announced].
  { by intros [= _ <-]. }
  intros ([] & s1 & Hmsg & Hrun)%M_bind_ok Hc Hm [Ha Hann]. apply text_run in Hmsg as [Hc1 Ho1]; [|done].
  eapply IH; [exact Hrun|done| |done]. rewrite Ho1. destruct msg as [msg|]; cbn; [|done]. by apply list_message_reads_as.
Qed.
Lemma connection_cache texts : forall (s s' : AppBook.t) u,
  for_each (fun '(now, msg) => log_message (handle_orderbook_message now msg)) texts s = (Ok u, s') ->
  AppBook.cached_best_price s = ∅ -> AppBook.cached_best_price s' = ∅.
Proof using GL.
  induction texts as [|[now msg] texts IH]; intros s s' u; cbn [for_each]; [by intros [= _ <-]|].
  intros ([] & s1 & Hmsg & Hrun)%M_bind_ok Hc. apply text_run in Hmsg as [Hc1 _]; [|done]. by eapply IH.
Qed.

(** C24: the app's list of orders is the map of the coordinator's open orders by id.
    Over any number of connections, after whatever mix of messages and unreadable
    texts, it holds exactly the orders that inserting every new and updated open order,
    removing every deleted and every otherwise updated one, and replacing all of them
    at a login leave - if orders are announced once. *)
Theorem app_book_refines_map connections (s s' : AppBook.t) u (m : gmap Uuid Order.t) :
  subscribe connections s = (Ok u, s') -> reads_as (AppBook.orders s) m -> well_announced m (concat connections) ->
  reads_as (AppBook.orders s') (fold_left map_text (concat connections) m).
Proof.
  revert s m. induction connections as [|texts connections IH]; intros s m; cbn [subscribe for_each concat].
  { by intros [= _ <-]. }
  intros Hrun Hm Hann. unfold subscribe in Hrun. cbn [for_each] in Hrun. apply M_bind_ok in Hrun as ([] & s1 & Hconn & Hrun).
  assert (reads_as (AppBook.orders s1) (fold_left map_text texts m) /\
    well_announced (fold_left map_text texts m) (concat connections)) as [Hm1 Hann1].
  { unfold connection in Hconn. apply M_bind_ok in Hconn as ([] & s0 & [= <-] & Hconn). eapply (connection_run _ _ s1 () _ m) in Hconn; [|done..]; tauto. }
  rewrite fold_left_app. exact (IH s1 _ Hrun Hm1 Hann1).
Qed.

(** [p] is the best price of a side. *)
Definition best_of (now : OffsetDateTime) (side : Direction) (orders : list Order.t) (p : Decimal) : Prop :=
  (exists o, In o orders /\ is_bookable now side BtcUsd o = true /\ Order.price o = p) /\
  forall o, In o orders -> is_bookable now side BtcUsd o = true ->
    match side with Long => dval (Order.price o) <= dval p | Short => dval p <= dval (Order.price o) end%Q.
Lemma best_of_filter now side orders p (R : Decimal -> Decimal -> Prop) :
  (forall x y, R x y <-> match side with Long => dval x <= dval y | Short => dval y <= dval x end%Q) ->
  p ∈ map Order.price (List.filter (is_bookable now side BtcUsd) orders) /\
  Forall (fun x => R x p) (map Order.price (List.filter (is_bookable now side BtcUsd) orders)) -> best_of now side orders p.
Proof using Type.
  intros HR [Hin Hall]. split.
  - apply list_elem_of_In, in_map_iff in Hin as (o & <- & [Ho Hb]%filter_In). by exists o.
  - intros o Ho Hb. rewrite Forall_forall in Hall. specialize (Hall (Order.price o)).
    assert (Hp : R (Order.price o) p) by (apply Hall, list_elem_of_In, in_map, filter_In; done). apply HR in Hp. by destruct side.
Qed.
End BookSpec.

Section Prices.
Context `{DLaws : DecimalLaws} `{BL : BitcoinLib} `{IL : IdLib} `{DLC : !DlcLib} `{AL : AddressLib} `{VL : !RevertLib}.
Context `{ML : !DlcMessagesLib} `{GL : !AcceptingDlcLib}.

Lemma best_bid_price_best now orders p : best_bid_price now orders BtcUsd = Some p -> best_of now Long orders p.
Proof using DLaws.
  intros H%iter_max_spec. by apply (best_of_filter now Long orders p (fun x y => dval x <= dval y)%Q).
Qed.
Lemma best_ask_price_best now orders p : best_ask_price now orders BtcUsd = Some p -> best_of now Short orders p.
Proof using DLaws.
  intros H%iter_min_spec. by apply (best_of_filter now Short orders p (fun x y => dval y <= dval x)%Q).
Qed.

(** In a connection every message about orders publishes the best prices: of the
    side of a new order, of both sides otherwise.  They are the best prices of the orders
    the app then has, and are published whether they changed or not: the cache that is
    meant to hold the published prices is never filled.  A side without orders publishes
    nothing, so its last price stays. *)
Theorem prices_published_at_every_change texts now msg (s s1 : AppBook.t) u :
  connection texts s = (Ok u, s1) -> about_orders msg = true ->
  let orders := list_message (AppBook.orders s1) msg in
  AppBook.cached_best_price s1 = ∅ /\
  log_message (handle_orderbook_message now (Some msg)) s1 = (Ok tt, published (price_events now orders msg) orders ∅ s1) /\
  (forall p, In (EventInternal.BidPriceUpdateNotification p) (price_events now orders msg) -> best_of now Long orders p) /\
  (forall p, In (EventInternal.AskPriceUpdateNotification p) (price_events now orders msg) -> best_of now Short orders p) /\
  (match msg with Feed.Message.NewOrder _ => True | _ =>
     (exists o, In o orders /\ is_bookable now Long BtcUsd o = true) ->
     exists p, In (EventInternal.BidPriceUpdateNotification p) (price_events now orders msg) end).
Proof.
  intros Hconn Hmsg. cbn zeta. set (orders := list_message _ _).
  assert (Hc : AppBook.cached_best_price s1 = ∅).
  { unfold connection in Hconn. apply M_bind_ok in Hconn as ([] & s0 & [= <-] & Hconn). by apply connection_cache in Hconn. }
  split; [done|]. split.
  { unfold log_message, handle_orderbook_message, mbind, M_bind, lift. cbn [ok_or]. by rewrite book_message_run. }
  assert (Hside : forall e, In e (price_events now orders msg) ->
    exists side, In e (side_event now orders side)) by
    (intros e; destruct msg; cbn [price_events]; rewrite ?in_app_iff; intuition eauto).
  split_and!.
  - intros p (side & Hin)%Hside. apply best_bid_price_best. unfold side_event in Hin.
    destruct side; [destruct (best_bid_price _ _ _)|destruct (best_ask_price _ _ _)]; cbn in Hin; try done;
      destruct Hin as [[= <-]|[]]; done.
  - intros p (side & Hin)%Hside. apply best_ask_price_best. unfold side_event in Hin.
    destruct side; [destruct (best_bid_price _ _ _)|destruct (best_ask_price _ _ _)]; cbn in Hin; try done;
      destruct Hin as [[= <-]|[]]; done.
  - assert (Hbid : (exists o, In o orders /\ is_bookable now Long BtcUsd o = true) ->
      exists p, In (EventInternal.BidPriceUpdateNotification p) (side_event now orders Long)).
    { intros (o & Hin & Hb). unfold side_event, best_bid_price.
      destruct (List.filter _ orders) as [|o' l] eqn:Hf; cbn; [|eexists; by left].
      exfalso. apply (in_nil (a := o)). rewrite <-Hf. by apply filter_In. }
    destruct msg; try discriminate Hmsg; cbn [price_events]; [|done|..];
      (intros Ho; destruct (Hbid Ho) as [p Hp]; exists p; apply in_app_iff; by left).
Qed.
End Prices.

(** ** A bid is announced twice over *)

Definition demo_bid : Order.t := demo_order 4 19000 300 5 Long Limit.
Definition demo_app_book : AppBook.t (H := demo_decimal) (H0 := demo_revert) :=
  AppBook.mk demo_reverted_app None [] ∅ [].
Definition demo_texts : list (OffsetDateTime * option (Feed.Message.t (H1 := demo_address))) :=
  [(1, Some (Feed.Message.AllOrders demo_book)); (2, None); (3, Some (Feed.Message.DeleteOrder 1)); (4, Some (Feed.Message.NewOrder demo_bid))].

Example app_book_refines_map_witness :
  exists s', subscribe (BL := demo_bitcoin) [demo_texts; [(5, Some (Feed.Message.DeleteOrder 4))]] demo_app_book = (Ok tt, s') /\
    reads_as (AppBook.orders s') (fold_left map_text (demo_texts ++ [(5, Some (Feed.Message.DeleteOrder 4))]) ∅).
Proof.
  destruct (succeeds (subscribe (BL := demo_bitcoin) [demo_texts; [(5, Some (Feed.Message.DeleteOrder 4))]]) demo_app_book) as ([] & s' & Hs).
  { by vm_compute. }
  exists s'. split; [exact Hs|]. apply (app_book_refines_map _ _ _ _ ∅ Hs).
  - intros id o. rewrite lookup_empty. cbn. naive_solver.
  - repeat split. 
    + apply (bool_decide_unpack _). vm_compute. reflexivity.
    + right. reflexivity.
Defined.

(** The same bid is published again when it is announced again. *)
Example prices_published_at_every_change_witness :
  exists s1, connection (BL := demo_bitcoin) demo_texts demo_app_book = (Ok tt, s1) /\
    exists s2, log_message (handle_orderbook_message (BL := demo_bitcoin) 6 (Some (Feed.Message.NewOrder demo_bid))) s1 = (Ok tt, s2) /\
    last (book_events s1) = Some (EventInternal.BidPriceUpdateNotification (d_from_u64 19000)) /\
    book_events s2 = book_events s1 ++ [EventInternal.BidPriceUpdateNotification (d_from_u64 19000)].
Proof.
  destruct (succeeds (connection (BL := demo_bitcoin) demo_texts) demo_app_book) as ([] & s1 & Hs).
  { by vm_compute. }
  destruct (prices_published_at_every_change (DLaws := demo_decimal_laws) demo_texts 6
    (Feed.Message.NewOrder demo_bid) demo_app_book s1 tt Hs eq_refl) as (_ & Hrun & _).
  exists s1. split; [exact Hs|]. eexists. split; [exact Hrun|].
  assert (Hs1 : (connection (BL := demo_bitcoin) demo_texts demo_app_book).2 = s1) by (rewrite Hs; reflexivity).
  rewrite <-Hs1. split; reflexivity.
Defined.
