(* ===== verification/TradeExecutor.v ===== *)
(** * [coordinator/src/trade/mod.rs]: executing a matched trade

    [execute_internal] decides from the trader's DLC channel and open position what
    a matched trade means, proposes the change of the channel to the trader through
    the node library, and records the protocol it started and the position that is
    to be.  Everything runs over the node's state: the database, the DLC store and
    the published events. *)

From stdpp Require Import base list option strings pretty.
From Stdlib Require Import ZArith QArith Lia.
From S2P Require Import Prelude Machine External Demo Commons Cfd PayoutCurve SqlTypes Schema Db OrdersDb.
From S2P Require Import MatchesDb PositionsDb FundingDb Funding Settlement Resize ProtocolDb.
From S2P Require Import Trading DlcExecutor Node DemoDlc.

#[local] Open Scope Z_scope.

(** The arguments of [payout_curve::build_contract_descriptor]. *)
Module DescriptorArgs.
Record t `{DecimalLib} := mk {
  initial_price : Decimal;
  coordinator_margin : Amount;
  trader_margin : Amount;
  leverage_coordinator : f32;
  leverage_trader : f32;
  coordinator_direction : Direction;
  coordinator_collateral_reserve : Amount;
  trader_collateral_reserve : Amount;
  quantity : f32;
  symbol : ContractSymbol;
}.
#[global] Arguments mk {_}.
End DescriptorArgs.

(** What a handler finds outside the node's state; [new_protocol_id] is the one id
    it draws. *)
Module ExecutorEnv.
Record t `{IdLib} := mk {
  now : OffsetDateTime;
  new_protocol_id : ProtocolId;
  oracles : list XOnlyPublicKey;
  allow_opening_positions : bool;          (* [settings] *)
  maintenance_margin_rate : f32;
  fee_rate : f32;                          (* [fee_rate_estimator], in sats per vbyte *)
}.
#[global] Arguments mk {_}.
End ExecutorEnv.

(** [TradeAction]. *)
Module TradeAction.
Inductive t `{DecimalLib} `{IdLib} :=
  | OpenDlcChannel
  | OpenSingleFundedChannel (external_funding : Amount)
  | OpenPosition (channel_id : DlcChannelId) (own_payout counter_payout : Amount)
  | ClosePosition (channel_id : DlcChannelId) (position : Position.t)
  | ResizePosition (channel_id : DlcChannelId) (position : Position.t) (resize_action : ResizeAction).
End TradeAction.

(** [TraderRequiredLiquidity]. *)
Inductive TraderRequiredLiquidity := ForTradeCostAndTxFees | NoLiquidity.

Section TradeExecutor.
Context `{DL : DecimalLib} `{BL : BitcoinLib} `{IL : IdLib} `{DLC : !DlcLib}.

Definition query {A} (m : Sql A) : NodeM A := on_db (with_err FromSql m).

(** [payout_curve.rs: build_contract_descriptor], and the points it is built from. *)
Definition descriptor_points (args : DescriptorArgs.t) : outcome string (list Interval) :=
  _ ← ensure (bool_decide (DescriptorArgs.symbol args = BtcUsd))
    "We only support BTCUSD at the moment."%string;
  coordinator_payout_points (DescriptorArgs.coordinator_margin args)
    (DescriptorArgs.trader_margin args) (DescriptorArgs.initial_price args)
    (DescriptorArgs.leverage_trader args) (DescriptorArgs.leverage_coordinator args)
    (DescriptorArgs.coordinator_collateral_reserve args)
    (DescriptorArgs.trader_collateral_reserve args) (DescriptorArgs.coordinator_direction args)
    (DescriptorArgs.quantity args).
Definition build_contract_descriptor (args : DescriptorArgs.t)
    : outcome string ContractDescriptor :=
  payout_points ← descriptor_points args;
  numerical_descriptor payout_points.

(** [fee_rate_estimator.get(..).as_sat_per_vb().round()] as a whole number. *)
Definition contract_fee_rate (env : ExecutorEnv.t) : outcome string Z :=
  rate ← ok_or "try_from"%string (d_try_from_f32 (f32_round (ExecutorEnv.fee_rate env)));
  ok_or "failed to convert to u64"%string (d_to_u64 rate).

(** [format!("{contract_symbol}{maturity_time}")]. *)
Definition event_id (contract_symbol : ContractSymbol) (maturity_time : OffsetDateTime) : string :=
  String.append (label contract_symbol) (pretty (unix_timestamp maturity_time)).

Definition contract_input (offer_collateral accept_collateral fee_rate : Z)
    (contract_descriptor : ContractDescriptor) (oracle_pk : XOnlyPublicKey) (event_id : string)
    : ContractInput.t ContractDescriptor :=
  ContractInput.mk offer_collateral accept_collateral fee_rate contract_descriptor
    (OracleInput.mk [oracle_pk] event_id 1).

(** The maintenance margin rate of the settings. *)
Definition maintenance_margin (env : ExecutorEnv.t) : outcome string Decimal :=
  expect (d_try_from_f32 (ExecutorEnv.maintenance_margin_rate env)).

(** [Node::apply_funding_fee_to_channel]: the reserves are read first. *)
Definition node_apply_funding_fee_to_channel (dlc_channel_id : DlcChannelId)
    (funding_fee : FundingFee.t) : NodeM (Amount * Amount) :=
  coordinator ← get_dlc_channel_usable_balance dlc_channel_id;
  trader ← get_dlc_channel_usable_balance_counterparty dlc_channel_id;
  lift (apply_funding_fee_to_channel (Ok (coordinator, trader)) funding_fee).

(** [persist_position]. *)
Definition persist_position (env : ExecutorEnv.t) (trade_params : TradeParams.t)
    (temporary_contract_id : ContractId) (coordinator_leverage : f32) (stable : bool)
    (order_matching_fees : Amount) : NodeM unit :=
  new_position ← try (
    price ← trade_average_execution_price trade_params;
    maintenance_margin_rate ← maintenance_margin env;
    leverage ← expect (d_try_from_f32 (TradeParams.leverage trade_params));
    trader_liquidation_price ←
      liquidation_price price leverage (TradeParams.direction trade_params) maintenance_margin_rate;
    leverage ← expect (d_try_from_f32 coordinator_leverage);
    coordinator_liquidation_price ←
      liquidation_price price leverage (opposite (TradeParams.direction trade_params))
        maintenance_margin_rate;
    margin_coordinator ← margin_coordinator trade_params coordinator_leverage;
    margin_trader ← margin_trader trade_params;
    average_entry_price ← expect (d_to_f32 price);
    Ok (NewPosition.mk (TradeParams.contract_symbol trade_params)
          (TradeParams.leverage trade_params) (TradeParams.quantity trade_params)
          (TradeParams.direction trade_params) (TradeParams.pubkey trade_params)
          average_entry_price trader_liquidation_price coordinator_liquidation_price
          margin_coordinator
          (FilledWith.expiry_timestamp (TradeParams.filled_with trade_params))
          temporary_contract_id coordinator_leverage margin_trader stable order_matching_fees));
  _ ← on_db (position_insert (ExecutorEnv.now env) new_position);
  mret tt.

(** The arguments of the descriptor of [open_dlc_channel]. *)
Definition open_channel_terms (trade_params : TradeParams.t)
    (collateral_reserve_coordinator collateral_reserve_trader : Amount)
    : outcome string DescriptorArgs.t :=
  let leverage_trader := TradeParams.leverage trade_params in
  let leverage_coordinator := coordinator_leverage_for_trade in
  margin_trader ← margin_trader trade_params;
  margin_coordinator ← margin_coordinator trade_params leverage_coordinator;
  order_matching_fee ← trade_order_matching_fee trade_params;
  collateral_reserve_with_fee_coordinator ←
    expect (amount_add collateral_reserve_coordinator order_matching_fee);
  initial_price ← trade_average_execution_price trade_params;
  Ok (DescriptorArgs.mk initial_price margin_coordinator margin_trader leverage_coordinator
        leverage_trader (opposite (TradeParams.direction trade_params))
        collateral_reserve_with_fee_coordinator collateral_reserve_trader
        (TradeParams.quantity trade_params) (TradeParams.contract_symbol trade_params)).

(** What is offered, what is asked for, and who pays the transaction fees. *)
Definition open_channel_collaterals {E} (trader_required_utxos : TraderRequiredLiquidity)
    (margin_coordinator margin_trader collateral_reserve_coordinator collateral_reserve_trader
     order_matching_fee : Amount) : outcome E (Z * Z * FeeConfig) :=
  match trader_required_utxos with
  | ForTradeCostAndTxFees =>
    offer ← expect (amount_add margin_coordinator collateral_reserve_coordinator);
    accept ← expect (amount_add margin_trader collateral_reserve_trader);
    accept ← expect (amount_add accept order_matching_fee);
    Ok (offer, accept, EvenSplit)
  | NoLiquidity =>
    offer ← expect (amount_add margin_coordinator collateral_reserve_coordinator);
    offer ← expect (amount_add offer margin_trader);
    offer ← expect (amount_add offer collateral_reserve_trader);
    offer ← expect (amount_add offer order_matching_fee);
    Ok (offer, 0, AllOffer)
  end.

(** [open_dlc_channel]. *)
Definition open_dlc_channel (env : ExecutorEnv.t) (trade_params : TradeParams.t)
    (collateral_reserve_coordinator collateral_reserve_trader : Amount) (stable : bool)
    (trader_required_utxos : TraderRequiredLiquidity) : NodeM unit :=
  let filled_with := TradeParams.filled_with trade_params in
  let protocol_id := ExecutorEnv.new_protocol_id env in
  args ← try (open_channel_terms trade_params collateral_reserve_coordinator
                collateral_reserve_trader);
  contract_descriptor ← try (build_contract_descriptor args);
  fee_rate ← try (contract_fee_rate env);
  order_matching_fee ← try (trade_order_matching_fee trade_params);
  '(offer_collateral, accept_collateral, fee_config) ←
    lift (open_channel_collaterals trader_required_utxos (DescriptorArgs.coordinator_margin args)
            (DescriptorArgs.trader_margin args) collateral_reserve_coordinator
            collateral_reserve_trader order_matching_fee);
  '(temporary_contract_id, temporary_channel_id) ←
    propose_dlc_channel (ExecutorEnv.oracles env) filled_with
      (contract_input offer_collateral accept_collateral fee_rate contract_descriptor
         (FilledWith.oracle_pk filled_with)
         (event_id (TradeParams.contract_symbol trade_params)
            (FilledWith.expiry_timestamp filled_with)))
      (TradeParams.pubkey trade_params) protocol_id fee_config;
  on_db (start_open_channel_protocol (ExecutorEnv.now env) protocol_id temporary_contract_id
           temporary_channel_id trade_params);;
  persist_position env trade_params temporary_contract_id coordinator_leverage_for_trade stable
    order_matching_fee.

(** The amounts of [open_position]: a party trades with its payout of the settled
    channel, the coordinator also with the matching fee the trader pays. *)
Definition open_position_terms (trade_params : TradeParams.t)
    (coordinator_dlc_channel_collateral trader_dlc_channel_collateral : Amount)
    : outcome string DescriptorArgs.t :=
  initial_price ← trade_average_execution_price trade_params;
  let leverage_coordinator := coordinator_leverage_for_trade in
  margin_coordinator ← margin_coordinator trade_params leverage_coordinator;
  margin_trader ← margin_trader trade_params;
  order_matching_fee ← trade_order_matching_fee trade_params;
  collateral ← expect (amount_add coordinator_dlc_channel_collateral order_matching_fee);
  coordinator_collateral_reserve ←
    ok_or "Coordinator cannot trade with more than their total collateral in the DLC channel"%string
      (amount_checked_sub collateral margin_coordinator);
  trader_collateral_reserve ←
    ok_or "Trader cannot trade with more than their total collateral in the DLC channel"%string
      (collateral ← amount_checked_sub trader_dlc_channel_collateral order_matching_fee;
       amount_checked_sub collateral margin_trader);
  Ok (DescriptorArgs.mk initial_price margin_coordinator margin_trader leverage_coordinator
        (TradeParams.leverage trade_params) (opposite (TradeParams.direction trade_params))
        coordinator_collateral_reserve trader_collateral_reserve
        (TradeParams.quantity trade_params) (TradeParams.contract_symbol trade_params)).

(** [open_position]. *)
Definition open_position (env : ExecutorEnv.t) (dlc_channel_id : DlcChannelId)
    (trade_params : TradeParams.t)
    (coordinator_dlc_channel_collateral trader_dlc_channel_collateral : Amount) (stable : bool)
    : NodeM unit :=
  let filled_with := TradeParams.filled_with trade_params in
  let protocol_id := ExecutorEnv.new_protocol_id env in
  args ← try (open_position_terms trade_params coordinator_dlc_channel_collateral
                trader_dlc_channel_collateral);
  contract_descriptor ← try (build_contract_descriptor args);
  fee_rate ← try (contract_fee_rate env);
  channel ← get_dlc_channel_by_id dlc_channel_id;
  previous_protocol_id ← try (previous_protocol_id channel);
  temporary_contract_id ← propose_reopen_or_resize filled_with dlc_channel_id
    (contract_input coordinator_dlc_channel_collateral trader_dlc_channel_collateral fee_rate
       contract_descriptor (FilledWith.oracle_pk filled_with)
       (event_id (TradeParams.contract_symbol trade_params) (FilledWith.expiry_timestamp filled_with)))
    protocol_id;
  on_db (start_open_position_protocol (ExecutorEnv.now env) protocol_id previous_protocol_id
           temporary_contract_id (Channel.get_id channel) trade_params);;
  order_matching_fee ← try (trade_order_matching_fee trade_params);
  persist_position env trade_params temporary_contract_id coordinator_leverage_for_trade stable
    order_matching_fee.
(** The outstanding funding fee events of a position, and what they come to. *)
Definition outstanding_funding_fee (position : Position.t)
    : NodeM (list FundingFeeEvent.t * FundingFee.t) :=
  funding_fee_events ←
    query (get_outstanding_funding_fee_events (Position.trader position) (Position.id position));
  funding_fee ← try (funding_fee_from_funding_fee_events funding_fee_events);
  mret (funding_fee_events, funding_fee).

(** The collaterals of the contract input of a resized position. *)
Definition resized_collaterals {E} (r : ResizedPosition.t) : outcome E (Z * Z) :=
  offer ← u64_add (ResizedPosition.margin_coordinator r)
                  (ResizedPosition.collateral_reserve_coordinator r);
  accept ← u64_add (ResizedPosition.margin_trader r)
                   (ResizedPosition.collateral_reserve_trader r);
  Ok (offer, accept).

(** The descriptor of a resized position. *)
Definition resized_descriptor {E} (position : Position.t) (trade_params : TradeParams.t)
    (r : ResizedPosition.t) : outcome E DescriptorArgs.t :=
  contracts ← expect (d_to_f32 (ResizedPosition.contracts r));
  Ok (DescriptorArgs.mk (ResizedPosition.average_execution_price r)
        (ResizedPosition.margin_coordinator r) (ResizedPosition.margin_trader r)
        (Position.coordinator_leverage position) (Position.trader_leverage position)
        (ResizedPosition.coordinator_direction r)
        (ResizedPosition.collateral_reserve_coordinator r)
        (ResizedPosition.collateral_reserve_trader r) contracts
        (TradeParams.contract_symbol trade_params)).

(** [resize_position]. *)
Definition resize_position (env : ExecutorEnv.t) (dlc_channel_id : DlcChannelId)
    (position : Position.t) (trade_params : TradeParams.t) (resize_action : ResizeAction)
    : NodeM unit :=
  let filled_with := TradeParams.filled_with trade_params in
  let protocol_id := ExecutorEnv.new_protocol_id env in
  confirmed ← check_if_signed_channel_is_confirmed (Position.trader position);
  if negb confirmed then throw (Msg "Underlying DLC channel not yet confirmed.")
  else
    '(funding_fee_events, funding_fee) ← outstanding_funding_fee position;
    maintenance_margin_rate ← try (maintenance_margin env);
    position ← try (apply_funding_fee position funding_fee maintenance_margin_rate);
    '(collateral_reserve_coordinator, collateral_reserve_trader) ←
      node_apply_funding_fee_to_channel dlc_channel_id funding_fee;
    order_matching_fee ← try (trade_order_matching_fee trade_params);
    resized_position ← try (apply_resize_to_position resize_action position
      collateral_reserve_coordinator collateral_reserve_trader order_matching_fee
      maintenance_margin_rate);
    args ← try (resized_descriptor position trade_params resized_position);
    contract_descriptor ← try (build_contract_descriptor args);
    fee_rate ← try (contract_fee_rate env);
    '(offer_collateral, accept_collateral) ← try (resized_collaterals resized_position);
    channel ← get_dlc_channel_by_id dlc_channel_id;
    previous_id ← try (previous_protocol_id channel);
    temporary_contract_id ← propose_reopen_or_resize filled_with dlc_channel_id
      (contract_input offer_collateral accept_collateral fee_rate contract_descriptor
         (FilledWith.oracle_pk filled_with)
         (event_id (TradeParams.contract_symbol trade_params)
            (FilledWith.expiry_timestamp filled_with)))
      protocol_id;
    on_db (start_resize_protocol (ExecutorEnv.now env) protocol_id previous_id
             (Some temporary_contract_id) (Channel.get_id channel) trade_params
             (ResizedPosition.realized_pnl resized_position)
             (map FundingFeeEvent.id funding_fee_events));;
    _ ← query (set_position_to_resizing (ExecutorEnv.now env) (TradeParams.pubkey trade_params)
          temporary_contract_id (ResizedPosition.contracts resized_position)
          (opposite (ResizedPosition.coordinator_direction resized_position))
          (ResizedPosition.margin_trader resized_position)
          (ResizedPosition.margin_coordinator resized_position)
          (ResizedPosition.average_execution_price resized_position)
          (FilledWith.expiry_timestamp filled_with)
          (ResizedPosition.coordinator_liquidation_price resized_position)
          (ResizedPosition.trader_liquidation_price resized_position)
          (ResizedPosition.realized_pnl resized_position) order_matching_fee);
    mret tt.

(** [start_closing_position]. *)
Definition start_closing_position (env : ExecutorEnv.t) (order : Order.t) (position : Position.t)
    (trade_params : TradeParams.t) (channel_id : DlcChannelId) : NodeM unit :=
  let filled_with := TradeParams.filled_with trade_params in
  let protocol_id := ExecutorEnv.new_protocol_id env in
  confirmed ← check_if_signed_channel_is_confirmed (Position.trader position);
  if negb confirmed then throw (Msg "Underlying DLC channel not yet confirmed.")
  else
    '(funding_fee_events, funding_fee) ← outstanding_funding_fee position;
    maintenance_margin_rate ← try (decimal_from_f32 (ExecutorEnv.maintenance_margin_rate env));
    position ← try (apply_funding_fee position funding_fee maintenance_margin_rate);
    '(collateral_reserve_coordinator, _) ←
      node_apply_funding_fee_to_channel channel_id funding_fee;
    closing_price ← try (trade_average_execution_price trade_params);
    matching_fee ← try (trade_order_matching_fee trade_params);
    position_settlement_amount_coordinator ←
      try (calculate_coordinator_settlement_amount position closing_price matching_fee);
    dlc_channel_settlement_amount_coordinator ←
      try (u64_add position_settlement_amount_coordinator collateral_reserve_coordinator);
    total_collateral ← signed_dlc_channel_total_collateral channel_id;
    let settlement_amount_trader :=
      default 0 (checked_u64 (total_collateral - dlc_channel_settlement_amount_coordinator)) in
    channel ← get_dlc_channel_by_id channel_id;
    contract_id ← try (ok_or "missing contract id"%string (Channel.get_contract_id channel));
    previous_id ← try (previous_protocol_id channel);
    propose_dlc_channel_collaborative_settlement order filled_with channel_id
      settlement_amount_trader protocol_id;;
    on_db (start_settle_protocol (ExecutorEnv.now env) protocol_id previous_id contract_id
             (Channel.get_id channel) trade_params (map FundingFeeEvent.id funding_fee_events));;
    _ ← query (set_open_position_to_closing (ExecutorEnv.now env) (Position.trader position)
                 (Some closing_price));
    mret tt.

(** [update_order_and_match]. *)
Definition update_order_and_match (order_id : Uuid) (match_state : MatchState.t)
    (order_state : OrderState.t) : M Db.t Anyhow unit :=
  with_err FromSql (sql_transaction (
    set_match_state order_id match_state;;
    _ ← set_order_state order_id order_state;
    mret tt)).

(** [determine_trade_action]. *)
Definition determine_trade_action (params : TradeAndChannelParams.t) : NodeM TradeAction.t :=
  let trade_params := TradeAndChannelParams.trade_params params in
  let trader_id := TradeParams.pubkey trade_params in
  channel ← get_signed_dlc_channel_by_counterparty trader_id;
  match channel with
  | None =>
    channels ← list_dlc_channels;
    try (ensure (negb (existsb (fun c => match Channel.kind c with
                                         | Offered | Accepted => true | _ => false end)
           (List.filter (fun c => bool_decide (Channel.get_counter_party_id c = trader_id)) channels)))
      "Previous DLC Channel offer still pending."%string);;
    mret (match TradeAndChannelParams.external_funding params with
          | Some external_funding => TradeAction.OpenSingleFundedChannel external_funding
          | None => TradeAction.OpenDlcChannel
          end)
  | Some signed_channel =>
    let channel_id := SignedChannel.channel_id signed_channel in
    match SignedChannel.state signed_channel with
    | Settled own_payout counter_payout =>
      mret (TradeAction.OpenPosition channel_id own_payout counter_payout)
    | Established _ =>
      position ← query (get_position_by_trader trader_id [PositionState.Open]);
      position ← try (ok_or "Failed to find open position"%string position);
      action ← try (action_on_position position trade_params);
      mret (match action with
            | Close => TradeAction.ClosePosition channel_id position
            | Resize resize_action => TradeAction.ResizePosition channel_id position resize_action
            end)
    | _ => throw (Msg "Cannot trade with DLC channel in state")
    end
  end.

(** The trader's collateral reserve of a channel that was funded externally. *)
Definition external_collateral_reserve (env : ExecutorEnv.t) (trade_params : TradeParams.t)
    (external_funding : Amount) : outcome string Amount :=
  order_matching_fee ← trade_order_matching_fee trade_params;
  margin_trader ← margin_trader trade_params;
  let fee_rate := f32_as_f64 (ExecutorEnv.fee_rate env) in
  let funding_transaction_fee := estimated_funding_transaction_fee fee_rate / 2 in
  let channel_fee_reserve := estimated_dlc_channel_fee_reserve fee_rate / 2 in
  cost ← expect (amount_add margin_trader order_matching_fee);
  cost ← expect (amount_add cost funding_transaction_fee);
  cost ← expect (amount_add cost channel_fee_reserve);
  ok_or "Not enough external funds to open position"%string (amount_checked_sub external_funding cost).

(** [execute_internal]. *)
Definition execute_internal (env : ExecutorEnv.t) (params : TradeAndChannelParams.t) : NodeM unit :=
  let trade_params := TradeAndChannelParams.trade_params params in
  order ← query (get_with_id (FilledWith.order_id (TradeParams.filled_with trade_params)));
  order ← try (ok_or "Could not find order"%string order);
  let is_stable_order := Order.stable order in
  try (ensure (ExecutorEnv.now env <? Order.expiry order)
         "Can't execute a trade on an expired order"%string);;
  try (ensure (bool_decide (Order.order_state order = OrderState.Matched))
         "Can't execute trade with in invalid state"%string);;
  trade_action ← determine_trade_action params;
  try (ensure (match trade_action with TradeAction.ClosePosition _ _ => true | _ => false end
               || ExecutorEnv.allow_opening_positions env)
         "Trading is disabled except for closing positions"%string);;
  match trade_action with
  | TradeAction.OpenDlcChannel =>
    coordinator_reserve ← try (ok_or "Missing coordinator collateral reserve"%string
      (TradeAndChannelParams.coordinator_reserve params));
    trader_reserve ← try (ok_or "Missing trader collateral reserve"%string
      (TradeAndChannelParams.trader_reserve params));
    open_dlc_channel env trade_params coordinator_reserve trader_reserve is_stable_order
      ForTradeCostAndTxFees
  | TradeAction.OpenSingleFundedChannel external_funding =>
    coordinator_reserve ← try (ok_or "Missing coordinator collateral reserve"%string
      (TradeAndChannelParams.coordinator_reserve params));
    trader_reserve ← try (external_collateral_reserve env trade_params external_funding);
    open_dlc_channel env trade_params coordinator_reserve trader_reserve is_stable_order NoLiquidity
  | TradeAction.OpenPosition channel_id own_payout counter_payout =>
    open_position env channel_id trade_params own_payout counter_payout is_stable_order
  | TradeAction.ClosePosition channel_id position =>
    start_closing_position env order position trade_params channel_id
  | TradeAction.ResizePosition channel_id position resize_action =>
    resize_position env channel_id position trade_params resize_action
  end.
End TradeExecutor.

(** ** What is refused *)

Section Guards.
Context `{DL : DecimalLib} `{BL : BitcoinLib} `{IL : IdLib} `{DLC : !DlcLib}.

Lemma node_eta (s : NodeState.t) :
  NodeState.mk (NodeState.db s) (NodeState.dlc s) (NodeState.events s) (NodeState.sent s) = s.
Proof. by destruct s. Qed.

Lemma on_db_reads {A} (m : M Db.t Anyhow A) : read_only m -> read_only (on_db m).
Proof.
  intros Hm s. specialize (Hm (NodeState.db s)). unfold on_db.
  destruct (m (NodeState.db s)) as [r d]. cbn in *. subst d. by rewrite node_eta.
Qed.

Lemma node_query_reads {A} (m : Sql A) : read_only m -> read_only (query m).
Proof. intros Hm. apply on_db_reads. by apply steps_with_err. Qed.

Lemma get_position_by_trader_reads pk states : read_only (get_position_by_trader pk states).
Proof. unfold get_position_by_trader. solve_steps. Qed.

Lemma get_with_id_reads uid : read_only (get_with_id uid).
Proof. unfold get_with_id. solve_steps. Qed.

Lemma determine_trade_action_reads params : read_only (determine_trade_action params).
Proof.
  unfold determine_trade_action, get_signed_dlc_channel_by_counterparty, get_signed_dlc_channel,
    list_signed_dlc_channels, list_dlc_channels, try.
  solve_steps; first [apply read_dlc_reads | apply node_query_reads, get_position_by_trader_reads].
Qed.

Lemma node_query_run {A} (m : Sql A) s r : m (NodeState.db s) = (r, NodeState.db s) ->
  query m s = (map_err FromSql r, s).
Proof. unfold query, on_db, with_err. intros ->. by rewrite node_eta. Qed.

(** A handler that refuses to act: it fails and leaves everything as it was. *)
Definition refuses {A} (m : NodeM A) (s : NodeState.t) : Prop :=
  exists r, m s = (r, s) /\ is_ok r = false.

Lemma refuses_ensure {B} (b : bool) e (f : unit -> NodeM B) s :
  (b = true -> refuses (f tt) s) -> refuses (try (ensure b e) ≫= f) s.
Proof. intros Hf. destruct b; [by apply Hf|]. exists (Err (Msg e)). by split. Qed.

Lemma refuses_bind {A B} (m : NodeM A) (f : A -> NodeM B) s : read_only m ->
  (forall a, (m s).1 = Ok a -> refuses (f a) s) -> refuses (m ≫= f) s.
Proof.
  intros Hm Hf. specialize (Hm s). unfold refuses, mbind, M_bind. destruct (m s) as [r s']. cbn in *.
  subst s'. destruct r as [a|e|]; [by apply Hf|eexists; by split..].
Qed.

(** A trade is executed only for an order that has not expired and is [Matched],
    and, while trading is disabled, only if it closes a position; otherwise nothing
    happens: no row, no channel and no message changes. *)
Theorem execute_internal_guards (env : ExecutorEnv.t) params s order :
  get_with_id (FilledWith.order_id (TradeParams.filled_with (TradeAndChannelParams.trade_params params)))
    (NodeState.db s) = (Ok (Some order), NodeState.db s) ->
  Order.expiry order <= ExecutorEnv.now env \/ Order.order_state order <> OrderState.Matched \/
  (ExecutorEnv.allow_opening_positions env = false /\
   forall channel_id position, (determine_trade_action params s).1
     <> Ok (TradeAction.ClosePosition channel_id position)) ->
  refuses (execute_internal env params) s.
Proof.
  intros Horder Hcase. unfold execute_internal. cbv zeta.
  apply refuses_bind; [apply node_query_reads, get_with_id_reads|]. intros o Ho.
  rewrite (node_query_run _ _ _ Horder) in Ho. injection Ho as <-.
  apply refuses_bind; [by intros ?|]. intros order' [= <-].
  apply refuses_ensure. intros Hexpiry. apply refuses_ensure. intros Hstate%bool_decide_eq_true.
  apply refuses_bind; [apply determine_trade_action_reads|]. intros action Haction.
  apply refuses_ensure. intros Hallowed. exfalso.
  destruct Hcase as [Hexp|[Hst|[Hoff Hclose]]]; [lia|done|].
  rewrite Hoff, orb_false_r in Hallowed. destruct action; try discriminate Hallowed.
  by apply (Hclose channel_id position).
Qed.
End Guards.

(** A matched order of a trader without a channel, while trading is disabled. *)
Definition demo_executor_env : ExecutorEnv.t :=
  ExecutorEnv.mk (H := demo_id) 1 42 ["oracle"%string] false (f32_of_Z 0) (f32_of_Z 10).
Definition demo_params : TradeAndChannelParams.t :=
  TradeAndChannelParams.mk (demo_trade 200 Long) (Some 0) (Some 0) None.
Definition demo_node_state : NodeState.t :=
  NodeState.mk
    (set_rows [with_order_state DbOrderState.Matched
                 (demo_order_row 70 0 200 DbDirection.Long DbOrderType.Market)] empty_db)
    (DemoStore.mk [] [] []) [] [].

Lemma execute_internal_guards_witness :
  refuses (execute_internal demo_executor_env demo_params) demo_node_state.
Proof.
  assert (match (get_with_id 70 (NodeState.db demo_node_state)).1 with
          | Ok (Some _) => true | _ => false end = true) as Hok by (vm_compute; reflexivity).
  destruct (get_with_id 70 (NodeState.db demo_node_state)) as [[[order|]| |] d] eqn:Horder;
    try discriminate Hok.
  assert (d = NodeState.db demo_node_state) as -> by (eapply read_only_run; [apply get_with_id_reads|exact Horder]).
  apply (execute_internal_guards demo_executor_env demo_params demo_node_state order Horder).
  right. right. split; [reflexivity|]. intros channel_id position.
  cbn. discriminate.
Defined.
