(* ===== verification/TradeInvoices.v ===== *)
(** * Trades paid over Lightning: [TradeExecutor::execute], [node/invoice.rs]

    A trader without a channel may pay for one over Lightning.  The coordinator
    watches the hodl invoice ([node/invoice.rs]); when the trade is executed
    ([trade/mod.rs]), it settles the invoice and sends the offer of the channel, or
    takes the offer back, cancels the invoice and tells the trader. *)

From stdpp Require Import base list option strings.
From Stdlib Require Import ZArith QArith Lia.
From S2P Require Import Prelude Machine External Demo Commons PayoutCurve SqlTypes Schema Db OrdersDb MatchesDb.
From S2P Require Import Trading PositionsDb FundingDb Funding Messages ProtocolDb ChannelsDb AppDb StorageDb DlcExecutor.
From S2P Require Import Cfd Settlement Resize Node DemoDlc DlcPeer CoordinatorNode TradeExecutor.

#[local] Open Scope Z_scope.

(** ** Watching an invoice *)

(** [lnd_bridge::InvoiceState] and [Invoice], as far as it is read. *)
Module LndInvoiceState.
Inductive t := Open | Settled | Canceled | Accepted.
End LndInvoiceState.
Module LndInvoice.
Record t := mk { state : LndInvoiceState.t; amt_paid_sat : Z }.
End LndInvoice.

(** [commons::HodlInvoiceParams]. *)
Module HodlInvoiceParams.
Record t `{IdLib} := mk { trader_pubkey : PublicKey; amt_sats : Z; r_hash : string }.
#[global] Arguments mk {_}.
End HodlInvoiceParams.

(** [Message::LnPaymentReceived] to a trader. *)
Module PaymentReceived.
Record t `{IdLib} := mk { trader_id : PublicKey; r_hash : string; amount : Amount }.
#[global] Arguments mk {_}.
End PaymentReceived.

(** The database and the messages sent. *)
Module WatchState.
Record t `{IdLib} := mk { db : Db.t; sent : list PaymentReceived.t }.
#[global] Arguments mk {_}.
End WatchState.

Section Watch.
Context `{IL : IdLib} (now : OffsetDateTime) (invoice_params : HodlInvoiceParams.t).

Definition watch_db {A} (m : Sql A) : M WatchState.t Anyhow unit := fun s =>
  let '(r, d) := m (WatchState.db s) in
  (match r with Panic => Panic | _ => Ok tt end, WatchState.mk d (WatchState.sent s)).
Definition watch_tell (message : PaymentReceived.t) : M WatchState.t Anyhow unit :=
  modify (fun s => WatchState.mk (WatchState.db s) (WatchState.sent s ++ [message])).

(** The loop of [spawn_invoice_watch] over what the stream yields: an invoice, its
    end, or an error; failures to write are logged. *)
Fixpoint invoice_watch (updates : list (outcome string (option LndInvoice.t))) : M WatchState.t Anyhow unit :=
  match updates with
  | [] => mret tt
  | Ok (Some invoice) :: updates =>
    match LndInvoice.state invoice with
    | LndInvoiceState.Open => invoice_watch updates
    | LndInvoiceState.Settled =>
      watch_db (update_hodl_invoice_to_settled now (HodlInvoiceParams.r_hash invoice_params))
    | LndInvoiceState.Canceled =>
      watch_db (update_hodl_invoice_to_canceled now (HodlInvoiceParams.r_hash invoice_params))
    | LndInvoiceState.Accepted =>
      watch_tell (PaymentReceived.mk (HodlInvoiceParams.trader_pubkey invoice_params)
        (HodlInvoiceParams.r_hash invoice_params) (LndInvoice.amt_paid_sat invoice));;
      invoice_watch updates
    end
  | Ok None :: _ | Err _ :: _ => mret tt
  | Panic :: _ => lift Panic
  end.
End Watch.

(** ** [TradeExecutor::execute] *)

(** [lnd_bridge::InvoiceParams]. *)
Module InvoiceParams.
Record t := mk { value : Z; memo : string; expiry : Z; hash : string }.
End InvoiceParams.

(** The invoices of the Lightning node, and the message that rejects a channel. *)
Class LndLib := {
  LndState : Type;
  lnd_create_invoice : InvoiceParams.t -> M LndState string string;   (* the payment request *)
  lnd_settle_invoice : string -> M LndState string unit;    (* by the pre-image *)
  lnd_cancel_invoice : string -> M LndState string unit;    (* by the hash *)
}.
Class CoordinatorRejectLib `{ML : DlcMessagesLib} := {
  coordinator_reject : DlcChannelId -> Z -> option ReferenceId -> payload PReject;
}.

Module Executor.
Record t `{DecimalLib} `{DLC : DlcLib} `{DlcMessagesLib} `{LndLib} := mk {
  coordinator : Coordinator.t;
  lnd : LndState;
}.
#[global] Arguments mk {_ _ _ _ _}.
End Executor.

Section Execute.
Context `{DL : DecimalLib} `{BL : BitcoinLib} `{IL : IdLib} `{DLC : !DlcLib} `{ML : !DlcMessagesLib}.
Context `{JL : !MessagesJson} `{HL : HashLib} `{PL : !PeerDlcLib} `{CL : !CoordinatorDlcLib}.
Context `{LL : LndLib} `{RL : !CoordinatorRejectLib}.
Context (debug_assertions : bool) (env : ExecutorEnv.t).

Definition ExecM (A : Type) : Type := M Executor.t Anyhow A.
Definition x_coordinator {A} (m : CoordinatorM A) : ExecM A := fun s =>
  let '(r, c) := m (Executor.coordinator s) in (r, Executor.mk c (Executor.lnd s)).
Definition x_lnd {A} (m : M LndState string A) : ExecM A := fun s =>
  let '(r, l) := m (Executor.lnd s) in (map_err Msg r, Executor.mk (Executor.coordinator s) l).
(** [if let Err(e) = m { tracing::error!(..) }]. *)
Definition logged (m : ExecM unit) : ExecM unit := fun s =>
  match m s with
  | (Err _, s') => (Ok tt, s')
  | r => r
  end.

Definition update_order_and_match (order_id : Uuid) (match_state : MatchState.t) (order_state : OrderState.t)
    : ExecM unit :=
  x_coordinator (c_query (sql_transaction
    (set_match_state order_id match_state;; _ ← set_order_state order_id order_state; mret tt))).

Definition settle_invoice (order_id : Uuid) : ExecM unit :=
  pre_image ← x_coordinator (c_query (get_pre_image_by_order_id order_id));
  pre_image ← lift (ok_or (Msg "Missing pre_image") pre_image);
  x_lnd (lnd_settle_invoice pre_image).

Definition cancel_offer (trader : PublicKey) : ExecM unit :=
  channel ← x_coordinator (c_node (get_dlc_channel (fun channel =>
    bool_decide (Channel.get_counter_party_id channel = trader))));
  match channel with
  | Some channel =>
    let reject := coordinator_reject (Channel.get_id channel) (as_u64 (unix_timestamp (ExecutorEnv.now env))) None in
    x_coordinator (c_process_dlc_message debug_assertions (ExecutorEnv.now env) trader
      (TenTenOneMessage.Reject (TenTenOneReject.mk reject)));;
    x_coordinator (_ ← c_query (delete_last_outbound trader); mret tt)
  | None => mret tt
  end.

Definition cancel_hodl_invoice (order_id : Uuid) : ExecM unit :=
  r_hash ← x_coordinator (c_query (get_r_hash_by_order_id order_id));
  x_lnd (lnd_cancel_invoice r_hash).

(** What both error paths do for a trade that was paid over Lightning. *)
Definition cancel_funding (trader_id : PublicKey) (order_id : Uuid) : ExecM unit :=
  logged (cancel_offer trader_id);;
  logged (cancel_hodl_invoice order_id).

(** The arms of [Ok] and [Err]. *)
Definition send_offer (trader_id : PublicKey) : ExecM unit :=
  x_coordinator (c_publish (PeerEvent.SendLastDlcMessage trader_id)).
Definition tell_trade_error (trader_id : PublicKey) (order_id : Uuid) (e : Anyhow) : ExecM unit :=
  x_coordinator (c_tell trader_id (TraderError.TradeError order_id e)).
Definition settle_or_cancel (trader_id : PublicKey) (order_id : Uuid) : ExecM unit := fun s =>
  match settle_invoice order_id s with
  | (Ok _, s) => send_offer trader_id s
  | (Err e, s) => (cancel_funding trader_id order_id;; tell_trade_error trader_id order_id e) s
  | (Panic, s) => (Panic, s)
  end.
Definition execute_succeeded (trader_id : PublicKey) (order_id : Uuid) (external_funding : option Amount)
    : ExecM unit :=
  logged (update_order_and_match order_id MatchState.Filled OrderState.Taken);;
  match external_funding with
  | Some _ => settle_or_cancel trader_id order_id
  | None => send_offer trader_id
  end.

End Execute.

(** ** What the watch does *)

Section WatchSpec.
Context `{IL : IdLib} (now : OffsetDateTime) (invoice_params : HodlInvoiceParams.t).

(** The invoices of a stream, up to its end or an error. *)
Fixpoint delivered (updates : list (outcome string (option LndInvoice.t))) : list LndInvoice.t :=
  match updates with
  | Ok (Some invoice) :: updates => invoice :: delivered updates
  | _ => []
  end.
Definition is_final_invoice (invoice : LndInvoice.t) : bool :=
  match LndInvoice.state invoice with
  | LndInvoiceState.Settled | LndInvoiceState.Canceled => true
  | _ => false
  end.
Definition is_accepted_invoice (invoice : LndInvoice.t) : bool :=
  match LndInvoice.state invoice with LndInvoiceState.Accepted => true | _ => false end.
Fixpoint before_final (l : list LndInvoice.t) : list LndInvoice.t :=
  match l with
  | [] => []
  | x :: l => if is_final_invoice x then [] else x :: before_final l
  end.
Definition final_state (l : list LndInvoice.t) : option DbInvoiceState.t :=
  invoice ← List.find is_final_invoice l;
  match LndInvoice.state invoice with
  | LndInvoiceState.Settled => Some DbInvoiceState.Settled
  | _ => Some DbInvoiceState.Canceled
  end.
Definition payment (invoice : LndInvoice.t) : PaymentReceived.t :=
  PaymentReceived.mk (HodlInvoiceParams.trader_pubkey invoice_params) (HodlInvoiceParams.r_hash invoice_params)
    (LndInvoice.amt_paid_sat invoice).

Lemma settled_run hash d : exists r, update_hodl_invoice_to_settled now hash d =
  (r, set_rows (update_rows (has_r_hash hash) (move_invoice now DbInvoiceState.Settled) (rows d)) d) /\
  match r with Panic => False | _ => True end.
Proof.
  unfold update_hodl_invoice_to_settled, fmap, M_fmap. rewrite get_result_run.
  destruct (head _); cbn; by eexists.
Qed.

(** Watching a hodl invoice never fails.  The trader is told of every payment the
    stream reports before the invoice is settled or canceled; then, or when the
    stream ends, the watch is over, and the rows of the invoice - and nothing else -
    have the state it ended in. *)
Theorem invoice_watch_follows_invoice updates s :
  ~ In Panic updates ->
  let l := delivered updates in
  invoice_watch now invoice_params updates s =
    (Ok tt, WatchState.mk
      (match final_state l with
       | Some state =>
         set_rows (update_rows (has_r_hash (HodlInvoiceParams.r_hash invoice_params)) (move_invoice now state)
           (rows (WatchState.db s))) (WatchState.db s)
       | None => WatchState.db s
       end)
      (WatchState.sent s ++ map payment (List.filter is_accepted_invoice (before_final l)))).
Proof.
  cbv zeta. destruct s as [d sent]. revert sent. induction updates as [|u updates IH]; intros sent Hp.
  { cbn. by rewrite app_nil_r. }
  assert (Hp' : ~ In Panic updates) by (intros ?; apply Hp; by right).
  destruct u as [[[state amt]|]|e|]; cbn; rewrite ?app_nil_r; try done; [|by destruct Hp; left].
  unfold final_state, is_final_invoice, is_accepted_invoice. destruct state; cbn.
  - rewrite IH by done. done.
  - unfold watch_db. cbn [WatchState.db]. destruct (settled_run (HodlInvoiceParams.r_hash invoice_params) d) as (r & -> & Hr).
    rewrite app_nil_r. by destruct r.
  - unfold watch_db, update_hodl_invoice_to_canceled, execute, fmap, M_fmap. cbn. by rewrite app_nil_r.
  - unfold watch_tell, modify, mbind, M_bind. cbn [WatchState.db WatchState.sent]. rewrite IH by done.
    cbn. by rewrite <-(assoc_L (++)).
Qed.
End WatchSpec.

(** ** What executing a trade does *)

Section ExecuteFrames.
Context `{DL : DecimalLib} `{BL : BitcoinLib} `{IL : IdLib} `{DLC : !DlcLib} `{ML : !DlcMessagesLib}.
Context `{JL : !MessagesJson} `{HL : HashLib} `{PL : !PeerDlcLib} `{CL : !CoordinatorDlcLib}.

(** Only [c_tell] tells a trader of an error. *)
Definition same_errors (s s' : Coordinator.t) : Prop := Coordinator.trader_errors s' = Coordinator.trader_errors s.
#[global] Instance same_errors_preorder : PreOrder same_errors.
Proof using Type. unfold same_errors. split; [by intros ?|intros ???; congruence]. Qed.
Lemma c_node_errors {A} (m : NodeM A) : steps same_errors (c_node m).
Proof using Type. intros s. unfold c_node, same_errors. by destruct (m _). Qed.
Lemma c_publish_errors e : steps same_errors (c_publish e).
Proof using Type. by intros s. Qed.
Lemma c_feed_errors u : steps same_errors (c_feed u).
Proof using Type. by intros s. Qed.
Hint Resolve c_node_errors c_publish_errors c_feed_errors : sql.

Lemma finish_protocol_errors debug now pid node_id contract channel :
  steps same_errors (finish_protocol debug now pid node_id contract channel).
Proof using Type. unfold finish_protocol, c_db. solve_steps. Qed.
Lemma protocol_of_errors r c : steps same_errors (protocol_of r c).
Proof using Type. unfold protocol_of, c_try. solve_steps. Qed.
Hint Resolve finish_protocol_errors protocol_of_errors : sql.

Lemma c_process_errors debug now node_id msg : steps same_errors (c_process_dlc_message debug now node_id msg).
Proof using Type.
  assert (Hk : forall resp, steps same_errors (c_process_by_kind debug now node_id msg resp)).
  { intros resp. destruct msg; cbn [c_process_by_kind]; try (apply steps_ret; apply _);
      unfold process_accept, process_settle_finalize, process_renew_finalize, process_reject, c_dlc, c_db, c_query;
      solve_steps. }
  assert (Hv : steps same_errors (verify_collab_close_offer now node_id msg)).
  { unfold verify_collab_close_offer, c_try, c_db. solve_steps. }
  unfold c_process_dlc_message, c_try, c_query, c_db, c_dlc. solve_steps.
Qed.

(** Nor is anything published when a rejection is processed: there is no answer. *)
Definition same_events (s s' : Coordinator.t) : Prop := Coordinator.events s' = Coordinator.events s.
#[global] Instance same_events_preorder : PreOrder same_events.
Proof using Type. unfold same_events. split; [by intros ?|intros ???; congruence]. Qed.
Lemma c_node_events {A} (m : NodeM A) : steps same_events (c_node m).
Proof using Type. intros s. unfold c_node, same_events. by destruct (m _). Qed.
Hint Resolve c_node_events : sql.

Lemma process_reject_events now node_id reject : steps same_events (process_reject now node_id reject).
Proof using Type. unfold process_reject, protocol_of, c_db, c_query, c_try. solve_steps. Qed.
Hint Resolve process_reject_events : sql.

Lemma reject_answer `{!PeerDlcLaws PL} reject node_id s resp s' :
  process_tentenone_message (TenTenOneMessage.Reject reject) node_id s = (Ok resp, s') -> resp = None.
Proof using All.
  unfold process_tentenone_message. intros (answer & s1 & Ha & Hr)%M_bind_ok.
  apply reject_unanswered in Ha as ->. by injection Hr.
Qed.

Lemma c_process_reject_events `{!PeerDlcLaws PL} debug now node_id reject :
  steps same_events (c_process_dlc_message debug now node_id (TenTenOneMessage.Reject reject)).
Proof using All.
  unfold c_process_dlc_message, c_try, c_query, c_db.
  do 3 (apply steps_bind; [apply _|solve_steps|]; intros ?).
  apply steps_bind; [apply _|solve_steps|]. intros [m|]; [solve_steps|].
  apply steps_bind; [apply _|solve_steps|]. intros _ s. unfold mbind at 1, M_bind at 1.
  pose proof (c_node_events (on_dlc (process_tentenone_message (TenTenOneMessage.Reject reject) node_id)) s) as Hd.
  unfold c_dlc. destruct (c_node _ s) as [[resp|e|] s1] eqn:Hs; [|exact Hd..].
  assert (resp = None) as ->.
  { unfold c_node, on_dlc in Hs. destruct (process_tentenone_message _ _ _) as [r d] eqn:Hp.
    injection Hs as Hr _. apply map_err_ok in Hr as ->. by eapply reject_answer. }
  etrans; [exact Hd|]. revert s1 Hs Hd. intros s1 _ _. revert s1.
  change (steps same_events (mret tt ≫= fun _ : unit => c_node (on_db (insert_message a1)) ≫= fun _ : unit =>
    c_process_by_kind debug now node_id (TenTenOneMessage.Reject reject) None ≫= fun _ : unit => mret tt)).
  solve_steps.
Qed.
End ExecuteFrames.

(** Nothing that executes a trade touches the invoices. *)
Section NodeFrames.
Context `{DL : DecimalLib} `{BL : BitcoinLib} `{IL : IdLib} `{DLC : !DlcLib}.

Definition node_keeps_invoices (s s' : NodeState.t) : Prop :=
  keeps HodlInvoiceRow.t (NodeState.db s) (NodeState.db s').
#[local] Instance node_keeps_invoices_preorder : PreOrder node_keeps_invoices.
Proof using Type. split; unfold node_keeps_invoices; [intros s; reflexivity|intros s s' s''; apply transitivity]. Qed.

Lemma on_db_invoices {A} (m : M Db.t Anyhow A) : steps (keeps HodlInvoiceRow.t) m -> steps node_keeps_invoices (on_db m).
Proof using Type. intros Hm s. specialize (Hm (NodeState.db s)). unfold on_db. by destruct (m _). Qed.
Lemma query_invoices {A} (m : Sql A) : steps (keeps HodlInvoiceRow.t) m -> steps node_keeps_invoices (query m).
Proof using Type. intros Hm. by apply on_db_invoices, steps_with_err. Qed.
Lemma on_dlc_invoices {A} (m : M DlcState string A) : steps node_keeps_invoices (on_dlc m).
Proof using Type. intros s. unfold on_dlc. by destruct (m _). Qed.
Lemma publish_invoices e : steps node_keeps_invoices (publish e).
Proof using Type. by intros s. Qed.
Lemma read_only_invoices {A} (m : NodeM A) : read_only m -> steps node_keeps_invoices m.
Proof using Type. intros Hm s. rewrite <-(Hm s). reflexivity. Qed.
Lemma read_dlc_invoices {A} (f : DlcState -> outcome string A) : steps node_keeps_invoices (read_dlc f).
Proof using Type. apply read_only_invoices, read_dlc_reads. Qed.
Lemma channel_invoices id : steps node_keeps_invoices (get_dlc_channel_by_id id).
Proof using Type. apply read_only_invoices, get_dlc_channel_by_id_reads. Qed.

Lemma insert_fee_events_invoices now pid ids :
  steps (keeps HodlInvoiceRow.t) (insert_protocol_funding_fee_event now pid ids).
Proof using Type.
  unfold insert_protocol_funding_fee_event. destruct ids; [apply steps_ret, _|].
  apply steps_bind; [apply _| |intros; apply steps_lift, _]. unfold insert_all. solve_steps.
  apply steps_for_each; [apply _|]. intros. solve_steps.
Qed.
#[local] Hint Resolve insert_fee_events_invoices : sql.

Lemma start_protocol_invoices {A} (m : Sql A) : steps (keeps HodlInvoiceRow.t) m ->
  steps node_keeps_invoices (on_db (in_transaction m)).
Proof using Type. intros Hm. apply on_db_invoices, steps_with_err, sql_transaction_frame; [apply _|done]. Qed.

#[local] Hint Resolve on_dlc_invoices read_dlc_invoices publish_invoices channel_invoices : sql.
Ltac db_step :=
  first [ apply start_protocol_invoices; unfold dlc_protocol_create, trade_params_insert; solve_steps
        | apply query_invoices; unfold set_position_to_resizing, set_open_position_to_closing, update_position_state; solve_steps
        | apply on_db_invoices; unfold position_insert; solve_steps ].

Lemma persist_position_invoices env tp contract leverage stable fee :
  steps node_keeps_invoices (persist_position env tp contract leverage stable fee).
Proof using Type. unfold persist_position, try. solve_steps. db_step. Qed.
Lemma outstanding_fee_invoices position : steps node_keeps_invoices (outstanding_funding_fee position).
Proof using Type.
  unfold outstanding_funding_fee, try. solve_steps. apply query_invoices. unfold get_outstanding_funding_fee_events.
  solve_steps.
Qed.
Lemma apply_fee_invoices id fee : steps node_keeps_invoices (node_apply_funding_fee_to_channel id fee).
Proof using Type.
  unfold node_apply_funding_fee_to_channel.
  apply steps_bind; [apply _|apply read_only_invoices, usable_balance_reads|]. intros coordinator.
  apply steps_bind; [apply _|apply read_only_invoices, usable_balance_counterparty_reads|]. intros trader.
  apply steps_lift, _.
Qed.
Lemma propose_renewal_invoices id input pid msg : steps node_keeps_invoices (propose_renewal id input pid msg).
Proof using Type. unfold propose_renewal, try. solve_steps. Qed.
Lemma confirmed_invoices trader : steps node_keeps_invoices (check_if_signed_channel_is_confirmed trader).
Proof using Type.
  unfold check_if_signed_channel_is_confirmed, get_signed_channel_by_trader_id, list_signed_dlc_channels,
    is_dlc_channel_confirmed, is_contract_confirmed, get_contract_by_id, try. solve_steps.
Qed.
Lemma total_collateral_invoices id : steps node_keeps_invoices (signed_dlc_channel_total_collateral id).
Proof using Type. unfold signed_dlc_channel_total_collateral. solve_steps. Qed.
#[local] Hint Resolve persist_position_invoices outstanding_fee_invoices apply_fee_invoices propose_renewal_invoices
  confirmed_invoices total_collateral_invoices : sql.
#[local] Opaque node_apply_funding_fee_to_channel persist_position outstanding_funding_fee propose_renewal
  check_if_signed_channel_is_confirmed signed_dlc_channel_total_collateral.

End NodeFrames.

Section ExecuteSpec.
Context `{DL : DecimalLib} `{BL : BitcoinLib} `{IL : IdLib} `{DLC : !DlcLib} `{ML : !DlcMessagesLib}.
Context `{JL : !MessagesJson} `{HL : HashLib} `{PL : !PeerDlcLib} `{CL : !CoordinatorDlcLib}.
Context `{LL : LndLib} `{RL : !CoordinatorRejectLib}.
Context (debug_assertions : bool) (env : ExecutorEnv.t).

Definition errors_of (s : Executor.t) : list (PublicKey * TraderError.t) :=
  Coordinator.trader_errors (Executor.coordinator s).
Definition events_of (s : Executor.t) : list PeerEvent.t := Coordinator.events (Executor.coordinator s).
Definition x_db (s : Executor.t) : Db.t := db_of (Executor.coordinator s).

(** The invoice recorded for the order. *)
Definition invoice_of (order_id : Uuid) (s : Executor.t) : option HodlInvoiceRow.t :=
  head (List.filter (is_invoice_of order_id) (rows (x_db s))).

(** What settling that invoice by its pre-image comes to, if there is one; the
    Lightning node after it was tried, and after the invoice was canceled. *)
Definition settlement (order_id : Uuid) (s : Executor.t) : option (outcome string unit * LndState) :=
  invoice ← invoice_of order_id s;
  pre_image ← HodlInvoiceRow.pre_image invoice;
  Some (lnd_settle_invoice pre_image (Executor.lnd s)).
Definition settling (order_id : Uuid) (s : Executor.t) : LndState :=
  match settlement order_id s with Some (_, l) => l | None => Executor.lnd s end.
Definition canceling (order_id : Uuid) (s : Executor.t) (l : LndState) : LndState :=
  match invoice_of order_id s with
  | Some invoice => (lnd_cancel_invoice (HodlInvoiceRow.r_hash invoice) l).2
  | None => l
  end.

(** What the steps of an execution leave alone: what traders are told, what is
    published, the Lightning node, and the invoices recorded. *)
Definition quiet_step (s s' : Executor.t) : Prop :=
  errors_of s' = errors_of s /\ events_of s' = events_of s /\ Executor.lnd s' = Executor.lnd s /\
  keeps HodlInvoiceRow.t (x_db s) (x_db s').
#[local] Instance quiet_step_preorder : PreOrder quiet_step.
Proof using Type.
  unfold quiet_step. split; [by intros ?|]. intros ? ? ? (H1 & H2 & H3 & H4) (-> & -> & -> & H5).
  split_and!; [done..|]. by etrans.
Qed.

Lemma x_coordinator_quiet {A} (m : CoordinatorM A) : steps same_errors m -> steps same_events m ->
  steps (on_coordinator_db (keeps HodlInvoiceRow.t)) m -> steps quiet_step (x_coordinator m).
Proof using Type.
  intros H1 H2 H3 s. specialize (H1 (Executor.coordinator s)). specialize (H2 (Executor.coordinator s)).
  specialize (H3 (Executor.coordinator s)). unfold x_coordinator. by destruct (m _).
Qed.
Lemma x_node_quiet {A} (m : NodeM A) : steps (on_coordinator_db (keeps HodlInvoiceRow.t)) (c_node m) ->
  steps quiet_step (x_coordinator (c_node m)).
Proof using Type. apply x_coordinator_quiet; [apply c_node_errors|apply c_node_events]. Qed.
Lemma logged_steps R m : steps R m -> steps R (logged m).
Proof using Type. intros Hm s. specialize (Hm s). unfold logged. by destruct (m s) as [[] ?]. Qed.
Lemma logged_ok m s r s' : logged m s = (r, s') -> r <> Panic -> r = Ok tt.
Proof using Type. unfold logged. destruct (m s) as [[[]| |] ?]; by intros [= <- <-]. Qed.

(** A query that only reads leaves the executor as it is. *)
Lemma x_query_run {A} (m : Sql A) s : read_only m ->
  x_coordinator (c_query m) s = (map_err FromSql (m (x_db s)).1, s).
Proof using Type.
  intros Hm. unfold x_coordinator, c_query. rewrite c_db_run. unfold with_err, x_db.
  specialize (Hm (db_of (Executor.coordinator s))). destruct (m _) as [r d]. cbn in Hm |- *. rewrite <-Hm.
  by destruct s as [[[] ? ? ? ?] ?].
Qed.

(** [settle_invoice] and [cancel_hodl_invoice] in terms of what is recorded. *)
Lemma settle_invoice_run order_id s : match settlement order_id s with
  | Some (r, l) => settle_invoice order_id s = (map_err Msg r, Executor.mk (Executor.coordinator s) l)
  | None => exists e, settle_invoice order_id s = (Err e, s)
  end.
Proof using Type.
  pose proof (x_query_run (get_pre_image_by_order_id order_id) s ltac:(unfold get_pre_image_by_order_id; solve_steps)) as Hq.
  unfold settle_invoice, settlement, invoice_of, mbind, M_bind. rewrite Hq. clear Hq.
  unfold get_pre_image_by_order_id, fmap, M_fmap. rewrite first_run. cbn -[x_db].
  destruct (head _) as [invoice|]; cbn; [|by eexists]. destruct (HodlInvoiceRow.pre_image invoice); cbn; [|by eexists].
  unfold mbind, M_bind, lift, x_lnd. by destruct (lnd_settle_invoice _ _).
Qed.

Lemma cancel_hodl_invoice_run order_id s : exists r, cancel_hodl_invoice order_id s
  = (r, Executor.mk (Executor.coordinator s) (canceling order_id s (Executor.lnd s))).
Proof using Type.
  unfold cancel_hodl_invoice, canceling, invoice_of, mbind, M_bind.
  rewrite x_query_run by (unfold get_r_hash_by_order_id; solve_steps).
  unfold get_r_hash_by_order_id, fmap, M_fmap. rewrite first_run. cbn -[x_db].
  destruct (head _) as [invoice|]; cbn; [|destruct s; by eexists].
  unfold x_lnd. destruct (lnd_cancel_invoice _ _). by eexists.
Qed.

Lemma invoice_of_same order_id s s' : keeps HodlInvoiceRow.t (x_db s) (x_db s') ->
  invoice_of order_id s' = invoice_of order_id s.
Proof using Type. unfold invoice_of. by intros ->. Qed.

Section Table.
Context {R : Type} `{Stored R} `{!Restored R} `{!Independent R DlcProtocolRow.t} `{!Independent R PositionRow.t}.
Context `{!Independent R DlcMessageRow.t} `{!Independent R LastOutboundRow.t}.

Definition x_keeps (s s' : Executor.t) : Prop := keeps R (x_db s) (x_db s').
#[local] Instance x_keeps_preorder : PreOrder x_keeps.
Proof using Type. split; unfold x_keeps; [intros s; reflexivity|intros s s' s''; apply transitivity]. Qed.

Lemma x_coordinator_keeps {A} (m : CoordinatorM A) :
  steps (on_coordinator_db (keeps R)) m -> steps x_keeps (x_coordinator m).
Proof using Type. intros Hm s. specialize (Hm (Executor.coordinator s)). unfold x_coordinator. by destruct (m _). Qed.

Lemma process_reject_keeps now trader reject :
  steps (on_coordinator_db (keeps R)) (c_process_dlc_message debug_assertions now trader
    (TenTenOneMessage.Reject (TenTenOneReject.mk reject))).
Proof using All.
  unfold c_process_dlc_message, c_try. cbn [verify_collab_close_offer c_process_by_kind].
  unfold process_reject, protocol_of, c_try. solve_steps.
  all: first [apply c_db_frame | apply c_query_frame | apply c_read_frame];
    unfold fail_dlc_protocol, set_dlc_protocol_state_to_failed, update_position_state, insert_message, get_message; solve_steps.
Qed.

Lemma list_dlc_channels_keeps matcher : steps (on_coordinator_db (keeps R)) (c_node (get_dlc_channel matcher)).
Proof using Type.
  intros s. unfold c_node, get_dlc_channel, list_dlc_channels, read_dlc, try, lift, mbind, M_bind, on_coordinator_db, db_of.
  destruct (map_err _ _); cbn; reflexivity.
Qed.

Lemma delete_last_keeps trader : steps (on_coordinator_db (keeps R)) (c_query (delete_last_outbound trader)).
Proof using All. apply c_query_frame. unfold delete_last_outbound. solve_steps. Qed.

Lemma cancel_offer_keeps trader : steps x_keeps (cancel_offer debug_assertions env trader).
Proof using All.
  unfold cancel_offer. apply steps_bind; [apply _|apply x_coordinator_keeps, list_dlc_channels_keeps|].
  intros [channel|]; [|apply steps_ret, _].
  apply steps_bind; [apply _|apply x_coordinator_keeps, process_reject_keeps|]. intros _.
  apply x_coordinator_keeps. apply steps_bind; [apply _|apply delete_last_keeps|intros; apply steps_ret, _].
Qed.
End Table.

Lemma update_order_and_match_keeps {R} `{Stored R} `{!Restored R} `{!Independent R OrderRow.t}
    `{!Independent R MatchesRow.t} order_id ms os :
  steps (on_coordinator_db (keeps R)) (c_query (sql_transaction
    (set_match_state order_id ms;; _ ← set_order_state order_id os; mret tt))).
Proof using Type.
  apply c_query_frame, sql_transaction_frame; [apply _|]. unfold set_match_state, set_order_state. solve_steps.
Qed.
Lemma update_order_and_match_quiet order_id ms os :
  steps quiet_step (logged (update_order_and_match order_id ms os)).
Proof using Type. apply logged_steps, x_node_quiet, update_order_and_match_keeps. Qed.


(** What becomes of a trade: its channel is offered, or the trader hears of an error
    and of nothing else, and the invoice the trade was to be paid with is canceled. *)
Definition offered (trader_id : PublicKey) (order_id : Uuid) (external_funding : option Amount) (s s' : Executor.t)
    : Prop :=
  events_of s' = events_of s ++ [PeerEvent.SendLastDlcMessage trader_id] /\ errors_of s' = errors_of s /\
  Executor.lnd s' = match external_funding with Some _ => settling order_id s | None => Executor.lnd s end.
Definition refused (executed : bool) (trader_id : PublicKey) (order_id : Uuid) (external_funding : option Amount)
    (s s' : Executor.t) : Prop :=
  events_of s' = events_of s /\ (exists e, errors_of s' = errors_of s ++ [(trader_id, TraderError.TradeError order_id e)]) /\
  Executor.lnd s' = match external_funding with
    | Some _ => canceling order_id s (if executed then settling order_id s else Executor.lnd s)
    | None => Executor.lnd s
    end.

(** The trade is paid: not over Lightning, or by settling its invoice. *)
Definition paid (external_funding : option Amount) (order_id : Uuid) (s : Executor.t) : bool :=
  match external_funding with
  | Some _ => match settlement order_id s with Some (Ok _, _) => true | _ => false end
  | None => true
  end.

Lemma quiet_settlement order_id s s' : quiet_step s s' ->
  settlement order_id s' = settlement order_id s /\ settling order_id s' = settling order_id s /\
  forall l, canceling order_id s' l = canceling order_id s l.
Proof using Type.
  intros (_ & _ & Hl & Hk). unfold settling, canceling, settlement. by rewrite (invoice_of_same order_id _ _ Hk), Hl.
Qed.

Section Rejecting.
Context `{!PeerDlcLaws PL}.

Lemma cancel_offer_quiet trader : steps quiet_step (cancel_offer debug_assertions env trader).
Proof using All.
  unfold cancel_offer. apply steps_bind; [apply _|apply x_node_quiet, list_dlc_channels_keeps|].
  intros [channel|]; [|apply steps_ret, _].
  apply steps_bind; [apply _|apply x_coordinator_quiet;
    [apply c_process_errors|apply c_process_reject_events|apply process_reject_keeps]|]. intros _.
  apply x_coordinator_quiet; unfold c_query, c_db; (apply steps_bind; [apply _| |intros; apply steps_ret, _]);
    [apply c_node_errors|apply c_node_events|apply delete_last_keeps].
Qed.

#[local] Ltac no_panic := intros ->; match goal with H : _ = (?r, _), Hr : ?r <> Panic |- _ => injection H as <- _; by apply Hr end.

Lemma cancel_funding_run trader order_id s r s' :
  cancel_funding debug_assertions env trader order_id s = (r, s') -> r <> Panic ->
  r = Ok tt /\ exists s1, logged (cancel_offer debug_assertions env trader) s = (Ok tt, s1) /\ quiet_step s s1 /\
    s' = Executor.mk (Executor.coordinator s1) (canceling order_id s (Executor.lnd s)).
Proof using All.
  unfold cancel_funding, mbind, M_bind. pose proof (logged_steps _ _ (cancel_offer_quiet trader) s) as Hq.
  destruct (logged (cancel_offer _ _ _) s) as [r1 s1] eqn:H1. cbn in Hq.
  intros Hrun Hr. assert (r1 = Ok tt) as -> by (eapply logged_ok; [exact H1|]; no_panic).
  assert (r = Ok tt) as -> by (by eapply logged_ok). split; [done|]. exists s1. split_and!; [done..|].
  destruct (cancel_hodl_invoice_run order_id s1) as [rc Hc]. unfold logged in Hrun. rewrite Hc in Hrun.
  destruct (quiet_settlement order_id _ _ Hq) as (_ & _ & Hcan). rewrite Hcan in Hrun.
  destruct Hq as (_ & _ & Hl & _). rewrite Hl in Hrun. by destruct rc as [[]| |]; simplify_eq.
Qed.

(** A refused trade, after what came before. *)
Lemma refusal trader_id order_id e s r s' :
  (cancel_funding debug_assertions env trader_id order_id;; tell_trade_error trader_id order_id e) s = (r, s') ->
  r <> Panic ->
  r = Ok tt /\ events_of s' = events_of s /\ errors_of s' = errors_of s ++ [(trader_id, TraderError.TradeError order_id e)] /\
  Executor.lnd s' = canceling order_id s (Executor.lnd s).
Proof using All.
  unfold mbind, M_bind. destruct (cancel_funding _ _ _ _ s) as [r1 s1] eqn:Hc. intros Hrun Hr.
  apply cancel_funding_run in Hc as (-> & s2 & _ & (He & Hv & Hl & _) & ->); [|no_panic].
  injection Hrun as <- <-. unfold events_of, errors_of in *. cbn. by rewrite He, Hv.
Qed.

Lemma settle_or_cancel_run trader_id order_id amount s r s' :
  settle_or_cancel debug_assertions env trader_id order_id s = (r, s') -> r <> Panic ->
  r = Ok tt /\ if paid (Some amount) order_id s then offered trader_id order_id (Some amount) s s'
               else refused true trader_id order_id (Some amount) s s'.
Proof using All.
  unfold settle_or_cancel, paid, offered, refused, settling. pose proof (settle_invoice_run order_id s) as Hs.
  destruct (settlement order_id s) as [[[[]|e|] l]|].
  - rewrite Hs. cbn. intros [= <- <-] _. split; [done|]. by split_and!.
  - rewrite Hs. cbn. intros Hrun Hr. apply refusal in Hrun as (-> & Hv & He & Hl); [|done]. split; [done|]. split_and!; [done|by eexists|done].
  - rewrite Hs. cbn. by intros [= <- _].
  - destruct Hs as [e ->]. intros Hrun Hr. apply refusal in Hrun as (-> & Hv & He & Hl); [|done]. split; [done|]. split_and!; [done|by eexists|done].
Qed.

Lemma refused_after executed trader_id order_id ext s1 s2 s' : quiet_step s1 s2 ->
  refused executed trader_id order_id ext s2 s' -> refused executed trader_id order_id ext s1 s'.
Proof using Type.
  intros Hq. destruct (quiet_settlement order_id _ _ Hq) as (_ & Hs & Hc). destruct Hq as (He & Hv & Hl & _).
  unfold refused. rewrite Hs, He, Hv, Hl. destruct ext; by rewrite ?Hc.
Qed.


End Rejecting.
End ExecuteSpec.

(** ** What a failed settlement leaves behind *)

Section Unsettled.
Context `{DL : DecimalLib} `{BL : BitcoinLib} `{IL : IdLib} `{DLC : !DlcLib} `{ML : !DlcMessagesLib}.
Context `{JL : !MessagesJson} `{HL : HashLib} `{PL : !PeerDlcLib} `{CL : !CoordinatorDlcLib}.
Context `{LL : LndLib} `{RL : !CoordinatorRejectLib} `{!PeerDlcLaws PL}.
Context (debug_assertions : bool) (env : ExecutorEnv.t).

Definition order_rows_are (order_id : Uuid) (order_state : DbOrderState.t) (match_state : DbMatchState.t) (d : Db.t)
    : Prop :=
  (forall row, row ∈ rows d -> OrderRow.trader_order_id row = order_id -> OrderRow.order_state row = order_state) /\
  (forall row, row ∈ rows d -> MatchesRow.order_id row = order_id -> MatchesRow.match_state row = match_state).

Lemma update_order_and_match_sets order_id s s' :
  update_order_and_match order_id MatchState.Filled OrderState.Taken s = (Ok tt, s') ->
  order_rows_are order_id DbOrderState.Taken DbMatchState.Filled (x_db s').
Proof using All.
  unfold update_order_and_match, x_coordinator. destruct (c_query _ _) as [r c] eqn:Hrun. intros [= -> <-].
  apply c_db_ok in Hrun as (d' & Hrun & ->). apply with_err_ok in Hrun. unfold x_db. cbn [Executor.coordinator].
  rewrite sql_transaction_ok in Hrun. rename Hrun into H1. apply M_bind_ok in H1 as ([] & d2 & H2 & H1). unfold set_match_state in H2.
  apply M_bind_ok in H2 as (n & d3 & [_ ->]%execute_ok & [= <-]).
  apply M_bind_ok in H1 as (o & d4 & H1 & [= <-]). unfold set_order_state in H1.
  apply M_bind_ok in H1 as (row & d5 & [_ ->]%get_result_ok & [_ ->]%lift_ok). unfold db_of. cbn [Coordinator.node NodeState.db with_db].
  split; intros row'.
  - rewrite rows_set_rows. unfold update_rows. intros (r & -> & _)%list_elem_of_fmap. unfold has_order_id.
    destruct (Z.eqb_spec (OrderRow.trader_order_id r) order_id); [done|]. done.
  - intros Hin. change (row' ∈ update_rows (fun m => MatchesRow.order_id m =? order_id)
      (with_match_state (db_match_state_from MatchState.Filled)) (rows (db_of (Executor.coordinator s)))) in Hin.
    apply list_elem_of_fmap in Hin as (r & -> & _).
    destruct (Z.eqb_spec (MatchesRow.order_id r) order_id); [done|]. done.
Qed.

(** The rejection of the trader's channel that [cancel_offer] makes up. *)
Definition own_reject (channel : Channel.t) : TenTenOneReject.t :=
  TenTenOneReject.mk (coordinator_reject (Channel.get_id channel) (as_u64 (unix_timestamp (ExecutorEnv.now env))) None).
Definition proposed_position (trader_id : PublicKey) (p : PositionRow.t) : bool :=
  is_trader (pk_to_string trader_id) p && in_states [PositionState.Proposed] p.
Definition failed_position (p : PositionRow.t) : PositionRow.t :=
  PositionRow.with_update_timestamp (ExecutorEnv.now env)
    (PositionRow.with_position_state DbPositionState.Failed p).

(** An offer to [trader_id] is pending: [channel] is the trader's, and when the
    coordinator's own rejection of it is processed, [rust-dlc] accepts that and
    [canceled] is what it then stores, a channel that is canceled or settled, of a
    protocol and a proposed position that are recorded. *)
Record pending_offer (trader_id : PublicKey) (c : Coordinator.t) (pid : ProtocolId) (channel canceled : Channel.t)
    (dlc' : DlcState) (ref : ReferenceId) (position : PositionRow.t) : Prop := {
  offer_found : (get_dlc_channel (fun channel => bool_decide (Channel.get_counter_party_id channel = trader_id))
    (Coordinator.node c)).1 = Ok (Some channel);
  offer_reject_fields : reference_id PReject (TenTenOneReject.reject (own_reject channel)) = None /\
    reject_channel_id (TenTenOneReject.reject (own_reject channel)) = Channel.get_id channel;
  offer_reject_new : is_known (TenTenOneMessage.Reject (own_reject channel)) c = false /\
    is_ok (serialize_message (TenTenOneMessage.Reject (own_reject channel))) = true;
  offer_reject_accepted : on_dlc_message (message_from (TenTenOneMessage.Reject (own_reject channel))) trader_id
    (NodeState.dlc (Coordinator.node c)) = (Ok None, dlc');
  offer_canceled : store_channel (Channel.get_id channel) dlc' = Ok (Some canceled) /\
    (Channel.kind canceled = Cancelled \/ exists sc own counter, Channel.kind canceled = Signed sc /\
      SignedChannel.state sc = Settled own counter);
  offer_protocol : Channel.get_reference_id canceled = Some ref /\ protocol_id_try_from ref = Ok pid /\
    has_protocol (db_of c) pid = true;
  offer_position : head (List.filter (proposed_position trader_id) (rows (db_of c))) = Some position /\
    is_ok (position_from_row (E := SqlError) (failed_position position)) = true;
}.

(** Steps that keep the database's tables of an offer keep the offer pending. *)
Definition same_offer (c c' : Coordinator.t) : Prop :=
  NodeState.dlc (Coordinator.node c') = NodeState.dlc (Coordinator.node c) /\
  keeps DlcMessageRow.t (db_of c) (db_of c') /\ keeps DlcProtocolRow.t (db_of c) (db_of c') /\
  keeps PositionRow.t (db_of c) (db_of c') /\ keeps LastOutboundRow.t (db_of c) (db_of c').

Lemma get_dlc_channel_same matcher (n n' : NodeState.t) : NodeState.dlc n' = NodeState.dlc n ->
  (get_dlc_channel matcher n').1 = (get_dlc_channel matcher n).1.
Proof using Type.
  unfold get_dlc_channel, list_dlc_channels, read_dlc, mbind, M_bind. intros ->. by destruct (map_err _ _).
Qed.

Lemma pending_offer_same trader_id c c' pid channel canceled dlc' ref position : same_offer c c' ->
  pending_offer trader_id c pid channel canceled dlc' ref position ->
  pending_offer trader_id c' pid channel canceled dlc' ref position.
Proof using Type.
  intros (Hd & Hm & Hp & Hpos & _) [H1 H2 H3 H4 H5 H6 H7].
  split; [by rewrite (get_dlc_channel_same _ (Coordinator.node c))|done| |by rewrite Hd|done| |].
  - unfold is_known in *. by rewrite Hm.
  - unfold has_protocol, has in *. by rewrite Hp.
  - by rewrite Hpos.
Qed.

(** The database after the offer is taken back. *)
Definition taken_back (trader_id : PublicKey) (pid : ProtocolId) (d d' : Db.t) : Prop :=
  rows d' = update_rows (has_protocol_id pid) (DlcProtocolRow.with_protocol_state DbProtocolState.Failed) (rows d) /\
  rows d' = update_rows (proposed_position trader_id) failed_position (rows d) /\
  rows d' = List.filter (fun r => negb (is_last_for trader_id r)) (rows d).

Lemma update_proposed_ok trader_id d position :
  head (List.filter (proposed_position trader_id) (rows d)) = Some position ->
  is_ok (position_from_row (E := SqlError) (failed_position position)) = true ->
  exists p, update_position_state (ExecutorEnv.now env) (pk_to_string trader_id) [PositionState.Proposed]
    PositionState.Failed d = (Ok p, set_rows (update_rows (proposed_position trader_id) failed_position (rows d)) d).
Proof using Type.
  intros Hh Hp. unfold update_position_state, mbind, M_bind. rewrite get_result_run.
  unfold proposed_position in Hh. rewrite Hh.
  destruct (position_from_row (E := SqlError) (failed_position position)) as [p| |] eqn:He; [|done..].
  exists p. rewrite <-He. reflexivity.
Qed.

Lemma head_filter_none {A} (p : A -> bool) l : existsb p l = false -> head (List.filter p l) = None.
Proof using Type. induction l as [|x l IH]; cbn; [done|]. by destruct (p x). Qed.

Lemma process_own_reject_run trader_id c pid channel canceled dlc' ref position :
  pending_offer trader_id c pid channel canceled dlc' ref position ->
  exists c', c_process_dlc_message debug_assertions (ExecutorEnv.now env) trader_id
      (TenTenOneMessage.Reject (own_reject channel)) c = (Ok tt, c') /\
    rows (db_of c') = update_rows (has_protocol_id pid)
      (DlcProtocolRow.with_protocol_state DbProtocolState.Failed) (rows (db_of c)) /\
    rows (db_of c') = update_rows (proposed_position trader_id) failed_position (rows (db_of c)) /\
    keeps LastOutboundRow.t (db_of c) (db_of c').
Proof using Type.
  intros [Hfind [Hnoref Hid] [Hnew Hser] Hacc [Hstore Hkind] (Href & Hpid & Hhas) [Hhead Hpos]].
  destruct (serialize_message _) as [sdm| |] eqn:Hs; [|done..].
  unfold is_known in Hnew. rewrite Hs in Hnew.
  set (c1 := Coordinator.mk (NodeState.mk (db_of c) dlc' (NodeState.events (Coordinator.node c)) (NodeState.sent (Coordinator.node c)))
    (Coordinator.events c) (Coordinator.outbox c) (Coordinator.position_feed c) (Coordinator.trader_errors c)).
  assert (Hproc : c_dlc (process_tentenone_message (TenTenOneMessage.Reject (own_reject channel)) trader_id) c = (Ok None, c1)).
  { unfold c_dlc, c_node, on_dlc, process_tentenone_message, mbind, M_bind. by rewrite Hacc. }
  set (row := message_row (DlcMessage.mk (generate_hash sdm) true trader_id (SerializedDlcMessage.message_type sdm)
    (ExecutorEnv.now env))).
  set (c2 := with_db (set_tbl (Table.mk (rows (db_of c) ++ [row])
    (Table.next_id (tbl (R := DlcMessageRow.t) (db_of c)) + 1)) (db_of c)) c1).
  assert (Hins : c_db (insert_message (DlcMessage.mk (generate_hash sdm) true trader_id
    (SerializedDlcMessage.message_type sdm) (ExecutorEnv.now env))) c1 = (Ok tt, c2)).
  { rewrite c_db_run. unfold insert_message, with_err, mbind, M_bind, insert.
    change (db_of c1) with (db_of c). replace (violation _ _) with (@None SqlError); [done|].
    unfold violation, dlc_messages_constraint, unique, has_dlc_message, has. cbn. unfold is_message in Hnew. by rewrite Hnew. }
  set (c3 := with_db (set_rows (update_rows (has_protocol_id pid)
    (DlcProtocolRow.with_protocol_state DbProtocolState.Failed) (rows (db_of c2))) (db_of c2)) c2).
  assert (Hrej : exists c4, process_reject (ExecutorEnv.now env) trader_id (TenTenOneReject.reject (own_reject channel)) c2
    = (Ok tt, c4) /\ db_of c4 = set_rows (update_rows (proposed_position trader_id) failed_position (rows (db_of c3))) (db_of c3)).
  { unfold process_reject, protocol_of. rewrite Hnoref, Hid. unfold c_try.
    assert (Hch : forall c', NodeState.dlc (Coordinator.node c') = dlc' ->
      c_node (get_dlc_channel_by_id (Channel.get_id channel)) c' = (Ok canceled, c')).
    { intros c' Hc'. apply c_channel_run. by rewrite Hc'. }
    do 2 unfold mbind at 1, M_bind at 1. unfold mbind at 1, M_bind at 1. rewrite (Hch c2 eq_refl).
    rewrite Href. unfold lift. cbn. rewrite Hpid. cbn.
    unfold mbind at 1, M_bind at 1. rewrite c_db_run, fail_dlc_protocol_run by exact Hhas. cbn [fst snd].
    unfold mbind at 1, M_bind at 1. rewrite Hch by reflexivity.
    destruct (update_proposed_ok trader_id (db_of c3) position) as [p Hp]; [exact Hhead|exact Hpos|].
    assert (Hset : (_ ← c_query (update_position_state (ExecutorEnv.now env) (pk_to_string trader_id)
      [PositionState.Proposed] PositionState.Failed); mret tt) c3 = (Ok tt, with_db (set_rows
        (update_rows (proposed_position trader_id) failed_position (rows (db_of c3))) (db_of c3)) c3)).
    { unfold mbind, M_bind, c_query. rewrite c_db_run. unfold with_err. by rewrite Hp. }
    exists (with_db (set_rows (update_rows (proposed_position trader_id) failed_position (rows (db_of c3))) (db_of c3)) c3).
    split; [|reflexivity]. destruct Hkind as [->|(sc & own & counter & -> & ->)]; exact Hset. }
  destruct Hrej as (c4 & Hrej & Hd4).
  exists c4. split.
  - unfold c_process_dlc_message, c_try. cbn [get_reference_id]. rewrite Hnoref, Hs. unfold DlcMessage.new.
    do 3 (unfold mbind at 1, M_bind at 1, lift at 1; cbn [map_err]).
    cbn [DlcMessage.message_hash]. unfold mbind at 1, M_bind at 1. rewrite c_get_message_run.
    rewrite head_filter_none by exact Hnew.
    cbn [verify_collab_close_offer]. unfold mbind at 1, M_bind at 1, mret at 1, M_ret at 1.
    unfold mbind at 1, M_bind at 1. rewrite Hproc. unfold mbind at 1, M_bind at 1, mret at 1, M_ret at 1.
    unfold mbind at 1, M_bind at 1. rewrite Hins. unfold mbind at 1, M_bind at 1. cbn [c_process_by_kind]. by rewrite Hrej.
  - rewrite Hd4. by split_and!.
Qed.

Lemma cancel_offer_run trader_id s pid channel canceled dlc' ref position :
  pending_offer trader_id (Executor.coordinator s) pid channel canceled dlc' ref position ->
  exists s', cancel_offer debug_assertions env trader_id s = (Ok tt, s') /\ taken_back trader_id pid (x_db s) (x_db s').
Proof using Type.
  intros Hoffer. destruct (process_own_reject_run _ _ _ _ _ _ _ _ Hoffer) as (c' & Hrun & Hproto & Hpos & Hlast).
  exists (Executor.mk (with_db (set_rows (List.filter (fun r => negb (is_last_for trader_id r)) (rows (db_of c'))) (db_of c')) c')
    (Executor.lnd s)).
  split.
  - unfold cancel_offer, mbind at 1, M_bind at 1.
    assert (Hfind : x_coordinator (c_node (get_dlc_channel (fun channel =>
      bool_decide (Channel.get_counter_party_id channel = trader_id)))) s = (Ok (Some channel), s)).
    { destruct Hoffer as [Hf _ _ _ _ _ _]. unfold x_coordinator, c_node. revert Hf. unfold get_dlc_channel, list_dlc_channels, read_dlc, mbind, M_bind.
      destruct (map_err _ _); cbn; [|done..]. intros [= ->]. by destruct s as [[]]. }
    rewrite Hfind. unfold mbind at 1, M_bind at 1.
    assert (Hp : x_coordinator (c_process_dlc_message debug_assertions (ExecutorEnv.now env) trader_id
      (TenTenOneMessage.Reject (own_reject channel))) s = (Ok tt, Executor.mk c' (Executor.lnd s))).
    { unfold x_coordinator. by rewrite Hrun. }
    unfold own_reject in Hp. rewrite Hp. unfold x_coordinator, mbind, M_bind, c_query. cbn [Executor.coordinator].
    by rewrite c_db_run.
  - unfold taken_back, x_db. cbn [Executor.coordinator]. split_and!; [exact Hproto|exact Hpos|].
    change (List.filter (fun r => negb (is_last_for trader_id r)) (rows (db_of c'))
      = List.filter (fun r => negb (is_last_for trader_id r)) (rows (db_of (Executor.coordinator s)))). by rewrite Hlast.
Qed.

Lemma update_order_and_match_same order_id ms os s r s1 :
  update_order_and_match order_id ms os s = (r, s1) ->
  same_offer (Executor.coordinator s) (Executor.coordinator s1).
Proof using Type.
  unfold update_order_and_match, x_coordinator. intros Hrun. unfold same_offer.
  pose proof (fun R HS HRe H1 H2 => update_order_and_match_keeps (R := R) order_id ms os (H := HS) (Restored0 := HRe)
    (Independent0 := H1) (Independent1 := H2) (Executor.coordinator s)) as Hk.
  unfold on_coordinator_db in Hk. unfold c_query in *. rewrite c_db_run in Hrun. injection Hrun as _ <-. cbn [Executor.coordinator].
  split; [done|]. rewrite c_db_run in Hk. cbn [snd] in Hk. split_and!; apply Hk; apply _.
Qed.

(** What a trade that is not paid runs. *)
Lemma unsettled_cancels trader_id order_id amount s s' : paid (Some amount) order_id s = false ->
  settle_or_cancel debug_assertions env trader_id order_id s = (Ok tt, s') ->
  exists l s1, logged (cancel_offer debug_assertions env trader_id) (Executor.mk (Executor.coordinator s) l) = (Ok tt, s1) /\
    x_db s' = x_db s1.
Proof using All.
  intros Hpaid. unfold settle_or_cancel. pose proof (settle_invoice_run order_id s) as Hs. unfold paid in Hpaid.
  assert (Hrest : forall e l, (cancel_funding debug_assertions env trader_id order_id;; tell_trade_error trader_id order_id e)
      (Executor.mk (Executor.coordinator s) l) = (Ok tt, s') ->
    exists l s1, logged (cancel_offer debug_assertions env trader_id) (Executor.mk (Executor.coordinator s) l) = (Ok tt, s1) /\
      x_db s' = x_db s1).
  { intros e l ([] & s2 & Hc & Ht)%M_bind_ok. apply cancel_funding_run in Hc as (_ & s1 & Hlog & _ & ->); [|apply _|done].
    exists l, s1. split; [done|]. by injection Ht as <-. }
  destruct (settlement order_id s) as [[[[]|e|] l]|]; [done|..].
  - rewrite Hs. cbn. apply Hrest.
  - by rewrite Hs.
  - destruct Hs as [e ->]. destruct s as [c l]. apply Hrest.
Qed.

(** C13: when the invoice of a trade paid over Lightning cannot be settled, the
    coordinator takes the offer it prepared back: the protocol and the trader's
    proposed position fail, the offer stored for the trader is deleted and not sent,
    the invoice is canceled, and the trader is told that the trade failed - but the
    order stays taken and its match filled, as they were set before.  (The order
    could be set to taken, and [rust-dlc] accepts the rejection of the offer.) *)
Theorem unsettled_trade_stays_filled trader_id order_id amount s s1 s' pid channel canceled dlc' ref position :
  update_order_and_match order_id MatchState.Filled OrderState.Taken s = (Ok tt, s1) ->
  paid (Some amount) order_id s = false ->
  pending_offer trader_id (Executor.coordinator s) pid channel canceled dlc' ref position ->
  execute_succeeded debug_assertions env trader_id order_id (Some amount) s = (Ok tt, s') ->
  order_rows_are order_id DbOrderState.Taken DbMatchState.Filled (x_db s') /\
  taken_back trader_id pid (x_db s) (x_db s') /\
  refused true trader_id order_id (Some amount) s s'.
Proof using All.
  intros Hup Hpaid Hoffer Hrun. pose proof (update_order_and_match_sets _ _ _ Hup) as Hrows.
  pose proof (update_order_and_match_same _ _ _ _ _ _ Hup) as Hsame.
  pose proof (update_order_and_match_quiet order_id MatchState.Filled OrderState.Taken s) as Hq.
  unfold execute_succeeded, mbind, M_bind in Hrun. unfold logged in Hrun, Hq. rewrite Hup in Hrun, Hq. cbn [snd] in Hq.
  pose proof (pending_offer_same _ _ _ _ _ _ _ _ _ Hsame Hoffer) as Hoffer1.
  assert (Hpaid1 : paid (Some amount) order_id s1 = false).
  { unfold paid in *. destruct (quiet_settlement order_id _ _ Hq) as (-> & _). exact Hpaid. }
  destruct (settle_or_cancel_run debug_assertions env trader_id order_id amount s1 _ _ Hrun) as [_ Hout]; [done|].
  rewrite Hpaid1 in Hout.
  destruct (unsettled_cancels _ _ _ _ _ Hpaid1 Hrun) as (l & s2 & Hcancel & Hdb).
  destruct (cancel_offer_run trader_id (Executor.mk (Executor.coordinator s1) l) pid channel canceled dlc' ref position Hoffer1)
    as (s3 & Hrun3 & Hback). unfold logged in Hcancel. rewrite Hrun3 in Hcancel. injection Hcancel as <-.
  rewrite Hdb. split; [|split; [|by eapply refused_after]].
  - pose proof (cancel_offer_keeps (R := OrderRow.t) debug_assertions env trader_id (Executor.mk (Executor.coordinator s1) l)) as Ho.
    pose proof (cancel_offer_keeps (R := MatchesRow.t) debug_assertions env trader_id (Executor.mk (Executor.coordinator s1) l)) as Hm.
    rewrite Hrun3 in Ho, Hm. unfold x_keeps, keeps in Ho, Hm. cbn [snd] in Ho, Hm.
    unfold order_rows_are. by rewrite Ho, Hm.
  - destruct Hsame as (_ & _ & Hp & Hpos & Hl). destruct Hback as (B1 & B2 & B3). unfold taken_back.
    rewrite B1, B2, B3. unfold x_db. cbn [Executor.coordinator]. by rewrite Hp, Hpos, Hl.
Qed.
End Unsettled.

(** ** Witnesses *)

(** A Lightning node that keeps a log of what it was asked, and knows one
    pre-image. *)
#[export] Instance demo_lnd : LndLib := {|
  LndState := list string;
  lnd_create_invoice params s :=
    (Ok "invoice"%string, ("create " +:+ InvoiceParams.hash params)%string :: s);
  lnd_settle_invoice pre_image s :=
    (if bool_decide (pre_image = "secret"%string) then Ok tt else Err "unknown"%string, ("settle " +:+ pre_image)%string :: s);
  lnd_cancel_invoice r_hash s := (Ok tt, ("cancel " +:+ r_hash)%string :: s);
|}.
#[export] Instance demo_peer_laws : PeerDlcLaws demo_peer_dlc.
Proof. split. cbn. by intros reject node_id s resp s' [= <- _]. Qed.
#[local] Instance demo_coordinator_reject : CoordinatorRejectLib (ML := demo_messages) := {|
  coordinator_reject _ _ _ := Byte.x07;
|}.

Definition demo_invoice (pre_image : string) : HodlInvoiceRow.t :=
  HodlInvoiceRow.mk 1 "alice" "hash" 1000 (Some pre_image) 0 None DbInvoiceState.Accepted (Some 70).


(** A peer that cancels the channels it offered when it is told to reject them. *)
Definition cancel_offered (peer : PublicKey (IdLib := demo_id)) (channel : Channel.t (H := demo_id)) : Channel.t :=
  match Channel.kind channel with
  | Offered => if bool_decide (Channel.get_counter_party_id channel = peer)
               then Channel.mk Cancelled (Channel.get_id channel) peer (Channel.get_reference_id channel) None
               else channel
  | _ => channel
  end.
Definition demo_canceling_peer : PeerDlcLib (H := demo_id) (DLC := demo_dlc) (ML := demo_messages) := {|
  on_dlc_message _ peer s :=
    (Ok None, DemoStore.mk (map (cancel_offered peer) (DemoStore.channels s)) (DemoStore.contracts s) (DemoStore.offers s));
  accept_collaborative_close _ := mret tt;
  is_close_offer _ := false;
  sign_channel_id _ := demo_channel_id;
  close_offer_channel_id _ := demo_channel_id;
|}.
Lemma demo_canceling_laws : PeerDlcLaws demo_canceling_peer.
Proof. split. cbn. by intros reject node_id s resp s' [= <- _]. Qed.

(** The trader's channel is offered, the position proposed, and the recorded
    pre-image is not that of the invoice. *)
Definition demo_offered_channel (kind : ChannelKind) : Channel.t (H := demo_id) :=
  Channel.mk kind demo_channel_id demo_trader (Some (reference_id_from 40)) None.
Definition demo_offered : Executor.t :=
  Executor.mk (Coordinator.mk (NodeState.mk
    (set_rows [with_order_state DbOrderState.Matched (demo_order_row 70 0 200 DbDirection.Long DbOrderType.Market)]
      (set_rows [demo_invoice "wrong"] (set_rows [LastOutboundRow.mk "alice" "m" "offer" 0]
        (demo_protocol_db DbProtocolType.OpenChannel DbPositionState.Proposed))))
    (DemoStore.mk [demo_offered_channel Offered] [] []) [] []) [] [] [] []) [].

Lemma unsettled_trade_stays_filled_witness : exists s',
  execute_succeeded (PL := demo_canceling_peer) true demo_executor_env demo_trader 70 (Some 1000) demo_offered = (Ok tt, s') /\
  order_rows_are 70 DbOrderState.Taken DbMatchState.Filled (x_db s') /\
  map DlcProtocolRow.protocol_state (rows (x_db s')) = [DbProtocolState.Failed] /\
  map PositionRow.position_state (rows (x_db s')) = [DbPositionState.Failed] /\
  rows (R := LastOutboundRow.t) (x_db s') = [] /\
  Executor.lnd s' = ["cancel hash"; "settle wrong"]%string.
Proof.
  destruct (succeeds (update_order_and_match 70 MatchState.Filled OrderState.Taken) demo_offered)
    as ([] & s1 & H1); [by vm_compute|].
  destruct (succeeds (execute_succeeded (PL := demo_canceling_peer) true demo_executor_env demo_trader 70 (Some 1000))
    demo_offered) as ([] & s' & Hs'); [by vm_compute|].
  exists s'. split; [exact Hs'|].
  assert (Hpos : exists p, head (List.filter (proposed_position demo_trader) (rows (x_db demo_offered))) = Some p /\
    is_ok (position_from_row (E := SqlError) (failed_position demo_executor_env p)) = true)
    by (eexists; split; [reflexivity|vm_compute; reflexivity]).
  destruct Hpos as (p & Hp & Hread).
  destruct (unsettled_trade_stays_filled (PeerDlcLaws0 := demo_canceling_laws) true demo_executor_env demo_trader 70 1000
    demo_offered s1 s' 40 (demo_offered_channel Offered) (demo_offered_channel Cancelled)
    (DemoStore.mk [demo_offered_channel Cancelled] [] []) (reference_id_from 40) p H1)
    as (Horder & (Hproto & Hposs & Hlast) & (_ & _ & Hlnd)); [reflexivity| |exact Hs'|].
  - split; [reflexivity|by split|split; [vm_compute; reflexivity|reflexivity]|reflexivity|split; [reflexivity|by left]
      |by split_and!|by split].
  - split; [exact Horder|]. rewrite Hproto, Hposs, Hlast. split_and!; [reflexivity..|exact Hlnd].
Defined.

Lemma invoice_watch_follows_invoice_witness :
  let params := HodlInvoiceParams.mk (H := demo_id) "alice"%string 1000 "hash" in
  exists d, invoice_watch 5 params
    [Ok (Some (LndInvoice.mk LndInvoiceState.Open 0)); Ok (Some (LndInvoice.mk LndInvoiceState.Accepted 1000));
     Ok (Some (LndInvoice.mk LndInvoiceState.Canceled 0)); Err "closed"%string]
    (WatchState.mk (set_rows [demo_invoice "secret"] empty_db) []) =
    (Ok tt, WatchState.mk d [PaymentReceived.mk "alice"%string "hash" 1000]) /\
    map HodlInvoiceRow.invoice_state (rows d) = [DbInvoiceState.Canceled].
Proof.
  cbv zeta. eexists. split.
  - rewrite invoice_watch_follows_invoice; [|cbn; naive_solver].
    reflexivity.
  - reflexivity.
Defined.
