(* ===== verification/OrderEntry.v ===== *)
(** * How orders reach the order book: [routes/orderbook.rs], [orderbook/websocket.rs], [routes.rs]

    The app posts signed orders, perhaps with the pre-image of an invoice it paid;
    makers authenticate on a websocket and insert and delete limit orders over it.
    Both record the order and hand it to the trading task (Trading.v). *)

From stdpp Require Import base list option strings.
From Stdlib Require Import ZArith QArith Lia.
From S2P Require Import Prelude Machine External Demo Commons PayoutCurve SqlTypes Schema Db OrdersDb MatchesDb Referrals Trading.
From S2P Require Import PositionsDb FundingDb Funding Feed StorageDb Delivery Signing CoordSettings TradeInvoices.

#[local] Open Scope Z_scope.

(** [AppError]. *)
Inductive AppError :=
  | InternalServerError (text : string)
  | BadRequest (text : string)
  | ServiceUnavailable (text : string)
  | Unauthorized.

(** Base64 and SHA-256 of pre-images, and the JSON that is signed for an invoice. *)
Class PreImageLib `{IL : IdLib} := {
  url_safe_encode : list Byte.byte -> string;
  url_safe_decode : string -> option (list Byte.byte);
  sha256_digest : list Byte.byte -> list Byte.byte;
  invoice_params_json : HodlInvoiceParams.t -> option (list Byte.byte);
}.

Class PreImageLaws `(PI : PreImageLib) : Prop := {
  url_safe_roundtrip l : url_safe_decode (url_safe_encode l) = Some l;
}.

(** [commons/pre_image.rs]. *)
Module PreImage.
Record t := mk { pre_image : list Byte.byte; hash : string }.
End PreImage.

Section PreImages.
Context `{PreImageLib}.
Definition get_base64_encoded_pre_image (pre_image : PreImage.t) : string := url_safe_encode (PreImage.pre_image pre_image).
Definition inner_hash_pre_image (pre_image : list Byte.byte) : string := url_safe_encode (sha256_digest pre_image).
Definition vec_to_hex_array (pre_image : list Byte.byte) : outcome Anyhow (list Byte.byte) :=
  ensure (Nat.eqb (length pre_image) 32) (Msg "Failed to parse pre-image");; Ok pre_image.
Definition from_url_safe_encoded_pre_image (url_safe_pre_image : string) : outcome Anyhow PreImage.t :=
  vec ← ok_or (Msg "base64") (url_safe_decode url_safe_pre_image);
  hex_array ← vec_to_hex_array vec;
  Ok (PreImage.mk hex_array (inner_hash_pre_image hex_array)).
End PreImages.

(** ** [db/liquidity_options.rs] *)

Definition liquidity_option_from (value : LiquidityOptionRow.t) : LiquidityOption.t :=
  LiquidityOption.mk (LiquidityOptionRow.id value) (as_u64 (LiquidityOptionRow.rank value)) (LiquidityOptionRow.title value)
    (as_u64 (LiquidityOptionRow.trade_up_to_sats value)) (as_u64 (LiquidityOptionRow.min_deposit_sats value))
    (as_u64 (LiquidityOptionRow.max_deposit_sats value)) (as_u64 (default 0 (LiquidityOptionRow.min_fee_sats value)))
    (LiquidityOptionRow.fee_percentage value) (LiquidityOptionRow.coordinator_leverage value)
    (LiquidityOptionRow.created_at value) (LiquidityOptionRow.updated_at value) (LiquidityOptionRow.active value).
Definition get_liquidity_options : Sql (list LiquidityOption.t) :=
  options ← load (fun _ => true); mret (map liquidity_option_from options).

(** ** The server *)

(** The database, the orders handed to the trading task while it runs, what was
    broadcast to all clients, the users announced, the Lightning node and the invoices
    that are watched. *)
Module Server.
Record t `{DecimalLib} `{IdLib} `{AddressLib} `{LndLib} := mk {
  db : Db.t;
  trading_running : bool;
  trading : list NewOrderMessage.t;
  feed : list Message.t;
  users : list NewUserMessage.t;
  lnd : LndState;
  watched : list HodlInvoiceParams.t;
}.
#[global] Arguments mk {_ _ _ _}.
End Server.

Section Server.
Context `{DL : DecimalLib} `{IL : IdLib} `{AL : AddressLib} `{LL : LndLib}.

Definition ServerM (E A : Type) : Type := M Server.t E A.
Definition server_db {A} (m : M Db.t Anyhow A) : ServerM Anyhow A := fun s =>
  let '(r, d) := m (Server.db s) in
  (r, Server.mk d (Server.trading_running s) (Server.trading s) (Server.feed s) (Server.users s) (Server.lnd s) (Server.watched s)).
Definition server_query {A} (m : Sql A) : ServerM Anyhow A := server_db (with_err FromSql m).

(** [trading_sender.send(message)]. *)
Definition send_new_order (message : NewOrderMessage.t) : ServerM Anyhow unit := fun s =>
  if Server.trading_running s then
    (Ok tt, Server.mk (Server.db s) (Server.trading_running s) (Server.trading s ++ [message]) (Server.feed s)
       (Server.users s) (Server.lnd s) (Server.watched s))
  else (Err (Msg "channel closed"), s).
(** [tx_orderbook_feed.send(message)], [tx_user_feed.send(message)]. *)
Definition broadcast (message : Message.t) : ServerM Anyhow unit := modify (fun s =>
  Server.mk (Server.db s) (Server.trading_running s) (Server.trading s) (Server.feed s ++ [message]) (Server.users s)
    (Server.lnd s) (Server.watched s)).
Definition announce_user (message : NewUserMessage.t) : ServerM Anyhow unit := modify (fun s =>
  Server.mk (Server.db s) (Server.trading_running s) (Server.trading s) (Server.feed s) (Server.users s ++ [message])
    (Server.lnd s) (Server.watched s)).
End Server.

(** ** [routes/orderbook.rs] *)

Section Posting.
Context `{DL : DecimalLib} `{IL : IdLib} `{AL : AddressLib} `{LL : LndLib} `{SL : !SigningLib} `{SV : SemverLib}.
Context `{PI : !PreImageLib}.
Context (now : OffsetDateTime) (pkg_version : string) (settings : Settings.t).

(** What is checked of a market and of a limit order. *)
Definition check_order (order : NewOrder.t) : ServerM AppError unit :=
  match order with
  | NewOrder.Market o =>
    with_err (fun _ => BadRequest "version") (server_db (check_version pkg_version (NewMarketOrder.trader_id o)))
  | NewOrder.Limit o =>
    lift (ensure (negb (Settings.whitelist_enabled settings)
                  || bool_decide (NewLimitOrder.trader_id o ∈ Settings.whitelisted_makers settings)) Unauthorized);;
    lift (ensure (negb (d_is_zero (NewLimitOrder.price o))) (BadRequest "Limit orders with zero price are not allowed"))
  end.

(** The amount of the invoice the pre-image belongs to. *)
Definition accept_funding (pre_image : option string) (order_id : Uuid) : ServerM AppError (option Amount) :=
  match pre_image with
  | Some pre_image_str =>
    pre_image ← lift (map_err (fun _ => BadRequest "Invalid pre_image provided")
      (from_url_safe_encoded_pre_image pre_image_str));
    funding_amount ← with_err (fun _ => BadRequest "Invalid pre_image provided")
      (server_db (update_hodl_invoice_to_accepted now (PreImage.hash pre_image) pre_image_str order_id));
    mret (Some funding_amount)
  | None => mret None
  end.

Definition insert_order (order : NewOrder.t) : ServerM AppError Order.t :=
  with_err (fun _ => InternalServerError "Failed to insert new order into DB")
    (server_query (match order with
     | NewOrder.Market o => insert_market_order now o OrderReason.Manual
     | NewOrder.Limit o => insert_limit_order now o OrderReason.Manual
     end)).

Definition post_order (request : NewOrderRequest.t) : ServerM AppError unit :=
  lift (ensure (verify_request request) Unauthorized);;
  let new_order := NewOrderRequest.value request in
  let order_id := new_order_id new_order in
  check_order new_order;;
  external_funding ← accept_funding (NewOrderRequest.channel_opening_params request ≫= RequestedParams.pre_image) order_id;
  order ← insert_order new_order;
  let message := NewOrderMessage.mk order OrderReason.Manual
    ((fun params => ChannelOpeningParams.mk (RequestedParams.trader_reserve params)
       (RequestedParams.coordinator_reserve params) external_funding)
     <$> NewOrderRequest.channel_opening_params request) in
  with_err (fun _ => InternalServerError "Failed to send new order message") (send_new_order message).

Definition get_order (order_id : Uuid) : ServerM AppError Order.t :=
  order ← with_err (fun _ => InternalServerError "Failed to load order") (server_query (get_with_id order_id));
  lift (ok_or (BadRequest "Order not found") order).
Definition get_orders : ServerM AppError (list Order.t) :=
  with_err (fun _ => InternalServerError "Failed to load order")
    (server_query (get_all_orders now Limit OrderState.Open true)).
Definition delete_order_route (order_id : Uuid) : ServerM AppError Order.t :=
  order ← with_err (fun _ => InternalServerError "Failed to delete order") (server_query (delete_order order_id));
  with_err (fun _ => InternalServerError "feed") (broadcast (Message.DeleteOrder order_id));;
  mret order.

(** [routes::create_invoice]: the payment request. *)
Definition create_invoice (invoice_params : HodlInvoiceParams.t) (signature : SecpSignature) : ServerM AppError string :=
  let public_key := HodlInvoiceParams.trader_pubkey invoice_params in
  json ← lift (ok_or Unauthorized (invoice_params_json invoice_params));
  lift (ensure (verify_ecdsa (create_sign_message json) signature public_key) Unauthorized);;
  payment_request ← (fun s =>
    let '(r, l) := lnd_create_invoice (InvoiceParams.mk (HodlInvoiceParams.amt_sats invoice_params)
      "Fund your 10101 position" (5 * 60) (HodlInvoiceParams.r_hash invoice_params)) (Server.lnd s) in
    (map_err InternalServerError r, Server.mk (Server.db s) (Server.trading_running s) (Server.trading s) (Server.feed s)
       (Server.users s) l (Server.watched s)));
  with_err (fun _ => InternalServerError "Could not process hodl invoice")
    (server_db (create_hodl_invoice now (HodlInvoiceParams.r_hash invoice_params) public_key
       (HodlInvoiceParams.amt_sats invoice_params)));;
  modify (fun s => Server.mk (Server.db s) (Server.trading_running s) (Server.trading s) (Server.feed s) (Server.users s)
    (Server.lnd s) (Server.watched s ++ [invoice_params]));;
  mret payment_request.
End Posting.

(** ** [orderbook/websocket.rs] *)

(** [commons::OrderbookRequest]. *)
Module OrderbookRequest.
Inductive t `{SigningLib} :=
  | Authenticate (fcm_token version os : option string) (signature : Signature.t)
  | InsertOrder (order : NewLimitOrder.t)
  | DeleteOrder (order_id : Uuid).
End OrderbookRequest.

(** A connection of a client: the server, the maker it authenticated as, whether its
    sending half still has a receiver, and what was sent over it. *)
Module Session.
Record t `{DecimalLib} `{IdLib} `{AddressLib} `{LndLib} := mk {
  server : Server.t;
  whitelisted_maker : option PublicKey;
  receiver_alive : bool;
  sent : list Message.t;
}.
#[global] Arguments mk {_ _ _ _}.
End Session.

Section Websocket.
Context `{DL : DecimalLib} `{IL : IdLib} `{AL : AddressLib} `{LL : LndLib} `{SL : !SigningLib}.
Context (now : OffsetDateTime) (settings : Settings.t) (connection : Connection).

(** An error ends the task of the session. *)
Definition SessionM (A : Type) : Type := M Session.t Anyhow A.
Definition on_server {A} (m : ServerM Anyhow A) : SessionM A := fun s =>
  let '(r, server) := m (Session.server s) in
  (r, Session.mk server (Session.whitelisted_maker s) (Session.receiver_alive s) (Session.sent s)).
(** [unwrap_or(default)], and [if let Err(e) = m { tracing::error!(..) }]. *)
Definition unwrap_or {S A} (default : A) (m : M S Anyhow A) : M S Anyhow A := fun s =>
  match m s with
  | (Err _, s) => (Ok default, s)
  | r => r
  end.
Definition log_error {S} (m : M S Anyhow unit) : M S Anyhow unit := unwrap_or tt m.
(** [local_sender.send(message)]. *)
Definition send_local (message : Message.t) : SessionM unit := fun s =>
  if Session.receiver_alive s then
    (Ok tt, Session.mk (Session.server s) (Session.whitelisted_maker s) (Session.receiver_alive s) (Session.sent s ++ [message]))
  else (Err (Msg "channel closed"), s).

Definition handle_insert_order (trader_id : PublicKey) (order : NewLimitOrder.t) : ServerM Anyhow unit :=
  lift (ensure (bool_decide (NewLimitOrder.trader_id order = trader_id)) (Msg "Maker tried to trade on behalf of someone else"));;
  order ← server_query (insert_limit_order now order OrderReason.Manual);
  log_error (send_new_order (NewOrderMessage.mk order OrderReason.Manual None)).
Definition handle_delete_order (trader_id : PublicKey) (order_id : Uuid) : ServerM Anyhow unit :=
  _ ← server_query (delete_trader_order order_id trader_id);
  broadcast (Message.DeleteOrder order_id).

(** What a user that authenticated is told. *)
Definition tell_config (trader_id : PublicKey) : SessionM unit :=
  liquidity_options ← unwrap_or [] (on_server (server_query get_liquidity_options));
  referral_status ← unwrap_or (referral_status_new trader_id)
    (on_server (server_db (update_referral_status_for_user now (pk_to_string trader_id))));
  send_local (Message.Authenticated (TenTenOneConfig.mk liquidity_options (Settings.min_quantity settings)
    (Settings.maintenance_margin_rate settings) (Settings.order_matching_fee_rate settings) referral_status
    (Settings.max_leverage settings))).
Definition tell_orders : SessionM unit :=
  orders ← unwrap_or [] (on_server (server_query (all_limit_orders now)));
  log_error (send_local (Message.AllOrders orders)).
Definition tell_funding_fees (trader_id : PublicKey) : SessionM unit :=
  log_error (
    funding_fee_events ← on_server (server_query (get_funding_fee_events_for_active_trader_positions trader_id));
    send_local (Message.AllFundingFeeEvents funding_fee_events)).
Definition tell_funding_rate : SessionM unit :=
  log_error (
    funding_rate ← on_server (server_query FundingDb.get_next_funding_rate);
    match funding_rate with
    | Some funding_rate => send_local (Message.NextFundingRate funding_rate)
    | None => mret tt
    end).
Definition set_whitelisted_maker (trader_id : PublicKey) : SessionM unit := modify (fun s =>
  if negb (Settings.whitelist_enabled settings) || bool_decide (trader_id ∈ Settings.whitelisted_makers settings)
  then Session.mk (Session.server s) (Some trader_id) (Session.receiver_alive s) (Session.sent s)
  else s).

Definition authenticate (fcm_token version os : option string) (signature : Signature.t) : SessionM unit :=
  let msg := create_sign_message AUTH_SIGN_MESSAGE in
  let trader_id := Signature.pubkey signature in
  if verify_ecdsa msg (Signature.signature signature) trader_id then
    tell_config trader_id;;
    tell_orders;;
    tell_funding_fees trader_id;;
    tell_funding_rate;;
    let token := default "unavailable"%string fcm_token in
    log_error (on_server (server_query (login_user now trader_id token version os)));;
    set_whitelisted_maker trader_id;;
    on_server (announce_user (NewUserMessage.mk trader_id connection))
  else send_local (Message.InvalidAuthentication "Could not authenticate").

(** A text from the client; one that is no request is ignored. *)
Definition process_request (request : option OrderbookRequest.t) : SessionM unit := fun s =>
  match request with
  | Some (OrderbookRequest.InsertOrder order) =>
    match Session.whitelisted_maker s with
    | Some trader_id => log_error (on_server (handle_insert_order trader_id order)) s
    | None => (Ok tt, s)
    end
  | Some (OrderbookRequest.DeleteOrder order_id) =>
    match Session.whitelisted_maker s with
    | Some trader_id => log_error (on_server (handle_delete_order trader_id order_id)) s
    | None => (Ok tt, s)
    end
  | Some (OrderbookRequest.Authenticate fcm_token version os signature) => authenticate fcm_token version os signature s
  | None => (Ok tt, s)
  end.

(** The task that takes messages from the socket. *)
Definition websocket_session (requests : list (option OrderbookRequest.t)) : SessionM unit :=
  for_each process_request requests.
End Websocket.

(** ** Orders come from those who may place them *)

Section EntryLemmas.
Context `{DL : DecimalLib} `{IL : IdLib}.

Lemma insert_order_run now new_order (d d' : Db.t) r :
  (order ← insert (order_row now new_order); lift (order_from_row order)) d = (r, d') ->
  (rows d' = rows (R := OrderRow.t) d /\ is_ok r = false) \/
  exists id, rows d' = rows d ++ [order_row now new_order id] /\ r = order_from_row (order_row now new_order id).
Proof using Type.
  unfold mbind, M_bind, insert. destruct (violation d _) as [e|]; cbn.
  - intros [= <- <-]. by left.
  - intros [= <- <-]. right. eexists. split; reflexivity.
Qed.

Lemma insert_limit_run now (o : NewLimitOrder.t) reason (d d' : Db.t) r : insert_limit_order now o reason d = (r, d') ->
  (rows d' = rows (R := OrderRow.t) d /\ is_ok r = false) \/
  exists row, rows d' = rows d ++ [row] /\ r = order_from_row row /\ OrderRow.order_type row = DbOrderType.Limit /\
    OrderRow.trader_id row = pk_to_string (NewLimitOrder.trader_id o) /\ OrderRow.trader_order_id row = NewLimitOrder.id o.
Proof using Type.
  unfold insert_limit_order. unfold mbind at 1, M_bind at 1, lift at 1.
  destruct (new_order_from_limit o) as [no|e|] eqn:Hno; [|intros [= <- <-]; by left..].
  intros [Hsame|(id & Hrows & Hr)]%insert_order_run; [by left|right]. eexists. split; [exact Hrows|]. split; [exact Hr|].
  unfold new_order_from_limit in Hno. 
  apply outcome_bind_ok in Hno as (price & _ & Hno). apply outcome_bind_ok in Hno as (quantity & _ & Hno).
  apply outcome_bind_ok in Hno as (leverage & _ & Hno). injection Hno as <-. by split_and!.
Qed.
End EntryLemmas.

Section SessionSpec.
Context `{DL : DecimalLib} `{IL : IdLib} `{ILaws : !IdLaws IL} `{AL : AddressLib} `{LL : LndLib} `{SL : !SigningLib}.

(** *** What a session may do to the order book, for the makers in [allowed] *)
Section Allowed.
Context (allowed : PublicKey -> Prop).

Definition of_allowed (r : OrderRow.t) : Prop := exists pk, allowed pk /\ OrderRow.trader_id r = pk_to_string pk.
(** An order is left alone, or deleted by its maker. *)
Definition order_step (r r' : OrderRow.t) : Prop :=
  r' = r \/ (of_allowed r /\ r' = with_order_state DbOrderState.Deleted r).
Definition placed (r : OrderRow.t) : Prop := of_allowed r /\ OrderRow.order_type r = DbOrderType.Limit.
(** The orders there were, and the limit orders that were placed. *)
Definition book_step (l l' : list OrderRow.t) : Prop :=
  exists kept added, l' = kept ++ added /\ Forall2 order_step l kept /\ Forall placed added.
Definition server_step (s s' : Server.t) : Prop :=
  book_step (rows (Server.db s)) (rows (Server.db s')) /\
  exists sent, Server.trading s' = Server.trading s ++ sent /\
    Forall (fun m => allowed (Order.trader_id (NewOrderMessage.order m)) /\
      Order.order_type (NewOrderMessage.order m) = Limit) sent.
Definition session_step (s s' : Session.t) : Prop := server_step (Session.server s) (Session.server s').

Lemma order_step_refl r : order_step r r.
Proof using Type. by left. Qed.
Lemma order_step_trans r1 r2 r3 : order_step r1 r2 -> order_step r2 r3 -> order_step r1 r3.
Proof using Type.
  intros [->|[Ha ->]] [->|[Hb ->]]; unfold order_step; [by left|by right|by right|].
  right. split; [exact Ha|]. by destruct r1.
Qed.
#[local] Instance order_step_preorder : PreOrder order_step.
Proof using Type. split; [exact order_step_refl|exact order_step_trans]. Qed.
Lemma placed_step r r' : placed r -> order_step r r' -> placed r'.
Proof using Type. intros [Ha Ht] [->|[_ ->]]; [done|]. split; [|exact Ht]. exact Ha. Qed.

#[export] Instance book_step_preorder : PreOrder book_step.
Proof using Type.
  split.
  - intros l. exists l, []. rewrite app_nil_r. by split_and!.
  - intros l1 l2 l3 (k & a & -> & Hk & Ha) (k' & a' & -> & Hk' & Ha').
    apply Forall2_app_inv_l in Hk' as (k1 & k2 & Hk1 & Hk2 & ->). exists k1, (k2 ++ a').
    rewrite app_assoc. split_and!; [done| |].
    + by transitivity k.
    + apply Forall_app. split; [|done]. clear -Ha Hk2. induction Hk2 as [|r r' l l' Hr _ IH]; [done|].
      inversion Ha; subst. constructor; [by eapply placed_step|by apply IH].
Qed.
#[export] Instance server_step_preorder : PreOrder server_step.
Proof using Type.
  split.
  - intros s. split; [reflexivity|]. exists []. by rewrite app_nil_r.
  - intros s1 s2 s3 [Hb (m & Hm & Hma)] [Hb' (m' & Hm' & Hma')]. split; [by etrans|].
    exists (m ++ m'). rewrite Hm', Hm, app_assoc. split; [done|]. by apply Forall_app.
Qed.
#[export] Instance session_step_preorder : PreOrder session_step.
Proof using Type. unfold session_step. split; [by intros ?|]. intros s1 s2 s3 H12 H23. by etrans. Qed.

(** Statements on other tables. *)
Lemma server_db_step {A} (m : M Db.t Anyhow A) : steps (keeps OrderRow.t) m -> steps server_step (server_db m).
Proof using Type.
  intros Hm s. specialize (Hm (Server.db s)). unfold server_db. destruct (m _) as [r d]. cbn [fst snd] in *. unfold keeps in Hm.
  split; cbn; [by rewrite Hm|]. exists []. by rewrite app_nil_r.
Qed.
Lemma server_query_step {A} (m : Sql A) : steps (keeps OrderRow.t) m -> steps server_step (server_query m).
Proof using Type. intros Hm. apply server_db_step, steps_with_err, Hm. Qed.
Lemma on_server_step {A} (m : ServerM Anyhow A) : steps server_step m -> steps session_step (on_server m).
Proof using Type. intros Hm s. specialize (Hm (Session.server s)). unfold on_server, session_step. by destruct (m _). Qed.
Lemma send_local_step message : steps session_step (send_local message).
Proof using Type. intros s. unfold send_local. case_match; unfold session_step; reflexivity. Qed.
Lemma unwrap_or_step {A} (a : A) (m : SessionM A) : steps session_step m -> steps session_step (unwrap_or a m).
Proof using Type. intros Hm s. specialize (Hm s). unfold unwrap_or. by destruct (m s) as [[] s']. Qed.
Lemma broadcast_step message : steps server_step (broadcast message).
Proof using Type. intros s. split; [reflexivity|]. exists []. cbn. by rewrite app_nil_r. Qed.
Lemma announce_user_step message : steps server_step (announce_user message).
Proof using Type. intros s. split; [reflexivity|]. exists []. cbn. by rewrite app_nil_r. Qed.

Lemma book_step_added l r : placed r -> book_step l (l ++ [r]).
Proof using Type. intros Hr. exists l, [r]. split_and!; [done|reflexivity|by constructor]. Qed.
Lemma book_step_deleted l p : (forall r, p r = true -> of_allowed r) ->
  book_step l (update_rows p (with_order_state DbOrderState.Deleted) l).
Proof using Type.
  intros Hp. exists (update_rows p (with_order_state DbOrderState.Deleted) l), []. rewrite app_nil_r.
  split_and!; [done| |constructor]. unfold update_rows. induction l as [|r l IH]; cbn; constructor; [|done].
  destruct (p r) eqn:Hr; [right|by left]. split; [by apply Hp|done].
Qed.

Lemma order_of_row (row : OrderRow.t) (o : Order.t) pk : order_from_row (E := SqlError) row = Ok o ->
  OrderRow.trader_id row = pk_to_string pk -> OrderRow.order_type row = DbOrderType.Limit ->
  Order.trader_id o = pk /\ Order.order_type o = Limit.
Proof using ILaws.
  unfold order_from_row. intros Ho Hpk Ht. apply outcome_bind_ok in Ho as (price & _ & Ho).
  apply outcome_bind_ok in Ho as (trader & Htr%expect_ok & Ho). apply outcome_bind_ok in Ho as (quantity & _ & [= <-]).
  cbn. rewrite Hpk, pk_roundtrip in Htr. injection Htr as ->. by rewrite Ht.
Qed.

Context (now : OffsetDateTime) (settings : Settings.t) (connection : Connection).

Lemma handle_insert_order_step pk order : allowed pk -> steps server_step (handle_insert_order now pk order).
Proof using ILaws.
  intros Hpk s. unfold handle_insert_order. unfold mbind at 1, M_bind at 1, lift at 1.
  destruct (bool_decide _) eqn:Heq; cbn [ensure]; [|reflexivity]. apply bool_decide_eq_true in Heq.
  unfold mbind, M_bind, server_query, server_db, with_err.
  destruct (insert_limit_order now order OrderReason.Manual (Server.db s)) as [r d] eqn:Hins.
  apply insert_limit_run in Hins as [[Hsame Hbad]|(row & Hrows & -> & Ht & Htr & _)].
  - destruct r as [o|e|]; [discriminate Hbad|..]; (split; cbn; [by rewrite Hsame|exists []; by rewrite app_nil_r]).
  - rewrite Heq in Htr. assert (Hplaced : placed row) by (split; [by exists pk|exact Ht]).
    destruct (order_from_row row) as [o|e|] eqn:Ho; cbn [map_err].
    + destruct (order_of_row row o pk Ho Htr Ht) as [Hto Hty].
      unfold log_error, unwrap_or, send_new_order. cbn. destruct (Server.trading_running s); cbn.
      * split; cbn; [rewrite Hrows; by apply book_step_added|]. eexists. split; [reflexivity|]. constructor; [|constructor]. cbn. by rewrite Hto.
      * split; cbn; [rewrite Hrows; by apply book_step_added|]. exists []. by rewrite app_nil_r.
    + split; cbn; [rewrite Hrows; by apply book_step_added|]. exists []. by rewrite app_nil_r.
    + split; cbn; [rewrite Hrows; by apply book_step_added|]. exists []. by rewrite app_nil_r.
Qed.

Lemma handle_delete_order_step pk order_id : allowed pk -> steps server_step (handle_delete_order pk order_id).
Proof using Type.
  intros Hpk. unfold handle_delete_order. apply steps_bind; [apply _| |intros _; apply broadcast_step].
  intros s. unfold server_query, server_db, with_err, delete_trader_order.
  set (m := _ ≫= _).
  assert (Hm : steps (fun d d' : Db.t => book_step (rows d) (rows d')) m).
  { subst m. intros d. unfold mbind, M_bind. rewrite get_result_run.
    assert (Hdel : book_step (rows d) (update_rows (fun o => has_order_id order_id o
      && bool_decide (OrderRow.trader_id o = pk_to_string pk)) (with_order_state DbOrderState.Deleted) (rows d))).
    { apply book_step_deleted. intros r [_ Hr]%andb_true_iff. exists pk. split; [exact Hpk|].
      by apply bool_decide_eq_true in Hr. }
    destruct (ok_or NotFound _); unfold lift; cbn [fst snd]; by rewrite rows_set_rows. }
  specialize (Hm (Server.db s)). destruct (m _) as [r d]. cbn [fst snd] in *.
  split; cbn; [exact Hm|]. exists []. by rewrite app_nil_r.
Qed.

(** What a session knows of its client. *)
Definition maker_ok (s : Session.t) : Prop := forall pk, Session.whitelisted_maker s = Some pk -> allowed pk.
Definition same_maker (s s' : Session.t) : Prop := Session.whitelisted_maker s' = Session.whitelisted_maker s.
#[local] Instance same_maker_preorder : PreOrder same_maker.
Proof using Type. unfold same_maker. split; [by intros ?|intros ???; congruence]. Qed.

Definition quiet (s s' : Session.t) : Prop := session_step s s' /\ same_maker s s'.
#[local] Instance quiet_preorder : PreOrder quiet.
Proof using Type. unfold quiet. split; [done|]. intros s1 s2 s3 [H1 H2] [H3 H4]. split; by etrans. Qed.
Lemma on_server_quiet {A} (m : ServerM Anyhow A) : steps server_step m -> steps quiet (on_server m).
Proof using Type. intros Hm s. split; [by apply on_server_step|]. unfold on_server, same_maker. by destruct (m _). Qed.
Lemma send_local_quiet message : steps quiet (send_local message).
Proof using Type. intros s. split; [apply send_local_step|]. unfold send_local, same_maker. by case_match. Qed.
Lemma unwrap_or_quiet {A} (a : A) (m : SessionM A) : steps quiet m -> steps quiet (unwrap_or a m).
Proof using Type. intros Hm s. specialize (Hm s). unfold unwrap_or. by destruct (m s) as [[] s']. Qed.

Lemma referral_status_keeps pk : steps (keeps OrderRow.t) (update_referral_status_for_user now pk).
Proof using Type.
  unfold update_referral_status_for_user, get_referral_status, bonus_status_insert, Referrals.get_user,
    active_status_for_user, tier_by_tier_level, all_referrals_by_referring_user, all_active_by_type. solve_steps.
Qed.
Lemma login_user_keeps pk token version os : steps (keeps OrderRow.t) (login_user now pk token version os).
Proof using Type. unfold login_user. solve_steps. Qed.

(** What keeps the maker one of the allowed. *)
Definition sound (s s' : Session.t) : Prop := maker_ok s -> session_step s s' /\ maker_ok s'.
#[export] Instance sound_preorder : PreOrder sound.
Proof using Type.
  unfold sound. split; [by intros ?|]. intros s1 s2 s3 H12 H23 H1. destruct (H12 H1) as [Hs H2].
  destruct (H23 H2) as [Hs' H3]. split; [by etrans|done].
Qed.
Lemma quiet_sound {A} (m : SessionM A) : steps quiet m -> steps sound m.
Proof using Type. intros Hm s Hs. destruct (Hm s) as [Hstep Hsame]. split; [done|]. unfold maker_ok. by rewrite Hsame. Qed.

Lemma tell_config_quiet pk : steps quiet (tell_config now settings pk).
Proof using Type.
  unfold tell_config. apply steps_bind; [apply _| |intros options].
  { apply unwrap_or_quiet, on_server_quiet, server_query_step. unfold get_liquidity_options. solve_steps. }
  apply steps_bind; [apply _| |intros status; apply send_local_quiet].
  apply unwrap_or_quiet, on_server_quiet, server_db_step, referral_status_keeps.
Qed.
Lemma tell_orders_quiet : steps quiet (tell_orders now).
Proof using Type.
  unfold tell_orders. apply steps_bind; [apply _| |intros orders; apply unwrap_or_quiet, send_local_quiet].
  apply unwrap_or_quiet, on_server_quiet, server_query_step. unfold all_limit_orders, orders_from_rows. solve_steps.
Qed.
Lemma tell_funding_fees_quiet pk : steps quiet (tell_funding_fees pk).
Proof using Type.
  apply unwrap_or_quiet, steps_bind; [apply _| |intros fees; apply send_local_quiet].
  apply on_server_quiet, server_query_step. unfold get_funding_fee_events_for_active_trader_positions. solve_steps.
Qed.
Lemma tell_funding_rate_quiet : steps quiet tell_funding_rate.
Proof using Type.
  apply unwrap_or_quiet, steps_bind; [apply _| |intros [rate|]; [apply send_local_quiet|apply steps_ret, _]].
  apply on_server_quiet, server_query_step. unfold FundingDb.get_next_funding_rate. solve_steps.
Qed.

(** A signature that lets its signer trade. *)
Definition admits (signature : Signature.t) : Prop :=
  verify_ecdsa (create_sign_message AUTH_SIGN_MESSAGE) (Signature.signature signature) (Signature.pubkey signature) = true /\
  (Settings.whitelist_enabled settings = false \/ Signature.pubkey signature ∈ Settings.whitelisted_makers settings).

Lemma authenticate_sound token version os signature : (admits signature -> allowed (Signature.pubkey signature)) ->
  steps sound (authenticate now settings connection token version os signature).
Proof using Type.
  intros Hadm. unfold authenticate. destruct (verify_ecdsa _ _ _) eqn:Hv; [|apply quiet_sound, send_local_quiet].
  apply steps_bind; [apply _|apply quiet_sound, tell_config_quiet|intros _].
  apply steps_bind; [apply _|apply quiet_sound, tell_orders_quiet|intros _].
  apply steps_bind; [apply _|apply quiet_sound, tell_funding_fees_quiet|intros _].
  apply steps_bind; [apply _|apply quiet_sound, tell_funding_rate_quiet|intros _].
  apply steps_bind; [apply _| |intros _].
  { apply quiet_sound, unwrap_or_quiet, on_server_quiet, server_query_step, login_user_keeps. }
  apply steps_bind; [apply _| |intros _; apply quiet_sound, on_server_quiet, announce_user_step].
  intros s Hs. unfold set_whitelisted_maker, modify. cbn [snd]. destruct (_ || _) eqn:Hl; [|by split].
  split; [unfold session_step; reflexivity|]. intros pk [= <-]. apply Hadm. split; [exact Hv|].
  apply orb_true_iff in Hl as [Hl|Hl%bool_decide_eq_true]; [left|by right]. by apply negb_true_iff.
Qed.

Lemma process_request_sound request :
  (forall token version os signature, request = Some (OrderbookRequest.Authenticate token version os signature) ->
     admits signature -> allowed (Signature.pubkey signature)) ->
  steps sound (process_request now settings connection request).
Proof using ILaws.
  intros Hadm s Hs. destruct request as [[token version os signature|order|order_id]|]; cbn [process_request].
  - by apply (authenticate_sound token version os signature (Hadm _ _ _ _ eq_refl)).
  - destruct (Session.whitelisted_maker s) as [pk|] eqn:Hpk; [|by split].
    apply quiet_sound; [|done]. apply unwrap_or_quiet, on_server_quiet, handle_insert_order_step. by apply Hs.
  - destruct (Session.whitelisted_maker s) as [pk|] eqn:Hpk; [|by split].
    apply quiet_sound; [|done]. apply unwrap_or_quiet, on_server_quiet, handle_delete_order_step. by apply Hs.
  - by split.
Qed.
End Allowed.

(** The makers that authenticated in a session. *)
Definition authenticated (settings : Settings.t) (requests : list (option OrderbookRequest.t)) (pk : PublicKey) : Prop :=
  exists token version os signature,
    In (Some (OrderbookRequest.Authenticate token version os signature)) requests /\
    admits settings signature /\ pk = Signature.pubkey signature.

(** C30: on a websocket nobody trades for anybody else: whatever a client sends, and in
    whichever order, from the start of its session the orders there were stay as they
    are or are deleted by their own maker, all that is added are limit orders, and only
    limit orders are handed to the trading task - each of a maker that authenticated in
    this session with a valid signature and is on the whitelist, if there is one. *)
Theorem session_trades_for_its_makers now settings connection requests (s : Session.t) :
  Session.whitelisted_maker s = None ->
  session_step (authenticated settings requests) s (websocket_session now settings connection requests s).2.
Proof.
  intros Hnone. unfold websocket_session.
  assert (Hall : forall l, incl l requests ->
    steps (sound (authenticated settings requests)) (for_each (process_request now settings connection) l)).
  { induction l as [|request l IH]; intros Hl; cbn [for_each]; [apply steps_ret, _|].
    apply steps_bind; [apply _| |intros _; apply IH; intros r Hr; apply Hl; by right].
    apply process_request_sound. intros token version os signature -> Hadm.
    exists token, version, os, signature. split_and!; [apply Hl; by left|done|done]. }
  apply (Hall requests (incl_refl _) s). unfold maker_ok. by rewrite Hnone.
Qed.
End SessionSpec.

(** ** A maker's session *)

#[export] Instance demo_pre_image : PreImageLib (IL := demo_id) := {|
  url_safe_encode l := String.string_of_list_byte l;
  url_safe_decode s := Some (String.list_byte_of_string s);
  sha256_digest l := l;
  invoice_params_json params := Some (as_bytes (HodlInvoiceParams.r_hash params));
|}.

#[export] Instance demo_pre_image_laws : PreImageLaws demo_pre_image.
Proof. split. intros l. unfold url_safe_decode, url_safe_encode, demo_pre_image. by rewrite String.list_byte_of_string_of_list_byte. Qed.

Definition demo_settings : Settings.t (H := demo_id) := settings_from_file demo_settings_file "settings".
Definition demo_limit (id : Uuid) (maker : PublicKey (IdLib := demo_id)) : NewLimitOrder.t :=
  NewLimitOrder.mk (H := demo_decimal) id BtcUsd (d_from_u64 20000) (d_from_u64 100) maker Long (d_from_u64 1) (100 * NANOS_PER_SEC) false.
Definition demo_login (maker : PublicKey (IdLib := demo_id)) : Signature.t :=
  Signature.mk maker ((create_sign_message AUTH_SIGN_MESSAGE, maker) : SecpSignature (SigningLib := demo_signing)).
Definition demo_requests : list (option (OrderbookRequest.t (H := demo_signing))) :=
  [Some (OrderbookRequest.InsertOrder (demo_limit 1 "maker"%string));
   Some (OrderbookRequest.Authenticate None None None (demo_login "maker"%string));
   Some (OrderbookRequest.InsertOrder (demo_limit 2 "alice"%string));
   Some (OrderbookRequest.InsertOrder (demo_limit 3 "maker"%string));
   None].
Definition demo_server : Server.t (H := demo_decimal) (H1 := demo_address) (H2 := demo_lnd) :=
  Server.mk empty_db true [] [] [] [] [].
Definition demo_session : Session.t (H1 := demo_address) (H2 := demo_lnd) := Session.mk demo_server None true [].

(** Only the third order is placed: the first comes before the login, the second is
    somebody else's. *)
Example session_trades_for_its_makers_witness :
  let s' := (websocket_session 5 demo_settings 1%nat demo_requests demo_session).2 in
  map OrderRow.trader_order_id (rows (Server.db (Session.server s'))) = [3] /\
  session_step (authenticated demo_settings demo_requests) demo_session s'.
Proof.
  cbn zeta. split; [by vm_compute|].
  by apply (session_trades_for_its_makers (ILaws := demo_id_laws)).
Defined.


(** ** Posted orders *)

Section PostSpec.
Context `{DL : DecimalLib} `{IL : IdLib} `{AL : AddressLib} `{LL : LndLib} `{SL : !SigningLib} `{SV : SemverLib}.
Context `{PI : !PreImageLib}.
Context (now : OffsetDateTime) (pkg_version : string) (settings : Settings.t).

(** The checks an order passes. *)
Definition order_allowed (order : NewOrder.t) (d : Db.t) : Prop :=
  match order with
  | NewOrder.Market o => (check_version pkg_version (NewMarketOrder.trader_id o) d).1 = Ok tt
  | NewOrder.Limit o =>
    (Settings.whitelist_enabled settings = false \/ NewLimitOrder.trader_id o ∈ Settings.whitelisted_makers settings) /\
    d_is_zero (NewLimitOrder.price o) = false
  end.
(** The amount of the recorded invoice a pre-image hashes to. *)
Definition funding_of (pre_image : option string) (d : Db.t) : option (option Amount) :=
  match pre_image with
  | None => Some None
  | Some s =>
    match from_url_safe_encoded_pre_image s with
    | Ok p => (fun r => Some (as_u64 (HodlInvoiceRow.amount_sats r))) <$> head (List.filter (has_r_hash (PreImage.hash p)) (rows d))
    | _ => None
    end
  end.
Definition only_db (s s' : Server.t) : Prop :=
  Server.trading s' = Server.trading s /\ Server.trading_running s' = Server.trading_running s.

Lemma server_db_run {A} (m : M Db.t Anyhow A) (s : Server.t) : exists r, server_db m s = ((m (Server.db s)).1, r) /\
  Server.db r = (m (Server.db s)).2 /\ only_db s r.
Proof using Type. unfold server_db. destruct (m _) as [a d]. eexists. by split_and!. Qed.

Lemma check_version_reads pk : read_only (check_version pkg_version pk).
Proof using Type. unfold check_version, Referrals.get_user. solve_steps. Qed.

Lemma check_order_run order s r s' : check_order pkg_version settings order s = (r, s') ->
  s' = s /\ (r = Ok tt <-> order_allowed order (Server.db s)).
Proof using Type.
  destruct order as [o|o]; cbn [check_order order_allowed].
  - unfold with_err, server_db. pose proof (check_version_reads (NewMarketOrder.trader_id o) (Server.db s)) as Hro.
    destruct (check_version _ _ _) as [c d]. cbn in *. subst d. intros [= <- <-]. split; [by destruct s|].
    destruct c as [[]|e|]; naive_solver.
  - unfold mbind, M_bind, lift. intros Hrun.
    destruct (negb (Settings.whitelist_enabled settings) || _) eqn:Hw; cbn in Hrun.
    + apply orb_true_iff in Hw. rewrite negb_true_iff, bool_decide_eq_true in Hw.
      destruct (d_is_zero _); injection Hrun as <- <-; naive_solver.
    + apply orb_false_iff in Hw as [Hw1%negb_false_iff Hw2%bool_decide_eq_false]. injection Hrun as <- <-.
      split; [done|]. rewrite Hw1. naive_solver.
Qed.

Lemma accept_funding_run pre_image order_id s r s' : accept_funding now pre_image order_id s = (r, s') ->
  only_db s s' /\ keeps OrderRow.t (Server.db s) (Server.db s') /\
  match r with Ok funding => funding_of pre_image (Server.db s) = Some funding | _ => True end.
Proof using Type.
  unfold accept_funding, funding_of. destruct pre_image as [p|]; [|intros [= <- <-]; by split].
  unfold mbind, M_bind, lift. destruct (from_url_safe_encoded_pre_image p) as [pi|e|]; cbn; [|intros [= <- <-]; by split..].
  unfold with_err at 1. set (m := update_hodl_invoice_to_accepted _ _ _ _).
  assert (Hk : steps (keeps OrderRow.t) m) by (subst m; unfold update_hodl_invoice_to_accepted; solve_steps).
  destruct (server_db_run m s) as (s1 & -> & Hdb & Hs1). specialize (Hk (Server.db s)). rewrite <-Hdb in Hk.
  assert (Hval : forall amount, (m (Server.db s)).1 = Ok amount -> (fun r => Some (as_u64 (HodlInvoiceRow.amount_sats r))) <$>
    head (List.filter (has_r_hash (PreImage.hash pi)) (rows (Server.db s))) = Some (Some amount)).
  { intros amount. subst m. unfold update_hodl_invoice_to_accepted, mbind, M_bind, with_err, fmap, M_fmap.
    rewrite get_result_run. destruct (head _) as [row|]; cbn; [|done]. intros [= <-]. by destruct row. }
  destruct (m (Server.db s)).1 as [amount|e|]; cbn; intros [= <- <-]; split_and!; try done; try apply Hs1.
  by apply Hval.
Qed.

(** The row of an order and what it reads as. *)
Definition placed_as (order : NewOrder.t) (row : OrderRow.t) : Prop :=
  OrderRow.trader_id row = pk_to_string (order_trader_id order) /\ OrderRow.trader_order_id row = new_order_id order /\
  OrderRow.order_type row = match order with NewOrder.Market _ => DbOrderType.Market | NewOrder.Limit _ => DbOrderType.Limit end.

Lemma insert_market_run (o : NewMarketOrder.t) reason (d d' : Db.t) r : insert_market_order now o reason d = (r, d') ->
  (rows d' = rows (R := OrderRow.t) d /\ is_ok r = false) \/
  exists row, rows d' = rows d ++ [row] /\ r = order_from_row row /\ placed_as (NewOrder.Market o) row.
Proof using Type.
  unfold insert_market_order. unfold mbind at 1, M_bind at 1, lift at 1.
  destruct (new_order_from_market o) as [no|e|] eqn:Hno; [|intros [= <- <-]; by left..].
  intros [Hsame|(id & Hrows & Hr)]%insert_order_run; [by left|right]. eexists. split; [exact Hrows|]. split; [exact Hr|].
  unfold new_order_from_market in Hno. apply outcome_bind_ok in Hno as (quantity & _ & Hno).
  apply outcome_bind_ok in Hno as (leverage & _ & Hno). injection Hno as <-. by split_and!.
Qed.

Lemma insert_new_order_run order s r s' : insert_order now order s = (r, s') ->
  only_db s s' /\
  ((rows (Server.db s') = rows (R := OrderRow.t) (Server.db s) /\ is_ok r = false) \/
   exists row, rows (Server.db s') = rows (Server.db s) ++ [row] /\ placed_as order row /\
     match r with Ok o => order_from_row (E := SqlError) row = Ok o | _ => True end).
Proof using Type.
  unfold insert_order, with_err at 1, server_query. set (m := with_err FromSql _).
  destruct (server_db_run m s) as (s1 & -> & Hdb & Hs1). intros [= <- <-]. split; [exact Hs1|]. rewrite Hdb. subst m. unfold with_err.
  destruct order as [o|o].
  - destruct (insert_market_order _ _ _ _) as [r d] eqn:Hrun. apply insert_market_run in Hrun as [[Hsame Hbad]|(row & Hrows & -> & Hp)].
    + left. split; [exact Hsame|]. by destruct r.
    + right. exists row. split; [exact Hrows|]. split; [exact Hp|]. cbn. by destruct (order_from_row row).
  - destruct (insert_limit_order _ _ _ _) as [r d] eqn:Hrun.
    apply insert_limit_run in Hrun as [[Hsame Hbad]|(row & Hrows & -> & Ht & Htr & Hid)].
    + left. split; [exact Hsame|]. by destruct r.
    + right. exists row. split; [exact Hrows|]. split; [by split_and!|]. cbn. by destruct (order_from_row row).
Qed.

(** C29: an order is posted only with its trader's signature and, for a market order, an
    app of the right version, for a limit order, a place on the whitelist and a price;
    otherwise nothing happens.  A posted order is one new row, and handed to the trading
    task as it was read back, with the reserves asked for and funded with the amount of
    the invoice its pre-image hashes to - of whichever trader, in whichever state that
    invoice is.  An order that fails later is not handed to the trading task. *)
Theorem posted_order_is_checked (request : NewOrderRequest.t) (s s' : Server.t) r :
  post_order now pkg_version settings request s = (r, s') ->
  let order := NewOrderRequest.value request in
  let params := NewOrderRequest.channel_opening_params request in
  (verify_request request = false \/ ~ order_allowed order (Server.db s) -> is_ok r = false /\ s' = s) /\
  match r with
  | Ok _ => exists row o funding,
      rows (Server.db s') = rows (Server.db s) ++ [row] /\ placed_as order row /\
      order_from_row (E := SqlError) row = Ok o /\
      funding_of (params ≫= RequestedParams.pre_image) (Server.db s) = Some funding /\
      Server.trading s' = Server.trading s ++ [NewOrderMessage.mk o OrderReason.Manual ((fun p =>
        ChannelOpeningParams.mk (RequestedParams.trader_reserve p) (RequestedParams.coordinator_reserve p) funding) <$> params)]
  | _ => Server.trading s' = Server.trading s /\
      (rows (Server.db s') = rows (R := OrderRow.t) (Server.db s) \/
       exists row, rows (Server.db s') = rows (Server.db s) ++ [row] /\ placed_as order row)
  end.
Proof.
  unfold post_order. cbn zeta. unfold mbind at 1, M_bind at 1, lift at 1.
  destruct (verify_request request) eqn:Hv; cbn [ensure]; [|by intros [= <- <-]; split; [|split; [|left]]].
  set (order := NewOrderRequest.value request). unfold mbind at 1, M_bind at 1.
  destruct (check_order pkg_version settings order s) as [rc s1] eqn:Hc. apply check_order_run in Hc as [-> Hc].
  destruct rc as [[]|e|];
    [apply proj1 in Hc; specialize (Hc eq_refl)|intros [= <- <-]; by split; [|split; [|left]]..].
  intros Hrun. split; [by intros [|]|].
  unfold mbind at 1, M_bind at 1 in Hrun.
  destruct (accept_funding now _ _ s) as [rf s2] eqn:Hf. apply accept_funding_run in Hf as ([Ht2 Hg2] & Hk2 & Hf).
  unfold keeps in Hk2.
  destruct rf as [funding|e|]; [|injection Hrun as <- <-; by split; [|left]..].
  unfold mbind at 1, M_bind at 1 in Hrun. destruct (insert_order now order s2) as [ri s3] eqn:Hi.
  apply insert_new_order_run in Hi as ([Ht3 Hg3] & Hi). rewrite Hk2 in Hi.
  destruct ri as [o|e|].
  - destruct Hi as [[_ Hbad]|(row & Hrows & Hp & Ho)]; [discriminate Hbad|].
    unfold with_err, send_new_order in Hrun. destruct (Server.trading_running s3); injection Hrun as <- <-; cbn.
    + exists row, o, funding. split_and!; try done; try apply Hp. by rewrite Ht3, Ht2.
    + split; [by rewrite Ht3|]. right. by exists row.
  - injection Hrun as <- <-. split; [by rewrite Ht3|]. destruct Hi as [[Hs _]|(row & Hrows & Hp & _)]; [by left|right; by exists row].
  - injection Hrun as <- <-. split; [by rewrite Ht3|]. destruct Hi as [[Hs _]|(row & Hrows & Hp & _)]; [by left|right; by exists row].
Qed.
End PostSpec.

(** The maker's order is funded by an invoice of alice's that is settled already. *)
Definition demo_secret : string := "0123456789abcdef0123456789abcdef".
Definition demo_settled : HodlInvoiceRow.t :=
  HodlInvoiceRow.mk 1 "alice" demo_secret 1000 (Some demo_secret) 0 None DbInvoiceState.Settled (Some 70).
Definition demo_request : NewOrderRequest.t (H := demo_signing) :=
  let order := NewOrder.Limit (demo_limit 1 "maker"%string) in
  NewOrderRequest.mk order (order_message order, "maker"%string) (Some (RequestedParams.mk 10 20 (Some demo_secret))).
Definition demo_shop : Server.t (H := demo_decimal) (H1 := demo_address) (H2 := demo_lnd) :=
  Server.mk (set_rows [demo_settled] empty_db) true [] [] [] [] [].

Example posted_order_is_checked_witness :
  let '(r, s') := post_order 5 "2.6.0" demo_settings demo_request demo_shop in
  r = Ok tt /\ map NewOrderMessage.channel_opening_params (Server.trading s') = [Some (ChannelOpeningParams.mk 10 20 (Some 1000))] /\
  exists row, rows (Server.db s') = [row] /\ placed_as (NewOrder.Limit (demo_limit 1 "maker"%string)) row.
Proof.
  destruct (post_order _ _ _ _ _) as [r s'] eqn:Hrun.
  assert (Hr : r = Ok tt) by (change r with (r, s').1; rewrite <-Hrun; by vm_compute).
  assert (Ht : map NewOrderMessage.channel_opening_params (Server.trading s') = [Some (ChannelOpeningParams.mk 10 20 (Some 1000))])
    by (change s' with (r, s').2; rewrite <-Hrun; by vm_compute).
  split_and!; [exact Hr|exact Ht|]. apply posted_order_is_checked in Hrun as [_ Hrun]. subst r.
  destruct Hrun as (row & o & funding & Hrows & Hp & _). by exists row.
Defined.

(** ** The whitelist after a restart *)

Section WhitelistSpec.
Context `{DL : DecimalLib} `{IL : IdLib} `{SL : !SigningLib} `{SV : SemverLib} `{TLaws : !TomlLaws TL}.
Context (write_all : string -> string -> outcome string unit * string).

(** Settings that are updated are in force at once, but not all and not for long.
    The running coordinator tells apps the new rates while its node trades by the old
    ones, and opens positions as it did before; with the next start the node follows, all
    is read back from the file as it was updated - but for the whitelist, which is off, so
    that anybody may post limit orders. *)
Theorem updated_settings_after_restart pkg_version (file : SettingsFile.t) (s s' : SettingsState.t) u path :
  (forall data old, (write_all data old).1 = Ok tt -> (write_all data old).2 = data) ->
  whole_seconds (SettingsFile.xxi file) -> update_settings write_all file s = (Ok u, s') ->
  SettingsState.settings s' = settings_from_file file (Settings.path (SettingsState.settings s)) /\
  SettingsState.node_settings s' = SettingsState.node_settings s /\ SettingsState.xxi_settings s' = SettingsFile.xxi file /\
  exists s'', start_coordinator (SettingsState.file s') path = Ok s'' /\
    SettingsState.settings s'' = settings_from_file (with_whitelist_enabled false file) path /\
    SettingsState.node_settings s'' = to_node_settings (SettingsState.settings s') /\
    SettingsState.xxi_settings s'' = SettingsFile.xxi file /\
    forall (o : NewLimitOrder.t) d, d_is_zero (NewLimitOrder.price o) = false ->
      order_allowed pkg_version (SettingsState.settings s'') (NewOrder.Limit o) d.
Proof.
  intros Hwrite Hxxi Hrun. destruct (update_settings_run write_all file s s' u Hwrite Hxxi Hrun) as [Hs' Hfile].
  split; [by rewrite Hs'|]. split; [by rewrite Hs'|]. split; [by rewrite Hs'|].
  unfold start_coordinator, settings_new. rewrite Hfile. cbn. eexists. split; [reflexivity|].
  cbn. split; [done|]. split; [by rewrite Hs'|]. split; [done|]. intros o d Hprice. by split; [left|].
Qed.
End WhitelistSpec.

(** Only the maker may post limit orders; writing nothing but the same settings again
    and restarting, Mallory may. *)
Definition demo_running : SettingsState.t (H := demo_id) :=
  SettingsState.mk demo_settings (to_node_settings demo_settings) (Settings.xxi demo_settings) "on".

Example updated_settings_after_restart_witness :
  ~ order_allowed (SV := demo_semver) "2.6.0" demo_settings (NewOrder.Limit (demo_limit 1 "mallory"%string)) empty_db /\
  exists s' s'', update_settings (fun data _ => (Ok tt, data)) demo_settings_file demo_running = (Ok tt, s') /\
    start_coordinator (SettingsState.file s') "settings" = Ok s'' /\
    order_allowed (SV := demo_semver) "2.6.0" (SettingsState.settings s'') (NewOrder.Limit (demo_limit 1 "mallory"%string)) empty_db.
Proof.
  split.
  { intros [[H|H] _]; [discriminate H|]. cbn in H. apply list_elem_of_singleton in H. discriminate H. }
  destruct (succeeds (update_settings (fun data _ => (Ok tt, data)) demo_settings_file) demo_running) as ([] & s' & Hs).
  { by vm_compute. }
  destruct (updated_settings_after_restart (TLaws := demo_toml_laws) (fun data _ => (Ok tt, data)) "2.6.0" demo_settings_file demo_running s' tt "settings")
    as (_ & _ & _ & s'' & Hstart & _ & _ & _ & Hall); [done|by repeat constructor|exact Hs|].
  exists s', s''. split; [exact Hs|]. split; [exact Hstart|]. apply Hall. reflexivity.
Defined.
