(* ===== verification/AppFunding.v ===== *)
(** * The app's first trade: [unfunded_channel_opening_order.rs], [watcher.rs], [hodl_invoice.rs]

    A trader without funds opens a channel by paying an address or a hodl invoice of
    the coordinator; the app waits for either and then submits the order. *)

From stdpp Require Import base list option strings.
From Stdlib Require Import ZArith QArith Lia Permutation.
From S2P Require Import Prelude Machine External Demo Commons PayoutCurve SqlTypes Schema Db FundingDb Feed StorageDb Signing.
From S2P Require Import Trading Messages AppData AppSql AppDb Node DemoDlc DlcPeer AppHandlers AppFrames AppNode Revert.
From S2P Require Import TradeInvoices OrderEntry.

#[local] Open Scope Z_scope.

(** ** [hodl_invoice.rs] and [commons/pre_image.rs] *)

Module HodlInvoice.
Record t := mk { payment_request : string; pre_image : string; r_hash : string; amount : Amount }.
End HodlInvoice.

Section Invoices.
Context `{PI : PreImageLib}.

(** [create_pre_image] from 32 random bytes. *)
Definition create_pre_image (random : list Byte.byte) : PreImage.t := PreImage.mk random (inner_hash_pre_image random).

(** [get_hodl_invoice_from_coordinator]; [request] signs the parameters and posts them
    to [/api/invoice]. *)
Definition get_hodl_invoice_from_coordinator (node_pubkey : PublicKey) (random : list Byte.byte)
    (request : HodlInvoiceParams.t -> outcome string string) (amount : Amount) : outcome string HodlInvoice.t :=
  let pre_image := create_pre_image random in
  let invoice_params := HodlInvoiceParams.mk node_pubkey amount (PreImage.hash pre_image) in
  payment_request ← request invoice_params;
  Ok (HodlInvoice.mk payment_request (get_base64_encoded_pre_image pre_image) (PreImage.hash pre_image) amount).
End Invoices.

(** ** [watcher.rs] *)

(** The transactions of an address with their outputs, and which outputs are known to
    be spent: [get_unspent_txs] of the node library.  Of a transaction only its first
    output to the address counts. *)
Definition first_output (script : list Byte.byte) (vout : list TxOut.t) : option (nat * TxOut.t) :=
  List.find (fun o => bool_decide (TxOut.script_pubkey o.2 = script)) (combine (seq 0 (length vout)) vout).
Definition get_unspent_txs (script : list Byte.byte) (status : string -> nat -> outcome string (option bool))
    (txs : list (string * list TxOut.t)) : list Amount :=
  omap (fun '(txid, vout) =>
    '(index, output) ← first_output script vout;
    match status txid index with
    | Ok (Some false) => Some (TxOut.value output)
    | _ => None
    end) txs.

(** One round of [watch_funding_address], and one message of the subscription of
    [watch_lightning_payment]: does it return? *)
Definition watch_funding_address (funding_amount : Amount) (unspent : outcome string (list Amount)) : outcome string bool :=
  match unspent with
  | Ok [] => Ok false
  | Ok txs =>
    total_unspent_amount_received ← sum_u64 0 txs;
    Ok (funding_amount <=? total_unspent_amount_received)
  | Err _ => Ok true
  | Panic => Panic
  end.
Definition watch_lightning_payment (watched_r_hash : string) (received : outcome string string) : bool :=
  match received with
  | Ok r_hash => bool_decide (watched_r_hash = r_hash)
  | _ => true
  end.

(** ** [unfunded_channel_opening_order.rs] *)

(** [order::api::NewOrder] and the order made of it, with its id drawn. *)
Module NewAppOrder.
Record t := mk {
  leverage : f32;
  quantity : f32;
  contract_symbol : ContractSymbol;
  direction : Direction;
  order_type : AppOrderType.t;
  stable : bool;
}.
End NewAppOrder.
Definition order_from (now : OffsetDateTime) (id : Uuid) (value : NewAppOrder.t) : AppOrder.t :=
  AppOrder.mk id (NewAppOrder.leverage value) (NewAppOrder.quantity value) (NewAppOrder.contract_symbol value)
    (NewAppOrder.direction value) (NewAppOrder.order_type value) AppOrderState.Initial now (now + 60 * NANOS_PER_SEC)
    AppOrderReason.Manual (NewAppOrder.stable value) None.

(** [dlc::estimated_fee_reserve] and [dlc::estimated_funding_tx_fee] of a running node. *)
Definition estimated_fee_reserve (fee_rate : f64) : Amount := estimated_dlc_channel_fee_reserve fee_rate / 2.
Definition estimated_funding_tx_fee (fee_rate : f64) : Amount := estimated_funding_transaction_fee fee_rate / 2.

(** What the task that watches holds, and what the trader is shown. *)
Module Unfunded.
Record t := mk {
  order : NewAppOrder.t;
  coordinator_reserve : Z;
  trader_reserve : Z;
  funding_amount : Amount;
  pre_image : option string;
  r_hash : string;
}.
End Unfunded.
Module ExternalFunding.
Record t := mk { bitcoin_address : string; payment_request : option string }.
End ExternalFunding.

(** What a watcher may see next: the outputs of the address, or a payment. *)
Inductive WatchEvent :=
  | Polled (unspent : outcome string (list Amount))
  | Received (r_hash : outcome string string).

Section Unfunded.
Context `{DL : DecimalLib} `{BL : BitcoinLib} `{IL : IdLib} `{DLC : !DlcLib} `{ML : !DlcMessagesLib}.

(** The amount the trader has to pay. *)
Definition required_funding (fee_rate : f64) (trader_reserve estimated_margin order_matching_fee : Z) : outcome string Amount :=
  fees ← expect (amount_add order_matching_fee (estimated_fee_reserve fee_rate));
  fees ← expect (amount_add fees (estimated_funding_tx_fee fee_rate));
  margin ← u64_add estimated_margin trader_reserve;
  expect (amount_add margin fees).

(** Up to the task, which replaces the previous one; without an invoice only the
    address is watched. *)
Definition submit_unfunded_channel_opening_order (new_address : outcome string string) (fee_rate : f64)
    (get_hodl_invoice : Amount -> outcome string HodlInvoice.t) (order : NewAppOrder.t)
    (coordinator_reserve trader_reserve estimated_margin order_matching_fee : Z)
    : outcome string (ExternalFunding.t * Unfunded.t) :=
  bitcoin_address ← new_address;
  funding_amount ← required_funding fee_rate trader_reserve estimated_margin order_matching_fee;
  hodl_invoice ← match get_hodl_invoice funding_amount with Ok i => Ok (Some i) | Err _ => Ok None | Panic => Panic end;
  Ok (ExternalFunding.mk bitcoin_address (HodlInvoice.payment_request <$> hodl_invoice),
      Unfunded.mk order coordinator_reserve trader_reserve funding_amount (HodlInvoice.pre_image <$> hodl_invoice)
        (default EmptyString (HodlInvoice.r_hash <$> hodl_invoice))).

(** [tokio::select!] over the events in the order in which they come: the pre-image to
    share, once a watcher returns. *)
Fixpoint wait_for_funding (w : Unfunded.t) (events : list WatchEvent) : outcome Anyhow (option (option string)) :=
  match events with
  | [] => Ok None
  | Polled unspent :: events =>
    funded ← map_err Msg (watch_funding_address (Unfunded.funding_amount w) unspent);
    if (funded : bool) then Ok (Some None) else wait_for_funding w events
  | Received r_hash :: events =>
    if watch_lightning_payment (Unfunded.r_hash w) r_hash then Ok (Some (Unfunded.pre_image w)) else wait_for_funding w events
  end.

Section Task.
Context (now : OffsetDateTime) (id : Uuid) (coordinator : PublicKey).
Context (post : AppOrder.t -> option RequestedParams.t -> outcome string unit).

Definition funding_notice (task : FundingChannelTask.t) : AppNodeM unit :=
  on_app (publish (EventInternal.FundingChannelNotification task)).
Definition submit_funded (w : Unfunded.t) (maybe_pre_image : option string) : AppNodeM unit := fun s =>
  let params := RequestedParams.mk (Unfunded.trader_reserve w) (Unfunded.coordinator_reserve w) maybe_pre_image in
  match submit_order coordinator (fun order => post order (Some params)) (order_from now id (Unfunded.order w)) s with
  | (Ok order_id, s) => funding_notice (FundingChannelTask.OrderCreated (uuid_to_string order_id)) s
  | (Err _, s) => funding_notice (FundingChannelTask.Failed "Failed at posting the order") s
  | (Panic, s) => (Panic, s)
  end.
(** The task, which is aborted where its events end. *)
Definition funding_task (w : Unfunded.t) (events : list WatchEvent) : AppNodeM unit :=
  funding_notice FundingChannelTask.Pending;;
  funded ← lift (wait_for_funding w events);
  match funded with
  | Some maybe_pre_image =>
    funding_notice FundingChannelTask.Funded;;
    submit_funded w maybe_pre_image
  | None => mret tt
  end.
End Task.
End Unfunded.

(** ** What an order is submitted on *)

Section FundingSpec.
Context `{DL : DecimalLib} `{BL : BitcoinLib} `{IL : IdLib} `{DLC : !DlcLib} `{ML : !DlcMessagesLib}.

(** An event that leaves a watcher waiting, one that shows the funds, and a watcher
    that fails. *)
Definition still_waiting (w : Unfunded.t) (e : WatchEvent) : Prop :=
  match e with
  | Polled (Ok unspent) => unspent = [] \/ foldr Z.add 0 unspent < Unfunded.funding_amount w
  | Received (Ok r_hash) => r_hash <> Unfunded.r_hash w
  | _ => False
  end.
Definition funded (w : Unfunded.t) (e : WatchEvent) : Prop :=
  match e with
  | Polled (Ok unspent) => unspent <> [] /\ Unfunded.funding_amount w <= foldr Z.add 0 unspent
  | Received (Ok r_hash) => r_hash = Unfunded.r_hash w
  | _ => False
  end.
Definition watch_failed (e : WatchEvent) : Prop :=
  match e with
  | Polled (Err _) => True
  | Received r => is_ok r = false
  | _ => False
  end.
(** The pre-image goes with the order when the invoice's watcher returned. *)
Definition shared_pre_image (w : Unfunded.t) (e : WatchEvent) : option string :=
  match e with Polled _ => None | Received _ => Unfunded.pre_image w end.

Lemma sum_u64_total {E} l : forall sum x, sum_u64 (E := E) sum l = Ok x -> x = sum + foldr Z.add 0 l.
Proof using Type.
  induction l as [|y l IH]; cbn; intros sum x; [intros [= <-]; lia|].
  intros (s1 & [-> _]%u64_add_ok & H)%outcome_bind_ok. apply IH in H. lia.
Qed.

(** The task waits, or ends with the first event that shows the funds or fails. *)
Lemma wait_for_funding_ok w events r : wait_for_funding w events = Ok r ->
  match r with
  | None => Forall (still_waiting w) events
  | Some p => exists before e after, events = before ++ e :: after /\ Forall (still_waiting w) before /\
      (funded w e \/ watch_failed e) /\ p = shared_pre_image w e
  end.
Proof using Type.
  revert r. induction events as [|e events IH]; intros r; cbn [wait_for_funding]; [intros [= <-]; constructor|].
  assert (Hwait : still_waiting w e -> wait_for_funding w events = Ok r -> match r with
    | None => Forall (still_waiting w) (e :: events)
    | Some p => exists before e' after, e :: events = before ++ e' :: after /\ Forall (still_waiting w) before /\
      (funded w e' \/ watch_failed e') /\ p = shared_pre_image w e' end).
  { intros He Hr. specialize (IH r Hr). destruct r as [p|]; [|by constructor].
    destruct IH as (before & e' & after & -> & Hb & He'). exists (e :: before), e', after. split; [done|]. split; [by constructor|done]. }
  assert (Hdone : forall p, r = Some p -> funded w e \/ watch_failed e -> p = shared_pre_image w e -> match r with
    | None => Forall (still_waiting w) (e :: events)
    | Some p => exists before e' after, e :: events = before ++ e' :: after /\ Forall (still_waiting w) before /\
      (funded w e' \/ watch_failed e') /\ p = shared_pre_image w e' end).
  { intros p -> He Hp. exists [], e, events. split; [done|]. split; [constructor|done]. }
  destruct e as [unspent|r_hash].
  - intros (b & Hb & Hr)%outcome_bind_ok. apply map_err_ok in Hb.
    destruct unspent as [unspent|e|]; cbn in Hb; [|injection Hb as <-; injection Hr as <-; eapply Hdone; [done|by right|done]|done].
    destruct unspent as [|x l]; [injection Hb as <-; apply Hwait; [by left|done]|].
    apply outcome_bind_ok in Hb as (total & Ht%sum_u64_total & [= <-]). rewrite Z.add_0_l in Ht. subst total.
    destruct (Z.leb_spec (Unfunded.funding_amount w) (foldr Z.add 0 (x :: l))) as [Hle|Hlt].
    + injection Hr as <-. eapply Hdone; [done|left|done]. by split.
    + apply Hwait; [by right|done].
  - destruct r_hash as [h|e|]; cbn; [case_bool_decide as Heq|..].
    + intros [= <-]. eapply Hdone; [done|by left|done].
    + intros Hr. apply Hwait; [cbn; congruence|done].
    + intros [= <-]. eapply Hdone; [done|by right|done].
    + intros [= <-]. eapply Hdone; [done|by right|done].
Qed.

Lemma sum_u64_no_err {E} l : forall sum e, sum_u64 (E := E) sum l <> Err e.
Proof using Type.
  induction l as [|y l IH]; intros sum e; cbn; [done|]. intros [He|(x & _ & He)]%outcome_bind_err; [|by apply IH in He].
  by apply expect_no_err in He.
Qed.
Lemma wait_for_funding_no_err w events e : wait_for_funding w events <> Err e.
Proof using Type.
  induction events as [|[u|h] events IH]; cbn [wait_for_funding]; [done|..]; [|by case_match].
  intros [He|([] & _ & He)]%outcome_bind_err; [|done|done].
  destruct u as [[|x l]|e'|]; cbn in He; try done.
  destruct (u64_add 0 x) as [t|e'|] eqn:Ha; cbn in He; [|by apply expect_no_err in Ha|done].
  destruct (sum_u64 t l) as [t'|e'|] eqn:Hs; cbn in He; [done|by apply sum_u64_no_err in Hs|done].
Qed.
Lemma wait_for_funding_prefix w before l l' : wait_for_funding w l = wait_for_funding w l' ->
  wait_for_funding w (before ++ l) = wait_for_funding w (before ++ l').
Proof using Type.
  intros Heq. induction before as [|[u|h] before IH]; cbn [app wait_for_funding]; [done| |by rewrite IH].
  destruct (map_err Msg _) as [[]|e|]; [done|exact IH|done..].
Qed.

Section Task.
Context `{PL : !PeerDlcLib} `{GL : !AcceptingDlcLib} (now : OffsetDateTime) (id : Uuid) (coordinator : PublicKey).
Context (post : AppOrder.t -> option RequestedParams.t -> outcome string unit).

(** The task told the user interface this much. *)
Definition told (tasks : list FundingChannelTask.t) (s : AppNode.t) : AppNode.t :=
  AppNode.mk (AppState.mk (AppState.db (AppNode.app s))
    (AppState.published (AppNode.app s) ++ map EventInternal.FundingChannelNotification tasks))
    (AppNode.dlc s) (AppNode.events s) (AppNode.outbox s).

Lemma told_run task (s : AppNode.t) : funding_notice task s = (Ok tt, told [task] s).
Proof using Type. done. Qed.
Lemma told_told l l' (s : AppNode.t) : told l' (told l s) = told (l ++ l') s.
Proof using Type. unfold told. cbn. by rewrite map_app, app_assoc. Qed.

(** The order book is only asked about the order that is submitted. *)
Lemma submit_order_asks (ask ask' : AppOrder.t -> outcome string unit) order (s : AppNode.t) : ask' order = ask order ->
  submit_order coordinator ask' order s = submit_order coordinator ask order s.
Proof using Type. intros Hask. unfold submit_order, submit_order_internal. by rewrite Hask. Qed.

(** What the user interface is told of a submission. *)
Definition reported (submitted : outcome SubmitOrderError Uuid) : list FundingChannelTask.t :=
  match submitted with
  | Ok order_id => [FundingChannelTask.OrderCreated (uuid_to_string order_id)]
  | Err _ => [FundingChannelTask.Failed "Failed at posting the order"]
  | Panic => []
  end.

(** C28: the order of a trader without funds is submitted once, and only when a watcher
    returns: when the outputs of the address add up to the required amount or the
    message that the invoice was paid arrives - or a watcher fails.  The task then
    submits that order and does nothing else but report on it; all that the order
    book is ever asked is to take this order with the two reserves and, in the second
    case or when the watcher of the invoice fails, the pre-image.  So the pre-image
    leaves the app in no other case.  As long as nothing of this happens, the task has
    told the user interface that it waits and has done nothing else, whatever the
    order book would answer. *)
Theorem order_follows_funding w events (s s' : AppNode.t) r : r <> Panic ->
  funding_task now id coordinator post w events s = (r, s') ->
  let order := order_from now id (Unfunded.order w) in
  (Forall (still_waiting w) events /\ r = Ok tt /\ s' = told [FundingChannelTask.Pending] s /\
   forall post', funding_task now id coordinator post' w events s = (r, s')) \/
  (exists before e after, events = before ++ e :: after /\ Forall (still_waiting w) before /\
    (funded w e \/ watch_failed e) /\
    let params := RequestedParams.mk (Unfunded.trader_reserve w) (Unfunded.coordinator_reserve w)
      (shared_pre_image w e) in
    (exists submitted s1,
       submit_order coordinator (fun order => post order (Some params)) order
         (told [FundingChannelTask.Pending; FundingChannelTask.Funded] s) = (submitted, s1) /\
       r = Ok tt /\ s' = told (reported submitted) s1) /\
    forall post', post' order (Some params) = post order (Some params) ->
      funding_task now id coordinator post' w events s = (r, s')).
Proof.
  intros Hr Hrun. cbn zeta.
  assert (Htask : forall post', funding_task now id coordinator post' w events s =
    match wait_for_funding w events with
    | Ok (Some p) => submit_funded now id coordinator post' w p (told [FundingChannelTask.Pending; FundingChannelTask.Funded] s)
    | Ok None => (Ok tt, told [FundingChannelTask.Pending] s)
    | Err e => (Err e, told [FundingChannelTask.Pending] s)
    | Panic => (Panic, told [FundingChannelTask.Pending] s)
    end).
  { intros post'. unfold funding_task, mbind, M_bind, lift. rewrite told_run.
    destruct (wait_for_funding w events) as [[p|]|e|]; [|done..]. by rewrite told_run, told_told. }
  pose proof (Htask post) as Hpost. rewrite Hrun in Hpost.
  destruct (wait_for_funding w events) as [p|e|] eqn:Hw; [|by apply wait_for_funding_no_err in Hw|congruence].
  apply wait_for_funding_ok in Hw. destruct p as [p|]; [|].
  - right. destruct Hw as (before & e & after & Hevents & Hb & He & ->). exists before, e, after. split_and!; [done..| |].
    + unfold submit_funded in Hpost. destruct (submit_order _ _ _ _) as [submitted s1]. exists submitted, s1.
      split; [done|]. destruct submitted as [order_id|err|]; rewrite ?told_run in Hpost; by simplify_eq.
    + intros post' Hsame. rewrite Htask, Hpost. unfold submit_funded. by erewrite (submit_order_asks (fun order => post order _) (fun order => post' order _)) by exact Hsame.
  - left. injection Hpost as -> ->. split_and!; [done..|]. exact Htask.
Qed.
End Task.
End FundingSpec.

(** ** A payment that never came *)

Section FailedWatch.
Context `{DL : DecimalLib} `{BL : BitcoinLib} `{IL : IdLib} `{DLC : !DlcLib} `{ML : !DlcMessagesLib}.
Context `{PL : !PeerDlcLib} `{GL : !AcceptingDlcLib} `{AD : AddressLib} `{LL : LndLib} `{PLaws : !PreImageLaws PI}.
Context (now : OffsetDateTime) (id : Uuid) (coordinator : PublicKey).
Context (post : AppOrder.t -> option RequestedParams.t -> outcome string unit).

(** The watch of an invoice the coordinator made. *)
Definition watches_invoice (w : Unfunded.t) (invoice : HodlInvoice.t) : Prop :=
  Unfunded.pre_image w = Some (HodlInvoice.pre_image invoice) /\ Unfunded.r_hash w = HodlInvoice.r_hash invoice.

Lemma own_pre_image_decodes random request node_pubkey amount invoice : length random = 32%nat ->
  get_hodl_invoice_from_coordinator node_pubkey random request amount = Ok invoice ->
  from_url_safe_encoded_pre_image (HodlInvoice.pre_image invoice) = Ok (PreImage.mk random (HodlInvoice.r_hash invoice)).
Proof using PLaws.
  intros Hlen (payment_request & _ & [= <-])%outcome_bind_ok.
  unfold from_url_safe_encoded_pre_image, vec_to_hex_array, get_base64_encoded_pre_image, create_pre_image. cbn.
  rewrite (url_safe_roundtrip (PI := PI)). cbn. by rewrite Hlen.
Qed.

(** A watcher that fails counts as the payment.  When the subscription to payments
    fails - it need only have fallen behind - the app does exactly what it does when the
    payment arrives, so it submits the order and shares the pre-image of an invoice nobody
    paid; the coordinator takes that pre-image for the amount of the invoice, in whichever
    state it recorded it.  When the address cannot be looked up, the app does exactly
    what it does when the whole amount has arrived. *)
Theorem failed_watch_counts_as_payment w before after after' text (s : AppNode.t)
    node_pubkey random request invoice accepted_at order_id row (server : Server.t) :
  length random = 32%nat ->
  get_hodl_invoice_from_coordinator node_pubkey random request (Unfunded.funding_amount w) = Ok invoice ->
  watches_invoice w invoice -> 0 <= Unfunded.funding_amount w < 2 ^ 64 ->
  head (List.filter (has_r_hash (HodlInvoice.r_hash invoice)) (rows (Server.db server))) = Some row ->
  let task := funding_task now id coordinator post w in
  task (before ++ Received (Err text) :: after) s = task (before ++ Received (Ok (HodlInvoice.r_hash invoice)) :: after') s /\
  task (before ++ Polled (Err text) :: after) s = task (before ++ Polled (Ok [Unfunded.funding_amount w]) :: after') s /\
  shared_pre_image w (Received (Err text)) = Some (HodlInvoice.pre_image invoice) /\
  (accept_funding accepted_at (Some (HodlInvoice.pre_image invoice)) order_id server).1 =
    Ok (Some (as_u64 (HodlInvoiceRow.amount_sats row))).
Proof.
  intros Hlen Hinv [Hp Hr] Hamount Hrow. cbn zeta.
  assert (Htask : forall l l', wait_for_funding w l = wait_for_funding w l' ->
    funding_task now id coordinator post w (before ++ l) s = funding_task now id coordinator post w (before ++ l') s)
    by (intros l l' Hl; unfold funding_task; by rewrite (wait_for_funding_prefix w before l l' Hl)).
  split; [|split; [|split]].
  - apply Htask. cbn. by rewrite Hr, bool_decide_true.
  - apply Htask. cbn. unfold u64_add, checked_u64. rewrite (proj2 (in_u64_spec _)) by lia. cbn. by rewrite Z.leb_refl.
  - exact Hp.
  - unfold accept_funding. unfold mbind, M_bind, lift, with_err, server_db.
    rewrite (own_pre_image_decodes _ _ _ _ _ Hlen Hinv). cbn.
    unfold update_hodl_invoice_to_accepted, mbind, M_bind, with_err, fmap, M_fmap. rewrite get_result_run. cbn. by rewrite Hrow.
Qed.
End FailedWatch.

(** ** A trader that pays an invoice *)

Definition demo_random : list Byte.byte := String.list_byte_of_string demo_secret.
Definition demo_invoice_request : HodlInvoiceParams.t (H := demo_id) -> outcome string string := fun _ => Ok "lnbc"%string.
Definition demo_first_order : NewAppOrder.t :=
  NewAppOrder.mk (f32_of_Z 1) (f32_of_Z 40) BtcUsd Long AppOrderType.Market false.
Definition demo_unfunded : Unfunded.t := Unfunded.mk demo_first_order 20 10 5000 (Some demo_secret) demo_secret.
Definition demo_funding_post (order : AppOrder.t) (params : option RequestedParams.t) : outcome string unit := Ok tt.
Definition demo_waits : list WatchEvent := [Polled (Ok [4000; 999])].

Example order_follows_funding_witness :
  exists s', funding_task 5 70 demo_peer demo_funding_post demo_unfunded (demo_waits ++ [Received (Ok demo_secret)]) demo_empty_node = (Ok tt, s') /\
    exists submitted s1,
      submit_order demo_peer (fun order => demo_funding_post order (Some (RequestedParams.mk 10 20 (Some demo_secret))))
        (order_from 5 70 demo_first_order) (told [FundingChannelTask.Pending; FundingChannelTask.Funded] demo_empty_node)
        = (submitted, s1) /\ s' = told (reported submitted) s1.
Proof.
  destruct (succeeds (funding_task 5 70 demo_peer demo_funding_post demo_unfunded
    (demo_waits ++ [Received (Ok demo_secret)])) demo_empty_node) as ([] & s' & Hs).
  { by vm_compute. }
  exists s'. split; [exact Hs|].
  destruct (order_follows_funding 5 70 demo_peer demo_funding_post demo_unfunded _ _ _ _ (fun H : Ok tt = Panic => ltac:(discriminate H)) Hs)
    as [[Hw _]|(before & e & after & Heq & Hb & He & (submitted & s1 & Hrun & _ & Hs1) & _)].
  - apply Forall_app in Hw as [_ Hw%Forall_inv]. by exfalso; apply Hw.
  - assert (e = Received (Ok demo_secret)) as ->; [|exists submitted, s1; split; [exact Hrun|exact Hs1]].
    destruct before as [|x before]; injection Heq as <- Heq; [destruct He as [[_ He]|[]]; by exfalso; apply He|].
    destruct before as [|y before]; injection Heq as <- Heq; [reflexivity|destruct before; discriminate Heq].
Defined.

Definition demo_invoiced : Server.t (H := demo_decimal) (H1 := demo_address) (H2 := demo_lnd) :=
  Server.mk (set_rows [HodlInvoiceRow.mk 1 "alice" demo_secret 5000 None 0 None DbInvoiceState.Open None] empty_db) true [] [] [] [] [].

(** The invoice is open: nobody paid it. *)
Example failed_watch_counts_as_payment_witness :
  funding_task 5 70 demo_peer demo_funding_post demo_unfunded (demo_waits ++ [Received (Err "lagged"%string)]) demo_empty_node =
    funding_task 5 70 demo_peer demo_funding_post demo_unfunded (demo_waits ++ [Received (Ok demo_secret)]) demo_empty_node /\
  (accept_funding 6 (Some demo_secret) 70 demo_invoiced).1 = Ok (Some 5000).
Proof.
  destruct (failed_watch_counts_as_payment (PLaws := demo_pre_image_laws) 5 70 demo_peer demo_funding_post demo_unfunded demo_waits [] []
    "lagged" demo_empty_node ("alice"%string : PublicKey (IdLib := demo_id)) demo_random demo_invoice_request
    (HodlInvoice.mk "lnbc" demo_secret demo_secret 5000) 6 70
    (HodlInvoiceRow.mk 1 "alice" demo_secret 5000 None 0 None DbInvoiceState.Open None) demo_invoiced)
    as (Hsame & _ & _ & Hacc).
  - reflexivity.
  - reflexivity.
  - split; reflexivity.
  - cbn. lia.
  - reflexivity.
  - split; [exact Hsame|exact Hacc].
Defined.
