(* ===== verification/Leaderboard.v ===== *)
(** * The leaderboard: [coordinator/src/leaderboard.rs], [routes.rs]

    The traders with the highest or lowest profit or volume among the positions that
    were closed, over the positions opened between two dates. *)

From stdpp Require Import base list option strings sorting.
From Stdlib Require Import ZArith QArith Lia.
From S2P Require Import Prelude Machine External Demo Commons Sorting SqlTypes Schema Db Referrals PositionsDb.
From S2P Require Import Trading TradeInvoices OrderEntry.

#[local] Open Scope Z_scope.
#[local] Open Scope decimal_scope.

Inductive LeaderBoardCategory := Pnl | Volume.

Module LeaderBoardEntry.
Record t `{DecimalLib} `{IdLib} := mk {
  trader : PublicKey;
  nickname : string;
  pnl : Decimal;
  volume : Decimal;
  rank : nat;
}.
#[global] Arguments mk {_ _}.
End LeaderBoardEntry.

Module LeaderBoardQueryParams.
Record t := mk {
  top : option nat;
  reverse : option bool;
  category : option LeaderBoardCategory;
  start : option string;
  end_ : option string;
}.
End LeaderBoardQueryParams.

Section Leaderboard.
Context `{DL : DecimalLib} `{IL : IdLib}.

(** The order in which a [HashMap] yields its entries. *)
Context (hash_order : list (PublicKey * list Position.t) -> list (PublicKey * list Position.t)).

(** [entry(trader_id).or_insert(Vec::new()).push(position)]. *)
Fixpoint push_position (position : Position.t) (positions_by_trader : list (PublicKey * list Position.t))
    : list (PublicKey * list Position.t) :=
  match positions_by_trader with
  | [] => [(Position.trader position, [position])]
  | (trader_id, positions) :: others =>
    if bool_decide (trader_id = Position.trader position) then (trader_id, positions ++ [position]) :: others
    else (trader_id, positions) :: push_position position others
  end.
Definition by_trader (positions : list Position.t) : list (PublicKey * list Position.t) :=
  fold_left (fun m position => push_position position m) positions [].

Definition in_window (start end_ : OffsetDateTime) (pos : Position.t) : bool :=
  (start <? Position.creation_timestamp pos) && (Position.creation_timestamp pos <? end_).
Definition load_positions (start end_ : OffsetDateTime) : Sql (list (PublicKey * list Position.t)) :=
  positions ← get_all_closed_positions;
  mret (by_trader (List.filter (in_window start end_) positions)).

(** [Iterator::sum] of decimals. *)
Fixpoint sum_of {E} (f : Position.t -> outcome E Decimal) (acc : Decimal) (l : list Position.t) : outcome E Decimal :=
  match l with
  | [] => Ok acc
  | p :: l => x ← f p; acc ← acc +! x; sum_of f acc l
  end.
Definition pnl_of {E} (p : Position.t) : outcome E Decimal :=
  Ok (d_from_i64 (default 0 (Position.trader_realized_pnl_sat p))).
Definition volume_of {E} (p : Position.t) : outcome E Decimal := expect (d_from_f32 (Position.quantity p)).
Definition entry_of {E} (group : PublicKey * list Position.t) : outcome E LeaderBoardEntry.t :=
  pnl ← sum_of pnl_of d_zero group.2;
  volume ← sum_of volume_of d_zero group.2;
  Ok (LeaderBoardEntry.mk group.1 EmptyString pnl volume 0).

Definition value (category : LeaderBoardCategory) (e : LeaderBoardEntry.t) : Decimal :=
  match category with Pnl => LeaderBoardEntry.pnl e | Volume => LeaderBoardEntry.volume e end.
Definition entry_cmp (category : LeaderBoardCategory) (reverse : bool) (a b : LeaderBoardEntry.t) : comparison :=
  if reverse then d_cmp (value category a) (value category b) else d_cmp (value category b) (value category a).

Definition with_rank (rank : nat) (e : LeaderBoardEntry.t) : LeaderBoardEntry.t :=
  LeaderBoardEntry.mk (LeaderBoardEntry.trader e) (LeaderBoardEntry.nickname e) (LeaderBoardEntry.pnl e)
    (LeaderBoardEntry.volume e) rank.
Definition sort_leader_board {E} (top : nat) (category : LeaderBoardCategory) (reverse : bool)
    (positions : list (PublicKey * list Position.t)) : outcome E (list LeaderBoardEntry.t) :=
  leader_board ← traverse entry_of (hash_order positions);
  let leader_board := sort_by (entry_cmp category reverse) leader_board in
  let top_x := if Nat.ltb (length leader_board) top then length leader_board else top in
  Ok (imap (fun index entry => with_rank (index + 1) entry) (take top_x leader_board)).

Definition with_nickname (entry : LeaderBoardEntry.t) : Sql LeaderBoardEntry.t := fun d =>
  let '(user, d) := get_user (LeaderBoardEntry.trader entry) d in
  match user with
  | Panic => (Panic, d)
  | _ =>
    let nickname := match user with Ok (Some user) => default EmptyString (UserRow.nickname user) | _ => EmptyString end in
    (Ok (LeaderBoardEntry.mk (LeaderBoardEntry.trader entry) nickname (LeaderBoardEntry.pnl entry)
       (LeaderBoardEntry.volume entry) (LeaderBoardEntry.rank entry)), d)
  end.
Fixpoint with_nicknames (entries : list LeaderBoardEntry.t) : Sql (list LeaderBoardEntry.t) :=
  match entries with
  | [] => mret []
  | entry :: entries =>
    entry ← with_nickname entry;
    entries ← with_nicknames entries;
    mret (entry :: entries)
  end.
Definition generate_leader_board (top : nat) (category : LeaderBoardCategory) (reverse : bool)
    (start end_ : OffsetDateTime) : Sql (list LeaderBoardEntry.t) :=
  positions ← load_positions start end_;
  leader_board ← lift (sort_leader_board top category reverse positions);
  with_nicknames leader_board.

(** [routes::get_leaderboard]; [parse_date] reads a date as its midnight. *)
Definition parse_offset_datetime (parse_date : string -> option OffsetDateTime) (date_str : string)
    : outcome Anyhow (option OffsetDateTime) :=
  if bool_decide (date_str = EmptyString) then Ok None
  else date ← ok_or (Msg "date") (parse_date date_str); Ok (Some date).
Definition get_leaderboard (parse_date : string -> option OffsetDateTime) (now : OffsetDateTime)
    (params : LeaderBoardQueryParams.t) : M Db.t AppError (list LeaderBoardEntry.t) :=
  let reverse := default false (LeaderBoardQueryParams.reverse params) in
  let top := default 5%nat (LeaderBoardQueryParams.top params) in
  let bad_date := map_err (fun _ => BadRequest "Invalid start date provided") in
  start ← lift (bad_date (parse_offset_datetime parse_date (default EmptyString (LeaderBoardQueryParams.start params))));
  let start := default 0 start in
  end_ ← lift (bad_date (parse_offset_datetime parse_date (default EmptyString (LeaderBoardQueryParams.end_ params))));
  let end_ := default now end_ in
  let category := default Pnl (LeaderBoardQueryParams.category params) in
  with_err (fun _ => InternalServerError "Could not build leaderboard")
    (generate_leader_board top category reverse start end_).
End Leaderboard.

(** ** What the board shows *)

Section Groups.
Context `{IL : IdLib}.

(** The positions grouped under a trader. *)
Definition group (trader : PublicKey) (m : list (PublicKey * list Position.t)) : list Position.t :=
  default [] (snd <$> List.find (fun g => bool_decide (g.1 = trader)) m).
Definition grouped (m : list (PublicKey * list Position.t)) : Prop := NoDup m.*1 /\ Forall (fun g => g.2 <> []) m.

Lemma group_push p m t : group t (push_position p m) =
  if bool_decide (Position.trader p = t) then group t m ++ [p] else group t m.
Proof using Type.
  unfold group. induction m as [|[t' ps] m IH]; cbn; [by case_bool_decide|].
  repeat (case_bool_decide; cbn in *); try done; congruence.
Qed.
Lemma push_keys p m t : t ∈ (push_position p m).*1 <-> t = Position.trader p \/ t ∈ m.*1.
Proof using Type.
  induction m as [|[t' ps] m IH]; cbn; [rewrite list_elem_of_singleton, elem_of_nil; tauto|].
  case_bool_decide as Ht; cbn; rewrite !elem_of_cons; [subst; tauto|]. rewrite IH. tauto.
Qed.
Lemma push_grouped p m : grouped m -> grouped (push_position p m).
Proof using Type.
  intros [Hnd Hne]. split.
  - clear Hne. induction m as [|[t ps] m IH]; cbn; [apply NoDup_singleton|]. apply NoDup_cons in Hnd as [Hnot Hnd].
    case_bool_decide as Ht; cbn; apply NoDup_cons; [done|]. split; [|by apply IH]. rewrite push_keys. intros [->|?]; [by apply Ht|by apply Hnot].
  - clear Hnd. induction Hne as [|[t ps] m Hps Hne IH]; cbn; [by repeat constructor|].
    case_bool_decide; constructor; cbn in *; try done. by destruct ps.
Qed.
Lemma grouped_in m t ps : grouped m -> In (t, ps) m <-> group t m = ps /\ ps <> [].
Proof using Type.
  intros [Hnd Hne]. unfold group. induction m as [|[t' ps'] m IH]; cbn; [naive_solver|].
  apply NoDup_cons in Hnd as [Hnot Hnd]. apply Forall_cons in Hne as [Hps Hne]. cbn in *. specialize (IH Hnd Hne).
  case_bool_decide as Ht; cbn.
  - subst t'. split; [|naive_solver]. intros [[= ->]|Hin]; [done|]. exfalso. apply Hnot, list_elem_of_fmap.
    exists (t, ps). split; [done|]. by apply list_elem_of_In.
  - rewrite <-IH. naive_solver.
Qed.

Lemma by_trader_spec positions : grouped (by_trader positions) /\
  forall t, group t (by_trader positions) = List.filter (fun p => bool_decide (Position.trader p = t)) positions.
Proof using Type.
  induction positions as [|p l [Hg Ht]] using rev_ind; [split; [by repeat constructor|done]|].
  unfold by_trader in *. rewrite fold_left_app. cbn [fold_left]. split; [by apply push_grouped|].
  intros t. rewrite group_push, Ht, List.filter_app. cbn. case_bool_decide; [done|by rewrite app_nil_r].
Qed.
End Groups.

Section LeaderboardSpec.
Context `{DLaws : DecimalLaws} `{ILaws : IdLaws}.
Context (hash_order : list (PublicKey * list Position.t) -> list (PublicKey * list Position.t)).
Context (category : LeaderBoardCategory) (reverse : bool).

(** [x] may stand before [y] on the board. *)
Definition not_worse (x y : LeaderBoardEntry.t) : Prop :=
  let '(x, y) := if reverse then (x, y) else (y, x) in (dval (value category x) <= dval (value category y))%Q.

Lemma entry_cmp_not_worse x y : not_after (entry_cmp category reverse) x y <-> not_worse x y.
Proof using DLaws.
  unfold not_after, entry_cmp, not_worse. destruct reverse; rewrite d_cmp_gt;
    (split; [apply Qnot_lt_le|intros Hle Hlt; by apply Qlt_not_le in Hlt]).
Qed.
#[local] Instance entry_cmp_order : CmpOrder (entry_cmp category reverse).
Proof using DLaws.
  split.
  - intros x y. unfold entry_cmp. by destruct reverse; rewrite d_cmp_antisym.
  - intros x y z. rewrite !entry_cmp_not_worse. unfold not_worse. destruct reverse; intros; by eapply Qle_trans.
Qed.

(** The ranks, and what entries share apart from rank and nickname. *)
Definition same_entry (e e' : LeaderBoardEntry.t) : Prop :=
  LeaderBoardEntry.trader e' = LeaderBoardEntry.trader e /\ LeaderBoardEntry.pnl e' = LeaderBoardEntry.pnl e /\
  LeaderBoardEntry.volume e' = LeaderBoardEntry.volume e.

Lemma with_nicknames_run entries (d d' : Db.t) board : with_nicknames entries d = (Ok board, d') ->
  d' = d /\ Forall2 (fun e e' => same_entry e e' /\ LeaderBoardEntry.rank e' = LeaderBoardEntry.rank e) entries board.
Proof using Type.
  revert d board. induction entries as [|e entries IH]; intros d board; cbn [with_nicknames]; [by intros [= <- <-]|].
  intros (e' & d1 & He & (l & d2 & Hl & [= <- <-])%M_bind_ok)%M_bind_ok.
  unfold with_nickname in He. destruct (get_user _ d) as [u d0] eqn:Hu.
  assert (d0 = d) as -> by (eapply read_only_run; [|exact Hu]; unfold get_user; solve_steps).
  assert (d1 = d) as -> by (by destruct u; injection He).
  apply IH in Hl as [-> Hl]. split; [done|]. constructor; [|done]. destruct u as [[u|]|err|]; cbn in He; [by injection He as <-..|discriminate He].
Qed.

Lemma ranked entries k : map LeaderBoardEntry.rank (imap (fun index entry => with_rank (k + index + 1) entry) entries) =
    seq (k + 1) (length entries) /\
  Forall2 same_entry entries (imap (fun index entry => with_rank (k + index + 1) entry) entries).
Proof using Type.
  revert k. induction entries as [|e entries IH]; intros k; cbn; [by split|].
  destruct (IH (S k)) as [Hr Hs]. split.
  - f_equal; [lia|]. change (S (k + 1)) with (S k + 1)%nat. rewrite <-Hr. f_equal. apply imap_ext. intros i e' _. cbn. f_equal. lia.
  - constructor; [by split_and!|]. erewrite imap_ext; [exact Hs|]. intros i e' _. cbn. f_equal. lia.
Qed.

(** The closed positions of a trader that were opened in the window. *)
Definition shown_positions (start end_ : OffsetDateTime) (positions : list Position.t) (t : PublicKey) : list Position.t :=
  List.filter (fun p => bool_decide (Position.trader p = t)) (List.filter (in_window start end_) positions).
(** An entry shows the sums over them. *)
Definition sums_up (positions : list Position.t) (e : LeaderBoardEntry.t) : Prop :=
  sum_of (E := SqlError) pnl_of d_zero positions = Ok (LeaderBoardEntry.pnl e) /\
  sum_of (E := SqlError) volume_of d_zero positions = Ok (LeaderBoardEntry.volume e).

Lemma sums_up_same positions e e' : same_entry e e' -> sums_up positions e -> sums_up positions e'.
Proof using Type. intros (_ & Hp & Hv) [Hpnl Hvol]. split; congruence. Qed.
Lemma not_worse_same x x' y y' : same_entry x x' -> same_entry y y' -> not_worse x y -> not_worse x' y'.
Proof using Type.
  intros (_ & Hp & Hv) (_ & Hp' & Hv'). unfold not_worse, value. destruct reverse, category; congruence.
Qed.

Lemma strongly_sorted_iff {A} (R S : A -> A -> Prop) l : (forall x y, R x y <-> S x y) -> StronglySorted R l -> StronglySorted S l.
Proof using Type.
  intros HRS. induction 1 as [|x l Hl IH Hall]; constructor; [done|]. eapply Forall_impl; [exact Hall|]. intros y. apply HRS.
Qed.

(** The sorted entries: one per trader with positions. *)
Lemma sorted_entries groups entries : (forall l, hash_order l ≡ₚ l) -> grouped groups ->
  traverse (E := SqlError) entry_of (hash_order groups) = Ok entries ->
  let sorted := sort_by (entry_cmp category reverse) entries in
  StronglySorted not_worse sorted /\ NoDup (map LeaderBoardEntry.trader sorted) /\
  (forall e, In e sorted -> group (LeaderBoardEntry.trader e) groups <> [] /\ sums_up (group (LeaderBoardEntry.trader e) groups) e) /\
  (forall t, group t groups <> [] -> exists e, In e sorted /\ LeaderBoardEntry.trader e = t).
Proof using DLaws.
  intros Hhash Hg Hent. cbn zeta. apply traverse_ok in Hent.
  pose proof (sort_by_permutation (entry_cmp category reverse) entries) as Hperm. specialize (Hhash groups).
  assert (Htr : map LeaderBoardEntry.trader entries = (hash_order groups).*1).
  { clear -Hent. induction Hent as [|[t ps] e l l' He Hl IH]; cbn; [done|]. f_equal; [|done].
    unfold entry_of in He. apply outcome_bind_ok in He as (x & _ & (y & _ & [= <-])%outcome_bind_ok). done. }
  split_and!.
  - eapply strongly_sorted_iff; [apply entry_cmp_not_worse|apply sort_by_sorted, _].
  - rewrite Hperm, Htr, Hhash. apply Hg.
  - intros e He. rewrite <-list_elem_of_In, Hperm, list_elem_of_lookup in He. destruct He as [i Hi].
    destruct (Forall2_lookup_r _ _ _ _ _ Hent Hi) as ([t ps] & Hgi & He).
    apply list_elem_of_lookup_2 in Hgi. rewrite Hhash, list_elem_of_In, grouped_in in Hgi by done. destruct Hgi as [<- Hne].
    apply outcome_bind_ok in He as (x & Hx & (y & Hy & [= <-])%outcome_bind_ok). cbn in *. by split.
  - intros t Ht. assert (Hin : In (t, group t groups) groups) by (by apply grouped_in).
    generalize dependent (group t groups). intros ps Ht Hin. apply list_elem_of_In in Hin. rewrite <-Hhash in Hin. apply list_elem_of_lookup in Hin as [i Hi].
    destruct (Forall2_lookup_l _ _ _ _ _ Hent Hi) as (e & Hei & He). exists e. split.
    + rewrite <-list_elem_of_In, Hperm. by eapply list_elem_of_lookup_2.
    + by apply outcome_bind_ok in He as (x & Hx & (y & Hy & [= <-])%outcome_bind_ok).
Qed.

Lemma strongly_sorted_app {A} (R : A -> A -> Prop) l l' : StronglySorted R (l ++ l') ->
  StronglySorted R l /\ forall x y, In x l -> In y l' -> R x y.
Proof using Type.
  induction l as [|x l IH]; cbn; [intros _; split; [constructor|done]|].
  intros Hs. inversion Hs as [|? ? Hl Hall]; subst. destruct (IH Hl) as [Hl1 Hl2]. rewrite Forall_app in Hall. split.
  - constructor; [done|apply Hall].
  - intros a b [->|Ha] Hb; [|by apply Hl2]. destruct Hall as [_ Hall]. rewrite Forall_forall in Hall.
    by apply Hall, list_elem_of_In.
Qed.
Lemma same_entries_sorted l l' : Forall2 same_entry l l' -> StronglySorted not_worse l -> StronglySorted not_worse l'.
Proof using Type.
  induction 1 as [|x x' l l' Hx Hl IH]; intros Hs; [constructor|]. inversion Hs as [|? ? Hs' Hall]; subst.
  constructor; [by apply IH|]. clear -Hx Hl Hall. induction Hl as [|y y' l l' Hy Hl IH]; [constructor|].
  apply Forall_cons in Hall as [Hxy Hall]. constructor; [by eapply not_worse_same|by apply IH].
Qed.
Lemma same_entries_in l l' e' : Forall2 same_entry l l' -> In e' l' -> exists e, In e l /\ same_entry e e'.
Proof using Type. induction 1; cbn; naive_solver. Qed.
Lemma same_entries_traders l l' : Forall2 same_entry l l' -> map LeaderBoardEntry.trader l' = map LeaderBoardEntry.trader l.
Proof using Type. induction 1 as [|x x' l l' (Ht & _)]; cbn; congruence. Qed.

(** What is shown of sorted entries. *)
Lemma board_of_sorted top entries (d d' : Db.t) board :
  with_nicknames (imap (fun index entry => with_rank (index + 1) entry)
    (take (if Nat.ltb (length entries) top then length entries else top) entries)) d = (Ok board, d') ->
  d' = d /\ map LeaderBoardEntry.rank board = seq 1 (length board) /\ Forall2 same_entry (take top entries) board.
Proof using Type.
  assert (Htake : take (if Nat.ltb (length entries) top then length entries else top) entries = take top entries).
  { destruct (Nat.ltb_spec (length entries) top); [|done]. by rewrite !take_ge by lia. }
  rewrite Htake. intros [-> Hn]%with_nicknames_run. destruct (ranked (take top entries) 0) as [Hr Hs]. cbn in Hr, Hs.
  split; [done|]. split.
  - assert (Hranks : map LeaderBoardEntry.rank board =
      map LeaderBoardEntry.rank (imap (fun index entry => with_rank (index + 1) entry) (take top entries))).
    { clear -Hn. induction Hn as [|x x' l l' [_ Hx] Hl IH]; cbn; congruence. }
    rewrite Hranks, Hr. f_equal. by rewrite <-(Forall2_length _ _ _ Hn), length_imap.
  - clear -Hn Hs. revert board Hn. induction Hs as [|x y l l' (H1 & H2 & H3) Hl IH]; intros board Hn.
    + apply Forall2_nil_inv_l in Hn as ->. constructor.
    + apply Forall2_cons_inv_l in Hn as (z & board' & [(K1 & K2 & K3) _] & Hn & ->). constructor; [|by apply IH].
      split_and!; congruence.
Qed.

(** C32: the leaderboard reads the database and shows the best traders.  Its entries are
    ranked from 1 on and stand in the order of their profit or volume, each is of another
    trader and shows the sums over all closed positions the trader opened in the window (of the
    volume and profit the code computes for each, [sums_up]);
    a trader with such positions who is missing is no better than anyone on the board,
    which then has as many entries as were asked for.  All this in whichever order a hash
    map yields the traders. *)
Theorem leader_board_is_top top start end_ (d d' : Db.t) board : (forall l, hash_order l ≡ₚ l) ->
  generate_leader_board hash_order top category reverse start end_ d = (Ok board, d') ->
  exists positions, get_all_closed_positions d = (Ok positions, d) /\ d' = d /\
    map LeaderBoardEntry.rank board = seq 1 (length board) /\ StronglySorted not_worse board /\
    NoDup (map LeaderBoardEntry.trader board) /\
    (forall e, In e board -> let shown := shown_positions start end_ positions (LeaderBoardEntry.trader e) in
      shown <> [] /\ sums_up shown e) /\
    (forall t, shown_positions start end_ positions t <> [] -> In t (map LeaderBoardEntry.trader board) \/
      length board = top /\ exists e, LeaderBoardEntry.trader e = t /\
        sums_up (shown_positions start end_ positions t) e /\ forall b, In b board -> not_worse b e).
Proof.
  intros Hhash (groups & d1 & Hload & (entries0 & d2 & Hsort & Hnick)%M_bind_ok)%M_bind_ok.
  apply M_bind_ok in Hload as (positions & d0 & Hpos & [= <- <-]).
  assert (d0 = d) as -> by (eapply read_only_run; [|exact Hpos]; unfold get_all_closed_positions, positions_from_rows; solve_steps).
  apply lift_ok in Hsort as [Hsort ->].
  apply outcome_bind_ok in Hsort as (entries & Hent & [= <-]). apply board_of_sorted in Hnick as (-> & Hranks & Hsame).
  destruct (by_trader_spec (List.filter (in_window start end_) positions)) as [Hgr Hgroup].
  destruct (sorted_entries _ _ Hhash Hgr Hent) as (Hsorted & Hnd & Hsums & Hall).
  set (sorted := sort_by _ entries) in *. pose proof (take_drop top sorted) as Hsplit.
  rewrite <-Hsplit in Hsorted. apply strongly_sorted_app in Hsorted as [Hs1 Hs2].
  exists positions. split_and!; try done.
  - by eapply same_entries_sorted.
  - rewrite (same_entries_traders _ _ Hsame). rewrite <-Hsplit, map_app in Hnd. by apply NoDup_app in Hnd as [? _].
  - intros b Hb. destruct (same_entries_in _ _ _ Hsame Hb) as (e & He & Hsm). cbn zeta. unfold shown_positions.
    rewrite <-Hgroup. destruct Hsm as (Htr & Hsm'). rewrite Htr. destruct (Hsums e) as [Hne Hsu].
    { rewrite <-Hsplit. apply in_app_iff. by left. }
    split; [done|]. apply (sums_up_same _ e); [|done]. by split.
  - intros t Ht. unfold shown_positions in *. rewrite <-Hgroup in *. destruct (Hall t Ht) as (e & He & <-).
    rewrite <-Hsplit in He. apply in_app_iff in He as [He|He].
    + left. rewrite (same_entries_traders _ _ Hsame). by apply in_map.
    + right. split.
      * rewrite <-(Forall2_length _ _ _ Hsame), length_take. enough (top <= length sorted)%nat by lia.
        destruct (decide (length sorted <= top)%nat); [|lia]. by rewrite drop_ge in He by lia.
      * exists e. split; [done|]. split.
        -- apply Hsums. rewrite <-Hsplit. apply in_app_iff. by right.
        -- intros b Hb. destruct (same_entries_in _ _ _ Hsame Hb) as (e' & He' & Hsm).
           apply (not_worse_same e' b e e Hsm); [by split_and!|]. by apply Hs2.
Qed.
End LeaderboardSpec.

(** ** Two traders *)

Definition demo_closed (id pnl : Z) (trader : string) : PositionRow.t :=
  PositionRow.mk id DbContractSymbol.BtcUsd (f32_of_Z 2) (f32_of_Z 100) DbDirection.Long
    (f32_of_Z 20000) (f32_of_Z 10000) DbPositionState.Closed 250000 50 1000 0 trader None (Some pnl) None None
    (f32_of_Z 2) 250000 false (f32_of_Z 30000) 1500.
Definition demo_closed_db : Db.t :=
  set_rows [demo_closed 1 500 "alice"; demo_closed 2 700 "bob"; demo_closed 3 300 "alice"] empty_db.

(** Alice earned 800 with two positions, Bob 700 with one. *)
Example leader_board_is_top_witness :
  exists board, generate_leader_board (IL := demo_id) (@rev _) 1 Pnl false 0 100 demo_closed_db = (Ok board, demo_closed_db) /\
    map LeaderBoardEntry.rank board = [1%nat] /\ map LeaderBoardEntry.trader board = ["alice"%string] /\
    exists e, LeaderBoardEntry.trader e = "bob"%string /\ forall b, In b board -> not_worse Pnl false b e.
Proof.
  destruct (succeeds (generate_leader_board (IL := demo_id) (@rev _) 1 Pnl false 0 100) demo_closed_db) as (board & d' & Hrun).
  { by vm_compute. }
  destruct (leader_board_is_top (DLaws := demo_decimal_laws) (ILaws := demo_id_laws) (@rev _) Pnl false 1 0 100 demo_closed_db d' board)
    as (positions & Hpos & -> & Hranks & _ & _ & _ & Hmissing); [intros l; symmetry; apply Permutation_rev|exact Hrun|].
  assert (Hb : map LeaderBoardEntry.trader board = ["alice"%string]).
  { assert (Ht : (map LeaderBoardEntry.trader <$> (generate_leader_board (IL := demo_id) (@rev _) 1 Pnl false 0 100 demo_closed_db).1)
      = Ok ["alice"%string]) by (by vm_compute). rewrite Hrun in Ht. by injection Ht. }
  exists board. split; [exact Hrun|]. split; [|split; [exact Hb|]].
  - rewrite Hranks. destruct board as [|b [|b' board]]; try discriminate Hb. reflexivity.
  - destruct (Hmissing "bob"%string) as [Hin|(_ & e & He & _ & Hall)].
    + assert (Hs : (fun l => Nat.eqb (length (shown_positions 0 100 l ("bob"%string : PublicKey (IdLib := demo_id)))) 1) <$> (get_all_closed_positions (IL := demo_id) demo_closed_db).1 = Ok true)
        by (by vm_compute).
      rewrite Hpos in Hs. cbn in Hs. injection Hs as Hs. intros Hnil. rewrite Hnil in Hs. discriminate Hs.
    + rewrite Hb in Hin. destruct Hin as [[=]|[]].
    + by exists e.
Defined.
