(* ===== verification/Backup.v ===== *)
(** * Backups: [backup.rs] on both sides, [commons/backup.rs], the app's [cipher.rs] and [storage.rs]

    The app sends every change of its store of contracts and channels (KvStore.v) to
    the coordinator, encrypted, and now and then a snapshot of its database; the
    coordinator keeps them in a tree per node, and a new device is restored from it. *)

From stdpp Require Import base list option strings gmap.
From Stdlib Require Import ZArith Lia Permutation.
From S2P Require Import Prelude Machine External Demo Commons Signing KvStore OrderEntry.

#[local] Open Scope Z_scope.

(** ** Interfaces *)

(** [secp256k1::SecretKey], and AES-GCM-SIV with a key and a nonce. *)
Class CipherLib `{SL : SigningLib} := {
  NodeSecretKey : Type;
  Aes256GcmSiv : Type;
  node_secret_bytes : NodeSecretKey -> Bytes;
  node_public_key : NodeSecretKey -> PublicKey;
  sign_ecdsa : NodeSecretKey -> SecpMessage -> SecpSignature;
  aes_new_from_slice : Bytes -> option Aes256GcmSiv;
  encrypt_in_place : Aes256GcmSiv -> Bytes -> Bytes -> outcome string Bytes;
  decrypt_in_place : Aes256GcmSiv -> Bytes -> Bytes -> outcome string Bytes;
}.
Class CipherLaws `(CL : CipherLib) : Prop := {
  encrypts_up_to_limit k nonce text : Z.of_nat (length text) < 2 ^ 36 ->
    exists cipher_text, encrypt_in_place k nonce text = Ok cipher_text;
  decrypt_encrypted k nonce text cipher_text :
    encrypt_in_place k nonce text = Ok cipher_text -> decrypt_in_place k nonce cipher_text = Ok text;
  signed_verifies k message : verify_ecdsa message (sign_ecdsa k message) (node_public_key k) = true;
}.

(** What hexadecimal digits and UTF-8 are. *)
Definition slash : Byte.byte := Byte.x2f.
Class TextLaws (IL : IdLib) : Prop := {
  hex_no_slash l : slash ∉ hex_encode_bytes l;
  from_utf8_ascii l : Forall (fun b => Z_of_byte b < 128) l -> from_utf8 l = Some l;
  from_utf8_app l l' : from_utf8 l = Some l -> from_utf8 l' = Some l' -> from_utf8 (l ++ l') = Some (l ++ l');
  from_utf8_keeps l l' : from_utf8 l = Some l' -> l' = l;
}.

(** Files: paths are those of the platform. *)
Class FileSystem := {
  Files : Type;
  path_join : Bytes -> Bytes -> Bytes;
  path_parent : Bytes -> option Bytes;
  fs_create_dir_all : Bytes -> M Files string unit;
  fs_write : Bytes -> Bytes -> M Files string unit;
}.
Class FileSystemLaws (FS : FileSystem) := {
  file_contents : Files -> gmap Bytes Bytes;
  fs_write_ok path data s s' u : fs_write path data s = (Ok u, s') ->
    file_contents s' = <[path := data]> (file_contents s);
}.

(** A [sled] database whose disk works. *)
Class SledWorks {Name} (SL : SledLib Name) : Prop := {
  sled_iter_works name s : exists l, sled_iter name s = Ok l;
  sled_insert_works name k v s : exists s', sled_insert name k v s = (Ok tt, s');
  sled_remove_works name k s : exists s', sled_remove name k s = (Ok tt, s');
  sled_flush_works s : exists s', sled_flush s = (Ok tt, s');
}.
Class FileSystemWorks (FS : FileSystem) : Prop := {
  fs_write_works path data s : exists s', fs_write path data s = (Ok tt, s');
}.

(** [Db::export] lists all trees.  Those with entries are those of the kinds, as
    nothing else is written. *)
Class SledExportLaws {SL : SledLib Z} (LL : SledLaws SL) : Prop := {
  sled_export_lists s name iter : In ("tree"%string, name, iter) (sled_export s) ->
    iter = [] \/ exists kind l, 0 <= kind < 256 /\ name = [byte_of_Z kind] /\ l ≡ₚ map_to_list (contents s kind) /\
      iter = map (fun e => [e.1; e.2]) l;
  sled_export_complete s kind : 0 <= kind < 256 -> contents s kind <> ∅ ->
    exists iter, In ("tree"%string, [byte_of_Z kind], iter) (sled_export s) /\ iter <> [];
}.

(** ** [commons/backup.rs] *)

Module Restore.
Record t := mk { key : Bytes; value : Bytes }.
End Restore.

(** A [String] is its bytes. *)
Module Backup.
Record t `{SigningLib} := mk { key : Bytes; value : Bytes; signature : SecpSignature }.
#[global] Arguments mk {_ _ _}.
End Backup.

Module DeleteBackup.
Record t `{SigningLib} := mk { key : Bytes; signature : SecpSignature }.
#[global] Arguments mk {_ _ _}.
End DeleteBackup.

Section Verify.
Context `{SL : SigningLib}.

Definition backup_verify (backup : Backup.t) (node_id : PublicKey) : bool :=
  verify_ecdsa (create_sign_message (Backup.value backup)) (Backup.signature backup) node_id.

(** [node_id.to_string().as_bytes()], hashed. *)
Definition node_id_message (node_id : PublicKey) : SecpMessage := create_sign_message (as_bytes (pk_to_string node_id)).
Definition delete_backup_verify (backup : DeleteBackup.t) (node_id : PublicKey) : bool :=
  verify_ecdsa (node_id_message node_id) (DeleteBackup.signature backup) node_id.
End Verify.

(** ** The coordinator: [backup.rs] and its routes *)

Section Server.
Context `{SL : SigningLib} {UB : SledLib string}.
#[local] Abbreviation UserBackups := (SledDb (SledLib := UB)).

(** [SledBackup]; its trees are named by node ids. *)
Definition read_backup_entry (entry : option (Bytes * Bytes)) : outcome string Restore.t :=
  '(k, v) ← ok_or "could not read entry"%string entry;
  key ← ok_or "not utf-8"%string (from_utf8 k);
  Ok (Restore.mk key v).
Definition sled_backup_restore (node_id : PublicKey) : M UserBackups string (list Restore.t) := fun db =>
  (entries ← sled_iter (pk_to_string node_id) db;
   traverse read_backup_entry entries, db).
Definition sled_back_up (node_id : PublicKey) (backup : Backup.t) : M UserBackups string unit :=
  sled_insert (pk_to_string node_id) (Backup.key backup) (Backup.value backup);;
  sled_flush.
Definition sled_backup_delete (node_id : PublicKey) (backup : DeleteBackup.t) : M UserBackups string unit :=
  sled_remove (pk_to_string node_id) (DeleteBackup.key backup);;
  sled_flush.

(** The routes [back_up], [delete_backup] and [restore]; [node_id] is from the path. *)
Definition parse_node_id (node_id : string) : outcome AppError PublicKey :=
  ok_or (BadRequest "Invalid node id provided.") (pk_from_str node_id).

Definition back_up (node_id : string) (backup : Backup.t) : M UserBackups AppError unit :=
  node_id ← lift (parse_node_id node_id);
  lift (ensure (backup_verify backup node_id) Unauthorized);;
  with_err InternalServerError (sled_back_up node_id backup).
Definition delete_backup (node_id : string) (backup : DeleteBackup.t) : M UserBackups AppError unit :=
  node_id ← lift (parse_node_id node_id);
  lift (ensure (delete_backup_verify backup node_id) Unauthorized);;
  with_err InternalServerError (sled_backup_delete node_id backup).
Definition restore (node_id : string) (signature : SecpSignature) : M UserBackups AppError (list Restore.t) :=
  node_id ← lift (parse_node_id node_id);
  lift (ensure (verify_ecdsa (node_id_message node_id) signature node_id) Unauthorized);;
  with_err InternalServerError (sled_backup_restore node_id).
End Server.

(** ** The app: [cipher.rs] *)

Module AesCipher.
Record t `{CipherLib} := mk { secret_key : NodeSecretKey; inner : Aes256GcmSiv }.
#[global] Arguments mk {_ _ _ _}.
End AesCipher.

Section Cipher.
Context `{CL : CipherLib}.

Definition cipher_new (secret_key : NodeSecretKey) : outcome string AesCipher.t :=
  inner ← expect (aes_new_from_slice (node_secret_bytes secret_key));
  Ok (AesCipher.mk secret_key inner).

(** [nonce] are the 12 random bytes of [generate_nonce]; they come first. *)
Definition encrypt (nonce : Bytes) (cipher : AesCipher.t) (value : Bytes) : outcome string Bytes :=
  buffer ← encrypt_in_place (AesCipher.inner cipher) nonce value;
  Ok (nonce ++ buffer).
Definition decrypt (cipher : AesCipher.t) (value : Bytes) : outcome string Bytes :=
  if Nat.ltb (length value) 12 then Panic
  else decrypt_in_place (AesCipher.inner cipher) (take 12 value) (drop 12 value).
Definition cipher_sign (cipher : AesCipher.t) (value : Bytes) : SecpSignature :=
  sign_ecdsa (AesCipher.secret_key cipher) (create_sign_message value).
Definition cipher_public_key (cipher : AesCipher.t) : PublicKey := node_public_key (AesCipher.secret_key cipher).
End Cipher.

(** ** The keys of backups *)

(** [[..].join("/")] and [key.split('/')]. *)
Fixpoint join_slash (parts : list Bytes) : Bytes :=
  match parts with
  | [] => []
  | [part] => part
  | part :: parts => part ++ slash :: join_slash parts
  end.
Fixpoint split_slash (l : Bytes) : list Bytes :=
  match l with
  | [] => [[]]
  | b :: l =>
    if decide (b = slash) then [] :: split_slash l
    else match split_slash l with part :: parts => (b :: part) :: parts | [] => [[b]] end
  end.

Definition DB_BACKUP_KEY : Bytes := String.list_byte_of_string "10101".
Definition LN_BACKUP_KEY : Bytes := String.list_byte_of_string "ln".
Definition DLC_BACKUP_KEY : Bytes := String.list_byte_of_string "dlc".
Definition DB_BACKUP_NAME : Bytes := String.list_byte_of_string "db".
Definition BLACKLIST : list Bytes := [String.list_byte_of_string "ln/network_graph"].

Section Keys.
Context `{IL : IdLib}.
Definition dlc_backup_key (kind : Z) (key : Bytes) : Bytes :=
  join_slash [DLC_BACKUP_KEY; hex_encode_bytes [byte_of_Z kind]; hex_encode_bytes key].
Definition dlc_backup_kind_key (kind : Z) : Bytes :=
  join_slash [DLC_BACKUP_KEY; hex_encode_bytes [byte_of_Z kind]].
(** [format!("{DB_BACKUP_KEY}/{DB_BACKUP_NAME}")]. *)
Definition db_backup_key : Bytes := DB_BACKUP_KEY ++ slash :: DB_BACKUP_NAME.
End Keys.

(** ** The app: [RemoteBackupClient] *)

(** What the tasks of the client send to [/api/backup/<node id>]. *)
Module BackupRequest.
Inductive t `{SigningLib} :=
  | Post (backup : Backup.t)
  | Delete (backup : DeleteBackup.t).
End BackupRequest.

Section Client.
Context `{CL : CipherLib}.

(** [RemoteBackupClient::backup]: the request, when there is one; a task that cannot
    encrypt logs it and ends. *)
Definition client_backup (cipher : AesCipher.t) (nonce key value : Bytes) : option BackupRequest.t :=
  if bool_decide (key ∈ BLACKLIST) then None
  else match encrypt nonce cipher value with
       | Ok encrypted_value =>
         let signature := cipher_sign cipher encrypted_value in
         Some (BackupRequest.Post (Backup.mk key encrypted_value signature))
       | _ => None
       end.

(** [RemoteBackupClient::delete]. *)
Definition client_delete (cipher : AesCipher.t) (key : Bytes) : BackupRequest.t :=
  let signature := sign_ecdsa (AesCipher.secret_key cipher) (node_id_message (cipher_public_key cipher)) in
  BackupRequest.Delete (DeleteBackup.mk key signature).

(** The route that takes the request, at the path of the client's node. *)
Definition handle_request {UB : SledLib string} (node_id : string) (request : BackupRequest.t) : M SledDb AppError unit :=
  match request with
  | BackupRequest.Post backup => back_up node_id backup
  | BackupRequest.Delete backup => delete_backup node_id backup
  end.
End Client.

(** ** The app: [storage.rs] *)

(** [TenTenOneNodeStorage], with the requests its tasks have still to make and how
    many nonces they drew. *)
Module NodeStorage.
Record t `{SigningLib} {DS : SledLib Z} := mk {
  dlc_storage : SledDb (SledLib := DS);
  requests : list BackupRequest.t;
  nonces_drawn : nat;
}.
#[global] Arguments mk {_ _ _ _}.
End NodeStorage.

Section Storage.
Context `{CL : CipherLib} {DS : SledLib Z} (cipher : AesCipher.t) (generate_nonce : nat -> Bytes).

Definition on_dlc_storage {A} (m : M SledDb string A) : M NodeStorage.t string A := fun s =>
  let '(r, d) := m (NodeStorage.dlc_storage s) in
  (r, NodeStorage.mk d (NodeStorage.requests s) (NodeStorage.nonces_drawn s)).

(** [runtime.spawn]. *)
Definition spawn_backup (key value : Bytes) : M NodeStorage.t string unit := modify (fun s =>
  NodeStorage.mk (NodeStorage.dlc_storage s)
    (NodeStorage.requests s ++ option_list (client_backup cipher (generate_nonce (NodeStorage.nonces_drawn s)) key value))
    (S (NodeStorage.nonces_drawn s))).
Definition spawn_delete (key : Bytes) : M NodeStorage.t string unit := modify (fun s =>
  NodeStorage.mk (NodeStorage.dlc_storage s) (NodeStorage.requests s ++ [client_delete cipher key])
    (NodeStorage.nonces_drawn s)).

(** [impl DlcStoreProvider for TenTenOneNodeStorage]. *)
Definition node_storage_read (kind : Z) (key : option Bytes) : M NodeStorage.t string (list KeyValue.t) :=
  on_dlc_storage (sled_read kind key).
Definition node_storage_write (kind : Z) (key value : Bytes) : M NodeStorage.t string unit :=
  on_dlc_storage (sled_write kind key value);;
  spawn_backup (dlc_backup_key kind key) value.
Definition node_storage_delete (kind : Z) (key : option Bytes) : M NodeStorage.t string unit :=
  on_dlc_storage (sled_delete kind key);;
  spawn_delete (match key with Some key => dlc_backup_key kind key | None => dlc_backup_kind_key kind end).

(** The snapshot both [full_backup] and [DBBackupSubscriber::back_up] upload; [db_backup]
    is what [db::back_up] wrote, when it could be read.  The subscriber does it in a task
    whose result nobody looks at. *)
Definition back_up_db (db_backup : outcome string Bytes) : M NodeStorage.t string unit :=
  value ← lift db_backup;
  spawn_backup db_backup_key value.
Definition subscriber_back_up (db_backup : outcome string Bytes) : M NodeStorage.t string unit := fun s =>
  (Ok tt, (back_up_db db_backup s).2).

(** [full_backup]. *)
Definition full_backup (db_backup : outcome string Bytes) : M NodeStorage.t string unit :=
  back_up_db db_backup;;
  s ← gets id;
  exports ← lift (sled_storage_export (NodeStorage.dlc_storage s));
  for_each (fun dlc_backup =>
    spawn_backup (join_slash [DLC_BACKUP_KEY; hex_encode_bytes [SledStorageExport.kind dlc_backup];
      hex_encode_bytes (SledStorageExport.key dlc_backup)]) (SledStorageExport.value dlc_backup)) exports.

#[export] Instance node_storage_provider : DlcStoreProvider NodeStorage.t := {|
  store_read := node_storage_read;
  store_write := node_storage_write;
  store_delete := node_storage_delete;
|}.

Lemma on_dlc_storage_ok {A} (m : M SledDb string A) s a s' : on_dlc_storage m s = (Ok a, s') ->
  exists d, m (NodeStorage.dlc_storage s) = (Ok a, d) /\
    s' = NodeStorage.mk d (NodeStorage.requests s) (NodeStorage.nonces_drawn s).
Proof using Type. unfold on_dlc_storage. destruct (m _) as [r d]. intros [= -> <-]. by exists d. Qed.

(** To [rust-dlc] it is the store it wraps. *)
#[export, refine] Instance node_storage_laws `{!SledLaws DS} : StoreProviderLaws NodeStorage.t :=
  {| view s := view (NodeStorage.dlc_storage s) |}.
Proof using Type.
  - intros kind k s l s' (d & Hr & ->)%on_dlc_storage_ok.
    destruct (store_read_key (StoreProviderLaws := sled_laws) kind k _ l d Hr) as [-> ->]. by destruct s.
  - intros kind s l s' (d & Hr & ->)%on_dlc_storage_ok.
    destruct (store_read_all (StoreProviderLaws := sled_laws) kind _ l d Hr) as [-> Hl]. split; [by destruct s|exact Hl].
  - intros kind k v s s' u ([] & s1 & (d & Hr & ->)%on_dlc_storage_ok & [= _ <-])%M_bind_ok.
    exact (store_write_ok (StoreProviderLaws := sled_laws) kind k v _ d tt Hr).
  - intros kind k s s' u ([] & s1 & (d & Hr & ->)%on_dlc_storage_ok & [= _ <-])%M_bind_ok.
    exact (store_delete_key (StoreProviderLaws := sled_laws) kind k _ d tt Hr).
  - intros kind s s' u ([] & s1 & (d & Hr & ->)%on_dlc_storage_ok & [= _ <-])%M_bind_ok.
    exact (store_delete_all (StoreProviderLaws := sled_laws) kind _ d tt Hr).
Defined.
End Storage.

(** ** Restoring a new device *)

(** The data directory of a device: its store and its files. *)
Module Device.
Record t {DS : SledLib Z} {FS : FileSystem} := mk { dlc_storage : SledDb (SledLib := DS); files : Files }.
#[global] Arguments mk {_ _}.
End Device.

Section Restoring.
Context `{CL : CipherLib} {DS : SledLib Z} {FS : FileSystem} (cipher : AesCipher.t).
(** [config::get_data_dir] and [network.to_string()]. *)
Context (data_dir : Bytes) (network : string).

Definition on_store_of_device {A} (m : M SledDb string A) : M Device.t string A := fun d =>
  let '(r, s) := m (Device.dlc_storage d) in (r, Device.mk s (Device.files d)).
Definition on_files {A} (m : M Files string A) : M Device.t string A := fun d =>
  let '(r, f) := m (Device.files d) in (r, Device.mk (Device.dlc_storage d) f).

Definition restore_ln (key decrypted_value : Bytes) : M Device.t string unit :=
  let dest_file := path_join (path_join data_dir (String.list_byte_of_string network)) key in
  parent ← lift (expect (path_parent dest_file));
  on_files (fs_create_dir_all parent);;
  on_files (fs_write dest_file decrypted_value).

Definition decode_hex (key : option Bytes) : outcome string Bytes :=
  key ← expect key;
  ok_or "invalid hex"%string (hex_decode_bytes key).
Definition restore_dlc (key decrypted_value : Bytes) : M Device.t string unit :=
  let keys := split_slash key in
  lift (ensure (Nat.eqb (length keys) 2) "dlc key is too short"%string);;
  kind ← lift (decode_hex (keys !! 0%nat));
  kind ← lift (expect (head kind));
  key ← lift (decode_hex (keys !! 1%nat));
  on_store_of_device (sled_write (Z_of_byte kind) key decrypted_value).

(** [format!("trades-{}.sqlite", network)]. *)
Definition db_file : Bytes :=
  path_join data_dir (String.list_byte_of_string ("trades-" ++ network ++ ".sqlite")).
Definition restore_db (decrypted_value : Bytes) : M Device.t string unit :=
  on_files (fs_write db_file decrypted_value).

Definition restore_entry (r : Restore.t) : M Device.t string unit :=
  decrypted_value ← lift (decrypt cipher (Restore.value r));
  '(backup_key, key) ← lift (expect
    (match split_slash (Restore.key r) with k :: keys => Some (k, join_slash keys) | [] => None end));
  if bool_decide (backup_key = LN_BACKUP_KEY) then restore_ln key decrypted_value
  else if bool_decide (backup_key = DLC_BACKUP_KEY) then restore_dlc key decrypted_value
  else if bool_decide (backup_key = DB_BACKUP_KEY) then restore_db decrypted_value
  else mret tt.

(** [RemoteBackupClient::restore], with the coordinator's answer. *)
Definition client_restore (download : SecpSignature -> outcome AppError (list Restore.t)) : M Device.t string unit :=
  let signature := sign_ecdsa (AesCipher.secret_key cipher) (node_id_message (cipher_public_key cipher)) in
  backup ← lift (map_err (fun _ => "Failed to download backup."%string) (download signature));
  for_each restore_entry backup.
End Restoring.

(** ** Keys of backups can be told apart *)

Section KeyFacts.
Context `{ILaws : IdLaws} `{TL : !TextLaws IL}.

Lemma split_slash_part (part rest : Bytes) : slash ∉ part -> split_slash (part ++ slash :: rest) = part :: split_slash rest.
Proof using Type.
  induction part as [|b part IH]; cbn; [done|]. rewrite not_elem_of_cons. intros [Hb Hp].
  rewrite decide_False by congruence. by rewrite IH.
Qed.
Lemma split_slash_last (part : Bytes) : slash ∉ part -> split_slash part = [part].
Proof using Type.
  induction part as [|b part IH]; cbn; [done|]. rewrite not_elem_of_cons. intros [Hb Hp].
  rewrite decide_False by congruence. by rewrite IH.
Qed.

(** What was joined is split into the same parts. *)
Lemma split_join parts : parts <> [] -> Forall (fun part => slash ∉ part) parts -> split_slash (join_slash parts) = parts.
Proof using Type.
  intros Hne Hall. induction Hall as [|part parts Hp Hall IH]; [done|].
  destruct parts as [|part' parts]; [by apply split_slash_last|].
  change (join_slash (part :: part' :: parts)) with (part ++ slash :: join_slash (part' :: parts)).
  rewrite split_slash_part by done. by rewrite IH.
Qed.

Lemma dlc_no_slash : slash ∉ DLC_BACKUP_KEY.
Proof using Type. by apply (bool_decide_unpack _). Qed.
Lemma hex_parts_no_slash ls : Forall (fun part => slash ∉ part) (map hex_encode_bytes ls).
Proof using TL. apply Forall_map, Forall_true. intros l. apply hex_no_slash. Qed.

Lemma split_dlc_key kind key :
  split_slash (dlc_backup_key kind key) = [DLC_BACKUP_KEY; hex_encode_bytes [byte_of_Z kind]; hex_encode_bytes key].
Proof using TL.
  apply split_join; [done|]. constructor; [exact dlc_no_slash|].
  exact (hex_parts_no_slash [[byte_of_Z kind]; key]).
Qed.
Lemma split_dlc_key_tail kind key :
  split_slash (join_slash [hex_encode_bytes [byte_of_Z kind]; hex_encode_bytes key]) =
  [hex_encode_bytes [byte_of_Z kind]; hex_encode_bytes key].
Proof using TL. apply split_join; [done|]. exact (hex_parts_no_slash [[byte_of_Z kind]; key]). Qed.
Lemma split_db_key : split_slash db_backup_key = [DB_BACKUP_KEY; DB_BACKUP_NAME].
Proof using Type. reflexivity. Qed.

Lemma hex_encode_bytes_inj l l' : hex_encode_bytes l = hex_encode_bytes l' -> l = l'.
Proof using ILaws. intros Heq. apply (inj Some). by rewrite <-(hex_bytes_roundtrip l), <-(hex_bytes_roundtrip l'), Heq. Qed.

Lemma dlc_backup_key_inj kind kind' key key' : 0 <= kind < 256 -> 0 <= kind' < 256 ->
  dlc_backup_key kind key = dlc_backup_key kind' key' -> kind = kind' /\ key = key'.
Proof using ILaws TL.
  intros Hk Hk' Heq%(f_equal split_slash). rewrite !split_dlc_key in Heq.
  injection Heq as [= Hkind%(f_equal Z_of_byte)]%hex_encode_bytes_inj ->%hex_encode_bytes_inj.
  by rewrite !Z_of_byte_of_Z in Hkind.
Qed.
Lemma dlc_key_not_db kind key : dlc_backup_key kind key <> db_backup_key.
Proof using TL. intros Heq%(f_equal split_slash). rewrite split_dlc_key, split_db_key in Heq. discriminate Heq. Qed.

Lemma dlc_key_utf8 kind key : from_utf8 (dlc_backup_key kind key) = Some (dlc_backup_key kind key).
Proof using ILaws TL.
  apply from_utf8_app; [by apply from_utf8_ascii; repeat constructor|].
  apply (from_utf8_app [slash]); [by apply from_utf8_ascii; repeat constructor|].
  apply from_utf8_app; [apply hex_is_utf8|].
  apply (from_utf8_app [slash]); [by apply from_utf8_ascii; repeat constructor|]. apply hex_is_utf8.
Qed.
Lemma db_key_utf8 : from_utf8 db_backup_key = Some db_backup_key.
Proof using TL. apply from_utf8_ascii. by repeat constructor. Qed.

Lemma not_blacklisted kind key : bool_decide (dlc_backup_key kind key ∈ BLACKLIST) = false.
Proof using Type. apply bool_decide_eq_false. intros Hin%list_elem_of_singleton. discriminate Hin. Qed.
End KeyFacts.

(** ** What a backup is *)

(** The app with its requests under way, the coordinator, and the last snapshot that was
    taken of the app's database. *)
Module BackupSystem.
Record t `{SigningLib} {DS : SledLib Z} {UB : SledLib string} := mk {
  storage : NodeStorage.t (DS := DS);
  server : SledDb (SledLib := UB);
  snapshot : option Bytes;
}.
#[global] Arguments mk {_ _ _ _ _}.
End BackupSystem.

Section BackedUp.
Context `{CLaws : CipherLaws} `{ILaws : !IdLaws IL} `{TL : !TextLaws IL}.
Context {DS : SledLib Z} {DLaws : SledLaws DS} {UB : SledLib string} {ULaws : SledLaws UB} `{UW : !SledWorks UB}.
Context (cipher : AesCipher.t) (generate_nonce : nat -> Bytes).

(** The node's entries, in plain text: those of its store [v], and the last snapshot
    [db] of its database. *)
Definition is_entry_of (v : Z -> gmap Bytes Bytes) (db : option Bytes) (key value : Bytes) : Prop :=
  (exists kind k, 0 <= kind < 256 /\ key = dlc_backup_key kind k /\ v kind !! k = Some value) \/
  (key = db_backup_key /\ db = Some value).

(** The tree has these entries, encrypted, and no others. *)
Definition backs_up (tree : gmap Bytes Bytes) (v : Z -> gmap Bytes Bytes) (db : option Bytes) : Prop :=
  (forall key c, tree !! key = Some c -> exists value, decrypt cipher c = Ok value) /\
  forall key value, is_entry_of v db key value <-> exists c, tree !! key = Some c /\ decrypt cipher c = Ok value.

(** What a request does to the tree, and that it is signed. *)
Definition tree_after (tree : gmap Bytes Bytes) (request : BackupRequest.t) : gmap Bytes Bytes :=
  match request with
  | BackupRequest.Post backup => <[Backup.key backup := Backup.value backup]> tree
  | BackupRequest.Delete backup => delete (DeleteBackup.key backup) tree
  end.
Definition signed (request : BackupRequest.t) : Prop :=
  match request with
  | BackupRequest.Post backup => backup_verify backup (cipher_public_key cipher) = true
  | BackupRequest.Delete backup => delete_backup_verify backup (cipher_public_key cipher) = true
  end.
Definition node_tree (server : SledDb (SledLib := UB)) : gmap Bytes Bytes :=
  contents server (pk_to_string (cipher_public_key cipher)).
Definition deliver (request : BackupRequest.t) : M (SledDb (SledLib := UB)) AppError unit :=
  handle_request (pk_to_string (cipher_public_key cipher)) request.

Lemma is_entry_of_functional v db key value value' :
  is_entry_of v db key value -> is_entry_of v db key value' -> value = value'.
Proof using ILaws TL.
  intros [(kind & k & Hk & -> & Hv)|[-> ->]] [(kind' & k' & Hk' & Heq & Hv')|[Heq Hdb]].
  - apply dlc_backup_key_inj in Heq as [-> ->]; [|done..]. congruence.
  - by apply dlc_key_not_db in Heq.
  - symmetry in Heq. by apply dlc_key_not_db in Heq.
  - congruence.
Qed.

Lemma decrypt_encrypt nonce value c : length nonce = 12%nat -> encrypt nonce cipher value = Ok c -> decrypt cipher c = Ok value.
Proof using CLaws.
  unfold encrypt, decrypt. intros Hn (buffer & Hb & [= <-])%outcome_bind_ok.
  rewrite length_app, Hn. cbn [Nat.add]. destruct (Nat.ltb_spec (12 + length buffer) 12); [lia|].
  rewrite take_app_length', drop_app_length' by done. by apply decrypt_encrypted.
Qed.

(** *** Writes, deletions and snapshots keep it up *)

Lemma backs_up_write tree v v' db kind k value c : 0 <= kind < 256 -> backs_up tree v db -> decrypt cipher c = Ok value ->
  (forall kind', v' kind' = if decide (kind' = kind) then <[k := value]> (v kind) else v kind') ->
  backs_up (<[dlc_backup_key kind k := c]> tree) v' db.
Proof using ILaws TL.
  intros Hkind [Hdec Hent] Hc Hv'. split.
  { intros key c' [[<- <-]|[_ Hl]]%lookup_insert_Some; [by exists value|by eapply Hdec]. }
  intros key value'. destruct (decide (key = dlc_backup_key kind k)) as [->|Hne].
  - rewrite lookup_insert_eq. split.
    + intros Hin. exists c. split; [done|]. rewrite Hc. f_equal.
      eapply is_entry_of_functional; [|exact Hin]. left. exists kind, k. split; [done|]. split; [done|].
      by rewrite Hv', decide_True, lookup_insert_eq.
    + intros (c' & [= <-] & Hc'). rewrite Hc in Hc'. injection Hc' as ->.
      left. exists kind, k. split; [done|]. split; [done|]. by rewrite Hv', decide_True, lookup_insert_eq.
  - rewrite lookup_insert_ne by done. rewrite <-Hent. apply or_iff_compat_r.
    split; intros (kind' & k' & Hk' & -> & Hl); exists kind', k'; (split; [done|]; split; [done|]);
      rewrite Hv' in *; destruct (decide (kind' = kind)) as [->|]; try done;
      (rewrite lookup_insert_ne in * by congruence); done.
Qed.

Lemma backs_up_delete tree v v' db kind k : 0 <= kind < 256 -> backs_up tree v db ->
  (forall kind', v' kind' = if decide (kind' = kind) then delete k (v kind) else v kind') ->
  backs_up (delete (dlc_backup_key kind k) tree) v' db.
Proof using ILaws TL.
  intros Hkind [Hdec Hent] Hv'. split.
  { intros key c' [_ Hl]%lookup_delete_Some. by eapply Hdec. }
  intros key value'. destruct (decide (key = dlc_backup_key kind k)) as [->|Hne].
  - rewrite lookup_delete_eq. split; [|by intros (? & [=] & _)].
    intros [(kind' & k' & Hk' & Heq & Hl)|[Heq _]]; [|by apply dlc_key_not_db in Heq].
    apply dlc_backup_key_inj in Heq as [<- <-]; [|done..]. by rewrite Hv', decide_True, lookup_delete_eq in Hl.
  - rewrite lookup_delete_ne by done. rewrite <-Hent. apply or_iff_compat_r.
    split; intros (kind' & k' & Hk' & -> & Hl); exists kind', k'; (split; [done|]; split; [done|]);
      rewrite Hv' in *; destruct (decide (kind' = kind)) as [->|]; try done;
      (rewrite lookup_delete_ne in * by congruence); done.
Qed.

Lemma backs_up_snapshot tree v db value c : backs_up tree v db -> decrypt cipher c = Ok value ->
  backs_up (<[db_backup_key := c]> tree) v (Some value).
Proof using ILaws TL.
  intros [Hdec Hent] Hc. split.
  { intros key c' [[<- <-]|[_ Hl]]%lookup_insert_Some; [by exists value|by eapply Hdec]. }
  intros key value'. destruct (decide (key = db_backup_key)) as [->|Hne].
  - rewrite lookup_insert_eq. split.
    + intros [(kind' & k' & Hk' & Heq & Hl)|[_ [= <-]]]; [by apply eq_sym, dlc_key_not_db in Heq|]. by exists c.
    + intros (c' & [= <-] & Hc'). right. split; [done|]. congruence.
  - rewrite lookup_insert_ne by done. rewrite <-Hent. unfold is_entry_of. naive_solver.
Qed.

(** *** The coordinator takes what is signed *)

Lemma lift_bind {S E A B} (a : A) (f : A -> M S E B) (s : S) : (lift (Ok a) ≫= f) s = f a s.
Proof using Type. reflexivity. Qed.
Lemma deliver_ok request server : signed request -> exists server',
  deliver request server = (Ok tt, server') /\ node_tree server' = tree_after (node_tree server) request /\
  forall name, name <> pk_to_string (cipher_public_key cipher) -> contents server' name = contents server name.
Proof using ILaws ULaws UW.
  intros Hs. assert (forall (m : M (SledDb (SledLib := UB)) string unit) s1 s2,
    m server = (Ok tt, s1) -> sled_flush s1 = (Ok tt, s2) -> with_err InternalServerError (m;; sled_flush) server = (Ok tt, s2)) as Hrun.
  { intros m s1 s2 H1 H2. apply with_err_ok, M_bind_ok. by exists tt, s1. }
  destruct request as [b|b]; unfold deliver, handle_request, back_up, delete_backup, parse_node_id;
    rewrite pk_roundtrip; cbn [signed] in Hs; cbn [ok_or]; rewrite lift_bind, Hs; cbn [ensure];
    rewrite lift_bind.
  - destruct (sled_insert_works (pk_to_string (cipher_public_key cipher)) (Backup.key b) (Backup.value b) server) as [s1 H1].
    destruct (sled_flush_works s1) as [s2 H2]. exists s2. split; [by eapply Hrun|].
    unfold node_tree. split; [|intros name Hname];
      rewrite (sled_flush_ok _ _ _ H2), (sled_insert_ok _ _ _ _ _ _ H1); [by rewrite decide_True|by rewrite decide_False].
  - destruct (sled_remove_works (pk_to_string (cipher_public_key cipher)) (DeleteBackup.key b) server) as [s1 H1].
    destruct (sled_flush_works s1) as [s2 H2]. exists s2. split; [by eapply Hrun|].
    unfold node_tree. split; [|intros name Hname];
      rewrite (sled_flush_ok _ _ _ H2), (sled_remove_ok _ _ _ _ _ H1); [by rewrite decide_True|by rewrite decide_False].
Qed.

Lemma deliver_all_ok requests server : Forall signed requests -> exists server',
  for_each deliver requests server = (Ok tt, server') /\ node_tree server' = foldl tree_after (node_tree server) requests.
Proof using ILaws ULaws UW.
  intros Hs. revert server. induction Hs as [|r rs Hr Hs IH]; intros server; cbn; [by exists server|].
  destruct (deliver_ok r server Hr) as (s1 & H1 & Ht1 & _). destruct (IH s1) as (s2 & H2 & Ht2).
  exists s2. split; [apply M_bind_ok; by exists tt, s1|]. by rewrite Ht2, Ht1.
Qed.

(** What a task has to send, it can, and the request is signed. *)
Lemma client_backup_ok n key value : length (generate_nonce n) = 12%nat -> Z.of_nat (length value) < 2 ^ 36 ->
  bool_decide (key ∈ BLACKLIST) = false ->
  exists backup, client_backup cipher (generate_nonce n) key value = Some (BackupRequest.Post backup) /\
    Backup.key backup = key /\ decrypt cipher (Backup.value backup) = Ok value /\ signed (BackupRequest.Post backup).
Proof using CLaws.
  intros Hn Hv Hb. unfold client_backup. rewrite Hb.
  destruct (encrypts_up_to_limit (AesCipher.inner cipher) (generate_nonce n) value Hv) as [buffer Hbuf].
  assert (encrypt (generate_nonce n) cipher value = Ok (generate_nonce n ++ buffer)) as Henc.
  { unfold encrypt. by rewrite Hbuf. }
  rewrite Henc. eexists. split; [reflexivity|]. split; [done|]. split; [by eapply decrypt_encrypt|].
  apply signed_verifies.
Qed.
Lemma client_delete_signed key : signed (client_delete cipher key).
Proof using CLaws. apply signed_verifies. Qed.

(** *** A new device *)

Context {FS : FileSystem} {FLaws : FileSystemLaws FS} {DW : SledWorks DS} {FW : FileSystemWorks FS}.
Context (data_dir : Bytes) (network : string).

(** What was downloaded is an entry of the node. *)
Definition restorable (e : Bytes * Bytes) : Prop :=
  (exists value, decrypt cipher e.2 = Ok value) /\
  (e.1 = db_backup_key \/ exists kind k, 0 <= kind < 256 /\ e.1 = dlc_backup_key kind k).
Lemma decode_hex_encoded l : decode_hex (Some (hex_encode_bytes l)) = Ok l.
Proof using ILaws. unfold decode_hex. cbn. by rewrite hex_bytes_roundtrip. Qed.
#[local] Abbreviation restore_one := (fun e => restore_entry cipher data_dir network (Restore.mk e.1 e.2)).

Lemma restore_dlc_entry kind k c value d : 0 <= kind < 256 -> decrypt cipher c = Ok value ->
  exists d', restore_one (dlc_backup_key kind k, c) d = (Ok tt, d') /\ Device.files d' = Device.files d /\
    forall kind', contents (Device.dlc_storage d') kind' =
      if decide (kind' = kind) then <[k := value]> (contents (Device.dlc_storage d) kind) else contents (Device.dlc_storage d) kind'.
Proof using ILaws TL DLaws DW.
  intros Hk Hc. unfold restore_entry. cbn [fst snd Restore.value Restore.key]. rewrite Hc, split_dlc_key.
  cbn [expect]. rewrite !lift_bind.
  rewrite bool_decide_eq_false_2 by discriminate. rewrite bool_decide_eq_true_2 by done.
  unfold restore_dlc. rewrite split_dlc_key_tail.
  cbn -[byte_of_Z Z_of_byte lift mbind M_bind decode_hex]. rewrite !decode_hex_encoded, !lift_bind. cbn [head expect].
  rewrite !lift_bind.
  rewrite Z_of_byte_of_Z by done. unfold on_store_of_device, sled_write.
  destruct (sled_insert_works kind k value (Device.dlc_storage d)) as [s1 H1].
  destruct (sled_flush_works s1) as [s2 H2].
  assert ((sled_insert kind k value;; sled_flush) (Device.dlc_storage d) = (Ok tt, s2)) as ->.
  { apply M_bind_ok. by exists tt, s1. }
  exists (Device.mk s2 (Device.files d)). split; [done|]. split; [done|]. intros kind'.
  by rewrite (sled_flush_ok _ _ _ H2), (sled_insert_ok _ _ _ _ _ _ H1).
Qed.

Lemma restore_db_entry c value d : decrypt cipher c = Ok value ->
  exists d', restore_one (db_backup_key, c) d = (Ok tt, d') /\ Device.dlc_storage d' = Device.dlc_storage d /\
    file_contents (Device.files d') !! db_file data_dir network = Some value.
Proof using FLaws FW.
  intros Hc. unfold restore_entry. cbn [fst snd Restore.value Restore.key]. rewrite Hc, split_db_key.
  cbn [expect]. rewrite !lift_bind.
  rewrite !bool_decide_eq_false_2 by discriminate. rewrite bool_decide_eq_true_2 by done.
  unfold restore_db, on_files. destruct (fs_write_works (db_file data_dir network) value (Device.files d)) as [f Hf].
  rewrite Hf. exists (Device.mk (Device.dlc_storage d) f). split; [done|]. split; [done|].
  cbn. rewrite (fs_write_ok _ _ _ _ _ Hf). by rewrite lookup_insert_eq.
Qed.

Lemma restore_entries es d : NoDup es.*1 -> Forall restorable es -> exists d',
  for_each (restore_entry cipher data_dir network) (map (fun e => Restore.mk e.1 e.2) es) d = (Ok tt, d') /\
  (forall kind k value, (0 <= kind < 256) ->
    (contents (Device.dlc_storage d') kind !! k = Some value <->
    (exists c, (dlc_backup_key kind k, c) ∈ es /\ decrypt cipher c = Ok value) \/
    ((dlc_backup_key kind k ∉ es.*1) /\ contents (Device.dlc_storage d) kind !! k = Some value))) /\
  (forall c value, (db_backup_key, c) ∈ es -> decrypt cipher c = Ok value ->
    file_contents (Device.files d') !! db_file data_dir network = Some value) /\
  ((db_backup_key ∉ es.*1) -> Device.files d' = Device.files d).
Proof using ILaws TL DLaws DW FLaws FW.
  revert d. induction es as [|[key c] es IH]; intros d Hnd Hall; cbn [map for_each].
  { exists d. split; [done|]. split; [|split; [by intros c value Hin%not_elem_of_nil|done]].
    intros kind k value _. split; [intros Hl; right; split; [apply not_elem_of_nil|done]|].
    intros [(c & Hin%not_elem_of_nil & _)|[_ Hl]]; done. }
  apply NoDup_cons in Hnd as [Hnew Hnd]. inversion Hall as [|e' es' [[value Hc] Hkey] Hall']; subst. cbn [fst snd] in *.
  assert (forall A (x : A * Bytes) l, x ∈ l -> x.1 ∈ l.*1) as Hfst.
  { intros A x l Hx. by apply (list_elem_of_fmap_2 fst). }
  destruct Hkey as [->|(kind0 & k0 & Hk0 & ->)].
  - destruct (restore_db_entry c value d Hc) as (d1 & H1 & Hd1 & Hf1). destruct (IH d1 Hnd Hall') as (d' & H' & Hst & Hdb & Hkeep).
    exists d'. split; [apply M_bind_ok; by exists tt, d1|]. split; [|split].
    + intros kind k v Hk. rewrite (Hst kind k v Hk), Hd1. rewrite fmap_cons. cbn [fst]. setoid_rewrite elem_of_cons.
      pose proof (dlc_key_not_db kind k). naive_solver congruence.
    + intros c' v [[= ->]|Hin]%elem_of_cons Hc'; [|by eapply Hdb]. rewrite Hkeep by done. congruence.
    + intros Hnot. cbn in Hnot. by apply not_elem_of_cons in Hnot as [[] _].
  - destruct (restore_dlc_entry kind0 k0 c value d Hk0 Hc) as (d1 & H1 & Hf1 & Hd1).
    destruct (IH d1 Hnd Hall') as (d' & H' & Hst & Hdb & Hkeep).
    exists d'. split; [apply M_bind_ok; by exists tt, d1|]. split; [|split].
    + intros kind k v Hk. rewrite (Hst kind k v Hk), Hd1. rewrite fmap_cons. cbn [fst]. setoid_rewrite elem_of_cons.
      destruct (decide (dlc_backup_key kind k = dlc_backup_key kind0 k0)) as [Heq|Hne].
      * apply dlc_backup_key_inj in Heq as [-> ->]; [|done..]. rewrite decide_True, lookup_insert_eq by done.
        split; [intros [(c' & Hin & _)|[_ [= <-]]]|intros [(c' & [[= ->]|Hin] & Hc')|[Hn _]]].
        -- by apply Hfst in Hin.
        -- left. exists c. split; [by left|done].
        -- right. split; [done|]. congruence.
        -- by apply Hfst in Hin.
        -- exfalso. apply Hn. by left.
      * assert ((if decide (kind = kind0) then <[k0 := value]> (contents (Device.dlc_storage d) kind0)
          else contents (Device.dlc_storage d) kind) !! k = contents (Device.dlc_storage d) kind !! k) as ->.
        { case_decide as Hkk; [|done]. subst. apply lookup_insert_ne. congruence. }
        naive_solver congruence.
    + intros c' v [[=]|Hin]%elem_of_cons Hc'. by eapply Hdb.
    + intros Hnot. cbn in Hnot. apply not_elem_of_cons in Hnot as [_ Hnot]. by rewrite Hkeep.
Qed.

Lemma read_entries es : Forall restorable es ->
  traverse read_backup_entry (map Some es) = Ok (map (fun e => Restore.mk e.1 e.2) es).
Proof using ILaws TL.
  induction 1 as [|[key c] es [_ Hkey] _ IH]; [done|]. cbn.
  assert (from_utf8 key = Some key) as ->.
  { cbn in Hkey. destruct Hkey as [->|(kind & k & _ & ->)]; [apply db_key_utf8|apply dlc_key_utf8]. }
  cbn. by rewrite IH.
Qed.

(** Restoring a new device from a tree that backs up a node gives it the node's store
    and the last snapshot of its database. *)
Lemma restore_backed_up server v db d : backs_up (node_tree server) v db ->
  (forall kind, 0 <= kind < 256 -> contents (Device.dlc_storage d) kind = ∅) ->
  exists d', client_restore cipher data_dir network
      (fun signature => (restore (pk_to_string (cipher_public_key cipher)) signature server).1) d = (Ok tt, d') /\
    (forall kind, 0 <= kind < 256 -> contents (Device.dlc_storage d') kind = v kind) /\
    (forall value, db = Some value -> file_contents (Device.files d') !! db_file data_dir network = Some value).
Proof using CLaws ILaws TL DLaws DW FLaws FW ULaws UW.
  intros [Hdec Hent] Hempty.
  destruct (sled_iter_works (pk_to_string (cipher_public_key cipher)) server) as [l Hl].
  destruct (sled_iter_ok _ _ _ Hl) as (es & -> & Hes). fold (node_tree server) in Hes.
  assert (forall e, e ∈ es <-> node_tree server !! e.1 = Some e.2) as Hin.
  { intros [key c]. rewrite (elem_of_Permutation_proper _ _ _ Hes). apply elem_of_map_to_list. }
  assert (Forall restorable es) as Hall.
  { apply Forall_forall. intros [key c] He%Hin. cbn in He. destruct (Hdec key c He) as [value Hc].
    split; [by exists value|]. destruct (proj2 (Hent key value)) as [(kind & k & Hk & -> & _)|[-> _]].
    - by exists c.
    - right. by exists kind, k.
    - by left. }
  assert (NoDup es.*1) as Hnd by (rewrite Hes; apply NoDup_fst_map_to_list).
  destruct (restore_entries es d Hnd Hall) as (d' & Hrun & Hst & Hdb & _).
  exists d'. split; [|split].
  - unfold client_restore, restore, parse_node_id. rewrite pk_roundtrip. cbn [ok_or]. rewrite lift_bind.
    unfold cipher_public_key. rewrite signed_verifies. cbn [ensure]. rewrite lift_bind.
    unfold with_err, sled_backup_restore. unfold cipher_public_key in Hl. rewrite Hl.
    cbn [mbind outcome_bind]. rewrite read_entries; [|done].
    cbn [fst map_err]. by rewrite lift_bind.
  - intros kind Hk. apply map_eq. intros k. apply option_eq. intros value. rewrite (Hst kind k value Hk).
    rewrite Hempty, lookup_empty by done.
    assert (v kind !! k = Some value <-> is_entry_of v db (dlc_backup_key kind k) value) as ->.
    { split; [left; by exists kind, k|]. intros [(kind' & k' & Hk' & Heq & Hv)|[Heq _]]; [|by apply dlc_key_not_db in Heq].
      by apply dlc_backup_key_inj in Heq as [-> ->]. }
    rewrite Hent. setoid_rewrite Hin. cbn. naive_solver.
  - intros value ->. destruct (proj1 (Hent db_backup_key value)) as (c & Hc & Hcv); [by right|].
    apply (Hdb c value); [by apply Hin|done].
Qed.

(** ** The app, the requests under way and the coordinator *)

(** The app writes, deletes and takes snapshots; a request arrives, here in the order
    in which they were made, or in any order, or never. *)
Inductive app_step : BackupSystem.t (UB := UB) -> BackupSystem.t (UB := UB) -> Prop :=
  | app_writes y kind key value s' :
      0 <= kind < 256 -> Z.of_nat (length value) < 2 ^ 36 ->
      node_storage_write cipher generate_nonce kind key value (BackupSystem.storage y) = (Ok tt, s') ->
      app_step y (BackupSystem.mk s' (BackupSystem.server y) (BackupSystem.snapshot y))
  | app_deletes y kind key s' :
      0 <= kind < 256 ->
      node_storage_delete cipher kind (Some key) (BackupSystem.storage y) = (Ok tt, s') ->
      app_step y (BackupSystem.mk s' (BackupSystem.server y) (BackupSystem.snapshot y))
  | app_takes_snapshot y value s' :
      Z.of_nat (length value) < 2 ^ 36 ->
      subscriber_back_up cipher generate_nonce (Ok value) (BackupSystem.storage y) = (Ok tt, s') ->
      app_step y (BackupSystem.mk s' (BackupSystem.server y) (Some value)).

Definition with_requests (requests : list BackupRequest.t) (s : NodeStorage.t (DS := DS)) : NodeStorage.t :=
  NodeStorage.mk (NodeStorage.dlc_storage s) requests (NodeStorage.nonces_drawn s).
Inductive arrives : list BackupRequest.t -> BackupSystem.t (UB := UB) -> BackupSystem.t (UB := UB) -> Prop :=
  | request_arrives y before request after server' u :
      NodeStorage.requests (BackupSystem.storage y) = before ++ request :: after ->
      deliver request (BackupSystem.server y) = (Ok u, server') ->
      arrives before y (BackupSystem.mk (with_requests (before ++ after) (BackupSystem.storage y)) server' (BackupSystem.snapshot y)).
Inductive is_lost : BackupSystem.t (UB := UB) -> BackupSystem.t (UB := UB) -> Prop :=
  | request_is_lost y before request after :
      NodeStorage.requests (BackupSystem.storage y) = before ++ request :: after ->
      is_lost y (BackupSystem.mk (with_requests (before ++ after) (BackupSystem.storage y)) (BackupSystem.server y) (BackupSystem.snapshot y)).
Definition in_order_step (y y' : BackupSystem.t) : Prop := app_step y y' \/ arrives [] y y'.
Definition network_step (y y' : BackupSystem.t) : Prop := app_step y y' \/ (exists before, arrives before y y') \/ is_lost y y'.

(** With what is under way, the tree backs up the store and the last snapshot. *)
Definition in_sync (y : BackupSystem.t) : Prop :=
  Forall signed (NodeStorage.requests (BackupSystem.storage y)) /\
  backs_up (foldl tree_after (node_tree (BackupSystem.server y)) (NodeStorage.requests (BackupSystem.storage y)))
    (contents (NodeStorage.dlc_storage (BackupSystem.storage y))) (BackupSystem.snapshot y).

Context (Hnonce : forall n, length (generate_nonce n) = 12%nat).

Lemma spawn_backup_run key value (s : NodeStorage.t (DS := DS)) :
  Z.of_nat (length value) < 2 ^ 36 -> bool_decide (key ∈ BLACKLIST) = false ->
  exists backup, spawn_backup cipher generate_nonce key value s =
      (Ok tt, NodeStorage.mk (NodeStorage.dlc_storage s) (NodeStorage.requests s ++ [BackupRequest.Post backup])
        (S (NodeStorage.nonces_drawn s))) /\
    Backup.key backup = key /\ decrypt cipher (Backup.value backup) = Ok value /\ signed (BackupRequest.Post backup).
Proof using CLaws Hnonce.
  intros Hv Hb. destruct (client_backup_ok (NodeStorage.nonces_drawn s) key value (Hnonce _) Hv Hb)
    as (backup & Hbackup & Hrest). exists backup. split; [|exact Hrest].
  unfold spawn_backup, modify. by rewrite Hbackup.
Qed.

Lemma app_step_in_sync y y' : in_sync y -> app_step y y' -> in_sync y'.
Proof using CLaws ILaws TL DLaws Hnonce.
  intros [Hsigned Hup] Hstep. destruct Hstep as [y kind key value s' Hk Hv Hrun|y kind key s' Hk Hrun|y value s' Hv Hrun];
    unfold in_sync; cbn [BackupSystem.storage BackupSystem.server BackupSystem.snapshot].
  - apply M_bind_ok in Hrun as ([] & s1 & (d & Hd & ->)%on_dlc_storage_ok & Hspawn).
    destruct (spawn_backup_run (dlc_backup_key kind key) value (NodeStorage.mk d (NodeStorage.requests (BackupSystem.storage y))
      (NodeStorage.nonces_drawn (BackupSystem.storage y)))) as (backup & Hrun & Hkey & Hval & Hsig); [done|apply not_blacklisted|].
    rewrite Hrun in Hspawn. injection Hspawn as <-. cbn. split; [by apply Forall_app_2; [|constructor]|].
    rewrite foldl_app. cbn. rewrite Hkey. eapply backs_up_write; [done|exact Hup|exact Hval|].
    exact (store_write_ok (StoreProviderLaws := sled_laws) kind key value _ d tt Hd).
  - apply M_bind_ok in Hrun as ([] & s1 & (d & Hd & ->)%on_dlc_storage_ok & [= <-]). cbn.
    split; [apply Forall_app_2; [done|constructor; [apply client_delete_signed|constructor]]|].
    rewrite foldl_app. cbn. eapply backs_up_delete; [done|exact Hup|].
    exact (store_delete_key (StoreProviderLaws := sled_laws) kind key _ d tt Hd).
  - destruct (spawn_backup_run db_backup_key value (BackupSystem.storage y)) as (backup & Hspawn & Hkey & Hval & Hsig); [done|by vm_compute|].
    unfold subscriber_back_up, back_up_db in Hrun. rewrite lift_bind, Hspawn in Hrun. injection Hrun as <-. cbn. split; [by apply Forall_app_2; [|constructor]|].
    rewrite foldl_app. cbn. rewrite Hkey. eapply backs_up_snapshot; [exact Hup|exact Hval].
Qed.

Lemma in_order_step_in_sync y y' : in_sync y -> in_order_step y y' -> in_sync y'.
Proof using CLaws ILaws TL DLaws ULaws UW Hnonce.
  intros Hsync [Hstep|Harr]; [by eapply app_step_in_sync|]. inversion Harr as [y0 before request after server' u Hreq Hd]; subst.
  destruct Hsync as [Hsigned Hup]. rewrite Hreq in Hsigned, Hup. cbn in Hsigned, Hup.
  apply Forall_cons in Hsigned as [Hs Hsigned]. destruct (deliver_ok request (BackupSystem.server y) Hs) as (server'' & Hd' & Htree & _).
  rewrite Hd in Hd'. injection Hd' as _ <-. split; cbn; [done|]. by rewrite Htree.
Qed.

Lemma in_order_in_sync y y' : in_sync y -> rtc in_order_step y y' -> in_sync y'.
Proof using CLaws ILaws TL DLaws ULaws UW Hnonce.
  intros Hsync Hrun. induction Hrun as [|y y1 y' Hstep Hrun IH]; [done|]. apply IH. by eapply in_order_step_in_sync.
Qed.

(** All that is under way can arrive. *)
Lemma requests_can_arrive y : in_sync y -> exists y', rtc in_order_step y y' /\
  NodeStorage.requests (BackupSystem.storage y') = [] /\ NodeStorage.dlc_storage (BackupSystem.storage y') = NodeStorage.dlc_storage (BackupSystem.storage y) /\
  BackupSystem.snapshot y' = BackupSystem.snapshot y.
Proof using CLaws ILaws TL DLaws ULaws UW Hnonce.
  remember (NodeStorage.requests (BackupSystem.storage y)) as requests eqn:Hreq. revert y Hreq.
  induction requests as [|r rs IH]; intros y Hreq Hsync; [by exists y|].
  pose proof Hsync as [Hsigned _]. rewrite <-Hreq in Hsigned. apply Forall_cons in Hsigned as [Hs _].
  destruct (deliver_ok r (BackupSystem.server y) Hs) as (server' & Hd & _).
  assert (in_order_step y (BackupSystem.mk (with_requests rs (BackupSystem.storage y)) server' (BackupSystem.snapshot y))) as Hstep.
  { right. by apply (request_arrives y [] r rs server' tt). }
  destruct (IH (BackupSystem.mk (with_requests rs (BackupSystem.storage y)) server' (BackupSystem.snapshot y))) as (y' & Hrun & Hrest);
    [done|by eapply in_order_step_in_sync|]. exists y'. split; [by eapply rtc_l|exact Hrest].
Qed.

(** C25: as long as requests arrive in the order in which the app made them, the
    coordinator's backup follows the app's store and database: what is still under
    way can arrive, and once all did, restoring a new device succeeds and gives it the
    same contracts and channels and the last snapshot of the database.  The app deletes
    single entries; the deletion of all entries of a kind is left out. *)
Theorem backup_follows_store (y y' : BackupSystem.t) (device : Device.t) :
  in_sync y -> rtc in_order_step y y' ->
  (forall kind, 0 <= kind < 256 -> contents (Device.dlc_storage device) kind = ∅) ->
  exists y'' device', rtc in_order_step y' y'' /\
    NodeStorage.requests (BackupSystem.storage y'') = [] /\
    NodeStorage.dlc_storage (BackupSystem.storage y'') = NodeStorage.dlc_storage (BackupSystem.storage y') /\
    client_restore cipher data_dir network
      (fun signature => (restore (pk_to_string (cipher_public_key cipher)) signature (BackupSystem.server y'')).1) device = (Ok tt, device') /\
    (forall kind, 0 <= kind < 256 ->
      contents (Device.dlc_storage device') kind = contents (NodeStorage.dlc_storage (BackupSystem.storage y')) kind) /\
    (forall value, BackupSystem.snapshot y' = Some value ->
      file_contents (Device.files device') !! db_file data_dir network = Some value).
Proof.
  intros Hsync Hrun Hempty. pose proof (in_order_in_sync y y' Hsync Hrun) as Hsync'.
  destruct (requests_can_arrive y' Hsync') as (y'' & Hrun' & Hnone & Hdlc & Hsnap).
  destruct (in_order_in_sync y' y'' Hsync' Hrun') as [_ Hup]. rewrite Hnone, Hdlc, Hsnap in Hup.
  destruct (restore_backed_up (BackupSystem.server y'') _ _ device Hup Hempty) as (device' & Hres & Hst & Hdb).
  by exists y'', device'.
Qed.

(** *** A full backup *)

(** The tree after posts whose order does not matter. *)
Lemma posts_lookup rs tree key c : foldl tree_after tree (map BackupRequest.Post rs) !! key = Some c ->
  tree !! key = Some c \/ exists b, In b rs /\ Backup.key b = key /\ Backup.value b = c.
Proof using Type.
  revert tree. induction rs as [|b rs IH]; intros tree; cbn; [by left|].
  intros [[[<- <-]|[_ Hl]]%lookup_insert_Some|(b' & Hin & Hb')]%IH; [right; exists b; by auto|by left|].
  right. exists b'. by auto.
Qed.
Lemma posts_has rs tree key : (is_Some (tree !! key) \/ exists b, In b rs /\ Backup.key b = key) ->
  is_Some (foldl tree_after tree (map BackupRequest.Post rs) !! key).
Proof using Type.
  revert tree. induction rs as [|b rs IH]; intros tree; cbn; [by intros [H|(? & [] & _)]|].
  intros H. apply IH. destruct (decide (Backup.key b = key)) as [Heq|Hne].
  - left. rewrite Heq, lookup_insert_eq. by eexists.
  - rewrite lookup_insert_ne by done. destruct H as [H|(b' & [->|Hin] & Hb')]; [by left|done|right; by exists b'].
Qed.

(** Posts of entries of the node, of all of them, into an empty tree. *)
Lemma posts_back_up rs v db :
  (forall b, In b rs -> exists value, is_entry_of v db (Backup.key b) value /\ decrypt cipher (Backup.value b) = Ok value) ->
  (forall key value, is_entry_of v db key value -> exists b, In b rs /\ Backup.key b = key) ->
  backs_up (foldl tree_after ∅ (map BackupRequest.Post rs)) v db.
Proof using ILaws TL.
  intros Hposts Hall.
  assert (forall key c, foldl tree_after ∅ (map BackupRequest.Post rs) !! key = Some c ->
    exists value, is_entry_of v db key value /\ decrypt cipher c = Ok value) as Hget.
  { intros key c [[]%lookup_empty_Some|(b & Hin & <- & <-)]%posts_lookup. by apply Hposts. }
  split; [intros key c (value & _ & Hc)%Hget; by exists value|].
  intros key value. split.
  - intros He. destruct (posts_has rs ∅ key) as [c Hc]; [right; by eapply Hall|].
    exists c. split; [done|]. destruct (Hget key c Hc) as (value' & He' & Hc').
    by rewrite (is_entry_of_functional v db key value value' He He').
  - intros (c & Hc & Hv). destruct (Hget key c Hc) as (value' & He & Hc'). congruence.
Qed.

(** The tasks for a list of keys and values. *)
Lemma spawn_all_run (entries : list (Bytes * Bytes)) (s : NodeStorage.t (DS := DS)) :
  Forall (fun e => Z.of_nat (length e.2) < 2 ^ 36 /\ bool_decide (e.1 ∈ BLACKLIST) = false) entries ->
  exists rs s', for_each (fun e => spawn_backup cipher generate_nonce e.1 e.2) entries s = (Ok tt, s') /\
    NodeStorage.dlc_storage s' = NodeStorage.dlc_storage s /\
    NodeStorage.requests s' = NodeStorage.requests s ++ map BackupRequest.Post rs /\
    Forall (fun b => signed (BackupRequest.Post b)) rs /\
    Forall2 (fun e b => Backup.key b = e.1 /\ decrypt cipher (Backup.value b) = Ok e.2) entries rs.
Proof using CLaws Hnonce.
  intros Hall. revert s. induction Hall as [|[key value] entries [Hv Hb] _ IH]; intros s.
  { exists [], s. split; [done|]. split; [done|]. split; [by rewrite app_nil_r|]. split; constructor. }
  destruct (spawn_backup_run key value s Hv Hb) as (backup & Hrun & Hkey & Hval & Hsig).
  destruct (IH (NodeStorage.mk (NodeStorage.dlc_storage s) (NodeStorage.requests s ++ [BackupRequest.Post backup])
    (S (NodeStorage.nonces_drawn s)))) as (rs & s' & Hrs & Hd & Hreq & Hsigned & Hpairs).
  exists (backup :: rs), s'. split; [apply M_bind_ok; by eexists _, _|]. split; [done|].
  split; [rewrite Hreq; cbn; by rewrite <-app_assoc|]. split; by constructor.
Qed.

Context {XLaws : SledExportLaws DLaws}.


Lemma Forall2_in_l {A B} (P : A -> B -> Prop) l k x : Forall2 P l k -> In x l -> exists y, In y k /\ P x y.
Proof using Type. induction 1 as [|a b l k Hab _ IH]; [done|]. cbn. intros [->|Hin]; [|destruct (IH Hin) as (y & ? & ?)]; eauto. Qed.
Lemma Forall2_in_r {A B} (P : A -> B -> Prop) l k y : Forall2 P l k -> In y k -> exists x, In x l /\ P x y.
Proof using Type. induction 1 as [|a b l k Hab _ IH]; [done|]. cbn. intros [->|Hin]; [|destruct (IH Hin) as (x & ? & ?)]; eauto. Qed.

(** What is exported is what is stored. *)
Definition export_tree (tree : string * Bytes * list (list Bytes)) : outcome string (list SledStorageExport.t) :=
  let '(collection_type, collection_name, collection_iter) := tree in
  if bool_decide (collection_type = "tree"%string)
  then traverse (export_entry collection_name) collection_iter else Ok [].

Lemma export_tree_ok (db : SledDb (SledLib := DS)) tree : In tree (sled_export db) ->
  exists xs, export_tree tree = Ok xs /\
    (forall x, In x xs -> contents db (Z_of_byte (SledStorageExport.kind x)) !! SledStorageExport.key x = Some (SledStorageExport.value x)) /\
    (forall kind k v, 0 <= kind < 256 -> tree.1 = ("tree"%string, [byte_of_Z kind]) -> tree.2 <> [] ->
      contents db kind !! k = Some v -> In (SledStorageExport.mk (byte_of_Z kind) k v) xs).
Proof using XLaws.
  destruct tree as [[ty name] iter]. cbn [fst snd export_tree]. intros Hin.
  case_bool_decide as Hty; [subst ty|exists []; split; [done|]; split; [by intros x []|congruence]].
  destruct (sled_export_lists db name iter Hin) as [->|(kind & l & Hk & -> & Hl & ->)].
  { exists []. split; [done|]. split; [by intros x []|done]. }
  exists (map (fun e => SledStorageExport.mk (byte_of_Z kind) e.1 e.2) l). split; [|split].
  - clear. induction l as [|e l IH]; [done|]. cbn [map traverse]. by rewrite IH.
  - intros x (e & <- & He)%in_map_iff. cbn [SledStorageExport.kind SledStorageExport.key SledStorageExport.value].
    rewrite Z_of_byte_of_Z by done. apply elem_of_map_to_list. rewrite <-Hl. destruct e. by apply list_elem_of_In.
  - intros kind' k v Hk' [= Heq%(f_equal Z_of_byte)] _ Hv. rewrite !Z_of_byte_of_Z in Heq by done. subst kind'.
    apply in_map_iff. exists (k, v). split; [done|]. apply list_elem_of_In. rewrite Hl. by apply elem_of_map_to_list.
Qed.

Lemma export_ok (db : SledDb (SledLib := DS)) : exists exports, sled_storage_export db = Ok exports /\
  (forall x, In x exports -> contents db (Z_of_byte (SledStorageExport.kind x)) !! SledStorageExport.key x = Some (SledStorageExport.value x)) /\
  (forall kind k v, 0 <= kind < 256 -> contents db kind !! k = Some v -> In (SledStorageExport.mk (byte_of_Z kind) k v) exports).
Proof using XLaws.
  assert (exists xss, traverse export_tree (sled_export db) = Ok xss) as [xss Hxss].
  { pose proof (export_tree_ok db) as Hok. induction (sled_export db) as [|tree trees IH]; [by exists []|].
    destruct (Hok tree) as (xs & Hxs & _); [by left|]. destruct IH as [xss Hxss]; [intros t Ht; apply Hok; by right|].
    exists (xs :: xss). cbn. by rewrite Hxs, Hxss. }
  exists (concat xss). split; [unfold sled_storage_export; change (traverse export_tree (sled_export db) ≫= (fun e => Ok (concat e)) =
    Ok (concat xss)); by rewrite Hxss|].
  apply traverse_ok in Hxss. split.
  - intros x (xs & Hxs & Hx)%in_concat. destruct (Forall2_in_r _ _ _ _ Hxss Hxs) as (tree & Htree & Hrun).
    destruct (export_tree_ok db tree Htree) as (xs' & Hrun' & Hall & _). rewrite Hrun in Hrun'. injection Hrun' as <-. by apply Hall.
  - intros kind k v Hk Hv. destruct (sled_export_complete db kind Hk) as (iter & Hin & Hne).
    { intros Hemp. by rewrite Hemp, lookup_empty in Hv. }
    destruct (export_tree_ok db _ Hin) as (xs' & Hrun' & _ & Hall).
    destruct (Forall2_in_l _ _ _ _ Hxss Hin) as (xs & Hxs & Hrun).
    rewrite Hrun in Hrun'. injection Hrun' as <-. apply in_concat. exists xs. split; [done|]. by apply Hall.
Qed.

Lemma for_each_map {S E A B} (f : B -> M S E unit) (g : A -> B) l s : for_each f (map g l) s = for_each (fun x => f (g x)) l s.
Proof using Type. revert s. induction l as [|x l IH]; intros s; [done|]. cbn. unfold mbind, M_bind. destruct (f (g x) s) as [[] s1]; by rewrite ?IH. Qed.

(** The entries a full backup sends, in plain text. *)
Definition full_entries (value : Bytes) (exports : list SledStorageExport.t) : list (Bytes * Bytes) :=
  (db_backup_key, value) ::
  map (fun x => (dlc_backup_key (Z_of_byte (SledStorageExport.kind x)) (SledStorageExport.key x), SledStorageExport.value x)) exports.

Lemma full_backup_entries value exports (s : NodeStorage.t (DS := DS)) :
  sled_storage_export (NodeStorage.dlc_storage s) = Ok exports ->
  full_backup cipher generate_nonce (Ok value) s =
  for_each (fun e => spawn_backup cipher generate_nonce e.1 e.2) (full_entries value exports) s.
Proof using Type.
  intros Hexp. unfold full_backup, full_entries. cbn [for_each fst snd].
  destruct (spawn_backup cipher generate_nonce db_backup_key value s) as [r s1] eqn:Hs1.
  assert (r = Ok tt /\ NodeStorage.dlc_storage s1 = NodeStorage.dlc_storage s) as [-> Hd] by by injection Hs1 as <- <-.
  assert (forall f : unit -> M _ string unit, (spawn_backup cipher generate_nonce db_backup_key value ≫= f) s = f tt s1) as Hbind.
  { intros f. unfold mbind, M_bind. by rewrite Hs1. }
  assert (forall f : unit -> M _ string unit, (back_up_db cipher generate_nonce (Ok value) ≫= f) s = f tt s1) as ->.
  { intros f. unfold back_up_db, mbind, M_bind, lift. by rewrite Hs1. }
  rewrite Hbind, for_each_map. cbn [fst snd].
  unfold mbind, M_bind, gets, lift. cbn [id]. rewrite Hd, Hexp. unfold dlc_backup_key. clear.
  revert s1. induction exports as [|x exports IH]; intros s1; [done|]. cbn [for_each].
  rewrite byte_of_Z_of_byte. unfold mbind, M_bind. destruct (spawn_backup _ _ _ _ s1) as [[] s2]; [apply IH|done..].
Qed.

Lemma full_entries_are_entries value db exports :
  (forall x, In x exports -> contents db (Z_of_byte (SledStorageExport.kind x)) !! SledStorageExport.key x = Some (SledStorageExport.value x)) ->
  (forall kind k v, 0 <= kind < 256 -> contents db kind !! k = Some v -> In (SledStorageExport.mk (byte_of_Z kind) k v) exports) ->
  forall e, In e (full_entries value exports) <-> is_entry_of (contents db) (Some value) e.1 e.2.
Proof using Type.
  intros Hall Hcomplete e. unfold full_entries. cbn [In]. rewrite in_map_iff. split.
  - intros [<-|(x & <- & Hx)]; [by right|]. left. exists (Z_of_byte (SledStorageExport.kind x)), (SledStorageExport.key x).
    split; [unfold Z_of_byte; pose proof (Byte.to_N_bounded (SledStorageExport.kind x)); lia|]. split; [done|]. by apply Hall.
  - destruct e as [key v]. cbn. intros [(kind & k & Hk & -> & Hv)|[-> [= ->]]]; [right|by left].
    exists (SledStorageExport.mk (byte_of_Z kind) k v). split; [cbn; by rewrite Z_of_byte_of_Z|]. by apply Hcomplete.
Qed.

(** C26: a full backup of a node the coordinator keeps nothing of yet succeeds, and
    whatever order its requests arrive in, all of them, the coordinator takes each, and
    a new device that is restored then has the contracts and channels and the database
    the node had. *)
Theorem full_backup_is_restored value (s : NodeStorage.t (DS := DS)) (server : SledDb (SledLib := UB)) (device : Device.t) :
  Z.of_nat (length value) < 2 ^ 36 ->
  (forall kind k v, contents (NodeStorage.dlc_storage s) kind !! k = Some v -> Z.of_nat (length v) < 2 ^ 36) ->
  NodeStorage.requests s = [] -> node_tree server = ∅ ->
  (forall kind, 0 <= kind < 256 -> contents (Device.dlc_storage device) kind = ∅) ->
  exists s', full_backup cipher generate_nonce (Ok value) s = (Ok tt, s') /\
    forall arriving, arriving ≡ₚ NodeStorage.requests s' -> exists server' device',
      for_each deliver arriving server = (Ok tt, server') /\
      client_restore cipher data_dir network
        (fun signature => (restore (pk_to_string (cipher_public_key cipher)) signature server').1) device = (Ok tt, device') /\
      (forall kind, 0 <= kind < 256 ->
        contents (Device.dlc_storage device') kind = contents (NodeStorage.dlc_storage s) kind) /\
      file_contents (Device.files device') !! db_file data_dir network = Some value.
Proof.
  intros Hvalue Hvalues Hnone Hserver Hempty.
  destruct (export_ok (NodeStorage.dlc_storage s)) as (exports & Hexp & Hall & Hcomplete).
  pose proof (full_entries_are_entries value _ exports Hall Hcomplete) as Hentries.
  destruct (spawn_all_run (full_entries value exports) s) as (rs & s' & Hrun & _ & Hreq & Hsigned & Hpairs).
  { constructor; [split; [done|by vm_compute]|]. apply Forall_map, Forall_forall. intros x Hx%list_elem_of_In. cbn.
    split; [by eapply Hvalues, Hall|apply not_blacklisted]. }
  exists s'. split; [by rewrite full_backup_entries with (exports := exports)|]. intros arriving Harr.
  rewrite Hreq, Hnone in Harr. cbn in Harr. apply Permutation_map_inv in Harr as (rs' & -> & Hrs').
  destruct (deliver_all_ok (map BackupRequest.Post rs') server) as (server' & Hdel & Htree).
  { apply Forall_map. by rewrite <-Hrs'. }
  assert (backs_up (node_tree server') (contents (NodeStorage.dlc_storage s)) (Some value)) as Hup.
  { rewrite Htree, Hserver. apply posts_back_up.
    - intros b Hb%(Permutation_in _ (Permutation_sym Hrs')). destruct (Forall2_in_r _ _ _ _ Hpairs Hb) as (e & He & Hkey & Hval).
      exists e.2. split; [rewrite Hkey; by apply Hentries|done].
    - intros key v He. apply (Hentries (key, v)) in He. destruct (Forall2_in_l _ _ _ _ Hpairs He) as (b & Hb & Hkey & _).
      exists b. split; [by eapply Permutation_in|done]. }
  destruct (restore_backed_up server' _ _ device Hup Hempty) as (device' & Hres & Hst & Hdb).
  exists server', device'. split; [done|]. split; [done|]. split; [done|]. by apply Hdb.
Qed.
End BackedUp.

(** ** What a signature of a backup request allows *)

Section Signatures.
Context `{SL : SigningLib} `{TL : !TextLaws IL} {UB : SledLib string} {ULaws : SledLaws UB} `{UW : !SledWorks UB}.

Lemma deletes_run node_id node signature keys (server : SledDb (SledLib := UB)) : pk_from_str node_id = Some node ->
  verify_ecdsa (node_id_message node) signature node = true ->
  exists server', for_each (fun key => delete_backup node_id (DeleteBackup.mk key signature)) keys server = (Ok tt, server') /\
    forall key, contents server' (pk_to_string node) !! key =
      if decide (key ∈ keys) then None else contents server (pk_to_string node) !! key.
Proof using ULaws UW.
  intros Hnode Hverify. revert server. induction keys as [|key keys IH]; intros server.
  { exists server. split; [done|]. intros key. by rewrite decide_False by apply not_elem_of_nil. }
  destruct (sled_remove_works (pk_to_string node) key server) as [s1 H1]. destruct (sled_flush_works s1) as [s2 H2].
  destruct (IH s2) as (server' & Hrun & Hl). exists server'. split.
  - cbn. apply M_bind_ok. exists tt, s2. split; [|exact Hrun].
    unfold delete_backup, parse_node_id. rewrite Hnode. cbn [ok_or]. rewrite lift_bind.
    unfold delete_backup_verify. cbn [DeleteBackup.signature]. rewrite Hverify. cbn [ensure]. rewrite lift_bind.
    apply with_err_ok. unfold sled_backup_delete. apply M_bind_ok. by exists tt, s1.
  - intros key'. rewrite Hl, (sled_flush_ok _ _ _ H2), (sled_remove_ok _ _ _ _ _ H1).
    destruct (decide (key' ∈ keys)); [rewrite decide_True; [done|by right]|]. rewrite decide_True by done.
    destruct (decide (key' = key)) as [->|Hne]; [rewrite decide_True; [apply lookup_delete_eq|by left]|].
    rewrite decide_False by (by intros [|]%elem_of_cons). by apply lookup_delete_ne.
Qed.

(** C27: the signatures of the backup service are not bound to what they are for.  The
    signature a node sends to read its backup, always the same, lets whoever saw it
    delete the whole backup, key by key; and a value the node signed for one key is
    accepted under any other, over what was there. *)
Theorem backup_signatures_can_be_reused node_id node signature restored (server server1 : SledDb (SledLib := UB)) backup u server2 :
  pk_from_str node_id = Some node ->
  restore node_id signature server = (Ok restored, server1) ->
  back_up node_id backup server = (Ok u, server2) ->
  (exists server', for_each (fun r => delete_backup node_id (DeleteBackup.mk (Restore.key r) signature)) restored server = (Ok tt, server') /\
    contents server' (pk_to_string node) = ∅) /\
  forall key, exists server', back_up node_id (Backup.mk key (Backup.value backup) (Backup.signature backup)) server = (Ok tt, server') /\
    contents server' (pk_to_string node) = <[key := Backup.value backup]> (contents server (pk_to_string node)).
Proof.
  intros Hnode Hrestore Hback. split.
  - unfold restore, parse_node_id in Hrestore. rewrite Hnode in Hrestore. cbn [ok_or] in Hrestore. rewrite lift_bind in Hrestore.
    apply M_bind_ok in Hrestore as (w & s1 & [Hverify%ensure_ok ->]%lift_ok & Hrestore%with_err_ok).
    injection Hrestore as Hrestore _. apply outcome_bind_ok in Hrestore as (l & Hl & Hread).
    destruct (sled_iter_ok _ _ _ Hl) as (es & -> & Hes).
    destruct (deletes_run node_id node signature (map Restore.key restored) server Hnode) as (server' & Hrun & Hlook); [done|].
    exists server'. split; [by rewrite <-Hrun, for_each_map|].
    apply map_eq. intros key. rewrite Hlook, lookup_empty. case_decide as Hin; [done|].
    destruct (contents server (pk_to_string node) !! key) as [v|] eqn:Hv; [|done]. destruct Hin.
    apply elem_of_map_to_list in Hv. rewrite <-Hes in Hv. apply list_elem_of_In in Hv.
    apply traverse_ok in Hread. destruct (Forall2_in_l _ _ _ (Some (key, v)) Hread) as (r & Hr & Hentry); [by apply in_map|].
    cbn in Hentry. apply outcome_bind_ok in Hentry as (key' & Hkey%ok_or_ok%from_utf8_keeps & [= <-]). subst key'.
    apply list_elem_of_In, in_map_iff. by exists (Restore.mk key v).
  - intros key. unfold back_up, parse_node_id in *. rewrite Hnode in *. cbn [ok_or] in *. rewrite lift_bind in *.
    apply M_bind_ok in Hback as (w & s1 & [Hverify%ensure_ok ->]%lift_ok & _).
    unfold backup_verify in *. cbn [Backup.value Backup.signature Backup.key] in *. rewrite Hverify. cbn [ensure]. rewrite lift_bind.
    destruct (sled_insert_works (pk_to_string node) key (Backup.value backup) server) as [s1' H1]. destruct (sled_flush_works s1') as [s2 H2].
    exists s2. split; [apply with_err_ok; unfold sled_back_up; apply M_bind_ok; by exists tt, s1'|].
    by rewrite (sled_flush_ok _ _ _ H2), (sled_insert_ok _ _ _ _ _ _ H1), decide_True.
Qed.
End Signatures.

(** ** A backup to run *)

(** Keys are names; a text is encrypted by writing the key and the nonce before it. *)
#[export] Instance demo_cipher_lib : CipherLib (SL := demo_signing) := {|
  NodeSecretKey := string;
  Aes256GcmSiv := Bytes;
  node_secret_bytes := as_bytes;
  node_public_key k := k;
  sign_ecdsa k message := (message, k);
  aes_new_from_slice l := Some l;
  encrypt_in_place k nonce text := Ok ((k ++ nonce) ++ text);
  decrypt_in_place k nonce text :=
    if bool_decide (take (length (k ++ nonce)) text = k ++ nonce) then Ok (drop (length (k ++ nonce)) text)
    else Err "aead::Error"%string;
|}.
#[export] Instance demo_cipher_laws : CipherLaws demo_cipher_lib.
Proof.
  split.
  - intros k nonce text _. by eexists.
  - intros k nonce text c [= <-]. cbn -[app]. rewrite take_app_length, drop_app_length. by rewrite bool_decide_eq_true_2.
  - intros k message. by apply bool_decide_eq_true.
Qed.
#[export] Instance demo_text_laws : TextLaws demo_id.
Proof.
  split; [|done|done|by intros l l' [= <-]].
  intros l Hin. apply list_elem_of_bind in Hin as (b & Hb & _). unfold hex_digits in Hb.
  assert (Hr : 0 <= Z_of_byte b < 256) by (unfold Z_of_byte; pose proof (Byte.to_N_bounded b); lia).
  pose proof (Z.mod_pos_bound (Z_of_byte b) 16 ltac:(lia)).
  assert (0 <= Z_of_byte b / 16 < 16) by (split; [apply Z.div_pos; lia|apply Z.div_lt_upper_bound; lia]).
  assert (Z_of_byte slash = 47) as Hs by reflexivity.
  apply elem_of_cons in Hb as [Hb|Hb%list_elem_of_singleton]; apply (f_equal Z_of_byte) in Hb;
    rewrite Z_of_byte_of_Z, Hs in Hb by lia; lia.
Qed.

(** A [sled] database in memory. *)
Section DemoSled.
Context {Name : Type} `{Countable Name} (exported : gmap Name (gmap Bytes Bytes) -> list (string * Bytes * list (list Bytes))).
#[local] Abbreviation Trees := (gmap Name (gmap Bytes Bytes)).
Definition tree_of (s : Trees) (name : Name) : gmap Bytes Bytes := default ∅ (s !! name).
Definition set_tree (name : Name) (t : gmap Bytes Bytes) : M Trees string unit := modify (fun s => <[name := t]> s).

Definition demo_sled : SledLib Name := {|
  SledDb := Trees;
  sled_open _ := Some ∅;
  sled_get name k s := Ok (tree_of s name !! k);
  sled_iter name s := Ok (map Some (map_to_list (tree_of s name)));
  sled_insert name k v := fun s => set_tree name (<[k := v]> (tree_of s name)) s;
  sled_remove name k := fun s => set_tree name (delete k (tree_of s name)) s;
  sled_clear name := set_tree name ∅;
  sled_flush := mret tt;
  sled_export := exported;
|}.

Lemma tree_of_set name t s u s' : set_tree name t s = (Ok u, s') ->
  forall name', tree_of s' name' = if decide (name' = name) then t else tree_of s name'.
Proof.
  intros [= _ <-] name'. unfold tree_of. rewrite lookup_insert.
  destruct (decide (name' = name)) as [->|Hne]; [by rewrite decide_True|by rewrite decide_False by congruence].
Qed.
#[refine] Definition demo_sled_laws : SledLaws demo_sled := {| contents := tree_of : SledDb (SledLib := demo_sled) -> _ |}.
Proof.
  - by intros name k s o [= <-].
  - intros name s l [= <-]. by eexists.
  - intros name k v s s' u Hrun. exact (tree_of_set _ _ _ _ _ Hrun).
  - intros name k s s' u Hrun. exact (tree_of_set _ _ _ _ _ Hrun).
  - intros name s s' u Hrun. exact (tree_of_set _ _ _ _ _ Hrun).
  - by intros s s' u [= _ <-].
Defined.
Lemma demo_sled_works : SledWorks demo_sled.
Proof. split; intros; by eexists. Qed.
End DemoSled.

Definition export_kinds (s : gmap Z (gmap Bytes Bytes)) : list (string * Bytes * list (list Bytes)) :=
  map (fun e => ("tree"%string, [byte_of_Z e.1], map (fun kv => [kv.1; kv.2]) (map_to_list e.2)))
    (List.filter (fun e => (0 <=? e.1) && (e.1 <? 256)) (map_to_list s)).
#[export] Instance demo_dlc_sled : SledLib Z := demo_sled export_kinds.
#[export] Instance demo_dlc_sled_laws : SledLaws demo_dlc_sled := demo_sled_laws export_kinds.
#[export] Instance demo_dlc_sled_works : SledWorks demo_dlc_sled := demo_sled_works export_kinds.
#[export] Instance demo_user_sled : SledLib string := demo_sled (fun _ => []).
#[export] Instance demo_user_sled_laws : SledLaws demo_user_sled := demo_sled_laws (fun _ => []).
#[export] Instance demo_user_sled_works : SledWorks demo_user_sled := demo_sled_works (fun _ => []).

#[export] Instance demo_export_laws : SledExportLaws demo_dlc_sled_laws.
Proof.
  split.
  - intros s name iter ([kind t] & [= <- <-] & Hin)%in_map_iff. right. apply filter_In in Hin as [Hin Hk]. cbn [fst snd] in *.
    exists kind, (map_to_list t). split; [lia|]. split; [done|]. split; [|done].
    apply list_elem_of_In, elem_of_map_to_list in Hin.
    change (contents s kind) with (tree_of (s : gmap Z (gmap Bytes Bytes)) kind). unfold tree_of. by rewrite Hin.
  - intros s kind Hk Hne.
    change (contents s kind) with (tree_of (s : gmap Z (gmap Bytes Bytes)) kind) in Hne. unfold tree_of in Hne.
    change SledDb with (gmap Z (gmap Bytes Bytes)) in s. destruct (s !! kind) as [t|] eqn:Ht; [|done].
    exists (map (fun kv => [kv.1; kv.2]) (map_to_list t)). split.
    + apply in_map_iff. exists (kind, t). split; [done|]. apply filter_In. cbn [fst]. split; [|lia].
      apply list_elem_of_In. by apply elem_of_map_to_list.
    + intros Hnil%map_eq_nil. apply Hne. cbn. by apply map_to_list_empty_iff.
Qed.

#[export] Instance demo_files : FileSystem := {|
  Files := gmap Bytes Bytes;
  path_join a b := a ++ slash :: b;
  path_parent p := Some p;
  fs_create_dir_all _ := mret tt;
  fs_write path data := modify (fun s => <[path := data]> s);
|}.
#[export, refine] Instance demo_files_laws : FileSystemLaws demo_files :=
  {| file_contents := (fun s => s) : Files (FileSystem := demo_files) -> _ |}.
Proof. by intros path data s s' u [= _ <-]. Defined.
#[export] Instance demo_files_works : FileSystemWorks demo_files.
Proof. split. intros. by eexists. Qed.

(** *** Alice's backups *)

Definition demo_cipher : AesCipher.t := AesCipher.mk ("alice"%string : NodeSecretKey) [Byte.x61].
Definition demo_nonce (n : nat) : Bytes := replicate 12 (byte_of_Z (Z.of_nat n)).
Definition demo_node_storage : NodeStorage.t (DS := demo_dlc_sled) := NodeStorage.mk ∅ [] 0.
Definition demo_nobody_backed_up : SledDb (SledLib := demo_user_sled) := ∅.
Definition demo_new_device : Device.t := Device.mk (∅ : SledDb (SledLib := demo_dlc_sled)) (∅ : Files (FileSystem := demo_files)).
Definition demo_backups : BackupSystem.t := BackupSystem.mk demo_node_storage demo_nobody_backed_up None.

Lemma demo_nonce_length n : length (demo_nonce n) = 12%nat.
Proof. reflexivity. Qed.
Lemma demo_new_device_is_empty kind : contents (Device.dlc_storage demo_new_device) kind = ∅.
Proof. reflexivity. Qed.
Lemma demo_backups_in_sync : in_sync demo_cipher demo_backups.
Proof.
  split; [constructor|].
  assert (backs_up demo_cipher ∅ (fun _ => ∅) None) as Hempty; [|exact Hempty].
  split; [intros key c Hc; by apply lookup_empty_Some in Hc|].
  intros key value. split; [|intros (c & Hc & _); by apply lookup_empty_Some in Hc].
  intros [(kind & k & _ & _ & Hl)|[_ [=]]]. by apply lookup_empty_Some in Hl.
Qed.

Definition write_demo (value : Bytes) : M (NodeStorage.t (DS := demo_dlc_sled)) string unit :=
  node_storage_write demo_cipher demo_nonce 1 [Byte.x6b] value.

(** What she writes is on a device that is restored later. *)
Example backup_follows_store_witness : exists device' signature_to_backup,
  client_restore demo_cipher [Byte.x2f] "regtest" signature_to_backup demo_new_device = (Ok tt, device') /\
  contents (Device.dlc_storage device') 1 !! [Byte.x6b] = Some [Byte.x76].
Proof.
  destruct (succeeds (write_demo [Byte.x76]) demo_node_storage) as ([] & s' & Hwrite); [reflexivity|].
  pose (y' := BackupSystem.mk s' demo_nobody_backed_up (None : option Bytes)).
  destruct (backup_follows_store demo_cipher demo_nonce [Byte.x2f] "regtest" demo_nonce_length demo_backups y' demo_new_device
    demo_backups_in_sync) as (y'' & device' & _ & _ & _ & Hrestored & Hcontents & _).
  - apply rtc_once. left. apply (app_writes _ _ demo_backups 1 [Byte.x6b] [Byte.x76] s'); [lia|reflexivity|exact Hwrite].
  - intros kind _. apply demo_new_device_is_empty.
  - eexists device', _. split; [exact Hrestored|]. rewrite Hcontents by lia. injection Hwrite as <-. reflexivity.
Defined.

Example full_backup_is_restored_witness : exists s' server' device',
  full_backup demo_cipher demo_nonce (Ok [Byte.x64]) demo_node_storage = (Ok tt, s') /\
  for_each (deliver demo_cipher) (NodeStorage.requests s') demo_nobody_backed_up = (Ok tt, server') /\
  file_contents (Device.files device') !! db_file [Byte.x2f] "regtest" = Some [Byte.x64].
Proof.
  destruct (full_backup_is_restored demo_cipher demo_nonce [Byte.x2f] "regtest" demo_nonce_length [Byte.x64] demo_node_storage
    demo_nobody_backed_up demo_new_device) as (s' & Hfull & Harriving).
  - reflexivity.
  - intros kind k v Hl. change ((∅ : gmap Bytes Bytes) !! k = Some v) in Hl. by apply lookup_empty_Some in Hl.
  - reflexivity.
  - reflexivity.
  - intros kind _. apply demo_new_device_is_empty.
  - destruct (Harriving (NodeStorage.requests s')) as (server' & device' & Hdel & _ & _ & Hdb); [done|].
    by exists s', server', device'.
Defined.

(** The value Alice signed under one key, and the signature she restores with. *)
Definition demo_signed_backup : Backup.t :=
  Backup.mk [Byte.x6b] [Byte.x76] (create_sign_message [Byte.x76], "alice"%string).
Definition demo_restore_signature : SecpSignature := (node_id_message "alice"%string, "alice"%string).

Example backup_signatures_can_be_reused_witness : exists server' server'',
  back_up "alice" demo_signed_backup demo_nobody_backed_up = (Ok tt, server') /\
  for_each (fun r => delete_backup "alice" (DeleteBackup.mk (Restore.key r) demo_restore_signature))
    [Restore.mk [Byte.x6b] [Byte.x76]] server' = (Ok tt, server'').
Proof.
  destruct (succeeds (back_up "alice" demo_signed_backup) demo_nobody_backed_up) as ([] & server' & Hback); [reflexivity|].
  destruct (succeeds (back_up "alice" demo_signed_backup) server') as ([] & server2 & Hback2); [by injection Hback as <-|].
  destruct (backup_signatures_can_be_reused (SL := demo_signing) "alice" "alice"%string demo_restore_signature [Restore.mk [Byte.x6b] [Byte.x76]]
    server' server' demo_signed_backup tt server2) as [(server'' & Hdel & _) _].
  - reflexivity.
  - injection Hback as <-. reflexivity.
  - exact Hback2.
  - by exists server', server''.
Defined.

(** *** Requests that overtake each other *)

(** Alice writes under a key twice and the second request arrives first: all requests
    arrived, and the backup keeps the old value. *)
Example overtaken_backup_is_stale : exists y',
  rtc (network_step demo_cipher demo_nonce) demo_backups y' /\
  NodeStorage.requests (BackupSystem.storage y') = [] /\ ~ in_sync demo_cipher y'.
Proof.
  destruct (succeeds (write_demo [Byte.x76]) demo_node_storage) as ([] & s1 & H1); [reflexivity|].
  destruct (succeeds (write_demo [Byte.x77]) s1) as ([] & s2 & H2); [by injection H1 as <-|].
  assert (exists first second, NodeStorage.requests s2 = [first; second] /\
    is_ok ((deliver demo_cipher second;; deliver demo_cipher first) demo_nobody_backed_up).1 = true /\
    (option_map (decrypt demo_cipher)
      (node_tree demo_cipher ((deliver demo_cipher second;; deliver demo_cipher first) demo_nobody_backed_up).2 !!
        dlc_backup_key 1 [Byte.x6b])) = Some (Ok [Byte.x76])) as (first & second & Hreq & Hok & Htree).
  { injection H1 as <-. injection H2 as <-. eexists _, _. split; [reflexivity|]. split; reflexivity. }
  assert (contents (NodeStorage.dlc_storage s2) 1 !! [Byte.x6b] = Some [Byte.x77]) as Hcontents.
  { injection H1 as <-. injection H2 as <-. reflexivity. }
  destruct (succeeds _ _ Hok) as ([] & server2 & Hrun). rewrite Hrun in Htree. cbn [snd] in Htree.
  apply M_bind_ok in Hrun as ([] & server1 & Hd2 & Hd1).
  exists (BackupSystem.mk (with_requests [] s2) server2 None). split; [|split; [reflexivity|]].
  - eapply rtc_l; [left; apply (app_writes _ _ demo_backups 1 [Byte.x6b] [Byte.x76] s1); [lia|reflexivity|exact H1]|].
    eapply rtc_l; [left; apply (app_writes _ _ (BackupSystem.mk s1 demo_nobody_backed_up None) 1 [Byte.x6b] [Byte.x77] s2);
      [lia|reflexivity|exact H2]|].
    eapply rtc_l; [right; left; exists [first];
      exact (request_arrives _ (BackupSystem.mk s2 demo_nobody_backed_up None) [first] second [] server1 tt Hreq Hd2)|].
    apply rtc_once. right. left. exists [].
    exact (request_arrives _ (BackupSystem.mk (with_requests [first] s2) server1 None) [] first [] server2 tt eq_refl Hd1).
  - intros [_ [_ Hup]]. cbn [with_requests NodeStorage.requests BackupSystem.storage foldl] in Hup.
    destruct (proj1 (Hup (dlc_backup_key 1 [Byte.x6b]) [Byte.x77])) as (c & Hc & Hv).
    { left. exists 1, [Byte.x6b]. split; [lia|]. by split. }
    cbn [BackupSystem.server] in Hc. rewrite Hc in Htree. cbn [option_map] in Htree. congruence.
Qed.
