(* ===== verification/NodeRollover.v ===== *)
(** * [coordinator/src/node/rollover.rs]: extending a position by a week

    When the trader is connected in the rollover window, the coordinator proposes to
    renew the contract of the trader's position with the next expiry, paying the
    outstanding funding fees in it.  Here is also what the contracts distribute that are
    offered to the trader, by a rollover or a trade. *)

From stdpp Require Import base list option strings pretty.
From Stdlib Require Import ZArith QArith Lia.
From S2P Require Import Prelude Machine External Demo Commons Rollover Cfd PayoutCurve SqlTypes Schema.
From S2P Require Import Db OrdersDb MatchesDb Referrals Trading PositionsDb FundingDb Funding Settlement Resize.
From S2P Require Import ProtocolDb DlcExecutor Node DemoDlc TradeExecutor.

#[local] Open Scope Z_scope.

(** What the handlers find outside the node's state; [new_protocol_id] is the id the
    call draws. *)
Module RolloverEnv.
Record t `{IdLib} := mk {
  now : OffsetDateTime;
  new_protocol_id : ProtocolId;
  maintenance_margin_rate : f32;           (* [settings] *)
  network : Network;                       (* [self.inner.network] *)
  is_connected : PublicKey -> bool;
  pkg_version : string;
}.
#[global] Arguments mk {_}.
End RolloverEnv.

Section NodeRollover.
Context `{DL : DecimalLib} `{BL : BitcoinLib} `{IL : IdLib} `{TL : TimeLib} `{SL : SemverLib}.
Context `{DLC : !DlcLib}.

(** The oracle and the fee rate of the contract that is rolled over. *)
Definition old_contract_terms (dlc_channel_id : DlcChannelId) : NodeM (XOnlyPublicKey * Z) :=
  old_contract ← get_contract_by_dlc_channel_id dlc_channel_id;
  match old_contract with
  | ConfirmedContract old_offered_contract =>
    contract_info ← try (ok_or "contract info to exist on a signed contract"%string
      (head (OfferedContract.contract_info old_offered_contract)));
    oracle_announcement ← try (ok_or "oracle announcement to exist on signed contract"%string
      (head (ContractInfo.oracle_announcements contract_info)));
    mret (OracleAnnouncement.oracle_public_key oracle_announcement,
          OfferedContract.fee_rate_per_vb old_offered_contract)
  | _ => throw (Msg "Cannot rollover a contract that is not confirmed")
  end.

(** The arguments of [build_contract_descriptor]. *)
Definition rollover_descriptor {E} (position : Position.t)
    (collateral_reserve_coordinator collateral_reserve_trader : Amount)
    : outcome E DescriptorArgs.t :=
  initial_price ← expect (d_try_from_f32 (Position.average_entry_price position));
  Ok (DescriptorArgs.mk initial_price (Position.coordinator_margin position)
        (Position.trader_margin position) (Position.coordinator_leverage position)
        (Position.trader_leverage position) (Position.trader_direction position)
        collateral_reserve_coordinator collateral_reserve_trader (Position.quantity position)
        (Position.contract_symbol position)).

(** The [RolloverParams] that are recorded. *)
Definition rollover_params {E} (protocol_id : ProtocolId) (position : Position.t)
    (next_expiry : OffsetDateTime) : outcome E RolloverParams.t :=
  leverage_coordinator ← decimal_from_f32 (Position.coordinator_leverage position);
  leverage_trader ← decimal_from_f32 (Position.trader_leverage position);
  liquidation_price_coordinator ← decimal_from_f32 (Position.coordinator_liquidation_price position);
  liquidation_price_trader ← decimal_from_f32 (Position.trader_liquidation_price position);
  Ok (RolloverParams.mk protocol_id (Position.trader position) (Position.coordinator_margin position)
        (Position.trader_margin position) leverage_coordinator leverage_trader
        liquidation_price_coordinator liquidation_price_trader next_expiry).

(** [propose_rollover]. *)
Definition propose_rollover (env : RolloverEnv.t) (dlc_channel_id : DlcChannelId)
    (position : Position.t) (network : Network) : NodeM unit :=
  let trader_pubkey := Position.trader position in
  let protocol_id := RolloverEnv.new_protocol_id env in
  next_expiry ← lift (calculate_next_expiry (RolloverEnv.now env) (RolloverEnv.now env) network);
  '(oracle_pk, contract_tx_fee_rate) ← old_contract_terms dlc_channel_id;
  maintenance_margin_rate ←
    lift (expect (d_try_from_f32 (RolloverEnv.maintenance_margin_rate env)));
  '(funding_fee_events, funding_fee) ← outstanding_funding_fee position;
  position ← try (apply_funding_fee position funding_fee maintenance_margin_rate);
  '(collateral_reserve_coordinator, collateral_reserve_trader) ←
    node_apply_funding_fee_to_channel dlc_channel_id funding_fee;
  args ← lift (rollover_descriptor position collateral_reserve_coordinator
                 collateral_reserve_trader);
  contract_descriptor ← try (build_contract_descriptor args);
  offer_collateral ←
    lift (expect (amount_add (Position.coordinator_margin position) collateral_reserve_coordinator));
  accept_collateral ←
    lift (expect (amount_add (Position.trader_margin position) collateral_reserve_trader));
  channel ← get_dlc_channel_by_id dlc_channel_id;
  previous_id ← try (previous_protocol_id channel);
  temporary_contract_id ← node_propose_rollover dlc_channel_id
    (contract_input offer_collateral accept_collateral contract_tx_fee_rate contract_descriptor
       oracle_pk (event_id (Position.contract_symbol position) next_expiry))
    (reference_id_from protocol_id) (map message_funding_fee_event_from funding_fee_events);
  params ← lift (rollover_params protocol_id position next_expiry);
  on_db (start_rollover (RolloverEnv.now env) protocol_id previous_id temporary_contract_id
           dlc_channel_id params (map FundingFeeEvent.id funding_fee_events));;
  on_db (rollover_position (RolloverEnv.now env) trader_pubkey next_expiry);;
  publish (NodeEvent.SendLastDlcMessage trader_pubkey).

(** [check_rollover]. *)
Definition check_rollover (env : RolloverEnv.t) (position : Position.t) (network : Network)
    (notification : option NotificationKind) : NodeM unit :=
  let now := RolloverEnv.now env in
  let trader_id := Position.trader position in
  let expiry_timestamp := Position.expiry_timestamp position in
  signed_channel ← get_signed_channel_by_trader_id trader_id;
  if is_eligible_for_rollover now now network && (now <? expiry_timestamp) then
    next_expiry ← lift (calculate_next_expiry now now network);
    if next_expiry <=? expiry_timestamp then mret tt
    else
      match notification with
      | Some notification => send (Sent.Notification trader_id notification)
      | None => mret tt
      end;;
      if RolloverEnv.is_connected env trader_id then
        propose_rollover env (SignedChannel.channel_id signed_channel) position
          (RolloverEnv.network env)
      else mret tt
  else mret tt.

(** [Result::is_err] of a call whose error is dropped. *)
Definition is_err {A} (m : NodeM A) : NodeM bool := fun s =>
  match m s with
  | (Ok _, s') => (Ok false, s')
  | (Err _, s') => (Ok true, s')
  | (Panic, s') => (Panic, s')
  end.

(** [check_if_eligible_for_rollover]. *)
Definition check_if_eligible_for_rollover (env : RolloverEnv.t) (trader_id : PublicKey)
    (network : Network) : NodeM unit :=
  outdated ← is_err (on_db (check_version (RolloverEnv.pkg_version env) trader_id));
  if (outdated : bool) then mret tt
  else
    position ← on_db (with_err FromSql
      (get_position_by_trader trader_id [PositionState.Open; PositionState.Rollover]));
    match position with
    | Some position => check_rollover env position network None
    | None => mret tt
    end.

(** [is_in_rollover]. *)
Definition is_in_rollover (trader_id : PublicKey) : NodeM bool :=
  position ← on_db (with_err FromSql (get_position_by_trader trader_id [PositionState.Rollover]));
  mret (match position with Some _ => true | None => false end).
End NodeRollover.

(** ** The contracts that are proposed *)

(** A DLC library that also keeps the contract inputs it is asked to offer. *)
Section Recording.
Context `{IL : IdLib} (L : DlcLib).

Definition RecordingState : Type := @DlcState _ L * list (ContractInput.t (@ContractDescriptor _ L)).

Definition unrecorded {A} (m : M (@DlcState _ L) string A) : M RecordingState string A := fun '(d, inputs) =>
  let '(r, d) := m d in (r, (d, inputs)).
Definition recorded {A} (input : ContractInput.t (@ContractDescriptor _ L)) (m : M (@DlcState _ L) string A)
    : M RecordingState string A := fun '(d, inputs) =>
  let '(r, d) := m d in (r, (d, inputs ++ [input])).

Definition recording : DlcLib := {|
  ContractDescriptor := @ContractDescriptor _ L;
  numerical_payouts := @numerical_payouts _ L;
  numerical_descriptor := @numerical_descriptor _ L;
  DlcState := RecordingState;
  store_channels s := @store_channels _ L s.1;
  store_signed_channels s := @store_signed_channels _ L s.1;
  store_channel id s := @store_channel _ L id s.1;
  store_contract id s := @store_contract _ L id s.1;
  store_contract_offers s := @store_contract_offers _ L s.1;
  offer_channel input pk fee_config id := recorded input (@offer_channel _ L input pk fee_config id);
  settle_offer channel_id amount id := unrecorded (@settle_offer _ L channel_id amount id);
  renew_offer channel_id payout input id := recorded input (@renew_offer _ L channel_id payout input id);
  offer_collaborative_close channel_id amount id :=
    unrecorded (@offer_collaborative_close _ L channel_id amount id);
  force_close_channel channel_id id := unrecorded (@force_close_channel _ L channel_id id);
  periodic_check := unrecorded (@periodic_check _ L);
  sync_on_chain_wallet := unrecorded (@sync_on_chain_wallet _ L);
  has_announcement := @has_announcement _ L;
  BUFFER_TX_WEIGHT := @BUFFER_TX_WEIGHT _ L;
  CET_BASE_WEIGHT := @CET_BASE_WEIGHT _ L;
  CET_EXTRA_WEIGHT := @CET_EXTRA_WEIGHT _ L;
  FUND_TX_BASE_WEIGHT := @FUND_TX_BASE_WEIGHT _ L;
|}.
End Recording.

Definition is_amount (x : Amount) : Prop := 0 <= x < 2 ^ 64.

(** The payouts [rust-dlc] answers are [u64]s. *)
Definition state_amounts (state : SignedChannelState) : Prop :=
  match state with
  | Settled own_payout counter_payout => is_amount own_payout /\ is_amount counter_payout
  | SettledOffered p | SettledReceived p | SettledAccepted p | SettledConfirmed p
  | CollaborativeCloseOffered p => is_amount p
  | _ => True
  end.
Class DlcAmounts `{IdLib} (L : DlcLib) : Prop := {
  signed_channels_amounts s l : store_signed_channels s = Ok l ->
    Forall (fun c => state_amounts (SignedChannel.state c)) l;
  channel_amounts id s c sc : store_channel id s = Ok (Some c) -> Channel.kind c = Signed sc ->
    state_amounts (SignedChannel.state sc);
  payouts_amounts d total l : numerical_payouts d total = Some l ->
    Forall (fun p => is_amount (Payout.offer p) /\ is_amount (Payout.accept p)) l;
}.

Section Proposals.
Context `{DL : DecimalLib} `{BL : BitcoinLib} `{IL : IdLib}.
Context `{!DecimalLaws DL} `{!BitcoinLaws BL}.

(** All that the payout function of these arguments distributes. *)
Definition descriptor_collateral (args : DescriptorArgs.t) : Z :=
  DescriptorArgs.coordinator_margin args + DescriptorArgs.coordinator_collateral_reserve args
  + (DescriptorArgs.trader_margin args + DescriptorArgs.trader_collateral_reserve args).

(** Matching fees are amounts. *)
Definition fees_are_amounts (trade_params : TradeParams.t) : Prop :=
  Forall is_amount (map Match.matching_fee (FilledWith.matches (TradeParams.filled_with trade_params))).

Lemma sum_amounts_range {E} acc l z : is_amount acc -> Forall is_amount l ->
  sum_amounts (E := E) acc l = Ok z -> is_amount z.
Proof.
  revert acc. induction l as [|x l IH]; intros acc Hacc Hl; cbn; [by intros [= <-]|].
  intros Hz. inv_ok. inversion_clear Hl. eapply IH; [|done|exact Hz].
  unfold is_amount in *. amounts. lia.
Qed.


Lemma trade_order_matching_fee_range {E} trade_params fee : fees_are_amounts trade_params ->
  trade_order_matching_fee (E := E) trade_params = Ok fee -> is_amount fee.
Proof. intros Hf. apply sum_amounts_range; [|exact Hf]. unfold is_amount. lia. Qed.

Lemma margin_trader_range {E} trade_params m : margin_trader (E := E) trade_params = Ok m -> is_amount m.
Proof. unfold margin_trader. intros Hm. inv_ok. by apply calculate_margin_range in Hm. Qed.

Lemma margin_coordinator_range {E} trade_params leverage m :
  margin_coordinator (E := E) trade_params leverage = Ok m -> is_amount m.
Proof. unfold margin_coordinator. intros Hm. inv_ok. by apply calculate_margin_range in Hm. Qed.

(** Ranges and sums of the amounts in the hypotheses. *)
Ltac terms :=
  repeat match goal with
  | H : margin_trader _ = Ok _ |- _ => apply margin_trader_range in H
  | H : margin_coordinator _ _ = Ok _ |- _ => apply margin_coordinator_range in H
  | H : trade_order_matching_fee _ = Ok _ |- _ => apply trade_order_matching_fee_range in H; [|done]
  | H : u64_add _ _ = Ok _ |- _ => apply u64_add_ok in H as [-> ?]
  | H : _ ≫= _ = Some _ |- _ => apply bind_Some in H as (? & ? & H)
  | H : (_, _, _) = (_, _, _) |- _ => injection H as <- <- <-
  end;
  unfold is_amount in *; amounts; cbn; lia.

(** *** What each proposal asks for *)

Lemma open_channel_distributes trade_params reserve_coordinator reserve_trader liquidity args fee offer accept fees :
  fees_are_amounts trade_params -> is_amount reserve_coordinator -> is_amount reserve_trader ->
  open_channel_terms trade_params reserve_coordinator reserve_trader = Ok args ->
  trade_order_matching_fee (E := string) trade_params = Ok fee ->
  open_channel_collaterals (E := Anyhow) liquidity (DescriptorArgs.coordinator_margin args)
    (DescriptorArgs.trader_margin args) reserve_coordinator reserve_trader fee = Ok (offer, accept, fees) ->
  descriptor_collateral args = offer + accept.
Proof.
  intros Hfees Hrc Hrt H Hfee Hc. unfold descriptor_collateral.
  unfold open_channel_terms in H. inv_ok. subst args. unfold open_channel_collaterals in Hc.
  match goal with H : trade_order_matching_fee _ = Ok ?x |- _ => rewrite Hfee in H; injection H as <- end.
  destruct liquidity; cbn in Hc; inv_ok; terms.
Qed.

Lemma open_position_distributes trade_params offer accept args :
  fees_are_amounts trade_params -> is_amount offer -> is_amount accept ->
  open_position_terms trade_params offer accept = Ok args -> descriptor_collateral args = offer + accept.
Proof.
  intros Hfees Hc Ht H. unfold descriptor_collateral. unfold open_position_terms in H. inv_ok. subst. terms.
Qed.

Lemma resize_distributes position trade_params resized_position args offer accept :
  resized_descriptor (E := string) position trade_params resized_position = Ok args ->
  resized_collaterals (E := string) resized_position = Ok (offer, accept) ->
  descriptor_collateral args = offer + accept.
Proof.
  intros Ha Hc. unfold descriptor_collateral, resized_descriptor, resized_collaterals in *. inv_ok. subst. terms.
Qed.

Lemma rollover_distributes position reserve_coordinator reserve_trader args offer accept :
  is_amount reserve_coordinator -> is_amount reserve_trader ->
  is_amount (Position.coordinator_margin position) -> is_amount (Position.trader_margin position) ->
  rollover_descriptor (E := Anyhow) position reserve_coordinator reserve_trader = Ok args ->
  amount_add (Position.coordinator_margin position) reserve_coordinator = Some offer ->
  amount_add (Position.trader_margin position) reserve_trader = Some accept ->
  descriptor_collateral args = offer + accept.
Proof.
  intros Hrc Hrt Hmc Hmt H Ho Ha. unfold descriptor_collateral, rollover_descriptor in *. inv_ok. subst. terms.
Qed.

(** *** Following the inputs through the handlers *)

Context (L : DlcLib) `{!DlcAmounts L}.
#[local] Instance recorded_dlc : DlcLib | 0 := recording L.

(** The contract inputs the library was asked to offer. *)
Definition offered_inputs (s : NodeState.t) : list (ContractInput.t ContractDescriptor) :=
  snd (NodeState.dlc s).

(** The descriptor of the input distributes the collateral of both parties. *)
Definition distributed (input : ContractInput.t ContractDescriptor) : Prop :=
  exists args, build_contract_descriptor args = Ok (ContractInput.contract_descriptor input) /\
    descriptor_collateral args = ContractInput.offer_collateral input + ContractInput.accept_collateral input.

Definition same_inputs (s s' : NodeState.t) : Prop := offered_inputs s' = offered_inputs s.
#[local] Instance same_inputs_preorder : PreOrder same_inputs.
Proof. unfold same_inputs. split; [done|]. intros ??? H1 H2. by rewrite H2, H1. Qed.

(** At [s], [m] asks for [n] contracts if it returns and never for more, all of which
    distribute the collateral. *)
Definition asks {A} (n : nat) (m : NodeM A) (s : NodeState.t) : Prop := exists new,
  offered_inputs (m s).2 = offered_inputs s ++ new /\ Forall distributed new /\ (length new <= n)%nat /\
  (is_ok (m s).1 = true -> length new = n).

Lemma quiet_read {A} (m : NodeM A) : read_only m -> steps same_inputs m.
Proof. intros Hm s. unfold same_inputs. by rewrite <-(Hm s). Qed.

Lemma quiet_db {A} (m : M Db.t Anyhow A) : steps same_inputs (on_db m).
Proof. intros s. unfold same_inputs, on_db. by destruct (m _). Qed.

Lemma quiet_publish e : steps same_inputs (publish e).
Proof. by intros s. Qed.

Lemma quiet_unrecorded {A} (m : M (@DlcState _ L) string A) : steps same_inputs (on_dlc (unrecorded L m)).
Proof. intros s. unfold same_inputs, offered_inputs, on_dlc. destruct (NodeState.dlc s). cbn. by destruct (m _). Qed.

Lemma asks_quiet {A} (m : NodeM A) s : steps same_inputs m -> asks 0 m s.
Proof. intros Hm. exists []. rewrite app_nil_r. by split_and!; [apply Hm|constructor| |]. Qed.

Lemma asks_throw {A} n e s : asks n (throw e : NodeM A) s.
Proof. exists []. rewrite app_nil_r. split_and!; [done|constructor|cbn; lia|done]. Qed.

Lemma asks_after {A B} n (m : NodeM A) (f : A -> NodeM B) s : steps same_inputs m ->
  (forall a s', m s = (Ok a, s') -> asks n (f a) s') -> asks n (m ≫= f) s.
Proof.
  intros Hm Hf. specialize (Hm s). unfold same_inputs in Hm. unfold asks, mbind, M_bind.
  destruct (m s) as [[a|e|] s1] eqn:Hrun; cbn in Hm.
  { rewrite <-Hm. by apply Hf. }
  all: exists []; rewrite app_nil_r; split_and!; [done|constructor|cbn; lia|done].
Qed.

Lemma asks_before {A B} n (m : NodeM A) (f : A -> NodeM B) s : asks n m s ->
  (forall a, steps same_inputs (f a)) -> asks n (m ≫= f) s.
Proof.
  intros (new & Hnew & Hall & Hle & Hok) Hf. exists new.
  unfold mbind, M_bind. destruct (m s) as [[a|e|] s1]; cbn in *; [|by split_and!..].
  specialize (Hf a s1). unfold same_inputs in Hf. rewrite Hf. split_and!; [done..|]. intros _. by apply Hok.
Qed.

Lemma recorded_asks {A} input (m : M (@DlcState _ L) string A) s : distributed input ->
  asks 1 (on_dlc (recorded L input m)) s.
Proof.
  intros Hinput. exists [input]. unfold on_dlc, offered_inputs. destruct (NodeState.dlc s) as [d inputs].
  cbn. destruct (m d) as [r d']. by split_and!; [|constructor| |].
Qed.

#[local] Hint Resolve quiet_db quiet_publish quiet_unrecorded quiet_read : sql.
Ltac quiet := intros; repeat first
  [ apply quiet_read; first [apply read_dlc_reads|apply get_dlc_channel_by_id_reads|apply usable_balance_reads
      |apply usable_balance_counterparty_reads|apply get_contract_usable_balance_reads|apply determine_trade_action_reads]
  | progress unfold try, query | apply quiet_db | apply quiet_publish | apply quiet_unrecorded
  | progress solve_steps ].

Lemma propose_dlc_channel_asks oracles filled_with input pk protocol_id fee_config s : distributed input ->
  asks 1 (propose_dlc_channel oracles filled_with input pk protocol_id fee_config) s.
Proof.
  intros Hinput. unfold propose_dlc_channel, list_signed_dlc_channels. apply asks_after; [quiet|].
  intros channels s1 _. destruct (List.find _ _); [apply asks_throw|].
  apply asks_after; [quiet|]. intros _ s2 _. apply asks_before; [by apply recorded_asks|]. quiet.
Qed.

Lemma propose_renewal_asks channel_id input protocol_id msg s : distributed input ->
  asks 1 (propose_renewal channel_id input protocol_id msg) s.
Proof.
  intros Hinput. unfold propose_renewal. apply asks_before; [by apply recorded_asks|]. quiet.
Qed.

(** The node's reserves are amounts. *)
#[local] Instance recorded_amounts : DlcAmounts recorded_dlc.
Proof. split; [intros s l|intros id s c sc|intros d total l]; apply DlcAmounts0. Qed.

Lemma minimum_amount l x : Forall is_amount l -> minimum l = Some x -> is_amount x.
Proof.
  destruct l as [|y l]; [done|]. cbn. intros [Hy Hl]%Forall_cons [= <-]. revert y Hy.
  induction Hl as [|z l Hz _ IH]; intros y Hy; cbn; [done|]. apply IH. by destruct (z <? y).
Qed.

Lemma contract_balance_amount channel own s a s' :
  get_contract_usable_balance channel own s = (Ok a, s') -> is_amount a.
Proof.
  unfold get_contract_usable_balance. destruct (Channel.get_contract_id channel); cycle 1.
  { intros [= <- _]. by split. }
  intros H. unfold try in H. inv_ok.
  repeat match goal with H : match ?c with SignedContract _ => _ | _ => _ end _ = _ |- _ => destruct c end;
    inv_ok; try (subst; by split).
  all: match goal with H : numerical_payouts _ _ = Some _ |- _ => apply payouts_amounts in H as Hall end.
  all: eapply minimum_amount; [|eassumption].
  all: destruct (if own then _ else _); apply Forall_map; (eapply Forall_impl; [exact Hall|]); cbn; tauto.
Qed.

Lemma usable_balance_amount id s a s' : get_dlc_channel_usable_balance id s = (Ok a, s') -> is_amount a.
Proof.
  unfold get_dlc_channel_usable_balance, get_dlc_channel_by_id, try. intros H. inv_ok.
  destruct (Channel.kind _) eqn:Hkind; try by eapply contract_balance_amount.
  match goal with H : read_dlc _ _ = _ |- _ => injection H as Hstore _ end. inv_ok. subst.
  pose proof (channel_amounts _ _ _ _ Hstore Hkind) as Hamounts.
  destruct (SignedChannel.state _); cbn in Hamounts; try by eapply contract_balance_amount.
  all: inv_ok; subst; try tauto.
  all: match goal with H : u64_sub _ _ = Ok _ |- _ => apply u64_sub_ok in H as [-> ?] end; unfold is_amount; lia.
Qed.

Lemma counterparty_balance_amount id s a s' :
  get_dlc_channel_usable_balance_counterparty id s = (Ok a, s') -> is_amount a.
Proof.
  unfold get_dlc_channel_usable_balance_counterparty, get_dlc_channel_by_id, try. intros H. inv_ok.
  destruct (Channel.kind _) eqn:Hkind; try by eapply contract_balance_amount.
  match goal with H : read_dlc _ _ = _ |- _ => injection H as Hstore _ end. inv_ok. subst.
  pose proof (channel_amounts _ _ _ _ Hstore Hkind) as Hamounts.
  destruct (SignedChannel.state _); cbn in Hamounts; try by eapply contract_balance_amount.
  all: inv_ok; subst; tauto.
Qed.

Lemma add_to_reserve_amount {E} reserve fee a : add_to_reserve (E := E) reserve fee = Ok a ->
  is_amount reserve -> is_amount fee -> is_amount a.
Proof. unfold add_to_reserve, is_amount. intros H ??. inv_ok. amounts. lia. Qed.

(** What the coordinator or the trader pays is an amount. *)
Definition fee_amount (fee : FundingFee.t) : Prop :=
  match fee with
  | FundingFee.Zero => True
  | FundingFee.CoordinatorPays a | FundingFee.TraderPays a => is_amount a
  end.

Lemma channel_fee_amounts {E} rc rt fee c t : is_amount rc -> is_amount rt -> fee_amount fee ->
  apply_funding_fee_to_channel (E := E) (Ok (rc, rt)) fee = Ok (c, t) -> is_amount c /\ is_amount t.
Proof.
  intros Hrc Hrt Hfee. unfold apply_funding_fee_to_channel. cbn. destruct fee; intros H; inv_ok; simplify_eq;
    [done|split..]; try done; by eapply add_to_reserve_amount.
Qed.

Lemma node_fee_amounts id fee s c t s' : fee_amount fee ->
  node_apply_funding_fee_to_channel id fee s = (Ok (c, t), s') -> is_amount c /\ is_amount t.
Proof.
  unfold node_apply_funding_fee_to_channel. intros Hfee H. inv_ok.
  eapply channel_fee_amounts; [|by eapply counterparty_balance_amount|exact Hfee|eassumption].
  by eapply usable_balance_amount.
Qed.

Lemma pay_from_margin_amount {E} margin fee a : pay_from_margin (E := E) margin fee = Ok a ->
  is_amount margin -> is_amount fee -> is_amount a.
Proof.
  unfold pay_from_margin, is_amount. intros H ??. inv_ok. subst. amounts.
  destruct (signed_to_unsigned _) eqn:Hu; cbn; [|lia]. apply signed_to_unsigned_inv in Hu; lia.
Qed.

Lemma margins_after_fee {E} p fee mmr p' : apply_funding_fee (E := E) p fee mmr = Ok p' -> fee_amount fee ->
  is_amount (Position.coordinator_margin p) -> is_amount (Position.trader_margin p) ->
  is_amount (Position.coordinator_margin p') /\ is_amount (Position.trader_margin p').
Proof.
  unfold apply_funding_fee. intros H Hfee Hc Ht. inv_ok. destruct fee; inv_ok; subst; cbn; [done|split..]; try done;
    by eapply pay_from_margin_amount.
Qed.

(** *** The handlers *)

(** Steps over a computation that asks for nothing. *)
Ltac step := apply asks_after; [quiet|]; let H := fresh "Hrun" in intros ? ? H; unfold try in H; inv_ok.

Lemma open_dlc_channel_asks env trade_params rc rt stable liquidity s :
  fees_are_amounts trade_params -> is_amount rc -> is_amount rt ->
  asks 1 (open_dlc_channel env trade_params rc rt stable liquidity) s.
Proof.
  intros Hfees Hrc Hrt. unfold open_dlc_channel. do 4 step.
  apply asks_after; [quiet|]. intros [[offer accept] fees] ? Hc. inv_ok.
  apply asks_before; [|intros [? ?]; unfold persist_position; quiet].
  apply propose_dlc_channel_asks. eexists. split; [eassumption|]. cbn.
  eapply open_channel_distributes; [exact Hfees|exact Hrc|exact Hrt|eassumption..].
Qed.

Lemma open_position_asks env id trade_params offer accept stable s :
  fees_are_amounts trade_params -> is_amount offer -> is_amount accept ->
  asks 1 (open_position env id trade_params offer accept stable) s.
Proof.
  intros Hfees Ho Ha. unfold open_position. do 5 step.
  apply asks_before; [|intros ?; unfold persist_position; quiet].
  apply propose_renewal_asks. eexists. split; [eassumption|]. cbn.
  by eapply open_position_distributes.
Qed.

Lemma confirmed_quiet pk : steps same_inputs (check_if_signed_channel_is_confirmed pk).
Proof.
  unfold check_if_signed_channel_is_confirmed, get_signed_channel_by_trader_id, list_signed_dlc_channels,
    is_dlc_channel_confirmed, is_contract_confirmed, get_contract_by_id.
  quiet; apply quiet_unrecorded.
Qed.

Lemma outstanding_quiet position : steps same_inputs (outstanding_funding_fee position).
Proof. unfold outstanding_funding_fee. quiet. Qed.

Lemma node_fee_quiet id fee : steps same_inputs (node_apply_funding_fee_to_channel id fee).
Proof. unfold node_apply_funding_fee_to_channel. quiet. Qed.

Lemma resize_position_asks env id position trade_params action s :
  asks 1 (resize_position env id position trade_params action) s.
Proof.
  unfold resize_position. apply asks_after; [apply confirmed_quiet|]. intros confirmed ? _.
  destruct (negb confirmed); [apply asks_throw|].
  apply asks_after; [apply outstanding_quiet|]. intros [events fee] ? _. do 2 step.
  apply asks_after; [apply node_fee_quiet|]. intros [rc rt] ? _. do 5 step.
  apply asks_after; [quiet|]. intros [offer accept] ? Hc. unfold try in Hc. inv_ok. do 2 step.
  apply asks_before; [|quiet].
  apply propose_renewal_asks. eexists. split; [eassumption|]. cbn. by eapply resize_distributes.
Qed.

Lemma start_closing_quiet env order position trade_params id :
  steps same_inputs (start_closing_position env order position trade_params id).
Proof.
  unfold start_closing_position, signed_dlc_channel_total_collateral,
    propose_dlc_channel_collaborative_settlement.
  apply steps_bind; [apply _|apply confirmed_quiet|]. intros confirmed.
  destruct (negb confirmed); [quiet|].
  apply steps_bind; [apply _|apply outstanding_quiet|]. intros [events fee]. do 2 (apply steps_bind; [apply _|quiet|intros ?]).
  apply steps_bind; [apply _|apply node_fee_quiet|]. intros [rc rt]. quiet.
Qed.

(** *** The theorem *)

(** The reserves and the funding of the trade that is executed. *)
Definition params_amounts (params : TradeAndChannelParams.t) : Prop :=
  fees_are_amounts (TradeAndChannelParams.trade_params params) /\
  (forall a, TradeAndChannelParams.coordinator_reserve params = Some a -> is_amount a) /\
  (forall a, TradeAndChannelParams.trader_reserve params = Some a -> is_amount a) /\
  (forall a, TradeAndChannelParams.external_funding params = Some a -> is_amount a).

Lemma half_fee_amount w r : is_amount (fee_for_weight w r / 2).
Proof.
  assert (is_amount (fee_for_weight w r)) as H.
  { unfold fee_for_weight, f64_ceil_as_u64, is_amount, U64_MAX.
    destruct (SpecFloat.SFmul _ _ _ _) as [?|[]| |[] m e]; try lia.
    destruct (0 <=? e) eqn:He; [split; lia|].
    pose proof (Z.div_le_upper_bound (- Zpos m) (2 ^ (- e)) 0). lia. }
  unfold is_amount in *. split; [apply Z.div_pos|apply Z.div_lt_upper_bound]; lia.
Qed.

Lemma external_reserve_amount env trade_params funding a : fees_are_amounts trade_params -> is_amount funding ->
  external_collateral_reserve env trade_params funding = Ok a -> is_amount a.
Proof.
  intros Hfees Hf H. unfold external_collateral_reserve in H. inv_ok.
  unfold estimated_funding_transaction_fee, estimated_dlc_channel_fee_reserve in *.
  do 2 match goal with H : amount_add _ (fee_for_weight ?w ?r / 2) = _ |- _ =>
    pose proof (half_fee_amount w r); generalize dependent (fee_for_weight w r / 2); intros end.
  terms.
Qed.

(** What [determine_trade_action] answers are amounts. *)
Definition action_amounts (action : TradeAction.t) : Prop :=
  match action with
  | TradeAction.OpenSingleFundedChannel a => is_amount a
  | TradeAction.OpenPosition _ own_payout counter_payout => is_amount own_payout /\ is_amount counter_payout
  | _ => True
  end.

Lemma determine_trade_action_amounts params s action s' : params_amounts params ->
  determine_trade_action params s = (Ok action, s') -> action_amounts action.
Proof.
  intros (_ & _ & _ & Hext). unfold determine_trade_action, get_signed_dlc_channel_by_counterparty,
    get_signed_dlc_channel, list_signed_dlc_channels, try. intros H. inv_ok.
  match goal with H : read_dlc _ _ = _ |- _ => injection H as Hstore _ end. inv_ok.
  apply signed_channels_amounts in Hstore. simplify_eq.
  destruct (List.find _ _) as [channel|] eqn:Hfind; cycle 1.
  { inv_ok. subst. destruct (TradeAndChannelParams.external_funding params) eqn:He; cbn; [by apply Hext|done]. }
  apply List.find_some in Hfind as [Hin%list_elem_of_In _]. rewrite Forall_forall in Hstore.
  specialize (Hstore _ Hin). destruct (SignedChannel.state channel); inv_ok; subst; try done.
  by case_match.
Qed.

Definition is_closing (action : outcome Anyhow TradeAction.t) : bool :=
  match action with Ok (TradeAction.ClosePosition _ _) => true | _ => false end.

Lemma execute_internal_asks env params s : params_amounts params ->
  asks (if is_closing (determine_trade_action params s).1 then 0 else 1) (execute_internal env params) s.
Proof.
  intros Hparams. pose proof Hparams as (Hfees & Hc & Ht & _). unfold execute_internal.
  apply asks_after; [quiet|]. intros order s1 H1.
  apply read_only_run in H1 as ->; [|apply node_query_reads, get_with_id_reads].
  do 3 (apply asks_after; [quiet|]; let H := fresh "Hrun" in intros ? ? [_ ->]%lift_ok).
  apply asks_after; [quiet|]. intros action s1 Haction.
  pose proof (determine_trade_action_amounts _ _ _ _ Hparams Haction) as Hamounts. rewrite Haction. cbn.
  apply asks_after; [quiet|]. intros _ s2 _.
  destruct action as [|funding|id own counter|id position|id position action]; cbn in Hamounts.
  - do 2 step. apply open_dlc_channel_asks; auto.
  - do 2 step. apply open_dlc_channel_asks; eauto using external_reserve_amount.
  - apply open_position_asks; tauto.
  - apply asks_quiet, start_closing_quiet.
  - apply resize_position_asks.
Qed.

(** The stored fees are [i64]s. *)
Definition fees_fit (s : NodeState.t) : Prop :=
  Forall (fun e => in_i64 (FundingFeeEventRow.amount_sats e) = true) (rows (NodeState.db s)).

Lemma outstanding_fee_amount position s events fee s' : fees_fit s ->
  outstanding_funding_fee position s = (Ok (events, fee), s') -> fee_amount fee.
Proof.
  intros Hfit. unfold outstanding_funding_fee, query, on_db, get_outstanding_funding_fee_events, with_err.
  unfold mbind at 1, M_bind at 1. rewrite (surjective_pairing (_ (NodeState.db s))).
  unfold mbind at 1, M_bind at 1. rewrite load_run. unfold lift at 1. cbn [fst snd].
  destruct (traverse _ _) as [l|e|] eqn:Hl; cbn; try done. unfold try. intros H. inv_ok. simplify_eq.
  match goal with H : funding_fee_from_funding_fee_events _ = Ok _ |- _ => apply funding_fee_is_total in H as [_ Hfee] end.
  { unfold is_amount. destruct fee; cbn; [done|unfold is_amount; lia..]. }
  apply traverse_ok in Hl. clear -Hfit Hl. unfold fees_fit in Hfit.
  assert (Forall (fun e => in_i64 (FundingFeeEventRow.amount_sats e) = true)
    (List.filter (fun e => bool_decide (FundingFeeEventRow.trader_pubkey e = pk_to_string (Position.trader position))
      && (FundingFeeEventRow.position_id e =? Position.id position) && is_unpaid e) (rows (NodeState.db s)))) as Hall.
  { rewrite List.Forall_forall in Hfit |- *. intros e [He _]%List.filter_In. by apply Hfit. }
  revert Hall. induction Hl as [|row event rows' events' Hrow _ IH]; constructor; inversion_clear Hall.
  - unfold funding_fee_event_from_row in Hrow. inv_ok. by subst event.
  - by apply IH.
Qed.

Lemma propose_rollover_asks `{TL : TimeLib} env id position network s : fees_fit s ->
  is_amount (Position.coordinator_margin position) -> is_amount (Position.trader_margin position) ->
  asks 1 (propose_rollover env id position network) s.
Proof.
  intros Hfit Hc Ht. unfold propose_rollover.
  apply asks_after; [quiet|]. intros expiry ? [_ ->]%lift_ok.
  apply asks_after; [unfold old_contract_terms, get_contract_by_dlc_channel_id; quiet|]. intros [pk rate] s1 H1.
  assert (s1 = s) as ->.
  { eapply read_only_run; [|exact H1]. unfold old_contract_terms, get_contract_by_dlc_channel_id, try.
    solve_steps; first [apply get_dlc_channel_by_id_reads|apply read_dlc_reads]. }
  apply asks_after; [quiet|]. intros mmr ? [_ ->]%lift_ok.
  apply asks_after; [apply outstanding_quiet|]. intros [events fee] ? Hfee%outstanding_fee_amount; [|done].
  apply asks_after; [quiet|]. intros position' ? Hp. unfold try in Hp. inv_ok.
  match goal with H : apply_funding_fee _ _ _ = Ok _ |- _ => apply margins_after_fee in H as [Hc' Ht']; [|done..] end.
  apply asks_after; [apply node_fee_quiet|]. intros [rc rt] ? [Hrc Hrt]%node_fee_amounts; [|done].
  do 6 step. apply asks_before; [|quiet].
  apply propose_renewal_asks. eexists. split; [eassumption|]. change (descriptor_collateral a = a1 + a2). eapply rollover_distributes; [exact Hrc|exact Hrt|exact Hc'|exact Ht'|eassumption..].
Qed.

(** C22: Whatever the coordinator asks [rust-dlc] to offer for a trade or a rollover, the
    payout function of the contract distributes exactly the collateral the two parties
    put in: nothing is left over and nothing is promised that is not there.  Executing a matched trade
    asks for one contract (a channel, funded by both or by the coordinator alone, a
    position in a channel, or a resized position), or for none if it closes the
    position, and rolling over asks for one; a run that fails has asked for at most
    one, which is no exception.  This is so for any [rust-dlc], seen by recording what
    it is asked for ([recording]), whose payouts are [u64]s, like the fees, the reserves
    and the margins. *)
Theorem contract_collateral_is_distributed `{TL : TimeLib} (s : NodeState.t) :
  (forall env params, params_amounts params ->
     asks (if is_closing (determine_trade_action params s).1 then 0 else 1) (execute_internal env params) s) /\
  (forall env dlc_channel_id position network, fees_fit s ->
     is_amount (Position.coordinator_margin position) -> is_amount (Position.trader_margin position) ->
     asks 1 (propose_rollover env dlc_channel_id position network) s).
Proof. split; intros; [by apply execute_internal_asks|by apply propose_rollover_asks]. Qed.
End Proposals.

#[local] Instance demo_dlc_amounts : DlcAmounts demo_dlc.
Proof.
  assert (forall c, demo_fits c = true -> forall sc, Channel.kind c = Signed sc -> state_amounts (SignedChannel.state sc)) as Hfits.
  { intros c Hc sc Hsc. unfold demo_fits in Hc. rewrite Hsc in Hc. unfold state_amounts, is_amount.
    destruct (SignedChannel.state sc) as [|?|?|?|?|own counter| | | | | |?|]; try done; try by apply in_u64_spec.
    apply andb_true_iff in Hc as [Hown Hcounter]. by apply in_u64_spec in Hown; apply in_u64_spec in Hcounter. }
  split.
  - intros s l [= <-]. apply List.Forall_forall. intros sc Hin. apply in_flat_map in Hin as (c & [_ Hc]%List.filter_In & Hin).
    destruct (Channel.kind c) eqn:Hkind; cbn in Hin; try done. destruct Hin as [<-|[]]. by eapply Hfits.
  - intros id s c sc [= Hc] Hsc. apply List.find_some in Hc as [[_ Hc]%List.filter_In _]. by eapply Hfits.
  - intros d total l [= <-]. apply List.Forall_forall. intros p (i & _ & Hin)%in_flat_map.
    assert (forall z, is_amount (as_u64 z)) as H by (intros z; apply Z.mod_pos_bound; lia).
    destruct Hin as [<-|[<-|[]]]; (split; [apply H|apply H]).
Qed.

(** The same trade as [demo_params] with a reserve of 10000 sats on both sides, while trading is allowed. *)
Definition demo_open_env : ExecutorEnv.t :=
  ExecutorEnv.mk (H := demo_id) 1 42 ["oracle"%string] true (f32_of_Z 0) (f32_of_Z 10).
Definition demo_open_params : TradeAndChannelParams.t :=
  TradeAndChannelParams.mk (demo_trade 200 Long) (Some 10000) (Some 10000) None.
Definition demo_recording (d : Db.t) (store : DemoStore.t) : NodeState.t (H1 := recording demo_dlc) :=
  NodeState.mk (H1 := recording demo_dlc) d (store, []) [] [].

Definition demo_alice : UserRow.t := UserRow.mk 1 "alice" EmptyString 0 EmptyString 0 None None EmptyString None None.
Definition demo_trade_state : NodeState.t (H1 := recording demo_dlc) :=
  demo_recording (set_rows [demo_alice] (NodeState.db demo_node_state)) (DemoStore.mk [] [] []).

(** Alice's position in a channel whose contract pays the coordinator at least 5000
    and her at least 6000 of 511000 sats. *)
Definition demo_old_contract : OfferedContract.t (list Interval) :=
  OfferedContract.mk _ _ (demo_id32 Byte.x03) "alice"%string true 511000 4
    [ContractInfo.mk _ _ [(PayoutPoint.mk 0 5000 0, PayoutPoint.mk BTCUSD_MAX_PRICE 505000 0)]
       [OracleAnnouncement.mk "oracle"%string 0]].
Definition demo_rollover_state : NodeState.t (H1 := recording demo_dlc) :=
  demo_recording (set_rows [demo_alice] (demo_positions DbPositionState.Open))
    (DemoStore.mk
       [Channel.mk (Signed (SignedChannel.mk (demo_id32 Byte.x02) "alice"%string (Established (demo_id32 Byte.x03)) 0 0))
          (demo_id32 Byte.x02) "alice"%string None (Some (demo_id32 Byte.x03))]
       [(demo_id32 Byte.x03, ConfirmedContract demo_old_contract)] []).
Definition demo_rollover_env : RolloverEnv.t :=
  RolloverEnv.mk (H := demo_id) 1 42 (f32_of_Z 0) Bitcoin (fun _ => true) "2.4.0"%string.

(** Opening a channel and rolling over both return, having asked for one contract. *)
Lemma contract_collateral_is_distributed_witness :
  (exists input, offered_inputs demo_dlc
     (execute_internal (DLC := recording demo_dlc) demo_open_env demo_open_params demo_trade_state).2 = [input] /\
     distributed demo_dlc input) /\
  (exists input, offered_inputs demo_dlc
     (propose_rollover (DLC := recording demo_dlc) demo_rollover_env (demo_id32 Byte.x02) demo_open_position Bitcoin
        demo_rollover_state).2 = [input] /\ distributed demo_dlc input).
Proof.
  assert (forall new : list (ContractInput.t (list Interval)), length new = 1%nat -> exists input, new = [input]) as Hone.
  { intros [|input [|]]; try done. by exists input. }
  split.
  - destruct (contract_collateral_is_distributed demo_dlc demo_trade_state) as [Hexecute _].
    destruct (Hexecute demo_open_env demo_open_params) as (new & Hnew & Hall & _ & Hlen).
    { unfold params_amounts. split_and!; [constructor; [by split|constructor]|intros a [= <-]; by split..|done]. }
    destruct (Hone new) as [input ->]; [by apply Hlen; vm_compute|].
    exists input. split; [exact Hnew|by inversion Hall].
  - destruct (contract_collateral_is_distributed demo_dlc demo_rollover_state) as [_ Hrollover].
    destruct (Hrollover demo_rollover_env (demo_id32 Byte.x02) demo_open_position Bitcoin) as (new & Hnew & Hall & _ & Hlen);
      [constructor|by split..|].
    destruct (Hone new) as [input ->]; [by apply Hlen; vm_compute|].
    exists input. split; [exact Hnew|by inversion Hall].
Defined.

(** ** Which side a rolled-over contract is on *)

Section Sides.
Context `{DL : DecimalLib} `{BL : BitcoinLib} `{IL : IdLib}.
Context `{!DecimalLaws DL}.

(** The arguments with another direction of the coordinator. *)
Definition with_coordinator_direction (direction : Direction) (args : DescriptorArgs.t)
    : DescriptorArgs.t :=
  DescriptorArgs.mk (DescriptorArgs.initial_price args) (DescriptorArgs.coordinator_margin args)
    (DescriptorArgs.trader_margin args) (DescriptorArgs.leverage_coordinator args)
    (DescriptorArgs.leverage_trader args) direction
    (DescriptorArgs.coordinator_collateral_reserve args)
    (DescriptorArgs.trader_collateral_reserve args) (DescriptorArgs.quantity args)
    (DescriptorArgs.symbol args).

(** What the coordinator is paid at price zero. *)
Definition payout_at_zero (pieces : list Interval) : option Z :=
  PayoutPoint.outcome_payout ∘ fst <$> head pieces.

(** Margins and reserves are amounts that together fit [i64]. *)
Definition sane_args (args : DescriptorArgs.t) : Prop :=
  0 <= DescriptorArgs.coordinator_margin args /\ 0 <= DescriptorArgs.trader_margin args /\
  0 <= DescriptorArgs.coordinator_collateral_reserve args /\
  0 <= DescriptorArgs.trader_collateral_reserve args /\ descriptor_collateral args < 2 ^ 63.

Lemma descriptor_payout_at_zero args pieces : sane_args args -> descriptor_points args = Ok pieces ->
  payout_at_zero pieces = Some match DescriptorArgs.coordinator_direction args with
    | Long => DescriptorArgs.coordinator_collateral_reserve args
    | Short => descriptor_collateral args - DescriptorArgs.trader_collateral_reserve args
    end.
Proof.
  intros (Hcm & Htm & Hcr & Htr & Hfit). unfold descriptor_points, coordinator_payout_points.
  intros Hp. inv_ok.
  match goal with H : get_liquidation_prices _ _ _ _ = Ok ?p |- _ => destruct p as [pc pt] end.
  destruct (match DescriptorArgs.coordinator_direction args with Long => (pc, pt) | Short => _ end)
    as [long short]. inv_ok.
  match goal with H : new_btc_usd _ _ _ = _ |- _ => rename H into Hnew end.
  set (offer := PartyParams.mk (DescriptorArgs.coordinator_margin args) _) in *.
  set (accept := PartyParams.mk (DescriptorArgs.trader_margin args) _) in *.
  destruct (payout_function_covers (DescriptorArgs.quantity args) offer accept Hcm Hcr Htm Htr Hfit
              _ _ _ _ _ _ Hnew Hp) as [Hl _].
  destruct pieces as [|[a b] pieces]; [discriminate Hl|]. destruct Hl as [-> _].
  unfold payout_at_zero. cbn. f_equal. unfold liquidation_payout.
  destruct (DescriptorArgs.coordinator_direction args); cbn; reflexivity.
Qed.

(** C36: A contract that is rolled over exchanges the sides: its arguments carry the
    trader's direction where the contract takes the coordinator's.  At price zero,
    where the long side has lost its margin, it pays a coordinator that is short
    (the trader is long) only its reserve, and one that is long everything but the
    trader's reserve; with the coordinator's own direction, as in the other three
    proposals, it is the other way around. *)
Theorem rollover_exchanges_sides position reserve_coordinator reserve_trader args pieces pieces' :
  rollover_descriptor (E := string) position reserve_coordinator reserve_trader = Ok args ->
  sane_args args -> descriptor_points args = Ok pieces ->
  descriptor_points (with_coordinator_direction (opposite (Position.trader_direction position)) args)
    = Ok pieces' ->
  let all_but_trader_reserve := descriptor_collateral args - reserve_trader in
  match Position.trader_direction position with
  | Long => payout_at_zero pieces = Some reserve_coordinator /\
            payout_at_zero pieces' = Some all_but_trader_reserve
  | Short => payout_at_zero pieces = Some all_but_trader_reserve /\
             payout_at_zero pieces' = Some reserve_coordinator
  end.
Proof.
  intros Hargs Hsane Hp Hp'. apply descriptor_payout_at_zero in Hp; [|done].
  apply descriptor_payout_at_zero in Hp'; [|done]. rewrite Hp, Hp'.
  unfold rollover_descriptor in Hargs. inv_ok. subst args. cbn.
  by destruct (Position.trader_direction position).
Qed.
End Sides.

(** A trader that is long 100 contracts from 20000, with leverage 2 on both sides. *)
Definition demo_rollover_args : DescriptorArgs.t :=
  DescriptorArgs.mk (default d_zero (d_try_from_f32 (f32_of_Z 20000))) 250000 250000 (f32_of_Z 2)
    (f32_of_Z 2) Long 5000 6000 (f32_of_Z 100) BtcUsd.
Definition demo_points (args : DescriptorArgs.t) : list Interval :=
  match descriptor_points args with Ok l => l | _ => [] end.

Lemma rollover_exchanges_sides_witness :
  rollover_descriptor (E := string) demo_open_position 5000 6000 = Ok demo_rollover_args /\
  payout_at_zero (demo_points demo_rollover_args) = Some 5000 /\
  payout_at_zero (demo_points (with_coordinator_direction Short demo_rollover_args)) = Some 505000.
Proof.
  assert (rollover_descriptor (E := string) demo_open_position 5000 6000 = Ok demo_rollover_args)
    as Hargs by reflexivity.
  split; [exact Hargs|].
  apply (rollover_exchanges_sides demo_open_position 5000 6000 demo_rollover_args _ _ Hargs).
  - repeat split; done.
  - vm_compute. reflexivity.
  - vm_compute. reflexivity.
Defined.
