(* ===== verification/Monitors.v ===== *)
(** * [coordinator/src/node]: the jobs that watch open positions

    [expired_positions.rs] closes positions past their expiry,
    [liquidated_positions.rs] those whose margin is used up, by inserting a market
    order on the trader's behalf and handing it to the order book;
    [unrealized_pnl.rs] records what positions are worth. *)

From stdpp Require Import base list option strings.
From Stdlib Require Import ZArith QArith Lia.
From S2P Require Import Prelude Machine External Demo Commons SqlTypes Schema Db OrdersDb MatchesDb.
From S2P Require Import Trading PositionsDb FundingDb Funding Settlement Node TradeExecutor.

#[local] Open Scope Z_scope.

(** [EXPIRED_POSITION_TIMEOUT] and [LIQUIDATION_POSITION_TIMEOUT]: seven days. *)
Definition EXPIRED_POSITION_TIMEOUT : Z := 7 * NANOS_PER_DAY.
Definition LIQUIDATION_POSITION_TIMEOUT : Z := 7 * NANOS_PER_DAY.

(** What the jobs find outside the node's state: [new_v4 n] is the id of the order
    for the [n]-th position of the run. *)
Module MonitorEnv.
Record t := mk {
  now : OffsetDateTime;
  new_v4 : nat -> Uuid;
  maintenance_margin_rate : f32;           (* [settings] *)
  trading_open : bool;                     (* the order book still receives orders *)
}.
End MonitorEnv.

Section Monitors.
Context `{DL : DecimalLib} `{BL : BitcoinLib} `{IL : IdLib} `{DLC : !DlcLib}.

(** The order that closes a position. *)
Definition closing_order {E} (id : Uuid) (expiry : OffsetDateTime) (position : Position.t)
    : outcome E NewMarketOrder.t :=
  quantity ← expect (d_try_from_f32 (Position.quantity position));
  leverage ← expect (d_from_f32 (Position.trader_leverage position));
  Ok (NewMarketOrder.mk id (Position.contract_symbol position) quantity (Position.trader position)
        (opposite (Position.trader_direction position)) leverage expiry (Position.stable position)).

(** What both jobs do with an order of the trader that is already matched: when it
    has expired they give up on the position, which then has to be force closed. *)
Definition handle_matched_order (now : OffsetDateTime) (position : Position.t) (order : Order.t)
    : NodeM unit :=
  if Order.expiry order <? now then
    _ ← query (set_order_state (Order.id order) OrderState.Expired);
    on_db (set_match_state_by_order_id (Order.id order) MatchState.Failed);;
    matches ← query (get_matches_by_order_id now (Order.id order));
    closing_price ← lift (average_execution_price (map match_from_matches matches));
    _ ← query (set_open_position_to_closing now (Position.trader position) (Some closing_price));
    mret tt
  else mret tt.

(** [trading_sender.send(..)], whose failure is only logged. *)
Definition submit (env : MonitorEnv.t) (msg : NewOrderMessage.t) : NodeM unit :=
  if MonitorEnv.trading_open env then send (Sent.NewOrder msg) else mret tt.

Fixpoint for_each_i {A} (f : nat -> A -> NodeM unit) (i : nat) (l : list A) : NodeM unit :=
  match l with
  | [] => mret tt
  | x :: l => f i x;; for_each_i f (S i) l
  end.

(** ** [expired_positions.rs] *)

(** The filter of [close]. *)
Definition is_expired_open (now : OffsetDateTime) (p : Position.t) : bool :=
  match Position.position_state p with PositionState.Open => true | _ => false end
  && (Position.expiry_timestamp p <=? now).

(** The body of its loop. *)
Definition close_expired (env : MonitorEnv.t) (i : nat) (position : Position.t) : NodeM unit :=
  let now := MonitorEnv.now env in
  order ← query (get_by_trader_id_and_state (Position.trader position) OrderState.Matched);
  match order with
  | Some order => handle_matched_order now position order
  | None =>
    new_order ← lift (closing_order (MonitorEnv.new_v4 env i) (now + EXPIRED_POSITION_TIMEOUT) position);
    order ← query (insert_market_order now new_order OrderReason.Expired);
    submit env (NewOrderMessage.mk order OrderReason.Expired None)
  end.

(** [close]. *)
Definition close (env : MonitorEnv.t) : NodeM unit :=
  positions ← query get_all_open_positions;
  for_each_i (close_expired env) 0 (List.filter (is_expired_open (MonitorEnv.now env)) positions).

(** ** [liquidated_positions.rs] *)

(** [check_if_position_needs_to_get_liquidated]. *)
Definition check_if_position_needs_to_get_liquidated (direction : Direction)
    (best_current_price : BestPrice.t) (liquidation_price : Decimal) : bool :=
  match direction with
  | Short =>
    match BestPrice.ask best_current_price with
    | Some ask => d_leb liquidation_price ask
    | None => false
    end
  | Long =>
    match BestPrice.bid best_current_price with
    | Some bid => d_leb bid liquidation_price
    | None => false
    end
  end.

(** Of the trader and of the coordinator, after the outstanding funding fees. *)
Definition liquidations {E} (position : Position.t) (best_current_price : BestPrice.t)
    : outcome E (bool * bool) :=
  coordinator_liquidation_price ←
    expect (d_try_from_f32 (Position.coordinator_liquidation_price position));
  trader_liquidation_price ← expect (d_try_from_f32 (Position.trader_liquidation_price position));
  Ok (check_if_position_needs_to_get_liquidated (Position.trader_direction position)
        best_current_price trader_liquidation_price,
      check_if_position_needs_to_get_liquidated (opposite (Position.trader_direction position))
        best_current_price coordinator_liquidation_price).

(** The channel is confirmed; an error counts as not confirmed. *)
Definition channel_is_confirmed (trader : PublicKey) : NodeM bool := fun s =>
  match check_if_signed_channel_is_confirmed trader s with
  | (Ok confirmed, s') => (Ok confirmed, s')
  | (Err _, s') => (Ok false, s')
  | (Panic, s') => (Panic, s')
  end.

(** The insertion of the order, an error of which is only logged. *)
Definition try_insert_market_order (now : OffsetDateTime) (order : NewMarketOrder.t)
    (order_reason : OrderReason.t) : NodeM (option Order.t) := fun s =>
  match query (insert_market_order now order order_reason) s with
  | (Ok order, s') => (Ok (Some order), s')
  | (Err _, s') => (Ok None, s')
  | (Panic, s') => (Panic, s')
  end.

(** The body of the loop of [check_if_positions_need_to_get_liquidated]. *)
Definition check_position (env : MonitorEnv.t) (maintenance_margin_rate : Decimal)
    (best_current_price : BestPrice.t) (i : nat) (position : Position.t) : NodeM unit :=
  let now := MonitorEnv.now env in
  '(_, funding_fee) ← outstanding_funding_fee position;
  position ← try (apply_funding_fee position funding_fee maintenance_margin_rate);
  '(trader_liquidation, coordinator_liquidation) ← lift (liquidations position best_current_price);
  if trader_liquidation || coordinator_liquidation then
    order ← query (get_by_trader_id_and_state (Position.trader position) OrderState.Matched);
    match order with
    | Some order => handle_matched_order now position order
    | None =>
      confirmed ← channel_is_confirmed (Position.trader position);
      if negb confirmed then mret tt
      else
        new_order ←
          lift (closing_order (MonitorEnv.new_v4 env i) (now + LIQUIDATION_POSITION_TIMEOUT) position);
        let order_reason :=
          if trader_liquidation then OrderReason.TraderLiquidated
          else OrderReason.CoordinatorLiquidated in
        order ← try_insert_market_order now new_order order_reason;
        match order with
        | Some order => submit env (NewOrderMessage.mk order order_reason None)
        | None => mret tt
        end
    end
  else mret tt.

(** [check_if_positions_need_to_get_liquidated]. *)
Definition check_if_positions_need_to_get_liquidated (env : MonitorEnv.t) : NodeM unit :=
  open_positions ← query get_all_open_positions;
  best_current_price ← query (get_best_price (MonitorEnv.now env) BtcUsd);
  maintenance_margin_rate ← lift (expect (d_try_from_f32 (MonitorEnv.maintenance_margin_rate env)));
  for_each_i (check_position env maintenance_margin_rate best_current_price) 0 open_positions.

(** ** [unrealized_pnl.rs] *)

(** [sync_position]. *)
Definition sync_position (now : OffsetDateTime) (position : Position.t) (quote : Quote.t)
    : NodeM unit :=
  coordinator_pnl ← try (calculate_coordinator_pnl position quote);
  trader_pnl ← lift (expect (checked_i64 (- coordinator_pnl)));
  on_db (update_unrealized_pnl now (Position.id position) trader_pnl).

(** [sync], an error of a position being only logged. *)
Definition sync (now : OffsetDateTime) (current_quote : Quote.t) : NodeM unit :=
  positions ← query get_all_open_or_closing_positions;
  for_each_i (fun _ position s =>
    match sync_position now position current_quote s with
    | (Err _, s') => (Ok tt, s')
    | r => r
    end) 0 positions.
End Monitors.
