(* ===== verification/MaxQuantity.v ===== *)
(** * What the app lets a trader order: [channel_trade_constraints.rs], [max_quantity.rs]

    The balances a trade may use, with a channel or without, and the largest quantity
    the app offers for an order. *)

From stdpp Require Import base list option strings.
From Stdlib Require Import ZArith QArith Lia.
From Stdlib Require Import Floats.SpecFloat.
From S2P Require Import Prelude Machine External Demo Commons Cfd PayoutCurve AppData SqlTypes Schema Db Messages Feed.
From S2P Require Import AppSql AppDb Node DemoDlc DlcPeer AppHandlers AppNode Signing OrderEntry AppFunding.

#[local] Open Scope Z_scope.

(** ** Floats *)

Definition f32_add (x y : f32) : f32 := SFadd 24 128 x y.
(** [f32::floor]. *)
Definition f32_floor (x : f32) : f32 :=
  match x with
  | S754_finite s m e =>
    if 0 <=? e then x
    else binary_normalize 24 128 ((if s then Zneg m else Zpos m) / 2 ^ (- e)) 0 s
  | _ => x
  end.

Example f32_floor_down : f32_floor (SFdiv 24 128 (f32_of_Z 5) (f32_of_Z 2)) = f32_of_Z 2.
Proof. reflexivity. Qed.

(** ** [channel_trade_constraints.rs] *)

Module TradeConstraints.
Record t := mk {
  max_local_balance_sats : Z;
  max_counterparty_balance_sats : Z;
  coordinator_leverage : f32;
  min_quantity : Z;
  is_channel_balance : bool;
  min_margin : Z;
  maintenance_margin_rate : f32;
  order_matching_fee_rate : f32;
  total_collateral : option Z;
}.
End TradeConstraints.

(** The wallet's balance ([bdk::Balance]), the parts that are read. *)
Module OnChainBalance.
Record t := mk { confirmed : Z; trusted_pending : Z; untrusted_pending : Z }.
End OnChainBalance.

(** [iter().filter(|option| option.active).max_by_key(..)]: the last of the largest. *)
Definition largest_option (options : list LiquidityOption.t) : option LiquidityOption.t :=
  fold_left (fun best option =>
    match best with
    | Some b => if LiquidityOption.trade_up_to_sats option <? LiquidityOption.trade_up_to_sats b then Some b else Some option
    | None => Some option
    end) (List.filter LiquidityOption.active options) None.

Section MaxQuantity.
Context `{DL : DecimalLib} `{BL : BitcoinLib} `{IL : IdLib} `{DLC : !DlcLib} `{ML : !DlcMessagesLib}.

(** [get_dlc_channels_usable_balance] and its counterpart of the node library, and
    [dlc::get_signed_dlc_channel] of a running node. *)
Definition sum_over_channels (balance_of : DlcChannelId -> NodeM Amount) : NodeM Amount :=
  channels ← list_signed_dlc_channels;
  fold_left (fun acc channel =>
    acc ← acc;
    balance ← balance_of (SignedChannel.channel_id channel);
    lift (expect (amount_add acc balance))) channels (mret 0).
Definition get_dlc_channels_usable_balance : NodeM Amount := sum_over_channels get_dlc_channel_usable_balance.
Definition get_dlc_channels_usable_balance_counterparty : NodeM Amount :=
  sum_over_channels get_dlc_channel_usable_balance_counterparty.
Definition first_signed_dlc_channel : AppNodeM (option SignedChannel.t) :=
  signed_channels ← on_node list_signed_dlc_channels;
  mret (head signed_channels).

(** [channel_trade_constraints]. *)
Definition channel_trade_constraints (config : option TenTenOneConfig.t) (onchain : OnChainBalance.t)
    : AppNodeM TradeConstraints.t :=
  config ← try_lib (ok_or "We can't trade without LSP config"%string config);
  signed_channel ← first_signed_dlc_channel;
  let min_margin := match signed_channel with Some _ => 1 | None => 250000 end in
  let min_quantity := TenTenOneConfig.min_quantity config in
  let maintenance_margin_rate := TenTenOneConfig.maintenance_margin_rate config in
  let order_matching_fee_rate := TenTenOneConfig.order_matching_fee_rate config in
  option ← try_lib (ok_or "we need at least one liquidity option"%string
    (largest_option (TenTenOneConfig.liquidity_options config)));
  let coordinator_leverage := LiquidityOption.coordinator_leverage option in
  match signed_channel with
  | None =>
    local_balance ← lift (
      balance ← u64_add (OnChainBalance.confirmed onchain) (OnChainBalance.trusted_pending onchain);
      u64_add balance (OnChainBalance.untrusted_pending onchain));
    mret (TradeConstraints.mk local_balance (LiquidityOption.trade_up_to_sats option) coordinator_leverage min_quantity
      false min_margin maintenance_margin_rate order_matching_fee_rate None)
  | Some channel =>
    local_balance ← on_node get_dlc_channels_usable_balance;
    counterparty_balance ← on_node get_dlc_channels_usable_balance_counterparty;
    total_collateral ← lift (u64_add (SignedChannel.own_collateral channel) (SignedChannel.counter_collateral channel));
    mret (TradeConstraints.mk local_balance counterparty_balance coordinator_leverage min_quantity
      true min_margin maintenance_margin_rate order_matching_fee_rate (Some total_collateral))
  end.

(** ** [max_quantity.rs] *)

(** [checked_sub(..).unwrap_or(Amount::ZERO)]. *)
Definition sub_or_zero (x y : Amount) : Amount := default 0 (amount_checked_sub x y).

(** The side that can trade less: its quantity, its margin and its leverage. *)
Definition limiting_side (price : f32) (max_coordinator_margin max_trader_margin : Amount)
    (coordinator_leverage trader_leverage : f32) : outcome string (f32 * Amount * f32) :=
  max_trader_quantity ← calculate_quantity price max_trader_margin trader_leverage;
  max_coordinator_quantity ← calculate_quantity price max_coordinator_margin coordinator_leverage;
  Ok (if SFltb max_coordinator_quantity max_trader_quantity
      then (max_coordinator_quantity, max_coordinator_margin, coordinator_leverage)
      else (max_trader_quantity, max_trader_margin, trader_leverage)).

(** [calculate_max_quantity]. *)
Definition calculate_max_quantity (price : Decimal) (max_coordinator_margin max_trader_margin : Amount)
    (on_chain_fee_estimate : option Amount) (coordinator_leverage trader_leverage : f32)
    (order_matching_fee_rate : Decimal) (accumulated_order_matching_fees : Amount) (open_quantity : Decimal)
    : outcome string Decimal :=
  let max_coordinator_margin :=
    sub_or_zero (sub_or_zero max_coordinator_margin (default 0 on_chain_fee_estimate)) accumulated_order_matching_fees in
  let max_trader_margin := sub_or_zero max_trader_margin (default 0 on_chain_fee_estimate) in
  price_f32 ← expect (d_to_f32 price);
  '(quantity, max_margin, leverage) ←
    limiting_side price_f32 max_coordinator_margin max_trader_margin coordinator_leverage trader_leverage;
  open_quantity ← expect (d_to_f32 open_quantity);
  order_matching_fee ← order_matching_fee (f32_add quantity open_quantity) price order_matching_fee_rate;
  max_margin_without_order_matching_fees ← expect (amount_checked_sub max_margin order_matching_fee);
  max_quantity ← calculate_quantity price_f32 max_margin_without_order_matching_fees leverage;
  expect (d_try_from_f32 (f32_floor (f32_add max_quantity open_quantity))).

(** The margins of the two sides when the order is against the open position: what
    closing it would set free is added. *)
Definition margins_against_position (debug_assertions : bool) (constraints : TradeConstraints.t) (price : Decimal)
    (position : AppPosition.t) : outcome string (Amount * Amount) :=
  let max_coordinator_balance := TradeConstraints.max_counterparty_balance_sats constraints in
  let max_trader_balance := TradeConstraints.max_local_balance_sats constraints in
  let total_collateral := default 0 (TradeConstraints.total_collateral constraints) in
  total_balance ← u64_add max_coordinator_balance max_trader_balance;
  let trader_margin := AppPosition.collateral position in
  in_channel ← expect (amount_add total_balance trader_margin);
  let coordinator_margin := sub_or_zero total_collateral in_channel in
  trader_pnl ← app_calculate_pnl (AppPosition.average_entry_price position) (Price.mk price price)
    (AppPosition.quantity position) (AppPosition.leverage position) (AppPosition.direction position);
  coordinator_balance ← ok_or "amount out of range"%string (amount_to_signed max_coordinator_balance);
  coordinator_margin ← ok_or "amount out of range"%string (amount_to_signed coordinator_margin);
  max_coordinator_margin ← expect (signed_add coordinator_balance coordinator_margin);
  trader_balance ← ok_or "amount out of range"%string (amount_to_signed max_trader_balance);
  trader_margin ← ok_or "amount out of range"%string (amount_to_signed trader_margin);
  max_trader_margin ← expect (signed_add trader_balance trader_margin);
  let max_coordinator_margin := default 0 (signed_sub max_coordinator_margin trader_pnl) in
  let max_trader_margin := default 0 (signed_add max_trader_margin trader_pnl) in
  expect (if debug_assertions && ((max_coordinator_margin <=? 0) || (max_trader_margin <=? 0)) then None else Some tt);;
  Ok (Z.max 0 max_coordinator_margin, Z.max 0 max_trader_margin).

(** What opening a channel costs, with twice the fee of the funding transaction. *)
Definition on_chain_fee_estimate (fee_rate : f64) : outcome string Amount :=
  let funding_tx_fee := estimated_funding_tx_fee fee_rate in
  funding_tx_with_buffer ← expect (amount_add funding_tx_fee funding_tx_fee);
  expect (amount_add (estimated_fee_reserve fee_rate) funding_tx_with_buffer).

(** [max_quantity].  Without a channel the estimate of the fees is computed and not
    used: what the trader may order is then up to the coordinator. *)
Definition max_quantity (debug_assertions : bool) (config : option TenTenOneConfig.t) (onchain : OnChainBalance.t)
    (fee_rate : f64) (price : Decimal) (trader_leverage : f32) (trader_trade_direction : Direction) : AppNodeM Decimal :=
  constraints ← channel_trade_constraints config onchain;
  on_chain_fee_estimate ← try_lib (if TradeConstraints.is_channel_balance constraints then Ok None
    else Some <$> on_chain_fee_estimate fee_rate);
  let max_coordinator_balance := TradeConstraints.max_counterparty_balance_sats constraints in
  if negb (TradeConstraints.is_channel_balance constraints) then
    lift (price ← expect (d_to_f32 price);
          quantity ← calculate_quantity price max_coordinator_balance (TradeConstraints.coordinator_leverage constraints);
          expect (d_from_f32 quantity))
  else
    let max_trader_balance := TradeConstraints.max_local_balance_sats constraints in
    order_matching_fee_rate ← lift (expect (d_try_from_f32 (TradeConstraints.order_matching_fee_rate constraints)));
    positions ← on_app get_positions;
    let position := head positions in
    let accumulated_order_matching_fees := default 0 (AppPosition.order_matching_fees <$> position) in
    let against := match position with
      | Some position => if bool_decide (AppPosition.direction position <> trader_trade_direction) then Some position else None
      | None => None
      end in
    '(max_coordinator_margin, max_trader_margin) ← try_lib (match against with
      | Some position => margins_against_position debug_assertions constraints price position
      | None => Ok (max_coordinator_balance, max_trader_balance)
      end);
    open_quantity ← lift (match against with
      | Some position => expect (d_try_from_f32 (AppPosition.quantity position))
      | None => Ok d_zero
      end);
    try_lib (calculate_max_quantity price max_coordinator_margin max_trader_margin on_chain_fee_estimate
      (TradeConstraints.coordinator_leverage constraints) trader_leverage order_matching_fee_rate
      accumulated_order_matching_fees open_quantity).
End MaxQuantity.

(** ** Room for the fee *)

Section Room.
Context `{BLaws : BitcoinLaws} `{DL : DecimalLib}.

Lemma amount_checked_sub_cases x y : 0 <= x < 2 ^ 64 -> 0 <= y < 2 ^ 64 ->
  amount_checked_sub x y = if y <=? x then Some (x - y) else None.
Proof. apply amount_checked_sub_spec. Qed.

Lemma order_matching_fee_range {E} quantity price rate fee :
  order_matching_fee (E := E) quantity price rate = Ok fee -> 0 <= fee < 2 ^ 64.
Proof using BLaws. unfold order_matching_fee. intros H. inv_ok. by eapply amount_from_btc_range. Qed.

(** The largest quantity is what the side that can trade less can trade with what is
    left of its margin after the matching fee, on top of what is open, in whole
    contracts; a side whose margin the fee exceeds has no largest quantity, not even
    zero: the computation panics. *)
Theorem max_quantity_leaves_room_for_fee price max_coordinator_margin max_trader_margin on_chain_fee_estimate
    coordinator_leverage trader_leverage rate fees open_quantity price_f32 open_f32 quantity margin leverage fee :
  let coordinator := sub_or_zero (sub_or_zero max_coordinator_margin (default 0 on_chain_fee_estimate)) fees in
  let trader := sub_or_zero max_trader_margin (default 0 on_chain_fee_estimate) in
  d_to_f32 price = Some price_f32 -> d_to_f32 open_quantity = Some open_f32 ->
  limiting_side price_f32 coordinator trader coordinator_leverage trader_leverage = Ok (quantity, margin, leverage) ->
  0 <= margin < 2 ^ 64 ->
  order_matching_fee (E := string) (f32_add quantity open_f32) price rate = Ok fee ->
  calculate_max_quantity price max_coordinator_margin max_trader_margin on_chain_fee_estimate coordinator_leverage
    trader_leverage rate fees open_quantity =
  if fee <=? margin then
    max_quantity ← calculate_quantity price_f32 (margin - fee) leverage;
    expect (d_try_from_f32 (f32_floor (f32_add max_quantity open_f32)))
  else Panic.
Proof using BLaws.
  intros coordinator trader Hprice Hopen Hside Hmargin Hfee. unfold calculate_max_quantity.
  rewrite Hprice. cbn [expect mbind outcome_bind]. fold coordinator trader. rewrite Hside. cbn [mbind outcome_bind].
  rewrite Hopen. cbn [expect mbind outcome_bind]. rewrite Hfee. cbn [mbind outcome_bind].
  rewrite amount_checked_sub_cases by (first [done|by eapply order_matching_fee_range]). by destruct (fee <=? margin).
Qed.
End Room.

(** A trader with 100 contracts open whose margin is lost: one satoshi is not enough for
    the fee of closing them. *)
Example max_quantity_of_lost_margin :
  calculate_max_quantity (BL := demo_bitcoin) (DL := demo_decimal) (inject_Z 20000) 500000 1 None (f32_of_Z 2) (f32_of_Z 2)
    (3 # 1000) 0 (inject_Z 100) = Panic.
Proof. vm_compute. reflexivity. Qed.
Example max_quantity_of_good_margin :
  exists q, calculate_max_quantity (BL := demo_bitcoin) (DL := demo_decimal) (inject_Z 20000) 500000 500000 None (f32_of_Z 2)
    (f32_of_Z 2) (3 # 1000) 0 (inject_Z 100) = Ok q.
Proof. eexists. vm_compute. reflexivity. Qed.
