(* ===== verification/Wallet.v ===== *)
(** * The on-chain wallet: fee rates, confirmations, payments, outputs for channels

    [fee_rate_estimator.rs], [on_chain_wallet.rs], [node/wallet.rs], the questions to
    the explorer in [blockchain.rs], and [dlc_wallet.rs], through which [rust-dlc]
    takes outputs and keys.  The wallet of [bdk], its coin selection, the explorer
    and the fee rates it serves are interfaces. *)

From stdpp Require Import base list option strings gmap.
From Stdlib Require Import ZArith Lia.
From S2P Require Import Prelude Machine External Demo SqlTypes Schema AppDb KvStore DlcStore NodeStorage MaxQuantity.

#[local] Open Scope Z_scope.

(** [u32]. *)
Definition checked_u32 (z : Z) : option Z := if (0 <=? z) && (z <? 2 ^ 32) then Some z else None.

(** ** [fee_rate_estimator.rs] *)

(** [lightning]'s [ConfirmationTarget]. *)
Inductive ConfirmationTarget := MempoolMinimum | Background | Normal | HighPriority.
#[export] Instance target_eq_dec : EqDecision ConfirmationTarget.
Proof. solve_decision. Defined.
#[export] Instance target_countable : Countable ConfirmationTarget.
Proof.
  refine {|
    encode t := match t with MempoolMinimum => 1 | Background => 2 | Normal => 3 | HighPriority => 4 end%positive;
    decode p := nth_error [MempoolMinimum; Background; Normal; HighPriority] (Nat.pred (Pos.to_nat p));
  |}.
  by intros [].
Defined.

(** [bdk::FeeRate]; the constructors panic on a rate that is no rate. *)
Class FeeRateLib := {
  FeeRate : Type;
  from_sat_per_kwu : f32 -> option FeeRate;
  from_sat_per_vb : f32 -> option FeeRate;
  fee_wu : FeeRate -> Z -> Z;
  fee_vb : FeeRate -> Z -> Z;
  FEERATE_FLOOR_SATS_PER_KW : Z;
}.

(** [mempool::FeeRate], what the server answers. *)
Module Estimates.
Record t := mk { fastest_fee : Z; half_hour_fee : Z; hour_fee : Z; economy_fee : Z; minimum_fee : Z }.
End Estimates.

(** [mempool::Network]; [to_mempool_network] knows the networks of [External.Network]. *)
Inductive MempoolNetwork := Mainnet | MempoolSignet | MempoolTestnet | Local.
Definition to_mempool_network (value : Network) : MempoolNetwork :=
  match value with Bitcoin => Mainnet | Testnet => MempoolTestnet | Signet => MempoolSignet | Regtest => Local end.
Definition local_fee_rate : Estimates.t := Estimates.mk 5 4 3 2 1.
(** [fetch_fee], given the server's response: a local network does not ask. *)
Definition fetch_fee (network : MempoolNetwork) (response : outcome string Estimates.t) : outcome string Estimates.t :=
  match network with Local => Ok local_fee_rate | _ => response end.

Definition FEE_RATE_DEFAULTS : list (ConfirmationTarget * Z) :=
  [(MempoolMinimum, 1000); (Background, 2000); (Normal, 3000); (HighPriority, 4000)].

Section FeeRates.
Context `{FL : FeeRateLib}.

Definition FeeRateCache : Type := gmap ConfirmationTarget FeeRate.

Definition estimator_new : outcome string FeeRateCache :=
  rates ← traverse (fun '(target, fee_rate) => rate ← expect (from_sat_per_kwu (f32_of_Z fee_rate)); Ok (target, rate)) FEE_RATE_DEFAULTS;
  Ok (list_to_map rates).
Definition estimator_get (target : ConfirmationTarget) (cache : FeeRateCache) : outcome string FeeRate := expect (cache !! target).
Definition insert_estimate (target : ConfirmationTarget) (estimate : Z) : M FeeRateCache string unit :=
  rate ← lift (expect (from_sat_per_vb (f32_of_Z estimate)));
  modify <[target := rate]>.
(** [update], given what the server answered; the rates before a panic are kept. *)
Definition estimator_update (estimates : outcome string Estimates.t) : M FeeRateCache string unit :=
  estimates ← lift estimates;
  insert_estimate MempoolMinimum (Estimates.minimum_fee estimates);;
  insert_estimate Background (Estimates.economy_fee estimates);;
  insert_estimate Normal (Estimates.hour_fee estimates);;
  insert_estimate HighPriority (Estimates.fastest_fee estimates).
(** [fee as u32]. *)
Definition get_est_sat_per_1000_weight (target : ConfirmationTarget) (cache : FeeRateCache) : outcome string Z :=
  rate ← estimator_get target cache;
  Ok (Z.max (fee_wu rate 1000 `mod` 2 ^ 32) FEERATE_FLOOR_SATS_PER_KW).
End FeeRates.

(** ** [on_chain_wallet.rs] *)

Module WalletTxOut.
Record t (Script : Type) := mk { value : Z; script_pubkey : Script }.
Arguments mk {_}.
Arguments value {_}.
Arguments script_pubkey {_}.
End WalletTxOut.
(** [bdk::LocalOutput]. *)
Module LocalOutput.
Record t (Script : Type) := mk { outpoint : OutPoint.t; txout : WalletTxOut.t Script; is_spent : bool }.
Arguments mk {_}.
Arguments outpoint {_}.
Arguments txout {_}.
Arguments is_spent {_}.
End LocalOutput.
(** What a transaction is built from; without an amount everything is sent. *)
Module TxParams.
Record t (Script FeeRate : Type) := mk {
  unspendable : list OutPoint.t;
  recipient : Script;
  amount : option Z;
  fee_rate : FeeRate;
}.
Arguments mk {_ _}.
Arguments unspendable {_ _}.
Arguments recipient {_ _}.
Arguments amount {_ _}.
Arguments fee_rate {_ _}.
End TxParams.
Inductive ChainPosition := Confirmed (confirmation_height confirmation_time : Z) | Unconfirmed (last_seen : Z).

(** [bdk]'s wallet and its transactions. *)
Class BdkLib `{FeeRateLib} := {
  Bdk : Type;
  Script : Type;
  WalletAddress : Type;
  Psbt : Type;
  Tx : Type;
  WalletUpdate : Type;
  script_eq_dec :: EqDecision Script;
  address_script : WalletAddress -> Script;
  is_dust : Z -> Script -> bool;
  bdk_balance : Bdk -> OnChainBalance.t;
  bdk_list_unspent : Bdk -> list (LocalOutput.t Script);
  bdk_new_address : M Bdk string WalletAddress;
  bdk_last_unused_address : M Bdk string WalletAddress;
  bdk_get_tx : Bdk -> string -> option ChainPosition;
  bdk_tip : Bdk -> Z;
  bdk_build_tx : TxParams.t Script FeeRate -> M Bdk string Psbt;
  bdk_sign : Psbt -> M Bdk string (Psbt * bool);      (* and whether it is finalized *)
  bdk_apply_update : WalletUpdate -> M Bdk string unit;
  bdk_commit : M Bdk string unit;
  psbt_fee_amount : Psbt -> option Z;
  extract_tx : Psbt -> Tx;
  tx_inputs : Tx -> list OutPoint.t;
  tx_outputs : Tx -> list (WalletTxOut.t Script);
}.

Module OnChainWallet.
Record t `{BdkLib} := mk { bdk : Bdk; locked_utxos : list OutPoint.t; fee_rates : FeeRateCache }.
#[global] Arguments mk {_ _}.
End OnChainWallet.

(** [FeeConfig]. *)
Module FeeConfig.
Inductive t `{FeeRateLib} := Priority (target : ConfirmationTarget) | Rate (fee_rate : FeeRate).
End FeeConfig.

(** [ConfirmationStatus]. *)
Module ConfirmationStatus.
Inductive t := Unknown | Mempool (last_seen : OffsetDateTime) | Confirmed (n_confirmations : Z) (timestamp : OffsetDateTime).
End ConfirmationStatus.
Definition n_confirmations (status : ConfirmationStatus.t) : Z :=
  match status with ConfirmationStatus.Confirmed n _ => n | _ => 0 end.

Definition AVG_SEGWIT_TX_WEIGHT_VB : Z := 140.

Section Wallet.
Context `{WL : BdkLib}.

Definition WalletM (A : Type) : Type := M OnChainWallet.t string A.
Definition on_bdk {A} (m : M Bdk string A) : WalletM A := fun w =>
  let '(r, bdk) := m (OnChainWallet.bdk w) in (r, OnChainWallet.mk bdk (OnChainWallet.locked_utxos w) (OnChainWallet.fee_rates w)).
Definition set_locked (f : list OutPoint.t -> list OutPoint.t) : WalletM unit := modify (fun w =>
  OnChainWallet.mk (OnChainWallet.bdk w) (f (OnChainWallet.locked_utxos w)) (OnChainWallet.fee_rates w)).

Definition get_utxos (w : OnChainWallet.t) : list (OutPoint.t * WalletTxOut.t Script) :=
  map (fun o => (LocalOutput.outpoint o, LocalOutput.txout o)) (bdk_list_unspent (OnChainWallet.bdk w)).
Definition unreserve_utxos (outpoints : list OutPoint.t) : WalletM unit :=
  set_locked (List.filter (fun utxo => negb (bool_decide (utxo ∈ outpoints)))).

Definition get_confirmation_status (debug_assertions : bool) (txid : string) (w : OnChainWallet.t) : outcome string ConfirmationStatus.t :=
  match bdk_get_tx (OnChainWallet.bdk w) txid with
  | Some (Confirmed confirmation_height confirmation_time) =>
    let tip := bdk_tip (OnChainWallet.bdk w) in
    if tip <? confirmation_height then
      if debug_assertions then Panic else Ok ConfirmationStatus.Unknown
    else
      n_confirmations ← expect (checked_u32 (tip - confirmation_height + 1));
      timestamp ← expect (from_unix_timestamp (as_i64 confirmation_time));
      Ok (ConfirmationStatus.Confirmed n_confirmations timestamp)
  | Some (Unconfirmed last_seen) =>
    last_seen ← expect (from_unix_timestamp (as_i64 last_seen));
    Ok (ConfirmationStatus.Mempool last_seen)
  | None => Ok ConfirmationStatus.Unknown
  end.

Definition fee_rate_from_config (fee_config : FeeConfig.t) (w : OnChainWallet.t) : outcome string FeeRate :=
  match fee_config with
  | FeeConfig.Priority target => estimator_get target (OnChainWallet.fee_rates w)
  | FeeConfig.Rate fee_rate => Ok fee_rate
  end.

Definition get_new_address : WalletM WalletAddress := on_bdk bdk_new_address.
Definition get_unused_address : WalletM WalletAddress := on_bdk bdk_last_unused_address.

Definition build_psbt (recipient : WalletAddress) (amount_sat_or_drain : Z) (fee_config : FeeConfig.t) : WalletM Psbt :=
  w ← gets id;
  fee_rate ← lift (fee_rate_from_config fee_config w);
  on_bdk (bdk_build_tx (TxParams.mk (OnChainWallet.locked_utxos w) (address_script recipient)
    (if 0 <? amount_sat_or_drain then Some amount_sat_or_drain else None) fee_rate)).
Definition build_and_sign_psbt (recipient : WalletAddress) (amount_sat_or_drain : Z) (fee_config : FeeConfig.t) : WalletM Psbt :=
  psbt ← build_psbt recipient amount_sat_or_drain fee_config;
  '(psbt, finalized) ← on_bdk (bdk_sign psbt);
  lift (ensure finalized "PSBT not finalized"%string);;
  mret psbt.
(** The inputs are locked; a transaction without an output for the recipient panics. *)
Definition build_on_chain_payment_tx (recipient : WalletAddress) (amount_sat_or_drain : Z) (fee_config : FeeConfig.t) : WalletM Tx :=
  lift (ensure (negb ((0 <? amount_sat_or_drain) && is_dust amount_sat_or_drain (address_script recipient)))
    "Send amount below dust"%string);;
  psbt ← build_and_sign_psbt recipient amount_sat_or_drain fee_config;
  let tx := extract_tx psbt in
  set_locked (fun locked => locked ++ tx_inputs tx);;
  _ ← lift (expect (List.find (fun txo => bool_decide (WalletTxOut.script_pubkey txo = address_script recipient)) (tx_outputs tx)));
  mret tx.
Definition estimate_fee (recipient : WalletAddress) (fee_config : FeeConfig.t) : WalletM Z :=
  psbt ← build_psbt recipient 1000 fee_config;
  match psbt_fee_amount psbt with
  | Some fee => mret fee
  | None =>
    w ← gets id;
    rate ← lift (fee_rate_from_config fee_config w);
    mret (fee_vb rate AVG_SEGWIT_TX_WEIGHT_VB)
  end.

Definition commit_wallet_update (update : WalletUpdate) : WalletM unit :=
  on_bdk (bdk_apply_update update);;
  on_bdk bdk_commit.
(** [sync_on_chain_wallet], given what the explorer answers: all outputs are unlocked. *)
Definition sync_on_chain_wallet (update : outcome string WalletUpdate) : WalletM unit :=
  update ← lift update;
  commit_wallet_update update;;
  set_locked (fun _ => []).
Definition full_sync (update : outcome string WalletUpdate) : WalletM unit :=
  update ← lift update;
  commit_wallet_update update.
End Wallet.

(** ** [blockchain.rs]: what the explorer is asked *)

(** [OutputStatus]: who spent the output and in which block. *)
Module OutputStatus.
Record t := mk { txid : option string; block_height : option (option Z) }.
End OutputStatus.

Class ExplorerLib := {
  Explorer : Type;
  get_height : Explorer -> outcome string Z;
  get_tx_status : Explorer -> string -> outcome string (option Z);    (* the block's height *)
  get_output_status : Explorer -> OutPoint.t -> outcome string (option OutputStatus.t);
}.

Section Confirmations.
Context `{EX : ExplorerLib} (esplora : Explorer).

Definition tx_height_to_confirmations (tx_height : Z) : outcome string Z :=
  tip ← get_height esplora;
  if tip <? tx_height then Ok 0 else expect (checked_u32 (tip - tx_height + 1)).
Definition get_transaction_confirmations (txid : string) : outcome string Z :=
  status ← get_tx_status esplora txid;
  match status with
  | Some tx_height => tx_height_to_confirmations tx_height
  | None => Ok 0
  end.
Definition get_txo_confirmations (txo : OutPoint.t) : outcome string (option (Z * string)) :=
  status ← get_output_status esplora txo;
  match status with
  | Some {| OutputStatus.txid := Some txid; OutputStatus.block_height := Some (Some tx_height) |} =>
    confirmations ← tx_height_to_confirmations tx_height;
    Ok (Some (confirmations, txid))
  | _ => Ok None
  end.
End Confirmations.

(** ** [dlc_wallet.rs] *)

(** [bdk_coin_select]: candidates by value and weight, what they are to pay. *)
Module Target.
Record t := mk { feerate : f32; min_fee : Z; value : Z }.
End Target.
Class CoinSelectLib `{BdkLib} := {
  segwit_weight : OutPoint.t -> Z;                         (* of an input that spends it *)
  run_bnb : list (Z * Z) -> Z -> Target.t -> Z -> outcome string (list nat);
  is_target_met : list (Z * Z) -> Z -> Target.t -> list nat -> bool;
  script_address : Script -> option string;                (* [Address::from_script] *)
}.
Definition COIN_SELECTION_MAX_ROUNDS : Z := 100000.

(** [dlc_manager::Utxo]. *)
Module Utxo.
Record t (Script : Type) := mk { tx_out : WalletTxOut.t Script; outpoint : OutPoint.t; address : string }.
Arguments mk {_}.
Arguments tx_out {_}.
Arguments outpoint {_}.
Arguments address {_}.
End Utxo.

Section DlcWallet.
Context `{WL : BdkLib} `{CS : !CoinSelectLib}.

(** The outputs neither reserved nor spent. *)
Definition available_utxos (w : OnChainWallet.t) : list (LocalOutput.t Script) :=
  List.filter (fun utxo => negb (bool_decide (LocalOutput.outpoint utxo ∈ OnChainWallet.locked_utxos w)) && negb (LocalOutput.is_spent utxo))
    (bdk_list_unspent (OnChainWallet.bdk w)).
Definition candidate (utxo : LocalOutput.t Script) : Z * Z :=
  (WalletTxOut.value (LocalOutput.txout utxo), segwit_weight (LocalOutput.outpoint utxo)).

(** An output that was selected is reserved before the next one is looked at. *)
Definition select_utxo (lock_utxos : bool) (utxos : list (LocalOutput.t Script)) (index : nat) : WalletM (Utxo.t Script) :=
  utxo ← lift (expect (utxos !! index));
  address ← lift (expect (script_address (WalletTxOut.script_pubkey (LocalOutput.txout utxo))));
  (if lock_utxos then set_locked (fun locked => locked ++ [LocalOutput.outpoint utxo]) else mret tt);;
  mret (Utxo.mk (LocalOutput.txout utxo) (LocalOutput.outpoint utxo) address).

Definition get_utxos_for_amount (debug_assertions : bool) (amount : Z) (fee_rate : option Z) (base_weight_wu : Z)
    (lock_utxos : bool) : WalletM (list (Utxo.t Script)) :=
  if amount =? 0 then mret []
  else
    fee_rate ← lift (expect fee_rate);
    w ← gets id;
    let utxos := available_utxos w in
    let candidates := map candidate utxos in
    let target := Target.mk (f32_of_Z fee_rate) 0 amount in
    _ ← lift (sum_u64 0 (map fst candidates));
    indices ← lift (run_bnb candidates (base_weight_wu `mod` 2 ^ 32) target COIN_SELECTION_MAX_ROUNDS);
    lift (expect (if debug_assertions && negb (is_target_met candidates (base_weight_wu `mod` 2 ^ 32) target indices) then None else Some tt));;
    mapM (select_utxo lock_utxos utxos) indices.

(** The keys of channels are random and kept in the storage of [rust-dlc]. *)
Context `{IL : IdLib} `{KL : !KeyPairLib} {S : Type} `{KP : DlcStoreProvider S}.

Definition get_new_secret_key (public_key : PublicKey) (secret_key : SecretKey) : StorageM (S := S) SecretKey :=
  upsert_key_pair public_key secret_key;;
  mret secret_key.
Definition get_secret_key_for_pubkey (public_key : PublicKey) : StorageM (S := S) SecretKey :=
  secret_key ← get_priv_key_for_pubkey public_key;
  lift (ok_or "Unknown PK"%string secret_key).
End DlcWallet.

(** ** Nothing is spent twice *)

(** What the node does with its wallet, and what each operation commits: the outputs it
    reserves for a channel or spends in a payment. *)
Section Commitments.
Context `{WL : BdkLib} `{CS : !CoinSelectLib} (debug_assertions : bool).

Inductive WalletOp :=
  | Reserve (amount : Z) (fee_rate : option Z) (base_weight_wu : Z)
  | Pay (recipient : WalletAddress) (amount_sat_or_drain : Z) (fee_config : FeeConfig.t)
  | EstimateFee (recipient : WalletAddress) (fee_config : FeeConfig.t)
  | Unreserve (outpoints : list OutPoint.t)
  | NewAddress
  | SyncOnChain (update : outcome string WalletUpdate)
  | FullSync (update : outcome string WalletUpdate).

Definition run_wallet_op (op : WalletOp) : WalletM (list OutPoint.t) :=
  match op with
  | Reserve amount fee_rate base_weight_wu =>
    utxos ← get_utxos_for_amount debug_assertions amount fee_rate base_weight_wu true;
    mret (map Utxo.outpoint utxos)
  | Pay recipient amount fee_config => tx ← build_on_chain_payment_tx recipient amount fee_config; mret (tx_inputs tx)
  | EstimateFee recipient fee_config => _ ← estimate_fee recipient fee_config; mret []
  | Unreserve outpoints => unreserve_utxos outpoints;; mret []
  | NewAddress => _ ← get_new_address; mret []
  | SyncOnChain update => sync_on_chain_wallet update;; mret []
  | FullSync update => full_sync update;; mret []
  end.
Definition commits (op : WalletOp) (w : OnChainWallet.t) : list OutPoint.t :=
  match (run_wallet_op op w).1 with Ok outpoints => outpoints | _ => [] end.
(** The wallet after operations, failed ones included. *)
Definition run_wallet (ops : list WalletOp) (w : OnChainWallet.t) : OnChainWallet.t :=
  fold_left (fun w op => (run_wallet_op op w).2) ops w.
Definition releases (o : OutPoint.t) (op : WalletOp) : Prop :=
  match op with
  | Unreserve outpoints => o ∈ outpoints
  | SyncOnChain _ => True
  | _ => False
  end.
#[export] Instance releases_dec o op : Decision (releases o op).
Proof. destruct op; cbn; apply _. Defined.
End Commitments.

(** What [bdk] documents: unspendable outputs are not spent, signing adds no inputs. *)
Class BdkLaws `(WL : BdkLib) : Prop := {
  build_tx_avoids params b psbt b' : bdk_build_tx params b = (Ok psbt, b') ->
    forall o, o ∈ tx_inputs (extract_tx psbt) -> o ∉ TxParams.unspendable params;
  sign_keeps_inputs psbt b psbt' finalized b' : bdk_sign psbt b = (Ok (psbt', finalized), b') ->
    tx_inputs (extract_tx psbt') = tx_inputs (extract_tx psbt);
}.

Section NoDoubleSpend.
Context `{WL : BdkLib}.

Definition keeps_locked (o : OutPoint.t) (w w' : OnChainWallet.t) : Prop :=
  o ∈ OnChainWallet.locked_utxos w -> o ∈ OnChainWallet.locked_utxos w'.
#[local] Instance keeps_locked_preorder o : PreOrder (keeps_locked o).
Proof. split; unfold keeps_locked; [by intros ?|intros ?; naive_solver]. Qed.

Lemma on_bdk_keeps_locked {A} (m : M Bdk string A) o : steps (keeps_locked o) (on_bdk m).
Proof. intros w. unfold on_bdk, keeps_locked. by destruct (m _). Qed.
Lemma set_locked_keeps f o : (forall l, o ∈ l -> o ∈ f l) -> steps (keeps_locked o) (set_locked f).
Proof. intros Hf w. unfold keeps_locked. apply Hf. Qed.
Lemma lock_keeps_locked outpoints o : steps (keeps_locked o) (set_locked (fun locked => locked ++ outpoints)).
Proof. apply set_locked_keeps. set_solver. Qed.
Lemma build_psbt_keeps_locked recipient amount fee_config o : steps (keeps_locked o) (build_psbt recipient amount fee_config).
Proof. unfold build_psbt. pose proof (@on_bdk_keeps_locked). solve_steps. Qed.
Lemma build_and_sign_keeps_locked recipient amount fee_config o :
  steps (keeps_locked o) (build_and_sign_psbt recipient amount fee_config).
Proof. unfold build_and_sign_psbt. pose proof (@on_bdk_keeps_locked). pose proof build_psbt_keeps_locked. solve_steps. Qed.
Lemma pay_keeps_locked recipient amount fee_config o : steps (keeps_locked o) (build_on_chain_payment_tx recipient amount fee_config).
Proof.
  unfold build_on_chain_payment_tx. pose proof build_and_sign_keeps_locked. pose proof lock_keeps_locked. pose proof (@on_bdk_keeps_locked). solve_steps.
Qed.
Context `{CS : !CoinSelectLib} (debug_assertions : bool).

Lemma select_keeps_locked b utxos index o : steps (keeps_locked o) (select_utxo b utxos index).
Proof.
  unfold select_utxo. pose proof lock_keeps_locked. pose proof (@on_bdk_keeps_locked). solve_steps.
Qed.
Lemma select_all_keeps_locked b utxos indices o : steps (keeps_locked o) (mapM (select_utxo b utxos) indices).
Proof.
  pose proof select_keeps_locked. induction indices as [|i indices IH]; cbn [mapM]; [solve_steps|].
  apply steps_bind; [apply _|done|]. intros. apply steps_bind; [apply _|done|]. intros. solve_steps.
Qed.
Lemma reserve_keeps_locked amount fee_rate base_weight b o :
  steps (keeps_locked o) (get_utxos_for_amount debug_assertions amount fee_rate base_weight b).
Proof. unfold get_utxos_for_amount. pose proof select_all_keeps_locked. solve_steps. Qed.

(** An operation that does not release an output leaves it locked. *)
Lemma op_keeps_locked op o : ~ releases o op -> steps (keeps_locked o) (run_wallet_op debug_assertions op).
Proof.
  intros Hop. pose proof lock_keeps_locked. pose proof reserve_keeps_locked. pose proof pay_keeps_locked. pose proof build_psbt_keeps_locked.
  pose proof (@on_bdk_keeps_locked). destruct op; cbn [run_wallet_op releases] in *.
  4:{ unfold unreserve_utxos. apply steps_bind; [apply _| |solve_steps]. apply set_locked_keeps. intros l Hl.
      apply list_elem_of_In, filter_In. split; [by apply list_elem_of_In|]. by apply negb_true_iff, bool_decide_eq_false. }
  all: try done. all: unfold estimate_fee, get_new_address, full_sync, commit_wallet_update; solve_steps.
Qed.
Lemma ops_keep_locked ops o w : Forall (fun op => ~ releases o op) ops -> keeps_locked o w (run_wallet debug_assertions ops w).
Proof.
  intros Hall. revert w. induction Hall as [|op ops Hop Hall IH]; intros w; [by intros ?|].
  cbn. etrans; [|apply IH]. by apply op_keeps_locked.
Qed.
End NoDoubleSpend.

(** *** What is committed was free, and is locked *)

Section NoDoubleCommit.
Context `{WL : BdkLib} `{CS : !CoinSelectLib} (debug_assertions : bool).

(** A selection takes available outputs and, when told to, locks them. *)
Lemma select_ok b utxos index w u w' : select_utxo b utxos index w = (Ok u, w') ->
  (exists utxo, utxo ∈ utxos /\ Utxo.outpoint u = LocalOutput.outpoint utxo) /\
  OnChainWallet.locked_utxos w' = OnChainWallet.locked_utxos w ++ (if b then [Utxo.outpoint u] else []).
Proof.
  intros (utxo & w1 & Hutxo & H1)%M_bind_ok. apply lift_ok in Hutxo as [Hutxo ->].
  apply M_bind_ok in H1 as (address & w2 & Haddress & H2). apply lift_ok in Haddress as [_ ->].
  apply M_bind_ok in H2 as ([] & w3 & Hlock & [= <- <-]). split.
  - exists utxo. split; [|done]. destruct (utxos !! index) eqn:Hi; [|done]. injection Hutxo as ->. by eapply list_elem_of_lookup_2.
  - destruct b; injection Hlock as <-; cbn; [done|by rewrite app_nil_r].
Qed.
Lemma select_all_ok b utxos indices w us w' : mapM (select_utxo b utxos) indices w = (Ok us, w') ->
  Forall (fun u => exists utxo, utxo ∈ utxos /\ Utxo.outpoint u = LocalOutput.outpoint utxo) us /\
  OnChainWallet.locked_utxos w' = OnChainWallet.locked_utxos w ++ (if b then map Utxo.outpoint us else []).
Proof.
  revert w us. induction indices as [|index indices IH]; intros w us; cbn [mapM].
  - intros [= <- <-]. split; [constructor|]. by destruct b; rewrite app_nil_r.
  - intros (u & w1 & Hu & H1)%M_bind_ok. apply M_bind_ok in H1 as (us' & w2 & Hus & [= <- <-]).
    apply select_ok in Hu as [Hu Hw1]. apply IH in Hus as [Hus Hw2]. split; [by constructor|].
    rewrite Hw2, Hw1. destruct b; cbn; by rewrite <-app_assoc, ?app_nil_r.
Qed.
Lemma reserve_ok amount fee_rate base_weight b w us w' :
  get_utxos_for_amount debug_assertions amount fee_rate base_weight b w = (Ok us, w') ->
  Forall (fun u => Utxo.outpoint u ∉ OnChainWallet.locked_utxos w) us /\
  OnChainWallet.locked_utxos w' = OnChainWallet.locked_utxos w ++ (if b then map Utxo.outpoint us else []).
Proof.
  unfold get_utxos_for_amount. destruct (amount =? 0).
  { intros [= <- <-]. split; [constructor|]. by destruct b; rewrite app_nil_r. }
  intros (rate & w1 & Hrate & H1)%M_bind_ok. apply lift_ok in Hrate as [_ ->].
  apply M_bind_ok in H1 as (w0 & w1 & [= <- <-] & H1). cbn zeta in H1.
  apply M_bind_ok in H1 as (total & w1 & Htotal & H1). apply lift_ok in Htotal as [_ ->].
  apply M_bind_ok in H1 as (indices & w1 & Hbnb & H1). apply lift_ok in Hbnb as [_ ->].
  apply M_bind_ok in H1 as (v & w1 & Hmet & H1). apply lift_ok in Hmet as [_ ->].
  apply select_all_ok in H1 as [Hall Hlocked]. split; [|done].
  eapply Forall_impl; [exact Hall|]. intros u (utxo & Hutxo & ->).
  apply list_elem_of_In, filter_In in Hutxo as [_ Hfree]. apply andb_true_iff in Hfree as [Hfree _].
  by apply negb_true_iff, bool_decide_eq_false in Hfree.
Qed.

Context `{BW : !BdkLaws WL}.

Lemma pay_ok recipient amount fee_config w tx w' : build_on_chain_payment_tx recipient amount fee_config w = (Ok tx, w') ->
  Forall (fun o => o ∉ OnChainWallet.locked_utxos w) (tx_inputs tx) /\
  OnChainWallet.locked_utxos w' = OnChainWallet.locked_utxos w ++ tx_inputs tx.
Proof.
  intros (v & w1 & Hdust & H1)%M_bind_ok. apply lift_ok in Hdust as [_ ->].
  apply M_bind_ok in H1 as (psbt & w1 & Hpsbt & H1). cbn zeta in H1.
  apply M_bind_ok in H1 as (v1 & w2 & [= <- <-] & H1). apply M_bind_ok in H1 as (txo & w3 & Htxo & [= <- <-]).
  apply lift_ok in Htxo as [_ ->]. cbn [OnChainWallet.locked_utxos].
  apply M_bind_ok in Hpsbt as (unsigned & w4 & Hbuild & H2). apply M_bind_ok in H2 as ([signed finalized] & w5 & Hsign & H2).
  apply M_bind_ok in H2 as (v2 & w6 & Hfin & [= <- <-]). apply lift_ok in Hfin as [_ ->].
  apply M_bind_ok in Hbuild as (w0 & w6 & [= <- <-] & Hbuild). apply M_bind_ok in Hbuild as (rate & w7 & Hrate & Hbuild).
  apply lift_ok in Hrate as [_ ->]. unfold on_bdk in Hbuild, Hsign.
  destruct (bdk_build_tx _ _) as [r b] eqn:Htx. injection Hbuild as -> <-. cbn [OnChainWallet.bdk OnChainWallet.locked_utxos] in *.
  destruct (bdk_sign _ _) as [r b'] eqn:Hs. injection Hsign as -> <-. cbn [OnChainWallet.locked_utxos].
  apply sign_keeps_inputs in Hs. rewrite Hs. split; [|done].
  apply Forall_forall. intros o Ho. exact (build_tx_avoids _ _ _ _ Htx o Ho).
Qed.

(** What an operation commits was free before and is locked after it. *)
Lemma committed_ok op w o : o ∈ commits debug_assertions op w ->
  (o ∉ OnChainWallet.locked_utxos w) /\ o ∈ OnChainWallet.locked_utxos ((run_wallet_op debug_assertions op w).2).
Proof.
  unfold commits. destruct (run_wallet_op _ op w) as [[os|e|] w'] eqn:Hrun; cbn [fst snd]; [|by intros ?%not_elem_of_nil..].
  destruct op; cbn [run_wallet_op] in Hrun; apply M_bind_ok in Hrun as (x & w1 & Hx & [= <- <-]);
    try (by intros ?%not_elem_of_nil).
  - apply reserve_ok in Hx as [Hfree ->]. rewrite Forall_forall in Hfree. intros Ho.
    split; [|by apply elem_of_app; right]. apply list_elem_of_fmap in Ho as (u & -> & Hu). by apply Hfree.
  - apply pay_ok in Hx as [Hfree ->]. rewrite Forall_forall in Hfree. intros Ho. split; [by apply Hfree|set_solver].
Qed.

(** C23: nothing is committed twice: an output that one operation reserved for a channel or
    spent in a payment is given to no later operation, whatever happens in between and
    whichever calls fail, unless it was unreserved or the wallet was synchronised
    in between. *)
Theorem committed_outputs_are_not_given_twice op1 ops op2 w o :
  o ∈ commits debug_assertions op1 w ->
  o ∈ commits debug_assertions op2 (run_wallet debug_assertions (op1 :: ops) w) ->
  Exists (releases o) ops.
Proof.
  intros [_ Hlocked]%committed_ok [Hfree _]%committed_ok.
  destruct (decide (Exists (releases o) ops)) as [He|Hne]; [done|]. destruct Hfree.
  eapply (ops_keep_locked debug_assertions ops); [|exact Hlocked]. by apply Forall_Exists_neg.
Qed.
End NoDoubleCommit.

(** ** Rates, confirmations and keys *)

Section FeeRateSpec.
Context `{FL : FeeRateLib}.

Definition all_rates (cache : FeeRateCache) : Prop := forall target, is_Some (cache !! target).
Definition grows (cache cache' : FeeRateCache) : Prop := all_rates cache -> all_rates cache'.
#[local] Instance grows_preorder : PreOrder grows.
Proof. split; unfold grows; [by intros ?|intros ?; naive_solver]. Qed.

Lemma set_rate_grows target rate : steps grows (modify (E := string) (<[target := rate]> : FeeRateCache -> FeeRateCache)).
Proof.
  intros cache Hall t. unfold modify. cbn [snd]. unfold FeeRateCache in *.
  destruct (decide (t = target)) as [->|Hne]; [by rewrite lookup_insert_eq|by rewrite lookup_insert_ne].
Qed.
Lemma estimator_new_complete cache : estimator_new = Ok cache -> all_rates cache.
Proof. intros Hnew target. unfold estimator_new in Hnew. cbn in Hnew. inv_ok. subst. by destruct target; eexists. Qed.

(** There is a rate for every target, whatever the server answered and whenever an update
    failed half-way: asking for one never panics. *)
Theorem fee_rates_are_always_known updates cache target : estimator_new = Ok cache ->
  exists rate, estimator_get target (fold_left (fun cache estimates => (estimator_update estimates cache).2) updates cache) = Ok rate.
Proof.
  intros Hnew%estimator_new_complete. revert cache Hnew.
  induction updates as [|estimates updates IH]; intros cache Hnew; cbn [fold_left].
  - destruct (Hnew target) as [rate Hrate]. exists rate. unfold estimator_get. by rewrite Hrate.
  - apply IH. revert Hnew. change (grows cache (estimator_update estimates cache).2). revert cache.
    change (steps grows (estimator_update estimates)). unfold estimator_update.
    pose proof set_rate_grows. solve_steps.
Qed.
End FeeRateSpec.

Section ConfirmationSpec.
Context `{WL : BdkLib} `{EX : ExplorerLib}.

(** A transaction both the wallet and the explorer know of, at the same tip, has the same
    number of confirmations for both; none when the tip is behind it. *)
Theorem wallet_and_explorer_count_alike esplora txid (w : OnChainWallet.t) height time timestamp :
  bdk_get_tx (OnChainWallet.bdk w) txid = Some (Confirmed height time) ->
  get_tx_status esplora txid = Ok (Some height) -> get_height esplora = Ok (bdk_tip (OnChainWallet.bdk w)) ->
  from_unix_timestamp (as_i64 time) = Some timestamp ->
  n_confirmations <$> get_confirmation_status false txid w = get_transaction_confirmations esplora txid.
Proof.
  intros Htx Hstatus Htip Htime. unfold get_confirmation_status, get_transaction_confirmations, tx_height_to_confirmations.
  rewrite Htx, Hstatus. cbn [mbind outcome_bind]. rewrite Htip, Htime. cbn [mbind outcome_bind].
  destruct (_ <? _); [done|]. by destruct (checked_u32 _).
Qed.
End ConfirmationSpec.

(** The entry under a key, among all that are read. *)
Lemma entry_of_key (m : gmap Bytes Bytes) l k v : m !! k = Some v -> l ≡ₚ map (fun e => entry e.1 e.2) (map_to_list m) ->
  List.filter (fun x => bool_decide (KeyValue.key x = k)) l = [entry k v].
Proof.
  intros Hk Hl. rewrite <-(insert_delete_id m k v Hk), map_to_list_insert in Hl by apply lookup_delete_eq.
  apply Permutation_singleton_r. rewrite (filter_permutation _ _ _ Hl). cbn. rewrite bool_decide_true by done.
  replace (List.filter _ _) with (@nil KeyValue.t); [done|]. symmetry. apply filter_none. intros x Hx.
  apply list_elem_of_fmap in Hx as ([k' v'] & -> & Hin%elem_of_map_to_list).
  apply bool_decide_eq_false. cbn. intros ->. by rewrite lookup_delete_eq in Hin.
Qed.

Section Keys.
Context `{KW : KeyPairLaws} {S : Type} `{SP : StoreProviderLaws S}.

Definition has_key (pk : PublicKey) (sk : SecretKey) (s : DlcStorage.t S) : Prop :=
  view (DlcStorage.store s) KEY_PAIR !! public_key_serialize pk = Some (secret_bytes sk).

Lemma new_key_is_kept pk sk s k s' : get_new_secret_key pk sk s = (Ok k, s') ->
  k = sk /\ forall pk' sk', (pk' = pk -> sk' = sk) -> pk' = pk \/ has_key pk' sk' s -> has_key pk' sk' s'.
Proof.
  unfold get_new_secret_key, upsert_key_pair, on_store. intros ([] & s1 & Hw & [= <- <-])%M_bind_ok. split; [done|].
  intros pk' sk' Heq Hor. destruct (store_write _ _ _ _) as [r st] eqn:Hst. injection Hw as -> <-.
  apply store_write_ok with (kind' := KEY_PAIR) in Hst. rewrite decide_True in Hst by done.
  unfold has_key. cbn [DlcStorage.store]. rewrite Hst. destruct (decide (pk' = pk)) as [->|Hne].
  - rewrite lookup_insert_eq. by rewrite Heq.
  - rewrite lookup_insert_ne by (intros ?%public_key_serialize_inj; congruence). by destruct Hor.
Qed.

(** Keys drawn one after the other. *)
Definition new_keys (keys : list (PublicKey * SecretKey)) : StorageM (S := S) unit :=
  for_each (fun '(pk, sk) => _ ← get_new_secret_key pk sk; mret tt) keys.
Lemma new_keys_keep keys s u s' pk sk : Forall (fun k => k.1 = pk -> sk = k.2) keys -> has_key pk sk s ->
  new_keys keys s = (Ok u, s') -> has_key pk sk s'.
Proof.
  intros Hall. revert s. induction Hall as [|[pk' sk'] keys Hk Hall IH]; intros s Hs; [by intros [= <- <-]|].
  unfold new_keys. cbn [for_each]. intros ([] & s1 & Hnew & Hrest)%M_bind_ok. apply M_bind_ok in Hnew as (k & s2 & Hnew & [= <-]).
  apply new_key_is_kept in Hnew as [_ Hkeep]. eapply IH; [|exact Hrest]. apply Hkeep; [|by right]. intros ->. by apply Hk.
Qed.

Lemma has_key_found pk sk s l st : has_key pk sk s -> store_read KEY_PAIR None (DlcStorage.store s) = (Ok l, st) ->
  get_secret_key_for_pubkey pk s = (Ok sk, s).
Proof.
  intros Hkey Hread. unfold get_secret_key_for_pubkey, get_priv_key_for_pubkey, on_store, mbind, M_bind. rewrite Hread.
  apply store_read_all in Hread as [-> Hl]. unfold lift. rewrite (entry_of_key _ _ _ _ Hkey Hl). cbn. rewrite secret_key_roundtrip.
  by destruct s.
Qed.

(** The key of a channel is found as long as the store can be read, whatever other keys
    were drawn since. *)
Theorem channel_keys_are_found pk sk keys s k s1 u s2 l st :
  Forall (fun k => k.1 = pk -> sk = k.2) keys ->
  get_new_secret_key pk sk s = (Ok k, s1) -> new_keys keys s1 = (Ok u, s2) ->
  store_read KEY_PAIR None (DlcStorage.store s2) = (Ok l, st) ->
  get_secret_key_for_pubkey pk s2 = (Ok sk, s2).
Proof.
  intros Hkeys Hnew Hrest Hread. eapply has_key_found; [|exact Hread]. eapply new_keys_keep; [exact Hkeys| |exact Hrest].
  apply new_key_is_kept in Hnew as [_ Hkeep]. apply Hkeep; [done|by left].
Qed.
End Keys.

(** ** Examples *)

#[local] Instance demo_rates : FeeRateLib := {|
  FeeRate := f32; from_sat_per_kwu f := Some f; from_sat_per_vb f := Some f; fee_wu _ w := w; fee_vb _ v := v;
  FEERATE_FLOOR_SATS_PER_KW := 253;
|}.
(** A wallet that knows its outputs; it pays with all that it may spend, to the recipient. *)
#[local] Instance demo_bdk : BdkLib := {|
  Bdk := list (LocalOutput.t string); Script := string; WalletAddress := string;
  Psbt := list OutPoint.t * string; Tx := list OutPoint.t * string; WalletUpdate := unit;
  address_script a := a; is_dust amount _ := amount <? 546;
  bdk_balance _ := OnChainBalance.mk 0 0 0; bdk_list_unspent b := b;
  bdk_new_address := mret "new"%string; bdk_last_unused_address := mret "unused"%string;
  bdk_get_tx _ _ := Some (Confirmed 100 0); bdk_tip _ := 101;
  bdk_build_tx params := gets (fun b =>
    (List.filter (fun o => negb (bool_decide (o ∈ TxParams.unspendable params))) (map LocalOutput.outpoint b), TxParams.recipient params));
  bdk_sign psbt := mret (psbt, true); bdk_apply_update _ := mret tt; bdk_commit := mret tt;
  psbt_fee_amount _ := Some 141; extract_tx psbt := psbt; tx_inputs tx := tx.1; tx_outputs tx := [WalletTxOut.mk 1000 tx.2];
|}.
#[local] Instance demo_bdk_laws : BdkLaws demo_bdk.
Proof.
  split.
  - intros params b psbt b' [= <- <-] o Ho. apply list_elem_of_In, filter_In in Ho as [_ Ho].
    by apply negb_true_iff, bool_decide_eq_false in Ho.
  - by intros psbt b psbt' finalized b' [= <- _ _].
Qed.
#[local] Instance demo_coins : CoinSelectLib := {|
  segwit_weight _ := 272;
  run_bnb candidates _ target _ := match candidates with [] => Err "insufficient"%string | _ => Ok [0%nat] end;
  is_target_met _ _ _ _ := true; script_address s := Some s;
|}.

Definition demo_wallet : OnChainWallet.t :=
  let output txid := LocalOutput.mk (OutPoint.mk txid 0) (WalletTxOut.mk 100000 "ours"%string) false in
  OnChainWallet.mk (H0 := demo_bdk) [output "a"%string; output "b"%string] [] ∅.
Definition demo_reserve : WalletOp := Reserve 50000 (Some 3) 400.

(** Two channels get different outputs, and a payment finds none left. *)
Example reserved_outputs_differ :
  let after n := run_wallet true (replicate n demo_reserve) demo_wallet in
  (commits true demo_reserve (after 0%nat), commits true demo_reserve (after 1%nat), commits true demo_reserve (after 2%nat)) =
  ([OutPoint.mk "a" 0], [OutPoint.mk "b" 0], []).
Proof. by vm_compute. Qed.

(** A synchronisation unlocks everything: the output reserved for a channel that is not on
    chain yet is given to the next one. *)
Example sync_gives_reserved_output_again :
  commits true demo_reserve (run_wallet true [demo_reserve; SyncOnChain (Ok tt)] demo_wallet) = commits true demo_reserve demo_wallet.
Proof. by vm_compute. Qed.

Example committed_outputs_are_not_given_twice_witness :
  let o := OutPoint.mk "a" 0 in
  let sync := SyncOnChain (Ok tt : outcome string unit) in
  o ∈ commits true demo_reserve demo_wallet /\ Exists (releases o) [NewAddress; sync].
Proof.
  cbn zeta. assert (H : OutPoint.mk "a" 0 ∈ commits true demo_reserve demo_wallet) by (vm_compute; by left).
  split; [exact H|]. apply (committed_outputs_are_not_given_twice true demo_reserve _ demo_reserve demo_wallet _ H).
  vm_compute. by left.
Defined.

Example fee_rates_are_always_known_witness :
  exists cache, estimator_new = Ok cache /\
  exists rate, estimator_get Normal (fold_left (fun cache estimates => (estimator_update estimates cache).2)
    [Err "offline"%string; Ok (Estimates.mk 5 4 3 2 1)] cache) = Ok rate.
Proof. eexists. split; [reflexivity|]. by apply fee_rates_are_always_known. Defined.
