(* ===== verification/PositionFeed.v ===== *)
(** * The feed of the coordinator's position: [trade/websocket.rs]

    What a client of the position websocket is told: the coordinator's position when it
    authenticates, and every trade with the position after it. *)

From stdpp Require Import base list option strings.
From Stdlib Require Import ZArith Lia Floats.SpecFloat.
From S2P Require Import Prelude Machine Floats External Demo Commons SqlTypes Schema Db PositionsDb.
From S2P Require Import Signing DlcExecutor Node OrderEntry MaxQuantity.

#[local] Open Scope Z_scope.

(** [commons::PositionMessage]. *)
Module PositionMessage.
Inductive t :=
  | CurrentPosition (quantity average_entry_price : f32)
  | NewTrade (total_quantity total_average_entry_price new_trade_quantity new_trade_average_entry_price : f32)
  | Authenticated
  | InvalidAuthentication (error : string).
End PositionMessage.

(** [commons::PositionMessageRequest]. *)
Module PositionMessageRequest.
Inductive t `{SigningLib} := Authenticate (signature : Signature.t).
End PositionMessageRequest.

(** What the feed of a session yields. *)
Module FeedEvent.
Inductive t := Update (update : PositionUpdate.t) | Lagged (skip : Z) | Closed.
End FeedEvent.

(** A session: the database, whether the task that writes to the socket is alive, and
    what it was given to write. *)
Module PositionSession.
Record t := mk { database : Db.t; receiver_alive : bool; sent : list PositionMessage.t }.
End PositionSession.

Section PositionFeed.
Context `{DL : DecimalLib} `{IL : IdLib} `{SL : !SigningLib}.

Definition f32_div (x y : f32) : f32 := SFdiv 24 128 x y.

Definition average_entry_price (positions : list Position.t) : f32 :=
  match positions with
  | [] => f32_of_Z 0
  | [position] => Position.average_entry_price position
  | _ =>
    let sum_quantity := fold_left (fun acc m => f32_add acc (Position.quantity m)) positions (f32_of_Z 0) in
    let nominal_prices := fold_left (fun acc m =>
      f32_add acc (f32_div (Position.quantity m) (Position.average_entry_price m))) positions (f32_of_Z 0) in
    f32_div sum_quantity nominal_prices
  end.

(** A position's quantity, as the coordinator sees it. *)
Definition coordinator_quantity (pos : Position.t) : f32 :=
  if bool_decide (Position.trader_direction pos = Short) then Position.quantity pos
  else f32_mul (Position.quantity pos) (f32_of_Z (-1)).

(** The totals of the positions: the price and the quantity. *)
Definition position_stats (positions : list Position.t) : f32 * f32 :=
  (average_entry_price positions, fold_left f32_add (map coordinator_quantity positions) (f32_of_Z 0)).

Definition calculate_position_stats (d : Db.t) : outcome Anyhow (f32 * f32) * Db.t :=
  match get_all_open_positions d with
  | (Ok positions, d) => (Ok (position_stats positions), d)
  | (Err _, d) => (Ok (position_stats []), d)
  | (Panic, d) => (Panic, d)
  end.

Definition FeedM (A : Type) : Type := M PositionSession.t Anyhow A.
Definition position_stats_now : FeedM (f32 * f32) := fun s =>
  let '(r, d) := calculate_position_stats (PositionSession.database s) in
  (r, PositionSession.mk d (PositionSession.receiver_alive s) (PositionSession.sent s)).
(** [local_sender.send(message)]. *)
Definition send_position (message : PositionMessage.t) : FeedM unit := fun s =>
  if PositionSession.receiver_alive s then
    (Ok tt, PositionSession.mk (PositionSession.database s) true (PositionSession.sent s ++ [message]))
  else (Err (Msg "channel closed"), s).

(** An update of the feed; an error ends the task. *)
Definition process_update (event : FeedEvent.t) : FeedM unit :=
  match event with
  | FeedEvent.Update update =>
    '(total_average_entry_price, total_quantity) ← position_stats_now;
    send_position (PositionMessage.NewTrade total_quantity total_average_entry_price
      (PositionUpdate.quantity update) (PositionUpdate.average_entry_price update))
  | FeedEvent.Lagged _ => mret tt
  | FeedEvent.Closed => lift (Err (Msg "position feed sender died"))
  end.

(** A text from the client; one that is no request is ignored. *)
Definition process_position_request (request : option PositionMessageRequest.t) : FeedM unit :=
  match request with
  | Some (PositionMessageRequest.Authenticate signature) =>
    let msg := create_sign_message AUTH_SIGN_MESSAGE in
    if verify_ecdsa msg (Signature.signature signature) (Signature.pubkey signature) then
      send_position PositionMessage.Authenticated;;
      '(average_entry_price, total_quantity) ← position_stats_now;
      log_error (send_position (PositionMessage.CurrentPosition total_quantity average_entry_price))
    else send_position (PositionMessage.InvalidAuthentication "Could not authenticate")
  | None => mret tt
  end.

(** What happens in a session, in order: the feed's updates and the client's texts. *)
Definition position_session (events : list (FeedEvent.t + option PositionMessageRequest.t)) : FeedM unit :=
  for_each (fun event => match event with inl update => process_update update | inr request => process_position_request request end) events.
End PositionFeed.

(** ** The totals *)

Lemma f32_add_whole a b : f32_whole a -> f32_whole b -> f32_whole (a + b) ->
  f32_add (f32_of_Z a) (f32_of_Z b) = f32_of_Z (a + b).
Proof.
  intros Ha Hb Hab. unfold f32_add.
  destruct (decide (a = 0)) as [->|Ha0]; [destruct (decide (b = 0)) as [->|Hb0]; [done|]|].
  - rewrite Z.add_0_l. destruct (f32_of_Z_cases b Hb Hb0) as (s & n & _ & _ & ->). done.
  - destruct (f32_of_Z_cases a Ha Ha0) as (s & n & Hn & Hnb & Han). rewrite Han.
    destruct (decide (b = 0)) as [->|Hb0]; [by rewrite Z.add_0_r, Han|].
    destruct (f32_of_Z_cases b Hb Hb0) as (s' & n' & Hn' & Hnb' & ->). cbn [SFadd].
    pose proof (digits_small n Hnb). pose proof (digits_small n' Hnb').
    apply binary_normalize_exact; [done|lia|]. rewrite !align_whole by lia.
    rewrite Hn, Hn'. destruct s, s'; cbn; ring.
Qed.

(** Rounding a number that needs no alignment. *)
Lemma round_aux_unaligned s m e : 24 <= Z.pos (digits2_pos m) -> -100 < e ->
  binary_round_aux 24 128 s (Z.pos m) e loc_Exact = binary_round 24 128 s m e.
Proof.
  intros Hm He. unfold binary_round, shl_align.
  replace (fexp 24 128 (Z.pos (digits2_pos m) + e) - e) with (Z.pos (digits2_pos m) - 24)
    by (unfold fexp, emin; lia).
  by destruct (Z.pos (digits2_pos m) - 24) eqn:H; [| |lia].
Qed.

(** Seen from the other side, a quantity has the other sign. *)
Lemma f32_mul_minus_whole z : f32_whole z -> z <> 0 -> f32_mul (f32_of_Z z) (f32_of_Z (-1)) = f32_of_Z (- z).
Proof.
  intros Hz Hz0. rewrite <-f32_neg_whole by done.
  destruct (f32_of_Z_cases z Hz Hz0) as (s & n & -> & Hnb & ->).
  change (f32_of_Z (-1)) with (S754_finite true (2 ^ 23)%positive (-23)). unfold f32_mul. cbn [SFmul].
  pose proof (digits_small n Hnb) as Hd. pose proof (significand_spec n Hnb) as Hsig.
  assert (Hm : Z.pos (significand n * 2 ^ 23) = Z.pos n * 2 ^ (47 - Z.pos (digits2_pos n))).
  { rewrite Pos2Z.inj_mul, Hsig, Pos2Z.inj_pow, <-Z.mul_assoc. rewrite <-Z.pow_add_r by lia.
    do 2 f_equal. lia. }
  pose proof (digits_shift _ n (47 - Z.pos (digits2_pos n)) ltac:(lia) Hm).
  rewrite round_aux_unaligned by lia.
  rewrite (binary_round_exact _ _ _ n) by (lia || (rewrite Hm; do 2 f_equal; lia)).
  by destruct s.
Qed.

(** The positions' quantities are whole numbers of contracts, few enough in all for an
    [f32] to hold every partial sum. *)
Definition whole_positions `{IdLib} (positions : list Position.t) (quantities : list Z) : Prop :=
  Forall2 (fun position q => Position.quantity position = f32_of_Z q /\ q <> 0) positions quantities /\
  f32_whole (foldr (fun q total => Z.abs q + total) 0 quantities).
(** The coordinator's contracts: what short traders hold less what long traders hold. *)
Fixpoint signed_total `{IdLib} (positions : list Position.t) (quantities : list Z) : Z :=
  match positions, quantities with
  | position :: positions, q :: quantities =>
    (if bool_decide (Position.trader_direction position = Short) then q else - q) + signed_total positions quantities
  | _, _ => 0
  end.

Lemma sum_whole `{IdLib} positions quantities acc :
  Forall2 (fun position q => Position.quantity position = f32_of_Z q /\ q <> 0) positions quantities ->
  f32_whole (Z.abs acc + foldr (fun q total => Z.abs q + total) 0 quantities) ->
  fold_left f32_add (map coordinator_quantity positions) (f32_of_Z acc) = f32_of_Z (acc + signed_total positions quantities).
Proof.
  intros Hall. revert acc. induction Hall as [|position q positions quantities [Hq Hq0] Hall IH]; intros acc Hsum;
    cbn [fold_left map foldr signed_total] in *; [by rewrite Z.add_0_r|].
  assert (0 <= foldr (fun q total => Z.abs q + total) 0 quantities) by (clear; induction quantities; cbn; lia).
  unfold f32_whole in *.
  set (v := if bool_decide (Position.trader_direction position = Short) then q else - q).
  assert (coordinator_quantity position = f32_of_Z v) as ->.
  { unfold coordinator_quantity, v. rewrite Hq. case_bool_decide; [done|]. apply f32_mul_minus_whole; [unfold f32_whole; lia|done]. }
  assert (Z.abs v = Z.abs q) by (unfold v; case_bool_decide; lia).
  rewrite f32_add_whole by (unfold f32_whole; lia). rewrite IH by lia. f_equal. lia.
Qed.

(** The total a client is told is exact: with whole quantities that an [f32] can hold, it is
    what the traders that are short hold less what those that are long hold. *)
Theorem position_total_is_exact `{IdLib} positions quantities : whole_positions positions quantities ->
  (position_stats positions).2 = f32_of_Z (signed_total positions quantities).
Proof. intros [Hall Hsum]. exact (sum_whole positions quantities 0 Hall Hsum). Qed.

Definition demo_feed_positions : list (@Position.t demo_id) :=
  let position direction price := Position.mk 1 "alice" BtcUsd (f32_of_Z 1000) direction price None None (f32_of_Z 1) (f32_of_Z 1)
    250000 250000 (f32_of_Z 2) (f32_of_Z 2) PositionState.Open 0 0 0 0 None false in
  [position Long (f32_of_Z 50000); position Short (f32_of_Z 25000)].

Example position_total_is_exact_witness :
  whole_positions demo_feed_positions [1000; 1000] /\ (position_stats demo_feed_positions).2 = f32_of_Z 0.
Proof.
  assert (Hw : whole_positions demo_feed_positions [1000; 1000]).
  { split; [|by cbv]. by repeat constructor. }
  split; [done|]. apply (position_total_is_exact _ _ Hw).
Defined.

(** The price is the average over all positions, whichever side they are on: two positions
    that cancel out are said to have been entered between their prices. *)
Example average_ignores_sides :
  let price := (position_stats demo_feed_positions).1 in
  (SFltb (f32_of_Z 33333) price, SFltb price (f32_of_Z 33334)) = (true, true).
Proof. by vm_compute. Qed.

(** A client is told of trades before it authenticates; one whose signature does not verify
    is told so, and still gets the trades. *)
Example trades_go_to_any_client :
  let trade := PositionUpdate.mk (f32_of_Z 100) (f32_of_Z 20000) in
  let wrong := Signature.mk "bob" ((create_sign_message [], "bob") : SecpSignature (SigningLib := demo_signing)) in
  let s := PositionSession.mk (demo_positions DbPositionState.Open) true [] in
  PositionSession.sent (position_session [inl (FeedEvent.Update trade);
    inr (Some (PositionMessageRequest.Authenticate wrong));
    inl (FeedEvent.Update trade)] s).2 =
  let told := PositionMessage.NewTrade (f32_of_Z (-100)) (f32_of_Z 20000) (f32_of_Z 100) (f32_of_Z 20000) in
  [told; PositionMessage.InvalidAuthentication "Could not authenticate"; told].
Proof. by vm_compute. Qed.
