(* ===== verification/Admin.v ===== *)
(** * The remaining routes and the jobs of the coordinator

    What operators, users and the scheduler ask of the modelled parts:
    [routes/admin.rs], the users' and polls' routes of [routes.rs], [scheduler.rs],
    [emergency_kit.rs], [campaign.rs]. *)

From stdpp Require Import base list option strings.
From Stdlib Require Import ZArith QArith Lia.
From S2P Require Import Prelude Machine External Demo Commons Rollover PayoutCurve SqlTypes Schema Db OrdersDb MatchesDb.
From S2P Require Import Referrals Trading PositionsDb FundingDb Funding Messages ProtocolDb ChannelsDb StorageDb Delivery.
From S2P Require Import DlcExecutor Node DemoDlc DlcPeer CoordinatorNode CoordinatorChannels NodeRollover Signing OrderEntry MaxQuantity.

#[local] Open Scope Z_scope.

(** An error as the route reports it. *)
Definition internal {S A} (text : string) (m : M S Anyhow A) : M S AppError A := with_err (fun _ => InternalServerError text) m.
Definition bad_request {S A} (text : string) (m : M S Anyhow A) : M S AppError A := with_err (fun _ => BadRequest text) m.

(** ** Users and polls ([routes.rs]) *)

Module RegisterParams.
Record t `{IdLib} := mk {
  pubkey : PublicKey;
  contact : option string;
  nickname : option string;
  version : option string;
  os : option string;
  referral_code : option string;
}.
#[global] Arguments mk {_}.
End RegisterParams.

(** [commons::User]. *)
Module User.
Record t `{IdLib} := mk {
  pubkey : PublicKey;
  contact : option string;
  nickname : option string;
  referral_code : string;
}.
#[global] Arguments mk {_}.
End User.

Section Users.
Context `{IL : IdLib} (now : OffsetDateTime).

Definition post_register (params : RegisterParams.t) : M Db.t AppError unit :=
  _ ← internal "Could not upsert user" (with_err FromSql (upsert_user now (RegisterParams.pubkey params)
        (RegisterParams.contact params) (RegisterParams.nickname params) (RegisterParams.version params)
        (RegisterParams.os params) (RegisterParams.referral_code params)));
  mret tt.
Definition put_nickname (pubkey : PublicKey) (nickname : option string) : M Db.t AppError unit :=
  internal "Could not update nickname" (with_err FromSql (update_nickname pubkey nickname)).

(** [impl TryFrom<User> for commons::User]; an empty contact is none. *)
Definition user_try_from (value : UserRow.t) : outcome AppError User.t :=
  pubkey ← ok_or (InternalServerError "Could not parse user pubkey") (pk_from_str (UserRow.pubkey value));
  let contact := UserRow.contact value in
  Ok (User.mk pubkey (if bool_decide (contact = EmptyString) then None else Some contact)
        (UserRow.nickname value) (UserRow.referral_code value)).
(** The route [get_user]. *)
Definition get_user_by_id (trader_pubkey : string) : M Db.t AppError User.t :=
  trader_pubkey ← lift (ok_or (BadRequest "Invalid trader id provided") (pk_from_str trader_pubkey));
  user ← internal "Could not load users" (with_err FromSql (Referrals.get_user trader_pubkey));
  user ← lift (ok_or (BadRequest "No user found") user);
  lift (user_try_from user).

Definition get_polls (node_id : string) : M Db.t AppError (list Poll.t) :=
  node_id ← lift (ok_or (BadRequest "Invalid node id provided.") (pk_from_str node_id));
  internal "Could not fetch new polls" (with_err FromSql (active_polls node_id)).
Definition post_poll_answer (poll_answer : PollAnswers.t) : M Db.t AppError unit :=
  internal "Could not save answer in db" (add_answer now poll_answer).
End Users.

(** ** Referrals, rates and campaigns *)

Section Rates.
Context `{DL : DecimalLib} `{TL : TimeLib} `{IL : IdLib} `{AL : AddressLib} (now : OffsetDateTime).

Definition get_user_referral_status (trader_pubkey : string) : M Db.t AppError ReferralStatus.t :=
  trader_pubkey ← lift (ok_or (BadRequest "Invalid trader id provided") (pk_from_str trader_pubkey));
  internal "Could not calculate referral state" (get_referral_status now trader_pubkey).

(** Rate, start and end; the rate that is next is put on the feed. *)
Definition post_funding_rates (funding_rates : list (Decimal * OffsetDateTime * OffsetDateTime))
    : M Db.t AppError (option FundingRate.t) :=
  funding_rates ← lift (traverse (fun '(rate, start_date, end_date) => funding_rate_new rate start_date end_date) funding_rates);
  bad_request "funding rates" (insert_funding_rates_and_notify now funding_rates).

(** Nothing is sent unless the dry run is switched off. *)
Definition post_push_campaign (node_ids : list PublicKey) (title message : string) (dry_run : option bool)
    : M Delivery.t AppError unit :=
  if default true dry_run then mret tt
  else internal "Failed to send push notifications" (send_notification (Notification.mk node_ids (Custom title message))).
End Rates.

(** ** Channels ([routes/admin.rs]) *)

(** Deleting and replacing a channel in the store of [rust-dlc]; the reference id of a
    signed channel and the state it can be rolled back to. *)
Class AdminDlcLib `{DLC : DlcLib} := {
  delete_dlc_store_channel : DlcChannelId -> M DlcState string unit;
  upsert_signed_channel : SignedChannel.t -> M DlcState string unit;
  roll_back_state : SignedChannel.t -> option SignedChannelState;
  signed_reference_id : SignedChannel.t -> option ReferenceId;
}.

Section AdminChannels.
Context `{DL : DecimalLib} `{BL : BitcoinLib} `{IL : IdLib} `{DLC : !DlcLib} `{ML : !DlcMessagesLib}.
Context `{TX : TxidLib} `{TL : !ChannelTxLib} `{TM : TimeLib} `{AD : !AdminDlcLib}.

Definition parse_dlc_channel_id (channel_id : string) : outcome AppError DlcChannelId :=
  ok_or (BadRequest "Provided channel ID was invalid") (hex_decode channel_id).

(** [get_balance]: on chain and in channels. *)
Definition get_balance (onchain : OnChainBalance.t) : M NodeState.t AppError (Z * Z) :=
  dlc_channel ← internal "Failed getting dlc channel balance" get_dlc_channels_usable_balance;
  mret (OnChainBalance.confirmed onchain, dlc_channel).

Definition close_channel (now : OffsetDateTime) (protocol_id : ProtocolId) (channel_id : string) (force : option bool)
    : M Coordinator.t AppError unit :=
  channel_id ← lift (parse_dlc_channel_id channel_id);
  internal "close channel"
    (if default false force then c_force_close_dlc_channel protocol_id channel_id
     else c_close_dlc_channel now protocol_id channel_id).

Definition unconfirmed {S} : M S AppError unit :=
  throw (BadRequest "Looks like you don't know what you are doing! Go and ask your supervisor for help!").
Definition delete_dlc_channel (channel_id : string) (i_know_what_i_am_doing : option bool) : M Coordinator.t AppError unit :=
  if negb (default false i_know_what_i_am_doing) then unconfirmed
  else
    channel_id ← lift (parse_dlc_channel_id channel_id);
    internal "Could not delete dlc_channel" (c_dlc (delete_dlc_store_channel channel_id)).

(** [roll_back_channel] of the node library and the route. *)
Definition with_channel_state (state : SignedChannelState) (c : SignedChannel.t) : SignedChannel.t :=
  SignedChannel.mk (SignedChannel.channel_id c) (SignedChannel.counter_party c) state
    (SignedChannel.own_collateral c) (SignedChannel.counter_collateral c).
Definition roll_back_channel (signed_channel : SignedChannel.t) : NodeM unit :=
  state ← try (ok_or "Missing rollback state"%string (roll_back_state signed_channel));
  on_dlc (upsert_signed_channel (with_channel_state state signed_channel)).
Definition roll_back_dlc_channel (channel_id : string) (i_know_what_i_am_doing : option bool) : M Coordinator.t AppError unit :=
  if negb (default false i_know_what_i_am_doing) then unconfirmed
  else
    channel_id ← lift (parse_dlc_channel_id channel_id);
    channel ← bad_request "Couldn't find channel." (c_node (get_dlc_channel_by_id channel_id));
    match Channel.kind channel with
    | Signed signed_channel => internal "Failed to roll back channel." (c_node (roll_back_channel signed_channel))
    | _ => throw (BadRequest "It's only possible to rollback a channel in state signed")
    end.

Definition get_position_by_channel_id (dlc_channel_id : DlcChannelId) : NodeM Position.t :=
  dlc_channels ← list_dlc_channels;
  channel ← try (ok_or "DLC Channel not found"%string
    (List.find (fun channel => bool_decide (Channel.get_id channel = dlc_channel_id)) dlc_channels));
  position ← on_db (with_err FromSql (get_position_by_trader (Channel.get_counter_party_id channel) []));
  try (ok_or "Position for channel not found"%string position).

(** The route [rollover]: in whatever window it is called. *)
Definition admin_rollover (env : RolloverEnv.t) (dlc_channel_id : string) : M NodeState.t AppError unit :=
  dlc_channel_id ← lift (ok_or (InternalServerError "Could not decode DLC channel ID") (hex_decode dlc_channel_id));
  position ← bad_request "Could not find position for channel" (get_position_by_channel_id dlc_channel_id);
  internal "Failed to rollover DLC channel" (propose_rollover env dlc_channel_id position (RolloverEnv.network env)).

(** [migrate_dlc_channels], one channel; [new_id] is the id that is drawn for a channel
    without a protocol.  The transactions are those of the channel's state. *)
Definition as_channel (c : SignedChannel.t) : Channel.t :=
  Channel.mk (Signed c) (SignedChannel.channel_id c) (SignedChannel.counter_party c) (signed_reference_id c) None.
Definition migrate_closing (now : OffsetDateTime) (channel : SignedChannel.t) : CoordinatorM unit :=
  match SignedChannel.state channel with
  | ClosingState =>
    c_execute (set_channel_force_closing now (SignedChannel.channel_id channel) (buffer_transaction_txid (as_channel channel)))
  | SettledClosingState =>
    c_execute (set_channel_force_closing_settled now (SignedChannel.channel_id channel)
      (settle_transaction_txid (as_channel channel)) None)
  | CollaborativeCloseOffered _ =>
    c_execute (set_channel_collab_closing now (SignedChannel.channel_id channel) (close_tx_txid (as_channel channel)))
  | _ => mret tt
  end.
Definition migrate_dlc_channel (now : OffsetDateTime) (new_id : ProtocolId) (channel : SignedChannel.t) : CoordinatorM unit :=
  let channel_id := SignedChannel.channel_id channel in
  coordinator_reserve ← c_node (get_dlc_channel_usable_balance channel_id);
  trader_reserve ← c_node (get_dlc_channel_usable_balance_counterparty channel_id);
  protocol_id ← c_try (match signed_reference_id channel with
    | Some reference_id => protocol_id_try_from reference_id
    | None => Ok new_id
    end);
  c_execute (insert_pending_dlc_channel now protocol_id channel_id (SignedChannel.counter_party channel));;
  c_execute (set_dlc_channel_open now protocol_id channel_id (fund_tx_txid channel) coordinator_reserve trader_reserve
    (SignedChannel.own_collateral channel) (SignedChannel.counter_collateral channel));;
  migrate_closing now channel.
(** All signed channels; the first error ends it, what was migrated stays. *)
Definition migrate_dlc_channels (now : OffsetDateTime) (new_ids : SignedChannel.t -> ProtocolId) : M Coordinator.t AppError unit :=
  internal "migrate"
    (channels ← c_node list_signed_dlc_channels;
     for_each (fun channel => migrate_dlc_channel now (new_ids channel) channel) channels).
End AdminChannels.

(** ** [emergency_kit.rs] *)

(** The seed of the secrets a party reveals, and the wallet's key for it. *)
Class EmergencyLib `{DLC : DlcLib} `{ML : DlcMessagesLib} := {
  PerUpdateSeed : Type;
  RevealedSecret : Type;
  own_per_update_seed : SignedChannel.t -> outcome string PerUpdateSeed;   (* [get_secret_key_for_pubkey] of it *)
  update_idx : SignedChannel.t -> Z;
  build_commitment_secret : PerUpdateSeed -> Z -> outcome string RevealedSecret;
  revoke_message : DlcChannelId -> RevealedSecret -> SignedChannel.t -> payload PRenewRevoke;
  settle_finalize_message : DlcChannelId -> RevealedSecret -> SignedChannel.t -> payload PSettleFinalize;
}.

Section Emergency.
Context `{DL : DecimalLib} `{IL : IdLib} `{DLC : !DlcLib} `{ML : !DlcMessagesLib} `{EL : !EmergencyLib}.

(** The secret of the previous update. *)
Definition prev_per_update_secret (signed_channel : SignedChannel.t) : outcome string RevealedSecret :=
  per_update_seed ← own_per_update_seed signed_channel;
  index ← u64_add (update_idx signed_channel) 1;
  build_commitment_secret per_update_seed index.

(** The message is for the order that was taken last. *)
Definition resend_renew_revoke_message_internal (trader : PublicKey) : CoordinatorM unit :=
  signed_channel ← c_node (get_signed_channel_by_trader_id trader);
  prev_per_update_secret ← c_try (prev_per_update_secret signed_channel);
  order ← c_query (get_by_trader_id_and_state trader OrderState.Taken);
  order ← c_try (ok_or "Couldn't find last order in state taken."%string order);
  c_publish (PeerEvent.SendDlcMessage trader (TenTenOneMessage.RenewRevoke (TenTenOneRenewRevoke.mk (Order.id order)
    (revoke_message (SignedChannel.channel_id signed_channel) prev_per_update_secret signed_channel)))).
Definition resend_renew_revoke_message (trader_pubkey : string) : M Coordinator.t AppError unit :=
  trader ← lift (ok_or (BadRequest "Invalid public key") (pk_from_str trader_pubkey));
  internal "Failed to resend renew revoke message" (resend_renew_revoke_message_internal trader).
End Emergency.

(** ** [scheduler.rs] *)

(** An error is logged. *)
Definition logged {S E F A} (m : M S E A) : M S F unit := fun s =>
  match m s with
  | (Ok _, s') | (Err _, s') => (Ok tt, s')
  | (Panic, s') => (Panic, s')
  end.
(** [match m { Ok(a) => body, Err(e) => log }]. *)
Definition logged_or {S E F A} (m : M S E A) (body : A -> M S F unit) : M S F unit := fun s =>
  match m s with
  | (Ok a, s') => body a s'
  | (Err _, s') => (Ok tt, s')
  | (Panic, s') => (Panic, s')
  end.

Section Jobs.
Context `{DL : DecimalLib} `{BL : BitcoinLib} `{IL : IdLib} `{TL : TimeLib} `{SL : SemverLib} `{DLC : !DlcLib}.

(** [build_rollover_notification_job]. *)
Definition rollover_notification_job (env : RolloverEnv.t) (network : Network) (notification : NotificationKind) : NodeM unit :=
  let now := RolloverEnv.now env in
  if negb (is_eligible_for_rollover now now network) then mret tt
  else
    expiry ← lift (calculate_next_expiry now now network);
    logged_or (on_db (with_err FromSql (get_all_open_positions_with_expiry_before expiry)))
      (for_each (fun position =>
         logged (check_rollover env position (RolloverEnv.network env) (Some notification)))).

(** [build_update_bonus_status_job]. *)
Definition update_bonus_status_job (now : OffsetDateTime) : M Db.t Anyhow unit := logged (E := Anyhow) (update_referral_status now).

(** [build_remind_to_close_expired_position_notification_job] and the one for liquidated
    positions. *)
Definition remind_traders (order_reasons : list OrderReason.t) (kind : NotificationKind) : NodeM unit :=
  logged_or (on_db (with_err FromSql (get_all_matched_market_orders_by_order_reason order_reasons)))
    (for_each (fun order => send (Sent.Notification (Order.trader_id order) kind))).
Definition remind_to_close_expired_position : NodeM unit := remind_traders [OrderReason.Expired] PositionExpired.
Definition remind_to_close_liquidated_position : NodeM unit :=
  remind_traders [OrderReason.TraderLiquidated; OrderReason.CoordinatorLiquidated]
    (Custom "Pending liquidation 💸" "Open your app to execute the liquidation ").
End Jobs.

(** ** Who is reminded *)

Section Reminders.
Context `{DL : DecimalLib} `{BL : BitcoinLib} `{IL : IdLib} `{TL : TimeLib} `{SL : SemverLib} `{DLC : !DlcLib}.

Definition has_signed_channel (dlc : DlcState) (trader : PublicKey) : bool :=
  match store_signed_channels dlc with
  | Ok channels => existsb (is_counter_party trader) channels
  | _ => false
  end.
(** The notifications for the positions that are not over, of traders with a channel. *)
Definition reminders (now : OffsetDateTime) (dlc : DlcState) (kind : NotificationKind) (positions : list Position.t) : list Sent.t :=
  map (fun position => Sent.Notification (Position.trader position) kind)
    (List.filter (fun position => has_signed_channel dlc (Position.trader position) && (now <? Position.expiry_timestamp position)) positions).

Lemma check_rollover_offline env network next_expiry position kind (s : NodeState.t) channels :
  store_signed_channels (NodeState.dlc s) = Ok channels ->
  (forall pk, RolloverEnv.is_connected env pk = false) ->
  is_eligible_for_rollover (RolloverEnv.now env) (RolloverEnv.now env) network = true ->
  calculate_next_expiry (E := Anyhow) (RolloverEnv.now env) (RolloverEnv.now env) network = Ok next_expiry ->
  Position.expiry_timestamp position < next_expiry ->
  logged (check_rollover env position network (Some kind)) s =
  (Ok tt : outcome Anyhow unit, NodeState.mk (NodeState.db s) (NodeState.dlc s) (NodeState.events s)
    (NodeState.sent s ++ reminders (RolloverEnv.now env) (NodeState.dlc s) kind [position])).
Proof using Type.
  intros Hch Hoff Hel Hnext Hexp. unfold logged, check_rollover, reminders, has_signed_channel.
  unfold get_signed_channel_by_trader_id, list_signed_dlc_channels, read_dlc, try.
  unfold mbind, M_bind. rewrite Hch. cbn [map_err List.filter].
  assert (existsb (is_counter_party (Position.trader position)) channels =
    match List.find (is_counter_party (Position.trader position)) channels with Some _ => true | None => false end) as ->.
  { clear. induction channels as [|c l IH]; [done|]. cbn. by destruct (is_counter_party _ c). }
  destruct (List.find _ channels) as [c|]; cbn [ok_or map_err lift andb].
  2:{ cbn [map]. rewrite app_nil_r. by destruct s. }
  rewrite Hel. cbn [andb]. destruct (RolloverEnv.now env <? Position.expiry_timestamp position); cbn [map].
  2:{ rewrite app_nil_r. by destruct s. }
  unfold lift. rewrite Hnext. destruct (Z.leb_spec next_expiry (Position.expiry_timestamp position)); [lia|].
  unfold send. cbn [mret M_ret]. rewrite Hoff. reflexivity.
Qed.

Lemma checks_offline env network next_expiry positions kind (s : NodeState.t) channels :
  store_signed_channels (NodeState.dlc s) = Ok channels ->
  (forall pk, RolloverEnv.is_connected env pk = false) ->
  is_eligible_for_rollover (RolloverEnv.now env) (RolloverEnv.now env) network = true ->
  calculate_next_expiry (E := Anyhow) (RolloverEnv.now env) (RolloverEnv.now env) network = Ok next_expiry ->
  Forall (fun p => Position.expiry_timestamp p < next_expiry) positions ->
  for_each (fun position => logged (check_rollover env position network (Some kind))) positions s =
  (Ok tt : outcome Anyhow unit, NodeState.mk (NodeState.db s) (NodeState.dlc s) (NodeState.events s)
    (NodeState.sent s ++ reminders (RolloverEnv.now env) (NodeState.dlc s) kind positions)).
Proof using Type.
  intros Hch Hoff Hel Hnext Hall. revert s Hch. induction Hall as [|p positions Hp _ IH]; intros s Hch; cbn [for_each].
  { unfold reminders. cbn. rewrite app_nil_r. by destruct s. }
  unfold mbind, M_bind. rewrite (check_rollover_offline env network next_expiry p kind s channels) by done.
  rewrite IH by done. cbn. f_equal. f_equal. rewrite <-app_assoc. f_equal. unfold reminders. cbn.
  by destruct (has_signed_channel _ _ && _).
Qed.

Lemma loaded_positions_expire expiry d positions d' :
  get_all_open_positions_with_expiry_before expiry d = (Ok positions, d') ->
  d' = d /\ Forall (fun p => Position.expiry_timestamp p < expiry) positions.
Proof using Type.
  intros (rows' & d1 & Hload & Hrows)%M_bind_ok. rewrite load_run in Hload. injection Hload as <- <-.
  apply lift_ok in Hrows as [Hrows ->]. split; [done|]. apply traverse_ok in Hrows.
  apply Forall_forall. intros p Hp. apply list_elem_of_lookup in Hp as [i Hi].
  destruct (Forall2_lookup_r _ _ _ _ _ Hrows Hi) as (r & Hr & Hfrom).
  apply list_elem_of_lookup_2, list_elem_of_In, filter_In in Hr as [_ Hr]. apply andb_true_iff in Hr as [_ Hr%Z.ltb_lt].
  unfold position_from_row in Hfrom. inv_ok. by subst p.
Qed.

(** Inside the rollover window every trader who is not there to roll over is reminded:
    whose open position ends before the next expiry and is not over, and who still has a
    channel; nothing else is touched.  A trader without a channel keeps nobody else from
    being reminded.  Outside the window nothing happens. *)
Theorem rollover_window_reminds env network next_expiry kind positions d (s : NodeState.t) channels :
  store_signed_channels (NodeState.dlc s) = Ok channels ->
  (forall pk, RolloverEnv.is_connected env pk = false) -> RolloverEnv.network env = network ->
  calculate_next_expiry (E := Anyhow) (RolloverEnv.now env) (RolloverEnv.now env) network = Ok next_expiry ->
  get_all_open_positions_with_expiry_before next_expiry (NodeState.db s) = (Ok positions, d) ->
  rollover_notification_job env network kind s =
  (Ok tt, NodeState.mk (NodeState.db s) (NodeState.dlc s) (NodeState.events s)
    (NodeState.sent s ++
       if is_eligible_for_rollover (RolloverEnv.now env) (RolloverEnv.now env) network
       then reminders (RolloverEnv.now env) (NodeState.dlc s) kind positions else [])).
Proof using Type.
  intros Hch Hoff Hnet Hnext Hload. pose proof (loaded_positions_expire _ _ _ _ Hload) as [-> Hall].
  unfold rollover_notification_job. destruct (is_eligible_for_rollover _ _ network) eqn:Hel; cbn [negb].
  2:{ rewrite app_nil_r. by destruct s. }
  unfold mbind, M_bind, lift. rewrite Hnext. unfold logged_or, on_db, with_err. rewrite Hload. cbn [map_err].
  rewrite Hnet.
  by apply (checks_offline env network next_expiry positions kind
    (NodeState.mk (NodeState.db s) (NodeState.dlc s) (NodeState.events s) (NodeState.sent s)) channels).
Qed.
End Reminders.

(** ** A user who registered *)

Section Registered.
Context `{ILaws : IdLaws}.

Lemma bonus_status_keeps_users now pk level type : steps (keeps UserRow.t) (bonus_status_insert now pk level type).
Proof using Type. unfold bonus_status_insert, active_status_for_user, tier_by_tier_level. solve_steps. Qed.
Lemma reward_keeps_users now pk code : steps (keeps UserRow.t) (reward_referral now pk code).
Proof using Type.
  intros d. unfold reward_referral, get_user_for_referral. rewrite optional_first_run. destruct (head _); [|done].
  assert (steps (keeps UserRow.t) (bonus_tiers ← all_active_by_type [DbBonusType.Referent];
     bonus_tier ← lift (expect (head bonus_tiers));
     _ ← bonus_status_insert now pk (BonusTierRow.tier_level bonus_tier) DbBonusType.Referent; mret tt)) as Hsteps; [|apply Hsteps].
  pose proof bonus_status_keeps_users. unfold all_active_by_type. solve_steps.
Qed.

Lemma head_filter_update {R} (p : R -> bool) (f : R -> R) l : (forall x, p (f x) = p x) ->
  head (List.filter p (update_rows p f l)) = f <$> head (List.filter p l).
Proof using Type.
  intros Hp. induction l as [|x l IH]; [done|]. cbn. destruct (p x) eqn:Hx; cbn; [by rewrite Hp, Hx|by rewrite Hx].
Qed.

(** Who registered is a user with the contact and nickname that were given, and with
    the referral code of the public key, unless there was one already. *)
Theorem registered_user_reads_back now (params : RegisterParams.t) (d d' : Db.t) u :
  post_register now params d = (Ok u, d') ->
  exists referral_code,
    get_user_by_id (pk_to_string (RegisterParams.pubkey params)) d' =
      (Ok (User.mk (RegisterParams.pubkey params)
        (match RegisterParams.contact params with Some EmptyString => None | contact => contact end)
        (RegisterParams.nickname params) referral_code), d') /\
    (List.filter (fun u => bool_decide (UserRow.pubkey u = pk_to_string (RegisterParams.pubkey params))) (rows d) = [] ->
      referral_code = generated_referral_code (pk_to_string (RegisterParams.pubkey params))).
Proof using ILaws.
  intros (user & d2 & Hups%with_err_ok%with_err_ok & [= <- <-])%M_bind_ok. unfold upsert_user in Hups.
  apply M_bind_ok in Hups as (row & d1 & Hups & Hreward). apply M_bind_ok in Hreward as (v & d3 & Hreward & [= <- <-]).
  assert (rows (R := UserRow.t) d3 = rows d1) as Hrows.
  { destruct (RegisterParams.referral_code params) as [code|]; [|by injection Hreward as _ <-].
    pose proof (reward_keeps_users now (RegisterParams.pubkey params) code d1) as Hk. rewrite Hreward in Hk. exact Hk. }
  set (p := fun u : UserRow.t => bool_decide (UserRow.pubkey u = pk_to_string (RegisterParams.pubkey params))) in *.
  assert (head (List.filter p (rows d1)) = Some row /\
    UserRow.contact row = default EmptyString (RegisterParams.contact params) /\
    UserRow.nickname row = RegisterParams.nickname params /\ p row = true /\
    (List.filter p (rows d) = [] -> UserRow.referral_code row = generated_referral_code (pk_to_string (RegisterParams.pubkey params)))) as
    (Hhead & Hcontact & Hnick & Hkey & Hcode).
  { unfold upsert in Hups. destruct (head (List.filter p (rows d))) as [r|] eqn:Hr.
    - injection Hups as <- <-.
      assert (p r = true) as Hpr by (apply head_Some_elem_of, list_elem_of_In, filter_In in Hr; tauto).
      split; [|split; [done|]; split; [done|]; split; [exact Hpr|]; intros Hnil; by rewrite Hnil in Hr].
      etrans; [apply (head_filter_update p); by intros|]. by rewrite Hr.
    - apply insert_ok in Hups as (-> & _ & ->).
      assert (p (new_user (RegisterParams.pubkey params) (default EmptyString (RegisterParams.contact params)) now EmptyString
        (RegisterParams.nickname params) (RegisterParams.version params) (RegisterParams.referral_code params)
        (RegisterParams.os params) (Table.next_id (tbl d))) = true) as Hpn by (by apply bool_decide_eq_true).
      split; [|done]. apply head_filter_app_none; [|exact Hpn].
      by destruct (List.filter p (rows d)). }
  exists (UserRow.referral_code row). split; [|done].
  unfold get_user_by_id. rewrite pk_roundtrip. cbn [ok_or]. unfold mbind, M_bind, lift, internal, with_err, Referrals.get_user.
  rewrite optional_first_run, Hrows. fold p. rewrite Hhead. cbn [map_err ok_or]. unfold user_try_from.
  apply bool_decide_eq_true in Hkey. rewrite Hkey, pk_roundtrip, Hcontact, Hnick. cbn.
  by destruct (RegisterParams.contact params) as [[|]|].
Qed.
End Registered.
