(* ===== verification/AppEmergency.v ===== *)
(** * The app's emergency kit: [mobile/native/src/emergency_kit.rs]

    What a trader whose trade got stuck can have the app do: give up the orders in
    filling, delete a channel or a position, make the position anew from the channel
    and the last failed order, send the end of a settlement again. *)

From stdpp Require Import base list option strings.
From Stdlib Require Import ZArith Lia.
From S2P Require Import Prelude Machine External Commons Cfd PayoutCurve AppData SqlTypes Schema Db Messages Feed.
From S2P Require Import AppSql AppDb AppHandlers Node DemoDlc DlcPeer AppNode MaxQuantity Admin.

#[local] Open Scope Z_scope.

(** What the accepting party put into an accepted contract. *)
Class AcceptedLib `{DLC : DlcLib} := { accept_params_collateral : Contract ContractDescriptor -> Z }.

Section EmergencyKit.
Context `{DL : DecimalLib} `{BL : BitcoinLib} `{IL : IdLib} `{DLC : !DlcLib} `{ML : !DlcMessagesLib}.
Context `{AD : !AdminDlcLib} `{EL : !EmergencyLib} `{CL : !AcceptedLib}.
Context (now : OffsetDateTime) (coordinator : PublicKey) (config : option f32).

Definition set_filling_orders_to_failed : AppNodeM unit := on_app (stored AppOrders.set_all_filling_orders_to_failed).

Definition app_delete_dlc_channel (dlc_channel_id : string) : AppNodeM unit :=
  dlc_channel_id ← try_lib (ok_or "invalid id"%string (hex_decode dlc_channel_id));
  on_dlc_store (delete_dlc_store_channel dlc_channel_id).

Definition delete_position : AppNodeM unit :=
  on_app (stored db.delete_positions);;
  on_app (AppHandlers.publish (EventInternal.PositionCloseNotification BtcUsd)).

(** The trader's margin in the contract and its end. *)
Definition margin_and_expiry (channel : SignedChannel.t) (contract : Contract ContractDescriptor) : AppNodeM (Z * OffsetDateTime) :=
  match contract with
  | SignedContract offered_contract | ConfirmedContract offered_contract =>
    trader_reserve ← on_node (get_dlc_channel_usable_balance (SignedChannel.channel_id channel));
    contract_info ← try_lib (ok_or "missing contract info"%string (head (OfferedContract.contract_info offered_contract)));
    oracle_announcement ← try_lib (ok_or "missing oracle info"%string (head (ContractInfo.oracle_announcements contract_info)));
    expiry_timestamp ← try_lib (ok_or "component range"%string
      (from_unix_timestamp (OracleAnnouncement.event_maturity_epoch oracle_announcement)));
    collateral ← lift (u64_sub (accept_params_collateral contract) trader_reserve);
    mret (collateral, expiry_timestamp)
  | _ => throw (Msg "Contract in unexpected state")
  end.

Definition recreate_position : AppNodeM unit :=
  channel ← on_node (get_signed_channel_by_trader_id coordinator);
  contract_id ← try_lib (match SignedChannel.state channel with
    | Established signed_contract_id => Ok signed_contract_id
    | _ => Err "A position can only be recreated from an established signed channel state"%string
    end);
  positions ← on_app (stored db.get_positions);
  try_lib (ensure (bool_decide (head positions = None)) "Can't recreate a position if there is already a position"%string);;
  order ← on_app (stored db.get_last_failed_order);
  order ← try_lib (ok_or "Couldn't find last failed order!"%string order);
  average_entry_price ← try_lib (ok_or "Missing execution price"%string (order_execution_price order));
  contract ← on_node (get_contract_by_id contract_id);
  contract ← try_lib (ok_or "Missing contract"%string contract);
  '(collateral, expiry) ← margin_and_expiry channel contract;
  maintenance_margin_rate ← try_lib (get_maintenance_margin_rate config);
  liquidation_price ← try_lib (app_calculate_liquidation_price average_entry_price (AppOrder.leverage order)
    (AppOrder.direction order) maintenance_margin_rate);
  let position := AppPosition.mk (AppOrder.leverage order) (AppOrder.quantity order) (AppOrder.contract_symbol order)
    (AppOrder.direction order) average_entry_price liquidation_price AppPositionState.Open collateral expiry now now false
    (default 0 (order_known_matching_fee order)) in
  _ ← on_app (stored (db.insert_position now position));
  on_app (AppHandlers.publish (EventInternal.PositionUpdateNotification position)).

Definition resend_settle_finalize_message : AppNodeM unit :=
  signed_channel ← on_node (get_signed_channel_by_trader_id coordinator);
  try_lib (ensure (match SignedChannel.state signed_channel with Settled _ _ => true | _ => false end)
    "Signed channel state must be settled to resend settle finalize message!"%string);;
  prev_per_update_secret ← try_lib (prev_per_update_secret signed_channel);
  order ← on_app (stored db.get_order_in_filling);
  order ← try_lib (ok_or "Couldn't find order in filling"%string order);
  node_publish (PeerEvent.SendDlcMessage coordinator (TenTenOneMessage.SettleFinalize
    (TenTenOneSettleFinalize.mk OrderReason.Manual (AppOrder.id order)
      (settle_finalize_message (SignedChannel.channel_id signed_channel) prev_per_update_secret signed_channel)))).
End EmergencyKit.

(** ** A recreated position *)

Section Recreated.
Context `{DL : DecimalLib} `{BL : BitcoinLib} `{IL : IdLib} `{DLC : !DlcLib} `{ML : !DlcMessagesLib} `{CL : !AcceptedLib}.

Definition app_db (s : AppNode.t) : AppDb.t := AppState.db (AppNode.app s).

Lemma on_node_app {A} (m : NodeM A) : steps (fun s s' : AppNode.t => AppNode.app s' = AppNode.app s) (on_node m).
Proof. intros s. unfold on_node. by destruct (m _). Qed.
Lemma stored_ok {A} (m : AppResult A) (s : AppNode.t) a s' : on_app (stored m) s = (Ok a, s') ->
  m (app_db s) = (Ok a, app_db s') /\ AppState.published (AppNode.app s') = AppState.published (AppNode.app s).
Proof. unfold on_app, stored, app_db. destruct (m _) as [r d] eqn:Hm. by intros [= -> <-]. Qed.
Lemma on_node_ok {A} (m : NodeM A) s a s' : on_node m s = (Ok a, s') -> AppNode.app s' = AppNode.app s.
Proof. intros Hm. pose proof (on_node_app m s) as Happ. by rewrite Hm in Happ. Qed.
Lemma margin_and_expiry_app channel contract s a s' : margin_and_expiry channel contract s = (Ok a, s') ->
  AppNode.app s' = AppNode.app s.
Proof.
  unfold margin_and_expiry. destruct contract; try done.
  all: intros (reserve & s1 & Hr%on_node_ok & Hm)%M_bind_ok.
  all: repeat (apply M_bind_ok in Hm as (? & ? & [_ ->]%lift_ok & Hm)); by injection Hm as _ <-.
Qed.

(** A position is only made anew where there is none; it is that of the last failed
    order, at the price the order was executed at, and the trader is shown the position that is
    stored. *)
Theorem recreated_position_is_of_failed_order now coordinator config s u s' :
  recreate_position now coordinator config s = (Ok u, s') ->
  exists order price collateral expiry liquidation_price d d',
    let position := AppPosition.mk (AppOrder.leverage order) (AppOrder.quantity order) (AppOrder.contract_symbol order)
      (AppOrder.direction order) price liquidation_price AppPositionState.Open collateral expiry now now false
      (default 0 (order_known_matching_fee order)) in
    (exists d0, db.get_positions (app_db s) = (Ok [], d0) /\ db.get_last_failed_order d0 = (Ok (Some order), d)) /\
    order_execution_price order = Some price /\
    (exists stored_position, db.insert_position now position d = (Ok stored_position, d')) /\
    app_db s' = d' /\
    AppState.published (AppNode.app s') = AppState.published (AppNode.app s) ++ [EventInternal.PositionUpdateNotification position].
Proof.
  unfold recreate_position. intros (channel & s1 & Hch%on_node_ok & Hrun)%M_bind_ok.
  apply M_bind_ok in Hrun as (contract_id & s2 & [_ ->]%lift_ok & Hrun).
  apply M_bind_ok in Hrun as (positions & s2 & [Hpos Hpub1]%stored_ok & Hrun).
  apply M_bind_ok in Hrun as (v & s3 & [Hnone ->]%lift_ok & Hrun).
  apply M_bind_ok in Hrun as (order & s3 & [Horder Hpub2]%stored_ok & Hrun).
  apply M_bind_ok in Hrun as (order' & s4 & [Hsome ->]%lift_ok & Hrun).
  apply M_bind_ok in Hrun as (price & s4 & [Hprice ->]%lift_ok & Hrun).
  apply M_bind_ok in Hrun as (contract & s4 & Hc%on_node_ok & Hrun).
  apply M_bind_ok in Hrun as (contract' & s5 & [_ ->]%lift_ok & Hrun).
  apply M_bind_ok in Hrun as ([collateral expiry] & s5 & Hmargin%margin_and_expiry_app & Hrun).
  apply M_bind_ok in Hrun as (rate & s6 & [_ ->]%lift_ok & Hrun).
  apply M_bind_ok in Hrun as (liquidation_price & s6 & [_ ->]%lift_ok & Hrun). cbn zeta in Hrun.
  apply M_bind_ok in Hrun as (stored_position & s6 & [Hins Hpub3]%stored_ok & Hrun).
  apply map_err_ok, ensure_ok, bool_decide_eq_true in Hnone. apply map_err_ok, ok_or_ok in Hsome. apply map_err_ok, ok_or_ok in Hprice.
  subst order. destruct positions as [|p positions]; [|done].
  injection Hrun as _ <-. exists order', price, collateral, expiry, liquidation_price, (app_db s5), (app_db s6). cbn zeta.
  split_and!; [|exact Hprice|by eexists|done|cbn; congruence].
  exists (app_db s2). unfold app_db in *. rewrite <-Hch, Hmargin, Hc. split; [exact Hpos|exact Horder].
Qed.
End Recreated.
